(* ===== verification/_CoqProject ===== *)
-Q . S2P
Prelude.v
Fsm.v
Options.v
OmciTypes.v
Omci.v
MibDb.v
Packets.v
Types.v
Io.v
Eapol.v
Dhcp.v
DhcpServer.v
Igmp.v
Service.v
PonRes.v
AlarmSim.v
UniPort.v
UniInv.v
Get.v
Onu.v
OnuOmci.v
OnuLoop.v
OnuInv.v
OltFlows.v
OltSpec.v
OltRace.v
Olt.v
OltProps.v
OltWf.v
OltCycle.v
Api.v
ApiInfo.v
ApiProps.v
Bbr.v
Sadis.v
DmiInv.v
DmiGen.v
Dmi.v
DmiProps.v
DeviceInv.v
Config.v
Boot.v
Main.v
Events.v
Web.v
Ctl.v
CtlProps.v
Gateway.v
Rest.v
RestProps.v
RestLegacy.v
