(* ===== verification/Prelude.v ===== *)
(** * A model of BBSim, the Broadband Simulator

    BBSim emulates an optical line terminal (OLT) with its PON ports, the ONUs
    behind them and the subscribers behind the ONUs, so that VOLTHA can be
    tested without hardware.  VOLTHA talks to the simulated OLT over the openolt
    gRPC API; the OLT forwards OMCI messages, flows and packets to the ONUs over
    channels, and the ONUs answer with indications on the openolt stream.  BBR,
    a second program of the repository, plays VOLTHA against BBSim.

    ** Parts of the program and where they are modelled

    - [Options.v], [Config.v], [Boot.v]: [internal/common/options.go], the PON
      configuration with its validation and its defaults; flags, files and how
      they are merged; starting BBSim and BBR from them ([cmd/bbsim], [cmd/bbr]).
    - [Main.v]: [cmd/bbsim/bbsim.go], the servers, signals and the wait group.
    - [Events.v]: [internal/common/kafka_utils.go] and [logger.go], the events on
      Kafka and the log level.
    - [OmciTypes.v], [Omci.v], [Get.v], [MibDb.v]: [internal/common/omci], the
      OMCI messages of an ONU, the get responses, the MIB and its upload.
    - [Packets.v]: [internal/bbsim/packetHandlers], VLAN tags and the
      classification of packets, on bytes.
    - [Types.v], [AlarmSim.v]: [internal/bbsim/types] and
      [internal/bbsim/alarmsim].
    - [Eapol.v], [Dhcp.v], [DhcpServer.v], [Igmp.v]: [internal/bbsim/responders],
      against the interface of [Io.v].
    - [Service.v], [UniPort.v], [UniInv.v]: [services.go], [uni_port.go] and
      [pots_port.go] of [internal/bbsim/devices], the subscriber side of an ONU,
      and its invariant.
    - [PonRes.v]: the resource tables of [pon.go].
    - [Onu.v], [OnuOmci.v], [OnuLoop.v], [OnuInv.v]: [onu.go], the life cycle of
      an ONU, the OMCI requests it handles, its message loop and the part BBR
      runs, and the invariant all of it keeps.
    - [OltFlows.v], [OltSpec.v], [OltRace.v]: the flow tables of [olt.go], the
      abstract allocator they implement, and the calls that use them at the same
      time, one critical section after the other.
    - [Olt.v], [OltProps.v], [OltWf.v], [OltCycle.v]: [olt.go], [pon.go] and
      [nni.go], the device with its ports, message loop and openolt calls, its
      properties, what its creation builds, and disabling and enabling it.
    - [Api.v], [ApiInfo.v], [ApiProps.v]: [internal/bbsim/api], the calls and
      reports of BBSim's own API and of the legacy one.
    - [DeviceInv.v]: the steps of the whole device (the calls of VOLTHA, of the
      API and of the transceivers, and the turns of the goroutines) and the
      invariant they keep.
    - [Ctl.v], [CtlProps.v]: [internal/bbsimctl], the command line client over an
      interface, and the handlers of BBSim as its implementation.
    - [Gateway.v], [Rest.v], [RestProps.v], [RestLegacy.v]: [api/bbsim/bbsim.pb.gw.go]
      and [api/legacy/bbsim.pb.gw.go], the REST gateways in front of the two APIs,
      over the matching, routing and query parsing of the vendored
      [grpc-gateway/v2].
    - [Bbr.v]: [internal/bbr/devices], the OLT of BBR and its final validation.
    - [Sadis.v], [Web.v]: [internal/bbsim/responders/sadis] and [webserver], the
      subscriber directory and the software images, with the file server of
      [net/http] that sends them.
    - [DmiInv.v], [DmiGen.v], [Dmi.v], [DmiProps.v]: [internal/bbsim/dmiserver],
      the hardware inventory, the generators of metrics and events, the server
      and its properties.
    - [Fsm.v]: the part of the vendored [looplab/fsm] the devices rely on.

    This file holds what they share: machine integers, the outcomes of Go code,
    the state monad, channels, record update, and the tactics and hints for
    predicates an operation preserves.

    ** How Go code is written down

    A method becomes a function on the state of its object, in the monad [M S]:
    it returns a value and a new state, panics, blocks for ever or exits the
    process ([Done], [Panicked], [Blocked], [Exited]).  Go's [error] results are
    [option] or sum values; the parameters formatted into an error text are left
    out, and so is logging.  A device that is reached through a pointer (the
    PON of an ONU, the channel of the OLT, the stream) is a field of the state
    the code runs on.  Sized integers are [Z] with the conversion that wraps them
    around.  A channel is the list of its pending messages, also where the code
    makes one without a buffer: a sender hands its message over and goes on, and
    the moment the receiver takes it is left open.  A goroutine that reads it is
    a step that takes the first one, and a goroutine started by an operation is
    recorded as a task.  Maps are [gmap]s.

    Code outside [src/internal] is reached through classes: [OmciLib] and
    [MeLib] (omci-lib-go, crc32a), [Gopacket] (layers above Ethernet), the md5
    function of the EAPOL challenge, [UuidLib] (identifiers of hardware),
    [HttpLib] (forms and media types of HTTP requests).
    Theorems that need more of them say so in their hypotheses, and ask it of the
    values they are about only: that the responses of a download serialize, that
    DHCP packets on the DHCP ports decode, that the names of the hardware of one
    device have different identifiers.  Random numbers are arguments, or the class
    [Rand] where a loop draws several.

    Recursion is structural, except two loops with fuel: the carry of the IGMP
    checksum, where three rounds are enough for 32 bits, and the chunking of the
    extended MIB responses, where one round per item is enough.

    ** What is proved

    - The device: in every state that calls and goroutines can reach, in any
      order, it is still made of the ports, ONUs, UNIs and services it was
      created with, every ONU is found by its serial number (on PONs of at most
      255 ONUs), the counters are in range, the tables of a PON name its own ONUs, and a UNI is up with its
      services or down with them.
    - Starting and stopping: BBSim starts exactly when the tags of the
      subscribers fit, and gives each its tags; on SIGTERM no server is stopped
      and [main] waits for ever; events reach the Kafka producer once and in order,
      as long as it reads its input.
    - ONU: a shutdown frees exactly the resources of the ONU, a reboot brings it
      back enabled and announced, identifiers and GEM ports are exclusive on a
      PON, an image is activated only after it was downloaded, and the counters
      stay in their ranges.
    - OMCI: the response rate, MIB reset, the whole software download, what
      decides its end, activation and commit; the MIB database is complete and
      its upload answers every announced number; get responses answer the
      request; the hexadecimal framing round-trips.
    - Subscribers: services and UNIs keep channels, goroutines and protocol
      states in step; tags are allocated as configured and never over the limit;
      the EAPOL and DHCP handshakes complete, and authentication succeeds only
      after the challenge was answered.
    - OLT: for calls that run one after the other the flow tables refine an
      allocator in which a GEM port or alloc identifier has one owner per PON;
      calls at the same time keep this when they ask for different identifiers,
      and can break it when they do not; what adding and removing a flow does; restarting clears the device; a PON, or the whole device, that
      goes down and up again brings its ONUs back; created devices are well
      formed and the lookups agree.
    - API, BBR, SADIS and the client: restarting protocols touches exactly the
      services that need them, resource reports list the tables, BBR numbers ONUs
      from 1 and accepts only complete simulations, the directory serves what it
      lists, no request for an image leaves the directory of the images, and the
      commands of bbsimctl make exactly the calls of the API they are for.
    - REST: the gateway serves exactly its description: a path that means a call
      makes that call with the values of the path, whatever the query says, any
      other request is refused; a request makes at most one call of the API, and
      those that get change nothing.
    - DMI: in every reachable state the inventory is the one built from the
      transceivers (when no two names of the device have the same identifier);
      plugging out and in is a round trip; metrics are in range and one interval
      apart, and the channel keeps those it has room for; the tree searches agree
      with a traversal.
    - Packets and configuration: tags are pushed and read back, the checksum
      verifies, exactly the well formed PON configurations are accepted, and
      what a configuration that was loaded guarantees.

    Every component also has the lemmas named in the list of findings: inputs
    on which the code panics, blocks or answers other than its comments say.

    ** What is not modelled

    The decoding of YAML files and of the command lines, the routing of requests
    to the web server (gorilla/mux), JSON texts, what the file system holds, the
    layout of tables, the generated protobuf and gRPC stubs (a message is a record,
    a call a function), profiling, and the helpers of the tests.
    Delays and timers are steps that may happen; the Kafka client is what was
    handed to it, and may stop to read.  A handler runs to its end before the next one, except where a
    file says that it is split, so data races on fields that the program does
    not lock are left out. *)
From stdpp Require Export base numbers list gmap strings.
From Stdlib Require Export ZArith Lia.

#[export] Set Warnings "-notation-overridden".
Open Scope Z_scope.

(** * Machine integers *)

(** Conversions and additions of Go's sized integers.  A value of type
    [uintN] is a [Z] in [[0, 2^N)]; arithmetic that may leave the range is
    followed by the conversion that wraps it around. *)
Definition u8 (z : Z) : Z := z mod 2 ^ 8.
Definition u16 (z : Z) : Z := z mod 2 ^ 16.
Definition u32 (z : Z) : Z := z mod 2 ^ 32.
Definition u64 (z : Z) : Z := z mod 2 ^ 64.

(** Signed conversion, [int32(x)]. *)
Definition s32 (z : Z) : Z := (z + 2 ^ 31) mod 2 ^ 32 - 2 ^ 31.

(** A byte of a [[]byte]. *)
Abbreviation byteZ := Z (only parsing).

Definition is_u8 (z : Z) : Prop := 0 <= z < 2 ^ 8.
Definition is_u16 (z : Z) : Prop := 0 <= z < 2 ^ 16.
Definition is_u32 (z : Z) : Prop := 0 <= z < 2 ^ 32.

(** Big-endian codecs of [encoding/binary]. *)
Definition be16 (z : Z) : list byteZ := [u8 (z / 2 ^ 8); u8 z].
Definition be16_dec (hi lo : byteZ) : Z := hi * 2 ^ 8 + lo.

(** * Outcomes of Go code *)

(** What running a piece of Go code can do: return, hit a run-time panic
    (index out of range, nil dereference, send on a closed channel, ...),
    block for ever (send on a nil channel) or exit through [log.Fatal]. *)
Inductive outcome (A : Type) : Type :=
| Done (a : A)
| Panicked (why : string)
| Blocked (why : string)
| Exited (why : string).
Arguments Done {A} a.
Arguments Panicked {A} why.
Arguments Blocked {A} why.
Arguments Exited {A} why.

#[export] Instance outcome_ret : MRet outcome := fun A a => Done a.
#[export] Instance outcome_bind : MBind outcome := fun A B f o =>
  match o with
  | Done a => f a
  | Panicked w => Panicked w
  | Blocked w => Blocked w
  | Exited w => Exited w
  end.

(** State-passing code over a state [S]: the methods of a device. *)
Definition M (S A : Type) : Type := S -> outcome (A * S).

#[export] Instance M_ret {S} : MRet (M S) := fun A a s => Done (a, s).
#[export] Instance M_bind {S} : MBind (M S) := fun A B f m s =>
  match m s with
  | Done (a, s') => f a s'
  | Panicked w => Panicked w
  | Blocked w => Blocked w
  | Exited w => Exited w
  end.

Definition get {S : Type} : M S S := fun s => Done (s, s).
Definition gets {S A : Type} (f : S -> A) : M S A := fun s => Done (f s, s).
Definition modify {S : Type} (f : S -> S) : M S unit := fun s => Done (tt, f s).
Definition panic {S A : Type} (w : string) : M S A := fun _ => Panicked w.
Definition block {S A : Type} (w : string) : M S A := fun _ => Blocked w.
Definition exit {S A : Type} (w : string) : M S A := fun _ => Exited w.
Definition skip {S : Type} : M S unit := mret tt.

(** Run code of a component [T] held inside a larger state [S]. *)
Definition zoom {S T A : Type} (gt : S -> T) (st : T -> S -> S) (m : M T A) : M S A :=
  fun s =>
    match m (gt s) with
    | Done (a, t) => Done (a, st t s)
    | Panicked w => Panicked w
    | Blocked w => Blocked w
    | Exited w => Exited w
    end.

(** Code that does not touch the state. *)
Definition of_outcome {S A : Type} (o : outcome A) : M S A := fun s =>
  match o with
  | Done a => Done (a, s)
  | Panicked w => Panicked w
  | Blocked w => Blocked w
  | Exited w => Exited w
  end.

(** [for _, x := range l { ... }] with effects. *)
Fixpoint for_each {S A : Type} (l : list A) (body : A -> M S unit) : M S unit :=
  match l with
  | [] => skip
  | x :: l' => body x ;; for_each l' body
  end.

(** The errors Go functions return: the text of [error]. *)
Definition error := string.

Notation "'when' b 'do' m" := (if (b : bool) then m else skip)
  (at level 199, b at level 100, m at level 199, right associativity).

(** * Channels *)

(** A Go channel as seen by its users: nil, open with the messages that were
    sent and not yet received, or closed with what is still to be received.
    There is no capacity: a send on a channel without a buffer waits for the
    receiver in the program and leaves its message here. *)
Inductive chan (A : Type) : Type :=
| ChNil
| ChOpen (q : list A)
| ChClosed (q : list A).
Arguments ChNil {A}.
Arguments ChOpen {A} q.
Arguments ChClosed {A} q.

(** [ch <- x]. *)
Definition chan_send {A : Type} (x : A) (c : chan A) : outcome (chan A) :=
  match c with
  | ChNil => Blocked "send on nil channel"
  | ChOpen q => Done (ChOpen (q ++ [x]))
  | ChClosed _ => Panicked "send on closed channel"
  end.

(** [close(ch)]. *)
Definition chan_close {A : Type} (c : chan A) : outcome (chan A) :=
  match c with
  | ChNil => Panicked "close of nil channel"
  | ChOpen q => Done (ChClosed q)
  | ChClosed _ => Panicked "close of closed channel"
  end.

Definition chan_msgs {A : Type} (c : chan A) : list A :=
  match c with ChNil => [] | ChOpen q | ChClosed q => q end.

(** Lift an outcome on a part of the state to the whole state. *)
Definition lift_upd {S T : Type} (gt : S -> T) (st : T -> S -> S)
    (f : T -> outcome T) : M S unit :=
  fun s =>
    match f (gt s) with
    | Done t => Done (tt, st t s)
    | Panicked w => Panicked w
    | Blocked w => Blocked w
    | Exited w => Exited w
    end.

(** * Record update *)

(** [Setter p] updates the field read by the projection [p].  An instance is
    built from the eta expansion of the record by replacing that field. *)
Class Eta (R : Type) := eta : R -> R.
Class Setter {R A : Type} (p : R -> A) := upd : (A -> A) -> R -> R.

Ltac setter_for p :=
  match goal with
  | |- @Setter ?R ?A _ =>
      let f := fresh "f" in
      let r := fresh "r" in
      refine (fun (f : A -> A) (r : R) => _);
      let b := eval cbv beta delta [eta] in (eta r) in
      let b := (let h := head_of_term b in eval cbv beta delta [h] in b) in
      let b := eval pattern (p r) in b in
      match b with
      | ?g _ => let t := eval cbv beta in (g (f (p r))) in exact t
      end
  end
with head_of_term t :=
  match t with
  | ?g _ => head_of_term g
  | _ => t
  end.

Notation "r <| p := v |>" := (upd (p := p) (fun _ => v) r)
  (at level 1, p at level 99, v at level 99, left associativity,
   format "r  <| p  :=  v |>").
Notation "r <| p ::= f |>" := (upd (p := p) f r)
  (at level 1, p at level 99, f at level 99, left associativity,
   format "r  <| p  ::=  f |>").

(** * Proof automation *)

(** Unfold the monad's plumbing around the code of an operation. *)
Ltac mred :=
  cbv beta iota delta [mbind M_bind mret M_ret outcome_bind outcome_ret get gets
    modify skip panic block exit zoom lift_upd].
Tactic Notation "mred" "in" hyp(H) :=
  cbv beta iota delta [mbind M_bind mret M_ret outcome_bind outcome_ret get gets
    modify skip panic block exit zoom lift_upd] in H.

(** Invert a run that returned: split the sequence and name the intermediate
    results. *)
Lemma bind_Done_inv {S A B : Type} (m : M S A) (k : A -> M S B) s b s' :
  (m ≫= k) s = Done (b, s') ->
  exists a s1, m s = Done (a, s1) /\ k a s1 = Done (b, s').
Proof.
  unfold mbind, M_bind. destruct (m s) as [[a s1]| | |]; naive_solver.
Qed.

Lemma bind_Done {S A B : Type} (m : M S A) (k : A -> M S B) s a s1 :
  m s = Done (a, s1) -> (m ≫= k) s = k a s1.
Proof. unfold mbind, M_bind. by intros ->. Qed.

Lemma for_each_app {S A : Type} (l1 l2 : list A) (body : A -> M S unit) s :
  for_each (l1 ++ l2) body s = (for_each l1 body ;; for_each l2 body) s.
Proof.
  revert s. induction l1 as [|x l1 IH]; intros s; [done|].
  cbn [app for_each]. unfold mbind, M_bind.
  by destruct (body x s) as [[[] s1]| | |].
Qed.

(** An invariant kept by the body is kept by the loop. *)
Lemma for_each_inv {S A : Type} (P : S -> Prop) (l : list A) (body : A -> M S unit) s s' :
  (forall x t t', x ∈ l -> P t -> body x t = Done (tt, t') -> P t') ->
  P s -> for_each l body s = Done (tt, s') -> P s'.
Proof.
  revert s. induction l as [|x l IH]; intros s Hb HP Hr.
  - unfold for_each, skip, mret, M_ret in Hr. by simplify_eq.
  - cbn [for_each] in Hr. apply bind_Done_inv in Hr as ([] & s1 & H1 & H2).
    apply (IH s1); [| |done].
    + intros y t t' Hy. apply Hb. by right.
    + eapply Hb; [by left|done|done].
Qed.

(** * Preservation of state predicates *)

(** [preserves P m]: when [m] returns from a state that satisfies [P], the
    state it leaves does too. *)
Definition preserves {S A : Type} (P : S -> Prop) (m : M S A) : Prop :=
  forall s a s', P s -> m s = Done (a, s') -> P s'.

(** The lemmas that take the code of an operation apart; the components add
    the ones about their own operations. *)
Create HintDb preserve.

Section Preserves.
  Context {S : Type} (P : S -> Prop).

Lemma preserves_ret {A : Type} (a : A) : preserves P (mret a).
Proof. intros s b s' Hs [= <- <-]. done. Qed.

Lemma preserves_skip : preserves P skip.
Proof. apply preserves_ret. Qed.

Lemma preserves_get : preserves P get.
Proof. intros s b s' Hs [= <- <-]. done. Qed.

Lemma preserves_gets {A : Type} (f : S -> A) : preserves P (gets f).
Proof. intros s b s' Hs [= <- <-]. done. Qed.

Lemma preserves_panic {A : Type} w : preserves P (@panic S A w).
Proof. intros s b s' Hs [=]. Qed.

Lemma preserves_block {A : Type} w : preserves P (@block S A w).
Proof. intros s b s' Hs [=]. Qed.

Lemma preserves_exit {A : Type} w : preserves P (@exit S A w).
Proof. intros s b s' Hs [=]. Qed.

Lemma preserves_of_outcome {A : Type} (o : outcome A) : preserves P (@of_outcome S A o).
Proof. intros s a s' Hs. destruct o; [|done..]. by intros [= <- <-]. Qed.

Lemma preserves_bind {A B : Type} (m : M S A) (k : A -> M S B) :
  preserves P m -> (forall a, preserves P (k a)) -> preserves P (m ≫= k).
Proof.
  intros Hm Hk s b s' Hs Hr. apply bind_Done_inv in Hr as (a & s1 & H1 & H2).
  eapply Hk; [|done]. by eapply Hm.
Qed.

(** Code that reads the state may use what holds of it. *)
Lemma preserves_with_state {B : Type} (k : S -> M S B) :
  (forall s, P s -> preserves P (k s)) -> preserves P (get ≫= k).
Proof. intros Hk s b s' Hs Hr. by eapply (Hk s Hs s b s' Hs). Qed.

Lemma preserves_modify f : (forall s, P s -> P (f s)) -> preserves P (modify f).
Proof. intros Hf s a s' Hs [= <- <-]. auto. Qed.

Lemma preserves_if {A : Type} (b : bool) (m n : M S A) :
  preserves P m -> preserves P n -> preserves P (if b then m else n).
Proof. by destruct b. Qed.

Lemma preserves_decide {A : Type} (Q : Prop) `{Decision Q} (m n : M S A) :
  preserves P m -> preserves P n -> preserves P (if decide Q then m else n).
Proof. by case_decide. Qed.

Lemma preserves_for_each {A : Type} (l : list A) (body : A -> M S unit) :
  (forall x, preserves P (body x)) -> preserves P (for_each l body).
Proof.
  intros Hb s [] s' Hs Hr. eapply (for_each_inv P l body); [|exact Hs|exact Hr].
  intros x t t' _ Ht. by apply Hb.
Qed.

Lemma preserves_lift {T : Type} (gt : S -> T) (st : T -> S -> S) f :
  (forall s t, P s -> f (gt s) = Done t -> P (st t s)) -> preserves P (lift_upd gt st f).
Proof.
  intros Hf s a s' Hs. unfold lift_upd. destruct (f (gt s)) eqn:E; [|done..].
  intros [= <- <-]. eauto.
Qed.
End Preserves.

#[export] Hint Resolve preserves_ret preserves_skip preserves_get preserves_gets preserves_panic
  preserves_block preserves_exit preserves_of_outcome : preserve.

(** Take an operation apart and discharge the pieces. *)
Ltac preserve := intros; repeat (first
  [ assumption
  | match goal with
    | |- preserves _ (_ ≫= _) => apply preserves_bind; [|intros]
    | |- preserves _ (if decide _ then _ else _) => apply preserves_decide
    | |- preserves _ (match ?x with _ => _ end) => destruct x
    end
  | solve [auto 2 with preserve] ]).

(** * Lists *)

Lemma length_bind_const {A B : Type} (f : A -> list B) (k : nat) (l : list A) :
  (forall x, length (f x) = k) -> length (l ≫= f) = (k * length l)%nat.
Proof.
  intros Hf. induction l as [|x l IH]; cbn; [lia|].
  unfold mbind, list_bind in IH |- *. rewrite length_app, Hf. lia.
Qed.

Lemma Forall_bind_intro {A B : Type} (P : B -> Prop) (f : A -> list B) (l : list A) :
  (forall x, x ∈ l -> Forall P (f x)) -> Forall P (l ≫= f).
Proof.
  intros Hf. apply Forall_forall. intros y Hy.
  apply list_elem_of_bind in Hy as (x & Hy & Hx).
  specialize (Hf x Hx). rewrite Forall_forall in Hf. auto.
Qed.
