(* ===== verification/Fsm.v ===== *)
(** * Finite state machines of the devices

    Every device of BBSim keeps its life cycle in a [looplab/fsm] machine.
    This file models the part of the vendored package
    [vendor/github.com/looplab/fsm/fsm.go] the devices use: the transition
    table built by [NewFSM], and [Event] with its before/enter/after callbacks
    and the errors it returns.  No callback of BBSim cancels an event or makes
    it asynchronous, so those two error values do not occur.  The generic
    reachability lemmas at the end are applied by the devices to their own
    tables. *)
From S2P Require Import Prelude.
Open Scope Z_scope.
Open Scope string_scope.

Record EventDesc := { Name : string; Src : list string; Dst : string }.

Inductive fsm_error :=
| InvalidEventError (event state : string)
| UnknownEventError (event : string)
| NoTransitionError.

#[export] Instance fsm_error_eq_dec : EqDecision fsm_error.
Proof. solve_decision. Defined.

(** The [transitions] map of [NewFSM]: a later assignment to the same key
    replaces an earlier one. *)
Fixpoint transitions (events : list EventDesc) (ev src : string) : option string :=
  match events with
  | [] => None
  | d :: ds =>
      match transitions ds ev src with
      | Some dst => Some dst
      | None =>
          if decide (Name d = ev /\ src ∈ Src d) then Some (Dst d) else None
      end
  end.

(** Whether some transition carries the event name (the loop of [Event] that
    tells an inappropriate event from an unknown one). *)
Definition event_exists (events : list EventDesc) (ev : string) : bool :=
  existsb (fun d => bool_decide (Name d = ev /\ Src d <> [])) events.

(** A machine attached to a device state [S]: its table, where the current
    state lives and the callbacks that were registered. *)
Record FSM (S : Type) := {
  fsm_events : list EventDesc;
  fsm_current : S -> string;
  fsm_set : string -> S -> S;
  fsm_before : string -> M S unit;
  fsm_enter : string -> string -> M S unit;
  fsm_after : string -> M S unit
}.
Arguments fsm_events {S} _.
Arguments fsm_current {S} _ _.
Arguments fsm_set {S} _ _ _.
Arguments fsm_before {S} _ _.
Arguments fsm_enter {S} _ _ _.
Arguments fsm_after {S} _ _.

Definition no_before {S : Type} (_ : string) : M S unit := skip.
Definition no_enter {S : Type} (_ _ : string) : M S unit := skip.
Definition no_after {S : Type} (_ : string) : M S unit := skip.

(** [f.Event(ev)]: the lookup, the callbacks in the order
    before / (state change) / enter / after, and the returned error. *)
Definition Event {S : Type} (f : FSM S) (ev : string) : M S (option fsm_error) :=
  cur ← gets (fsm_current f);
  match transitions (fsm_events f) ev cur with
  | None =>
      if event_exists (fsm_events f) ev
      then mret (Some (InvalidEventError ev cur))
      else mret (Some (UnknownEventError ev))
  | Some dst =>
      fsm_before f ev ;;
      if decide (cur = dst) then
        fsm_after f ev ;; mret (Some NoTransitionError)
      else
        modify (fsm_set f dst) ;;
        fsm_enter f cur dst ;;
        fsm_after f ev ;;
        mret None
  end.

(** [f.Current()], [f.Is(state)] and [f.SetState(state)]. *)
Definition Current {S : Type} (f : FSM S) : M S string := gets (fsm_current f).
Definition Is {S : Type} (f : FSM S) (st : string) : M S bool :=
  gets (fun s => bool_decide (fsm_current f s = st)).
Definition SetState {S : Type} (f : FSM S) (st : string) : M S unit :=
  modify (fsm_set f st).

(** A machine that is only a state, with no callback that acts (the OperState
    machines only log). *)
Definition plain (events : list EventDesc) : FSM string := {|
  fsm_events := events;
  fsm_current := id;
  fsm_set := fun st _ => st;
  fsm_before := no_before;
  fsm_enter := no_enter;
  fsm_after := no_after |}.

(** * Facts about tables *)

Definition entries (events : list EventDesc) : list (string * string * string) :=
  events ≫= (fun d => (fun s => (Name d, s, Dst d)) <$> Src d).

Lemma transitions_entry events ev src dst :
  transitions events ev src = Some dst -> (ev, src, dst) ∈ entries events.
Proof.
  induction events as [|d ds IH]; cbn; [done|].
  intros H. apply elem_of_app.
  destruct (transitions ds ev src) as [x|] eqn:E.
  - right. apply IH. congruence.
  - left. case_decide as Hd; [|done]. destruct Hd as [<- Hin]. simplify_eq.
    apply list_elem_of_fmap. eauto.
Qed.

Lemma transitions_Some_iff events ev src :
  is_Some (transitions events ev src) <-> exists dst, (ev, src, dst) ∈ entries events.
Proof.
  split.
  - intros [dst H]. exists dst. by apply transitions_entry.
  - induction events as [|d ds IH]; cbn; intros [dst Hin].
    + by apply elem_of_nil in Hin.
    + apply elem_of_app in Hin as [Hin|Hin].
      * apply list_elem_of_fmap in Hin as (s & Heq & Hs). simplify_eq.
        destruct (transitions ds _ _); [eauto|].
        rewrite decide_True by done. eauto.
      * destruct (IH (ex_intro _ dst Hin)) as [x ->]. eauto.
Qed.

(** The row of an event: the table sends the states of [l] to [dst] and no other
    state anywhere; the two conditions are checked by computation. *)
Lemma transitions_row events ev l dst st :
  forallb (fun src => bool_decide (transitions events ev src = Some dst)) l = true ->
  forallb (fun e => match e with (e, src, _) =>
    implb (bool_decide (e = ev)) (bool_decide (src ∈ l)) end) (entries events) = true ->
  transitions events ev st = if bool_decide (st ∈ l) then Some dst else None.
Proof.
  rewrite !forallb_forall. intros Hl He. case_bool_decide as Hs.
  - apply list_elem_of_In, Hl in Hs. by apply bool_decide_eq_true in Hs.
  - destruct (transitions events ev st) as [d|] eqn:E; [|done]. exfalso. apply Hs.
    apply transitions_entry, list_elem_of_In, He in E. cbv beta iota in E.
    rewrite bool_decide_eq_true_2 in E by done. by apply bool_decide_eq_true in E.
Qed.

(** One transition of a table, and the states a table can reach. *)
Definition fsm_step (events : list EventDesc) (src dst : string) : Prop :=
  exists ev, transitions events ev src = Some dst.

Definition fsm_reachable (events : list EventDesc) (init st : string) : Prop :=
  rtc (fsm_step events) init st.

(** A list of states closed under the rows of a table: decidable, so a
    device checks it on its own table by computation. *)
Definition closedb (l : list string) (events : list EventDesc) : bool :=
  forallb (fun e => match e with (_, s, d) =>
    implb (bool_decide (s ∈ l)) (bool_decide (d ∈ l)) end) (entries events).

Lemma closedb_step l events src dst :
  closedb l events = true -> fsm_step events src dst -> src ∈ l -> dst ∈ l.
Proof.
  unfold closedb. rewrite forallb_forall. intros Hc [ev Ht] Hs.
  apply transitions_entry in Ht. apply list_elem_of_In in Ht.
  specialize (Hc _ Ht). cbn in Hc.
  rewrite bool_decide_eq_true_2 in Hc by done. cbn in Hc.
  by apply bool_decide_eq_true in Hc.
Qed.

Lemma closedb_reachable l events init st :
  closedb l events = true -> init ∈ l -> fsm_reachable events init st -> st ∈ l.
Proof.
  intros Hc Hi Hr. induction Hr; [done|]. eauto using closedb_step.
Qed.

(** Drop from a table every row that enters [via]; a state that is not
    reachable any more was only reachable through [via]. *)
Definition avoiding (via : string) (events : list EventDesc) : list (string * string * string) :=
  filter (fun e => e.2 <> via) (entries events).

Definition step_avoiding (via : string) (events : list EventDesc) (src dst : string) : Prop :=
  fsm_step events src dst /\ dst <> via.

Definition avoid_closedb (l : list string) (via : string) (events : list EventDesc) : bool :=
  forallb (fun e => match e with (_, s, d) =>
    implb (bool_decide (s ∈ l)) (bool_decide (d ∈ l)) end) (avoiding via events).

Lemma avoid_closedb_sound l via events init st :
  avoid_closedb l via events = true -> init ∈ l ->
  rtc (step_avoiding via events) init st -> st ∈ l.
Proof.
  intros Hc Hi Hr. induction Hr as [|x y z [[ev Ht] Hne] _ IH]; [done|].
  apply IH. unfold avoid_closedb in Hc. rewrite forallb_forall in Hc.
  assert (In (ev, x, y) (avoiding via events)) as Hin.
  { apply list_elem_of_In, list_elem_of_filter. split; [done|].
    by apply transitions_entry. }
  specialize (Hc _ Hin). cbn in Hc.
  rewrite bool_decide_eq_true_2 in Hc by done. cbn in Hc.
  by apply bool_decide_eq_true in Hc.
Qed.

(** * Facts about [Event] *)

Section EventFacts.
  Context {S : Type} (f : FSM S).

Lemma Event_rejected ev s :
  transitions (fsm_events f) ev (fsm_current f s) = None ->
  exists e, Event f ev s = Done (Some e, s).
Proof.
  intros H. unfold Event. mred. rewrite H.
  destruct (event_exists _ _); eauto.
Qed.

Lemma Event_ok ev s dst :
  transitions (fsm_events f) ev (fsm_current f s) = Some dst ->
  fsm_current f s <> dst ->
  Event f ev s =
    (fsm_before f ev ;; modify (fsm_set f dst) ;;
     fsm_enter f (fsm_current f s) dst ;; fsm_after f ev ;; mret None) s.
Proof.
  intros H Hne. unfold Event. mred. rewrite H.
  rewrite decide_False by done. done.
Qed.

(** A before-callback that never returns keeps the event, and the state. *)
Lemma Event_before_blocked ev s dst w :
  transitions (fsm_events f) ev (fsm_current f s) = Some dst ->
  fsm_before f ev s = Blocked w -> Event f ev s = Blocked w.
Proof. intros H Hb. unfold Event. mred. rewrite H, Hb. done. Qed.

End EventFacts.

Lemma plain_Event_ok events ev cur dst :
  transitions events ev cur = Some dst -> cur <> dst ->
  Event (plain events) ev cur = Done (None, dst).
Proof. intros H Hne. by erewrite Event_ok. Qed.

(** A predicate kept by the callbacks and by the change of state is kept by an
    event. *)
Lemma preserves_Event_callbacks {S : Type} (f : FSM S) (P : S -> Prop) ev :
  preserves P (fsm_before f ev) -> (forall src dst, preserves P (fsm_enter f src dst)) ->
  preserves P (fsm_after f ev) -> (forall x s, P s -> P (fsm_set f x s)) ->
  preserves P (Event f ev).
Proof.
  intros Hb He Ha Hs. pose proof (fun x => preserves_modify P (fsm_set f x) (Hs x)).
  unfold Event. preserve.
Qed.

(** The same when the predicate only holds again once the new state was
    entered. *)
Lemma preserves_Event_enter {S : Type} (f : FSM S) (P : S -> Prop) ev :
  fsm_before f ev = skip -> preserves P (fsm_after f ev) ->
  (forall s dst s', P s -> transitions (fsm_events f) ev (fsm_current f s) = Some dst -> fsm_current f s <> dst ->
     fsm_enter f (fsm_current f s) dst (fsm_set f dst s) = Done (tt, s') -> P s') ->
  preserves P (Event f ev).
Proof.
  intros Hb Ha He s r s' Hs Hr. destruct (transitions (fsm_events f) ev (fsm_current f s)) as [dst|] eqn:Ht.
  - unfold Event in Hr. mred in Hr. rewrite Ht, Hb in Hr. unfold skip, mret, M_ret in Hr. cbv beta in Hr.
    case_decide as Heq.
    + destruct (fsm_after f ev s) as [[[] t]| | |] eqn:E; [|done..]. simplify_eq. by eapply Ha.
    + destruct (fsm_enter f _ dst _) as [[[] t]| | |] eqn:E; [|done..].
      destruct (fsm_after f ev t) as [[[] t']| | |] eqn:E'; [|done..]. simplify_eq. eapply Ha; [|done]. by eapply He.
  - destruct (Event_rejected f ev s Ht) as [e He']. congruence.
Qed.
