(* ===== verification/Options.v ===== *)
(** * Configuration ([internal/common/options.go])

    The parts of the configuration the devices are built from: tag
    allocation, PON technologies, the default options, the resource ranges of
    the PON ports, their defaults and their validation.  Reading YAML files
    and command-line flags is left out: the values they produce are arguments
    here. *)
From S2P Require Import Prelude.
Open Scope Z_scope.
Open Scope string_scope.

(** Source: internal/common/options.go, [tagAllocationValues]. *)
Definition tagAllocationValues : list string := ["unknown"; "shared"; "unique"].

(** Source: internal/common/options.go, [TagAllocation]. *)
Definition TagAllocation := Z.

(** Source: internal/common/options.go, [TagAllocationShared]. *)
Definition TagAllocationShared : TagAllocation := 1.
Definition TagAllocationUnique : TagAllocation := 2.

(** Source: internal/common/options.go, [TagAllocation.String].
    Indexing outside the table panics. *)
Definition TagAllocation_String (t : TagAllocation) : outcome string :=
  if decide (t < 0) then Panicked "index out of range" else
  match tagAllocationValues !! Z.to_nat t with
  | Some s => Done s
  | None => Panicked "index out of range"
  end.

(** The index of the first element satisfying [P] (a [for i, v := range]). *)
Fixpoint index_of (P : string -> bool) (i : Z) (l : list string) : option Z :=
  match l with
  | [] => None
  | x :: l' => if P x then Some i else index_of P (i + 1) l'
  end.

(** [strings.TrimSpace] on the ASCII white space characters. *)
Definition is_space (c : Ascii.ascii) : bool :=
  let n := Ascii.N_of_ascii c in
  bool_decide (n = 32 \/ (9 <= n /\ n <= 13))%N.

Fixpoint trim_left (l : list Ascii.ascii) : list Ascii.ascii :=
  match l with
  | [] => []
  | c :: l' => if is_space c then trim_left l' else l
  end.

Definition TrimSpace (s : string) : string :=
  String.string_of_list_ascii
    (rev (trim_left (rev (trim_left (String.list_ascii_of_string s))))).

(** Source: internal/common/options.go, [tagAllocationFromString]. *)
Definition tagAllocationFromString (s : string) : TagAllocation * option error :=
  match index_of (fun v => bool_decide (v = TrimSpace s)) 0 tagAllocationValues with
  | Some i => (i, None)
  | None => (0, Some (s ++ "-is-not-a-valid-tag-allocation"))
  end.

(** Source: internal/common/options.go, [IdRange]. *)
Record IdRange := { StartId : Z; EndId : Z }.

(** Source: internal/common/options.go, [PonTechnology]. *)
Definition PonTechnology := Z.

(** Source: internal/common/options.go, [ponTechnologyValues]. *)
Definition ponTechnologyValues : list string := ["GPON"; "XGS-PON"].
Definition GPON : PonTechnology := 0.
Definition XGSPON : PonTechnology := 1.

(** Source: internal/common/options.go, [PonTechnologyFromString]. *)
Definition PonTechnologyFromString (s : string) : PonTechnology * option error :=
  match index_of (fun v => bool_decide (v = s)) 0 ponTechnologyValues with
  | Some i => (i, None)
  | None => (-1, Some (s ++ "-is-not-a-valid-pon-technology"))
  end.

(** Source: internal/common/options.go, [defaultOnuIdStart]. *)
Definition defaultOnuIdStart : Z := 1.
Definition defaultAllocIdStart : Z := 1024.
Definition defaultGemPortIdPerAllocId : Z := 8.
Definition defaultGemportIdStart : Z := 1024.

(** Source: internal/common/options.go, [PonRangeConfig]. *)
Record PonRangeConfig := {
  PonRange : IdRange;
  Technology : string;
  OnuRange : IdRange;
  AllocIdRange : IdRange;
  GemportRange : IdRange
}.

(** Source: internal/common/options.go, [PonPortsConfig]. *)
Record PonPortsConfig := { Number : Z; Ranges : list PonRangeConfig }.

(** Whether a range of the configuration names the PON port [id]. *)
Definition covers (id : Z) (r : PonRangeConfig) : bool :=
  bool_decide (StartId (PonRange r) <= id /\ id <= EndId (PonRange r)).

Definition find_first {A : Type} (P : A -> bool) (l : list A) : option A :=
  head (List.filter P l).

(** Source: internal/common/options.go, [GetPonConfigById]. *)
Definition GetPonConfigById (PonsConfig : option PonPortsConfig) (id : Z)
    : error + PonRangeConfig :=
  match PonsConfig with
  | None => inl "pons-config-nil"
  | Some pons =>
      match find_first (covers id) (Ranges pons) with
      | Some r => inr r
      | None => inl "pon-config-for-id-not-found"
      end
  end.

(** Source: internal/common/options.go, [OltConfig]. *)
Record OltConfig := {
  cfg_Model : string; cfg_Vendor : string; cfg_HardwareVersion : string; cfg_FirmwareVersion : string;
  cfg_DeviceId : string; cfg_DeviceSerialNumber : string;
  PonPorts : Z; NniPorts : Z; NniSpeed : Z; OnusPonPort : Z; OltID : Z; OltRebootDelay : Z; PortStatsInterval : Z;
  OmciResponseRate : Z; UniPorts : Z; PotsPorts : Z; NniDhcpTrapVid : Z
}.

(** Source: internal/common/options.go:448-465, [GetDefaultOps]. *)
Definition default_OltConfig : OltConfig := {|
  cfg_Model := "asfvolt16"; cfg_Vendor := "BBSim"; cfg_HardwareVersion := "emulated"; cfg_FirmwareVersion := "";
  cfg_DeviceId := ""; cfg_DeviceSerialNumber := "BBSM00000001";
  PonPorts := 1; NniPorts := 1; NniSpeed := 10000; OnusPonPort := 1; OltID := 0; OltRebootDelay := 60;
  PortStatsInterval := 20; OmciResponseRate := 10; UniPorts := 4; PotsPorts := 0; NniDhcpTrapVid := 0 |}.

(** Source: internal/common/options.go, [getDefaultPonsConfig].
    [nservices] is [len(Services)], [None] standing for a nil slice. *)
Definition getDefaultPonsConfig (Config : option OltConfig) (nservices : option Z)
    : error + PonPortsConfig :=
  match Config, nservices with
  | None, _ => inl "Config is nil"
  | Some _, None => inl "Services is nil"
  | Some c, Some n =>
      let allocIdPerOnu := u32 (UniPorts c * u32 n) in
      inr {| Number := PonPorts c;
             Ranges := [
               {| PonRange := {| StartId := 0; EndId := u32 (PonPorts c - 1) |};
                  Technology := "XGS-PON";
                  OnuRange := {| StartId := defaultOnuIdStart;
                                 EndId := u32 (defaultOnuIdStart + (OnusPonPort c - 1)) |};
                  AllocIdRange := {| StartId := defaultAllocIdStart;
                                     EndId := u32 (defaultAllocIdStart + OnusPonPort c * allocIdPerOnu) |};
                  GemportRange := {| StartId := defaultGemportIdStart;
                                     EndId := u32 (defaultGemportIdStart +
                                       OnusPonPort c * allocIdPerOnu * defaultGemPortIdPerAllocId) |} |}] |}
  end.

(** Source: internal/common/options.go:571-580, [validatePonsConfig] (the loop
    that records the ports a range defines).  A round either stops or marks one
    more port, so [Number + 1] rounds are enough. *)
Fixpoint mark_ports (fuel : nat) (number p endId : Z) (defined : list Z)
    : error + list Z :=
  match fuel with
  | O => inl "out-of-fuel"
  | S fuel' =>
      if decide (p <= endId) then
        if decide (number - 1 < p) then inl "pon-port-in-range-but-max-is" else
        let n := defined !!! Z.to_nat p + 1 in
        if decide (1 < n) then inl "pon-port-has-duplicate-definition-in-range" else
        mark_ports fuel' number (p + 1) endId (<[Z.to_nat p := n]> defined)
      else inr defined
  end.

(** Source: internal/common/options.go:560-592, [validatePonsConfig] (the body
    of the loop over the ranges). *)
Definition validate_range (number : Z) (r : PonRangeConfig) (defined : list Z)
    : error + list Z :=
  match PonTechnologyFromString (Technology r) with
  | (_, Some e) => inl e
  | (_, None) =>
      if decide (EndId (PonRange r) < StartId (PonRange r)) then
        inl "invalid-pon-ports-limits-in-range" else
      match mark_ports (Z.to_nat number + 1) number (StartId (PonRange r))
              (EndId (PonRange r)) defined with
      | inl e => inl e
      | inr defined' =>
          if decide (EndId (OnuRange r) < StartId (OnuRange r)) then
            inl "invalid-onus-limits-in-range" else
          if decide (EndId (AllocIdRange r) < StartId (AllocIdRange r)) then
            inl "invalid-allocid-limits-in-range" else
          if decide (EndId (GemportRange r) < StartId (GemportRange r)) then
            inl "invalid-gemport-limits-in-range" else
          inr defined'
      end
  end.

Fixpoint validate_ranges (number : Z) (rs : list PonRangeConfig) (defined : list Z)
    : error + list Z :=
  match rs with
  | [] => inr defined
  | r :: rs' =>
      match validate_range number r defined with
      | inl e => inl e
      | inr defined' => validate_ranges number rs' defined'
      end
  end.

(** Source: internal/common/options.go, [validatePonsConfig]. *)
Definition validatePonsConfig (pons : PonPortsConfig) : option error :=
  if decide (Number pons = 0) then Some "no-pon-ports" else
  match validate_ranges (Number pons) (Ranges pons)
          (replicate (Z.to_nat (Number pons)) 0) with
  | inl e => Some e
  | inr defined =>
      if decide (Exists (fun n => n < 1) defined)
      then Some "pon-port-is-not-defined-in-ranges" else None
  end.

(** * Correctness of the validation *)

(** The declarative reading of a valid configuration. *)
Definition range_ok (r : PonRangeConfig) : Prop :=
  snd (PonTechnologyFromString (Technology r)) = None /\
  StartId (PonRange r) <= EndId (PonRange r) /\
  StartId (OnuRange r) <= EndId (OnuRange r) /\
  StartId (AllocIdRange r) <= EndId (AllocIdRange r) /\
  StartId (GemportRange r) <= EndId (GemportRange r).

Definition cover_count (rs : list PonRangeConfig) (id : Z) : Z :=
  Z.of_nat (length (List.filter (covers id) rs)).

Definition pons_wf (pons : PonPortsConfig) : Prop :=
  Number pons <> 0 /\
  Forall range_ok (Ranges pons) /\
  Forall (fun r => EndId (PonRange r) < Number pons) (Ranges pons) /\
  forall id, 0 <= id < Number pons -> cover_count (Ranges pons) id = 1.

(** The values a [PonPortsConfig] can hold: its fields are [uint32]. *)
Definition pons_typed (pons : PonPortsConfig) : Prop :=
  0 <= Number pons /\ Forall (fun r => 0 <= StartId (PonRange r)) (Ranges pons).

Lemma cover_count_app rs1 rs2 id :
  cover_count (rs1 ++ rs2) id = cover_count rs1 id + cover_count rs2 id.
Proof. unfold cover_count. rewrite List.filter_app, length_app. lia. Qed.

Lemma cover_count_one r id :
  cover_count [r] id = if covers id r then 1 else 0.
Proof. unfold cover_count. cbn. by destruct (covers id r). Qed.

Lemma cover_count_nonneg rs id : 0 <= cover_count rs id.
Proof. unfold cover_count. lia. Qed.

(** [defined] holds, for every port, how many of [rs] name it. *)
Definition counts (number : Z) (rs : list PonRangeConfig) (d : list Z) : Prop :=
  length d = Z.to_nat number /\
  forall i, 0 <= i < number -> d !!! Z.to_nat i = cover_count rs i.

Section MarkPorts.
  Context (number : Z) (Hnum : 0 <= number).

Lemma mark_ports_ok fuel p e d :
  0 <= p -> length d = Z.to_nat number -> number - p < Z.of_nat fuel ->
  (0 < fuel)%nat ->
  (forall q, p <= q <= e -> q < number /\ d !!! Z.to_nat q = 0) ->
  exists d', mark_ports fuel number p e d = inr d' /\ length d' = length d /\
    forall i, 0 <= i < number ->
      d' !!! Z.to_nat i = d !!! Z.to_nat i + (if decide (p <= i <= e) then 1 else 0).
Proof.
  revert p d. induction fuel as [|fuel IH]; intros p d Hp Hlen Hf H0 Hall; [lia|].
  cbn. destruct (decide (p <= e)) as [Hpe|Hpe].
  2: { exists d. split_and!; [done..|]. intros i Hi. rewrite decide_False by lia. lia. }
  destruct (Hall p ltac:(lia)) as [Hpn Hz].
  rewrite decide_False by lia. rewrite Hz. cbn. rewrite decide_False by lia.
  destruct (IH (p + 1) (<[Z.to_nat p:=1]> d)) as (d' & Hm & Hl & Hd').
  - lia.
  - by rewrite length_insert.
  - lia.
  - lia.
  - intros q Hq. destruct (Hall q ltac:(lia)) as [Hqn Hqz]. split; [done|].
    rewrite list_lookup_total_insert_ne by lia. done.
  - exists d'. rewrite length_insert in Hl. split_and!; [done..|].
    intros i Hi. rewrite Hd' by done.
    destruct (decide (i = p)) as [->|Hne].
    + rewrite list_lookup_total_insert_eq by lia.
      rewrite Hz, decide_False, decide_True by lia. lia.
    + rewrite list_lookup_total_insert_ne by lia.
      repeat case_decide; lia.
Qed.

Lemma mark_ports_inv fuel p e d d' :
  0 <= p -> length d = Z.to_nat number ->
  (forall i, 0 <= i < number -> 0 <= d !!! Z.to_nat i) ->
  mark_ports fuel number p e d = inr d' ->
  forall q, p <= q <= e -> q < number /\ d !!! Z.to_nat q = 0.
Proof.
  revert p d. induction fuel as [|fuel IH]; intros p d Hp Hlen Hpos Hm q Hq; [done|].
  cbn in Hm. rewrite decide_True in Hm by lia.
  case_decide as Hmax; [done|]. case_decide as Hdup; [done|].
  assert (d !!! Z.to_nat p = 0) as Hz by (specialize (Hpos p); lia).
  destruct (decide (q = p)) as [->|Hne]; [lia|].
  destruct (IH (p + 1) (<[Z.to_nat p:=d !!! Z.to_nat p + 1]> d)) with (q := q) as [Hqn Hqz];
    [lia|by rewrite length_insert| |done|lia|].
  - intros i Hi. destruct (decide (i = p)) as [->|].
    + rewrite list_lookup_total_insert_eq by lia. lia.
    + rewrite list_lookup_total_insert_ne by lia. auto.
  - rewrite list_lookup_total_insert_ne in Hqz by lia. done.
Qed.

Lemma validate_range_step done_ r d d' :
  0 <= StartId (PonRange r) -> counts number done_ d ->
  validate_range number r d = inr d' ->
  range_ok r /\ EndId (PonRange r) < number /\
  (forall q, covers q r -> cover_count done_ q = 0) /\
  counts number (done_ ++ [r]) d'.
Proof.
  intros Hs [Hlen Hc] Hv. unfold validate_range in Hv.
  destruct (PonTechnologyFromString (Technology r)) as [t [e|]] eqn:Ht; [done|].
  case_decide as Hlim; [done|].
  destruct (mark_ports _ _ _ _ _) as [e|d1] eqn:Hm; [done|].
  repeat (case_decide; [done|]). simplify_eq.
  assert (forall i, 0 <= i < number -> 0 <= d !!! Z.to_nat i) as Hpos.
  { intros i Hi. rewrite Hc by done. apply cover_count_nonneg. }
  pose proof (mark_ports_inv _ _ _ _ _ Hs Hlen Hpos Hm) as Hall.
  destruct (mark_ports_ok (Z.to_nat number + 1) (StartId (PonRange r))
              (EndId (PonRange r)) d) as (d2 & Hm2 & Hl2 & Hd2); [lia..|done|].
  rewrite Hm in Hm2. simplify_eq.
  split_and!.
  - unfold range_ok. rewrite Ht. cbn. split_and!; [done|lia..].
  - destruct (Hall (EndId (PonRange r))); lia.
  - intros q Hq%bool_decide_unpack. destruct (Hall q) as [? Hz]; [lia|].
    rewrite <- Hc by lia. done.
  - split; [congruence|]. intros i Hi.
    rewrite Hd2, Hc, cover_count_app, cover_count_one by done.
    unfold covers. f_equal. case_decide; case_bool_decide; lia.
Qed.

Lemma validate_range_complete done_ r d :
  0 <= StartId (PonRange r) -> counts number done_ d -> range_ok r ->
  EndId (PonRange r) < number -> (forall q, covers q r -> cover_count done_ q = 0) ->
  exists d', validate_range number r d = inr d'.
Proof.
  intros Hs [Hlen Hc] (Ht & Hp & Ho & Ha & Hg) He Hz. unfold validate_range.
  destruct (PonTechnologyFromString (Technology r)) as [t o]. cbn in Ht. subst o.
  rewrite decide_False by lia.
  destruct (mark_ports_ok (Z.to_nat number + 1) (StartId (PonRange r))
              (EndId (PonRange r)) d) as (d2 & Hm2 & _); [lia..| |].
  - intros q Hq. split; [lia|]. rewrite Hc by lia. apply Hz.
    apply bool_decide_pack. lia.
  - rewrite Hm2. rewrite !decide_False by lia. eauto.
Qed.

Lemma validate_ranges_inv rs done_ d d' :
  Forall (fun r => 0 <= StartId (PonRange r)) rs -> counts number done_ d ->
  (forall i, 0 <= i < number -> cover_count done_ i <= 1) ->
  validate_ranges number rs d = inr d' ->
  Forall range_ok rs /\ Forall (fun r => EndId (PonRange r) < number) rs /\
  counts number (done_ ++ rs) d' /\
  forall i, 0 <= i < number -> cover_count (done_ ++ rs) i <= 1.
Proof.
  revert done_ d. induction rs as [|r rs IH]; intros done_ d Hs Hc Hle Hv; cbn in Hv.
  - simplify_eq. rewrite app_nil_r. done.
  - apply Forall_cons in Hs as [Hs1 Hs2].
    destruct (validate_range number r d) as [e|d1] eqn:Hr; [done|].
    apply (validate_range_step done_) in Hr as (Hok & He & Hz & Hc1); [|done..].
    apply (IH (done_ ++ [r])%list) in Hv as (H1 & H2 & H3 & H4); [|done..|].
    + rewrite <- app_assoc in H3, H4. auto.
    + intros i Hi. rewrite cover_count_app, cover_count_one.
      destruct (covers i r) eqn:E; [|by rewrite Z.add_0_r; auto].
      rewrite Hz by (by rewrite E). lia.
Qed.

Lemma validate_ranges_complete rs done_ d :
  Forall (fun r => 0 <= StartId (PonRange r)) rs -> counts number done_ d ->
  Forall range_ok rs -> Forall (fun r => EndId (PonRange r) < number) rs ->
  (forall id, 0 <= id < number -> cover_count (done_ ++ rs) id <= 1) ->
  exists d', validate_ranges number rs d = inr d'.
Proof.
  revert done_ d. induction rs as [|r rs IH]; intros done_ d Hs Hc Hok He Hle; cbn; [eauto|].
  apply Forall_cons in Hs as [Hs1 Hs2]. apply Forall_cons in Hok as [Hok1 Hok2].
  apply Forall_cons in He as [He1 He2].
  assert (forall q, covers q r -> cover_count done_ q = 0) as Hz.
  { intros q Hq. pose proof (bool_decide_unpack _ Hq) as Hb.
    specialize (Hle q ltac:(lia)).
    change (r :: rs) with ([r] ++ rs)%list in Hle.
    rewrite !cover_count_app, cover_count_one in Hle.
    destruct (covers q r); [|done].
    pose proof (cover_count_nonneg done_ q). pose proof (cover_count_nonneg rs q). lia. }
  destruct (validate_range_complete done_ r d) as [d1 Hd1]; [done..|].
  rewrite Hd1. apply (validate_range_step done_) in Hd1 as (_ & _ & _ & Hc1); [|done..].
  apply (IH (done_ ++ [r])%list); [done..|]. by rewrite <- app_assoc.
Qed.

End MarkPorts.

Lemma counts_init number :
  0 <= number -> counts number [] (replicate (Z.to_nat number) 0).
Proof.
  intros Hn. split; [apply length_replicate|]. intros i Hi. cbn.
  rewrite lookup_total_replicate_2 by lia. done.
Qed.


Lemma validatePonsConfig_sound pons :
  pons_typed pons -> validatePonsConfig pons = None -> pons_wf pons.
Proof.
  intros [Hn Hs]. unfold validatePonsConfig, pons_wf.
  case_decide as H0; [done|].
  destruct (validate_ranges _ _ _) as [e|d] eqn:Hv; [done|].
  case_decide as Hex; [done|]. intros _.
  apply (validate_ranges_inv (Number pons) _ []) in Hv as (H1 & H2 & [Hl Hc] & Hle);
    [|done|by apply counts_init|done].
  split_and!; [done..|]. intros id Hid. specialize (Hle id Hid). specialize (Hc id Hid).
  cbn in *. assert (~ d !!! Z.to_nat id < 1); [|lia].
  intros Hlt. apply Hex, Exists_exists. exists (d !!! Z.to_nat id). split; [|done].
  apply list_elem_of_lookup_total_2. lia.
Qed.

Lemma validatePonsConfig_complete pons :
  pons_typed pons -> pons_wf pons -> validatePonsConfig pons = None.
Proof.
  intros [Hn Hs] (Hnz & Hok & He & Hone). unfold validatePonsConfig.
  rewrite decide_False by done. pose proof (counts_init (Number pons) Hn) as Hi.
  destruct (validate_ranges_complete (Number pons) (Ranges pons) []
              (replicate (Z.to_nat (Number pons)) 0)) as [d Hd]; [done..| |].
  { intros id Hid. cbn. rewrite Hone; done. }
  rewrite Hd. apply (validate_ranges_inv (Number pons) _ []) in Hd as (_ & _ & [Hl Hc] & _); [|done..].
  rewrite decide_False; [done|].
  intros (n & Hin & Hlt)%Exists_exists.
  apply list_elem_of_lookup_1 in Hin as [i Hi']. pose proof (lookup_lt_Some _ _ _ Hi').
  specialize (Hc (Z.of_nat i) ltac:(lia)). rewrite Nat2Z.id in Hc.
  rewrite (list_lookup_total_correct _ _ _ Hi') in Hc.
  cbn in Hc. rewrite Hone in Hc; lia.
Qed.

(** C40: the validation of the PON configuration accepts exactly the
    configurations in which the number of ports is not zero, every range is well
    formed, no range exceeds the number of ports, and every PON port is defined by
    exactly one range (for values within the types of the configuration). *)
Theorem validatePonsConfig_correct (pons : PonPortsConfig) :
  pons_typed pons -> (validatePonsConfig pons = None <-> pons_wf pons).
Proof.
  split; eauto using validatePonsConfig_sound, validatePonsConfig_complete.
Qed.

Definition example_pons : PonPortsConfig :=
  let r a b := {| PonRange := {| StartId := a; EndId := b |}; Technology := "GPON";
                  OnuRange := {| StartId := 1; EndId := 32 |};
                  AllocIdRange := {| StartId := 1024; EndId := 1100 |};
                  GemportRange := {| StartId := 1024; EndId := 2000 |} |} in
  {| Number := 4; Ranges := [r 2 3; r 0 1] |}.

Lemma validatePonsConfig_correct_witness :
  pons_typed example_pons /\ pons_wf example_pons.
Proof.
  assert (pons_typed example_pons) as H.
  { split; [cbn; lia|repeat constructor; cbn; lia]. }
  split; [exact H|]. apply (validatePonsConfig_correct example_pons H). vm_compute. reflexivity.
Defined.

Lemma find_first_unique {A : Type} (P : A -> bool) (l : list A) :
  length (List.filter P l) = 1%nat ->
  exists x, find_first P l = Some x /\ x ∈ l /\ P x = true /\
    forall y, y ∈ l -> P y = true -> y = x.
Proof.
  unfold find_first. intros Hl.
  destruct (List.filter P l) as [|x [|]] eqn:E; try done. exists x.
  assert (forall y, y ∈ l /\ P y = true <-> y = x) as Hiff.
  { intros y. rewrite list_elem_of_In, <- filter_In, E. cbn. naive_solver. }
  naive_solver.
Qed.

(** On a validated configuration, [GetPonConfigById] finds for every
    PON port id below [Number] the one range that defines it, and the
    technology of that range is a known one, so the creation of the OLT never
    stops on a missing or malformed PON configuration. *)
Lemma pon_config_found (pons : PonPortsConfig) (id : Z) :
  pons_typed pons -> validatePonsConfig pons = None -> 0 <= id < Number pons ->
  exists r, GetPonConfigById (Some pons) id = inr r /\ r ∈ Ranges pons /\
    StartId (PonRange r) <= id <= EndId (PonRange r) /\
    (forall r', r' ∈ Ranges pons -> covers id r' = true -> r' = r) /\
    snd (PonTechnologyFromString (Technology r)) = None.
Proof.
  intros Ht Hv Hid.
  destruct (validatePonsConfig_sound pons Ht Hv) as (_ & Hok & _ & Hone).
  specialize (Hone id Hid). unfold cover_count in Hone.
  destruct (find_first_unique (covers id) (Ranges pons)) as (r & Hf & Hin & Hc & Hu); [lia|].
  exists r. cbn. rewrite Hf. split_and!; try done.
  - by apply bool_decide_eq_true in Hc as [? _].
  - by apply bool_decide_eq_true in Hc as [_ ?].
  - rewrite Forall_forall in Hok. by destruct (Hok r Hin).
Qed.

(** The configuration computed when no PON file is given passes the
    validation, for every number of PON ports, ONUs, UNIs and services whose
    resource ranges stay within 32 bits. *)
Theorem default_pons_valid (c : OltConfig) (nservices : Z) (pons : PonPortsConfig) :
  1 <= PonPorts c < 2 ^ 32 -> 1 <= OnusPonPort c < 2 ^ 32 ->
  0 <= UniPorts c -> 0 <= nservices ->
  1024 + OnusPonPort c * (UniPorts c * nservices) * 8 < 2 ^ 32 ->
  getDefaultPonsConfig (Some c) (Some nservices) = inr pons ->
  validatePonsConfig pons = None.
Proof.
  intros HP HO HU HN Hb [= <-].
  assert (0 <= UniPorts c * nservices) as Hun by nia.
  assert (UniPorts c * nservices <= OnusPonPort c * (UniPorts c * nservices)) as Hle by nia.
  assert (u32 nservices = nservices \/ UniPorts c = 0) as Hn.
  { destruct (decide (UniPorts c = 0)); [by right|left]. apply Z.mod_small. nia. }
  assert (u32 (UniPorts c * u32 nservices) = UniPorts c * nservices) as Hal.
  { destruct Hn as [-> | ->]; [|done]. apply Z.mod_small. lia. }
  apply validatePonsConfig_complete.
  - split; cbn; [lia|]. repeat constructor. cbn. lia.
  - rewrite Hal. unfold u32, defaultOnuIdStart, defaultAllocIdStart, defaultGemportIdStart,
      defaultGemPortIdPerAllocId.
    rewrite !Z.mod_small by lia.
    split_and!; cbn -[Z.mul]; [lia| | |].
    + repeat constructor; cbn -[Z.mul]; try done; lia.
    + repeat constructor. cbn. lia.
    + intros id Hid. rewrite cover_count_one. unfold covers. cbn.
      rewrite bool_decide_eq_true_2 by lia. done.
Qed.

Lemma default_pons_valid_witness :
  exists pons, getDefaultPonsConfig (Some default_OltConfig) (Some 3) = inr pons /\
    validatePonsConfig pons = None.
Proof.
  eexists. split; [reflexivity|].
  apply (default_pons_valid default_OltConfig 3); cbn; try lia. reflexivity.
Defined.
