(* ===== verification/OmciTypes.v ===== *)
(** * OMCI data and codecs

    The OMCI messages the simulated ONUs exchange with VOLTHA: headers,
    decoded request layers and response bodies, the entity identifiers of
    [internal/common/omci/onu_mib_db.go] and the hexadecimal framing of
    [internal/common/omci/omci_base.go].  [omci-lib-go], [gopacket] and
    [crc32a] are reached through the class [OmciLib]. *)
From S2P Require Import Prelude.
Open Scope Z_scope.
Open Scope string_scope.

(** ** Constants of the OMCI library the code compares with *)
Definition BaselineIdent : Z := 10.
Definition ExtendedIdent : Z := 11.
Definition MaxBaselineLength : Z := 48.
Definition MaxExtendedLength : Z := 1980.

Definition OnuDataClassID : Z := 2.
Definition CircuitPackClassID : Z := 6.
Definition SoftwareImageClassID : Z := 7.
Definition PhysicalPathTerminationPointEthernetUniClassID : Z := 11.
Definition PhysicalPathTerminationPointPotsUniClassID : Z := 53.
Definition OnuGClassID : Z := 256.
Definition Onu2GClassID : Z := 257.
Definition TContClassID : Z := 262.
Definition AniGClassID : Z := 263.
Definition UniGClassID : Z := 264.
Definition GemPortNetworkCtpClassID : Z := 268.
Definition PriorityQueueClassID : Z := 277.
Definition TrafficSchedulerClassID : Z := 278.
Definition EthernetFrameExtendedPmClassID : Z := 334.
Definition EthernetFrameExtendedPm64BitClassID : Z := 425.

Inductive Results := Success | ProcessingError | ParameterError | AttributeFailure.
#[export] Instance Results_eq_dec : EqDecision Results.
Proof. solve_decision. Defined.

Inductive MessageType :=
| MibResetRequestType | MibUploadRequestType | MibUploadNextRequestType
| GetRequestType | SetRequestType | CreateRequestType | DeleteRequestType
| RebootRequestType | TestRequestType | SynchronizeTimeRequestType
| StartSoftwareDownloadRequestType | DownloadSectionRequestType
| DownloadSectionRequestWithResponseType | EndSoftwareDownloadRequestType
| ActivateSoftwareRequestType | CommitSoftwareRequestType
| GetAllAlarmsRequestType | GetAllAlarmsNextRequestType
| MibResetResponseType | MibUploadResponseType | MibUploadNextResponseType
| SetResponseType | CreateResponseType | DeleteResponseType
| RebootResponseType | TestResponseType | TestResultType
| SynchronizeTimeResponseType | StartSoftwareDownloadResponseType
| DownloadSectionResponseType | EndSoftwareDownloadResponseType
| ActivateSoftwareResponseType | CommitSoftwareResponseType
| GetAllAlarmsResponseType | GetAllAlarmsNextResponseType
| GetResponseType | AlarmNotificationType
| OtherMessageType (n : Z).
#[export] Instance MessageType_eq_dec : EqDecision MessageType.
Proof. solve_decision. Defined.

(** The OMCI layer ([omci.OMCI]). *)
Record OMCI := { TransactionID : Z; MsgType : MessageType; DeviceIdentifier : Z }.

(** [omci.MeBasePacket]. *)
Record MeBasePacket := { EntityClass : Z; EntityInstance : Z; Extended : bool }.
#[export] Instance MeBasePacket_eq_dec : EqDecision MeBasePacket.
Proof. solve_decision. Defined.

(** The values of an attribute map ([interface{}] in Go); reading one at the
    wrong dynamic type panics. *)
Inductive attr_value := AInt (z : Z) | AU8 (z : Z) | AU16 (z : Z) | AU32 (z : Z) | ABytes (b : list Z).
#[export] Instance attr_value_eq_dec : EqDecision attr_value.
Proof. solve_decision. Defined.

Definition AttributeValueMap := list (string * attr_value).

Definition attr_get (m : AttributeValueMap) (k : string) : option attr_value :=
  snd <$> head (List.filter (fun kv => bool_decide (kv.1 = k)) m).

(** [m[k].(uint8)] and [m[k].(uint16)]. *)
Definition attr_u8 (m : AttributeValueMap) (k : string) : outcome Z :=
  match attr_get m k with
  | Some (AU8 z) => Done z
  | _ => Panicked "interface conversion: not uint8"
  end.
Definition attr_u16 (m : AttributeValueMap) (k : string) : outcome Z :=
  match attr_get m k with
  | Some (AU16 z) => Done z
  | _ => Panicked "interface conversion: not uint16"
  end.

(** The decoded message layers of a received packet. *)
Inductive Layer :=
| LMibUploadNextRequest (b : MeBasePacket) (CommandSequenceNumber : Z)
| LGetRequest (b : MeBasePacket) (AttributeMask : Z)
| LSetRequest (b : MeBasePacket) (Attributes : AttributeValueMap)
| LCreateRequest (b : MeBasePacket)
| LDeleteRequest (b : MeBasePacket)
| LRebootRequest (b : MeBasePacket)
| LOpticalLineSupervisionTestRequest (b : MeBasePacket)
| LOtherTestRequest (b : MeBasePacket)
| LSynchronizeTimeRequest (b : MeBasePacket)
| LStartSoftwareDownloadRequest (b : MeBasePacket) (WindowSize ImageSize : Z)
| LDownloadSectionRequest (b : MeBasePacket) (SectionNumber : Z) (SectionData : list Z)
| LEndSoftwareDownloadRequest (b : MeBasePacket) (CRC32 ImageSize : Z)
| LActivateSoftwareRequest (b : MeBasePacket)
| LCommitSoftwareRequest (b : MeBasePacket)
| LGetAllAlarmsNextRequest (b : MeBasePacket) (CommandSequenceNumber : Z)
| LOther (n : Z).

(** A [gopacket.Packet]: its layers in order, and its bytes. *)
Record Packet := { pkt_layers : list Layer; pkt_data : list Z }.

(** [pkt.Layer(t)]: the first layer of the requested type. *)
Fixpoint first_layer {A : Type} (sel : Layer -> option A) (l : list Layer) : option A :=
  match l with
  | [] => None
  | x :: l' => match sel x with Some a => Some a | None => first_layer sel l' end
  end.

(** A managed entity instance ([me.ManagedEntity]): class, instance and the
    attributes it was built with. *)
Record ManagedEntity := { me_class : Z; me_instance : Z; me_attrs : AttributeValueMap }.

(** The bodies the simulator serializes.  [BResult] is a response struct with
    only a result; [layer] says which one. *)
Inductive Body :=
| BMibReset (b : MeBasePacket) (r : Results)
| BMibResetRequest (b : MeBasePacket)
| BMibUploadRequest (b : MeBasePacket)
| BMibUploadNextRequest (b : MeBasePacket) (CommandSequenceNumber : Z)
| BSetRequest (b : MeBasePacket) (attrs : AttributeValueMap) (AttributeMask : Z)
| BMibUpload (b : MeBasePacket) (NumberOfCommands : Z)
| BMibUploadNext (b : MeBasePacket) (ReportedME : ManagedEntity) (AdditionalMEs : list ManagedEntity)
| BResult (layer : MessageType) (b : MeBasePacket) (r : Results)
| BCommit (b : MeBasePacket)
| BTestResult (b : MeBasePacket)
| BStartDownload (b : MeBasePacket) (WindowSize : Z) (r : Results)
| BDownloadSection (b : MeBasePacket) (r : Results) (SectionNumber : Z)
| BGetAllAlarms (b : MeBasePacket) (NumberOfCommands : Z)
| BGetAllAlarmsNext (b : MeBasePacket) (AlarmEntityClass AlarmEntityInstance : Z)
    (AlarmBitMap : list Z) (AdditionalAlarms : list (Z * Z * list Z))
| BAlarmNotification (b : MeBasePacket) (AlarmBitmap : list Z) (AlarmSequenceNumber : Z)
| BGetResponse (b : MeBasePacket) (AttributeMask : Z) (attrs : AttributeValueMap) (r : Results).

(** The third-party packages: [SerializeLayers] of an OMCI header and a body
    (and what its buffer holds when it fails),
    [LoadManagedEntityDefinition] (the entity of a known class, its instance
    and attributes), the decoding of bytes into layers and the CRC of [crc32a]. *)
Class OmciLib := {
  SerializeLayers : OMCI -> Body -> error + list Z;
  SerializePartial : OMCI -> Body -> list Z;
  LoadManagedEntityDefinition : Z -> Z -> AttributeValueMap -> ManagedEntity;
  NewPacket : list Z -> option (OMCI * Packet);
  Checksum : list Z -> Z
}.

(** ** Entity identifiers *)

(** Source: internal/common/omci/onu_mib_db.go, [EntityID]. *)
Definition EntityID := list Z.

(** Source: internal/common/omci/onu_mib_db.go, [EntityID.ToUint16].
    [binary.BigEndian.Uint16] reads the first two bytes and panics on a
    shorter slice. *)
Definition ToUint16 (e : EntityID) : outcome Z :=
  match e with
  | a :: b :: _ => Done (be16_dec a b)
  | _ => Panicked "index out of range"
  end.

(** Source: internal/common/omci/onu_mib_db.go, [EntityID.ToUint32]. *)
Definition ToUint32 (e : EntityID) : outcome Z :=
  match e with
  | a :: b :: c :: d :: _ => Done (be16_dec a b * 2 ^ 16 + be16_dec c d)
  | _ => Panicked "index out of range"
  end.

(** Source: internal/common/omci/onu_mib_db.go, [EntityID.FromUint16]. *)
Definition FromUint16 (id : Z) : EntityID := be16 id.

(** Source: internal/common/omci/onu_mib_db.go, [EntityID.Equals]. *)
Definition Equals (e i : EntityID) : bool := bool_decide (e = i).

(** Source: internal/common/omci/onu_mib_db.go, [cardHolderOnuType]. *)
Definition cardHolderOnuType : Z := 1.
Definition ethernetUnitType : Z := 47.
Definition xgsPonUnitType : Z := 238.
Definition gPonUnitType : Z := 245.
Definition potsUnitType : Z := 32.
Definition cardHolderSlotID : Z := 1.
Definition tcontSlotId : Z := 128.
Definition aniGId : Z := 1.
Definition upstreamPriorityQueues : nat := 8.
Definition downstreamPriorityQueues : nat := 8.
Definition tconts : nat := 8.

(** Source: internal/common/omci/onu_mib_db.go, [cardHolderEntityID]. *)
Definition cardHolderEntityID : EntityID := [cardHolderOnuType; cardHolderSlotID].
Definition circuitPackEntityID : EntityID := cardHolderEntityID.

(** Source: internal/common/omci/onu_mib_db.go, [GenerateUniPortEntityId]. *)
Definition GenerateUniPortEntityId (id : Z) : EntityID := [cardHolderSlotID; u8 id].

(** ** Hexadecimal framing *)

(** The digits of [encoding/hex]. *)
Definition hex_digit (d : Z) : Z := if decide (d < 10) then 48 + d else 87 + d.

(** Source: internal/common/omci/omci_base.go, [HexEncode]. *)
Fixpoint HexEncode (omciPkt : list Z) : list Z :=
  match omciPkt with
  | [] => []
  | b :: r => hex_digit (b / 16) :: hex_digit (b mod 16) :: HexEncode r
  end.

(** The decoding of one digit, on bytes: [(c & 15) + (c >> 6) * 9]. *)
Definition hex_nibble (c : Z) : Z := u8 (Z.land c 15 + u8 (Z.shiftr c 6 * 9)).

(** Source: internal/common/omci/omci_base.go, [HexDecode].  An odd number
    of digits makes the last round read past the end. *)
Fixpoint HexDecode (pkt : list Z) : outcome (list Z) :=
  match pkt with
  | [] => Done []
  | [_] => Panicked "index out of range"
  | a :: b :: r =>
      match HexDecode r with
      | Done p => Done (u8 (Z.shiftl (hex_nibble a) 4 + hex_nibble b) :: p)
      | Panicked w => Panicked w
      | Blocked w => Blocked w
      | Exited w => Exited w
      end
  end.

(** Source: internal/common/omci/omci_base.go, [DeviceIdentifierPos]. *)
Definition DeviceIdentifierPos : nat := 3.

(** Source: internal/common/omci/omci_base.go:38-61, [ParseOpenOltOmciPacket]
    (the checks on the received bytes and the correction of the trailer). *)
Definition check_frame (rxMsg : list Z) : error + list Z :=
  if decide (length rxMsg < 10)%nat then
    inl "received omci message is generally too small - abort"
  else if decide (rxMsg !!! DeviceIdentifierPos = BaselineIdent) then
    if decide (44 <= length rxMsg)%nat then
      if decide (be16_dec (rxMsg !!! 42%nat) (rxMsg !!! 43%nat) <> 40)
      then inr (<[43%nat := 40]> (<[42%nat := 0]> rxMsg))
      else inr rxMsg
    else inl "received omci-message too small for OmciBaseFormat - abort"
  else if decide (rxMsg !!! DeviceIdentifierPos = ExtendedIdent) then
    if decide (1980 < length rxMsg)%nat
    then inl "received omci-message with wrong length for OmciExtendedFormat - abort"
    else inr rxMsg
  else inl "received omci-message with wrong Device Identifier - abort".

(** Source: internal/common/omci/omci_base.go, [ParseOpenOltOmciPacket]. *)
Definition ParseOpenOltOmciPacket `{OmciLib} (pkt : list Z)
    : outcome (error + (Packet * OMCI)) :=
  rxMsg ← HexDecode pkt;
  match check_frame rxMsg with
  | inl e => Done (inl e)
  | inr rx =>
      match NewPacket rx with
      | None => Done (inl "omci-message could not decode omci layer")
      | Some (o, p) => Done (inr (p, o))
      end
  end.

(** Source: internal/common/omci/mibpackets.go, [SetTxIdInEncodedPacket].
    Slicing [packet[2:]] panics when there are fewer than two bytes. *)
Definition SetTxIdInEncodedPacket (packet : list Z) (txId : Z) : outcome (list Z) :=
  if decide (length packet < 2)%nat then Panicked "slice bounds out of range"
  else Done (be16 txId ++ drop 2 packet)%list.

(** The bytes of a string constant. *)
Definition bytes_of (s : string) : list Z :=
  (fun c => Z.of_N (Ascii.N_of_ascii c)) <$> String.list_ascii_of_string s.

(** Source: internal/common/omci/get.go, [ToOctets]. *)
Definition ToOctets (str : string) (size : nat) : list Z :=
  let asciiBytes := bytes_of str in
  (asciiBytes ++ replicate (size - length asciiBytes) 0)%list.

(** * Properties *)

Lemma land15 z : Z.land z 15 = z mod 16.
Proof. change 15 with (Z.ones 4). by rewrite Z.land_ones by lia. Qed.

Lemma hex_digit_nibble d : 0 <= d < 16 -> hex_nibble (hex_digit d) = d.
Proof.
  intros H. assert (d ∈ seqZ 0 16) as Hin by (apply elem_of_seqZ; lia).
  assert (Forall (fun x => hex_nibble (hex_digit x) = x) (seqZ 0 16)) as HF.
  { vm_compute. repeat constructor. }
  rewrite Forall_forall in HF. auto.
Qed.

(** Decoding what [HexEncode] produced gives back the bytes: the framing
    used between BBR and BBSim loses nothing. *)
Theorem HexDecode_HexEncode (p : list Z) :
  Forall is_u8 p -> HexDecode (HexEncode p) = Done p.
Proof.
  induction 1 as [|b r Hb _ IH]; [done|]. cbn [HexEncode HexDecode]. rewrite IH.
  unfold is_u8 in Hb.
  assert (0 <= b / 16 < 16 /\ 0 <= b mod 16 < 16) as [H1 H2].
  { split; [split; [apply Z.div_pos|apply Z.div_lt_upper_bound]|apply Z.mod_pos_bound]; lia. }
  rewrite !hex_digit_nibble by done. rewrite Z.shiftl_mul_pow2 by lia.
  change (2 ^ 4) with 16. unfold u8.
  replace (b / 16 * 16 + b mod 16) with b by (pose proof (Z.div_mod b 16); lia).
  by rewrite Z.mod_small.
Qed.

Lemma HexDecode_HexEncode_witness :
  Forall is_u8 [0; 3; 46; 10; 255] /\
  HexDecode (HexEncode [0; 3; 46; 10; 255]) = Done [0; 3; 46; 10; 255].
Proof.
  assert (Forall is_u8 [0; 3; 46; 10; 255]) as H by (repeat constructor; done).
  split; [exact H|exact (HexDecode_HexEncode _ H)].
Defined.

(** A frame is accepted only if it is a baseline message of at least 44
    bytes or an extended one of at most 1980; what is handed to the decoder
    has a baseline trailer length of 40 and differs from the received bytes
    in no other place. *)
Theorem check_frame_accepts (rx rx' : list Z) :
  check_frame rx = inr rx' ->
  length rx' = length rx /\ (10 <= length rx)%nat /\
  (forall i, i <> 42%nat -> i <> 43%nat -> rx' !! i = rx !! i) /\
  ((rx !!! 3%nat = BaselineIdent /\ (44 <= length rx)%nat /\
    (Forall is_u8 rx -> rx' !!! 42%nat = 0 /\ rx' !!! 43%nat = 40)) \/
   (rx !!! 3%nat = ExtendedIdent /\ (length rx <= 1980)%nat /\ rx' = rx)).
Proof.
  unfold check_frame, DeviceIdentifierPos.
  case_decide as Hs; [done|]. case_decide as Hb.
  - case_decide as Hl; [|done]. case_decide as Ht; intros [= <-].
    + rewrite !length_insert. split_and!; [done|lia| |].
      * intros i H1 H2. by rewrite !list_lookup_insert_ne by lia.
      * left. split_and!; [done|lia|]. intros _. split.
        -- rewrite list_lookup_total_insert_ne by lia.
           by rewrite list_lookup_total_insert_eq by lia.
        -- by rewrite list_lookup_total_insert_eq by (rewrite length_insert; lia).
    + split_and!; [done|lia|done|]. left. split_and!; [done|lia|]. intros Hu.
      assert (forall i, (i < 44)%nat -> is_u8 (rx !!! i)) as Hr.
      { intros i Hi. rewrite Forall_forall in Hu. apply Hu.
        apply list_elem_of_lookup_total_2. lia. }
      pose proof (Hr 42%nat ltac:(lia)) as H42. pose proof (Hr 43%nat ltac:(lia)) as H43.
      unfold is_u8, be16_dec in *. change (2 ^ 8) with 256 in *. lia.
  - case_decide as He; [|done]. case_decide as Hl; [done|]. intros [= <-].
    split_and!; [done|lia|done|]. right. split_and!; [done|lia|done].
Qed.

Lemma check_frame_accepts_witness :
  exists rx', check_frame ([0; 1; 73; 10] ++ replicate 44 7)%list = inr rx' /\
    rx' !!! 43%nat = 40.
Proof.
  eexists. split; [vm_compute; reflexivity|].
  destruct (check_frame_accepts ([0; 1; 73; 10] ++ replicate 44 7)%list _ eq_refl)
    as (_ & _ & _ & [(_ & _ & H)|(H & _)]).
  - apply H. repeat constructor; done.
  - vm_compute in H. discriminate H.
Defined.

Lemma be16_roundtrip id : is_u16 id -> ToUint16 (FromUint16 id) = Done id.
Proof.
  unfold is_u16, FromUint16, be16, ToUint16, be16_dec, u8. intros H.
  change (2 ^ 8) with 256 in *. change (2 ^ 16) with 65536 in *. f_equal.
  rewrite (Z.mod_small (id / 256)).
  - pose proof (Z.div_mod id 256). lia.
  - split; [apply Z.div_pos|apply Z.div_lt_upper_bound]; lia.
Qed.

(** Port identifiers up to 255 have pairwise distinct entity identifiers. *)
Lemma GenerateUniPortEntityId_inj a b :
  is_u8 a -> is_u8 b -> GenerateUniPortEntityId a = GenerateUniPortEntityId b -> a = b.
Proof.
  unfold is_u8, GenerateUniPortEntityId, u8. intros Ha Hb [= H].
  by rewrite !Z.mod_small in H by lia.
Qed.

Lemma SetTxId_spec p tx p' :
  SetTxIdInEncodedPacket p tx = Done p' ->
  length p' = length p /\ take 2 p' = be16 tx /\ drop 2 p' = drop 2 p.
Proof.
  unfold SetTxIdInEncodedPacket. case_decide as H; [done|]. intros [= <-]. cbn.
  split_and!; [|done|done]. rewrite length_drop. lia.
Qed.

Lemma ToOctets_length s n : (length (bytes_of s) <= n)%nat -> length (ToOctets s n) = n.
Proof. intros H. unfold ToOctets. rewrite length_app, length_replicate. lia. Qed.
