(* ===== verification/Omci.v ===== *)
(** * OMCI requests and responses

    [internal/common/omci]: the extraction of the request layer from a
    received packet and the construction of the response, one function per
    message type, as the ONU calls them.  A Go pair of bytes and an error is
    [error + list Z]; a field of a nil message is a run-time panic. *)
From S2P Require Import Prelude OmciTypes.
Open Scope Z_scope.
Open Scope string_scope.

(** A request layer with only the base packet. *)
Definition sel_base (f : Layer -> option MeBasePacket) (pkt : Packet) (e : error)
    : error + MeBasePacket :=
  match first_layer f (pkt_layers pkt) with
  | Some b => inr b
  | None => inl e
  end.

(** The base packet of a response: the class and instance of the request, in
    the format given. *)
Definition reply_base (b : MeBasePacket) (ext : bool) : MeBasePacket :=
  {| EntityClass := EntityClass b; EntityInstance := EntityInstance b; Extended := ext |}.

Definition onu_data_base (ext : bool) : MeBasePacket :=
  {| EntityClass := OnuDataClassID; EntityInstance := 0; Extended := ext |}.

Definition isExtended (omciMsg : OMCI) : bool :=
  bool_decide (DeviceIdentifier omciMsg = ExtendedIdent).

Section Messages.
  Context `{OmciLib}.

(** Source: internal/common/omci/mibpackets.go, [Serialize].  The device
    identifier is left to the library. *)
Definition Serialize (msgType : MessageType) (request : Body) (tid : Z) : error + list Z :=
  SerializeLayers {| TransactionID := tid; MsgType := msgType; DeviceIdentifier := 0 |} request.

(** A response that keeps the transaction and the format of the request. *)
Definition respond (omciMsg : OMCI) (ty : MessageType) (b : Body) : error + list Z :=
  SerializeLayers {| TransactionID := TransactionID omciMsg; MsgType := ty;
                     DeviceIdentifier := DeviceIdentifier omciMsg |} b.

(** ** Set *)

(** Source: internal/common/omci/set.go, [ParseSetRequest]. *)
Definition ParseSetRequest (omciPkt : Packet) : error + (MeBasePacket * AttributeValueMap) :=
  match first_layer (fun l => match l with LSetRequest b a => Some (b, a) | _ => None end)
          (pkt_layers omciPkt) with
  | Some x => inr x
  | None => inl "omci Msg layer could not be detected for LayerTypeSetRequest"
  end.

(** Source: internal/common/omci/set.go, [CreateSetResponse]. *)
Definition CreateSetResponse (omciPkt : Packet) (omciMsg : OMCI) (result : Results)
    : error + list Z :=
  match ParseSetRequest omciPkt with
  | inl e => inl e
  | inr (b, _) =>
      Serialize SetResponseType (BResult SetResponseType (reply_base b false) result)
        (TransactionID omciMsg)
  end.

(** ** Create and delete *)

(** Source: internal/common/omci/create.go, [ParseCreateRequest]. *)
Definition ParseCreateRequest (omciPkt : Packet) : error + MeBasePacket :=
  sel_base (fun l => match l with LCreateRequest b => Some b | _ => None end) omciPkt
    "omci Msg layer could not be detected for LayerTypeCreateRequest".

(** Source: internal/common/omci/create.go, [CreateCreateResponse]. *)
Definition CreateCreateResponse (omciPkt : Packet) (omciMsg : OMCI) (result : Results)
    : error + list Z :=
  match ParseCreateRequest omciPkt with
  | inl e => inl e
  | inr b =>
      Serialize CreateResponseType (BResult CreateResponseType (reply_base b false) result)
        (TransactionID omciMsg)
  end.

(** Source: internal/common/omci/delete.go, [ParseDeleteRequest]. *)
Definition ParseDeleteRequest (omciPkt : Packet) : error + MeBasePacket :=
  sel_base (fun l => match l with LDeleteRequest b => Some b | _ => None end) omciPkt
    "omci Msg layer could not be detected for LayerTypeDeleteRequest".

(** Source: internal/common/omci/delete.go, [CreateDeleteResponse]. *)
Definition CreateDeleteResponse (omciPkt : Packet) (omciMsg : OMCI) : error + list Z :=
  match ParseDeleteRequest omciPkt with
  | inl e => inl e
  | inr b =>
      Serialize DeleteResponseType (BResult DeleteResponseType (reply_base b false) Success)
        (TransactionID omciMsg)
  end.

(** ** Reboot, time synchronisation and test *)

(** Source: internal/common/omci/reboot.go, [ParseRebootRequest]. *)
Definition ParseRebootRequest (omciPkt : Packet) : error + MeBasePacket :=
  sel_base (fun l => match l with LRebootRequest b => Some b | _ => None end) omciPkt
    "omci Msg layer could not be detected for LayerTypeRebootRequest".

(** Source: internal/common/omci/reboot.go, [CreateRebootResponse]: a
    [SetResponse] body under the type of a reboot response. *)
Definition CreateRebootResponse (omciPkt : Packet) (omciMsg : OMCI) : error + list Z :=
  match ParseRebootRequest omciPkt with
  | inl e => inl e
  | inr b =>
      Serialize RebootResponseType (BResult SetResponseType (reply_base b false) Success)
        (TransactionID omciMsg)
  end.

(** Source: internal/common/omci/sync_time.go, [ParseSyncTimeRequest]. *)
Definition ParseSyncTimeRequest (omciPkt : Packet) : error + MeBasePacket :=
  sel_base (fun l => match l with LSynchronizeTimeRequest b => Some b | _ => None end) omciPkt
    "omci Msg layer could not be detected for LayerTypeSynchronizeTimeRequest".

(** Source: internal/common/omci/sync_time.go, [CreateSyncTimeResponse]. *)
Definition CreateSyncTimeResponse (omciPkt : Packet) (omciMsg : OMCI) : error + list Z :=
  match ParseSyncTimeRequest omciPkt with
  | inl e => inl e
  | inr b =>
      Serialize SynchronizeTimeResponseType
        (BResult SynchronizeTimeResponseType (reply_base b false) Success)
        (TransactionID omciMsg)
  end.

(** Source: internal/common/omci/test.go, [ParseOpticalLineSupervisionRequest].
    The layer is looked up as any test request and then must be this one. *)
Definition ParseOpticalLineSupervisionRequest (omciPkt : Packet) : error + MeBasePacket :=
  match first_layer (fun l => match l with
                      | LOpticalLineSupervisionTestRequest b => Some (true, b)
                      | LOtherTestRequest b => Some (false, b)
                      | _ => None end) (pkt_layers omciPkt) with
  | None => inl "omci Msg layer could not be detected for LayerTypeTestRequest"
  | Some (true, b) => inr b
  | Some (false, _) => inl "omci Msg layer could not be assigned for LayerTypeTestRequest"
  end.

(** Source: internal/common/omci/test.go, [CreateTestResponse]: the response,
    the class, the instance and the result code. *)
Definition CreateTestResponse (omciPkt : Packet) (omciMsg : OMCI)
    : (error + list Z) * Z * Z * Results :=
  match ParseOpticalLineSupervisionRequest omciPkt with
  | inl e => (inl e, 0, 0, ParameterError)
  | inr b =>
      match Serialize TestResponseType (BResult TestResponseType (reply_base b false) Success)
              (TransactionID omciMsg) with
      | inl e => (inl e, 0, 0, ParameterError)
      | inr pkt => (inr pkt, EntityClass b, EntityInstance b, Success)
      end
  end.

(** Source: internal/common/omci/test.go, [CreateTestResult].  The measured
    values are random; the body carries the entity. *)
Definition CreateTestResult (classID instID tid : Z) : error + list Z :=
  if decide (classID = AniGClassID) then
    Serialize TestResultType
      (BTestResult {| EntityClass := classID; EntityInstance := instID; Extended := false |}) tid
  else inl "unsupported-class-id-for-test-result--class-id".

(** ** Software images *)

(** Source: internal/common/omci/image.go, [ParseStartSoftwareDownloadRequest]:
    the base packet, the window size and the image size. *)
Definition ParseStartSoftwareDownloadRequest (omciPkt : Packet) : error + (MeBasePacket * Z * Z) :=
  match first_layer (fun l => match l with
                      | LStartSoftwareDownloadRequest b w s => Some (b, w, s)
                      | _ => None end) (pkt_layers omciPkt) with
  | Some x => inr x
  | None => inl "omci Msg layer could not be detected for LayerTypeStartSoftwareDownloadRequest"
  end.

(** Source: internal/common/omci/image.go, [ParseDownloadSectionRequest]. *)
Definition ParseDownloadSectionRequest (omciPkt : Packet)
    : error + (MeBasePacket * Z * list Z) :=
  match first_layer (fun l => match l with
                      | LDownloadSectionRequest b n d => Some (b, n, d)
                      | _ => None end) (pkt_layers omciPkt) with
  | Some x => inr x
  | None => inl "omci Msg layer could not be detected for LayerTypeDownloadSectionRequest"
  end.

(** Source: internal/common/omci/image.go, [ParseEndSoftwareDownloadRequest]:
    the base packet, the CRC and the image size. *)
Definition ParseEndSoftwareDownloadRequest (omciPkt : Packet) : error + (MeBasePacket * Z * Z) :=
  match first_layer (fun l => match l with
                      | LEndSoftwareDownloadRequest b c s => Some (b, c, s)
                      | _ => None end) (pkt_layers omciPkt) with
  | Some x => inr x
  | None => inl "omci Msg layer could not be detected for LayerTypeEndSoftwareDownloadRequest"
  end.

(** Source: internal/common/omci/image.go, [ParseActivateSoftwareRequest]. *)
Definition ParseActivateSoftwareRequest (omciPkt : Packet) : error + MeBasePacket :=
  sel_base (fun l => match l with LActivateSoftwareRequest b => Some b | _ => None end) omciPkt
    "omci Msg layer could not be detected for LayerTypeActivateSoftwareRequest".

(** Source: internal/common/omci/image.go, [ParseCommitSoftwareRequest]. *)
Definition ParseCommitSoftwareRequest (omciPkt : Packet) : error + MeBasePacket :=
  sel_base (fun l => match l with LCommitSoftwareRequest b => Some b | _ => None end) omciPkt
    "omci Msg layer could not be detected for LayerTypeCommitSoftwareRequest".

(** Source: internal/common/omci/image.go, [CreateStartSoftwareDownloadResponse].
    Without a request layer the message is nil and its first field panics. *)
Definition CreateStartSoftwareDownloadResponse (omciPkt : Packet) (omciMsg : OMCI)
    : outcome (error + list Z) :=
  match ParseStartSoftwareDownloadRequest omciPkt with
  | inl _ => Panicked "nil StartSoftwareDownloadRequest"
  | inr (b, w, _) =>
      Done (respond omciMsg StartSoftwareDownloadResponseType
              (BStartDownload (reply_base b (isExtended omciMsg)) w Success))
  end.

(** Source: internal/common/omci/image.go, [CreateDownloadSectionResponse]. *)
Definition CreateDownloadSectionResponse (omciPkt : Packet) (omciMsg : OMCI) : error + list Z :=
  match ParseDownloadSectionRequest omciPkt with
  | inl e => inl e
  | inr (b, n, _) =>
      respond omciMsg DownloadSectionResponseType
        (BDownloadSection (reply_base b (isExtended omciMsg)) Success n)
  end.

(** Source: internal/common/omci/image.go, [CreateEndSoftwareDownloadResponse]. *)
Definition CreateEndSoftwareDownloadResponse (omciPkt : Packet) (omciMsg : OMCI) (status : Results)
    : error + list Z :=
  match ParseEndSoftwareDownloadRequest omciPkt with
  | inl e => inl e
  | inr (b, _, _) =>
      respond omciMsg EndSoftwareDownloadResponseType
        (BResult EndSoftwareDownloadResponseType (reply_base b (isExtended omciMsg)) status)
  end.

(** Source: internal/common/omci/image.go, [CreateActivateSoftwareResponse]. *)
Definition CreateActivateSoftwareResponse (omciPkt : Packet) (omciMsg : OMCI) : error + list Z :=
  match ParseActivateSoftwareRequest omciPkt with
  | inl e => inl e
  | inr b =>
      respond omciMsg ActivateSoftwareResponseType
        (BResult ActivateSoftwareResponseType (reply_base b (isExtended omciMsg)) Success)
  end.

(** Source: internal/common/omci/image.go, [CreateCommitSoftwareResponse]. *)
Definition CreateCommitSoftwareResponse (omciPkt : Packet) (omciMsg : OMCI) : error + list Z :=
  match ParseCommitSoftwareRequest omciPkt with
  | inl e => inl e
  | inr b =>
      respond omciMsg CommitSoftwareResponseType (BCommit (reply_base b (isExtended omciMsg)))
  end.

Definition cOmciDownloadSectionSizeBaseLine : Z := 31.
Definition cOmciDownloadSectionSizeExtLine : Z := 1965.

(** Source: internal/common/omci/image.go, [ComputeDownloadSectionsCount]. *)
Definition ComputeDownloadSectionsCount (pkt : Packet) : outcome Z :=
  match ParseStartSoftwareDownloadRequest pkt with
  | inl _ => Panicked "nil StartSoftwareDownloadRequest"
  | inr (b, _, ImageSize) =>
      let size := if Extended b then cOmciDownloadSectionSizeExtLine
                  else cOmciDownloadSectionSizeBaseLine in
      let n := ImageSize / size in
      Done (if decide (0 < ImageSize mod size) then u32 (n + 1) else n)
  end.

(** ** MIB reset *)

(** Source: internal/common/omci/mibpackets.go, [CreateMibResetResponse]. *)
Definition CreateMibResetResponse (tid : Z) : error + list Z :=
  Serialize MibResetResponseType (BMibReset (onu_data_base false) Success) tid.

(** ** Requests (sent by BBR) *)

(** A request; one that cannot be serialized ends the process. *)
Definition request (ty : MessageType) (b : Body) (tid : Z) : outcome (list Z) :=
  match Serialize ty b tid with
  | inl _ => Exited "Cannot Serialize request"
  | inr pkt => Done (HexEncode pkt)
  end.

(** Source: internal/common/omci/mibpackets.go, [CreateMibResetRequest]. *)
Definition CreateMibResetRequest (tid : Z) : outcome (list Z) :=
  request MibResetRequestType (BMibResetRequest (onu_data_base false)) tid.

(** Source: internal/common/omci/mibpackets.go, [CreateMibUploadRequest]. *)
Definition CreateMibUploadRequest (tid : Z) : outcome (list Z) :=
  request MibUploadRequestType (BMibUploadRequest (onu_data_base false)) tid.

(** Source: internal/common/omci/mibpackets.go, [CreateMibUploadNextRequest]. *)
Definition CreateMibUploadNextRequest (tid seqNumber : Z) : outcome (list Z) :=
  request MibUploadNextRequestType (BMibUploadNextRequest (onu_data_base false) seqNumber) tid.

(** Source: internal/common/omci/set.go, [CreateSetRequest]. *)
Definition CreateSetRequest (e : ManagedEntity) (tid : Z) : outcome (list Z) :=
  request SetRequestType
    (BSetRequest {| EntityClass := me_class e; EntityInstance := me_instance e; Extended := false |}
       (me_attrs e) 0x800) tid.

(** ** Alarms *)

(** Source: internal/common/omci/alarms.go, [OnuAlarmInfo]. *)
Record OnuAlarmInfo := { SequenceNo : Z; AlarmBitMap : list Z }.

(** Source: internal/common/omci/alarms.go, [OnuAlarmInfoMapKey]: instance
    and class. *)
Definition OnuAlarmInfoMapKey : Type := Z * Z.

Definition OnuAlarms : Type := gmap OnuAlarmInfoMapKey OnuAlarmInfo.

Definition no_alarms : list Z := replicate 28 0.

(** Source: internal/common/omci/alarms.go, [CreateUniStatusAlarm].  Alarm 0
    of the class is the most significant bit of the first byte; the library
    accepts it for this class. *)
Definition CreateUniStatusAlarm (raiseAlarm : bool) (entityId sequenceNo : Z)
    : option (list Z) * list Z :=
  let bitmap := if raiseAlarm then 128 :: replicate 27 0 else no_alarms in
  match Serialize AlarmNotificationType
          (BAlarmNotification
             {| EntityClass := PhysicalPathTerminationPointEthernetUniClassID;
                EntityInstance := entityId; Extended := false |} bitmap sequenceNo) 0 with
  | inl _ => (None, no_alarms)
  | inr pkt => (Some pkt, bitmap)
  end.

Definition pptp_alarm (alarms : OnuAlarms) (i : Z) : option OnuAlarmInfo :=
  alarms !! (i, PhysicalPathTerminationPointEthernetUniClassID).

(** Source: internal/common/omci/alarms.go:89-94, [CreateGetAllAlarmsResponse]
    (the number of instances with an alarm). *)
Definition alarm_count (alarms : OnuAlarms) : Z :=
  Z.of_nat (length (List.filter (fun i => bool_decide (is_Some (pptp_alarm alarms i)))
                      [257; 258; 259; 260])).

(** Source: internal/common/omci/alarms.go, [CreateGetAllAlarmsResponse]. *)
Definition CreateGetAllAlarmsResponse (omciMsg : OMCI) (alarms : OnuAlarms) : error + list Z :=
  respond omciMsg GetAllAlarmsResponseType
    (BGetAllAlarms (onu_data_base (isExtended omciMsg)) (alarm_count alarms)).

(** Source: internal/common/omci/alarms.go, [ParseGetAllAlarmsNextRequest]. *)
Definition ParseGetAllAlarmsNextRequest (omciPkt : Packet) : error + Z :=
  match first_layer (fun l => match l with LGetAllAlarmsNextRequest _ n => Some n | _ => None end)
          (pkt_layers omciPkt) with
  | Some n => inr n
  | None => inl "omci Msg layer could not be detected for LayerTypeGetAllAlarmsNextRequest"
  end.

(** Source: internal/common/omci/alarms.go:189-199, [CreateGetAllAlarmsNextResponse]
    (the other instances, reported with the first one in extended format). *)
Definition additional_alarms (alarms : OnuAlarms) : list (Z * Z * list Z) :=
  omap (fun i => (fun a => (PhysicalPathTerminationPointEthernetUniClassID, i, AlarmBitMap a))
                   <$> pptp_alarm alarms i) [258; 259; 260].

(** Source: internal/common/omci/alarms.go, [CreateGetAllAlarmsNextResponse]. *)
Definition CreateGetAllAlarmsNextResponse (omciPkt : Packet) (omciMsg : OMCI) (alarms : OnuAlarms)
    : error + list Z :=
  match ParseGetAllAlarmsNextRequest omciPkt with
  | inl _ => inl "omci Msg layer could not be assigned for LayerTypeGetRequest"
  | inr n =>
      if decide (4 < n) then inl "unspported-command-sequence-number-in-get-all-alarms-next"
      else
        let meInstance := u16 (257 + n) in
        match pptp_alarm alarms meInstance with
        | None => inl "alarm-info-for-me-not-present-in-alarm-info-map"
        | Some a =>
            respond omciMsg GetAllAlarmsNextResponseType
              (BGetAllAlarmsNext (onu_data_base (isExtended omciMsg))
                 PhysicalPathTerminationPointEthernetUniClassID meInstance (AlarmBitMap a)
                 (if isExtended omciMsg && bool_decide (n = 0)
                  then additional_alarms alarms else []))
        end
  end.
End Messages.

(** * Properties *)

(** Which part of a request a section of the image is carried in. *)
Definition section_size (b : MeBasePacket) : Z :=
  if Extended b then cOmciDownloadSectionSizeExtLine else cOmciDownloadSectionSizeBaseLine.

Lemma ceil_div_spec a b : 0 <= a -> 0 < b ->
  let n := if decide (0 < a mod b) then a / b + 1 else a / b in
  (n - 1) * b < a + (if decide (a = 0) then 1 else 0) /\ a <= n * b.
Proof.
  intros Ha Hb. pose proof (Z.div_mod a b). pose proof (Z.mod_pos_bound a b).
  cbn. repeat case_decide; nia.
Qed.

(** The number of sections the ONU expects is the image size divided by
    the section size, rounded up: the sections hold the whole image and one
    fewer would not. *)
Theorem ComputeDownloadSectionsCount_ceil (pkt : Packet) b w size :
  ParseStartSoftwareDownloadRequest pkt = inr (b, w, size) -> is_u32 size ->
  exists n, ComputeDownloadSectionsCount pkt = Done n /\
    size <= n * section_size b /\
    (0 < size -> (n - 1) * section_size b < size) /\ (size = 0 -> n = 0).
Proof.
  unfold ComputeDownloadSectionsCount, is_u32. intros -> Hs.
  fold (section_size b). set (k := section_size b).
  assert (31 <= k) as Hk.
  { subst k. unfold section_size, cOmciDownloadSectionSizeExtLine,
      cOmciDownloadSectionSizeBaseLine. destruct (Extended b); lia. }
  pose proof (ceil_div_spec size k ltac:(lia) ltac:(lia)) as Hc. cbn in Hc.
  assert (0 <= size / k <= size / 31) as Hd.
  { split; [apply Z.div_pos; lia|]. apply Z.div_le_compat_l; lia. }
  assert (size / 31 < 2 ^ 31) as Hd2 by (apply Z.div_lt_upper_bound; lia).
  eexists. split; [reflexivity|].
  assert ((if decide (0 < size mod k) then u32 (size / k + 1) else size / k) =
          (if decide (0 < size mod k) then size / k + 1 else size / k)) as ->.
  { case_decide; [|done]. unfold u32. apply Z.mod_small. lia. }
  split_and!; [lia| |].
  - intros Hp. destruct Hc as [Hc _]. rewrite (decide_False (P := size = 0)) in Hc by lia. lia.
  - intros ->. rewrite Z.mod_0_l, Z.div_0_l by lia. by rewrite decide_False by lia.
Qed.

Definition start_download (ext : bool) (size : Z) : Packet := {|
  pkt_layers := [LStartSoftwareDownloadRequest
    {| EntityClass := SoftwareImageClassID; EntityInstance := 1; Extended := ext |} 31 size];
  pkt_data := [] |}.

Lemma ComputeDownloadSectionsCount_ceil_witness :
  exists n, ComputeDownloadSectionsCount (start_download false 1000) = Done n /\
    1000 <= n * 31 /\ (n - 1) * 31 < 1000.
Proof.
  destruct (ComputeDownloadSectionsCount_ceil (start_download false 1000)
    {| EntityClass := SoftwareImageClassID; EntityInstance := 1; Extended := false |} 31 1000
    eq_refl) as (n & H1 & H2 & H3 & _).
  - unfold is_u32. lia.
  - exists n. split; [exact H1|]. split; [exact H2|]. apply H3. lia.
Defined.

(** The request for the [n]-th alarm. *)
Definition next_alarm_request (n : Z) : Packet := {|
  pkt_layers := [LGetAllAlarmsNextRequest (onu_data_base false) n]; pkt_data := [] |}.

(** The instances the count is about. *)
Definition alarmed (alarms : OnuAlarms) (i : Z) : bool :=
  bool_decide (is_Some (pptp_alarm alarms i)).

(** With no gap before an alarmed instance, the count separates the alarmed
    instances from the others. *)
Lemma alarm_count_prefix alarms n :
  (forall i j, 257 <= i -> i <= j -> j <= 261 -> is_Some (pptp_alarm alarms j) ->
     is_Some (pptp_alarm alarms i)) ->
  0 <= n -> (n < alarm_count alarms <-> n < 4 /\ is_Some (pptp_alarm alarms (257 + n))).
Proof.
  intros Hpre Hn.
  assert (forall i j, 257 <= i -> i <= j -> j <= 261 -> alarmed alarms j = true ->
            alarmed alarms i = true) as Hb.
  { intros i j H1 H2 H3. unfold alarmed. rewrite !bool_decide_eq_true. by apply Hpre. }
  clear Hpre. unfold alarm_count. cbn [List.filter]. fold (alarmed alarms 257)
    (alarmed alarms 258) (alarmed alarms 259) (alarmed alarms 260).
  rewrite <-(bool_decide_eq_true (is_Some (pptp_alarm alarms (257 + n)))).
  fold (alarmed alarms (257 + n)).
  pose proof (Hb 257 258 ltac:(lia) ltac:(lia) ltac:(lia)) as H1.
  pose proof (Hb 258 259 ltac:(lia) ltac:(lia) ltac:(lia)) as H2.
  pose proof (Hb 259 260 ltac:(lia) ltac:(lia) ltac:(lia)) as H3.
  clear Hb. assert (n = 0 \/ n = 1 \/ n = 2 \/ n = 3 \/ 4 <= n) as Hc by lia.
  destruct Hc as [->|[->|[->|[->|Hc]]]];
    [change (257 + 0) with 257|change (257 + 1) with 258|change (257 + 2) with 259
    |change (257 + 3) with 260|];
    destruct (alarmed alarms 257), (alarmed alarms 258), (alarmed alarms 259),
      (alarmed alarms 260); cbn; intuition (lia || discriminate).
Qed.

Section AlarmReports.
  Context `{OmciLib}.

(** When the alarmed UNIs are the first ones of the ONU, the count that is
    announced is exactly the number of instances that can be collected:
    sequence numbers below it report instance 257 + n with its bitmap, and the
    next one is refused. *)
Theorem GetAllAlarms_prefix_complete (alarms : OnuAlarms) (omciMsg : OMCI) (n : Z) :
  (forall i j, 257 <= i -> i <= j -> j <= 261 -> is_Some (pptp_alarm alarms j) ->
     is_Some (pptp_alarm alarms i)) ->
  pptp_alarm alarms 261 = None -> isExtended omciMsg = false -> is_u16 n ->
  (n < alarm_count alarms ->
     exists a, pptp_alarm alarms (257 + n) = Some a /\
     CreateGetAllAlarmsNextResponse (next_alarm_request n) omciMsg alarms =
       respond omciMsg GetAllAlarmsNextResponseType
         (BGetAllAlarmsNext (onu_data_base false) PhysicalPathTerminationPointEthernetUniClassID
            (257 + n) (AlarmBitMap a) [])) /\
  (alarm_count alarms <= n ->
     exists e, CreateGetAllAlarmsNextResponse (next_alarm_request n) omciMsg alarms = inl e).
Proof.
  intros Hpre H261 Hext Hn. unfold is_u16 in Hn.
  pose proof (alarm_count_prefix alarms n Hpre) as Hc.
  assert (u16 (257 + n) = 257 + n \/ 4 < n) as Hu.
  { destruct (decide (4 < n)); [by right|left]. unfold u16. apply Z.mod_small. lia. }
  unfold CreateGetAllAlarmsNextResponse, ParseGetAllAlarmsNextRequest. cbn [next_alarm_request
    pkt_layers first_layer]. rewrite Hext. cbn [andb]. split; intros Hlt.
  - destruct Hc as [[Hn4 [a Ha]] _]; [lia|done|]. exists a. split; [done|].
    rewrite decide_False by lia. destruct Hu as [->|]; [|lia]. by rewrite Ha.
  - case_decide as H4; [eauto|]. destruct Hu as [->|]; [|lia].
    destruct (pptp_alarm alarms (257 + n)) as [a|] eqn:Ha; [|eauto]. exfalso.
    destruct (decide (n = 4)) as [->|]; [change (257 + 4) with 261 in Ha; congruence|].
    enough (n < alarm_count alarms) by lia. apply Hc; [lia|]. split; [lia|eauto].
Qed.
End AlarmReports.

(** A serializer that always succeeds. *)
Definition trivial_omci : OmciLib := {|
  SerializeLayers := fun _ _ => inr [];
  SerializePartial := fun _ _ => [];
  LoadManagedEntityDefinition := fun c i a =>
    {| me_class := c; me_instance := i; me_attrs := a |};
  NewPacket := fun _ => None;
  Checksum := fun _ => 0 |}.

Definition los_on (l : list Z) : OnuAlarms :=
  list_to_map ((fun i => ((i, PhysicalPathTerminationPointEthernetUniClassID),
                          {| SequenceNo := 1; AlarmBitMap := 128 :: replicate 27 0 |})) <$> l).

Definition baseline_msg : OMCI :=
  {| TransactionID := 1; MsgType := GetAllAlarmsNextRequestType; DeviceIdentifier := BaselineIdent |}.

Lemma GetAllAlarms_prefix_complete_witness :
  alarm_count (los_on [257; 258]) = 2 /\
  exists e, @CreateGetAllAlarmsNextResponse trivial_omci (next_alarm_request 2) baseline_msg
    (los_on [257; 258]) = inl e.
Proof.
  split; [vm_compute; reflexivity|].
  apply (@GetAllAlarms_prefix_complete trivial_omci (los_on [257; 258]) baseline_msg 2).
  - intros i j Hi Hij Hj Hs.
    assert (i = 257 \/ i = 258 \/ 259 <= j) as [->|[->|Hj']] by lia.
    + vm_compute. eauto.
    + vm_compute. eauto.
    + assert (j = 259 \/ j = 260 \/ j = 261) as [->|[->| ->]] by lia;
        vm_compute in Hs; destruct Hs as [x Hx]; discriminate Hx.
  - vm_compute. reflexivity.
  - vm_compute. reflexivity.
  - unfold is_u16. lia.
  - vm_compute. discriminate.
Defined.

(** With a gap in the alarmed UNIs the collection is incomplete: one alarm is
    announced, and the only request the count allows is refused. *)
Lemma GetAllAlarms_gap_lost `{OmciLib} :
  alarm_count (los_on [258]) = 1 /\
  CreateGetAllAlarmsNextResponse (next_alarm_request 0) baseline_msg (los_on [258]) =
    inl "alarm-info-for-me-not-present-in-alarm-info-map".
Proof. split; vm_compute; reflexivity. Qed.
