(* ===== verification/MibDb.v ===== *)
(** * The MIB of an ONU and its upload

    [internal/common/omci/onu_mib_db.go] and the MIB upload of
    [mibpackets.go]: the managed entities an ONU reports, in order, the
    baseline upload (one entity per response, built when asked for) and the
    extended upload (responses packed with as many entities as fit, built in
    advance). *)
From S2P Require Import Prelude OmciTypes Omci Options.
Open Scope Z_scope.
Open Scope string_scope.

(** Source: internal/common/omci/onu_mib_db.go, [MibDbEntry].  A [nil] slice
    is [None]. *)
Record MibDbEntry := {
  classId : Z; entityId : EntityID; params : AttributeValueMap; packet : option (list Z) }.

(** Source: internal/common/omci/onu_mib_db.go, [MibDb]. *)
Record MibDb := {
  NumberOfBaselineCommands : Z; NumberOfExtendedCommands : Z;
  baselineItems : list MibDbEntry; extendedResponses : list (list Z) }.

Definition entry (c : Z) (e : EntityID) (p : AttributeValueMap) : MibDbEntry :=
  {| classId := c; entityId := e; params := p; packet := None |}.

(** ** Entries *)

(** The four messages a circuit pack is split in: unit type, number of ports,
    serial number and number of traffic schedulers vary. *)
Definition circuit_pack (type_ : attr_value) (ports : Z) (serial : string) (schedulers : Z)
    : list MibDbEntry :=
  [ entry CircuitPackClassID circuitPackEntityID
      [("Type", type_); ("NumberOfPorts", AInt ports);
       ("SerialNumber", ABytes (ToOctets serial 20)); ("Version", ABytes (ToOctets "v0.0.1" 20))];
    entry CircuitPackClassID circuitPackEntityID
      [("VendorId", ABytes (ToOctets "ONF" 4)); ("AdministrativeState", AInt 0);
       ("OperationalState", AInt 0); ("BridgedOrIpInd", AInt 0)];
    entry CircuitPackClassID circuitPackEntityID
      [("EquipmentId", ABytes (ToOctets "BBSM-Circuit-Pack" 20)); ("CardConfiguration", AInt 0);
       ("TotalTContBufferNumber", AInt 8); ("TotalPriorityQueueNumber", AInt 8);
       ("TotalTrafficSchedulerNumber", AInt schedulers)];
    entry CircuitPackClassID circuitPackEntityID [("PowerShedOverride", AU32 0)] ].

(** Source: internal/common/omci/onu_mib_db.go:122-262, [GenerateMibDatabase]
    (ONU-Data, the ANI circuit pack, ANI-G and the Ethernet circuit pack). *)
Definition fixed_items (ethUniPortCount : Z) (technology : PonTechnology) : list MibDbEntry :=
  let aniCPType := if decide (technology = XGSPON) then xgsPonUnitType
                   else if decide (technology = GPON) then gPonUnitType else 0 in
  ([ entry OnuDataClassID [0; 0] [("MibDataSync", AInt 0)] ] ++
   circuit_pack (AU8 aniCPType) 1 "BBSM-Circuit-Pack-ani" 0 ++
   [ entry AniGClassID [tcontSlotId; aniGId]
       [("Arc", AInt 0); ("ArcInterval", AInt 0); ("Deprecated", AInt 0);
        ("GemBlockLength", AInt 48); ("LowerOpticalThreshold", AInt 255);
        ("LowerTransmitPowerThreshold", AInt 129); ("OnuResponseTime", AInt 0);
        ("OpticalSignalLevel", AInt 57428); ("PiggybackDbaReporting", AInt 0);
        ("SignalDegradeThreshold", AInt 9); ("SignalFailThreshold", AInt 5);
        ("SrIndication", AInt 1); ("TotalTcontNumber", AInt 8);
        ("TransmitOpticalLevel", AInt 3171); ("UpperOpticalThreshold", AInt 255);
        ("UpperTransmitPowerThreshold", AInt 129)] ] ++
   circuit_pack (AU8 ethernetUnitType) ethUniPortCount "BBSM-Circuit-Pack" 16)%list.

(** Source: internal/common/omci/onu_mib_db.go:264-309, [GenerateMibDatabase]
    (the POTS circuit pack). *)
Definition pots_items (potsUniPortCount : Z) : list MibDbEntry :=
  if decide (0 < potsUniPortCount)
  then circuit_pack (AU8 potsUnitType) potsUniPortCount "BBSM-Circuit-Pack" 16
  else [].

(** The attributes of a priority queue with its related port and scheduler. *)
Definition queue_params (relatedPort : Z) (scheduler : attr_value) : AttributeValueMap :=
  [("QueueConfigurationOption", AInt 0); ("MaximumQueueSize", AInt 100);
   ("AllocatedQueueSize", AInt 100); ("DiscardBlockCounterResetInterval", AInt 0);
   ("ThresholdValueForDiscardedBlocksDueToBufferOverflow", AInt 0);
   ("RelatedPort", AU32 relatedPort); ("TrafficSchedulerPointer", scheduler);
   ("Weight", AInt 1); ("BackPressureOperation", AInt 1); ("BackPressureTime", AInt 0);
   ("BackPressureOccurQueueThreshold", AInt 0); ("BackPressureClearQueueThreshold", AInt 0)].

(** [append(owner, 0x00, byte(j)).ToUint32()] for a two-byte owner. *)
Definition related_port (owner : EntityID) (j : Z) : Z :=
  match owner with
  | [a; b] => be16_dec a b * 2 ^ 16 + be16_dec 0 (u8 j)
  | _ => 0
  end.

(** The queues of a port or of a T-CONT: each is reported without and then
    with its attributes. *)
Definition queue_items (slot i : Z) (owner : EntityID) (scheduler : attr_value) (n : nat)
    : list MibDbEntry :=
  seqZ 0 (Z.of_nat n) ≫= (fun j =>
    let queueEntityId := [slot; u8 (Z.shiftl i 4 + j)] in
    [ entry PriorityQueueClassID queueEntityId [];
      entry PriorityQueueClassID queueEntityId (queue_params (related_port owner j) scheduler) ]).

(** Source: internal/common/omci/onu_mib_db.go:315-366, [GenerateMibDatabase]
    (the termination point of the [i]-th port). *)
Definition port_item (ethUniPortCount i : Z) : MibDbEntry :=
  let uniEntityId := GenerateUniPortEntityId i in
  if decide (i <= ethUniPortCount) then
    entry PhysicalPathTerminationPointEthernetUniClassID uniEntityId
      [("ExpectedType", AInt 0); ("SensedType", AU8 ethernetUnitType);
       ("AutoDetectionConfiguration", AInt 0); ("EthernetLoopbackConfiguration", AInt 0);
       ("AdministrativeState", AInt 0); ("OperationalState", AInt 0);
       ("ConfigurationInd", AInt 3); ("MaxFrameSize", AInt 1518); ("DteOrDceInd", AInt 0);
       ("PauseTime", AInt 0); ("BridgedOrIpInd", AInt 2); ("Arc", AInt 0);
       ("ArcInterval", AInt 0); ("PppoeFilter", AInt 0); ("PowerControl", AInt 0)]
  else
    entry PhysicalPathTerminationPointPotsUniClassID uniEntityId
      [("AdministrativeState", AInt 0); ("Deprecated", AInt 0); ("Arc", AInt 0);
       ("ArcInterval", AInt 0); ("Impedance", AInt 0); ("TransmissionPath", AInt 0);
       ("RxGain", AInt 0); ("TxGain", AInt 0); ("OperationalState", AInt 0);
       ("HookState", AInt 0); ("PotsHoldoverTime", AInt 0); ("NominalFeedVoltage", AInt 0);
       ("LossOfSoftswitch", AInt 0)].

(** Source: internal/common/omci/onu_mib_db.go:311-416, [GenerateMibDatabase]
    (PPTP, UNI-G and downstream queues of every port). *)
Definition port_items (ethUniPortCount totalPortsCount : Z) : list MibDbEntry :=
  seqZ 1 totalPortsCount ≫= (fun i =>
    let uniEntityId := GenerateUniPortEntityId i in
    (port_item ethUniPortCount i ::
     entry UniGClassID uniEntityId
       [("AdministrativeState", AInt 0); ("Deprecated", AInt 0);
        ("ManagementCapability", AInt 0); ("NonOmciManagementIdentifier", AInt 0);
        ("RelayAgentOptions", AInt 0)] ::
     queue_items cardHolderSlotID i uniEntityId (AInt 0) downstreamPriorityQueues)%list).

(** Source: internal/common/omci/onu_mib_db.go:418-481, [GenerateMibDatabase]
    (T-CONTs, traffic schedulers and upstream queues). *)
Definition tcont_items : list MibDbEntry :=
  seqZ 1 (Z.of_nat tconts) ≫= (fun i =>
    let tcontEntityId := [tcontSlotId; u8 i] in
    let tsEntityId := [cardHolderSlotID; u8 i] in
    (entry TContClassID tcontEntityId [("AllocId", AInt 65535)] ::
     entry TrafficSchedulerClassID tsEntityId
       [("TContPointer", AU16 (be16_dec tcontSlotId (u8 i))); ("TrafficSchedulerPointer", AInt 0);
        ("Policy", AInt 2); ("PriorityWeight", AInt 0)] ::
     queue_items tcontSlotId i tcontEntityId (AU16 (be16_dec cardHolderSlotID (u8 i)))
       upstreamPriorityQueues)%list).

(** [hex.DecodeString] on the constants of the file. *)
Fixpoint hex_pairs (l : list Z) : list Z :=
  match l with
  | a :: b :: r => (hex_nibble a * 16 + hex_nibble b) :: hex_pairs r
  | _ => []
  end.
Definition hex_bytes (s : string) : list Z := hex_pairs (bytes_of s).

Definition unknownMePktReportedMeHdr : string := "002500018000".
Definition unknownMePktAttributes : string :=
  "0102030405060708090A0B0C0D0E0F101112131415161718191A".
Definition unknownAttribPktReportedMeHdr : string := "0101000007FD".
Definition unknownAttribPktAttributes : string :=
  "00400801000800000006007F07003F0001000100010001000000".

(** The bytes of a custom upload response: transaction 33066, the type of
    [MibUploadNextResponse] (0x2e), baseline format. *)
Definition custom_packet (hdr attrs : string) : list Z :=
  (be16 33066 ++ [0x2e; BaselineIdent] ++
   hex_bytes ("00020000" +:+ hdr +:+ attrs +:+ "0000002828ce00e2"))%list.

(** Source: internal/common/omci/onu_mib_db.go:483-568, [GenerateMibDatabase]
    (ONU2-G and the entries injected for testing). *)
Definition tail_items (injectUnknownAttributes injectUnknownMe : bool) : list MibDbEntry :=
  ((if injectUnknownAttributes then
      {| classId := Onu2GClassID; entityId := []; params := [];
         packet := Some (custom_packet unknownAttribPktReportedMeHdr unknownAttribPktAttributes) |}
    else
      entry Onu2GClassID [0; 0]
        [("TotalPriorityQueueNumber", AInt 64); ("TotalTrafficSchedulerNumber", AInt 8);
         ("Deprecated", AInt 1); ("TotalGemPortIdNumber", AInt 8); ("Sysuptime", AInt 6);
         ("ConnectivityCapability", AInt 127); ("CurrentConnectivityMode", AInt 7);
         ("QualityOfServiceQosConfigurationFlexibility", AInt 63);
         ("PriorityQueueScaleFactor", AInt 1)]) ::
   (if injectUnknownMe then
      [{| classId := 37; entityId := []; params := [];
          packet := Some (custom_packet unknownMePktReportedMeHdr unknownMePktAttributes) |}]
    else []))%list.

Definition baseline_items (ethUniPortCount potsUniPortCount : Z) (technology : PonTechnology)
    (injectUnknownAttributes injectUnknownMe : bool) : list MibDbEntry :=
  (fixed_items ethUniPortCount technology ++ pots_items potsUniPortCount ++
   port_items ethUniPortCount (ethUniPortCount + potsUniPortCount) ++ tcont_items ++
   tail_items injectUnknownAttributes injectUnknownMe)%list.

(** ** Extended responses *)

Section Extended.
  Context `{OmciLib}.

(** [me.LoadManagedEntityDefinition] of an entry. *)
Definition load_entry (e : MibDbEntry) : outcome ManagedEntity :=
  id ← ToUint16 (entityId e);
  mret (LoadManagedEntityDefinition (classId e) id (params e)).

Definition ext_header : OMCI :=
  {| TransactionID := 0xFFFF; MsgType := MibUploadNextResponseType;
     DeviceIdentifier := ExtendedIdent |}.

Definition ext_serialize (reported : ManagedEntity) (more : list ManagedEntity) : list Z :=
  let body := BMibUploadNext (onu_data_base true) reported more in
  match SerializeLayers ext_header body with
  | inr p => p
  | inl _ => SerializePartial ext_header body
  end.

(** Source: internal/common/omci/onu_mib_db.go:604-638, [GenerateMibDatabase]
    (the loop [addMeLoop]: entities are added while the response is at most
    1932 bytes; entries with a packet are passed over).  The result is the
    response, the entries it holds and the entries left. *)
Fixpoint addMeLoop (reported : ManagedEntity) (more : list ManagedEntity) (held : list MibDbEntry)
    (outgoing : list Z) (rest : list MibDbEntry)
    : outcome (list Z * list MibDbEntry * list MibDbEntry) :=
  match rest with
  | [] => Done (outgoing, held, [])
  | e :: rest' =>
      if decide (Z.of_nat (length outgoing) <= MaxExtendedLength - MaxBaselineLength) then
        match packet e with
        | Some _ => addMeLoop reported more held outgoing rest'
        | None =>
            m ← load_entry e;
            let more' := (more ++ [m])%list in
            addMeLoop reported more' (held ++ [e])%list (ext_serialize reported more') rest'
        end
      else Done (outgoing, held, rest)
  end.

(** Source: internal/common/omci/onu_mib_db.go:580-586, [GenerateMibDatabase]
    (the entries with a packet at the start of a response are passed over,
    without looking at the end of the table). *)
Fixpoint skip_packets (l : list MibDbEntry) : outcome (MibDbEntry * list MibDbEntry) :=
  match l with
  | [] => Panicked "index out of range"
  | e :: l' => match packet e with Some _ => skip_packets l' | None => Done (e, l') end
  end.

(** Source: internal/common/omci/onu_mib_db.go:572-645, [GenerateMibDatabase]
    (the extended responses, each with the entries it holds).  Every round
    takes at least one entry, so the number of entries is fuel enough. *)
Fixpoint ext_chunks (fuel : nat) (items : list MibDbEntry)
    : outcome (list (list Z * list MibDbEntry)) :=
  match fuel, items with
  | _, [] => Done []
  | O, _ :: _ => Panicked "out of fuel"
  | S fuel', _ :: _ =>
      '(e, rest) ← skip_packets items;
      reported ← load_entry e;
      '(outgoing, held, rest') ← addMeLoop reported [] [e] [] rest;
      chunks ← ext_chunks fuel' rest';
      mret ((outgoing, held) :: chunks)
  end.

(** The four hexadecimal digits of [fmt.Sprintf("%04X", n)], decoded. *)
Definition len_bytes (n : Z) : list Z := be16 n.

(** Source: internal/common/omci/onu_mib_db.go, [AppendAdditionalMEs].  The
    constants of the callers are valid hexadecimal strings, so the decoding
    errors do not occur. *)
Definition AppendAdditionalMEs (srcSlice : list Z) (reportedMeHdr attributes : string) : list Z :=
  let attribBytes := hex_bytes attributes in
  let data := (len_bytes (Z.of_nat (length attribBytes)) ++ hex_bytes (reportedMeHdr +:+ attributes))%list in
  let dstSlice := (srcSlice ++ data)%list in
  let messageContentsLen := be16_dec (dstSlice !!! 8%nat) (dstSlice !!! 9%nat) in
  let n := u16 (messageContentsLen + u16 (Z.of_nat (length data))) in
  <[9%nat := u8 n]> (<[8%nat := u8 (n / 2 ^ 8)]> dstSlice).

(** [slice[len-1], err = AppendAdditionalMEs(slice[len-1], ...)]. *)
Definition append_last (l : list (list Z)) (hdr attrs : string) : outcome (list (list Z)) :=
  match reverse l with
  | [] => Panicked "index out of range"
  | x :: r => Done (reverse (AppendAdditionalMEs x hdr attrs :: r))
  end.

(** Source: internal/common/omci/onu_mib_db.go:570-668, [GenerateMibDatabase]. *)
Definition GenerateMibDatabase (injectUnknownAttributes injectUnknownMe : bool)
    (ethUniPortCount potsUniPortCount : Z) (technology : PonTechnology) : outcome MibDb :=
  let items := baseline_items ethUniPortCount potsUniPortCount technology
                 injectUnknownAttributes injectUnknownMe in
  let n := u16 (Z.of_nat (length items)) in
  chunks ← ext_chunks (S (length items)) (take (Z.to_nat n) items);
  r1 ← (if injectUnknownMe
        then append_last chunks.*1 unknownMePktReportedMeHdr unknownMePktAttributes
        else mret chunks.*1);
  r2 ← (if injectUnknownAttributes
        then append_last r1 unknownAttribPktReportedMeHdr unknownAttribPktAttributes
        else mret r1);
  mret {| NumberOfBaselineCommands := n;
          NumberOfExtendedCommands := u16 (Z.of_nat (length r2));
          baselineItems := items; extendedResponses := r2 |}.

(** ** Upload *)

(** Source: internal/common/omci/mibpackets.go, [CreateMibUploadResponse]. *)
Definition CreateMibUploadResponse (omciMsg : OMCI) (mibDb : MibDb) : error + list Z :=
  let numberOfCommands := if isExtended omciMsg then NumberOfExtendedCommands mibDb
                          else NumberOfBaselineCommands mibDb in
  respond omciMsg MibUploadResponseType
    (BMibUpload (onu_data_base (isExtended omciMsg)) numberOfCommands).

(** Source: internal/common/omci/mibpackets.go, [ParseMibUploadNextRequest]. *)
Definition ParseMibUploadNextRequest (omciPkt : Packet) : error + Z :=
  match first_layer (fun l => match l with LMibUploadNextRequest _ n => Some n | _ => None end)
          (pkt_layers omciPkt) with
  | Some n => inr n
  | None => inl "omci Msg layer could not be detected for LayerTypeMibUploadNextRequest"
  end.

(** Source: internal/common/omci/mibpackets.go, [CreateMibUploadNextResponse].
    A response that cannot be serialized ends the process. *)
Definition CreateMibUploadNextResponse (omciPkt : Packet) (omciMsg : OMCI) (mibDb : MibDb)
    : outcome (error + list Z) :=
  match ParseMibUploadNextRequest omciPkt with
  | inl _ => Done (inl "omci Msg layer could not be assigned for LayerTypeGetRequest")
  | inr seq =>
      let numberOfCommands := if isExtended omciMsg then NumberOfExtendedCommands mibDb
                              else NumberOfBaselineCommands mibDb in
      if decide (numberOfCommands < seq) then Done (inl "mibdb-does-not-contain-item")
      else if isExtended omciMsg then
        match extendedResponses mibDb !! Z.to_nat seq with
        | None => Panicked "index out of range"
        | Some p =>
            pkt ← SetTxIdInEncodedPacket p (TransactionID omciMsg);
            mret (inr pkt)
        end
      else
        match baselineItems mibDb !! Z.to_nat seq with
        | None => Panicked "index out of range"
        | Some e =>
            match packet e with
            | Some p =>
                pkt ← SetTxIdInEncodedPacket p (TransactionID omciMsg);
                mret (inr pkt)
            | None =>
                reportedMe ← load_entry e;
                match Serialize MibUploadNextResponseType
                        (BMibUploadNext (onu_data_base false) reportedMe [])
                        (TransactionID omciMsg) with
                | inl _ => Exited "Cannot Serialize MibUploadNextRequest"
                | inr pkt => Done (inr pkt)
                end
            end
        end
  end.
End Extended.

(** * Properties *)

(** ** The table of entries *)

Lemma queue_items_length slot i owner s n :
  length (queue_items slot i owner s n) = (2 * n)%nat.
Proof.
  unfold queue_items. rewrite (length_bind_const _ 2) by done.
  rewrite length_seqZ. lia.
Qed.

Lemma port_items_length e t : length (port_items e t) = (18 * Z.to_nat t)%nat.
Proof.
  unfold port_items. rewrite (length_bind_const _ 18).
  - by rewrite length_seqZ.
  - intros i. cbn [length]. by rewrite queue_items_length.
Qed.

(** 155 entries for the ONU itself, 18 per port (termination point, UNI-G and
    eight queues reported twice), 4 for the POTS circuit pack and one for the
    injected unknown entity. *)
Lemma baseline_items_length eth pots tech inja injm :
  0 <= eth -> 0 <= pots ->
  Z.of_nat (length (baseline_items eth pots tech inja injm)) =
    155 + 18 * (eth + pots) + (if decide (0 < pots) then 4 else 0) +
    (if injm then 1 else 0).
Proof.
  intros He Hp. unfold baseline_items. rewrite !length_app, port_items_length.
  assert (length tcont_items = 144%nat) as -> by (vm_compute; reflexivity).
  assert (length (tail_items inja injm) = (1 + if injm then 1 else 0)%nat) as ->
    by (by destruct inja, injm).
  assert (length (pots_items pots) = if decide (0 < pots) then 4%nat else 0%nat) as ->
    by (unfold pots_items; by case_decide).
  assert (length (fixed_items eth tech) = 10%nat) as -> by done.
  case_decide; destruct injm; lia.
Qed.

(** An entry is either a ready packet, at least long enough to carry a
    transaction identifier, or has a two-byte entity identifier. *)
Definition wf_entry (e : MibDbEntry) : Prop :=
  match packet e with
  | Some p => (2 <= length p)%nat
  | None => exists a b, entityId e = [a; b]
  end.

Lemma wf_entry_two c a b p : wf_entry (entry c [a; b] p).
Proof. unfold wf_entry. cbn. eauto. Qed.

#[export] Hint Resolve wf_entry_two : core.

Lemma queue_items_wf slot i owner s n : Forall wf_entry (queue_items slot i owner s n).
Proof. apply Forall_bind_intro. intros j _. repeat constructor; auto. Qed.

Lemma baseline_items_wf eth pots tech inja injm :
  Forall wf_entry (baseline_items eth pots tech inja injm).
Proof.
  unfold baseline_items. rewrite !Forall_app. split_and!.
  - unfold fixed_items, circuit_pack. cbn. repeat constructor; unfold wf_entry; cbn; eauto.
  - unfold pots_items, circuit_pack. case_decide; repeat constructor; unfold wf_entry; cbn; eauto.
  - apply Forall_bind_intro. intros i _. constructor; [|constructor].
    + unfold port_item. case_decide; apply wf_entry_two.
    + apply wf_entry_two.
    + apply queue_items_wf.
  - apply Forall_bind_intro. intros i _. constructor; [|constructor]; [apply wf_entry_two..|apply queue_items_wf].
  - unfold tail_items. destruct inja, injm; repeat constructor; unfold wf_entry; cbn; eauto; lia.
Qed.

(** Only the injected entries are ready packets. *)
Lemma baseline_items_plain eth pots tech :
  Forall (fun e => packet e = None) (baseline_items eth pots tech false false).
Proof.
  assert (forall slot i owner s n, Forall (fun e => packet e = None) (queue_items slot i owner s n))
    as Hq by (intros; apply Forall_bind_intro; intros; repeat constructor).
  unfold baseline_items. rewrite !Forall_app. split_and!.
  - repeat constructor.
  - unfold pots_items. case_decide; repeat constructor.
  - apply Forall_bind_intro. intros i _. constructor; [|constructor]; [|done|apply Hq].
    unfold port_item. by case_decide.
  - apply Forall_bind_intro. intros i _. constructor; [|constructor]; [done|done|apply Hq].
  - repeat constructor.
Qed.

Section Upload.
  Context `{OmciLib}.

Lemma load_entry_wf e : wf_entry e -> packet e = None -> exists m, load_entry e = Done m.
Proof.
  unfold wf_entry, load_entry. intros Hw Hp. rewrite Hp in Hw. destruct Hw as (a & b & ->).
  mred. cbn. eauto.
Qed.

(** ** Packing *)

(** The entries the extended responses are made of. *)
Definition plain_entries (l : list MibDbEntry) : list MibDbEntry :=
  List.filter (fun e => bool_decide (packet e = None)) l.

(** The bytes of a response whose entities are the given ones: the loop only
    serializes once it added an entity, so a response with a single one is left
    empty. *)
Definition response_bytes_of (reported : ManagedEntity) (more : list ManagedEntity) : list Z :=
  match more with [] => [] | _ => ext_serialize reported more end.

(** The bytes are the response that reports the entries. *)
Definition response_of (outgoing : list Z) (held : list MibDbEntry) : Prop :=
  exists e es m ms, held = e :: es /\ load_entry e = Done m /\
    Forall2 (fun e m => load_entry e = Done m) es ms /\ outgoing = response_bytes_of m ms.

(** A response is closed before the end of the table only once it is full. *)
Definition full (outgoing : list Z) : Prop :=
  Z.of_nat (length outgoing) > MaxExtendedLength - MaxBaselineLength.

Lemma addMeLoop_spec e0 reported more es outgoing rest :
  Forall wf_entry rest -> load_entry e0 = Done reported ->
  Forall2 (fun e m => load_entry e = Done m) es more -> outgoing = response_bytes_of reported more ->
  exists o held' rest',
    addMeLoop reported more (e0 :: es) outgoing rest = Done (o, held', rest') /\
    (length rest' <= length rest)%nat /\ Forall wf_entry rest' /\
    (Forall (fun e => packet e = None) rest -> Forall (fun e => packet e = None) rest') /\
    (held' ++ plain_entries rest')%list = (e0 :: es ++ plain_entries rest)%list /\
    response_of o held' /\ (rest' <> [] -> full o).
Proof.
  intros Hw H0 Hes Ho. revert more es outgoing Hes Ho.
  induction rest as [|e rest IH]; intros more es outgoing Hes Ho.
  - eexists _, _, _. split; [reflexivity|]. split_and!; auto; [|done]. by exists e0, es, reported, more.
  - inversion Hw as [|? ? He Hr]; subst. cbn [addMeLoop]. case_decide as Hd.
    2: { eexists _, _, _. split; [reflexivity|]. split_and!; auto; [|intros _; unfold full; lia].
         by exists e0, es, reported, more. }
    destruct (packet e) as [p|] eqn:Ep.
    + destruct (IH Hr more es _ Hes eq_refl) as (o & h & r & -> & Hl & Hw' & Hn & Heq & Hf).
      eexists _, _, _. split; [reflexivity|]. split_and!; [cbn; lia|done| | |apply Hf..].
      * intros Hp. inversion Hp; subst. congruence.
      * rewrite Heq. unfold plain_entries. cbn. rewrite bool_decide_eq_false_2 by congruence. done.
    + destruct (load_entry_wf e He Ep) as [m Hm]. rewrite Hm. mred.
      destruct (IH Hr (more ++ [m])%list (es ++ [e])%list (ext_serialize reported (more ++ [m])%list))
        as (o & h & r & R & Hl & Hw' & Hn & Heq & Hf).
      { apply Forall2_app; [done|]. by constructor. }
      { by destruct more. }
      cbn [app] in R |- *. rewrite R.
      eexists _, _, _. split; [reflexivity|]. split_and!; [cbn; lia|done| | |apply Hf..].
      * intros Hp. inversion Hp; subst. auto.
      * rewrite Heq. unfold plain_entries. cbn. rewrite bool_decide_eq_true_2 by done.
        by rewrite <-app_assoc.
Qed.

(** With no ready packet in the table, the responses are built, hold every
    entry once and in order, report the entries they hold, and all but the last
    one are full. *)
Lemma ext_chunks_partition fuel items :
  (length items < fuel)%nat -> Forall wf_entry items ->
  Forall (fun e => packet e = None) items ->
  exists chunks, ext_chunks fuel items = Done chunks /\ mjoin chunks.*2 = items /\
    Forall (fun c => response_of c.1 c.2) chunks /\
    (forall i c, chunks !! i = Some c -> (S i < length chunks)%nat -> full c.1).
Proof.
  revert items. induction fuel as [|fuel IH]; intros items Hf Hw Hn; [lia|].
  destruct items as [|e items]; [exists []; by split_and!|].
  inversion Hw as [|? ? He Hr]; subst. inversion Hn as [|? ? Hp Hn']; subst.
  cbn [ext_chunks skip_packets]. rewrite Hp. mred.
  destruct (load_entry_wf e He Hp) as [m Hm]. rewrite Hm.
  destruct (addMeLoop_spec e m [] [] [] items Hr Hm) as (o & h & r & -> & Hl & Hw' & Hn2 & Heq & Hres & Hfull);
    [done..|].
  cbn in Hf. destruct (IH r) as (chunks & R & Hj & Hall & Hlast); [lia|done|auto|]. rewrite R.
  eexists. split; [reflexivity|]. rewrite fmap_cons. split_and!.
  - change (h ++ mjoin chunks.*2 = e :: items)%list. rewrite Hj.
    assert (forall l, Forall (fun e => packet e = None) l -> plain_entries l = l) as Hpl.
    { intros l Hl'. unfold plain_entries. induction Hl' as [|x l Hx _ IHl]; [done|].
      cbn. rewrite bool_decide_eq_true_2 by done. by rewrite IHl. }
    rewrite (Hpl items) in Heq by done. rewrite (Hpl r) in Heq by auto. exact Heq.
  - by constructor.
  - intros [|i] c Hc Hi; cbn in Hc, Hi; [|by eapply Hlast; [exact Hc|lia]].
    injection Hc as <-. apply Hfull. intros E. rewrite E in R. destruct fuel; cbn in R; injection R as <-; cbn in Hi; lia.
Qed.

(** The database that is built without injected entries. *)
Lemma GenerateMibDatabase_built eth pots tech :
  0 <= eth -> 0 <= pots -> eth + pots <= 255 ->
  let items := baseline_items eth pots tech false false in
  exists chunks, mjoin chunks.*2 = items /\ Forall (fun c => response_of c.1 c.2) chunks /\
    (forall i c, chunks !! i = Some c -> (S i < length chunks)%nat -> full c.1) /\
    GenerateMibDatabase false false eth pots tech =
      Done {| NumberOfBaselineCommands := Z.of_nat (length items);
              NumberOfExtendedCommands := u16 (Z.of_nat (length chunks.*1));
              baselineItems := items; extendedResponses := chunks.*1 |}.
Proof.
  intros He Hp Hs items. unfold GenerateMibDatabase. fold items.
  assert (u16 (Z.of_nat (length items)) = Z.of_nat (length items)) as Hu.
  { subst items. rewrite baseline_items_length by done. unfold u16. apply Z.mod_small.
    case_decide; lia. }
  rewrite Hu, Nat2Z.id, firstn_all.
  destruct (ext_chunks_partition (S (length items)) items) as (chunks & -> & Hj & Hc & Hf);
    [lia|apply baseline_items_wf|apply baseline_items_plain|]. by exists chunks.
Qed.

(** C35: without injected test entries the MIB of an ONU with at most 255
    ports is generated; it announces as many baseline commands as it has
    entries (155, 18 per port and 4 for the POTS circuit pack).  Its extended
    responses partition those entries, each once and in the same order: the
    bytes of a response are the MIB upload next response, as the library
    serializes it, whose reported entity is the first entry of its part and
    whose additional entities are the others, and every response but the last
    one is longer than 1932 bytes.  A response is empty when its part is a
    single entry, which by the lengths can only be the last one. *)
Theorem GenerateMibDatabase_complete eth pots tech :
  0 <= eth -> 0 <= pots -> eth + pots <= 255 ->
  exists db chunks,
    GenerateMibDatabase false false eth pots tech = Done db /\
    NumberOfBaselineCommands db = Z.of_nat (length (baselineItems db)) /\
    NumberOfBaselineCommands db =
      155 + 18 * (eth + pots) + (if decide (0 < pots) then 4 else 0) /\
    extendedResponses db = chunks.*1 /\ mjoin chunks.*2 = baselineItems db /\
    Forall (fun c => response_of c.1 c.2) chunks /\
    (forall i c, chunks !! i = Some c -> (S i < length chunks)%nat -> full c.1).
Proof.
  intros He Hp Hs.
  destruct (GenerateMibDatabase_built eth pots tech He Hp Hs) as (chunks & Hj & Hc & Hf & ->).
  eexists _, chunks. split; [reflexivity|]. split_and!; [done| |done|done|done|exact Hf].
  cbn [NumberOfBaselineCommands]. rewrite baseline_items_length by done. lia.
Qed.

(** An entry that is left for a response of its own gives an empty response,
    and an ONU that is asked for it panics. *)
Lemma single_entry_response_panics (db : MibDb) (omciMsg : OMCI) (omciPkt : Packet) (seq : Z)
    (e : MibDbEntry) :
  wf_entry e -> packet e = None ->
  ext_chunks 2 [e] = Done [([], [e])] /\
  (isExtended omciMsg = true -> ParseMibUploadNextRequest omciPkt = inr seq ->
   seq <= NumberOfExtendedCommands db -> extendedResponses db !! Z.to_nat seq = Some [] ->
   CreateMibUploadNextResponse omciPkt omciMsg db = Panicked "slice bounds out of range").
Proof.
  intros Hw Hp. split.
  - cbn [ext_chunks skip_packets]. rewrite Hp. mred. by destruct (load_entry_wf e Hw Hp) as [m ->].
  - intros Hx Hq Hle Hl. unfold CreateMibUploadNextResponse. rewrite Hq, Hx, decide_False by lia.
    by rewrite Hl.
Qed.

(** A database whose announced baseline commands are its entries. *)
Definition wf_db (db : MibDb) : Prop :=
  NumberOfBaselineCommands db = Z.of_nat (length (baselineItems db)) /\
  Forall wf_entry (baselineItems db).

(** C36: in a baseline upload every announced sequence number is answered (the
    process exits only if the library cannot serialize the entity); a number
    past the announced ones is refused; but the number of commands itself,
    which the guard lets through, indexes past the table. *)
Theorem MibUploadNext_baseline (db : MibDb) (omciMsg : OMCI) (pkt : Packet) (seq : Z) :
  wf_db db -> isExtended omciMsg = false -> ParseMibUploadNextRequest pkt = inr seq -> 0 <= seq ->
  (seq < NumberOfBaselineCommands db ->
     (exists p, CreateMibUploadNextResponse pkt omciMsg db = Done (inr p)) \/
     CreateMibUploadNextResponse pkt omciMsg db = Exited "Cannot Serialize MibUploadNextRequest") /\
  (seq = NumberOfBaselineCommands db ->
     CreateMibUploadNextResponse pkt omciMsg db = Panicked "index out of range") /\
  (NumberOfBaselineCommands db < seq ->
     CreateMibUploadNextResponse pkt omciMsg db = Done (inl "mibdb-does-not-contain-item")).
Proof.
  intros [Hn Hw] Hext Hparse Hseq. unfold CreateMibUploadNextResponse. rewrite Hparse, Hext, Hn.
  split_and!; intros Hc.
  - rewrite decide_False by lia.
    destruct (lookup_lt_is_Some_2 (baselineItems db) (Z.to_nat seq)) as [e He]; [lia|].
    rewrite He. assert (wf_entry e) as Hwe by (eapply Forall_lookup_1; eauto).
    destruct (packet e) as [p|] eqn:Ep.
    + unfold wf_entry in Hwe. rewrite Ep in Hwe. left. unfold SetTxIdInEncodedPacket.
      rewrite decide_False by lia. mred. eauto.
    + destruct (load_entry_wf e Hwe Ep) as [m ->]. mred. destruct (Serialize _ _ _); eauto.
  - rewrite decide_False by lia. rewrite lookup_ge_None_2 by lia. done.
  - by rewrite decide_True by lia.
Qed.
End Upload.

Lemma GenerateMibDatabase_complete_witness :
  exists db chunks,
    @GenerateMibDatabase trivial_omci false false 4 1 XGSPON = Done db /\
    mjoin (chunks : list (list Z * list MibDbEntry)).*2 = baselineItems db /\
    Forall (fun c => @response_of trivial_omci c.1 c.2) chunks.
Proof.
  destruct (@GenerateMibDatabase_complete trivial_omci 4 1 XGSPON) as (db & ch & H1 & _ & _ & _ & H2 & H3 & _).
  - lia.
  - lia.
  - lia.
  - exists db, ch. exact (conj H1 (conj H2 H3)).
Defined.

Definition onu_data_db : MibDb := {|
  NumberOfBaselineCommands := 1; NumberOfExtendedCommands := 0;
  baselineItems := [entry OnuDataClassID [0; 0] [("MibDataSync", AInt 0)]];
  extendedResponses := [] |}.

Definition next_request (seq : Z) : Packet := {|
  pkt_layers := [LMibUploadNextRequest (onu_data_base false) seq]; pkt_data := [] |}.

Lemma MibUploadNext_baseline_witness :
  @CreateMibUploadNextResponse trivial_omci (next_request 1) baseline_msg onu_data_db =
    Panicked "index out of range".
Proof.
  apply (@MibUploadNext_baseline trivial_omci onu_data_db baseline_msg (next_request 1) 1).
  - split; [reflexivity|]. repeat constructor. apply wf_entry_two.
  - reflexivity.
  - reflexivity.
  - lia.
  - reflexivity.
Defined.
