(* ===== verification/Packets.v ===== *)
(** * Data-plane packets

    The frames the simulated subscribers and the NNI exchange, and the
    functions of [internal/bbsim/packetHandlers] over them.  A
    [gopacket.Packet] built with [gopacket.Default] is determined by its
    bytes, so a packet is its bytes and [Layers] is what the library decodes
    from them.  The Ethernet, 802.1Q, EAPOL and EAP codecs of the vendored
    [gopacket/layers] package are written out (the tagging code depends on
    their padding and on their errors); everything above IP is reached through
    the class [Gopacket]. *)
From S2P Require Import Prelude.
Open Scope Z_scope.
Open Scope string_scope.

(** ** Layers *)

Record Ethernet := {
  SrcMAC : list Z; DstMAC : list Z; EthernetType : Z; eth_Payload : list Z }.
Record Dot1Q := {
  Priority : Z; DropEligible : bool; VLANIdentifier : Z; Dot1Q_Type : Z;
  dot1q_Payload : list Z }.
Record EAPOL := { EAPOL_Version : Z; EAPOL_Type : Z; EAPOL_Length : Z }.
Record EAP := {
  EAP_Code : Z; EAP_Id : Z; EAP_Length : Z; EAP_Type : Z; EAP_TypeData : list Z;
  EAP_Contents : list Z }.
Record DHCPOption := { Opt_Type : Z; Opt_Data : list Z }.
Record DHCPv4 := {
  Operation : Z; Xid : Z; ClientIP : list Z; YourClientIP : list Z;
  ClientHWAddr : list Z; Options : list DHCPOption }.

Inductive PLayer :=
| PEthernet (e : Ethernet)
| PDot1Q (d : Dot1Q)
| PEAPOL (e : EAPOL)
| PEAP (e : EAP)
| PDHCPv4 (d : DHCPv4)
| PIGMPv1or2 (Type_ : Z) (GroupAddress : list Z)
| PIGMP (Type_ : Z) (GroupAddress : list Z)
| PLinkLayerDiscovery
| PICMPv6
| POther (n : Z).

(** A packet with its bytes. *)
Abbreviation NetPacket := (list Z) (only parsing).

(** What is decoded above Ethernet, 802.1Q and EAPOL, and the bytes of an
    IPv4/UDP/DHCP datagram (source port, destination port, message) and of an
    IPv4 datagram with an IGMP payload (destination, payload). *)
Class Gopacket := {
  decode_net : Z -> list Z -> list PLayer;
  serialize_udp_dhcp : Z -> Z -> DHCPv4 -> error + list Z;
  serialize_ipv4_igmp : list Z -> list Z -> error + list Z
}.

Definition EthernetTypeDot1Q : Z := 0x8100.
Definition EthernetTypeQinQ : Z := 0x88a8.
Definition EthernetTypeEAPOL : Z := 0x888e.
Definition EthernetTypeIPv4 : Z := 0x0800.
Definition EthernetTypeLLC : Z := 0.

(** ** Decoding *)

(** [EAP.DecodeFromBytes]; a slice out of range is recovered by [gopacket]
    and leaves no EAP layer. *)
Definition decodeEAP (data : list Z) : list PLayer :=
  match data with
  | c :: i :: h :: l :: rest =>
      let len := be16_dec h l in
      if decide (length data < Z.to_nat len)%nat then []
      else if decide (4 < len) then
        match rest with
        | t :: td => [PEAP {| EAP_Code := c; EAP_Id := i; EAP_Length := len; EAP_Type := t;
                             EAP_TypeData := td; EAP_Contents := take (Z.to_nat len) data |}]
        | [] => []
        end
      else if decide (len = 4) then
        [PEAP {| EAP_Code := c; EAP_Id := i; EAP_Length := len; EAP_Type := 0;
                 EAP_TypeData := []; EAP_Contents := take (Z.to_nat len) data |}]
      else []
  | _ => []
  end.

(** [EAPOL.DecodeFromBytes] and the layer it hands its payload to. *)
Definition decodeEAPOL (data : list Z) : list PLayer :=
  match data with
  | v :: t :: h :: l :: rest =>
      PEAPOL {| EAPOL_Version := v; EAPOL_Type := t; EAPOL_Length := be16_dec h l |} ::
      (if decide (t = 0) then decodeEAP rest else [])
  | _ => []
  end.

Definition dot1q_of (a b c d : Z) (payload : list Z) : Dot1Q := {|
  Priority := Z.shiftr (Z.land a 0xE0) 5;
  DropEligible := negb (bool_decide (Z.land a 0x10 = 0));
  VLANIdentifier := Z.land (be16_dec a b) 0x0FFF;
  Dot1Q_Type := be16_dec c d;
  dot1q_Payload := payload |}.

Definition is_dot1q_type (t : Z) : bool :=
  bool_decide (t = EthernetTypeDot1Q) || bool_decide (t = EthernetTypeQinQ).

Section Decoding.
  Context `{Gopacket}.

(** The decoders chained from an Ethernet type over the bytes that follow;
    [Dot1Q.DecodeFromBytes] takes four bytes. *)
Fixpoint decode_type (ty : Z) (data : list Z) : list PLayer :=
  if is_dot1q_type ty then
    match data with
    | a :: b :: c :: d :: payload =>
        PDot1Q (dot1q_of a b c d payload) ::
        match payload with
        | [] => []
        | _ :: _ => decode_type (be16_dec c d) payload
        end
    | _ => []
    end
  else if decide (ty = EthernetTypeEAPOL) then decodeEAPOL data
  else decode_net ty data.

(** [Ethernet.DecodeFromBytes]: below 0x0600 the type field is a length and
    the bytes after it are dropped. *)
Definition ethernet_of (data : list Z) : option Ethernet :=
  if decide (length data < 14)%nat then None
  else
    let ty := be16_dec (data !!! 12%nat) (data !!! 13%nat) in
    if decide (ty < 0x0600) then
      Some {| DstMAC := take 6 data; SrcMAC := take 6 (drop 6 data);
              EthernetType := EthernetTypeLLC;
              eth_Payload := take (Z.to_nat ty) (drop 14 data) |}
    else
      Some {| DstMAC := take 6 data; SrcMAC := take 6 (drop 6 data);
              EthernetType := ty; eth_Payload := drop 14 data |}.

Definition Layers (pkt : NetPacket) : list PLayer :=
  match ethernet_of pkt with
  | None => []
  | Some e =>
      PEthernet e ::
      match eth_Payload e with
      | [] => []
      | _ :: _ => decode_type (EthernetType e) (eth_Payload e)
      end
  end.

(** [pkt.Layer(t)]. *)
Fixpoint find_layer {A : Type} (sel : PLayer -> option A) (l : list PLayer) : option A :=
  match l with
  | [] => None
  | x :: l' => match sel x with Some a => Some a | None => find_layer sel l' end
  end.

Definition sel_Ethernet (l : PLayer) : option Ethernet :=
  match l with PEthernet e => Some e | _ => None end.
Definition sel_Dot1Q (l : PLayer) : option Dot1Q :=
  match l with PDot1Q e => Some e | _ => None end.
Definition sel_EAPOL (l : PLayer) : option EAPOL :=
  match l with PEAPOL e => Some e | _ => None end.
Definition sel_EAP (l : PLayer) : option EAP :=
  match l with PEAP e => Some e | _ => None end.
Definition sel_DHCPv4 (l : PLayer) : option DHCPv4 :=
  match l with PDHCPv4 e => Some e | _ => None end.
Definition sel_IGMP (l : PLayer) : option (Z * list Z) :=
  match l with PIGMPv1or2 t g => Some (t, g) | PIGMP t g => Some (t, g) | _ => None end.
Definition sel_LLDP (l : PLayer) : option unit :=
  match l with PLinkLayerDiscovery => Some tt | _ => None end.
Definition sel_ICMPv6 (l : PLayer) : option unit :=
  match l with PICMPv6 => Some tt | _ => None end.

Definition PktLayer {A : Type} (sel : PLayer -> option A) (pkt : NetPacket) : option A :=
  find_layer sel (Layers pkt).

(** ** Encoding *)

(** The padding of [Ethernet.SerializeTo] to the minimum frame size. *)
Definition pad60 (b : list Z) : list Z := (b ++ replicate (60 - length b) 0)%list.

(** [Ethernet.SerializeTo] over a payload; [None] on a MAC address that is
    not six bytes long. *)
Definition serialize_ethernet (dst src : list Z) (ty : Z) (payload : list Z) : option (list Z) :=
  if decide (length dst = 6%nat /\ length src = 6%nat)
  then Some (pad60 (dst ++ src ++ be16 ty ++ payload)%list)
  else None.

(** [Dot1Q.SerializeTo] over a payload; a VLAN identifier above 0xFFF is an
    error. *)
Definition serialize_dot1q (prio vlan ty : Z) (payload : list Z) : option (list Z) :=
  if decide (0xFFF < vlan) then None
  else Some (be16 (Z.lor (u16 (Z.shiftl prio 13)) vlan) ++ be16 ty ++ payload)%list.

(** ** Packet types and filters *)

(** Source: internal/bbsim/packetHandlers/packetTypes.go, [PacketType]. *)
Inductive PacketType := UNKNOWN | PT_EAPOL | PT_DHCP | PT_IGMP | PT_ICMP.

(** Source: internal/bbsim/packetHandlers/packetTypes.go, [PacketType.String]. *)
Definition PacketType_String (t : PacketType) : string :=
  match t with
  | UNKNOWN => "UNKNOWN"
  | PT_EAPOL => "EAPOL"
  | PT_DHCP => "DHCP"
  | PT_IGMP => "IGMP"
  | PT_ICMP => "ICMP"
  end.

(** Source: internal/bbsim/packetHandlers/filters.go, [IsDhcpPacket]. *)
Definition IsDhcpPacket (pkt : NetPacket) : bool :=
  if PktLayer sel_DHCPv4 pkt is Some _ then true else false.

(** Source: internal/bbsim/packetHandlers/filters.go, [IsIgmpPacket]. *)
Definition IsIgmpPacket (pkt : NetPacket) : bool :=
  if PktLayer sel_IGMP pkt is Some _ then true else false.

(** Source: internal/bbsim/packetHandlers/filters.go, [IsLldpPacket]. *)
Definition IsLldpPacket (pkt : NetPacket) : bool :=
  if PktLayer sel_LLDP pkt is Some _ then true else false.

(** Source: internal/bbsim/packetHandlers/filters.go, [IsIcmpPacket]. *)
Definition IsIcmpPacket (pkt : NetPacket) : bool :=
  if PktLayer sel_ICMPv6 pkt is Some _ then true else false.

Definition DHCPOpRequest : Z := 1.
Definition DHCPOpReply : Z := 2.

(** Source: internal/bbsim/packetHandlers/filters.go, [IsIncomingPacket]. *)
Definition IsIncomingPacket (pkt : NetPacket) : bool :=
  match PktLayer sel_DHCPv4 pkt with
  | Some dhcp => bool_decide (Operation dhcp = DHCPOpReply)
  | None => false
  end.

(** Source: internal/bbsim/packetHandlers/filters.go, [GetDstMacAddressFromPacket]. *)
Definition GetDstMacAddressFromPacket (pkt : NetPacket) : error + list Z :=
  match PktLayer sel_Ethernet pkt with
  | Some eth => inr (DstMAC eth)
  | None => inl "cant-find-mac-address"
  end.

(** Source: internal/bbsim/packetHandlers/filters.go, [GetSrcMacAddressFromPacket]. *)
Definition GetSrcMacAddressFromPacket (pkt : NetPacket) : error + list Z :=
  match PktLayer sel_Ethernet pkt with
  | Some eth => inr (SrcMAC eth)
  | None => inl "cant-find-mac-address"
  end.

(** Source: internal/bbsim/packetHandlers/filters.go, [GetPktType]. *)
Definition GetPktType (pkt : NetPacket) : error + PacketType :=
  match PktLayer sel_EAP pkt, PktLayer sel_EAPOL pkt with
  | Some _, _ | _, Some _ => inr PT_EAPOL
  | None, None =>
      if IsDhcpPacket pkt then inr PT_DHCP
      else if IsIgmpPacket pkt then inr PT_IGMP
      else if IsIcmpPacket pkt then inr PT_ICMP
      else inl "unknown-packet-type"
  end.

(** ** Tags *)

(** Source: internal/bbsim/packetHandlers/packet_tags.go, [getEthernetLayer].
    A packet without the layer yields an empty one, never nil. *)
Definition getEthernetLayer (pkt : NetPacket) : Ethernet :=
  match PktLayer sel_Ethernet pkt with
  | Some eth => eth
  | None => {| SrcMAC := []; DstMAC := []; EthernetType := 0; eth_Payload := [] |}
  end.

(** Source: internal/bbsim/packetHandlers/packet_tags.go, [getDot1QLayer]. *)
Definition getDot1QLayer (pkt : NetPacket) : error + Dot1Q :=
  match PktLayer sel_Dot1Q pkt with
  | Some d => inr d
  | None => inl "no-dot1q-layer-in-packet"
  end.

(** Source: internal/bbsim/packetHandlers/packet_tags.go, [PushSingleTag].
    The error of [SerializeLayers] is dropped: what was written before it is
    the packet (four zero bytes and the payload when the VLAN does not fit,
    the tag and the payload when there was no Ethernet header). *)
Definition PushSingleTag (tag : Z) (pkt : NetPacket) (pbit : Z) : error + NetPacket :=
  let eth := getEthernetLayer pkt in
  match serialize_dot1q pbit (u16 tag) (EthernetType eth) (eth_Payload eth) with
  | None => inr ([0; 0; 0; 0] ++ eth_Payload eth)%list
  | Some b =>
      match serialize_ethernet (DstMAC eth) (SrcMAC eth) EthernetTypeDot1Q b with
      | None => inr b
      | Some bytes => inr bytes
      end
  end.

(** Source: internal/bbsim/packetHandlers/packet_tags.go, [PushDoubleTag]. *)
Definition PushDoubleTag (stag ctag : Z) (pkt : NetPacket) (pbit : Z) : error + NetPacket :=
  match PushSingleTag ctag pkt pbit with
  | inl e => inl e
  | inr singleTaggedPkt => PushSingleTag stag singleTaggedPkt pbit
  end.

(** Source: internal/bbsim/packetHandlers/packet_tags.go, [PopSingleTag]. *)
Definition PopSingleTag (pkt : NetPacket) : error + NetPacket :=
  match getDot1QLayer pkt with
  | inl e => inl e
  | inr layer =>
      let eth := getEthernetLayer pkt in
      match serialize_ethernet (DstMAC eth) (SrcMAC eth) (Dot1Q_Type layer)
              (dot1q_Payload layer) with
      | None => inr (dot1q_Payload layer)
      | Some bytes => inr bytes
      end
  end.

(** Source: internal/bbsim/packetHandlers/packet_tags.go, [PopDoubleTag]. *)
Definition PopDoubleTag (pkt : NetPacket) : error + NetPacket :=
  match PopSingleTag pkt with
  | inl e => inl e
  | inr packet => PopSingleTag packet
  end.

(** Source: internal/bbsim/packetHandlers/packet_tags.go, [GetVlanTag]. *)
Definition GetVlanTag (pkt : NetPacket) : error + Z :=
  match getDot1QLayer pkt with
  | inl e => inl e
  | inr d => inr (VLANIdentifier d)
  end.

(** Source: internal/bbsim/packetHandlers/packet_tags.go, [GetPbit]. *)
Definition GetPbit (pkt : NetPacket) : error + Z :=
  match getDot1QLayer pkt with
  | inl e => inl e
  | inr d => inr (Priority d)
  end.

(** Source: internal/bbsim/packetHandlers/packet_tags.go, [GetTagsFromPacket]. *)
Definition GetTagsFromPacket (pkt : NetPacket) : error + (Z * Z) :=
  match GetVlanTag pkt with
  | inl e => inl e
  | inr oTag =>
      match PopSingleTag pkt with
      | inl e => inl e
      | inr popped =>
          match PktLayer sel_Dot1Q popped with
          | None => inr (oTag, 0)
          | Some _ =>
              match GetVlanTag popped with
              | inl e => inl e
              | inr iTag => inr (oTag, iTag)
              end
          end
      end
  end.
End Decoding.

(** * Properties *)

(** The bytes of an Ethernet II frame. *)
Definition frame (dst src : list Z) (ty : Z) (payload : list Z) : NetPacket :=
  (dst ++ src ++ be16 ty ++ payload)%list.

(** The class of the frames the theorems are about. *)
Definition is_frame (dst src : list Z) (ty : Z) : Prop :=
  length dst = 6%nat /\ length src = 6%nat /\ is_u16 ty /\ 0x0600 <= ty.

Lemma be16_dec_be16 z : is_u16 z -> be16_dec (u8 (z / 2 ^ 8)) (u8 z) = z.
Proof.
  unfold is_u16, be16_dec, u8. change (2 ^ 8) with 256. change (2 ^ 16) with 65536. intros H.
  rewrite (Z.mod_small (z / 256)).
  - pose proof (Z.div_mod z 256). lia.
  - split; [apply Z.div_pos|apply Z.div_lt_upper_bound]; lia.
Qed.

Lemma drop_frame dst src ty p :
  length dst = 6%nat -> length src = 6%nat -> drop 14 (frame dst src ty p) = p.
Proof.
  intros Hd Hs. unfold frame.
  rewrite !app_assoc, drop_app_length'; [done|]. rewrite !length_app. cbn. lia.
Qed.

Lemma ethernet_of_frame dst src ty p :
  is_frame dst src ty ->
  ethernet_of (frame dst src ty p) =
    Some {| DstMAC := dst; SrcMAC := src; EthernetType := ty; eth_Payload := p |}.
Proof.
  intros (Hd & Hs & Ht & Hty). unfold ethernet_of.
  rewrite decide_False by (unfold frame; rewrite !length_app; cbn; lia).
  rewrite drop_frame by done. cbv zeta.
  assert (frame dst src ty p !!! 12%nat = u8 (ty / 2 ^ 8) /\
          frame dst src ty p !!! 13%nat = u8 ty) as [-> ->].
  { unfold frame. split.
    - rewrite !lookup_total_app_r by lia. by rewrite Hd, Hs.
    - rewrite !lookup_total_app_r by lia. by rewrite Hd, Hs. }
  rewrite be16_dec_be16 by done. rewrite decide_False by lia.
  f_equal. f_equal; unfold frame.
  - rewrite (drop_app_length' dst _ 6) by done. by apply take_app_length'.
  - by apply take_app_length'.
Qed.

Lemma be16_length z : length (be16 z) = 2%nat.
Proof. done. Qed.

(** Padding goes to the end of the payload. *)
Lemma pad60_frame dst src ty p :
  pad60 (frame dst src ty p) =
    frame dst src ty (p ++ replicate (60 - length (frame dst src ty p)) 0)%list.
Proof. unfold pad60, frame. by rewrite <-!app_assoc. Qed.

Lemma frame_length dst src ty p :
  length dst = 6%nat -> length src = 6%nat ->
  length (frame dst src ty p) = (14 + length p)%nat.
Proof. unfold frame. rewrite !length_app, be16_length. lia. Qed.

Section Tags.
  Context `{Gopacket}.

Lemma getEthernetLayer_frame dst src ty p :
  is_frame dst src ty ->
  getEthernetLayer (frame dst src ty p) =
    {| DstMAC := dst; SrcMAC := src; EthernetType := ty; eth_Payload := p |}.
Proof.
  intros Hf. unfold getEthernetLayer, PktLayer, Layers. by rewrite ethernet_of_frame.
Qed.

(** The four bytes of a tag. *)
Definition tag_bytes (pbit vlan ty : Z) : list Z :=
  (be16 (Z.lor (u16 (Z.shiftl pbit 13)) vlan) ++ be16 ty)%list.

(** A tag control field packs the priority above the VLAN and unpacks to
    both; there are 8 priorities and 4096 VLANs, so the bits are checked
    through division. *)
Lemma tci_value pbit vlan :
  0 <= pbit <= 7 -> 0 <= vlan <= 0xFFF ->
  Z.lor (u16 (Z.shiftl pbit 13)) vlan = pbit * 2 ^ 13 + vlan.
Proof.
  intros Hp Hv. unfold u16. rewrite Z.shiftl_mul_pow2 by lia.
  rewrite Z.mod_small by lia. rewrite <-Z.shiftl_mul_pow2 by lia.
  assert (Z.land (Z.shiftl pbit 13) vlan = 0) as Hl.
  { apply Z.bits_inj'. intros n Hn. rewrite Z.land_spec, Z.bits_0.
    destruct (decide (n < 13)).
    - rewrite Z.shiftl_spec_low by lia. done.
    - rewrite (Z.bits_above_log2 vlan n); [by rewrite andb_false_r|lia|].
      destruct (decide (vlan = 0)) as [->|]; [cbn; lia|].
      apply Z.log2_lt_pow2; [lia|]. apply (Z.lt_le_trans _ (2 ^ 12)); [lia|].
      apply Z.pow_le_mono_r; lia. }
  rewrite <-Z.lxor_lor by done. symmetry. apply Z.add_nocarry_lxor. done.
Qed.

Lemma tci_unpack pbit vlan hi lo :
  0 <= pbit <= 7 -> 0 <= vlan <= 0xFFF ->
  hi = u8 ((pbit * 2 ^ 13 + vlan) / 2 ^ 8) -> lo = u8 (pbit * 2 ^ 13 + vlan) ->
  Z.shiftr (Z.land hi 0xE0) 5 = pbit /\ Z.land (be16_dec hi lo) 0x0FFF = vlan.
Proof.
  intros Hp Hv -> ->.
  rewrite be16_dec_be16 by (unfold is_u16; lia).
  split.
  - rewrite Z.shiftr_land. change (Z.shiftr 0xE0 5) with (Z.ones 3).
    rewrite Z.land_ones by lia. rewrite Z.shiftr_div_pow2 by lia. unfold u8.
    rewrite (Z.mod_small ((pbit * 2 ^ 13 + vlan) / 2 ^ 8)) by
      (split; [apply Z.div_pos; lia|apply Z.div_lt_upper_bound; lia]).
    rewrite Z.div_div by lia. change (2 ^ 8 * 2 ^ 5) with (2 ^ 13).
    rewrite Z.div_add_l by lia. rewrite (Z.div_small vlan) by lia.
    rewrite Z.add_0_r. apply Z.mod_small. lia.
  - change 0x0FFF with (Z.ones 12). rewrite Z.land_ones by lia.
    replace (pbit * 2 ^ 13 + vlan) with (vlan + (pbit * 2) * 2 ^ 12) by lia.
    rewrite Z.mod_add by lia. apply Z.mod_small. lia.
Qed.

(** Pushing a tag that fits inserts four bytes after the addresses. *)
Lemma PushSingleTag_frame dst src ty p tag pbit :
  is_frame dst src ty -> 0 <= tag <= 0xFFF ->
  PushSingleTag tag (frame dst src ty p) pbit =
    inr (pad60 (frame dst src EthernetTypeDot1Q (tag_bytes pbit tag ty ++ p)%list)).
Proof.
  intros Hf Ht. unfold PushSingleTag. rewrite getEthernetLayer_frame by done. cbn [EthernetType
    eth_Payload DstMAC SrcMAC].
  unfold u16 at 1. rewrite Z.mod_small by lia. unfold serialize_dot1q.
  rewrite decide_False by lia. unfold serialize_ethernet.
  destruct Hf as (Hd & Hs & _ & _). rewrite decide_True by done.
  done.
Qed.

Lemma is_frame_dot1q dst src ty : is_frame dst src ty -> is_frame dst src EthernetTypeDot1Q.
Proof. intros (? & ? & ? & ?). repeat split; done. Qed.

(** The layers of a tagged frame start with Ethernet and its tag. *)
Lemma getDot1QLayer_tagged dst src ty q tag pbit :
  is_frame dst src ty -> 0 <= tag <= 0xFFF -> 0 <= pbit <= 7 ->
  exists de, getDot1QLayer (frame dst src EthernetTypeDot1Q (tag_bytes pbit tag ty ++ q)%list) =
    inr {| Priority := pbit; DropEligible := de; VLANIdentifier := tag; Dot1Q_Type := ty;
           dot1q_Payload := q |}.
Proof.
  intros Hf Ht Hp. unfold getDot1QLayer, PktLayer, Layers.
  rewrite ethernet_of_frame by (by eapply is_frame_dot1q). cbn [eth_Payload EthernetType].
  unfold tag_bytes. rewrite tci_value by done.
  cbn [app be16 find_layer sel_Dot1Q decode_type is_dot1q_type].
  destruct (tci_unpack pbit tag _ _ Hp Ht eq_refl eq_refl) as [H1 H2].
  unfold is_dot1q_type. rewrite bool_decide_true by done. cbn [orb find_layer sel_Dot1Q].
  eexists. unfold dot1q_of. rewrite H1, H2.
  destruct Hf as (_ & _ & Hu & _). rewrite be16_dec_be16 by done. reflexivity.
Qed.

Lemma PopSingleTag_tagged dst src ty q tag pbit :
  is_frame dst src ty -> 0 <= tag <= 0xFFF -> 0 <= pbit <= 7 ->
  PopSingleTag (frame dst src EthernetTypeDot1Q (tag_bytes pbit tag ty ++ q)%list) =
    inr (pad60 (frame dst src ty q)).
Proof.
  intros Hf Ht Hp. unfold PopSingleTag.
  destruct (getDot1QLayer_tagged dst src ty q tag pbit Hf Ht Hp) as [de ->].
  rewrite getEthernetLayer_frame by (by eapply is_frame_dot1q).
  cbn [DstMAC SrcMAC Dot1Q_Type dot1q_Payload]. unfold serialize_ethernet.
  destruct Hf as (Hd & Hs & _ & _). by rewrite decide_True.
Qed.

(** Padding twice is padding once, also when the first padding was done on
    the longer, tagged frame. *)
Lemma pad60_pad dst src ty p n :
  length dst = 6%nat -> length src = 6%nat -> (n <= 60 - (14 + length p))%nat ->
  pad60 (frame dst src ty (p ++ replicate n 0)%list) = pad60 (frame dst src ty p).
Proof.
  intros Hd Hs Hn. rewrite !pad60_frame. rewrite !frame_length by done. f_equal.
  rewrite length_app, length_replicate, <-app_assoc, <-replicate_add. f_equal. f_equal. lia.
Qed.

(** Pushing a VLAN tag (0..4095, priority 0..7) on an Ethernet II frame
    makes the tag and the priority readable, and popping it gives back the
    frame (zero-padded to the 60-byte minimum when it was shorter). *)
Theorem PushSingleTag_roundtrip dst src ty p tag pbit :
  is_frame dst src ty -> 0 <= tag <= 0xFFF -> 0 <= pbit <= 7 ->
  exists tagged,
    PushSingleTag tag (frame dst src ty p) pbit = inr tagged /\
    GetVlanTag tagged = inr tag /\ GetPbit tagged = inr pbit /\
    PopSingleTag tagged = inr (pad60 (frame dst src ty p)).
Proof.
  intros Hf Ht Hp. eexists. split; [by apply PushSingleTag_frame|].
  rewrite pad60_frame, <-app_assoc.
  set (q := (p ++ _)%list).
  unfold GetVlanTag, GetPbit.
  destruct (getDot1QLayer_tagged dst src ty q tag pbit Hf Ht Hp) as [de ->].
  split; [done|]. split; [done|].
  rewrite PopSingleTag_tagged by done. f_equal.
  destruct Hf as (Hd & Hs & _ & _). apply pad60_pad; [done..|].
  rewrite frame_length by done. rewrite length_app. cbn. lia.
Qed.

(** Pushing two tags: the outer and the inner tag are read back and
    [PopDoubleTag] restores the frame. *)
Theorem PushDoubleTag_roundtrip dst src ty p stag ctag pbit :
  is_frame dst src ty -> 0 <= stag <= 0xFFF -> 0 <= ctag <= 0xFFF -> 0 <= pbit <= 7 ->
  exists tagged,
    PushDoubleTag stag ctag (frame dst src ty p) pbit = inr tagged /\
    GetTagsFromPacket tagged = inr (stag, ctag) /\
    PopDoubleTag tagged = inr (pad60 (frame dst src ty p)).
Proof.
  intros Hf Hs Hc Hp. pose proof (is_frame_dot1q _ _ _ Hf) as Hq.
  destruct (Hf) as (Hd & Hsrc & _ & _).
  unfold PushDoubleTag. rewrite PushSingleTag_frame by done.
  rewrite pad60_frame, <-app_assoc. set (q := (p ++ _)%list).
  eexists. split; [by apply PushSingleTag_frame|].
  rewrite pad60_frame, <-!app_assoc. set (q' := (q ++ _)%list).
  unfold GetTagsFromPacket, GetVlanTag, PopDoubleTag.
  destruct (getDot1QLayer_tagged dst src _ (tag_bytes pbit ctag ty ++ q')%list stag pbit Hq Hs Hp)
    as [de ->].
  rewrite PopSingleTag_tagged by done. rewrite pad60_frame, <-app_assoc.
  set (q'' := (q' ++ _)%list).
  destruct (getDot1QLayer_tagged dst src ty q'' ctag pbit Hf Hc Hp) as [de' Hg].
  split.
  - unfold getDot1QLayer in Hg |- *. destruct (PktLayer sel_Dot1Q _); [|done].
    by injection Hg as ->.
  - rewrite PopSingleTag_tagged by done. f_equal. subst q q' q''.
    rewrite <-!app_assoc, <-!replicate_add. apply pad60_pad; [done..|].
    rewrite !frame_length by done. rewrite !length_app, !length_replicate. cbn. lia.
Qed.

(** A VLAN above 4095 does not fit the tag: the library reports it, the error
    is dropped and what is forwarded has lost its Ethernet header. *)
Lemma PushSingleTag_overflow dst src ty p tag pbit :
  is_frame dst src ty -> 0xFFF < tag < 2 ^ 16 ->
  PushSingleTag tag (frame dst src ty p) pbit = inr ([0; 0; 0; 0] ++ p)%list.
Proof.
  intros Hf Ht. unfold PushSingleTag. rewrite getEthernetLayer_frame by done.
  cbn [EthernetType eth_Payload]. unfold u16. rewrite Z.mod_small by lia.
  unfold serialize_dot1q. by rewrite decide_True by lia.
Qed.
End Tags.

(** A decoder that recognises nothing above the link layer. *)
Definition link_layer_only : Gopacket := {|
  decode_net := fun _ _ => [];
  serialize_udp_dhcp := fun _ _ _ => inl "not supported";
  serialize_ipv4_igmp := fun _ _ => inl "not supported" |}.

Lemma PushDoubleTag_roundtrip_witness :
  exists tagged,
    @PushDoubleTag link_layer_only 900 7 (frame (replicate 6 255) [46;0;0;1;0;0] 0x0800 [69; 16]) 0
      = inr tagged /\
    @GetTagsFromPacket link_layer_only tagged = inr (900, 7).
Proof.
  destruct (@PushDoubleTag_roundtrip link_layer_only
    (replicate 6 255) [46;0;0;1;0;0] 0x0800 [69; 16] 900 7 0) as (t & H1 & H2 & _).
  - unfold is_frame, is_u16. cbn. lia.
  - lia.
  - lia.
  - lia.
  - exists t. split; [exact H1|exact H2].
Defined.

Lemma PushSingleTag_roundtrip_witness :
  exists tagged,
    @PushSingleTag link_layer_only 900 (frame (replicate 6 255) [46;0;0;1;0;0] 0x0800 [69; 16]) 3
      = inr tagged /\
    @GetVlanTag link_layer_only tagged = inr 900.
Proof.
  destruct (@PushSingleTag_roundtrip link_layer_only
    (replicate 6 255) [46;0;0;1;0;0] 0x0800 [69; 16] 900 3) as (t & H1 & H2 & _).
  - unfold is_frame, is_u16. cbn. lia.
  - lia.
  - lia.
  - exists t. split; [exact H1|exact H2].
Defined.
