(* ===== verification/Types.v ===== *)
(** * Messages and records shared by the devices

    The messages the devices send each other over their channels
    ([internal/bbsim/types]), the records of the openolt API the code reads,
    the indications it sends to VOLTHA, and serial numbers.  A
    [*openolt.SerialNumber] is compared by pointer in the resource tables of a
    PON, so the model carries the identity of the object. *)
From S2P Require Import Prelude OmciTypes Packets.
Open Scope Z_scope.
Open Scope string_scope.

(** ** Serial numbers *)

Record SerialNumber := { sn_addr : Z; VendorId : list Z; VendorSpecific : list Z }.
#[export] Instance SerialNumber_eq_dec : EqDecision SerialNumber.
Proof. solve_decision. Defined.

(** [sn == onuSn] on two pointers. *)
Definition same_sn (a b : SerialNumber) : bool := bool_decide (sn_addr a = sn_addr b).

(** Source: internal/bbsim/devices/onu.go, [NewSN].  [addr] is the identity of
    the allocated object. *)
Definition NewSN (addr oltid intfid onuid : Z) : SerialNumber := {|
  sn_addr := addr;
  VendorId := bytes_of "BBSM";
  VendorSpecific := [0; u8 (Z.rem oltid 256); u8 intfid; u8 onuid] |}.

(** A hexadecimal digit of [strconv.FormatInt(_, 16)]. *)
Definition hex_char (d : Z) : Ascii.ascii := Ascii.ascii_of_N (Z.to_N (hex_digit d)).

Definition string_of_bytes (b : list Z) : string :=
  String.string_of_list_ascii ((fun z => Ascii.ascii_of_N (Z.to_N z)) <$> b).

(** Source: internal/common/helpers.go, [OnuSnToString]. *)
Definition OnuSnToString (sn : SerialNumber) : string :=
  fold_left (fun s i => s +:+ String (hex_char (i / 16)) "" +:+ String (hex_char (i mod 16)) "")
    (VendorSpecific sn) (string_of_bytes (VendorId sn)).

(** ** Flows *)

Record Classifier := { EthType : Z; OVid : Z; IVid : Z; OPbits : Z; SrcPort : Z; DstPort : Z }.
#[export] Instance Classifier_eq_dec : EqDecision Classifier.
Proof. solve_decision. Defined.

(** The fields of [openolt.Flow] the code reads; [PbitToGemport] is a map. *)
Record Flow := {
  AccessIntfId : Z; fl_OnuId : Z; fl_UniId : Z; FlowId : Z; FlowType : string;
  fl_AllocId : Z; NetworkIntfId : Z; GemportId : Z; fl_Classifier : Classifier;
  fl_PortNo : Z; ReplicateFlow : bool; PbitToGemport : gmap Z Z }.
#[export] Instance Flow_eq_dec : EqDecision Flow.
Proof. solve_decision. Defined.

(** ** Messages *)

(** Source: internal/bbsim/types/messageTypes.go, [OperState]. *)
Inductive OperState := UP | DOWN.
#[export] Instance OperState_eq_dec : EqDecision OperState.
Proof. solve_decision. Defined.

(** Source: internal/bbsim/types/messageTypes.go, [OperState.String]. *)
Definition OperState_String (m : OperState) : string :=
  match m with UP => "up" | DOWN => "down" end.

(** Source: internal/bbsim/types/messageTypes.go, [OmciMessage]. *)
Record OmciMessage := { om_OnuID : Z; OmciMsg : OMCI; OmciPkt : Packet }.

(** Source: internal/bbsim/types/messageTypes.go, [UniStatusAlarmMessage]. *)
Record UniStatusAlarmMessage := {
  us_OnuSN : SerialNumber; us_OnuID : Z; us_AdminState : Z; us_EntityID : Z;
  RaiseOMCIAlarm : bool }.

(** Source: internal/bbsim/types/messageTypes.go, [OnuPacketMessage]. *)
Record OnuPacketMessage := {
  pm_IntfId : Z; pm_OnuId : Z; pm_PortNo : Z; pm_Packet : NetPacket;
  pm_Type : PacketType; MacAddress : list Z; GemPortId : Z }.

(** [openolt.AlarmIndication]: one constructor per alarm the simulator can
    raise. *)
Inductive AlarmIndication :=
| LosInd (intf : Z) (status : string)
| DyingGaspInd (intf onu : Z) (status : string)
| OnuAlarmInd (intf onu : Z) (losStatus lobStatus lopcMissStatus lopcMicErrorStatus lofiStatus
    loamiStatus : string)
| OnuStartupFailInd (intf onu : Z) (status : string)
| OnuSignalDegradeInd (intf onu : Z) (ber : Z) (status : string)
| OnuDriftOfWindowInd (intf onu : Z) (drift eqd : Z) (status : string)
| OnuLossOmciInd (intf onu : Z) (status : string)
| OnuSignalsFailInd (intf onu : Z) (ber : Z) (status : string)
| OnuTiwiInd (intf onu : Z) (drift : Z) (status : string)
| OnuActivationFailInd (intf onu : Z) (reason : Z)
| OnuProcessingErrorInd (intf onu : Z)
| OnuLossOfSyncFailInd (intf onu : Z) (status : string)
| OnuItuPonStatsInd (intf onu : Z) (rdiErrors : Z) (status : string).

(** Source: internal/bbsim/types/messageTypes.go, [MessageType].  The message
    type with its data; each constructor is one of the message types. *)
Inductive Message :=
| OltIndication (s : OperState)
| NniIndication (s : OperState) (port : Z)
| PonIndication (s : OperState) (port : Z)
| OnuDiscIndication (s : OperState)
| OnuIndication (s : OperState) (pon : Z) (sn : SerialNumber)
| MsgOMCI (m : OmciMessage)
| FlowAdd (pon onu : Z) (f : Flow)
| FlowRemoved (pon onu : Z) (f : Flow)
| StartEAPOL
| StartDHCP
| OnuPacketOut (m : OnuPacketMessage)
| OmciIndication (pkt : list Z)
| SendEapolFlow
| SendDhcpFlow
| OnuPacketIn (m : OnuPacketMessage)
| IGMPMembershipReportV2 (group : string)
| IGMPLeaveGroup (group : string)
| MsgAlarmIndication (a : AlarmIndication)
| IGMPMembershipReportV3 (group : string)
| UniStatusAlarm (m : UniStatusAlarmMessage).

(** The numbers of the message types. *)
Definition message_number (m : Message) : nat :=
  match m with
  | OltIndication _ => 0 | NniIndication _ _ => 1 | PonIndication _ _ => 2
  | OnuDiscIndication _ => 3 | OnuIndication _ _ _ => 4 | MsgOMCI _ => 5 | FlowAdd _ _ _ => 6
  | FlowRemoved _ _ _ => 18 | StartEAPOL => 7 | StartDHCP => 8 | OnuPacketOut _ => 9
  | OmciIndication _ => 10 | SendEapolFlow => 11 | SendDhcpFlow => 12 | OnuPacketIn _ => 13
  | IGMPMembershipReportV2 _ => 14 | IGMPLeaveGroup _ => 15 | MsgAlarmIndication _ => 16
  | IGMPMembershipReportV3 _ => 17 | UniStatusAlarm _ => 19
  end.

Definition message_names : list string :=
  ["OltIndication"; "NniIndication"; "PonIndication"; "OnuDiscIndication"; "OnuIndication";
   "OMCI"; "FlowAdd"; "StartEAPOL"; "StartDHCP"; "OnuPacketOut"; "OmciIndication";
   "SendEapolFlow"; "SendDhcpFlow"; "OnuPacketIn"; "IGMPMembershipReportV2"; "IGMPLeaveGroup";
   "AlarmIndication"; "IGMPMembershipReportV3"; "FlowRemoved"; "UniStatusAlarm"].

(** Source: internal/bbsim/types/messageTypes.go, [MessageType.String]:
    indexing past the table panics. *)
Definition MessageType_String (n : nat) : outcome string :=
  match message_names !! n with
  | Some s => Done s
  | None => Panicked "index out of range"
  end.

(** ** Indications and streams *)

(** The counters of [common.PortStatistics] that are not always zero; received
    and sent packets are counted alike. *)
Record PortStatistics := {
  st_Bytes : Z; st_Packets : Z; st_UcastPackets : Z; st_McastPackets : Z; st_BcastPackets : Z }.

(** The indications sent on the openolt stream. *)
Inductive Indication :=
| IndOlt (operState : string)
| IndIntf (intf : Z) (operState : string)
| IndIntfOper (ty : string) (intf : Z) (operState : string) (speed : Z)
| IndOnuDisc (intf : Z) (sn : SerialNumber)
| IndOnu (intf onu : Z) (operState adminState : string) (sn : SerialNumber)
| IndOmci (intf onu : Z) (pkt : list Z)
| IndPkt (intfType : string) (intf gem : Z) (pkt : list Z) (portNo onu uni : Z)
| IndAlarm (a : AlarmIndication)
| IndPortStats (intf : Z) (stats : PortStatistics).

(** Source: internal/bbsim/types/interfaces.go, [Stream].  A stream records
    what was sent on it; [s_err] is the error its [Send] reports, if any. *)
Record Stream := { s_err : option error; s_sent : list Indication }.
#[export] Instance eta_Stream : Eta Stream := fun s =>
  {| s_err := s_err s; s_sent := s_sent s |}.
#[export] Instance set_s_err : Setter s_err := ltac:(setter_for s_err).
#[export] Instance set_s_sent : Setter s_sent := ltac:(setter_for s_sent).

(** [stream.Send(ind)]. *)
Definition Send (ind : Indication) : M Stream (option error) := fun s =>
  match s_err s with
  | Some e => Done (Some e, s)
  | None => Done (None, s <| s_sent ::= (fun l => l ++ [ind])%list |>)
  end.

(** * Properties *)

(** The table of names is in step with the numbers of the message types:
    printing the type of a message names its constructor and never indexes
    past the table. *)
Lemma MessageType_String_consistent (m : Message) :
  MessageType_String (message_number m) =
  Done match m with
    | OltIndication _ => "OltIndication" | NniIndication _ _ => "NniIndication"
    | PonIndication _ _ => "PonIndication" | OnuDiscIndication _ => "OnuDiscIndication"
    | OnuIndication _ _ _ => "OnuIndication" | MsgOMCI _ => "OMCI" | FlowAdd _ _ _ => "FlowAdd"
    | FlowRemoved _ _ _ => "FlowRemoved" | StartEAPOL => "StartEAPOL"
    | StartDHCP => "StartDHCP" | OnuPacketOut _ => "OnuPacketOut"
    | OmciIndication _ => "OmciIndication" | SendEapolFlow => "SendEapolFlow"
    | SendDhcpFlow => "SendDhcpFlow" | OnuPacketIn _ => "OnuPacketIn"
    | IGMPMembershipReportV2 _ => "IGMPMembershipReportV2"
    | IGMPLeaveGroup _ => "IGMPLeaveGroup" | MsgAlarmIndication _ => "AlarmIndication"
    | IGMPMembershipReportV3 _ => "IGMPMembershipReportV3" | UniStatusAlarm _ => "UniStatusAlarm"
    end.
Proof. by destruct m. Qed.

Lemma NewSN_injective addr addr' olt i1 o1 i2 o2 :
  is_u8 i1 -> is_u8 o1 -> is_u8 i2 -> is_u8 o2 ->
  VendorSpecific (NewSN addr olt i1 o1) = VendorSpecific (NewSN addr' olt i2 o2) ->
  i1 = i2 /\ o1 = o2.
Proof.
  unfold is_u8, NewSN, u8. cbn [VendorSpecific]. intros H1 H2 H3 H4 [= Hi Ho].
  by rewrite !Z.mod_small in Hi, Ho by lia.
Qed.

(** ** Printed serial numbers *)

(** The hexadecimal digits of bytes. *)
Fixpoint hexes (l : list Z) : string :=
  match l with
  | [] => ""
  | b :: l' => String (hex_char (b / 16)) (String (hex_char (b mod 16)) (hexes l'))
  end.

Lemma hexes_fold l acc :
  fold_left (fun s i => s +:+ String (hex_char (i / 16)) "" +:+ String (hex_char (i mod 16)) "") l acc =
  acc +:+ hexes l.
Proof.
  revert acc. induction l as [|b l IH]; intros acc; cbn [fold_left hexes].
  - induction acc as [|c acc IHacc]; [done|]. exact (f_equal (String c) IHacc).
  - rewrite IH. clear IH. induction acc as [|c acc IHacc]; [done|]. exact (f_equal (String c) IHacc).
Qed.

Lemma OnuSnToString_hexes sn : OnuSnToString sn = string_of_bytes (VendorId sn) +:+ hexes (VendorSpecific sn).
Proof. apply hexes_fold. Qed.

Lemma hex_char_inj a b : 0 <= a < 16 -> 0 <= b < 16 -> hex_char a = hex_char b -> a = b.
Proof.
  intros Ha Hb.
  assert (forallb (fun a => forallb (fun b => implb (bool_decide (hex_char a = hex_char b)) (bool_decide (a = b)))
    (seqZ 0 16)) (seqZ 0 16) = true) as Hall by (by vm_compute).
  rewrite forallb_forall in Hall. specialize (Hall a). rewrite <-list_elem_of_In, elem_of_seqZ in Hall.
  specialize (Hall Ha). rewrite forallb_forall in Hall. specialize (Hall b).
  rewrite <-list_elem_of_In, elem_of_seqZ in Hall. specialize (Hall Hb). intros Heq.
  rewrite bool_decide_eq_true_2 in Hall by done. by apply bool_decide_eq_true in Hall.
Qed.

Lemma hexes_inj l l' : Forall is_u8 l -> Forall is_u8 l' -> hexes l = hexes l' -> l = l'.
Proof.
  unfold is_u8. intros Hl. revert l'. induction Hl as [|b l Hb Hl IH]; intros [|b' l'] Hl' He; try done.
  apply Forall_cons in Hl' as [Hb' Hl']. cbn in He. injection He as H1 H2 H3.
  f_equal; [|by apply IH].
  apply hex_char_inj in H1, H2; lia || (apply Z.mod_pos_bound; lia) || idtac.
  all: try (split; [apply Z.div_pos; lia|apply Z.div_lt_upper_bound; lia]).
  rewrite (Z.div_mod b 16), (Z.div_mod b' 16) by lia. congruence.
Qed.

(** Serial numbers of one vendor print differently. *)
Lemma OnuSnToString_inj a b :
  VendorId a = VendorId b -> Forall is_u8 (VendorSpecific a) -> Forall is_u8 (VendorSpecific b) ->
  OnuSnToString a = OnuSnToString b -> VendorSpecific a = VendorSpecific b.
Proof.
  intros Hv Ha Hb. rewrite !OnuSnToString_hexes, Hv. intros He%(inj _). by apply hexes_inj.
Qed.
