(* ===== verification/Io.v ===== *)
(** * The interface between a responder and the device that runs it

    The EAPOL, DHCP and IGMP responders are functions over a state machine, the
    gRPC stream to VOLTHA and (in BBR) the openolt client, all of which belong
    to the device that calls them.  [HasIO] is what a device state offers;
    [IOLaws] what it promises: sending changes the stream only, and the state
    machine has no other callback than the ones the responders do not
    trigger.  The theorems about the responders are proved against this
    interface; [plain_io] is an implementation of it and the services of a UNI
    are another. *)
From S2P Require Import Prelude Fsm OmciTypes Packets Types.
Open Scope Z_scope.
Open Scope string_scope.

(** The calls BBR makes on the openolt client. *)
Inductive ClientCall :=
| COnuPacketOut (intf onu portNo gem : Z) (pkt : list Z)
| CUplinkPacketOut (intf : Z) (pkt : list Z)
| COmciMsgOut (intf onu : Z) (pkt : list Z)
| CFlowAdd (f : Flow)
| CActivateOnu (intf onu : Z) (sn : SerialNumber).

Record Client := { c_err : option error; c_calls : list ClientCall }.

Class HasIO (S : Type) := {
  io_stream : S -> Stream;
  io_set_stream : Stream -> S -> S;
  io_client : S -> option Client;
  io_set_client : Client -> S -> S
}.

Section Operations.
  Context {S : Type} `{HasIO S}.

(** [stream.Send(ind)]. *)
Definition send (ind : Indication) : M S (option error) :=
  zoom io_stream io_set_stream (Send ind).

(** A call on the client; a method of a nil interface panics. *)
Definition client_call (c : ClientCall) : M S (option error) := fun s =>
  match io_client s with
  | None => Panicked "nil openolt client"
  | Some cl =>
      match c_err cl with
      | Some e => Done (Some e, s)
      | None => Done (None, io_set_client
                        {| c_err := None; c_calls := (c_calls cl ++ [c])%list |} s)
      end
  end.

(** The last packet a device sent to VOLTHA. *)
Definition last_pkt (s : S) : list Z :=
  match last (s_sent (io_stream s)) with
  | Some (IndPkt _ _ _ p _ _ _) => p
  | _ => []
  end.
End Operations.

(** What the state machine and the stream of a device promise. *)
Class IOLaws {S : Type} `{HasIO S} (f : FSM S) (quiet : string -> Prop) := {
  io_get_set : forall st s, io_stream (io_set_stream st s) = st;
  io_client_set_stream : forall st s, io_client (io_set_stream st s) = io_client s;
  io_current_send : forall st s, fsm_current f (io_set_stream st s) = fsm_current f s;
  io_current_client : forall c s, fsm_current f (io_set_client c s) = fsm_current f s;
  io_current_set : forall x s, fsm_current f (fsm_set f x s) = x;
  io_stream_set : forall x s, io_stream (fsm_set f x s) = io_stream s;
  io_client_set : forall x s, io_client (fsm_set f x s) = io_client s;
  io_quiet : forall ev src dst s, quiet ev -> transitions (fsm_events f) ev src = Some dst ->
    fsm_before f ev s = Done (tt, s) /\ fsm_enter f src dst s = Done (tt, s) /\
    fsm_after f ev s = Done (tt, s)
}.

Section Laws.
  Context {S : Type} `{IOLaws S f quiet}.

Definition send_ok (ind : Indication) (s : S) : S :=
  io_set_stream ((io_stream s) <| s_sent ::= (fun l => l ++ [ind])%list |>) s.

Lemma send_Done ind s : s_err (io_stream s) = None -> send ind s = Done (None, send_ok ind s).
Proof. intros He. unfold send, zoom, Send. by rewrite He. Qed.

Lemma send_error ind s e : s_err (io_stream s) = Some e ->
  send ind s = Done (Some e, io_set_stream (io_stream s) s).
Proof. intros He. unfold send, zoom, Send. by rewrite He. Qed.

Lemma send_total ind s : exists r s', send ind s = Done (r, s') /\
  fsm_current f s' = fsm_current f s /\
  (r = None -> s_sent (io_stream s') = (s_sent (io_stream s) ++ [ind])%list) /\
  (r <> None -> s_sent (io_stream s') = s_sent (io_stream s)).
Proof.
  destruct (s_err (io_stream s)) as [e|] eqn:E.
  - rewrite (send_error _ _ _ E). eexists _, _. split; [reflexivity|].
    rewrite io_current_send, io_get_set. split_and!; [done|done|done].
  - rewrite (send_Done _ _ E). eexists _, _. split; [reflexivity|]. unfold send_ok.
    rewrite io_current_send, io_get_set. split_and!; [done|done|done].
Qed.

(** A quiet event moves the machine and nothing else. *)
Lemma Event_quiet ev s dst :
  quiet ev -> transitions (fsm_events f) ev (fsm_current f s) = Some dst ->
  fsm_current f s <> dst ->
  Event f ev s = Done (None, fsm_set f dst s).
Proof.
  intros Hq Ht Hne. rewrite (Event_ok f ev s dst Ht Hne).
  destruct (io_quiet ev _ _ s Hq Ht) as (Hb & _ & _). mred. rewrite Hb.
  destruct (io_quiet ev _ _ (fsm_set f dst s) Hq Ht) as (_ & He & Ha). by rewrite He, Ha.
Qed.

(** The state after a quiet event, accepted or not. *)
Lemma Event_quiet_current ev s :
  quiet ev -> exists r s', Event f ev s = Done (r, s') /\
    fsm_current f s' = default (fsm_current f s) (transitions (fsm_events f) ev (fsm_current f s)) /\
    io_stream s' = io_stream s.
Proof.
  intros Hq. destruct (transitions (fsm_events f) ev (fsm_current f s)) as [dst|] eqn:Ht.
  - destruct (decide (fsm_current f s = dst)) as [Heq|Hne].
    + unfold Event. mred. rewrite Ht. destruct (io_quiet ev _ _ s Hq Ht) as (Hb & _ & Ha).
      rewrite Hb, decide_True by done. rewrite Ha. eauto 10.
    + rewrite (Event_quiet ev s dst Hq Ht Hne). eexists _, _. split; [reflexivity|].
      by rewrite io_current_set, io_stream_set.
  - destruct (Event_rejected f ev s Ht) as [e He]. eauto 10.
Qed.
End Laws.

(** ** Frames *)

(** A predicate that does not look at the stream, the client or the state of
    the machine is kept by everything a responder does. *)
Section Frame.
  Context {S : Type} `{IOLaws S f quiet} (P : S -> Prop).

Class Framed : Prop := {
  framed_stream : forall w s, P s -> P (io_set_stream w s);
  framed_client : forall c s, P s -> P (io_set_client c s);
  framed_set : forall ev x s, quiet ev -> transitions (fsm_events f) ev (fsm_current f s) = Some x ->
    P s -> P (fsm_set f x s)
}.

Context `{Framed}.

Lemma preserves_send ind : preserves P (send ind).
Proof.
  intros s r s' Hs Hr. destruct (s_err (io_stream s)) as [e|] eqn:E.
  - rewrite (send_error _ _ _ E) in Hr. simplify_eq. by apply framed_stream.
  - rewrite (send_Done _ _ E) in Hr. simplify_eq. by apply framed_stream.
Qed.

Lemma preserves_client_call c : preserves P (client_call c).
Proof.
  intros s r s' Hs. unfold client_call. destruct (io_client s) as [cl|]; [|done].
  destruct (c_err cl); intros [= <- <-]; [done|by apply framed_client].
Qed.

Lemma preserves_Event ev : quiet ev -> preserves P (Event f ev).
Proof.
  intros Hq s r s' Hs Hr.
  destruct (transitions (fsm_events f) ev (fsm_current f s)) as [dst|] eqn:Ht.
  - destruct (decide (fsm_current f s = dst)) as [Heq|Hne].
    + unfold Event in Hr. mred in Hr. rewrite Ht in Hr.
      destruct (io_quiet ev _ _ s Hq Ht) as (Hb & _ & Ha). rewrite Hb, decide_True in Hr by done.
      rewrite Ha in Hr. by simplify_eq.
    + rewrite (Event_quiet ev s dst Hq Ht Hne) in Hr. simplify_eq. by eapply framed_set.
  - destruct (Event_rejected f ev s Ht) as [e He]. rewrite He in Hr. by simplify_eq.
Qed.
End Frame.
#[export] Hint Resolve preserves_send preserves_client_call preserves_Event : preserve.

(** The smallest device: a state machine without callbacks, a stream and a
    client. *)
Record PlainIO := { p_state : string; p_stream : Stream; p_client : option Client }.
#[export] Instance eta_PlainIO : Eta PlainIO := fun p =>
  {| p_state := p_state p; p_stream := p_stream p; p_client := p_client p |}.
#[export] Instance set_p_state : Setter p_state := ltac:(setter_for p_state).
#[export] Instance set_p_stream : Setter p_stream := ltac:(setter_for p_stream).
#[export] Instance set_p_client : Setter p_client := ltac:(setter_for p_client).

#[export] Instance plain_io : HasIO PlainIO := {
  io_stream := p_stream;
  io_set_stream := fun st p => p <| p_stream := st |>;
  io_client := p_client;
  io_set_client := fun c p => p <| p_client := Some c |> }.

Definition plain_machine (events : list EventDesc) : FSM PlainIO := {|
  fsm_events := events; fsm_current := p_state; fsm_set := fun x p => p <| p_state := x |>;
  fsm_before := no_before; fsm_enter := no_enter; fsm_after := no_after |}.

#[export] Instance plain_laws events : IOLaws (plain_machine events) (fun _ => True).
Proof. split; intros; try done. Qed.
