(* ===== verification/Eapol.v ===== *)
(** * The EAPOL responder

    [internal/bbsim/responders/eapol/eapol.go]: the supplicant of a subscriber
    (start, identity and challenge responses, success) and the authenticator
    BBR plays against it, over a state machine and a stream that belong to the
    caller.  [crypto/md5] is a parameter of the functions that hash. *)
From S2P Require Import Prelude Fsm OmciTypes Packets Types Io.
Open Scope Z_scope.
Open Scope string_scope.

Definition eapolVersion : Z := 1.

(** ** States and events *)

Definition StateCreated : string := "created".
Definition StateAuthStarted : string := "auth_started".
Definition StateStartSent : string := "eap_start_sent".
Definition StateResponseIdentitySent : string := "eap_response_identity_sent".
Definition StateResponseChallengeSent : string := "eap_response_challenge_sent".
Definition StateResponseSuccessReceived : string := "eap_response_success_received".
Definition StateAuthFailed : string := "auth_failed".

Definition EventStartAuth : string := "start_auth".
Definition EventStartSent : string := "eap_start_sent".
Definition EventResponseIdentitySent : string := "eap_response_identity_sent".
Definition EventResponseChallengeSent : string := "eap_response_challenge_sent".
Definition EventResponseSuccessReceived : string := "eap_response_success_received".
Definition EventAuthFailed : string := "auth_failed".

(** Source: internal/bbsim/devices/services.go:168-177, [NewService] (the
    table of [EapolState]). *)
Definition eapol_events : list EventDesc := [
  {| Name := EventStartAuth;
     Src := [StateCreated; StateResponseSuccessReceived; StateAuthFailed];
     Dst := StateAuthStarted |};
  {| Name := EventStartSent; Src := [StateAuthStarted]; Dst := StateStartSent |};
  {| Name := EventResponseIdentitySent; Src := [StateStartSent];
     Dst := StateResponseIdentitySent |};
  {| Name := EventResponseChallengeSent; Src := [StateResponseIdentitySent];
     Dst := StateResponseChallengeSent |};
  {| Name := EventResponseSuccessReceived; Src := [StateResponseChallengeSent];
     Dst := StateResponseSuccessReceived |};
  {| Name := EventAuthFailed;
     Src := [StateAuthStarted; StateStartSent; StateResponseIdentitySent;
             StateResponseChallengeSent];
     Dst := StateAuthFailed |} ].

(** ** Packets *)

Definition EAPCodeRequest : Z := 1.
Definition EAPCodeResponse : Z := 2.
Definition EAPCodeSuccess : Z := 3.
Definition EAPTypeNone : Z := 0.
Definition EAPTypeIdentity : Z := 1.
Definition EAPTypeOTP : Z := 4.
Definition EAPOLTypeStart : Z := 1.

(** An [layers.EAP] before it is serialized: its contents are not set. *)
Definition mk_eap (code id len ty : Z) (data : list Z) : EAP := {|
  EAP_Code := code; EAP_Id := id; EAP_Length := len; EAP_Type := ty; EAP_TypeData := data;
  EAP_Contents := [] |}.

Definition user_bytes : list Z := [0x75; 0x73; 0x65; 0x72].

(** Source: internal/bbsim/responders/eapol/eapol.go, [createEAPChallengeRequest]. *)
Definition createEAPChallengeRequest (eapId : Z) (payload : list Z) : EAP :=
  mk_eap EAPCodeRequest eapId 22 EAPTypeOTP payload.

(** Source: internal/bbsim/responders/eapol/eapol.go, [createEAPChallengeResponse]. *)
Definition createEAPChallengeResponse (eapId : Z) (payload : list Z) : EAP :=
  mk_eap EAPCodeResponse eapId 22 EAPTypeOTP payload.

(** Source: internal/bbsim/responders/eapol/eapol.go, [createEAPIdentityRequest]. *)
Definition createEAPIdentityRequest (eapId : Z) : EAP :=
  mk_eap EAPCodeRequest eapId 9 EAPTypeIdentity user_bytes.

(** Source: internal/bbsim/responders/eapol/eapol.go, [createEAPIdentityResponse]. *)
Definition createEAPIdentityResponse (eapId : Z) : EAP :=
  mk_eap EAPCodeResponse eapId 9 EAPTypeIdentity user_bytes.

(** Source: internal/bbsim/responders/eapol/eapol.go, [createEAPSuccess]. *)
Definition createEAPSuccess (eapId : Z) : EAP :=
  mk_eap EAPCodeSuccess eapId 9 EAPTypeNone user_bytes.

(** [EAP.SerializeTo] and [EAPOL.SerializeTo] of the vendored library. *)
Definition serialize_eap (e : EAP) : list Z :=
  ([EAP_Code e; EAP_Id e] ++ be16 (EAP_Length e) ++
   match EAP_TypeData e with [] => [] | d => EAP_Type e :: d end)%list.
Definition serialize_eapol (ty len : Z) (payload : list Z) : list Z :=
  ([eapolVersion; ty] ++ be16 len ++ payload)%list.

Definition eapol_mac (oltId intfId onuId uniId serviceId : Z) : list Z :=
  [0x2e; u8 oltId; u8 intfId; u8 onuId; u8 uniId; u8 serviceId].

(** Source: internal/bbsim/responders/eapol/eapol.go, [createEAPOLPkt].  The
    address has six bytes, so the Ethernet header is written. *)
Definition createEAPOLPkt (eap : EAP) (serviceId uniId onuId intfId oltId : Z) : list Z :=
  let mac := eapol_mac oltId intfId onuId uniId serviceId in
  pad60 (frame mac mac EthernetTypeEAPOL
           (serialize_eapol 0 (EAP_Length eap) (serialize_eap eap))).

(** The EAPOL-Start frame. *)
Definition eap_start_pkt (macAddress : list Z) : list Z :=
  match serialize_ethernet [0x01; 0x80; 0xC2; 0x00; 0x00; 0x03] macAddress EthernetTypeEAPOL
          (serialize_eapol EAPOLTypeStart 0 []) with
  | Some b => b
  | None => serialize_eapol EAPOLTypeStart 0 []
  end.

Section Responder.
  Context `{Gopacket} (md5_Sum : list Z -> list Z).

(** Source: internal/bbsim/responders/eapol/eapol.go, [extractEAP]. *)
Definition extractEAP (pkt : NetPacket) : error + EAP :=
  match PktLayer sel_EAP pkt with Some e => inr e | None => inl "Cannot extract EAP" end.

(** Source: internal/bbsim/responders/eapol/eapol.go, [extractEAPOL]. *)
Definition extractEAPOL (pkt : NetPacket) : error + EAPOL :=
  match PktLayer sel_EAPOL pkt with Some e => inr e | None => inl "Cannot extract EAPOL" end.

(** Source: internal/bbsim/responders/eapol/eapol.go, [getMD5Data].  Slicing
    the contents at 6 panics when they are shorter. *)
Definition getMD5Data (eap : EAP) : outcome (list Z) :=
  if decide (length (EAP_Contents eap) < 6)%nat then Panicked "slice bounds out of range"
  else
    let P := [EAP_Id eap; 0x70; 0x61; 0x73; 0x73; 0x77; 0x6f; 0x72; 0x64] in
    Done (take 16 (md5_Sum (P ++ drop 6 (EAP_Contents eap))%list)).

Section Machine.
  Context {S : Type} `{HasIO S} (f : FSM S).

(** Source: internal/bbsim/responders/eapol/eapol.go, [sendEapolPktIn]. *)
Definition sendEapolPktIn (intf onu : Z) (bytes : list Z) (portNo gemid : Z) : M S (option error) :=
  send (IndPkt "pon" intf gemid bytes portNo onu 0).

(** Source: internal/bbsim/responders/eapol/eapol.go, [sendEapolPktOut]. *)
Definition sendEapolPktOut (intfId onuId : Z) (pkt : list Z) : M S (option error) :=
  client_call (COnuPacketOut intfId onuId onuId 1 pkt).

(** Source: internal/bbsim/responders/eapol/eapol.go, [updateAuthFailed]. *)
Definition updateAuthFailed : M S (option fsm_error) := Event f EventAuthFailed.

(** Source: internal/bbsim/responders/eapol/eapol.go, [SendEapStart].  The
    result is whether an error was returned. *)
Definition SendEapStart (onuId ponPortId portNo : Z) (macAddress : list Z) (gemPort uniId : Z)
    : M S bool :=
  err ← send (IndPkt "pon" ponPortId gemPort (eap_start_pkt macAddress) portNo onuId uniId);
  match err with
  | Some _ => updateAuthFailed ;; mret true
  | None =>
      e ← Event f EventStartSent;
      mret (if e is Some _ then true else false)
  end.

(** A packet that is not expected in the current state: dropped, and the
    authentication fails unless it is already over. *)
Definition drop_out_of_order : M S unit :=
  state ← Current f;
  if decide (state <> StateAuthFailed /\ state <> StateResponseSuccessReceived)
  then updateAuthFailed ;; skip
  else skip.

(** Source: internal/bbsim/responders/eapol/eapol.go:347-390, [HandleNextPacket]
    (an identity request). *)
Definition handle_identity_request (onuId ponPortId gemPortId portNo uniId serviceId oltId : Z)
    (eap : EAP) : M S unit :=
  state ← Current f;
  if decide (state <> StateStartSent) then drop_out_of_order
  else
    let pkt := createEAPOLPkt (createEAPIdentityResponse (EAP_Id eap)) serviceId uniId onuId
                 ponPortId oltId in
    err ← sendEapolPktIn ponPortId onuId pkt portNo gemPortId;
    match err with
    | Some _ => updateAuthFailed ;; skip
    | None => Event f EventResponseIdentitySent ;; skip
    end.

(** Source: internal/bbsim/responders/eapol/eapol.go:416-460, [HandleNextPacket]
    (a challenge request). *)
Definition handle_challenge_request (onuId ponPortId gemPortId portNo uniId serviceId oltId : Z)
    (eap : EAP) : M S unit :=
  state ← Current f;
  if decide (state <> StateResponseIdentitySent) then drop_out_of_order
  else
    senddata ← (fun s => match getMD5Data eap with
                         | Done d => Done (0x10 :: d, s)
                         | Panicked w => Panicked w
                         | Blocked w => Blocked w
                         | Exited w => Exited w
                         end);
    let pkt := createEAPOLPkt (createEAPChallengeResponse (EAP_Id eap) senddata) serviceId uniId
                 onuId ponPortId oltId in
    err ← sendEapolPktIn ponPortId onuId pkt portNo gemPortId;
    match err with
    | Some _ => updateAuthFailed ;; skip
    | None => Event f EventResponseChallengeSent ;; skip
    end.

(** Source: internal/bbsim/responders/eapol/eapol.go:492-532, [HandleNextPacket]
    (success). *)
Definition handle_success : M S unit :=
  state ← Current f;
  if decide (state <> StateResponseChallengeSent) then drop_out_of_order
  else Event f EventResponseSuccessReceived ;; skip.

(** Source: internal/bbsim/responders/eapol/eapol.go:391-415, [HandleNextPacket]
    (an identity response, received by BBR). *)
Definition handle_identity_response (onuId ponPortId uniId serviceId oltId : Z) (eap : EAP)
    : M S unit :=
  senddata ← (fun s => match getMD5Data eap with
                       | Done d => Done (0x10 :: d, s)
                       | Panicked w => Panicked w
                       | Blocked w => Blocked w
                       | Exited w => Exited w
                       end);
  let pkt := createEAPOLPkt (createEAPChallengeRequest (EAP_Id eap) senddata) serviceId uniId
               onuId ponPortId oltId in
  sendEapolPktOut ponPortId onuId pkt ;; skip.

(** Source: internal/bbsim/responders/eapol/eapol.go:461-491, [HandleNextPacket]
    (a challenge response, received by BBR). *)
Definition handle_challenge_response (onuId ponPortId uniId serviceId oltId : Z) (eap : EAP)
    : M S unit :=
  let pkt := createEAPOLPkt (createEAPSuccess (EAP_Id eap)) serviceId uniId onuId ponPortId oltId in
  err ← sendEapolPktOut ponPortId onuId pkt;
  match err with
  | Some _ => skip
  | None => Event f "send_dhcp_flow" ;; skip
  end.

(** Source: internal/bbsim/responders/eapol/eapol.go:347-532, [HandleNextPacket]
    (the dispatch on the EAP message). *)
Definition handle_eap (onuId ponPortId gemPortId portNo uniId serviceId oltId : Z) (e : EAP)
    : M S unit :=
  if decide (EAP_Code e = EAPCodeRequest /\ EAP_Type e = EAPTypeIdentity) then
    handle_identity_request onuId ponPortId gemPortId portNo uniId serviceId oltId e
  else if decide (EAP_Code e = EAPCodeResponse /\ EAP_Type e = EAPTypeIdentity) then
    handle_identity_response onuId ponPortId uniId serviceId oltId e
  else if decide (EAP_Code e = EAPCodeRequest /\ EAP_Type e = EAPTypeOTP) then
    handle_challenge_request onuId ponPortId gemPortId portNo uniId serviceId oltId e
  else if decide (EAP_Code e = EAPCodeResponse /\ EAP_Type e = EAPTypeOTP) then
    handle_challenge_response onuId ponPortId uniId serviceId oltId e
  else if decide (EAP_Code e = EAPCodeSuccess /\ EAP_Type e = EAPTypeNone) then
    handle_success
  else skip.

(** Source: internal/bbsim/responders/eapol/eapol.go:287-346, [HandleNextPacket].
    The handler: extraction of the layers, EAPOL-Start, or the dispatch on the
    EAP message. *)
Definition HandleNextPacket (onuId ponPortId gemPortId portNo uniId serviceId oltId : Z)
    (pkt : NetPacket) : M S unit :=
  match extractEAP pkt, extractEAPOL pkt with
  | inl _, inl _ => exit "Failed to Extract EAP"
  | eap, eapol =>
      let is_start := match eapol with
                      | inr e => bool_decide (EAPOL_Type e = EAPOLTypeStart)
                      | inl _ => false
                      end in
      if is_start then
        sendEapolPktOut ponPortId onuId
          (createEAPOLPkt (createEAPIdentityRequest 1) serviceId uniId onuId ponPortId oltId) ;;
        skip
      else
        match eap with
        | inl _ => panic "nil EAP layer"
        | inr e => handle_eap onuId ponPortId gemPortId portNo uniId serviceId oltId e
        end
  end.
End Machine.
End Responder.

(** * Properties *)

(** ** The table *)

Lemma eapol_avoid via :
  via ∈ [StateAuthStarted; StateStartSent; StateResponseIdentitySent; StateResponseChallengeSent] ->
  exists l, StateCreated ∈ l /\ StateResponseSuccessReceived ∉ l /\
    avoid_closedb l via eapol_events = true.
Proof.
  intros Hv. repeat (apply elem_of_cons in Hv as [->|Hv]); [| | | |by apply elem_of_nil in Hv].
  - exists [StateCreated]. vm_compute. intuition (set_solver || done).
  - exists [StateCreated; StateAuthStarted; StateAuthFailed]. intuition (set_solver || done).
  - exists [StateCreated; StateAuthStarted; StateStartSent; StateAuthFailed].
    intuition (set_solver || done).
  - exists [StateCreated; StateAuthStarted; StateStartSent; StateResponseIdentitySent;
            StateAuthFailed]. intuition (set_solver || done).
Qed.

(** No sequence of events authenticates a subscriber without going
    through every step: a run that never enters one of the four intermediate
    states never reaches the success state. *)
Theorem eapol_success_needs_every_step via st :
  via ∈ [StateAuthStarted; StateStartSent; StateResponseIdentitySent; StateResponseChallengeSent] ->
  rtc (step_avoiding via eapol_events) StateCreated st -> st <> StateResponseSuccessReceived.
Proof.
  intros Hv Hr. destruct (eapol_avoid via Hv) as (l & Hi & Hs & Hc).
  pose proof (avoid_closedb_sound _ _ _ _ _ Hc Hi Hr). by intros ->.
Qed.

Lemma eapol_success_needs_every_step_witness :
  rtc (step_avoiding StateResponseChallengeSent eapol_events) StateCreated StateAuthStarted /\
  StateAuthStarted <> StateResponseSuccessReceived.
Proof.
  assert (rtc (step_avoiding StateResponseChallengeSent eapol_events) StateCreated StateAuthStarted)
    as Hr.
  { apply rtc_once. split; [exists EventStartAuth; vm_compute; reflexivity|discriminate]. }
  split; [exact Hr|].
  apply (eapol_success_needs_every_step StateResponseChallengeSent StateAuthStarted).
  - vm_compute. right. right. right. left.
  - exact Hr.
Defined.

(** ** Packets on the wire *)

(** An EAP message whose length field counts its bytes. *)
Definition wf_eap (e : EAP) : Prop :=
  EAP_TypeData e <> [] /\ EAP_Length e = 5 + Z.of_nat (length (EAP_TypeData e)) /\
  is_u16 (EAP_Length e).

(** A frame built by the responder decodes to the EAP message it carries; the
    padding of a short frame ends up in the type data and not in the
    contents. *)
Lemma createEAPOLPkt_decodes `{Gopacket} e svc uni onu intf olt :
  wf_eap e ->
  exists pad, extractEAP (createEAPOLPkt e svc uni onu intf olt) =
    inr {| EAP_Code := EAP_Code e; EAP_Id := EAP_Id e; EAP_Length := EAP_Length e;
           EAP_Type := EAP_Type e; EAP_TypeData := (EAP_TypeData e ++ pad)%list;
           EAP_Contents := serialize_eap e |} /\
    exists p, extractEAPOL (createEAPOLPkt e svc uni onu intf olt) = inr p /\ EAPOL_Type p = 0.
Proof.
  intros (Hne & Hlen & Hu). unfold createEAPOLPkt. rewrite pad60_frame.
  set (pad := replicate _ 0). exists pad.
  unfold extractEAP, extractEAPOL, PktLayer, Layers.
  rewrite ethernet_of_frame by (repeat split; done).
  unfold serialize_eapol, serialize_eap. destruct (EAP_TypeData e) as [|t0 td] eqn:Etd; [done|].
  cbn [eth_Payload EthernetType app be16 find_layer sel_EAP sel_EAPOL decode_type].
  change (is_dot1q_type EthernetTypeEAPOL) with false. cbn iota.
  rewrite decide_True by done. cbn [decodeEAPOL find_layer sel_EAP sel_EAPOL].
  rewrite (decide_True (P := 0 = 0)) by done. cbn [decodeEAP].
  rewrite be16_dec_be16 by done. rewrite Hlen. cbn [length].
  rewrite decide_False by (rewrite length_app; lia).
  rewrite decide_True by lia. cbn [find_layer sel_EAP].
  replace (Z.to_nat (5 + Z.of_nat (S (length td)))) with (5 + length (t0 :: td))%nat
    by (cbn [length]; lia).
  split.
  - f_equal. f_equal. cbn [take Nat.add length]. do 6 f_equal. by apply take_app_length.
  - eexists. split; [reflexivity|]. done.
Qed.

Lemma wf_identity_request i : wf_eap (createEAPIdentityRequest i).
Proof. unfold wf_eap, is_u16. cbn. split_and!; [done|lia..]. Qed.
Lemma wf_identity_response i : wf_eap (createEAPIdentityResponse i).
Proof. unfold wf_eap, is_u16. cbn. split_and!; [done|lia..]. Qed.
Lemma wf_success i : wf_eap (createEAPSuccess i).
Proof. unfold wf_eap, is_u16. cbn. split_and!; [done|lia..]. Qed.
Lemma wf_challenge_request i d : length d = 17%nat -> wf_eap (createEAPChallengeRequest i d).
Proof. unfold wf_eap, is_u16. cbn. intros Hd. rewrite Hd. split_and!; [by destruct d|lia..]. Qed.
Lemma wf_challenge_response i d : length d = 17%nat -> wf_eap (createEAPChallengeResponse i d).
Proof. unfold wf_eap, is_u16. cbn. intros Hd. rewrite Hd. split_and!; [by destruct d|lia..]. Qed.

(** The EAPOL-Start frame decodes to an EAPOL layer of that type and no EAP. *)
Lemma eap_start_decodes `{Gopacket} mac :
  length mac = 6%nat ->
  (exists e, extractEAP (eap_start_pkt mac) = inl e) /\
  exists p, extractEAPOL (eap_start_pkt mac) = inr p /\ EAPOL_Type p = EAPOLTypeStart.
Proof.
  intros Hm. unfold eap_start_pkt, serialize_ethernet. rewrite decide_True by done.
  fold (frame [0x01; 0x80; 0xC2; 0x00; 0x00; 0x03] mac EthernetTypeEAPOL
          (serialize_eapol EAPOLTypeStart 0 [])).
  rewrite pad60_frame. unfold extractEAP, extractEAPOL, PktLayer, Layers.
  rewrite ethernet_of_frame by (repeat split; done).
  cbn [eth_Payload EthernetType app be16 serialize_eapol find_layer sel_EAP sel_EAPOL decode_type].
  change (is_dot1q_type EthernetTypeEAPOL) with false. cbn iota.
  rewrite decide_True by done. cbn [decodeEAPOL find_layer sel_EAP sel_EAPOL].
  split; [eexists; reflexivity|]. eexists. split; reflexivity.
Qed.

(** ** The supplicant *)

Section Supplicant.
  Context `{Gopacket} (md5_Sum : list Z -> list Z).
  Context {S : Type} `{HasIO S} (f : FSM S) `{!IOLaws f (fun ev => ev <> EventStartAuth)}.
  Context (Hev : fsm_events f = eapol_events).

(** Events other than the start of the authentication, on the EAPOL table. *)
Lemma eapol_event ev s :
  ev <> EventStartAuth -> exists r s', Event f ev s = Done (r, s') /\
    fsm_current f s' = default (fsm_current f s) (transitions eapol_events ev (fsm_current f s)) /\
    io_stream s' = io_stream s.
Proof. intros Hq. rewrite <-Hev. by apply Event_quiet_current. Qed.

Lemma auth_failed_dst st : transitions eapol_events EventAuthFailed st = None \/
  transitions eapol_events EventAuthFailed st = Some StateAuthFailed.
Proof.
  destruct (transitions eapol_events EventAuthFailed st) as [d|] eqn:E; [right|by left].
  apply transitions_entry in E. vm_compute in E.
  repeat (apply elem_of_cons in E as [E|E]; [by simplify_eq|]). by apply elem_of_nil in E.
Qed.

(** Failing leaves a machine that was not running as it is. *)
Lemma updateAuthFailed_spec s : exists r s', updateAuthFailed f s = Done (r, s') /\
  (fsm_current f s' = StateAuthFailed \/ fsm_current f s' = fsm_current f s) /\
  io_stream s' = io_stream s.
Proof.
  destruct (eapol_event EventAuthFailed s) as (r & s' & He & Hc & Hs); [done|].
  exists r, s'. split; [done|]. split; [|done]. rewrite Hc.
  destruct (auth_failed_dst (fsm_current f s)) as [->| ->]; auto.
Qed.

Lemma drop_spec s : exists s', drop_out_of_order f s = Done (tt, s') /\
  (fsm_current f s' = StateAuthFailed \/ fsm_current f s' = fsm_current f s) /\
  io_stream s' = io_stream s.
Proof.
  unfold drop_out_of_order, Current. mred. case_decide; [|eauto 10].
  destruct (updateAuthFailed_spec s) as (r & s' & -> & Hc & Hs). eauto.
Qed.

(** The end of a step that sent a response: on a failed send the machine
    fails, otherwise it takes the event. *)
Lemma send_then_event ind ev s dst :
  ev <> EventStartAuth -> transitions eapol_events ev (fsm_current f s) = Some dst ->
  exists s', (err ← send ind;
              match err with
              | Some _ => updateAuthFailed f ;; skip
              | None => Event f ev ;; skip
              end) s = Done (tt, s') /\
    (s_err (io_stream s) = None -> fsm_current f s' = dst /\
       s_sent (io_stream s') = (s_sent (io_stream s) ++ [ind])%list /\
       s_err (io_stream s') = None) /\
    (s_err (io_stream s) <> None ->
       (fsm_current f s' = StateAuthFailed \/ fsm_current f s' = fsm_current f s) /\
       s_sent (io_stream s') = s_sent (io_stream s)).
Proof.
  intros Hq Ht. destruct (s_err (io_stream s)) as [e|] eqn:E.
  - mred. rewrite (send_error _ _ _ E).
    destruct (updateAuthFailed_spec (io_set_stream (io_stream s) s)) as (r & s' & -> & Hc & Hs).
    eexists. split; [reflexivity|]. split; [done|]. intros _.
    rewrite io_current_send in Hc. rewrite Hs, io_get_set. auto.
  - mred. rewrite (send_Done _ _ E).
    destruct (eapol_event ev (send_ok ind s) Hq) as (r & s' & -> & Hc & Hs).
    eexists. split; [reflexivity|]. split; [|done]. intros _. unfold send_ok in *.
    rewrite io_current_send, Ht in Hc. rewrite Hs, io_get_set.
    split_and!; [done|done|exact E].
Qed.

(** What a state machine needs to be in for a received message to be
    expected, and where it goes then. *)
Definition expected (e : EAP) : option (string * string) :=
  if decide (EAP_Code e = EAPCodeRequest /\ EAP_Type e = EAPTypeIdentity)
  then Some (StateStartSent, StateResponseIdentitySent)
  else if decide (EAP_Code e = EAPCodeRequest /\ EAP_Type e = EAPTypeOTP)
  then Some (StateResponseIdentitySent, StateResponseChallengeSent)
  else if decide (EAP_Code e = EAPCodeSuccess /\ EAP_Type e = EAPTypeNone)
  then Some (StateResponseChallengeSent, StateResponseSuccessReceived)
  else None.

Context (onuId ponPortId gemPortId portNo uniId serviceId oltId : Z).
Local Notation handle :=
  (HandleNextPacket md5_Sum f onuId ponPortId gemPortId portNo uniId serviceId oltId).

(** A packet that carries an EAP message of the authenticator. *)
Definition carries (pkt : NetPacket) (e : EAP) : Prop :=
  extractEAP pkt = inr e /\
  match extractEAPOL pkt with inr p => EAPOL_Type p <> EAPOLTypeStart | inl _ => True end.

Lemma carries_created e svc uni onu intf olt :
  wf_eap e -> exists pad, carries (createEAPOLPkt e svc uni onu intf olt)
    {| EAP_Code := EAP_Code e; EAP_Id := EAP_Id e; EAP_Length := EAP_Length e;
       EAP_Type := EAP_Type e; EAP_TypeData := (EAP_TypeData e ++ pad)%list;
       EAP_Contents := serialize_eap e |}.
Proof.
  intros Hw. destruct (createEAPOLPkt_decodes e svc uni onu intf olt Hw) as (pad & He & p & Hp & Ht).
  exists pad. split; [done|]. rewrite Hp, Ht. done.
Qed.

(** The dispatch on a message of the authenticator. *)
Lemma handle_carries pkt e s :
  carries pkt e ->
  handle pkt s =
    handle_eap md5_Sum f onuId ponPortId gemPortId portNo uniId serviceId oltId e s.
Proof.
  intros [He Hp]. unfold HandleNextPacket. rewrite He.
  destruct (extractEAPOL pkt) as [x|p]; [done|]. by rewrite bool_decide_eq_false_2.
Qed.

(** Dropping a message out of order. *)
Lemma drop_exact s :
  exists s', drop_out_of_order f s = Done (tt, s') /\ io_stream s' = io_stream s /\
    fsm_current f s' =
      if decide (fsm_current f s = StateResponseSuccessReceived) then fsm_current f s
      else default (fsm_current f s) (transitions eapol_events EventAuthFailed (fsm_current f s)).
Proof.
  unfold drop_out_of_order, Current. mred. case_decide as Hs.
  - destruct Hs as [Ha Hb]. unfold updateAuthFailed.
    destruct (eapol_event EventAuthFailed s) as (r & s' & -> & Hcur & Hst); [done|].
    eexists. split; [reflexivity|]. split; [done|]. by rewrite decide_False.
  - exists s. split; [done|]. split; [done|]. case_decide as Hsu; [done|].
    destruct (decide (fsm_current f s = StateAuthFailed)) as [->|]; [done|]. tauto.
Qed.

(** A request or a success that arrives in a state where it is not
    expected is dropped: nothing is sent, and a running authentication fails
    (one that has succeeded, failed or not begun stays as it is). *)
Theorem out_of_order_dropped pkt e s src dst :
  carries pkt e -> expected e = Some (src, dst) -> fsm_current f s <> src ->
  exists s', handle pkt s = Done (tt, s') /\ io_stream s' = io_stream s /\
    fsm_current f s' =
      if decide (fsm_current f s = StateResponseSuccessReceived) then fsm_current f s
      else default (fsm_current f s) (transitions eapol_events EventAuthFailed (fsm_current f s)).
Proof.
  intros Hc He Hne. rewrite (handle_carries pkt e s Hc). unfold expected in He. unfold handle_eap.
  pose proof (drop_exact s) as Hd.
  repeat case_decide; simplify_eq; try (exfalso; unfold EAPCodeRequest, EAPCodeResponse,
    EAPCodeSuccess, EAPTypeIdentity, EAPTypeOTP, EAPTypeNone in *; lia);
    unfold handle_identity_request, handle_challenge_request, handle_success, Current; mred;
    (rewrite decide_True by done); exact Hd.
Qed.

(** Two different state names are not the same state. *)
Ltac states :=
  first [congruence
        |exfalso; match goal with
         | H1 : ?a = _, H2 : ?a = _ |- _ => rewrite H1 in H2; discriminate H2
         | H1 : ?a = _, H2 : ?b <> _ |- _ => by rewrite H1 in H2
         end].

Lemma client_call_current c s r s' :
  client_call c s = Done (r, s') -> fsm_current f s' = fsm_current f s.
Proof.
  unfold client_call. destruct (io_client s) as [cl|]; [|done].
  destruct (c_err cl); intros [= <- <-]; [done|]. apply io_current_client.
Qed.

(** Where the parts of the handler can leave the machine. *)
Lemma handle_success_current s s' :
  handle_success f s = Done (tt, s') -> fsm_current f s' = StateResponseSuccessReceived ->
  fsm_current f s = StateResponseSuccessReceived \/ fsm_current f s = StateResponseChallengeSent.
Proof.
  unfold handle_success, Current. mred.
  destruct (decide (fsm_current f s = StateResponseChallengeSent)) as [|Hne]; [by right|].
  rewrite decide_True by done. intros Hr Hs. left.
  destruct (drop_spec s) as (s1 & Hd & [Hc|Hc] & _); rewrite Hd in Hr; simplify_eq; states.
Qed.

Lemma send_then_event_current ind ev s s' dst :
  ev <> EventStartAuth -> transitions eapol_events ev (fsm_current f s) = Some dst ->
  dst <> StateResponseSuccessReceived ->
  (err ← send ind;
   match err with
   | Some _ => updateAuthFailed f ;; skip
   | None => Event f ev ;; skip
   end) s = Done (tt, s') ->
  fsm_current f s' = StateResponseSuccessReceived ->
  fsm_current f s = StateResponseSuccessReceived.
Proof.
  intros Hq Ht Hd Hr Hs.
  destruct (send_then_event ind ev s dst Hq Ht) as (s1 & Hr1 & Hok & Hko).
  rewrite Hr1 in Hr. simplify_eq.
  destruct (s_err (io_stream s)) as [e|]; [|destruct Hok as [Hc _]; states].
  destruct Hko as [[Hc|Hc] _]; states.
Qed.

Lemma drop_current s s' :
  drop_out_of_order f s = Done (tt, s') -> fsm_current f s' = StateResponseSuccessReceived ->
  fsm_current f s = StateResponseSuccessReceived.
Proof.
  intros Hr Hs. destruct (drop_spec s) as (s1 & Hd & [Hc|Hc] & _); rewrite Hd in Hr;
    simplify_eq; states.
Qed.

Lemma handle_identity_request_current e s s' :
  handle_identity_request f onuId ponPortId gemPortId portNo uniId serviceId oltId e s
    = Done (tt, s') -> fsm_current f s' = StateResponseSuccessReceived ->
  fsm_current f s = StateResponseSuccessReceived.
Proof.
  unfold handle_identity_request, Current. mred. case_decide as Hst; [apply drop_current|].
  unfold sendEapolPktIn.
  apply (send_then_event_current _ EventResponseIdentitySent s s' StateResponseIdentitySent);
    [done|by rewrite Hst|done].
Qed.

Lemma handle_challenge_request_current e s s' :
  handle_challenge_request md5_Sum f onuId ponPortId gemPortId portNo uniId serviceId oltId e s
    = Done (tt, s') -> fsm_current f s' = StateResponseSuccessReceived ->
  fsm_current f s = StateResponseSuccessReceived.
Proof.
  unfold handle_challenge_request, Current. mred. case_decide as Hst; [apply drop_current|].
  destruct (getMD5Data md5_Sum e) as [d| | |]; [|done..].
  unfold sendEapolPktIn.
  apply (send_then_event_current _ EventResponseChallengeSent s s' StateResponseChallengeSent);
    [done|by rewrite Hst|done].
Qed.

Lemma handle_challenge_response_current e s s' :
  handle_challenge_response f onuId ponPortId uniId serviceId oltId e s = Done (tt, s') ->
  fsm_current f s' = fsm_current f s.
Proof.
  unfold handle_challenge_response, sendEapolPktOut. mred.
  destruct (client_call _ s) as [[[x|] s1]| | |] eqn:Hcl; [|intros Hr|done..].
  - intros [= <-]. by eapply client_call_current.
  - destruct (eapol_event "send_dhcp_flow" s1) as (r & s2 & He & Hc & _); [done|].
    rewrite He in Hr. simplify_eq. rewrite Hc. apply client_call_current in Hcl.
    by destruct (transitions eapol_events "send_dhcp_flow" (fsm_current f s1)) eqn:E;
      [apply transitions_entry in E; vm_compute in E; set_solver|].
Qed.

Lemma handle_identity_response_current e s s' :
  handle_identity_response md5_Sum onuId ponPortId uniId serviceId oltId e s = Done (tt, s') ->
  fsm_current f s' = fsm_current f s.
Proof.
  unfold handle_identity_response, sendEapolPktOut. mred.
  destruct (getMD5Data md5_Sum e) as [d| | |]; [|done..].
  destruct (client_call _ s) as [[x s1]| | |] eqn:Hcl; [|done..].
  intros [= <-]. by eapply client_call_current.
Qed.

Lemma handle_eap_current e s s' :
  handle_eap md5_Sum f onuId ponPortId gemPortId portNo uniId serviceId oltId e s = Done (tt, s') ->
  fsm_current f s' = StateResponseSuccessReceived ->
  fsm_current f s = StateResponseSuccessReceived \/
  (fsm_current f s = StateResponseChallengeSent /\ EAP_Code e = EAPCodeSuccess).
Proof.
  unfold handle_eap. intros Hr Hs.
  case_decide; [left; by eapply handle_identity_request_current|].
  case_decide; [left; apply handle_identity_response_current in Hr; congruence|].
  case_decide; [left; by eapply handle_challenge_request_current|].
  case_decide; [left; apply handle_challenge_response_current in Hr; congruence|].
  case_decide; [|left; mred in Hr; by simplify_eq].
  destruct (handle_success_current s s' Hr Hs); [by left|right; tauto].
Qed.

Lemma start_current pkt s s' :
  (sendEapolPktOut ponPortId onuId pkt ;; skip) s = Done (tt, s') ->
  fsm_current f s' = StateResponseSuccessReceived ->
  fsm_current f s = StateResponseSuccessReceived.
Proof.
  unfold sendEapolPktOut. mred. destruct (client_call _ s) as [[r s1]| | |] eqn:Hcl; [|done..].
  intros [= <-]. apply client_call_current in Hcl. congruence.
Qed.

(** C38: whatever packet arrives, the responder reports success only when it
    had answered the challenge and the packet is an EAP success (or it had
    succeeded before): no packet skips a step of the authentication. *)
Theorem success_only_after_challenge pkt s s' :
  handle pkt s = Done (tt, s') -> fsm_current f s' = StateResponseSuccessReceived ->
  fsm_current f s = StateResponseSuccessReceived \/
  (fsm_current f s = StateResponseChallengeSent /\
   exists e, extractEAP pkt = inr e /\ EAP_Code e = EAPCodeSuccess).
Proof.
  unfold HandleNextPacket. intros Hr Hs.
  destruct (extractEAP pkt) as [x|e] eqn:He, (extractEAPOL pkt) as [y|p] eqn:Hp; [done|..].
  - case_bool_decide; [|done]. left. by eapply start_current.
  - cbn in Hr. destruct (handle_eap_current e s s' Hr Hs) as [|[]]; eauto.
  - case_bool_decide; [left; by eapply start_current|].
    destruct (handle_eap_current e s s' Hr Hs) as [|[]]; eauto.
Qed.

(** ** The handshake *)

Lemma identity_step pkt e s :
  carries pkt e -> EAP_Code e = EAPCodeRequest -> EAP_Type e = EAPTypeIdentity ->
  fsm_current f s = StateStartSent -> s_err (io_stream s) = None ->
  exists s', handle pkt s = Done (tt, s') /\ fsm_current f s' = StateResponseIdentitySent /\
    s_err (io_stream s') = None /\
    last_pkt s' = createEAPOLPkt (createEAPIdentityResponse (EAP_Id e)) serviceId uniId onuId
                    ponPortId oltId.
Proof.
  intros Hc Hcode Hty Hst Herr. rewrite (handle_carries pkt e s Hc). unfold handle_eap.
  rewrite decide_True by done. unfold handle_identity_request, Current, sendEapolPktIn.
  set (ind := IndPkt _ _ _ _ _ _ _).
  destruct (send_then_event ind EventResponseIdentitySent s StateResponseIdentitySent)
    as (s' & Hr & Hok & _); [done|by rewrite Hst|].
  destruct (Hok Herr) as (Hcur & Hsent & He). exists s'. mred in Hr. mred.
  rewrite decide_False by (by intros []). rewrite Hr. split_and!; [done..|].
  unfold last_pkt. by rewrite Hsent, last_snoc.
Qed.

Lemma challenge_step pkt e s :
  carries pkt e -> EAP_Code e = EAPCodeRequest -> EAP_Type e = EAPTypeOTP ->
  (6 <= length (EAP_Contents e))%nat ->
  fsm_current f s = StateResponseIdentitySent -> s_err (io_stream s) = None ->
  exists s' d, handle pkt s = Done (tt, s') /\ fsm_current f s' = StateResponseChallengeSent /\
    s_err (io_stream s') = None /\ getMD5Data md5_Sum e = Done d /\
    last_pkt s' = createEAPOLPkt (createEAPChallengeResponse (EAP_Id e) (0x10 :: d)) serviceId
                    uniId onuId ponPortId oltId.
Proof.
  intros Hc Hcode Hty Hlen Hst Herr. rewrite (handle_carries pkt e s Hc). unfold handle_eap.
  rewrite !Hcode, !Hty. do 2 (rewrite decide_False by (by intros [])).
  rewrite decide_True by done. unfold handle_challenge_request, Current, sendEapolPktIn.
  destruct (getMD5Data md5_Sum e) as [d| | |] eqn:Hd;
    [|unfold getMD5Data in Hd; rewrite decide_False in Hd by lia; done..].
  set (ind := IndPkt "pon" ponPortId gemPortId
    (createEAPOLPkt (createEAPChallengeResponse (EAP_Id e) (0x10 :: d)) serviceId uniId onuId
       ponPortId oltId) portNo onuId 0).
  destruct (send_then_event ind EventResponseChallengeSent s StateResponseChallengeSent)
    as (s' & Hr & Hok & _); [done|by rewrite Hst|].
  destruct (Hok Herr) as (Hcur & Hsent & He). exists s', d. mred in Hr. mred.
  rewrite decide_False by (by intros []). fold ind. rewrite Hr. split_and!; [done..|].
  unfold last_pkt. by rewrite Hsent, last_snoc.
Qed.

Lemma success_step pkt e s :
  carries pkt e -> EAP_Code e = EAPCodeSuccess -> EAP_Type e = EAPTypeNone ->
  fsm_current f s = StateResponseChallengeSent ->
  exists s', handle pkt s = Done (tt, s') /\ fsm_current f s' = StateResponseSuccessReceived.
Proof.
  intros Hc Hcode Hty Hst. rewrite (handle_carries pkt e s Hc). unfold handle_eap.
  rewrite !Hcode, !Hty. do 4 (rewrite decide_False by (by intros [])).
  rewrite decide_True by done. unfold handle_success, Current. mred.
  rewrite decide_False by (by intros []).
  destruct (eapol_event EventResponseSuccessReceived s) as (r & s' & -> & Hcur & _); [done|].
  eexists. split; [reflexivity|]. by rewrite Hcur, Hst.
Qed.

Lemma start_step mac s :
  fsm_current f s = StateAuthStarted -> s_err (io_stream s) = None ->
  exists s', SendEapStart f onuId ponPortId portNo mac gemPortId uniId s = Done (false, s') /\
    fsm_current f s' = StateStartSent /\ s_err (io_stream s') = None /\
    last_pkt s' = eap_start_pkt mac.
Proof.
  intros Hst Herr. unfold SendEapStart. mred. rewrite (send_Done _ _ Herr).
  set (ind := IndPkt _ _ _ _ _ _ _).
  assert (Event f EventStartSent (send_ok ind s) =
          Done (None, fsm_set f StateStartSent (send_ok ind s))) as ->.
  { apply (Event_quiet (quiet := fun ev => ev <> EventStartAuth)); [done| |].
    - unfold send_ok. by rewrite Hev, io_current_send, Hst.
    - unfold send_ok. by rewrite io_current_send, Hst. }
  eexists. split; [reflexivity|]. rewrite io_current_set, io_stream_set. unfold last_pkt.
  rewrite io_stream_set. unfold send_ok. rewrite io_get_set.
  split_and!; [done|done|]. cbn. by rewrite last_snoc.
Qed.
End Supplicant.

(** ** BBR as the authenticator *)

(** Source: internal/bbsim/devices/onu.go:208-211, [CreateONU] (the rows of
    the table of an ONU that BBR uses).  The machine here has no callbacks: on
    entering the two states the ONU queues [SendEapolFlow] and [SendDhcpFlow]
    for itself, which is part of [Onu.onu_fsm], the machine BBR's ONUs run; the
    exchange of packets below does not depend on those messages. *)
Definition bbr_events : list EventDesc := [
  {| Name := "send_eapol_flow"; Src := ["initialized"]; Dst := "eapol_flow_sent" |};
  {| Name := "send_dhcp_flow"; Src := ["eapol_flow_sent"]; Dst := "dhcp_flow_sent" |} ].

Section Authenticator.
  Context `{Gopacket} (md5_Sum : list Z -> list Z) (Hmd5 : forall x, length (md5_Sum x) = 16%nat).
  Context (onuId ponPortId gemPortId portNo uniId serviceId oltId : Z).
  Local Notation bbr := (HandleNextPacket md5_Sum (plain_machine bbr_events)
    onuId ponPortId gemPortId portNo uniId serviceId oltId).

(** The last packet BBR sent to the ONU. *)
Definition last_out (b : PlainIO) : list Z :=
  match p_client b with
  | Some cl => match last (c_calls cl) with Some (COnuPacketOut _ _ _ _ p) => p | _ => [] end
  | None => []
  end.

(** BBR is connected. *)
Definition connected (b : PlainIO) : Prop :=
  exists calls, p_client b = Some {| c_err := None; c_calls := calls |}.

Lemma pkt_out b pkt : connected b ->
  exists b', sendEapolPktOut ponPortId onuId pkt b = Done (None, b') /\ connected b' /\
    last_out b' = pkt /\ p_state b' = p_state b.
Proof.
  intros [calls Hc]. unfold sendEapolPktOut, client_call. cbn [io_client plain_io]. rewrite Hc.
  eexists. split; [reflexivity|]. split; [eexists; reflexivity|]. split; [|done].
  unfold last_out. cbn. by rewrite last_snoc.
Qed.

Lemma bbr_start pkt p b e :
  connected b -> extractEAP pkt = inl e -> extractEAPOL pkt = inr p ->
  EAPOL_Type p = EAPOLTypeStart ->
  exists b', bbr pkt b = Done (tt, b') /\ connected b' /\ p_state b' = p_state b /\
    last_out b' = createEAPOLPkt (createEAPIdentityRequest 1) serviceId uniId onuId ponPortId oltId.
Proof.
  intros Hc He Hp Ht. unfold HandleNextPacket. rewrite He, Hp, bool_decide_eq_true_2 by done.
  destruct (pkt_out b (createEAPOLPkt (createEAPIdentityRequest 1) serviceId uniId onuId ponPortId
    oltId) Hc) as (b' & Hr & Hc' & Hl & Hs). mred. rewrite Hr. eauto 10.
Qed.

Lemma bbr_identity pkt e b :
  connected b -> carries pkt e -> EAP_Code e = EAPCodeResponse -> EAP_Type e = EAPTypeIdentity ->
  (6 <= length (EAP_Contents e))%nat ->
  exists b' d, bbr pkt b = Done (tt, b') /\ connected b' /\ p_state b' = p_state b /\
    length d = 17%nat /\
    last_out b' = createEAPOLPkt (createEAPChallengeRequest (EAP_Id e) d) serviceId uniId onuId
                    ponPortId oltId.
Proof.
  intros Hc Hca Hcode Hty Hlen. rewrite (handle_carries md5_Sum _ _ _ _ _ _ _ _ pkt e b Hca).
  unfold handle_eap. rewrite !Hcode, !Hty. rewrite decide_False by (by intros []).
  rewrite decide_True by done. unfold handle_identity_response, getMD5Data.
  rewrite decide_False by lia. set (d := md5_Sum _).
  destruct (pkt_out b (createEAPOLPkt (createEAPChallengeRequest (EAP_Id e) (0x10 :: take 16 d))
    serviceId uniId onuId ponPortId oltId) Hc) as (b' & Hr & Hc' & Hl & Hs).
  exists b', (0x10 :: take 16 d). mred. rewrite Hr. split_and!; [done..| |done].
  cbn. rewrite length_take. subst d. rewrite Hmd5. done.
Qed.

Lemma bbr_challenge pkt e b :
  connected b -> carries pkt e -> EAP_Code e = EAPCodeResponse -> EAP_Type e = EAPTypeOTP ->
  p_state b = "eapol_flow_sent" ->
  exists b', bbr pkt b = Done (tt, b') /\ p_state b' = "dhcp_flow_sent" /\
    last_out b' = createEAPOLPkt (createEAPSuccess (EAP_Id e)) serviceId uniId onuId ponPortId oltId.
Proof.
  intros Hc Hca Hcode Hty Hst. rewrite (handle_carries md5_Sum _ _ _ _ _ _ _ _ pkt e b Hca).
  unfold handle_eap. rewrite !Hcode, !Hty. do 3 (rewrite decide_False by (by intros [])).
  rewrite decide_True by done. unfold handle_challenge_response.
  destruct (pkt_out b (createEAPOLPkt (createEAPSuccess (EAP_Id e)) serviceId uniId onuId ponPortId
    oltId) Hc) as (b' & Hr & Hc' & Hl & Hs). mred. rewrite Hr.
  assert (Event (plain_machine bbr_events) "send_dhcp_flow" b' =
          Done (None, fsm_set (plain_machine bbr_events) "dhcp_flow_sent" b')) as ->.
  { apply (Event_quiet (quiet := fun _ => True)); [done|..];
      cbn [fsm_current plain_machine]; by rewrite Hs, Hst. }
  eexists. split; [reflexivity|]. split; [done|]. exact Hl.
Qed.

(** C13: the supplicant of a subscriber and the authenticator of BBR complete
    the authentication: feeding each side the packets the other one sent, the
    service ends authenticated and BBR asks for the DHCP flow.  The packets
    are the bytes on the wire, encoded by one side and decoded by the
    other. *)
Theorem eapol_handshake {S : Type} `{HasIO S} (f : FSM S)
    `{!IOLaws f (fun ev => ev <> EventStartAuth)} (Hev : fsm_events f = eapol_events)
    (onu pon gem port uni svc olt : Z) (mac : list Z) (s : S) (b : PlainIO) :
  length mac = 6%nat ->
  fsm_current f s = StateAuthStarted -> s_err (io_stream s) = None ->
  connected b -> p_state b = "eapol_flow_sent" ->
  let step := HandleNextPacket md5_Sum f onu pon gem port uni svc olt in
  exists s1 b1 s2 b2 s3 b3 s4,
    SendEapStart f onu pon port mac gem uni s = Done (false, s1) /\
    bbr (last_pkt s1) b = Done (tt, b1) /\ step (last_out b1) s1 = Done (tt, s2) /\
    bbr (last_pkt s2) b1 = Done (tt, b2) /\ step (last_out b2) s2 = Done (tt, s3) /\
    bbr (last_pkt s3) b2 = Done (tt, b3) /\ step (last_out b3) s3 = Done (tt, s4) /\
    fsm_current f s4 = StateResponseSuccessReceived /\ p_state b3 = "dhcp_flow_sent".
Proof.
  intros Hmac Hst Herr Hb Hbst step.
  destruct (start_step f Hev onu pon gem port uni mac s Hst Herr) as (s1 & R1 & C1 & E1 & L1).
  destruct (eap_start_decodes mac Hmac) as [[e0 Hx] [p0 [Hp Ht]]].
  destruct (bbr_start (last_pkt s1) p0 b e0 Hb) as (b1 & R2 & B1 & S1 & O1);
    [by rewrite L1|by rewrite L1|done|].
  destruct (carries_created (createEAPIdentityRequest 1) serviceId uniId onuId ponPortId oltId
    (wf_identity_request 1)) as [pad1 K1]. rewrite <-O1 in K1.
  destruct (identity_step md5_Sum f Hev onu pon gem port uni svc olt _ _ s1 K1 eq_refl eq_refl C1 E1)
    as (s2 & R3 & C2 & E2 & L2).
  destruct (carries_created (createEAPIdentityResponse 1) svc uni onu pon olt
    (wf_identity_response 1)) as [pad2 K2]. cbn [EAP_Id createEAPIdentityRequest mk_eap] in L2.
  rewrite <-L2 in K2.
  destruct (bbr_identity (last_pkt s2) _ b1 B1 K2 eq_refl eq_refl) as (b2 & d & R4 & B2 & S2 & Hd & O2);
    [cbn; lia|].
  destruct (carries_created (createEAPChallengeRequest 1 d) serviceId uniId onuId ponPortId oltId
    (wf_challenge_request 1 d Hd)) as [pad3 K3]. cbn [EAP_Id createEAPIdentityResponse mk_eap] in O2.
  rewrite <-O2 in K3.
  destruct (challenge_step md5_Sum f Hev onu pon gem port uni svc olt _ _ s2 K3 eq_refl eq_refl)
    as (s3 & d2 & R5 & C3 & E3 & Hd2 & L3); [|exact C2|exact E2|].
  { cbn. destruct d; cbn in *; lia. }
  assert (length (0x10 :: d2) = 17%nat) as Hl2.
  { unfold getMD5Data in Hd2. case_decide; [done|]. injection Hd2 as <-.
    cbn. rewrite length_take, Hmd5. done. }
  destruct (carries_created (createEAPChallengeResponse 1 (0x10 :: d2)) svc uni onu pon olt
    (wf_challenge_response 1 _ Hl2)) as [pad4 K4].
  cbn [EAP_Id createEAPChallengeRequest mk_eap] in L3. rewrite <-L3 in K4.
  destruct (bbr_challenge (last_pkt s3) _ b2 B2 K4 eq_refl eq_refl) as (b3 & R6 & S3 & O3);
    [congruence|].
  destruct (carries_created (createEAPSuccess 1) serviceId uniId onuId ponPortId oltId
    (wf_success 1)) as [pad5 K5]. cbn [EAP_Id createEAPChallengeResponse mk_eap] in O3.
  rewrite <-O3 in K5.
  destruct (success_step md5_Sum f Hev onu pon gem port uni svc olt _ _ s3 K5 eq_refl eq_refl C3)
    as (s4 & R7 & C4).
  exists s1, b1, s2, b2, s3, b3, s4. by split_and!.
Qed.
End Authenticator.

Section HandshakeWitness.

(** A hash of the right size. *)
Definition const_md5 (_ : list Z) : list Z := replicate 16 7.

Definition supplicant0 : PlainIO := {|
  p_state := StateAuthStarted; p_stream := {| s_err := None; s_sent := [] |}; p_client := None |}.
Definition authenticator0 : PlainIO := {|
  p_state := "eapol_flow_sent"; p_stream := {| s_err := None; s_sent := [] |};
  p_client := Some {| c_err := None; c_calls := [] |} |}.

#[local] Instance eapol_plain : IOLaws (plain_machine eapol_events) (fun ev => ev <> EventStartAuth).
Proof. split; intros; try done. Defined.

Lemma eapol_handshake_witness :
  exists s b,
    fsm_current (plain_machine eapol_events) s = StateResponseSuccessReceived /\
    p_state b = "dhcp_flow_sent".
Proof.
  destruct (@eapol_handshake link_layer_only const_md5 (fun _ => eq_refl) 1 0 0 16 0 0 0
    PlainIO plain_io (plain_machine eapol_events) eapol_plain eq_refl 1 0 1024 16 0 0 0
    [46; 0; 0; 1; 0; 0] supplicant0 authenticator0 eq_refl eq_refl eq_refl
    (ex_intro _ [] eq_refl) eq_refl)
    as (s1 & b1 & s2 & b2 & s3 & b3 & s4 & _ & _ & _ & _ & _ & _ & _ & H1 & H2).
  exists s4, b3. split; [exact H1|exact H2].
Defined.

Lemma out_of_order_dropped_witness :
  exists s', @HandleNextPacket link_layer_only const_md5 PlainIO plain_io
      (plain_machine eapol_events) 1 0 1024 16 0 0 0
      (createEAPOLPkt (createEAPSuccess 1) 0 0 1 0 0) supplicant0 = Done (tt, s') /\
    fsm_current (plain_machine eapol_events) s' = StateAuthFailed.
Proof.
  destruct (@carries_created link_layer_only (createEAPSuccess 1) 0 0 1 0 0 (wf_success 1))
    as [pad Hc].
  destruct (@out_of_order_dropped link_layer_only const_md5 PlainIO plain_io
    (plain_machine eapol_events) eapol_plain eq_refl 1 0 1024 16 0 0 0 _ _ supplicant0
    StateResponseChallengeSent StateResponseSuccessReceived Hc eq_refl) as (s' & H1 & _ & H2).
  - vm_compute. discriminate.
  - exists s'. split; [exact H1|]. rewrite H2. vm_compute. reflexivity.
Defined.

Lemma success_only_after_challenge_witness :
  exists s', @HandleNextPacket link_layer_only const_md5 PlainIO plain_io
      (plain_machine eapol_events) 1 0 1024 16 0 0 0
      (createEAPOLPkt (createEAPSuccess 1) 0 0 1 0 0)
      (supplicant0 <| p_state := StateResponseChallengeSent |>) = Done (tt, s') /\
    exists e, @extractEAP link_layer_only (createEAPOLPkt (createEAPSuccess 1) 0 0 1 0 0) = inr e /\
      EAP_Code e = EAPCodeSuccess.
Proof.
  assert (@HandleNextPacket link_layer_only const_md5 PlainIO plain_io
      (plain_machine eapol_events) 1 0 1024 16 0 0 0
      (createEAPOLPkt (createEAPSuccess 1) 0 0 1 0 0)
      (supplicant0 <| p_state := StateResponseChallengeSent |>) =
    Done (tt, supplicant0 <| p_state := StateResponseSuccessReceived |>)) as Hr
    by (vm_compute; reflexivity).
  eexists. split; [exact Hr|].
  destruct (@success_only_after_challenge link_layer_only const_md5 PlainIO plain_io
    (plain_machine eapol_events) eapol_plain eq_refl 1 0 1024 16 0 0 0
    (createEAPOLPkt (createEAPSuccess 1) 0 0 1 0 0)
    (supplicant0 <| p_state := StateResponseChallengeSent |>) _ Hr eq_refl) as [H|[_ H]].
  - vm_compute in H. discriminate H.
  - exact H.
Defined.
End HandshakeWitness.

(** An EAPOL frame that is neither a start nor carries an EAP message (a
    logoff, say) reaches the dispatch with a nil EAP layer. *)
Lemma eapol_without_eap_panics `{Gopacket} md5_Sum {S : Type} `{HasIO S} (f : FSM S)
    onu pon gem port uni svc olt pkt e p (s : S) :
  extractEAP pkt = inl e -> extractEAPOL pkt = inr p -> EAPOL_Type p <> EAPOLTypeStart ->
  HandleNextPacket md5_Sum f onu pon gem port uni svc olt pkt s = Panicked "nil EAP layer".
Proof.
  intros He Hp Ht. unfold HandleNextPacket. rewrite He, Hp. by rewrite bool_decide_eq_false_2.
Qed.

(** ** What the responder leaves alone *)

Section Frames.
  Context `{Gopacket} (md5_Sum : list Z -> list Z) {S : Type} `{HasIO S} (f : FSM S) (P : S -> Prop).
  Context (Hsend : forall ind, preserves P (send ind)).
  Context (Hcall : forall c, preserves P (client_call c)).
  Context (Hevent : forall ev, ev <> EventStartAuth -> preserves P (Event f ev)).

Lemma updateAuthFailed_preserves : preserves P (updateAuthFailed f).
Proof. by apply Hevent. Qed.

Lemma SendEapStart_preserves onu pon port mac gem uni :
  preserves P (SendEapStart f onu pon port mac gem uni).
Proof.
  pose proof updateAuthFailed_preserves. pose proof (Hevent EventStartSent ltac:(done)).
  unfold SendEapStart. preserve.
Qed.

Lemma drop_preserves : preserves P (drop_out_of_order f).
Proof. pose proof updateAuthFailed_preserves. unfold drop_out_of_order, Current. preserve. Qed.

Lemma getMD5_preserves eap :
  preserves P (fun s => match getMD5Data md5_Sum eap with
                        | Done d => Done (0x10 :: d, s)
                        | Panicked w => Panicked w
                        | Blocked w => Blocked w
                        | Exited w => Exited w
                        end).
Proof. intros s a s' Hs. destruct (getMD5Data md5_Sum eap); [|done..]. by intros [= <- <-]. Qed.

Lemma eapol_preserves onu pon gem port uni svc olt pkt :
  preserves P (HandleNextPacket md5_Sum f onu pon gem port uni svc olt pkt).
Proof.
  pose proof updateAuthFailed_preserves. pose proof drop_preserves. pose proof getMD5_preserves.
  pose proof (Hevent EventResponseIdentitySent ltac:(done)).
  pose proof (Hevent EventResponseChallengeSent ltac:(done)).
  pose proof (Hevent EventResponseSuccessReceived ltac:(done)).
  pose proof (Hevent "send_dhcp_flow" ltac:(done)).
  unfold HandleNextPacket, handle_eap, handle_identity_request, handle_challenge_request,
    handle_success, handle_identity_response, handle_challenge_response, sendEapolPktIn,
    sendEapolPktOut, Current. preserve.
Qed.
End Frames.
