(* ===== verification/Dhcp.v ===== *)
(** * The DHCP client of a subscriber

    [internal/bbsim/responders/dhcp/dhcp.go]: the messages a subscriber sends
    (discover and request), the handling of the server's answers over the
    service's state machine, and BBR's forwarding.  An IP address is its four
    bytes ([] for nil); an option is its type and its data, the length field
    being the length of the data. *)
From stdpp Require Import pretty.
From S2P Require Import Prelude Fsm OmciTypes Packets Types Io.
Open Scope Z_scope.
Open Scope string_scope.

Definition DHCPOptHostname : Z := 12.
Definition DHCPOptRequestIP : Z := 50.
Definition DHCPOptMessageType : Z := 53.
Definition DHCPOptServerID : Z := 54.
Definition DHCPOptParamsRequest : Z := 55.
Definition DHCPOptClientID : Z := 61.

Inductive DHCPMsgType :=
| DHCPMsgTypeUnspecified | DHCPMsgTypeDiscover | DHCPMsgTypeOffer | DHCPMsgTypeRequest
| DHCPMsgTypeAck | DHCPMsgTypeRelease.
#[export] Instance DHCPMsgType_eq_dec : EqDecision DHCPMsgType.
Proof. solve_decision. Defined.

(** The byte of a message type. *)
Definition msg_byte (t : DHCPMsgType) : Z :=
  match t with
  | DHCPMsgTypeUnspecified => 0 | DHCPMsgTypeDiscover => 1 | DHCPMsgTypeOffer => 2
  | DHCPMsgTypeRequest => 3 | DHCPMsgTypeAck => 5 | DHCPMsgTypeRelease => 7
  end.

(** ** The state machine *)

(** Source: internal/bbsim/devices/services.go:225-233, [NewService] (the
    table of [DHCPState]). *)
Definition dhcp_events : list EventDesc := [
  {| Name := "start_dhcp"; Src := ["created"; "dhcp_ack_received"; "dhcp_failed"];
     Dst := "dhcp_started" |};
  {| Name := "dhcp_discovery_sent"; Src := ["dhcp_started"]; Dst := "dhcp_discovery_sent" |};
  {| Name := "dhcp_request_sent"; Src := ["dhcp_discovery_sent"]; Dst := "dhcp_request_sent" |};
  {| Name := "dhcp_ack_received"; Src := ["dhcp_request_sent"]; Dst := "dhcp_ack_received" |};
  {| Name := "dhcp_failed"; Src := ["dhcp_started"; "dhcp_discovery_sent"; "dhcp_request_sent"];
     Dst := "dhcp_failed" |} ].

(** ** Messages *)

(** The number of decimal digits of a byte. *)
Definition ndigits (b : Z) : Z := if decide (b < 10) then 1 else if decide (b < 100) then 2 else 3.

(** Source: internal/bbsim/responders/dhcp/dhcp.go, [macAddressToTxId].  The
    decimal digits of the bytes are written one after the other and read as
    one number; [strconv.Atoi] fails on an empty string or past [int64]. *)
Definition macAddressToTxId (mac : list Z) : outcome Z :=
  let n := fold_left (fun acc b => acc * 10 ^ ndigits b + b) mac 0 in
  if decide (mac = [] \/ 2 ^ 63 <= n) then Exited "Can't generate unique XID for ONU"
  else Done (u32 n).

(** Source: internal/bbsim/responders/dhcp/dhcp.go, [createDefaultDHCPReq]. *)
Definition createDefaultDHCPReq (mac : list Z) (options : list DHCPOption) : outcome DHCPv4 :=
  xid ← macAddressToTxId mac;
  mret {| Operation := DHCPOpRequest; Xid := xid; ClientIP := []; YourClientIP := [];
          ClientHWAddr := mac; Options := options |}.

(** Source: internal/bbsim/responders/dhcp/dhcp.go, [defaultParamsRequestList]:
    subnet mask, broadcast address, time offset, router, domain name, DNS,
    domain search, host name, NetBIOS name server and scope, interface MTU,
    static routes and NTP servers. *)
Definition defaultParamsRequestList : list Z := [1; 28; 2; 3; 15; 6; 119; 12; 44; 47; 26; 121; 42].

Definition hostname_of (gemPortId intfId onuId : Z) : list Z :=
  bytes_of (pretty gemPortId +:+ "." +:+ pretty intfId +:+ "." +:+ pretty onuId +:+
            ".bbsim.onf.org").

(** Source: internal/bbsim/responders/dhcp/dhcp.go, [createDefaultOpts]. *)
Definition createDefaultOpts (gemPortId intfId onuId : Z) : list DHCPOption := [
  {| Opt_Type := DHCPOptHostname; Opt_Data := hostname_of gemPortId intfId onuId |};
  {| Opt_Type := DHCPOptParamsRequest; Opt_Data := u8 <$> defaultParamsRequestList |} ].

Definition message_type_opt (t : DHCPMsgType) : DHCPOption :=
  {| Opt_Type := DHCPOptMessageType; Opt_Data := [msg_byte t] |}.

(** Source: internal/bbsim/responders/dhcp/dhcp.go, [createDHCPDisc]. *)
Definition createDHCPDisc (intfId onuId gemPort : Z) (macAddress : list Z) : outcome DHCPv4 :=
  createDefaultDHCPReq macAddress
    (message_type_opt DHCPMsgTypeDiscover :: createDefaultOpts gemPort intfId onuId ++
     [{| Opt_Type := DHCPOptClientID; Opt_Data := 1 :: macAddress |}])%list.

(** Source: internal/bbsim/responders/dhcp/dhcp.go, [createDHCPReq]. *)
Definition createDHCPReq (intfId onuId : Z) (macAddress offeredIp : list Z) (gemPortId : Z)
    : outcome DHCPv4 :=
  createDefaultDHCPReq macAddress
    (createDefaultOpts gemPortId intfId onuId ++
     [ message_type_opt DHCPMsgTypeRequest;
       {| Opt_Type := DHCPOptServerID; Opt_Data := [182; 21; 0; 128] |};
       {| Opt_Type := DHCPOptClientID;
          Opt_Data := [0xcd; 0x28; 0xcb; 0xcc; 0x00; 0x01; 0x00; 0x01; 0x23; 0xed; 0x11; 0xec;
                       0x4e; 0xfc; 0xcd; 0x28; u8 intfId; u8 onuId] |};
       {| Opt_Type := DHCPOptRequestIP; Opt_Data := offeredIp |} ])%list.

Section Client.
  Context `{Gopacket}.

(** The untagged bytes of a DHCP message from [src] to [dst]: the IPv4 and UDP
    layers, then the Ethernet header. *)
Definition serialize_dhcp_frame (dst src : list Z) (sport dport : Z) (dhcp : DHCPv4)
    : error + list Z :=
  match serialize_udp_dhcp sport dport dhcp with
  | inl e => inl e
  | inr ip =>
      match serialize_ethernet dst src EthernetTypeIPv4 ip with
      | None => inl "invalid MAC"
      | Some b => inr b
      end
  end.

(** Source: internal/bbsim/responders/dhcp/dhcp.go, [serializeDHCPPacket]. *)
Definition serializeDHCPPacket (tag : Z) (srcMac : list Z) (dhcp : DHCPv4) (pbit : Z)
    : error + NetPacket :=
  match serialize_dhcp_frame (replicate 6 0xff) srcMac 68 67 dhcp with
  | inl e => inl e
  | inr untaggedPkt => PushSingleTag tag untaggedPkt pbit
  end.

(** Source: internal/bbsim/responders/dhcp/dhcp.go, [GetDhcpLayer]. *)
Definition GetDhcpLayer (pkt : NetPacket) : error + DHCPv4 :=
  match PktLayer sel_DHCPv4 pkt with
  | Some d => inr d
  | None => inl "Failed-to-extract-DHCP-layer"
  end.

(** Source: internal/bbsim/responders/dhcp/dhcp.go, [GetDhcpMessageType].  The
    first option of the type decides. *)
Definition GetDhcpMessageType (dhcp : DHCPv4) : error + DHCPMsgType :=
  match head (List.filter (fun o => bool_decide (Opt_Type o = DHCPOptMessageType)) (Options dhcp)) with
  | None => inl "Failed to extract MsgType from dhcp"
  | Some o =>
      if decide (Opt_Data o = [msg_byte DHCPMsgTypeDiscover]) then inr DHCPMsgTypeDiscover
      else if decide (Opt_Data o = [msg_byte DHCPMsgTypeOffer]) then inr DHCPMsgTypeOffer
      else if decide (Opt_Data o = [msg_byte DHCPMsgTypeRequest]) then inr DHCPMsgTypeRequest
      else if decide (Opt_Data o = [msg_byte DHCPMsgTypeAck]) then inr DHCPMsgTypeAck
      else if decide (Opt_Data o = [msg_byte DHCPMsgTypeRelease]) then inr DHCPMsgTypeRelease
      else inl "This type is not supported"
  end.

(** Source: internal/bbsim/responders/dhcp/dhcp.go, [GetDhcpPacketType]. *)
Definition GetDhcpPacketType (pkt : NetPacket) : error + DHCPMsgType :=
  match GetDhcpLayer pkt with
  | inl e => inl e
  | inr d => GetDhcpMessageType d
  end.

Section Machine.
  Context {S : Type} `{HasIO S} (f : FSM S).

(** Source: internal/bbsim/responders/dhcp/dhcp.go, [sendDHCPPktIn]. *)
Definition sendDHCPPktIn (intf onu : Z) (bytes : list Z) (portNo gemPortId uniId : Z)
    : M S (option error) :=
  send (IndPkt "pon" intf gemPortId bytes portNo onu uniId).

(** Source: internal/bbsim/responders/dhcp/dhcp.go, [updateDhcpFailed]. *)
Definition updateDhcpFailed : M S (option fsm_error) := Event f "dhcp_failed".

(** Source: internal/bbsim/responders/dhcp/dhcp.go, [sendDHCPRequest].  The
    result is whether an error was returned. *)
Definition sendDHCPRequest (ponPortId onuId portNo tag gemPortId : Z)
    (onuHwAddress offeredIp : list Z) (pbit uniId : Z) : M S bool :=
  dhcp ← of_outcome (createDHCPReq ponPortId onuId onuHwAddress offeredIp gemPortId);
  match serializeDHCPPacket tag onuHwAddress dhcp pbit with
  | inl _ => updateDhcpFailed ;; mret true
  | inr pkt =>
      err ← sendDHCPPktIn ponPortId onuId pkt portNo gemPortId uniId;
      match err with
      | Some _ => updateDhcpFailed ;; mret true
      | None => mret false
      end
  end.

(** Source: internal/bbsim/responders/dhcp/dhcp.go, [SendDHCPDiscovery]. *)
Definition SendDHCPDiscovery (ponPortId onuId tag gemPortId portNo uniId : Z)
    (onuHwAddress : list Z) (pbit : Z) : M S bool :=
  dhcp ← of_outcome (createDHCPDisc ponPortId onuId gemPortId onuHwAddress);
  match serializeDHCPPacket tag onuHwAddress dhcp pbit with
  | inl _ => updateDhcpFailed ;; mret true
  | inr pkt =>
      err ← sendDHCPPktIn ponPortId onuId pkt portNo gemPortId uniId;
      match err with
      | Some _ => updateDhcpFailed ;; mret true
      | None =>
          e ← Event f "dhcp_discovery_sent";
          mret (if e is Some _ then true else false)
      end
  end.

(** Source: internal/bbsim/responders/dhcp/dhcp.go, [HandleNextPacket]. *)
Definition HandleNextPacket (onuId ponPortId portNo tag gemPortId uniId : Z)
    (onuHwAddress : list Z) (pkt : NetPacket) (pbit : Z) : M S bool :=
  match GetDhcpLayer pkt with
  | inl _ => updateDhcpFailed ;; mret true
  | inr dhcpLayer =>
      match GetDhcpMessageType dhcpLayer with
      | inl _ => updateDhcpFailed ;; mret true
      | inr ty =>
          if decide (Operation dhcpLayer = DHCPOpReply) then
            match ty with
            | DHCPMsgTypeOffer =>
                failed ← sendDHCPRequest ponPortId onuId portNo tag gemPortId onuHwAddress
                           (YourClientIP dhcpLayer) pbit uniId;
                if failed : bool then updateDhcpFailed ;; mret true
                else Event f "dhcp_request_sent" ;; mret false
            | DHCPMsgTypeAck => Event f "dhcp_ack_received" ;; mret false
            | _ => mret false
            end
          else mret false
      end
  end.

(** Source: internal/bbsim/responders/dhcp/dhcp.go, [HandleNextBbrPacket]:
    BBR strips the tag and forwards the packet to the ONU or, double tagged,
    to the NNI; [done] is what is sent on the channel of completed ONUs. *)
Definition HandleNextBbrPacket (onuId ponPortId : Z) (done : M S unit) (pkt : NetPacket)
    : M S (option error) :=
  let isIncoming := IsIncomingPacket pkt in
  match PopSingleTag pkt with
  | inl _ => exit "Can't untag packet"
  | inr pkt =>
      match GetDhcpPacketType pkt with
      | inl _ => exit "Can't find DHCP type for packet"
      | inr ty =>
          if isIncoming then
            client_call (COnuPacketOut ponPortId onuId onuId 1 pkt) ;;
            (when bool_decide (ty = DHCPMsgTypeAck) do done) ;;
            mret None
          else
            match PushDoubleTag 900 900 pkt 0 with
            | inl _ => panic "nil packet"
            | inr doubleTaggedPkt => client_call (CUplinkPacketOut 0 doubleTaggedPkt)
            end
      end
  end.
End Machine.
End Client.

(** * Properties *)

(** ** What the client leaves alone *)

Section Frames.
  Context `{Gopacket} {S : Type} `{HasIO S} (f : FSM S) (P : S -> Prop).
  Context (Hsend : forall ind, preserves P (send ind)).
  Context (Hevent : forall ev, ev <> "start_dhcp" -> preserves P (Event f ev)).

Lemma SendDHCPDiscovery_preserves pon onu tag gem port uni mac pbit :
  preserves P (SendDHCPDiscovery f pon onu tag gem port uni mac pbit).
Proof.
  pose proof (Hevent "dhcp_failed" ltac:(done)).
  pose proof (Hevent "dhcp_discovery_sent" ltac:(done)).
  unfold SendDHCPDiscovery, updateDhcpFailed, sendDHCPPktIn. preserve.
Qed.

Lemma dhcp_preserves onu pon port tag gem uni mac pkt pbit :
  preserves P (HandleNextPacket f onu pon port tag gem uni mac pkt pbit).
Proof.
  pose proof (Hevent "dhcp_failed" ltac:(done)).
  pose proof (Hevent "dhcp_request_sent" ltac:(done)).
  pose proof (Hevent "dhcp_ack_received" ltac:(done)).
  unfold HandleNextPacket, sendDHCPRequest, updateDhcpFailed, sendDHCPPktIn. preserve.
Qed.
End Frames.
