(* ===== verification/DhcpServer.v ===== *)
(** * The DHCP server behind the NNI

    [internal/bbsim/responders/dhcp/dhcp_server.go]: the server answers a
    discover with an offer and a request with an acknowledgement, giving every
    client the address made of the last four bytes of its MAC address, and
    tags the answer as the request was tagged. *)
From S2P Require Import Prelude Fsm OmciTypes Packets Types Io Dhcp.
Open Scope Z_scope.
Open Scope string_scope.

(** Source: internal/bbsim/responders/dhcp/dhcp_server.go, [NewDHCPServer]. *)
Definition DHCPServerMacAddress : list Z := [0xaa; 0xbb; 0xcc; 0xdd; 0xee; 0xff].

Section Server.
  Context `{Gopacket}.

(** Source: internal/bbsim/responders/dhcp/dhcp_server.go, [DHCPServer.getClientMacAddress]. *)
Definition getClientMacAddress (pkt : NetPacket) : error + list Z :=
  match GetDhcpLayer pkt with inl e => inl e | inr d => inr (ClientHWAddr d) end.

(** Source: internal/bbsim/responders/dhcp/dhcp_server.go, [DHCPServer.getTxId]. *)
Definition getTxId (pkt : NetPacket) : error + Z :=
  match GetDhcpLayer pkt with inl e => inl e | inr d => inr (Xid d) end.

Definition find_opt (ty : Z) (d : DHCPv4) : option (list Z) :=
  Opt_Data <$> head (List.filter (fun o => bool_decide (Opt_Type o = ty)) (Options d)).

(** Source: internal/bbsim/responders/dhcp/dhcp_server.go, [DHCPServer.getPacketHostName]. *)
Definition getPacketHostName (pkt : NetPacket) : error + list Z :=
  match GetDhcpLayer pkt with
  | inl e => inl e
  | inr d =>
      match find_opt DHCPOptHostname d with
      | Some h => inr h
      | None => inl "hostname-not-found"
      end
  end.

(** Source: internal/bbsim/responders/dhcp/dhcp_server.go, [DHCPServer.getOption82]. *)
Definition getOption82 (pkt : NetPacket) : error + list Z :=
  match GetDhcpLayer pkt with
  | inl e => inl e
  | inr d => inr (default [] (find_opt 82 d))
  end.

(** Source: internal/bbsim/responders/dhcp/dhcp_server.go, [DHCPServer.createIpFromMacAddress].
    The sum of the first byte is a byte; a shorter address panics. *)
Definition createIpFromMacAddress (mac : list Z) : outcome (list Z) :=
  match mac with
  | _ :: _ :: a :: b :: c :: d :: _ => Done [u8 (10 + a); b; c; d]
  | _ => Panicked "index out of range"
  end.

(** Source: internal/bbsim/responders/dhcp/dhcp_server.go, [DHCPServer.createDefaultDhcpReply]. *)
Definition createDefaultDhcpReply (xid : Z) (mac : list Z) (options : list DHCPOption)
    : outcome DHCPv4 :=
  clientIp ← createIpFromMacAddress mac;
  mret {| Operation := DHCPOpReply; Xid := xid; ClientIP := clientIp; YourClientIP := clientIp;
          ClientHWAddr := mac; Options := options |}.

(** Source: internal/bbsim/responders/dhcp/dhcp_server.go, [DHCPServer.serializeServerDHCPPacket]. *)
Definition serializeServerDHCPPacket (clientMac : list Z) (dhcpLayer : DHCPv4) : error + NetPacket :=
  serialize_dhcp_frame clientMac DHCPServerMacAddress 67 68 dhcpLayer.

(** Source: internal/bbsim/responders/dhcp/dhcp_server.go, [DHCPServer.getDefaultDhcpServerOptions]. *)
Definition getDefaultDhcpServerOptions (hostname option82 : list Z) : list DHCPOption :=
  [ {| Opt_Type := DHCPOptHostname; Opt_Data := hostname |};
    {| Opt_Type := 82; Opt_Data := option82 |} ].

(** The steps a discover and a request share: they differ in the message type
    of the answer. *)
Definition handle_with (ty : DHCPMsgType) (pkt : NetPacket) : outcome (error + NetPacket) :=
  match GetTagsFromPacket pkt with
  | inl e => Done (inl e)
  | inr (oTag, iTag) =>
      match getClientMacAddress pkt, getTxId pkt, getPacketHostName pkt, getOption82 pkt with
      | inl e, _, _, _ | inr _, inl e, _, _ | inr _, inr _, inl e, _ | inr _, inr _, inr _, inl e =>
          Done (inl e)
      | inr clientMac, inr txId, inr hostname, inr option82 =>
          dhcpLayer ← createDefaultDhcpReply txId clientMac
            (message_type_opt ty :: getDefaultDhcpServerOptions hostname option82 ++
             [{| Opt_Type := DHCPOptClientID; Opt_Data := 1 :: clientMac |}])%list;
          match serializeServerDHCPPacket clientMac dhcpLayer with
          | inl e => Done (inl e)
          | inr responsePkt =>
              if decide (iTag <> 0) then Done (PushDoubleTag oTag iTag responsePkt 0)
              else Done (PushSingleTag oTag responsePkt 0)
          end
      end
  end.

(** Source: internal/bbsim/responders/dhcp/dhcp_server.go, [DHCPServer.handleDiscover]. *)
Definition handleDiscover (pkt : NetPacket) : outcome (error + NetPacket) :=
  handle_with DHCPMsgTypeOffer pkt.

(** Source: internal/bbsim/responders/dhcp/dhcp_server.go, [DHCPServer.handleRequest]. *)
Definition handleRequest (pkt : NetPacket) : outcome (error + NetPacket) :=
  handle_with DHCPMsgTypeAck pkt.

(** Source: internal/bbsim/responders/dhcp/dhcp_server.go, [DHCPServer.HandleServerPacket].
    A packet without a DHCP layer is dereferenced as nil; a reply is reported
    and then handled like any other packet. *)
Definition HandleServerPacket (pkt : NetPacket) : outcome (error + NetPacket) :=
  match GetDhcpLayer pkt with
  | inl _ => Panicked "nil DHCP layer"
  | inr dhcpLayer =>
      match GetDhcpMessageType dhcpLayer with
      | inr DHCPMsgTypeDiscover => handleDiscover pkt
      | inr DHCPMsgTypeRequest => handleRequest pkt
      | _ => Done (inl "cannot-handle-dhcp-packet-of-type")
      end
  end.
End Server.

(** * Properties *)

(** Two clients whose MAC addresses differ in one of the last four bytes
    (PON, ONU, UNI and service) are given different addresses. *)
Theorem createIpFromMacAddress_injective m1 m2 ip :
  Forall is_u8 m1 -> Forall is_u8 m2 ->
  createIpFromMacAddress m1 = Done ip -> createIpFromMacAddress m2 = Done ip ->
  take 4 (drop 2 m1) = take 4 (drop 2 m2).
Proof.
  intros H1 H2. unfold createIpFromMacAddress.
  destruct m1 as [|x1 [|y1 [|a1 [|b1 [|c1 [|d1 r1]]]]]]; try done.
  destruct m2 as [|x2 [|y2 [|a2 [|b2 [|c2 [|d2 r2]]]]]]; try done.
  intros [= <-] [= Ha -> -> ->].
  rewrite !Forall_cons in H1, H2. unfold is_u8 in *.
  assert (a1 = a2) as ->; [|done]. unfold u8 in Ha.
  pose proof (Z.mod_eq (10 + a1) (2 ^ 8)). pose proof (Z.mod_eq (10 + a2) (2 ^ 8)).
  change (2 ^ 8) with 256 in *.
  assert (0 <= (10 + a1) / 256 <= 1 /\ 0 <= (10 + a2) / 256 <= 1) as [Hd1 Hd2].
  { split; split; try (apply Z.div_pos; lia); apply Z.lt_succ_r;
      apply Z.div_lt_upper_bound; lia. }
  lia.
Qed.

Lemma createIpFromMacAddress_injective_witness :
  createIpFromMacAddress [46; 0; 1; 2; 0; 3] = Done [11; 2; 0; 3] /\
  take 4 (drop 2 [46; 0; 1; 2; 0; 3]) = take 4 (drop 2 [46; 9; 1; 2; 0; 3]).
Proof.
  split; [reflexivity|].
  apply (createIpFromMacAddress_injective [46; 0; 1; 2; 0; 3] [46; 9; 1; 2; 0; 3] [11; 2; 0; 3]).
  - repeat constructor; done.
  - repeat constructor; done.
  - reflexivity.
  - reflexivity.
Defined.

(** The transaction identifiers the client derives from the same addresses are
    not distinct: the decimal digits of the bytes run together. *)
Lemma macAddressToTxId_collision :
  macAddressToTxId [46; 0; 1; 11; 0; 0] = macAddressToTxId [46; 0; 11; 1; 0; 0] /\
  [46; 0; 1; 11; 0; 0] <> [46; 0; 11; 1; 0; 0].
Proof. split; [vm_compute; reflexivity|done]. Qed.

(** ** The codec of the library *)

(** An option the library writes and reads back: of a type that is neither the
    padding nor the end mark, with at most 255 bytes of data. *)
Definition wf_opt (o : DHCPOption) : Prop :=
  0 < Opt_Type o < 255 /\ (length (Opt_Data o) <= 255)%nat /\ Forall is_u8 (Opt_Data o).
Definition opt_size (o : DHCPOption) : nat := 2 + length (Opt_Data o).

(** What a message must satisfy to survive the wire: a six-byte hardware
    address, four-byte (or absent) IP addresses, and at least one option, all
    of them well formed and together at most 1200 bytes, so that the message
    fits the 16-bit lengths of the headers. *)
Definition wf_dhcp (d : DHCPv4) : Prop :=
  is_u8 (Operation d) /\ length (ClientHWAddr d) = 6%nat /\ Forall is_u8 (ClientHWAddr d) /\
  is_u32 (Xid d) /\
  (ClientIP d = [] \/ length (ClientIP d) = 4%nat) /\ Forall is_u8 (ClientIP d) /\
  (YourClientIP d = [] \/ length (YourClientIP d) = 4%nat) /\ Forall is_u8 (YourClientIP d) /\
  Options d <> [] /\ Forall wf_opt (Options d) /\ (sum_list (opt_size <$> Options d) <= 1200)%nat.

(** The two pairs of UDP ports DHCP uses; the library decodes a payload as
    DHCP on these ports only. *)
Definition dhcp_ports (sp dp : Z) : Prop := (sp = 68 /\ dp = 67) \/ (sp = 67 /\ dp = 68).

(** A nil address is written as zeros. *)
Definition ip4 (ip : list Z) : list Z := match ip with [] => [0; 0; 0; 0] | _ => ip end.
Definition norm (d : DHCPv4) : DHCPv4 := {|
  Operation := Operation d; Xid := Xid d; ClientIP := ip4 (ClientIP d);
  YourClientIP := ip4 (YourClientIP d); ClientHWAddr := ClientHWAddr d; Options := Options d |}.

(** The documented behaviour of [gopacket] for IPv4/UDP/DHCP: such a message
    from a DHCP port to the other is serialized, to at least the 46 bytes of a
    minimal frame, and decoding the IPv4 payload gives it back and finds no
    VLAN tag. *)
Class DhcpCodec `{Gopacket} : Prop := {
  codec_serialize : forall sp dp d, dhcp_ports sp dp -> wf_dhcp d ->
    exists b, serialize_udp_dhcp sp dp d = inr b /\ (46 <= length b)%nat;
  codec_decode : forall sp dp d b, dhcp_ports sp dp -> wf_dhcp d -> serialize_udp_dhcp sp dp d = inr b ->
    find_layer sel_DHCPv4 (decode_net EthernetTypeIPv4 b) = Some (norm d) /\
    find_layer sel_Dot1Q (decode_net EthernetTypeIPv4 b) = None
}.

Lemma bytes_of_u8 s : Forall is_u8 (bytes_of s).
Proof.
  unfold bytes_of. induction (String.list_ascii_of_string s) as [|c l IH]; [constructor|].
  constructor; [|exact IH]. unfold is_u8. pose proof (Ascii.N_ascii_bounded c). lia.
Qed.

Lemma u8_is_u8 z : is_u8 (u8 z).
Proof. unfold is_u8, u8. apply Z.mod_pos_bound. lia. Qed.

Lemma msg_byte_u8 ty : is_u8 (msg_byte ty).
Proof. by destruct ty. Qed.

Lemma hostname_of_u8 g p o : Forall is_u8 (hostname_of g p o).
Proof. apply bytes_of_u8. Qed.

Lemma u8_list_u8 l : Forall is_u8 (u8 <$> l).
Proof. apply Forall_fmap, Forall_true. intros x. apply u8_is_u8. Qed.

Create HintDb bytes.
#[export] Hint Resolve msg_byte_u8 hostname_of_u8 u8_list_u8 bytes_of_u8 u8_is_u8 Forall_nil_2 Forall_cons_2 : bytes.
#[export] Hint Extern 1 (is_u8 _) => unfold is_u8; lia : bytes.

(** Options written out one by one are well formed. *)
Ltac opts_wf :=
  repeat (apply Forall_cons; split;
    [unfold wf_opt; cbn [Opt_Type Opt_Data message_type_opt length];
     unfold DHCPOptHostname, DHCPOptRequestIP, DHCPOptMessageType, DHCPOptServerID,
       DHCPOptParamsRequest, DHCPOptClientID;
     split_and!; [lia|lia|first [lia|rewrite length_fmap; cbn; lia]|
       first [by auto 30 with bytes|cbn; by auto 30 with bytes]]|]);
  apply Forall_nil_2.

Section Exchange.
  Context `{DhcpCodec}.

Lemma decode_type_ipv4 ip : decode_type EthernetTypeIPv4 ip = decode_net EthernetTypeIPv4 ip.
Proof. by destruct ip. Qed.

(** A single-tagged DHCP packet, as the client and the server build it. *)
Lemma tagged_dhcp dst src sp dp d tag pbit :
  dhcp_ports sp dp -> length dst = 6%nat -> length src = 6%nat -> wf_dhcp d -> 0 <= tag <= 0xFFF -> 0 <= pbit <= 7 ->
  exists untagged pkt,
    serialize_dhcp_frame dst src sp dp d = inr untagged /\
    PushSingleTag tag untagged pbit = inr pkt /\
    GetDhcpLayer pkt = inr (norm d) /\ GetTagsFromPacket pkt = inr (tag, 0).
Proof.
  intros Hports Hd Hs Hw Ht Hp. destruct (codec_serialize sp dp d Hports Hw) as (b & Hb & Hlen).
  destruct (codec_decode sp dp d b Hports Hw Hb) as [Hdec Htag].
  assert (is_frame dst src EthernetTypeIPv4) as Hf by (repeat split; done).
  unfold serialize_dhcp_frame. rewrite Hb. unfold serialize_ethernet.
  rewrite decide_True by done. fold (frame dst src EthernetTypeIPv4 b).
  assert (forall ty q, (46 <= length q)%nat -> pad60 (frame dst src ty q) = frame dst src ty q)
    as Hpad.
  { intros ty q Hq. unfold pad60. rewrite frame_length by done.
    replace (60 - (14 + length q))%nat with 0%nat by lia. cbn. apply app_nil_r. }
  rewrite Hpad by done. eexists _, _. split; [reflexivity|].
  split; [by apply PushSingleTag_frame|]. rewrite Hpad by (rewrite length_app; lia).
  destruct (getDot1QLayer_tagged dst src EthernetTypeIPv4 b tag pbit Hf Ht Hp) as [de Hq].
  split.
  - unfold GetDhcpLayer, PktLayer, Layers.
    rewrite ethernet_of_frame by (by eapply is_frame_dot1q). cbn [eth_Payload EthernetType].
    unfold tag_bytes. cbn [app be16 find_layer sel_DHCPv4 decode_type].
    change (is_dot1q_type EthernetTypeDot1Q) with true. cbn [find_layer sel_DHCPv4].
    rewrite be16_dec_be16 by (unfold is_u16, EthernetTypeIPv4; lia).
    rewrite decode_type_ipv4. destruct b as [|b0 b]; [cbn in Hlen; lia|]. by rewrite Hdec.
  - unfold GetTagsFromPacket, GetVlanTag. rewrite Hq.
    rewrite PopSingleTag_tagged by done. rewrite Hpad by done.
    unfold PktLayer, Layers. rewrite ethernet_of_frame by done. cbn [eth_Payload EthernetType].
    destruct b as [|b0 b]; [cbn in Hlen; lia|].
    cbn [find_layer sel_Dot1Q]. rewrite decode_type_ipv4. by rewrite Htag.
Qed.

(** A packet of the client, as seen by the server. *)
Lemma server_answers ty pkt d tag host ip :
  GetDhcpLayer pkt = inr d -> GetTagsFromPacket pkt = inr (tag, 0) -> 0 <= tag <= 0xFFF ->
  length (ClientHWAddr d) = 6%nat -> Forall is_u8 (ClientHWAddr d) -> is_u32 (Xid d) ->
  find_opt DHCPOptHostname d = Some host -> (length host <= 255)%nat -> Forall is_u8 host -> find_opt 82 d = None ->
  createIpFromMacAddress (ClientHWAddr d) = Done ip ->
  exists pkt' d', handle_with ty pkt = Done (inr pkt') /\ GetDhcpLayer pkt' = inr d' /\
    Operation d' = DHCPOpReply /\ YourClientIP d' = ip /\ Xid d' = Xid d /\
    head (List.filter (fun o => bool_decide (Opt_Type o = DHCPOptMessageType)) (Options d')) =
      Some (message_type_opt ty) /\ GetTagsFromPacket pkt' = inr (tag, 0).
Proof.
  intros Hd Ht Htag Hmac Hbytes Hxid Hh Hhl Hhb H82 Hip. unfold handle_with. rewrite Ht.
  unfold getClientMacAddress, getTxId, getPacketHostName, getOption82. rewrite Hd, Hh, H82.
  unfold createDefaultDhcpReply. rewrite Hip. mred. cbn [default].
  set (d' := {| Operation := _ |}).
  destruct (ClientHWAddr d) as [|x [|y [|a [|b [|c [|e [|]]]]]]] eqn:Em; try done.
  cbn in Hip. injection Hip as <-. pose proof Hbytes as Hb'. rewrite !Forall_cons in Hb'.
  destruct Hb' as (_ & _ & Ba & Bb & Bc & Be & _).
  destruct (tagged_dhcp [x; y; a; b; c; e] DHCPServerMacAddress 67 68 d' tag 0)
    as (u & pkt' & Hu & Hp & Hl & Htg); [by right|done|done| |done|lia|].
  { subst d'. split_and!; cbn [Operation ClientHWAddr Xid ClientIP YourClientIP Options];
      try (by auto 10 with bytes); [cbn [getDefaultDhcpServerOptions app]; opts_wf|cbn; lia]. }
  unfold serializeServerDHCPPacket. rewrite Hu. rewrite decide_False by lia. rewrite Hp.
  eexists _, _. split; [reflexivity|]. split; [exact Hl|]. by split_and!.
Qed.

(** ** The client *)

Section ClientSide.
  Context {S : Type} `{HasIO S} (f : FSM S) `{!IOLaws f (fun ev => ev <> "start_dhcp")}.
  Context (Hev : fsm_events f = dhcp_events).
  Context (onuId ponPortId portNo tag gemPortId uniId pbit xid : Z) (mac : list Z).
  Context (Hmac : length mac = 6%nat) (Hbytes : Forall is_u8 mac) (Hxid : macAddressToTxId mac = Done xid).
  Context (Htag : 0 <= tag <= 0xFFF) (Hpbit : 0 <= pbit <= 7).
  Context (Hhost : (length (hostname_of gemPortId ponPortId onuId) <= 255)%nat).

(** A message of the client: from its address, with its transaction. *)
Definition client_msg (opts : list DHCPOption) : DHCPv4 := {|
  Operation := DHCPOpRequest; Xid := xid; ClientIP := []; YourClientIP := [];
  ClientHWAddr := mac; Options := opts |}.

Lemma xid_u32 : is_u32 xid.
Proof.
  unfold macAddressToTxId in Hxid. case_decide; [done|]. injection Hxid as <-.
  unfold is_u32, u32. apply Z.mod_pos_bound. lia.
Qed.

Lemma client_msg_wf opts :
  opts <> [] -> Forall wf_opt opts -> (sum_list (opt_size <$> opts) <= 1200)%nat ->
  wf_dhcp (client_msg opts).
Proof.
  intros Hn Ho Hs. split_and!; cbn [Operation ClientHWAddr Xid ClientIP YourClientIP Options client_msg];
    first [done|by auto using xid_u32 with bytes].
Qed.

(** Sending a well-formed message and then taking an event. *)
Lemma client_sends d s ev dst :
  wf_dhcp d -> s_err (io_stream s) = None -> ev <> "start_dhcp" ->
  transitions dhcp_events ev (fsm_current f s) = Some dst -> fsm_current f s <> dst ->
  exists pkt, serializeDHCPPacket tag mac d pbit = inr pkt /\
    GetDhcpLayer pkt = inr (norm d) /\ GetTagsFromPacket pkt = inr (tag, 0) /\
    exists s', (sendDHCPPktIn ponPortId onuId pkt portNo gemPortId uniId) s = Done (None, s') /\
      exists s2, Event f ev s' = Done (None, s2) /\ fsm_current f s2 = dst /\
        s_err (io_stream s2) = None /\ last_pkt s2 = pkt.
Proof.
  intros Hw Herr Hq Ht Hne.
  destruct (tagged_dhcp (replicate 6 0xff) mac 68 67 d tag pbit) as (u & pkt & Hu & Hp & Hl & Hg);
    [by left|done..|].
  exists pkt. unfold serializeDHCPPacket. rewrite Hu, Hp. split_and!; [done..|].
  unfold sendDHCPPktIn. set (ind := IndPkt _ _ _ _ _ _ _).
  exists (send_ok ind s). split; [by apply send_Done|].
  exists (fsm_set f dst (send_ok ind s)). split.
  { apply (Event_quiet (quiet := fun ev => ev <> "start_dhcp")); [done| |];
      unfold send_ok; rewrite io_current_send; [by rewrite Hev|done]. }
  unfold last_pkt. rewrite io_current_set, io_stream_set. unfold send_ok. rewrite io_get_set.
  split_and!; [done|exact Herr|]. cbn. by rewrite last_snoc.
Qed.

Lemma discover_step s :
  fsm_current f s = "dhcp_started" -> s_err (io_stream s) = None ->
  exists s' opts,
    SendDHCPDiscovery f ponPortId onuId tag gemPortId portNo uniId mac pbit s = Done (false, s') /\
    fsm_current f s' = "dhcp_discovery_sent" /\ s_err (io_stream s') = None /\
    GetDhcpLayer (last_pkt s') = inr (norm (client_msg opts)) /\
    GetTagsFromPacket (last_pkt s') = inr (tag, 0) /\
    opts = (message_type_opt DHCPMsgTypeDiscover :: createDefaultOpts gemPortId ponPortId onuId ++
            [{| Opt_Type := DHCPOptClientID; Opt_Data := 1 :: mac |}])%list.
Proof.
  intros Hst Herr. set (opts := (message_type_opt DHCPMsgTypeDiscover :: _)).
  destruct (client_sends (client_msg opts) s "dhcp_discovery_sent" "dhcp_discovery_sent")
    as (pkt & Hs & Hl & Hg & s1 & Hsend & s2 & He & Hc & Herr' & Hlast); try done.
  { apply client_msg_wf; subst opts; cbn [createDefaultOpts app]; [done|opts_wf|cbn; lia]. }
  { by rewrite Hst. }
  { by rewrite Hst. }
  exists s2, opts. rewrite Hlast. split_and!; try done.
  unfold SendDHCPDiscovery, createDHCPDisc, createDefaultDHCPReq. rewrite Hxid. mred.
  cbn [of_outcome]. fold opts. fold (client_msg opts). rewrite Hs, Hsend, He. done.
Qed.

Lemma offer_step s pkt d ip :
  GetDhcpLayer pkt = inr d -> GetDhcpMessageType d = inr DHCPMsgTypeOffer ->
  Operation d = DHCPOpReply -> YourClientIP d = ip -> length ip = 4%nat -> Forall is_u8 ip ->
  fsm_current f s = "dhcp_discovery_sent" -> s_err (io_stream s) = None ->
  exists s' opts,
    HandleNextPacket f onuId ponPortId portNo tag gemPortId uniId mac pkt pbit s = Done (false, s') /\
    fsm_current f s' = "dhcp_request_sent" /\ s_err (io_stream s') = None /\
    GetDhcpLayer (last_pkt s') = inr (norm (client_msg opts)) /\
    GetTagsFromPacket (last_pkt s') = inr (tag, 0) /\
    opts = (createDefaultOpts gemPortId ponPortId onuId ++
     [ message_type_opt DHCPMsgTypeRequest;
       {| Opt_Type := DHCPOptServerID; Opt_Data := [182; 21; 0; 128] |};
       {| Opt_Type := DHCPOptClientID;
          Opt_Data := [0xcd; 0x28; 0xcb; 0xcc; 0x00; 0x01; 0x00; 0x01; 0x23; 0xed; 0x11; 0xec;
                       0x4e; 0xfc; 0xcd; 0x28; u8 ponPortId; u8 onuId] |};
       {| Opt_Type := DHCPOptRequestIP; Opt_Data := ip |} ])%list.
Proof.
  intros Hl Hty Hop Hip Hiplen Hipb Hst Herr.
  set (opts := (createDefaultOpts _ _ _ ++ _)%list).
  destruct (client_sends (client_msg opts) s "dhcp_request_sent" "dhcp_request_sent")
    as (p & Hs & Hl' & Hg & s1 & Hsend & s2 & He & Hc & Herr' & Hlast); try done.
  { apply client_msg_wf; subst opts; cbn [createDefaultOpts app]; [done|opts_wf|cbn; lia]. }
  { by rewrite Hst. }
  { by rewrite Hst. }
  exists s2, opts. rewrite Hlast. split_and!; try done.
  unfold HandleNextPacket. rewrite Hl, Hty. rewrite decide_True by done.
  unfold sendDHCPRequest, createDHCPReq, createDefaultDHCPReq. rewrite Hxid. mred.
  cbn [of_outcome]. rewrite Hip. fold opts. fold (client_msg opts). rewrite Hs, Hsend, He. done.
Qed.

Lemma ack_step s pkt d :
  GetDhcpLayer pkt = inr d -> GetDhcpMessageType d = inr DHCPMsgTypeAck ->
  Operation d = DHCPOpReply -> fsm_current f s = "dhcp_request_sent" ->
  exists s',
    HandleNextPacket f onuId ponPortId portNo tag gemPortId uniId mac pkt pbit s = Done (false, s') /\
    fsm_current f s' = "dhcp_ack_received".
Proof.
  intros Hl Hty Hop Hst. unfold HandleNextPacket. rewrite Hl, Hty. rewrite decide_True by done.
  exists (fsm_set f "dhcp_ack_received" s). rewrite io_current_set. split; [|done]. mred.
  rewrite (Event_quiet (quiet := fun ev => ev <> "start_dhcp") "dhcp_ack_received" s
    "dhcp_ack_received"); [done|done|by rewrite Hev, Hst|by rewrite Hst].
Qed.

(** The server's view of a message of the client. *)
Lemma server_serves opts pkt ip ty host :
  GetDhcpLayer pkt = inr (norm (client_msg opts)) -> GetTagsFromPacket pkt = inr (tag, 0) ->
  find_opt DHCPOptHostname (client_msg opts) = Some host -> (length host <= 255)%nat -> Forall is_u8 host ->
  find_opt 82 (client_msg opts) = None -> createIpFromMacAddress mac = Done ip ->
  exists pkt' d', handle_with ty pkt = Done (inr pkt') /\ GetDhcpLayer pkt' = inr d' /\
    Operation d' = DHCPOpReply /\ YourClientIP d' = ip /\ Xid d' = xid /\
    head (List.filter (fun o => bool_decide (Opt_Type o = DHCPOptMessageType)) (Options d')) =
      Some (message_type_opt ty) /\ GetTagsFromPacket pkt' = inr (tag, 0).
Proof.
  intros Hl Hg Hh Hhl Hhb H82 Hip.
  apply (server_answers ty pkt (norm (client_msg opts)) tag host ip Hl Hg Htag Hmac Hbytes
    xid_u32 Hh Hhl Hhb H82 Hip).
Qed.

(** C34: a subscriber and the DHCP server complete the exchange: discover,
    offer, request and acknowledgement, each packet being the bytes the other
    side sent.  The server keeps the VLAN tag and the transaction of the
    client, and the address it acknowledges is the one derived from the MAC
    address.  The client has a six-byte MAC address whose transaction
    identifier fits, tag and priority are in range, the host name has at most
    255 bytes, the stream works, and the packet library serializes and decodes
    well-formed DHCP messages between the UDP ports 67 and 68. *)
Theorem dhcp_handshake s ip :
  createIpFromMacAddress mac = Done ip ->
  fsm_current f s = "dhcp_started" -> s_err (io_stream s) = None ->
  let handle := HandleNextPacket f onuId ponPortId portNo tag gemPortId uniId mac in
  exists s1 offer s2 ack s3 d,
    SendDHCPDiscovery f ponPortId onuId tag gemPortId portNo uniId mac pbit s = Done (false, s1) /\
    HandleServerPacket (last_pkt s1) = Done (inr offer) /\
    handle offer pbit s1 = Done (false, s2) /\
    HandleServerPacket (last_pkt s2) = Done (inr ack) /\
    handle ack pbit s2 = Done (false, s3) /\
    fsm_current f s3 = "dhcp_ack_received" /\
    GetDhcpLayer ack = inr d /\ YourClientIP d = ip /\ Xid d = xid /\
    GetTagsFromPacket ack = inr (tag, 0).
Proof.
  intros Hip Hst Herr handle.
  assert (length ip = 4%nat /\ Forall is_u8 ip) as [Hip4 Hipb].
  { destruct mac as [|? [|? [|? [|? [|? [|? ?]]]]]]; try done. cbn in Hip. injection Hip as <-.
    split; [done|]. rewrite !Forall_cons in Hbytes. destruct Hbytes as (_ & _ & ? & ? & ? & ? & _).
    auto 10 with bytes. }
  destruct (discover_step s Hst Herr) as (s1 & o1 & R1 & C1 & E1 & L1 & G1 & ->).
  destruct (server_serves _ (last_pkt s1) ip DHCPMsgTypeOffer
    (hostname_of gemPortId ponPortId onuId) L1 G1 eq_refl Hhost (bytes_of_u8 _) eq_refl Hip)
    as (offer & d1 & R2 & L2 & Op1 & Y1 & X1 & T1 & G2).
  destruct (offer_step s1 offer d1 ip L2) as (s2 & o2 & R3 & C2 & E2 & L3 & G3 & ->);
    [unfold GetDhcpMessageType; by rewrite T1|done..|].
  destruct (server_serves _ (last_pkt s2) ip DHCPMsgTypeAck
    (hostname_of gemPortId ponPortId onuId) L3 G3 eq_refl Hhost (bytes_of_u8 _) eq_refl Hip)
    as (ack & d2 & R4 & L4 & Op2 & Y2 & X2 & T2 & G4).
  destruct (ack_step s2 ack d2 L4) as (s3 & R5 & C3);
    [unfold GetDhcpMessageType; by rewrite T2|done..|].
  exists s1, offer, s2, ack, s3, d2. split_and!; try done.
  - unfold HandleServerPacket. rewrite L1. exact R2.
  - unfold HandleServerPacket. rewrite L3. exact R4.
Qed.
End ClientSide.
End Exchange.

(** ** A codec *)

(** A concrete codec with the promised behaviour: after 46 filler bytes, the
    fields in order, lists preceded by their length. *)
Definition put_list (l : list Z) : list Z := Z.of_nat (length l) :: l.
Definition get_list (l : list Z) : list Z * list Z :=
  match l with
  | [] => ([], [])
  | n :: r => (take (Z.to_nat n) r, drop (Z.to_nat n) r)
  end.

Lemma get_put l r : get_list (put_list l ++ r)%list = (l, r).
Proof.
  unfold get_list, put_list. cbn. rewrite Nat2Z.id. f_equal.
  - apply take_app_length.
  - apply drop_app_length.
Qed.

Definition put_opt (o : DHCPOption) : list Z := Opt_Type o :: put_list (Opt_Data o).
Fixpoint get_opts (n : nat) (l : list Z) : list DHCPOption :=
  match n, l with
  | S n', t :: r =>
      let '(d, r') := get_list r in {| Opt_Type := t; Opt_Data := d |} :: get_opts n' r'
  | _, _ => []
  end.

Lemma get_put_opts os : get_opts (length os) (os ≫= put_opt) = os.
Proof.
  induction os as [|[t d] os IH]; [done|]. cbn [length get_opts].
  change (({| Opt_Type := t; Opt_Data := d |} :: os) ≫= put_opt)
    with (t :: (put_list d ++ (os ≫= put_opt)))%list.
  cbn iota. rewrite get_put. by rewrite IH.
Qed.

Definition put_dhcp (d : DHCPv4) : list Z :=
  (Operation d :: Xid d :: put_list (ip4 (ClientIP d)) ++ put_list (ip4 (YourClientIP d)) ++
   put_list (ClientHWAddr d) ++ (Z.of_nat (length (Options d)) :: (Options d ≫= put_opt)))%list.

Definition get_dhcp (l : list Z) : option DHCPv4 :=
  match l with
  | op :: xid :: r =>
      let '(cip, r) := get_list r in
      let '(yip, r) := get_list r in
      let '(hw, r) := get_list r in
      match r with
      | n :: r => Some {| Operation := op; Xid := xid; ClientIP := cip; YourClientIP := yip;
                          ClientHWAddr := hw; Options := get_opts (Z.to_nat n) r |}
      | [] => None
      end
  | _ => None
  end.

Lemma get_put_dhcp d : get_dhcp (put_dhcp d) = Some (norm d).
Proof.
  unfold get_dhcp, put_dhcp. rewrite !get_put. rewrite Nat2Z.id, get_put_opts. done.
Qed.

Definition toy_gopacket : Gopacket := {|
  decode_net := fun _ l => match get_dhcp (drop 46 l) with Some d => [PDHCPv4 d] | None => [] end;
  serialize_udp_dhcp := fun _ _ d => inr (replicate 46 0 ++ put_dhcp d)%list;
  serialize_ipv4_igmp := fun _ p => inr p |}.

#[export] Instance toy_codec : @DhcpCodec toy_gopacket.
Proof.
  split.
  - intros sp dp d _ _. eexists. split; [reflexivity|]. rewrite length_app, length_replicate. lia.
  - intros sp dp d b _ _ [= <-]. unfold decode_net, toy_gopacket.
    change (let l := match get_dhcp (put_dhcp d) with Some d => [PDHCPv4 d] | None => [] end in
            find_layer sel_DHCPv4 l = Some (norm d) /\ find_layer sel_Dot1Q l = None).
    rewrite get_put_dhcp. done.
Qed.

#[local] Instance dhcp_plain : IOLaws (plain_machine dhcp_events) (fun ev => ev <> "start_dhcp").
Proof. split; intros; try done. Defined.

Definition dhcp_client0 : PlainIO := {|
  p_state := "dhcp_started"; p_stream := {| s_err := None; s_sent := [] |}; p_client := None |}.

Lemma dhcp_handshake_witness :
  exists s, fsm_current (plain_machine dhcp_events) s = "dhcp_ack_received".
Proof.
  destruct (@dhcp_handshake toy_gopacket toy_codec PlainIO plain_io (plain_machine dhcp_events)
    dhcp_plain eq_refl 1 0 16 900 1024 0 0 4600001 [46; 0; 0; 0; 0; 1] eq_refl
    ltac:(repeat constructor; done) eq_refl)
    with (s := dhcp_client0) (ip := [10; 0; 0; 1])
    as (s1 & offer & s2 & ack & s3 & d & _ & _ & _ & _ & _ & H & _).
  - lia.
  - lia.
  - vm_compute. lia.
  - reflexivity.
  - reflexivity.
  - reflexivity.
  - exists s3. exact H.
Defined.
