(* ===== verification/Igmp.v ===== *)
(** * The IGMP responder

    [internal/bbsim/responders/igmp/igmp.go]: the membership reports and leave
    messages a service sends, the answer to a query, and the serialization of
    an IGMP layer with its checksum. *)
From stdpp Require Import pretty.
From S2P Require Import Prelude Fsm OmciTypes Packets Types Io.
Open Scope Z_scope.
Open Scope string_scope.

(** ** Group addresses *)

(** The decimal number of one field of a dotted address: one to three digits,
    at most 255, no leading zero. *)
Definition digit_val (c : Ascii.ascii) : option Z :=
  let n := Z.of_N (Ascii.N_of_ascii c) in
  if decide (48 <= n <= 57) then Some (n - 48) else None.

Fixpoint parse_field (acc : Z) (digits : nat) (l : list Ascii.ascii)
    : option (Z * list Ascii.ascii) :=
  match l with
  | [] => if decide (digits = 0)%nat then None else Some (acc, [])
  | c :: l' =>
      match digit_val c with
      | Some d =>
          if decide ((digits = 1)%nat /\ acc = 0) then None
          else if decide (255 < acc * 10 + d) then None
          else parse_field (acc * 10 + d) (S digits) l'
      | None => if decide (digits = 0)%nat then None else Some (acc, l)
      end
  end.

Fixpoint parse_fields (n : nat) (l : list Ascii.ascii) : option (list Z) :=
  match n, parse_field 0 0 l with
  | _, None => None
  | 0%nat, Some (v, []) => Some [v]
  | 0%nat, Some (_, _ :: _) => None
  | S n', Some (v, c :: l') =>
      if decide (c = Ascii.ascii_of_N 46) then (fun r => v :: r) <$> parse_fields n' l' else None
  | S _, Some (_, []) => None
  end.

(** [net.ParseIP(s).To4()]: the four bytes, or nil for anything that is not a
    dotted IPv4 address. *)
Definition ParseIP4 (s : string) : list Z :=
  default [] (parse_fields 3 (String.list_ascii_of_string s)).

(** ** The layer *)

Definition IGMPMembershipQuery : Z := 0x11.
Definition IGMPMembershipReportV2 : Z := 0x16.
Definition IGMPLeaveGroup : Z := 0x17.
Definition IGMPMembershipReportV3 : Z := 0x22.
Definition IGMPIsEx : Z := 0x02.

(** Source: internal/bbsim/responders/igmp/igmp.go, [IGMPv3GroupRecord]: type,
    number of sources, address and sources. *)
Record GroupRecord := {
  gr_Type : Z; NumberOfSources : Z; MulticastAddress : list Z; SourceAddresses : list (list Z) }.

(** Source: internal/bbsim/responders/igmp/igmp.go, [IGMP] (the fields that
    are serialized). *)
Record IGMP := {
  Type_ : Z; MaxResponseTime : Z; GroupAddress : list Z; NumberOfGroupRecords : Z;
  GroupRecords : list GroupRecord; Version : Z }.

(** Source: internal/bbsim/responders/igmp/igmp.go, [createIGMPV3MembershipReportPacket]. *)
Definition createIGMPV3MembershipReportPacket (groupAddress : string) : IGMP := {|
  Type_ := IGMPMembershipReportV3; MaxResponseTime := 1; GroupAddress := ParseIP4 groupAddress;
  NumberOfGroupRecords := 1;
  GroupRecords := [{| gr_Type := IGMPIsEx; NumberOfSources := 0;
                      MulticastAddress := ParseIP4 groupAddress; SourceAddresses := [] |}];
  Version := 3 |}.

(** Source: internal/bbsim/responders/igmp/igmp.go, [createIGMPV2MembershipReportPacket]. *)
Definition createIGMPV2MembershipReportPacket (groupAddress : string) : IGMP := {|
  Type_ := IGMPMembershipReportV2; MaxResponseTime := 0; GroupAddress := ParseIP4 groupAddress;
  NumberOfGroupRecords := 0; GroupRecords := []; Version := 2 |}.

(** Source: internal/bbsim/responders/igmp/igmp.go, [createIGMPV2LeaveRequestPacket]. *)
Definition createIGMPV2LeaveRequestPacket (groupAddress : string) : IGMP := {|
  Type_ := IGMPLeaveGroup; MaxResponseTime := 1; GroupAddress := ParseIP4 groupAddress;
  NumberOfGroupRecords := 0; GroupRecords := []; Version := 2 |}.

(** ** The checksum *)

(** Source: internal/bbsim/responders/igmp/igmp.go:494-506, [tcpipChecksum]
    (the sum of the 16-bit words, a last odd byte being the high half of a
    word, on 32 bits). *)
Fixpoint sum16 (csum : Z) (data : list Z) : Z :=
  match data with
  | [] => csum
  | [a] => u32 (csum + Z.shiftl a 8)
  | a :: b :: r => sum16 (u32 (u32 (csum + Z.shiftl a 8) + b)) r
  end.

(** Source: internal/bbsim/responders/igmp/igmp.go:507-509, [tcpipChecksum]
    (the carries are added back until the sum fits; the fuel bounds the
    rounds, see [fold_carry_enough]). *)
Fixpoint fold_carry (fuel : nat) (csum : Z) : Z :=
  match fuel with
  | O => csum
  | S fuel' =>
      if decide (0xffff < csum)
      then fold_carry fuel' (u32 (Z.shiftr csum 16 + Z.land csum 0xffff))
      else csum
  end.

(** Source: internal/bbsim/responders/igmp/igmp.go, [tcpipChecksum]. *)
Definition tcpipChecksum (data : list Z) (csum : Z) : Z :=
  u16 (Z.lnot (u16 (fold_carry 3 (sum16 csum data)))).

(** ** Serialization *)

Definition pad_to (n : nat) (l : list Z) : list Z := take n (l ++ replicate n 0)%list.

(** [copy(data[i:i+4], ip.To4())]: four bytes, zeros for nil. *)
Definition put_ip (ip : list Z) : list Z := pad_to 4 ip.

(** The bytes of a group record; a missing source address panics. *)
Definition put_record (r : GroupRecord) : outcome (list Z) :=
  if decide (length (SourceAddresses r) < Z.to_nat (NumberOfSources r))%nat
  then Panicked "index out of range"
  else Done ([gr_Type r; 0] ++ be16 (NumberOfSources r) ++ put_ip (MulticastAddress r) ++
             (take (Z.to_nat (NumberOfSources r)) (SourceAddresses r) ≫= put_ip))%list.

Fixpoint put_records (n : nat) (l : list GroupRecord) : outcome (list Z) :=
  match n, l with
  | O, _ => Done []
  | S _, [] => Panicked "index out of range"
  | S n', r :: l' =>
      a ← put_record r;
      b ← put_records n' l';
      mret (a ++ b)%list
  end.

(** Fill in the checksum: bytes 2 and 3. *)
Definition with_checksum (data : list Z) : list Z :=
  let c := tcpipChecksum data 0 in <[3%nat := u8 c]> (<[2%nat := u8 (c / 2 ^ 8)]> data).

(** Source: internal/bbsim/responders/igmp/igmp.go, [IGMP.SerializeTo].  The
    layer takes 8915 bytes of a fresh buffer, which holds zeros; records past
    its end panic. *)
Definition SerializeTo (igmp : IGMP) : outcome (list Z) :=
  let buffer (l : list Z) :=
    if decide (8915 < Z.of_nat (length l)) then Panicked "slice bounds out of range"
    else Done (with_checksum (pad_to (Z.to_nat 8915) l)) in
  if decide (Version igmp = 2) then
    buffer ([u8 (Type_ igmp); u8 (MaxResponseTime igmp); 0; 0] ++ put_ip (GroupAddress igmp))%list
  else if decide (Version igmp = 3) then
    rs ← put_records (Z.to_nat (NumberOfGroupRecords igmp)) (GroupRecords igmp);
    buffer ([u8 (Type_ igmp); 0; 0; 0; 0; 0] ++ be16 (NumberOfGroupRecords igmp) ++ rs)%list
  else Done (replicate (Z.to_nat 8915) 0).

Section Responder.
  Context `{Gopacket}.

(** Source: internal/bbsim/responders/igmp/igmp.go, [serializeIgmpPacket]. *)
Definition serializeIgmpPacket (cTag : Z) (srcMac : list Z) (pbit : Z) (igmp : IGMP)
    : outcome (error + list Z) :=
  let destinationIP :=
    if decide (Version igmp = 3 /\ Type_ igmp = IGMPMembershipReportV3)
    then [224; 0; 0; 22] else GroupAddress igmp in
  payload ← SerializeTo igmp;
  match serialize_ipv4_igmp destinationIP payload with
  | inl e => Done (inl e)
  | inr ip =>
      match serialize_ethernet (replicate 6 0xff) srcMac EthernetTypeIPv4 ip with
      | None => Done (inl "invalid MAC")
      | Some untaggedPkt => Done (PushSingleTag cTag untaggedPkt pbit)
      end
  end.

(** The GEM port used when no flow gave the service one: the decimal digits
    of the PON and of the ONU, one after the other, as a 32-bit number
    ([strconv.ParseUint] saturates). *)
Definition fallback_gem (ponPortId onuId : Z) : Z :=
  let n := ponPortId * 10 ^ Z.of_nat (String.length (pretty onuId)) + onuId in
  if decide (2 ^ 32 <= n) then 2 ^ 32 - 1 else n.

Section Machine.
  Context {S : Type} `{HasIO S}.

(** The steps the three messages share. *)
Definition send_igmp (igmp : IGMP) (ponPortId onuId portNo uniId gemPortId : Z)
    (macAddress : list Z) (cTag pbit : Z) : M S (option error) := fun s =>
  match serializeIgmpPacket cTag macAddress pbit igmp with
  | Done (inl e) => Done (Some e, s)
  | Done (inr pkt) =>
      let gem := if decide (gemPortId = 0) then fallback_gem ponPortId onuId else gemPortId in
      send (IndPkt "pon" ponPortId gem pkt portNo onuId uniId) s
  | Panicked w => Panicked w
  | Blocked w => Blocked w
  | Exited w => Exited w
  end.

(** Source: internal/bbsim/responders/igmp/igmp.go, [SendIGMPLeaveGroupV2]. *)
Definition SendIGMPLeaveGroupV2 (ponPortId onuId portNo uniId gemPortId : Z) (macAddress : list Z)
    (cTag pbit : Z) (groupAddress : string) : M S (option error) :=
  send_igmp (createIGMPV2LeaveRequestPacket groupAddress) ponPortId onuId portNo uniId gemPortId
    macAddress cTag pbit.

(** Source: internal/bbsim/responders/igmp/igmp.go, [SendIGMPMembershipReportV2]. *)
Definition SendIGMPMembershipReportV2 (ponPortId onuId portNo uniId gemPortId : Z)
    (macAddress : list Z) (cTag pbit : Z) (groupAddress : string) : M S (option error) :=
  send_igmp (createIGMPV2MembershipReportPacket groupAddress) ponPortId onuId portNo uniId gemPortId
    macAddress cTag pbit.

(** Source: internal/bbsim/responders/igmp/igmp.go, [SendIGMPMembershipReportV3]. *)
Definition SendIGMPMembershipReportV3 (ponPortId onuId portNo uniId gemPortId : Z)
    (macAddress : list Z) (cTag pbit : Z) (groupAddress : string) : M S (option error) :=
  send_igmp (createIGMPV3MembershipReportPacket groupAddress) ponPortId onuId portNo uniId gemPortId
    macAddress cTag pbit.

(** Source: internal/bbsim/responders/igmp/igmp.go, [HandleNextPacket].  The
    joined groups are visited in some order of the map (here the order of the
    list of its entries). *)
Definition HandleNextPacket (ponPortId onuId portNo uniId gemPortId : Z) (macAddress : list Z)
    (pkt : NetPacket) (pbit : Z) (groupAddresses : gmap string Z) : M S (option error) :=
  match PktLayer sel_Dot1Q pkt, PktLayer sel_IGMP pkt with
  | None, _ => mret (Some "packet-is-not-tagged")
  | Some _, None => mret (Some "packet-is-not-igmp")
  | Some dot1q, Some (ty, _) =>
      (when bool_decide (ty = IGMPMembershipQuery) do
        for_each (map_to_list groupAddresses) (fun gv =>
          when bool_decide (gv.2 = VLANIdentifier dot1q) do
            (SendIGMPMembershipReportV2 ponPortId onuId portNo uniId gemPortId macAddress gv.2 pbit
               gv.1 ;; skip))) ;;
      mret None
  end.
End Machine.
End Responder.

(** * Properties *)

(** ** The checksum *)

(** One round of adding the carries back keeps the sum modulo 65535. *)
Definition carry_step (x : Z) : Z := x / 2 ^ 16 + x mod 2 ^ 16.

Lemma carry_step_bits x : 0 <= x < 2 ^ 32 ->
  u32 (Z.shiftr x 16 + Z.land x 0xffff) = carry_step x.
Proof.
  intros Hx. rewrite Z.shiftr_div_pow2 by lia. change 0xffff with (Z.ones 16).
  rewrite Z.land_ones by lia. unfold u32, carry_step. apply Z.mod_small.
  assert (0 <= x / 2 ^ 16 < 2 ^ 16) by
    (split; [apply Z.div_pos; lia|apply Z.div_lt_upper_bound; lia]).
  pose proof (Z.mod_pos_bound x (2 ^ 16)). lia.
Qed.

Lemma carry_step_spec x : 0 <= x < 2 ^ 32 ->
  carry_step x mod 65535 = x mod 65535 /\ (0 < x -> 0 < carry_step x) /\
  0 <= carry_step x <= 0x1fffe /\ (x <= 0x1fffe -> carry_step x <= 0xffff).
Proof.
  intros Hx. unfold carry_step. pose proof (Z.div_mod x (2 ^ 16) ltac:(lia)) as Hdm.
  pose proof (Z.mod_pos_bound x (2 ^ 16) ltac:(lia)).
  assert (0 <= x / 2 ^ 16 < 2 ^ 16) as Hq by
    (split; [apply Z.div_pos; lia|apply Z.div_lt_upper_bound; lia]).
  change (2 ^ 16) with 65536 in *. set (q := x / 65536) in *. set (r := x mod 65536) in *.
  split_and!; [|lia..]. rewrite Hdm.
  replace (65536 * q + r) with (q + r + q * 65535) by lia. by rewrite Z.mod_add by lia.
Qed.

(** Two rounds are enough for a 32-bit sum: the loop of the code ends. *)
Lemma fold_carry_enough x : 0 <= x < 2 ^ 32 ->
  0 <= fold_carry 3 x <= 0xffff /\ fold_carry 3 x mod 65535 = x mod 65535 /\
  (0 < x -> 0 < fold_carry 3 x).
Proof.
  intros Hx. cbn [fold_carry].
  case_decide as H1; [|split_and!; [lia|lia|done|done]]. rewrite carry_step_bits by done.
  destruct (carry_step_spec x Hx) as (M1 & P1 & B1 & _). specialize (P1 ltac:(lia)).
  case_decide as H2; [|split_and!; [lia|lia|done|done]]. rewrite carry_step_bits by lia.
  destruct (carry_step_spec (carry_step x)) as (M2 & P2 & B2 & C2); [lia|].
  specialize (P2 P1). specialize (C2 ltac:(lia)).
  rewrite decide_False by lia. split_and!; [lia|lia|congruence|done].
Qed.

(** The sum of the words without wrap-around. *)
Fixpoint word_sum (data : list Z) : Z :=
  match data with
  | [] => 0
  | [a] => a * 256
  | a :: b :: r => a * 256 + b + word_sum r
  end.

Lemma word_sum_bound data : Forall is_u8 data ->
  0 <= word_sum data <= Z.of_nat (length data) * 65535.
Proof.
  revert data. fix IH 1. intros [|a [|b r]] Hd; cbn [word_sum length].
  - lia.
  - apply Forall_cons in Hd as [Ha _]. unfold is_u8 in Ha. lia.
  - apply Forall_cons in Hd as [Ha Hd]. apply Forall_cons in Hd as [Hb Hr].
    specialize (IH r Hr). unfold is_u8 in *. lia.
Qed.

Lemma sum16_word_sum data c : Forall is_u8 data -> Z.of_nat (length data) <= 65536 -> 0 <= c ->
  c + Z.of_nat (length data) * 65535 < 2 ^ 32 -> sum16 c data = c + word_sum data.
Proof.
  revert data c. fix IH 1. intros [|a [|b r]] c Hd Hl Hc Hb; cbn [sum16 word_sum].
  - lia.
  - apply Forall_cons in Hd as [Ha _]. unfold is_u8 in Ha. rewrite Z.shiftl_mul_pow2 by lia.
    unfold u32. cbn [length] in *. rewrite Z.mod_small by lia. lia.
  - apply Forall_cons in Hd as [Ha Hd]. apply Forall_cons in Hd as [Hb' Hr].
    unfold is_u8 in *. cbn [length] in *. rewrite Z.shiftl_mul_pow2 by lia. unfold u32.
    rewrite (Z.mod_small (c + a * 2 ^ 8)) by lia. rewrite Z.mod_small by lia.
    rewrite IH; [lia|done|lia|lia|lia].
Qed.

Lemma lnot_u16 x : 0 <= x <= 0xffff -> u16 (Z.lnot (u16 x)) = 65535 - x.
Proof.
  intros Hx. unfold u16. rewrite (Z.mod_small x) by lia. unfold Z.lnot.
  rewrite <-(Z.mod_add _ 1) by lia. rewrite Z.mod_small by lia. lia.
Qed.

(** The checksum the serializer fills in is the one of RFC 1071: summing
    the message with the checksum in place gives zero, for a message of any
    (even odd) length up to 65535 bytes. *)
Theorem with_checksum_verifies data :
  Forall is_u8 data -> 4 <= Z.of_nat (length data) <= 65535 ->
  data !! 2%nat = Some 0 -> data !! 3%nat = Some 0 ->
  tcpipChecksum (with_checksum data) 0 = 0.
Proof.
  intros Hd Hl H2 H3.
  destruct data as [|d0 [|d1 [|d2 [|d3 r]]]]; cbn in Hl; try lia.
  cbn in H2, H3. simplify_eq.
  rewrite !Forall_cons in Hd. destruct Hd as (U0 & U1 & _ & _ & Ur).
  set (S0 := d0 * 256 + d1 + word_sum r).
  pose proof (word_sum_bound r Ur) as Hb. unfold is_u8 in U0, U1.
  assert (sum16 0 (d0 :: d1 :: 0 :: 0 :: r) = S0) as HS0.
  { rewrite sum16_word_sum; [cbn [word_sum]; lia| |cbn; lia|lia|cbn [length]; lia].
    repeat (apply Forall_cons; split; [unfold is_u8; lia|]). done. }
  assert (0 <= S0 < 2 ^ 32 - 65536) as HB0 by lia.
  destruct (fold_carry_enough S0) as (F1 & F2 & F3); [lia|].
  set (c := 65535 - fold_carry 3 S0).
  assert (tcpipChecksum (d0 :: d1 :: 0 :: 0 :: r) 0 = c) as Hc.
  { unfold tcpipChecksum. rewrite HS0. by apply lnot_u16. }
  unfold with_checksum. rewrite Hc. cbn [insert list_insert].
  assert (u8 (c / 2 ^ 8) * 256 + u8 c = c) as Hcc.
  { apply (be16_dec_be16 c). unfold is_u16. lia. }
  assert (is_u8 (u8 (c / 2 ^ 8)) /\ is_u8 (u8 c)) as [Hu1 Hu2].
  { unfold is_u8, u8. split; apply Z.mod_pos_bound; lia. }
  unfold tcpipChecksum.
  rewrite sum16_word_sum; [| |cbn [length]; lia|lia|cbn [length]; lia].
  2: { repeat (apply Forall_cons; split; [unfold is_u8; lia || done|]). done. }
  cbn [word_sum]. replace (0 + _) with (S0 + c) by lia.
  destruct (fold_carry_enough (S0 + c)) as (G1 & G2 & G3); [lia|].
  assert (fold_carry 3 (S0 + c) = 65535) as ->; [|reflexivity].
  assert ((S0 + c) mod 65535 = 0) as Hz.
  { rewrite Z.add_mod, <-F2, <-Z.add_mod by lia.
    replace (fold_carry 3 S0 + c) with 65535 by lia. reflexivity. }
  assert (0 < S0 + c) as Hp.
  { destruct (decide (S0 = 0)) as [E|]; [|lia].
    assert (c = 65535) by (unfold c; rewrite E; reflexivity). lia. }
  specialize (G3 Hp). rewrite Hz in G2. apply Z.mod_divide in G2 as [k Hk]; lia.
Qed.

Lemma with_checksum_verifies_witness :
  tcpipChecksum (with_checksum [0x16; 0; 0; 0; 224; 0; 0; 22; 7]) 0 = 0.
Proof.
  apply (with_checksum_verifies [0x16; 0; 0; 0; 224; 0; 0; 22; 7]).
  - repeat constructor; done.
  - cbn. lia.
  - reflexivity.
  - reflexivity.
Defined.

(** ** What the responder leaves alone *)

Section Frames.
  Context `{Gopacket} {S : Type} `{HasIO S} (P : S -> Prop).
  Context (Hsend : forall ind, preserves P (send ind)).

Lemma send_igmp_preserves igmp pon onu port uni gem mac ctag pbit :
  preserves P (send_igmp igmp pon onu port uni gem mac ctag pbit).
Proof.
  intros s r s' Hs. unfold send_igmp. destruct (serializeIgmpPacket _ _ _ _) as [[e|p]| | |];
    [by intros [= <- <-]|by apply Hsend|done..].
Qed.

Lemma igmp_preserves pon onu port uni gem mac pkt pbit groups :
  preserves P (HandleNextPacket pon onu port uni gem mac pkt pbit groups).
Proof.
  pose proof send_igmp_preserves. unfold HandleNextPacket, SendIGMPMembershipReportV2.
  destruct (PktLayer sel_Dot1Q pkt), (PktLayer sel_IGMP pkt) as [[]|]; preserve.
  apply preserves_for_each. preserve.
Qed.
End Frames.
