(* ===== verification/Service.v ===== *)
(** * Services of a subscriber

    [internal/bbsim/devices/services.go]: a service owns the EAPOL, DHCP and
    IGMP state machines of one subscriber service, two channels read by its
    goroutines, and the gRPC stream it answers on.  The state of the model is
    the service and the wire behind its stream; the goroutines are the steps
    [recv_channel] and [recv_packet] (one message each) and the two time-outs.
    A send on an unbuffered channel waits for the goroutine that reads it; in
    the model the message waits in the channel. *)
From S2P Require Import Prelude Fsm OmciTypes Packets Types Io Eapol Dhcp Igmp.
Open Scope Z_scope.
Open Scope string_scope.

(** Source: internal/bbsim/devices/services.go, [Service].  The stream is
    nil until the service is initialized. *)
Record Service := {
  svc_Id : Z; svc_Name : string; HwAddress : list Z; CTag : Z; STag : Z;
  NeedsEapol : bool; NeedsDhcp : bool; NeedsIgmp : bool; NeedsPPPoE : bool;
  TechnologyProfileID : Z; UniTagMatch : Z; ConfigureMacAddress : bool; EnableMacLearning : bool;
  UsPonCTagPriority : Z; UsPonSTagPriority : Z; DsPonCTagPriority : Z; DsPonSTagPriority : Z;
  GemPort : Z; groupAddresses : option (gmap string Z);
  InternalState : string; EapolState : string; DHCPState : string; IGMPState : string;
  Channel : chan Message; PacketCh : chan OnuPacketMessage; hasStream : bool }.

#[export] Instance eta_Service : Eta Service := fun s => {|
  svc_Id := svc_Id s; svc_Name := svc_Name s; HwAddress := HwAddress s; CTag := CTag s;
  STag := STag s; NeedsEapol := NeedsEapol s; NeedsDhcp := NeedsDhcp s; NeedsIgmp := NeedsIgmp s;
  NeedsPPPoE := NeedsPPPoE s; TechnologyProfileID := TechnologyProfileID s;
  UniTagMatch := UniTagMatch s; ConfigureMacAddress := ConfigureMacAddress s;
  EnableMacLearning := EnableMacLearning s; UsPonCTagPriority := UsPonCTagPriority s;
  UsPonSTagPriority := UsPonSTagPriority s; DsPonCTagPriority := DsPonCTagPriority s;
  DsPonSTagPriority := DsPonSTagPriority s; GemPort := GemPort s;
  groupAddresses := groupAddresses s; InternalState := InternalState s;
  EapolState := EapolState s; DHCPState := DHCPState s; IGMPState := IGMPState s;
  Channel := Channel s; PacketCh := PacketCh s; hasStream := hasStream s |}.
#[export] Instance set_GemPort : Setter GemPort := ltac:(setter_for GemPort).
#[export] Instance set_groupAddresses : Setter groupAddresses := ltac:(setter_for groupAddresses).
#[export] Instance set_InternalState : Setter InternalState := ltac:(setter_for InternalState).
#[export] Instance set_EapolState : Setter EapolState := ltac:(setter_for EapolState).
#[export] Instance set_DHCPState : Setter DHCPState := ltac:(setter_for DHCPState).
#[export] Instance set_IGMPState : Setter IGMPState := ltac:(setter_for IGMPState).
#[export] Instance set_Channel : Setter Channel := ltac:(setter_for Channel).
#[export] Instance set_PacketCh : Setter PacketCh := ltac:(setter_for PacketCh).
#[export] Instance set_hasStream : Setter hasStream := ltac:(setter_for hasStream).

(** A service and the wire its stream writes to. *)
Record SvcSys := { svc : Service; wire : Stream }.
#[export] Instance eta_SvcSys : Eta SvcSys := fun s => {| svc := svc s; wire := wire s |}.
#[export] Instance set_svc : Setter svc := ltac:(setter_for svc).
#[export] Instance set_wire : Setter wire := ltac:(setter_for wire).

(** Where the service sits: the identifiers of its ONU, PON, logical port, UNI
    and OLT. *)
Record Place := { at_onu : Z; at_pon : Z; at_port : Z; at_uni : Z; at_olt : Z }.

(** BBSim has no openolt client. *)
#[export] Instance svc_io : HasIO SvcSys := {
  io_stream := wire;
  io_set_stream := fun w s => s <| wire := w |>;
  io_client := fun _ => None;
  io_set_client := fun _ s => s }.

Definition ServiceStateCreated : string := "created".
Definition ServiceStateInitialized : string := "initialized".
Definition ServiceStateDisabled : string := "disabled".
Definition fttbDpuMgmtServiceName : string := "DPU_MGMT_TRAFFIC".

(** [service.Channel <- msg]. *)
Definition send_channel (m : Message) : M SvcSys unit :=
  lift_upd (fun s => Channel (svc s)) (fun c s => s <| svc ::= (fun v => v <| Channel := c |>) |>)
    (chan_send m).

(** [service.PacketCh <- msg] of the UNI. *)
Definition send_packet (m : OnuPacketMessage) : M SvcSys unit :=
  lift_upd (fun s => PacketCh (svc s)) (fun c s => s <| svc ::= (fun v => v <| PacketCh := c |>) |>)
    (chan_send m).

(** ** State machines *)

(** Source: internal/bbsim/devices/services.go:125-130, [NewService] (the
    table of [InternalState]). *)
Definition service_events : list EventDesc := [
  {| Name := "initialize"; Src := [ServiceStateCreated; ServiceStateDisabled];
     Dst := ServiceStateInitialized |};
  {| Name := "disable"; Src := [ServiceStateInitialized]; Dst := ServiceStateDisabled |} ].

(** Source: internal/bbsim/devices/services.go:131-166, [NewService] (what
    entering a state does; [UpdateStream] is part of it). *)
Definition service_enter (src dst : string) : M SvcSys unit :=
  if decide (dst = ServiceStateInitialized) then
    modify (fun s => s <| svc ::= (fun v =>
      v <| hasStream := true |> <| PacketCh := ChOpen [] |> <| Channel := ChOpen [] |>) |>)
  else if decide (dst = ServiceStateDisabled) then
    modify (fun s => s <| svc ::= (fun v =>
      v <| EapolState := StateCreated |> <| DHCPState := "created" |>) |>) ;;
    lift_upd (fun s => PacketCh (svc s))
      (fun c s => s <| svc ::= (fun v => v <| PacketCh := c |>) |>) chan_close ;;
    lift_upd (fun s => Channel (svc s))
      (fun c s => s <| svc ::= (fun v => v <| Channel := c |>) |>) chan_close ;;
    modify (fun s => s <| svc ::= (fun v =>
      v <| PacketCh := ChNil |> <| Channel := ChNil |> <| GemPort := 0 |>
        <| groupAddresses := None |>) |>)
  else skip.

Definition internal_fsm : FSM SvcSys := {|
  fsm_events := service_events;
  fsm_current := fun s => InternalState (svc s);
  fsm_set := fun x s => s <| svc ::= (fun v => v <| InternalState := x |>) |>;
  fsm_before := no_before; fsm_enter := service_enter; fsm_after := no_after |}.

(** Source: internal/bbsim/devices/services.go:178-223, [NewService] (the
    callbacks of [EapolState]: starting asks the goroutine of the service to
    send the first packet; entering the started state starts the timer). *)
Definition eapol_fsm : FSM SvcSys := {|
  fsm_events := eapol_events;
  fsm_current := fun s => EapolState (svc s);
  fsm_set := fun x s => s <| svc ::= (fun v => v <| EapolState := x |>) |>;
  fsm_before := fun ev => if decide (ev = EventStartAuth) then send_channel StartEAPOL else skip;
  fsm_enter := no_enter; fsm_after := no_after |}.

(** Source: internal/bbsim/devices/services.go:234-279, [NewService] (the
    callbacks of [DHCPState]). *)
Definition dhcp_fsm : FSM SvcSys := {|
  fsm_events := dhcp_events;
  fsm_current := fun s => DHCPState (svc s);
  fsm_set := fun x s => s <| svc ::= (fun v => v <| DHCPState := x |>) |>;
  fsm_before := fun ev => if decide (ev = "start_dhcp") then send_channel StartDHCP else skip;
  fsm_enter := no_enter; fsm_after := no_after |}.

(** Source: internal/bbsim/devices/services.go:281-288, [NewService] (the
    table of [IGMPState]). *)
Definition igmp_events : list EventDesc := [
  {| Name := "igmp_join_start";
     Src := ["created"; "igmp_left"; "igmp_join_error"; "igmp_join_started"];
     Dst := "igmp_join_started" |};
  {| Name := "igmp_join_startv3"; Src := ["igmp_left"; "igmp_join_error"; "igmp_join_started"];
     Dst := "igmp_join_started" |};
  {| Name := "igmp_join_error"; Src := ["igmp_join_started"]; Dst := "igmp_join_error" |};
  {| Name := "igmp_leave"; Src := ["igmp_join_started"]; Dst := "igmp_left" |} ].

(** Source: internal/bbsim/devices/services.go:289-320, [NewService] (the
    callbacks of [IGMPState]; the group is the argument of the event). *)
Definition igmp_fsm (group : string) : FSM SvcSys := {|
  fsm_events := igmp_events;
  fsm_current := fun s => IGMPState (svc s);
  fsm_set := fun x s => s <| svc ::= (fun v => v <| IGMPState := x |>) |>;
  fsm_before := no_before; fsm_enter := no_enter;
  fsm_after := fun ev =>
    if decide (ev = "igmp_join_start") then send_channel (Types.IGMPMembershipReportV2 group)
    else if decide (ev = "igmp_leave") then send_channel (Types.IGMPLeaveGroup group)
    else if decide (ev = "igmp_join_startv3") then send_channel (Types.IGMPMembershipReportV3 group)
    else skip |}.

(** Source: internal/bbsim/devices/services.go:99-126, [NewService]. *)
Definition NewService (id : Z) (name : string) (hwAddress : list Z) (cTag sTag : Z)
    (needsEapol needsDhcp needsIgmp needsPPPoE : bool) (tpID uniTagMatch : Z)
    (configMacAddress enableMacLearning : bool) (usC usS dsC dsS : Z) : Service := {|
  svc_Id := id; svc_Name := name; HwAddress := hwAddress; CTag := cTag; STag := sTag;
  NeedsEapol := needsEapol; NeedsDhcp := needsDhcp; NeedsIgmp := needsIgmp;
  NeedsPPPoE := needsPPPoE; TechnologyProfileID := tpID; UniTagMatch := uniTagMatch;
  ConfigureMacAddress := configMacAddress; EnableMacLearning := enableMacLearning;
  UsPonCTagPriority := usC; UsPonSTagPriority := usS; DsPonCTagPriority := dsC;
  DsPonSTagPriority := dsS; GemPort := 0; groupAddresses := None;
  InternalState := ServiceStateCreated; EapolState := StateCreated; DHCPState := "created";
  IGMPState := "created"; Channel := ChNil; PacketCh := ChNil; hasStream := false |}.

(** ** Operations *)

(** Source: internal/bbsim/devices/services.go, [Service.Initialize]. *)
Definition Initialize : M SvcSys unit := Event internal_fsm "initialize" ;; skip.

(** Source: internal/bbsim/devices/services.go, [Service.Disable]. *)
Definition Disable : M SvcSys unit := Event internal_fsm "disable" ;; skip.

(** Source: internal/bbsim/devices/services.go, [Service.UpdateStream]. *)
Definition UpdateStream : M SvcSys unit :=
  modify (fun s => s <| svc ::= (fun v => v <| hasStream := true |>) |>).

(** Source: internal/bbsim/devices/services.go, [Service.HandleAuth]. *)
Definition HandleAuth : M SvcSys unit :=
  s ← get;
  if NeedsEapol (svc s) then Event eapol_fsm EventStartAuth ;; skip else skip.

(** The tag and the priority a DHCP flow is compared with. *)
Definition dhcp_tag (v : Service) : Z :=
  if decide (svc_Name v = fttbDpuMgmtServiceName) then STag v else CTag v.
Definition dhcp_pbit (v : Service) : Z :=
  if decide (svc_Name v = fttbDpuMgmtServiceName) then UsPonSTagPriority v else UsPonCTagPriority v.

(** Source: internal/bbsim/devices/services.go, [Service.HandleDhcp]. *)
Definition HandleDhcp (oPbit oVid : Z) : M SvcSys unit :=
  s ← get;
  if decide (dhcp_tag (svc s) <> oVid \/ (dhcp_pbit (svc s) <> oPbit /\ oPbit <> 255)) then skip
  else if NeedsDhcp (svc s) then Event dhcp_fsm "start_dhcp" ;; skip else skip.

(** Source: internal/bbsim/devices/services.go, [Service.AddGroupAddress]. *)
Definition AddGroupAddress (addr : string) (ctag : Z) : M SvcSys unit :=
  modify (fun s => s <| svc ::= (fun v =>
    v <| groupAddresses := Some (<[addr := ctag]> (default ∅ (groupAddresses v))) |>) |>).

(** Source: internal/bbsim/devices/services.go, [Service.RemoveGroupAddress]. *)
Definition RemoveGroupAddress (addr : string) : M SvcSys unit :=
  modify (fun s => s <| svc ::= (fun v =>
    v <| groupAddresses := delete addr <$> groupAddresses v |>) |>).

Section Running.
  Context `{Gopacket} (md5_Sum : list Z -> list Z) (at_ : Place).

(** Source: internal/bbsim/devices/services.go, [Service.handleEapolStart]. *)
Definition handleEapolStart : M SvcSys bool :=
  s ← get;
  SendEapStart eapol_fsm (at_onu at_) (at_pon at_) (at_port at_) (HwAddress (svc s))
    (GemPort (svc s)) (at_uni at_).

(** Source: internal/bbsim/devices/services.go, [Service.handleDHCPStart]. *)
Definition handleDHCPStart : M SvcSys bool :=
  s ← get;
  SendDHCPDiscovery dhcp_fsm (at_pon at_) (at_onu at_) (dhcp_tag (svc s)) (GemPort (svc s))
    (at_port at_) (at_uni at_) (HwAddress (svc s)) (dhcp_pbit (svc s)).

(** Source: internal/bbsim/devices/services.go:506-574, [Service.HandleChannel]
    (one message). *)
Definition handle_message (m : Message) : M SvcSys unit :=
  s ← get;
  let v := svc s in
  match m with
  | StartEAPOL =>
      failed ← handleEapolStart;
      when failed do (Event eapol_fsm EventAuthFailed ;; skip)
  | StartDHCP =>
      failed ← handleDHCPStart;
      when failed do (Event dhcp_fsm "dhcp_failed" ;; skip)
  | Types.IGMPMembershipReportV2 g =>
      SendIGMPMembershipReportV2 (at_pon at_) (at_onu at_) (at_port at_) (at_uni at_) (GemPort v)
        (HwAddress v) (CTag v) (UsPonCTagPriority v) g ;; skip
  | Types.IGMPLeaveGroup g =>
      RemoveGroupAddress g ;;
      SendIGMPLeaveGroupV2 (at_pon at_) (at_onu at_) (at_port at_) (at_uni at_) (GemPort v)
        (HwAddress v) (CTag v) (UsPonCTagPriority v) g ;; skip
  | Types.IGMPMembershipReportV3 g =>
      SendIGMPMembershipReportV3 (at_pon at_) (at_onu at_) (at_port at_) (at_uni at_) (GemPort v)
        (HwAddress v) (CTag v) (UsPonCTagPriority v) g ;; skip
  | _ => skip
  end.

(** Source: internal/bbsim/devices/services.go:484-578, [Service.HandleChannel]
    (the goroutine takes the next message, if there is one). *)
Definition recv_channel : M SvcSys unit :=
  s ← get;
  match Channel (svc s) with
  | ChOpen (m :: q) =>
      modify (fun s => s <| svc ::= (fun v => v <| Channel := ChOpen q |>) |>) ;;
      handle_message m
  | _ => skip
  end.

(** Source: internal/bbsim/devices/services.go:455-481, [Service.HandlePackets]
    (one packet). *)
Definition handle_packet (msg : OnuPacketMessage) : M SvcSys unit :=
  s ← get;
  let v := svc s in
  match pm_Type msg with
  | PT_EAPOL =>
      Eapol.HandleNextPacket md5_Sum eapol_fsm (pm_OnuId msg) (pm_IntfId msg) (GemPort v)
        (at_port at_) (at_uni at_) (svc_Id v) (at_olt at_) (pm_Packet msg)
  | PT_DHCP =>
      Dhcp.HandleNextPacket dhcp_fsm (at_onu at_) (at_pon at_) (at_port at_) (dhcp_tag v)
        (GemPort v) (at_uni at_) (HwAddress v) (pm_Packet msg) (dhcp_pbit v) ;; skip
  | PT_IGMP =>
      Igmp.HandleNextPacket (at_pon at_) (at_onu at_) (at_port at_) (at_uni at_) (GemPort v)
        (HwAddress v) (pm_Packet msg) (UsPonCTagPriority v) (default ∅ (groupAddresses v)) ;; skip
  | _ => skip
  end.

(** Source: internal/bbsim/devices/services.go:432-482, [Service.HandlePackets]
    (the goroutine takes the next packet, if there is one). *)
Definition recv_packet : M SvcSys unit :=
  s ← get;
  match PacketCh (svc s) with
  | ChOpen (m :: q) =>
      modify (fun s => s <| svc ::= (fun v => v <| PacketCh := ChOpen q |>) |>) ;;
      handle_packet m
  | _ => skip
  end.

(** Source: internal/bbsim/devices/services.go:188-223, [NewService] (the
    authentication timer expires while the OLT is enabled). *)
Definition eapol_timeout (authRetry : bool) : M SvcSys unit :=
  state ← Current eapol_fsm;
  if decide (state <> StateResponseSuccessReceived) then
    Event eapol_fsm EventAuthFailed ;;
    when authRetry do (Event eapol_fsm EventStartAuth ;; skip)
  else skip.

(** Source: internal/bbsim/devices/services.go:244-279, [NewService] (the DHCP
    timer expires while the OLT is enabled). *)
Definition dhcp_timeout (dhcpRetry : bool) : M SvcSys unit :=
  state ← Current dhcp_fsm;
  if decide (state <> "dhcp_ack_received") then
    Event dhcp_fsm "dhcp_failed" ;;
    when dhcpRetry do (Event dhcp_fsm "start_dhcp" ;; skip)
  else skip.
End Running.

(** * Properties *)

(** ** The interface of the responders *)

#[export] Instance svc_eapol_laws : IOLaws eapol_fsm (fun ev => ev <> EventStartAuth).
Proof.
  split; intros; try done. cbn [fsm_before eapol_fsm]. rewrite decide_False by done. done.
Qed.

#[export] Instance svc_dhcp_laws : IOLaws dhcp_fsm (fun ev => ev <> "start_dhcp").
Proof.
  split; intros; try done. cbn [fsm_before dhcp_fsm]. rewrite decide_False by done. done.
Qed.

(** ** Life cycle *)

(** An initialized service has its goroutines: open channels and a stream. *)
Definition svc_up (s : SvcSys) : Prop :=
  InternalState (svc s) = ServiceStateInitialized /\ hasStream (svc s) = true /\
  (exists q, Channel (svc s) = ChOpen q) /\ (exists q, PacketCh (svc s) = ChOpen q).

(** A service that is not initialized has no channels, and its protocols are
    back in their initial states. *)
Definition svc_down (s : SvcSys) : Prop :=
  (InternalState (svc s) = ServiceStateCreated \/ InternalState (svc s) = ServiceStateDisabled) /\
  Channel (svc s) = ChNil /\ PacketCh (svc s) = ChNil /\
  EapolState (svc s) = StateCreated /\ DHCPState (svc s) = "created".

Definition svc_inv (s : SvcSys) : Prop := svc_up s \/ svc_down s.

Section Up.
  Context `{Gopacket} (md5_Sum : list Z -> list Z) (at_ : Place).

Lemma up_send ind : preserves svc_up (send ind).
Proof. intros s r s' Hs. unfold send, zoom, Send. destruct (s_err _); by intros [= <- <-]. Qed.

Lemma up_call c : preserves svc_up (client_call c).
Proof. intros s r s' Hs [=]. Qed.

Lemma up_send_channel m : preserves svc_up (send_channel m).
Proof.
  apply preserves_lift. intros s c (H1 & H2 & [q Hq] & H3). rewrite Hq. intros [= <-].
  split_and!; try done. by eexists.
Qed.

Lemma up_eapol_event ev : preserves svc_up (Event eapol_fsm ev).
Proof.
  apply preserves_Event_callbacks; [|intros; apply preserves_skip|apply preserves_skip|done].
  cbn [fsm_before eapol_fsm]. pose proof up_send_channel. preserve.
Qed.

Lemma up_dhcp_event ev : preserves svc_up (Event dhcp_fsm ev).
Proof.
  apply preserves_Event_callbacks; [|intros; apply preserves_skip|apply preserves_skip|done].
  cbn [fsm_before dhcp_fsm]. pose proof up_send_channel. preserve.
Qed.

Lemma up_igmp_event g ev : preserves svc_up (Event (igmp_fsm g) ev).
Proof.
  apply preserves_Event_callbacks; [apply preserves_skip|intros; apply preserves_skip| |done].
  cbn [fsm_after igmp_fsm]. pose proof up_send_channel. preserve.
Qed.

Lemma up_group addr ctag : preserves svc_up (AddGroupAddress addr ctag).
Proof. by apply preserves_modify. Qed.
Lemma up_ungroup addr : preserves svc_up (RemoveGroupAddress addr).
Proof. by apply preserves_modify. Qed.

Lemma up_handle_message m : preserves svc_up (handle_message at_ m).
Proof.
  pose proof up_eapol_event. pose proof up_dhcp_event. pose proof up_ungroup.
  pose proof (send_igmp_preserves svc_up up_send) as Higmp.
  pose proof (SendEapStart_preserves eapol_fsm svc_up up_send (fun ev _ => up_eapol_event ev)) as He.
  pose proof (SendDHCPDiscovery_preserves dhcp_fsm svc_up up_send (fun ev _ => up_dhcp_event ev)) as Hd.
  unfold handle_message, handleEapolStart, handleDHCPStart,
    Igmp.SendIGMPMembershipReportV2, SendIGMPLeaveGroupV2, Igmp.SendIGMPMembershipReportV3.
  preserve.
Qed.

Lemma up_handle_packet m : preserves svc_up (handle_packet md5_Sum at_ m).
Proof.
  pose proof (eapol_preserves md5_Sum eapol_fsm svc_up up_send up_call
    (fun ev _ => up_eapol_event ev)) as He.
  pose proof (dhcp_preserves dhcp_fsm svc_up up_send (fun ev _ => up_dhcp_event ev)) as Hd.
  pose proof (igmp_preserves svc_up up_send) as Hi.
  unfold handle_packet. preserve.
Qed.

Lemma up_recv_channel : preserves svc_up (recv_channel at_).
Proof.
  intros s [] s' Hs. unfold recv_channel. mred.
  destruct (Channel (svc s)) as [|[|m q]|] eqn:Hq; try (by intros [= <-]).
  apply up_handle_message. destruct Hs as (H1 & H2 & H3 & H4). split_and!; try done. by eexists.
Qed.

Lemma up_recv_packet : preserves svc_up (recv_packet md5_Sum at_).
Proof.
  intros s [] s' Hs. unfold recv_packet. mred.
  destruct (PacketCh (svc s)) as [|[|m q]|] eqn:Hq; try (by intros [= <-]).
  apply up_handle_packet. destruct Hs as (H1 & H2 & H3 & H4). split_and!; try done. by eexists.
Qed.

Lemma up_auth : preserves svc_up HandleAuth.
Proof. pose proof up_eapol_event. unfold HandleAuth. preserve. Qed.
Lemma up_dhcp p v : preserves svc_up (HandleDhcp p v).
Proof. pose proof up_dhcp_event. unfold HandleDhcp. preserve. Qed.
Lemma up_eapol_timeout b : preserves svc_up (eapol_timeout b).
Proof. pose proof up_eapol_event. unfold eapol_timeout, Current. preserve. Qed.
Lemma up_dhcp_timeout b : preserves svc_up (dhcp_timeout b).
Proof. pose proof up_dhcp_event. unfold dhcp_timeout, Current. preserve. Qed.
End Up.

(** What a service goes through while the simulator runs: its own operations,
    the steps of its goroutines and timers, the packets its UNI hands to it
    and the fields the UNI and the OLT write. *)
Inductive svc_works `{Gopacket} (md5_Sum : list Z -> list Z) (at_ : Place) : M SvcSys unit -> Prop :=
| run_UpdateStream : svc_works md5_Sum at_ UpdateStream
| run_HandleAuth : svc_works md5_Sum at_ HandleAuth
| run_HandleDhcp p v : svc_works md5_Sum at_ (HandleDhcp p v)
| run_recv_channel : svc_works md5_Sum at_ (recv_channel at_)
| run_recv_packet : svc_works md5_Sum at_ (recv_packet md5_Sum at_)
| run_arrive p : svc_works md5_Sum at_ (send_packet p)
| run_eapol_timeout b : svc_works md5_Sum at_ (eapol_timeout b)
| run_dhcp_timeout b : svc_works md5_Sum at_ (dhcp_timeout b)
| run_igmp g ev : svc_works md5_Sum at_ (Event (igmp_fsm g) ev ;; skip)
| run_AddGroup a c : svc_works md5_Sum at_ (AddGroupAddress a c)
| run_RemoveGroup a : svc_works md5_Sum at_ (RemoveGroupAddress a)
| run_gem g : svc_works md5_Sum at_ (modify (fun s => s <| svc ::= (fun v => v <| GemPort := g |>) |>))
| run_wire w : svc_works md5_Sum at_ (modify (fun s => s <| wire := w |>)).

(** With the two operations that start and stop it. *)
Inductive svc_runs `{Gopacket} (md5_Sum : list Z -> list Z) (at_ : Place) : M SvcSys unit -> Prop :=
| run_Initialize : svc_runs md5_Sum at_ Initialize
| run_Disable : svc_runs md5_Sum at_ Disable
| run_works m : svc_works md5_Sum at_ m -> svc_runs md5_Sum at_ m.

Definition svc_step `{Gopacket} (md5_Sum : list Z -> list Z) (at_ : Place) (s s' : SvcSys) : Prop :=
  exists m, svc_runs md5_Sum at_ m /\ m s = Done (tt, s').

Section Down.
  Context `{Gopacket} (md5_Sum : list Z -> list Z) (at_ : Place).

Lemma down_send m s : Channel (svc s) = ChNil -> send_channel m s = Blocked "send on nil channel".
Proof. unfold send_channel, lift_upd. by intros ->. Qed.

Lemma down_eapol_event ev s r s' :
  svc_down s -> Event eapol_fsm ev s = Done (r, s') -> s' = s.
Proof.
  intros (_ & Hc & _ & He & _) Hr. destruct (decide (ev = EventStartAuth)) as [->|Hne].
  - erewrite Event_before_blocked in Hr; [done| |apply (down_send StartEAPOL _ Hc)].
    cbn [fsm_current eapol_fsm]. by rewrite He.
  - destruct (transitions (fsm_events eapol_fsm) ev (fsm_current eapol_fsm s)) eqn:E.
    + cbn [fsm_current eapol_fsm] in E. rewrite He in E. apply transitions_entry in E.
      vm_compute in E. exfalso. set_solver.
    + destruct (Event_rejected _ _ _ E). congruence.
Qed.

Lemma down_dhcp_event ev s r s' :
  svc_down s -> Event dhcp_fsm ev s = Done (r, s') -> s' = s.
Proof.
  intros (_ & Hc & _ & _ & He) Hr. destruct (decide (ev = "start_dhcp")) as [->|Hne].
  - erewrite Event_before_blocked in Hr; [done| |apply (down_send StartDHCP _ Hc)].
    cbn [fsm_current dhcp_fsm]. by rewrite He.
  - destruct (transitions (fsm_events dhcp_fsm) ev (fsm_current dhcp_fsm s)) eqn:E.
    + cbn [fsm_current dhcp_fsm] in E. rewrite He in E. apply transitions_entry in E.
      vm_compute in E. exfalso. set_solver.
    + destruct (Event_rejected _ _ _ E). congruence.
Qed.

Lemma down_eapol ev : preserves svc_down (Event eapol_fsm ev).
Proof. intros s r s' Hs Hr. by rewrite (down_eapol_event ev s r s'). Qed.

Lemma down_dhcp ev : preserves svc_down (Event dhcp_fsm ev).
Proof. intros s r s' Hs Hr. by rewrite (down_dhcp_event ev s r s'). Qed.

Lemma down_igmp g ev : preserves svc_down (Event (igmp_fsm g) ev).
Proof.
  apply preserves_Event_callbacks; [apply preserves_skip|intros; apply preserves_skip| |done].
  assert (forall m, preserves svc_down (send_channel m)).
  { intros m. apply preserves_lift. intros s c (_ & Hc & _). by rewrite Hc. }
  cbn [fsm_after igmp_fsm]. preserve.
Qed.

(** What the operations do to a service that is not initialized, and to one
    that is. *)
Lemma down_works m : svc_works md5_Sum at_ m -> preserves svc_down m.
Proof.
  pose proof down_eapol. pose proof down_dhcp. pose proof down_igmp.
  destruct 1; try (by apply preserves_modify).
  - unfold HandleAuth. preserve.
  - unfold HandleDhcp. preserve.
  - intros s [] s' Hs. unfold recv_channel. mred. destruct Hs as (? & Hc & ?).
    rewrite Hc. by intros [= <-].
  - intros s [] s' Hs. unfold recv_packet. mred. destruct Hs as (? & ? & Hc & ?).
    rewrite Hc. by intros [= <-].
  - apply preserves_lift. intros s c (_ & _ & Hc & _). by rewrite Hc.
  - unfold eapol_timeout, Current. preserve.
  - unfold dhcp_timeout, Current. preserve.
  - preserve.
Qed.

Lemma up_works m : svc_works md5_Sum at_ m -> preserves svc_up m.
Proof.
  pose proof up_igmp_event.
  destruct 1; try (by apply preserves_modify);
    auto using up_auth, up_dhcp, up_recv_channel, up_recv_packet, up_eapol_timeout, up_dhcp_timeout.
  - apply preserves_modify. by intros s (? & ? & ?).
  - apply preserves_lift. intros s c (H1 & H2 & H3 & [q Hq]). rewrite Hq. intros [= <-].
    split_and!; try done. by eexists.
  - preserve.
Qed.
End Down.

(** Disabling a service that is not initialized, or initializing one that is,
    is refused. *)
Lemma Disable_down s : svc_down s -> Disable s = Done (tt, s).
Proof.
  intros Hs. assert (transitions service_events "disable" (InternalState (svc s)) = None)
    as E by (by destruct Hs as ([-> | ->] & _)).
  destruct (Event_rejected internal_fsm _ _ E) as [e He]. unfold Disable. by erewrite bind_Done.
Qed.

Lemma Initialize_up s : svc_up s -> Initialize s = Done (tt, s).
Proof.
  intros Hs. assert (transitions service_events "initialize" (InternalState (svc s)) = None)
    as E by (by destruct Hs as (-> & _)).
  destruct (Event_rejected internal_fsm _ _ E) as [e He]. unfold Initialize. by erewrite bind_Done.
Qed.

Lemma Initialize_down s : svc_down s -> exists s',
  Initialize s = Done (tt, s') /\ svc_up s' /\ wire s' = wire s /\
  svc s' = (svc s) <| InternalState := ServiceStateInitialized |> <| hasStream := true |>
    <| PacketCh := ChOpen [] |> <| Channel := ChOpen [] |>.
Proof.
  intros (Hi & _). unfold Initialize, Event. mred. cbn [fsm_current internal_fsm].
  destruct Hi as [->| ->]; eexists; (split; [reflexivity|]);
    (split; [|done]); by repeat (split || eexists).
Qed.

Lemma Disable_up s : svc_up s -> exists s',
  Disable s = Done (tt, s') /\ svc_down s' /\ GemPort (svc s') = 0 /\
  groupAddresses (svc s') = None /\ wire s' = wire s.
Proof.
  intros (Hi & _ & [q Hq] & [p Hp]). unfold Disable.
  erewrite bind_Done; [eexists; split; [reflexivity|]|].
  2:{ rewrite (Event_ok internal_fsm "disable" s ServiceStateDisabled);
        [|cbn [fsm_current internal_fsm]; by rewrite Hi..].
      cbn [fsm_current fsm_enter fsm_before fsm_after fsm_set internal_fsm]. rewrite Hi.
      unfold service_enter, no_before, no_after. rewrite decide_False, decide_True by done.
      mred. cbn. rewrite Hp. cbn. rewrite Hq. reflexivity. }
  unfold svc_down. cbn. eauto 10.
Qed.

Lemma svc_step_inv `{Gopacket} md5_Sum at_ s s' :
  svc_inv s -> svc_step md5_Sum at_ s s' -> svc_inv s'.
Proof.
  intros [Hu|Hd] (m & Hm & Hr); destruct Hm as [| |m Hm].
  - rewrite Initialize_up in Hr by done. simplify_eq. by left.
  - destruct (Disable_up s Hu) as (t & Ht & Hd & _). right. congruence.
  - left. by eapply up_works.
  - destruct (Initialize_down s Hd) as (t & Ht & Hu & _). left. congruence.
  - rewrite Disable_down in Hr by done. simplify_eq. by right.
  - right. by eapply down_works.
Qed.

(** C12: whatever happens to a service once [NewService] made it, it is either
    initialized, with its stream and both of its channels open, or not, and
    then it has no channel at all and its EAPOL and DHCP machines are in their
    initial states. *)
Theorem service_life_cycle `{Gopacket} md5_Sum at_ id name mac ctag stag e d i p tp um cm ml
    uc us dc ds w s :
  rtc (svc_step md5_Sum at_)
    {| svc := NewService id name mac ctag stag e d i p tp um cm ml uc us dc ds; wire := w |} s ->
  svc_up s \/ svc_down s.
Proof.
  set (s0 := {| svc := _; wire := _ |}). assert (svc_inv s0) as H0 by (right; split_and!; auto).
  clearbody s0. intros Hr. change (svc_inv s). induction Hr; eauto using svc_step_inv.
Qed.

(** A service as NewService makes it, and the wire of a healthy stream. *)
Definition fresh_svc : SvcSys := {|
  svc := NewService 0 "hsia" [46; 96; 1; 2; 3; 4] 900 900 true true false false 64 35 false false 0 0 0 0;
  wire := {| s_err := None; s_sent := [] |} |}.
Definition some_place : Place := {| at_onu := 1; at_pon := 0; at_port := 16; at_uni := 0; at_olt := 0 |}.

Definition run {S : Type} (m : M S unit) (s : S) : S :=
  match m s with Done (_, s') => s' | _ => s end.

Lemma service_life_cycle_witness :
  svc_up (run HandleAuth (run Initialize fresh_svc)) \/ svc_down (run HandleAuth (run Initialize fresh_svc)).
Proof.
  eapply (@service_life_cycle link_layer_only (fun x => x) some_place 0 "hsia"
    [46; 96; 1; 2; 3; 4] 900 900 true true false false 64 35 false false 0 0 0 0
    {| s_err := None; s_sent := [] |}).
  eapply rtc_l; [exists Initialize; split; [constructor|reflexivity]|].
  eapply rtc_l; [exists HandleAuth; split; [repeat constructor|reflexivity]|]. apply rtc_refl.
Defined.

(** Asking an initialized service that needs EAPOL to authenticate, when
    no authentication is under way, puts an EAPOL start on the wire once the
    goroutine of the service has run; asking a service that is not initialized
    leaves the caller waiting on a nil channel. *)
Theorem HandleAuth_starts `{Gopacket} at_ s :
  NeedsEapol (svc s) = true ->
  (svc_up s -> Channel (svc s) = ChOpen [] -> s_err (wire s) = None ->
   EapolState (svc s) ∈ [StateCreated; StateResponseSuccessReceived; StateAuthFailed] ->
   exists s1 s2, HandleAuth s = Done (tt, s1) /\ recv_channel at_ s1 = Done (tt, s2) /\
     EapolState (svc s2) = StateStartSent /\ Channel (svc s2) = ChOpen [] /\
     s_sent (wire s2) = (s_sent (wire s) ++
       [IndPkt "pon" (at_pon at_) (GemPort (svc s)) (eap_start_pkt (HwAddress (svc s)))
          (at_port at_) (at_onu at_) (at_uni at_)])%list) /\
  (svc_down s -> HandleAuth s = Blocked "send on nil channel").
Proof.
  intros Hn. split.
  - intros _ Hc He Hst.
    assert (HandleAuth s = Done (tt, s <| svc ::= (fun v => v <| Channel := ChOpen [StartEAPOL] |>
      <| EapolState := StateAuthStarted |>) |>)) as Ha.
    { unfold HandleAuth. mred. rewrite Hn.
      rewrite (Event_ok eapol_fsm EventStartAuth s StateAuthStarted).
      - mred. cbn [fsm_before eapol_fsm]. rewrite decide_True by done.
        unfold send_channel, lift_upd. rewrite Hc. reflexivity.
      - cbn [fsm_current eapol_fsm]. by repeat (apply elem_of_cons in Hst as [->|Hst]);
          [..|by apply elem_of_nil in Hst].
      - cbn [fsm_current eapol_fsm]. intros E. rewrite E in Hst. set_solver. }
    eexists _, _. split; [exact Ha|]. split; [|].
    { unfold recv_channel. mred. cbn. unfold handle_message, handleEapolStart, SendEapStart, send, Send. mred.
      cbn. rewrite He. reflexivity. }
    cbn. done.
  - intros (Hi & Hc & _ & He & _). unfold HandleAuth. mred. rewrite Hn.
    rewrite (Event_before_blocked eapol_fsm EventStartAuth s StateAuthStarted "send on nil channel");
      [done| |].
    + cbn [fsm_current eapol_fsm]. by rewrite He.
    + cbn [fsm_before eapol_fsm]. rewrite decide_True by done. by apply down_send.
Qed.

Lemma HandleAuth_starts_witness :
  HandleAuth fresh_svc = Blocked "send on nil channel" /\
  exists s1 s2, HandleAuth (run Initialize fresh_svc) = Done (tt, s1) /\
    @recv_channel link_layer_only some_place s1 = Done (tt, s2) /\ EapolState (svc s2) = StateStartSent.
Proof.
  split.
  - apply (@HandleAuth_starts link_layer_only some_place fresh_svc); [done|].
    split_and!; try done. by left.
  - destruct (@HandleAuth_starts link_layer_only some_place (run Initialize fresh_svc) eq_refl)
      as [Hs _].
    destruct Hs as (s1 & s2 & R1 & R2 & E & _); [|done..|by left|by exists s1, s2].
    split_and!; try done; by eexists.
Defined.
