(* ===== verification/PonRes.v ===== *)
(** * Resources of a PON port

    The tables of ONU, GEM port and alloc identifiers a [PonPort]
    ([internal/bbsim/devices/pon.go]) keeps so that an identifier in use on a
    PON is not given out twice.  The tables are maps from the identifier to
    the serial number object of the ONU that holds it; every access takes the
    table's lock, so each operation is one atomic step. *)
From S2P Require Import Prelude OmciTypes Packets Types Options.
Open Scope Z_scope.
Open Scope string_scope.

(** Source: internal/bbsim/devices/pon.go, [AllocIDVal]. *)
Record AllocIDVal := { OnuSn : SerialNumber; AllocID : Z }.

(** Source: internal/bbsim/devices/pon.go, [AllocIDKey]: PON, ONU and entity
    identifiers. *)
Definition AllocIDKey : Type := Z * Z * Z.

(** Source: internal/bbsim/devices/pon.go, [PonPort] (the allocated
    resources). *)
Record PonRes := {
  AllocatedGemPorts : gmap Z SerialNumber;
  AllocatedOnuIds : gmap Z SerialNumber;
  AllocatedAllocIds : gmap AllocIDKey AllocIDVal }.
#[export] Instance eta_PonRes : Eta PonRes := fun p => {|
  AllocatedGemPorts := AllocatedGemPorts p; AllocatedOnuIds := AllocatedOnuIds p;
  AllocatedAllocIds := AllocatedAllocIds p |}.
#[export] Instance set_gems : Setter AllocatedGemPorts := ltac:(setter_for AllocatedGemPorts).
#[export] Instance set_onuids : Setter AllocatedOnuIds := ltac:(setter_for AllocatedOnuIds).
#[export] Instance set_allocids : Setter AllocatedAllocIds := ltac:(setter_for AllocatedAllocIds).

(** Source: internal/bbsim/devices/pon.go:72-81, [CreatePonPort] (the empty
    tables). *)
Definition empty_res : PonRes := {|
  AllocatedGemPorts := ∅; AllocatedOnuIds := ∅; AllocatedAllocIds := ∅ |}.

(** ** ONU identifiers *)

(** Source: internal/bbsim/devices/pon.go, [PonPort.storeOnuId]. *)
Definition storeOnuId (onuId : Z) (onuSn : SerialNumber) (p : PonRes) : PonRes :=
  p <| AllocatedOnuIds ::= <[onuId := onuSn]> |>.

(** Source: internal/bbsim/devices/pon.go, [PonPort.removeOnuId]. *)
Definition removeOnuId (onuId : Z) (p : PonRes) : PonRes :=
  p <| AllocatedOnuIds ::= delete onuId |>.

(** Source: internal/bbsim/devices/pon.go, [PonPort.removeAllOnuIds]. *)
Definition removeAllOnuIds (p : PonRes) : PonRes := p <| AllocatedOnuIds := ∅ |>.

(** Source: internal/bbsim/devices/pon.go, [PonPort.isOnuIdAllocated].
    The pair of a flag and a pointer of the source is an [option]. *)
Definition isOnuIdAllocated (onuId : Z) (p : PonRes) : option SerialNumber :=
  AllocatedOnuIds p !! onuId.

(** ** GEM ports *)

(** Source: internal/bbsim/devices/pon.go, [PonPort.storeGemPort]. *)
Definition storeGemPort (gemPortId : Z) (onuSn : SerialNumber) (p : PonRes) : PonRes :=
  p <| AllocatedGemPorts ::= <[gemPortId := onuSn]> |>.

(** Source: internal/bbsim/devices/pon.go, [PonPort.removeGemPort]. *)
Definition removeGemPort (gemPortId : Z) (p : PonRes) : PonRes :=
  p <| AllocatedGemPorts ::= delete gemPortId |>.

(** Source: internal/bbsim/devices/pon.go, [PonPort.removeGemPortBySn]. *)
Definition removeGemPortBySn (onuSn : SerialNumber) (p : PonRes) : PonRes :=
  p <| AllocatedGemPorts ::= filter (fun kv => same_sn kv.2 onuSn = false) |>.

(** Source: internal/bbsim/devices/pon.go, [PonPort.removeAllGemPorts]. *)
Definition removeAllGemPorts (p : PonRes) : PonRes := p <| AllocatedGemPorts := ∅ |>.

(** Source: internal/bbsim/devices/pon.go, [PonPort.isGemPortAllocated]. *)
Definition isGemPortAllocated (gemPortId : Z) (p : PonRes) : option SerialNumber :=
  AllocatedGemPorts p !! gemPortId.

(** ** Alloc identifiers *)

(** Source: internal/bbsim/devices/pon.go, [PonPort.storeAllocId]. *)
Definition storeAllocId (ponID onuID entityID allocId : Z) (onuSn : SerialNumber) (p : PonRes)
    : PonRes :=
  p <| AllocatedAllocIds ::= <[(ponID, onuID, entityID) := {| OnuSn := onuSn; AllocID := allocId |}]> |>.

(** Source: internal/bbsim/devices/pon.go, [PonPort.removeAllocId]. *)
Definition removeAllocId (ponID onuID entityID : Z) (p : PonRes) : PonRes :=
  p <| AllocatedAllocIds ::= delete (ponID, onuID, entityID) |>.

(** Source: internal/bbsim/devices/pon.go, [PonPort.removeAllocIdsForOnuSn]. *)
Definition removeAllocIdsForOnuSn (onuSn : SerialNumber) (p : PonRes) : PonRes :=
  p <| AllocatedAllocIds ::= filter (fun kv => same_sn onuSn (OnuSn kv.2) = false) |>.

(** Source: internal/bbsim/devices/pon.go, [PonPort.removeAllAllocIds]. *)
Definition removeAllAllocIds (p : PonRes) : PonRes := p <| AllocatedAllocIds := ∅ |>.

(** Source: internal/bbsim/devices/pon.go, [PonPort.isAllocIdAllocated]. *)
Definition isAllocIdAllocated (ponID onuID entityID : Z) (p : PonRes) : option AllocIDVal :=
  AllocatedAllocIds p !! (ponID, onuID, entityID).

(** * Properties *)

(** The holder of a GEM port and of an alloc identifier. *)
Definition gem_holder (p : PonRes) (g : Z) : option Z := sn_addr <$> AllocatedGemPorts p !! g.
Definition alloc_holder (p : PonRes) (k : AllocIDKey) : option Z :=
  (fun v => sn_addr (OnuSn v)) <$> AllocatedAllocIds p !! k.

Lemma same_sn_true a b : same_sn a b = true <-> sn_addr a = sn_addr b.
Proof. apply bool_decide_eq_true. Qed.
Lemma same_sn_false a b : same_sn a b = false <-> sn_addr a <> sn_addr b.
Proof. apply bool_decide_eq_false. Qed.

(** Freeing by serial number takes exactly the ports of that ONU. *)
Lemma removeGemPortBySn_spec sn p g :
  gem_holder (removeGemPortBySn sn p) g =
    if decide (gem_holder p g = Some (sn_addr sn)) then None else gem_holder p g.
Proof.
  unfold gem_holder, removeGemPortBySn. cbn.
  destruct (AllocatedGemPorts p !! g) as [x|] eqn:E; cbn.
  - case_decide as Hd.
    + rewrite map_lookup_filter_None_2; [done|]. right. intros y Hy.
      simplify_eq. cbn. rewrite same_sn_false. congruence.
    + rewrite (map_lookup_filter_Some_2 _ _ _ x); [done|done|].
      cbn. rewrite same_sn_false. congruence.
  - rewrite map_lookup_filter_None_2 by (by left). done.
Qed.

Lemma removeAllocIdsForOnuSn_spec sn p k :
  alloc_holder (removeAllocIdsForOnuSn sn p) k =
    if decide (alloc_holder p k = Some (sn_addr sn)) then None else alloc_holder p k.
Proof.
  unfold alloc_holder, removeAllocIdsForOnuSn. cbn.
  destruct (AllocatedAllocIds p !! k) as [x|] eqn:E; cbn.
  - case_decide as Hd.
    + rewrite map_lookup_filter_None_2; [done|]. right. intros y Hy.
      simplify_eq. cbn. rewrite same_sn_false. congruence.
    + rewrite (map_lookup_filter_Some_2 _ _ _ x); [done|done|].
      cbn. rewrite same_sn_false. congruence.
  - rewrite map_lookup_filter_None_2 by (by left). done.
Qed.

(** Nothing on the PON belongs to the ONU. *)
Definition released (sn : SerialNumber) (p : PonRes) : Prop :=
  (forall g, gem_holder p g <> Some (sn_addr sn)) /\
  (forall k, alloc_holder p k <> Some (sn_addr sn)).

(** The GEM ports and the alloc identifiers of every other ONU are untouched;
    the table of ONU identifiers is stated apart where an operation changes it. *)
Definition others_kept (sn : SerialNumber) (p p' : PonRes) : Prop :=
  (forall g, gem_holder p g <> Some (sn_addr sn) -> gem_holder p' g = gem_holder p g) /\
  (forall k, alloc_holder p k <> Some (sn_addr sn) -> alloc_holder p' k = alloc_holder p k).

(** The release shared by the MIB reset and by the clean-up of an ONU. *)
Lemma release_spec sn p :
  let p' := removeGemPortBySn sn (removeAllocIdsForOnuSn sn p) in
  released sn p' /\ others_kept sn p p'.
Proof.
  cbn. split; split.
  - intros g. rewrite removeGemPortBySn_spec. case_decide; done.
  - intros k.
    change (alloc_holder (removeAllocIdsForOnuSn sn p) k <> Some (sn_addr sn)).
    rewrite removeAllocIdsForOnuSn_spec. case_decide; done.
  - intros g Hg. rewrite removeGemPortBySn_spec.
    change (gem_holder (removeAllocIdsForOnuSn sn p) g) with (gem_holder p g).
    by rewrite decide_False.
  - intros k Hk.
    change (alloc_holder (removeAllocIdsForOnuSn sn p) k = alloc_holder p k).
    rewrite removeAllocIdsForOnuSn_spec. by rewrite decide_False.
Qed.

Lemma removeGemPort_storeGemPort g sn p :
  isGemPortAllocated g p = None -> removeGemPort g (storeGemPort g sn p) = p.
Proof.
  destruct p. unfold isGemPortAllocated, removeGemPort, storeGemPort. cbn. intros H.
  unfold upd, set_gems. cbn. f_equal. by apply delete_insert_id.
Qed.
