(* ===== verification/AlarmSim.v ===== *)
(** * Simulated alarms

    [internal/bbsim/alarmsim/alarmsim.go]: an alarm requested by name becomes
    an openolt indication, sent on the channel of the OLT. *)
From S2P Require Import Prelude OmciTypes Packets Types.
Open Scope Z_scope.
Open Scope string_scope.

(** [bbsim.ONUAlarmRequest] (the serial number is not read here). *)
Record ONUAlarmRequest := {
  AlarmType : string; Parameters : list (string * string); Status : string }.

(** The names of the alarms in the order of [bbsim.AlarmType_Types_name]. *)
Definition AlarmType_names : list string :=
  ["LOS"; "DYING_GASP"; "ONU_ALARM"; "ONU_STARTUP_FAILURE"; "ONU_SIGNAL_DEGRADE";
   "ONU_DRIFT_OF_WINDOW"; "ONU_LOSS_OF_OMCI_CHANNEL"; "ONU_SIGNALS_FAILURE";
   "ONU_TRANSMISSION_INTERFERENCE_WARNING"; "ONU_ACTIVATION_FAILURE"; "ONU_PROCESSING_ERROR";
   "ONU_LOSS_OF_KEY_SYNC_FAILURE"; "ONU_ITU_PON_STATS"; "ONU_ALARM_LOS"; "ONU_ALARM_LOB";
   "ONU_ALARM_LOPC_MISS"; "ONU_ALARM_LOPC_MIC_ERROR"; "ONU_ALARM_LOFI"; "ONU_ALARM_LOAMI"].

(** Source: internal/common/alarms.go, [init] (the names of the ONU alarms:
    every alarm but LOS). *)
Definition ONUAlarms : list string := tail AlarmType_names.

(** Source: internal/bbsim/alarmsim/alarmsim.go, [AlarmNameToEnum].  The alarm
    is known by its position in the list of names. *)
Definition AlarmNameToEnum (name : string) : error + Z :=
  if decide (name ∈ ONUAlarms) then
    match list_find (fun n => n = name) AlarmType_names with
    | Some (i, _) => inr (Z.of_nat i)
    | None => inl "Unknown Alarm Name"
    end
  else inl "Unknown Alarm Name".

(** [strconv.Atoi]: an optional sign and decimal digits, within 64 bits. *)
Fixpoint atoi_digits (acc : Z) (l : list Ascii.ascii) : option Z :=
  match l with
  | [] => Some acc
  | c :: l' =>
      let d := Z.of_N (Ascii.N_of_ascii c) - 48 in
      if decide (0 <= d <= 9) then atoi_digits (acc * 10 + d) l' else None
  end.
Definition in_int64 (z : Z) : option Z := if decide (- 2 ^ 63 <= z < 2 ^ 63) then Some z else None.
Definition Atoi (s : string) : option Z :=
  match String.list_ascii_of_string s with
  | [] => None
  | c :: l =>
      if decide (Ascii.N_of_ascii c = 45%N) then
        if decide (l = []) then None else v ← atoi_digits 0 l; in_int64 (- v)
      else if decide (Ascii.N_of_ascii c = 43%N) then
        if decide (l = []) then None else v ← atoi_digits 0 l; in_int64 v
      else v ← atoi_digits 0 (c :: l); in_int64 v
  end.

(** Source: internal/bbsim/alarmsim/alarmsim.go, [extractInt]. *)
Fixpoint extractInt (params : list (string * string)) (name : string) (def : Z) : Z :=
  match params with
  | [] => def
  | (k, v) :: ps =>
      if decide (k = name) then
        match Atoi v with Some i => i | None => extractInt ps name def end
      else extractInt ps name def
  end.

(** Source: internal/bbsim/alarmsim/alarmsim.go, [BuildOnuAlarmIndication]. *)
Definition BuildOnuAlarmIndication (req : ONUAlarmRequest) (onuID ponPortID : Z)
    : error + AlarmIndication :=
  match AlarmNameToEnum (AlarmType req) with
  | inl e => inl e
  | inr alarmType =>
      let status := Status req in
      let param name := extractInt (Parameters req) name 0 in
      match alarmType with
      | 1 => inr (DyingGaspInd ponPortID onuID status)
      | 3 => inr (OnuStartupFailInd ponPortID onuID status)
      | 4 => inr (OnuSignalDegradeInd ponPortID onuID (u32 (param "InverseBitErrorRate")) status)
      | 7 => inr (OnuSignalsFailInd ponPortID onuID (u32 (param "InverseBitErrorRate")) status)
      | 5 => inr (OnuDriftOfWindowInd ponPortID onuID (u32 (param "Drift")) (u32 (param "NewEqd")) status)
      | 6 => inr (OnuLossOmciInd ponPortID onuID status)
      | 8 => inr (OnuTiwiInd ponPortID onuID (u32 (param "Drift")) status)
      | 9 => inr (OnuActivationFailInd ponPortID onuID (u32 (param "FailReason")))
      | 10 => inr (OnuProcessingErrorInd ponPortID onuID)
      | 11 => inr (OnuLossOfSyncFailInd ponPortID onuID status)
      | 12 => inr (OnuItuPonStatsInd ponPortID onuID (u64 (param "RdiErrors")) status)
      | 13 => inr (OnuAlarmInd ponPortID onuID status "" "" "" "" "")
      | 14 => inr (OnuAlarmInd ponPortID onuID "" status "" "" "" "")
      | 15 => inr (OnuAlarmInd ponPortID onuID "" "" status "" "" "")
      | 16 => inr (OnuAlarmInd ponPortID onuID "" "" "" status "" "")
      | 17 => inr (OnuAlarmInd ponPortID onuID "" "" "" "" status "")
      | 18 => inr (OnuAlarmInd ponPortID onuID "" "" "" "" "" status)
      | _ => inl "Unknown ONU alarm type"
      end
  end.

(** Source: internal/bbsim/alarmsim/alarmsim.go, [SimulateOnuAlarm].  The state
    is the channel of the OLT. *)
Definition SimulateOnuAlarm (req : ONUAlarmRequest) (onuID ponPortID : Z)
    : M (chan Message) (option error) := fun c =>
  match BuildOnuAlarmIndication req onuID ponPortID with
  | inl err => Done (Some err, c)
  | inr alarm =>
      match chan_send (MsgAlarmIndication alarm) c with
      | Done c' => Done (None, c')
      | Panicked w => Panicked w
      | Blocked w => Blocked w
      | Exited w => Exited w
      end
  end.

(** * Properties *)

(** Every ONU alarm has an indication, except the name [ONU_ALARM] itself. *)
Lemma alarms_supported req onu pon :
  (exists a, BuildOnuAlarmIndication req onu pon = inr a) <->
  AlarmType req ∈ ONUAlarms /\ AlarmType req <> "ONU_ALARM".
Proof.
  unfold BuildOnuAlarmIndication, AlarmNameToEnum. case_decide as Hin.
  - split.
    + intros [a Ha]. split; [done|]. intros E. rewrite E in Ha. by vm_compute in Ha.
    + intros [_ Hne]. cbn in Hin.
      repeat (apply elem_of_cons in Hin as [E|Hin]; [rewrite E; try done; by eexists|]).
      by apply elem_of_nil in Hin.
  - split; [by intros [a Ha]|tauto].
Qed.
