(* ===== verification/UniPort.v ===== *)
(** * UNI and POTS ports

    [internal/bbsim/devices/uni_port.go] and [pots_port.go]: an Ethernet UNI
    owns the services of a subscriber, a POTS port is only a state.  Entering
    the up or the down state queues an alarm message on the channel of the ONU
    and starts or stops the services.  The state of the model is the port, the
    channel of its ONU and the wire of the openolt stream. *)
From S2P Require Import Prelude Fsm Options OmciTypes Packets Types Io Eapol Dhcp Igmp Service.
Open Scope Z_scope.
Open Scope string_scope.

(** Source: internal/common/options.go, [ServiceYaml]. *)
Record ServiceYaml := {
  y_Name : string; y_CTag : Z; y_STag : Z; y_NeedsEapol : bool; y_NeedsDhcp : bool;
  y_NeedsIgmp : bool; y_NeedsPPPoE : bool; CTagAllocation : string; STagAllocation : string;
  y_TechnologyProfileID : Z; y_UniTagMatch : Z; y_ConfigureMacAddress : bool;
  y_EnableMacLearning : bool; y_UsPonCTagPriority : Z; y_UsPonSTagPriority : Z;
  y_DsPonCTagPriority : Z; y_DsPonSTagPriority : Z }.

Definition maxUniPorts : Z := 4.
Definition UniStateUp : string := "up".
Definition UniStateDown : string := "down".
Definition uniTxEnable : string := "enable".
Definition uniTxDisable : string := "disable".

(** Source: internal/bbsim/devices/uni_port.go, [UniPort].  [listeners] counts
    the [HandlePackets] goroutines that were started. *)
Record UniPort := {
  uni_ID : Z; uni_MeId : EntityID; PortNo : Z; uni_OperState : string;
  Services : list Service; uni_PacketCh : chan OnuPacketMessage; listeners : nat }.
#[export] Instance eta_UniPort : Eta UniPort := fun u => {|
  uni_ID := uni_ID u; uni_MeId := uni_MeId u; PortNo := PortNo u; uni_OperState := uni_OperState u;
  Services := Services u; uni_PacketCh := uni_PacketCh u; listeners := listeners u |}.
#[export] Instance set_PortNo : Setter PortNo := ltac:(setter_for PortNo).
#[export] Instance set_OperState : Setter uni_OperState := ltac:(setter_for uni_OperState).
#[export] Instance set_Services : Setter Services := ltac:(setter_for Services).
#[export] Instance set_uni_PacketCh : Setter uni_PacketCh := ltac:(setter_for uni_PacketCh).
#[export] Instance set_listeners : Setter listeners := ltac:(setter_for listeners).

(** ** Creation *)

(** The text [common.TagAllocationUnique.String()]. *)
Definition unique_allocation : string := "unique".

(** Source: internal/bbsim/devices/uni_port.go:135-156, [NewUniPort] (the next
    tag of a service; the S tag follows the same lines). *)
Definition next_tag (fatal name : string) (first : Z) (allocation : string) (next : gmap string Z)
    : outcome (Z * gmap string Z) :=
  match next !! name with
  | None => Done (first, <[name := first]> next)
  | Some t =>
      if decide (allocation = unique_allocation) then
        if decide (t + 1 > 4096) then Exited fatal
        else Done (t + 1, <[name := t + 1]> next)
      else Done (t, next)
  end.

(** Source: internal/bbsim/devices/uni_port.go:176-176, [NewUniPort] (the MAC
    address of a service). *)
Definition service_mac (oltID ponPortID onuID uniID k : Z) : list Z :=
  [46; u8 oltID; u8 ponPortID; u8 onuID; u8 uniID; u8 k].

(** Source: internal/bbsim/devices/uni_port.go:133-189, [NewUniPort] (the loop
    over the configured services, from the [k]-th one). *)
Fixpoint new_services (oltID ponPortID onuID uniID k : Z) (l : list ServiceYaml)
    (nextCtag nextStag : gmap string Z) : outcome (list Service * gmap string Z * gmap string Z) :=
  match l with
  | [] => Done ([], nextCtag, nextStag)
  | s :: l' =>
      '(c, nextCtag1) ← next_tag "c-tag-limit-reached-too-many-subscribers" (y_Name s) (y_CTag s)
        (CTagAllocation s) nextCtag;
      '(t, nextStag1) ← next_tag "s-tag-limit-reached-too-many-subscribers" (y_Name s) (y_STag s)
        (STagAllocation s) nextStag;
      let service := NewService (u32 k) (y_Name s) (service_mac oltID ponPortID onuID uniID k) c t
        (y_NeedsEapol s) (y_NeedsDhcp s) (y_NeedsIgmp s) (y_NeedsPPPoE s)
        (y_TechnologyProfileID s) (y_UniTagMatch s) (y_ConfigureMacAddress s)
        (y_EnableMacLearning s) (y_UsPonCTagPriority s) (y_UsPonSTagPriority s)
        (y_DsPonCTagPriority s) (y_DsPonSTagPriority s) in
      '(rest, nextCtag2, nextStag2) ← new_services oltID ponPortID onuID uniID (k + 1) l'
        nextCtag1 nextStag1;
      Done (service :: rest, nextCtag2, nextStag2)
  end.

(** Source: internal/bbsim/devices/uni_port.go, [NewUniPort].  The two maps are
    shared by all the UNIs, so they are returned. *)
Definition NewUniPort (services : list ServiceYaml) (oltID ponPortID onuID ID : Z)
    (nextCtag nextStag : gmap string Z) : outcome ((error + UniPort) * gmap string Z * gmap string Z) :=
  if decide (ID > maxUniPorts - 1) then
    Done (inl "is-higher-than-the-maximum-supported-unis", nextCtag, nextStag)
  else
    '(svcs, nextCtag', nextStag') ← new_services oltID ponPortID onuID ID 0 services
      nextCtag nextStag;
    Done (inr {| uni_ID := ID; uni_MeId := GenerateUniPortEntityId (u32 (ID + 1)); PortNo := 0;
                 uni_OperState := UniStateDown; Services := svcs; uni_PacketCh := ChOpen [];
                 listeners := 0 |}, nextCtag', nextStag').

(** ** The port and its surroundings *)

Record UniSys := { uni : UniPort; onu_chan : chan Message; u_wire : Stream }.
#[export] Instance eta_UniSys : Eta UniSys := fun s =>
  {| uni := uni s; onu_chan := onu_chan s; u_wire := u_wire s |}.
#[export] Instance set_uni : Setter uni := ltac:(setter_for uni).
#[export] Instance set_onu_chan : Setter onu_chan := ltac:(setter_for onu_chan).
#[export] Instance set_u_wire : Setter u_wire := ltac:(setter_for u_wire).

(** The fields of the ONU a port reads. *)
Record OnuRef := { ref_sn : SerialNumber; ref_id : Z }.

(** [for _, s := range uni.Services { m }]. *)
Fixpoint run_services (m : M SvcSys unit) (l : list Service) (w : Stream)
    : outcome (list Service * Stream) :=
  match l with
  | [] => Done ([], w)
  | v :: l' =>
      '(_, s) ← m {| svc := v; wire := w |};
      '(l2, w2) ← run_services m l' (wire s);
      Done (svc s :: l2, w2)
  end.

Definition on_services (m : M SvcSys unit) : M UniSys unit := fun s =>
  match run_services m (Services (uni s)) (u_wire s) with
  | Done (l, w) => Done (tt, s <| uni ::= (fun u => u <| Services := l |>) |> <| u_wire := w |>)
  | Panicked e => Panicked e
  | Blocked e => Blocked e
  | Exited e => Exited e
  end.

(** [uni.Onu.Channel <- msg]. *)
Definition send_onu (m : Message) : M UniSys unit :=
  lift_upd onu_chan (fun c s => s <| onu_chan := c |>) (chan_send m).

(** ** Operational state *)

(** Source: internal/bbsim/devices/uni_port.go:87-92, [NewUniPort] (the table
    of [OperState]). *)
Definition uni_events : list EventDesc := [
  {| Name := uniTxEnable; Src := [UniStateDown]; Dst := UniStateUp |};
  {| Name := uniTxDisable; Src := [UniStateUp]; Dst := UniStateDown |} ].

(** The alarm a port raises on a change of state. *)
Definition port_alarm (o : OnuRef) (adminState entity : Z) (raise : bool) : Message :=
  UniStatusAlarm {| us_OnuSN := ref_sn o; us_OnuID := ref_id o; us_AdminState := adminState;
                    us_EntityID := entity; RaiseOMCIAlarm := raise |}.

(** The entity identifier of a port as a number. *)
Definition me_number (e : EntityID) : M UniSys Z := fun s =>
  match ToUint16 e with
  | Done z => Done (z, s)
  | Panicked w => Panicked w
  | Blocked w => Blocked w
  | Exited w => Exited w
  end.

(** Source: internal/bbsim/devices/uni_port.go:93-131, [NewUniPort] (what
    entering a state does). *)
Definition uni_enter (o : OnuRef) (src dst : string) : M UniSys unit :=
  s ← get;
  if decide (dst = UniStateUp) then
    id ← me_number (uni_MeId (uni s));
    send_onu (port_alarm o 0 id false) ;;
    modify (fun s => s <| uni ::= (fun u => u <| listeners ::= S |>) |>) ;;
    on_services Initialize
  else if decide (dst = UniStateDown) then
    id ← me_number (uni_MeId (uni s));
    send_onu (port_alarm o 1 id true) ;;
    on_services Disable
  else skip.

Definition uni_fsm (o : OnuRef) : FSM UniSys := {|
  fsm_events := uni_events;
  fsm_current := fun s => uni_OperState (uni s);
  fsm_set := fun x s => s <| uni ::= (fun u => u <| uni_OperState := x |>) |>;
  fsm_before := no_before; fsm_enter := uni_enter o; fsm_after := no_after |}.

(** Source: internal/bbsim/devices/uni_port.go, [UniPort.Enable]. *)
Definition Uni_Enable (o : OnuRef) : M UniSys (option fsm_error) := Event (uni_fsm o) uniTxEnable.

(** Source: internal/bbsim/devices/uni_port.go, [UniPort.Disable]. *)
Definition Uni_Disable (o : OnuRef) : M UniSys (option fsm_error) :=
  s ← get;
  if decide (uni_OperState (uni s) = UniStateDown) then mret None
  else Event (uni_fsm o) uniTxDisable.

(** ** Other operations *)

(** Source: internal/bbsim/devices/uni_port.go, [UniPort.StorePortNo]. *)
Definition StorePortNo (portNo : Z) : M UniSys unit :=
  modify (fun s => s <| uni ::= (fun u => u <| PortNo := portNo |>) |>).

(** Source: internal/bbsim/devices/uni_port.go, [UniPort.UpdateStream]. *)
Definition Uni_UpdateStream : M UniSys unit := on_services UpdateStream.

(** Source: internal/bbsim/devices/uni_port.go, [UniPort.HandleAuth]. *)
Definition Uni_HandleAuth : M UniSys unit := on_services HandleAuth.

(** Source: internal/bbsim/devices/uni_port.go, [UniPort.HandleDhcp]. *)
Definition Uni_HandleDhcp (oPbit oVid : Z) : M UniSys unit := on_services (HandleDhcp oPbit oVid).

Definition EthernetTypeEAPOL : Z := 34958.
Definition EthernetTypeIPv4 : Z := 2048.

(** Whether a flow carries the GEM port of a service: the three tests of the
    loop below. *)
Definition gem_for (v : Service) (ethType oVlan iVlan : Z) : bool :=
  (bool_decide (ethType = EthernetTypeEAPOL) && NeedsEapol v)
  || (bool_decide (ethType = EthernetTypeIPv4) && NeedsDhcp v && bool_decide (CTag v = oVlan))
  || (bool_decide (CTag v = iVlan) && bool_decide (STag v = oVlan)).

(** Source: internal/bbsim/devices/uni_port.go, [UniPort.addGemPortToService]. *)
Definition addGemPortToService (gemport ethType oVlan iVlan : Z) : M UniSys unit :=
  on_services (modify (fun s => s <| svc ::= (fun v =>
    if gem_for v ethType oVlan iVlan then v <| GemPort := gemport |> else v) |>)).

(** Source: internal/bbsim/devices/uni_port.go, [UniPort.findServiceByMacAddress].
    The index of the service; the texts of two addresses are equal when their
    bytes are. *)
Definition Uni_findServiceByMacAddress (u : UniPort) (macAddress : list Z) : error + nat :=
  match list_find (fun v => HwAddress v = macAddress) (Services u) with
  | Some (i, _) => inr i
  | None => inl "cannot-find-service-with-mac-address"
  end.

(** [u.Services[i].PacketCh <- msg]. *)
Definition forward (msg : OnuPacketMessage) (i : nat) : M UniSys unit := fun s =>
  match Services (uni s) !! i with
  | None => Panicked "index out of range"
  | Some v =>
      match send_packet msg {| svc := v; wire := u_wire s |} with
      | Done (_, t) => Done (tt, s <| uni ::= (fun u => u <| Services ::= <[i := svc t]> |>) |>
                                   <| u_wire := wire t |>)
      | Panicked e => Panicked e
      | Blocked e => Blocked e
      | Exited e => Exited e
      end
  end.

(** Source: internal/bbsim/devices/uni_port.go:232-257, [UniPort.HandlePackets]
    (one packet). *)
Definition Uni_handle_packet (msg : OnuPacketMessage) : M UniSys unit :=
  s ← get;
  match pm_Type msg with
  | PT_EAPOL | PT_DHCP =>
      match Uni_findServiceByMacAddress (uni s) (MacAddress msg) with
      | inl _ => skip
      | inr i => forward msg i
      end
  | PT_IGMP => on_services (s ← get; if NeedsIgmp (svc s) then send_packet msg else skip)
  | _ => skip
  end.

(** Source: internal/bbsim/devices/uni_port.go:225-258, [UniPort.HandlePackets]
    (a listener takes the next packet, if there is one). *)
Definition Uni_recv_packet : M UniSys unit :=
  s ← get;
  match uni_PacketCh (uni s) with
  | ChOpen (m :: q) =>
      modify (fun s => s <| uni ::= (fun u => u <| uni_PacketCh := ChOpen q |>) |>) ;;
      Uni_handle_packet m
  | _ => skip
  end.

(** ** POTS ports *)

(** Source: internal/bbsim/devices/pots_port.go, [PotsPort]. *)
Record PotsPort := { pots_ID : Z; pots_MeId : EntityID; pots_PortNo : Z; pots_OperState : string }.
#[export] Instance eta_PotsPort : Eta PotsPort := fun p => {|
  pots_ID := pots_ID p; pots_MeId := pots_MeId p; pots_PortNo := pots_PortNo p;
  pots_OperState := pots_OperState p |}.
#[export] Instance set_pots_PortNo : Setter pots_PortNo := ltac:(setter_for pots_PortNo).
#[export] Instance set_pots_OperState : Setter pots_OperState := ltac:(setter_for pots_OperState).

Record PotsSys := { pots : PotsPort; p_onu_chan : chan Message }.
#[export] Instance eta_PotsSys : Eta PotsSys := fun s =>
  {| pots := pots s; p_onu_chan := p_onu_chan s |}.
#[export] Instance set_pots : Setter pots := ltac:(setter_for pots).
#[export] Instance set_p_onu_chan : Setter p_onu_chan := ltac:(setter_for p_onu_chan).

(** Source: internal/bbsim/devices/pots_port.go:55-66, [NewPotsPort]. *)
Definition NewPotsPort (ID : Z) : PotsPort := {|
  pots_ID := ID; pots_MeId := GenerateUniPortEntityId (u32 (ID + 1)); pots_PortNo := 0;
  pots_OperState := UniStateDown |}.

(** Source: internal/bbsim/devices/pots_port.go:67-105, [NewPotsPort] (the
    state machine; its table is the one of a UNI). *)
Definition pots_fsm (o : OnuRef) : FSM PotsSys := {|
  fsm_events := uni_events;
  fsm_current := fun s => pots_OperState (pots s);
  fsm_set := fun x s => s <| pots ::= (fun p => p <| pots_OperState := x |>) |>;
  fsm_before := no_before;
  fsm_enter := fun _ dst s =>
    match ToUint16 (pots_MeId (pots s)) with
    | Done id =>
        let raise := bool_decide (dst = UniStateDown) in
        lift_upd p_onu_chan (fun c s => s <| p_onu_chan := c |>)
          (chan_send (port_alarm o (if raise then 1 else 0) id raise)) s
    | Panicked w => Panicked w
    | Blocked w => Blocked w
    | Exited w => Exited w
    end;
  fsm_after := no_after |}.

(** Source: internal/bbsim/devices/pots_port.go, [PotsPort.StorePortNo]. *)
Definition Pots_StorePortNo (portNo : Z) : M PotsSys unit :=
  modify (fun s => s <| pots ::= (fun p => p <| pots_PortNo := portNo |>) |>).

(** Source: internal/bbsim/devices/pots_port.go, [PotsPort.Enable]. *)
Definition Pots_Enable (o : OnuRef) : M PotsSys (option fsm_error) := Event (pots_fsm o) uniTxEnable.

(** Source: internal/bbsim/devices/pots_port.go, [PotsPort.Disable]. *)
Definition Pots_Disable (o : OnuRef) : M PotsSys (option fsm_error) :=
  s ← get;
  if decide (pots_OperState (pots s) = UniStateDown) then mret None
  else Event (pots_fsm o) uniTxDisable.

(** * Properties *)

(** ** Tags *)

(** The tag of the [i]-th subscriber of a service, and the entry of the service
    in the map once [n] UNIs were created. *)
Definition tag_at (allocation : string) (first i : Z) : Z :=
  if decide (allocation = unique_allocation) then first + i else first.
Definition counter (allocation : string) (first : Z) (n : nat) : option Z :=
  match n with O => None | S i => Some (tag_at allocation first (Z.of_nat i)) end.

Definition within_limit (allocation : string) (first : Z) (n : nat) : Prop :=
  n = O \/ tag_at allocation first (Z.of_nat n) <= 4096 \/ allocation <> unique_allocation.

Lemma next_tag_spec fatal name first alloc m n :
  m !! name = counter alloc first n ->
  next_tag fatal name first alloc m = Exited fatal /\ ~ within_limit alloc first n \/
  within_limit alloc first n /\ exists m',
    next_tag fatal name first alloc m = Done (tag_at alloc first (Z.of_nat n), m') /\
    m' !! name = counter alloc first (S n) /\ forall x, x <> name -> m' !! x = m !! x.
Proof.
  intros Hm. unfold next_tag, within_limit. rewrite Hm. destruct n as [|n]; cbn [counter].
  - right. split; [by left|]. assert (tag_at alloc first (Z.of_nat 0) = first) as ->
      by (unfold tag_at; case_decide; lia).
    eexists. split; [done|]. split; [by rewrite lookup_insert_eq|].
    intros x Hx. by rewrite lookup_insert_ne.
  - destruct (decide (alloc = unique_allocation)) as [Ha|Ha].
    + assert (tag_at alloc first (Z.of_nat n) + 1 = tag_at alloc first (Z.of_nat (S n))) as ->
        by (unfold tag_at; rewrite !decide_True by done; lia).
      case_decide; [left; split; [done|]; intros [?|[?|?]]; try done; lia|]. right.
      split; [right; left; lia|]. eexists. split; [done|]. split; [by rewrite lookup_insert_eq|].
      intros x Hx. by rewrite lookup_insert_ne.
    + right. split; [tauto|]. exists m. rewrite Hm. cbn [counter].
      unfold tag_at. by rewrite !decide_False.
Qed.

(** The map knows how many UNIs have each of the services [l]. *)
Definition tracks (alloc : ServiceYaml -> string) (first : ServiceYaml -> Z) (l : list ServiceYaml)
    (n : nat) (m : gmap string Z) : Prop :=
  forall y, y ∈ l -> m !! y_Name y = counter (alloc y) (first y) n.

Definition limits (alloc : ServiceYaml -> string) (first : ServiceYaml -> Z) (l : list ServiceYaml)
    (n : nat) : Prop :=
  Forall (fun y => within_limit (alloc y) (first y) n) l.

(** The tags the [n]-th UNI gives to its services. *)
Definition tags_ok (l : list ServiceYaml) (n : nat) (svcs : list Service) : Prop :=
  Forall2 (fun y v => svc_Name v = y_Name y /\
    CTag v = tag_at (CTagAllocation y) (y_CTag y) (Z.of_nat n) /\
    STag v = tag_at (STagAllocation y) (y_STag y) (Z.of_nat n)) l svcs.

Lemma tracks_other alloc first l n m m' name :
  tracks alloc first l n m -> name ∉ (y_Name <$> l) ->
  (forall x, x <> name -> m' !! x = m !! x) -> tracks alloc first l n m'.
Proof.
  intros Ht Hn Hm y Hy. rewrite Hm; [by apply Ht|]. intros E. apply Hn. rewrite <-E.
  by apply list_elem_of_fmap_2.
Qed.

Definition tracks_C := tracks CTagAllocation y_CTag.
Definition tracks_S := tracks STagAllocation y_STag.
Definition in_limits (l : list ServiceYaml) (n : nat) : Prop :=
  limits CTagAllocation y_CTag l n /\ limits STagAllocation y_STag l n.

Lemma tracks_cons alloc first y l n m :
  m !! y_Name y = counter (alloc y) (first y) n -> tracks alloc first l n m ->
  tracks alloc first (y :: l) n m.
Proof. intros Hy Hl x Hx. apply elem_of_cons in Hx as [->|Hx]; [done|by apply Hl]. Qed.

Lemma tracks_tail alloc first y l n m : tracks alloc first (y :: l) n m -> tracks alloc first l n m.
Proof. intros H x Hx. apply H. by right. Qed.

Lemma new_services_spec o p onu u k l c s n :
  NoDup (y_Name <$> l) -> tracks_C l n c -> tracks_S l n s ->
  (exists w, new_services o p onu u k l c s = Exited w) /\ ~ in_limits l n \/
  in_limits l n /\ exists svcs c' s', new_services o p onu u k l c s = Done (svcs, c', s') /\
    tags_ok l n svcs /\ Forall (fun v => InternalState v = ServiceStateCreated) svcs /\
    tracks_C l (S n) c' /\ tracks_S l (S n) s' /\
    (forall x, x ∉ (y_Name <$> l) -> c' !! x = c !! x /\ s' !! x = s !! x).
Proof.
  revert k c s. induction l as [|y l IH]; intros k c s Hnd Hc Hs.
  { right. split; [by split; apply Forall_nil|]. eexists [], c, s. split; [done|].
    split_and!; first [done|apply Forall2_nil; done|intros ? ?%elem_of_nil; done]. }
  cbn [fmap list_fmap] in Hnd. apply NoDup_cons in Hnd as [Hy Hnd].
  unfold in_limits, limits. rewrite !Forall_cons. cbn [new_services].
  destruct (next_tag_spec "c-tag-limit-reached-too-many-subscribers" (y_Name y) (y_CTag y)
    (CTagAllocation y) c n (Hc y ltac:(by left))) as [[-> Hl]|(Hl & c1 & -> & Hc1 & Ho1)].
  { left. split; [by eexists|]. tauto. }
  cbn. destruct (next_tag_spec "s-tag-limit-reached-too-many-subscribers" (y_Name y) (y_STag y)
    (STagAllocation y) s n (Hs y ltac:(by left))) as [[-> Hl']|(Hl' & s1 & -> & Hs1 & Ho2)].
  { left. split; [by eexists|]. tauto. }
  cbn. destruct (IH (k + 1) c1 s1 Hnd) as [[[w ->] Hr]|(Hr & svcs & c' & s' & -> & Ht & Hcr & Hc' & Hs' & Ho)].
  { eapply tracks_other; [by eapply tracks_tail|done|done]. }
  { eapply tracks_other; [by eapply tracks_tail|done|done]. }
  { left. split; [by eexists|]. unfold in_limits, limits in Hr. tauto. }
  right. destruct Hr as [Hr1 Hr2]. split; [by split|]. destruct (Ho _ Hy) as [Hoc Hos].
  eexists _, c', s'. split; [reflexivity|]. split_and!.
  - by apply Forall2_cons.
  - by apply Forall_cons.
  - apply tracks_cons; [by rewrite Hoc|done].
  - apply tracks_cons; [by rewrite Hos|done].
  - intros x Hx. cbn in Hx. apply not_elem_of_cons in Hx as [Hx1 Hx2].
    destruct (Ho _ Hx2) as [-> ->]. by rewrite Ho1, Ho2.
Qed.

(** The UNIs of a simulator, created one after the other with the shared maps
    ([CreateONU] calls [NewUniPort] for each of them, and [CreateOLT] calls
    [CreateONU]); [places] are the OLT, PON, ONU and UNI numbers. *)
Fixpoint create_unis (services : list ServiceYaml) (places : list (Z * Z * Z * Z))
    (c s : gmap string Z) : outcome (list UniPort) :=
  match places with
  | [] => Done []
  | (o, p, onu, u) :: rest =>
      '(r, c', s') ← NewUniPort services o p onu u c s;
      match r with
      | inl e => Exited "cannot-create-uni-port"
      | inr x => xs ← create_unis services rest c' s'; Done (x :: xs)
      end
  end.

Lemma create_unis_from services places n c s :
  NoDup (y_Name <$> services) -> Forall (fun '(_, _, _, u) => u < maxUniPorts) places ->
  tracks_C services n c -> tracks_S services n s ->
  (exists w, create_unis services places c s = Exited w) /\
    ~ (forall i, (i < length places)%nat -> in_limits services (n + i)) \/
  exists unis, create_unis services places c s = Done unis /\ length unis = length places /\
    (forall i, (i < length places)%nat -> in_limits services (n + i)) /\
    forall i u, unis !! i = Some u -> tags_ok services (n + i) (Services u).
Proof.
  intros Hnd. revert n c s. induction places as [|[[[o p] onu] u] places IH]; intros n c s Hu Hc Hs.
  { right. exists []. split_and!; try done. intros i Hi. cbn in Hi. lia. }
  apply Forall_cons in Hu as [Hu Hus]. cbn [create_unis length]. unfold NewUniPort.
  rewrite decide_False by lia.
  destruct (new_services_spec o p onu u 0 services c s n Hnd Hc Hs)
    as [[[w ->] Hl]|(Hl & svcs & c' & s' & -> & Ht & _ & Hc' & Hs' & _)].
  { left. split; [by eexists|]. intros H. apply Hl. rewrite <-(Nat.add_0_r n). apply H. lia. }
  cbn. destruct (IH (S n) c' s' Hus Hc' Hs') as [[[w ->] Hr]|(unis & -> & Hlen & Hr & Hi)].
  - left. split; [by eexists|]. intros H. apply Hr. intros i Hi.
    replace (S n + i)%nat with (n + S i)%nat by lia. apply H. lia.
  - right. eexists. split; [reflexivity|]. cbn [length]. split; [by rewrite Hlen|]. split.
    + intros [|i] Hlt; [by rewrite Nat.add_0_r|]. replace (n + S i)%nat with (S n + i)%nat by lia.
      apply Hr. lia.
    + intros [|i] x Hx; cbn in Hx; [simplify_eq; by rewrite Nat.add_0_r|].
      replace (n + S i)%nat with (S n + i)%nat by lia. by apply Hi.
Qed.

(** The tags of the subscribers.  Creating UNIs one after the other gives
    the [i]-th of them, for each configured service, the first tag plus [i]
    when the allocation is unique and the first tag when it is shared; the
    simulator starts exactly when no unique tag after the first goes over
    4096. *)
Theorem tags_of_subscribers (services : list ServiceYaml) (places : list (Z * Z * Z * Z)) :
  NoDup (y_Name <$> services) -> Forall (fun '(_, _, _, u) => u < maxUniPorts) places ->
  ((exists unis, create_unis services places ∅ ∅ = Done unis) <->
   forall i, (i < length places)%nat -> in_limits services i) /\
  forall unis i u, create_unis services places ∅ ∅ = Done unis -> unis !! i = Some u ->
    tags_ok services i (Services u).
Proof.
  intros Hnd Hu.
  destruct (create_unis_from services places 0 ∅ ∅ Hnd Hu) as [[[w ->] Hl]|(l & -> & _ & Hl & Hi)];
    [done|done|..].
  - split; [|done]. split; [by intros [? ?]|]. intros H. by destruct Hl.
  - split; [by split; [|by eexists]|]. intros unis i u [= <-]. apply (Hi i u).
Qed.

Definition att_hsia : ServiceYaml := {|
  y_Name := "hsia"; y_CTag := 900; y_STag := 900; y_NeedsEapol := true; y_NeedsDhcp := true;
  y_NeedsIgmp := false; y_NeedsPPPoE := false; CTagAllocation := "unique"; STagAllocation := "shared";
  y_TechnologyProfileID := 64; y_UniTagMatch := 0; y_ConfigureMacAddress := false;
  y_EnableMacLearning := false; y_UsPonCTagPriority := 0; y_UsPonSTagPriority := 0;
  y_DsPonCTagPriority := 0; y_DsPonSTagPriority := 0 |}.

Lemma tags_of_subscribers_witness :
  exists unis u, create_unis [att_hsia] [(0, 0, 1, 0); (0, 0, 2, 0); (0, 1, 1, 0)] ∅ ∅ = Done unis /\
    unis !! 2%nat = Some u /\ tags_ok [att_hsia] 2 (Services u).
Proof.
  destruct (tags_of_subscribers [att_hsia] [(0, 0, 1, 0); (0, 0, 2, 0); (0, 1, 1, 0)]) as [_ Ht].
  - apply NoDup_singleton.
  - repeat constructor.
  - eexists _, _. split; [reflexivity|]. split; [reflexivity|].
    by apply (Ht _ 2%nat _ eq_refl eq_refl).
Defined.

(** ** Operational state *)

Definition service_up (v : Service) : Prop := forall w, svc_up {| svc := v; wire := w |}.
Definition service_down (v : Service) : Prop := forall w, svc_down {| svc := v; wire := w |}.

(** The services of a port follow its state. *)
Definition uni_up (u : UniPort) : Prop :=
  uni_OperState u = UniStateUp /\ Forall service_up (Services u).
Definition uni_down (u : UniPort) : Prop :=
  uni_OperState u = UniStateDown /\ Forall service_down (Services u).

Lemma run_services_all (m : M SvcSys unit) (P Q : Service -> Prop) l w :
  (forall v, P v -> exists s', m {| svc := v; wire := w |} = Done (tt, s') /\ Q (svc s') /\ wire s' = w) ->
  Forall P l -> exists l', run_services m l w = Done (l', w) /\ Forall Q l' /\ length l' = length l.
Proof.
  intros Hm. induction 1 as [|v l Hv Hl IH]; [by exists []|]. cbn [run_services].
  destruct (Hm v Hv) as (s' & -> & Hq & Hw), IH as (l' & IH & Hl' & Hlen). cbn. rewrite Hw, IH.
  eexists. split; [reflexivity|]. split; [by apply Forall_cons|]. cbn. lia.
Qed.

Lemma Initialize_services l w : Forall service_down l ->
  exists l', run_services Initialize l w = Done (l', w) /\ Forall service_up l' /\ length l' = length l.
Proof.
  apply run_services_all. intros v Hv.
  destruct (Initialize_down _ (Hv w)) as (s' & Hr & Hu & Hw & _). exists s'. split_and!; [done| |done].
  intros w'. apply Hu.
Qed.

Lemma Disable_services l w : Forall service_up l ->
  exists l', run_services Disable l w = Done (l', w) /\ Forall service_down l' /\ length l' = length l.
Proof.
  apply run_services_all. intros v Hv.
  destruct (Disable_up _ (Hv w)) as (s' & Hr & Hu & _ & _ & Hw). exists s'. split_and!; [done| |done].
  intros w'. apply Hu.
Qed.

Lemma Uni_Enable_down o s q id :
  uni_down (uni s) -> onu_chan s = ChOpen q -> ToUint16 (uni_MeId (uni s)) = Done id ->
  exists s', Uni_Enable o s = Done (None, s') /\ uni_up (uni s') /\ u_wire s' = u_wire s /\
    onu_chan s' = ChOpen (q ++ [port_alarm o 0 id false]) /\
    uni_MeId (uni s') = uni_MeId (uni s) /\ uni_ID (uni s') = uni_ID (uni s).
Proof.
  intros [Hst Hsv] Hq Hid. destruct (Initialize_services _ (u_wire s) Hsv) as (l' & Hl & Hu & _).
  unfold Uni_Enable. rewrite (Event_ok _ _ s UniStateUp);
    [|cbn [fsm_current uni_fsm]; by rewrite Hst..].
  mred. cbn. unfold uni_enter, me_number, send_onu, on_services. mred.
  rewrite decide_True by done. cbn -[ToUint16 run_services]. rewrite Hid. cbn -[run_services].
  rewrite Hq. cbn -[run_services]. rewrite Hl.
  eexists. split; [reflexivity|]. split_and!; done.
Qed.

Lemma Uni_Disable_up o s q id :
  uni_up (uni s) -> onu_chan s = ChOpen q -> ToUint16 (uni_MeId (uni s)) = Done id ->
  exists s', Uni_Disable o s = Done (None, s') /\ uni_down (uni s') /\ u_wire s' = u_wire s /\
    onu_chan s' = ChOpen (q ++ [port_alarm o 1 id true]) /\
    uni_MeId (uni s') = uni_MeId (uni s) /\ uni_ID (uni s') = uni_ID (uni s).
Proof.
  intros [Hst Hsv] Hq Hid. destruct (Disable_services _ (u_wire s) Hsv) as (l' & Hl & Hu & _).
  unfold Uni_Disable. mred. rewrite decide_False by (by rewrite Hst).
  rewrite (Event_ok _ _ s UniStateDown); [|cbn [fsm_current uni_fsm]; by rewrite Hst..].
  mred. cbn. unfold uni_enter, me_number, send_onu, on_services. mred.
  rewrite decide_False, decide_True by done. cbn -[ToUint16 run_services]. rewrite Hid. cbn -[run_services].
  rewrite Hq. cbn -[run_services]. rewrite Hl.
  eexists. split; [reflexivity|]. split_and!; done.
Qed.

Lemma Uni_Disable_down o s : uni_OperState (uni s) = UniStateDown -> Uni_Disable o s = Done (None, s).
Proof. intros H. unfold Uni_Disable. mred. by rewrite decide_True. Qed.

(** The services of a UNI follow its state.  Enabling a port that is down
    queues one alarm that clears the link loss, then initializes every service;
    disabling a port that is up queues one alarm that raises it, then disables
    every service; disabling a port that is down and enabling one that is up
    change nothing, the second with an error. *)
Theorem uni_services_follow (o : OnuRef) (s : UniSys) (q : list Message) (id : Z) :
  onu_chan s = ChOpen q -> ToUint16 (uni_MeId (uni s)) = Done id ->
  (uni_down (uni s) ->
     Uni_Disable o s = Done (None, s) /\
     exists s', Uni_Enable o s = Done (None, s') /\ uni_up (uni s') /\
       onu_chan s' = ChOpen (q ++ [port_alarm o 0 id false])) /\
  (uni_up (uni s) ->
     Uni_Enable o s = Done (Some (InvalidEventError uniTxEnable UniStateUp), s) /\
     exists s', Uni_Disable o s = Done (None, s') /\ uni_down (uni s') /\
       onu_chan s' = ChOpen (q ++ [port_alarm o 1 id true])).
Proof.
  intros Hq Hid. split; intros Hs.
  - split; [apply Uni_Disable_down, Hs|].
    destruct (Uni_Enable_down o s q id Hs Hq Hid) as (s' & ? & ? & _ & ? & _). eauto.
  - split.
    + unfold Uni_Enable, Event. mred. cbn [fsm_current uni_fsm]. destruct Hs as [-> _]. done.
    + destruct (Uni_Disable_up o s q id Hs Hq Hid) as (s' & ? & ? & _ & ? & _). eauto.
Qed.

Definition fresh_uni : UniSys := {|
  uni := {| uni_ID := 0; uni_MeId := GenerateUniPortEntityId 1; PortNo := 0;
            uni_OperState := UniStateDown; Services := [svc fresh_svc]; uni_PacketCh := ChOpen [];
            listeners := 0 |};
  onu_chan := ChOpen []; u_wire := wire fresh_svc |}.
Definition some_onu : OnuRef := {| ref_sn := NewSN 7 0 0 1; ref_id := 1 |}.

Lemma uni_services_follow_witness :
  exists s', Uni_Enable some_onu fresh_uni = Done (None, s') /\ uni_up (uni s') /\
    onu_chan s' = ChOpen [port_alarm some_onu 0 257 false].
Proof.
  destruct (uni_services_follow some_onu fresh_uni [] 257 eq_refl eq_refl) as [Hd _].
  apply Hd. split; [done|]. apply Forall_singleton. intros w. split_and!; try done. by left.
Defined.

(** ** MAC addresses *)

(** Services that differ in their place have different addresses as long as
    the numbers fit in a byte. *)
Lemma service_mac_injective o p onu u k p' onu' u' k' :
  is_u8 p -> is_u8 p' -> is_u8 onu -> is_u8 onu' -> is_u8 u -> is_u8 u' -> is_u8 k -> is_u8 k' ->
  service_mac o p onu u k = service_mac o p' onu' u' k' -> (p, onu, u, k) = (p', onu', u', k').
Proof.
  unfold is_u8, service_mac, u8. intros ? ? ? ? ? ? ? ? [= E1 E2 E3 E4].
  rewrite !Z.mod_small in E1, E2, E3, E4 by lia. by subst.
Qed.

(** ** GEM ports *)

Lemma addGemPort_spec gem eth ov iv s :
  exists s', addGemPortToService gem eth ov iv s = Done (tt, s') /\ u_wire s' = u_wire s /\
    onu_chan s' = onu_chan s /\ uni_OperState (uni s') = uni_OperState (uni s) /\
    Services (uni s') = (fun v => if gem_for v eth ov iv then v <| GemPort := gem |> else v)
      <$> Services (uni s).
Proof.
  unfold addGemPortToService, on_services.
  assert (forall l w, run_services (modify (fun s => s <| svc ::= (fun v =>
    if gem_for v eth ov iv then v <| GemPort := gem |> else v) |>)) l w =
    Done ((fun v => if gem_for v eth ov iv then v <| GemPort := gem |> else v) <$> l, w)) as ->.
  { intros l w. induction l as [|v l IH]; [done|]. cbn. rewrite IH. done. }
  by eexists.
Qed.
