(* ===== verification/UniInv.v ===== *)
(** * Services and UNIs: what never changes and what always holds

    Two facts about the subscriber side that hold whatever the simulator does:
    the part of a service and of a UNI that comes from the configuration (its
    names, addresses and tags) is never written, and a UNI is up with all its
    services initialized or down with none of them.  [ONUs] and the device build
    on them. *)
From S2P Require Import Prelude Fsm Options OmciTypes Packets Types Io Eapol Dhcp Igmp Service UniPort.
Open Scope Z_scope.
Open Scope string_scope.

(** ** Services *)

(** A service without what changes while it runs. *)
Definition svc_static (v : Service) : Service :=
  v <| GemPort := 0 |> <| groupAddresses := None |> <| InternalState := "" |> <| EapolState := "" |>
    <| DHCPState := "" |> <| IGMPState := "" |> <| Channel := ChNil |> <| PacketCh := ChNil |>
    <| hasStream := false |>.

Definition svc_is (k : Service) (s : SvcSys) : Prop := svc_static (svc s) = k.

Section Static.
  Context `{Gopacket} (md5_Sum : list Z -> list Z) (at_ : Place) (k : Service).

Lemma static_send ind : preserves (svc_is k) (send ind).
Proof. intros s r s' Hs. unfold send, zoom, Send. destruct (s_err _); by intros [= <- <-]. Qed.
Lemma static_call c : preserves (svc_is k) (client_call c).
Proof. intros s r s' Hs [=]. Qed.
Lemma static_send_channel m : preserves (svc_is k) (send_channel m).
Proof. by apply preserves_lift. Qed.
#[local] Hint Resolve static_send static_call static_send_channel : preserve.

Lemma static_eapol ev : preserves (svc_is k) (Event eapol_fsm ev).
Proof.
  apply preserves_Event_callbacks; [|intros; apply preserves_skip|apply preserves_skip|done].
  cbn [fsm_before eapol_fsm]. preserve.
Qed.
Lemma static_dhcp ev : preserves (svc_is k) (Event dhcp_fsm ev).
Proof.
  apply preserves_Event_callbacks; [|intros; apply preserves_skip|apply preserves_skip|done].
  cbn [fsm_before dhcp_fsm]. preserve.
Qed.
Lemma static_igmp g ev : preserves (svc_is k) (Event (igmp_fsm g) ev).
Proof.
  apply preserves_Event_callbacks; [apply preserves_skip|intros; apply preserves_skip| |done].
  cbn [fsm_after igmp_fsm]. preserve.
Qed.
Lemma static_internal ev : preserves (svc_is k) (Event internal_fsm ev).
Proof.
  apply preserves_Event_callbacks; [apply preserves_skip| |apply preserves_skip|done].
  intros src dst. cbn [fsm_enter internal_fsm]. unfold service_enter.
  preserve; by (apply preserves_modify || apply preserves_lift).
Qed.
#[local] Hint Resolve static_eapol static_dhcp static_igmp static_internal : preserve.

Lemma static_message m : preserves (svc_is k) (handle_message at_ m).
Proof.
  pose proof (send_igmp_preserves (svc_is k) static_send).
  pose proof (SendEapStart_preserves eapol_fsm (svc_is k) static_send (fun ev _ => static_eapol ev)).
  pose proof (SendDHCPDiscovery_preserves dhcp_fsm (svc_is k) static_send (fun ev _ => static_dhcp ev)).
  assert (forall g, preserves (svc_is k) (RemoveGroupAddress g)) by (intros g; by apply preserves_modify).
  unfold handle_message, handleEapolStart, handleDHCPStart,
    Igmp.SendIGMPMembershipReportV2, SendIGMPLeaveGroupV2, Igmp.SendIGMPMembershipReportV3. preserve.
Qed.

Lemma static_packet m : preserves (svc_is k) (handle_packet md5_Sum at_ m).
Proof.
  pose proof (eapol_preserves md5_Sum eapol_fsm (svc_is k) static_send static_call (fun ev _ => static_eapol ev)).
  pose proof (dhcp_preserves dhcp_fsm (svc_is k) static_send (fun ev _ => static_dhcp ev)).
  pose proof (igmp_preserves (svc_is k) static_send).
  unfold handle_packet. preserve.
Qed.

Lemma static_works m : svc_works md5_Sum at_ m -> preserves (svc_is k) m.
Proof.
  destruct 1; try (by apply preserves_modify).
  - unfold HandleAuth. preserve.
  - unfold HandleDhcp. preserve.
  - unfold recv_channel. preserve; [by apply preserves_modify|apply static_message].
  - unfold recv_packet. preserve; [by apply preserves_modify|apply static_packet].
  - by apply preserves_lift.
  - unfold eapol_timeout, Current. preserve.
  - unfold dhcp_timeout, Current. preserve.
  - preserve.
Qed.
End Static.

(** Code of a service that is safe in every state: it neither starts nor stops
    the service, and leaves the configured part alone. *)
Record svc_keeps {A : Type} (m : M SvcSys A) : Prop := {
  keeps_up : preserves svc_up m;
  keeps_down : preserves svc_down m;
  keeps_static : forall k, preserves (svc_is k) m }.

Lemma works_keeps `{Gopacket} md5_Sum at_ m : svc_works md5_Sum at_ m -> svc_keeps m.
Proof. intros Hm. split; [by eapply up_works|by eapply down_works|intros k; by eapply static_works]. Qed.

Lemma svc_keeps_bind {A B : Type} (m : M SvcSys A) (f : A -> M SvcSys B) :
  svc_keeps m -> (forall a, svc_keeps (f a)) -> svc_keeps (m ≫= f).
Proof. intros [] Hf. split; intros; apply preserves_bind; auto; intros a; by destruct (Hf a). Qed.

Lemma svc_keeps_ret {A : Type} (a : A) : svc_keeps (mret a).
Proof. split; intros; apply preserves_ret. Qed.
Lemma svc_keeps_get : svc_keeps get.
Proof. split; intros; apply preserves_get. Qed.
Lemma svc_keeps_eapol ev : svc_keeps (Event eapol_fsm ev).
Proof. split; [apply up_eapol_event|apply down_eapol|intros; apply static_eapol]. Qed.
Lemma svc_keeps_dhcp ev : svc_keeps (Event dhcp_fsm ev).
Proof. split; [apply up_dhcp_event|apply down_dhcp|intros; apply static_dhcp]. Qed.
Lemma svc_keeps_gem (f : Service -> bool) g :
  svc_keeps (modify (fun s => s <| svc ::= (fun v => if f v then v <| GemPort := g |> else v) |>)).
Proof. split; intros; apply preserves_modify; intros s Hs; red; cbn; by destruct (f (svc s)). Qed.

(** The operations of a service, whatever the library and the place. *)
Ltac svc_work := eapply (works_keeps (H := link_layer_only) id some_place); constructor.

Lemma svc_keeps_send ind : svc_keeps (send ind).
Proof.
  split; intros; [apply up_send| |apply static_send].
  intros s r s' Hs. unfold send, zoom, Send. destruct (s_err _); by intros [= <- <-].
Qed.
Lemma svc_keeps_igmp `{Gopacket} igmp pon onu port uni gem mac ctag pbit :
  svc_keeps (send_igmp igmp pon onu port uni gem mac ctag pbit).
Proof. split; intros; apply send_igmp_preserves; intros; apply svc_keeps_send. Qed.

(** ** UNIs *)

Definition uni_static (u : UniPort) : UniPort :=
  u <| PortNo := 0 |> <| uni_OperState := "" |> <| Services ::= fmap svc_static |>
    <| uni_PacketCh := ChNil |> <| listeners := 0%nat |>.

(** A UNI is up with its services or down with them, and its entity identifier
    is a number. *)
Definition uni_sound (u : UniPort) : Prop :=
  (uni_up u \/ uni_down u) /\ exists id, ToUint16 (uni_MeId u) = Done id.

(** The UNI has this configured part and is sound; the channel of its ONU is nil
    only if [c]. *)
Definition uni_is (k : UniPort) (c : Prop) (s : UniSys) : Prop :=
  uni_static (uni s) = k /\ uni_sound (uni s) /\ (onu_chan s = ChNil -> c).

(** Running code on every service. *)
Lemma run_services_Forall2 (R : Service -> Service -> Prop) (m : M SvcSys unit) l w l' w' :
  (forall v w0 s', v ∈ l -> m {| svc := v; wire := w0 |} = Done (tt, s') -> R v (svc s')) ->
  run_services m l w = Done (l', w') -> Forall2 R l l'.
Proof.
  revert w l'. induction l as [|v l IH]; intros w l' HR Hr; cbn [run_services] in Hr; [by simplify_eq|].
  destruct (m _) as [[[] s1]| | |] eqn:E; [|done..]. cbn [mbind outcome_bind] in Hr.
  destruct (run_services m l (wire s1)) as [[l2 w2]| | |] eqn:E2; [|done..]. cbn in Hr. simplify_eq.
  constructor; [eapply HR; [by left|done]|]. eapply IH; [|done]. intros. eapply HR; [by right|done].
Qed.

Lemma on_services_inv m s s' :
  on_services m s = Done (tt, s') -> exists l w, run_services m (Services (uni s)) (u_wire s) = Done (l, w) /\
    s' = s <| uni ::= (fun u => u <| Services := l |>) |> <| u_wire := w |>.
Proof. unfold on_services. destruct (run_services _ _ _) as [[l w]| | |]; [|done..]. intros [= <-]. eauto. Qed.

(** What one service keeps, all of them keep. *)
Definition svc_kept (v v' : Service) : Prop :=
  svc_static v' = svc_static v /\ (service_up v -> service_up v') /\ (service_down v -> service_down v').

Lemma keeps_Forall2 {A : Type} (m : M SvcSys A) v w a s' :
  svc_keeps m -> m {| svc := v; wire := w |} = Done (a, s') -> svc_kept v (svc s').
Proof.
  intros [Hu Hd Hs] Hr. split; [by eapply (Hs (svc_static v) {| svc := v; wire := w |})|]. split; intros Hv w'.
  - by apply (Hu _ _ _ (Hv w) Hr).
  - by apply (Hd _ _ _ (Hv w) Hr).
Qed.

Lemma static_services (l l' : list Service) :
  Forall2 (fun v v' => svc_static v' = svc_static v) l l' -> svc_static <$> l' = svc_static <$> l.
Proof. induction 1 as [|v v' l l' Hv _ IH]; [done|]. by rewrite !fmap_cons, Hv, IH. Qed.

Lemma Forall_Forall2_impl {A : Type} (P Q : A -> Prop) (l l' : list A) :
  Forall2 (fun x y => P x -> Q y) l l' -> Forall P l -> Forall Q l'.
Proof. induction 1; inversion 1; constructor; auto. Qed.

Lemma uni_static_ext u l :
  svc_static <$> l = svc_static <$> Services u -> uni_static (u <| Services := l |>) = uni_static u.
Proof.
  intros Hl. destruct u. unfold uni_static, upd, set_Services, set_PortNo, set_OperState, set_uni_PacketCh, set_listeners.
  cbn in *. by rewrite Hl.
Qed.

Section Uni.
  Context (k : UniPort) (c : Prop).

(** A change that leaves the configured part, the state and the services
    alone. *)
Lemma uni_modify f :
  (forall u, uni_static (f u) = uni_static u) -> (forall u, uni_OperState (f u) = uni_OperState u) ->
  (forall u, Services (f u) = Services u) -> preserves (uni_is k c) (modify (fun s => s <| uni ::= f |>)).
Proof.
  intros Hs Ho Hv. apply preserves_modify. intros s (Hk & [Hu Hm] & Hc).
  assert (uni_MeId (f (uni s)) = uni_MeId (uni s)) as He.
  { change (uni_MeId (uni_static (f (uni s))) = uni_MeId (uni_static (uni s))). by rewrite Hs. }
  split; cbn; [by rewrite Hs|]. split; [|exact Hc]. split; [|by rewrite He].
  unfold uni_up, uni_down in *. by rewrite Ho, Hv.
Qed.

Lemma uni_services m : svc_keeps m -> preserves (uni_is k c) (on_services m).
Proof.
  intros Hm s [] s' (Hk & [Hu He] & Hc) (l & w & Hr & ->)%on_services_inv.
  pose proof (run_services_Forall2 svc_kept _ _ _ _ _ (fun v w s' _ => keeps_Forall2 m v w tt s' Hm) Hr) as Hall.
  split; [|split; [split; [|exact He]|exact Hc]].
  - rewrite <-Hk. apply uni_static_ext, static_services. eapply Forall2_impl; [exact Hall|]. by intros v v' [].
  - destruct Hu as [[Ho Hf]|[Ho Hf]]; [left|right]; (split; [exact Ho|]); cbn.
    + eapply Forall_Forall2_impl; [|exact Hf]. eapply Forall2_impl; [exact Hall|]. by intros v v' (_ & ? & _).
    + eapply Forall_Forall2_impl; [|exact Hf]. eapply Forall2_impl; [exact Hall|]. by intros v v' (_ & _ & ?).
Qed.

(** One service is replaced by what its code made of it. *)
Lemma uni_one {A : Type} i (m : M SvcSys A) s v a t :
  svc_keeps m -> uni_is k c s -> Services (uni s) !! i = Some v -> m {| svc := v; wire := u_wire s |} = Done (a, t) ->
  uni_is k c (s <| uni ::= (fun u => u <| Services ::= <[i := svc t]> |>) |> <| u_wire := wire t |>).
Proof.
  intros Hm (Hk & [Hu He] & Hc) Hv Hr. destruct (keeps_Forall2 m v _ a t Hm Hr) as (Hs & Hup & Hdown).
  split; [|split; [split; [|exact He]|exact Hc]].
  - rewrite <-Hk. apply (uni_static_ext (uni s) (<[i := svc t]> (Services (uni s)))).
    rewrite list_fmap_insert, Hs. apply list_insert_id. by rewrite list_lookup_fmap, Hv.
  - destruct Hu as [[Ho Hf]|[Ho Hf]]; [left|right]; (split; [exact Ho|]); cbn; apply Forall_insert; try done.
    + apply Hup. by eapply Forall_lookup_1.
    + apply Hdown. by eapply Forall_lookup_1.
Qed.

Lemma uni_forward msg i : preserves (uni_is k c) (forward msg i).
Proof.
  intros s [] s' Hs. unfold forward. destruct (Services (uni s) !! i) as [v|] eqn:Hv; [|done].
  destruct (send_packet msg _) as [[[] t]| | |] eqn:E; [|done..]. intros [= <-].
  eapply (uni_one i (send_packet msg)); [|done..]. exact (works_keeps (H := link_layer_only) id some_place _ (run_arrive _ _ msg)).
Qed.

(** Enabling and disabling. *)
Lemma uni_static_services m : (forall k', preserves (svc_is k') m) ->
  forall s s', on_services m s = Done (tt, s') -> uni_static (uni s') = uni_static (uni s).
Proof.
  intros Hm s s' (l & w & Hr & ->)%on_services_inv.
  apply uni_static_ext, static_services. eapply run_services_Forall2; [|exact Hr]. intros v w0 t _ Ht.
  by eapply (Hm _ {| svc := v; wire := w0 |}).
Qed.

Lemma uni_static_event o ev s r s' : Event (uni_fsm o) ev s = Done (r, s') -> uni_static (uni s') = uni_static (uni s).
Proof.
  set (P := fun t => uni_static (uni t) = uni_static (uni s)). intros Hr.
  assert (preserves P (Event (uni_fsm o) ev)) as HP; [|by apply (HP s r s')].
  assert (forall m, (forall k', preserves (svc_is k') m) -> preserves P (on_services m)) as Hsv.
  { intros m Hm t [] t' Ht Hrun. unfold P. by rewrite (uni_static_services m Hm t t'). }
  apply preserves_Event_callbacks; [apply preserves_skip| |apply preserves_skip|done].
  intros src dst. cbn [fsm_enter uni_fsm]. unfold uni_enter, send_onu, Initialize, Disable. preserve.
  all: try (by apply preserves_modify); try (by apply preserves_lift).
  all: try (intros t b t' Ht; unfold me_number; destruct (ToUint16 _); [|done..]; by intros [= <- <-]).
  all: apply Hsv; intros k'; apply preserves_bind; [apply static_internal|intros; apply preserves_skip].
Qed.

(** A message that was sent found the channel open. *)
Lemma enable_open o s r s' : uni_down (uni s) -> Uni_Enable o s = Done (r, s') -> exists q, onu_chan s = ChOpen q.
Proof.
  intros [Ho _]. unfold Uni_Enable. rewrite (Event_ok _ _ s UniStateUp); [|cbn [fsm_current uni_fsm]; by rewrite Ho..].
  mred. cbn. unfold uni_enter, me_number, send_onu. mred. rewrite decide_True by done. cbn -[ToUint16].
  destruct (ToUint16 _); [|done..]. change (onu_chan (s <| uni ::= ?f |>)) with (onu_chan s). destruct (onu_chan s); [done|by eauto|done].
Qed.

Lemma disable_open o s r s' : uni_up (uni s) -> Uni_Disable o s = Done (r, s') -> exists q, onu_chan s = ChOpen q.
Proof.
  intros [Ho _]. unfold Uni_Disable. mred. rewrite decide_False by (by rewrite Ho).
  rewrite (Event_ok _ _ s UniStateDown); [|cbn [fsm_current uni_fsm]; by rewrite Ho..].
  mred. cbn. unfold uni_enter, me_number, send_onu. mred. rewrite decide_False, decide_True by done. cbn -[ToUint16].
  destruct (ToUint16 _); [|done..]. change (onu_chan (s <| uni ::= ?f |>)) with (onu_chan s). destruct (onu_chan s); [done|by eauto|done].
Qed.

Lemma uni_enable o : preserves (uni_is k c) (Uni_Enable o).
Proof.
  intros s r s' (Hk & [Hu [id Hid]] & Hc) Hr. pose proof (uni_static_event o _ s r s' Hr) as Hst.
  split; [by rewrite Hst|]. destruct Hu as [Hu|Hd].
  - destruct (Event_rejected (uni_fsm o) uniTxEnable s) as [e He]; [cbn; by destruct Hu as [-> _]|].
    unfold Uni_Enable in Hr. rewrite He in Hr. simplify_eq. split; [|done]. split; [by left|by eexists].
  - destruct (enable_open o s r s' Hd Hr) as [q Hq].
    destruct (Uni_Enable_down o s q id Hd Hq Hid) as (t & Ht & Hup & _ & Hch & Hme & _).
    rewrite Ht in Hr. simplify_eq. split; [|by rewrite Hch]. split; [by left|]. rewrite Hme. by eexists.
Qed.

Lemma uni_disable o : preserves (uni_is k c) (Uni_Disable o).
Proof.
  intros s r s' (Hk & [Hu [id Hid]] & Hc) Hr. destruct Hu as [Hu|Hd].
  - assert (Event (uni_fsm o) uniTxDisable s = Done (r, s')) as He.
    { unfold Uni_Disable in Hr. mred in Hr. rewrite decide_False in Hr by (destruct Hu as [-> _]; done). done. }
    split; [by rewrite (uni_static_event o _ s r s' He)|].
    destruct (disable_open o s r s' Hu Hr) as [q Hq].
    destruct (Uni_Disable_up o s q id Hu Hq Hid) as (t & Ht & Hdn & _ & Hch & Hme & _).
    rewrite Ht in Hr. simplify_eq. split; [|by rewrite Hch]. split; [by right|]. rewrite Hme. by eexists.
  - rewrite Uni_Disable_down in Hr by apply Hd. simplify_eq. split; [done|]. split; [|done]. split; [by right|by eexists].
Qed.

Lemma uni_update_stream : preserves (uni_is k c) Uni_UpdateStream.
Proof. apply uni_services. svc_work. Qed.
Lemma uni_auth : preserves (uni_is k c) Uni_HandleAuth.
Proof. apply uni_services. svc_work. Qed.
Lemma uni_dhcp p v : preserves (uni_is k c) (Uni_HandleDhcp p v).
Proof. apply uni_services. svc_work. Qed.
Lemma uni_gem g e ov iv : preserves (uni_is k c) (addGemPortToService g e ov iv).
Proof. apply uni_services, svc_keeps_gem. Qed.
Lemma uni_port_no n : preserves (uni_is k c) (StorePortNo n).
Proof. by apply uni_modify. Qed.
Lemma uni_send msg : preserves (uni_is k c) (lift_upd (fun s => uni_PacketCh (uni s))
  (fun c s => s <| uni ::= (fun u => u <| uni_PacketCh := c |>) |>) (chan_send msg)).
Proof. by apply preserves_lift. Qed.

Lemma uni_packet msg : preserves (uni_is k c) (Uni_handle_packet msg).
Proof.
  assert (svc_keeps (s ← get; if NeedsIgmp (svc s) then send_packet msg else skip)).
  { apply svc_keeps_bind; [apply svc_keeps_get|]. intros s.
    destruct (NeedsIgmp (svc s)); [svc_work|apply svc_keeps_ret]. }
  pose proof uni_forward. unfold Uni_handle_packet. preserve; by apply uni_services.
Qed.

(** A listener takes a packet off the channel of the port. *)
Lemma uni_recv : preserves (uni_is k c) Uni_recv_packet.
Proof. pose proof uni_packet. unfold Uni_recv_packet. preserve; by apply uni_modify. Qed.
End Uni.

#[export] Hint Resolve uni_enable uni_disable uni_update_stream uni_auth uni_dhcp uni_gem uni_port_no uni_send
  uni_recv : preserve.

(** A new UNI is down with its services. *)
Lemma new_services_down olt pon onu uni i l c t vs c' t' :
  new_services olt pon onu uni i l c t = Done (vs, c', t') -> Forall service_down vs.
Proof.
  revert i c t vs. induction l as [|y l IH]; intros i c t vs; cbn [new_services]; [by intros [= <- <- <-]|].
  destruct (next_tag _ _ (y_CTag y) _ _) as [[a c1]| | |]; cbn [mbind outcome_bind]; [|done..].
  destruct (next_tag _ _ (y_STag y) _ _) as [[b t1]| | |]; cbn [mbind outcome_bind]; [|done..].
  destruct (new_services _ _ _ _ _ _ _ _) as [[[rest c2] t2]| | |] eqn:E; cbn [mbind outcome_bind]; [|done..].
  intros [= <- <- <-]. constructor; [|by eapply IH].
  intros w. split_and!; try done. by left.
Qed.
