(* ===== verification/Get.v ===== *)
(** * OMCI get responses

    [internal/common/omci/get.go]: what the simulated ONU answers to a get
    request, by class of managed entity.  The constructors of the entities of
    [omci-lib-go] ([me.NewOnu2G] and the like) check the attributes against the
    definition of the class; they are the parameter [NewManagedEntity], which
    gives the attribute map of the entity or an error.  [rnd] is the sequence
    of numbers the random source draws. *)
From S2P Require Import Prelude OmciTypes Omci Packets Types.
Open Scope Z_scope.
Open Scope string_scope.

Definition IpHostConfigDataClassID : Z := 134.
Definition VoipConfigDataClassID : Z := 138.
Definition EthernetPerformanceMonitoringHistoryDataClassID : Z := 24.
Definition FecPerformanceMonitoringHistoryDataClassID : Z := 312.
Definition EthernetFramePerformanceMonitoringHistoryDataDownstreamClassID : Z := 321.
Definition EthernetFramePerformanceMonitoringHistoryDataUpstreamClassID : Z := 322.
Definition GemPortNetworkCtpPerformanceMonitoringHistoryDataClassID : Z := 341.

(** [omci-lib-go/generated]: the managed entity of a class with an instance
    and attributes. *)
Class MeLib := { NewManagedEntity : Z -> Z -> AttributeValueMap -> error + AttributeValueMap }.

(** [rand.Intn(n)] with the [i]-th number of the source. *)
Definition Intn (rnd : nat -> Z) (i : nat) (n : Z) : Z := rnd i mod n.

(** The response of a class: the request's instance and mask, and the
    attributes. *)
Definition get_response (class entityID attributeMask : Z) (isExtended : bool)
    (attrs : AttributeValueMap) : Body :=
  BGetResponse {| EntityClass := class; EntityInstance := entityID; Extended := isExtended |}
    attributeMask attrs Success.

Section Get.
  Context `{OmciLib} `{MeLib} (rnd : nat -> Z) (omccVersion : Z).

(** Build the entity, then the response; nil when the entity is refused. *)
Definition me_response (class entityID attributeMask : Z) (isExtended : bool)
    (attrs : AttributeValueMap) : option Body :=
  match NewManagedEntity class entityID attrs with
  | inl _ => None
  | inr m => Some (get_response class entityID attributeMask isExtended m)
  end.

(** Source: internal/common/omci/get.go, [createOnu2gResponse]. *)
Definition createOnu2gResponse (isExtended : bool) (attributeMask entityID : Z)
    : option Body :=
  me_response Onu2GClassID entityID attributeMask isExtended [
    ("ManagedEntityId", AU16 entityID);
    ("EquipmentId", ABytes (ToOctets "12345123451234512345" 20));
    ("OpticalNetworkUnitManagementAndControlChannelOmccVersion", AInt omccVersion);
    ("VendorProductCode", AInt 0); ("SecurityCapability", AInt 1); ("SecurityMode", AInt 1);
    ("TotalPriorityQueueNumber", AInt 1); ("TotalTrafficSchedulerNumber", AInt 1);
    ("Deprecated", AInt 1); ("TotalGemPortIdNumber", AInt 32); ("Sysuptime", AInt 319389947);
    ("ConnectivityCapability", AInt 127); ("CurrentConnectivityMode", AInt 5);
    ("QualityOfServiceQosConfigurationFlexibility", AInt 48); ("PriorityQueueScaleFactor", AInt 1)].

(** Source: internal/common/omci/get.go, [createOnugResponse]. *)
Definition createOnugResponse (isExtended : bool) (attributeMask entityID : Z) (onuSn : SerialNumber)
    : option Body :=
  me_response OnuGClassID entityID attributeMask isExtended [
    ("ManagedEntityId", AU16 entityID); ("VendorId", ABytes (ToOctets "BBSM" 4));
    ("Version", ABytes (ToOctets "v0.0.1" 14));
    ("SerialNumber", ABytes (VendorId onuSn ++ VendorSpecific onuSn));
    ("TrafficManagementOption", AInt 0); ("Deprecated", AInt 0); ("BatteryBackup", AInt 0);
    ("AdministrativeState", AInt 0); ("OperationalState", AInt 0); ("OnuSurvivalTime", AInt 10);
    ("LogicalOnuId", ABytes (ToOctets "BBSM" 24));
    ("LogicalPassword", ABytes (ToOctets "BBSM" 12)); ("CredentialsStatus", AInt 0);
    ("ExtendedTcLayerOptions", AInt 0)].

(** Source: internal/common/omci/get.go, [createSoftwareImageResponse]. *)
Definition createSoftwareImageResponse (isExtended : bool) (attributeMask entityInstance : Z)
    (activeImageEntityId committedImageEntityId : Z)
    (standbyImageVersion activeImageVersion committedImageVersion : string)
    : option Body :=
  let active := if decide (entityInstance = activeImageEntityId) then 1 else 0 in
  let committed := if decide (entityInstance = committedImageEntityId) then 1 else 0 in
  let version :=
    if decide (entityInstance = committedImageEntityId) then committedImageVersion
    else if decide (entityInstance = activeImageEntityId) then activeImageVersion
    else standbyImageVersion in
  Some (get_response SoftwareImageClassID entityInstance attributeMask isExtended [
    ("ManagedEntityId", AInt 0); ("Version", ABytes (ToOctets version 14));
    ("IsCommitted", AInt committed); ("IsActive", AInt active); ("IsValid", AInt 1);
    ("ProductCode", ABytes (ToOctets "BBSIM-ONU" 25)); ("ImageHash", ABytes (bytes_of version))]).

(** Source: internal/common/omci/get.go, [createIpHostResponse]. *)
Definition createIpHostResponse (isExtended : bool) (attributeMask entityInstance : Z)
    : option Body :=
  Some (get_response IpHostConfigDataClassID entityInstance attributeMask isExtended [
    ("ManagedEntityId", AInt 0); ("MacAddress", ABytes (ToOctets "aabbcc" 6))]).

(** Source: internal/common/omci/get.go, [createVoipConfigDataResponse]. *)
Definition createVoipConfigDataResponse (isExtended : bool) (attributeMask entityInstance : Z)
    : option Body :=
  Some (get_response VoipConfigDataClassID entityInstance attributeMask isExtended [
    ("ManagedEntityId", AInt 0); ("AvailableSignallingProtocols", AInt 1);
    ("SignallingProtocolUsed", AInt 1); ("AvailableVoipConfigurationMethods", AInt 1);
    ("VoipConfigurationMethodUsed", AInt 1); ("VoipConfigurationAddressPointer", AInt 65535);
    ("VoipConfigurationState", AInt 0); ("RetrieveProfile", AInt 0); ("ProfileVersion", AInt 0)]).

(** Source: internal/common/omci/get.go, [createUnigResponse]. *)
Definition createUnigResponse (isExtended : bool) (attributeMask entityID : Z) (onuDown : bool)
    : option Body :=
  let omciAdminState := if negb onuDown then 0 else 1 in
  me_response UniGClassID entityID attributeMask isExtended [
    ("ManagedEntityId", AU16 entityID); ("Deprecated", AInt 0);
    ("AdministrativeState", AInt omciAdminState); ("ManagementCapability", AInt 0);
    ("NonOmciManagementIdentifier", AInt 1); ("RelayAgentOptions", AInt 1)].

(** Source: internal/common/omci/get.go, [createPptpEthernetResponse]. *)
Definition createPptpEthernetResponse (isExtended : bool) (attributeMask entityID : Z) (onuDown : bool)
    : option Body :=
  let onuAdminState := if negb onuDown then 0 else 1 in
  let onuOperState := onuAdminState in
  me_response PhysicalPathTerminationPointEthernetUniClassID entityID attributeMask isExtended [
    ("ManagedEntityId", AU16 entityID); ("ExpectedType", AInt 0);
    ("SensedType", AU8 ethernetUnitType); ("AutoDetectionConfiguration", AInt 0);
    ("EthernetLoopbackConfiguration", AInt 0); ("AdministrativeState", AInt onuAdminState);
    ("OperationalState", AInt onuOperState); ("ConfigurationInd", AInt 3);
    ("MaxFrameSize", AInt 0); ("DteOrDceInd", AInt 0); ("PauseTime", AInt 0);
    ("BridgedOrIpInd", AInt 0); ("Arc", AInt 0); ("ArcInterval", AInt 0); ("PppoeFilter", AInt 0);
    ("PowerControl", AInt 0)].

(** Source: internal/common/omci/get.go, [createPptpPotsResponse]. *)
Definition createPptpPotsResponse (isExtended : bool) (attributeMask entityID : Z) (onuDown : bool)
    : option Body :=
  let onuAdminState := if negb onuDown then 0 else 1 in
  let onuOperState := onuAdminState in
  me_response PhysicalPathTerminationPointPotsUniClassID entityID attributeMask isExtended [
    ("ManagedEntityId", AU16 entityID); ("AdministrativeState", AInt onuAdminState);
    ("Deprecated", AInt 0); ("Arc", AInt 0); ("ArcInterval", AInt 0); ("Impedance", AInt 0);
    ("TransmissionPath", AInt 0); ("RxGain", AInt 0); ("TxGain", AInt 0);
    ("OperationalState", AInt onuOperState); ("HookState", AInt 0); ("PotsHoldoverTime", AInt 0);
    ("NominalFeedVoltage", AInt 0); ("LossOfSoftswitch", AInt 0)].

(** Source: internal/common/omci/get.go, [createEthernetFramePerformanceMonitoringHistoryDataUpstreamResponse]. *)
Definition createEthernetFramePerformanceMonitoringHistoryDataUpstreamResponse (isExtended : bool) (attributeMask entityID : Z)
    : option Body :=
  me_response EthernetFramePerformanceMonitoringHistoryDataUpstreamClassID entityID attributeMask isExtended [
    ("ManagedEntityId", AU16 entityID); ("IntervalEndTime", AInt 0); ("ThresholdData12Id", AInt 0);
    ("DropEvents", AInt (Intn rnd 0 100)); ("Octets", AInt (Intn rnd 1 100));
    ("Packets", AInt (Intn rnd 2 100)); ("BroadcastPackets", AInt (Intn rnd 3 100));
    ("MulticastPackets", AInt (Intn rnd 4 100)); ("CrcErroredPackets", AInt (Intn rnd 5 100));
    ("UndersizePackets", AInt (Intn rnd 6 100)); ("OversizePackets", AInt (Intn rnd 7 100));
    ("Packets64Octets", AInt (Intn rnd 8 100)); ("Packets65To127Octets", AInt (Intn rnd 9 100));
    ("Packets128To255Octets", AInt (Intn rnd 10 100));
    ("Packets256To511Octets", AInt (Intn rnd 11 100));
    ("Packets512To1023Octets", AInt (Intn rnd 12 100));
    ("Packets1024To1518Octets", AInt (Intn rnd 13 100))].

(** Source: internal/common/omci/get.go, [createEthernetFramePerformanceMonitoringHistoryDataDownstreamResponse]. *)
Definition createEthernetFramePerformanceMonitoringHistoryDataDownstreamResponse (isExtended : bool) (attributeMask entityID : Z)
    : option Body :=
  me_response EthernetFramePerformanceMonitoringHistoryDataDownstreamClassID entityID attributeMask isExtended [
    ("ManagedEntityId", AU16 entityID); ("IntervalEndTime", AInt 0); ("ThresholdData12Id", AInt 0);
    ("DropEvents", AInt (Intn rnd 0 100)); ("Octets", AInt (Intn rnd 1 100));
    ("Packets", AInt (Intn rnd 2 100)); ("BroadcastPackets", AInt (Intn rnd 3 100));
    ("MulticastPackets", AInt (Intn rnd 4 100)); ("CrcErroredPackets", AInt (Intn rnd 5 100));
    ("UndersizePackets", AInt (Intn rnd 6 100)); ("OversizePackets", AInt (Intn rnd 7 100));
    ("Packets64Octets", AInt (Intn rnd 8 100)); ("Packets65To127Octets", AInt (Intn rnd 9 100));
    ("Packets128To255Octets", AInt (Intn rnd 10 100));
    ("Packets256To511Octets", AInt (Intn rnd 11 100));
    ("Packets512To1023Octets", AInt (Intn rnd 12 100));
    ("Packets1024To1518Octets", AInt (Intn rnd 13 100))].

(** Source: internal/common/omci/get.go, [createEthernetPerformanceMonitoringHistoryDataResponse]. *)
Definition createEthernetPerformanceMonitoringHistoryDataResponse (isExtended : bool) (attributeMask entityID : Z)
    : option Body :=
  me_response EthernetPerformanceMonitoringHistoryDataClassID entityID attributeMask isExtended [
    ("ManagedEntityId", AU16 entityID); ("IntervalEndTime", AInt 0); ("ThresholdData12Id", AInt 0);
    ("FcsErrors", AInt (Intn rnd 0 100)); ("ExcessiveCollisionCounter", AInt (Intn rnd 1 100));
    ("LateCollisionCounter", AInt (Intn rnd 2 100)); ("FramesTooLong", AInt (Intn rnd 3 100));
    ("BufferOverflowsOnReceive", AInt (Intn rnd 4 100));
    ("BufferOverflowsOnTransmit", AInt (Intn rnd 5 100));
    ("SingleCollisionFrameCounter", AInt (Intn rnd 6 100));
    ("MultipleCollisionsFrameCounter", AInt (Intn rnd 7 100));
    ("SqeCounter", AInt (Intn rnd 8 100)); ("DeferredTransmissionCounter", AInt (Intn rnd 9 100));
    ("InternalMacTransmitErrorCounter", AInt (Intn rnd 10 100));
    ("CarrierSenseErrorCounter", AInt (Intn rnd 11 100));
    ("AlignmentErrorCounter", AInt (Intn rnd 12 100));
    ("InternalMacReceiveErrorCounter", AInt (Intn rnd 13 100))].

(** Source: internal/common/omci/get.go, [createFecPerformanceMonitoringHistoryDataResponse]. *)
Definition createFecPerformanceMonitoringHistoryDataResponse (isExtended : bool) (attributeMask entityID : Z)
    : option Body :=
  me_response FecPerformanceMonitoringHistoryDataClassID entityID attributeMask isExtended [
    ("ManagedEntityId", AU16 entityID); ("IntervalEndTime", AInt 0); ("ThresholdData12Id", AInt 0);
    ("CorrectedBytes", AInt (Intn rnd 0 100)); ("CorrectedCodeWords", AInt (Intn rnd 1 100));
    ("UncorrectableCodeWords", AInt (Intn rnd 2 100)); ("TotalCodeWords", AInt (Intn rnd 3 100));
    ("FecSeconds", AInt (Intn rnd 4 100))].

(** Source: internal/common/omci/get.go, [createGemPortNetworkCtpPerformanceMonitoringHistoryData]. *)
Definition createGemPortNetworkCtpPerformanceMonitoringHistoryData (isExtended : bool) (attributeMask entityID : Z)
    : option Body :=
  me_response GemPortNetworkCtpPerformanceMonitoringHistoryDataClassID entityID attributeMask isExtended [
    ("ManagedEntityId", AU16 entityID); ("IntervalEndTime", AInt 0); ("ThresholdData12Id", AInt 0);
    ("TransmittedGemFrames", AInt (Intn rnd 0 100)); ("ReceivedGemFrames", AInt (Intn rnd 1 100));
    ("ReceivedPayloadBytes", AInt (Intn rnd 2 100));
    ("TransmittedPayloadBytes", AInt (Intn rnd 3 100));
    ("EncryptionKeyErrors", AInt (Intn rnd 4 100))].

(** Source: internal/common/omci/get.go, [createOnuDataResponse]. *)
Definition createOnuDataResponse (isExtended : bool) (attributeMask entityID : Z) (mds : Z)
    : option Body :=
  me_response OnuDataClassID entityID attributeMask isExtended [
    ("ManagedEntityId", AU16 entityID); ("MibDataSync", AU8 mds)].

(** Source: internal/common/omci/get.go, [createAnigResponse]. *)
Definition createAnigResponse (isExtended : bool) (attributeMask entityID : Z)
    : option Body :=
  me_response AniGClassID entityID attributeMask isExtended [
    ("ManagedEntityId", AU16 entityID); ("SrIndication", AInt 0); ("TotalTcontNumber", AInt 0);
    ("GemBlockLength", AInt 0); ("PiggybackDbaReporting", AInt 0); ("Deprecated", AInt 0);
    ("SignalFailThreshold", AInt 0); ("SignalDegradeThreshold", AInt 0); ("Arc", AInt 0);
    ("ArcInterval", AInt 0); ("OpticalSignalLevel", AInt (Intn rnd 0 16000));
    ("LowerOpticalThreshold", AInt 0); ("UpperOpticalThreshold", AInt 0);
    ("OnuResponseTime", AInt 0); ("TransmitOpticalLevel", AInt (Intn rnd 1 16000));
    ("LowerTransmitPowerThreshold", AInt 0); ("UpperTransmitPowerThreshold", AInt 0)].

(** Source: internal/common/omci/get.go, [createEthernetFrameExtendedPmGetResponse]. *)
Definition createEthernetFrameExtendedPmGetResponse (isExtended : bool) (meClass attributeMask entityID : Z)
    : option Body :=
  me_response meClass entityID attributeMask isExtended [
    ("ManagedEntityId", AU16 entityID); ("DropEvents", AInt 100); ("Octets", AInt 101);
    ("Frames", AInt 102); ("BroadcastFrames", AInt 103); ("MulticastFrames", AInt 104);
    ("CrcErroredFrames", AInt 105); ("UndersizeFrames", AInt 106); ("OversizeFrames", AInt 107);
    ("Frames64Octets", AInt 108); ("Frames65To127Octets", AInt 109);
    ("Frames128To255Octets", AInt 110); ("Frames256To511Octets", AInt 111);
    ("Frames512To1023Octets", AInt 112); ("Frames1024To1518Octets", AInt 113)].

(** Source: internal/common/omci/get.go, [ParseGetRequest]. *)
Definition ParseGetRequest (omciPkt : Packet) : error + (MeBasePacket * Z) :=
  match first_layer (fun l => match l with LGetRequest b m => Some (b, m) | _ => None end)
          (pkt_layers omciPkt) with
  | Some x => inr x
  | None => inl "omci Msg layer could not be detected for LayerTypeGetRequest"
  end.

(** The parameters of the ONU a get request may report. *)
Record GetParams := {
  gp_onuSn : SerialNumber; gp_mds : Z; gp_activeImageEntityId : Z; gp_committedImageEntityId : Z;
  gp_standbyImageVersion : string; gp_activeImageVersion : string;
  gp_committedImageVersion : string; gp_onuDown : bool }.

(** Source: internal/common/omci/get.go:70-112, [CreateGetResponse] (the
    response by class; [None] is a class that is not handled). *)
Definition response_of (isExtended : bool) (class mask inst : Z) (p : GetParams)
    : option (option Body) :=
  if decide (class = Onu2GClassID) then Some (createOnu2gResponse isExtended mask inst)
  else if decide (class = OnuGClassID) then Some (createOnugResponse isExtended mask inst (gp_onuSn p))
  else if decide (class = SoftwareImageClassID) then
    Some (createSoftwareImageResponse isExtended mask inst (gp_activeImageEntityId p)
      (gp_committedImageEntityId p) (gp_standbyImageVersion p) (gp_activeImageVersion p)
      (gp_committedImageVersion p))
  else if decide (class = IpHostConfigDataClassID) then Some (createIpHostResponse isExtended mask inst)
  else if decide (class = VoipConfigDataClassID) then
    Some (createVoipConfigDataResponse isExtended mask inst)
  else if decide (class = UniGClassID) then
    Some (createUnigResponse isExtended mask inst (gp_onuDown p))
  else if decide (class = PhysicalPathTerminationPointEthernetUniClassID) then
    Some (createPptpEthernetResponse isExtended mask inst (gp_onuDown p))
  else if decide (class = PhysicalPathTerminationPointPotsUniClassID) then
    Some (createPptpPotsResponse isExtended mask inst (gp_onuDown p))
  else if decide (class = AniGClassID) then Some (createAnigResponse isExtended mask inst)
  else if decide (class = OnuDataClassID) then
    Some (createOnuDataResponse isExtended mask inst (gp_mds p))
  else if decide (class = EthernetFramePerformanceMonitoringHistoryDataUpstreamClassID) then
    Some (createEthernetFramePerformanceMonitoringHistoryDataUpstreamResponse isExtended mask inst)
  else if decide (class = EthernetFramePerformanceMonitoringHistoryDataDownstreamClassID) then
    Some (createEthernetFramePerformanceMonitoringHistoryDataDownstreamResponse isExtended mask inst)
  else if decide (class = EthernetPerformanceMonitoringHistoryDataClassID) then
    Some (createEthernetPerformanceMonitoringHistoryDataResponse isExtended mask inst)
  else if decide (class = FecPerformanceMonitoringHistoryDataClassID) then
    Some (createFecPerformanceMonitoringHistoryDataResponse isExtended mask inst)
  else if decide (class = GemPortNetworkCtpPerformanceMonitoringHistoryDataClassID) then
    Some (createGemPortNetworkCtpPerformanceMonitoringHistoryData isExtended mask inst)
  else if decide (class = EthernetFrameExtendedPmClassID \/ class = EthernetFrameExtendedPm64BitClassID)
  then Some (createEthernetFrameExtendedPmGetResponse isExtended class mask inst)
  else None.

(** Source: internal/common/omci/get.go, [CreateGetResponse].  The result is
    the packet, nil for a class that is not handled; serializing a nil
    response dereferences it. *)
Definition CreateGetResponse (omciPkt : Packet) (omciMsg : OMCI) (p : GetParams)
    : outcome (error + option (list Z)) :=
  match ParseGetRequest omciPkt with
  | inl e => Done (inl e)
  | inr (b, mask) =>
      match response_of (isExtended omciMsg) (EntityClass b) mask (EntityInstance b) p with
      | None => Done (inr None)
      | Some None => Panicked "nil GetResponse"
      | Some (Some body) =>
          match respond omciMsg GetResponseType body with
          | inl e => Done (inl e)
          | inr pkt => Done (inr (Some pkt))
          end
      end
  end.
End Get.

(** * Properties *)

Lemma attr_get_eq k v m : attr_get ((k, v) :: m) k = Some v.
Proof. unfold attr_get. cbn. by rewrite bool_decide_eq_true_2. Qed.
Lemma attr_get_ne k k' v m : k' <> k -> attr_get ((k', v) :: m) k = attr_get m k.
Proof. intros Hne. unfold attr_get. cbn. by rewrite bool_decide_eq_false_2. Qed.

Section GetFacts.
  Context `{OmciLib} `{MeLib} (rnd : nat -> Z) (omccVersion : Z).

Lemma me_response_base class inst mask ext attrs body :
  me_response class inst mask ext attrs = Some body ->
  exists a, body = get_response class inst mask ext a.
Proof. unfold me_response. destruct (NewManagedEntity _ _ _); [done|]. intros [= <-]. eauto. Qed.

(** A get response answers the request it was made for: whatever the class
    and the state of the ONU, it carries the class, the instance and the
    attribute mask of the request, the device identifier of the message and a
    successful result. *)
Theorem GetResponse_echoes (isExt : bool) (class mask inst : Z) (p : GetParams) (body : Body) :
  response_of rnd omccVersion isExt class mask inst p = Some (Some body) ->
  exists attrs, body = BGetResponse
    {| EntityClass := class; EntityInstance := inst; Extended := isExt |} mask attrs Success.
Proof.
  unfold response_of. repeat (case_decide; [subst; intros [= Hb];
    first [by apply me_response_base in Hb | by eexists]|]).
  done.
Qed.

(** What a get of a software image reports: the image is active exactly
    when it is the active one, committed exactly when it is the committed one,
    and its version is the committed version if committed, else the active one
    if active, else the standby one, padded to 14 octets. *)
Theorem SoftwareImage_reported (isExt : bool) (mask inst : Z) (p : GetParams) :
  exists attrs, response_of rnd omccVersion isExt SoftwareImageClassID mask inst p =
      Some (Some (get_response SoftwareImageClassID inst mask isExt attrs)) /\
    (attr_get attrs "IsActive" = Some (AInt 1) <-> inst = gp_activeImageEntityId p) /\
    (attr_get attrs "IsCommitted" = Some (AInt 1) <-> inst = gp_committedImageEntityId p) /\
    attr_get attrs "Version" = Some (ABytes (ToOctets
      (if decide (inst = gp_committedImageEntityId p) then gp_committedImageVersion p
       else if decide (inst = gp_activeImageEntityId p) then gp_activeImageVersion p
       else gp_standbyImageVersion p) 14)).
Proof.
  unfold response_of. rewrite !decide_False by done. rewrite decide_True by done.
  eexists. split; [reflexivity|]. repeat (rewrite attr_get_ne by done || rewrite attr_get_eq).
  split_and!; [..|done]; case_decide; by split.
Qed.
End GetFacts.

Definition accept_all : MeLib := {| NewManagedEntity := fun _ _ a => inr a |}.
Definition some_params : GetParams := {|
  gp_onuSn := NewSN 7 0 0 1; gp_mds := 3; gp_activeImageEntityId := 1;
  gp_committedImageEntityId := 0; gp_standbyImageVersion := "a"; gp_activeImageVersion := "b";
  gp_committedImageVersion := "c"; gp_onuDown := false |}.

Lemma GetResponse_echoes_witness :
  exists attrs, @response_of accept_all (fun _ => 0) 163 false OnuDataClassID 32768 0 some_params =
    Some (Some (BGetResponse {| EntityClass := OnuDataClassID; EntityInstance := 0;
      Extended := false |} 32768 attrs Success)).
Proof.
  destruct (@GetResponse_echoes accept_all (fun _ => 0) 163 false OnuDataClassID 32768 0 some_params
    _ eq_refl) as [attrs Ha].
  exists attrs. rewrite <-Ha. reflexivity.
Defined.
