(* ===== verification/Onu.v ===== *)
(** * ONUs: state and life cycle

    [internal/bbsim/devices/onu.go]: the state of a simulated ONU, its state
    machine and the operations that move it: power on and off, reboot, alarms,
    flows and the identifiers it holds on its PON.  The state of the model is
    the ONU with what its code reaches: the resource tables of its PON, the
    openolt stream, the channel and the state of the OLT.  Goroutines the code
    starts are recorded as tasks; the OMCI side is in the next file. *)
From S2P Require Import Prelude Fsm Options OmciTypes Omci MibDb Packets Types Io Service.
From S2P Require Import PonRes AlarmSim UniPort.
Open Scope Z_scope.
Open Scope string_scope.

(** ** Transitions and states *)
Definition OnuTxInitialize : string := "initialize".
Definition OnuTxDiscover : string := "discover".
Definition OnuTxEnable : string := "enable".
Definition OnuTxDisable : string := "disable".
Definition OnuTxPonDisable : string := "pon_disable".
Definition OnuTxStartImageDownload : string := "start_image_download".
Definition OnuTxProgressImageDownload : string := "progress_image_download".
Definition OnuTxCompleteImageDownload : string := "complete_image_download".
Definition OnuTxFailImageDownload : string := "fail_image_download".
Definition OnuTxActivateImage : string := "activate_image".
Definition OnuTxCommitImage : string := "commit_image".

Definition OnuStateCreated : string := "created".
Definition OnuStateInitialized : string := "initialized".
Definition OnuStateDiscovered : string := "discovered".
Definition OnuStateEnabled : string := "enabled".
Definition OnuStateDisabled : string := "disabled".
Definition OnuStatePonDisabled : string := "pon_disabled".
Definition OnuStateImageDownloadStarted : string := "image_download_started".
Definition OnuStateImageDownloadInProgress : string := "image_download_in_progress".
Definition OnuStateImageDownloadComplete : string := "image_download_completed".
Definition OnuStateImageDownloadError : string := "image_download_error".
Definition OnuStateImageActivated : string := "software_image_activated".
Definition OnuStateImageCommitted : string := "software_image_committed".

Definition BbrOnuTxSendEapolFlow : string := "send_eapol_flow".
Definition BbrOnuStateEapolFlowSent : string := "eapol_flow_sent".
Definition BbrOnuTxSendDhcpFlow : string := "send_dhcp_flow".
Definition BbrOnuStateDhcpFlowSent : string := "dhcp_flow_sent".

(** ** State *)

(** Source: internal/bbsim/devices/onu.go, [Onu].  [o_isMock] is the argument
    of [CreateONU] its callbacks capture, [o_goroutines] counts the
    [ProcessOnuMessages] goroutines and [o_Done] the signals sent on
    [DoneChannel]; traffic schedulers are stored and never read, so they are
    identified by a number. *)
Record Onu := {
  o_ID : Z; o_PonPortID : Z; o_InternalState : string; o_UniPorts : list UniPort;
  o_PotsPorts : list PotsPort; Flows : list Z; FlowIds : list Z; o_OperState : string;
  o_SerialNumber : SerialNumber; AdminLockState : Z; o_Channel : chan Message;
  MibDataSync : Z; ImageSoftwareExpectedSections : Z; ImageSoftwareReceivedSections : Z;
  ActiveImageEntityId : Z; CommittedImageEntityId : Z; StandbyImageVersion : string;
  ActiveImageVersion : string; InDownloadImageVersion : string; CommittedImageVersion : string;
  OmciResponseRate : Z; OmciMsgCounter : Z; ImageSectionData : list Z;
  tid : Z; hpTid : Z; seqNumber : Z; o_MibDb : MibDb; onuAlarmsInfo : OnuAlarms;
  o_isMock : bool; o_goroutines : nat; o_Done : nat; TrafficSchedulers : option Z }.

#[export] Instance eta_Onu : Eta Onu := fun o => {|
  o_ID := o_ID o; o_PonPortID := o_PonPortID o; o_InternalState := o_InternalState o;
  o_UniPorts := o_UniPorts o; o_PotsPorts := o_PotsPorts o; Flows := Flows o;
  FlowIds := FlowIds o; o_OperState := o_OperState o; o_SerialNumber := o_SerialNumber o;
  AdminLockState := AdminLockState o; o_Channel := o_Channel o; MibDataSync := MibDataSync o;
  ImageSoftwareExpectedSections := ImageSoftwareExpectedSections o;
  ImageSoftwareReceivedSections := ImageSoftwareReceivedSections o;
  ActiveImageEntityId := ActiveImageEntityId o; CommittedImageEntityId := CommittedImageEntityId o;
  StandbyImageVersion := StandbyImageVersion o; ActiveImageVersion := ActiveImageVersion o;
  InDownloadImageVersion := InDownloadImageVersion o;
  CommittedImageVersion := CommittedImageVersion o; OmciResponseRate := OmciResponseRate o;
  OmciMsgCounter := OmciMsgCounter o; ImageSectionData := ImageSectionData o; tid := tid o;
  hpTid := hpTid o; seqNumber := seqNumber o; o_MibDb := o_MibDb o;
  onuAlarmsInfo := onuAlarmsInfo o; o_isMock := o_isMock o; o_goroutines := o_goroutines o;
  o_Done := o_Done o; TrafficSchedulers := TrafficSchedulers o |}.
#[export] Instance set_o_ID : Setter o_ID := ltac:(setter_for o_ID).
#[export] Instance set_o_InternalState : Setter o_InternalState := ltac:(setter_for o_InternalState).
#[export] Instance set_o_UniPorts : Setter o_UniPorts := ltac:(setter_for o_UniPorts).
#[export] Instance set_o_PotsPorts : Setter o_PotsPorts := ltac:(setter_for o_PotsPorts).
#[export] Instance set_Flows : Setter Flows := ltac:(setter_for Flows).
#[export] Instance set_FlowIds : Setter FlowIds := ltac:(setter_for FlowIds).
#[export] Instance set_o_OperState : Setter o_OperState := ltac:(setter_for o_OperState).
#[export] Instance set_o_SerialNumber : Setter o_SerialNumber := ltac:(setter_for o_SerialNumber).
#[export] Instance set_AdminLockState : Setter AdminLockState := ltac:(setter_for AdminLockState).
#[export] Instance set_o_Channel : Setter o_Channel := ltac:(setter_for o_Channel).
#[export] Instance set_MibDataSync : Setter MibDataSync := ltac:(setter_for MibDataSync).
#[export] Instance set_Expected : Setter ImageSoftwareExpectedSections :=
  ltac:(setter_for ImageSoftwareExpectedSections).
#[export] Instance set_Received : Setter ImageSoftwareReceivedSections :=
  ltac:(setter_for ImageSoftwareReceivedSections).
#[export] Instance set_ActiveId : Setter ActiveImageEntityId := ltac:(setter_for ActiveImageEntityId).
#[export] Instance set_CommittedId : Setter CommittedImageEntityId :=
  ltac:(setter_for CommittedImageEntityId).
#[export] Instance set_Standby : Setter StandbyImageVersion := ltac:(setter_for StandbyImageVersion).
#[export] Instance set_Active : Setter ActiveImageVersion := ltac:(setter_for ActiveImageVersion).
#[export] Instance set_InDownload : Setter InDownloadImageVersion :=
  ltac:(setter_for InDownloadImageVersion).
#[export] Instance set_Committed : Setter CommittedImageVersion :=
  ltac:(setter_for CommittedImageVersion).
#[export] Instance set_Counter : Setter OmciMsgCounter := ltac:(setter_for OmciMsgCounter).
#[export] Instance set_Section : Setter ImageSectionData := ltac:(setter_for ImageSectionData).
#[export] Instance set_MibDb : Setter o_MibDb := ltac:(setter_for o_MibDb).
#[export] Instance set_tid : Setter tid := ltac:(setter_for tid).
#[export] Instance set_hpTid : Setter hpTid := ltac:(setter_for hpTid).
#[export] Instance set_seqNumber : Setter seqNumber := ltac:(setter_for seqNumber).
#[export] Instance set_alarms : Setter onuAlarmsInfo := ltac:(setter_for onuAlarmsInfo).
#[export] Instance set_goroutines : Setter o_goroutines := ltac:(setter_for o_goroutines).
#[export] Instance set_Done : Setter o_Done := ltac:(setter_for o_Done).
#[export] Instance set_TrafficSchedulers : Setter TrafficSchedulers :=
  ltac:(setter_for TrafficSchedulers).

(** The goroutines the code of an ONU starts and that run later. *)
Inductive Task :=
| TReboot
| TTestResult (pkt : list Z) (txId : Z)
| TDiscoveryRetry (state : OperState).

(** An ONU and what its code reaches. *)
Record OnuSys := {
  onu : Onu; res : PonRes; o_wire : Stream; olt_channel : chan Message; olt_state : string;
  PublishEvents : bool; published : list string; tasks : list Task; o_client : option Client }.
#[export] Instance eta_OnuSys : Eta OnuSys := fun s => {|
  onu := onu s; res := res s; o_wire := o_wire s; olt_channel := olt_channel s;
  olt_state := olt_state s; PublishEvents := PublishEvents s; published := published s;
  tasks := tasks s; o_client := o_client s |}.
#[export] Instance set_onu : Setter onu := ltac:(setter_for onu).
#[export] Instance set_res : Setter res := ltac:(setter_for res).
#[export] Instance set_o_wire : Setter o_wire := ltac:(setter_for o_wire).
#[export] Instance set_olt_channel : Setter olt_channel := ltac:(setter_for olt_channel).
#[export] Instance set_published : Setter published := ltac:(setter_for published).
#[export] Instance set_tasks : Setter tasks := ltac:(setter_for tasks).
#[export] Instance set_o_client : Setter o_client := ltac:(setter_for o_client).

#[export] Instance onu_io : HasIO OnuSys := {
  io_stream := o_wire;
  io_set_stream := fun w s => s <| o_wire := w |>;
  io_client := o_client;
  io_set_client := fun c s => s <| o_client := Some c |> }.

Definition upd_onu (f : Onu -> Onu) : M OnuSys unit := modify (fun s => s <| onu ::= f |>).
Definition upd_res (f : PonRes -> PonRes) : M OnuSys unit := modify (fun s => s <| res ::= f |>).

Lemma onu_onu (f g : Onu -> Onu) s : (s <| onu ::= f |>) <| onu ::= g |> = s <| onu ::= (fun o => g (f o)) |>.
Proof. done. Qed.

Lemma onu_ext (f g : Onu -> Onu) s : f (onu s) = g (onu s) -> s <| onu ::= f |> = s <| onu ::= g |>.
Proof. unfold upd, set_onu. by intros ->. Qed.

(** [o.Channel <- msg]. *)
Definition send_self (m : Message) : M OnuSys unit :=
  lift_upd (fun s => o_Channel (onu s)) (fun c s => s <| onu ::= (fun o => o <| o_Channel := c |>) |>)
    (chan_send m).

(** [close(o.Channel)]. *)
Definition close_self : M OnuSys unit :=
  lift_upd (fun s => o_Channel (onu s)) (fun c s => s <| onu ::= (fun o => o <| o_Channel := c |>) |>)
    chan_close.

(** [go f()]. *)
Definition spawn (t : Task) : M OnuSys unit := modify (fun s => s <| tasks ::= (fun l => l ++ [t])%list |>).

(** Source: internal/bbsim/devices/helpers.go, [publishEvent] (the type of the
    event). *)
Definition publishEvent (ev : string) : M OnuSys unit :=
  s ← get;
  if PublishEvents s then modify (fun s => s <| published ::= (fun l => l ++ [ev])%list |>) else skip.

(** ** The ports of the ONU *)

Definition onu_ref (o : Onu) : OnuRef := {| ref_sn := o_SerialNumber o; ref_id := o_ID o |}.

(** Run code of the [i]-th UNI. *)
Definition on_uni {A : Type} (i : nat) (m : M UniSys A) : M OnuSys A := fun s =>
  match o_UniPorts (onu s) !! i with
  | None => Panicked "invalid memory address or nil pointer dereference"
  | Some u =>
      match m {| uni := u; onu_chan := o_Channel (onu s); u_wire := o_wire s |} with
      | Done (a, t) =>
          Done (a, s <| onu ::= (fun o => o <| o_UniPorts ::= <[i := uni t]> |>
                                            <| o_Channel := onu_chan t |>) |>
                     <| o_wire := u_wire t |>)
      | Panicked w => Panicked w
      | Blocked w => Blocked w
      | Exited w => Exited w
      end
  end.

(** Run code of the [i]-th POTS port. *)
Definition on_pots {A : Type} (i : nat) (m : M PotsSys A) : M OnuSys A := fun s =>
  match o_PotsPorts (onu s) !! i with
  | None => Panicked "invalid memory address or nil pointer dereference"
  | Some p =>
      match m {| pots := p; p_onu_chan := o_Channel (onu s) |} with
      | Done (a, t) =>
          Done (a, s <| onu ::= (fun o => o <| o_PotsPorts ::= <[i := pots t]> |>
                                            <| o_Channel := p_onu_chan t |>) |>)
      | Panicked w => Panicked w
      | Blocked w => Blocked w
      | Exited w => Exited w
      end
  end.

(** ** State machines *)

(** Source: internal/bbsim/devices/helpers.go, [getOperStateFSM] (the
    callback only logs). *)
Definition oper_events : list EventDesc := [
  {| Name := "enable"; Src := ["down"]; Dst := "up" |};
  {| Name := "disable"; Src := ["up"]; Dst := "down" |} ].

Definition oper_fsm : FSM OnuSys := {|
  fsm_events := oper_events;
  fsm_current := fun s => o_OperState (onu s);
  fsm_set := fun x s => s <| onu ::= (fun o => o <| o_OperState := x |>) |>;
  fsm_before := no_before; fsm_enter := no_enter; fsm_after := no_after |}.

(** Source: internal/bbsim/devices/onu.go:190-212, [CreateONU] (the table of
    [InternalState]). *)
Definition onu_events : list EventDesc := [
  {| Name := OnuTxInitialize; Src := [OnuStateCreated; OnuStateDisabled; OnuStatePonDisabled];
     Dst := OnuStateInitialized |};
  {| Name := OnuTxDiscover; Src := [OnuStateInitialized]; Dst := OnuStateDiscovered |};
  {| Name := OnuTxEnable; Src := [OnuStateDiscovered; OnuStatePonDisabled]; Dst := OnuStateEnabled |};
  {| Name := OnuTxDisable;
     Src := [OnuStateEnabled; OnuStatePonDisabled; OnuStateImageActivated;
             OnuStateImageDownloadError; OnuStateImageCommitted];
     Dst := OnuStateDisabled |};
  {| Name := OnuTxPonDisable;
     Src := [OnuStateEnabled; OnuStateImageActivated; OnuStateImageDownloadError;
             OnuStateImageCommitted; OnuStateImageDownloadComplete];
     Dst := OnuStatePonDisabled |};
  {| Name := OnuTxStartImageDownload;
     Src := [OnuStateEnabled; OnuStateImageDownloadComplete; OnuStateImageDownloadError;
             OnuStateImageCommitted];
     Dst := OnuStateImageDownloadStarted |};
  {| Name := OnuTxProgressImageDownload; Src := [OnuStateImageDownloadStarted];
     Dst := OnuStateImageDownloadInProgress |};
  {| Name := OnuTxCompleteImageDownload; Src := [OnuStateImageDownloadInProgress];
     Dst := OnuStateImageDownloadComplete |};
  {| Name := OnuTxFailImageDownload; Src := [OnuStateImageDownloadInProgress];
     Dst := OnuStateImageDownloadError |};
  {| Name := OnuTxActivateImage; Src := [OnuStateImageDownloadComplete];
     Dst := OnuStateImageActivated |};
  {| Name := OnuTxCommitImage; Src := [OnuStateEnabled]; Dst := OnuStateImageCommitted |};
  {| Name := BbrOnuTxSendEapolFlow; Src := [OnuStateInitialized]; Dst := BbrOnuStateEapolFlowSent |};
  {| Name := BbrOnuTxSendDhcpFlow; Src := [BbrOnuStateEapolFlowSent];
     Dst := BbrOnuStateDhcpFlowSent |} ].

(** Source: internal/bbsim/devices/onu.go, [Onu.cleanupOnuState]. *)
Definition cleanupOnuState : M OnuSys unit :=
  upd_onu (fun o => o <| Flows := [] |>) ;;
  s ← get;
  upd_res (removeOnuId (o_ID (onu s))) ;;
  upd_res (removeAllocIdsForOnuSn (o_SerialNumber (onu s))) ;;
  upd_res (removeGemPortBySn (o_SerialNumber (onu s))) ;;
  upd_onu (fun o => o <| onuAlarmsInfo := ∅ |>).

(** Source: internal/bbsim/devices/onu.go:289-313, [CreateONU] (disable every
    UNI, then every POTS port; an error is only logged). *)
Definition disable_ports : M OnuSys unit :=
  s ← get;
  for_each (seq 0 (length (o_UniPorts (onu s)))) (fun i =>
    t ← get; on_uni i (Uni_Disable (onu_ref (onu t))) ;; skip) ;;
  for_each (seq 0 (length (o_PotsPorts (onu s)))) (fun i =>
    t ← get; on_pots i (Pots_Disable (onu_ref (onu t))) ;; skip).

(** Source: internal/bbsim/devices/onu.go:266-319, [CreateONU] (entering the
    disabled state). *)
Definition enter_disabled : M OnuSys unit :=
  cleanupOnuState ;;
  Event oper_fsm "disable" ;;
  s ← get;
  send_self (OnuIndication DOWN (o_PonPortID (onu s)) (o_SerialNumber (onu s))) ;;
  disable_ports ;;
  t ← get;
  if decide (FlowIds (onu t) = []) then close_self else skip.

(** Source: internal/bbsim/devices/onu.go:243-265, [CreateONU] (entering the
    enabled state: the identifier must be free on the PON). *)
Definition enter_enabled : M OnuSys unit :=
  s ← get;
  match isOnuIdAllocated (o_ID (onu s)) (res s) with
  | Some _ => skip
  | None =>
      upd_res (storeOnuId (o_ID (onu s)) (o_SerialNumber (onu s))) ;;
      send_self (OnuIndication UP (o_PonPortID (onu s)) (o_SerialNumber (onu s)))
  end.

(** Source: internal/bbsim/devices/onu.go:213-337, [CreateONU] (what entering
    a state does). *)
Definition onu_enter (src dst : string) : M OnuSys unit :=
  if decide (dst = OnuStateInitialized) then
    upd_onu (fun o => o <| o_Channel := ChOpen [] |>) ;;
    Event oper_fsm OnuTxEnable ;;
    s ← get;
    if o_isMock (onu s) then skip else upd_onu (fun o => o <| o_goroutines ::= S |>)
  else if decide (dst = OnuStateDiscovered) then send_self (OnuDiscIndication UP)
  else if decide (dst = OnuStateEnabled) then enter_enabled
  else if decide (dst = OnuStateDisabled) then enter_disabled
  else if decide (dst = OnuStatePonDisabled) then cleanupOnuState
  else if decide (dst = BbrOnuStateEapolFlowSent) then send_self SendEapolFlow
  else if decide (dst = BbrOnuStateDhcpFlowSent) then send_self SendDhcpFlow
  else skip.

Definition onu_fsm : FSM OnuSys := {|
  fsm_events := onu_events;
  fsm_current := fun s => o_InternalState (onu s);
  fsm_set := fun x s => s <| onu ::= (fun o => o <| o_InternalState := x |>) |>;
  fsm_before := no_before; fsm_enter := onu_enter; fsm_after := no_after |}.

(** ** Life cycle *)

(** The errors the operations return. *)
Inductive onu_error := EFsm (e : fsm_error) | EText (e : error).

(** [alarmsim.SimulateOnuAlarm] on the channel of the OLT. *)
Definition simulate_alarm (ty status : string) : M OnuSys (option error) :=
  s ← get;
  zoom olt_channel (fun c s => s <| olt_channel := c |>)
    (SimulateOnuAlarm {| AlarmType := ty; Parameters := []; Status := status |}
       (o_ID (onu s)) (o_PonPortID (onu s))).

(** Source: internal/bbsim/devices/onu.go, [Onu.SendOMCIAlarmNotificationMsg]. *)
Definition SendOMCIAlarmNotificationMsg (raiseOMCIAlarm : bool) (alarmType : string) : M OnuSys unit :=
  s ← get;
  if decide (alarmType = "ONU_ALARM_LOS") then
    send_self (UniStatusAlarm {| us_OnuSN := o_SerialNumber (onu s); us_OnuID := o_ID (onu s);
      us_AdminState := 0; us_EntityID := 257; RaiseOMCIAlarm := raiseOMCIAlarm |})
  else skip.

(** Source: internal/bbsim/devices/onu.go, [Onu.HandleShutdownONU]. *)
Definition HandleShutdownONU : M OnuSys (option onu_error) :=
  err ← simulate_alarm "DYING_GASP" "on";
  match err with
  | Some e => mret (Some (EText e))
  | None =>
      err ← simulate_alarm "ONU_ALARM_LOS" "on";
      match err with
      | Some e => mret (Some (EText e))
      | None =>
          cur ← Current onu_fsm;
          (if decide (cur <> OnuStateDisabled) then SendOMCIAlarmNotificationMsg true "ONU_ALARM_LOS"
           else skip) ;;
          err ← Event onu_fsm OnuTxDisable;
          mret (EFsm <$> err)
      end
  end.

(** Source: internal/bbsim/devices/onu.go, [Onu.HandlePowerOnONU]. *)
Definition HandlePowerOnONU : M OnuSys (option onu_error) :=
  initialState ← Current onu_fsm;
  s ← get;
  if decide (olt_state s = "deleted") then mret None else
  e1 ← (if decide (initialState = OnuStateCreated \/ initialState = OnuStateDisabled)
        then Event onu_fsm OnuTxInitialize else mret None);
  match e1 with
  | Some e => mret (Some (EFsm e))
  | None =>
      err ← simulate_alarm "ONU_ALARM_LOS" "off";
      match err with
      | Some e => mret (Some (EText e))
      | None =>
          SendOMCIAlarmNotificationMsg false "ONU_ALARM_LOS" ;;
          e2 ← Event onu_fsm OnuTxDiscover;
          match e2 with
          | Some e => mret (Some (EFsm e))
          | None =>
              if decide (initialState = OnuStateDisabled) then
                e3 ← Event onu_fsm OnuTxEnable;
                mret (EFsm <$> e3)
              else mret None
          end
      end
  end.

(** Source: internal/bbsim/devices/onu.go, [Onu.Reboot] (the wait between the
    two steps changes nothing). *)
Definition Reboot : M OnuSys (option onu_error) :=
  err ← HandleShutdownONU;
  match err with
  | Some e => mret (Some e)
  | None => HandlePowerOnONU
  end.

(** Source: internal/bbsim/devices/onu.go, [Onu.SetAlarm]. *)
Definition SetAlarm (alarmType status : string) : M OnuSys (option error) :=
  err ← simulate_alarm alarmType status;
  match err with
  | Some e => mret (Some e)
  | None => SendOMCIAlarmNotificationMsg (bool_decide (status = "on")) alarmType ;; mret None
  end.

(** Source: internal/bbsim/devices/onu.go, [Onu.ReDiscoverOnu] (after the wait,
    which changes nothing). *)
Definition ReDiscoverOnu : M OnuSys unit :=
  s ← get;
  if decide (olt_state s = "deleted") then skip
  else if decide (o_InternalState (onu s) <> OnuStateDiscovered) then
    Event onu_fsm OnuTxInitialize ;; Event onu_fsm OnuTxDiscover ;; skip
  else send_self (OnuDiscIndication UP).

(** Source: internal/bbsim/devices/onu.go, [Onu.SetID]. *)
Definition SetID (id : Z) : M OnuSys unit := upd_onu (fun o => o <| o_ID := id |>).

(** ** Finding ports and services *)

(** Source: internal/bbsim/devices/onu.go, [Onu.FindUniById].  The index of
    the UNI. *)
Definition FindUniById (o : Onu) (uniID : Z) : error + nat :=
  match list_find (fun u => uni_ID u = uniID) (o_UniPorts o) with
  | Some (i, _) => inr i
  | None => inl "cannot-find-uni-with-id"
  end.

(** Source: internal/bbsim/devices/onu.go, [Onu.FindPotsById]. *)
Definition FindPotsById (o : Onu) (uniID : Z) : error + nat :=
  match list_find (fun p => pots_ID p = uniID) (o_PotsPorts o) with
  | Some (i, _) => inr i
  | None => inl "cannot-find-pots-with-id"
  end.

(** Source: internal/bbsim/devices/onu.go, [Onu.FindUniByEntityId]. *)
Definition FindUniByEntityId (o : Onu) (meId : Z) : error + nat :=
  match list_find (fun u => Equals (uni_MeId u) (FromUint16 meId) = true) (o_UniPorts o) with
  | Some (i, _) => inr i
  | None => inl "cannot-find-uni-with-meid"
  end.

(** Source: internal/bbsim/devices/onu.go, [Onu.FindPotsByEntityId]. *)
Definition FindPotsByEntityId (o : Onu) (meId : Z) : error + nat :=
  match list_find (fun p => Equals (pots_MeId p) (FromUint16 meId) = true) (o_PotsPorts o) with
  | Some (i, _) => inr i
  | None => inl "cannot-find-pots-with-meid"
  end.

(** Source: internal/bbsim/devices/onu.go, [Onu.findUniByPortNo]. *)
Definition findUniByPortNo (o : Onu) (portNo : Z) : error + nat :=
  match list_find (fun u => PortNo u = portNo) (o_UniPorts o) with
  | Some (i, _) => inr i
  | None => inl "cannot-find-uni-with-port-no"
  end.

(** Source: internal/bbsim/devices/onu.go, [Onu.findServiceByMacAddress].  The
    first UNI that has a service with the address, and the service. *)
Fixpoint findServiceByMacAddress (unis : list UniPort) (macAddress : list Z) : error + Service :=
  match unis with
  | [] => inl "cannot-find-service-with-mac-address"
  | u :: unis' =>
      match list_find (fun v => HwAddress v = macAddress) (Services u) with
      | Some (_, v) => inr v
      | None => findServiceByMacAddress unis' macAddress
      end
  end.

(** Source: internal/bbsim/devices/onu.go, [Onu.findUniWithIgmpMembership].
    The indices of the UNIs, once per service with members. *)
Definition findUniWithIgmpMembership (o : Onu) : list nat :=
  imap pair (o_UniPorts o) ≫= (fun '(i, u) =>
    if decide (uni_OperState u = UniStateUp) then
      Services u ≫= (fun v =>
        if NeedsIgmp v && bool_decide (InternalState v = ServiceStateInitialized) &&
           bool_decide (default ∅ (groupAddresses v) <> ∅)
        then [i] else [])
    else []).

(** ** Flows *)

(** Source: internal/bbsim/devices/onu.go, [Onu.handleFlowAdd].  An
    unknown UNI is only logged; using it afterwards dereferences nil. *)
Definition handleFlowAdd (f : Flow) : M OnuSys unit :=
  upd_onu (fun o => o <| FlowIds ::= (fun l => l ++ [FlowId f])%list |>) ;;
  let gemPortId := if ReplicateFlow f then default 0 (PbitToGemport f !! 0) else u32 (GemportId f) in
  s ← get;
  match FindUniById (onu s) (u32 (fl_UniId f)) with
  | inl _ => panic "invalid memory address or nil pointer dereference"
  | inr i =>
      let c := fl_Classifier f in
      on_uni i (addGemPortToService gemPortId (EthType c) (OVid c) (IVid c)) ;;
      on_uni i (StorePortNo (fl_PortNo f)) ;;
      if decide (EthType c = EthernetTypeEAPOL /\ OVid c = 4091) then on_uni i Uni_HandleAuth
      else if decide (EthType c = EthernetTypeIPv4 /\ SrcPort c = 68 /\ DstPort c = 67) then
        on_uni i (Uni_HandleDhcp (u8 (OPbits c)) (OVid c))
      else skip
  end.

(** Drop the first element equal to [x]. *)
Fixpoint remove_first (x : Z) (l : list Z) : list Z :=
  match l with
  | [] => []
  | y :: l' => if decide (y = x) then l' else y :: remove_first x l'
  end.

(** Source: internal/bbsim/devices/onu.go, [Onu.handleFlowRemove]. *)
Definition handleFlowRemove (f : Flow) : M OnuSys unit :=
  upd_onu (fun o => o <| FlowIds ::= remove_first (FlowId f) |>) ;;
  s ← get;
  if decide (FlowIds (onu s) = [] /\ o_InternalState (onu s) = OnuStateDisabled) then close_self
  else skip.

(** Source: internal/bbsim/devices/onu.go, [Onu.DeleteFlow]. *)
Definition DeleteFlow (key : Z) : M OnuSys unit := upd_onu (fun o => o <| Flows ::= remove_first key |>).

(** ** Counters *)

(** Source: internal/bbsim/devices/onu.go, [Onu.IncrementAlarmSequenceNumber]. *)
Definition IncrementAlarmSequenceNumber (key : OnuAlarmInfoMapKey) : M OnuSys Z :=
  s ← get;
  match onuAlarmsInfo (onu s) !! key with
  | Some i =>
      let n := if decide (SequenceNo i = 255) then 1 else u8 (SequenceNo i + 1) in
      upd_onu (fun o => o <| onuAlarmsInfo ::=
        <[key := {| SequenceNo := n; AlarmBitMap := AlarmBitMap i |}]> |>) ;;
      mret n
  | None =>
      upd_onu (fun o => o <| onuAlarmsInfo ::=
        <[key := {| SequenceNo := 1; AlarmBitMap := no_alarms |}]> |>) ;;
      mret 1
  end.

(** Source: internal/bbsim/devices/onu.go, [Onu.InvalidateMibDataSync]; [r] is
    the number the random source draws. *)
Definition InvalidateMibDataSync (r : Z) : M OnuSys unit :=
  upd_onu (fun o => o <| MibDataSync ::= (fun m => u8 (m + u8 (r mod 10 + 1))) |>) ;;
  s ← get;
  if decide (MibDataSync (onu s) = 0) then upd_onu (fun o => o <| MibDataSync ::= (fun m => u8 (m + 1)) |>)
  else skip.

(** Source: internal/bbsim/devices/onu.go, [Onu.getNextTid]. *)
Definition getNextTid (highPriority : bool) : M OnuSys Z :=
  s ← get;
  if highPriority then
    let n := u16 (hpTid (onu s) + 1) in
    upd_onu (fun o => o <| hpTid := if decide (n < 0x8000) then 0x8000 else n |>) ;;
    mret (hpTid (onu s))
  else
    let n := u16 (tid (onu s) + 1) in
    upd_onu (fun o => o <| tid := if decide (n >= 0x8000) then 1 else n |>) ;;
    mret (tid (onu s)).

(** ** Creation *)

(** The configuration an ONU is created from: the configured services and the
    fields of the OLT and of the PON [CreateONU] reads. *)
Record OnuConfig := {
  cfg_services : list ServiceYaml; cfg_olt : Z; cfg_rate : Z; cfg_NumUni : Z; cfg_NumPots : Z;
  cfg_tech : PonTechnology; cfg_unknownAttributes : bool; cfg_unknownMe : bool }.

(** Source: internal/bbsim/devices/onu.go:347-358, [CreateONU] (the Ethernet
    UNIs from the [i]-th, [n] of them). *)
Fixpoint create_onu_unis (cfg : OnuConfig) (pon id : Z) (n : nat) (i : Z) (c s : gmap string Z)
    : outcome (list UniPort * gmap string Z * gmap string Z) :=
  match n with
  | O => Done ([], c, s)
  | S n' =>
      '(r, c1, s1) ← NewUniPort (cfg_services cfg) (cfg_olt cfg) pon id i c s;
      match r with
      | inl _ => Exited "cannot-create-uni-port"
      | inr u =>
          '(us, c2, s2) ← create_onu_unis cfg pon id n' (i + 1) c1 s1;
          Done (u :: us, c2, s2)
      end
  end.

(** Source: internal/bbsim/devices/onu.go, [CreateONU].  The delays are not
    modelled; [addr] is the identity of the serial number object. *)
Definition CreateONU `{OmciLib} (cfg : OnuConfig) (pon id addr : Z) (isMock : bool)
    (nextCtag nextStag : gmap string Z) : outcome (Onu * gmap string Z * gmap string Z) :=
  '(unis, c, s) ← create_onu_unis cfg pon id (Z.to_nat (cfg_NumUni cfg)) 0 nextCtag nextStag;
  let pots := (fun i => NewPotsPort (u32 (cfg_NumUni cfg + Z.of_nat i)))
                <$> seq 0 (Z.to_nat (cfg_NumPots cfg)) in
  db ← GenerateMibDatabase (cfg_unknownAttributes cfg) (cfg_unknownMe cfg)
         (Z.of_nat (length unis)) (Z.of_nat (length pots)) (cfg_tech cfg);
  Done ({| o_ID := id; o_PonPortID := pon; o_InternalState := OnuStateCreated;
           o_UniPorts := unis; o_PotsPorts := pots; Flows := []; FlowIds := [];
           o_OperState := "down"; o_SerialNumber := NewSN addr (cfg_olt cfg) pon id;
           AdminLockState := 0; o_Channel := ChNil; MibDataSync := 0;
           ImageSoftwareExpectedSections := 0; ImageSoftwareReceivedSections := 0;
           ActiveImageEntityId := 0; CommittedImageEntityId := 0;
           StandbyImageVersion := "BBSM_IMG_00000"; ActiveImageVersion := "BBSM_IMG_00001";
           InDownloadImageVersion := ""; CommittedImageVersion := "BBSM_IMG_00001";
           OmciResponseRate := cfg_rate cfg; OmciMsgCounter := 0; ImageSectionData := [];
           tid := 1; hpTid := 0x8000; seqNumber := 0; o_MibDb := db; onuAlarmsInfo := ∅;
           o_isMock := isMock; o_goroutines := 0; o_Done := 0; TrafficSchedulers := None |}, c, s).

(** * Properties *)

(** ** The state machine *)

Lemma onu_avoid via init target l :
  init ∈ l -> target ∉ l -> avoid_closedb l via onu_events = true ->
  forall st, rtc (step_avoiding via onu_events) init st -> st <> target.
Proof.
  intros Hi Ht Hc st Hr ->. apply Ht. by eapply avoid_closedb_sound.
Qed.

(** An image is activated only after it was downloaded: no run of the
    state machine of an ONU reaches the activated state without starting a
    download, receiving sections and completing the download. *)
Theorem image_activated_needs_download via st :
  via ∈ [OnuStateImageDownloadStarted; OnuStateImageDownloadInProgress;
         OnuStateImageDownloadComplete] ->
  rtc (step_avoiding via onu_events) OnuStateCreated st -> st <> OnuStateImageActivated.
Proof.
  intros Hv.
  assert (exists l, OnuStateCreated ∈ l /\ OnuStateImageActivated ∉ l /\
    avoid_closedb l via onu_events = true) as (l & Hi & Ht & Hc).
  { pose (base := [OnuStateCreated; OnuStateInitialized; OnuStateDiscovered; OnuStateEnabled;
      OnuStateDisabled; OnuStatePonDisabled; OnuStateImageCommitted; BbrOnuStateEapolFlowSent;
      BbrOnuStateDhcpFlowSent]).
    repeat (apply elem_of_cons in Hv as [->|Hv]); [..|by apply elem_of_nil in Hv].
    - exists base. split; [set_solver|]. split; [by vm_compute; set_solver|done].
    - exists (OnuStateImageDownloadStarted :: base).
      split; [set_solver|]. split; [by vm_compute; set_solver|done].
    - exists (OnuStateImageDownloadStarted :: OnuStateImageDownloadInProgress ::
        OnuStateImageDownloadError :: base).
      split; [set_solver|]. split; [by vm_compute; set_solver|done]. }
  by apply (onu_avoid via OnuStateCreated OnuStateImageActivated l).
Qed.

Lemma image_activated_needs_download_witness : OnuStateDiscovered <> OnuStateImageActivated.
Proof.
  apply (image_activated_needs_download OnuStateImageDownloadStarted); [by left|].
  eapply rtc_l; [split; [exists OnuTxInitialize; reflexivity|done]|].
  eapply rtc_l; [split; [exists OnuTxDiscover; reflexivity|done]|]. apply rtc_refl.
Defined.

(** ** Ports *)

Definition uni_ok (u : UniPort) : Prop :=
  (uni_up u \/ uni_down u) /\ exists id, ToUint16 (uni_MeId u) = Done id.
Definition pots_ok (p : PotsPort) : Prop :=
  pots_OperState p ∈ [UniStateUp; UniStateDown] /\ exists id, ToUint16 (pots_MeId p) = Done id.

Definition set_unis (us : list UniPort) (q : list Message) (s : OnuSys) : OnuSys :=
  s <| onu ::= (fun o => o <| o_UniPorts := us |> <| o_Channel := ChOpen q |>) |>.
Definition set_potses (ps : list PotsPort) (q : list Message) (s : OnuSys) : OnuSys :=
  s <| onu ::= (fun o => o <| o_PotsPorts := ps |> <| o_Channel := ChOpen q |>) |>.

Lemma set_unis_self s q : o_Channel (onu s) = ChOpen q -> set_unis (o_UniPorts (onu s)) q s = s.
Proof. destruct s as [[]]. cbn. by intros ->. Qed.
Lemma set_potses_self s q : o_Channel (onu s) = ChOpen q -> set_potses (o_PotsPorts (onu s)) q s = s.
Proof. destruct s as [[]]. cbn. by intros ->. Qed.

Lemma disable_one_uni s k u q :
  o_UniPorts (onu s) !! k = Some u -> o_Channel (onu s) = ChOpen q -> uni_ok u ->
  exists u' q', on_uni k (Uni_Disable (onu_ref (onu s))) s =
      Done (None, set_unis (<[k := u']> (o_UniPorts (onu s))) q' s) /\ uni_down u' /\ uni_ok u'.
Proof.
  intros Hk Hq (Hu & id & Hid). unfold on_uni. rewrite Hk, Hq.
  destruct Hu as [Hu|Hu].
  - destruct (Uni_Disable_up (onu_ref (onu s)) {| uni := u; onu_chan := ChOpen q; u_wire := o_wire s |}
      q id Hu eq_refl Hid) as (t & -> & Hd & Hw & Hc & Hme & _).
    cbn in Hw, Hme. rewrite Hw, Hc. exists (uni t). eexists. split; [|].
    { unfold set_unis. destruct s as [[]]. reflexivity. }
    split; [done|]. split; [by right|]. exists id. by rewrite Hme.
  - rewrite Uni_Disable_down by apply Hu. exists u, q. split; [|].
    { unfold set_unis. destruct s as [[]]. reflexivity. }
    split; [done|]. split; [by right|]. eauto.
Qed.

Lemma disable_unis_loop n k s q :
  (k + n)%nat = length (o_UniPorts (onu s)) -> o_Channel (onu s) = ChOpen q ->
  Forall uni_ok (o_UniPorts (onu s)) ->
  (forall i u, (i < k)%nat -> o_UniPorts (onu s) !! i = Some u -> uni_down u) ->
  exists us q', for_each (seq k n) (fun i => t ← get; on_uni i (Uni_Disable (onu_ref (onu t))) ;; skip) s
      = Done (tt, set_unis us q' s) /\ Forall uni_ok us /\ Forall uni_down us.
Proof.
  revert k s q. induction n as [|n IH]; intros k s q Hn Hq Hok Hd.
  { exists (o_UniPorts (onu s)), q. rewrite set_unis_self by done. split; [done|].
    split; [done|]. apply Forall_lookup. intros i u Hi. apply (Hd i); [|done].
    apply lookup_lt_Some in Hi. lia. }
  destruct (lookup_lt_is_Some_2 (o_UniPorts (onu s)) k) as [u Hu]; [lia|].
  assert (uni_ok u) as Huo by (by eapply Forall_lookup_1 in Hok).
  destruct (disable_one_uni s k u q Hu Hq Huo) as (u' & q' & Hr & Hdn & Hok').
  destruct (IH (S k) (set_unis (<[k := u']> (o_UniPorts (onu s))) q' s) q') as (us & q2 & Hr2 & H1 & H2).
  - cbn. rewrite length_insert. lia.
  - done.
  - cbn. by apply Forall_insert.
  - cbn. intros i v Hi Hv. destruct (decide (i = k)) as [->|Hne].
    + rewrite list_lookup_insert_eq in Hv by (apply lookup_lt_Some in Hu; lia). by simplify_eq.
    + rewrite list_lookup_insert_ne in Hv by done. apply (Hd i); [lia|done].
  - exists us, q2. split; [|done]. cbn [seq for_each]. erewrite bind_Done; [exact Hr2|].
    mred. by rewrite Hr.
Qed.

Lemma disable_one_pots s k p q :
  o_PotsPorts (onu s) !! k = Some p -> o_Channel (onu s) = ChOpen q -> pots_ok p ->
  exists p' q', on_pots k (Pots_Disable (onu_ref (onu s))) s =
      Done (None, set_potses (<[k := p']> (o_PotsPorts (onu s))) q' s) /\
    pots_OperState p' = UniStateDown /\ pots_ok p'.
Proof.
  intros Hk Hq (Hst & id & Hid). unfold on_pots. rewrite Hk, Hq. unfold Pots_Disable. mred. cbn.
  case_decide as Hd.
  - exists p, q. split; [|]. { unfold set_potses. destruct s as [[]]. reflexivity. }
    split; [done|]. split; [done|]. eauto.
  - assert (pots_OperState p = UniStateUp) as Hup by (set_solver).
    rewrite (Event_ok _ _ _ UniStateDown); [|cbn [fsm_current pots_fsm]; cbn; by rewrite Hup..].
    mred. cbn. rewrite Hid. mred. cbn.
    eexists {| pots_ID := pots_ID p; pots_MeId := pots_MeId p; pots_PortNo := pots_PortNo p;
      pots_OperState := UniStateDown |}, (q ++ [port_alarm (onu_ref (onu s)) 1 id true])%list. split.
    { unfold set_potses. destruct s as [[]], p. cbn. reflexivity. }
    split; [done|]. split; [cbn; set_solver|]. by exists id.
Qed.

Lemma disable_pots_loop n k s q :
  (k + n)%nat = length (o_PotsPorts (onu s)) -> o_Channel (onu s) = ChOpen q ->
  Forall pots_ok (o_PotsPorts (onu s)) ->
  (forall i p, (i < k)%nat -> o_PotsPorts (onu s) !! i = Some p -> pots_OperState p = UniStateDown) ->
  exists ps q', for_each (seq k n) (fun i => t ← get; on_pots i (Pots_Disable (onu_ref (onu t))) ;; skip) s
      = Done (tt, set_potses ps q' s) /\ Forall pots_ok ps /\
    Forall (fun p => pots_OperState p = UniStateDown) ps.
Proof.
  revert k s q. induction n as [|n IH]; intros k s q Hn Hq Hok Hd.
  { exists (o_PotsPorts (onu s)), q. rewrite set_potses_self by done. split; [done|].
    split; [done|]. apply Forall_lookup. intros i p Hi. apply (Hd i); [|done].
    apply lookup_lt_Some in Hi. lia. }
  destruct (lookup_lt_is_Some_2 (o_PotsPorts (onu s)) k) as [p Hp]; [lia|].
  assert (pots_ok p) as Hpo by (by eapply Forall_lookup_1 in Hok).
  destruct (disable_one_pots s k p q Hp Hq Hpo) as (p' & q' & Hr & Hdn & Hok').
  destruct (IH (S k) (set_potses (<[k := p']> (o_PotsPorts (onu s))) q' s) q') as (ps & q2 & Hr2 & H1 & H2).
  - cbn. rewrite length_insert. lia.
  - done.
  - cbn. by apply Forall_insert.
  - cbn. intros i v Hi Hv. destruct (decide (i = k)) as [->|Hne].
    + rewrite list_lookup_insert_eq in Hv by (apply lookup_lt_Some in Hp; lia). by simplify_eq.
    + rewrite list_lookup_insert_ne in Hv by done. apply (Hd i); [lia|done].
  - exists ps, q2. split; [|done]. cbn [seq for_each]. erewrite bind_Done; [exact Hr2|].
    mred. by rewrite Hr.
Qed.

(** Every port goes down; nothing else of the ONU changes but its channel. *)
Lemma disable_ports_spec s q :
  o_Channel (onu s) = ChOpen q -> Forall uni_ok (o_UniPorts (onu s)) ->
  Forall pots_ok (o_PotsPorts (onu s)) ->
  exists us ps q', disable_ports s = Done (tt, set_potses ps q' (set_unis us q' s)) /\
    Forall uni_ok us /\ Forall uni_down us /\ Forall pots_ok ps /\
    Forall (fun p => pots_OperState p = UniStateDown) ps.
Proof.
  intros Hq Hu Hp. unfold disable_ports. erewrite bind_Done; [|reflexivity].
  destruct (disable_unis_loop (length (o_UniPorts (onu s))) 0 s q) as (us & q1 & R1 & U1 & U2);
    [done..|lia|]. erewrite bind_Done; [|exact R1].
  destruct (disable_pots_loop (length (o_PotsPorts (onu s))) 0 (set_unis us q1 s) q1)
    as (ps & q2 & R2 & P1 & P2); [done..|lia|].
  exists us, ps, q2. rewrite R2. split; [by destruct s as [[]]|done].
Qed.

(** ** Going down *)

Definition set_state (st : string) (s : OnuSys) : OnuSys :=
  s <| onu ::= (fun o => o <| o_InternalState := st |>) |>.

(** What entering the disabled state leaves. *)
Definition down_sys (us : list UniPort) (ps : list PotsPort) (c : chan Message) (s : OnuSys)
    : OnuSys :=
  s <| onu ::= (fun o => o <| Flows := [] |> <| onuAlarmsInfo := ∅ |> <| o_OperState := "down" |>
          <| o_UniPorts := us |>          <| o_PotsPorts := ps |> <| o_Channel := c |>) |>
    <| res ::= (fun p => removeGemPortBySn (o_SerialNumber (onu s))
          (removeAllocIdsForOnuSn (o_SerialNumber (onu s)) (removeOnuId (o_ID (onu s)) p))) |>.

Definition can_disable (st : string) : bool :=
  bool_decide (st ∈ [OnuStateEnabled; OnuStatePonDisabled; OnuStateImageActivated;
                     OnuStateImageDownloadError; OnuStateImageCommitted]).

Definition onu_ok (o : Onu) : Prop :=
  o_OperState o ∈ ["up"; "down"] /\ Forall uni_ok (o_UniPorts o) /\ Forall pots_ok (o_PotsPorts o).

Lemma oper_disable s : o_OperState (onu s) ∈ ["up"; "down"] ->
  exists e, Event oper_fsm "disable" s = Done (e, s <| onu ::= (fun o => o <| o_OperState := "down" |>) |>).
Proof.
  intros H. repeat (apply elem_of_cons in H as [H|H]); [..|by apply elem_of_nil in H].
  - exists None. rewrite (Event_ok _ _ s "down"); [done|cbn [fsm_current oper_fsm]; by rewrite H..].
  - destruct (Event_rejected oper_fsm "disable" s) as [e He].
    { cbn [fsm_current oper_fsm]. by rewrite H. }
    exists (Some e). rewrite He. f_equal. f_equal. destruct s as [[]]. cbn in H. by subst.
Qed.

Lemma enter_disabled_spec s q :
  o_Channel (onu s) = ChOpen q -> onu_ok (onu s) ->
  exists us ps q', let c := if decide (FlowIds (onu s) = []) then ChClosed q' else ChOpen q' in
    enter_disabled s = Done (tt, down_sys us ps c s) /\
    Forall uni_ok us /\ Forall uni_down us /\ Forall pots_ok ps /\
    Forall (fun p => pots_OperState p = UniStateDown) ps.
Proof.
  intros Hq (Hop & Hu & Hp). unfold enter_disabled.
  set (s1 := s <| onu ::= (fun o => o <| Flows := [] |> <| onuAlarmsInfo := ∅ |>) |>
    <| res ::= (fun p => removeGemPortBySn (o_SerialNumber (onu s))
          (removeAllocIdsForOnuSn (o_SerialNumber (onu s)) (removeOnuId (o_ID (onu s)) p))) |>).
  assert (cleanupOnuState s = Done (tt, s1)) as Hc by (by destruct s as [[]]).
  erewrite bind_Done; [|exact Hc].
  destruct (oper_disable s1 Hop) as [e He]. erewrite bind_Done; [|exact He].
  set (s2 := s1 <| onu ::= _ |>). erewrite bind_Done; [|reflexivity].
  set (m := OnuIndication _ _ _).
  set (s3 := s2 <| onu ::= (fun o => o <| o_Channel := ChOpen (q ++ [m]) |>) |>).
  assert (send_self m s2 = Done (tt, s3)) as Hs.
  { unfold send_self, lift_upd. change (o_Channel (onu s2)) with (o_Channel (onu s)). by rewrite Hq. }
  erewrite bind_Done; [|exact Hs].
  destruct (disable_ports_spec s3 (q ++ [m])) as (us & ps & q' & R & U1 & U2 & P1 & P2); [done..|].
  erewrite bind_Done; [|exact R]. erewrite bind_Done; [|reflexivity].
  exists us, ps, q'. split; [|done].
  change (FlowIds (onu (set_potses ps q' (set_unis us q' s3)))) with (FlowIds (onu s)).
  case_decide; by destruct s as [[]].
Qed.

Lemma Disable_onu s q :
  can_disable (o_InternalState (onu s)) = true -> o_Channel (onu s) = ChOpen q -> onu_ok (onu s) ->
  exists us ps q', let c := if decide (FlowIds (onu s) = []) then ChClosed q' else ChOpen q' in
    Event onu_fsm OnuTxDisable s = Done (None, down_sys us ps c (set_state OnuStateDisabled s)) /\
    Forall uni_ok us /\ Forall uni_down us /\ Forall pots_ok ps /\
    Forall (fun p => pots_OperState p = UniStateDown) ps.
Proof.
  intros Hst Hq Hok. apply bool_decide_eq_true in Hst.
  destruct (enter_disabled_spec (set_state OnuStateDisabled s) q) as (us & ps & q' & R & H1); [done..|].
  exists us, ps, q'. split; [|done].
  rewrite (Event_ok _ _ s OnuStateDisabled).
  - erewrite bind_Done; [|reflexivity]. erewrite bind_Done; [|reflexivity].
    erewrite bind_Done; [|exact R]. reflexivity.
  - cbn [fsm_current onu_fsm].
    by repeat (apply elem_of_cons in Hst as [->|Hst]); [..|by apply elem_of_nil in Hst].
  - cbn [fsm_current onu_fsm]. intros E. rewrite E in Hst. by vm_compute in Hst; set_solver.
Qed.

Lemma down_sys_released us ps c s :
  released (o_SerialNumber (onu s)) (res (down_sys us ps c s)) /\
  others_kept (o_SerialNumber (onu s)) (res s) (res (down_sys us ps c s)) /\
  isOnuIdAllocated (o_ID (onu s)) (res (down_sys us ps c s)) = None.
Proof.
  destruct (release_spec (o_SerialNumber (onu s)) (removeOnuId (o_ID (onu s)) (res s))) as [H1 H2].
  split; [exact H1|]. split; [exact H2|]. unfold isOnuIdAllocated. cbn. apply lookup_delete_eq.
Qed.

(** ** Shutting down and powering on *)

Definition los_msg (o : Onu) (raise : bool) : Message :=
  UniStatusAlarm {| us_OnuSN := o_SerialNumber o; us_OnuID := o_ID o; us_AdminState := 0;
    us_EntityID := 257; RaiseOMCIAlarm := raise |}.

(** The alarms of a shutdown, and the one of a power on. *)
Definition shutdown_alarms (o : Onu) : list Message :=
  [MsgAlarmIndication (DyingGaspInd (o_PonPortID o) (o_ID o) "on");
   MsgAlarmIndication (OnuAlarmInd (o_PonPortID o) (o_ID o) "on" "" "" "" "" "")].
Definition poweron_alarm (o : Onu) : Message :=
  MsgAlarmIndication (OnuAlarmInd (o_PonPortID o) (o_ID o) "off" "" "" "" "" "").

Lemma simulate_dying_gasp s oq : olt_channel s = ChOpen oq ->
  simulate_alarm "DYING_GASP" "on" s = Done (None, s <| olt_channel := ChOpen (oq ++
    [MsgAlarmIndication (DyingGaspInd (o_PonPortID (onu s)) (o_ID (onu s)) "on")]) |>).
Proof. intros H. unfold simulate_alarm, zoom. mred. unfold SimulateOnuAlarm. by rewrite H. Qed.

Lemma simulate_los s oq status : olt_channel s = ChOpen oq ->
  simulate_alarm "ONU_ALARM_LOS" status s = Done (None, s <| olt_channel := ChOpen (oq ++
    [MsgAlarmIndication (OnuAlarmInd (o_PonPortID (onu s)) (o_ID (onu s)) status "" "" "" "" "")]) |>).
Proof. intros H. unfold simulate_alarm, zoom. mred. unfold SimulateOnuAlarm. by rewrite H. Qed.

Lemma send_los s q raise : o_Channel (onu s) = ChOpen q ->
  SendOMCIAlarmNotificationMsg raise "ONU_ALARM_LOS" s =
    Done (tt, s <| onu ::= (fun o => o <| o_Channel := ChOpen (q ++ [los_msg (onu s) raise]) |>) |>).
Proof.
  intros H. unfold SendOMCIAlarmNotificationMsg. mred. rewrite decide_True by done.
  unfold send_self, lift_upd. by rewrite H.
Qed.

Lemma Shutdown_onu s q oq :
  can_disable (o_InternalState (onu s)) = true -> o_Channel (onu s) = ChOpen q ->
  olt_channel s = ChOpen oq -> onu_ok (onu s) ->
  exists us ps q', let c := if decide (FlowIds (onu s) = []) then ChClosed q' else ChOpen q' in
    HandleShutdownONU s = Done (None, down_sys us ps c (set_state OnuStateDisabled s)
      <| olt_channel := ChOpen (oq ++ shutdown_alarms (onu s)) |>) /\
    Forall uni_ok us /\ Forall uni_down us /\ Forall pots_ok ps /\
    Forall (fun p => pots_OperState p = UniStateDown) ps.
Proof.
  intros Hst Hq Hoq Hok.
  set (s1 := s <| olt_channel := ChOpen (oq ++ shutdown_alarms (onu s)) |>).
  set (s2 := s1 <| onu ::= (fun o => o <| o_Channel := ChOpen (q ++ [los_msg (onu s) true]) |>) |>).
  destruct (Disable_onu s2 (q ++ [los_msg (onu s) true])) as (us & ps & q' & R & H1); [done..|].
  exists us, ps, q'. split; [|done]. unfold HandleShutdownONU.
  erewrite bind_Done; [|by apply simulate_dying_gasp]. cbv beta iota.
  erewrite bind_Done; [|by apply simulate_los]. cbv beta iota.
  erewrite bind_Done; [|reflexivity]. rewrite decide_True.
  2:{ cbn [fsm_current onu_fsm]. cbn. intros E. by rewrite E in Hst. }
  erewrite bind_Done; [|by apply send_los]. cbn [onu].
  rewrite <-app_assoc. erewrite bind_Done; [|exact R]. reflexivity.
Qed.

(** The state a disabled ONU is in after it was powered on. *)
Definition on_sys (oq : list Message) (s : OnuSys) : OnuSys :=
  s <| onu ::= (fun o => o <| o_InternalState := OnuStateEnabled |> <| o_OperState := "up" |>
         <| o_goroutines ::= (if o_isMock o then id else S) |>
         <| o_Channel := ChOpen [los_msg o false; OnuDiscIndication UP;
              OnuIndication UP (o_PonPortID o) (o_SerialNumber o)] |>) |>
    <| olt_channel := ChOpen (oq ++ [poweron_alarm (onu s)]) |>
    <| res ::= storeOnuId (o_ID (onu s)) (o_SerialNumber (onu s)) |>.

Definition set_chan (q : list Message) (s : OnuSys) : OnuSys :=
  s <| onu ::= (fun o => o <| o_Channel := ChOpen q |>) |>.

Lemma Initialize_onu s :
  o_InternalState (onu s) ∈ [OnuStateCreated; OnuStateDisabled] -> o_OperState (onu s) = "down" ->
  Event onu_fsm OnuTxInitialize s = Done (None, s <| onu ::= (fun o =>
    o <| o_InternalState := OnuStateInitialized |> <| o_Channel := ChOpen [] |>
      <| o_OperState := "up" |> <| o_goroutines ::= (if o_isMock o then id else S) |>) |>).
Proof.
  intros Hst Hop. rewrite (Event_ok _ _ s OnuStateInitialized).
  - destruct s as [[]]. cbn in Hop. subst. by destruct o_isMock0.
  - cbn [fsm_current onu_fsm].
    by repeat (apply elem_of_cons in Hst as [->|Hst]); [..|by apply elem_of_nil in Hst].
  - cbn [fsm_current onu_fsm]. intros E. rewrite E in Hst. by vm_compute in Hst; set_solver.
Qed.

Lemma Discover_onu s q :
  o_InternalState (onu s) = OnuStateInitialized -> o_Channel (onu s) = ChOpen q ->
  Event onu_fsm OnuTxDiscover s =
    Done (None, set_chan (q ++ [OnuDiscIndication UP]) (set_state OnuStateDiscovered s)).
Proof.
  intros Hst Hq. rewrite (Event_ok _ _ s OnuStateDiscovered); [|cbn [fsm_current onu_fsm]; by rewrite Hst..].
  destruct s as [[]]. cbn in Hst, Hq. by subst.
Qed.

Lemma Enable_onu s q :
  o_InternalState (onu s) = OnuStateDiscovered \/ o_InternalState (onu s) = OnuStatePonDisabled ->
  o_Channel (onu s) = ChOpen q -> isOnuIdAllocated (o_ID (onu s)) (res s) = None ->
  Event onu_fsm OnuTxEnable s = Done (None, set_chan
    (q ++ [OnuIndication UP (o_PonPortID (onu s)) (o_SerialNumber (onu s))])
    (set_state OnuStateEnabled s) <| res ::= storeOnuId (o_ID (onu s)) (o_SerialNumber (onu s)) |>).
Proof.
  intros Hst Hq Hid. rewrite (Event_ok _ _ s OnuStateEnabled);
    [|cbn [fsm_current onu_fsm]; by destruct Hst as [-> | ->]..].
  destruct s as [[]]. cbn in Hst, Hq, Hid. subst.
  unfold onu_fsm, onu_enter, enter_enabled, no_before, no_after. cbn [fsm_before fsm_enter fsm_after].
  rewrite !(decide_False (P := OnuStateEnabled = _)) by done. rewrite decide_True by done.
  mred. cbn. rewrite Hid. reflexivity.
Qed.

Lemma PowerOn_onu s oq :
  o_InternalState (onu s) = OnuStateDisabled -> o_OperState (onu s) = "down" ->
  olt_state s <> "deleted" -> olt_channel s = ChOpen oq ->
  isOnuIdAllocated (o_ID (onu s)) (res s) = None ->
  HandlePowerOnONU s = Done (None, on_sys oq s).
Proof.
  intros Hst Hop Hd Hoq Hid. unfold HandlePowerOnONU.
  erewrite bind_Done; [|reflexivity]. cbn [fsm_current onu_fsm]. rewrite Hst.
  erewrite bind_Done; [|reflexivity]. rewrite decide_False by done. rewrite decide_True by auto.
  erewrite bind_Done; [|apply Initialize_onu; [rewrite Hst; set_solver|done]]. cbv beta iota.
  erewrite bind_Done; [|by apply simulate_los]. cbv beta iota.
  erewrite bind_Done; [|by apply send_los].
  erewrite bind_Done; [|by eapply Discover_onu]. cbv beta iota.
  erewrite bind_Done; [|eapply Enable_onu; [by left|done|exact Hid]].
  destruct s as [[]]. reflexivity.
Qed.

(** C14: shutting an ONU down takes everything down and frees exactly what it
    held.  From a state in which it can be disabled, with its channel and the
    channel of the OLT open, the OLT gets the dying gasp and the loss of
    signal, every port and service goes down, the alarms and flows are
    forgotten, the ONU holds no GEM port and no alloc identifier any more, and
    the GEM ports and alloc identifiers of the other ONUs of the PON are
    untouched.  Of the table of ONU identifiers exactly the entry of the
    identifier of this ONU is deleted, whichever serial number it is registered
    to.  The channel of the ONU is closed exactly when no flow is left. *)
Theorem shutdown_releases (s : OnuSys) (q oq : list Message) :
  can_disable (o_InternalState (onu s)) = true -> o_Channel (onu s) = ChOpen q ->
  olt_channel s = ChOpen oq -> onu_ok (onu s) ->
  exists s' q', HandleShutdownONU s = Done (None, s') /\
    o_InternalState (onu s') = OnuStateDisabled /\ o_OperState (onu s') = "down" /\
    Forall uni_down (o_UniPorts (onu s')) /\
    Forall (fun p => pots_OperState p = UniStateDown) (o_PotsPorts (onu s')) /\
    Flows (onu s') = [] /\ onuAlarmsInfo (onu s') = ∅ /\
    released (o_SerialNumber (onu s)) (res s') /\
    others_kept (o_SerialNumber (onu s)) (res s) (res s') /\
    AllocatedOnuIds (res s') = delete (o_ID (onu s)) (AllocatedOnuIds (res s)) /\
    olt_channel s' = ChOpen (oq ++ shutdown_alarms (onu s)) /\
    o_Channel (onu s') = (if decide (FlowIds (onu s) = []) then ChClosed q' else ChOpen q').
Proof.
  intros Hst Hq Hoq Hok.
  destruct (Shutdown_onu s q oq Hst Hq Hoq Hok) as (us & ps & q' & R & _ & Hu & _ & Hp).
  eexists _, q'. split; [exact R|]. set (t := (set_state OnuStateDisabled s) <| olt_channel := _ |>).
  destruct (down_sys_released us ps (if decide (FlowIds (onu s) = []) then ChClosed q' else ChOpen q') t)
    as (H1 & H2 & H3).
  split_and!; try done.
Qed.

(** C1: a reboot brings the ONU back.  If the OLT was not deleted, an ONU that
    can be disabled ends up enabled again, with its identifier registered to
    it, its ports down, no GEM port and no alloc identifier of its own, a new
    channel that holds the end of the alarm, the discovery and the indication
    that it is up, and the OLT was sent the dying gasp, the loss of signal and
    its end, in this order. *)
Theorem reboot_restores (s : OnuSys) (q oq : list Message) :
  can_disable (o_InternalState (onu s)) = true -> o_Channel (onu s) = ChOpen q ->
  olt_channel s = ChOpen oq -> onu_ok (onu s) -> olt_state s <> "deleted" ->
  exists s', Reboot s = Done (None, s') /\
    o_InternalState (onu s') = OnuStateEnabled /\ o_OperState (onu s') = "up" /\
    Forall uni_down (o_UniPorts (onu s')) /\
    Forall (fun p => pots_OperState p = UniStateDown) (o_PotsPorts (onu s')) /\
    released (o_SerialNumber (onu s)) (res s') /\
    others_kept (o_SerialNumber (onu s)) (res s) (res s') /\
    isOnuIdAllocated (o_ID (onu s)) (res s') = Some (o_SerialNumber (onu s)) /\
    o_Channel (onu s') = ChOpen [los_msg (onu s) false; OnuDiscIndication UP;
      OnuIndication UP (o_PonPortID (onu s)) (o_SerialNumber (onu s))] /\
    olt_channel s' = ChOpen (oq ++ shutdown_alarms (onu s) ++ [poweron_alarm (onu s)]).
Proof.
  intros Hst Hq Hoq Hok Hdel.
  destruct (Shutdown_onu s q oq Hst Hq Hoq Hok) as (us & ps & q' & R & _ & Hu & _ & Hp).
  unfold Reboot. erewrite bind_Done; [|exact R]. cbv beta iota.
  set (t := (set_state OnuStateDisabled s) <| olt_channel := _ |>).
  set (c := if decide _ then _ else _).
  destruct (down_sys_released us ps c t) as (H1 & H2 & H3).
  rewrite (PowerOn_onu _ (oq ++ shutdown_alarms (onu s))); [|done..].
  eexists. split; [reflexivity|]. split_and!; try done.
  - unfold isOnuIdAllocated. cbn. apply lookup_insert_eq.
  - cbn. by rewrite <-app_assoc.
Qed.

(** An enabled ONU with one UNI that is up, holding GEM port 1024; another ONU
    of the PON holds port 1025. *)
Definition running_onu : OnuSys := {|
  onu := {| o_ID := 1; o_PonPortID := 0; o_InternalState := OnuStateEnabled;
    o_UniPorts := [uni (match Uni_Enable some_onu fresh_uni with Done (_, s) => s | _ => fresh_uni end)];
    o_PotsPorts := [NewPotsPort 1]; Flows := [7]; FlowIds := []; o_OperState := "up";
    o_SerialNumber := NewSN 7 0 0 1; AdminLockState := 0; o_Channel := ChOpen []; MibDataSync := 3;
    ImageSoftwareExpectedSections := 0; ImageSoftwareReceivedSections := 0;
    ActiveImageEntityId := 0; CommittedImageEntityId := 0; StandbyImageVersion := "BBSM_IMG_00000";
    ActiveImageVersion := "BBSM_IMG_00001"; InDownloadImageVersion := "";
    CommittedImageVersion := "BBSM_IMG_00001"; OmciResponseRate := 10; OmciMsgCounter := 0;
    ImageSectionData := []; tid := 1; hpTid := 0x8000; seqNumber := 0; o_MibDb := onu_data_db;
    onuAlarmsInfo := ∅; o_isMock := false; o_goroutines := 1; o_Done := 0;
    TrafficSchedulers := None |};
  res := {| AllocatedGemPorts := {[ 1024 := NewSN 7 0 0 1; 1025 := NewSN 8 0 0 2 ]};
            AllocatedOnuIds := {[ 1 := NewSN 7 0 0 1 ]}; AllocatedAllocIds := ∅ |};
  o_wire := {| s_err := None; s_sent := [] |}; olt_channel := ChOpen []; olt_state := "enabled";
  PublishEvents := false; published := []; tasks := []; o_client := None |}.

Lemma running_onu_ok : onu_ok (onu running_onu).
Proof.
  split; [by left|]. split.
  - apply Forall_singleton. split; [left|by eexists]. split; [done|].
    apply Forall_singleton. intros w. split_and!; try done; by eexists.
  - apply Forall_singleton. split; [set_solver|by eexists].
Qed.

Lemma shutdown_releases_witness :
  exists s', HandleShutdownONU running_onu = Done (None, s') /\
    gem_holder (res s') 1024 <> Some 7 /\ gem_holder (res s') 1025 = Some 8.
Proof.
  destruct (shutdown_releases running_onu [] [] eq_refl eq_refl eq_refl running_onu_ok)
    as (s' & q' & R & _ & _ & _ & _ & _ & _ & [Hr _] & [Ho _] & _).
  exists s'. split; [exact R|]. split; [apply (Hr 1024)|]. by apply (Ho 1025).
Defined.

Lemma reboot_restores_witness :
  exists s', Reboot running_onu = Done (None, s') /\ o_InternalState (onu s') = OnuStateEnabled.
Proof.
  destruct (reboot_restores running_onu [] [] eq_refl eq_refl eq_refl running_onu_ok)
    as (s' & R & E & _); [done|]. exists s'. exact (conj R E).
Defined.

(** Two ONUs never share an identifier on a PON.  Enabling an ONU whose
    identifier is held by another one changes no resource table and tells
    VOLTHA nothing, although the state machine moves. *)
Theorem duplicate_id_not_stored (s : OnuSys) (holder : SerialNumber) :
  o_InternalState (onu s) = OnuStateDiscovered \/ o_InternalState (onu s) = OnuStatePonDisabled ->
  isOnuIdAllocated (o_ID (onu s)) (res s) = Some holder ->
  Event onu_fsm OnuTxEnable s = Done (None, set_state OnuStateEnabled s).
Proof.
  intros Hst Hid. rewrite (Event_ok _ _ s OnuStateEnabled);
    [|cbn [fsm_current onu_fsm]; by destruct Hst as [-> | ->]..].
  destruct s as [[]]. cbn in Hst, Hid. subst.
  unfold onu_fsm, onu_enter, enter_enabled, no_before, no_after. cbn [fsm_before fsm_enter fsm_after].
  rewrite !(decide_False (P := OnuStateEnabled = _)) by done. rewrite decide_True by done.
  mred. cbn. rewrite Hid. reflexivity.
Qed.

Lemma duplicate_id_not_stored_witness :
  exists s', Event onu_fsm OnuTxEnable (set_state OnuStateDiscovered running_onu) = Done (None, s') /\
    res s' = res running_onu.
Proof.
  eexists. split; [apply (duplicate_id_not_stored _ (NewSN 7 0 0 1)); [by left|reflexivity]|done].
Defined.

(** ** Flows *)

Lemma remove_first_perm x l : x ∈ l -> l ≡ₚ x :: remove_first x l.
Proof.
  induction l as [|y l IH]; [by intros ?%elem_of_nil|]. intros H. cbn.
  case_decide as E; [by subst|]. apply elem_of_cons in H as [->|H]; [done|].
  rewrite Permutation_swap. constructor. by apply IH.
Qed.

Lemma remove_first_absent x l : x ∉ l -> remove_first x l = l.
Proof.
  induction l as [|y l IH]; [done|]. intros H. apply not_elem_of_cons in H as [H1 H2]. cbn.
  rewrite decide_False by congruence. by rewrite IH.
Qed.

(** ** Counters *)

(** The transaction identifiers BBR uses.  Normal requests draw from
    [1 .. 0x7FFF] and high priority ones from [0x8000 .. 0xFFFF], each range
    in order and starting over at its end. *)
Theorem getNextTid_ranges (s : OnuSys) (hp : bool) :
  1 <= tid (onu s) < 0x8000 -> 0x8000 <= hpTid (onu s) < 0x10000 ->
  exists t s', getNextTid hp s = Done (t, s') /\
    (if hp then 0x8000 <= t < 0x10000 else 1 <= t < 0x8000) /\
    1 <= tid (onu s') < 0x8000 /\ 0x8000 <= hpTid (onu s') < 0x10000 /\
    (if hp then hpTid (onu s') = (if decide (t = 0xFFFF) then 0x8000 else t + 1)
     else tid (onu s') = (if decide (t = 0x7FFF) then 1 else t + 1)).
Proof.
  intros Ht Hh. unfold getNextTid, upd_onu. mred. destruct hp; eexists _, _; (split; [reflexivity|]);
    cbn -[Z.pow]; unfold u16; rewrite ?Z.mod_small by lia.
  - assert ((hpTid (onu s) + 1) mod 2 ^ 16 = if decide (hpTid (onu s) = 0xFFFF) then 0 else hpTid (onu s) + 1)
      as ->. { case_decide as E; [by rewrite E|]. apply Z.mod_small. lia. }
    repeat case_decide; lia.
  - repeat case_decide; lia.
Qed.

Lemma getNextTid_ranges_witness :
  exists t s', getNextTid true running_onu = Done (t, s') /\ hpTid (onu s') = 0x8001.
Proof.
  destruct (getNextTid_ranges running_onu true) as (t & s' & R & _ & _ & _ & H); [done..|].
  exists t, s'. split; [exact R|]. revert R H. vm_compute. by intros [= <- <-].
Defined.

(** After [InvalidateMibDataSync] the MIB data sync of the ONU is a byte
    that is neither 0, the value of a MIB that was just reset, nor the value it
    had. *)
Theorem InvalidateMibDataSync_changes (s : OnuSys) (r : Z) :
  is_u8 (MibDataSync (onu s)) ->
  exists s', InvalidateMibDataSync r s = Done (tt, s') /\ is_u8 (MibDataSync (onu s')) /\
    MibDataSync (onu s') <> 0 /\ MibDataSync (onu s') <> MibDataSync (onu s).
Proof.
  unfold is_u8. intros Hm. unfold InvalidateMibDataSync, upd_onu. mred. cbn.
  pose proof (Z.mod_pos_bound r 10 ltac:(lia)) as Hr. unfold u8.
  rewrite (Z.mod_small (r mod 10 + 1)) by (change (2 ^ 8) with 256; lia).
  set (d := r mod 10 + 1) in *. set (m := MibDataSync (onu s)) in *.
  pose proof (Z.mod_pos_bound (m + d) (2 ^ 8) ltac:(lia)).
  assert ((m + d) mod 2 ^ 8 = m + d \/ (m + d) mod 2 ^ 8 = m + d - 256) as Hc.
  { destruct (decide (m + d < 256)); [left; apply Z.mod_small; lia|right].
    symmetry. apply (Z.mod_unique _ _ 1); lia. }
  change (2 ^ 8) with 256 in *.
  case_decide as E; eexists; (split; [reflexivity|]); cbn -[Z.modulo].
  - fold m. rewrite E. change ((0 + 1) mod 256) with 1. lia.
  - fold m. lia.
Qed.

Lemma InvalidateMibDataSync_changes_witness :
  exists s', InvalidateMibDataSync 42 running_onu = Done (tt, s') /\ MibDataSync (onu s') <> 0.
Proof.
  destruct (InvalidateMibDataSync_changes running_onu 42) as (s' & R & _ & H & _); [done|].
  by exists s'.
Defined.

(** The sequence numbers of the alarms of an entity go from 1 to 255 and
    start over at 1, and only the entry of that entity is written. *)
Theorem alarm_sequence_numbers (s : OnuSys) (key : OnuAlarmInfoMapKey) :
  (forall i, onuAlarmsInfo (onu s) !! key = Some i -> 0 <= SequenceNo i < 256) ->
  exists n s', IncrementAlarmSequenceNumber key s = Done (n, s') /\ 1 <= n <= 255 /\
    n = (match onuAlarmsInfo (onu s) !! key with
         | Some i => if decide (SequenceNo i = 255) then 1 else SequenceNo i + 1
         | None => 1
         end) /\
    SequenceNo <$> onuAlarmsInfo (onu s') !! key = Some n /\
    forall k, k <> key -> onuAlarmsInfo (onu s') !! k = onuAlarmsInfo (onu s) !! k.
Proof.
  intros Hb. unfold IncrementAlarmSequenceNumber, upd_onu. mred.
  assert (forall (m : OnuAlarms) x, <[key := x]> m !! key = Some x) as Hl
    by (intros; apply lookup_insert_eq).
  assert (forall (m : OnuAlarms) x k, k <> key -> <[key := x]> m !! k = m !! k) as Ho
    by (intros; by apply lookup_insert_ne).
  destruct (onuAlarmsInfo (onu s) !! key) as [i|] eqn:E.
  - specialize (Hb i eq_refl). eexists _, _. split; [reflexivity|].
    unfold upd, set_onu, set_alarms. cbn [onu onuAlarmsInfo]. rewrite Hl.
    unfold u8. split_and!; [..|done|by intros; apply Ho];
      case_decide; rewrite ?Z.mod_small by (change (2 ^ 8) with 256; lia); lia.
  - eexists _, _. split; [reflexivity|]. unfold upd, set_onu, set_alarms. cbn [onu onuAlarmsInfo].
    rewrite Hl. split_and!; [lia..|done|done|by intros; apply Ho].
Qed.

Lemma alarm_sequence_numbers_witness :
  exists n s', IncrementAlarmSequenceNumber (257, 11) running_onu = Done (n, s') /\ 1 <= n <= 255.
Proof.
  destruct (alarm_sequence_numbers running_onu (257, 11)) as (n & s' & R & H & _); [done|]. eauto.
Defined.
