(* ===== verification/OnuOmci.v ===== *)
(** * ONUs: OMCI requests

    [internal/bbsim/devices/onu.go], [handleOmciRequest]: every OMCI request
    VOLTHA sends to an ONU, with its effect on the MIB data sync, the resource
    tables of the PON, the ports, the software images and the state machine,
    and the response it gets.  One definition per message type; the response
    is the packet to send, if any. *)
From S2P Require Import Prelude Fsm Options OmciTypes Omci MibDb Packets Types Io Service.
From S2P Require Import PonRes AlarmSim UniPort Get Onu.
Open Scope Z_scope.
Open Scope string_scope.

Definition maxOmciMsgCounter : Z := 10.

(** [o.MibDataSync++]. *)
Definition incr_mds : M OnuSys unit := upd_onu (fun o => o <| MibDataSync ::= (fun m => u8 (m + 1)) |>).

(** A response whose error is dropped. *)
Definition ok_pkt (r : error + list Z) : option (list Z) :=
  match r with inl _ => None | inr p => Some p end.

(** [if responsePkt, errResp = r; errResp == nil { m }]. *)
Definition on_success (r : error + list Z) (m : M OnuSys unit) : M OnuSys (option (list Z)) :=
  match r with inl _ => mret None | inr p => m ;; mret (Some p) end.

Section Omci.
  Context `{OmciLib} `{MeLib} (rnd : nat -> Z) (omccVersion : Z).
  (** What the buffer of the image holds between its length and its
      capacity. *)
  Context (spare : list Z -> list Z).

(** Source: internal/bbsim/devices/onu.go:847-859, [Onu.handleOmciRequest]. *)
Definition handle_mib_reset (msg : OmciMessage) : M OnuSys (option (list Z)) :=
  on_success (CreateMibResetResponse (TransactionID (OmciMsg msg)))
    (upd_onu (fun o => o <| MibDataSync := 0 |>) ;;
     s ← get;
     upd_res (removeAllocIdsForOnuSn (o_SerialNumber (onu s))) ;;
     upd_res (removeGemPortBySn (o_SerialNumber (onu s)))).

(** The state of the ONU a get request may report. *)
Definition get_params (o : Onu) : GetParams := {|
  gp_onuSn := o_SerialNumber o; gp_mds := MibDataSync o;
  gp_activeImageEntityId := ActiveImageEntityId o;
  gp_committedImageEntityId := CommittedImageEntityId o;
  gp_standbyImageVersion := StandbyImageVersion o; gp_activeImageVersion := ActiveImageVersion o;
  gp_committedImageVersion := CommittedImageVersion o;
  gp_onuDown := bool_decide (AdminLockState o = 1) |}.

(** Source: internal/bbsim/devices/onu.go:864-868, [Onu.handleOmciRequest]. *)
Definition handle_get (msg : OmciMessage) : M OnuSys (option (list Z)) :=
  s ← get;
  r ← of_outcome (CreateGetResponse rnd omccVersion (OmciPkt msg) (OmciMsg msg) (get_params (onu s)));
  mret (match r with inl _ => None | inr p => p end).

(** Source: internal/bbsim/devices/onu.go:873-926, [Onu.handleOmciRequest] (the
    administrative state of a port; an error of the port is only logged). *)
Definition set_port (o : OnuRef) (class inst : Z) (attrs : AttributeValueMap) : M OnuSys bool :=
  s ← get;
  if decide (class = PhysicalPathTerminationPointEthernetUniClassID) then
    match FindUniByEntityId (onu s) inst with
    | inl _ => mret false
    | inr i =>
        adminState ← of_outcome (attr_u8 attrs "AdministrativeState");
        (if decide (adminState = 1) then on_uni i (Uni_Disable o) else on_uni i (Uni_Enable o)) ;;
        mret true
    end
  else
    match FindPotsByEntityId (onu s) inst with
    | inl _ => mret false
    | inr i =>
        adminState ← of_outcome (attr_u8 attrs "AdministrativeState");
        (if decide (adminState = 1) then on_pots i (Pots_Disable o) else on_pots i (Pots_Enable o)) ;;
        mret true
    end.

(** Source: internal/bbsim/devices/onu.go:935-969, [Onu.handleOmciRequest] (the
    alloc identifier of a T-CONT: 255 and 65535 free it). *)
Definition set_tcont (attrs : AttributeValueMap) : M OnuSys bool :=
  allocId ← of_outcome (attr_u16 attrs "AllocId");
  entityID ← of_outcome (attr_u16 attrs "ManagedEntityId");
  s ← get;
  let pon := o_PonPortID (onu s) in
  let id := o_ID (onu s) in
  if decide (allocId = 255 \/ allocId = 65535) then
    upd_res (removeAllocId pon id entityID) ;; mret true
  else
    match isAllocIdAllocated pon id entityID (res s) with
    | Some _ => mret false
    | None => upd_res (storeAllocId pon id entityID allocId (o_SerialNumber (onu s))) ;; mret true
    end.

(** Source: internal/bbsim/devices/onu.go:871-976, [Onu.handleOmciRequest] (the
    effect of a set request, by class, and whether it succeeds). *)
Definition set_effect (class inst : Z) (attrs : AttributeValueMap) : M OnuSys bool :=
  s ← get;
  if decide (class = PhysicalPathTerminationPointEthernetUniClassID \/
             class = PhysicalPathTerminationPointPotsUniClassID) then
    set_port (onu_ref (onu s)) class inst attrs
  else if decide (class = OnuGClassID) then
    lock ← of_outcome (attr_u8 attrs "AdministrativeState");
    upd_onu (fun o => o <| AdminLockState := lock |>) ;; mret true
  else if decide (class = TContClassID) then set_tcont attrs
  else mret true.

(** Source: internal/bbsim/devices/onu.go:869-987, [Onu.handleOmciRequest]. *)
Definition handle_set (msg : OmciMessage) : M OnuSys (option (list Z)) :=
  match ParseSetRequest (OmciPkt msg) with
  | inl _ => panic "nil SetRequest"
  | inr (b, attrs) =>
      success ← set_effect (EntityClass b) (EntityInstance b) attrs;
      if (success : bool) then on_success (CreateSetResponse (OmciPkt msg) (OmciMsg msg) Success) incr_mds
      else mret (ok_pkt (CreateSetResponse (OmciPkt msg) (OmciMsg msg) AttributeFailure))
  end.

(** Source: internal/bbsim/devices/onu.go:989-1014, [Onu.handleOmciRequest] (a
    GEM port is allocated unless it is in use; 4069 is for multicast). *)
Definition create_effect (pkt : Packet) : M OnuSys bool :=
  s ← get;
  match ParseCreateRequest pkt with
  | inr b =>
      if decide (EntityClass b = GemPortNetworkCtpClassID /\ EntityInstance b <> 4069) then
        match isGemPortAllocated (EntityInstance b) (res s) with
        | Some _ => mret true
        | None => upd_res (storeGemPort (EntityInstance b) (o_SerialNumber (onu s))) ;; mret false
        end
      else mret false
  | inl _ => mret false
  end.

(** Source: internal/bbsim/devices/onu.go:988-1027, [Onu.handleOmciRequest]. *)
Definition handle_create (msg : OmciMessage) : M OnuSys (option (list Z)) :=
  used ← create_effect (OmciPkt msg);
  if (used : bool) then mret (ok_pkt (CreateCreateResponse (OmciPkt msg) (OmciMsg msg) ProcessingError))
  else on_success (CreateCreateResponse (OmciPkt msg) (OmciMsg msg) Success) incr_mds.

(** Source: internal/bbsim/devices/onu.go:1028-1044, [Onu.handleOmciRequest]. *)
Definition handle_delete (msg : OmciMessage) : M OnuSys (option (list Z)) :=
  match ParseDeleteRequest (OmciPkt msg) with
  | inr b =>
      if decide (EntityClass b = GemPortNetworkCtpClassID)
      then upd_res (removeGemPort (EntityInstance b)) else skip
  | inl _ => skip
  end ;;
  on_success (CreateDeleteResponse (OmciPkt msg) (OmciMsg msg)) incr_mds.

(** Source: internal/bbsim/devices/onu.go:1045-1061, [Onu.handleOmciRequest]. *)
Definition handle_reboot (msg : OmciMessage) : M OnuSys (option (list Z)) :=
  spawn TReboot ;; mret (ok_pkt (CreateRebootResponse (OmciPkt msg) (OmciMsg msg))).

(** Source: internal/bbsim/devices/onu.go:1062-1087, [Onu.handleOmciRequest]. *)
Definition handle_test (msg : OmciMessage) : M OnuSys (option (list Z)) :=
  match CreateTestResponse (OmciPkt msg) (OmciMsg msg) with
  | (inr pkt, classID, instID, Success) =>
      match CreateTestResult classID instID (TransactionID (OmciMsg msg)) with
      | inr testResultPkt => spawn (TTestResult testResultPkt (TransactionID (OmciMsg msg)))
      | inl _ => skip
      end ;; mret (Some pkt)
  | (r, _, _, _) => mret (ok_pkt r)
  end.

(** Source: internal/bbsim/devices/onu.go:1091-1115, [Onu.handleOmciRequest]. *)
Definition handle_start_download (msg : OmciMessage) : M OnuSys (option (list Z)) :=
  upd_onu (fun o => o <| ImageSoftwareReceivedSections := 0 |> <| ImageSectionData := [] |>) ;;
  n ← of_outcome (ComputeDownloadSectionsCount (OmciPkt msg));
  upd_onu (fun o => o <| ImageSoftwareExpectedSections := n |>) ;;
  r ← of_outcome (CreateStartSoftwareDownloadResponse (OmciPkt msg) (OmciMsg msg));
  on_success r (incr_mds ;; Event onu_fsm OnuTxStartImageDownload ;; skip).

(** Source: internal/bbsim/devices/onu.go:1116-1141, [Onu.handleOmciRequest].
    The version is the first 14 bytes of the first section. *)
Definition handle_section (msg : OmciMessage) : M OnuSys (option (list Z)) :=
  match ParseDownloadSectionRequest (OmciPkt msg) with
  | inl _ => mret None
  | inr (_, _, data) =>
      s ← get;
      (if decide (ImageSoftwareReceivedSections (onu s) = 0) then
         if decide (length data < 14)%nat then panic "slice bounds out of range"
         else upd_onu (fun o => o <| InDownloadImageVersion := string_of_bytes (take 14 data) |>)
       else skip) ;;
      upd_onu (fun o => o <| ImageSectionData ::= (fun l => l ++ data)%list |>
                          <| ImageSoftwareReceivedSections ::= (fun n => u32 (n + 1)) |>) ;;
      (if decide (o_InternalState (onu s) <> OnuStateImageDownloadInProgress)
       then Event onu_fsm OnuTxProgressImageDownload ;; skip else skip) ;;
      mret None
  end.

(** Source: internal/bbsim/devices/onu.go:1142-1166, [Onu.handleOmciRequest].
    An error of the response ends the request. *)
Definition handle_section_ack (msg : OmciMessage) : M OnuSys (error + option (list Z)) :=
  match ParseDownloadSectionRequest (OmciPkt msg) with
  | inl _ => mret (inr None)
  | inr (_, _, data) =>
      upd_onu (fun o => o <| ImageSectionData ::= (fun l => l ++ data)%list |>) ;;
      match CreateDownloadSectionResponse (OmciPkt msg) (OmciMsg msg) with
      | inl _ => mret (inl "error-while-processing-create-download-section-response")
      | inr pkt =>
          upd_onu (fun o => o <| ImageSoftwareReceivedSections ::= (fun n => u32 (n + 1)) |>) ;;
          mret (inr (Some pkt))
      end
  end.

(** The bytes of a 32-bit number in the other order. *)
Definition swap32 (z : Z) : Z :=
  (z mod 2 ^ 8) * 2 ^ 24 + (z / 2 ^ 8 mod 2 ^ 8) * 2 ^ 16 + (z / 2 ^ 16 mod 2 ^ 8) * 2 ^ 8 +
  z / 2 ^ 24 mod 2 ^ 8.

(** [data[:n]]: a slice may go up to the capacity of the buffer. *)
Definition slice_to (data : list Z) (n : Z) : outcome (list Z) :=
  if decide (n <= Z.of_nat (length (data ++ spare data))) then Done (take (Z.to_nat n) (data ++ spare data))
  else Panicked "slice bounds out of range".

(** Source: internal/bbsim/devices/onu.go, [Onu.handleEndSoftwareDownloadRequest]. *)
Definition handleEndSoftwareDownloadRequest (msg : OmciMessage) : M OnuSys bool :=
  match ParseEndSoftwareDownloadRequest (OmciPkt msg) with
  | inl _ => mret false
  | inr (_, crc, imageSize) =>
      s ← get;
      let o := onu s in
      if decide (ImageSoftwareReceivedSections o > 0 /\ imageSize = 0 /\ crc = 4294967295) then
        upd_onu (fun o => o <| ImageSoftwareReceivedSections := 0 |>) ;; mret true
      else if decide (ImageSoftwareExpectedSections o <> ImageSoftwareReceivedSections o) then mret false
      else
        image ← of_outcome (slice_to (ImageSectionData o) imageSize);
        if decide (crc <> swap32 (Checksum image)) then mret false
        else
          upd_onu (fun o => o <| StandbyImageVersion := InDownloadImageVersion o |>) ;; mret true
  end.

(** Source: internal/bbsim/devices/onu.go:1167-1201, [Onu.handleOmciRequest]. *)
Definition handle_end_download (msg : OmciMessage) : M OnuSys (option (list Z)) :=
  success ← handleEndSoftwareDownloadRequest msg;
  if (success : bool) then
    on_success (CreateEndSoftwareDownloadResponse (OmciPkt msg) (OmciMsg msg) Success)
      (incr_mds ;; Event onu_fsm OnuTxCompleteImageDownload ;; skip)
  else
    on_success (CreateEndSoftwareDownloadResponse (OmciPkt msg) (OmciMsg msg) ProcessingError)
      (Event onu_fsm OnuTxFailImageDownload ;; skip).

(** Source: internal/bbsim/devices/onu.go:1202-1243, [Onu.handleOmciRequest]. *)
Definition handle_activate (msg : OmciMessage) : M OnuSys (option (list Z)) :=
  on_success (CreateActivateSoftwareResponse (OmciPkt msg) (OmciMsg msg))
    (incr_mds ;;
     Event onu_fsm OnuTxActivateImage ;;
     match ParseActivateSoftwareRequest (OmciPkt msg) with
     | inr b =>
         upd_onu (fun o => o <| ActiveImageEntityId := EntityInstance b |>
                             <| ActiveImageVersion := StandbyImageVersion o |>
                             <| StandbyImageVersion := ActiveImageVersion o |>)
     | inl _ => skip
     end ;;
     spawn TReboot).

(** Source: internal/bbsim/devices/onu.go:1244-1274, [Onu.handleOmciRequest]. *)
Definition handle_commit (msg : OmciMessage) : M OnuSys (option (list Z)) :=
  on_success (CreateCommitSoftwareResponse (OmciPkt msg) (OmciMsg msg))
    (incr_mds ;;
     match ParseCommitSoftwareRequest (OmciPkt msg) with
     | inr b =>
         upd_onu (fun o => o <| ActiveImageEntityId := EntityInstance b |>
                             <| CommittedImageEntityId := EntityInstance b |>
                             <| StandbyImageVersion := CommittedImageVersion o |>
                             <| CommittedImageVersion := ActiveImageVersion o |>)
     | inl _ => skip
     end ;;
     Event onu_fsm OnuTxCommitImage ;; skip).

(** Source: internal/bbsim/devices/onu.go:1275-1284, [Onu.handleOmciRequest]. *)
Definition handle_get_all_alarms (msg : OmciMessage) : M OnuSys (option (list Z)) :=
  upd_onu (fun o => o <| onuAlarmsInfo ::=
    fmap (fun i => {| SequenceNo := 0; AlarmBitMap := AlarmBitMap i |}) |>) ;;
  s ← get;
  mret (ok_pkt (CreateGetAllAlarmsResponse (OmciMsg msg) (onuAlarmsInfo (onu s)))).

(** Source: internal/bbsim/devices/onu.go:844-1297, [Onu.handleOmciRequest] (the
    switch on the message type). *)
Definition omci_switch (msg : OmciMessage) : M OnuSys (error + option (list Z)) :=
  let done_ (m : M OnuSys (option (list Z))) := r ← m; mret (inr r) in
  let pkt := OmciPkt msg in
  let om := OmciMsg msg in
  match MsgType om with
  | MibResetRequestType => done_ (handle_mib_reset msg)
  | MibUploadRequestType =>
      done_ (s ← get; mret (ok_pkt (CreateMibUploadResponse om (o_MibDb (onu s)))))
  | MibUploadNextRequestType =>
      done_ (s ← get;
             r ← of_outcome (CreateMibUploadNextResponse pkt om (o_MibDb (onu s)));
             mret (ok_pkt r))
  | GetRequestType => done_ (handle_get msg)
  | SetRequestType => done_ (handle_set msg)
  | CreateRequestType => done_ (handle_create msg)
  | DeleteRequestType => done_ (handle_delete msg)
  | RebootRequestType => done_ (handle_reboot msg)
  | TestRequestType => done_ (handle_test msg)
  | SynchronizeTimeRequestType => done_ (mret (ok_pkt (CreateSyncTimeResponse pkt om)))
  | StartSoftwareDownloadRequestType => done_ (handle_start_download msg)
  | DownloadSectionRequestType => done_ (handle_section msg)
  | DownloadSectionRequestWithResponseType => handle_section_ack msg
  | EndSoftwareDownloadRequestType => done_ (handle_end_download msg)
  | ActivateSoftwareRequestType => done_ (handle_activate msg)
  | CommitSoftwareRequestType => done_ (handle_commit msg)
  | GetAllAlarmsRequestType => done_ (handle_get_all_alarms msg)
  | GetAllAlarmsNextRequestType =>
      done_ (s ← get; mret (ok_pkt (CreateGetAllAlarmsNextResponse pkt om (onuAlarmsInfo (onu s)))))
  | _ => done_ (mret None)
  end.

(** Source: internal/bbsim/devices/onu.go, [Onu.sendOmciIndication]. *)
Definition sendOmciIndication (responsePkt : list Z) (txId : Z) : M OnuSys (option error) :=
  s ← get;
  err ← send (IndOmci (o_PonPortID (onu s)) (o_ID (onu s)) responsePkt);
  mret ((fun _ => "failed-to-send-omci-message") <$> err).

(** Source: internal/bbsim/devices/onu.go, [Onu.publishOmciEvent]. *)
Definition publishOmciEvent (msg : OmciMessage) : M OnuSys unit :=
  s ← get;
  if PublishEvents s then
    r ← of_outcome (ParseOpenOltOmciPacket (pkt_data (OmciPkt msg)));
    match r with
    | inl _ => skip
    | inr (_, omciMsg) =>
        match MsgType omciMsg with
        | MibUploadRequestType =>
            upd_onu (fun o => o <| seqNumber := 0 |>) ;; publishEvent "MIB-upload-received"
        | MibUploadNextRequestType =>
            upd_onu (fun o => o <| seqNumber ::= (fun n => u16 (n + 1)) |>) ;;
            t ← get;
            if decide (seqNumber (onu t) > 290) then publishEvent "MIB-upload-done" else skip
        | _ => skip
        end
    end
  else skip.

(** Source: internal/bbsim/devices/onu.go:830-843, [Onu.handleOmciRequest] (the
    counter that thins the responses out). *)
Definition count_request : M OnuSys bool :=
  upd_onu (fun o => o <| OmciMsgCounter ::= (fun n =>
    if decide (n < maxOmciMsgCounter) then u8 (n + 1) else 1) |>) ;;
  s ← get;
  mret (bool_decide (OmciMsgCounter (onu s) <= OmciResponseRate (onu s))).

(** Source: internal/bbsim/devices/onu.go, [Onu.handleOmciRequest]. *)
Definition handleOmciRequest (msg : OmciMessage) : M OnuSys (option error) :=
  answer ← count_request;
  if negb answer then mret (Some "skipping-omci-msg-response-because-of-response-rate") else
  r ← omci_switch msg;
  match r with
  | inl e => mret (Some e)
  | inr responsePkt =>
      match responsePkt with
      | Some p => sendOmciIndication p (TransactionID (OmciMsg msg)) ;; skip
      | None => skip
      end ;;
      publishOmciEvent msg ;;
      mret None
  end.
End Omci.

(** * Properties *)

(** ** Thinning the responses out *)

(** The counter and the rate of an ONU. *)
Definition rate_is (c r : Z) (s : OnuSys) : Prop :=
  OmciMsgCounter (onu s) = c /\ OmciResponseRate (onu s) = r.

Section Rate.
  Context `{OmciLib} `{MeLib} (rnd : nat -> Z) (omccVersion : Z) (spare : list Z -> list Z).
  Context (c r : Z).

Lemma rate_upd f : (forall o, OmciMsgCounter (f o) = OmciMsgCounter o) ->
  (forall o, OmciResponseRate (f o) = OmciResponseRate o) -> preserves (rate_is c r) (upd_onu f).
Proof.
  intros H1 H2. apply preserves_modify. intros s [Hc Hr]. split; cbn; [by rewrite H1|by rewrite H2].
Qed.

Lemma rate_res f : preserves (rate_is c r) (upd_res f).
Proof. by apply preserves_modify. Qed.
Lemma rate_spawn t : preserves (rate_is c r) (spawn t).
Proof. by apply preserves_modify. Qed.
Lemma rate_send_self m : preserves (rate_is c r) (send_self m).
Proof. by apply preserves_lift. Qed.
Lemma rate_close_self : preserves (rate_is c r) close_self.
Proof. by apply preserves_lift. Qed.
Lemma rate_send i : preserves (rate_is c r) (send i).
Proof. intros s a s' Hs. unfold send, zoom, Send. destruct (s_err _); by intros [= <- <-]. Qed.

Lemma rate_on_uni {A : Type} i (m : M UniSys A) : preserves (rate_is c r) (on_uni i m).
Proof.
  intros s a s' Hs. unfold on_uni. destruct (o_UniPorts (onu s) !! i); [|done].
  destruct (m _) as [[]| | |]; [|done..]. by intros [= <- <-].
Qed.

Lemma rate_on_pots {A : Type} i (m : M PotsSys A) : preserves (rate_is c r) (on_pots i m).
Proof.
  intros s a s' Hs. unfold on_pots. destruct (o_PotsPorts (onu s) !! i); [|done].
  destruct (m _) as [[]| | |]; [|done..]. by intros [= <- <-].
Qed.
#[local] Hint Resolve rate_res rate_spawn rate_send_self rate_close_self rate_send rate_on_uni
  rate_on_pots : preserve.
#[local] Hint Extern 1 (preserves _ (upd_onu _)) => apply rate_upd; done : preserve.

Lemma rate_oper ev : preserves (rate_is c r) (Event oper_fsm ev).
Proof.
  apply preserves_Event_callbacks; [apply preserves_skip|intros; apply preserves_skip|
    apply preserves_skip|done].
Qed.
#[local] Hint Resolve rate_oper : preserve.

Lemma rate_event ev : preserves (rate_is c r) (Event onu_fsm ev).
Proof.
  apply preserves_Event_callbacks; [apply preserves_skip| |apply preserves_skip|done].
  intros src dst. unfold onu_fsm, fsm_enter, onu_enter, enter_enabled, enter_disabled, disable_ports,
    cleanupOnuState.
  preserve; (apply preserves_for_each; preserve).
Qed.
#[local] Hint Resolve rate_event : preserve.

Lemma rate_switch msg : preserves (rate_is c r) (omci_switch rnd omccVersion spare msg).
Proof.
  unfold omci_switch, handle_mib_reset, handle_get, handle_set, set_effect, set_port, set_tcont,
    handle_create, create_effect, handle_delete, handle_reboot, handle_test, handle_start_download,
    handle_section, handle_section_ack, handle_end_download, handleEndSoftwareDownloadRequest,
    handle_activate, handle_commit, handle_get_all_alarms, on_success, incr_mds.
  destruct (MsgType (OmciMsg msg)); preserve.
Qed.

Lemma rate_publish msg : preserves (rate_is c r) (publishOmciEvent msg).
Proof.
  assert (forall e, preserves (rate_is c r) (publishEvent e)).
  { intros e. unfold publishEvent. preserve. by apply preserves_modify. }
  unfold publishOmciEvent. preserve.
Qed.
End Rate.

(** The requests of a run, in order, with what each of them returned. *)
Fixpoint handle_all `{OmciLib} `{MeLib} (rnd : nat -> Z) (omccVersion : Z) (spare : list Z -> list Z)
    (msgs : list OmciMessage) : M OnuSys (list (option error)) :=
  match msgs with
  | [] => mret []
  | m :: rest =>
      e ← handleOmciRequest rnd omccVersion spare m;
      es ← handle_all rnd omccVersion spare rest;
      mret (e :: es)
  end.

Definition skipped : option error := Some "skipping-omci-msg-response-because-of-response-rate".

Section RateFacts.
  Context `{OmciLib} `{MeLib} (rnd : nat -> Z) (omccVersion : Z) (spare : list Z -> list Z).

Lemma section_ack_error msg s e s' :
  handle_section_ack msg s = Done (inl e, s') -> Some e <> skipped.
Proof.
  unfold handle_section_ack. destruct (ParseDownloadSectionRequest _) as [|[[] ?]]; [done|].
  destruct (CreateDownloadSectionResponse _ _); mred; by intros [= <-].
Qed.

Lemma switch_error msg s e s' :
  omci_switch rnd omccVersion spare msg s = Done (inl e, s') -> Some e <> skipped.
Proof.
  unfold omci_switch. destruct (MsgType _);
    try (intros Hr; apply bind_Done_inv in Hr as (a & s1 & _ & [=])). apply section_ack_error.
Qed.

Lemma handle_one msg s e s' c r :
  0 <= c <= 10 -> rate_is c r s -> handleOmciRequest rnd omccVersion spare msg s = Done (e, s') ->
  let c' := if decide (c < 10) then c + 1 else 1 in rate_is c' r s' /\ (e = skipped <-> r < c').
Proof.
  intros Hc [Hs1 Hs2] Hr. unfold handleOmciRequest in Hr.
  apply bind_Done_inv in Hr as (b & s1 & Hb & Hr).
  assert (rate_is (if decide (c < 10) then c + 1 else 1) r s1 /\
    b = bool_decide ((if decide (c < 10) then c + 1 else 1) <= r)) as [Hi Hbv].
  { unfold count_request, upd_onu in Hb. mred in Hb. cbn in Hb. simplify_eq. unfold rate_is. cbn.
    unfold maxOmciMsgCounter, u8. destruct (decide (OmciMsgCounter (onu s) < 10)); [|done].
    by rewrite Z.mod_small by (change (2 ^ 8) with 256; lia). }
  clear Hs1 Hs2. destruct b; cbn [negb] in Hr; symmetry in Hbv.
  - apply bool_decide_eq_true in Hbv. apply bind_Done_inv in Hr as (x & s2 & Hx & Hr).
    pose proof (rate_switch rnd omccVersion spare _ _ msg s1 _ s2 Hi Hx) as H2.
    destruct x as [err|p].
    + mred in Hr. simplify_eq. split; [done|]. split; [|lia]. intros E. by apply switch_error in Hx.
    + apply bind_Done_inv in Hr as ([] & s3 & Hx3 & Hr).
      apply bind_Done_inv in Hr as ([] & s4 & Hx4 & Hr). mred in Hr. simplify_eq.
      split; [|split; [done|lia]]. eapply rate_publish; [|exact Hx4]. destruct p.
      * revert H2 Hx3. apply preserves_bind; [|intros; apply preserves_skip].
        unfold sendOmciIndication. pose proof (rate_send (if decide (c < 10) then c + 1 else 1) r).
        preserve.
      * mred in Hx3. by simplify_eq.
  - mred in Hr. simplify_eq. split; [done|]. apply bool_decide_eq_false in Hbv. split; [lia|done].
Qed.

(** C15: the response rate.  Out of every ten OMCI requests in a row an ONU
    answers the first [OmciResponseRate] ones and skips the others: the [k]-th
    request since the counter was 0 is skipped exactly when [k mod 10] is not
    below the rate. *)
Theorem omci_response_rate (msgs : list OmciMessage) (s s' : OnuSys) (rs : list (option error)) :
  OmciMsgCounter (onu s) = 0 -> handle_all rnd omccVersion spare msgs s = Done (rs, s') ->
  length rs = length msgs /\
  forall k e, rs !! k = Some e ->
    (e = skipped <-> OmciResponseRate (onu s) <= Z.of_nat k mod 10).
Proof.
  intros Hc Hr. set (r := OmciResponseRate (onu s)).
  assert (forall j, (Z.of_nat j mod 10 = 0 -> exists c, (c = 0 \/ c = 10) /\ rate_is c r s) ->
    (Z.of_nat j mod 10 <> 0 -> rate_is (Z.of_nat j mod 10) r s) ->
    length rs = length msgs /\ forall k e, rs !! k = Some e ->
      (e = skipped <-> r <= Z.of_nat (j + k) mod 10)) as Hgen; [|apply (Hgen 0%nat)].
  - clear Hc. clearbody r. revert s rs Hr. induction msgs as [|m msgs IH]; intros s rs Hr j Hj0 Hj1.
    { mred in Hr. cbn in Hr. mred in Hr. simplify_eq. done. }
    cbn [handle_all] in Hr. apply bind_Done_inv in Hr as (e & s1 & He & Hr).
    apply bind_Done_inv in Hr as (es & s2 & Hes & Hr). mred in Hr. simplify_eq.
    pose proof (Z.mod_pos_bound (Z.of_nat j) 10 ltac:(lia)) as Hb.
    assert (Z.of_nat (S j) mod 10 = if decide (Z.of_nat j mod 10 = 9) then 0 else Z.of_nat j mod 10 + 1)
      as HS.
    { rewrite Nat2Z.inj_succ, <-Z.add_1_r, <-Z.add_mod_idemp_l by lia.
      case_decide as E; [by rewrite E|]. apply Z.mod_small. lia. }
    assert (exists c, 0 <= c <= 10 /\ rate_is c r s /\
      (if decide (c < 10) then c + 1 else 1) = Z.of_nat j mod 10 + 1) as (c & Hc & Hs & Hnext).
    { destruct (decide (Z.of_nat j mod 10 = 0)) as [E|E].
      - destruct (Hj0 E) as (c & [-> | ->] & Hs); eexists; (split; [|split; [exact Hs|]]);
          cbn; try lia; rewrite E; done.
      - exists (Z.of_nat j mod 10). split; [lia|]. split; [by apply Hj1|].
        rewrite decide_True by lia. done. }
    destruct (handle_one m s e s1 c r Hc Hs He) as [Hs1 Hskip]. rewrite Hnext in Hs1, Hskip.
    destruct (IH s1 es Hes (S j)) as [Hlen Hk].
    + intros E. rewrite HS in E. case_decide; [|lia].
      eexists. split; [|exact Hs1]. right. lia.
    + intros E. rewrite HS in E |- *. case_decide; [done|exact Hs1].
    + split; [by cbn; rewrite Hlen|]. intros [|k] e' Hk'; cbn in Hk'.
      * simplify_eq. rewrite Nat.add_0_r, Hskip. lia.
      * replace (j + S k)%nat with (S j + k)%nat by lia. by apply Hk.
  - intros _. exists 0. split; [by left|done].
  - done.
Qed.
End RateFacts.

Definition omci_msg (ty : MessageType) (layers : list Layer) : OmciMessage := {|
  om_OnuID := 1; OmciMsg := {| TransactionID := 5; MsgType := ty; DeviceIdentifier := BaselineIdent |};
  OmciPkt := {| pkt_layers := layers; pkt_data := [] |} |}.

Lemma omci_response_rate_witness :
  exists rs s', @handle_all trivial_omci accept_all (fun _ => 0) 163 (fun _ => [])
      [omci_msg MibUploadRequestType []; omci_msg MibUploadRequestType []] running_onu = Done (rs, s') /\
    length rs = 2%nat.
Proof.
  destruct (@handle_all trivial_omci accept_all (fun _ => 0) 163 (fun _ => [])
      [omci_msg MibUploadRequestType []; omci_msg MibUploadRequestType []] running_onu)
    as [[rs s']| | |] eqn:E; [|by vm_compute in E..].
  exists rs, s'. split; [done|].
  exact (proj1 (@omci_response_rate trivial_omci accept_all (fun _ => 0) 163 (fun _ => [])
    _ running_onu s' rs eq_refl E)).
Defined.

(** ** Resources *)

Section Resources.
  Context `{OmciLib}.

(** The result of a request on the tables of the PON. *)
Definition gem_of (s : OnuSys) (g : Z) : option Z := gem_holder (res s) g.

(** C2: GEM ports are exclusive on a PON.  A request to create a GEM port that
    is in use, by any ONU, is answered with a processing error and changes
    nothing; a free one is given to this ONU and no other port moves; port
    4069 is shared and never recorded. *)
Theorem gem_ports_exclusive (msg : OmciMessage) (s : OnuSys) (b : MeBasePacket) :
  ParseCreateRequest (OmciPkt msg) = inr b -> EntityClass b = GemPortNetworkCtpClassID ->
  let g := EntityInstance b in
  (g <> 4069 -> gem_of s g <> None ->
   handle_create msg s =
     Done (ok_pkt (CreateCreateResponse (OmciPkt msg) (OmciMsg msg) ProcessingError), s)) /\
  (g <> 4069 -> gem_of s g = None -> exists p s', handle_create msg s = Done (p, s') /\
     gem_of s' g = Some (sn_addr (o_SerialNumber (onu s))) /\
     (forall g', g' <> g -> gem_of s' g' = gem_of s g') /\
     p = ok_pkt (CreateCreateResponse (OmciPkt msg) (OmciMsg msg) Success)) /\
  (g = 4069 -> exists p s', handle_create msg s = Done (p, s') /\ res s' = res s).
Proof.
  intros Hp Hc g. unfold handle_create, create_effect, gem_of, gem_holder, isGemPortAllocated.
  rewrite Hp. split_and!.
  - intros Hg Hu. mred. rewrite decide_True by done. fold g.
    by destruct (AllocatedGemPorts (res s) !! g).
  - intros Hg Hu. mred. rewrite decide_True by done. fold g.
    destruct (AllocatedGemPorts (res s) !! g) eqn:E; [done|].
    unfold on_success, incr_mds, upd_res, upd_onu. mred.
    destruct (CreateCreateResponse _ _ Success); mred; eexists _, _; (split; [reflexivity|]);
      unfold upd, set_onu, set_res, storeGemPort, upd, set_gems; cbn [res AllocatedGemPorts];
      rewrite lookup_insert_eq; (split; [done|]); (split; [|done]); intros g' Hg';
      by rewrite lookup_insert_ne.
  - intros Hg. mred. rewrite decide_False by tauto.
    unfold on_success, incr_mds, upd_onu. mred.
    destruct (CreateCreateResponse _ _ Success); mred; by eexists _, _.
Qed.

Definition create_gem (g : Z) : OmciMessage :=
  omci_msg CreateRequestType
    [LCreateRequest {| EntityClass := GemPortNetworkCtpClassID; EntityInstance := g; Extended := false |}].
End Resources.

Lemma gem_ports_exclusive_witness :
  @handle_create trivial_omci (create_gem 1025) running_onu =
    Done (ok_pkt (@CreateCreateResponse trivial_omci (OmciPkt (create_gem 1025))
      (OmciMsg (create_gem 1025)) ProcessingError), running_onu).
Proof.
  apply (@gem_ports_exclusive trivial_omci (create_gem 1025) running_onu
    {| EntityClass := GemPortNetworkCtpClassID; EntityInstance := 1025; Extended := false |}
    eq_refl eq_refl); done.
Defined.

(** C37: a MIB reset frees exactly what the ONU holds: when the response can be
    built, the MIB data sync is 0, the ONU has no GEM port and no alloc
    identifier, and the resources of every other ONU are as they were. *)
Theorem mib_reset_releases `{OmciLib} (msg : OmciMessage) (s : OnuSys) (p : list Z) :
  CreateMibResetResponse (TransactionID (OmciMsg msg)) = inr p ->
  exists s', handle_mib_reset msg s = Done (Some p, s') /\ MibDataSync (onu s') = 0 /\
    released (o_SerialNumber (onu s)) (res s') /\
    others_kept (o_SerialNumber (onu s)) (res s) (res s') /\
    AllocatedOnuIds (res s') = AllocatedOnuIds (res s).
Proof.
  intros Hp. unfold handle_mib_reset, on_success, upd_onu, upd_res. rewrite Hp. mred.
  eexists. split; [reflexivity|]. split; [done|].
  destruct (release_spec (o_SerialNumber (onu s)) (res s)) as [H1 H2]. done.
Qed.

Lemma mib_reset_releases_witness :
  exists p s', @handle_mib_reset trivial_omci (omci_msg MibResetRequestType []) running_onu =
    Done (Some p, s') /\ MibDataSync (onu s') = 0.
Proof.
  destruct (@mib_reset_releases trivial_omci (omci_msg MibResetRequestType []) running_onu _ eq_refl)
    as (s' & R & Hm & _).
  eexists _, s'. split; [exact R|exact Hm].
Defined.

(** ** Software images *)

(** The states of a software upgrade: entering them does nothing else. *)
Lemma image_event ev s dst :
  dst ∈ [OnuStateImageDownloadStarted; OnuStateImageDownloadInProgress; OnuStateImageDownloadComplete;
         OnuStateImageDownloadError; OnuStateImageActivated; OnuStateImageCommitted] ->
  transitions onu_events ev (o_InternalState (onu s)) = Some dst -> o_InternalState (onu s) <> dst ->
  Event onu_fsm ev s = Done (None, set_state dst s).
Proof.
  intros Hd Ht Hne. rewrite (Event_ok onu_fsm ev s dst Ht Hne).
  repeat (apply elem_of_cons in Hd as [->|Hd]; [reflexivity|]). by apply elem_of_nil in Hd.
Qed.

Section Image.
  Context `{OmciLib} (spare : list Z -> list Z).

Definition section_msg (data : list Z) : OmciMessage :=
  omci_msg DownloadSectionRequestType
    [LDownloadSectionRequest {| EntityClass := SoftwareImageClassID; EntityInstance := 1;
       Extended := false |} 0 data].

Definition received (data : list Z) (n : Z) (s : OnuSys) : OnuSys :=
  s <| onu ::= (fun o => o <| ImageSectionData := (ImageSectionData o ++ data)%list |>
                           <| ImageSoftwareReceivedSections := n |>) |>.

Lemma received_count d n s : ImageSoftwareReceivedSections (onu (received d n s)) = n.
Proof. done. Qed.
Lemma received_received d d' n n' s : received d' n' (received d n s) = received (d ++ d') n' s.
Proof.
  transitivity (s <| onu ::= (fun o => o <| ImageSectionData := ((ImageSectionData o ++ d) ++ d')%list |>
    <| ImageSoftwareReceivedSections := n' |>) |>).
  - unfold received. rewrite onu_onu. apply onu_ext. by destruct (onu s).
  - unfold received. apply onu_ext. by rewrite <-app_assoc.
Qed.

(** Sections after the first one: the data is appended, the count goes up. *)
Lemma sections_run chunks s :
  0 < ImageSoftwareReceivedSections (onu s) ->
  ImageSoftwareReceivedSections (onu s) + Z.of_nat (length chunks) < 2 ^ 32 ->
  o_InternalState (onu s) = OnuStateImageDownloadInProgress ->
  for_each chunks (fun d => handle_section (section_msg d) ;; skip) s =
    Done (tt, received (concat chunks)
      (ImageSoftwareReceivedSections (onu s) + Z.of_nat (length chunks)) s).
Proof.
  revert s. induction chunks as [|d chunks IH]; intros s Hn Hb Hst.
  { cbn. mred. f_equal. f_equal. unfold received. destruct s as [[]]. cbn in *.
    unfold upd, set_onu, set_Section, set_Received, upd. cbn. rewrite app_nil_r, Z.add_0_r. done. }
  cbn [for_each].
  assert (handle_section (section_msg d) s =
    Done (None, received d (ImageSoftwareReceivedSections (onu s) + 1) s)) as Hd.
  { unfold handle_section, upd_onu. cbn [ParseDownloadSectionRequest section_msg].
    cbn -[u32]. mred. rewrite !decide_False by (rewrite ?Hst; (lia || tauto)).
    assert (u32 (ImageSoftwareReceivedSections (onu s) + 1) = ImageSoftwareReceivedSections (onu s) + 1)
      as Hu by (apply Z.mod_small; cbn [length] in Hb; lia).
    unfold received. destruct s as [[]]. cbn -[u32] in *.
    unfold upd, set_onu, set_Section, set_Received. cbn -[u32]. by rewrite Hu. }
  erewrite bind_Done; [|mred; rewrite Hd; reflexivity].
  cbn [length] in Hb |- *. rewrite Nat2Z.inj_succ in Hb |- *.
  rewrite IH; rewrite ?received_count; [|lia|lia|done].
  f_equal. f_equal. rewrite received_received. f_equal. lia.
Qed.

Definition start_state (n : Z) (s : OnuSys) : OnuSys :=
  set_state OnuStateImageDownloadStarted (s <| onu ::= (fun o =>
    o <| ImageSoftwareReceivedSections := 0 |> <| ImageSectionData := [] |>
      <| ImageSoftwareExpectedSections := n |> <| MibDataSync := u8 (MibDataSync o + 1) |>) |>).

Lemma start_download_run msg s n p :
  CreateStartSoftwareDownloadResponse (OmciPkt msg) (OmciMsg msg) = Done (inr p) ->
  ComputeDownloadSectionsCount (OmciPkt msg) = Done n ->
  o_InternalState (onu s) ∈ [OnuStateEnabled; OnuStateImageDownloadComplete;
    OnuStateImageDownloadError; OnuStateImageCommitted] ->
  handle_start_download msg s = Done (Some p, start_state n s).
Proof.
  intros Hp Hn Hst. unfold handle_start_download. rewrite Hp, Hn. unfold of_outcome, on_success, incr_mds, upd_onu. mred.
  rewrite (image_event _ _ OnuStateImageDownloadStarted).
  - unfold start_state, set_state. rewrite !onu_onu. by destruct s as [[]].
  - set_solver.
  - cbn. by repeat (apply elem_of_cons in Hst as [->|Hst]); [..|by apply elem_of_nil in Hst].
  - cbn. intros E. rewrite E in Hst. by vm_compute in Hst; set_solver.
Qed.

Lemma first_section_run d s :
  ImageSoftwareReceivedSections (onu s) = 0 -> (14 <= length d)%nat ->
  o_InternalState (onu s) = OnuStateImageDownloadStarted ->
  handle_section (section_msg d) s = Done (None, set_state OnuStateImageDownloadInProgress
    (received d 1 (s <| onu ::= (fun o =>
      o <| InDownloadImageVersion := string_of_bytes (take 14 d) |>) |>))).
Proof.
  intros Hn Hl Hst. unfold handle_section, upd_onu. cbn -[u32]. mred.
  rewrite (decide_True (P := ImageSoftwareReceivedSections (onu s) = 0)) by done.
  rewrite (decide_False (P := (length d < 14)%nat)) by lia.
  rewrite decide_True by (by rewrite Hst). mred.
  rewrite (image_event _ _ OnuStateImageDownloadInProgress);
    [|set_solver|cbn; by rewrite Hst|cbn; by rewrite Hst].
  destruct s as [[]]. cbn in Hn. subst. reflexivity.
Qed.

(** What decides the end of a download: an abort while sections were received,
    or as many sections as expected and the checksum of the image. *)
Definition aborted (o : Onu) (crc size : Z) : Prop :=
  ImageSoftwareReceivedSections o > 0 /\ size = 0 /\ crc = 4294967295.
Definition image_valid (o : Onu) (crc size : Z) : Prop :=
  ImageSoftwareExpectedSections o = ImageSoftwareReceivedSections o /\
  crc = swap32 (Checksum (take (Z.to_nat size) (ImageSectionData o))).

Lemma slice_in_range data n :
  0 <= n <= Z.of_nat (length data) -> slice_to spare data n = Done (take (Z.to_nat n) data).
Proof.
  intros Hn. unfold slice_to. rewrite length_app, decide_True by lia. by rewrite take_app_le by lia.
Qed.

Lemma end_request msg s b crc size :
  ParseEndSoftwareDownloadRequest (OmciPkt msg) = inr (b, crc, size) ->
  0 <= size <= Z.of_nat (length (ImageSectionData (onu s))) ->
  (aborted (onu s) crc size -> handleEndSoftwareDownloadRequest spare msg s =
     Done (true, s <| onu ::= (fun o => o <| ImageSoftwareReceivedSections := 0 |>) |>)) /\
  (~ aborted (onu s) crc size -> image_valid (onu s) crc size ->
   handleEndSoftwareDownloadRequest spare msg s =
     Done (true, s <| onu ::= (fun o => o <| StandbyImageVersion := InDownloadImageVersion o |>) |>)) /\
  (~ aborted (onu s) crc size -> ~ image_valid (onu s) crc size ->
   handleEndSoftwareDownloadRequest spare msg s = Done (false, s)).
Proof.
  intros Hp Hs. unfold handleEndSoftwareDownloadRequest, aborted, image_valid, upd_onu. rewrite Hp.
  mred. split_and!.
  - intros Ha. by rewrite decide_True.
  - intros Ha [He Hc]. rewrite decide_False by done. rewrite decide_False by (intros E; by apply E).
    rewrite slice_in_range by done. cbn [of_outcome]. rewrite decide_False by (intros E; by apply E). done.
  - intros Ha Hv. rewrite decide_False by done. case_decide as E; [done|].
    rewrite slice_in_range by done. cbn [of_outcome]. rewrite decide_True; [done|].
    intros E2. apply Hv. split; [|done]. destruct (decide (ImageSoftwareExpectedSections (onu s) =
      ImageSoftwareReceivedSections (onu s))); [done|]. by destruct E.
Qed.

(** What a download in progress looks like from outside. *)
Definition dl (st : string) (data : list Z) (n expected mds : Z) (ver : string) (s : OnuSys) : Prop :=
  o_InternalState (onu s) = st /\ ImageSectionData (onu s) = data /\
  ImageSoftwareReceivedSections (onu s) = n /\ ImageSoftwareExpectedSections (onu s) = expected /\
  MibDataSync (onu s) = mds /\ InDownloadImageVersion (onu s) = ver.

Lemma start_dl msg s n p :
  CreateStartSoftwareDownloadResponse (OmciPkt msg) (OmciMsg msg) = Done (inr p) ->
  ComputeDownloadSectionsCount (OmciPkt msg) = Done n ->
  o_InternalState (onu s) ∈ [OnuStateEnabled; OnuStateImageDownloadComplete;
    OnuStateImageDownloadError; OnuStateImageCommitted] ->
  exists s', handle_start_download msg s = Done (Some p, s') /\
    dl OnuStateImageDownloadStarted [] 0 n (u8 (MibDataSync (onu s) + 1))
      (InDownloadImageVersion (onu s)) s'.
Proof.
  intros Hp Hn Hst. exists (start_state n s).
  split; [exact (start_download_run msg s n p Hp Hn Hst)|]. repeat split.
Qed.

Lemma sections_dl d chunks s n mds ver :
  dl OnuStateImageDownloadStarted [] 0 n mds ver s -> (14 <= length d)%nat ->
  Z.of_nat (length (d :: chunks)) < 2 ^ 32 ->
  exists s', for_each (d :: chunks) (fun x => handle_section (section_msg x) ;; skip) s = Done (tt, s') /\
    dl OnuStateImageDownloadInProgress (d ++ concat chunks) (Z.of_nat (length (d :: chunks))) n mds
      (string_of_bytes (take 14 d)) s'.
Proof.
  intros (Hst & Hda & Hn & He & Hm & _) Hd Hb. cbn [length] in Hb |- *.
  rewrite Nat2Z.inj_succ in Hb |- *.
  pose proof (first_section_run d s Hn Hd Hst) as R2. cbn [for_each].
  erewrite bind_Done; [|mred; rewrite R2; reflexivity]. rewrite sections_run; [|..|done].
  - eexists. split; [reflexivity|]. unfold dl. rewrite received_count. cbn [onu].
    split_and!; [done|cbn; by rewrite Hda|cbn -[Z.of_nat]; lia|done|done|done].
  - done.
  - cbn -[Z.pow Z.of_nat]. lia.
Qed.

Lemma end_dl msg s b crc size data n mds ver p :
  dl OnuStateImageDownloadInProgress data n n mds ver s ->
  ParseEndSoftwareDownloadRequest (OmciPkt msg) = inr (b, crc, size) ->
  CreateEndSoftwareDownloadResponse (OmciPkt msg) (OmciMsg msg) Success = inr p ->
  0 < size <= Z.of_nat (length data) -> crc = swap32 (Checksum (take (Z.to_nat size) data)) ->
  exists s', handle_end_download spare msg s = Done (Some p, s') /\
    o_InternalState (onu s') = OnuStateImageDownloadComplete /\
    StandbyImageVersion (onu s') = ver /\ MibDataSync (onu s') = u8 (mds + 1).
Proof.
  intros (Hst & Hda & Hn & He & Hm & Hv) Hp Hpk Hsz Hcrc.
  destruct (end_request msg s b crc size Hp) as (_ & Hr & _); [by rewrite Hda; lia|].
  unfold handle_end_download.
  erewrite bind_Done; [|apply Hr; [unfold aborted; lia|split; [by rewrite Hn|by rewrite Hda]]].
  rewrite Hpk. unfold on_success, incr_mds, upd_onu. mred.
  rewrite (image_event _ _ OnuStateImageDownloadComplete); [|set_solver|cbn; by rewrite Hst..].
  eexists. split; [reflexivity|]. cbn -[u8]. by rewrite Hv, Hm.
Qed.

(** C3: an upgrade goes through when the whole image arrives.  From a state in
    which a download may start, a start request, as many sections as the ONU
    computed from it (the first one of at least 14 bytes, none of them asking
    for an acknowledgement) and an end request whose checksum is the one of the
    image leave the ONU in the completed state, with the first 14 bytes of the
    image as the version of the standby image and two more changes of its MIB
    counted.  The library must be able to serialize the two responses of this
    download, the one to the start request and the one that reports success to
    the end request: these are the responses the ONU then gives. *)
Theorem software_download (start finish : OmciMessage) (s : OnuSys) (d : list Z)
    (chunks : list (list Z)) size b' crc (p1 p3 : list Z) :
  CreateStartSoftwareDownloadResponse (OmciPkt start) (OmciMsg start) = Done (inr p1) ->
  ComputeDownloadSectionsCount (OmciPkt start) = Done (Z.of_nat (length (d :: chunks))) ->
  (14 <= length d)%nat -> Z.of_nat (length (d :: chunks)) < 2 ^ 32 ->
  ParseEndSoftwareDownloadRequest (OmciPkt finish) = inr (b', crc, size) ->
  CreateEndSoftwareDownloadResponse (OmciPkt finish) (OmciMsg finish) Success = inr p3 ->
  0 < size <= Z.of_nat (length (d ++ concat chunks)) ->
  crc = swap32 (Checksum (take (Z.to_nat size) (d ++ concat chunks))) ->
  o_InternalState (onu s) ∈ [OnuStateEnabled; OnuStateImageDownloadComplete;
    OnuStateImageDownloadError; OnuStateImageCommitted] ->
  exists s1 s2 s3,
    handle_start_download start s = Done (Some p1, s1) /\
    for_each (d :: chunks) (fun x => handle_section (section_msg x) ;; skip) s1 = Done (tt, s2) /\
    handle_end_download spare finish s2 = Done (Some p3, s3) /\
    o_InternalState (onu s3) = OnuStateImageDownloadComplete /\
    StandbyImageVersion (onu s3) = string_of_bytes (take 14 d) /\
    MibDataSync (onu s3) = u8 (u8 (MibDataSync (onu s) + 1) + 1).
Proof.
  intros Hp Hn Hd Hb Hf Hr Hsz Hcrc Hst.
  destruct (start_dl start s _ _ Hp Hn Hst) as (s1 & R1 & D1).
  destruct (sections_dl d chunks s1 _ _ _ D1 Hd Hb) as (s2 & R2 & D2).
  destruct (end_dl finish s2 _ _ _ _ _ _ _ _ D2 Hf Hr Hsz Hcrc) as (s3 & R3 & H1 & H2 & H3).
  by exists s1, s2, s3.
Qed.
End Image.

Definition start_msg (size : Z) : OmciMessage :=
  omci_msg StartSoftwareDownloadRequestType
    [LStartSoftwareDownloadRequest {| EntityClass := SoftwareImageClassID; EntityInstance := 1;
       Extended := false |} 1 size].
Definition end_msg (crc size : Z) : OmciMessage :=
  omci_msg EndSoftwareDownloadRequestType
    [LEndSoftwareDownloadRequest {| EntityClass := SoftwareImageClassID; EntityInstance := 1;
       Extended := false |} crc size].

(** A serializer that knows the two responses of a download and refuses every
    other body. *)
Definition download_omci : OmciLib := {|
  SerializeLayers := fun _ b =>
    match b with
    | BStartDownload _ _ _ => inr [3]
    | BResult EndSoftwareDownloadResponseType _ _ => inr [5]
    | _ => inl "cannot serialize"
    end;
  SerializePartial := fun _ _ => [];
  LoadManagedEntityDefinition := fun c i a => {| me_class := c; me_instance := i; me_attrs := a |};
  NewPacket := fun _ => None;
  Checksum := fun l => Z.of_nat (length l) |}.

Lemma software_download_witness :
  exists s1 s2 s3,
    @handle_start_download download_omci (start_msg 40) running_onu = Done (Some [3], s1) /\
    for_each [replicate 31 65; replicate 31 66] (fun x => handle_section (section_msg x) ;; skip) s1
      = Done (tt, s2) /\
    @handle_end_download download_omci (fun _ => []) (end_msg (swap32 40) 40) s2 = Done (Some [5], s3) /\
    StandbyImageVersion (onu s3) = "AAAAAAAAAAAAAA".
Proof.
  destruct (@software_download download_omci (fun _ => [])
    (start_msg 40) (end_msg (swap32 40) 40) running_onu (replicate 31 65) [replicate 31 66] 40
    {| EntityClass := SoftwareImageClassID; EntityInstance := 1; Extended := false |} (swap32 40) [3] [5])
    as (s1 & s2 & s3 & R1 & R2 & R3 & _ & H & _);
    [reflexivity|reflexivity|cbn; lia|done|reflexivity|reflexivity|done|reflexivity|by left|].
  exists s1, s2, s3. exact (conj R1 (conj R2 (conj R3 H))).
Defined.

(** When the end of a download is accepted.  While sections were received,
    an end request with size 0 and all bits of the checksum set aborts the
    download successfully; otherwise the request succeeds exactly when the ONU
    got as many sections as it expects and the checksum of the image, in
    network order, is the one of the request, and only then the version in
    download becomes the one of the standby image; a failure changes nothing. *)
Theorem end_download_decision `{OmciLib} (spare : list Z -> list Z) (msg : OmciMessage) (s : OnuSys)
    b crc size :
  ParseEndSoftwareDownloadRequest (OmciPkt msg) = inr (b, crc, size) ->
  0 <= size <= Z.of_nat (length (ImageSectionData (onu s))) ->
  exists r s', handleEndSoftwareDownloadRequest spare msg s = Done (r, s') /\
    (r = true <-> aborted (onu s) crc size \/ image_valid (onu s) crc size) /\
    (r = false -> s' = s) /\
    StandbyImageVersion (onu s') =
      (if decide (aborted (onu s) crc size) then StandbyImageVersion (onu s)
       else if r then InDownloadImageVersion (onu s) else StandbyImageVersion (onu s)).
Proof.
  intros Hp Hs. destruct (end_request spare msg s b crc size Hp Hs) as (Ha & Hv & Hf).
  destruct (decide (aborted (onu s) crc size)) as [A|A].
  { eexists _, _. split; [exact (Ha A)|]. split_and!; try done. split; [by left|done]. }
  destruct (decide (ImageSoftwareExpectedSections (onu s) = ImageSoftwareReceivedSections (onu s)
    /\ crc = swap32 (Checksum (take (Z.to_nat size) (ImageSectionData (onu s)))))) as [V|V].
  - eexists _, _. split; [exact (Hv A V)|]. split_and!; try done. split; [by right|done].
  - eexists _, _. split; [exact (Hf A V)|]. split_and!; try done. split; [done|by intros [?|?]].
Qed.

Lemma end_download_decision_witness :
  exists s', @handleEndSoftwareDownloadRequest trivial_omci (fun _ => []) (end_msg 7 0) running_onu =
    Done (false, s').
Proof.
  destruct (@end_download_decision trivial_omci (fun _ => []) (end_msg 7 0) running_onu
    {| EntityClass := SoftwareImageClassID; EntityInstance := 1; Extended := false |} 7 0)
    as (r & s' & R & Hr & _); [reflexivity|by vm_compute|].
  destruct r; [|by exists s'].
  exfalso. destruct (proj1 Hr eq_refl) as [(Ha & _)|[_ Hc]]; by vm_compute in *.
Defined.

(** Activating and committing an image.  Activating the image that was
    downloaded swaps the versions of the active and of the standby image,
    makes the requested instance the active one and starts a reboot; committing
    after the ONU is enabled again makes the version that runs the committed
    one, and the previously committed version the standby one. *)
Theorem activate_then_commit `{OmciLib} (act com : OmciMessage) (s s2 : OnuSys) ba bc pa pc :
  ParseActivateSoftwareRequest (OmciPkt act) = inr ba ->
  CreateActivateSoftwareResponse (OmciPkt act) (OmciMsg act) = inr pa ->
  ParseCommitSoftwareRequest (OmciPkt com) = inr bc ->
  CreateCommitSoftwareResponse (OmciPkt com) (OmciMsg com) = inr pc ->
  o_InternalState (onu s) = OnuStateImageDownloadComplete ->
  o_InternalState (onu s2) = OnuStateEnabled ->
  exists s1, handle_activate act s = Done (Some pa, s1) /\
    o_InternalState (onu s1) = OnuStateImageActivated /\
    ActiveImageVersion (onu s1) = StandbyImageVersion (onu s) /\
    StandbyImageVersion (onu s1) = ActiveImageVersion (onu s) /\
    ActiveImageEntityId (onu s1) = EntityInstance ba /\ tasks s1 = (tasks s ++ [TReboot])%list /\
    (ActiveImageVersion (onu s2) = ActiveImageVersion (onu s1) ->
     exists s3, handle_commit com s2 = Done (Some pc, s3) /\
       o_InternalState (onu s3) = OnuStateImageCommitted /\
       CommittedImageVersion (onu s3) = StandbyImageVersion (onu s) /\
       ActiveImageVersion (onu s3) = StandbyImageVersion (onu s) /\
       StandbyImageVersion (onu s3) = CommittedImageVersion (onu s2) /\
       ActiveImageEntityId (onu s3) = EntityInstance bc /\
       CommittedImageEntityId (onu s3) = EntityInstance bc).
Proof.
  intros Hpa Hra Hpc Hrc Hst Hst2.
  unfold handle_activate, on_success, incr_mds, upd_onu, spawn. rewrite Hra, Hpa. mred.
  rewrite (image_event _ _ OnuStateImageActivated); [|set_solver|cbn; by rewrite Hst..].
  eexists. split; [reflexivity|]. cbn -[u8]. split_and!; try done.
  intros Hv. unfold handle_commit, on_success, incr_mds, upd_onu. rewrite Hrc, Hpc. mred.
  rewrite (image_event _ _ OnuStateImageCommitted); [|set_solver|cbn; by rewrite Hst2..].
  eexists. split; [reflexivity|]. cbn -[u8]. by rewrite Hv.
Qed.

Definition act_msg : OmciMessage :=
  omci_msg ActivateSoftwareRequestType
    [LActivateSoftwareRequest {| EntityClass := SoftwareImageClassID; EntityInstance := 1; Extended := false |}].
Definition com_msg : OmciMessage :=
  omci_msg CommitSoftwareRequestType
    [LCommitSoftwareRequest {| EntityClass := SoftwareImageClassID; EntityInstance := 1; Extended := false |}].

Lemma activate_then_commit_witness :
  exists p s1, @handle_activate trivial_omci act_msg
      (set_state OnuStateImageDownloadComplete running_onu) = Done (Some p, s1) /\
    ActiveImageVersion (onu s1) = "BBSM_IMG_00000".
Proof.
  destruct (@activate_then_commit trivial_omci act_msg com_msg
    (set_state OnuStateImageDownloadComplete running_onu) running_onu _ _ _ _
    eq_refl eq_refl eq_refl eq_refl eq_refl eq_refl) as (s1 & R & _ & Hv & _).
  eexists _, s1. split; [exact R|exact Hv].
Defined.

(** ** Published events *)

(** The packet given to [publishOmciEvent] was already decoded, and is decoded
    as hexadecimal digits once more: for a request on instance 0 of an entity,
    which is what MIB uploads are, the second decoding is always rejected and
    no event is published. *)
Lemma publish_never `{OmciLib} (msg : OmciMessage) (s : OnuSys) b0 b1 b2 b3 b4 b5 rest :
  pkt_data (OmciPkt msg) = b0 :: b1 :: b2 :: b3 :: b4 :: b5 :: 0 :: 0 :: rest ->
  Nat.Even (length rest) -> publishOmciEvent msg s = Done (tt, s).
Proof.
  intros Hd He. unfold publishOmciEvent. mred. destruct (PublishEvents s); [|done].
  assert (forall l, Nat.Even (length l) -> exists p, HexDecode l = Done p) as Hdec.
  { intros l [k Hk]. revert l Hk. induction k as [|k IH]; intros l Hk.
    - destruct l; [by exists []|cbn in Hk; lia].
    - destruct l as [|x [|y l]]; [by exists []|cbn in Hk; lia|]. destruct (IH l) as [p Hp].
      { cbn in Hk. lia. } cbn. rewrite Hp. by eexists. }
  destruct (Hdec rest He) as [p Hp]. unfold ParseOpenOltOmciPacket. rewrite Hd.
  cbn [HexDecode]. rewrite Hp. unfold of_outcome, mbind, outcome_bind, check_frame. cbv beta iota.
  case_decide; [done|].
  change (u8 (Z.shiftl (hex_nibble 0) 4 + hex_nibble 0)) with 0. cbn [lookup_total list_lookup_total
    DeviceIdentifierPos].
  rewrite !decide_False by done. done.
Qed.
