(* ===== verification/OnuLoop.v ===== *)
(** * ONUs: the message loop

    [internal/bbsim/devices/onu.go]: the goroutine that takes the messages off
    the channel of an ONU, the indications it sends to VOLTHA, and the part of
    the ONU that BBR runs: there the ONU plays VOLTHA and drives the MIB upload
    and the flows of a simulated ONU over the openolt client.  A turn of the
    loop is [recv_message]; a goroutine started by the code of an ONU is a
    task, run by [run_task]. *)
From S2P Require Import Prelude Fsm Options OmciTypes Omci MibDb Packets Types Io Eapol Dhcp Service.
From S2P Require Import PonRes AlarmSim UniPort Get Onu OnuOmci.
Open Scope Z_scope.
Open Scope string_scope.

Definition multicastGemPortId : Z := 4069.

(** ** Indications *)

(** Source: internal/bbsim/devices/onu.go, [Onu.sendOnuDiscIndication].  The
    goroutine that repeats the indication is a task. *)
Definition sendOnuDiscIndication (state : OperState) : M OnuSys unit :=
  s ← get;
  err ← send (IndOnuDisc (o_PonPortID (onu s)) (o_SerialNumber (onu s)));
  match err with
  | Some _ => skip
  | None => publishEvent "ONU-discovery-indication-sent" ;; spawn (TDiscoveryRetry state)
  end.

(** Source: internal/bbsim/devices/onu.go, [Onu.sendOnuIndication]. *)
Definition sendOnuIndication (state : OperState) : M OnuSys unit :=
  s ← get;
  send (IndOnu (o_PonPortID (onu s)) (o_ID (onu s)) (OperState_String state) (o_OperState (onu s))
          (o_SerialNumber (onu s))) ;;
  skip.

(** ** Alarms of a port *)

Section Alarm.
  Context `{OmciLib}.

(** Source: internal/bbsim/devices/onu.go:464-499, [Onu.ProcessOnuMessages] (a
    UNI reports that it changed state). *)
Definition handle_uni_alarm (msg : UniStatusAlarmMessage) : M OnuSys unit :=
  let key : OnuAlarmInfoMapKey := (us_EntityID msg, PhysicalPathTerminationPointEthernetUniClassID) in
  seqNo ← IncrementAlarmSequenceNumber key;
  s ← get;
  let alarmInfo := default {| SequenceNo := 0; AlarmBitMap := no_alarms |} (onuAlarmsInfo (onu s) !! key) in
  match CreateUniStatusAlarm (RaiseOMCIAlarm msg) (us_EntityID msg) seqNo with
  | (None, _) => skip
  | (Some pkt, alarmBitMap) =>
      err ← sendOmciIndication pkt 0;
      let n := match err with
               | Some _ => u8 (SequenceNo alarmInfo - 1)
               | None => SequenceNo alarmInfo
               end in
      if decide (alarmBitMap = no_alarms)
      then upd_onu (fun o => o <| onuAlarmsInfo ::= delete key |>)
      else upd_onu (fun o => o <| onuAlarmsInfo ::=
             <[key := {| SequenceNo := n; AlarmBitMap := alarmBitMap |}]> |>)
  end.
End Alarm.

(** ** Packets *)

(** [uni.PacketCh <- msg]. *)
Definition send_uni_packet (i : nat) (msg : OnuPacketMessage) : M OnuSys unit :=
  on_uni i (lift_upd (fun s => uni_PacketCh (uni s))
    (fun c s => s <| uni ::= (fun u => u <| uni_PacketCh := c |>) |>) (chan_send msg)).

(** Source: internal/bbsim/devices/onu.go:506-549, [Onu.ProcessOnuMessages] (a
    packet for a subscriber). *)
Definition handle_packet_out (msg : OnuPacketMessage) : M OnuSys unit :=
  s ← get;
  if decide (GemPortId msg = multicastGemPortId) then
    for_each (findUniWithIgmpMembership (onu s)) (fun i => send_uni_packet i msg)
  else
    match findUniByPortNo (onu s) (pm_PortNo msg) with
    | inl _ => skip
    | inr i => send_uni_packet i msg
    end.

(** ** BBR *)

(** Source: internal/bbsim/devices/onu.go, [sendOmciMsg].  A message that
    cannot be sent ends the process. *)
Definition sendOmciMsg (pktBytes : list Z) (intfId onuId : Z) : M OnuSys unit :=
  err ← client_call (COmciMsgOut intfId onuId pktBytes);
  match err with
  | Some _ => exit "Failed to send MIB Reset"
  | None => skip
  end.

Definition no_classifier : Classifier :=
  {| EthType := 0; OVid := 0; IVid := 0; OPbits := 0; SrcPort := 0; DstPort := 0 |}.

(** The flow BBR adds for an ONU: its numbers are all the identifier of the
    ONU. *)
Definition bbr_flow (o : Onu) (c : Classifier) : Flow := {|
  AccessIntfId := s32 (o_PonPortID o); fl_OnuId := s32 (o_ID o); fl_UniId := 0; FlowId := o_ID o;
  FlowType := "downstream"; fl_AllocId := s32 (o_ID o); NetworkIntfId := 0;
  GemportId := s32 (o_ID o); fl_Classifier := c; fl_PortNo := o_ID o; ReplicateFlow := false;
  PbitToGemport := ∅ |}.

(** [client.FlowAdd(flow)]; an error ends the process. *)
Definition bbr_add (why : string) (f : Flow) : M OnuSys unit :=
  err ← client_call (CFlowAdd f);
  match err with
  | Some _ => exit why
  | None => skip
  end.

(** Source: internal/bbsim/devices/onu.go, [Onu.sendEapolFlow]. *)
Definition sendEapolFlow : M OnuSys unit :=
  s ← get;
  bbr_add "Failed to add EAPOL Flow"
    (bbr_flow (onu s) {| EthType := EthernetTypeEAPOL; OVid := 4091; IVid := 0; OPbits := 0;
                         SrcPort := 0; DstPort := 0 |}).

(** Source: internal/bbsim/devices/onu.go, [Onu.sendDhcpFlow].  BBR has one UNI
    and one service. *)
Definition sendDhcpFlow : M OnuSys unit :=
  s ← get;
  match o_UniPorts (onu s) with
  | [] => panic "index out of range"
  | u :: _ =>
      match Services u with
      | [] => panic "index out of range"
      | hsia :: _ =>
          bbr_add "Failed to send DHCP Flow"
            (bbr_flow (onu s) {| EthType := EthernetTypeIPv4; OVid := u32 (CTag hsia); IVid := 0;
                                 OPbits := 255; SrcPort := 68; DstPort := 67 |})
      end
  end.

Section Bbr.
  Context `{OmciLib} `{MeLib}.

(** Source: internal/bbsim/devices/onu.go, [Onu.StartOmci]. *)
Definition StartOmci : M OnuSys unit :=
  tid ← getNextTid false;
  mibReset ← of_outcome (CreateMibResetRequest tid);
  s ← get;
  sendOmciMsg mibReset (o_PonPortID (onu s)) (o_ID (onu s)).

(** Source: internal/bbsim/devices/onu.go:1685-1686, [Onu.handleOmciResponse]
    (ask for the next part of the MIB). *)
Definition send_mib_upload_next : M OnuSys unit :=
  tid ← getNextTid false;
  s ← get;
  pkt ← of_outcome (CreateMibUploadNextRequest tid (seqNumber (onu s)));
  sendOmciMsg pkt (o_PonPortID (onu s)) (o_ID (onu s)).

(** Source: internal/bbsim/devices/onu.go:1692-1708, [Onu.handleOmciResponse]
    (the MIB is complete: unlock the first UNI). *)
Definition send_set_pptp : M OnuSys unit :=
  meId ← of_outcome (ToUint16 (GenerateUniPortEntityId 1));
  match NewManagedEntity PhysicalPathTerminationPointEthernetUniClassID meId
          [("AdministrativeState", AInt 0)] with
  | inl e => exit e
  | inr attrs =>
      setPPtp ← of_outcome (CreateSetRequest
        {| me_class := PhysicalPathTerminationPointEthernetUniClassID; me_instance := meId;
           me_attrs := attrs |} 1);
      s ← get;
      sendOmciMsg setPPtp (o_PonPortID (onu s)) (o_ID (onu s))
  end.

(** Source: internal/bbsim/devices/onu.go, [Onu.handleOmciResponse].  A packet
    that cannot be parsed is reported and its nil message dereferenced. *)
Definition handleOmciResponse (pkt : list Z) : M OnuSys unit :=
  r ← of_outcome (ParseOpenOltOmciPacket (HexEncode pkt));
  match r with
  | inl _ => panic "invalid memory address or nil pointer dereference"
  | inr (_, omciMsg) =>
      match MsgType omciMsg with
      | MibResetResponseType =>
          tid ← getNextTid false;
          mibUpload ← of_outcome (CreateMibUploadRequest tid);
          s ← get;
          sendOmciMsg mibUpload (o_PonPortID (onu s)) (o_ID (onu s))
      | MibUploadResponseType => send_mib_upload_next
      | MibUploadNextResponseType =>
          upd_onu (fun o => o <| seqNumber ::= (fun n => u16 (n + 1)) |>) ;;
          s ← get;
          if decide (seqNumber (onu s) = NumberOfBaselineCommands (o_MibDb (onu s)))
          then send_set_pptp else send_mib_upload_next
      | SetResponseType => Event onu_fsm BbrOnuTxSendEapolFlow ;; skip
      | AlarmNotificationType => skip
      | _ => exit "unexpected frame"
      end
  end.
End Bbr.

(** ** The loop *)

Section Loop.
  Context `{OmciLib} `{MeLib} `{Gopacket} (md5_Sum : list Z -> list Z).
  Context (rnd : nat -> Z) (omccVersion : Z) (spare : list Z -> list Z).

(** Source: internal/bbsim/devices/onu.go:551-583, [Onu.ProcessOnuMessages] (a
    packet received by BBR; an unknown UNI is only reported). *)
Definition handle_packet_in (msg : OnuPacketMessage) : M OnuSys unit :=
  s ← get;
  match pm_Type msg with
  | PT_EAPOL =>
      match findUniByPortNo (onu s) (pm_PortNo msg) with
      | inl _ => panic "invalid memory address or nil pointer dereference"
      | inr i =>
          match o_UniPorts (onu s) !! i with
          | None => panic "invalid memory address or nil pointer dereference"
          | Some u =>
              Eapol.HandleNextPacket md5_Sum onu_fsm (pm_OnuId msg) (pm_IntfId msg) (GemPortId msg)
                (pm_PortNo msg) (uni_ID u) 0 0 (pm_Packet msg)
          end
      end
  | PT_DHCP =>
      HandleNextBbrPacket (o_ID (onu s)) (o_PonPortID (onu s))
        (upd_onu (fun o => o <| o_Done ::= S |>)) (pm_Packet msg) ;; skip
  | _ => skip
  end.

(** Source: internal/bbsim/devices/onu.go:451-594, [Onu.ProcessOnuMessages]. *)
Definition handle_onu_message (m : Message) : M OnuSys unit :=
  match m with
  | OnuDiscIndication state => sendOnuDiscIndication state
  | OnuIndication state _ _ => sendOnuIndication state
  | MsgOMCI msg => handleOmciRequest rnd omccVersion spare msg ;; skip
  | UniStatusAlarm msg => handle_uni_alarm msg
  | FlowAdd _ _ f => handleFlowAdd f
  | FlowRemoved _ _ f => handleFlowRemove f
  | OnuPacketOut msg => handle_packet_out msg
  | OnuPacketIn msg => handle_packet_in msg
  | OmciIndication pkt => handleOmciResponse pkt
  | SendEapolFlow => sendEapolFlow
  | SendDhcpFlow => sendDhcpFlow
  | _ => skip
  end.

(** Source: internal/bbsim/devices/onu.go:423-446, [Onu.ProcessOnuMessages]
    (take the next message, if there is one); the result tells whether the
    loop goes on.  The loop ends when the channel is closed and empty. *)
Definition recv_message : M OnuSys bool :=
  s ← get;
  match o_Channel (onu s) with
  | ChNil => mret true
  | ChOpen [] => mret true
  | ChOpen (m :: q) =>
      upd_onu (fun o => o <| o_Channel := ChOpen q |>) ;; handle_onu_message m ;; mret true
  | ChClosed [] => mret false
  | ChClosed (m :: q) =>
      upd_onu (fun o => o <| o_Channel := ChClosed q |>) ;; handle_onu_message m ;; mret true
  end.

(** What a goroutine does when it runs; a test result and a discovery are sent
    after a wait. *)
Definition run_task (t : Task) : M OnuSys unit :=
  match t with
  | TReboot => Reboot ;; skip
  | TTestResult pkt txId => sendOmciIndication pkt txId ;; skip
  | TDiscoveryRetry state =>
      s ← get;
      if decide (o_InternalState (onu s) = OnuStateDiscovered) then sendOnuDiscIndication state
      else skip
  end.

(** Run the goroutine that was started first. *)
Definition run_next_task : M OnuSys unit :=
  s ← get;
  match tasks s with
  | [] => skip
  | t :: ts => modify (fun s => s <| tasks := ts |>) ;; run_task t
  end.
End Loop.

(** * Properties *)

(** ** The MIB upload BBR drives *)

(** An ONU of BBR that received [q] of the [n] parts of the MIB and made the
    given calls. *)
Record bbr_at (n pon id q : Z) (calls : list ClientCall) (s : OnuSys) : Prop := {
  at_pon : o_PonPortID (onu s) = pon;
  at_id : o_ID (onu s) = id;
  at_seq : seqNumber (onu s) = q;
  at_n : NumberOfBaselineCommands (o_MibDb (onu s)) = n;
  at_tid : 1 <= tid (onu s) < 0x8000;
  at_client : o_client s = Some {| c_err := None; c_calls := calls |} }.

Section Upload.
  Context `{OmciLib} `{MeLib} (n pon id : Z).
  (** The library builds the requests of this upload: one for each part of the
      MIB, and the one that unlocks the UNI, whose entity it accepts. *)
  Hypothesis next_built : forall q t, 0 <= q < n -> 1 <= t < 0x8000 ->
    exists p, Serialize MibUploadNextRequestType (BMibUploadNextRequest (onu_data_base false) q) t = inr p.
  Hypothesis set_built : exists attrs p,
    NewManagedEntity PhysicalPathTerminationPointEthernetUniClassID 257 [("AdministrativeState", AInt 0)]
      = inr attrs /\
    Serialize SetRequestType (BSetRequest
      {| EntityClass := PhysicalPathTerminationPointEthernetUniClassID; EntityInstance := 257;
         Extended := false |} attrs 0x800) 1 = inr p.

(** The bytes are a response of this type. *)
Definition is_response (ty : MessageType) (pkt : list Z) : Prop :=
  exists p o, ParseOpenOltOmciPacket (HexEncode pkt) = Done (inr (p, o)) /\ MsgType o = ty.

(** The call that asks for part [q] of the MIB. *)
Definition next_call (q : Z) (c : ClientCall) : Prop :=
  exists t b, 1 <= t < 0x8000 /\
    Serialize MibUploadNextRequestType (BMibUploadNextRequest (onu_data_base false) q) t = inr b /\
    c = COmciMsgOut pon id (HexEncode b).

(** The call that unlocks the first UNI. *)
Definition set_call (c : ClientCall) : Prop :=
  exists attrs b, Serialize SetRequestType (BSetRequest
      {| EntityClass := PhysicalPathTerminationPointEthernetUniClassID; EntityInstance := 257;
         Extended := false |} attrs 0x800) 1 = inr b /\ c = COmciMsgOut pon id (HexEncode b).

Lemma getNextTid_at q calls s :
  bbr_at n pon id q calls s -> exists s', getNextTid false s = Done (tid (onu s), s') /\
    bbr_at n pon id q calls s'.
Proof.
  intros []. unfold getNextTid, upd_onu. mred. eexists. split; [reflexivity|]. split; try done.
  cbn -[Z.pow]. unfold u16. rewrite Z.mod_small by lia. case_decide; lia.
Qed.

Lemma sendOmciMsg_at q calls s pkt :
  bbr_at n pon id q calls s -> exists s', sendOmciMsg pkt pon id s = Done (tt, s') /\
    bbr_at n pon id q (calls ++ [COmciMsgOut pon id pkt]) s'.
Proof.
  intros [H1 H2 H3 H4 H5 H6]. unfold sendOmciMsg, client_call. mred. cbn [io_client onu_io].
  rewrite H6. cbn [c_err c_calls io_set_client onu_io]. eexists. split; [reflexivity|]. by split.
Qed.

Lemma upload_next_at q calls s :
  0 <= q < n -> bbr_at n pon id q calls s -> exists c s', send_mib_upload_next s = Done (tt, s') /\
    bbr_at n pon id q (calls ++ [c]) s' /\ next_call q c.
Proof.
  intros Hq Hat. pose proof (at_tid _ _ _ _ _ _ Hat) as Ht.
  destruct (getNextTid_at q calls s Hat) as (s1 & R1 & H1). destruct (H1) as [E1 E2 E3 _ _ _].
  destruct (next_built q (tid (onu s)) Hq Ht) as [b Hb].
  destruct (sendOmciMsg_at q calls s1 (HexEncode b) H1) as (s2 & R2 & H2).
  eexists _, s2. split; [|split; [exact H2|by exists (tid (onu s)), b]].
  unfold send_mib_upload_next. erewrite bind_Done; [|exact R1]. mred.
  unfold CreateMibUploadNextRequest, request. rewrite E3, Hb. cbn [of_outcome]. by rewrite E1, E2.
Qed.

Lemma set_pptp_at q calls s :
  bbr_at n pon id q calls s -> exists c s', send_set_pptp s = Done (tt, s') /\
    bbr_at n pon id q (calls ++ [c]) s' /\ set_call c.
Proof.
  intros Hat. destruct set_built as (attrs & b & Ha & Hb).
  destruct (sendOmciMsg_at q calls s (HexEncode b) Hat) as (s2 & R2 & H2).
  eexists _, s2. split; [|split; [exact H2|by exists attrs, b]].
  unfold send_set_pptp. destruct Hat as [E1 E2 _ _ _ _].
  change (ToUint16 (GenerateUniPortEntityId 1)) with (Done 257). mred. cbn [of_outcome].
  rewrite Ha. unfold CreateSetRequest, request. cbn [me_class me_instance me_attrs].
  rewrite Hb. cbn [of_outcome]. by rewrite E1, E2.
Qed.

Lemma next_response_at q calls s pkt :
  is_response MibUploadNextResponseType pkt -> 0 <= q < n -> n < 2 ^ 16 -> bbr_at n pon id q calls s ->
  exists c s', handleOmciResponse pkt s = Done (tt, s') /\ bbr_at n pon id (q + 1) (calls ++ [c]) s' /\
    (if decide (q + 1 = n) then set_call c else next_call (q + 1) c).
Proof.
  intros (p & o & Hp & Ho) Hq Hb Hat. unfold handleOmciResponse. mred. rewrite Hp. cbn [of_outcome].
  rewrite Ho. unfold upd_onu. mred. set (s1 := s <| onu ::= _ |>).
  assert (bbr_at n pon id (q + 1) calls s1) as H1.
  { destruct Hat as [E1 E2 E3 E4 E5 E6]. split; try done. unfold s1. cbn -[Z.pow].
    rewrite E3. apply Z.mod_small. lia. }
  destruct (H1) as [_ _ E3 E4 _ _]. rewrite E3, E4.
  case_decide; [by apply set_pptp_at|apply upload_next_at; [lia|done]].
Qed.

Lemma responses_at pkts q calls s :
  Forall (is_response MibUploadNextResponseType) pkts -> 0 <= q -> n < 2 ^ 16 ->
  q + Z.of_nat (length pkts) <= n -> bbr_at n pon id q calls s ->
  exists cs s', for_each pkts handleOmciResponse s = Done (tt, s') /\
    bbr_at n pon id (q + Z.of_nat (length pkts)) (calls ++ cs) s' /\ length cs = length pkts /\
    (forall k c, cs !! k = Some c ->
       let q' := q + Z.of_nat k + 1 in if decide (q' = n) then set_call c else next_call q' c).
Proof.
  intros Hp. revert q calls s. induction Hp as [|p pkts Hp _ IH]; intros q calls s Hq Hn Hl Hat.
  { exists [], s. cbn [length]. rewrite Z.add_0_r, app_nil_r. by split_and!. }
  cbn [length] in *. destruct (next_response_at q calls s p) as (c & s1 & R1 & H1 & Hc); [done|lia..|done|].
  destruct (IH (q + 1) (calls ++ [c])%list s1) as (cs & s' & R & H2 & Hlen & Hcs); [lia..|done|].
  exists (c :: cs), s'. cbn [for_each]. erewrite bind_Done; [|exact R1]. split; [exact R|].
  rewrite <-app_assoc in H2. split; [|split; [cbn; lia|]].
  - replace (q + Z.of_nat (S (length pkts))) with (q + 1 + Z.of_nat (length pkts)) by lia. exact H2.
  - intros [|k] x Hx; cbn in Hx.
    + simplify_eq. cbv zeta. by replace (q + Z.of_nat 0 + 1) with (q + 1) by lia.
    + cbv zeta. replace (q + Z.of_nat (S k) + 1) with (q + 1 + Z.of_nat k + 1) by lia. by apply Hcs.
Qed.

(** C39: BBR uploads the whole MIB.  Once the upload was started, the responses
    to the [n] parts of the MIB make an ONU of BBR ask for the parts
    [0 .. n - 1] in order, each once and with a transaction identifier of the
    normal range, and after the last one it unlocks the UNI.  The upload must
    have between 1 and 65535 parts, the responses must parse, the stream must
    work, and the library must be able to serialize these very requests: the
    request for each part below [n], and the set request of the UNI, whose
    attributes it accepts. *)
Theorem bbr_mib_upload (calls : list ClientCall) (s : OnuSys) (start : list Z) (pkts : list (list Z)) :
  is_response MibUploadResponseType start -> Forall (is_response MibUploadNextResponseType) pkts ->
  Z.of_nat (length pkts) = n -> 1 <= n < 2 ^ 16 -> bbr_at n pon id 0 calls s ->
  exists c0 cs s', for_each (start :: pkts) handleOmciResponse s = Done (tt, s') /\
    o_client s' = Some {| c_err := None; c_calls := calls ++ c0 :: cs |} /\
    next_call 0 c0 /\ Z.of_nat (length cs) = n /\
    (forall k c, cs !! k = Some c -> Z.of_nat k + 1 < n -> next_call (Z.of_nat k + 1) c) /\
    (forall c, last cs = Some c -> set_call c).
Proof.
  intros (p & o & Hp & Ho) Hps Hlen Hn Hat. destruct (upload_next_at 0 calls s ltac:(lia) Hat) as (c0 & s1 & R1 & H1 & Hc0).
  destruct (responses_at pkts 0 (calls ++ [c0])%list s1) as (cs & s' & R & H2 & Hl & Hcs); [done|lia..|exact H1|].
  exists c0, cs, s'. cbn [for_each]. split.
  { assert (handleOmciResponse start s = Done (tt, s1)) as R0.
    { unfold handleOmciResponse. mred. rewrite Hp. cbn [of_outcome]. by rewrite Ho. }
    erewrite bind_Done; [exact R|exact R0]. }
  rewrite <-app_assoc in H2. split; [exact (at_client _ _ _ _ _ _ H2)|]. split; [done|]. split; [lia|].
  split.
  - intros k c Hk Hb. specialize (Hcs k c Hk). cbv zeta in Hcs. rewrite decide_False in Hcs by lia. exact Hcs.
  - intros c Hc. rewrite last_lookup in Hc. specialize (Hcs _ c Hc). cbv zeta in Hcs.
    rewrite decide_True in Hcs by lia. exact Hcs.
Qed.
End Upload.

(** A decoder that tells a MIB upload response from a MIB upload next response
    by the byte of the message type, and a serializer that only knows the
    requests of an upload of three parts. *)
Definition upload_omci : OmciLib := {|
  SerializeLayers := fun o b =>
    match b with
    | BMibUploadNextRequest _ q =>
        if decide (q < 3) then inr [1; u8 (TransactionID o); u8 q] else inl "cannot serialize"
    | BSetRequest _ _ _ => inr [2]
    | _ => inl "cannot serialize"
    end;
  SerializePartial := fun _ _ => [];
  LoadManagedEntityDefinition := fun c i a => {| me_class := c; me_instance := i; me_attrs := a |};
  NewPacket := fun rx => Some ({| TransactionID := 1;
    MsgType := if decide (rx !!! 2%nat = 45) then MibUploadResponseType else MibUploadNextResponseType;
    DeviceIdentifier := ExtendedIdent |}, {| pkt_layers := []; pkt_data := rx |});
  Checksum := fun _ => 0 |}.

Definition response_bytes (ty : Z) : list Z := [0; 1; ty; ExtendedIdent; 0; 2; 0; 0; 0; 0].
Definition bbr_onu : OnuSys :=
  running_onu <| o_client := Some {| c_err := None; c_calls := [] |} |>
              <| onu ::= (fun o => o <| o_MibDb := {| NumberOfBaselineCommands := 3;
                 NumberOfExtendedCommands := 0; baselineItems := []; extendedResponses := [] |} |>) |>.

Lemma bbr_mib_upload_witness :
  exists c0 c1 c2 c3 s', for_each (response_bytes 45 :: replicate 3 (response_bytes 46))
      (@handleOmciResponse upload_omci accept_all) bbr_onu = Done (tt, s') /\
    o_client s' = Some {| c_err := None; c_calls := [c0; c1; c2; c3] |} /\
    @next_call upload_omci 0 1 0 c0 /\ @next_call upload_omci 0 1 1 c1 /\
    @next_call upload_omci 0 1 2 c2 /\ @set_call upload_omci 0 1 c3.
Proof.
  destruct (@bbr_mib_upload upload_omci accept_all 3 0 1
    ltac:(intros q t Hq _; unfold Serialize; cbn; rewrite decide_True by lia; by eexists)
    ltac:(by eexists _, _) [] bbr_onu (response_bytes 45) (replicate 3 (response_bytes 46)))
    as (c0 & cs & s' & R & C & H0 & Hl & Hn & Hs).
  - eexists _, _. split; reflexivity.
  - apply Forall_replicate. eexists _, _. split; reflexivity.
  - reflexivity.
  - lia.
  - split; try done; lia.
  - destruct cs as [|c1 [|c2 [|c3 [|]]]]; cbn in Hl; try lia.
    exists c0, c1, c2, c3, s'. split_and!; [exact R|exact C|exact H0| | |by apply Hs].
    + apply (Hn 0%nat); [done|lia].
    + apply (Hn 1%nat); [done|lia].
Defined.

(** ** Alarms of the UNIs *)

Definition raised_bitmap : list Z := 128 :: replicate 27 0.

(** The sequence number of the next notification. *)
Definition next_seq (a : option OnuAlarmInfo) : Z :=
  match a with
  | Some i => if decide (SequenceNo i = 255) then 1 else u8 (SequenceNo i + 1)
  | None => 1
  end.

Section AlarmStep.
  Context `{OmciLib}.

Lemma uni_alarm_step m s pkt bm :
  let key : OnuAlarmInfoMapKey := (us_EntityID m, PhysicalPathTerminationPointEthernetUniClassID) in
  let a := onuAlarmsInfo (onu s) in
  let n := next_seq (a !! key) in
  CreateUniStatusAlarm (RaiseOMCIAlarm m) (us_EntityID m) n = (Some pkt, bm) -> s_err (o_wire s) = None ->
  exists s', handle_uni_alarm m s = Done (tt, s') /\
    onuAlarmsInfo (onu s') = (if decide (bm = no_alarms) then delete key a
                              else <[key := {| SequenceNo := n; AlarmBitMap := bm |}]> a) /\
    o_wire s' = (o_wire s) <| s_sent ::= (fun l => l ++ [IndOmci (o_PonPortID (onu s)) (o_ID (onu s)) pkt])%list |> /\
    o_PonPortID (onu s') = o_PonPortID (onu s) /\ o_ID (onu s') = o_ID (onu s).
Proof.
  intros key a n Hc He.
  assert (exists b, IncrementAlarmSequenceNumber key s =
    Done (n, s <| onu ::= (fun o => o <| onuAlarmsInfo ::= <[key := {| SequenceNo := n; AlarmBitMap := b |}]> |>) |>))
    as [b Hi].
  { unfold IncrementAlarmSequenceNumber, upd_onu, n. mred. unfold a.
    destruct (onuAlarmsInfo (onu s) !! key) eqn:E; eexists; reflexivity. }
  set (st := s <| onu ::= _ |>) in Hi.
  assert (onuAlarmsInfo (onu st) = <[key := {| SequenceNo := n; AlarmBitMap := b |}]> a) as Hst by done.
  assert (onuAlarmsInfo (onu st) !! key = Some {| SequenceNo := n; AlarmBitMap := b |}) as Hl
    by (rewrite Hst; apply lookup_insert_eq).
  unfold handle_uni_alarm. fold key. erewrite bind_Done; [|exact Hi]. mred. rewrite Hc, Hl.
  unfold sendOmciIndication, send, upd_onu. mred. unfold Send. cbn [io_stream onu_io].
  change (o_wire st) with (o_wire s). rewrite He. cbn [default SequenceNo fmap option_fmap option_map].
  case_decide; (eexists; split; [reflexivity|]; split; [|done]);
    cbn [onu upd set_onu set_o_wire onuAlarmsInfo set_alarms io_set_stream onu_io]; rewrite Hst.
  - apply delete_insert_eq.
  - apply insert_insert_eq.
Qed.
End AlarmStep.

(** The alarms an ONU keeps for its UNIs.  When a UNI goes down the alarm
    is recorded as raised and its notification sent; when the UNI comes back
    the record is removed and a second notification with the next sequence
    number is sent; the alarms of the other entities stay. *)
Theorem uni_alarm_recorded `{OmciLib} (s : OnuSys) (id : Z) (m m' : UniStatusAlarmMessage) :
  (forall ty b t, exists p, Serialize ty b t = inr p) ->
  us_EntityID m = id -> us_EntityID m' = id -> RaiseOMCIAlarm m = true -> RaiseOMCIAlarm m' = false ->
  s_err (o_wire s) = None ->
  let key : OnuAlarmInfoMapKey := (id, PhysicalPathTerminationPointEthernetUniClassID) in
  onuAlarmsInfo (onu s) !! key = None ->
  exists s1 s2, handle_uni_alarm m s = Done (tt, s1) /\ handle_uni_alarm m' s1 = Done (tt, s2) /\
    onuAlarmsInfo (onu s1) = <[key := {| SequenceNo := 1; AlarmBitMap := raised_bitmap |}]>
                               (onuAlarmsInfo (onu s)) /\
    onuAlarmsInfo (onu s2) = onuAlarmsInfo (onu s) /\
    exists p1 p2,
      CreateUniStatusAlarm true id 1 = (Some p1, raised_bitmap) /\
      CreateUniStatusAlarm false id 2 = (Some p2, no_alarms) /\
      s_sent (o_wire s2) = (s_sent (o_wire s) ++
        [IndOmci (o_PonPortID (onu s)) (o_ID (onu s)) p1; IndOmci (o_PonPortID (onu s)) (o_ID (onu s)) p2])%list.
Proof.
  intros Hs E1 E2 Hr Hr' Hw key Hk.
  assert (forall r n, exists p, CreateUniStatusAlarm r id n = (Some p, if r then raised_bitmap else no_alarms))
    as Hc.
  { intros r n. unfold CreateUniStatusAlarm. set (bm := if r then _ else _).
    destruct (Hs AlarmNotificationType (BAlarmNotification
      {| EntityClass := PhysicalPathTerminationPointEthernetUniClassID; EntityInstance := id;
         Extended := false |} bm n) 0) as [p ->]. by exists p. }
  destruct (Hc true 1) as [p1 H1], (Hc false 2) as [p2 H2].
  destruct (uni_alarm_step m s p1 raised_bitmap) as (s1 & R1 & A1 & W1 & P1 & I1);
    [rewrite E1; fold key; by rewrite Hk, Hr|done|].
  rewrite E1 in A1. fold key in A1. rewrite Hk, decide_False in A1 by done.
  destruct (uni_alarm_step m' s1 p2 no_alarms) as (s2 & R2 & A2 & W2 & P2 & I2).
  { rewrite E2. fold key. assert (onuAlarmsInfo (onu s1) !! key = Some {| SequenceNo := 1; AlarmBitMap := raised_bitmap |})
      as -> by (rewrite A1; apply lookup_insert_eq). by rewrite Hr'. }
  { by rewrite W1. }
  exists s1, s2. split; [done|]. split; [done|]. split; [done|]. split.
  - rewrite A2, decide_True, A1, E2 by done. fold key. etransitivity; [apply delete_insert_eq|]. by apply delete_id.
  - exists p1, p2. split; [done|]. split; [done|].
    rewrite W2, W1, P1, I1. cbn. by rewrite <-app_assoc.
Qed.

Definition alarm_of (raise : bool) : UniStatusAlarmMessage := {|
  us_OnuSN := NewSN 7 0 0 1; us_OnuID := 1; us_AdminState := if raise then 1 else 0;
  us_EntityID := 257; RaiseOMCIAlarm := raise |}.

Lemma uni_alarm_recorded_witness :
  exists s1 s2, @handle_uni_alarm trivial_omci (alarm_of true) running_onu = Done (tt, s1) /\
    @handle_uni_alarm trivial_omci (alarm_of false) s1 = Done (tt, s2) /\
    onuAlarmsInfo (onu s2) = onuAlarmsInfo (onu running_onu).
Proof.
  destruct (@uni_alarm_recorded trivial_omci running_onu 257 (alarm_of true) (alarm_of false))
    as (s1 & s2 & R1 & R2 & _ & A2 & _); try done; [by eexists|].
  exact (ex_intro _ s1 (ex_intro _ s2 (conj R1 (conj R2 A2)))).
Defined.

(** ** Discovery *)

(** The waiting goroutines run [k] times. *)
Fixpoint run_tasks (k : nat) : M OnuSys unit :=
  match k with
  | O => skip
  | S k' => run_next_task ;; run_tasks k'
  end.

(** The discovery indication of an ONU. *)
Definition disc_of (o : Onu) : Indication := IndOnuDisc (o_PonPortID o) (o_SerialNumber o).

Lemma disc_step s st :
  o_InternalState (onu s) = OnuStateDiscovered -> s_err (o_wire s) = None ->
  tasks s = [TDiscoveryRetry st] ->
  exists s', run_next_task s = Done (tt, s') /\ onu s' = onu s /\ tasks s' = [TDiscoveryRetry st] /\
    o_wire s' = (o_wire s) <| s_sent ::= (fun l => l ++ [disc_of (onu s)])%list |>.
Proof.
  intros Hst He Ht. unfold run_next_task. mred. rewrite Ht. unfold run_task. mred.
  set (t := s <| tasks := [] |>). change (o_InternalState (onu t)) with (o_InternalState (onu s)).
  rewrite decide_True by done. unfold sendOnuDiscIndication, send, publishEvent, spawn. mred. unfold Send.
  cbn [io_stream onu_io]. change (o_wire t) with (o_wire s). rewrite He.
  destruct (PublishEvents _); (eexists; split; [reflexivity|done]).
Qed.

(** An ONU that was discovered and that VOLTHA does not activate keeps
    reporting itself: every time its goroutine wakes up it sends its discovery
    indication again and goes back to wait.  Once the ONU is in another state
    the goroutine ends without sending anything. *)
Theorem discovery_repeats (s : OnuSys) (st : OperState) (k : nat) :
  s_err (o_wire s) = None -> tasks s = [TDiscoveryRetry st] ->
  (o_InternalState (onu s) = OnuStateDiscovered ->
     exists s', run_tasks k s = Done (tt, s') /\ onu s' = onu s /\ tasks s' = [TDiscoveryRetry st] /\
       s_sent (o_wire s') = (s_sent (o_wire s) ++ replicate k (disc_of (onu s)))%list) /\
  (o_InternalState (onu s) <> OnuStateDiscovered ->
     exists s', run_tasks (S k) s = Done (tt, s') /\ onu s' = onu s /\ tasks s' = [] /\
       o_wire s' = o_wire s).
Proof.
  intros He Ht. split.
  - revert s He Ht. induction k as [|k IH]; intros s He Ht Hst.
    { exists s. cbn. by rewrite app_nil_r. }
    destruct (disc_step s st Hst He Ht) as (s1 & R1 & O1 & T1 & W1).
    destruct (IH s1) as (s' & R & O & T & W); [by rewrite W1|done|by rewrite O1|].
    exists s'. cbn [run_tasks]. erewrite bind_Done; [|exact R1]. split; [exact R|].
    rewrite O, W, W1, O1. split; [done|]. split; [done|]. cbn. by rewrite <-app_assoc.
  - intros Hst. exists (s <| tasks := [] |>). split; [|done].
    assert (forall n t, tasks t = [] -> run_tasks n t = Done (tt, t)) as Hd.
    { induction n as [|n IH]; intros t Hn; [done|]. cbn [run_tasks].
      erewrite bind_Done; [by apply IH|]. unfold run_next_task. mred. by rewrite Hn. }
    cbn [run_tasks]. erewrite bind_Done; [by apply Hd|].
    unfold run_next_task. mred. rewrite Ht. unfold run_task. mred.
    change (o_InternalState (onu (s <| tasks := [] |>))) with (o_InternalState (onu s)).
    by rewrite decide_False.
Qed.

Lemma discovery_repeats_witness :
  let s := (running_onu <| onu ::= (fun o => o <| o_InternalState := OnuStateDiscovered |>) |>)
             <| tasks := [TDiscoveryRetry UP] |> in
  exists s', run_tasks 3 s = Done (tt, s') /\ s_sent (o_wire s') = replicate 3 (disc_of (onu s)).
Proof.
  intros s. destruct (discovery_repeats s UP 3) as [H _]; [done..|].
  destruct (H eq_refl) as (s' & R & _ & _ & W). exact (ex_intro _ s' (conj R W)).
Defined.
