(* ===== verification/OnuInv.v ===== *)
(** * ONUs: what never changes and what always holds

    The invariant of an ONU: its place, serial number, configured ports, MIB and
    response rate are never written; its counters stay in their ranges, its
    ports are sound, its channel exists once it was initialized; and the tables
    of its PON only name ONUs of the PON.  Every operation of [Onu], [OnuOmci]
    and [OnuLoop] keeps it. *)
From S2P Require Import Prelude Fsm Options OmciTypes Omci MibDb Packets Types Io Eapol Dhcp Igmp Service.
From S2P Require Import PonRes AlarmSim UniPort UniInv Get Onu OnuOmci OnuLoop.
Open Scope Z_scope.
Open Scope string_scope.

(** ** POTS ports *)

Definition pots_static (p : PotsPort) : Z * EntityID := (pots_ID p, pots_MeId p).
Definition pots_sound (p : PotsPort) : Prop := pots_OperState p ∈ [UniStateUp; UniStateDown].
Definition pots_is (k : Z * EntityID) (c : Prop) (s : PotsSys) : Prop :=
  pots_static (pots s) = k /\ pots_sound (pots s) /\ (p_onu_chan s = ChNil -> c).

Lemma sent_not_nil {A : Type} (x : A) ch ch' : chan_send x ch = Done ch' -> ch' <> ChNil.
Proof. destruct ch; cbn; [done| |done]. by intros [= <-]. Qed.

Lemma pots_event k c o ev : preserves (pots_is k c) (Event (pots_fsm o) ev).
Proof.
  apply preserves_Event_enter; [done|apply preserves_skip|].
  intros s dst s' (Hk & Hst & Hc) Ht _ Hr. cbn [fsm_enter fsm_set pots_fsm] in Hr.
  change (pots_MeId (pots (s <| pots ::= ?f |>))) with (pots_MeId (pots s)) in Hr.
  destruct (ToUint16 (pots_MeId (pots s))) as [id| | |]; [|done..]. unfold lift_upd in Hr.
  destruct (chan_send _ _) as [ch| | |] eqn:E; [|done..]. simplify_eq. split; [done|].
  split; [|intros Hn; by destruct (sent_not_nil _ _ _ E)].
  red. cbn. apply transitions_entry in Ht. vm_compute in Ht. set_solver.
Qed.

Lemma pots_disable k c o : preserves (pots_is k c) (Pots_Disable o).
Proof. pose proof pots_event. unfold Pots_Disable. preserve. Qed.
Lemma pots_enable k c o : preserves (pots_is k c) (Pots_Enable o).
Proof. apply pots_event. Qed.
#[export] Hint Resolve pots_disable pots_enable : preserve.

(** ** ONUs *)

(** What comes from the configuration. *)
Record OnuStatic := {
  os_PonPortID : Z; os_SerialNumber : SerialNumber; os_UniPorts : list UniPort;
  os_PotsPorts : list (Z * EntityID); os_OmciResponseRate : Z; os_MibDb : MibDb; os_isMock : bool }.
Definition onu_static (o : Onu) : OnuStatic := {|
  os_PonPortID := o_PonPortID o; os_SerialNumber := o_SerialNumber o;
  os_UniPorts := uni_static <$> o_UniPorts o; os_PotsPorts := pots_static <$> o_PotsPorts o;
  os_OmciResponseRate := OmciResponseRate o; os_MibDb := o_MibDb o; os_isMock := o_isMock o |}.

(** The states of an ONU. *)
Definition onu_states : list string :=
  [OnuStateCreated; OnuStateInitialized; OnuStateDiscovered; OnuStateEnabled; OnuStateDisabled;
   OnuStatePonDisabled; OnuStateImageDownloadStarted; OnuStateImageDownloadInProgress;
   OnuStateImageDownloadComplete; OnuStateImageDownloadError; OnuStateImageActivated;
   OnuStateImageCommitted; BbrOnuStateEapolFlowSent; BbrOnuStateDhcpFlowSent].

Record onu_sound (o : Onu) : Prop := {
  so_state : o_InternalState o ∈ onu_states;
  so_chan : o_Channel o = ChNil -> o_InternalState o = OnuStateCreated;
  so_mds : is_u8 (MibDataSync o);
  so_counter : 0 <= OmciMsgCounter o <= maxOmciMsgCounter;
  so_tid : 1 <= tid o < 0x8000;
  so_hpTid : 0x8000 <= hpTid o < 0x10000;
  so_seq : is_u16 (seqNumber o);
  so_sections : is_u32 (ImageSoftwareReceivedSections o);
  so_alarms : map_Forall (fun _ i => is_u8 (SequenceNo i)) (onuAlarmsInfo o);
  so_unis : Forall uni_sound (o_UniPorts o);
  so_pots : Forall pots_sound (o_PotsPorts o) }.

(** The tables of a PON only name these ONUs. *)
Record owned (sns : list SerialNumber) (r : PonRes) : Prop := {
  ow_gem : map_Forall (fun _ sn => sn ∈ sns) (AllocatedGemPorts r);
  ow_onu : map_Forall (fun _ sn => sn ∈ sns) (AllocatedOnuIds r);
  ow_alloc : map_Forall (fun _ v => OnuSn v ∈ sns) (AllocatedAllocIds r) }.

(** The invariant of an ONU among those of its PON. *)
Definition onu_is (sns : list SerialNumber) (k : OnuStatic) (s : OnuSys) : Prop :=
  onu_static (onu s) = k /\ onu_sound (onu s) /\ owned sns (res s).

(** ** The tables *)

Section Tables.
  Context (sns : list SerialNumber) (r : PonRes).
  Hypothesis Hr : owned sns r.

Lemma owned_empty : owned sns empty_res.
Proof. split; apply map_Forall_empty. Qed.
Lemma owned_storeOnuId id sn : sn ∈ sns -> owned sns (storeOnuId id sn r).
Proof. destruct Hr. intros Hin. split; [done|by apply map_Forall_insert_2|done]. Qed.
Lemma owned_storeGemPort g sn : sn ∈ sns -> owned sns (storeGemPort g sn r).
Proof. destruct Hr. intros Hin. split; [by apply map_Forall_insert_2|done..]. Qed.
Lemma owned_storeAllocId p o e a sn : sn ∈ sns -> owned sns (storeAllocId p o e a sn r).
Proof. destruct Hr. intros Hin. split; [done..|by apply map_Forall_insert_2]. Qed.
Lemma owned_removeOnuId id : owned sns (removeOnuId id r).
Proof. destruct Hr. split; [done|by apply map_Forall_delete|done]. Qed.
Lemma owned_removeGemPort g : owned sns (removeGemPort g r).
Proof. destruct Hr. split; [by apply map_Forall_delete|done..]. Qed.
Lemma owned_removeAllocId p o e : owned sns (removeAllocId p o e r).
Proof. destruct Hr. split; [done..|by apply map_Forall_delete]. Qed.
Lemma owned_removeGemPortBySn sn : owned sns (removeGemPortBySn sn r).
Proof.
  destruct Hr as [Hg ? ?]. split; [|done..]. cbn. intros k v Hk.
  apply map_lookup_filter_Some in Hk as [Hk _]. by eapply Hg.
Qed.
Lemma owned_removeAllocIdsForOnuSn sn : owned sns (removeAllocIdsForOnuSn sn r).
Proof.
  destruct Hr as [? ? Ha]. split; [done..|]. cbn. intros k v Hk.
  apply map_lookup_filter_Some in Hk as [Hk _]. by eapply Ha.
Qed.
Lemma owned_cleared : owned sns (removeAllOnuIds (removeAllGemPorts (removeAllAllocIds r))).
Proof. split; apply map_Forall_empty. Qed.
End Tables.

Create HintDb owned.
#[export] Hint Resolve owned_storeOnuId owned_storeGemPort owned_storeAllocId owned_removeOnuId
  owned_removeGemPort owned_removeAllocId owned_removeGemPortBySn owned_removeAllocIdsForOnuSn
  owned_cleared : owned.

(** ** Pieces of the code of an ONU *)

(** A change of an ONU that keeps it sound. *)
Ltac sound_upd :=
  intros; match goal with H : onu_sound _ |- _ => destruct H end; constructor; cbn; try done.

Section Pieces.
  Context (sns : list SerialNumber) (k : OnuStatic) (Hk : os_SerialNumber k ∈ sns).

Lemma inv_upd f : (forall o, onu_static (f o) = onu_static o) -> (forall o, onu_sound o -> onu_sound (f o)) ->
  preserves (onu_is sns k) (upd_onu f).
Proof. intros Hs Ho. apply preserves_modify. intros s (H1 & H2 & H3). split; cbn; [by rewrite Hs|auto]. Qed.

Lemma inv_res f : (forall r, owned sns r -> owned sns (f r)) -> preserves (onu_is sns k) (upd_res f).
Proof. intros Hf. apply preserves_modify. intros s (H1 & H2 & H3). split; cbn; [done|auto]. Qed.

(** The serial number the code writes into the tables. *)
Lemma inv_sn s : onu_is sns k s -> o_SerialNumber (onu s) ∈ sns.
Proof. intros (<- & _). exact Hk. Qed.

Lemma inv_spawn t : preserves (onu_is sns k) (spawn t).
Proof. by apply preserves_modify. Qed.
Lemma inv_send i : preserves (onu_is sns k) (send i).
Proof. intros s a s' Hs. unfold send, zoom, Send. destruct (s_err _); by intros [= <- <-]. Qed.
Lemma inv_publish e : preserves (onu_is sns k) (publishEvent e).
Proof. unfold publishEvent. preserve. by apply preserves_modify. Qed.
Lemma inv_client c : preserves (onu_is sns k) (client_call c).
Proof.
  intros s a s' Hs. unfold client_call. destruct (io_client s); [|done].
  destruct (c_err _); by intros [= <- <-].
Qed.

Lemma inv_send_self m : preserves (onu_is sns k) (send_self m).
Proof.
  apply preserves_lift. intros s c (H1 & H2 & H3) Hc. split; [done|]. split; [|done]. sound_upd.
  intros Hn. by destruct (sent_not_nil _ _ _ Hc).
Qed.

Lemma inv_close_self : preserves (onu_is sns k) close_self.
Proof.
  apply preserves_lift. intros s c (H1 & H2 & H3) Hc. split; [done|]. split; [|done]. sound_upd.
  destruct (o_Channel (onu s)); cbn in Hc; by simplify_eq.
Qed.

Lemma inv_alarm ty st : preserves (onu_is sns k) (simulate_alarm ty st).
Proof.
  unfold simulate_alarm. apply preserves_bind; [apply preserves_get|]. intros s0 s a s' Hs.
  unfold zoom. destruct (SimulateOnuAlarm _ _ _ _) as [[]| | |]; [|done..]. by intros [= <- <-].
Qed.

(** Code of a port. *)
Lemma inv_on_uni {A : Type} i (m : M UniSys A) :
  (forall ku c, preserves (uni_is ku c) m) -> preserves (onu_is sns k) (on_uni i m).
Proof.
  intros Hm s a s' (H1 & H2 & H3). unfold on_uni. destruct (o_UniPorts (onu s) !! i) as [u|] eqn:Hu; [|done].
  destruct (m _) as [[b t]| | |] eqn:E; [|done..]. intros [= <- <-].
  assert (uni_is (uni_static u) (o_InternalState (onu s) = OnuStateCreated) t) as (T1 & T2 & T3).
  { eapply Hm; [|exact E]. split; [done|]. split; [|exact (so_chan _ H2)]. by apply (Forall_lookup_1 _ _ _ _ (so_unis _ H2) Hu). }
  split; [|split; [|done]].
  - rewrite <-H1. unfold onu_static. cbn. f_equal. rewrite list_fmap_insert, T1. apply list_insert_id.
    by rewrite list_lookup_fmap, Hu.
  - sound_upd. by apply Forall_insert.
Qed.

Lemma inv_on_pots {A : Type} i (m : M PotsSys A) :
  (forall kp c, preserves (pots_is kp c) m) -> preserves (onu_is sns k) (on_pots i m).
Proof.
  intros Hm s a s' (H1 & H2 & H3). unfold on_pots. destruct (o_PotsPorts (onu s) !! i) as [u|] eqn:Hu; [|done].
  destruct (m _) as [[b t]| | |] eqn:E; [|done..]. intros [= <- <-].
  assert (pots_is (pots_static u) (o_InternalState (onu s) = OnuStateCreated) t) as (T1 & T2 & T3).
  { eapply Hm; [|exact E]. split; [done|]. split; [|exact (so_chan _ H2)]. by apply (Forall_lookup_1 _ _ _ _ (so_pots _ H2) Hu). }
  split; [|split; [|done]].
  - rewrite <-H1. unfold onu_static. cbn. f_equal. rewrite list_fmap_insert, T1. apply list_insert_id.
    by rewrite list_lookup_fmap, Hu.
  - sound_upd. by apply Forall_insert.
Qed.

#[local] Hint Resolve inv_spawn inv_send inv_publish inv_client inv_send_self inv_close_self inv_alarm : preserve.
#[local] Hint Extern 1 (preserves _ (upd_onu _)) => apply inv_upd; [done|sound_upd] : preserve.
#[local] Hint Extern 1 (preserves _ (upd_res _)) => apply inv_res; intros; auto with owned : preserve.
#[local] Hint Extern 1 (preserves _ (on_uni _ _)) => apply inv_on_uni; preserve : preserve.
#[local] Hint Extern 1 (preserves _ (on_pots _ _)) => apply inv_on_pots; preserve : preserve.
#[local] Hint Extern 1 (preserves _ (for_each _ _)) => apply preserves_for_each; preserve : preserve.

(** ** The state machine *)

Lemma inv_oper ev : preserves (onu_is sns k) (Event oper_fsm ev).
Proof.
  apply preserves_Event_callbacks; [apply preserves_skip|intros; apply preserves_skip|apply preserves_skip|].
  intros x s (H1 & H2 & H3). split; [done|]. split; [|done]. sound_upd.
Qed.
#[local] Hint Resolve inv_oper : preserve.

Lemma inv_enter_disabled : preserves (onu_is sns k) enter_disabled.
Proof. unfold enter_disabled, disable_ports, cleanupOnuState. preserve. Qed.

Lemma inv_enter_enabled : preserves (onu_is sns k) enter_enabled.
Proof.
  apply preserves_with_state. intros s Hs. pose proof (inv_sn s Hs). preserve.
Qed.

Lemma inv_enter src dst : dst <> OnuStateInitialized -> preserves (onu_is sns k) (onu_enter src dst).
Proof.
  intros Hd. pose proof inv_enter_disabled. pose proof inv_enter_enabled.
  unfold onu_enter, cleanupOnuState. rewrite decide_False by done. preserve.
Qed.

(** Only the first initialization leaves the created state. *)
Lemma onu_dst ev src dst : transitions onu_events ev src = Some dst ->
  dst ∈ onu_states /\ (dst = OnuStateInitialized \/ src <> OnuStateCreated).
Proof.
  intros Ht%transitions_entry. vm_compute in Ht.
  repeat (apply elem_of_cons in Ht as [[= -> -> ->]|Ht]; [split; [vm_compute; set_solver|by (left + right)]|]).
  by apply elem_of_nil in Ht.
Qed.

Lemma inv_event ev : preserves (onu_is sns k) (Event onu_fsm ev).
Proof.
  apply preserves_Event_enter; [done|apply preserves_skip|].
  intros s dst s' Hs Ht _ Hr. cbn [fsm_events fsm_current fsm_enter fsm_set onu_fsm] in *.
  destruct (onu_dst _ _ _ Ht) as [Hin Hc]. destruct (decide (dst = OnuStateInitialized)) as [->|Hne].
  - unfold onu_enter in Hr. rewrite decide_True in Hr by done.
    apply bind_Done_inv in Hr as ([] & s1 & [= <-] & Hr). revert Hr.
    refine ((_ : preserves (onu_is sns k) _) _ _ _ _); [preserve|].
    destruct Hs as (H1 & H2 & H3). split; [done|]. split; [|done]. sound_upd.
  - revert Hr. apply (inv_enter _ _ Hne). destruct Hs as (H1 & H2 & H3). split; [done|]. split; [|done].
    sound_upd. intros Hn. destruct Hc as [->|Hc]; [done|]. by destruct Hc; auto.
Qed.
#[local] Hint Resolve inv_event : preserve.

(** ** Life cycle, flows and counters *)

Lemma inv_omci_alarm b ty : preserves (onu_is sns k) (SendOMCIAlarmNotificationMsg b ty).
Proof. unfold SendOMCIAlarmNotificationMsg. preserve. Qed.
#[local] Hint Resolve inv_omci_alarm : preserve.

Lemma inv_shutdown : preserves (onu_is sns k) HandleShutdownONU.
Proof. unfold HandleShutdownONU, Current. preserve. Qed.
Lemma inv_poweron : preserves (onu_is sns k) HandlePowerOnONU.
Proof. unfold HandlePowerOnONU, Current. preserve. Qed.
Lemma inv_reboot : preserves (onu_is sns k) Reboot.
Proof. pose proof inv_shutdown. pose proof inv_poweron. unfold Reboot. preserve. Qed.
Lemma inv_set_alarm ty st : preserves (onu_is sns k) (SetAlarm ty st).
Proof. unfold SetAlarm. preserve. Qed.
Lemma inv_rediscover : preserves (onu_is sns k) ReDiscoverOnu.
Proof. unfold ReDiscoverOnu. preserve. Qed.
Lemma inv_set_id id : preserves (onu_is sns k) (SetID id).
Proof. unfold SetID. preserve. Qed.
Lemma inv_flow_add f : preserves (onu_is sns k) (handleFlowAdd f).
Proof. unfold handleFlowAdd. preserve. Qed.
Lemma inv_flow_remove f : preserves (onu_is sns k) (handleFlowRemove f).
Proof. unfold handleFlowRemove. preserve. Qed.

Lemma is_u8_u8 z : is_u8 (u8 z).
Proof. by apply Z.mod_pos_bound. Qed.
Lemma is_u16_u16 z : is_u16 (u16 z).
Proof. by apply Z.mod_pos_bound. Qed.
Lemma is_u32_u32 z : is_u32 (u32 z).
Proof. by apply Z.mod_pos_bound. Qed.
#[local] Hint Resolve is_u8_u8 is_u16_u16 is_u32_u32 : core.
#[local] Hint Extern 1 (preserves _ (upd_onu _)) => apply inv_upd; [done|sound_upd; auto] : preserve.

Lemma inv_alarm_number key : preserves (onu_is sns k) (IncrementAlarmSequenceNumber key).
Proof.
  unfold IncrementAlarmSequenceNumber. preserve; apply inv_upd; try done; sound_upd;
    apply map_Forall_insert_2; cbn; try done; case_decide; done || apply is_u8_u8.
Qed.
Lemma inv_mds r : preserves (onu_is sns k) (InvalidateMibDataSync r).
Proof. unfold InvalidateMibDataSync. preserve. Qed.

Lemma inv_next_tid b : preserves (onu_is sns k) (getNextTid b).
Proof.
  unfold getNextTid. apply preserves_with_state. intros s (H1 & H2 & H3). destruct H2.
  pose proof (is_u16_u16 (hpTid (onu s) + 1)) as Hh. unfold is_u16 in Hh.
  assert (u16 (tid (onu s) + 1) = tid (onu s) + 1) as Ht by (apply Z.mod_small; lia).
  preserve; apply inv_upd; try done; sound_upd; rewrite ?Ht; case_decide; lia.
Qed.
#[local] Hint Resolve inv_reboot inv_flow_add inv_flow_remove inv_alarm_number inv_next_tid : preserve.

(** ** OMCI *)

Lemma inv_incr_mds : preserves (onu_is sns k) incr_mds.
Proof. unfold incr_mds. preserve. Qed.
#[local] Hint Resolve inv_incr_mds : preserve.

Lemma inv_on_success r m : preserves (onu_is sns k) m -> preserves (onu_is sns k) (on_success r m).
Proof. intros Hm. unfold on_success. preserve. Qed.
#[local] Hint Extern 1 (preserves _ (on_success _ _)) => apply inv_on_success; preserve : preserve.

Lemma inv_set_tcont attrs : preserves (onu_is sns k) (set_tcont attrs).
Proof.
  unfold set_tcont. do 2 (apply preserves_bind; [auto with preserve|intros]).
  apply preserves_with_state. intros s Hs. pose proof (inv_sn s Hs). preserve.
Qed.
Lemma inv_create pkt : preserves (onu_is sns k) (create_effect pkt).
Proof.
  unfold create_effect. apply preserves_with_state. intros s Hs. pose proof (inv_sn s Hs). preserve.
Qed.
#[local] Hint Resolve inv_set_tcont inv_create : preserve.

Section Requests.
  Context `{OmciLib} `{MeLib} (rnd : nat -> Z) (omccVersion : Z) (spare : list Z -> list Z).

Lemma inv_get_all_alarms msg : preserves (onu_is sns k) (handle_get_all_alarms msg).
Proof.
  unfold handle_get_all_alarms. preserve. apply inv_upd; [done|]. sound_upd.
  intros key i Hi. apply lookup_fmap_Some in Hi as (j & <- & _). done.
Qed.

Lemma inv_switch msg : preserves (onu_is sns k) (omci_switch rnd omccVersion spare msg).
Proof.
  pose proof inv_get_all_alarms.
  unfold omci_switch, handle_mib_reset, handle_get, handle_set, set_effect, set_port,
    handle_create, handle_delete, handle_reboot, handle_test, handle_start_download,
    handle_section, handle_section_ack, handle_end_download, handleEndSoftwareDownloadRequest,
    handle_activate, handle_commit.
  destruct (MsgType (OmciMsg msg)); preserve.
Qed.

Lemma inv_omci_indication pkt tx : preserves (onu_is sns k) (sendOmciIndication pkt tx).
Proof. unfold sendOmciIndication. preserve. Qed.

Lemma inv_publish_omci msg : preserves (onu_is sns k) (publishOmciEvent msg).
Proof. unfold publishOmciEvent. preserve. Qed.

Lemma inv_count : preserves (onu_is sns k) count_request.
Proof.
  unfold count_request. preserve. apply inv_upd; [done|]. sound_upd. unfold maxOmciMsgCounter in *.
  case_decide; [unfold u8; rewrite Z.mod_small by lia; lia|lia].
Qed.

Lemma inv_omci_request msg : preserves (onu_is sns k) (handleOmciRequest rnd omccVersion spare msg).
Proof.
  pose proof inv_switch. pose proof inv_omci_indication. pose proof inv_publish_omci. pose proof inv_count.
  unfold handleOmciRequest. preserve.
Qed.
End Requests.
#[local] Hint Resolve inv_omci_indication inv_omci_request : preserve.

(** ** The message loop *)

Section Loop.
  Context `{OmciLib} `{MeLib} `{Gopacket} (md5_Sum : list Z -> list Z).
  Context (rnd : nat -> Z) (omccVersion : Z) (spare : list Z -> list Z).

Lemma inv_disc st : preserves (onu_is sns k) (sendOnuDiscIndication st).
Proof. unfold sendOnuDiscIndication. preserve. Qed.
Lemma inv_ind st : preserves (onu_is sns k) (sendOnuIndication st).
Proof. unfold sendOnuIndication. preserve. Qed.

Lemma inv_uni_alarm msg : preserves (onu_is sns k) (handle_uni_alarm msg).
Proof.
  unfold handle_uni_alarm. apply preserves_bind; [auto with preserve|intros n].
  apply preserves_with_state. intros s (H1' & H2' & H3').
  assert (is_u8 (SequenceNo (default {| SequenceNo := 0; AlarmBitMap := no_alarms |}
    (onuAlarmsInfo (onu s) !! (us_EntityID msg, PhysicalPathTerminationPointEthernetUniClassID))))) as Hn.
  { destruct (onuAlarmsInfo (onu s) !! _) eqn:E; [|done]. by apply (so_alarms _ H2' _ _ E). }
  preserve; apply inv_upd; try done; sound_upd.
  - by apply map_Forall_delete.
  - apply map_Forall_insert_2; [|done]. match goal with x : option error |- _ => destruct x end; [apply is_u8_u8|exact Hn].
Qed.

Lemma inv_uni_packet i msg : preserves (onu_is sns k) (send_uni_packet i msg).
Proof. unfold send_uni_packet. preserve. Qed.
#[local] Hint Resolve inv_disc inv_ind inv_uni_alarm inv_uni_packet : preserve.

Lemma inv_packet_out msg : preserves (onu_is sns k) (handle_packet_out msg).
Proof. unfold handle_packet_out. preserve. Qed.

Lemma inv_omci_msg pkt i id : preserves (onu_is sns k) (sendOmciMsg pkt i id).
Proof. unfold sendOmciMsg. preserve. Qed.
#[local] Hint Resolve inv_packet_out inv_omci_msg : preserve.

Lemma inv_omci_response pkt : preserves (onu_is sns k) (handleOmciResponse pkt).
Proof. unfold handleOmciResponse, send_mib_upload_next, send_set_pptp. preserve. Qed.

Lemma inv_packet_in msg : preserves (onu_is sns k) (handle_packet_in md5_Sum msg).
Proof.
  pose proof (eapol_preserves md5_Sum onu_fsm (onu_is sns k) inv_send inv_client (fun ev _ => inv_event ev)).
  unfold handle_packet_in, HandleNextBbrPacket. preserve.
Qed.

Lemma inv_message m : preserves (onu_is sns k) (handle_onu_message md5_Sum rnd omccVersion spare m).
Proof.
  pose proof inv_omci_response. pose proof inv_packet_in.
  unfold handle_onu_message, sendEapolFlow, sendDhcpFlow, bbr_add. preserve.
Qed.

(** A turn of the loop. *)
Lemma inv_recv : preserves (onu_is sns k) (recv_message md5_Sum rnd omccVersion spare).
Proof. pose proof inv_message. unfold recv_message. preserve. Qed.

(** A goroutine. *)
Lemma inv_task t : preserves (onu_is sns k) (run_task t).
Proof. unfold run_task. preserve. Qed.
End Loop.
End Pieces.

#[export] Hint Resolve inv_spawn inv_send inv_publish inv_client inv_send_self inv_close_self inv_alarm inv_oper
  inv_event inv_shutdown inv_poweron inv_reboot inv_set_alarm inv_rediscover inv_set_id inv_flow_add
  inv_flow_remove inv_mds inv_next_tid inv_omci_request inv_ind inv_recv inv_task : preserve.
#[export] Hint Extern 1 (preserves (onu_is _ _) (upd_onu _)) => apply inv_upd; [done|sound_upd] : preserve.
#[export] Hint Extern 1 (preserves (onu_is _ _) (on_uni _ _)) => apply inv_on_uni; preserve : preserve.
#[export] Hint Extern 1 (preserves (onu_is _ _) (on_pots _ _)) => apply inv_on_pots; preserve : preserve.
#[export] Hint Extern 1 (preserves (onu_is _ _) (for_each _ _)) => apply preserves_for_each; preserve : preserve.
