(* ===== verification/OltFlows.v ===== *)
(** * OLT: the resources flows refer to

    [internal/bbsim/devices/olt.go]: the two tables in which the OLT records,
    per PON, ONU and port, the GEM ports and the alloc identifiers the
    installed flows use, and the check that a new flow does not use an
    identifier of another ONU of the same PON.  A table is a nest of maps as
    in the source; [holds] is its abstract reading, a set of tuples, which the
    operations are proved to update the obvious way. *)
From S2P Require Import Prelude OmciTypes Packets Types.
Open Scope Z_scope.
Open Scope string_scope.

(** The identifiers of a port with the flows that use them, the ports of an
    ONU, the ONUs of a PON, and the PONs. *)
Abbreviation IdMap := (gmap Z (gset Z)) (only parsing).
Abbreviation PortMap := (gmap Z IdMap) (only parsing).
Abbreviation OnuMap := (gmap Z PortMap) (only parsing).
Abbreviation FlowMap := (gmap Z OnuMap) (only parsing).

(** Source: internal/bbsim/devices/olt.go:110-117, [OltDevice] (the allocated
    resources). *)
Record FlowRes := { AllocIDs : FlowMap; GemPortIDs : FlowMap }.
#[export] Instance eta_FlowRes : Eta FlowRes := fun r =>
  {| AllocIDs := AllocIDs r; GemPortIDs := GemPortIDs r |}.
#[export] Instance set_AllocIDs : Setter AllocIDs := ltac:(setter_for AllocIDs).
#[export] Instance set_GemPortIDs : Setter GemPortIDs := ltac:(setter_for GemPortIDs).

(** [m[pon][onu]]; indexing a missing map gives nil. *)
Definition onu_ports (m : FlowMap) (ponId onuId : Z) : option PortMap :=
  m !! ponId ≫= (fun onus => onus !! onuId).

(** Source: internal/bbsim/devices/olt.go:1901-1907, [OltDevice.storeGemPortId]
    (the maps on the way to the entry are made when missing; storing an alloc
    identifier follows the same lines). *)
Definition record_id (portNo id flowId : Z) (ports : PortMap) : PortMap :=
  let ports := match ports !! portNo with Some _ => ports | None => <[portNo := ∅]> ports end in
  alter (fun ids : IdMap =>
    let ids := match ids !! id with Some _ => ids | None => <[id := ∅]> ids end in
    alter (fun flows => flows ∪ {[flowId]}) id ids) portNo ports.

(** Write to [m[pon][onu]]. *)
Definition alter_ports (f : PortMap -> PortMap) (ponId onuId : Z) (m : FlowMap) : FlowMap :=
  alter (alter f onuId) ponId m.

(** Source: internal/bbsim/devices/olt.go, [OltDevice.storeGemPortId]. *)
Definition storeGemPortId (ponId onuId portNo gemId flowId : Z) (r : FlowRes)
    : option error * FlowRes :=
  match onu_ports (GemPortIDs r) ponId onuId with
  | None => (Some "failed-trying-to-store-gemport-for-unknown-onu", r)
  | Some _ => (None, r <| GemPortIDs ::= alter_ports (record_id portNo gemId flowId) ponId onuId |>)
  end.

(** Source: internal/bbsim/devices/olt.go:1923-1929, [OltDevice.storeGemPortIdByFlow]
    (the loop over a replicated flow; the first error ends it). *)
Fixpoint store_gems (ponId onuId portNo flowId : Z) (gems : list Z) (r : FlowRes)
    : option error * FlowRes :=
  match gems with
  | [] => (None, r)
  | g :: gems' =>
      match storeGemPortId ponId onuId portNo g flowId r with
      | (Some e, r') => (Some e, r')
      | (None, r') => store_gems ponId onuId portNo flowId gems' r'
      end
  end.

(** The GEM ports a flow uses, as the source compares them: [int32]. *)
Definition flow_gems (f : Flow) : list Z :=
  if ReplicateFlow f then (fun kv => s32 kv.2) <$> map_to_list (PbitToGemport f) else [GemportId f].

(** Source: internal/bbsim/devices/olt.go, [OltDevice.storeGemPortIdByFlow]. *)
Definition storeGemPortIdByFlow (f : Flow) (r : FlowRes) : option error * FlowRes :=
  store_gems (u32 (AccessIntfId f)) (u32 (fl_OnuId f)) (fl_PortNo f) (FlowId f) (flow_gems f) r.

(** Source: internal/bbsim/devices/olt.go, [OltDevice.storeAllocId].  An
    unknown ONU is only logged, and writing to its nil map panics. *)
Definition storeAllocId (f : Flow) (r : FlowRes) : outcome FlowRes :=
  match onu_ports (AllocIDs r) (u32 (AccessIntfId f)) (u32 (fl_OnuId f)) with
  | None => Panicked "assignment to entry in nil map"
  | Some _ =>
      Done (r <| AllocIDs ::= alter_ports (record_id (fl_PortNo f) (fl_AllocId f) (FlowId f))
                                (u32 (AccessIntfId f)) (u32 (fl_OnuId f)) |>)
  end.

(** Source: internal/bbsim/devices/olt.go:1967-1974, [OltDevice.freeGemPortId]
    (one turn of the innermost loop; [None] when the entry of the identifier
    was removed). *)
Definition free_turn (flow : Z) (entry : option (gset Z)) (flowId : Z) : option (gset Z) :=
  let entry := if decide (flow = flowId) then (fun s => s ∖ {[flow]}) <$> entry else entry in
  if decide (size (default ∅ entry) = 0%nat) then None else entry.

(** Source: internal/bbsim/devices/olt.go:1966-1975, [OltDevice.freeGemPortId]
    (the loop over the flows of an identifier). *)
Definition free_entry (flow : Z) (flows : gset Z) : option (gset Z) :=
  foldl (free_turn flow) (Some flows) (elements flows).

(** Source: internal/bbsim/devices/olt.go:1961-1980, [OltDevice.freeGemPortId]
    (the loops over PONs, ONUs, ports and identifiers). *)
Definition free_id (flow : Z) (m : FlowMap) : FlowMap :=
  fmap (fmap (fmap (omap (free_entry flow) : IdMap -> IdMap) : PortMap -> PortMap)
    : OnuMap -> OnuMap) m.

(** Source: internal/bbsim/devices/olt.go, [OltDevice.freeGemPortId]. *)
Definition freeGemPortId (f : Flow) (r : FlowRes) : FlowRes := r <| GemPortIDs ::= free_id (FlowId f) |>.

(** Source: internal/bbsim/devices/olt.go, [OltDevice.freeAllocId]. *)
Definition freeAllocId (f : Flow) (r : FlowRes) : FlowRes := r <| AllocIDs ::= free_id (FlowId f) |>.

(** Source: internal/bbsim/devices/olt.go:1989-2008, [OltDevice.validateFlow]
    (whether an ONU of the PON other than [onuId] has one of the identifiers;
    the loop over the alloc identifiers is the same). *)
Definition used_by_other (onuId : Z) (ids : list Z) (onus : OnuMap) : bool :=
  existsb (fun '(o, ports) =>
    negb (bool_decide (o = onuId)) &&
    existsb (fun '(_, uni) =>
      existsb (fun '(id, _) => bool_decide (id ∈ ids)) (map_to_list (uni : IdMap)))
      (map_to_list (ports : PortMap))) (map_to_list onus).

(** Source: internal/bbsim/devices/olt.go, [OltDevice.validateFlow].  The text
    of the error names the first conflict found. *)
Definition validateFlow (f : Flow) (r : FlowRes) : option error :=
  let pon := u32 (AccessIntfId f) in
  let onu := u32 (fl_OnuId f) in
  if used_by_other onu (flow_gems f) (default ∅ (GemPortIDs r !! pon))
  then Some "gem-already-in-use"
  else if used_by_other onu [fl_AllocId f] (default ∅ (AllocIDs r !! pon))
  then Some "allocId-already-in-use" else None.

(** Source: internal/bbsim/devices/olt.go:1194-1209, [OltDevice.FlowAdd] (check
    the identifiers of a flow, then record them). *)
Definition admit_flow (f : Flow) (r : FlowRes) : outcome (option error * FlowRes) :=
  match validateFlow f r with
  | Some e => Done (Some e, r)
  | None =>
      match storeGemPortIdByFlow f r with
      | (Some e, r1) => Done (Some e, r1)
      | (None, r1) => r2 ← storeAllocId f r1; Done (None, r2)
      end
  end.

(** Source: internal/bbsim/devices/olt.go:934-940, [OltDevice.ActivateOnu]
    (the tables of the ONU start empty; the PON has tables). *)
Definition enable_onu_maps (ponId onuId : Z) (r : FlowRes) : outcome FlowRes :=
  if decide (is_Some (AllocIDs r !! ponId) /\ is_Some (GemPortIDs r !! ponId)) then
    Done (r <| AllocIDs ::= alter <[onuId := ∅]> ponId |>
            <| GemPortIDs ::= alter <[onuId := ∅]> ponId |>)
  else Panicked "assignment to entry in nil map".

(** Source: internal/bbsim/devices/olt.go:293-301, [OltDevice.InitOlt] (the
    tables of a PON start empty, also in [CreateOLT]). *)
Definition init_pon_maps (ponId : Z) (r : FlowRes) : FlowRes :=
  r <| AllocIDs ::= <[ponId := ∅]> |> <| GemPortIDs ::= <[ponId := ∅]> |>.

(** Source: internal/bbsim/devices/olt.go:2032-2038, [OltDevice.clearAllResources]
    (the tables of the flows). *)
Definition no_flow_res : FlowRes := {| AllocIDs := ∅; GemPortIDs := ∅ |}.

(** * The tables as sets of tuples *)

(** What the table has for an identifier. *)
Definition entry (m : FlowMap) (ponId onuId portNo id : Z) : option (gset Z) :=
  onu_ports m ponId onuId ≫= (fun ports => ports !! portNo ≫= (fun ids => ids !! id)).

(** The flow uses the identifier on this PON, ONU and port. *)
Definition holds (m : FlowMap) (ponId onuId portNo id flow : Z) : Prop :=
  exists flows, entry m ponId onuId portNo id = Some flows /\ flow ∈ flows.

(** No identifier is recorded without a flow. *)
Definition no_empty (m : FlowMap) : Prop :=
  forall ponId onuId portNo id, entry m ponId onuId portNo id <> Some ∅.

(** An identifier is used by flows of one ONU of a PON only. *)
Definition exclusive (m : FlowMap) : Prop :=
  forall ponId o1 o2 u1 u2 id f1 f2, holds m ponId o1 u1 id f1 -> holds m ponId o2 u2 id f2 -> o1 = o2.

Lemma record_id_lookup portNo id flow ports p :
  record_id portNo id flow ports !! p =
    if decide (p = portNo) then
      Some (let ids := default ∅ (ports !! portNo) in <[id := default ∅ (ids !! id) ∪ {[flow]}]> ids)
    else ports !! p.
Proof.
  unfold record_id. cbv zeta. case_decide as Hp.
  - subst p. rewrite lookup_alter_eq.
    destruct (ports !! portNo) as [ids|] eqn:E; [rewrite E|rewrite lookup_insert_eq]; cbn; f_equal;
      apply map_eq; intros i.
    + destruct (decide (i = id)) as [->|Hi].
      * rewrite lookup_alter_eq, lookup_insert_eq.
        destruct (ids !! id) eqn:Ei; [by rewrite Ei|by rewrite lookup_insert_eq].
      * rewrite lookup_alter_ne, lookup_insert_ne by done.
        destruct (ids !! id); [done|by rewrite lookup_insert_ne].
    + destruct (decide (i = id)) as [->|Hi].
      * by rewrite lookup_alter_eq, lookup_empty, !lookup_insert_eq.
      * by rewrite lookup_alter_ne, lookup_empty, !lookup_insert_ne.
  - rewrite lookup_alter_ne by done. destruct (ports !! portNo); [done|].
    by rewrite lookup_insert_ne.
Qed.

Lemma onu_ports_alter f ponId onuId m p o :
  onu_ports (alter_ports f ponId onuId m) p o =
    if decide (p = ponId /\ o = onuId) then f <$> onu_ports m p o else onu_ports m p o.
Proof.
  unfold onu_ports, alter_ports. case_decide as Hd.
  - destruct Hd as [-> ->]. rewrite lookup_alter_eq. destruct (m !! ponId); cbn; [|done].
    by rewrite lookup_alter_eq.
  - destruct (decide (p = ponId)) as [->|Hp]; [|by rewrite lookup_alter_ne].
    rewrite lookup_alter_eq. destruct (m !! ponId); cbn; [|done]. rewrite lookup_alter_ne; naive_solver.
Qed.

(** Recording a use changes the entry of the identifier and no other. *)
Lemma entry_record ponId onuId portNo id flow m p o u i :
  is_Some (onu_ports m ponId onuId) ->
  entry (alter_ports (record_id portNo id flow) ponId onuId m) p o u i =
    if decide (p = ponId /\ o = onuId /\ u = portNo /\ i = id)
    then Some (default ∅ (entry m p o u i) ∪ {[flow]}) else entry m p o u i.
Proof.
  intros [ports Hp]. unfold entry. rewrite onu_ports_alter.
  destruct (decide (p = ponId /\ o = onuId)) as [[-> ->]|Hn]; [|rewrite decide_False by naive_solver; done].
  rewrite Hp. cbn. rewrite record_id_lookup.
  destruct (decide (u = portNo)) as [->|Hu]; [|by rewrite decide_False by naive_solver]. cbn.
  destruct (decide (i = id)) as [->|Hi].
  - rewrite decide_True, lookup_insert_eq by done. by destruct (ports !! portNo).
  - rewrite decide_False, lookup_insert_ne by naive_solver. by destruct (ports !! portNo).
Qed.

Lemma holds_record ponId onuId portNo id flow m p o u i f :
  is_Some (onu_ports m ponId onuId) ->
  holds (alter_ports (record_id portNo id flow) ponId onuId m) p o u i f <->
    holds m p o u i f \/ (p, o, u, i, f) = (ponId, onuId, portNo, id, flow).
Proof.
  intros Hp. unfold holds. setoid_rewrite entry_record; [|done].
  case_decide as Hd; [destruct Hd as (-> & -> & -> & ->)|naive_solver].
  set (e := entry m ponId onuId portNo id). split.
  - intros (s & [= <-] & Hf). apply elem_of_union in Hf as [Hf|Hf]; [|set_solver].
    left. destruct e; [by eexists|set_solver].
  - intros [(s & He & Hf)|[= ->]]; (eexists; split; [reflexivity|]); [rewrite He; set_solver|set_solver].
Qed.

Lemma no_empty_record ponId onuId portNo id flow m :
  is_Some (onu_ports m ponId onuId) -> no_empty m ->
  no_empty (alter_ports (record_id portNo id flow) ponId onuId m).
Proof.
  intros Hp Hn p o u i. rewrite entry_record by done. case_decide; [|apply Hn].
  intros [= He]. set_solver.
Qed.

(** ** Freeing *)

Lemma free_turns_None flow l : foldl (free_turn flow) None l = None.
Proof.
  induction l as [|x l IH]; [done|]. cbn [foldl]. unfold free_turn at 2.
  destruct (decide (flow = x)); cbn; exact IH.
Qed.

Lemma size_decide (s : gset Z) (A : Type) (a b : A) :
  (if decide (size s = 0%nat) then a else b) = if decide (s = ∅) then a else b.
Proof. apply decide_ext. rewrite size_empty_iff. split; [apply leibniz_equiv|by intros ->]. Qed.

Lemma free_turns flow s l :
  NoDup l -> (forall x, x ∈ l -> x ∈ s) -> s <> ∅ ->
  foldl (free_turn flow) (Some s) l =
    let s' := if decide (flow ∈ l) then s ∖ {[flow]} else s in
    if decide (s' = ∅) then None else Some s'.
Proof.
  intros Hd. revert s. induction Hd as [|x l Hx Hd IH]; intros s Hl Hs; cbn [foldl].
  { cbv zeta. rewrite (decide_False (P := flow ∈ [])), decide_False by (done || set_solver). done. }
  unfold free_turn at 2. destruct (decide (flow = x)) as [->|Hne]; cbn [fmap option_fmap option_map default].
  - rewrite size_decide, (decide_True (P := x ∈ x :: l)) by set_solver. cbv zeta.
    change (id (s ∖ {[x]})) with (s ∖ {[x]}).
    destruct (decide (s ∖ {[x]} = ∅)) as [He|He]; [apply free_turns_None|].
    rewrite IH by (done || (intros y Hy; specialize (Hl y); set_solver)). cbv zeta.
    by rewrite (decide_False (P := x ∈ l)), decide_False.
  - rewrite size_decide, decide_False by done. rewrite IH by (done || set_solver).
    cbv zeta. destruct (decide (flow ∈ l)); [rewrite (decide_True (P := flow ∈ x :: l)) by set_solver; done|].
    by rewrite (decide_False (P := flow ∈ x :: l)) by set_solver.
Qed.

Lemma free_entry_spec flow s :
  free_entry flow s =
    if decide (s <> ∅ /\ s ∖ {[flow]} = ∅) then None else Some (s ∖ {[flow]}).
Proof.
  unfold free_entry. destruct (decide (s = ∅)) as [->|Hs].
  { rewrite elements_empty, decide_False by naive_solver. cbn. f_equal. set_solver. }
  rewrite free_turns; [|apply NoDup_elements|by intros x Hx; apply elem_of_elements|done].
  cbv zeta. rewrite (decide_ext (s <> ∅ /\ s ∖ {[flow]} = ∅) (s ∖ {[flow]} = ∅)) by naive_solver.
  destruct (decide (flow ∈ elements s)) as [Hf|Hf]; [done|].
  replace (s ∖ {[flow]}) with s by (rewrite elem_of_elements in Hf; set_solver).
  done.
Qed.

Lemma entry_free flow m p o u i : entry (free_id flow m) p o u i = entry m p o u i ≫= free_entry flow.
Proof.
  unfold entry, onu_ports, free_id. rewrite lookup_fmap.
  destruct (m !! p) as [onus|]; cbn; [|done]. rewrite lookup_fmap.
  destruct (onus !! o) as [ports|]; cbn; [|done]. rewrite lookup_fmap.
  destruct (ports !! u) as [ids|]; cbn; [|done]. by rewrite lookup_omap.
Qed.

Lemma holds_free flow m p o u i f :
  holds (free_id flow m) p o u i f <-> holds m p o u i f /\ f <> flow.
Proof.
  unfold holds. rewrite entry_free. destruct (entry m p o u i) as [s|]; cbn; [|naive_solver].
  rewrite free_entry_spec. case_decide as Hd; split.
  - naive_solver.
  - intros [(s' & [= <-] & Hf) Hne]. destruct Hd as [_ Hd]. exfalso. clear -Hd Hf Hne. set_solver.
  - intros (s' & [= <-] & Hf). apply elem_of_difference in Hf as [Hf Hn]. split; [by eexists|set_solver].
  - intros [(s' & [= <-] & Hf) Hne]. eexists. split; [done|]. set_solver.
Qed.

Lemma no_empty_free flow m : no_empty m -> no_empty (free_id flow m).
Proof.
  intros Hn p o u i. rewrite entry_free. specialize (Hn p o u i).
  destruct (entry m p o u i) as [s|]; cbn; [|done]. rewrite free_entry_spec.
  case_decide as Hd; [done|]. intros [= He]. apply Hd. split; [naive_solver|done].
Qed.

(** ** Validation *)

Lemma used_by_other_spec onuId ids m ponId :
  used_by_other onuId ids (default ∅ (m !! ponId)) = true <->
  exists o u i, o <> onuId /\ i ∈ ids /\ is_Some (entry m ponId o u i).
Proof.
  unfold used_by_other. rewrite existsb_exists. split.
  - intros ([o ports] & Ho & [Hne Hp]%andb_true_iff).
    apply list_elem_of_In, elem_of_map_to_list in Ho. apply existsb_exists in Hp as ([u uni] & Hu & Hi).
    apply list_elem_of_In, elem_of_map_to_list in Hu. apply existsb_exists in Hi as ([i fl] & Hi & Hin).
    apply list_elem_of_In, elem_of_map_to_list in Hi. apply bool_decide_eq_true in Hin.
    apply negb_true_iff, bool_decide_eq_false in Hne. exists o, u, i. split_and!; [done..|].
    exists fl. unfold entry, onu_ports. destruct (m !! ponId); cbn in Ho |- *; [|by rewrite lookup_empty in Ho].
    rewrite Ho. cbn. rewrite Hu. exact Hi.
  - intros (o & u & i & Hne & Hin & fl & He). unfold entry in He.
    apply bind_Some in He as (ports & Hp & He). apply bind_Some in He as (uni & Hu & Hi).
    apply bind_Some in Hp as (onus & Hm & Ho). rewrite Hm. cbn [default].
    exists (o, ports). split; [by apply list_elem_of_In, elem_of_map_to_list|].
    rewrite bool_decide_eq_false_2 by done. cbn [negb andb]. apply existsb_exists.
    exists (u, uni). split; [by apply list_elem_of_In, elem_of_map_to_list|]. apply existsb_exists.
    exists (i, fl). split; [by apply list_elem_of_In, elem_of_map_to_list|]. by apply bool_decide_eq_true.
Qed.

Lemma entry_holds m p o u i : no_empty m -> is_Some (entry m p o u i) <-> exists f, holds m p o u i f.
Proof.
  intros Hn. split.
  - intros [s Hs]. specialize (Hn p o u i). rewrite Hs in Hn.
    destruct (set_choose_L s) as [f Hf]; [naive_solver|]. exists f. by exists s.
  - intros (f & s & Hs & _). by exists s.
Qed.

(** Some ONU of the PON other than [onuId] uses one of the identifiers. *)
Definition conflict (m : FlowMap) (ponId onuId : Z) (ids : list Z) : Prop :=
  exists o u i f, o <> onuId /\ i ∈ ids /\ holds m ponId o u i f.

Lemma used_conflict onuId ids m ponId :
  no_empty m -> used_by_other onuId ids (default ∅ (m !! ponId)) = true <-> conflict m ponId onuId ids.
Proof.
  intros Hn. rewrite used_by_other_spec. split.
  - intros (o & u & i & Hne & Hi & [f Hf]%entry_holds); [|done]. by exists o, u, i, f.
  - intros (o & u & i & f & Hne & Hi & Hf). exists o, u, i. split_and!; [done..|].
    apply entry_holds; [done|]. by exists f.
Qed.

(** ** Recording the identifiers of a flow *)

(** [m'] is [m] with the uses of [ids] by the flow added. *)
Definition uses_added (m m' : FlowMap) (ponId onuId portNo flow : Z) (ids : list Z) : Prop :=
  forall p o u i f, holds m' p o u i f <->
    holds m p o u i f \/ (p = ponId /\ o = onuId /\ u = portNo /\ i ∈ ids /\ f = flow).

(** Both tables know the same ONUs. *)
Definition known (m : FlowMap) (p o : Z) : Prop := is_Some (onu_ports m p o).
Definition same_onus (m m' : FlowMap) : Prop := forall p o, known m p o <-> known m' p o.

Lemma same_onus_alter f ponId onuId m : same_onus m (alter_ports f ponId onuId m).
Proof. intros p o. unfold known. rewrite onu_ports_alter. case_decide; [by rewrite fmap_is_Some|done]. Qed.

Lemma same_onus_free flow m : same_onus m (free_id flow m).
Proof.
  intros p o. unfold known, onu_ports, free_id. rewrite lookup_fmap.
  destruct (m !! p); cbn; [|done]. by rewrite lookup_fmap, fmap_is_Some.
Qed.

Lemma exclusive_added m m' ponId onuId portNo flow ids :
  exclusive m -> ~ conflict m ponId onuId ids -> uses_added m m' ponId onuId portNo flow ids -> exclusive m'.
Proof.
  intros He Hc Ha p o1 o2 u1 u2 i f1 f2 H1 H2. apply Ha in H1, H2.
  destruct H1 as [H1|(-> & -> & _ & Hi1 & _)], H2 as [H2|(Hp & -> & _ & Hi2 & _)]; subst; try done.
  - by eapply He.
  - destruct (decide (o1 = onuId)); [done|]. exfalso. apply Hc. by exists o1, u1, i, f1.
  - destruct (decide (o2 = onuId)); [done|]. exfalso. apply Hc. by exists o2, u2, i, f2.
Qed.

Lemma uses_record ponId onuId portNo id flow m :
  known m ponId onuId ->
  uses_added m (alter_ports (record_id portNo id flow) ponId onuId m) ponId onuId portNo flow [id].
Proof.
  intros Hk p o u i f. rewrite holds_record by done. rewrite list_elem_of_singleton.
  split; (intros [H|H]; [by left|right]); [by simplify_eq|]. by destruct H as (-> & -> & -> & -> & ->).
Qed.

Lemma store_gems_known ponId onuId portNo flow gems r :
  known (GemPortIDs r) ponId onuId -> exists m,
    store_gems ponId onuId portNo flow gems r = (None, r <| GemPortIDs := m |>) /\
    uses_added (GemPortIDs r) m ponId onuId portNo flow gems /\ same_onus (GemPortIDs r) m /\
    (no_empty (GemPortIDs r) -> no_empty m).
Proof.
  revert r. induction gems as [|g gems IH]; intros r Hk; cbn [store_gems].
  { exists (GemPortIDs r). destruct r. split; [done|]. split; [|done].
    intros p o u i f. rewrite elem_of_nil. naive_solver. }
  unfold storeGemPortId. destruct (Hk) as [ports ->].
  set (r1 := r <| GemPortIDs ::= _ |>).
  destruct (IH r1) as (m & Hr & Hu & Hs & Hn); [by apply same_onus_alter|].
  exists m. split; [done|]. split; [|split].
  - intros p o u i f. rewrite (Hu p o u i f). cbn [GemPortIDs r1 upd set_GemPortIDs].
    rewrite (uses_record _ _ _ _ _ _ Hk p o u i f), list_elem_of_singleton, elem_of_cons. naive_solver.
  - intros p o. rewrite <-(Hs p o). apply same_onus_alter.
  - intros He. apply Hn. by apply no_empty_record.
Qed.

Lemma store_gems_unknown ponId onuId portNo flow gems r :
  ~ known (GemPortIDs r) ponId onuId -> gems <> [] ->
  store_gems ponId onuId portNo flow gems r = (Some "failed-trying-to-store-gemport-for-unknown-onu", r).
Proof.
  intros Hk Hg. destruct gems as [|g gems]; [done|]. cbn [store_gems]. unfold storeGemPortId.
  destruct (onu_ports _ _ _) eqn:E; [|done]. exfalso. apply Hk. unfold known. by rewrite E.
Qed.

(** ** The invariant of the tables *)

Record res_ok (r : FlowRes) : Prop := {
  ok_gem_empty : no_empty (GemPortIDs r);
  ok_alloc_empty : no_empty (AllocIDs r);
  ok_gem_exclusive : exclusive (GemPortIDs r);
  ok_alloc_exclusive : exclusive (AllocIDs r);
  ok_onus : same_onus (GemPortIDs r) (AllocIDs r) }.

Section Admit.
  Context (f : Flow) (r : FlowRes).
Let pon := u32 (AccessIntfId f).
Let onu := u32 (fl_OnuId f).

(** The checks of a flow, as conflicts. *)
Lemma validateFlow_spec :
  res_ok r ->
  (validateFlow f r = None <-> ~ conflict (GemPortIDs r) pon onu (flow_gems f) /\
                               ~ conflict (AllocIDs r) pon onu [fl_AllocId f]) /\
  (conflict (GemPortIDs r) pon onu (flow_gems f) -> validateFlow f r = Some "gem-already-in-use") /\
  (~ conflict (GemPortIDs r) pon onu (flow_gems f) -> conflict (AllocIDs r) pon onu [fl_AllocId f] ->
     validateFlow f r = Some "allocId-already-in-use").
Proof.
  intros [Hg Ha _ _ _].
  pose proof (used_conflict onu (flow_gems f) _ pon Hg) as H1.
  pose proof (used_conflict onu [fl_AllocId f] _ pon Ha) as H2.
  unfold validateFlow. fold pon onu.
  destruct (used_by_other onu (flow_gems f) _), (used_by_other onu [_] _); naive_solver.
Qed.

(** Recording the identifiers of a flow of a known ONU. *)
Lemma admit_known :
  res_ok r -> validateFlow f r = None -> known (GemPortIDs r) pon onu ->
  exists r', admit_flow f r = Done (None, r') /\
    uses_added (GemPortIDs r) (GemPortIDs r') pon onu (fl_PortNo f) (FlowId f) (flow_gems f) /\
    uses_added (AllocIDs r) (AllocIDs r') pon onu (fl_PortNo f) (FlowId f) [fl_AllocId f] /\
    res_ok r'.
Proof.
  intros Hok Hv Hk. destruct (Hok) as [Hg Ha Hge Hae Hs].
  apply (proj1 (proj1 (validateFlow_spec Hok))) in Hv as Hv'. destruct Hv' as [Hcg Hca].
  unfold admit_flow, storeGemPortIdByFlow. rewrite Hv. fold pon onu.
  destruct (store_gems_known pon onu (fl_PortNo f) (FlowId f) (flow_gems f) r Hk)
    as (m & -> & Hu & Hso & Hn).
  assert (known (AllocIDs r) pon onu) as Hka by by apply Hs.
  unfold storeAllocId. cbn [AllocIDs upd set_GemPortIDs]. fold pon onu.
  destruct (Hka) as [ports ->]. cbn [mbind outcome_bind].
  eexists. split; [reflexivity|]. split; [exact Hu|].
  pose proof (uses_record pon onu (fl_PortNo f) (fl_AllocId f) (FlowId f) _ Hka) as Hua.
  split; [exact Hua|].
  split; cbn [AllocIDs GemPortIDs upd set_AllocIDs set_GemPortIDs].
  - auto.
  - by apply no_empty_record.
  - exact (exclusive_added _ _ _ _ _ _ _ Hge Hcg Hu).
  - exact (exclusive_added _ _ _ _ _ _ _ Hae Hca Hua).
  - intros p o. rewrite <-(Hso p o), (Hs p o). apply same_onus_alter.
Qed.

Lemma admit_unknown :
  validateFlow f r = None -> ~ known (GemPortIDs r) pon onu -> flow_gems f <> [] ->
  admit_flow f r = Done (Some "failed-trying-to-store-gemport-for-unknown-onu", r).
Proof.
  intros Hv Hk Hg. unfold admit_flow, storeGemPortIdByFlow. rewrite Hv. fold pon onu.
  by rewrite store_gems_unknown.
Qed.

(** Whatever the flow, what is recorded keeps the invariant; a refused flow
    changes nothing. *)
Lemma admit_inv e r' :
  res_ok r -> admit_flow f r = Done (e, r') ->
  res_ok r' /\
  (e = None ->
    uses_added (GemPortIDs r) (GemPortIDs r') pon onu (fl_PortNo f) (FlowId f) (flow_gems f) /\
    uses_added (AllocIDs r) (AllocIDs r') pon onu (fl_PortNo f) (FlowId f) [fl_AllocId f]) /\
  (e <> None -> r' = r).
Proof.
  intros Hok Hr. destruct (validateFlow f r) as [e'|] eqn:Hv.
  { unfold admit_flow in Hr. rewrite Hv in Hr. by simplify_eq. }
  destruct (onu_ports (GemPortIDs r) pon onu) as [ports|] eqn:E.
  - destruct (admit_known Hok Hv) as (r1 & Hr1 & Hu & Hu' & H1); [by eexists|].
    rewrite Hr1 in Hr. by simplify_eq.
  - assert (~ known (GemPortIDs r) pon onu) as Hk by (unfold known; by rewrite E; intros []).
    destruct (flow_gems f) as [|g gs] eqn:Eg.
    + unfold admit_flow, storeGemPortIdByFlow in Hr. rewrite Hv, Eg in Hr. cbn [store_gems] in Hr.
      unfold storeAllocId in Hr. fold pon onu in Hr.
      destruct (onu_ports (AllocIDs r) pon onu) eqn:Ea; [|done].
      exfalso. apply Hk, (ok_onus _ Hok). unfold known. by rewrite Ea.
    + rewrite admit_unknown in Hr; [by simplify_eq|done..|by rewrite Eg].
Qed.
End Admit.

(** One change of the tables: a flow is added or refused, a flow is removed,
    an ONU is activated, the OLT is initialized or deleted. *)
Inductive res_step : FlowRes -> FlowRes -> Prop :=
| step_add f e r r' : admit_flow f r = Done (e, r') -> res_step r r'
| step_remove f r : res_step r (freeAllocId f (freeGemPortId f r))
| step_activate p o r r' : enable_onu_maps p o r = Done r' -> res_step r r'
| step_init p r : res_step r (init_pon_maps p r)
| step_clear r : res_step r no_flow_res.

(** A table from which entries were dropped. *)
Definition shrinks (m m' : FlowMap) : Prop :=
  forall p o u i, entry m' p o u i = None \/ entry m' p o u i = entry m p o u i.

Lemma shrinks_empty m m' : shrinks m m' -> no_empty m -> no_empty m'.
Proof. intros Hs Hn p o u i. destruct (Hs p o u i) as [->| ->]; [done|apply Hn]. Qed.

Lemma shrinks_exclusive m m' : shrinks m m' -> exclusive m -> exclusive m'.
Proof.
  intros Hs He p o1 o2 u1 u2 i f1 f2 (s1 & E1 & H1) (s2 & E2 & H2).
  destruct (Hs p o1 u1 i) as [H|H], (Hs p o2 u2 i) as [H'|H']; try congruence.
  eapply (He p o1 o2 u1 u2 i f1 f2); [exists s1|exists s2]; split; congruence.
Qed.

Lemma onu_ports_reset m p o p' o' :
  onu_ports (alter <[o := ∅]> p m) p' o' =
    if decide (p' = p /\ o' = o) then (fun _ => ∅) <$> m !! p else onu_ports m p' o'.
Proof.
  unfold onu_ports. destruct (decide (p' = p)) as [->|Hp].
  - rewrite lookup_alter_eq. destruct (m !! p); cbn; [|by case_decide].
    case_decide as Hd; [destruct Hd as [_ ->]; by rewrite lookup_insert_eq|].
    rewrite lookup_insert_ne; naive_solver.
  - rewrite lookup_alter_ne, decide_False by naive_solver. done.
Qed.

Lemma onu_ports_init m p p' o' :
  onu_ports (<[p := ∅]> m) p' o' = if decide (p' = p) then None else onu_ports m p' o'.
Proof.
  unfold onu_ports. case_decide as Hp; [subst; by rewrite lookup_insert_eq|by rewrite lookup_insert_ne].
Qed.

Lemma shrinks_reset p o m : shrinks m (alter <[o := ∅]> p m).
Proof.
  intros p' o' u i. unfold entry. rewrite onu_ports_reset. case_decide; [left|by right].
  by destruct (m !! p).
Qed.

Lemma shrinks_init p m : shrinks m (<[p := ∅]> m).
Proof. intros p' o' u i. unfold entry. rewrite onu_ports_init. case_decide; [by left|by right]. Qed.

Lemma no_flow_res_ok : res_ok no_flow_res.
Proof.
  split; [intros p o u i|intros p o u i|intros p o1 o2 u1 u2 i f1 f2|
    intros p o1 o2 u1 u2 i f1 f2|done];
  unfold holds, entry, onu_ports, no_flow_res; cbn; rewrite lookup_empty; cbn; naive_solver.
Qed.

Lemma remove_ok f r : res_ok r -> res_ok (freeAllocId f (freeGemPortId f r)).
Proof.
  intros [Hg Ha Hge Hae Hs].
  split; cbn [GemPortIDs AllocIDs freeAllocId freeGemPortId upd set_AllocIDs set_GemPortIDs].
  - by apply no_empty_free.
  - by apply no_empty_free.
  - intros p o1 o2 u1 u2 i f1 f2 [H1 _]%holds_free [H2 _]%holds_free. by eapply Hge.
  - intros p o1 o2 u1 u2 i f1 f2 [H1 _]%holds_free [H2 _]%holds_free. by eapply Hae.
  - intros p o. rewrite <-(same_onus_free _ _ p o), <-(same_onus_free _ _ p o). apply Hs.
Qed.

Lemma activate_ok p o r r' : res_ok r -> enable_onu_maps p o r = Done r' -> res_ok r'.
Proof.
  intros [Hg Ha Hge Hae Hs]. unfold enable_onu_maps. case_decide as Hd; [|done].
  intros [= <-]. destruct Hd as [[x Hx] [y Hy]].
  split; cbn [GemPortIDs AllocIDs upd set_AllocIDs set_GemPortIDs].
  - eapply shrinks_empty, Hg. apply shrinks_reset.
  - eapply shrinks_empty, Ha. apply shrinks_reset.
  - eapply shrinks_exclusive, Hge. apply shrinks_reset.
  - eapply shrinks_exclusive, Hae. apply shrinks_reset.
  - intros p' o'. unfold known. rewrite !onu_ports_reset, Hx, Hy. case_decide; [done|apply Hs].
Qed.

Lemma init_ok p r : res_ok r -> res_ok (init_pon_maps p r).
Proof.
  intros [Hg Ha Hge Hae Hs]. split; cbn [GemPortIDs AllocIDs init_pon_maps upd set_AllocIDs set_GemPortIDs].
  - eapply shrinks_empty, Hg. apply shrinks_init.
  - eapply shrinks_empty, Ha. apply shrinks_init.
  - eapply shrinks_exclusive, Hge. apply shrinks_init.
  - eapply shrinks_exclusive, Hae. apply shrinks_init.
  - intros p' o'. unfold known. rewrite !onu_ports_init. case_decide; [done|apply Hs].
Qed.

Lemma res_step_ok r r' : res_step r r' -> res_ok r -> res_ok r'.
Proof.
  intros [f e ? ? H| | | |] Hok; [by eapply admit_inv in H as [? _]|..];
    eauto using remove_ok, activate_ok, init_ok, no_flow_res_ok.
Qed.

Lemma reachable_ok r : rtc res_step no_flow_res r -> res_ok r.
Proof.
  intros Hr. cut (res_ok no_flow_res); [|apply no_flow_res_ok].
  induction Hr; eauto using res_step_ok.
Qed.

(** * Properties *)

(** The example tables: ONUs 1 and 2 of PON 0 are activated. *)
Definition example_flow (onu gem alloc id : Z) : Flow := {|
  AccessIntfId := 0; fl_OnuId := onu; fl_UniId := 0; FlowId := id; FlowType := "downstream";
  fl_AllocId := alloc; NetworkIntfId := 0; GemportId := gem;
  fl_Classifier := {| EthType := 0; OVid := 0; IVid := 0; OPbits := 0; SrcPort := 0; DstPort := 0 |};
  fl_PortNo := 16; ReplicateFlow := false; PbitToGemport := ∅ |}.

Definition two_onus : FlowRes :=
  let pons : FlowMap := {[ 0 := {[ 1 := ∅; 2 := ∅ ]} ]} in {| AllocIDs := pons; GemPortIDs := pons |}.
Definition first_flow : FlowRes :=
  match admit_flow (example_flow 1 1024 1024 1) two_onus with
  | Done (_, r) => r
  | _ => no_flow_res
  end.

Lemma two_onus_reachable : rtc res_step no_flow_res two_onus.
Proof.
  eapply rtc_l; [exact (step_init 0 _)|].
  eapply rtc_l; [by eapply (step_activate 0 1)|].
  eapply rtc_l; [by eapply (step_activate 0 2)|]. apply rtc_refl.
Qed.

Lemma first_flow_reachable : rtc res_step no_flow_res first_flow.
Proof.
  eapply rtc_r; [exact two_onus_reachable|]. by eapply (step_add (example_flow 1 1024 1024 1)).
Qed.

Lemma no_uses_two_onus p o u i x :
  ~ holds (GemPortIDs two_onus) p o u i x /\ ~ holds (AllocIDs two_onus) p o u i x.
Proof.
  assert (entry (GemPortIDs two_onus) p o u i = None) as H.
  { unfold entry, onu_ports, two_onus. cbn [GemPortIDs].
    destruct (decide (p = 0)) as [->|Hp]; [|by rewrite lookup_singleton_ne].
    rewrite lookup_singleton_eq. cbn [mbind option_bind].
    destruct (decide (o = 1)) as [->|Ho]; [by rewrite lookup_insert_eq|]. rewrite lookup_insert_ne by done.
    destruct (decide (o = 2)) as [->|Ho']; [by rewrite lookup_singleton_eq|].
    by rewrite lookup_singleton_ne. }
  split; intros (s & Hs & _); [|change (AllocIDs two_onus) with (GemPortIDs two_onus) in Hs]; congruence.
Qed.

(** However flows are added, refused and removed and ONUs are activated,
    no GEM port and no alloc identifier is ever recorded for two ONUs of the
    same PON, and an identifier no flow uses any more is not recorded. *)
Theorem flow_resources_exclusive (r : FlowRes) :
  rtc res_step no_flow_res r ->
  exclusive (GemPortIDs r) /\ exclusive (AllocIDs r) /\
  no_empty (GemPortIDs r) /\ no_empty (AllocIDs r).
Proof. intros [Hg Ha Hge Hae _]%reachable_ok. done. Qed.

Lemma flow_resources_exclusive_witness :
  exclusive (GemPortIDs first_flow) /\ exclusive (AllocIDs first_flow) /\
  no_empty (GemPortIDs first_flow) /\ no_empty (AllocIDs first_flow).
Proof. apply flow_resources_exclusive, first_flow_reachable. Defined.

(** Whether a flow is admitted.  It is refused, and nothing changes, when
    one of its GEM ports or its alloc identifier is used by another ONU of the
    PON, or when its ONU was not activated; otherwise exactly the uses of its
    GEM ports and of its alloc identifier are recorded. *)
Theorem admit_flow_decides (f : Flow) (r : FlowRes) :
  rtc res_step no_flow_res r -> flow_gems f <> [] ->
  let pon := u32 (AccessIntfId f) in let onu := u32 (fl_OnuId f) in
  let gem_used := conflict (GemPortIDs r) pon onu (flow_gems f) in
  let alloc_used := conflict (AllocIDs r) pon onu [fl_AllocId f] in
  (gem_used -> admit_flow f r = Done (Some "gem-already-in-use", r)) /\
  (~ gem_used -> alloc_used -> admit_flow f r = Done (Some "allocId-already-in-use", r)) /\
  (~ gem_used -> ~ alloc_used -> ~ known (GemPortIDs r) pon onu ->
     admit_flow f r = Done (Some "failed-trying-to-store-gemport-for-unknown-onu", r)) /\
  (~ gem_used -> ~ alloc_used -> known (GemPortIDs r) pon onu ->
     exists r', admit_flow f r = Done (None, r') /\
       uses_added (GemPortIDs r) (GemPortIDs r') pon onu (fl_PortNo f) (FlowId f) (flow_gems f) /\
       uses_added (AllocIDs r) (AllocIDs r') pon onu (fl_PortNo f) (FlowId f) [fl_AllocId f]).
Proof.
  intros Hok%reachable_ok Hg. cbv zeta. destruct (validateFlow_spec f r Hok) as (Hv & H1 & H2).
  split_and!.
  - intros Hc. unfold admit_flow. by rewrite H1.
  - intros Hc Hc'. unfold admit_flow. by rewrite H2.
  - intros Hc Hc' Hk. apply admit_unknown; [by apply Hv|done..].
  - intros Hc Hc' Hk. destruct (admit_known f r Hok) as (r' & Hr & Hu & Hu' & _); [by apply Hv|done|].
    by exists r'.
Qed.

Lemma admit_flow_decides_witness :
  admit_flow (example_flow 2 1024 1025 2) first_flow = Done (Some "gem-already-in-use", first_flow).
Proof.
  apply (admit_flow_decides (example_flow 2 1024 1025 2) first_flow first_flow_reachable); [done|].
  exists 1, 16, 1024, 1. split; [done|]. split; [by left|]. exists {[1]}.
  split; [by vm_compute|set_solver].
Defined.

(** Removing a flow undoes adding it: the uses recorded afterwards are
    those from before, if the identifier of the flow was not in use. *)
Theorem remove_undoes_add (f : Flow) (r r' : FlowRes) :
  rtc res_step no_flow_res r -> admit_flow f r = Done (None, r') ->
  (forall p o u i, ~ holds (GemPortIDs r) p o u i (FlowId f) /\ ~ holds (AllocIDs r) p o u i (FlowId f)) ->
  let r2 := freeAllocId f (freeGemPortId f r') in
  forall p o u i x,
    (holds (GemPortIDs r2) p o u i x <-> holds (GemPortIDs r) p o u i x) /\
    (holds (AllocIDs r2) p o u i x <-> holds (AllocIDs r) p o u i x).
Proof.
  intros Hok%reachable_ok Hr Hfresh r2 p o u i x. destruct (Hfresh p o u i) as [Hg Ha].
  destruct (admit_inv f r _ _ Hok Hr) as (_ & Hu & _). destruct (Hu eq_refl) as [Hug Hua].
  unfold r2. cbn [GemPortIDs AllocIDs freeAllocId freeGemPortId upd set_AllocIDs set_GemPortIDs].
  rewrite !holds_free, (Hug p o u i x), (Hua p o u i x).
  split; (split; [naive_solver|]); intros Hx; (split; [by left|]); intros ->; auto.
Qed.

Lemma remove_undoes_add_witness :
  let r2 := freeAllocId (example_flow 1 1024 1024 1) (freeGemPortId (example_flow 1 1024 1024 1) first_flow) in
  (holds (GemPortIDs r2) 0 1 16 1024 1 <-> holds (GemPortIDs two_onus) 0 1 16 1024 1) /\
  (holds (AllocIDs r2) 0 1 16 1024 1 <-> holds (AllocIDs two_onus) 0 1 16 1024 1).
Proof.
  refine (remove_undoes_add (example_flow 1 1024 1024 1) two_onus first_flow _ _ _ 0 1 16 1024 1);
    [exact two_onus_reachable|reflexivity|].
  intros p o u i. destruct (no_uses_two_onus p o u i 1). done.
Defined.

(** The comment of [validateFlow] says that an identifier used on another UNI
    is refused; the ports of the ONU itself are not looked at, so the same GEM
    port can be given to two ports of one ONU. *)
Lemma gem_shared_by_ports (f : Flow) :
  fl_OnuId f = 1 -> AccessIntfId f = 0 -> validateFlow f first_flow = None.
Proof. intros Ho Hp. unfold validateFlow. rewrite Ho, Hp. by vm_compute. Qed.
