(* ===== verification/OltSpec.v ===== *)
(** * Flow resources: the abstract allocator

    What the flow tables of the OLT promise, without the nested maps: two sets
    of uses (of GEM ports and of alloc identifiers) and the ONUs that were
    activated.  [spec_step] is the specification, with the rule that another
    ONU of the PON must not use an identifier as its guard; the tables of
    [OltFlows] simulate it step by step. *)
From S2P Require Import Prelude Types OltFlows.
Open Scope Z_scope.

(** A use: PON, ONU, port, identifier and flow. *)
Definition Use : Type := Z * Z * Z * Z * Z.
Definition use_pon (x : Use) : Z := x.1.1.1.1.
Definition use_onu (x : Use) : Z := x.1.1.1.2.
Definition use_flow (x : Use) : Z := x.2.

Record Alloc := { sp_gems : gset Use; sp_allocs : gset Use; sp_onus : gset (Z * Z) }.

Definition no_alloc : Alloc := {| sp_gems := ∅; sp_allocs := ∅; sp_onus := ∅ |}.

(** The uses a flow makes of some identifiers. *)
Definition uses_of (p o u f : Z) (ids : list Z) : gset Use := list_to_set ((fun i => (p, o, u, i, f)) <$> ids).

(** No other ONU of the PON uses one of the identifiers. *)
Definition available (U : gset Use) (p o : Z) (ids : list Z) : Prop :=
  forall o' u i f, i ∈ ids -> (p, o', u, i, f) ∈ U -> o' = o.

(** Only the uses that satisfy a test are kept. *)
Definition keep (T : Use -> Prop) `{!forall x, Decision (T x)} (A : Alloc) (onus : gset (Z * Z)) : Alloc :=
  {| sp_gems := filter T (sp_gems A); sp_allocs := filter T (sp_allocs A); sp_onus := onus |}.

Inductive spec_step : Alloc -> Alloc -> Prop :=
| spec_add p o u f gems alloc A :
    (p, o) ∈ sp_onus A -> available (sp_gems A) p o gems -> available (sp_allocs A) p o [alloc] ->
    spec_step A {| sp_gems := sp_gems A ∪ uses_of p o u f gems;
                   sp_allocs := sp_allocs A ∪ uses_of p o u f [alloc]; sp_onus := sp_onus A |}
| spec_remove f A : spec_step A (keep (fun x => use_flow x <> f) A (sp_onus A))
| spec_activate p o A :
    spec_step A (keep (fun x => ~ (use_pon x = p /\ use_onu x = o)) A ({[ (p, o) ]} ∪ sp_onus A))
| spec_init p A :
    spec_step A (keep (fun x => use_pon x <> p) A (filter (fun po => po.1 <> p) (sp_onus A)))
| spec_clear A : spec_step A no_alloc.

(** The tables hold exactly the uses of the specification. *)
Definition table_is (m : FlowMap) (U : gset Use) : Prop :=
  forall p o u i f, holds m p o u i f <-> (p, o, u, i, f) ∈ U.
Record represents (r : FlowRes) (A : Alloc) : Prop := {
  rep_gems : table_is (GemPortIDs r) (sp_gems A);
  rep_allocs : table_is (AllocIDs r) (sp_allocs A);
  rep_onus : forall p o, known (GemPortIDs r) p o <-> (p, o) ∈ sp_onus A }.

(** ** Each operation of the tables *)

Lemma table_add m m' U p o u f ids :
  table_is m U -> uses_added m m' p o u f ids -> table_is m' (U ∪ uses_of p o u f ids).
Proof.
  intros Ht Hu p' o' u' i' f'. rewrite (Hu p' o' u' i' f'), (Ht p' o' u' i' f').
  unfold uses_of. rewrite elem_of_union, elem_of_list_to_set, list_elem_of_fmap. naive_solver.
Qed.

Lemma table_free flow m U :
  table_is m U -> table_is (free_id flow m) (filter (fun x => use_flow x <> flow) U).
Proof.
  intros Ht p o u i f. rewrite holds_free, (Ht p o u i f), elem_of_filter. cbn. naive_solver.
Qed.

(** Dropping the entries of some ONUs drops their uses. *)
Lemma table_drop (D : Z -> Z -> bool) (T : Use -> Prop) `{!forall x, Decision (T x)} m m' U :
  (forall x, T x <-> D (use_pon x) (use_onu x) = false) ->
  (forall p o u i, entry m' p o u i = if D p o then None else entry m p o u i) ->
  table_is m U -> table_is m' (filter T U).
Proof.
  intros HT He Ht p o u i f. rewrite elem_of_filter, <-(Ht p o u i f), HT. unfold holds. rewrite He. cbn.
  destruct (D p o); naive_solver.
Qed.

Lemma available_conflict m U p o ids : table_is m U -> ~ conflict m p o ids -> available U p o ids.
Proof.
  intros Ht Hc o' u i f Hi Hu. destruct (decide (o' = o)); [done|]. exfalso. apply Hc.
  exists o', u, i, f. split_and!; [done..|]. by apply Ht.
Qed.

Lemma admit_known_inv f r r' :
  res_ok r -> admit_flow f r = Done (None, r') ->
  validateFlow f r = None /\ known (GemPortIDs r) (u32 (AccessIntfId f)) (u32 (fl_OnuId f)).
Proof.
  intros Hok. unfold admit_flow. destruct (validateFlow f r) eqn:Hv; [done|].
  unfold storeGemPortIdByFlow. destruct (flow_gems f) as [|g gs].
  - cbn [store_gems]. unfold storeAllocId. destruct (onu_ports (AllocIDs r) _ _) eqn:E; [|done].
    intros _. split; [done|]. apply (ok_onus _ Hok). unfold known. by rewrite E.
  - cbn [store_gems]. unfold storeGemPortId. destruct (onu_ports (GemPortIDs r) _ _) eqn:E; [|done].
    intros _. split; [done|]. unfold known. by rewrite E.
Qed.

Lemma known_free flow m p o : known (free_id flow m) p o <-> known m p o.
Proof. symmetry. apply same_onus_free. Qed.

Section Simulate.
  Context (r : FlowRes) (A : Alloc).
  Hypothesis Hok : res_ok r.
  Hypothesis Hrep : represents r A.

Lemma sim_add f e r' :
  admit_flow f r = Done (e, r') -> exists A', rtc spec_step A A' /\ represents r' A'.
Proof.
  intros Hr. destruct (admit_inv f r e r' Hok Hr) as (_ & Hnone & Hsome). destruct Hrep as [Hg Ha Ho].
  destruct e as [e|]; [exists A; by rewrite Hsome|]. destruct (Hnone eq_refl) as [Hu Hu'].
  destruct (admit_known_inv f r r' Hok Hr) as [Hv Hk].
  apply (proj1 (proj1 (validateFlow_spec f r Hok))) in Hv as [Hcg Hca].
  eexists. split.
  - apply rtc_once, (spec_add (u32 (AccessIntfId f)) (u32 (fl_OnuId f)) (fl_PortNo f) (FlowId f)
      (flow_gems f) (fl_AllocId f)); [by apply Ho|by eapply available_conflict..].
  - split; cbn [sp_gems sp_allocs sp_onus]; [by eapply table_add..|].
    destruct (admit_known f r Hok) as (r1 & Hr1 & _ & _ & _); [by apply validateFlow_spec|done|].
    destruct (store_gems_known _ _ (fl_PortNo f) (FlowId f) (flow_gems f) r Hk) as (m & Hs & _ & Hso & _).
    intros p o. rewrite <-(Ho p o), (Hso p o). clear -Hr Hs Hk Hok Hcg Hca.
    assert (GemPortIDs r' = m) as ->; [|done]. revert Hr. unfold admit_flow, storeGemPortIdByFlow.
    rewrite Hs. destruct (validateFlow f r); [done|]. unfold storeAllocId.
    destruct (onu_ports _ _ _); [|done]. by intros [= <-].
Qed.

Lemma sim_remove f :
  exists A', rtc spec_step A A' /\ represents (freeAllocId f (freeGemPortId f r)) A'.
Proof.
  destruct Hrep as [Hg Ha Ho]. eexists. split; [apply rtc_once, (spec_remove (FlowId f))|].
  split; [by apply table_free..|]. intros p o. cbn. by rewrite known_free.
Qed.

Lemma sim_activate p o r' :
  enable_onu_maps p o r = Done r' -> exists A', rtc spec_step A A' /\ represents r' A'.
Proof.
  destruct Hrep as [Hg Ha Ho]. unfold enable_onu_maps. case_decide as Hd; [|done]. intros [= <-].
  destruct Hd as [[x Hx] [y Hy]]. eexists. split; [apply rtc_once, (spec_activate p o)|].
  split; cbn [GemPortIDs AllocIDs keep sp_gems sp_allocs sp_onus upd set_AllocIDs set_GemPortIDs].
  1, 2: eapply (table_drop (fun p' o' => bool_decide (p' = p /\ o' = o))); [intros ?; by rewrite bool_decide_eq_false| |eassumption].
  1, 2: intros p' o' u i; unfold entry; rewrite onu_ports_reset.
  1, 2: case_decide; [by rewrite bool_decide_eq_true_2, ?Hx, ?Hy|by rewrite bool_decide_eq_false_2].
  intros p' o'. unfold known in *. rewrite onu_ports_reset, Hy, elem_of_union, elem_of_singleton, <-Ho.
  case_decide as Hd; cbn; [destruct Hd as [-> ->]; split; by auto|]. naive_solver.
Qed.

Lemma sim_init p : exists A', rtc spec_step A A' /\ represents (init_pon_maps p r) A'.
Proof.
  destruct Hrep as [Hg Ha Ho]. eexists. split; [apply rtc_once, (spec_init p)|].
  split; cbn [GemPortIDs AllocIDs init_pon_maps keep sp_gems sp_allocs sp_onus upd set_AllocIDs set_GemPortIDs].
  1, 2: eapply (table_drop (fun p' _ => bool_decide (p' = p))); [intros ?; by rewrite bool_decide_eq_false| |eassumption].
  1, 2: intros p' o' u i; unfold entry; rewrite onu_ports_init.
  1, 2: case_decide; [by rewrite bool_decide_eq_true_2|by rewrite bool_decide_eq_false_2].
  intros p' o'. unfold known in *. rewrite onu_ports_init, elem_of_filter, <-Ho. cbn [fst].
  case_decide; [split; [by intros []|by intros []]|]. split; [by split|by intros [_ ?]].
Qed.
End Simulate.

Lemma represents_none : represents no_flow_res no_alloc.
Proof.
  split; [intros p o u i f|intros p o u i f|intros p o]; unfold holds, entry, known, onu_ports; cbn;
    rewrite lookup_empty; cbn; split; first [by intros (? & [=] & _)|by intros []|set_solver].
Qed.

Lemma sim_step r r' A :
  res_step r r' -> res_ok r -> represents r A -> exists A', rtc spec_step A A' /\ represents r' A'.
Proof.
  intros [f e ? ? H|f|p o ? ? H|p|?] Hok Hrep;
    eauto using sim_add, sim_remove, sim_activate, sim_init.
  exists no_alloc. split; [apply rtc_once, spec_clear|apply represents_none].
Qed.

(** The specification itself keeps every identifier to one ONU of a PON. *)
Definition one_owner (U : gset Use) : Prop :=
  forall p o1 o2 u1 u2 i f1 f2, (p, o1, u1, i, f1) ∈ U -> (p, o2, u2, i, f2) ∈ U -> o1 = o2.

Lemma one_owner_add U p o u f ids : one_owner U -> available U p o ids -> one_owner (U ∪ uses_of p o u f ids).
Proof.
  intros H1 Hav q o1 o2 u1 u2 i f1 f2. unfold uses_of.
  rewrite !elem_of_union, !elem_of_list_to_set, !list_elem_of_fmap.
  intros [Ha|(j & Ea & Ha)] [Hb|(k & Eb & Hb)]; simplify_eq; [by eapply H1| | |done].
  - by eapply Hav.
  - symmetry. by eapply Hav.
Qed.

Lemma one_owner_keep U (T : Use -> Prop) `{!forall x, Decision (T x)} : one_owner U -> one_owner (filter T U).
Proof. intros H1 p o1 o2 u1 u2 i f1 f2 [_ Ha]%elem_of_filter [_ Hb]%elem_of_filter. by eapply H1. Qed.

Lemma one_owner_empty : one_owner ∅.
Proof. intros p o1 o2 u1 u2 i f1 f2 H. by apply elem_of_empty in H. Qed.

Lemma spec_one_owner A :
  rtc spec_step no_alloc A -> one_owner (sp_gems A) /\ one_owner (sp_allocs A).
Proof.
  intros Hr. cut (one_owner (sp_gems no_alloc) /\ one_owner (sp_allocs no_alloc));
    [|split; apply one_owner_empty].
  induction Hr as [|A B C Hstep _ IH]; [done|]. intros [Hg Ha]. apply IH.
  destruct Hstep; cbn [sp_gems sp_allocs keep no_alloc]; split;
    first [by apply one_owner_add|by apply one_owner_keep|apply one_owner_empty].
Qed.
