(* ===== verification/OltRace.v ===== *)
(** * Flow resources: calls that run at the same time

    gRPC runs every call of VOLTHA in a goroutine of its own, and the two flow
    tables have a lock each, taken and released by every access.  Here a call
    of [FlowAdd] or [FlowRemove] is a sequence of turns, one per critical
    section, and the turns of the calls in flight interleave.  A call that runs
    alone is what [OltFlows] and [Olt] take as one step; calls that compete for
    the same identifier are not excluded from each other, because a flow is
    validated in one critical section and recorded in the next ones. *)
From S2P Require Import Prelude Types OltFlows.
Open Scope Z_scope.
Open Scope string_scope.

(** ** Turns *)

(** Where a call of [FlowAdd] is: before [validateFlow], with GEM ports left to
    record, before [storeAllocId], or answered. *)
Inductive AddTurn :=
| Validating
| StoringGems (gems : list Z)
| StoringAlloc
| Added (err : option error).

(** Where a call of [FlowRemove] is. *)
Inductive RemoveTurn := FreeingGem | FreeingAlloc | Removed.

Inductive FlowCall :=
| CallAdd (f : Flow) (t : AddTurn)
| CallRemove (f : Flow) (t : RemoveTurn).

(** Source: internal/bbsim/devices/olt.go:1194-1209, [OltDevice.FlowAdd] (one
    critical section: [validateFlow] holds the read locks of both tables to its
    end, [storeGemPortId] takes the lock of the GEM ports for each of them,
    [storeAllocId] the other one). *)
Definition add_turn (f : Flow) (t : AddTurn) (r : FlowRes) : outcome (AddTurn * FlowRes) :=
  match t with
  | Validating =>
      match validateFlow f r with
      | Some e => Done (Added (Some e), r)
      | None => Done (StoringGems (flow_gems f), r)
      end
  | StoringGems [] => Done (StoringAlloc, r)
  | StoringGems (g :: gems) =>
      match storeGemPortId (u32 (AccessIntfId f)) (u32 (fl_OnuId f)) (fl_PortNo f) g (FlowId f) r with
      | (Some e, r') => Done (Added (Some e), r')
      | (None, r') => Done (StoringGems gems, r')
      end
  | StoringAlloc => r' ← storeAllocId f r; Done (Added None, r')
  | Added e => Done (Added e, r)
  end.

(** Source: internal/bbsim/devices/olt.go:1242-1243, [OltDevice.FlowRemove]. *)
Definition remove_turn (f : Flow) (t : RemoveTurn) (r : FlowRes) : RemoveTurn * FlowRes :=
  match t with
  | FreeingGem => (FreeingAlloc, freeGemPortId f r)
  | FreeingAlloc => (Removed, freeAllocId f r)
  | Removed => (Removed, r)
  end.

Definition call_turn (c : FlowCall) (r : FlowRes) : outcome (FlowCall * FlowRes) :=
  match c with
  | CallAdd f t => '(t', r') ← add_turn f t r; Done (CallAdd f t', r')
  | CallRemove f t => let '(t', r') := remove_turn f t r in Done (CallRemove f t', r')
  end.

(** One of the calls in flight has its turn. *)
Inductive calls_step : list FlowCall * FlowRes -> list FlowCall * FlowRes -> Prop :=
| calls_turn i c c' cs r r' :
    cs !! i = Some c -> call_turn c r = Done (c', r') -> calls_step (cs, r) (<[i := c']> cs, r').

(** ** A call that runs alone *)

Lemma alone f t t' r r' :
  add_turn f t r = Done (t', r') -> calls_step ([CallAdd f t], r) ([CallAdd f t'], r').
Proof.
  intros Ht. apply (calls_turn 0 (CallAdd f t) (CallAdd f t') [CallAdd f t]); [done|]. cbn [call_turn].
  by rewrite Ht.
Qed.

(** The [i]-th call has its turn, on concrete tables. *)
Ltac take_turn i :=
  eapply rtc_l; [eapply (calls_turn i); [reflexivity|vm_compute; reflexivity]|].

Lemma gems_alone f gems r e r' :
  store_gems (u32 (AccessIntfId f)) (u32 (fl_OnuId f)) (fl_PortNo f) (FlowId f) gems r = (e, r') ->
  rtc calls_step ([CallAdd f (StoringGems gems)], r)
    ([CallAdd f (match e with Some e => Added (Some e) | None => StoringAlloc end)], r').
Proof.
  revert r. induction gems as [|g gems IH]; intros r; cbn [store_gems].
  { intros [= <- <-]. apply rtc_once. by apply alone. }
  destruct (storeGemPortId _ _ _ g _ r) as [[x|] r1] eqn:E.
  - intros [= <- <-]. apply rtc_once, alone. cbn [add_turn]. by rewrite E.
  - intros Hs. eapply rtc_l; [|by apply IH]. apply alone. cbn [add_turn]. by rewrite E.
Qed.

(** The turns of a call nobody interrupts are the step [admit_flow]. *)
Theorem add_alone_admits (f : Flow) (r r' : FlowRes) (e : option error) :
  admit_flow f r = Done (e, r') ->
  rtc calls_step ([CallAdd f Validating], r) ([CallAdd f (Added e)], r').
Proof.
  unfold admit_flow. destruct (validateFlow f r) as [x|] eqn:Hv.
  { intros [= <- <-]. apply rtc_once, alone. cbn [add_turn]. by rewrite Hv. }
  intros Hr. eapply rtc_l; [apply alone; cbn [add_turn]; by rewrite Hv|].
  unfold storeGemPortIdByFlow in *. destruct (store_gems _ _ _ _ _ r) as [[x|] r1] eqn:Hg.
  - simplify_eq. exact (gems_alone f _ r _ _ Hg).
  - etrans; [exact (gems_alone f _ r _ _ Hg)|]. apply rtc_once, alone. cbn [add_turn].
    destruct (storeAllocId f r1) as [r2| | |]; by simplify_eq/=.
Qed.

(** ** Calls that do not compete *)

(** A table that only gains uses of some identifiers by one ONU. *)
Definition grows (p o : Z) (ids : list Z) (m m' : FlowMap) : Prop :=
  forall p' o' u i f, holds m' p' o' u i f -> holds m p' o' u i f \/ (p' = p /\ o' = o /\ i ∈ ids).

Lemma grows_refl p o ids m : grows p o ids m m.
Proof. intros p' o' u i f. by left. Qed.

Lemma grows_free p o ids flow m : grows p o ids m (free_id flow m).
Proof. intros p' o' u i f [H _]%holds_free. by left. Qed.

Lemma grows_record p o portNo id flow ids m :
  known m p o -> id ∈ ids -> grows p o ids m (alter_ports (record_id portNo id flow) p o m).
Proof.
  intros Hk Hi p' o' u i f Hh. apply (uses_record p o portNo id flow m Hk) in Hh as [Hh|Hh]; [by left|].
  right. destruct Hh as (-> & -> & _ & Hin & _). by apply list_elem_of_singleton in Hin as ->.
Qed.

Lemma conflict_grows p o ids m m' p' o' ids' :
  grows p o ids m m' -> conflict m' p' o' ids' ->
  conflict m p' o' ids' \/ (p = p' /\ o <> o' /\ exists i, i ∈ ids /\ i ∈ ids').
Proof.
  intros Hg (x & u & i & f & Hne & Hi & Hh).
  destruct (Hg _ _ _ _ _ Hh) as [Hh'|(-> & -> & Hin)]; [left; by exists x, u, i, f|right].
  split; [done|]. split; [done|]. by exists i.
Qed.

Lemma exclusive_grows p o ids m m' :
  exclusive m -> ~ conflict m p o ids -> grows p o ids m m' -> exclusive m'.
Proof.
  intros He Hc Hg q o1 o2 u1 u2 i f1 f2 H1 H2. apply Hg in H1, H2.
  destruct H1 as [H1|(-> & -> & Hi1)], H2 as [H2|(Hp & -> & Hi2)]; subst; try done.
  - by eapply He.
  - destruct (decide (o1 = o)); [done|]. exfalso. apply Hc. by exists o1, u1, i, f1.
  - destruct (decide (o2 = o)); [done|]. exfalso. apply Hc. by exists o2, u2, i, f2.
Qed.

(** What a call knows of the tables between its turns: nobody else uses the
    identifiers it is about to record. *)
Definition pending_ok (c : FlowCall) (r : FlowRes) : Prop :=
  match c with
  | CallAdd f (StoringGems gems) =>
      (forall g, g ∈ gems -> g ∈ flow_gems f) /\
      ~ conflict (GemPortIDs r) (u32 (AccessIntfId f)) (u32 (fl_OnuId f)) (flow_gems f) /\
      ~ conflict (AllocIDs r) (u32 (AccessIntfId f)) (u32 (fl_OnuId f)) [fl_AllocId f]
  | CallAdd f StoringAlloc =>
      ~ conflict (AllocIDs r) (u32 (AccessIntfId f)) (u32 (fl_OnuId f)) [fl_AllocId f]
  | _ => True
  end.

Definition call_flow (c : FlowCall) : Flow := match c with CallAdd f _ | CallRemove f _ => f end.
Definition is_add (c : FlowCall) : bool := match c with CallAdd _ _ => true | _ => false end.
Definition call_gems (c : FlowCall) : list Z := if is_add c then flow_gems (call_flow c) else [].
Definition call_allocs (c : FlowCall) : list Z := if is_add c then [fl_AllocId (call_flow c)] else [].
Definition call_pon (c : FlowCall) : Z := u32 (AccessIntfId (call_flow c)).
Definition call_onu (c : FlowCall) : Z := u32 (fl_OnuId (call_flow c)).

(** What the turn of a call does to the tables. *)
Record turn_effect (c c' : FlowCall) (r r' : FlowRes) : Prop := {
  te_flow : call_flow c' = call_flow c;
  te_kind : is_add c' = is_add c;
  te_ok : res_ok r';
  te_pending : pending_ok c' r';
  te_gems : grows (call_pon c) (call_onu c) (call_gems c) (GemPortIDs r) (GemPortIDs r');
  te_allocs : grows (call_pon c) (call_onu c) (call_allocs c) (AllocIDs r) (AllocIDs r') }.

Lemma own_conflict p o ids ids' m m' :
  grows p o ids m m' -> ~ conflict m p o ids' -> ~ conflict m' p o ids'.
Proof. intros Hg Hn Hc. by destruct (conflict_grows _ _ _ _ _ _ _ _ Hg Hc) as [?|(_ & ? & _)]. Qed.

Lemma store_gem_effect f g gems r r' t' :
  res_ok r -> pending_ok (CallAdd f (StoringGems (g :: gems))) r ->
  add_turn f (StoringGems (g :: gems)) r = Done (t', r') ->
  turn_effect (CallAdd f (StoringGems (g :: gems))) (CallAdd f t') r r'.
Proof.
  intros [Hg Ha Hge Hae Hs] (Hin & Hcg & Hca). cbn [add_turn]. unfold storeGemPortId.
  destruct (onu_ports (GemPortIDs r) _ _) as [ports|] eqn:E; intros [= <- <-]; [|by split; auto using grows_refl].
  assert (known (GemPortIDs r) (u32 (AccessIntfId f)) (u32 (fl_OnuId f))) as Hk by (by eexists).
  assert (grows (u32 (AccessIntfId f)) (u32 (fl_OnuId f)) (flow_gems f) (GemPortIDs r)
    (alter_ports (record_id (fl_PortNo f) g (FlowId f)) (u32 (AccessIntfId f)) (u32 (fl_OnuId f)) (GemPortIDs r)))
    as Hgr by (apply grows_record; [done|]; apply Hin; by left).
  split; [done|done| | |exact Hgr|apply grows_refl].
  - split; cbn [GemPortIDs AllocIDs upd set_GemPortIDs]; [by apply no_empty_record|done| |done|].
    + exact (exclusive_grows _ _ _ _ _ Hge Hcg Hgr).
    + intros p o. rewrite <-(Hs p o). symmetry. apply same_onus_alter.
  - split_and!; [intros x Hx; apply Hin; by right|exact (own_conflict _ _ _ _ _ _ Hgr Hcg)|done].
Qed.

Lemma store_alloc_effect f r r' t' :
  res_ok r -> pending_ok (CallAdd f StoringAlloc) r ->
  add_turn f StoringAlloc r = Done (t', r') -> turn_effect (CallAdd f StoringAlloc) (CallAdd f t') r r'.
Proof.
  intros [Hg Ha Hge Hae Hs] Hca. cbn [add_turn]. unfold storeAllocId.
  destruct (onu_ports (AllocIDs r) _ _) as [ports|] eqn:E; cbn [mbind outcome_bind]; [|done].
  intros [= <- <-].
  assert (known (AllocIDs r) (u32 (AccessIntfId f)) (u32 (fl_OnuId f))) as Hk by (by eexists).
  assert (grows (u32 (AccessIntfId f)) (u32 (fl_OnuId f)) [fl_AllocId f] (AllocIDs r)
    (alter_ports (record_id (fl_PortNo f) (fl_AllocId f) (FlowId f)) (u32 (AccessIntfId f))
       (u32 (fl_OnuId f)) (AllocIDs r))) as Hgr by (apply grows_record; [done|by left]).
  split; [done|done| |done|apply grows_refl|exact Hgr].
  split; cbn [GemPortIDs AllocIDs upd set_AllocIDs]; [done|by apply no_empty_record|done| |].
  - exact (exclusive_grows _ _ _ _ _ Hae Hca Hgr).
  - intros p o. rewrite (Hs p o). apply same_onus_alter.
Qed.

Lemma remove_effect f t t' r r' :
  res_ok r -> remove_turn f t r = (t', r') -> turn_effect (CallRemove f t) (CallRemove f t') r r'.
Proof.
  intros Hok. destruct (Hok) as [Hg Ha Hge Hae Hs].
  destruct t; intros [= <- <-]; split; try done; try apply grows_refl; try apply grows_free;
    split; cbn [GemPortIDs AllocIDs freeAllocId freeGemPortId upd set_AllocIDs set_GemPortIDs]; try done;
    try by apply no_empty_free.
  - intros p o1 o2 u1 u2 i f1 f2 [H1 _]%holds_free [H2 _]%holds_free. by eapply Hge.
  - intros p o. rewrite <-(same_onus_free _ _ p o). apply Hs.
  - intros p o1 o2 u1 u2 i f1 f2 [H1 _]%holds_free [H2 _]%holds_free. by eapply Hae.
  - intros p o. rewrite <-(same_onus_free _ _ p o). apply Hs.
Qed.

Lemma call_turn_effect c c' r r' :
  res_ok r -> pending_ok c r -> call_turn c r = Done (c', r') -> turn_effect c c' r r'.
Proof.
  intros Hok Hp. destruct c as [f t|f t]; cbn [call_turn].
  2: { destruct (remove_turn f t r) as [t' r1] eqn:E. intros [= <- <-]. by apply remove_effect. }
  destruct (add_turn f t r) as [[t' r1]| | |] eqn:E; cbn [mbind outcome_bind]; [|done..].
  intros [= <- <-]. destruct t as [|[|g gems]| |e].
  - cbn [add_turn] in E. destruct (validateFlow f r) eqn:Hv; injection E as <- <-; split; try done;
      try apply grows_refl. by apply (validateFlow_spec f r Hok) in Hv.
  - cbn [add_turn] in E. injection E as <- <-. destruct Hp as (_ & _ & Hp). split; try done; apply grows_refl.
  - by apply store_gem_effect.
  - by apply store_alloc_effect.
  - cbn [add_turn] in E. injection E as <- <-. split; try done; apply grows_refl.
Qed.

(** Two flows do not compete: they are of different PONs or of the same ONU,
    or they have no identifier in common. *)
Definition apart (c d : FlowCall) : Prop :=
  call_pon c = call_pon d -> call_onu c <> call_onu d ->
  (forall i, i ∈ call_gems c -> i ∉ call_gems d) /\ (forall i, i ∈ call_allocs c -> i ∉ call_allocs d).

Definition all_apart (cs : list FlowCall) : Prop :=
  forall i j c d, i <> j -> cs !! i = Some c -> cs !! j = Some d -> apart c d.

(** A pending call keeps what it knows while another one, apart from it, has
    its turn. *)
Lemma pending_kept c c' d r r' :
  turn_effect c c' r r' -> apart c d -> pending_ok d r -> pending_ok d r'.
Proof.
  intros [_ _ _ _ Hg Ha] Hap. unfold apart in Hap.
  assert (is_add d = true ->
    (~ conflict (GemPortIDs r) (call_pon d) (call_onu d) (flow_gems (call_flow d)) ->
     ~ conflict (GemPortIDs r') (call_pon d) (call_onu d) (flow_gems (call_flow d))) /\
    (~ conflict (AllocIDs r) (call_pon d) (call_onu d) [fl_AllocId (call_flow d)] ->
     ~ conflict (AllocIDs r') (call_pon d) (call_onu d) [fl_AllocId (call_flow d)])) as Hk.
  { intros Hd. unfold call_gems, call_allocs in Hap. rewrite Hd in Hap. split; intros Hn Hc.
    - destruct (conflict_grows _ _ _ _ _ _ _ _ Hg Hc) as [?|(E & Hne & i & Hi & Hi')]; [done|].
      by destruct (Hap E Hne) as [H1 _]; apply (H1 i).
    - destruct (conflict_grows _ _ _ _ _ _ _ _ Ha Hc) as [?|(E & Hne & i & Hi & Hi')]; [done|].
      by destruct (Hap E Hne) as [_ H1]; apply (H1 i). }
  destruct d as [f [|gems| |e]|f t]; cbn [pending_ok]; try done; destruct (Hk eq_refl) as [Kg Ka].
  - intros (H1 & H2 & H3). split_and!; [done|by apply Kg|by apply Ka].
  - intros H1. by apply Ka.
Qed.

Definition calls_ok (s : list FlowCall * FlowRes) : Prop :=
  res_ok s.2 /\ all_apart s.1 /\ Forall (fun c => pending_ok c s.2) s.1.

Lemma calls_step_ok s s' : calls_step s s' -> calls_ok s -> calls_ok s'.
Proof.
  intros [i c c' cs r r' Hi Ht] (Hok & Hap & Hp). cbn [fst snd] in *.
  rewrite Forall_forall in Hp.
  pose proof (call_turn_effect c c' r r' Hok (Hp c (list_elem_of_lookup_2 _ _ _ Hi)) Ht) as Ht'.
  destruct (Ht') as [Hf Hk Hok' Hp' _ _]. pose proof (lookup_lt_Some _ _ _ Hi) as Hlt.
  assert (forall d, apart c' d <-> apart c d) as Hl
    by (intros d; unfold apart, call_pon, call_onu, call_gems, call_allocs; by rewrite Hf, Hk).
  assert (forall d, apart d c' <-> apart d c) as Hr
    by (intros d; unfold apart, call_pon, call_onu, call_gems, call_allocs; by rewrite Hf, Hk).
  split_and!; cbn [fst snd]; [done| |].
  - assert (forall j d, <[i := c']> cs !! j = Some d -> (j = i /\ d = c') \/ (j <> i /\ cs !! j = Some d)) as Hat.
    { intros j d. destruct (decide (j = i)) as [->|]; [rewrite list_lookup_insert_eq by done; left; by simplify_eq|].
      rewrite list_lookup_insert_ne by done. by right. }
    intros j k d e Hne [[-> ->]|[Hj Hd]]%Hat [[-> ->]|[Hk' He]]%Hat;
      [done|exact (proj2 (Hl e) (Hap i k c e Hne Hi He))|exact (proj2 (Hr d) (Hap j i d c Hne Hd Hi))
      |exact (Hap j k d e Hne Hd He)].
  - apply Forall_lookup_2. intros j d. destruct (decide (j = i)) as [->|Hne].
    { rewrite list_lookup_insert_eq by done. by intros [= <-]. }
    rewrite list_lookup_insert_ne by done. intros Hj.
    eapply pending_kept; [exact Ht'|exact (Hap i j c d (not_eq_sym Hne) Hi Hj)|]. apply Hp. by eapply list_elem_of_lookup_2.
Qed.

(** However the critical sections of any number of [FlowAdd] and [FlowRemove]
    calls interleave, if no two of the calls compete for an identifier then no
    GEM port and no alloc identifier is ever recorded for two ONUs of a PON. *)
Theorem interleaved_calls_exclusive (calls : list (bool * Flow)) (cs : list FlowCall) (r r' : FlowRes) :
  let start (c : bool * Flow) := if c.1 then CallAdd c.2 Validating else CallRemove c.2 FreeingGem in
  rtc res_step no_flow_res r -> all_apart (start <$> calls) ->
  rtc calls_step (start <$> calls, r) (cs, r') ->
  exclusive (GemPortIDs r') /\ exclusive (AllocIDs r').
Proof.
  intros start Hr Hap Hsteps.
  assert (calls_ok (start <$> calls, r)) as Hok.
  { split_and!; [by apply reachable_ok|done|]. apply Forall_fmap, Forall_true. by intros [[] f]. }
  assert (calls_ok (cs, r')) as (Hok' & _); [|by destruct Hok'].
  remember (start <$> calls, r) as s eqn:E. clear E Hr Hap. remember (cs, r') as s'. clear Heqs'.
  induction Hsteps; eauto using calls_step_ok.
Qed.

Lemma interleaved_calls_exclusive_witness :
  exists cs r', rtc calls_step ([CallAdd (example_flow 1 1024 1024 1) Validating;
                                 CallAdd (example_flow 2 1025 1025 2) Validating], two_onus) (cs, r') /\
    exclusive (GemPortIDs r') /\ exclusive (AllocIDs r').
Proof.
  eexists _, _. split.
  - take_turn 0%nat. take_turn 1%nat. apply rtc_refl.
  - apply (interleaved_calls_exclusive [(true, example_flow 1 1024 1024 1); (true, example_flow 2 1025 1025 2)]
      [CallAdd (example_flow 1 1024 1024 1) (StoringGems [1024]);
       CallAdd (example_flow 2 1025 1025 2) (StoringGems [1025])] two_onus two_onus).
    + exact two_onus_reachable.
    + intros [|[|]] [|[|]] c d Hne Hc Hd _ _; simplify_eq/=; try done; split; intros i;
        cbn; rewrite !list_elem_of_singleton; intros ->; lia.
    + take_turn 0%nat. take_turn 1%nat. apply rtc_refl.
Defined.

(** ** The race *)

Definition racing : list FlowCall :=
  [CallAdd (example_flow 1 1024 1024 1) Validating; CallAdd (example_flow 2 1024 1025 2) Validating].

(** Two calls that ask for the same GEM port for two ONUs of a PON can both be
    validated before either records it: both are accepted, and the port belongs
    to both ONUs.  Run one after the other, the second is refused. *)
Theorem flow_add_race :
  (exists r', rtc calls_step (racing, two_onus)
     ([CallAdd (example_flow 1 1024 1024 1) (Added None); CallAdd (example_flow 2 1024 1025 2) (Added None)], r') /\
   holds (GemPortIDs r') 0 1 16 1024 1 /\ holds (GemPortIDs r') 0 2 16 1024 2 /\
   ~ exclusive (GemPortIDs r')) /\
  admit_flow (example_flow 2 1024 1025 2) first_flow = Done (Some "gem-already-in-use", first_flow).
Proof.
  split; [|by vm_compute].
  eexists. split.
  - take_turn 0%nat. take_turn 1%nat.
    take_turn 0%nat. take_turn 1%nat.
    take_turn 0%nat. take_turn 1%nat.
    take_turn 0%nat. take_turn 1%nat. apply rtc_refl.
  - match goal with |- ?A /\ ?B /\ _ => assert (A /\ B) as [H1 H2] end.
    { split; (eexists; split; [by vm_compute|set_solver]). }
    split; [done|]. split; [done|]. intros He. by specialize (He _ _ _ _ _ _ _ _ H1 H2).
Qed.
