(* ===== verification/Olt.v ===== *)
(** * OLT: PON ports, NNI ports and the device

    [internal/bbsim/devices/olt.go], [pon.go], [nni.go] and [helpers.go]: the
    simulated OLT with its ports and ONUs, the state machines of the OLT and of
    the PON ports, the goroutine that takes messages off the channel of the
    OLT, and the calls VOLTHA makes.  The code of an ONU runs inside the state
    of the OLT through [on_onu], which lends it the resource tables of its PON,
    the openolt stream and the channel of the OLT.  A call runs to its end
    before another one starts; the goroutines it starts are tasks. *)
From S2P Require Import Prelude Fsm Options OmciTypes Omci MibDb Packets Types Io Dhcp DhcpServer Igmp Service.
From S2P Require Import PonRes AlarmSim UniPort Get Onu OnuOmci OnuLoop OltFlows.
Open Scope Z_scope.
Open Scope string_scope.

(** ** State *)

(** Source: internal/bbsim/devices/helpers.go, [mode]. *)
Inductive mode := Default | OnlyONU | OnlyPON | Both.
#[export] Instance mode_eq_dec : EqDecision mode.
Proof. solve_decision. Defined.

(** Source: internal/bbsim/devices/helpers.go:39-44, [ControlledActivationModes]. *)
Definition ControlledActivationModes : list (string * mode) :=
  [("default", Default); ("only-onu", OnlyONU); ("only-pon", OnlyPON); ("both", Both)].

(** Source: internal/bbsim/devices/pon.go, [PonPort]. *)
Record PonPort := {
  pp_ID : Z; pp_Technology : PonTechnology; Onus : list Onu; pp_PacketCount : Z;
  pp_InternalState : string; pp_OperState : string; pp_res : PonRes }.
#[export] Instance eta_PonPort : Eta PonPort := fun p => {|
  pp_ID := pp_ID p; pp_Technology := pp_Technology p; Onus := Onus p;
  pp_PacketCount := pp_PacketCount p; pp_InternalState := pp_InternalState p;
  pp_OperState := pp_OperState p; pp_res := pp_res p |}.
#[export] Instance set_Onus : Setter Onus := ltac:(setter_for Onus).
#[export] Instance set_pp_PacketCount : Setter pp_PacketCount := ltac:(setter_for pp_PacketCount).
#[export] Instance set_pp_InternalState : Setter pp_InternalState := ltac:(setter_for pp_InternalState).
#[export] Instance set_pp_OperState : Setter pp_OperState := ltac:(setter_for pp_OperState).
#[export] Instance set_pp_res : Setter pp_res := ltac:(setter_for pp_res).

(** Source: internal/bbsim/devices/nni.go, [NniPort]. *)
Record NniPort := { nni_ID : Z; nni_OperState : string; nni_PacketCount : Z }.
#[export] Instance eta_NniPort : Eta NniPort := fun n => {|
  nni_ID := nni_ID n; nni_OperState := nni_OperState n; nni_PacketCount := nni_PacketCount n |}.
#[export] Instance set_nni_OperState : Setter nni_OperState := ltac:(setter_for nni_OperState).
#[export] Instance set_nni_PacketCount : Setter nni_PacketCount := ltac:(setter_for nni_PacketCount).

(** Source: internal/bbsim/devices/nni.go, [CreateNNI]. *)
Definition CreateNNI : NniPort := {| nni_ID := 0; nni_OperState := "down"; nni_PacketCount := 0 |}.

(** The goroutines the OLT and the API server start and that run later: those
    of an ONU, by PON and position, its rediscovery, and the restart of the OLT;
    for the API, the shutdown or power on of the ONUs of some PONs (all of them,
    if they are enabled), the start of the server, and an IGMP message of a
    service, by PON, ONU, UNI and position. *)
Inductive OltTask :=
| TOnu (p i : nat) (t : Task)
| TRediscover (p i : nat)
| TRestart
| TShutdown (pons : list nat)
| TPowerOn (pons : list nat)
| TPowerOnAll
| TStartServer
| TIgmp (p i u k : nat) (action ctag : Z) (group : string).

(** Source: internal/bbsim/devices/olt.go, [OltDevice].  [OltServer] tells
    whether the gRPC server runs, [enableContext] whether [Enable] was called
    and [loops] counts the [processOltMessages] goroutines; [isMock] is the
    argument of [CreateOLT]. *)
Record OltDevice := {
  olt_ID : Z; NumPon : Z; NumOnuPerPon : Z; NniSpeed : Z; olt_InternalState : string; olt_OperState : string;
  channel : chan Message; olt_Flows : gmap Z Flow; ControlledActivation : mode;
  olt_PublishEvents : bool; olt_published : list string; PreviouslyConnected : bool;
  Pons : list PonPort; Nnis : list NniPort; enableContext : bool; loops : nat;
  OpenoltStream : Stream; enablePerf : bool; flow_res : FlowRes; signature : Z;
  OltServer : bool; olt_tasks : list OltTask }.
#[export] Instance eta_OltDevice : Eta OltDevice := fun o => {|
  olt_ID := olt_ID o; NumPon := NumPon o; NumOnuPerPon := NumOnuPerPon o; NniSpeed := NniSpeed o; olt_InternalState := olt_InternalState o;
  olt_OperState := olt_OperState o; channel := channel o; olt_Flows := olt_Flows o;
  ControlledActivation := ControlledActivation o; olt_PublishEvents := olt_PublishEvents o;
  olt_published := olt_published o; PreviouslyConnected := PreviouslyConnected o; Pons := Pons o;
  Nnis := Nnis o; enableContext := enableContext o; loops := loops o;
  OpenoltStream := OpenoltStream o; enablePerf := enablePerf o; flow_res := flow_res o;
  signature := signature o; OltServer := OltServer o; olt_tasks := olt_tasks o |}.
#[export] Instance set_olt_InternalState : Setter olt_InternalState := ltac:(setter_for olt_InternalState).
#[export] Instance set_olt_OperState : Setter olt_OperState := ltac:(setter_for olt_OperState).
#[export] Instance set_channel : Setter channel := ltac:(setter_for channel).
#[export] Instance set_olt_Flows : Setter olt_Flows := ltac:(setter_for olt_Flows).
#[export] Instance set_olt_published : Setter olt_published := ltac:(setter_for olt_published).
#[export] Instance set_PreviouslyConnected : Setter PreviouslyConnected :=
  ltac:(setter_for PreviouslyConnected).
#[export] Instance set_Pons : Setter Pons := ltac:(setter_for Pons).
#[export] Instance set_Nnis : Setter Nnis := ltac:(setter_for Nnis).
#[export] Instance set_enableContext : Setter enableContext := ltac:(setter_for enableContext).
#[export] Instance set_loops : Setter loops := ltac:(setter_for loops).
#[export] Instance set_OpenoltStream : Setter OpenoltStream := ltac:(setter_for OpenoltStream).
#[export] Instance set_flow_res : Setter flow_res := ltac:(setter_for flow_res).
#[export] Instance set_signature : Setter signature := ltac:(setter_for signature).
#[export] Instance set_OltServer : Setter OltServer := ltac:(setter_for OltServer).
#[export] Instance set_olt_tasks : Setter olt_tasks := ltac:(setter_for olt_tasks).

(** [o.channel <- msg] and [stream.Send(ind)]. *)
Definition send_olt (m : Message) : M OltDevice unit :=
  lift_upd channel (fun c s => s <| channel := c |>) (chan_send m).
Definition olt_send (ind : Indication) : M OltDevice (option error) :=
  zoom OpenoltStream (fun w s => s <| OpenoltStream := w |>) (Send ind).
Definition olt_spawn (t : OltTask) : M OltDevice unit :=
  modify (fun s => s <| olt_tasks ::= (fun l => l ++ [t])%list |>).

(** [publishEvent] called by the OLT. *)
Definition publish_olt (ev : string) : M OltDevice unit :=
  s ← get;
  if olt_PublishEvents s then modify (fun s => s <| olt_published ::= (fun l => l ++ [ev])%list |>)
  else skip.

(** The state of an ONU with what the OLT lends to it. *)
Definition onu_view (s : OltDevice) (pp : PonPort) (o : Onu) : OnuSys := {|
  onu := o; res := pp_res pp; o_wire := OpenoltStream s; olt_channel := channel s;
  olt_state := olt_InternalState s; PublishEvents := olt_PublishEvents s;
  published := olt_published s; tasks := []; o_client := None |}.

(** What the code of an ONU changed, put back. *)
Definition onu_back (p i : nat) (pp : PonPort) (t : OnuSys) (s : OltDevice) : OltDevice :=
  s <| Pons ::= <[p := pp <| Onus ::= <[i := onu t]> |> <| pp_res := res t |>]> |>
    <| OpenoltStream := o_wire t |> <| channel := olt_channel t |> <| olt_published := published t |>
    <| olt_tasks ::= (fun l => l ++ (TOnu p i <$> tasks t))%list |>.

(** Run code of the [i]-th ONU of the [p]-th PON. *)
Definition on_onu {A : Type} (p i : nat) (m : M OnuSys A) : M OltDevice A := fun s =>
  match Pons s !! p with
  | None => Panicked "invalid memory address or nil pointer dereference"
  | Some pp =>
      match Onus pp !! i with
      | None => Panicked "invalid memory address or nil pointer dereference"
      | Some o =>
          match m (onu_view s pp o) with
          | Done (a, t) => Done (a, onu_back p i pp t s)
          | Panicked w => Panicked w
          | Blocked w => Blocked w
          | Exited w => Exited w
          end
      end
  end.

Definition upd_pon (p : nat) (f : PonPort -> PonPort) : M OltDevice unit :=
  modify (fun s => s <| Pons ::= alter f p |>).

(** The ONUs of a PON, by position. *)
Definition onu_ids (p : nat) (s : OltDevice) : list nat :=
  match Pons s !! p with Some pp => seq 0 (length (Onus pp)) | None => [] end.

(** The state of an ONU. *)
Definition onu_state (p i : nat) (s : OltDevice) : string :=
  match Pons s !! p ≫= (fun pp => Onus pp !! i) with Some o => o_InternalState o | None => "" end.

(** ** Ports *)

(** Source: internal/bbsim/devices/olt.go, [OltDevice.HasNni]. *)
Definition HasNni (s : OltDevice) (id : Z) : bool := existsb (fun n => bool_decide (nni_ID n = id)) (Nnis s).

(** Source: internal/bbsim/devices/olt.go, [OltDevice.HasPon]. *)
Definition HasPon (s : OltDevice) (id : Z) : bool := existsb (fun p => bool_decide (pp_ID p = id)) (Pons s).

(** Source: internal/bbsim/devices/olt.go, [OltDevice.GetPonById].  The
    position of the port. *)
Definition GetPonById (s : OltDevice) (id : Z) : option nat :=
  fst <$> list_find (fun p => pp_ID p = id) (Pons s).

(** Source: internal/bbsim/devices/olt.go, [OltDevice.getNniById]. *)
Definition getNniById (s : OltDevice) (id : Z) : option nat :=
  fst <$> list_find (fun n => nni_ID n = id) (Nnis s).

(** Source: internal/bbsim/devices/pon.go, [PonPort.GetOnuById]. *)
Definition GetOnuById (pp : PonPort) (id : Z) : option nat :=
  fst <$> list_find (fun o => o_ID o = id) (Onus pp).

(** Source: internal/bbsim/devices/pon.go, [PonPort.GetOnuBySn]. *)
Definition GetOnuBySn (pp : PonPort) (sn : SerialNumber) : option nat :=
  fst <$> list_find (fun o => VendorSpecific (o_SerialNumber o) = VendorSpecific sn) (Onus pp).

(** Source: internal/bbsim/devices/pon.go, [PonPort.GetNumOfActiveOnus]. *)
Definition GetNumOfActiveOnus (pp : PonPort) : Z :=
  Z.of_nat (length (List.filter (fun o =>
    negb (bool_decide (o_InternalState o ∈ [OnuStateInitialized; OnuStateCreated; OnuStateDisabled])))
    (Onus pp))).

(** The ONU at a position. *)
Definition onu_at (s : OltDevice) (p i : nat) : option Onu := Pons s !! p ≫= (fun pp => Onus pp !! i).

(** The ONUs of the device in the order the loops visit them, with the
    positions of their PON and in it: a [*Onu] is such a position. *)
Definition all_onus (s : OltDevice) : list (nat * nat * Onu) :=
  imap pair (Pons s) ≫= (fun '(p, pp) => imap (fun i o => (p, i, o)) (Onus pp)).

(** Source: internal/bbsim/devices/olt.go, [OltDevice.FindOnuById]. *)
Definition FindOnuById (s : OltDevice) (intfId onuId : Z) : error + nat * nat :=
  match list_find (fun x => o_ID x.2 = onuId)
          (imap pair (Pons s) ≫= (fun '(p, pp) =>
             if decide (pp_ID pp = intfId) then imap (fun i o => (p, i, o)) (Onus pp) else [])) with
  | None => inl "cannot-find-onu-by-id"
  | Some (_, (p, i, _)) => inr (p, i)
  end.

(** Source: internal/bbsim/devices/olt.go, [OltDevice.FindOnuBySn]. *)
Definition FindOnuBySn (s : OltDevice) (serialNumber : string) : error + nat * nat :=
  match list_find (fun x => OnuSnToString (o_SerialNumber x.2) = serialNumber) (all_onus s) with
  | None => inl "cannot-find-onu-by-serial-number"
  | Some (_, (p, i, _)) => inr (p, i)
  end.

(** Source: internal/bbsim/devices/olt.go, [OltDevice.FindServiceByMacAddress].
    The service and the position of its ONU. *)
Definition FindServiceByMacAddress (s : OltDevice) (mac : list Z) : error + nat * nat * Service :=
  match all_onus s ≫= (fun '(p, i, o) =>
          match findServiceByMacAddress (o_UniPorts o) mac with inr v => [(p, i, v)] | inl _ => [] end) with
  | [] => inl "cannot-find-service-by-mac-address"
  | x :: _ => inr x
  end.

(** Source: internal/bbsim/devices/olt.go, [OltDevice.GetOnuByFlowId].  The PON
    and the ONU, by position. *)
Definition GetOnuByFlowId (s : OltDevice) (flowId : Z) : option (nat * nat) :=
  (fun x => x.2.1) <$> list_find (fun x => flowId ∈ FlowIds x.2) (all_onus s).

(** Source: internal/bbsim/devices/helpers.go, [InterfaceIDToPortNo]. *)
Definition InterfaceIDToPortNo (intfID : Z) (intfType : string) : Z :=
  if decide (intfType = "nni") then u32 (2 ^ 20 + intfID)
  else if decide (intfType = "pon") then u32 (2 ^ 29 + intfID)
  else 0.

(** Source: internal/bbsim/devices/helpers.go, [getPortStats]; [r] is the
    number the random source draws. *)
Definition getPortStats (packetCount : Z) (incrementStat : bool) (r : Z) : PortStatistics * Z :=
  let packetCount := if incrementStat then u64 (packetCount + (r mod 50 + 10)) else packetCount in
  ({| st_Bytes := u64 (packetCount * 64); st_Packets := packetCount;
      st_UcastPackets := u64 (packetCount * 40) / 100; st_McastPackets := u64 (packetCount * 30) / 100;
      st_BcastPackets := u64 (packetCount * 30) / 100 |}, packetCount).

(** ** Indications *)

(** Source: internal/bbsim/devices/olt.go, [OltDevice.sendAlarmIndication]. *)
Definition sendAlarmIndication (a : AlarmIndication) : M OltDevice unit := olt_send (IndAlarm a) ;; skip.

(** Source: internal/bbsim/devices/olt.go, [OltDevice.sendOltIndication]. *)
Definition sendOltIndication (st : OperState) : M OltDevice unit :=
  olt_send (IndOlt (OperState_String st)) ;; skip.

(** The operational state of an NNI port. *)
Definition nni_fsm (n : nat) : FSM OltDevice := {|
  fsm_events := oper_events;
  fsm_current := fun s => match Nnis s !! n with Some p => nni_OperState p | None => "" end;
  fsm_set := fun x s => s <| Nnis ::= alter (fun p => p <| nni_OperState := x |>) n |>;
  fsm_before := no_before; fsm_enter := no_enter; fsm_after := no_after |}.

(** Source: internal/bbsim/devices/olt.go, [OltDevice.sendNniIndication].  An
    unknown port is dereferenced as nil. *)
Definition sendNniIndication (st : OperState) (port : Z) : M OltDevice unit :=
  s ← get;
  match getNniById s port with
  | None => panic "invalid memory address or nil pointer dereference"
  | Some n =>
      match st with
      | UP => Event (nni_fsm n) "enable" ;; skip
      | DOWN => Event (nni_fsm n) "disable" ;; skip
      end ;;
      cur ← Current (nni_fsm n);
      olt_send (IndIntfOper "nni" port cur (NniSpeed s)) ;; skip
  end.

(** Source: internal/bbsim/devices/olt.go, [OltDevice.sendPonIndication]. *)
Definition sendPonIndication (ponPortID : Z) : M OltDevice unit :=
  s ← get;
  match GetPonById s ponPortID ≫= (fun p => Pons s !! p) with
  | None => panic "invalid memory address or nil pointer dereference"
  | Some pp =>
      err ← olt_send (IndIntf (pp_ID pp) (pp_OperState pp));
      match err with
      | Some _ => skip
      | None => olt_send (IndIntfOper "pon" (pp_ID pp) (pp_OperState pp) 0) ;; skip
      end
  end.

(** Source: internal/bbsim/devices/olt.go, [OltDevice.sendPortStatsIndication]. *)
Definition sendPortStatsIndication (st : PortStatistics) (portID : Z) (portType : string)
    : M OltDevice unit :=
  s ← get;
  if decide (olt_InternalState s = "enabled")
  then olt_send (IndPortStats (InterfaceIDToPortNo portID portType) st) ;; skip else skip.

(** Source: internal/bbsim/devices/olt.go:564-597, [OltDevice.periodicPortStats]
    (one period; [rnd] is the random source). *)
Definition port_stats_period (rnd : nat -> Z) : M OltDevice unit :=
  s ← get;
  for_each (imap pair (Nnis s)) (fun '(n, port) =>
    let '(st, c) := getPortStats (nni_PacketCount port)
                      (negb (bool_decide (nni_OperState port = "down"))) (rnd n) in
    modify (fun s => s <| Nnis ::= alter (fun p => p <| nni_PacketCount := c |>) n |>) ;;
    sendPortStatsIndication st (nni_ID port) "nni") ;;
  for_each (imap pair (Pons s)) (fun '(p, port) =>
    let '(st, c) := getPortStats (pp_PacketCount port)
                      (negb (bool_decide (pp_OperState port = "down" \/ GetNumOfActiveOnus port < 1)))
                      (rnd (length (Nnis s) + p)%nat) in
    upd_pon p (fun pp => pp <| pp_PacketCount := c |>) ;;
    sendPortStatsIndication st (pp_ID port) "pon").

(** ** PON ports *)

Definition ponStateCreated : string := "created".
Definition ponStateEnabled : string := "enabled".
Definition ponStateDisabled : string := "disabled".

(** Source: internal/bbsim/devices/pon.go:88-93, [CreatePonPort] (the table of
    [InternalState]). *)
Definition pon_events : list EventDesc := [
  {| Name := "enable"; Src := [ponStateCreated; ponStateDisabled]; Dst := ponStateEnabled |};
  {| Name := "disable"; Src := [ponStateEnabled]; Dst := ponStateDisabled |} ].

(** Source: internal/bbsim/devices/pon.go:102-110, [CreatePonPort] (initialize
    an ONU and, if that worked, discover it). *)
Definition init_and_discover (p i : nat) : M OltDevice unit :=
  err ← on_onu p i (Event onu_fsm OnuTxInitialize);
  match err with
  | Some _ => skip
  | None => on_onu p i (Event onu_fsm OnuTxDiscover) ;; skip
  end.

(** Source: internal/bbsim/devices/pon.go:127-168, [CreatePonPort] (bring an
    ONU back when its PON is enabled again). *)
Definition resume_onu (p i : nat) : M OltDevice unit :=
  st ← gets (onu_state p i);
  if decide (st = OnuStatePonDisabled) then on_onu p i (Event onu_fsm OnuTxEnable) ;; skip
  else if decide (st = OnuStateDisabled) then init_and_discover p i
  else if decide (st = OnuStateInitialized) then on_onu p i (Event onu_fsm OnuTxDiscover) ;; skip
  else skip.

(** Source: internal/bbsim/devices/pon.go:95-170, [CreatePonPort] (entering the
    enabled state). *)
Definition pon_enter_enabled (p : nat) (src : string) : M OltDevice unit :=
  s ← get;
  let m := ControlledActivation s in
  if decide (src = ponStateCreated) then
    if decide (m = Default \/ m = OnlyPON) then for_each (onu_ids p s) (init_and_discover p) else skip
  else if decide (src = ponStateDisabled) then
    if decide (m = OnlyONU \/ m = Both) then
      for_each (onu_ids p s) (fun i => on_onu p i (Event onu_fsm OnuTxInitialize) ;; skip)
    else for_each (onu_ids p s) (resume_onu p)
  else skip.

(** Source: internal/bbsim/devices/pon.go:171-180, [CreatePonPort] (entering
    the disabled state). *)
Definition pon_enter_disabled (p : nat) : M OltDevice unit :=
  s ← get;
  for_each (onu_ids p s) (fun i =>
    st ← gets (onu_state p i);
    if decide (st = OnuStateInitialized \/ st = OnuStateDisabled) then skip
    else on_onu p i (Event onu_fsm OnuTxPonDisable) ;; skip).

Definition pon_fsm (p : nat) : FSM OltDevice := {|
  fsm_events := pon_events;
  fsm_current := fun s => match Pons s !! p with Some pp => pp_InternalState pp | None => "" end;
  fsm_set := fun x s => s <| Pons ::= alter (fun pp => pp <| pp_InternalState := x |>) p |>;
  fsm_before := no_before;
  fsm_enter := fun src dst =>
    if decide (dst = ponStateEnabled) then pon_enter_enabled p src
    else if decide (dst = ponStateDisabled) then pon_enter_disabled p else skip;
  fsm_after := no_after |}.

(** Source: internal/bbsim/devices/pon.go:184-204, [CreatePonPort] (the
    operational state: every change is indicated to VOLTHA). *)
Definition pon_oper_fsm (p : nat) : FSM OltDevice := {|
  fsm_events := oper_events;
  fsm_current := fun s => match Pons s !! p with Some pp => pp_OperState pp | None => "" end;
  fsm_set := fun x s => s <| Pons ::= alter (fun pp => pp <| pp_OperState := x |>) p |>;
  fsm_before := no_before;
  fsm_enter := fun _ _ =>
    s ← get;
    match Pons s !! p with Some pp => sendPonIndication (pp_ID pp) | None => skip end;
  fsm_after := no_after |}.

(** Source: internal/bbsim/devices/pon.go:72-86, [CreatePonPort]. *)
Definition CreatePonPort (id : Z) (tech : PonTechnology) : PonPort := {|
  pp_ID := id; pp_Technology := tech; Onus := []; pp_PacketCount := 0;
  pp_InternalState := ponStateCreated; pp_OperState := "down"; pp_res := empty_res |}.

(** ** The machine of the OLT *)

Definition OltInternalStateCreated : string := "created".
Definition OltInternalStateInitialized : string := "initialized".
Definition OltInternalStateEnabled : string := "enabled".
Definition OltInternalStateDisabled : string := "disabled".
Definition OltInternalStateDeleted : string := "deleted".
Definition OltInternalTxInitialize : string := "initialize".
Definition OltInternalTxEnable : string := "enable".
Definition OltInternalTxDisable : string := "disable".
Definition OltInternalTxDelete : string := "delete".

(** Source: internal/bbsim/devices/olt.go:176-184, [CreateOLT] (the table of
    [InternalState]). *)
Definition olt_events : list EventDesc := [
  {| Name := OltInternalTxInitialize; Src := [OltInternalStateCreated; OltInternalStateDeleted];
     Dst := OltInternalStateInitialized |};
  {| Name := OltInternalTxEnable; Src := [OltInternalStateInitialized; OltInternalStateDisabled];
     Dst := OltInternalStateEnabled |};
  {| Name := OltInternalTxDisable; Src := [OltInternalStateEnabled]; Dst := OltInternalStateDisabled |};
  {| Name := OltInternalTxDelete; Src := [OltInternalStateDisabled; OltInternalStateEnabled];
     Dst := OltInternalStateDeleted |} ].

(** Source: internal/bbsim/devices/olt.go, [OltDevice.InitOlt].  The tables are
    made for the positions of the PON ports. *)
Definition InitOlt : M OltDevice unit :=
  s ← get;
  if OltServer s then exit "OLT server already running." else
  modify (fun s => s <| OltServer := true |> <| channel := ChOpen [] |>) ;;
  match Nnis s with
  | [] => panic "index out of range"
  | _ :: _ => modify (fun s => s <| Nnis ::= alter (fun n => n <| nni_OperState := "down" |>) 0%nat |>)
  end ;;
  modify (fun s => s <| flow_res ::= (fun r =>
    foldl (fun r p => init_pon_maps (Z.of_nat p) r) r (seq 0 (length (Pons s)))) |>).

(** Source: internal/bbsim/devices/olt.go, [OltDevice.clearAllResources]. *)
Definition clearAllResources : M OltDevice unit :=
  modify (fun s => s <| flow_res := no_flow_res |>
    <| Pons ::= fmap (fun pp => pp <| pp_res ::= (fun r =>
         removeAllOnuIds (removeAllGemPorts (removeAllAllocIds r))) |>) |>).

(** Source: internal/bbsim/devices/olt.go:185-195, [CreateOLT] (what entering a
    state does). *)
Definition olt_fsm : FSM OltDevice := {|
  fsm_events := olt_events;
  fsm_current := olt_InternalState;
  fsm_set := fun x s => s <| olt_InternalState := x |>;
  fsm_before := no_before;
  fsm_enter := fun _ dst =>
    if decide (dst = OltInternalStateInitialized) then InitOlt
    else if decide (dst = OltInternalStateDeleted) then clearAllResources else skip;
  fsm_after := no_after |}.

Definition olt_oper_fsm : FSM OltDevice := {|
  fsm_events := oper_events;
  fsm_current := olt_OperState;
  fsm_set := fun x s => s <| olt_OperState := x |>;
  fsm_before := no_before; fsm_enter := no_enter; fsm_after := no_after |}.

(** The context of [Enable] is cancelled: the goroutines of the OLT and of the
    ONUs end. *)
Definition cancel_context : M OltDevice unit :=
  modify (fun s => s <| loops := 0%nat |>
    <| Pons ::= fmap (fun pp => pp <| Onus ::= fmap (fun o => o <| o_goroutines := 0%nat |>) |>) |>).

(** Source: internal/bbsim/devices/olt.go, [OltDevice.StopOltServer]. *)
Definition StopOltServer : M OltDevice unit := modify (fun s => s <| OltServer := false |>).

(** Source: internal/bbsim/devices/olt.go, [OltDevice.RestartOLT]; [now] is the
    time.  Both kinds of reboot disable every ONU; their errors are only
    reported. *)
Definition RestartOLT (now : Z) : M OltDevice (option fsm_error) :=
  modify (fun s => s <| PreviouslyConnected := false |>) ;;
  err ← Event olt_fsm OltInternalTxDelete;
  match err with
  | Some e => mret (Some e)
  | None =>
      s ← get;
      for_each (seq 0 (length (Pons s))) (fun p =>
        s ← get;
        for_each (onu_ids p s) (fun i => on_onu p i (Event onu_fsm OnuTxDisable) ;; skip)) ;;
      StopOltServer ;;
      lift_upd channel (fun c s => s <| channel := c |>) chan_close ;;
      s ← get;
      (if enableContext s then cancel_context
       else panic "invalid memory address or nil pointer dereference") ;;
      modify (fun s => s <| signature := u32 now |>) ;;
      Event olt_fsm OltInternalTxInitialize
  end.

(** ** The message loop *)

(** Source: internal/bbsim/devices/olt.go:838-866, [OltDevice.processOltMessages]
    (a PON port changes state; errors are only reported). *)
Definition handle_pon_indication (st : OperState) (port : Z) : M OltDevice unit :=
  s ← get;
  match GetPonById s port with
  | None => panic "invalid memory address or nil pointer dereference"
  | Some p =>
      match st with
      | UP => Event (pon_oper_fsm p) "enable" ;; Event (pon_fsm p) "enable" ;; skip
      | DOWN => Event (pon_oper_fsm p) "disable" ;; Event (pon_fsm p) "disable" ;; skip
      end
  end.

(** Source: internal/bbsim/devices/olt.go:821-869, [OltDevice.processOltMessages]. *)
Definition handle_olt_message (m : Message) : M OltDevice unit :=
  match m with
  | OltIndication st =>
      match st with
      | UP => Event olt_fsm OltInternalTxEnable ;; Event olt_oper_fsm "enable" ;; skip
      | DOWN => Event olt_fsm OltInternalTxDisable ;; Event olt_oper_fsm "disable" ;; skip
      end ;;
      sendOltIndication st
  | MsgAlarmIndication a => sendAlarmIndication a
  | NniIndication st port => sendNniIndication st port
  | PonIndication st port => handle_pon_indication st port
  | _ => skip
  end.

(** Source: internal/bbsim/devices/olt.go:797-815, [OltDevice.processOltMessages]
    (take the next message, if there is one); the result tells whether the loop
    goes on. *)
Definition recv_olt : M OltDevice bool :=
  s ← get;
  match channel s with
  | ChOpen (m :: q) => modify (fun s => s <| channel := ChOpen q |>) ;; handle_olt_message m ;; mret true
  | ChClosed (m :: q) =>
      modify (fun s => s <| channel := ChClosed q |>) ;; handle_olt_message m ;; mret true
  | ChClosed [] => mret false
  | _ => mret true
  end.

(** Source: internal/bbsim/devices/olt.go:505-530, [OltDevice.Enable] (a
    reconnection: the ONUs are rediscovered and their loops and streams
    renewed). *)
Definition reconnect_pon (p : nat) : M OltDevice unit :=
  s ← get;
  match Pons s !! p with
  | None => skip
  | Some pp =>
      (if decide (pp_InternalState pp = ponStateDisabled) then send_olt (PonIndication UP (pp_ID pp))
       else skip) ;;
      for_each (onu_ids p s) (fun i =>
        (if decide (ControlledActivation s <> OnlyONU) then on_onu p i ReDiscoverOnu else skip) ;;
        on_onu p i (upd_onu (fun o => o <| o_goroutines ::= S |>) ;;
          t ← get;
          for_each (seq 0 (length (o_UniPorts (onu t)))) (fun u => on_uni u Uni_UpdateStream)))
  end.

(** Source: internal/bbsim/devices/olt.go, [OltDevice.Enable].  The call ends
    when the stream is closed; this is what it does before it waits. *)
Definition Enable (stream : Stream) : M OltDevice (option error) :=
  s ← get;
  if decide (olt_InternalState s = OltInternalStateDeleted)
  then mret (Some "Cannot enable OLT while it is rebooting") else
  let rebootFlag := enableContext s in
  (if rebootFlag then cancel_context else skip) ;;
  modify (fun s => s <| enableContext := true |> <| OpenoltStream := stream |> <| loops ::= S |>) ;;
  send_olt (OltIndication UP) ;;
  for_each (Nnis s) (fun n => send_olt (NniIndication UP (nni_ID n))) ;;
  (if rebootFlag then for_each (seq 0 (length (Pons s))) reconnect_pon
   else if decide (ControlledActivation s = Default \/ ControlledActivation s = OnlyONU) then
     for_each (Pons s) (fun pp => send_olt (PonIndication UP (pp_ID pp)))
   else skip) ;;
  mret None.

(** Source: internal/bbsim/devices/olt.go, [OltDevice.EnableIndication]. *)
Definition EnableIndication (stream : Stream) : M OltDevice (option error) :=
  publish_olt "OLT-enable-received" ;; Enable stream.

(** ** Calls from VOLTHA *)

(** Look a PON port and an ONU of it up. *)
Definition find_onu (s : OltDevice) (intfId onuId : Z) : error + nat * nat :=
  match GetPonById s intfId with
  | None => inl "Cannot find PonPort"
  | Some p =>
      match Pons s !! p ≫= (fun pp => GetOnuById pp onuId) with
      | None => inl "Cannot find Onu"
      | Some i => inr (p, i)
      end
  end.

Definition nil_deref {A : Type} : M OltDevice A :=
  panic "invalid memory address or nil pointer dereference".

(** Source: internal/bbsim/devices/olt.go, [OltDevice.SetAlarm]. *)
Definition SetAlarm (interfaceId : Z) (interfaceType alarmStatus : string) : M OltDevice (option error) :=
  s ← get;
  if decide (interfaceType = "nni" /\ HasNni s interfaceId = false) then mret (Some "NNI not present in olt")
  else if decide (interfaceType = "pon" /\ HasPon s interfaceId = false)
  then mret (Some "PON not present in olt")
  else send_olt (MsgAlarmIndication (LosInd (InterfaceIDToPortNo interfaceId interfaceType) alarmStatus)) ;;
       mret None.

(** Source: internal/bbsim/devices/olt.go, [OltDevice.ActivateOnu].  An unknown
    serial number is dereferenced as nil. *)
Definition ActivateOnu (intfId onuId : Z) (sn : SerialNumber) : M OltDevice (option error) :=
  s ← get;
  match GetPonById s intfId with
  | None => mret (Some "Cannot find PonPort")
  | Some p =>
      lift_upd flow_res (fun r s => s <| flow_res := r |>) (enable_onu_maps intfId onuId) ;;
      match Pons s !! p ≫= (fun pp => GetOnuBySn pp sn) with
      | None => nil_deref
      | Some i =>
          publish_olt "ONU-activate-indication-received" ;;
          on_onu p i (SetID onuId ;; Event onu_fsm OnuTxEnable) ;;
          mret None
      end
  end.

(** Source: internal/bbsim/devices/olt.go, [OltDevice.DeleteOnu]. *)
Definition DeleteOnu (intfId onuId : Z) : M OltDevice (option error) :=
  s ← get;
  match find_onu s intfId onuId with
  | inl e => mret (Some e)
  | inr (p, i) =>
      (if decide (onu_state p i s <> OnuStateDisabled) then on_onu p i (Event onu_fsm OnuTxDisable) ;; skip
       else skip) ;;
      s ← get;
      cur ← Current (pon_fsm p);
      (if decide (olt_InternalState s = OltInternalStateEnabled /\ cur = ponStateEnabled)
       then olt_spawn (TRediscover p i) else skip) ;;
      mret None
  end.

(** Source: internal/bbsim/devices/olt.go, [OltDevice.DisableOlt]. *)
Definition DisableOlt : M OltDevice (option error) :=
  publish_olt "OLT-disable-received" ;;
  s ← get;
  for_each (Pons s) (fun pp =>
    if decide (pp_InternalState pp = ponStateEnabled) then send_olt (PonIndication DOWN (pp_ID pp)) else skip) ;;
  send_olt (OltIndication DOWN) ;;
  mret None.

(** Source: internal/bbsim/devices/olt.go, [OltDevice.ReenableOlt]. *)
Definition ReenableOlt : M OltDevice (option error) :=
  publish_olt "OLT-reenable-received" ;;
  send_olt (OltIndication UP) ;;
  s ← get;
  for_each (Pons s) (fun pp =>
    if decide (pp_InternalState pp = ponStateDisabled) then send_olt (PonIndication UP (pp_ID pp)) else skip) ;;
  mret None.

(** Change a PON interface and indicate every ONU of it.  An unknown port is
    dereferenced as nil after the message was sent. *)
Definition set_pon_if (st : OperState) (intfId : Z) : M OltDevice (option error) :=
  s ← get;
  send_olt (PonIndication st intfId) ;;
  match GetPonById s intfId with
  | None => nil_deref
  | Some p => for_each (onu_ids p s) (fun i => on_onu p i (sendOnuIndication st)) ;; mret None
  end.

(** Source: internal/bbsim/devices/olt.go, [OltDevice.DisablePonIf]. *)
Definition DisablePonIf (intfId : Z) : M OltDevice (option error) := set_pon_if DOWN intfId.

(** Source: internal/bbsim/devices/olt.go, [OltDevice.EnablePonIf]. *)
Definition EnablePonIf (intfId : Z) : M OltDevice (option error) := set_pon_if UP intfId.

(** Source: internal/bbsim/devices/olt.go:1154-1220, [OltDevice.FlowAdd] (a flow
    of a subscriber; a missing PON port is only reported). *)
Definition add_onu_flow (f : Flow) : M OltDevice (option error) :=
  s ← get;
  match GetPonById s (u32 (AccessIntfId f)) with
  | None => nil_deref
  | Some p =>
      match Pons s !! p ≫= (fun pp => GetOnuById pp (u32 (fl_OnuId f))) with
      | None => mret (Some "Cannot find Onu")
      | Some i =>
          let st := onu_state p i s in
          if decide (st = OnuStatePonDisabled \/ st = OnuStateDisabled)
          then mret (Some "onu-is-currently-disabled") else
          (if enablePerf s then skip else
             on_onu p i (upd_onu (fun o => o <| Flows ::= (fun l => l ++ [FlowId f])%list |>) ;;
               t ← get;
               if decide (length (Flows (onu t)) = 1%nat) then publishEvent "Flow-add-received" else skip)) ;;
          err ← zoom flow_res (fun r s => s <| flow_res := r |>) (admit_flow f);
          match err with
          | Some e => mret (Some e)
          | None =>
              on_onu p i (t ← get; send_self (Types.FlowAdd (o_PonPortID (onu t)) (o_ID (onu t)) f)) ;;
              mret None
          end
      end
  end.

(** Source: internal/bbsim/devices/olt.go, [OltDevice.FlowAdd].  The flow is
    stored before it is checked. *)
Definition FlowAdd (f : Flow) : M OltDevice (option error) :=
  s ← get;
  (if enablePerf s then skip else modify (fun s => s <| olt_Flows ::= <[FlowId f := f]> |>)) ;;
  if decide (AccessIntfId f = -1) then mret None
  else if decide (FlowType f = "multicast") then mret None
  else add_onu_flow f.

(** Source: internal/bbsim/devices/olt.go:1245-1283, [OltDevice.FlowRemove]
    (forget the flow); the result is [Some] answer when the call ends there. *)
Definition forget_flow (f : Flow) : M OltDevice (option (option error)) :=
  s ← get;
  match olt_Flows s !! FlowId f with
  | None => mret (Some (Some "Flow not found"))
  | Some stored =>
      let drop := modify (fun s => s <| olt_Flows ::= delete (FlowId f) |>) ;; mret None in
      if decide (AccessIntfId stored = -1) then drop
      else
        match find_onu s (u32 (AccessIntfId stored)) (u32 (fl_OnuId stored)) with
        | inl _ => mret (Some None)
        | inr (p, i) =>
            on_onu p i (DeleteFlow (FlowId f)) ;;
            publish_olt "Flow-remove-received" ;;
            drop
        end
  end.

(** Source: internal/bbsim/devices/olt.go, [OltDevice.FlowRemove]. *)
Definition FlowRemove (f : Flow) : M OltDevice (option error) :=
  modify (fun s => s <| flow_res ::= (fun r => freeAllocId f (freeGemPortId f r)) |>) ;;
  s ← get;
  r ← (if enablePerf s then mret None else forget_flow f);
  match r with
  | Some answer => mret answer
  | None =>
      if decide (AccessIntfId f = -1) then mret None
      else if decide (FlowType f = "multicast") then mret None
      else
        s ← get;
        match GetOnuByFlowId s (FlowId f) with
        | None => mret (Some "Cannot find Onu by flowId")
        | Some (p, i) => on_onu p i (send_self (FlowRemoved 0 0 f)) ;; mret None
        end
  end.

Section Calls.
  Context `{OmciLib} `{Gopacket}.

(** Source: internal/bbsim/devices/olt.go, [OltDevice.OmciMsgOut].  A message
    for a disabled ONU is dropped. *)
Definition OmciMsgOut (intfId onuId : Z) (pkt : list Z) : M OltDevice (option error) :=
  s ← get;
  match find_onu s intfId onuId with
  | inl e => mret (Some e)
  | inr (p, i) =>
      r ← of_outcome (ParseOpenOltOmciPacket pkt);
      match r with
      | inl _ => mret (Some "olt-received-malformed-omci-packet")
      | inr (omciPkt, omciMsg) =>
          if decide (onu_state p i s = OnuStateDisabled) then mret None
          else
            on_onu p i (t ← get;
              send_self (MsgOMCI {| om_OnuID := o_ID (onu t); OmciMsg := omciMsg; OmciPkt := omciPkt |})) ;;
            mret None
      end
  end.

(** Source: internal/bbsim/devices/olt.go:1472-1500, [OltDevice.OnuPacketOut]
    (the ONUs a packet is for: all of the PON for the multicast GEM port). *)
Definition packet_targets (s : OltDevice) (p : nat) (onuId gem : Z) : option (list nat) :=
  if decide (gem <> multicastGemPortId) then
    (fun i => [i]) <$> (Pons s !! p ≫= (fun pp => GetOnuById pp onuId))
  else Some (onu_ids p s).

(** Source: internal/bbsim/devices/olt.go, [OltDevice.OnuPacketOut].  The
    message does not carry the GEM port. *)
Definition OnuPacketOut (intfId onuId portNo gem : Z) (pkt : list Z) : M OltDevice (option error) :=
  s ← get;
  match GetPonById s intfId with
  | None => nil_deref
  | Some p =>
      match packet_targets s p onuId gem with
      | None => mret (Some "cant-find-onu-by-id")
      | Some targets =>
          match GetPktType pkt, GetDstMacAddressFromPacket pkt with
          | inl _, _ => mret (Some "malformed-packet")
          | inr _, inl _ => mret (Some "dst-mac-can-not-found-in-packet")
          | inr pktType, inr pktMac =>
              for_each targets (fun i =>
                st ← gets (onu_state p i);
                if decide (st = OnuStateEnabled) then
                  on_onu p i (send_self (Types.OnuPacketOut {| pm_IntfId := intfId; pm_OnuId := onuId;
                    pm_PortNo := portNo; pm_Packet := pkt; pm_Type := pktType; MacAddress := pktMac;
                    GemPortId := 0 |}))
                else skip) ;;
              mret None
          end
      end
  end.

(** Source: internal/bbsim/devices/nni.go, [NniPort.handleNniPacket]. *)
Definition handleNniPacket (nniId : Z) (packet : NetPacket) : M OltDevice (option error) :=
  if negb (IsDhcpPacket packet) && negb (IsLldpPacket packet) && negb (IsIcmpPacket packet) then mret None
  else if IsDhcpPacket packet then
    r ← of_outcome (HandleServerPacket packet);
    match r with
    | inl e => mret (Some e)
    | inr pkt => olt_send (IndPkt "nni" nniId 0 pkt 0 0 0)
    end
  else mret None.

(** Source: internal/bbsim/devices/olt.go, [OltDevice.UplinkPacketOut]. *)
Definition UplinkPacketOut (pkt : list Z) : M OltDevice (option error) :=
  s ← get;
  match Nnis s with
  | [] => panic "index out of range"
  | n :: _ => handleNniPacket (nni_ID n) pkt
  end.
End Calls.

(** Source: internal/bbsim/devices/olt.go, [OltDevice.Reboot]. *)
Definition Reboot : M OltDevice (option error) :=
  publish_olt "OLT-reboot-received" ;; olt_spawn TRestart ;; mret None.

(** The traffic schedulers of an ONU are replaced, unless in performance mode. *)
Definition set_schedulers (intfId onuId : Z) (ts : option Z) : M OltDevice (option error) :=
  s ← get;
  if enablePerf s then mret None else
  match find_onu s intfId onuId with
  | inl e => mret (Some e)
  | inr (p, i) => on_onu p i (upd_onu (fun o => o <| TrafficSchedulers := ts |>)) ;; mret None
  end.

(** Source: internal/bbsim/devices/olt.go, [OltDevice.CreateTrafficSchedulers]. *)
Definition CreateTrafficSchedulers (intfId onuId ts : Z) : M OltDevice (option error) :=
  set_schedulers intfId onuId (Some ts).

(** Source: internal/bbsim/devices/olt.go, [OltDevice.RemoveTrafficSchedulers]. *)
Definition RemoveTrafficSchedulers (intfId onuId : Z) : M OltDevice (option error) :=
  set_schedulers intfId onuId None.

(** ** Information about the device *)

(** The [State] and alarm fields of [openolt.OnuInfo] and
    [openolt.PonIntfInfo]. *)
Inductive OnuInfoState := OnuInfo_UNKNOWN | OnuInfo_NOT_CONFIGURED | OnuInfo_ACTIVE | OnuInfo_INACTIVE.
Inductive PonInfoState := PonInfo_UNKNOWN | PonInfo_ACTIVE_WORKING | PonInfo_ACTIVE_STANDBY | PonInfo_INACTIVE.
Inductive AlarmState := AlarmState_OFF | AlarmState_ON.

Record OnuInfo := { oi_OnuId : Z; oi_State : OnuInfoState; oi_alarms : AlarmState }.
Record PonIntfInfo := { pi_IntfId : Z; pi_State : PonInfoState; pi_Los : AlarmState }.

(** The zero value of an alarm is off. *)
Definition alarm_state (operState : string) : AlarmState :=
  if decide (operState = "down") then AlarmState_ON else AlarmState_OFF.

(** Source: internal/bbsim/devices/olt.go, [OltDevice.GetOnuInfo].  The error
    of the second lookup is not looked at, so an unknown ONU is dereferenced as
    nil. *)
Definition GetOnuInfo (intfId onuId : Z) : M OltDevice (error + OnuInfo) :=
  s ← get;
  match GetPonById s intfId with
  | None => mret (inl "Cannot find PonPort")
  | Some p =>
      match Pons s !! p ≫= (fun pp => GetOnuById pp onuId ≫= (fun i => Onus pp !! i)) with
      | None => nil_deref
      | Some o =>
          mret (inr {| oi_OnuId := onuId; oi_alarms := alarm_state (o_OperState o);
            oi_State :=
              if decide (o_InternalState o = OnuStateEnabled) then OnuInfo_ACTIVE
              else if decide (o_InternalState o = OnuStateDisabled) then OnuInfo_INACTIVE
              else if decide (o_InternalState o = OnuStateCreated \/ o_InternalState o = OnuStateInitialized)
              then OnuInfo_NOT_CONFIGURED else OnuInfo_UNKNOWN |})
      end
  end.

(** Source: internal/bbsim/devices/olt.go, [OltDevice.GetPonInterfaceInfo]. *)
Definition GetPonInterfaceInfo (intfId : Z) : M OltDevice (error + PonIntfInfo) :=
  s ← get;
  match GetPonById s intfId ≫= (fun p => Pons s !! p) with
  | None => mret (inl "Cannot find PonPort")
  | Some pp =>
      mret (inr {| pi_IntfId := intfId; pi_Los := alarm_state (pp_OperState pp);
        pi_State :=
          if decide (pp_InternalState pp = ponStateEnabled) then PonInfo_ACTIVE_WORKING
          else if decide (pp_InternalState pp = ponStateDisabled) then PonInfo_INACTIVE
          else if decide (pp_InternalState pp = ponStateCreated) then PonInfo_ACTIVE_STANDBY
          else PonInfo_UNKNOWN |})
  end.

(** Source: internal/bbsim/devices/olt.go, [OltDevice.HeartbeatCheck]. *)
Definition HeartbeatCheck : M OltDevice Z := gets signature.

(** The part of [openolt.DeviceInfo] that is computed: one range of resources
    per configured range of PON ports. *)
Record ResourceRange := {
  rr_IntfIds : list Z; rr_Technology : string; rr_onus : IdRange; rr_allocs : IdRange; rr_gems : IdRange }.
Record DeviceInfo := {
  di_PonPorts : Z; di_SerialNumber : Z; di_PreviouslyConnected : bool; di_Ranges : list ResourceRange }.

(** Source: internal/bbsim/devices/olt.go, [OltDevice.GetDeviceInfo] (the
    serial number is built from the identifier of the OLT; vendor, model and
    versions are copied from the configuration and left out). *)
Definition GetDeviceInfo (cfg : PonPortsConfig) : M OltDevice DeviceInfo :=
  s ← get;
  let info := {| di_PonPorts := u32 (Z.of_nat (length (Pons s))); di_SerialNumber := olt_ID s;
    di_PreviouslyConnected := PreviouslyConnected s;
    di_Ranges := (fun r => {|
      rr_IntfIds := seqZ (StartId (PonRange r)) (EndId (PonRange r) - StartId (PonRange r) + 1);
      rr_Technology := Technology r; rr_onus := OnuRange r; rr_allocs := AllocIdRange r;
      rr_gems := GemportRange r |}) <$> Ranges cfg |} in
  modify (fun s => s <| PreviouslyConnected := true |>) ;;
  mret info.

(** ** Tasks *)

(** Run code of the [k]-th service of a UNI. *)
Definition on_service {A : Type} (k : nat) (m : M SvcSys A) : M UniSys A := fun s =>
  match Services (uni s) !! k with
  | None => Panicked "invalid memory address or nil pointer dereference"
  | Some v =>
      match m {| svc := v; wire := u_wire s |} with
      | Done (a, t) =>
          Done (a, s <| uni ::= (fun u => u <| Services ::= <[k := svc t]> |>) |> <| u_wire := wire t |>)
      | Panicked w => Panicked w
      | Blocked w => Blocked w
      | Exited w => Exited w
      end
  end.

(** The [SubActionTypes] of an IGMP request. *)
Definition SubActionTypes_JOIN : Z := 0.
Definition SubActionTypes_LEAVE : Z := 1.
Definition SubActionTypes_JOINV3 : Z := 2.

Section Tasks.
  Context `{Gopacket}.

(** Source: internal/bbsim/api/onus_handler.go:312-334, [BBSimServer.ChangeIgmpState]
    (the goroutines that send the message of a service). *)
Definition send_igmp_action (p i u k : nat) (action ctag : Z) (group : string) : M OltDevice unit :=
  on_onu p i (
    t ← get;
    let pon := o_PonPortID (onu t) in let id := o_ID (onu t) in
    on_uni u (
      un ← get;
      on_service k (
        v ← get;
        let port := PortNo (uni un) in let uid := uni_ID (uni un) in let sv := svc v in
        (if decide (action = SubActionTypes_JOIN) then
           SendIGMPMembershipReportV2 pon id port uid (GemPort sv) (HwAddress sv) ctag (UsPonCTagPriority sv) group
         else if decide (action = SubActionTypes_LEAVE) then
           SendIGMPLeaveGroupV2 pon id port uid (GemPort sv) (HwAddress sv) ctag (UsPonCTagPriority sv) group
         else
           SendIGMPMembershipReportV3 pon id port uid (GemPort sv) (HwAddress sv) ctag (UsPonCTagPriority sv) group) ;;
        skip))).

(** [for _, onu := range pon.Onus { ... }] over some PONs. *)
Definition each_onu (pons : list nat) (m : M OnuSys unit) : M OltDevice unit :=
  for_each pons (fun p => s ← get; for_each (onu_ids p s) (fun i => on_onu p i m)).

(** A goroutine runs; [now] is the time.  Powering on all the ONUs skips the
    PONs that are not enabled. *)
Definition run_olt_task (now : Z) (t : OltTask) : M OltDevice unit :=
  match t with
  | TOnu p i t => on_onu p i (run_task t)
  | TRediscover p i => on_onu p i ReDiscoverOnu
  | TRestart => RestartOLT now ;; skip
  | TShutdown pons => each_onu pons (HandleShutdownONU ;; skip)
  | TPowerOn pons => each_onu pons (HandlePowerOnONU ;; skip)
  | TPowerOnAll =>
      s ← get;
      for_each (seq 0 (length (Pons s))) (fun p =>
        cur ← Current (pon_fsm p);
        if decide (cur = ponStateEnabled) then each_onu [p] (HandlePowerOnONU ;; skip) else skip)
  | TStartServer => modify (fun s => s <| OltServer := true |>)
  | TIgmp p i u k action ctag group => send_igmp_action p i u k action ctag group
  end.
End Tasks.

(** ** Creation *)

Section Create.
  Context `{OmciLib}.

(** The configuration of the ONUs of a PON of this technology. *)
Definition with_tech (cfg : OnuConfig) (tech : PonTechnology) : OnuConfig := {|
  cfg_services := cfg_services cfg; cfg_olt := cfg_olt cfg; cfg_rate := cfg_rate cfg;
  cfg_NumUni := cfg_NumUni cfg; cfg_NumPots := cfg_NumPots cfg; cfg_tech := tech;
  cfg_unknownAttributes := cfg_unknownAttributes cfg; cfg_unknownMe := cfg_unknownMe cfg |}.

(** Source: internal/bbsim/devices/olt.go:247-254, [CreateOLT] (the ONUs of a
    PON from the [j]-th, [n] of them). *)
Fixpoint create_onus (cfg : OnuConfig) (pon : Z) (isMock : bool) (n : nat) (j : Z)
    (nextCtag nextStag : gmap string Z) : outcome (list Onu * gmap string Z * gmap string Z) :=
  match n with
  | O => Done ([], nextCtag, nextStag)
  | S n' =>
      '(o, c, s) ← CreateONU cfg pon (u32 (j + 1)) (pon * 2 ^ 32 + j) isMock nextCtag nextStag;
      '(os, c, s) ← create_onus cfg pon isMock n' (j + 1) c s;
      Done (o :: os, c, s)
  end.

(** Source: internal/bbsim/devices/olt.go:212-255, [CreateOLT] (the PON ports
    from the [i]-th, [n] of them). *)
Fixpoint create_pons (cfg : OnuConfig) (pons : PonPortsConfig) (numOnu : Z) (isMock : bool) (n : nat)
    (i : Z) (nextCtag nextStag : gmap string Z) : outcome (list PonPort) :=
  match n with
  | O => Done []
  | S n' =>
      match GetPonConfigById (Some pons) (u32 i) with
      | inl _ => Exited "cannot-get-pon-configuration"
      | inr ponConf =>
          match PonTechnologyFromString (Technology ponConf) with
          | (_, Some _) => Exited "unkown-pon-port-technology"
          | (tech, None) =>
              if decide (u32 (EndId (OnuRange ponConf) - StartId (OnuRange ponConf) + 1) < u32 numOnu)
              then Exited "onus-per-pon-bigger-than-resource-range-size" else
              '(os, c, s) ← create_onus (with_tech cfg tech) (u32 i) isMock (Z.to_nat numOnu) 0 nextCtag nextStag;
              rest ← create_pons cfg pons numOnu isMock n' (i + 1) c s;
              Done ((CreatePonPort (u32 i) tech) <| Onus := os |> :: rest)
          end
      end
  end.

(** Source: internal/bbsim/devices/olt.go, [CreateOLT].  [m] is the configured
    text of the activation mode, [now] the time. *)
Definition CreateOLT (id nniSpeed numPon numOnu : Z) (m : string) (publish perf isMock : bool) (now : Z)
    (cfg : OnuConfig) (pons : PonPortsConfig) : outcome (option OltDevice) :=
  ports ← create_pons cfg pons numOnu isMock (Z.to_nat numPon) 0 ∅ ∅;
  let olt := {|
    olt_ID := id; NumPon := numPon; NumOnuPerPon := numOnu; NniSpeed := nniSpeed; olt_InternalState := OltInternalStateCreated;
    olt_OperState := "down"; channel := ChNil; olt_Flows := ∅;
    ControlledActivation :=
      match list_find (fun x => x.1 = m) ControlledActivationModes with Some (_, x) => x.2 | None => Default end;
    olt_PublishEvents := publish; olt_published := []; PreviouslyConnected := false;
    Pons := ports; Nnis := if isMock then [] else [CreateNNI]; enableContext := false; loops := 0;
    OpenoltStream := {| s_err := None; s_sent := [] |}; enablePerf := perf;
    flow_res := foldl (fun r p => init_pon_maps (Z.of_nat p) r) no_flow_res (seq 0 (Z.to_nat numPon));
    signature := u32 now; OltServer := false; olt_tasks := [] |} in
  if isMock then Done (Some olt) else
  '(err, olt) ← Event olt_fsm OltInternalTxInitialize olt;
  match err with
  | Some _ => Done None
  | None => Done (Some olt)
  end.
End Create.
