(* ===== verification/OltProps.v ===== *)
(** * OLT: properties of the device

    The properties of the calls and of the message loop of [Olt]: the tables
    of flow resources are only changed by the steps of [OltFlows], so no GEM
    port and no alloc identifier is shared by ONUs of a PON; what flows do to
    the device; the life cycle of the PON ports and of the device. *)
From S2P Require Import Prelude Fsm Options OmciTypes Omci MibDb Packets Types Io Dhcp DhcpServer Service.
From S2P Require Import PonRes AlarmSim UniPort Get Onu OnuOmci OnuLoop OltFlows OltSpec Olt.
Open Scope Z_scope.
Open Scope string_scope.

(** ** The flow resources of the device *)

Section Resources.
  Context `{OmciLib} `{Gopacket} (Q : FlowRes -> Prop).
  Hypothesis Q_step : forall r r', res_step r r' -> Q r -> Q r'.
Let P (s : OltDevice) : Prop := Q (flow_res s).

Lemma keeps_on_onu {A : Type} p i (m : M OnuSys A) : preserves P (on_onu p i m).
Proof.
  intros s a s' Hs. unfold on_onu. destruct (Pons s !! p) as [pp|]; [|done].
  destruct (Onus pp !! i) as [o|]; [|done]. destruct (m _) as [[]| | |]; [|done..]. by intros [= <- <-].
Qed.

Lemma keeps_send_olt m : preserves P (send_olt m).
Proof. by apply preserves_lift. Qed.

Lemma keeps_olt_send i : preserves P (olt_send i).
Proof. intros s a s' Hs. unfold olt_send, zoom, Send. destruct (s_err _); by intros [= <- <-]. Qed.

Lemma keeps_modify f : (forall s, flow_res (f s) = flow_res s) -> preserves P (modify f).
Proof. intros Hf. apply preserves_modify. intros s. unfold P. by rewrite Hf. Qed.

Lemma keeps_current (f : FSM OltDevice) : preserves P (Current f).
Proof. apply preserves_gets. Qed.
#[local] Hint Resolve keeps_on_onu keeps_send_olt keeps_olt_send keeps_current : preserve.
#[local] Hint Extern 1 (preserves _ (modify _)) => apply keeps_modify; reflexivity : preserve.
#[local] Hint Extern 1 (preserves _ (upd_pon _ _)) => apply keeps_modify; reflexivity : preserve.
#[local] Hint Extern 1 (preserves _ (olt_spawn _)) => apply keeps_modify; reflexivity : preserve.
#[local] Hint Extern 1 (preserves _ (for_each _ _)) => apply preserves_for_each; preserve : preserve.

Lemma keeps_publish ev : preserves P (publish_olt ev).
Proof. unfold publish_olt. preserve. Qed.
#[local] Hint Resolve keeps_publish : preserve.

Lemma keeps_event f ev :
  (forall e, preserves P (fsm_before f e)) -> (forall a b, preserves P (fsm_enter f a b)) ->
  (forall e, preserves P (fsm_after f e)) -> (forall x s, flow_res (fsm_set f x s) = flow_res s) ->
  preserves P (Event f ev).
Proof.
  intros Hb He Ha Hs. apply preserves_Event_callbacks; [done..|]. intros x s. unfold P. by rewrite Hs.
Qed.

Lemma keeps_nni n ev : preserves P (Event (nni_fsm n) ev).
Proof. apply keeps_event; intros; try apply preserves_skip; reflexivity. Qed.
Lemma keeps_oper ev : preserves P (Event olt_oper_fsm ev).
Proof. apply keeps_event; intros; try apply preserves_skip; reflexivity. Qed.
#[local] Hint Resolve keeps_nni keeps_oper : preserve.

Lemma keeps_pon_oper p ev : preserves P (Event (pon_oper_fsm p) ev).
Proof.
  apply keeps_event; intros; try apply preserves_skip; [|reflexivity].
  cbn [fsm_enter pon_oper_fsm]. unfold sendPonIndication. preserve.
Qed.

Lemma keeps_pon p ev : preserves P (Event (pon_fsm p) ev).
Proof.
  apply keeps_event; intros; try apply preserves_skip; [|reflexivity].
  cbn [fsm_enter pon_fsm]. unfold pon_enter_enabled, pon_enter_disabled, resume_onu, init_and_discover. preserve.
Qed.
#[local] Hint Resolve keeps_pon_oper keeps_pon : preserve.

Lemma init_steps l r : Q r -> Q (foldl (fun r p => init_pon_maps (Z.of_nat p) r) r l).
Proof. revert r. induction l as [|p l IH]; intros r Hr; [done|]. apply IH. by eapply Q_step; [constructor|]. Qed.

Lemma keeps_olt ev : preserves P (Event olt_fsm ev).
Proof.
  apply keeps_event; intros; try apply preserves_skip; [|reflexivity].
  cbn [fsm_enter olt_fsm]. unfold InitOlt, clearAllResources. preserve.
  - apply preserves_modify. intros s Hs. by apply init_steps.
  - apply preserves_modify. intros s Hs. by eapply Q_step; [constructor|].
Qed.
#[local] Hint Resolve keeps_olt : preserve.

Lemma keeps_message m : preserves P (handle_olt_message m).
Proof.
  unfold handle_olt_message, handle_pon_indication, sendOltIndication, sendAlarmIndication, sendNniIndication.
  preserve.
Qed.
#[local] Hint Resolve keeps_message : preserve.

Lemma keeps_recv : preserves P recv_olt.
Proof. unfold recv_olt. preserve. Qed.

Lemma keeps_stats rnd : preserves P (port_stats_period rnd).
Proof.
  unfold port_stats_period, sendPortStatsIndication, upd_pon.
  apply preserves_bind; [preserve|intros s]. apply preserves_bind; [|intros _].
  - apply preserves_for_each. intros [n port]. destruct (getPortStats _ _ _). preserve.
  - apply preserves_for_each. intros [n port]. destruct (getPortStats _ _ _). preserve.
Qed.

Lemma keeps_restart now : preserves P (RestartOLT now).
Proof.
  unfold RestartOLT, StopOltServer, cancel_context. preserve. by apply preserves_lift.
Qed.

Lemma keeps_enable stream : preserves P (Enable stream).
Proof. unfold Enable, cancel_context, reconnect_pon. preserve. Qed.
#[local] Hint Resolve keeps_enable : preserve.

Lemma keeps_activate intf id sn : preserves P (ActivateOnu intf id sn).
Proof.
  unfold ActivateOnu, nil_deref. preserve. apply preserves_lift.
  intros s r Hs Hr. by eapply Q_step; [econstructor 3|].
Qed.

Lemma keeps_admit f : preserves P (zoom flow_res (fun r s => s <| flow_res := r |>) (admit_flow f)).
Proof.
  intros s e s' Hs. unfold zoom. destruct (admit_flow f (flow_res s)) as [[e' r]| | |] eqn:E; [|done..].
  intros [= <- <-]. by eapply Q_step; [econstructor 1|].
Qed.
#[local] Hint Resolve keeps_admit : preserve.

Lemma keeps_flow_add f : preserves P (Olt.FlowAdd f).
Proof. unfold Olt.FlowAdd, add_onu_flow, nil_deref. preserve. Qed.

Lemma keeps_flow_remove f : preserves P (FlowRemove f).
Proof.
  unfold FlowRemove, forget_flow. apply preserves_bind; [|intros _; preserve].
  apply preserves_modify. intros s Hs. by eapply Q_step; [constructor|].
Qed.

(** What can happen to the OLT: a call of VOLTHA, a turn of its loop, a period
    of its statistics or a goroutine. *)
Inductive olt_runs : forall {A : Type}, M OltDevice A -> Prop :=
| run_enable w : olt_runs (EnableIndication w)
| run_disable_olt : olt_runs DisableOlt
| run_reenable_olt : olt_runs ReenableOlt
| run_disable_pon i : olt_runs (DisablePonIf i)
| run_enable_pon i : olt_runs (EnablePonIf i)
| run_activate i id sn : olt_runs (ActivateOnu i id sn)
| run_delete_onu i id : olt_runs (DeleteOnu i id)
| run_flow_add f : olt_runs (Olt.FlowAdd f)
| run_flow_remove f : olt_runs (FlowRemove f)
| run_omci i id pkt : olt_runs (OmciMsgOut i id pkt)
| run_packet_out i id port gem pkt : olt_runs (Olt.OnuPacketOut i id port gem pkt)
| run_uplink pkt : olt_runs (UplinkPacketOut pkt)
| run_create_sched i id ts : olt_runs (CreateTrafficSchedulers i id ts)
| run_remove_sched i id : olt_runs (RemoveTrafficSchedulers i id)
| run_info cfg : olt_runs (GetDeviceInfo cfg)
| run_alarm i ty st : olt_runs (Olt.SetAlarm i ty st)
| run_reboot : olt_runs Olt.Reboot
| run_recv : olt_runs recv_olt
| run_stats rnd : olt_runs (port_stats_period rnd)
| run_restart now : olt_runs (RestartOLT now)
| run_olt_tasks now t : olt_runs (run_olt_task now t)
| run_onu {A : Type} p i (m : M OnuSys A) : olt_runs (on_onu p i m).

Lemma keeps_runs {A : Type} (m : M OltDevice A) : olt_runs m -> preserves P m.
Proof.
  intros []; unfold EnableIndication, DisableOlt, ReenableOlt, DisablePonIf, EnablePonIf, set_pon_if,
    DeleteOnu, OmciMsgOut, Olt.OnuPacketOut, UplinkPacketOut, handleNniPacket, CreateTrafficSchedulers,
    RemoveTrafficSchedulers, set_schedulers, GetDeviceInfo, Olt.SetAlarm, Olt.Reboot, run_olt_task, each_onu, send_igmp_action, nil_deref;
    preserve;
    auto using keeps_activate, keeps_flow_add, keeps_flow_remove, keeps_recv, keeps_stats, keeps_restart.
Qed.
End Resources.

(** One event of the life of the OLT, and the OLTs that can be reached. *)
Definition olt_step `{OmciLib} `{Gopacket} (s s' : OltDevice) : Prop :=
  exists (A : Type) (m : M OltDevice A) (a : A), olt_runs m /\ m s = Done (a, s').

Section Exclusive.
  Context `{OmciLib} `{Gopacket}.

Lemma olt_step_sim s s' A :
  olt_step s s' -> res_ok (flow_res s) -> represents (flow_res s) A ->
  res_ok (flow_res s') /\ exists A', rtc spec_step A A' /\ represents (flow_res s') A'.
Proof.
  intros (B & m & a & Hm & Hr) Hok Hrep.
  refine (keeps_runs (fun r => res_ok r /\ exists A', rtc spec_step A A' /\ represents r A') _ m Hm s a s' _ Hr).
  - intros r r' Hstep (Hk & A' & HA & HR). split; [by eapply res_step_ok|].
    destruct (sim_step r r' A' Hstep Hk HR) as (A2 & HA2 & HR2). exists A2. split; [by etrans|done].
  - split; [done|]. by exists A.
Qed.

(** C4: the flow tables refine the abstract allocator.  Whatever VOLTHA asks of
    the OLT and in whatever order its goroutines have their turns, as long as
    each call and each turn runs to its end before the next one, the tables
    hold exactly the uses of a state the specification reaches by its own
    guarded steps; so no GEM port and no alloc identifier is ever recorded for
    two ONUs of the same PON.  (Calls of [FlowAdd] that overlap and ask for the
    same identifier can break this, [OltRace.flow_add_race]; overlapping calls
    that do not compete cannot, [OltRace.interleaved_calls_exclusive].) *)
Theorem olt_resources_refine (s s' : OltDevice) (A : Alloc) :
  res_ok (flow_res s) -> rtc spec_step no_alloc A -> represents (flow_res s) A -> rtc olt_step s s' ->
  exists A', rtc spec_step A A' /\ represents (flow_res s') A' /\
    exclusive (GemPortIDs (flow_res s')) /\ exclusive (AllocIDs (flow_res s')).
Proof.
  intros Hok Hs0 Hrep Hr. revert A Hs0 Hok Hrep. induction Hr as [s|s s1 s' Hstep _ IH]; intros A Hs0 Hok Hrep.
  - exists A. destruct (spec_one_owner A Hs0) as [Howng Howna]. destruct (Hrep) as [Hg Ha _].
    split; [done|]. split; [done|].
    split; intros p o1 o2 u1 u2 i f1 f2 X Y; [apply Hg in X, Y|apply Ha in X, Y]; eauto.
  - destruct (olt_step_sim s s1 A Hstep Hok Hrep) as (Hok1 & A1 & HA1 & HR1).
    destruct (IH A1 (transitivity Hs0 HA1) Hok1 HR1) as (A' & HA' & H'). exists A'.
    split; [by etrans|done].
Qed.
End Exclusive.

(** ** Running the code of the ONUs of a PON *)

(** The device with one ONU and the tables of its PON replaced. *)
Definition set_onu (p : nat) (pp : PonPort) (i : nat) (o : Onu) (r : PonRes) (s : OltDevice) : OltDevice :=
  s <| Pons ::= <[p := pp <| Onus ::= <[i := o]> |> <| pp_res := r |>]> |>.

(** The device with all the ONUs and the tables of a PON replaced. *)
Definition set_onus (p : nat) (pp : PonPort) (os : list Onu) (r : PonRes) (s : OltDevice) : OltDevice :=
  s <| Pons ::= <[p := pp <| Onus := os |> <| pp_res := r |>]> |>.

(** Writing a field back. *)
Lemma same_stream s : s <| OpenoltStream := OpenoltStream s |> = s.
Proof. by destruct s. Qed.
Lemma same_channel s : s <| channel := channel s |> = s.
Proof. by destruct s. Qed.
Lemma same_published s : s <| olt_published := olt_published s |> = s.
Proof. by destruct s. Qed.
Lemma same_tasks s : s <| olt_tasks ::= (fun l => l ++ [])%list |> = s.
Proof. destruct s. unfold upd, set_olt_tasks. cbn. by rewrite app_nil_r. Qed.

Lemma onu_back_local p i pp t s :
  o_wire t = OpenoltStream s -> olt_channel t = channel s -> published t = olt_published s -> tasks t = [] ->
  onu_back p i pp t s = set_onu p pp i (onu t) (res t) s.
Proof.
  intros Hw Hc Hp Ht. unfold onu_back. rewrite Hw, Hc, Hp, Ht. cbn [fmap list_fmap].
  fold (set_onu p pp i (onu t) (res t) s). set (x := set_onu _ _ _ _ _ _).
  change (OpenoltStream s) with (OpenoltStream x). rewrite same_stream.
  change (channel s) with (channel x). rewrite same_channel.
  change (olt_published s) with (olt_published x). rewrite same_published. apply same_tasks.
Qed.

(** Code of an ONU that changes the ONU and the tables of the PON only. *)
Lemma on_onu_local {A : Type} p i (m : M OnuSys A) s pp o a o' r' :
  Pons s !! p = Some pp -> Onus pp !! i = Some o ->
  m (onu_view s pp o) = Done (a, (onu_view s pp o) <| onu := o' |> <| res := r' |>) ->
  on_onu p i m s = Done (a, set_onu p pp i o' r' s).
Proof.
  intros Hp Ho Hm. unfold on_onu. rewrite Hp, Ho, Hm. by rewrite onu_back_local.
Qed.

(** A relation between an ONU and the tables of its PON before and after,
    along the ONUs of a PON. *)
Inductive onus_run (R : Onu -> PonRes -> Onu -> PonRes -> Prop)
    : list Onu -> PonRes -> list Onu -> PonRes -> Prop :=
| run_nil r : onus_run R [] r [] r
| run_cons o o' r r1 os os' r2 :
    R o r o' r1 -> onus_run R os r1 os' r2 -> onus_run R (o :: os) r (o' :: os') r2.

Lemma loop_onus R p body (pp : PonPort) :
  (forall i t os r o, Pons t !! p = Some (pp <| Onus := os |> <| pp_res := r |>) -> os !! i = Some o ->
     o ∈ Onus pp ->
     exists o' r', body i t = Done (tt, set_onus p pp (<[i := o']> os) r' t) /\ R o r o' r') ->
  forall s, Pons s !! p = Some pp ->
  exists os' r', for_each (seq 0 (length (Onus pp))) body s = Done (tt, set_onus p pp os' r' s) /\
    onus_run R (Onus pp) (pp_res pp) os' r'.
Proof.
  intros Hbody s Hs.
  cut (forall (todo done : list Onu) r t, (forall o, o ∈ todo -> o ∈ Onus pp) ->
    Pons t !! p = Some (pp <| Onus := (done ++ todo)%list |> <| pp_res := r |>) ->
    exists os' r', for_each (seq (length done) (length todo)) body t =
      Done (tt, set_onus p pp (done ++ os')%list r' t) /\ onus_run R todo r os' r').
  { intros Hgen. destruct (Hgen (Onus pp) [] (pp_res pp) s) as (os' & r' & Hr & Hrun); [done| |].
    - rewrite Hs. by destruct pp.
    - by exists os', r'. }
  induction todo as [|o todo IH]; intros done r t Hin Ht.
  { exists [], r. split; [|constructor]. cbn [length seq for_each]. unfold skip, mret, M_ret. f_equal. f_equal.
    unfold set_onus. rewrite app_nil_r in Ht |- *. destruct t.
    unfold upd at 1, set_Pons at 1. cbn in *. f_equal. symmetry. by apply list_insert_id. }
  cbn [length seq for_each].
  destruct (Hbody (length done) t (done ++ o :: todo)%list r o) as (o' & r1 & R1 & H1); [done| |apply Hin; set_solver|].
  { by rewrite lookup_app_r, Nat.sub_diag by lia. }
  erewrite bind_Done; [|exact R1].
  rewrite insert_app_r_alt, Nat.sub_diag by lia. cbn [insert list_insert].
  set (t1 := set_onus p pp _ r1 t).
  destruct (IH (done ++ [o'])%list r1 t1) as (os' & r' & R2 & H2); [set_solver| |].
  - unfold t1, set_onus. cbn. rewrite <-app_assoc. apply list_lookup_insert_eq. by eapply lookup_lt_Some.
  - exists (o' :: os'), r'. rewrite length_app, Nat.add_1_r in R2. rewrite R2.
    split; [|by econstructor]. unfold t1, set_onus. f_equal. f_equal. destruct t.
    unfold upd at 1 4 5, set_Pons. cbn. f_equal.
    rewrite list_insert_insert_eq. by rewrite <-app_assoc.
Qed.

Lemma set_onus_self p pp os r i o t :
  Pons t !! p = Some (pp <| Onus := os |> <| pp_res := r |>) -> os !! i = Some o ->
  set_onus p pp (<[i := o]> os) r t = t.
Proof.
  intros Ht Ho. unfold set_onus. rewrite (list_insert_id os) by done.
  destruct t. unfold upd at 1, set_Pons. cbn in *. f_equal. by apply list_insert_id.
Qed.

Lemma on_onu_set {A : Type} p i (m : M OnuSys A) t pp os r o a o' r' :
  Pons t !! p = Some (pp <| Onus := os |> <| pp_res := r |>) -> os !! i = Some o ->
  (let v := onu_view t (pp <| Onus := os |> <| pp_res := r |>) o in
   m v = Done (a, v <| onu := o' |> <| res := r' |>)) ->
  on_onu p i m t = Done (a, set_onus p pp (<[i := o']> os) r' t).
Proof. intros Ht Ho Hm. erewrite on_onu_local; [|exact Ht|exact Ho|exact Hm]. done. Qed.

Lemma onu_state_at p i t pp os r o :
  Pons t !! p = Some (pp <| Onus := os |> <| pp_res := r |>) -> os !! i = Some o ->
  onu_state p i t = o_InternalState o.
Proof. intros Ht Ho. unfold onu_state. rewrite Ht. cbn. by rewrite Ho. Qed.

(** ** Disabling and enabling a PON *)

Definition can_pon_disable (st : string) : bool :=
  bool_decide (st ∈ [OnuStateEnabled; OnuStateImageActivated; OnuStateImageDownloadError;
                     OnuStateImageCommitted; OnuStateImageDownloadComplete]).

(** An ONU whose PON was disabled, and the tables of the PON without it. *)
Definition pon_down (o : Onu) : Onu :=
  o <| o_InternalState := OnuStatePonDisabled |> <| Flows := [] |> <| onuAlarmsInfo := ∅ |>.
Definition release (o : Onu) (r : PonRes) : PonRes :=
  removeGemPortBySn (o_SerialNumber o) (removeAllocIdsForOnuSn (o_SerialNumber o) (removeOnuId (o_ID o) r)).

Definition R_down (o : Onu) (r : PonRes) (o' : Onu) (r' : PonRes) : Prop :=
  if can_pon_disable (o_InternalState o) then o' = pon_down o /\ r' = release o r else o' = o /\ r' = r.

Lemma pon_disable_transition st :
  transitions onu_events OnuTxPonDisable st = if can_pon_disable st then Some OnuStatePonDisabled else None.
Proof. by apply transitions_row. Qed.

Lemma PonDisable_onu s :
  exists e, Event onu_fsm OnuTxPonDisable s =
    if can_pon_disable (o_InternalState (onu s))
    then Done (None, s <| onu := pon_down (onu s) |> <| res := release (onu s) (res s) |>) else Done (Some e, s).
Proof.
  destruct (can_pon_disable (o_InternalState (onu s))) eqn:E.
  - exists NoTransitionError. rewrite (Event_ok _ _ s OnuStatePonDisabled);
      cbn [fsm_current fsm_events onu_fsm].
    + destruct s as [[]]. reflexivity.
    + by rewrite pon_disable_transition, E.
    + intros Hc. by rewrite Hc in E.
  - apply Event_rejected. cbn [fsm_current fsm_events onu_fsm]. by rewrite pon_disable_transition, E.
Qed.

Lemma pon_enter_disabled_spec p s pp :
  Pons s !! p = Some pp -> exists os r,
    pon_enter_disabled p s = Done (tt, set_onus p pp os r s) /\
    onus_run R_down (Onus pp) (pp_res pp) os r.
Proof.
  intros Hp. unfold pon_enter_disabled, onu_ids. mred. rewrite Hp. apply loop_onus; [|done].
  intros i t os r o Ht Ho _. mred. rewrite (onu_state_at _ _ _ _ _ _ _ Ht Ho). unfold R_down.
  case_decide as Hd.
  { exists o, r. rewrite (set_onus_self _ _ _ _ _ _ _ Ht Ho). destruct Hd as [->| ->]; done. }
  destruct (PonDisable_onu (onu_view t (pp <| Onus := os |> <| pp_res := r |>) o)) as [e He].
  cbn [onu onu_view] in He. destruct (can_pon_disable (o_InternalState o)).
  - exists (pon_down o), (release o r). split; [|done].
    by erewrite on_onu_set; [|exact Ht|exact Ho|exact He].
  - exists o, r. split; [|done]. erewrite on_onu_set; [reflexivity|exact Ht|exact Ho|]. cbv zeta. by rewrite He.
Qed.

(** An ONU that is enabled again when its PON is, with open channel [q]. *)
Definition R_up (o : Onu) (r : PonRes) (o' : Onu) (r' : PonRes) : Prop :=
  exists q, o_Channel o = ChOpen q /\
  match isOnuIdAllocated (o_ID o) r with
  | Some _ => o' = o <| o_InternalState := OnuStateEnabled |> /\ r' = r
  | None =>
      o' = o <| o_InternalState := OnuStateEnabled |>
             <| o_Channel := ChOpen (q ++ [OnuIndication UP (o_PonPortID o) (o_SerialNumber o)]) |> /\
      r' = storeOnuId (o_ID o) (o_SerialNumber o) r
  end.

Lemma enter_enabled_spec t q :
  o_Channel (onu t) = ChOpen q ->
  enter_enabled t =
    match isOnuIdAllocated (o_ID (onu t)) (res t) with
    | Some _ => Done (tt, t)
    | None => Done (tt, t
        <| onu ::= (fun o => o <| o_Channel :=
             ChOpen (q ++ [OnuIndication UP (o_PonPortID o) (o_SerialNumber o)]) |>) |>
        <| res ::= storeOnuId (o_ID (onu t)) (o_SerialNumber (onu t)) |>)
    end.
Proof.
  intros Hq. unfold enter_enabled. mred. destruct (isOnuIdAllocated _ _); [done|].
  unfold send_self, upd_res. mred. cbn [onu upd set_res]. rewrite Hq. reflexivity.
Qed.

Lemma PonEnable_onu s q :
  o_InternalState (onu s) = OnuStatePonDisabled -> o_Channel (onu s) = ChOpen q ->
  exists o' r', Event onu_fsm OnuTxEnable s = Done (None, s <| onu := o' |> <| res := r' |>) /\
    R_up (onu s) (res s) o' r'.
Proof.
  intros Hst Hq. rewrite (Event_ok _ _ s OnuStateEnabled); cbn [fsm_current fsm_events onu_fsm];
    [|by rewrite Hst..].
  set (t := fsm_set onu_fsm OnuStateEnabled s).
  assert (fsm_enter onu_fsm (o_InternalState (onu s)) OnuStateEnabled t = enter_enabled t) as He by done.
  rewrite (enter_enabled_spec t q) in He by done.
  change (isOnuIdAllocated (o_ID (onu t)) (res t)) with (isOnuIdAllocated (o_ID (onu s)) (res s)) in He.
  erewrite bind_Done; [|reflexivity]. erewrite bind_Done; [|reflexivity]. fold t. unfold R_up.
  destruct (isOnuIdAllocated (o_ID (onu s)) (res s)); (erewrite bind_Done; [|exact He]);
    eexists _, _; (split; [|by exists q]); destruct s; done.
Qed.

Lemma pon_resume_spec p s pp :
  Pons s !! p = Some pp -> ControlledActivation s ∈ [Default; OnlyPON] ->
  Forall (fun o => o_InternalState o = OnuStatePonDisabled /\ exists q, o_Channel o = ChOpen q) (Onus pp) ->
  exists os r, pon_enter_enabled p ponStateDisabled s = Done (tt, set_onus p pp os r s) /\
    onus_run R_up (Onus pp) (pp_res pp) os r.
Proof.
  intros Hp Hm Hall. unfold pon_enter_enabled, onu_ids. mred. rewrite Hp.
  rewrite decide_False, decide_True by done. rewrite decide_False by (intros [E|E]; rewrite E in Hm; set_solver).
  apply loop_onus; [|done]. rewrite Forall_forall in Hall.
  intros i t os r o Ht Ho Hin. destruct (Hall o Hin) as [Hst [q Hq]].
  unfold resume_onu. mred. rewrite (onu_state_at _ _ _ _ _ _ _ Ht Ho), decide_True by done.
  destruct (PonEnable_onu (onu_view t (pp <| Onus := os |> <| pp_res := r |>) o) q Hst Hq) as (o' & r' & He & HR).
  exists o', r'. split; [|exact HR]. by erewrite on_onu_set; [|exact Ht|exact Ho|exact He].
Qed.

(** Releasing the identifiers of an ONU only removes. *)
Lemma release_mono sn o r : released sn r -> released sn (release o r).
Proof.
  intros [Hg Ha]. unfold release. split.
  - intros g. rewrite removeGemPortBySn_spec. case_decide; [done|apply (Hg g)].
  - intros k. change (alloc_holder (removeAllocIdsForOnuSn (o_SerialNumber o) (removeOnuId (o_ID o) r)) k
      <> Some (sn_addr sn)). rewrite removeAllocIdsForOnuSn_spec. case_decide; [done|apply (Ha k)].
Qed.

Lemma release_id id o r : isOnuIdAllocated id r = None -> isOnuIdAllocated id (release o r) = None.
Proof.
  unfold isOnuIdAllocated, release. cbn. intros H. destruct (decide (id = o_ID o)) as [->|Hne];
    [apply lookup_delete_eq|by rewrite lookup_delete_ne].
Qed.

Lemma release_own o r :
  released (o_SerialNumber o) (release o r) /\ isOnuIdAllocated (o_ID o) (release o r) = None.
Proof.
  split; [apply (release_spec (o_SerialNumber o) (removeOnuId (o_ID o) r))|].
  unfold isOnuIdAllocated. cbn. apply lookup_delete_eq.
Qed.

Lemma run_down_keeps os r os' r' :
  onus_run R_down os r os' r' ->
  (forall sn, released sn r -> released sn r') /\
  (forall id, isOnuIdAllocated id r = None -> isOnuIdAllocated id r' = None).
Proof.
  induction 1 as [|o o' r r1 os os' r2 HR _ [IH1 IH2]]; [done|]. unfold R_down in HR.
  destruct (can_pon_disable _); destruct HR as [-> ->]; [|done].
  split; intros x Hx; [apply IH1, release_mono, Hx|apply IH2, release_id, Hx].
Qed.

Lemma run_down_facts os r os' r' :
  onus_run R_down os r os' r' ->
  forall i o, os !! i = Some o ->
    if can_pon_disable (o_InternalState o) then
      os' !! i = Some (pon_down o) /\ released (o_SerialNumber o) r' /\ isOnuIdAllocated (o_ID o) r' = None
    else os' !! i = Some o.
Proof.
  induction 1 as [|o o' r r1 os os' r2 HR Hrun IH]; intros i x Hx; [done|].
  destruct i as [|i]; [|by apply IH]. cbn in Hx. simplify_eq. unfold R_down in HR.
  destruct (run_down_keeps _ _ _ _ Hrun) as [K1 K2].
  destruct (can_pon_disable _); destruct HR as [-> ->]; [|done].
  destruct (release_own x r) as [H1 H2]. auto.
Qed.

Lemma onus_run_length R os r os' r' : onus_run R os r os' r' -> length os' = length os.
Proof. induction 1 as [|? ? ? ? ? ? ? _ _ IH]; cbn; congruence. Qed.

(** When every ONU was enabled, all of them go down. *)
Lemma run_down_all os r os' r' :
  onus_run R_down os r os' r' -> Forall (fun o => o_InternalState o = OnuStateEnabled) os ->
  os' = pon_down <$> os /\
  (forall o, o ∈ os -> released (o_SerialNumber o) r' /\ isOnuIdAllocated (o_ID o) r' = None).
Proof.
  intros Hrun Hall. rewrite Forall_lookup in Hall.
  assert (forall i o, os !! i = Some o -> os' !! i = Some (pon_down o) /\
       released (o_SerialNumber o) r' /\ isOnuIdAllocated (o_ID o) r' = None) as Hd.
  { intros i o Ho. pose proof (run_down_facts _ _ _ _ Hrun i o Ho) as H. by rewrite (Hall i o Ho) in H. }
  split.
  - apply list_eq. intros i. rewrite list_lookup_fmap.
    destruct (os !! i) as [o|] eqn:E; [by apply Hd|]. apply lookup_ge_None. apply lookup_ge_None in E.
    apply onus_run_length in Hrun. lia.
  - intros o [i Hi]%list_elem_of_lookup. by destruct (Hd i o Hi) as [_ ?].
Qed.

(** The ONU after [R_up] when its identifier was free. *)
Definition pon_up (q : list Message) (o : Onu) : Onu :=
  o <| o_InternalState := OnuStateEnabled |>
    <| o_Channel := ChOpen (q ++ [OnuIndication UP (o_PonPortID o) (o_SerialNumber o)]) |>.

Lemma run_up_keeps os r os' r' :
  onus_run R_up os r os' r' ->
  AllocatedGemPorts r' = AllocatedGemPorts r /\ AllocatedAllocIds r' = AllocatedAllocIds r /\
  (forall id sn, isOnuIdAllocated id r = Some sn -> isOnuIdAllocated id r' = Some sn).
Proof.
  induction 1 as [|o o' r r1 os os' r2 (q & _ & HR) _ (IH1 & IH2 & IH3)]; [done|].
  destruct (isOnuIdAllocated (o_ID o) r) eqn:E; destruct HR as [-> ->]; [done|].
  split; [done|]. split; [done|]. intros id sn Hid. apply IH3. unfold isOnuIdAllocated in *. cbn.
  rewrite lookup_insert_ne; [done|]. intros Heq. rewrite Heq in E. congruence.
Qed.

Lemma run_up_facts os r os' r' :
  onus_run R_up os r os' r' -> NoDup (o_ID <$> os) ->
  (forall o, o ∈ os -> isOnuIdAllocated (o_ID o) r = None) ->
  forall i o, os !! i = Some o -> exists q, o_Channel o = ChOpen q /\ os' !! i = Some (pon_up q o) /\
    isOnuIdAllocated (o_ID o) r' = Some (o_SerialNumber o).
Proof.
  induction 1 as [|o o' r r1 os os' r2 (q & Hq & HR) Hrun IH]; intros Hnd Hfree i x Hx; [done|].
  rewrite Hfree in HR by by left. destruct HR as [-> ->].
  rewrite fmap_cons in Hnd. apply NoDup_cons in Hnd as [Hni Hnd].
  destruct i as [|i]; cbn in Hx.
  - simplify_eq. exists q. split; [done|]. split; [done|].
    apply (run_up_keeps _ _ _ _ Hrun). unfold isOnuIdAllocated. cbn. apply lookup_insert_eq.
  - apply IH; [done| |done]. intros y Hy. unfold isOnuIdAllocated. cbn. rewrite lookup_insert_ne.
    + apply (Hfree y). by right.
    + intros E. apply Hni, list_elem_of_fmap. by exists y.
Qed.

(** *** The machines of a PON port *)

Definition put_pon (p : nat) (pp : PonPort) (s : OltDevice) : OltDevice := s <| Pons ::= <[p := pp]> |>.

Lemma put_pon_at p pp pp' s : Pons s !! p = Some pp' -> Pons (put_pon p pp s) !! p = Some pp.
Proof. intros H. apply list_lookup_insert_eq. by eapply lookup_lt_Some. Qed.

Lemma put_pon_put p pp pp' s : put_pon p pp (put_pon p pp' s) = put_pon p pp s.
Proof. destruct s. unfold put_pon, upd, set_Pons. cbn. by rewrite list_insert_insert_eq. Qed.

Lemma alter_insert {A : Type} (f : A -> A) p (l : list A) x :
  l !! p = Some x -> alter f p l = <[p := f x]> l.
Proof.
  revert p. induction l as [|y l IH]; intros [|p] Hx; try done; cbn in *; [by simplify_eq|].
  f_equal. by apply IH.
Qed.

Lemma put_pon_alter f p pp s :
  Pons s !! p = Some pp -> s <| Pons ::= alter f p |> = put_pon p (f pp) s.
Proof. intros H. destruct s. unfold put_pon, upd, set_Pons. cbn in *. f_equal. by apply alter_insert. Qed.

Lemma GetPonById_put p pp pp' s id :
  Pons s !! p = Some pp -> pp_ID pp' = pp_ID pp -> GetPonById (put_pon p pp' s) id = GetPonById s id.
Proof.
  intros Hp Hid.
  assert (forall l : list PonPort, fst <$> list_find (fun p => pp_ID p = id) l =
    fst <$> list_find (fun x => x = id) (pp_ID <$> l)) as Hl.
  { intros l. rewrite list_find_fmap. by destruct (list_find _ l) as [[]|]. }
  unfold GetPonById. rewrite !Hl. f_equal. f_equal. cbn. rewrite list_fmap_insert.
  apply list_insert_id. rewrite list_lookup_fmap, Hp. cbn. by rewrite Hid.
Qed.

(** The indications of a PON port in this state. *)
Definition pon_indications (id : Z) (st : string) (w : Stream) : Stream :=
  if decide (s_err w = None) then w <| s_sent ::= (fun l => l ++ [IndIntf id st; IndIntfOper "pon" id st 0])%list |>
  else w.

Lemma sendPonIndication_spec p pp s :
  GetPonById s (pp_ID pp) = Some p -> Pons s !! p = Some pp ->
  sendPonIndication (pp_ID pp) s =
    Done (tt, s <| OpenoltStream := pon_indications (pp_ID pp) (pp_OperState pp) (OpenoltStream s) |>).
Proof.
  intros Hg Hp. unfold sendPonIndication, olt_send, pon_indications. mred. rewrite Hg. cbn [mbind option_bind].
  rewrite Hp. unfold Send. destruct s as [? ? ? ? ? ? ? ? ? ? ? ? ? ? ? ? [e l]]. cbn.
  destruct e; cbn; [done|]. unfold upd, set_OpenoltStream, set_s_sent. cbn. by rewrite <-app_assoc.
Qed.

Lemma pon_oper_event p pp s ev st :
  GetPonById s (pp_ID pp) = Some p -> Pons s !! p = Some pp ->
  transitions oper_events ev (pp_OperState pp) = Some st -> pp_OperState pp <> st ->
  Event (pon_oper_fsm p) ev s =
    Done (None, put_pon p (pp <| pp_OperState := st |>) s
      <| OpenoltStream := pon_indications (pp_ID pp) st (OpenoltStream s) |>).
Proof.
  intros Hg Hp Ht Hne.
  rewrite (Event_ok _ _ s st); cbn [fsm_current fsm_events pon_oper_fsm]; rewrite ?Hp; [|done..].
  erewrite bind_Done; [|reflexivity]. erewrite bind_Done; [|reflexivity].
  cbn [fsm_set fsm_enter fsm_after pon_oper_fsm]. rewrite (put_pon_alter _ _ pp) by done.
  set (pp' := pp <| pp_OperState := st |>). set (t := put_pon p pp' s).
  assert (Pons t !! p = Some pp') as Hpt by by eapply put_pon_at.
  assert (GetPonById t (pp_ID pp') = Some p) as Hgt by by (unfold t; erewrite GetPonById_put).
  erewrite bind_Done; [|mred; rewrite Hpt; by apply (sendPonIndication_spec p)]. reflexivity.
Qed.

Lemma pon_event p pp s ev st :
  Pons s !! p = Some pp -> transitions pon_events ev (pp_InternalState pp) = Some st ->
  pp_InternalState pp <> st ->
  Event (pon_fsm p) ev s =
    (fsm_enter (pon_fsm p) (pp_InternalState pp) st ;; mret None)
      (put_pon p (pp <| pp_InternalState := st |>) s).
Proof.
  intros Hp Ht Hne.
  rewrite (Event_ok _ _ s st); cbn [fsm_current fsm_events pon_fsm]; rewrite ?Hp; [|done..].
  erewrite bind_Done; [|reflexivity]. erewrite bind_Done; [|reflexivity].
  cbn [fsm_set pon_fsm]. by rewrite (put_pon_alter _ _ pp).
Qed.

(** The state of a PON port. *)
Definition pon_is (internal oper : string) (pp : PonPort) : Prop :=
  pp_InternalState pp = internal /\ pp_OperState pp = oper.

(** The port after a change of both its states, with the ONUs and tables that
    come out of it. *)
Definition pon_after (internal oper : string) (os : list Onu) (r : PonRes) (pp : PonPort) : PonPort :=
  pp <| pp_OperState := oper |> <| pp_InternalState := internal |> <| Onus := os |> <| pp_res := r |>.
Definition tell_pon (id : Z) (st : string) (s : OltDevice) : OltDevice :=
  s <| OpenoltStream := pon_indications id st (OpenoltStream s) |>.

Lemma set_onus_put p pp0 pp1 os r id st s :
  set_onus p pp1 os r (put_pon p pp1 (tell_pon id st (put_pon p pp0 s))) =
  put_pon p (pp1 <| Onus := os |> <| pp_res := r |>) (tell_pon id st s).
Proof.
  unfold set_onus, put_pon, tell_pon. destruct s. unfold upd, set_Pons, set_OpenoltStream. cbn.
  by rewrite !list_insert_insert_eq.
Qed.

Lemma pon_goes_down s p pp id :
  GetPonById s id = Some p -> Pons s !! p = Some pp -> pp_ID pp = id -> pon_is ponStateEnabled "up" pp ->
  exists os r,
    handle_pon_indication DOWN id s =
      Done (tt, put_pon p (pon_after ponStateDisabled "down" os r pp) (tell_pon id "down" s)) /\
    onus_run R_down (Onus pp) (pp_res pp) os r.
Proof.
  intros Hg Hp <- [Hst Hop].
  pose proof (pon_oper_event p pp s "disable" "down" Hg Hp) as R1. rewrite Hop in R1.
  specialize (R1 eq_refl ltac:(done)).
  set (pp0 := pp <| pp_OperState := "down" |>) in R1.
  change (put_pon p pp0 s <| OpenoltStream := _ |>) with (tell_pon (pp_ID pp) "down" (put_pon p pp0 s)) in R1.
  set (t := tell_pon _ _ _) in R1.
  assert (Pons t !! p = Some pp0) as Ht by by eapply put_pon_at.
  pose proof (pon_event p pp0 t "disable" ponStateDisabled Ht) as R2.
  change (pp_InternalState pp0) with (pp_InternalState pp) in R2. rewrite Hst in R2.
  specialize (R2 eq_refl ltac:(done)).
  set (pp1 := pp0 <| pp_InternalState := ponStateDisabled |>) in R2. set (t1 := put_pon p pp1 t) in R2.
  destruct (pon_enter_disabled_spec p t1 pp1) as (os & r & R3 & Hrun); [by eapply put_pon_at|].
  exists os, r. split; [|exact Hrun]. unfold t1, t in R3. rewrite set_onus_put in R3.
  unfold handle_pon_indication. erewrite bind_Done; [|reflexivity]. cbv beta. rewrite Hg.
  erewrite bind_Done; [|exact R1]. erewrite bind_Done; [reflexivity|].
  rewrite R2. cbn [fsm_enter pon_fsm]. rewrite decide_False, decide_True by done.
  by erewrite bind_Done; [|exact R3].
Qed.

Lemma pon_goes_up s p pp id :
  GetPonById s id = Some p -> Pons s !! p = Some pp -> pp_ID pp = id -> pon_is ponStateDisabled "down" pp ->
  ControlledActivation s ∈ [Default; OnlyPON] ->
  Forall (fun o => o_InternalState o = OnuStatePonDisabled /\ exists q, o_Channel o = ChOpen q) (Onus pp) ->
  exists os r,
    handle_pon_indication UP id s =
      Done (tt, put_pon p (pon_after ponStateEnabled "up" os r pp) (tell_pon id "up" s)) /\
    onus_run R_up (Onus pp) (pp_res pp) os r.
Proof.
  intros Hg Hp <- [Hst Hop] Hm Hall.
  pose proof (pon_oper_event p pp s "enable" "up" Hg Hp) as R1. rewrite Hop in R1.
  specialize (R1 eq_refl ltac:(done)).
  set (pp0 := pp <| pp_OperState := "up" |>) in R1.
  change (put_pon p pp0 s <| OpenoltStream := _ |>) with (tell_pon (pp_ID pp) "up" (put_pon p pp0 s)) in R1.
  set (t := tell_pon _ _ _) in R1.
  assert (Pons t !! p = Some pp0) as Ht by by eapply put_pon_at.
  pose proof (pon_event p pp0 t "enable" ponStateEnabled Ht) as R2.
  change (pp_InternalState pp0) with (pp_InternalState pp) in R2. rewrite Hst in R2.
  specialize (R2 eq_refl ltac:(done)).
  set (pp1 := pp0 <| pp_InternalState := ponStateEnabled |>) in R2. set (t1 := put_pon p pp1 t) in R2.
  destruct (pon_resume_spec p t1 pp1) as (os & r & R3 & Hrun); [by eapply put_pon_at|done|done|].
  exists os, r. split; [|exact Hrun]. unfold t1, t in R3. rewrite set_onus_put in R3.
  unfold handle_pon_indication. erewrite bind_Done; [|reflexivity]. cbv beta. rewrite Hg.
  erewrite bind_Done; [|exact R1]. erewrite bind_Done; [reflexivity|].
  rewrite R2. cbn [fsm_enter pon_fsm]. rewrite decide_True by done.
  by erewrite bind_Done; [|exact R3].
Qed.

(** C6: disabling a PON and enabling it again, when the PON is enabled and up,
    its ONUs are all enabled, with open channels and distinct identifiers, and
    the ONUs are activated automatically (the activation mode is the default
    one, or the one in which only PONs are activated by hand).  When the PON
    goes down its ONUs do not keep their state: each is PON-disabled and holds
    no GEM port, no alloc identifier and no ONU identifier any more.  When the
    PON comes back every ONU is enabled again with its own identifier
    registered and queues the indication that it is up, and the GEM ports stay
    free; VOLTHA is told of both changes of the port. *)
Theorem pon_down_up (s : OltDevice) (p : nat) (pp : PonPort) (id : Z) :
  GetPonById s id = Some p -> Pons s !! p = Some pp -> pp_ID pp = id -> pon_is ponStateEnabled "up" pp ->
  ControlledActivation s ∈ [Default; OnlyPON] -> NoDup (o_ID <$> Onus pp) ->
  Forall (fun o => o_InternalState o = OnuStateEnabled /\ exists q, o_Channel o = ChOpen q) (Onus pp) ->
  exists s1 s2 pp1 pp2,
    handle_pon_indication DOWN id s = Done (tt, s1) /\ Pons s1 !! p = Some pp1 /\
    pon_is ponStateDisabled "down" pp1 /\
    (forall i o, Onus pp !! i = Some o -> Onus pp1 !! i = Some (pon_down o) /\
       released (o_SerialNumber o) (pp_res pp1) /\ isOnuIdAllocated (o_ID o) (pp_res pp1) = None) /\
    handle_pon_indication UP id s1 = Done (tt, s2) /\ Pons s2 !! p = Some pp2 /\
    pon_is ponStateEnabled "up" pp2 /\
    (forall i o, Onus pp !! i = Some o -> exists q, o_Channel o = ChOpen q /\
       Onus pp2 !! i = Some (pon_up q (pon_down o)) /\
       isOnuIdAllocated (o_ID o) (pp_res pp2) = Some (o_SerialNumber o)) /\
    AllocatedGemPorts (pp_res pp2) = AllocatedGemPorts (pp_res pp1) /\
    OpenoltStream s2 = pon_indications id "up" (pon_indications id "down" (OpenoltStream s)).
Proof.
  intros Hg Hp Hid Hst Hm Hnd Hall.
  destruct (pon_goes_down s p pp id Hg Hp Hid Hst) as (os & r & R1 & Hrun).
  set (pp1 := pon_after _ _ os r pp) in R1. set (s1 := put_pon p pp1 _) in R1.
  assert (Pons s1 !! p = Some pp1) as P1 by by eapply put_pon_at.
  destruct (run_down_all _ _ _ _ Hrun) as [-> Hd]; [eapply Forall_impl; [exact Hall|by intros ? []]|].
  destruct (pon_goes_up s1 p pp1 id) as (os2 & r2 & R2 & Hrun2); try done.
  { unfold s1. by erewrite GetPonById_put. }
  { apply Forall_fmap. eapply Forall_impl; [exact Hall|]. intros o [_ Hq]. split; [done|exact Hq]. }
  set (pp2 := pon_after _ _ os2 r2 pp1) in R2. set (s2 := put_pon p pp2 _) in R2.
  assert (Pons s2 !! p = Some pp2) as P2 by by eapply put_pon_at.
  change (Onus pp1) with (pon_down <$> Onus pp) in Hrun2. change (pp_res pp1) with r in Hrun2.
  exists s1, s2, pp1, pp2. split; [done|]. split; [done|]. split; [done|]. split.
  { intros i o Ho. split; [|by apply Hd, list_elem_of_lookup; exists i].
    change (Onus pp1) with (pon_down <$> Onus pp). by rewrite list_lookup_fmap, Ho. }
  split; [done|]. split; [exact P2|]. split; [done|].
  split; [|split; [apply (run_up_keeps _ _ _ _ Hrun2)|done]].
  intros i o Ho. destruct (run_up_facts _ _ _ _ Hrun2) with (i := i) (o := pon_down o) as (q & Hq & H1 & H2).
  - by rewrite <-list_fmap_compose.
  - intros x (y & -> & Hy)%list_elem_of_fmap. by apply (Hd y Hy).
  - by rewrite list_lookup_fmap, Ho.
  - by exists q.
Qed.

(** An OLT with one PON on which two ONUs are enabled. *)
Definition second_onu : Onu := (onu running_onu) <| o_ID := 2 |> <| o_SerialNumber := NewSN 8 0 0 2 |>.
Definition example_pon : PonPort := {|
  pp_ID := 0; pp_Technology := XGSPON; Onus := [onu running_onu; second_onu]; pp_PacketCount := 0;
  pp_InternalState := ponStateEnabled; pp_OperState := "up"; pp_res := res running_onu |}.
Definition example_olt : OltDevice := {|
  olt_ID := 0; NumPon := 1; NumOnuPerPon := 2; NniSpeed := 10000; olt_InternalState := OltInternalStateEnabled; olt_OperState := "up";
  channel := ChOpen []; olt_Flows := ∅; ControlledActivation := Default; olt_PublishEvents := false;
  olt_published := []; PreviouslyConnected := true; Pons := [example_pon]; Nnis := [CreateNNI];
  enableContext := true; loops := 1; OpenoltStream := {| s_err := None; s_sent := [] |};
  enablePerf := false; flow_res := two_onus; signature := 0; OltServer := true; olt_tasks := [] |}.

Lemma pon_down_up_witness :
  exists s1 s2, handle_pon_indication DOWN 0 example_olt = Done (tt, s1) /\
    handle_pon_indication UP 0 s1 = Done (tt, s2) /\
    OpenoltStream s2 = pon_indications 0 "up" (pon_indications 0 "down" (OpenoltStream example_olt)).
Proof.
  destruct (pon_down_up example_olt 0 example_pon 0)
    as (s1 & s2 & pp1 & pp2 & R1 & _ & _ & _ & R2 & _ & _ & _ & _ & W); try done.
  - by left.
  - apply NoDup_cons. split; [cbn; intros H; by apply list_elem_of_singleton in H|]. apply NoDup_singleton.
  - repeat constructor; by eexists.
  - exact (ex_intro _ s1 (ex_intro _ s2 (conj R1 (conj R2 W)))).
Defined.

Definition after_flow : OltDevice :=
  match Olt.FlowAdd (example_flow 1 1024 1024 1) example_olt with Done (_, s) => s | _ => example_olt end.

Definition two_onus_alloc : Alloc :=
  {| sp_gems := ∅; sp_allocs := ∅; sp_onus := {[ (0, 2); (0, 1) ]} |}.

Lemma two_onus_represents : rtc spec_step no_alloc two_onus_alloc /\ represents two_onus two_onus_alloc.
Proof.
  split.
  - eapply rtc_l; [exact (spec_activate 0 1 _)|].
    eapply rtc_l; [exact (spec_activate 0 2 _)|]. 
    match goal with |- rtc _ ?x _ => replace x with two_onus_alloc by (by vm_compute) end. apply rtc_refl.
  - split; [intros p o u i f; split; [intros Hh; by destruct (no_uses_two_onus p o u i f)|set_solver]..|].
    intros p o. cbn. unfold known, onu_ports, two_onus. cbn.
    destruct (decide (p = 0)) as [->|Hp]; [rewrite lookup_singleton_eq|rewrite lookup_singleton_ne by done]; cbn.
    + destruct (decide (o = 1)) as [->|H1]; [rewrite lookup_insert_eq; set_solver|].
      rewrite lookup_insert_ne by done. destruct (decide (o = 2)) as [->|H2]; [rewrite lookup_singleton_eq; set_solver|].
      rewrite lookup_singleton_ne by done. split; [by intros []|set_solver].
    + split; [by intros []|set_solver].
Qed.

Lemma olt_resources_refine_witness :
  exists A', rtc spec_step two_onus_alloc A' /\ represents (flow_res after_flow) A' /\
    exclusive (GemPortIDs (flow_res after_flow)) /\ exclusive (AllocIDs (flow_res after_flow)).
Proof.
  apply (@olt_resources_refine trivial_omci link_layer_only example_olt after_flow two_onus_alloc);
    [exact (reachable_ok _ two_onus_reachable)|apply two_onus_represents|apply two_onus_represents|].
  apply rtc_once. exists (option error), (Olt.FlowAdd (example_flow 1 1024 1024 1)), None.
  split; [apply run_flow_add|]. by vm_compute.
Defined.

(** ** Flows *)

(** Code of an ONU and the parts of the device it cannot change. *)
Lemma on_onu_frame {A : Type} p i (m : M OnuSys A) s pp o a t :
  Pons s !! p = Some pp -> Onus pp !! i = Some o -> m (onu_view s pp o) = Done (a, t) ->
  exists s', on_onu p i m s = Done (a, s') /\
    Pons s' !! p = Some (pp <| Onus ::= <[i := onu t]> |> <| pp_res := res t |>) /\
    flow_res s' = flow_res s /\ olt_Flows s' = olt_Flows s /\ channel s' = olt_channel t.
Proof.
  intros Hp Ho Hm. eexists. unfold on_onu. rewrite Hp, Ho, Hm. split; [reflexivity|].
  split; [|done]. apply list_lookup_insert_eq. by eapply lookup_lt_Some.
Qed.


(** A flow of a subscriber: its ONU is the [i]-th one of the [p]-th PON. *)
Record subscriber_flow (f : Flow) (s : OltDevice) (p i : nat) (o : Onu) : Prop := {
  sf_pon : GetPonById s (u32 (AccessIntfId f)) = Some p;
  sf_onu : Pons s !! p ≫= (fun pp => GetOnuById pp (u32 (fl_OnuId f))) = Some i;
  sf_at : onu_at s p i = Some o;
  sf_intf : AccessIntfId f <> -1;
  sf_type : FlowType f <> "multicast";
  sf_perf : enablePerf s = false }.

Definition add_flow_key (id : Z) (o : Onu) : Onu := o <| Flows ::= (fun l => l ++ [id])%list |>.

Lemma on_onu_at {A : Type} p i (m : M OnuSys A) s o a o' :
  onu_at s p i = Some o ->
  (forall pp, exists t, m (onu_view s pp o) = Done (a, t) /\ onu t = o' /\ olt_channel t = channel s) ->
  exists s', on_onu p i m s = Done (a, s') /\ onu_at s' p i = Some o' /\
    flow_res s' = flow_res s /\ olt_Flows s' = olt_Flows s /\ channel s' = channel s.
Proof.
  intros Ho Hm. unfold onu_at in Ho. apply bind_Some in Ho as (pp & Hp & Ho).
  destruct (Hm pp) as (t & Ht & Hot & Hct).
  destruct (on_onu_frame p i m s pp o a t Hp Ho Ht) as (s' & R & P' & F & L & C).
  exists s'. split; [done|]. split; [|by rewrite C]. unfold onu_at. rewrite P'. cbn. rewrite Hot.
  apply list_lookup_insert_eq. by eapply lookup_lt_Some.
Qed.

(** The ONU is told of an admitted flow. *)
Definition flow_message (o : Onu) (f : Flow) : Message := Types.FlowAdd (o_PonPortID o) (o_ID o) f.

(** The code [FlowAdd] runs once the ONU of the flow was found. *)
Definition admit_and_tell (f : Flow) (p i : nat) : M OltDevice (option error) :=
  err ← zoom flow_res (fun r s => s <| flow_res := r |>) (admit_flow f);
  match err with
  | Some e => mret (Some e)
  | None => on_onu p i (t ← get; send_self (flow_message (onu t) f)) ;; mret None
  end.
Definition remember_flow (f : Flow) : M OnuSys unit :=
  upd_onu (add_flow_key (FlowId f)) ;;
  t ← get; if decide (length (Flows (onu t)) = 1%nat) then publishEvent "Flow-add-received" else skip.

Lemma FlowAdd_subscriber f s p i o :
  subscriber_flow f s p i o ->
  Olt.FlowAdd f s =
    (if decide (o_InternalState o = OnuStatePonDisabled \/ o_InternalState o = OnuStateDisabled)
     then mret (Some "onu-is-currently-disabled")
     else on_onu p i (remember_flow f) ;; admit_and_tell f p i)
      (s <| olt_Flows ::= <[FlowId f := f]> |>).
Proof.
  intros [Hp Hi Ho Hintf Hty Hperf]. unfold Olt.FlowAdd, add_onu_flow.
  erewrite bind_Done; [|reflexivity]. cbv beta. rewrite Hperf.
  erewrite bind_Done; [|reflexivity]. rewrite !decide_False by done. set (s0 := s <| olt_Flows ::= _ |>).
  erewrite bind_Done; [|reflexivity]. cbv beta. change (GetPonById s0 ?x) with (GetPonById s x).
  rewrite Hp. change (Pons s0) with (Pons s). rewrite Hi.
  assert (onu_state p i s0 = o_InternalState o) as ->.
  { unfold onu_state. change (Pons s0) with (Pons s). unfold onu_at in Ho. by rewrite Ho. }
  case_decide; [done|]. change (enablePerf s0) with (enablePerf s). by rewrite Hperf.
Qed.

Lemma FlowAdd_reaches f s p i o :
  subscriber_flow f s p i o -> o_InternalState o ∉ [OnuStatePonDisabled; OnuStateDisabled] ->
  exists s1, onu_at s1 p i = Some (add_flow_key (FlowId f) o) /\ flow_res s1 = flow_res s /\
    olt_Flows s1 = <[FlowId f := f]> (olt_Flows s) /\ Olt.FlowAdd f s = admit_and_tell f p i s1.
Proof.
  intros Hf Hst. destruct (Hf) as [_ _ Ho _ _ _].
  destruct (on_onu_at p i (remember_flow f) (s <| olt_Flows ::= <[FlowId f := f]> |>) o tt
    (add_flow_key (FlowId f) o)) as (s1 & R1 & O1 & F1 & L1 & C1); [done| |].
  { intros pp. unfold remember_flow, publishEvent, upd_onu. mred. case_decide; [destruct (PublishEvents _)|];
      (eexists; split; [reflexivity|done]). }
  exists s1. split; [done|]. split; [done|]. split; [exact L1|].
  rewrite (FlowAdd_subscriber f s p i o Hf), decide_False by set_solver. by erewrite bind_Done; [|exact R1].
Qed.

(** What a refused flow leaves behind: it is in the table of flows and among
    the flows of its ONU, whose messages stay, and the flow tables are as before. *)
Definition only_remembered (f : Flow) (o : Onu) (p i : nat) (s s' : OltDevice) : Prop :=
  flow_res s' = flow_res s /\ onu_at s' p i = Some (add_flow_key (FlowId f) o) /\
  olt_Flows s' = <[FlowId f := f]> (olt_Flows s).

(** [FlowAdd] for an ONU that is not disabled, by what becomes of the check. *)
Lemma flow_add_runs f s p i o q :
  subscriber_flow f s p i o -> o_Channel o = ChOpen q ->
  o_InternalState o ∉ [OnuStatePonDisabled; OnuStateDisabled] ->
  (forall e, admit_flow f (flow_res s) = Done (Some e, flow_res s) ->
    exists s', Olt.FlowAdd f s = Done (Some e, s') /\ only_remembered f o p i s s') /\
  (forall r, admit_flow f (flow_res s) = Done (None, r) ->
    exists s', Olt.FlowAdd f s = Done (None, s') /\ flow_res s' = r /\
      onu_at s' p i = Some ((add_flow_key (FlowId f) o)
        <| o_Channel := ChOpen (q ++ [flow_message o f]) |>) /\
      olt_Flows s' = <[FlowId f := f]> (olt_Flows s)).
Proof.
  intros Hf Hq Hst. destruct (FlowAdd_reaches f s p i o Hf Hst) as (s1 & O1 & F1 & L1 & ->).
  unfold admit_and_tell. split; intros; unfold zoom, mbind at 1, M_bind at 1; rewrite F1, H.
  + eexists. split; [reflexivity|]. done.
  + destruct (on_onu_at p i (t ← get; send_self (flow_message (onu t) f)) (s1 <| flow_res := r |>)
      (add_flow_key (FlowId f) o) tt
      ((add_flow_key (FlowId f) o) <| o_Channel := ChOpen (q ++ [flow_message o f]) |>))
      as (s3 & R3 & O3 & F3 & L3 & C3); [done| |].
    { intros pp. unfold send_self. mred. change (o_Channel _) with (o_Channel o). rewrite Hq.
      eexists. split; [reflexivity|]. done. }
    exists s3. erewrite bind_Done; [|exact R3]. split; [done|]. split; [by rewrite F3|]. split; [done|].
    by rewrite L3.
Qed.

(** C16: what a flow of a subscriber does to the OLT, without the performance
    mode, when its ONU exists and has an open channel, the flow names at least
    one GEM port and the flow tables are as the steps of the OLT leave them.
    The flow is stored in the table
    of flows whatever becomes of it.  It is refused, and the flow tables and
    the messages of the ONU stay as they are, when the ONU is disabled, when
    another ONU of the PON uses one of its GEM ports or its alloc identifier,
    or when the ONU was not activated.  Otherwise exactly two things are added
    to the tables, the use of each of its GEM ports and the use of its alloc
    identifier, by this flow on its PON, ONU and port, and the ONU is told. *)
Theorem flow_add_effect (f : Flow) (s : OltDevice) (p i : nat) (o : Onu) (q : list Message) :
  subscriber_flow f s p i o -> o_Channel o = ChOpen q ->
  rtc res_step no_flow_res (flow_res s) -> flow_gems f <> [] ->
  let pon := u32 (AccessIntfId f) in let onu := u32 (fl_OnuId f) in
  let gem_used := conflict (GemPortIDs (flow_res s)) pon onu (flow_gems f) in
  let alloc_used := conflict (AllocIDs (flow_res s)) pon onu [fl_AllocId f] in
  let refused e := exists s', Olt.FlowAdd f s = Done (Some e, s') /\ only_remembered f o p i s s' in
  (o_InternalState o ∈ [OnuStatePonDisabled; OnuStateDisabled] ->
     exists s', Olt.FlowAdd f s = Done (Some "onu-is-currently-disabled", s') /\
       flow_res s' = flow_res s /\ onu_at s' p i = Some o /\
       olt_Flows s' = <[FlowId f := f]> (olt_Flows s)) /\
  (o_InternalState o ∉ [OnuStatePonDisabled; OnuStateDisabled] ->
   (gem_used -> refused "gem-already-in-use") /\
   (~ gem_used -> alloc_used -> refused "allocId-already-in-use") /\
   (~ gem_used -> ~ alloc_used -> ~ known (GemPortIDs (flow_res s)) pon onu ->
     refused "failed-trying-to-store-gemport-for-unknown-onu") /\
   (~ gem_used -> ~ alloc_used -> known (GemPortIDs (flow_res s)) pon onu ->
     exists s', Olt.FlowAdd f s = Done (None, s') /\
       (forall a b c d x, holds (GemPortIDs (flow_res s')) a b c d x <->
          holds (GemPortIDs (flow_res s)) a b c d x \/
          (a = pon /\ b = onu /\ c = fl_PortNo f /\ d ∈ flow_gems f /\ x = FlowId f)) /\
       (forall a b c d x, holds (AllocIDs (flow_res s')) a b c d x <->
          holds (AllocIDs (flow_res s)) a b c d x \/
          (a = pon /\ b = onu /\ c = fl_PortNo f /\ d = fl_AllocId f /\ x = FlowId f)) /\
       onu_at s' p i = Some ((add_flow_key (FlowId f) o)
         <| o_Channel := ChOpen (q ++ [flow_message o f]) |>) /\
       olt_Flows s' = <[FlowId f := f]> (olt_Flows s))).
Proof.
  intros Hf Hq Hr Hg. cbv zeta. split.
  - intros Hst. rewrite (FlowAdd_subscriber f s p i o Hf), decide_True by set_solver.
    eexists. split; [reflexivity|]. split; [done|]. split; [apply Hf|done].
  - intros Hst. destruct (flow_add_runs f s p i o q Hf Hq Hst) as [Hno Hyes].
    destruct (admit_flow_decides f (flow_res s) Hr Hg) as (D1 & D2 & D3 & D4). split_and!.
    + intros H. by apply Hno, D1.
    + intros H1 H2. by apply Hno, D2.
    + intros H1 H2 H3. by apply Hno, D3.
    + intros H1 H2 H3. destruct (D4 H1 H2 H3) as (r & Ha & Hug & Hua).
      destruct (Hyes r Ha) as (s' & R & <- & O & L). exists s'. split_and!; try done.
      intros a b c d x. rewrite (Hua a b c d x). by rewrite list_elem_of_singleton.
Qed.

Lemma flow_add_effect_witness :
  let f := example_flow 1 1024 1024 1 in
  exists s', Olt.FlowAdd f example_olt = Done (None, s') /\
    holds (GemPortIDs (flow_res s')) 0 1 16 1024 1 /\ holds (AllocIDs (flow_res s')) 0 1 16 1024 1 /\
    olt_Flows s' = {[ 1 := f ]}.
Proof.
  intros f. destruct (flow_add_effect f example_olt 0 0 (onu running_onu) []) as [_ H];
    [by split|done|exact two_onus_reachable|done|].
  destruct H as (_ & _ & _ & H); [apply (bool_decide_eq_false_1 _); by vm_compute|].
  assert (forall m ids, m = two_onus -> ~ conflict (GemPortIDs m) 0 1 ids /\ ~ conflict (AllocIDs m) 0 1 ids) as Hn.
  { intros m ids ->. split; intros (o & u & i & x & _ & _ & Hh); by apply no_uses_two_onus in Hh. }
  destruct H as (s' & R & Hg & Ha & _ & L);
    [by apply (Hn two_onus)|by apply (Hn two_onus)|by eexists|].
  exists s'. split; [exact R|]. split; [apply Hg; right; split_and!; [done..|by left|done]|].
  split; [apply Ha; by right|]. exact L.
Defined.

(** ** Restarting the OLT *)

Lemma loop_pons (R : PonPort -> PonPort -> Prop) (body : nat -> M OltDevice unit) s :
  (forall p t pp, Pons t !! p = Some pp -> pp ∈ Pons s ->
     exists pp', body p t = Done (tt, put_pon p pp' t) /\ R pp pp') ->
  exists pps, for_each (seq 0 (length (Pons s))) body s = Done (tt, s <| Pons := pps |>) /\
    Forall2 R (Pons s) pps.
Proof.
  intros Hbody.
  cut (forall (todo done : list PonPort) t, (forall pp, pp ∈ todo -> pp ∈ Pons s) ->
    Pons t = (done ++ todo)%list ->
    exists pps, for_each (seq (length done) (length todo)) body t =
      Done (tt, t <| Pons := (done ++ pps)%list |>) /\ Forall2 R todo pps).
  { intros Hgen. destruct (Hgen (Pons s) [] s) as (pps & Hr & Hf); [done|done|]. by exists pps. }
  induction todo as [|pp todo IH]; intros done t Hin Ht.
  { exists []. split; [|constructor]. cbn [length seq for_each]. unfold skip, mret, M_ret.
    rewrite <-Ht. by destruct t. }
  cbn [length seq for_each].
  destruct (Hbody (length done) t pp) as (pp' & R1 & H1); [|apply Hin; set_solver|].
  { rewrite Ht. by rewrite lookup_app_r, Nat.sub_diag by lia. }
  erewrite bind_Done; [|exact R1].
  destruct (IH (done ++ [pp'])%list (put_pon (length done) pp' t)) as (pps & R2 & H2); [set_solver| |].
  - unfold put_pon. cbn. rewrite Ht, insert_app_r_alt, Nat.sub_diag by lia. cbn. by rewrite <-app_assoc.
  - exists (pp' :: pps). rewrite length_app, Nat.add_1_r in R2. rewrite R2. split; [|by constructor].
    f_equal. f_equal. rewrite <-app_assoc. by destruct t.
Qed.

(** An ONU that is told to stop: it does if its state allows it. *)
Definition R_stop (o : Onu) (r : PonRes) (o' : Onu) (r' : PonRes) : Prop :=
  if can_disable (o_InternalState o) then
    o_InternalState o' = OnuStateDisabled /\ o_OperState o' = "down" /\ Flows o' = [] /\
    Forall uni_down (o_UniPorts o') /\ r' = release o r
  else o' = o /\ r' = r.

(** The ONUs of the PON can be stopped. *)
Definition onu_stoppable (o : Onu) : Prop :=
  can_disable (o_InternalState o) = true -> onu_ok o /\ exists q, o_Channel o = ChOpen q.

Lemma disable_transition st :
  transitions onu_events OnuTxDisable st = if can_disable st then Some OnuStateDisabled else None.
Proof. by apply transitions_row. Qed.

Lemma Stop_onu s :
  onu_stoppable (onu s) -> exists e o' r',
    Event onu_fsm OnuTxDisable s = Done (e, s <| onu := o' |> <| res := r' |>) /\ R_stop (onu s) (res s) o' r'.
Proof.
  intros Hok. unfold R_stop. destruct (can_disable (o_InternalState (onu s))) eqn:E.
  - destruct (Hok E) as [Hon [q Hq]]. destruct (Disable_onu s q E Hq Hon) as (us & ps & q' & R & _ & Hu & _).
    eexists None, _, _. split; [rewrite R; destruct s; reflexivity|]. done.
  - destruct (Event_rejected onu_fsm OnuTxDisable s) as [e He].
    { cbn [fsm_events fsm_current onu_fsm]. by rewrite disable_transition, E. }
    exists (Some e), (onu s), (res s). split; [|done]. rewrite He. by destruct s.
Qed.

(** A PON whose ONUs were told to stop. *)
Definition pon_stopped (pp pp' : PonPort) : Prop :=
  exists os r, pp' = pp <| Onus := os |> <| pp_res := r |> /\ onus_run R_stop (Onus pp) (pp_res pp) os r.

Lemma stop_pons s :
  (forall pp, pp ∈ Pons s -> Forall onu_stoppable (Onus pp)) ->
  exists pps, for_each (seq 0 (length (Pons s))) (fun p =>
      s ← get;
      for_each (onu_ids p s) (fun i => on_onu p i (Event onu_fsm OnuTxDisable) ;; skip)) s
    = Done (tt, s <| Pons := pps |>) /\ Forall2 pon_stopped (Pons s) pps.
Proof.
  intros Hall. apply loop_pons. intros p t pp Hp Hin. specialize (Hall pp Hin). rewrite Forall_forall in Hall.
  mred. unfold onu_ids. rewrite Hp.
  destruct (loop_onus R_stop p (fun i => on_onu p i (Event onu_fsm OnuTxDisable) ;; skip) pp) with (s := t)
    as (os & r & R & Hrun); [|done|].
  { intros i t1 os r o Ht Ho Ho'.
    destruct (Stop_onu (onu_view t1 (pp <| Onus := os |> <| pp_res := r |>) o)) as (e & o' & r' & He & HR);
      [by apply Hall|]. exists o', r'. split; [|exact HR].
    erewrite bind_Done; [reflexivity|]. eapply on_onu_set; [exact Ht|exact Ho|exact He]. }
  eexists. split; [exact R|]. by exists os, r.
Qed.

(** Tables with nothing in them. *)
Definition blank (m : FlowMap) : Prop := forall p onus, m !! p = Some onus -> onus = ∅.

Lemma init_blank l r :
  blank (GemPortIDs r) /\ blank (AllocIDs r) ->
  let r' := foldl (fun r p => init_pon_maps (Z.of_nat p) r) r l in
  (blank (GemPortIDs r') /\ blank (AllocIDs r')) /\
  (forall p : nat, p ∈ l \/ (GemPortIDs r !! Z.of_nat p = Some ∅ /\ AllocIDs r !! Z.of_nat p = Some ∅) ->
     GemPortIDs r' !! Z.of_nat p = Some ∅ /\ AllocIDs r' !! Z.of_nat p = Some ∅).
Proof.
  assert (forall (m : FlowMap) p, blank m -> blank (<[p := ∅]> m)) as Hb.
  { intros m p Hm x y. rewrite lookup_insert. case_decide; [by intros [= <-]|apply Hm]. }
  revert r. induction l as [|x l IH]; intros r [Hg Ha]; cbn.
  { split; [done|]. intros p [Hp|Hp]; [by apply elem_of_nil in Hp|done]. }
  destruct (IH (init_pon_maps (Z.of_nat x) r)) as [IH1 IH2]; [split; by apply Hb|].
  split; [done|]. intros p Hp. apply IH2.
  destruct (decide (p = x)) as [->|Hne]; [right; split; apply lookup_insert_eq|].
  destruct Hp as [Hp|Hp]; [left; set_solver|right].
  split; (etransitivity; [apply lookup_insert_ne; lia|apply Hp]).
Qed.

Lemma run_stop_empty os r os' r' :
  onus_run R_stop os r os' r' -> r = empty_res -> r' = empty_res /\
  Forall2 (fun o o' => can_disable (o_InternalState o) = true -> o_InternalState o' = OnuStateDisabled) os os'.
Proof.
  induction 1 as [|o o' r r1 os os' r2 HR _ IH]; intros ->; [done|]. unfold R_stop in HR.
  destruct (can_disable (o_InternalState o)) eqn:E.
  - destruct HR as (Hst & _ & _ & _ & ->). destruct IH as [-> IH]; [done|]. split; [done|]. by constructor.
  - destruct HR as [-> ->]. destruct IH as [-> IH]; [done|]. split; [done|]. constructor; [|done].
    by rewrite E.
Qed.

(** The PON ports of an OLT that was just deleted hold nothing. *)
Definition clear_pon (pp : PonPort) : PonPort :=
  pp <| pp_res ::= (fun r => removeAllOnuIds (removeAllGemPorts (removeAllAllocIds r))) |>.
Definition stop_loops (pp : PonPort) : PonPort :=
  pp <| Onus ::= fmap (fun o => o <| o_goroutines := 0%nat |>) |>.

Lemma clear_pon_res pp : pp_res (clear_pon pp) = empty_res.
Proof. done. Qed.

Lemma delete_olt s :
  olt_InternalState s ∈ [OltInternalStateDisabled; OltInternalStateEnabled] ->
  Event olt_fsm OltInternalTxDelete s =
    Done (None, s <| olt_InternalState := OltInternalStateDeleted |> <| flow_res := no_flow_res |>
                  <| Pons ::= fmap clear_pon |>).
Proof.
  intros Hst. rewrite (Event_ok _ _ s OltInternalStateDeleted); cbn [fsm_current fsm_events olt_fsm].
  - reflexivity.
  - repeat (apply elem_of_cons in Hst as [->|Hst]; [done|]). by apply elem_of_nil in Hst.
  - intros E. rewrite E in Hst. by apply (bool_decide_eq_true_2 _) in Hst.
Qed.

Lemma init_olt s n ns :
  olt_InternalState s ∈ [OltInternalStateCreated; OltInternalStateDeleted] -> OltServer s = false ->
  Nnis s = n :: ns ->
  Event olt_fsm OltInternalTxInitialize s =
    Done (None, s <| olt_InternalState := OltInternalStateInitialized |> <| OltServer := true |>
      <| channel := ChOpen [] |> <| Nnis := (n <| nni_OperState := "down" |>) :: ns |>
      <| flow_res ::= (fun r => foldl (fun r p => init_pon_maps (Z.of_nat p) r) r
                                  (seq 0 (length (Pons s)))) |>).
Proof.
  intros Hst Hsrv Hn. rewrite (Event_ok _ _ s OltInternalStateInitialized);
    cbn [fsm_current fsm_events olt_fsm];
    [|repeat (apply elem_of_cons in Hst as [->|Hst]; [done|]); by apply elem_of_nil in Hst..].
  cbn [fsm_before fsm_set fsm_enter fsm_after olt_fsm]. unfold no_before, no_after, InitOlt. mred.
  rewrite decide_True by done. change (OltServer (s <| olt_InternalState := ?x |>)) with (OltServer s).
  rewrite Hsrv. change (Nnis (s <| olt_InternalState := ?x |>)) with (Nnis s). rewrite Hn.
  destruct s. cbn in Hn. rewrite Hn. reflexivity.
Qed.

(** A PON port before and after the OLT was restarted: nothing is allocated on
    it, its ONUs have no message loop, and those that were running are
    disabled. *)
Definition pon_restarted (pp pp' : PonPort) : Prop :=
  pp_res pp' = empty_res /\
  Forall (fun o => o_goroutines o = 0%nat) (Onus pp') /\
  Forall2 (fun o o' => can_disable (o_InternalState o) = true -> o_InternalState o' = OnuStateDisabled)
    (Onus pp) (Onus pp').

Lemma pon_restarted_of pp pp' :
  pon_stopped (clear_pon pp) pp' -> pon_restarted pp (stop_loops pp').
Proof.
  intros (os & r & -> & Hrun). apply run_stop_empty in Hrun as [-> Hf]; [|apply clear_pon_res].
  split; [done|]. unfold stop_loops. cbn. split; [by apply Forall_fmap, Forall_true|].
  apply Forall2_fmap_r. eapply Forall2_impl; [exact Hf|]. by intros o o'.
Qed.

(** C5: restarting the OLT.  From the enabled or the disabled state, with ONUs
    that can be stopped, the restart ends in the initialized state with a new
    channel and the server running: every ONU that ran is disabled and no
    message loop is left, nothing is allocated on any PON, the flow tables have
    an empty entry for every PON and nothing else, and VOLTHA sees a device it
    was not connected to before. *)
Theorem restart_clears (s : OltDevice) (now : Z) (q : list Message) (n : NniPort) (ns : list NniPort) :
  olt_InternalState s ∈ [OltInternalStateDisabled; OltInternalStateEnabled] -> channel s = ChOpen q ->
  enableContext s = true -> Nnis s = n :: ns ->
  (forall pp, pp ∈ Pons s -> Forall onu_stoppable (Onus pp)) ->
  exists s', RestartOLT now s = Done (None, s') /\
    olt_InternalState s' = OltInternalStateInitialized /\ channel s' = ChOpen [] /\ OltServer s' = true /\
    PreviouslyConnected s' = false /\ loops s' = 0%nat /\ signature s' = u32 now /\
    Forall2 pon_restarted (Pons s) (Pons s') /\
    blank (GemPortIDs (flow_res s')) /\ blank (AllocIDs (flow_res s')) /\
    (forall p, (p < length (Pons s))%nat -> GemPortIDs (flow_res s') !! Z.of_nat p = Some ∅ /\
       AllocIDs (flow_res s') !! Z.of_nat p = Some ∅).
Proof.
  intros Hst Hq Hctx Hn Hall. unfold RestartOLT. erewrite bind_Done; [|reflexivity].
  set (s0 := s <| PreviouslyConnected := false |>). erewrite bind_Done; [|by apply delete_olt]. cbv beta iota.
  set (s1 := _ <| Pons ::= fmap clear_pon |>). erewrite bind_Done; [|reflexivity]. cbv beta.
  destruct (stop_pons s1) as (pps & R1 & H1).
  { intros pp (x & -> & Hx)%list_elem_of_fmap. exact (Hall x Hx). }
  erewrite bind_Done; [|exact R1]. set (s2 := s1 <| Pons := pps |>).
  erewrite bind_Done; [|reflexivity].
  erewrite bind_Done; [|unfold lift_upd; change (channel _) with (channel s); rewrite Hq; reflexivity].
  erewrite bind_Done; [|reflexivity]. cbv beta.
  erewrite bind_Done; [|change (enableContext _) with (enableContext s); rewrite Hctx; reflexivity].
  erewrite bind_Done; [|reflexivity]. set (s3 := _ <| signature := u32 now |>).
  rewrite (init_olt s3 n ns) by (done || (right; left)). eexists. split; [reflexivity|]. do 6 (split; [done|]).
  assert (length (Pons s3) = length (Pons s)) as Hlen.
  { change (Pons s3) with (stop_loops <$> pps). rewrite length_fmap, <-(Forall2_length _ _ _ H1).
    apply length_fmap. }
  split.
  { change (Forall2 pon_restarted (Pons s) (stop_loops <$> pps)). apply Forall2_fmap_r.
    change (Pons s1) with (clear_pon <$> Pons s) in H1. rewrite Forall2_fmap_l in H1.
    eapply Forall2_impl; [exact H1|]. apply pon_restarted_of. }
  destruct (init_blank (seq 0 (length (Pons s3))) no_flow_res) as [[Hb1 Hb2] Hin].
  { split; intros p onus H; unfold no_flow_res in H; cbn in H; by rewrite lookup_empty in H. }
  split; [exact Hb1|]. split; [exact Hb2|]. intros p Hp. apply Hin. left. apply elem_of_seq. lia.
Qed.

Lemma example_stoppable pp : pp ∈ Pons example_olt -> Forall onu_stoppable (Onus pp).
Proof.
  intros ->%list_elem_of_singleton. apply Forall_forall. intros o Ho _.
  assert (onu_ok o /\ o_Channel o = ChOpen []) as [H1 H2]; [|by split; [|exists []]].
  apply elem_of_cons in Ho as [->|Ho]; [split; [exact running_onu_ok|reflexivity]|].
  apply list_elem_of_singleton in Ho as ->. split; [exact running_onu_ok|reflexivity].
Qed.

Lemma restart_clears_witness :
  exists s', RestartOLT 5 example_olt = Done (None, s') /\
    olt_InternalState s' = OltInternalStateInitialized /\ signature s' = 5.
Proof.
  assert (olt_InternalState example_olt ∈ [OltInternalStateDisabled; OltInternalStateEnabled]) as Hst
    by (right; left).
  destruct (restart_clears example_olt 5 [] CreateNNI [] Hst eq_refl eq_refl eq_refl example_stoppable)
    as (s' & R & H1 & _ & _ & _ & _ & H2 & _).
  exact (ex_intro _ s' (conj R (conj H1 H2))).
Defined.

(** ** Removing flows *)

Lemma imap_pair_cons {A : Type} (x : A) (l : list A) :
  imap pair (x :: l) = (0%nat, x) :: ((fun ky => (S ky.1, ky.2)) <$> imap pair l).
Proof. rewrite imap_cons, fmap_imap. f_equal. Qed.

Lemma imap_bind_insert {A B : Type} (g : nat * A -> list B) p (l : list A) x y :
  l !! p = Some x -> g (p, y) = g (p, x) -> imap pair (<[p := y]> l) ≫= g = imap pair l ≫= g.
Proof.
  revert p g. induction l as [|z l IH]; intros [|p] g Hx Hg; try done.
  - cbn in Hx. simplify_eq. change (<[0%nat := y]> (x :: l)) with (y :: l). rewrite !imap_pair_cons, !bind_cons.
    by rewrite Hg.
  - change (<[S p := y]> (z :: l)) with (z :: <[p := y]> l). rewrite !imap_pair_cons, !bind_cons, !list_fmap_bind.
    f_equal. by apply IH.
Qed.

Lemma imap_insert_same {A B : Type} (f : nat -> A -> B) i (l : list A) x y :
  l !! i = Some x -> f i y = f i x -> imap f (<[i := y]> l) = imap f l.
Proof.
  intros Hx Hf. apply list_eq. intros j. rewrite !list_lookup_imap. destruct (decide (i = j)) as [<-|Hij].
  - rewrite list_lookup_insert_eq, Hx by (by eapply lookup_lt_Some). cbn. by rewrite Hf.
  - by rewrite list_lookup_insert_ne.
Qed.

Lemma fmap_bind {A B C : Type} (h : B -> C) (g : A -> list B) l : h <$> (l ≫= g) = l ≫= (fun x => h <$> g x).
Proof. induction l as [|x l IH]; [done|]. by rewrite !bind_cons, fmap_app, IH. Qed.

(** Searching the ONUs for something that did not change. *)
Lemma all_onus_put {B : Type} (f : Onu -> B) s p pp i o o' s' r :
  Pons s !! p = Some pp -> Onus pp !! i = Some o -> f o' = f o ->
  Pons s' = <[p := pp <| Onus ::= <[i := o']> |> <| pp_res := r |>]> (Pons s) ->
  (fun x => (x.1, f x.2)) <$> all_onus s' = (fun x => (x.1, f x.2)) <$> all_onus s.
Proof.
  intros Hp Ho Hf Hs'. unfold all_onus. rewrite Hs', !fmap_bind.
  apply (imap_bind_insert _ p (Pons s) pp); [done|]. cbn [Onus upd set_Onus set_pp_res].
  rewrite !fmap_imap. apply (imap_insert_same _ i (Onus pp) o); [done|]. cbn. by rewrite Hf.
Qed.

Lemma find_by {A B C : Type} (f : B -> C) (P : C -> Prop) `{!forall c, Decision (P c)} (l : list (A * B)) :
  (fun x => x.2.1) <$> list_find (fun x => P (f x.2)) l =
  (fun x => x.2.1) <$> list_find (fun x => P x.2) ((fun x => (x.1, f x.2)) <$> l).
Proof.
  induction l as [|[a b] l IH]; [done|]. cbn [list_find fmap list_fmap]. cbn.
  destruct (decide (P (f b))); [done|]. rewrite <-!option_fmap_compose. exact IH.
Qed.

Lemma GetOnuByFlowId_put s p pp i o o' id :
  Pons s !! p = Some pp -> Onus pp !! i = Some o -> FlowIds o' = FlowIds o ->
  forall s' r, Pons s' = <[p := pp <| Onus ::= <[i := o']> |> <| pp_res := r |>]> (Pons s) ->
  GetOnuByFlowId s' id = GetOnuByFlowId s id.
Proof.
  intros Hp Ho Hf s' r Hs'. unfold GetOnuByFlowId.
  rewrite !(find_by FlowIds (fun l => id ∈ l)), (all_onus_put FlowIds s p pp i o o' s' r) by done. done.
Qed.

Lemma publish_olt_Done ev s : exists l, publish_olt ev s = Done (tt, s <| olt_published := l |>).
Proof.
  unfold publish_olt. mred. destruct (olt_PublishEvents s).
  - by eexists.
  - exists (olt_published s). by rewrite same_published.
Qed.

(** The device once the flow was forgotten. *)
Lemma forget_flow_Done f stored s p pp i o :
  olt_Flows s !! FlowId f = Some stored -> AccessIntfId stored <> -1 ->
  find_onu s (u32 (AccessIntfId stored)) (u32 (fl_OnuId stored)) = inr (p, i) ->
  Pons s !! p = Some pp -> Onus pp !! i = Some o ->
  exists s', forget_flow f s = Done (None, s') /\ olt_Flows s' = delete (FlowId f) (olt_Flows s) /\
    flow_res s' = flow_res s /\
    Pons s' = <[p := pp <| Onus ::= <[i := o <| Flows ::= remove_first (FlowId f) |>]> |>
                        <| pp_res := pp_res pp |>]> (Pons s).
Proof.
  intros Hs Hst Hfind Hp Ho. unfold forget_flow. erewrite bind_Done; [|reflexivity]. cbv beta zeta.
  rewrite Hs, decide_False, Hfind by done.
  erewrite bind_Done; [|eapply (on_onu_local p i (DeleteFlow (FlowId f)) s pp o tt
    (o <| Flows ::= remove_first (FlowId f) |>) (pp_res pp)); [done|done|reflexivity]].
  set (s1 := set_onu _ _ _ _ _ _). destruct (publish_olt_Done "Flow-remove-received" s1) as [l Hl].
  erewrite bind_Done; [|exact Hl]. eexists. split; [reflexivity|]. done.
Qed.

(** Whatever the flow, the mode and the answer, only the two calls that free
    identifiers touch the flow tables. *)
Lemma FlowRemove_tables f s e s' :
  FlowRemove f s = Done (e, s') -> flow_res s' = freeAllocId f (freeGemPortId f (flow_res s)).
Proof.
  unfold FlowRemove. erewrite bind_Done; [|reflexivity].
  set (s0 := s <| flow_res ::= _ |>). change (freeAllocId f _) with (flow_res s0).
  set (Q := fun r => r = flow_res s0).
  assert (forall p i {A : Type} (m : M OnuSys A), preserves (fun s => Q (flow_res s)) (on_onu p i m)) as Hon
    by (intros; apply keeps_on_onu).
  match goal with |- ?m s0 = _ -> _ => assert (preserves (fun s => Q (flow_res s)) m) as Hk end.
  { unfold forget_flow. preserve; auto; try apply keeps_publish; by apply keeps_modify. }
  intros R. by apply (Hk s0 e s' eq_refl).
Qed.

(** C17: what removing a flow does.  Whatever the flow, the mode and the
    answer, exactly the uses its identifier made of GEM ports and alloc
    identifiers are gone from the flow tables.  Without the performance mode,
    a flow that is not stored is reported as not found and nothing else of the
    device changes.  A stored flow of a subscriber, neither of the NNI nor
    multicast, whose ONU is known, has already handled the flow (its
    identifier is in [FlowIds]) and has an open channel, is forgotten by the
    OLT and by the ONU, and the ONU is told. *)
Theorem flow_remove_effect (f stored : Flow) (s : OltDevice) (p i : nat) (o : Onu) (q : list Message) :
  (forall e s', FlowRemove f s = Done (e, s') ->
     (forall a b c d x, holds (GemPortIDs (flow_res s')) a b c d x <->
        holds (GemPortIDs (flow_res s)) a b c d x /\ x <> FlowId f) /\
     (forall a b c d x, holds (AllocIDs (flow_res s')) a b c d x <->
        holds (AllocIDs (flow_res s)) a b c d x /\ x <> FlowId f)) /\
  (enablePerf s = false -> olt_Flows s !! FlowId f = None ->
     FlowRemove f s = Done (Some "Flow not found",
       s <| flow_res ::= (fun r => freeAllocId f (freeGemPortId f r)) |>)) /\
  (enablePerf s = false -> AccessIntfId f <> -1 -> FlowType f <> "multicast" ->
   olt_Flows s !! FlowId f = Some stored -> AccessIntfId stored <> -1 ->
   find_onu s (u32 (AccessIntfId stored)) (u32 (fl_OnuId stored)) = inr (p, i) ->
   GetOnuByFlowId s (FlowId f) = Some (p, i) -> onu_at s p i = Some o -> o_Channel o = ChOpen q ->
   exists s', FlowRemove f s = Done (None, s') /\ olt_Flows s' = delete (FlowId f) (olt_Flows s) /\
     onu_at s' p i = Some (o <| Flows ::= remove_first (FlowId f) |>
                             <| o_Channel := ChOpen (q ++ [FlowRemoved 0 0 f]) |>)).
Proof.
  split; [|split].
  - intros e s' R. rewrite (FlowRemove_tables f s e s' R). split; intros a b c d x; apply holds_free.
  - intros Hperf Hs. unfold FlowRemove.
    set (s0 := s <| flow_res ::= (fun r => freeAllocId f (freeGemPortId f r)) |>).
    erewrite bind_Done; [|reflexivity]. fold s0. erewrite bind_Done; [|reflexivity]. cbv beta.
    change (enablePerf s0) with (enablePerf s). rewrite Hperf.
    erewrite bind_Done; [|unfold forget_flow; mred; change (olt_Flows s0) with (olt_Flows s); rewrite Hs; reflexivity].
    done.
  - intros Hperf Hintf Hty Hs Hst Hfind Hby Ho Hq. unfold FlowRemove.
    set (s0 := s <| flow_res ::= (fun r => freeAllocId f (freeGemPortId f r)) |>).
    unfold onu_at in Ho. apply bind_Some in Ho as (pp & Hp & Ho).
    destruct (forget_flow_Done f stored s0 p pp i o) as (s1 & R1 & L1 & F1 & P1); [done..|].
    set (o1 := o <| Flows ::= remove_first (FlowId f) |>) in P1.
    destruct (on_onu_at p i (send_self (FlowRemoved 0 0 f)) s1 o1 tt
      (o1 <| o_Channel := ChOpen (q ++ [FlowRemoved 0 0 f]) |>)) as (s2 & R2 & O2 & F2 & L2 & _).
    { unfold onu_at. rewrite P1, list_lookup_insert_eq by (by eapply lookup_lt_Some). cbn.
      apply list_lookup_insert_eq. by eapply lookup_lt_Some. }
    { intros pp'. unfold send_self. mred. change (o_Channel _) with (o_Channel o). rewrite Hq. by eexists. }
    exists s2. split; [|split; [by rewrite L2, L1|exact O2]].
    erewrite bind_Done; [|reflexivity]. fold s0. erewrite bind_Done; [|reflexivity]. cbv beta.
    change (enablePerf s0) with (enablePerf s). rewrite Hperf. erewrite bind_Done; [|exact R1].
    cbv beta iota. rewrite !decide_False by done. erewrite bind_Done; [|reflexivity]. cbv beta.
    rewrite (GetOnuByFlowId_put s p pp i o o1 (FlowId f) Hp Ho eq_refl s1 _ P1), Hby.
    by erewrite bind_Done; [|exact R2].
Qed.

(** The first flow was added and its ONU has handled it. *)
Definition with_flow : OltDevice :=
  match on_onu 0 0 (handleFlowAdd (example_flow 1 1024 1024 1)) after_flow with
  | Done (_, s) => s
  | _ => after_flow
  end.

Definition with_flow_onu : Onu := default (onu running_onu) (onu_at with_flow 0 0).

Lemma flow_remove_effect_witness :
  let f := example_flow 1 1024 1024 1 in
  exists s', FlowRemove f with_flow = Done (None, s') /\ olt_Flows s' = delete 1 (olt_Flows with_flow) /\
    ~ holds (GemPortIDs (flow_res s')) 0 1 16 1024 1.
Proof.
  intros f.
  destruct (flow_remove_effect f f with_flow 0 0 with_flow_onu [Types.FlowAdd 0 1 f]) as (Hg & _ & H).
  destruct H as (s' & R & L & _);
    [by vm_compute|done|done|by vm_compute|done|by vm_compute|by vm_compute|by vm_compute|by vm_compute|].
  exists s'. split; [exact R|]. split; [exact L|]. intros Hh. by apply (Hg _ _ R) in Hh as [_ Hh].
Defined.

(** ** Calls that go wrong *)

(** A refused flow stays in the table of flows of the OLT: here the alloc
    identifier of the second flow is used by the first ONU. *)
Lemma refused_flow_stored :
  match Olt.FlowAdd (example_flow 2 1030 1024 2) after_flow with
  | Done (e, s') => e = Some "allocId-already-in-use" /\ olt_Flows s' !! 2 = Some (example_flow 2 1030 1024 2)
  | _ => False
  end.
Proof. by vm_compute. Qed.

(** Calls about a PON or an ONU that does not exist dereference nil. *)
Lemma unknown_pon_panics (s : OltDevice) (i : Z) :
  GetPonById s i = None ->
  DisablePonIf i (s <| channel := ChOpen [] |>) = Panicked "invalid memory address or nil pointer dereference" /\
  EnablePonIf i (s <| channel := ChOpen [] |>) = Panicked "invalid memory address or nil pointer dereference".
Proof.
  intros Hn. unfold DisablePonIf, EnablePonIf, set_pon_if. split.
  all: erewrite bind_Done; [|reflexivity]; erewrite bind_Done; [|reflexivity].
  all: change (GetPonById (s <| channel := ChOpen [] |>) i) with (GetPonById s i); by rewrite Hn.
Qed.

Lemma GetOnuInfo_unknown_onu :
  GetOnuInfo 0 77 example_olt = Panicked "invalid memory address or nil pointer dereference".
Proof. reflexivity. Qed.

Lemma FlowAdd_unknown_pon (s : OltDevice) (f : Flow) :
  AccessIntfId f <> -1 -> FlowType f <> "multicast" -> GetPonById s (u32 (AccessIntfId f)) = None ->
  Olt.FlowAdd f s = Panicked "invalid memory address or nil pointer dereference".
Proof.
  intros Hi Hm Hn. unfold Olt.FlowAdd. erewrite bind_Done; [|reflexivity]. cbv beta.
  destruct (enablePerf s); (erewrite bind_Done; [|reflexivity]); rewrite !decide_False by done;
    unfold add_onu_flow; (erewrite bind_Done; [|reflexivity]); cbv beta; [by rewrite Hn|].
  change (GetPonById (s <| olt_Flows ::= ?g |>) (u32 (AccessIntfId f))) with (GetPonById s (u32 (AccessIntfId f))).
  by rewrite Hn.
Qed.
