(* ===== verification/OltWf.v ===== *)
(** * OLT: well-formed devices and lookups

    What [CreateOLT] builds and what its lookups find.  A created device has
    its ports and ONUs numbered by position, with serial numbers that print
    differently; every way the code looks an ONU up then finds that ONU. *)
From S2P Require Import Prelude Fsm Options OmciTypes Omci MibDb Packets Types Io Service.
From S2P Require Import PonRes AlarmSim UniPort Get Onu OnuOmci OnuLoop OltFlows OltSpec Olt OltProps.
Open Scope Z_scope.
Open Scope string_scope.

(** ** Searching *)

Lemma elem_of_all_onus s p i o : (p, i, o) ∈ all_onus s <-> onu_at s p i = Some o.
Proof.
  unfold all_onus, onu_at. rewrite list_elem_of_bind. split.
  - intros ([q pp] & Hin & Hq). apply elem_of_lookup_imap in Hq as (p' & pp' & [= -> ->] & Hp).
    apply elem_of_lookup_imap in Hin as (i' & o' & [= -> -> ->] & Hi). by rewrite Hp.
  - intros (pp & Hp & Hi)%bind_Some. exists (p, pp). split; apply elem_of_lookup_imap; eauto.
Qed.

(** Searching for the only element with a property finds it. *)
Lemma list_find_only {A : Type} (P : A -> Prop) `{!forall x, Decision (P x)} (l : list A) x :
  x ∈ l -> P x -> (forall y, y ∈ l -> P y -> y = x) -> exists n, list_find P l = Some (n, x).
Proof.
  intros Hx HP Ho. destruct (list_find P l) as [[n y]|] eqn:E.
  - apply list_find_Some in E as (Hn & Hy & _). exists n.
    rewrite (Ho y); [done|by eapply list_elem_of_lookup_2|done].
  - apply list_find_None in E. rewrite Forall_forall in E. by destruct (E x Hx).
Qed.

Section Find.
  Context (s : OltDevice) (p i : nat) (o : Onu).
  Hypothesis Hat : onu_at s p i = Some o.

Lemma FindOnuBySn_only :
  (forall p' i' o', onu_at s p' i' = Some o' ->
     OnuSnToString (o_SerialNumber o') = OnuSnToString (o_SerialNumber o) -> (p', i') = (p, i)) ->
  FindOnuBySn s (OnuSnToString (o_SerialNumber o)) = inr (p, i).
Proof.
  intros Ho. unfold FindOnuBySn.
  destruct (list_find_only (fun x => OnuSnToString (o_SerialNumber x.2) = OnuSnToString (o_SerialNumber o))
    (all_onus s) (p, i, o)) as [n ->]; [by apply elem_of_all_onus|done| |done].
  intros [[p' i'] o'] Hin%elem_of_all_onus Heq. specialize (Ho p' i' o' Hin Heq). simplify_eq. congruence.
Qed.

End Find.

(** Searching in a list of numbered elements. *)
Lemma list_find_imap {A B : Type} (P : A -> Prop) `{!forall x, Decision (P x)} (f : nat -> A -> B * A) (l : list A) :
  (forall i x, (f i x).2 = x) ->
  list_find (fun y => P y.2) (imap f l) = (fun nx => (nx.1, f nx.1 nx.2)) <$> list_find P l.
Proof.
  revert f. induction l as [|x l IH]; intros f Hf; [done|]. rewrite imap_cons. cbn [list_find].
  rewrite (decide_ext (P (f 0%nat x).2) (P x)) by (by rewrite Hf).
  destruct (decide (P x)); [done|]. rewrite IH by (intros; apply Hf). rewrite <-!option_fmap_compose.
  by destruct (list_find P l) as [[k y]|].
Qed.

(** The elements of the ports with a number, when the numbers are distinct. *)
Lemma bind_of_pon {B : Type} (g : nat -> PonPort -> list B) (id : Z) (l : list PonPort) :
  NoDup (pp_ID <$> l) ->
  imap pair l ≫= (fun '(p, pp) => if decide (pp_ID pp = id) then g p pp else []) =
  match list_find (fun pp => pp_ID pp = id) l with Some (p, pp) => g p pp | None => [] end.
Proof.
  revert g. induction l as [|x l IH]; intros g Hnd; [done|]. cbn in Hnd. apply NoDup_cons in Hnd as [Hx Hnd].
  rewrite imap_pair_cons, bind_cons, list_fmap_bind. cbn [list_find].
  rewrite (list_bind_ext _ (fun '(p, pp) => if decide (pp_ID pp = id) then g (S p) pp else [])
    (imap pair l) (imap pair l)) by (done || by intros []).
  rewrite (IH (fun p => g (S p))) by done. destruct (decide (pp_ID x = id)) as [<-|Hne].
  - destruct (list_find _ l) as [[p pp]|] eqn:E; [|by rewrite app_nil_r].
    apply list_find_Some in E as (Hp & Heq & _). destruct Hx. rewrite <-Heq.
    apply list_elem_of_fmap. exists pp. split; [done|]. by eapply list_elem_of_lookup_2.
  - cbn [app]. by destruct (list_find _ l) as [[p pp]|].
Qed.

(** ** Devices as they are created *)

(** The [i]-th ONU of PON [p], as it was created. *)
Record onu_created (olt p i : Z) (o : Onu) : Prop := {
  oc_id : o_ID o = i + 1;
  oc_pon : o_PonPortID o = p;
  oc_sn : o_SerialNumber o = NewSN (p * 2 ^ 32 + i) olt p (i + 1);
  oc_state : o_InternalState o = OnuStateCreated;
  oc_flows : Flows o = [] /\ FlowIds o = [] /\ o_Channel o = ChNil;
  oc_unis : forall k un, o_UniPorts o !! k = Some un -> uni_ID un = Z.of_nat k /\ Z.of_nat k < maxUniPorts }.

Record pon_created (olt numOnu p : Z) (pp : PonPort) : Prop := {
  pc_id : pp_ID pp = p;
  pc_state : pp_InternalState pp = ponStateCreated /\ pp_OperState pp = "down" /\ pp_res pp = empty_res;
  pc_count : Z.of_nat (length (Onus pp)) = numOnu;
  pc_onus : forall i o, Onus pp !! i = Some o -> onu_created olt p (Z.of_nat i) o }.

Section Created.
  Context `{OmciLib}.

Lemma create_onu_unis_created cfg pon id n i c t us c' t' :
  create_onu_unis cfg pon id n i c t = Done (us, c', t') ->
  forall k un, us !! k = Some un -> uni_ID un = i + Z.of_nat k /\ i + Z.of_nat k < maxUniPorts.
Proof.
  revert i c t us. induction n as [|n IH]; intros i c t us; cbn [create_onu_unis]; [by intros [= <- <- <-]|].
  unfold NewUniPort. case_decide as Hi; [done|].
  destruct (new_services _ _ _ _ _ _ _ _) as [[[vs c1] t1]| | |]; [|done..]. cbn [mbind outcome_bind].
  destruct (create_onu_unis _ _ _ n _ _ _) as [[[us' c2] t2]| | |] eqn:E; [|done..]. cbn [mbind outcome_bind].
  intros [= <- <- <-] [|k] un Hk.
  - cbn in Hk. simplify_eq. cbn. lia.
  - cbn in Hk. destruct (IH _ _ _ _ E k un Hk). lia.
Qed.

Lemma CreateONU_created cfg pon id addr isMock c t o c' t' :
  CreateONU cfg pon id addr isMock c t = Done (o, c', t') ->
  o_ID o = id /\ o_PonPortID o = pon /\ o_SerialNumber o = NewSN addr (cfg_olt cfg) pon id /\
  o_InternalState o = OnuStateCreated /\ (Flows o = [] /\ FlowIds o = [] /\ o_Channel o = ChNil) /\
  forall k un, o_UniPorts o !! k = Some un -> uni_ID un = Z.of_nat k /\ Z.of_nat k < maxUniPorts.
Proof.
  unfold CreateONU. destruct (create_onu_unis _ _ _ _ _ _ _) as [[[us c1] t1]| | |] eqn:E; [|done..].
  cbn [mbind outcome_bind]. set (g := GenerateMibDatabase _ _ _ _ _).
  destruct g as [db| | |]; [|done..]. cbn [mbind outcome_bind]. intros [= <- <- <-].
  repeat split_and!; try done; by eapply (create_onu_unis_created _ _ _ _ 0).
Qed.

Lemma create_onus_created cfg pon isMock n j c t os c' t' :
  0 <= j -> j + Z.of_nat n < 2 ^ 32 -> create_onus cfg pon isMock n j c t = Done (os, c', t') ->
  length os = n /\
  forall i o, os !! i = Some o -> onu_created (cfg_olt cfg) pon (j + Z.of_nat i) o.
Proof.
  revert j c t os. induction n as [|n IH]; intros j c t os Hj Hn; cbn [create_onus].
  { intros [= <- <- <-]. done. }
  destruct (CreateONU _ _ _ _ _ _ _) as [[[o c1] t1]| | |] eqn:E; [|done..]. cbn [mbind outcome_bind].
  destruct (create_onus _ _ _ n _ _ _) as [[[os' c2] t2]| | |] eqn:E'; [|done..]. cbn [mbind outcome_bind].
  intros [= <- <- <-]. apply IH in E' as [Hl Hos]; [|lia..]. split; [cbn; by f_equal|].
  intros [|i] o' Ho.
  - cbn in Ho. simplify_eq. apply CreateONU_created in E as (H1 & H2 & H3 & H4 & H5 & H6).
    unfold u32 in H1, H3. rewrite Z.mod_small in H1, H3 by lia. rewrite Z.add_0_r. by split.
  - replace (j + Z.of_nat (S i)) with (j + 1 + Z.of_nat i) by lia. by apply Hos.
Qed.

Lemma create_pons_created cfg pons numOnu isMock n i c t ports :
  0 <= numOnu < 2 ^ 32 -> 0 <= i -> i + Z.of_nat n <= 2 ^ 32 ->
  create_pons cfg pons numOnu isMock n i c t = Done ports ->
  length ports = n /\
  forall p pp, ports !! p = Some pp -> pon_created (cfg_olt cfg) numOnu (i + Z.of_nat p) pp.
Proof.
  intros Hnum. revert i c t ports. induction n as [|n IH]; intros i c t ports Hi Hn; cbn [create_pons].
  { intros [= <-]. done. }
  destruct (GetPonConfigById _ _) as [|ponConf]; [done|].
  destruct (PonTechnologyFromString _) as [tech [e|]]; [done|]. case_decide; [done|].
  destruct (create_onus _ _ _ _ _ _ _) as [[[os c1] t1]| | |] eqn:E; [|done..]. cbn [mbind outcome_bind].
  destruct (create_pons _ _ _ _ n _ _ _) as [rest| | |] eqn:E'; [|done..]. cbn [mbind outcome_bind].
  intros [= <-]. apply IH in E' as [Hl Hos]; [|lia..]. split; [cbn; by f_equal|].
  intros [|p] pp Hp.
  - cbn in Hp. simplify_eq. apply create_onus_created in E as [Hlo Ho]; [|lia..].
    rewrite Z.add_0_r. split; cbn; [unfold u32; by rewrite Z.mod_small by lia|done|lia|].
    intros k o Hk. apply Ho in Hk. unfold u32 in Hk. rewrite Z.mod_small in Hk by lia.
    by rewrite Z.add_0_l in Hk.
  - replace (i + Z.of_nat (S p)) with (i + 1 + Z.of_nat p) by lia. by apply Hos.
Qed.

(** A device whose ports and ONUs are as they were created. *)
Record olt_created (olt numPon numOnu : Z) (s : OltDevice) : Prop := {
  ol_count : Z.of_nat (length (Pons s)) = numPon;
  ol_pons : forall p pp, Pons s !! p = Some pp -> pon_created olt numOnu (Z.of_nat p) pp;
  ol_flows : olt_Flows s = ∅ /\ blank (GemPortIDs (flow_res s)) /\ blank (AllocIDs (flow_res s));
  ol_maps : forall p, (p < length (Pons s))%nat ->
    GemPortIDs (flow_res s) !! Z.of_nat p = Some ∅ /\ AllocIDs (flow_res s) !! Z.of_nat p = Some ∅ }.

Lemma init_maps_blank n :
  let r := foldl (fun r p => init_pon_maps (Z.of_nat p) r) no_flow_res (seq 0 n) in
  (blank (GemPortIDs r) /\ blank (AllocIDs r)) /\
  forall p, (p < n)%nat -> GemPortIDs r !! Z.of_nat p = Some ∅ /\ AllocIDs r !! Z.of_nat p = Some ∅.
Proof.
  destruct (init_blank (seq 0 n) no_flow_res) as [Hb Hin].
  { split; intros p onus Hp; unfold no_flow_res in Hp; cbn in Hp; by rewrite lookup_empty in Hp. }
  split; [done|]. intros p Hp. apply Hin. left. apply elem_of_seq. lia.
Qed.

Lemma CreateOLT_created id speed numPon numOnu m publish perf isMock now cfg pons s :
  0 <= numPon <= 2 ^ 32 -> 0 <= numOnu < 2 ^ 32 ->
  CreateOLT id speed numPon numOnu m publish perf isMock now cfg pons = Done (Some s) ->
  olt_created (cfg_olt cfg) numPon numOnu s /\
  olt_InternalState s = (if isMock then OltInternalStateCreated else OltInternalStateInitialized) /\
  OltServer s = negb isMock.
Proof.
  intros Hp Ho. unfold CreateOLT.
  destruct (create_pons _ _ _ _ _ _ _ _) as [ports| | |] eqn:E; [|done..]. cbn [mbind outcome_bind].
  apply create_pons_created in E as [Hl Hpp]; [|lia..].
  assert (seq 0 (length ports) = seq 0 (Z.to_nat numPon)) as Hseq by by rewrite Hl.
  destruct (init_maps_blank (Z.to_nat numPon)) as [Hb Hm].
  destruct isMock.
  - intros [= <-]. split; [|done]. split; cbn -[Z.of_nat]; [lia|done|split; [done|exact Hb]|].
    intros p. rewrite Hl. apply Hm.
  - set (s0 := Build_OltDevice _ _ _ _ _ _ _ _ _ _ _ _ _ _ _ _ _ _ _ _ _ _).
    rewrite (init_olt s0 CreateNNI []); [|by left|done|done]. cbn [mbind outcome_bind]. intros [= <-].
    split; [|done].
    destruct (init_blank (seq 0 (Z.to_nat numPon)) (flow_res s0) Hb) as [Hb' Hin]. rewrite <-Hseq in Hb', Hin.
    split; [change (Z.of_nat (length ports) = numPon); lia|exact Hpp|split; [done|exact Hb']|].
    intros p Hlt. apply Hin. left. apply elem_of_seq. split; [lia|exact Hlt].
Qed.

(** The ONUs of a created device are told apart by their printed serial numbers
    as long as PON ports and ONUs are numbered within a byte. *)
Lemma created_sn_distinct olt numPon numOnu s p i o p' i' o' :
  olt_created olt numPon numOnu s -> numPon <= 256 -> numOnu <= 255 ->
  onu_at s p i = Some o -> onu_at s p' i' = Some o' ->
  OnuSnToString (o_SerialNumber o') = OnuSnToString (o_SerialNumber o) -> (p', i') = (p, i).
Proof.
  intros [Hc Hpons _ _] Hp Ho (pp & Hpp & Hi)%bind_Some (pp' & Hpp' & Hi')%bind_Some Heq.
  pose proof (lookup_lt_Some _ _ _ Hpp). pose proof (lookup_lt_Some _ _ _ Hpp').
  destruct (Hpons p pp Hpp) as [_ _ Hn Hos]. destruct (Hpons p' pp' Hpp') as [_ _ Hn' Hos'].
  pose proof (lookup_lt_Some _ _ _ Hi). pose proof (lookup_lt_Some _ _ _ Hi').
  rewrite (oc_sn _ _ _ _ (Hos i o Hi)), (oc_sn _ _ _ _ (Hos' i' o' Hi')) in Heq.
  apply OnuSnToString_inj in Heq; [|done| |].
  - apply NewSN_injective in Heq as [Hpp1 Hii1]; unfold is_u8; [|lia..].
    assert (p' = p) by lia. assert (i' = i) by lia. by subst.
  - unfold NewSN, u8. cbn [VendorSpecific]. repeat constructor; unfold is_u8; lia || apply Z.mod_pos_bound; lia.
  - unfold NewSN, u8. cbn [VendorSpecific]. repeat constructor; unfold is_u8; lia || apply Z.mod_pos_bound; lia.
Qed.

(** With more than 256 ONUs on a PON the byte of the serial number that tells
    them apart wraps around: the ONU 256 places further on has the same printed
    serial number, and looking for either finds the same one. *)
Lemma serial_numbers_collide olt numPon numOnu s p i o o' :
  olt_created olt numPon numOnu s -> onu_at s p i = Some o -> onu_at s p (i + 256) = Some o' ->
  OnuSnToString (o_SerialNumber o') = OnuSnToString (o_SerialNumber o) /\
  FindOnuBySn s (OnuSnToString (o_SerialNumber o')) = FindOnuBySn s (OnuSnToString (o_SerialNumber o)).
Proof.
  intros [_ Hpons _ _] (pp & Hpp & Hi)%bind_Some Ho'. unfold onu_at in Ho'. rewrite Hpp in Ho'. cbn in Ho'.
  destruct (Hpons p pp Hpp) as [_ _ _ Hos].
  assert (OnuSnToString (o_SerialNumber o') = OnuSnToString (o_SerialNumber o)) as Heq; [|by rewrite Heq].
  rewrite (oc_sn _ _ _ _ (Hos i o Hi)), (oc_sn _ _ _ _ (Hos _ o' Ho')).
  assert (u8 (Z.of_nat (i + 256) + 1) = u8 (Z.of_nat i + 1)) as Hu.
  { unfold u8. replace (Z.of_nat (i + 256) + 1) with (Z.of_nat i + 1 + 1 * 2 ^ 8) by lia.
    apply Z_mod_plus_full. }
  unfold OnuSnToString, NewSN. cbn [VendorSpecific VendorId]. by rewrite Hu.
Qed.

Lemma created_nodup olt numPon numOnu s : olt_created olt numPon numOnu s -> NoDup (pp_ID <$> Pons s).
Proof.
  intros [_ Hpons _ _]. apply NoDup_alt. intros p q x. rewrite !list_lookup_fmap.
  intros (pp & Hp & ->)%fmap_Some (qq & Hq & Heq)%fmap_Some.
  destruct (Hpons p pp Hp) as [Hpp _ _ _], (Hpons q qq Hq) as [Hqq _ _ _]. lia.
Qed.

(** The first element with a property, when the property decides the position. *)
Lemma list_find_at {A : Type} (P : A -> Prop) `{!forall x, Decision (P x)} (l : list A) n x :
  l !! n = Some x -> P x -> (forall m y, l !! m = Some y -> P y -> m = n) -> list_find P l = Some (n, x).
Proof.
  intros Hx HP Ho. apply list_find_Some. split; [done|]. split; [done|].
  intros m y Hm Hlt HPy. specialize (Ho m y Hm HPy). lia.
Qed.

Lemma created_find_onu olt numPon numOnu s p i o :
  olt_created olt numPon numOnu s -> onu_at s p i = Some o ->
  find_onu s (Z.of_nat p) (Z.of_nat i + 1) = inr (p, i).
Proof.
  intros [Hc Hpons _ _] (pp & Hp & Hi)%bind_Some. destruct (Hpons p pp Hp) as [Hid _ _ Hos].
  unfold find_onu, GetPonById. rewrite (list_find_at _ (Pons s) p pp); [|done|done|].
  - cbn [fmap option_fmap option_map fst]. rewrite Hp. cbn [mbind option_bind]. unfold GetOnuById.
    rewrite (list_find_at _ (Onus pp) i o); [done|done|by apply (Hos i o)|].
    intros j o' Hj Hid'. rewrite (oc_id _ _ _ _ (Hos j o' Hj)) in Hid'. lia.
  - intros q qq Hq Hqid. destruct (Hpons q qq Hq) as [Hqq _ _ _]. lia.
Qed.
End Created.

(** ** Properties *)

(** The two ways the code looks up an ONU by the numbers of its PON and its
    own (a loop over everything for the API, the PON first for VOLTHA's calls)
    agree on every device whose PON ports are numbered apart, whatever the
    numbers VOLTHA gave to the ONUs. *)
Theorem FindOnuById_find_onu (s : OltDevice) (intfId onuId : Z) (p i : nat) :
  NoDup (pp_ID <$> Pons s) ->
  FindOnuById s intfId onuId = inr (p, i) <-> find_onu s intfId onuId = inr (p, i).
Proof.
  intros Hnd. unfold FindOnuById, find_onu, GetPonById.
  rewrite (bind_of_pon (fun p pp => imap (fun i o => (p, i, o)) (Onus pp))) by done.
  destruct (list_find (fun pp => pp_ID pp = intfId) (Pons s)) as [[q pp]|] eqn:E; [|done].
  apply list_find_Some in E as (Hq & _ & _). cbn [fmap option_fmap option_map fst]. rewrite Hq.
  cbn [mbind option_bind]. unfold GetOnuById.
  assert (list_find (fun x => o_ID x.2 = onuId) (imap (fun i o => (q, i, o)) (Onus pp)) =
    (fun nx => (nx.1, (q, nx.1, nx.2))) <$> list_find (fun o => o_ID o = onuId) (Onus pp)) as ->
    by exact (list_find_imap (fun o => o_ID o = onuId) (fun i o => (q, i, o)) (Onus pp) (fun _ _ => eq_refl)).
  by destruct (list_find _ (Onus pp)) as [[n o]|].
Qed.

Lemma FindOnuById_find_onu_witness : FindOnuById example_olt 0 1 = inr (0%nat, 0%nat).
Proof.
  apply FindOnuById_find_onu; [|by vm_compute]. apply NoDup_singleton.
Defined.

(** C18: what [CreateOLT] builds.  When it returns a device, the ports are
    numbered from 0 and the ONUs of each port from 1, each with the serial
    number of its place, nothing is allocated, every PON has empty flow tables,
    and the OLT is initialized with its server running (created, without a
    server, for BBR); within the range of a byte, looking an ONU up by its
    printed serial number, or by its PON and identifier, finds exactly it. *)
Theorem CreateOLT_well_formed `{OmciLib} (id speed numPon numOnu : Z) (m : string) (publish perf isMock : bool)
    (now : Z) (cfg : OnuConfig) (pons : PonPortsConfig) (s : OltDevice) :
  0 <= numPon <= 256 -> 0 <= numOnu <= 255 ->
  CreateOLT id speed numPon numOnu m publish perf isMock now cfg pons = Done (Some s) ->
  olt_created (cfg_olt cfg) numPon numOnu s /\
  olt_InternalState s = (if isMock then OltInternalStateCreated else OltInternalStateInitialized) /\
  OltServer s = negb isMock /\
  forall p i o, onu_at s p i = Some o ->
    FindOnuBySn s (OnuSnToString (o_SerialNumber o)) = inr (p, i) /\
    find_onu s (Z.of_nat p) (Z.of_nat i + 1) = inr (p, i).
Proof.
  intros Hp Ho Hr.
  destruct (CreateOLT_created id speed numPon numOnu m publish perf isMock now cfg pons s) as (Hc & Hs1 & Hs2);
    [lia|lia|done|].
  split; [done|]. split; [done|]. split; [done|]. intros p i o Hat. split; [|by eapply created_find_onu].
  apply FindOnuBySn_only; [done|]. intros p' i' o' Hat' Heq.
  eapply created_sn_distinct; [exact Hc|lia|lia|exact Hat|exact Hat'|exact Heq].
Qed.

Definition one_pon : PonPortsConfig :=
  match getDefaultPonsConfig (Some default_OltConfig) (Some 1) with
  | inr c => c
  | inl _ => {| Number := 0; Ranges := [] |}
  end.
Definition small_config : OnuConfig := {|
  cfg_services := [att_hsia]; cfg_olt := 0; cfg_rate := 10; cfg_NumUni := 1; cfg_NumPots := 1;
  cfg_tech := XGSPON; cfg_unknownAttributes := false; cfg_unknownMe := false |}.
Definition small_olt : OltDevice :=
  match @CreateOLT trivial_omci 0 10000 1 1 "default" false false false 5 small_config one_pon with
  | Done (Some s) => s
  | _ => example_olt
  end.

Lemma CreateOLT_well_formed_witness : olt_created 0 1 1 small_olt /\ OltServer small_olt = true.
Proof.
  destruct (@CreateOLT_well_formed trivial_omci 0 10000 1 1 "default" false false false 5 small_config one_pon
    small_olt) as (H1 & _ & H2 & _); [lia|lia|by vm_compute|]. exact (conj H1 H2).
Defined.
