(* ===== verification/OltCycle.v ===== *)
(** * OLT: disabling the device and enabling it again

    [DisableOlt] and [ReenableOlt] only put messages on the channel of the
    device; what they are for happens when the message loop takes them.  This
    file runs the two together: the calls of [Olt] followed by rounds of
    [recv_olt], over every PON port of the device. *)
From S2P Require Import Prelude Fsm Options OmciTypes Omci MibDb Packets Types Io Dhcp DhcpServer Service.
From S2P Require Import PonRes AlarmSim UniPort Get Onu OnuOmci OnuLoop OltFlows OltSpec Olt OltProps OltWf.
Open Scope Z_scope.
Open Scope string_scope.

(** Rounds of the message loop. *)
Fixpoint olt_rounds (n : nat) : M OltDevice unit :=
  match n with O => skip | S n => recv_olt ;; olt_rounds n end.

(** ** The message loop *)

Lemma olt_rounds_idle n s : channel s = ChOpen [] -> olt_rounds n s = Done (tt, s).
Proof.
  intros Hc. induction n as [|n IH]; [done|]. cbn [olt_rounds].
  erewrite bind_Done; [exact IH|]. unfold recv_olt. erewrite bind_Done; [|reflexivity]. cbv beta. by rewrite Hc.
Qed.

(** A round takes the oldest message. *)
Lemma olt_round m q s s' n :
  channel s = ChOpen (m :: q) -> handle_olt_message m (s <| channel := ChOpen q |>) = Done (tt, s') ->
  olt_rounds (S n) s = olt_rounds n s'.
Proof.
  intros Hc Hm. cbn [olt_rounds]. erewrite bind_Done; [reflexivity|].
  unfold recv_olt. erewrite bind_Done; [|reflexivity]. cbv beta. rewrite Hc.
  erewrite bind_Done; [|reflexivity]. cbv beta. by erewrite bind_Done; [|exact Hm].
Qed.

Lemma olt_rounds_split m n s : olt_rounds (m + n) s = (olt_rounds m ;; olt_rounds n) s.
Proof.
  revert s. induction m as [|m IH]; intros s; [done|]. cbn [Nat.add olt_rounds].
  unfold mbind, M_bind in *. destruct (recv_olt s) as [[b t]| | |]; [|done..]. apply IH.
Qed.

(** ** Sending one message per PON port *)

(** The messages for the ports in a state. *)
Definition pon_messages (st : OperState) (cond : string) (l : list PonPort) : list Message :=
  l ≫= (fun pp => if decide (pp_InternalState pp = cond) then [PonIndication st (pp_ID pp)] else []).

Lemma send_pon_messages st cond l q s :
  channel s = ChOpen q ->
  for_each l (fun pp => if decide (pp_InternalState pp = cond) then send_olt (PonIndication st (pp_ID pp)) else skip) s =
    Done (tt, s <| channel := ChOpen (q ++ pon_messages st cond l) |>).
Proof.
  revert q s. induction l as [|pp l IH]; intros q s Hc.
  { cbn. rewrite app_nil_r. destruct s. cbn in *. by rewrite Hc. }
  cbn [for_each pon_messages mbind list_bind]. case_decide.
  - erewrite bind_Done; [|unfold send_olt, lift_upd; by rewrite Hc].
    rewrite (IH (q ++ [PonIndication st (pp_ID pp)])%list) by done. f_equal. f_equal. destruct s. cbn.
    unfold upd, set_channel. cbn. f_equal. by rewrite <-app_assoc.
  - erewrite bind_Done; [|reflexivity]. by apply IH.
Qed.

Lemma DisableOlt_queues s q :
  channel s = ChOpen q -> exists l,
  DisableOlt s = Done (None, s <| olt_published := l |>
    <| channel := ChOpen (q ++ pon_messages DOWN ponStateEnabled (Pons s) ++ [OltIndication DOWN]) |>).
Proof.
  intros Hc. destruct (publish_olt_Done "OLT-disable-received" s) as (l & Hp). exists l.
  unfold DisableOlt. erewrite bind_Done; [|exact Hp]. erewrite bind_Done; [|reflexivity]. cbv beta.
  erewrite bind_Done; [|by apply send_pon_messages].
  unfold send_olt. mred. cbn. f_equal. f_equal. destruct s. unfold upd, set_channel, set_olt_published. cbn.
  by rewrite <-app_assoc.
Qed.

Lemma ReenableOlt_queues s q :
  channel s = ChOpen q -> exists l,
  ReenableOlt s = Done (None, s <| olt_published := l |>
    <| channel := ChOpen (q ++ OltIndication UP :: pon_messages UP ponStateDisabled (Pons s)) |>).
Proof.
  intros Hc. destruct (publish_olt_Done "OLT-reenable-received" s) as (l & Hp). exists l.
  unfold ReenableOlt. erewrite bind_Done; [|exact Hp].
  erewrite bind_Done; [|unfold send_olt, lift_upd; change (channel (s <| olt_published := l |>)) with (channel s);
    by rewrite Hc].
  erewrite bind_Done; [|reflexivity]. cbv beta.
  erewrite bind_Done; [|by apply send_pon_messages].
  unfold mret, M_ret. f_equal. f_equal. destruct s. unfold upd, set_channel, set_olt_published. cbn. by rewrite <-app_assoc.
Qed.

(** ** The message loop over the ports *)

Lemma GetPonById_at s p pp :
  NoDup (pp_ID <$> Pons s) -> Pons s !! p = Some pp -> GetPonById s (pp_ID pp) = Some p.
Proof.
  intros Hnd Hp. unfold GetPonById. rewrite (list_find_at _ _ p pp); [done|done|done|].
  intros k x Hk Hx. eapply (NoDup_lookup (pp_ID <$> Pons s)); [done|..].
  - rewrite list_lookup_fmap, Hk. cbn. by rewrite Hx.
  - by rewrite list_lookup_fmap, Hp.
Qed.

Section Ports.
  Context (st : OperState) (cond oper : string) (m : mode).
  Context (Good : PonPort -> Prop) (R : PonPort -> PonPort -> Prop).
  Hypothesis step : forall s p pp, GetPonById s (pp_ID pp) = Some p -> Pons s !! p = Some pp ->
    pp_InternalState pp = cond -> Good pp -> ControlledActivation s = m ->
    exists pp', handle_pon_indication st (pp_ID pp) s = Done (tt, put_pon p pp' (tell_pon (pp_ID pp) oper s)) /\
      pp_ID pp' = pp_ID pp /\ R pp pp'.

(** What the ports in the state are told, and what becomes of a port. *)
Definition tell_ports (l : list PonPort) (w : Stream) : Stream :=
  foldl (fun w pp => if decide (pp_InternalState pp = cond) then pon_indications (pp_ID pp) oper w else w) w l.
Definition port_change (pp pp' : PonPort) : Prop :=
  pp_ID pp' = pp_ID pp /\ if decide (pp_InternalState pp = cond) then R pp pp' else pp' = pp.

Lemma ports_rounds todo : forall done s q,
  Pons s = (done ++ todo)%list -> NoDup (pp_ID <$> Pons s) -> ControlledActivation s = m -> Forall Good todo ->
  channel s = ChOpen (pon_messages st cond todo ++ q) ->
  exists pps, olt_rounds (length (pon_messages st cond todo)) s =
      Done (tt, s <| Pons := (done ++ pps)%list |> <| OpenoltStream := tell_ports todo (OpenoltStream s) |>
                  <| channel := ChOpen q |>) /\
    Forall2 port_change todo pps.
Proof.
  induction todo as [|pp todo IH]; intros done s q Hs Hnd Hm Hg Hc.
  { exists []. split; [|constructor]. cbn in *. rewrite <-Hs, <-Hc. by destruct s. }
  inversion Hg as [|? ? Hgood Hrest]; subst. unfold port_change. cbn [pon_messages mbind list_bind tell_ports foldl] in *.
  case_decide as Hst; cbn [app length] in *.
  - set (s0 := s <| channel := ChOpen (pon_messages st cond todo ++ q) |>).
    assert (Pons s0 !! length done = Some pp) as Hp.
    { change (Pons s0) with (Pons s). rewrite Hs, lookup_app_r, Nat.sub_diag by lia. done. }
    destruct (step s0 (length done) pp) as (pp' & Hr & Hid & HR); [by apply GetPonById_at|done..|].
    rewrite (olt_round _ _ s _ _ Hc Hr). fold s0.
    set (s1 := put_pon _ _ _).
    assert (Pons s1 = ((done ++ [pp']) ++ todo)%list) as Hs1.
    { unfold s1, put_pon. cbn. rewrite Hs, insert_app_r_alt, Nat.sub_diag by lia. cbn. by rewrite <-app_assoc. }
    destruct (IH (done ++ [pp'])%list s1 q) as (pps & Hrun & Hall); try done.
    { rewrite Hs1, <-app_assoc. rewrite Hs in Hnd. rewrite fmap_app in *. cbn in *. by rewrite Hid. }
    exists (pp' :: pps). split; [|constructor; [by rewrite decide_True|exact Hall]].
    unfold pon_messages in Hrun |- *. rewrite Hrun. rewrite <-app_assoc. by destruct s.
  - destruct (IH (done ++ [pp])%list s q) as (pps & Hrun & Hall); try done; [by rewrite <-app_assoc|].
    exists (pp :: pps). split; [|constructor; [by rewrite decide_False|exact Hall]].
    unfold pon_messages in Hrun |- *. rewrite Hrun. by rewrite <-app_assoc.
Qed.
End Ports.

(** ** The device itself *)

Definition olt_indication (st : string) (w : Stream) : Stream :=
  if decide (s_err w = None) then w <| s_sent ::= (fun l => l ++ [IndOlt st])%list |> else w.

(** The device in a state of both its machines, with VOLTHA told. *)
Definition olt_turned (internal oper : string) (s : OltDevice) : OltDevice :=
  s <| olt_InternalState := internal |> <| olt_OperState := oper |>
    <| OpenoltStream := olt_indication oper (OpenoltStream s) |>.

Definition olt_is (internal oper : string) (s : OltDevice) : Prop :=
  olt_InternalState s = internal /\ olt_OperState s = oper.

Lemma sendOltIndication_spec st s :
  sendOltIndication st s = Done (tt, s <| OpenoltStream := olt_indication (OperState_String st) (OpenoltStream s) |>).
Proof.
  unfold sendOltIndication, olt_send, olt_indication. mred. unfold Send.
  destruct s as [? ? ? ? ? ? ? ? ? ? ? ? ? ? ? ? [e l]]. by destruct e.
Qed.

(** Both machines of the device take an event. *)
Lemma olt_events_spec ev oev s st ost :
  transitions olt_events ev (olt_InternalState s) = Some st -> olt_InternalState s <> st ->
  st <> OltInternalStateInitialized -> st <> OltInternalStateDeleted ->
  transitions oper_events oev (olt_OperState s) = Some ost -> olt_OperState s <> ost ->
  (Event olt_fsm ev ;; Event olt_oper_fsm oev ;; skip) s =
    Done (tt, s <| olt_InternalState := st |> <| olt_OperState := ost |>).
Proof.
  intros Ht Hne Hi Hd Hot Hone.
  erewrite bind_Done; [|rewrite (Event_ok _ _ s st) by done; cbn [fsm_enter olt_fsm];
    rewrite !decide_False by done; reflexivity].
  erewrite bind_Done; [reflexivity|]. by rewrite (Event_ok _ _ _ ost) by done.
Qed.

Lemma olt_goes_down s :
  olt_is OltInternalStateEnabled "up" s ->
  handle_olt_message (OltIndication DOWN) s = Done (tt, olt_turned OltInternalStateDisabled "down" s).
Proof.
  intros [Hi Ho]. cbn [handle_olt_message].
  erewrite bind_Done; [|apply (olt_events_spec _ _ s OltInternalStateDisabled "down"); by rewrite ?Hi, ?Ho].
  apply sendOltIndication_spec.
Qed.

Lemma olt_goes_up s :
  olt_is OltInternalStateDisabled "down" s ->
  handle_olt_message (OltIndication UP) s = Done (tt, olt_turned OltInternalStateEnabled "up" s).
Proof.
  intros [Hi Ho]. cbn [handle_olt_message].
  erewrite bind_Done; [|apply (olt_events_spec _ _ s OltInternalStateEnabled "up"); by rewrite ?Hi, ?Ho].
  apply sendOltIndication_spec.
Qed.

(** ** Calls and loop together *)

Lemma pon_messages_length st cond l : (length (pon_messages st cond l) <= length l)%nat.
Proof.
  induction l as [|pp l IH]; [done|].
  change (pon_messages st cond (pp :: l)) with
    ((if decide (pp_InternalState pp = cond) then [PonIndication st (pp_ID pp)] else []) ++ pon_messages st cond l)%list.
  rewrite length_app. case_decide; cbn; lia.
Qed.

(** A port that goes down, and one that comes up. *)
Definition dropped (pp pp' : PonPort) : Prop := exists os r,
  pp' = pon_after ponStateDisabled "down" os r pp /\ onus_run R_down (Onus pp) (pp_res pp) os r.
Definition raised (pp pp' : PonPort) : Prop := exists os r,
  pp' = pon_after ponStateEnabled "up" os r pp /\ onus_run R_up (Onus pp) (pp_res pp) os r.

(** The device once the messages are handled. *)
Definition after_ports (l : list string) (pps : list PonPort) (w : Stream) (s : OltDevice) : OltDevice :=
  s <| olt_published := l |> <| Pons := pps |> <| OpenoltStream := w |> <| channel := ChOpen [] |>.

Lemma disable_and_drain s n :
  olt_is OltInternalStateEnabled "up" s -> channel s = ChOpen [] -> NoDup (pp_ID <$> Pons s) ->
  Forall (fun pp => pp_InternalState pp = ponStateEnabled -> pp_OperState pp = "up") (Pons s) ->
  (length (Pons s) < n)%nat ->
  exists l pps, (DisableOlt ;; olt_rounds n) s =
      Done (tt, olt_turned OltInternalStateDisabled "down"
        (after_ports l pps (tell_ports ponStateEnabled "down" (Pons s) (OpenoltStream s)) s)) /\
    Forall2 (port_change ponStateEnabled dropped) (Pons s) pps.
Proof.
  intros Ho Hc Hnd Hg Hn. destruct (DisableOlt_queues s [] Hc) as (l & Hd). exists l. cbn [app] in Hd.
  set (s0 := s <| olt_published := l |> <| channel := _ |>) in Hd.
  destruct (ports_rounds DOWN ponStateEnabled "down" (ControlledActivation s)
    (fun pp => pp_InternalState pp = ponStateEnabled -> pp_OperState pp = "up") dropped) with
    (todo := Pons s) (done := @nil PonPort) (s := s0) (q := [OltIndication DOWN]) as (pps & Hr & Hall); try done.
  { intros t p pp Hget Hp Hst Hup _. destruct (pon_goes_down t p pp _ Hget Hp eq_refl) as (os & r & Hh & Hrun); [by split; auto|].
    eexists; split; [exact Hh|]. split; [done|]. by exists os, r. }
  exists pps. split; [|exact Hall]. erewrite bind_Done; [|exact Hd].
  pose proof (pon_messages_length DOWN ponStateEnabled (Pons s)) as Hlen.
  replace n with (length (pon_messages DOWN ponStateEnabled (Pons s)) +
    S (n - S (length (pon_messages DOWN ponStateEnabled (Pons s)))))%nat by lia.
  rewrite olt_rounds_split. erewrite bind_Done; [|exact Hr].
  erewrite (olt_round (OltIndication DOWN)); [|reflexivity|by apply olt_goes_down].
  by apply olt_rounds_idle.
Qed.

Lemma reenable_and_drain s n :
  olt_is OltInternalStateDisabled "down" s -> channel s = ChOpen [] -> NoDup (pp_ID <$> Pons s) ->
  ControlledActivation s ∈ [Default; OnlyPON] ->
  Forall (fun pp => pp_InternalState pp = ponStateDisabled -> pp_OperState pp = "down" /\
    Forall (fun o => o_InternalState o = OnuStatePonDisabled /\ exists q, o_Channel o = ChOpen q) (Onus pp)) (Pons s) ->
  (length (Pons s) < n)%nat ->
  exists l pps, (ReenableOlt ;; olt_rounds n) s =
      Done (tt, after_ports l pps (tell_ports ponStateDisabled "up" (Pons s) (olt_indication "up" (OpenoltStream s)))
        (olt_turned OltInternalStateEnabled "up" s)) /\
    Forall2 (port_change ponStateDisabled raised) (Pons s) pps.
Proof.
  intros Ho Hc Hnd Hm Hg Hn. destruct (ReenableOlt_queues s [] Hc) as (l & Hd). exists l. cbn [app] in Hd.
  set (s0 := s <| olt_published := l |> <| channel := _ |>) in Hd.
  set (s1 := olt_turned OltInternalStateEnabled "up" (s0 <| channel := ChOpen (pon_messages UP ponStateDisabled (Pons s)) |>)).
  destruct (ports_rounds UP ponStateDisabled "up" (ControlledActivation s)
    (fun pp => pp_InternalState pp = ponStateDisabled -> pp_OperState pp = "down" /\
      Forall (fun o => o_InternalState o = OnuStatePonDisabled /\ exists q, o_Channel o = ChOpen q) (Onus pp)) raised) with
    (todo := Pons s) (done := @nil PonPort) (s := s1) (q := @nil Message) as (pps & Hr & Hall); try done.
  { intros t p pp Hget Hp Hst Hup Hmt. destruct (Hup Hst) as [Hop Hos].
    destruct (pon_goes_up t p pp _ Hget Hp eq_refl) as (os & r & Hh & Hrun); [done|by rewrite Hmt|done|].
    eexists; split; [exact Hh|]. split; [done|]. by exists os, r. }
  { unfold s1. cbn. by rewrite app_nil_r. }
  exists pps. split; [|exact Hall]. erewrite bind_Done; [|exact Hd].
  pose proof (pon_messages_length UP ponStateDisabled (Pons s)) as Hlen.
  replace n with (S (length (pon_messages UP ponStateDisabled (Pons s)) +
    (n - S (length (pon_messages UP ponStateDisabled (Pons s))))))%nat by lia.
  erewrite (olt_round (OltIndication UP)); [|reflexivity|by apply olt_goes_up]. fold s1.
  rewrite olt_rounds_split. erewrite bind_Done; [|exact Hr].
  by apply olt_rounds_idle.
Qed.

(** ** The cycle *)

(** A port in service, the same port stopped, and back in service. *)
Definition pon_running (pp : PonPort) : Prop :=
  pon_is ponStateEnabled "up" pp /\ NoDup (o_ID <$> Onus pp) /\
  Forall (fun o => o_InternalState o = OnuStateEnabled /\ exists q, o_Channel o = ChOpen q) (Onus pp).
Definition pon_stopped (pp pp1 : PonPort) : Prop :=
  pp_ID pp1 = pp_ID pp /\ pon_is ponStateDisabled "down" pp1 /\ Onus pp1 = pon_down <$> Onus pp /\
  (forall o, o ∈ Onus pp ->
     released (o_SerialNumber o) (pp_res pp1) /\ isOnuIdAllocated (o_ID o) (pp_res pp1) = None).
Definition pon_resumed (pp pp2 : PonPort) : Prop :=
  pp_ID pp2 = pp_ID pp /\ pon_is ponStateEnabled "up" pp2 /\
  (forall i o, Onus pp !! i = Some o -> exists q, o_Channel o = ChOpen q /\
     Onus pp2 !! i = Some (pon_up q (pon_down o)) /\
     isOnuIdAllocated (o_ID o) (pp_res pp2) = Some (o_SerialNumber o)).

Lemma dropped_stopped pp pp1 : pon_running pp -> port_change ponStateEnabled dropped pp pp1 -> pon_stopped pp pp1.
Proof.
  intros ([Hst Hop] & Hnd & Hall) [Hid Hch]. rewrite decide_True in Hch by done.
  destruct Hch as (os & r & -> & Hrun).
  destruct (run_down_all _ _ _ _ Hrun) as [-> Hd]; [eapply Forall_impl; [exact Hall|by intros ? []]|]. done.
Qed.

(** A stopped port is ready to come up. *)
Lemma stopped_ready pp pp1 :
  pon_running pp -> pon_stopped pp pp1 ->
  Forall (fun o => o_InternalState o = OnuStatePonDisabled /\ exists q, o_Channel o = ChOpen q) (Onus pp1).
Proof.
  intros (_ & _ & Hall) (_ & _ & -> & _). apply Forall_fmap. eapply Forall_impl; [exact Hall|].
  intros o [_ Hq]. split; [done|exact Hq].
Qed.

Lemma raised_resumed pp pp1 pp2 :
  pon_running pp -> pon_stopped pp pp1 -> port_change ponStateDisabled raised pp1 pp2 -> pon_resumed pp pp2.
Proof.
  intros (_ & Hnd & _) (Hid1 & [Hst Hop] & Hos & Hfree) [Hid2 Hch]. rewrite decide_True in Hch by done.
  destruct Hch as (os & r & -> & Hrun). rewrite Hos in Hrun.
  split; [by rewrite <-Hid1|]. split; [done|]. intros i o Ho.
  destruct (run_up_facts _ _ _ _ Hrun) with (i := i) (o := pon_down o) as (q & Hq & H1 & H2).
  - by rewrite <-list_fmap_compose.
  - intros x (y & -> & Hy)%list_elem_of_fmap. by apply (Hfree y Hy).
  - by rewrite list_lookup_fmap, Ho.
  - by exists q.
Qed.

Lemma Forall2_running (Q Q' : PonPort -> PonPort -> Prop) l l' :
  (forall pp pp', pon_running pp -> Q pp pp' -> Q' pp pp') -> Forall pon_running l -> Forall2 Q l l' -> Forall2 Q' l l'.
Proof. intros HQ Hl H. induction H; inversion Hl; constructor; auto. Qed.

Lemma stopped_ids l l' : Forall2 pon_stopped l l' -> pp_ID <$> l' = pp_ID <$> l.
Proof. induction 1 as [|pp pp' l l' (Hid & _) _ IH]; [done|]. by rewrite !fmap_cons, Hid, IH. Qed.

Lemma cycle_resumed l l1 l2 :
  Forall pon_running l -> Forall2 pon_stopped l l1 -> Forall2 (port_change ponStateDisabled raised) l1 l2 ->
  Forall2 pon_resumed l l2.
Proof.
  intros Hl H1. revert l2. induction H1; intros l2 H2; inversion Hl; inversion H2; subst; constructor; auto.
  by eapply raised_resumed.
Qed.

(** What VOLTHA is told about the ports. *)
Definition port_says (st : string) (pp : PonPort) : list Indication :=
  [IndIntf (pp_ID pp) st; IndIntfOper "pon" (pp_ID pp) st 0].

Lemma tell_ports_all cond st l w :
  Forall (fun pp => pp_InternalState pp = cond) l -> s_err w = None ->
  tell_ports cond st l w = w <| s_sent := (s_sent w ++ (l ≫= port_says st))%list |>.
Proof.
  intros Hall. revert w. induction Hall as [|pp l Hp _ IH]; intros w Hw.
  { cbn. rewrite app_nil_r. by destruct w. }
  unfold tell_ports in *. cbn [foldl]. rewrite decide_True by done. unfold pon_indications at 2.
  rewrite decide_True by done. rewrite IH by done. destruct w. unfold upd, set_s_sent. cbn. by rewrite <-!app_assoc.
Qed.

Lemma olt_indication_ok st w :
  s_err w = None -> olt_indication st w = w <| s_sent := (s_sent w ++ [IndOlt st])%list |>.
Proof. intros Hw. unfold olt_indication. by rewrite decide_True. Qed.

Lemma port_says_ids st l l' : pp_ID <$> l' = pp_ID <$> l -> l' ≫= port_says st = l ≫= port_says st.
Proof.
  revert l'. induction l as [|pp l IH]; intros [|pp' l'] Heq; try done. injection Heq as Hid Hl.
  rewrite !bind_cons, (IH l' Hl). unfold port_says at 1 3. by rewrite Hid.
Qed.

Lemma cycle_says l l1 w :
  s_err w = None -> Forall (fun pp => pp_InternalState pp = ponStateEnabled) l ->
  Forall (fun pp => pp_InternalState pp = ponStateDisabled) l1 -> pp_ID <$> l1 = pp_ID <$> l ->
  s_sent (tell_ports ponStateDisabled "up" l1
    (olt_indication "up" (olt_indication "down" (tell_ports ponStateEnabled "down" l w)))) =
  (s_sent w ++ (l ≫= port_says "down") ++ [IndOlt "down"; IndOlt "up"] ++ (l ≫= port_says "up"))%list.
Proof.
  intros Hw He Hd Hids. rewrite (tell_ports_all _ _ l) by done. rewrite (olt_indication_ok "down"), (olt_indication_ok "up") by done.
  rewrite tell_ports_all by done. rewrite (port_says_ids _ _ _ Hids). cbn. by rewrite <-!app_assoc.
Qed.

(** C7: disabling the OLT and enabling it again, the calls together with the
    message loop (given more rounds than there are PON ports), for an OLT that
    runs: it is enabled and up, its channel is open and empty, the stream works,
    its PON ports have distinct identifiers and are enabled and up, all ONUs are
    enabled, with open channels and distinct identifiers, and are activated
    automatically (activation mode default or only-PON).  Once the loop has taken
    the messages of [DisableOlt] the device and every PON port are disabled and
    down and no ONU holds a GEM port, an alloc identifier or an ONU identifier.
    Once it has taken those of [ReenableOlt] the device and its ports are enabled
    and up again, every ONU is enabled with its own identifier registered and
    queues the indication that it is up.  VOLTHA is told that the ports and then
    the device are down, that the device and then the ports are up, in this order;
    the NNI ports are left as they are. *)
Theorem olt_down_up (s : OltDevice) (n : nat) :
  olt_is OltInternalStateEnabled "up" s -> channel s = ChOpen [] -> s_err (OpenoltStream s) = None ->
  NoDup (pp_ID <$> Pons s) -> ControlledActivation s ∈ [Default; OnlyPON] -> Forall pon_running (Pons s) ->
  (length (Pons s) < n)%nat ->
  exists s1 s2,
    (DisableOlt ;; olt_rounds n) s = Done (tt, s1) /\
    olt_is OltInternalStateDisabled "down" s1 /\ Forall2 pon_stopped (Pons s) (Pons s1) /\
    (ReenableOlt ;; olt_rounds n) s1 = Done (tt, s2) /\
    olt_is OltInternalStateEnabled "up" s2 /\ Forall2 pon_resumed (Pons s) (Pons s2) /\
    channel s2 = ChOpen [] /\ Nnis s2 = Nnis s /\
    s_sent (OpenoltStream s2) = (s_sent (OpenoltStream s) ++ (Pons s ≫= port_says "down") ++
      [IndOlt "down"; IndOlt "up"] ++ (Pons s ≫= port_says "up"))%list.
Proof.
  intros Ho Hc Hw Hnd Hm Hrun Hn.
  destruct (disable_and_drain s n) as (l & pps & R1 & H1); try done.
  { eapply Forall_impl; [exact Hrun|]. by intros pp ([] & _). }
  set (s1 := olt_turned _ _ _) in R1.
  assert (Forall2 pon_stopped (Pons s) pps) as S1.
  { eapply Forall2_running; [exact dropped_stopped|done|exact H1]. }
  assert (pp_ID <$> pps = pp_ID <$> Pons s) as Hids by by eapply stopped_ids.
  assert (Forall (fun pp => pp_InternalState pp = ponStateDisabled) pps) as Hdown.
  { eapply Forall2_Forall_r; [exact S1|]. apply Forall_true. by intros pp pp1 (_ & [] & _). }
  destruct (reenable_and_drain s1 n) as (l2 & pps2 & R2 & H2); try done.
  { by change (Pons s1) with pps; rewrite Hids. }
  { eapply Forall2_Forall_r; [exact S1|]. eapply Forall_impl; [exact Hrun|]. intros pp Hp pp1 H Hst.
    split; [apply H|by eapply stopped_ready]. }
  { change (Pons s1) with pps. by rewrite <-(Forall2_length _ _ _ S1). }
  exists s1, (after_ports l2 pps2 (tell_ports ponStateDisabled "up" (Pons s1) (olt_indication "up" (OpenoltStream s1)))
        (olt_turned OltInternalStateEnabled "up" s1)).
  split; [done|]. split; [done|]. split; [done|]. split; [done|]. split; [done|]. split; [by eapply cycle_resumed|].
  split; [done|]. split; [done|].
  apply cycle_says; [done| |done|done]. eapply Forall_impl; [exact Hrun|]. by intros pp ([] & _).
Qed.

(** A second PON port next to that of [example_olt]. *)
Definition other_pon : PonPort := {|
  pp_ID := 1; pp_Technology := XGSPON; Onus := [onu running_onu]; pp_PacketCount := 0;
  pp_InternalState := ponStateEnabled; pp_OperState := "up"; pp_res := res running_onu |}.
Definition two_pon_olt : OltDevice := example_olt <| Pons := [example_pon; other_pon] |>.

Lemma olt_down_up_witness :
  exists s1 s2, (DisableOlt ;; olt_rounds 3) two_pon_olt = Done (tt, s1) /\
    (ReenableOlt ;; olt_rounds 3) s1 = Done (tt, s2) /\ olt_is OltInternalStateEnabled "up" s2 /\
    Forall2 pon_resumed (Pons two_pon_olt) (Pons s2).
Proof.
  destruct (olt_down_up two_pon_olt 3) as (s1 & s2 & R1 & _ & _ & R2 & O2 & P2 & _); try done.
  - apply (bool_decide_unpack _). by vm_compute.
  - by left.
  - repeat (constructor; [split; [done|]; split; [apply (bool_decide_unpack _); by vm_compute|];
      repeat constructor; by eexists|]). constructor.
  - cbn. lia.
  - exact (ex_intro _ s1 (ex_intro _ s2 (conj R1 (conj R2 (conj O2 P2))))).
Defined.
