(* ===== verification/Api.v ===== *)
(** * The API of BBSim

    [internal/bbsim/api]: the gRPC server a user of BBSim (or [bbsimctl]) talks
    to.  A handler finds the ONU, UNI or service it is about in the OLT, runs
    the operation of the device there and turns the result into a response with
    a status code; a goroutine it starts is a task of the OLT.  The messages of
    the protocol are records with the fields the code fills in. *)
From stdpp Require Import pretty.
From S2P Require Import Prelude Fsm Options OmciTypes Omci MibDb Packets Types Io Eapol Dhcp Igmp Service.
From S2P Require Import PonRes AlarmSim UniPort Get Onu OnuOmci OnuLoop OltFlows OltSpec Olt OltProps.
Open Scope Z_scope.
Open Scope string_scope.

(** ** Responses *)

(** The status codes of gRPC. *)
Definition codes_OK : Z := 0.
Definition codes_InvalidArgument : Z := 3.
Definition codes_NotFound : Z := 5.
Definition codes_FailedPrecondition : Z := 9.
Definition codes_Internal : Z := 13.

Record Response := { StatusCode : Z; resp_Message : string }.
Definition no_response : Response := {| StatusCode := 0; resp_Message := "" |}.

(** The response and the error a handler returns. *)
Definition Reply : Type := Response * option error.
Definition accepted (msg : string) : Reply := ({| StatusCode := codes_OK; resp_Message := msg |}, None).
Definition refused (code : Z) (e : error) : Reply := ({| StatusCode := code; resp_Message := e |}, Some e).

(** The [Error] methods of the errors of a state machine and of an ONU. *)
Definition fsm_error_text (e : fsm_error) : error :=
  match e with
  | InvalidEventError ev st => "event " +:+ ev +:+ " inappropriate in current state " +:+ st
  | UnknownEventError ev => "event " +:+ ev +:+ " does not exist"
  | NoTransitionError => "no transition"
  end.
Definition onu_error_text (e : onu_error) : error :=
  match e with EFsm e => fsm_error_text e | EText e => e end.

(** [onu.Sn()] of the ONU at a position. *)
Definition sn_at (s : OltDevice) (p i : nat) : string :=
  match onu_at s p i with Some o => OnuSnToString (o_SerialNumber o) | None => "" end.

(** [fmt.Sprintf("%v", l)] of strings. *)
Definition show_list (l : list string) : string := "[" +:+ String.concat " " l +:+ "]".

(** [strconv.Atoi]: an optional sign, then digits; [None] when it returns an
    error. *)
Fixpoint digits_of (acc : Z) (l : list Ascii.ascii) : option Z :=
  match l with
  | [] => Some acc
  | c :: l' => d ← digit_val c; digits_of (acc * 10 + d) l'
  end.
Definition in_int (z : Z) : option Z := if decide (- 2 ^ 63 <= z < 2 ^ 63) then Some z else None.
Definition Atoi (s : string) : option Z :=
  match String.list_ascii_of_string s with
  | [] => None
  | c :: l =>
      if decide (c = Ascii.ascii_of_N 45) then (if decide (l = []) then None else z ← digits_of 0 l; in_int (- z))
      else if decide (c = Ascii.ascii_of_N 43) then (if decide (l = []) then None else z ← digits_of 0 l; in_int z)
      else z ← digits_of 0 (c :: l); in_int z
  end.

(** A loop that carries a result along. *)
Fixpoint fold_m {S A B : Type} (l : list A) (acc : B) (body : B -> A -> M S B) : M S B :=
  match l with
  | [] => mret acc
  | x :: l' => acc' ← body acc x; fold_m l' acc' body
  end.

(** ** Power *)

(** Source: internal/bbsim/api/onus_handler.go, [handleShutdownONU]. *)
Definition handleShutdownONU (p i : nat) : M OltDevice Reply :=
  err ← on_onu p i HandleShutdownONU;
  s ← get;
  match err with
  | Some e => mret (refused codes_FailedPrecondition (onu_error_text e))
  | None => mret (accepted ("ONU " +:+ sn_at s p i +:+ " successfully shut down."))
  end.

(** Source: internal/bbsim/api/onus_handler.go, [handlePoweronONU]. *)
Definition handlePoweronONU (p i : nat) : M OltDevice Reply :=
  err ← on_onu p i HandlePowerOnONU;
  s ← get;
  match err with
  | Some e => mret (refused codes_FailedPrecondition (onu_error_text e))
  | None => mret (accepted ("ONU " +:+ sn_at s p i +:+ " successfully powered on."))
  end.

(** Source: internal/bbsim/api/onus_handler.go, [BBSimServer.ShutdownONU]. *)
Definition ShutdownONU (sn : string) : M OltDevice Reply :=
  s ← get;
  match FindOnuBySn s sn with
  | inl e => mret (refused codes_NotFound e)
  | inr (p, i) => handleShutdownONU p i
  end.

(** Source: internal/bbsim/api/onus_handler.go, [BBSimServer.ShutdownONUsOnPON].
    An unknown PON is dereferenced as nil. *)
Definition ShutdownONUsOnPON (ponPortId : Z) : M OltDevice Reply :=
  s ← get;
  match GetPonById s ponPortId with
  | None => nil_deref
  | Some p =>
      olt_spawn (TShutdown [p]) ;;
      mret (accepted ("Request accepted for shutdown all ONUs on PON port " +:+ pretty ponPortId))
  end.

(** Source: internal/bbsim/api/onus_handler.go, [BBSimServer.ShutdownAllONUs]. *)
Definition ShutdownAllONUs : M OltDevice Reply :=
  s ← get;
  olt_spawn (TShutdown (seq 0 (length (Pons s)))) ;;
  mret (accepted ("Request Accepted for shutdown all ONUs in OLT " +:+ pretty (olt_ID s))).

(** The PON port is not enabled. *)
Definition pon_not_enabled (id : Z) : Reply :=
  refused codes_FailedPrecondition ("PON port " +:+ pretty id +:+ " not enabled").

(** Source: internal/bbsim/api/onus_handler.go, [BBSimServer.PoweronONU]. *)
Definition PoweronONU (sn : string) : M OltDevice Reply :=
  s ← get;
  match FindOnuBySn s sn with
  | inl e => mret (refused codes_NotFound e)
  | inr (p, i) =>
      let pon := default 0 (o_PonPortID <$> onu_at s p i) in
      match GetPonById s pon ≫= (fun q => Pons s !! q) with
      | None => nil_deref
      | Some pp =>
          if decide (pp_InternalState pp <> "enabled") then mret (pon_not_enabled pon)
          else handlePoweronONU p i
      end
  end.

(** Source: internal/bbsim/api/onus_handler.go, [BBSimServer.PoweronONUsOnPON]. *)
Definition PoweronONUsOnPON (ponPortId : Z) : M OltDevice Reply :=
  s ← get;
  match GetPonById s ponPortId with
  | None => nil_deref
  | Some p =>
      cur ← Current (pon_fsm p);
      if decide (cur <> "enabled") then mret (pon_not_enabled ponPortId)
      else
        olt_spawn (TPowerOn [p]) ;;
        mret (accepted ("Request Accepted for power on all ONUs on PON port " +:+ pretty ponPortId))
  end.

(** Source: internal/bbsim/api/onus_handler.go, [BBSimServer.PoweronAllONUs]. *)
Definition PoweronAllONUs : M OltDevice Reply :=
  s ← get;
  olt_spawn TPowerOnAll ;;
  mret (accepted ("Request Accepted for power on all ONUs in OLT " +:+ pretty (olt_ID s))).

(** ** Protocols of the subscribers *)

(** The group addresses change before the goroutine is started; another action
    does nothing. *)
Definition group_action (action ctag : Z) (group : string) : M SvcSys unit :=
  if decide (action = SubActionTypes_JOIN) then AddGroupAddress group ctag
  else if decide (action = SubActionTypes_LEAVE) then RemoveGroupAddress group
  else if decide (action = SubActionTypes_JOINV3) then AddGroupAddress group ctag
  else skip.

(** Source: internal/bbsim/api/onus_handler.go:283-336, [BBSimServer.ChangeIgmpState]
    (the [k]-th service of the UNI; the result is the tag of the message that is
    sent, if there is one). *)
Definition igmp_service (action vlan : Z) (group : string) : M SvcSys (option Z) :=
  v ← get;
  if NeedsIgmp (svc v) then
    if decide (InternalState (svc v) <> ServiceStateInitialized) then mret None
    else
      let ctag := if decide (vlan <> 0) then vlan else CTag (svc v) in
      group_action action ctag group ;;
      mret (if decide (action ∈ [SubActionTypes_JOIN; SubActionTypes_LEAVE; SubActionTypes_JOINV3])
            then Some ctag else None)
  else mret None.

(** Source: internal/bbsim/api/onus_handler.go, [BBSimServer.ChangeIgmpState].
    A negative UNI passes the check of its range and indexes out of it. *)
Definition ChangeIgmpState (sn : string) (uniID action : Z) (group : string) (vlan : Z) : M OltDevice Reply :=
  s ← get;
  match FindOnuBySn s sn with
  | inl e => mret (refused codes_NotFound e)
  | inr (p, i) =>
      let unis := match onu_at s p i with Some o => o_UniPorts o | None => [] end in
      let invalid (e : error) : Reply := ({| StatusCode := codes_InvalidArgument; resp_Message := "" |}, Some e) in
      if decide (Z.of_nat (length unis) <= uniID) then mret (invalid "invalid uni no given")
      else if decide (4095 < vlan \/ vlan < 0) then mret (invalid "invalid vlan given")
      else if decide (uniID < 0) then panic "index out of range"
      else
        let u := Z.to_nat uniID in
        match unis !! u with
        | None => panic "index out of range"
        | Some un =>
            if decide (uni_OperState un <> UniStateUp)
            then mret (no_response, Some "given uni is currently disabled")
            else
              for_each (seq 0 (length (Services un))) (fun k =>
                r ← on_onu p i (on_uni u (on_service k (igmp_service action vlan group)));
                match r with
                | Some ctag => olt_spawn (TIgmp p i u k action ctag group)
                | None => skip
                end) ;;
              mret (no_response, None)
        end
  end.

(** The errors of a request and the services it was made on. *)
Record Restarted := { failures : list string; startedOn : list string }.

(** Source: internal/bbsim/api/onus_handler.go:383-411, [BBSimServer.RestartEapol]
    (the [k]-th service of a UNI; restarting DHCP follows the same lines
    without looking at the state of the service). *)
Definition restart_service (needs skipped : Service -> bool) (start : M SvcSys (option fsm_error)) (k : nat)
    (acc : Restarted) : M UniSys Restarted :=
  s ← get;
  match Services (uni s) !! k with
  | None => mret acc
  | Some v =>
      let serviceKey := "uni[" +:+ pretty (uni_ID (uni s)) +:+ "]" +:+ svc_Name v in
      if negb (needs v) || skipped v then mret acc
      else
        err ← on_service k start;
        mret {| failures := match err with
                            | Some e => failures acc ++ [serviceKey +:+ ": " +:+ fsm_error_text e]
                            | None => failures acc
                            end;
                startedOn := startedOn acc ++ [serviceKey] |}
  end.

(** The test that a UNI is the requested one: every UNI is when no number was
    given, and also when the text is not a number. *)
Definition uni_selected (uniID : string) (un : UniPort) : bool :=
  match Atoi uniID with
  | Some n => bool_decide (uniID = "" \/ uni_ID un = u32 n)
  | None => true
  end.

(** Source: internal/bbsim/api/onus_handler.go:372-412, [BBSimServer.RestartEapol]
    (the loop over the UNIs of the ONU and their services). *)
Definition restart_unis (needs skipped : Service -> bool) (start : M SvcSys (option fsm_error))
    (uniID : string) : M OnuSys Restarted :=
  s ← get;
  fold_m (seq 0 (length (o_UniPorts (onu s)))) {| failures := []; startedOn := [] |} (fun acc u =>
    t ← get;
    match o_UniPorts (onu t) !! u with
    | None => mret acc
    | Some un =>
        if negb (uni_selected uniID un) then mret acc
        else if decide (uni_OperState un <> UniStateUp) then mret acc
        else on_uni u (fold_m (seq 0 (length (Services un))) acc
                         (fun acc k => restart_service needs skipped start k acc))
    end).

(** The response to a restart. *)
Definition restart_reply (what what' : string) (sn : string) (r : Restarted) : Reply :=
  match failures r with
  | [] =>
      if decide (startedOn r = []) then accepted ("No service requires " +:+ what')
      else accepted (what +:+ " restarted on Services " +:+ show_list (startedOn r) +:+ " for ONU " +:+ sn +:+ ".")
  | _ => ({| StatusCode := codes_FailedPrecondition; resp_Message := show_list (failures r) |}, None)
  end.

(** Source: internal/bbsim/api/onus_handler.go, [BBSimServer.RestartEapol]. *)
Definition RestartEapol (sn uniID : string) : M OltDevice Reply :=
  s ← get;
  match FindOnuBySn s sn with
  | inl e => mret (refused codes_NotFound e)
  | inr (p, i) =>
      r ← on_onu p i (restart_unis NeedsEapol
            (fun v => negb (bool_decide (InternalState v = ServiceStateInitialized)))
            (Event eapol_fsm EventStartAuth) uniID);
      mret (restart_reply "Authentication" "EAPOL" (sn_at s p i) r)
  end.

(** Source: internal/bbsim/api/onus_handler.go, [BBSimServer.RestartDhcp]. *)
Definition RestartDhcp (sn uniID : string) : M OltDevice Reply :=
  s ← get;
  match FindOnuBySn s sn with
  | inl e => mret (refused codes_NotFound e)
  | inr (p, i) =>
      r ← on_onu p i (restart_unis NeedsDhcp (fun _ => false) (Event dhcp_fsm "start_dhcp") uniID);
      mret (restart_reply "DHCP" "DHCP" (sn_at s p i) r)
  end.

(** ** Flows and counters *)

(** Source: internal/bbsim/api/onus_handler.go:590-594, [BBSimServer.GetFlows]
    (the flows of an ONU).  A flow the OLT does not have is a nil interface,
    whose conversion panics. *)
Fixpoint load_flows (flows : gmap Z Flow) (keys : list Z) : outcome (list Flow) :=
  match keys with
  | [] => Done []
  | k :: keys' =>
      match flows !! k with
      | None => Panicked "interface conversion: interface {} is nil, not *openolt.Flow"
      | Some f => rest ← load_flows flows keys'; Done (f :: rest)
      end
  end.

(** Source: internal/bbsim/api/onus_handler.go, [BBSimServer.GetFlows].  The
    flows and their number. *)
Definition GetFlows (sn : string) : M OltDevice (error + list Flow * Z) :=
  s ← get;
  if decide (sn = "") then
    let flows := snd <$> map_to_list (olt_Flows s) in
    mret (inr (flows, u32 (Z.of_nat (length flows))))
  else
    match FindOnuBySn s sn with
    | inl e => mret (inl e)
    | inr (p, i) =>
        let keys := match onu_at s p i with Some o => Flows o | None => [] end in
        flows ← of_outcome (load_flows (olt_Flows s) keys);
        mret (inr (flows, u32 (Z.of_nat (length keys))))
    end.

(** Source: internal/bbsim/api/onus_handler.go, [BBSimServer.GetOnuTrafficSchedulers]. *)
Definition GetOnuTrafficSchedulers (sn : string) : M OltDevice (error + option Z) :=
  s ← get;
  match FindOnuBySn s sn with
  | inl e => mret (inl e)
  | inr (p, i) => mret (inr (onu_at s p i ≫= TrafficSchedulers))
  end.

(** Source: internal/bbsim/api/onus_handler.go, [BBSimServer.InvalidateMds];
    [r] is the number the random source draws. *)
Definition InvalidateMds (sn : string) (r : Z) : M OltDevice Reply :=
  s ← get;
  match FindOnuBySn s sn with
  | inl e => mret (refused codes_NotFound e)
  | inr (p, i) =>
      on_onu p i (InvalidateMibDataSync r) ;;
      s' ← get;
      let mds t := pretty (default 0 (MibDataSync <$> onu_at t p i)) in
      mret (accepted ("MDS counter of ONU " +:+ sn_at s p i +:+ " was " +:+ mds s +:+ ", set to " +:+ mds s' +:+ ")."))
  end.

(** ** Alarms *)

(** Source: internal/bbsim/api/grpc_api_server.go, [BBSimServer.SetOnuAlarmIndication].
    A failed request returns no response. *)
Definition SetOnuAlarmIndication (sn alarmType status : string) : M OltDevice (error + Response) :=
  s ← get;
  match FindOnuBySn s sn with
  | inl e => mret (inl e)
  | inr (p, i) =>
      err ← on_onu p i (Onu.SetAlarm alarmType status);
      match err with
      | Some e => mret (inl e)
      | None => mret (inr {| StatusCode := codes_OK; resp_Message := "Onu Alarm Indication Sent." |})
      end
  end.

(** Source: internal/bbsim/api/grpc_api_server.go, [BBSimServer.SetOltAlarmIndication]. *)
Definition SetOltAlarmIndication (interfaceID : Z) (interfaceType status : string)
    : M OltDevice (error + Response) :=
  err ← Olt.SetAlarm interfaceID interfaceType status;
  match err with
  | Some e => mret (inl e)
  | None => mret (inr {| StatusCode := codes_OK; resp_Message := "Olt Alarm Indication Sent." |})
  end.

(** ** The OLT and its gRPC server *)

(** The response to an event of the OLT, without a message. *)
Definition olt_event_reply (err : option fsm_error) : Reply :=
  match err with
  | Some e => ({| StatusCode := codes_FailedPrecondition; resp_Message := "" |}, Some (fsm_error_text e))
  | None => accepted ""
  end.

(** Source: internal/bbsim/api/grpc_api_server.go, [BBSimServer.PoweronOlt]. *)
Definition PoweronOlt : M OltDevice Reply :=
  err ← Event olt_fsm OltInternalTxInitialize; mret (olt_event_reply err).

(** Source: internal/bbsim/api/grpc_api_server.go, [BBSimServer.ShutdownOlt]. *)
Definition ShutdownOlt : M OltDevice Reply :=
  err ← Event olt_fsm OltInternalTxDisable; mret (olt_event_reply err).

(** Source: internal/bbsim/api/grpc_api_server.go, [BBSimServer.RebootOlt]. *)
Definition RebootOlt : M OltDevice Reply := olt_spawn TRestart ;; mret (accepted "OLT restart triggered.").

(** Source: internal/bbsim/api/grpc_api_server.go, [BBSimServer.StopgRPCServer]. *)
Definition StopgRPCServer : M OltDevice Reply :=
  StopOltServer ;; mret (accepted "Openolt gRPC server stopped").

(** Source: internal/bbsim/api/grpc_api_server.go, [BBSimServer.StartgRPCServer].
    Listening succeeds. *)
Definition StartgRPCServer : M OltDevice (error + Response) :=
  s ← get;
  if OltServer s then mret (inl "Openolt gRPC server already running.")
  else
    modify (fun s => s <| OltServer := true |>) ;;
    mret (inr {| StatusCode := codes_OK; resp_Message := "Openolt gRPC server started" |}).

(** Source: internal/bbsim/api/grpc_api_server.go, [BBSimServer.RestartgRPCServer]. *)
Definition RestartgRPCServer (delay : Z) : M OltDevice Reply :=
  StopOltServer ;; olt_spawn TStartServer ;;
  mret (accepted ("Openolt gRPC server stopped, restarting in " +:+ pretty delay)).
