(* ===== verification/ApiInfo.v ===== *)
(** * What the API reports

    [internal/bbsim/api]: the messages that describe the OLT, its ports, its
    ONUs, their UNIs and services, and the resources that are allocated.  The
    records have the fields of the protocol; numbers are converted to the width
    of the field.  The legacy API reports a part of the same. *)
From stdpp Require Import pretty.
From S2P Require Import Prelude Fsm Options OmciTypes Omci MibDb Packets Types Io Eapol Dhcp Igmp Service.
From S2P Require Import PonRes AlarmSim UniPort Get Onu OnuOmci OnuLoop OltFlows OltSpec Olt OltProps OltWf Api.
Open Scope Z_scope.
Open Scope string_scope.

(** ** Services and UNIs *)

Record ProtoService := {
  ps_Name : string; ps_InternalState : string; ps_HwAddress : string; ps_OnuSn : string; ps_UniId : Z;
  ps_UniTagMatch : Z; ps_CTag : Z; ps_UsCTagPriority : Z; ps_DsCTagPriority : Z; ps_STag : Z;
  ps_UsSTagPriority : Z; ps_DsSTagPriority : Z; ps_NeedsEapol : bool; ps_NeedsDhcp : bool;
  ps_NeedsIgmp : bool; ps_NeedsPPPoE : bool; ps_ConfigureMacAddress : bool; ps_EnableMacLearning : bool;
  ps_GemPort : Z; ps_EapolState : string; ps_DhcpState : string; ps_IGMPState : string }.

(** [net.HardwareAddr.String]: two hexadecimal digits per byte, joined by
    colons. *)
Definition hex_byte (b : Z) : string := String (hex_char (b / 16)) (String (hex_char (b mod 16)) "").
Definition mac_string (mac : list Z) : string := String.concat ":" (hex_byte <$> mac).

(** Source: internal/bbsim/api/services_handler.go, [convertBBSimServiceToProtoService].
    [sn] and [uniId] are those of the UNI of the service. *)
Definition convertBBSimServiceToProtoService (sn : string) (uniId : Z) (s : Service) : ProtoService := {|
  ps_Name := svc_Name s; ps_InternalState := InternalState s; ps_HwAddress := mac_string (HwAddress s);
  ps_OnuSn := sn; ps_UniId := uniId; ps_UniTagMatch := s32 (UniTagMatch s); ps_CTag := s32 (CTag s);
  ps_UsCTagPriority := UsPonCTagPriority s; ps_DsCTagPriority := DsPonCTagPriority s;
  ps_STag := s32 (STag s); ps_UsSTagPriority := UsPonSTagPriority s; ps_DsSTagPriority := DsPonSTagPriority s;
  ps_NeedsEapol := NeedsEapol s; ps_NeedsDhcp := NeedsDhcp s; ps_NeedsIgmp := NeedsIgmp s;
  ps_NeedsPPPoE := NeedsPPPoE s; ps_ConfigureMacAddress := ConfigureMacAddress s;
  ps_EnableMacLearning := EnableMacLearning s; ps_GemPort := s32 (GemPort s);
  ps_EapolState := EapolState s; ps_DhcpState := DHCPState s; ps_IGMPState := IGMPState s |}.

(** Source: internal/bbsim/api/services_handler.go, [convertBBsimServicesToProtoServices]. *)
Definition convertBBsimServicesToProtoServices (sn : string) (uniId : Z) (l : list Service) : list ProtoService :=
  convertBBSimServiceToProtoService sn uniId <$> l.

Definition onu_sn (o : Onu) : string := OnuSnToString (o_SerialNumber o).

(** Source: internal/bbsim/api/services_handler.go:76-84, [BBSimServer.GetServices]
    (whether a service is asked for). *)
Definition service_selected (uniID sn : string) (v : ProtoService) : bool :=
  bool_decide (uniID = "" /\ sn = "") ||
  match Atoi uniID with Some n => bool_decide (ps_UniId v = u32 n /\ ps_OnuSn v = sn) | None => false end ||
  bool_decide (uniID = "" /\ ps_OnuSn v = sn).

(** Source: internal/bbsim/api/services_handler.go, [BBSimServer.GetServices]. *)
Definition GetServices (uniID sn : string) (s : OltDevice) : list ProtoService :=
  Pons s ≫= (fun pp => Onus pp ≫= (fun o => o_UniPorts o ≫= (fun u =>
    List.filter (service_selected uniID sn)
      (convertBBsimServicesToProtoServices (onu_sn o) (uni_ID u) (Services u))))).

Inductive UniType := UniType_ETH | UniType_POTS.
Record ProtoUNI := {
  pu_ID : Z; pu_OnuID : Z; pu_OnuSn : string; pu_MeID : Z; pu_PortNo : Z; pu_OperState : string;
  pu_Services : list ProtoService; pu_Type : UniType }.

(** Source: internal/bbsim/api/uni_handler.go, [convertBBSimUniPortToProtoUniPort]. *)
Definition convertBBSimUniPortToProtoUniPort (o : Onu) (u : UniPort) : outcome ProtoUNI :=
  me ← ToUint16 (uni_MeId u);
  Done {| pu_ID := s32 (uni_ID u); pu_OnuID := s32 (o_ID o); pu_OnuSn := onu_sn o; pu_MeID := me;
    pu_PortNo := s32 (PortNo u); pu_OperState := uni_OperState u;
    pu_Services := convertBBsimServicesToProtoServices (onu_sn o) (uni_ID u) (Services u);
    pu_Type := UniType_ETH |}.

(** Source: internal/bbsim/api/uni_handler.go, [convertBBSimPotsPortToProtoUniPort]. *)
Definition convertBBSimPotsPortToProtoUniPort (o : Onu) (u : PotsPort) : outcome ProtoUNI :=
  me ← ToUint16 (pots_MeId u);
  Done {| pu_ID := s32 (pots_ID u); pu_OnuID := s32 (o_ID o); pu_OnuSn := onu_sn o; pu_MeID := me;
    pu_PortNo := s32 (pots_PortNo u); pu_OperState := pots_OperState u; pu_Services := [];
    pu_Type := UniType_POTS |}.

(** A loop that appends a converted message per element. *)
Fixpoint convert_all {A B : Type} (f : A -> outcome B) (l : list A) : outcome (list B) :=
  match l with
  | [] => Done []
  | x :: l' => y ← f x; ys ← convert_all f l'; Done (y :: ys)
  end.

(** Source: internal/bbsim/api/uni_handler.go, [convertBBsimUniPortsToProtoUniPorts]. *)
Definition convertBBsimUniPortsToProtoUniPorts (o : Onu) : list UniPort -> outcome (list ProtoUNI) :=
  convert_all (convertBBSimUniPortToProtoUniPort o).

(** Source: internal/bbsim/api/uni_handler.go, [convertBBsimPotsPortsToProtoUniPorts]. *)
Definition convertBBsimPotsPortsToProtoUniPorts (o : Onu) : list PotsPort -> outcome (list ProtoUNI) :=
  convert_all (convertBBSimPotsPortToProtoUniPort o).

(** ** ONUs *)

Record ProtoONU := {
  po_ID : Z; po_SerialNumber : string; po_OperState : string; po_InternalState : string; po_PonPortID : Z;
  po_ReceivedSections : Z; po_ExpectedSections : Z; po_ActiveImageEntityId : Z; po_CommittedImageEntityId : Z;
  po_Unis : list ProtoUNI }.

(** The ports of an ONU, Ethernet first. *)
Definition onu_unis (o : Onu) : outcome (list ProtoUNI) :=
  us ← convertBBsimUniPortsToProtoUniPorts o (o_UniPorts o);
  ps ← convertBBsimPotsPortsToProtoUniPorts o (o_PotsPorts o);
  Done (us ++ ps)%list.

(** Source: internal/bbsim/api/onus_handler.go:41-53, [BBSimServer.GetONUs] (one ONU). *)
Definition proto_onu (o : Onu) : outcome ProtoONU :=
  unis ← onu_unis o;
  Done {| po_ID := s32 (o_ID o); po_SerialNumber := onu_sn o; po_OperState := o_OperState o;
    po_InternalState := o_InternalState o; po_PonPortID := s32 (o_PonPortID o);
    po_ReceivedSections := s32 (ImageSoftwareReceivedSections o);
    po_ExpectedSections := s32 (ImageSoftwareExpectedSections o);
    po_ActiveImageEntityId := s32 (ActiveImageEntityId o);
    po_CommittedImageEntityId := s32 (CommittedImageEntityId o); po_Unis := unis |}.

(** Source: internal/bbsim/api/onus_handler.go, [BBSimServer.GetONUs]. *)
Definition GetONUs (s : OltDevice) : outcome (list ProtoONU) := convert_all (fun x => proto_onu x.2) (all_onus s).

(** Source: internal/bbsim/api/onus_handler.go, [BBSimServer.GetONU].  The
    fields about software images are not filled in. *)
Definition GetONU (sn : string) (s : OltDevice) : outcome (error + ProtoONU) :=
  match FindOnuBySn s sn with
  | inl e => Done (inl e)
  | inr (p, i) =>
      match onu_at s p i with
      | None => Done (inl "cannot-find-onu-by-serial-number")
      | Some o =>
          unis ← onu_unis o;
          Done (inr {| po_ID := s32 (o_ID o); po_SerialNumber := onu_sn o; po_OperState := o_OperState o;
            po_InternalState := o_InternalState o; po_PonPortID := s32 (o_PonPortID o);
            po_ReceivedSections := 0; po_ExpectedSections := 0; po_ActiveImageEntityId := 0;
            po_CommittedImageEntityId := 0; po_Unis := unis |})
      end
  end.

(** Source: internal/bbsim/api/onus_handler.go, [BBSimServer.GetUnis]. *)
Definition GetUnis (s : OltDevice) : outcome (list ProtoUNI) :=
  onus ← GetONUs s; Done (onus ≫= po_Unis).

(** Source: internal/bbsim/api/uni_handler.go, [BBSimServer.GetOnuUnis]. *)
Definition GetOnuUnis (sn : string) (s : OltDevice) : outcome (error + list ProtoUNI) :=
  r ← GetONU sn s;
  match r with inl e => Done (inl e) | inr o => Done (inr (po_Unis o)) end.

(** ** The OLT *)

Record Resource := { re_SerialNumber : string; re_Id : Z }.
Record ProtoPON := {
  pq_ID : Z; pq_Technology : string; pq_OperState : string; pq_InternalState : string; pq_PacketCount : Z;
  pq_OnuIds : list Resource; pq_AllocIds : list Resource; pq_GemPorts : list Resource }.
Record ProtoOlt := {
  pl_ID : Z; pl_SerialNumber : string; pl_OperState : string; pl_InternalState : string; pl_IP : string;
  pl_NNIPorts : list (Z * string); pl_PONPorts : list ProtoPON; pl_NniDhcpTrapVid : Z }.

(** Source: internal/bbsim/api/grpc_api_server.go:72-112, [BBSimServer.GetOlt] (a PON port; a
    technology out of the table panics). *)
Definition proto_pon (pp : PonPort) : outcome ProtoPON :=
  match (if decide (pp_Technology pp < 0) then None else ponTechnologyValues !! Z.to_nat (pp_Technology pp)) with
  | None => Panicked "index out of range"
  | Some tech =>
      let resource (kv : Z * SerialNumber) :=
        {| re_SerialNumber := OnuSnToString kv.2; re_Id := s32 kv.1 |} in
      Done {| pq_ID := s32 (pp_ID pp); pq_Technology := tech; pq_OperState := pp_OperState pp;
        pq_InternalState := pp_InternalState pp; pq_PacketCount := pp_PacketCount pp;
        pq_OnuIds := resource <$> map_to_list (AllocatedOnuIds (pp_res pp));
        pq_AllocIds := (fun kv => {| re_SerialNumber := OnuSnToString (OnuSn kv.2); re_Id := s32 (AllocID kv.2) |})
                         <$> map_to_list (AllocatedAllocIds (pp_res pp));
        pq_GemPorts := resource <$> map_to_list (AllocatedGemPorts (pp_res pp)) |}
  end.

(** [strings.Split(s, sep)[0]] for a separator of one character. *)
Fixpoint before_sep (sep : Ascii.ascii) (l : list Ascii.ascii) : list Ascii.ascii :=
  match l with
  | [] => []
  | c :: l' => if decide (c = sep) then [] else c :: before_sep sep l'
  end.

Definition olt_serial (s : OltDevice) : string := "BBSIM_OLT_" +:+ pretty (olt_ID s).

(** Source: internal/bbsim/api/grpc_api_server.go, [BBSimServer.GetOlt].  The
    configured address of the server, the address of the host and the VLAN of
    the DHCP trap are arguments. *)
Definition GetOlt (openOltAddress hostIP : string) (nniDhcpTrapVid : Z) (s : OltDevice) : outcome ProtoOlt :=
  pons ← convert_all proto_pon (Pons s);
  let address := String.string_of_list_ascii
    (before_sep (Ascii.ascii_of_N 58) (String.list_ascii_of_string openOltAddress)) in
  Done {| pl_ID := s32 (olt_ID s); pl_SerialNumber := olt_serial s; pl_OperState := olt_OperState s;
    pl_InternalState := olt_InternalState s; pl_IP := if decide (address = "") then hostIP else address;
    pl_NNIPorts := (fun n => (s32 (nni_ID n), nni_OperState n)) <$> Nnis s; pl_PONPorts := pons;
    pl_NniDhcpTrapVid := s32 nniDhcpTrapVid |}.

(** ** Allocated resources *)

Inductive ResourceType := Resource_UNKNOWN | Resource_ALLOC_ID | Resource_GEM_PORT | Resource_other (n : Z).

(** A line of the report: PON, ONU, port, identifier and flow, as in [Use]. *)
Record AllocatedResource := { ar_Type : ResourceType; ar_use : Use }.

(** Source: internal/bbsim/api/grpc_api_server.go, [resourcesMapToresourcesProto]. *)
Definition resourcesMapToresourcesProto (ty : ResourceType) (m : FlowMap) : list AllocatedResource :=
  map_to_list m ≫= (fun '(ponId, ponValues) =>
    map_to_list (ponValues : OnuMap) ≫= (fun '(onuId, onuValues) =>
      map_to_list (onuValues : PortMap) ≫= (fun '(uniId, uniValues) =>
        map_to_list (uniValues : IdMap) ≫= (fun '(allocId, flows) =>
          (fun flow => {| ar_Type := ty; ar_use := (ponId, onuId, uniId, allocId, flow) |})
            <$> elements (flows : gset Z))))).

(** Source: internal/bbsim/api/grpc_api_server.go, [BBSimServer.GetOltAllocatedResources]. *)
Definition GetOltAllocatedResources (ty : ResourceType) (s : OltDevice) : error + list AllocatedResource :=
  match ty with
  | Resource_UNKNOWN => inl "resource-type-is-invalid"
  | Resource_ALLOC_ID => inr (resourcesMapToresourcesProto Resource_ALLOC_ID (AllocIDs (flow_res s)))
  | Resource_GEM_PORT => inr (resourcesMapToresourcesProto Resource_GEM_PORT (GemPortIDs (flow_res s)))
  | Resource_other _ => inl "unkown-resource-type"
  end.

(** ** The legacy API *)

Record PortInfo := {
  pt_PortType : string; pt_PortId : Z; pt_MaxOnus : Z; pt_ActiveOnus : Z; pt_PortState : string }.
Definition no_port : PortInfo :=
  {| pt_PortType := ""; pt_PortId := 0; pt_MaxOnus := 0; pt_ActiveOnus := 0; pt_PortState := "" |}.
Record ONUInfo := {
  li_OnuId : Z; li_PonPortId : Z; li_OnuSerial : string; li_OnuState : string; li_OperState : string }.

(** Source: internal/bbsim/api/grpc_api_server_legacy.go:72-79, [BBSimLegacyServer.OLTStatus] (a
    PON port; [fetchPortDetail] fills in the same fields). *)
Definition pon_port_info (s : OltDevice) (pp : PonPort) : PortInfo := {|
  pt_PortType := "pon"; pt_PortId := pp_ID pp; pt_MaxOnus := u32 (NumOnuPerPon s);
  pt_ActiveOnus := u32 (NumPon s); pt_PortState := pp_OperState pp |}.

(** Source: internal/bbsim/api/grpc_api_server_legacy.go:63-68, [BBSimLegacyServer.OLTStatus] (an
    NNI port). *)
Definition nni_port_info (n : NniPort) : PortInfo := {|
  pt_PortType := "nni"; pt_PortId := nni_ID n; pt_MaxOnus := 0; pt_ActiveOnus := 0;
  pt_PortState := nni_OperState n |}.

(** Source: internal/bbsim/api/grpc_api_server_legacy.go, [BBSimLegacyServer.OLTStatus].  The
    identifier, serial number and state of the OLT, and its ports. *)
Definition OLTStatus (s : OltDevice) : Z * string * string * list PortInfo :=
  (olt_ID s, olt_serial s, olt_OperState s,
   ((nni_port_info <$> Nnis s) ++ (pon_port_info s <$> Pons s))%list).

(** Source: internal/bbsim/api/legacy_api_handler.go, [BBSimLegacyServer.fetchPortDetail]. *)
Definition fetchPortDetail (intfID : Z) (portType : string) (s : OltDevice) : PortInfo * option error :=
  let found :=
    if decide (portType = "pon") then (fun x => pon_port_info s x.2) <$> list_find (fun p => pp_ID p = intfID) (Pons s)
    else if decide (portType = "nni") then (fun x => nni_port_info x.2) <$> list_find (fun n => nni_ID n = intfID) (Nnis s)
    else None in
  match found with Some i => (i, None) | None => (no_port, Some "Invalid port") end.

(** Source: internal/bbsim/api/grpc_api_server_legacy.go, [BBSimLegacyServer.PortStatus].  The
    error of an NNI port is not looked at. *)
Definition PortStatus (portType : string) (portId : Z) (s : OltDevice) : list PortInfo * option error :=
  if decide (portType = "pon") then
    match fetchPortDetail portId portType s with
    | (_, Some e) => ([], Some e)
    | (i, None) => ([i], None)
    end
  else if decide (portType = "nni") then ([(fetchPortDetail portId portType s).1], None)
  else ([], Some "Invalid port type").

(** Source: internal/bbsim/api/legacy_api_handler.go, [copyONUInfo]. *)
Definition copyONUInfo (o : Onu) : ONUInfo := {|
  li_OnuId := o_ID o; li_PonPortId := o_PonPortID o; li_OnuSerial := onu_sn o;
  li_OnuState := o_InternalState o; li_OperState := o_OperState o |}.

Definition onu_info_at (s : OltDevice) (p i : nat) : list ONUInfo := copyONUInfo <$> option_list (onu_at s p i).

(** Source: internal/bbsim/api/legacy_api_handler.go, [BBSimLegacyServer.handleONUStatusRequest]. *)
Definition handleONUStatusRequest (serial : string) (ponPortId onuId : Z) (s : OltDevice)
    : list ONUInfo * option error :=
  if decide (serial <> "") then
    match FindOnuBySn s serial with
    | inl _ => ([], Some "Unable to retrieve ONU")
    | inr (p, i) => (onu_info_at s p i, None)
    end
  else if decide (onuId <> 0) then
    match FindOnuById s ponPortId onuId with
    | inl _ => ([], Some "Unable to retrieve ONU with ID")
    | inr (p, i) => (onu_info_at s p i, None)
    end
  else ((fun x => copyONUInfo x.2) <$> all_onus s, None).

(** Source: internal/bbsim/api/grpc_api_server_legacy.go, [BBSimLegacyServer.ONUStatus]; [None] is
    a request without an ONU. *)
Definition ONUStatus (req : option (string * Z * Z)) (s : OltDevice) : list ONUInfo * option error :=
  match req with
  | Some (serial, ponPortId, onuId) => handleONUStatusRequest serial ponPortId onuId s
  | None => ((fun x => copyONUInfo x.2) <$> all_onus s, None)
  end.

(** Source: internal/bbsim/api/legacy_api_handler.go, [ConvB2S]. *)
Definition ConvB2S (b : list Z) : string :=
  fold_left (fun s i => s +:+ String (hex_char (i / 16)) "" +:+ String (hex_char (i mod 16)) "") b "".

(** * Properties *)

(** ** Resources *)

Section Report.
  Context (ty : ResourceType) (m : FlowMap).

Lemma elem_of_report p o u i f :
  {| ar_Type := ty; ar_use := (p, o, u, i, f) |} ∈ resourcesMapToresourcesProto ty m <-> holds m p o u i f.
Proof.
  unfold resourcesMapToresourcesProto, holds, entry, onu_ports. split.
  - intros ([p' onus] & H1 & Hp)%list_elem_of_bind. apply elem_of_map_to_list in Hp.
    apply list_elem_of_bind in H1 as ([o' ports] & H1 & Ho). apply elem_of_map_to_list in Ho.
    apply list_elem_of_bind in H1 as ([u' ids] & H1 & Hu). apply elem_of_map_to_list in Hu.
    apply list_elem_of_bind in H1 as ([i' fl] & H1 & Hi). apply elem_of_map_to_list in Hi.
    apply list_elem_of_fmap in H1 as (f' & [= -> -> -> -> ->] & Hf%elem_of_elements).
    exists fl. rewrite Hp. cbn. rewrite Ho. cbn. by rewrite Hu.
  - intros (fl & He & Hf). apply bind_Some in He as (ports & Hp & He). apply bind_Some in He as (ids & Hu & Hi).
    apply bind_Some in Hp as (onus & Hm & Ho).
    apply list_elem_of_bind. exists (p, onus). split; [|by apply elem_of_map_to_list].
    apply list_elem_of_bind. exists (o, ports). split; [|by apply elem_of_map_to_list].
    apply list_elem_of_bind. exists (u, ids). split; [|by apply elem_of_map_to_list].
    apply list_elem_of_bind. exists (i, fl). split; [|by apply elem_of_map_to_list].
    apply list_elem_of_fmap. exists f. split; [done|]. by apply elem_of_elements.
Qed.

(** Every line of a report has the type that was asked for. *)
Lemma report_type x : x ∈ resourcesMapToresourcesProto ty m -> ar_Type x = ty.
Proof.
  unfold resourcesMapToresourcesProto.
  intros ([p a] & H1 & _)%list_elem_of_bind. apply list_elem_of_bind in H1 as ([o b] & H1 & _).
  apply list_elem_of_bind in H1 as ([u c] & H1 & _). apply list_elem_of_bind in H1 as ([i d] & H1 & _).
  by apply list_elem_of_fmap in H1 as (f & -> & _).
Qed.

Lemma elem_of_report_iff (uses : gset Use) :
  (forall p o u i f, holds m p o u i f <-> (p, o, u, i, f) ∈ uses) ->
  forall y, y ∈ resourcesMapToresourcesProto ty m <->
    exists x, x ∈ uses /\ y = {| ar_Type := ty; ar_use := x |}.
Proof.
  intros Hu y. split.
  - intros Hy. pose proof (report_type y Hy) as Ht. destruct y as [ty' [[[[p o] u] i] f]]. cbn in Ht. subst.
    exists (p, o, u, i, f). split; [|done]. by apply Hu, elem_of_report.
  - intros ([[[[p o] u] i] f] & Hx & ->). by apply elem_of_report, Hu.
Qed.

(** Nested loops over maps visit nothing twice. *)
Lemma NoDup_map_bind {A B K : Type} `{EqDecision K, Countable K} (mm : gmap K A) (g : K * A -> list B)
    (key : B -> K) :
  (forall k a x, mm !! k = Some a -> x ∈ g (k, a) -> key x = k) ->
  (forall k a, mm !! k = Some a -> NoDup (g (k, a))) -> NoDup (map_to_list mm ≫= g).
Proof.
  intros Hk Hg. apply NoDup_bind; [|by intros [k a] Hin%elem_of_map_to_list; auto|apply NoDup_map_to_list].
  intros [k a] [k' a'] x H1%elem_of_map_to_list H2%elem_of_map_to_list Hx Hx'.
  assert (k = k') as <- by (rewrite <-(Hk k a x H1 Hx); by apply (Hk k' a')). congruence.
Qed.

Lemma report_NoDup : NoDup (resourcesMapToresourcesProto ty m).
Proof.
  unfold resourcesMapToresourcesProto.
  apply (NoDup_map_bind _ _ (fun x => use_pon (ar_use x))).
  { intros p a x _ ([o b] & H1 & _)%list_elem_of_bind. apply list_elem_of_bind in H1 as ([u c] & H1 & _).
    apply list_elem_of_bind in H1 as ([i d] & H1 & _). by apply list_elem_of_fmap in H1 as (f & -> & _). }
  intros p onus _. apply (NoDup_map_bind _ _ (fun x => use_onu (ar_use x))).
  { intros o b x _ ([u c] & H1 & _)%list_elem_of_bind.
    apply list_elem_of_bind in H1 as ([i d] & H1 & _). by apply list_elem_of_fmap in H1 as (f & -> & _). }
  intros o ports _. apply (NoDup_map_bind _ _ (fun x => (ar_use x).1.1.2)).
  { intros u c x _ ([i d] & H1 & _)%list_elem_of_bind. by apply list_elem_of_fmap in H1 as (f & -> & _). }
  intros u ids _. apply (NoDup_map_bind _ _ (fun x => (ar_use x).1.2)).
  { intros i d x _ H1. by apply list_elem_of_fmap in H1 as (f & -> & _). }
  intros i fl _. apply NoDup_fmap_2; [|apply NoDup_elements]. by intros f f' [= ->].
Qed.
End Report.

(** C33: the report of allocated resources.  For GEM ports and for alloc
    identifiers its lines are exactly the uses the abstract allocator records,
    each with the type that was asked for, each exactly once, and nothing else;
    any other type of resource is refused. *)
Theorem allocated_resources_reported (s : OltDevice) (A : Alloc) :
  represents (flow_res s) A ->
  (exists gems, GetOltAllocatedResources Resource_GEM_PORT s = inr gems /\ NoDup gems /\
     forall y, y ∈ gems <-> exists x, x ∈ sp_gems A /\ y = {| ar_Type := Resource_GEM_PORT; ar_use := x |}) /\
  (exists allocs, GetOltAllocatedResources Resource_ALLOC_ID s = inr allocs /\ NoDup allocs /\
     forall y, y ∈ allocs <-> exists x, x ∈ sp_allocs A /\ y = {| ar_Type := Resource_ALLOC_ID; ar_use := x |}) /\
  (forall ty, ty <> Resource_GEM_PORT -> ty <> Resource_ALLOC_ID ->
     exists e, GetOltAllocatedResources ty s = inl e).
Proof.
  intros [Hg Ha _]. split; [|split].
  - eexists. split; [reflexivity|]. split; [apply report_NoDup|]. by apply elem_of_report_iff.
  - eexists. split; [reflexivity|]. split; [apply report_NoDup|]. by apply elem_of_report_iff.
  - intros [] H1 H2; try done; by eexists.
Qed.

Lemma allocated_resources_reported_witness :
  exists gems, GetOltAllocatedResources Resource_GEM_PORT example_olt = inr gems /\ NoDup gems.
Proof.
  destruct (allocated_resources_reported example_olt two_onus_alloc) as ((gems & H1 & H2 & _) & _);
    [apply two_onus_represents|]. exact (ex_intro _ gems (conj H1 H2)).
Defined.
