(* ===== verification/ApiProps.v ===== *)
(** * Properties of the API

    What the requests of the API do to the devices behind them: restarting the
    protocols of the subscribers, powering ONUs, the flows that are listed. *)
From stdpp Require Import pretty.
From S2P Require Import Prelude Fsm Options OmciTypes Omci MibDb Packets Types Io Eapol Dhcp Igmp Service.
From S2P Require Import PonRes AlarmSim UniPort Get Onu OnuOmci OnuLoop OltFlows OltSpec Olt OltProps OltWf Api ApiInfo.
Open Scope Z_scope.
Open Scope string_scope.

(** ** Restarting a protocol *)

(** The service with a message more in its channel. *)
Definition queue (m : Message) (v : Service) : Service :=
  v <| Channel := match Channel v with ChOpen q => ChOpen (q ++ [m])%list | c => c end |>.

(** What the request does to one service: the error, and the service after. *)
Definition started_eapol (v : Service) : option fsm_error * Service :=
  if decide (EapolState v ∈ [StateCreated; StateResponseSuccessReceived; StateAuthFailed])
  then (None, (queue StartEAPOL v) <| EapolState := StateAuthStarted |>)
  else (Some (InvalidEventError EventStartAuth (EapolState v)), v).
Definition started_dhcp (v : Service) : option fsm_error * Service :=
  if decide (DHCPState v ∈ ["created"; "dhcp_ack_received"; "dhcp_failed"])
  then (None, (queue StartDHCP v) <| DHCPState := "dhcp_started" |>)
  else (Some (InvalidEventError "start_dhcp" (DHCPState v)), v).

Lemma start_eapol v w :
  service_up v ->
  Event eapol_fsm EventStartAuth {| svc := v; wire := w |} =
    Done ((started_eapol v).1, {| svc := (started_eapol v).2; wire := w |}).
Proof.
  intros Hup. destruct (Hup w) as (_ & _ & (q & Hq) & _). cbn in Hq. unfold started_eapol.
  pose proof (transitions_row eapol_events EventStartAuth
    [StateCreated; StateResponseSuccessReceived; StateAuthFailed] StateAuthStarted (EapolState v)
    eq_refl eq_refl) as Hrow.
  case_decide as Hd.
  - rewrite bool_decide_eq_true_2 in Hrow by done.
    rewrite (Event_ok eapol_fsm EventStartAuth _ StateAuthStarted); [|exact Hrow|].
    + mred. cbn [fsm_before eapol_fsm]. rewrite decide_True by done. unfold send_channel, lift_upd, queue. cbn.
      rewrite Hq. reflexivity.
    + cbn. intros E. rewrite E in Hd. set_solver.
  - rewrite bool_decide_eq_false_2 in Hrow by done. unfold Event. mred. cbn [fsm_current fsm_events eapol_fsm svc].
    by rewrite Hrow.
Qed.

Lemma start_dhcp v w :
  service_up v ->
  Event dhcp_fsm "start_dhcp" {| svc := v; wire := w |} =
    Done ((started_dhcp v).1, {| svc := (started_dhcp v).2; wire := w |}).
Proof.
  intros Hup. destruct (Hup w) as (_ & _ & (q & Hq) & _). cbn in Hq. unfold started_dhcp.
  pose proof (transitions_row dhcp_events "start_dhcp"
    ["created"; "dhcp_ack_received"; "dhcp_failed"] "dhcp_started" (DHCPState v) eq_refl eq_refl) as Hrow.
  case_decide as Hd.
  - rewrite bool_decide_eq_true_2 in Hrow by done.
    rewrite (Event_ok dhcp_fsm "start_dhcp" _ "dhcp_started"); [|exact Hrow|].
    + mred. cbn [fsm_before dhcp_fsm]. rewrite decide_True by done. unfold send_channel, lift_upd, queue. cbn.
      rewrite Hq. reflexivity.
    + cbn. intros E. rewrite E in Hd. set_solver.
  - rewrite bool_decide_eq_false_2 in Hrow by done. unfold Event. mred. cbn [fsm_current fsm_events dhcp_fsm svc].
    by rewrite Hrow.
Qed.

(** The loops of a restart against a reference: which services are asked, what
    becomes of them, and what is reported. *)
Section Restart.
  Context (needs skipped : Service -> bool) (start : M SvcSys (option fsm_error)).
  Context (started : Service -> option fsm_error * Service).
  Hypothesis start_spec : forall v w, service_up v ->
    start {| svc := v; wire := w |} = Done ((started v).1, {| svc := (started v).2; wire := w |}).

Definition asked (v : Service) : bool := needs v && negb (skipped v).
Definition service_key (id : Z) (v : Service) : string := "uni[" +:+ pretty id +:+ "]" +:+ svc_Name v.
Definition next_service (v : Service) : Service := if asked v then (started v).2 else v.
Definition service_failures (id : Z) (v : Service) : list string :=
  if asked v then
    match (started v).1 with Some e => [service_key id v +:+ ": " +:+ fsm_error_text e] | None => [] end
  else [].
Definition service_started (id : Z) (v : Service) : list string := if asked v then [service_key id v] else [].

Definition add_restarted (acc : Restarted) (fs ss : list string) : Restarted :=
  {| failures := (failures acc ++ fs)%list; startedOn := (startedOn acc ++ ss)%list |}.

Lemma restart_service_spec k acc s v :
  Services (uni s) !! k = Some v -> service_up v ->
  restart_service needs skipped start k acc s =
    Done (add_restarted acc (service_failures (uni_ID (uni s)) v) (service_started (uni_ID (uni s)) v),
          s <| uni ::= (fun u => u <| Services ::= <[k := next_service v]> |>) |>).
Proof.
  intros Hk Hup. unfold restart_service. erewrite bind_Done; [|reflexivity]. cbv beta. rewrite Hk. cbv zeta.
  unfold service_failures, service_started, next_service, asked, add_restarted.
  destruct (needs v), (skipped v); cbn [negb orb andb].
  2: { unfold on_service. unfold mbind, M_bind. rewrite Hk, start_spec by done. cbn [svc wire].
       fold (service_key (uni_ID (uni s)) v). destruct s. cbn.
       by destruct (started v) as [[e|] v']; cbn; rewrite ?app_nil_r. }
  all: rewrite !app_nil_r; destruct acc, s as [[] ?]; cbn in *; unfold mret, M_ret, upd, set_uni, set_Services; cbn;
    by rewrite list_insert_id.
Qed.
Lemma add_restarted_app acc f1 s1 f2 s2 :
  add_restarted (add_restarted acc f1 s1) f2 s2 = add_restarted acc (f1 ++ f2)%list (s1 ++ s2)%list.
Proof. unfold add_restarted. cbn. by rewrite !app_assoc. Qed.

Lemma add_restarted_nil acc : add_restarted acc [] [] = acc.
Proof. destruct acc. unfold add_restarted. cbn. by rewrite !app_nil_r. Qed.

Lemma set_services_self (s : UniSys) l :
  Services (uni s) = l -> s <| uni ::= (fun u => u <| Services := l |>) |> = s.
Proof. intros <-. by destruct s as [[]]. Qed.

Lemma restart_services_loop prev todo acc s :
  Services (uni s) = (prev ++ todo)%list -> Forall service_up todo ->
  fold_m (seq (length prev) (length todo)) acc (fun acc k => restart_service needs skipped start k acc) s =
    Done (add_restarted acc (todo ≫= service_failures (uni_ID (uni s))) (todo ≫= service_started (uni_ID (uni s))),
          s <| uni ::= (fun u => u <| Services := (prev ++ (next_service <$> todo))%list |>) |>).
Proof.
  revert prev acc s. induction todo as [|v todo IH]; intros prev acc s Hs Hup.
  { cbn. rewrite add_restarted_nil, set_services_self by done. done. }
  apply Forall_cons in Hup as [Hv Hup]. cbn [length seq fold_m].
  erewrite bind_Done; [|apply (restart_service_spec (length prev) acc s v); [|done]].
  2: { rewrite Hs, lookup_app_r, Nat.sub_diag by lia. done. }
  set (s1 := s <| uni ::= _ |>).
  assert (Services (uni s1) = ((prev ++ [next_service v]) ++ todo)%list) as Hs1.
  { change (Services (uni s1)) with (<[length prev := next_service v]> (Services (uni s))). rewrite Hs.
    rewrite insert_app_r_alt, Nat.sub_diag by lia. cbn. by rewrite <-app_assoc. }
  specialize (IH (prev ++ [next_service v])%list (add_restarted acc (service_failures (uni_ID (uni s)) v)
    (service_started (uni_ID (uni s)) v)) s1 Hs1 Hup).
  rewrite length_app in IH. cbn [length] in IH. rewrite Nat.add_1_r in IH. rewrite IH.
  change (uni_ID (uni s1)) with (uni_ID (uni s)). rewrite add_restarted_app, !bind_cons.
  rewrite <-app_assoc. done.
Qed.

(** What becomes of a UNI and what is reported about it. *)
Definition uni_asked (uniID : string) (u : UniPort) : bool :=
  uni_selected uniID u && bool_decide (uni_OperState u = UniStateUp).
Definition next_uni (uniID : string) (u : UniPort) : UniPort :=
  if uni_asked uniID u then u <| Services ::= fmap next_service |> else u.
Definition uni_failures (uniID : string) (u : UniPort) : list string :=
  if uni_asked uniID u then Services u ≫= service_failures (uni_ID u) else [].
Definition uni_started (uniID : string) (u : UniPort) : list string :=
  if uni_asked uniID u then Services u ≫= service_started (uni_ID u) else [].

Definition set_uniports (us : list UniPort) (s : OnuSys) : OnuSys := s <| onu ::= (fun o => o <| o_UniPorts := us |>) |>.

Lemma set_uniports_self s : set_uniports (o_UniPorts (onu s)) s = s.
Proof. by destruct s as [[]]. Qed.

Lemma restart_unis_loop uniID prev todo acc s :
  o_UniPorts (onu s) = (prev ++ todo)%list -> Forall uni_ok todo ->
  fold_m (seq (length prev) (length todo)) acc (fun acc u =>
    t ← get;
    match o_UniPorts (onu t) !! u with
    | None => mret acc
    | Some un =>
        if negb (uni_selected uniID un) then mret acc
        else if decide (uni_OperState un <> UniStateUp) then mret acc
        else on_uni u (fold_m (seq 0 (length (Services un))) acc
                         (fun acc k => restart_service needs skipped start k acc))
    end) s =
    Done (add_restarted acc (todo ≫= uni_failures uniID) (todo ≫= uni_started uniID),
          set_uniports (prev ++ (next_uni uniID <$> todo))%list s).
Proof.
  set (body := fun acc u => _). revert prev acc s. induction todo as [|u todo IH]; intros prev acc s Hs Hok.
  { cbn. rewrite add_restarted_nil, app_nil_r. rewrite app_nil_r in Hs. by rewrite <-Hs, set_uniports_self. }
  apply Forall_cons in Hok as [Hu Hok]. cbn [length seq fold_m].
  assert (o_UniPorts (onu s) !! length prev = Some u) as Hat.
  { rewrite Hs, lookup_app_r, Nat.sub_diag by lia. done. }
  assert (forall x, <[length prev := x]> (o_UniPorts (onu s)) = (prev ++ x :: todo)%list) as Hins.
  { intros x. rewrite Hs, insert_app_r_alt, Nat.sub_diag by lia. done. }
  assert (body acc (length prev) s = Done (add_restarted acc (uni_failures uniID u) (uni_started uniID u),
    set_uniports (prev ++ next_uni uniID u :: todo)%list s)) as Hb.
  { unfold body. erewrite bind_Done; [|reflexivity]. cbv beta. rewrite Hat.
    unfold uni_failures, uni_started, next_uni, uni_asked.
    destruct (uni_selected uniID u); cbn [negb andb].
    - destruct (decide (uni_OperState u = UniStateUp)) as [Hd|Hd].
      2: { rewrite decide_True, bool_decide_eq_false_2, add_restarted_nil, <-Hs, set_uniports_self by done. done. }
      rewrite decide_False, bool_decide_eq_true_2 by (done || by intros []).
      destruct Hu as [[[_ Hup]|[Hst _]] _]; [|by rewrite Hst in Hd].
      unfold on_uni. rewrite Hat.
      rewrite (restart_services_loop [] (Services u) acc {| uni := u; onu_chan := _; u_wire := _ |}) by done.
      unfold set_uniports. rewrite <-Hins.
      destruct s as [[] ? ? ? ? ? ? ? ?], u. reflexivity.
    - rewrite add_restarted_nil, <-Hs, set_uniports_self. done. }
  erewrite bind_Done; [|exact Hb]. set (s1 := set_uniports _ s).
  specialize (IH (prev ++ [next_uni uniID u])%list
    (add_restarted acc (uni_failures uniID u) (uni_started uniID u)) s1).
  rewrite length_app in IH. cbn [length] in IH. rewrite Nat.add_1_r in IH.
  rewrite IH; [|by rewrite <-app_assoc|done].
  rewrite add_restarted_app, !bind_cons, <-app_assoc. done.
Qed.

Lemma restart_unis_spec uniID s :
  Forall uni_ok (o_UniPorts (onu s)) ->
  restart_unis needs skipped start uniID s =
    Done ({| failures := o_UniPorts (onu s) ≫= uni_failures uniID;
             startedOn := o_UniPorts (onu s) ≫= uni_started uniID |},
          set_uniports (next_uni uniID <$> o_UniPorts (onu s)) s).
Proof.
  intros Hok. unfold restart_unis. erewrite bind_Done; [|reflexivity].
  exact (restart_unis_loop uniID [] (o_UniPorts (onu s)) {| failures := []; startedOn := [] |} s eq_refl Hok).
Qed.
End Restart.

(** The two requests. *)
Definition not_initialized (v : Service) : bool := negb (bool_decide (InternalState v = ServiceStateInitialized)).

Lemma restart_on_onu needs skipped start started s p i o uniID :
  (forall v w, service_up v ->
    start {| svc := v; wire := w |} = Done ((started v).1, {| svc := (started v).2; wire := w |})) ->
  onu_at s p i = Some o -> Forall uni_ok (o_UniPorts o) ->
  exists s', on_onu p i (restart_unis needs skipped start uniID) s =
      Done ({| failures := o_UniPorts o ≫= uni_failures needs skipped started uniID;
               startedOn := o_UniPorts o ≫= uni_started needs skipped uniID |}, s') /\
    onu_at s' p i = Some (o <| o_UniPorts := next_uni needs skipped started uniID <$> o_UniPorts o |>).
Proof.
  intros Hst (pp & Hp & Ho)%bind_Some Hok.
  destruct (on_onu_frame p i (restart_unis needs skipped start uniID) s pp o _ _ Hp Ho
    (restart_unis_spec needs skipped start started Hst uniID (onu_view s pp o) Hok))
    as (s' & R & P' & _). exists s'. split; [exact R|]. unfold onu_at. rewrite P'. cbn.
  apply list_lookup_insert_eq. by eapply lookup_lt_Some.
Qed.

(** C32: restarting the authentication or DHCP of an ONU.  Exactly the services
    that need the protocol, on the UNIs that are up and selected by the request,
    are asked: one whose protocol is idle starts it, with the start message in
    its channel; one whose protocol is under way is left alone and reported.
    The reply is a success naming those services if none of them failed, and
    the list of failures otherwise; nothing else of the ONU changes. *)
Theorem restart_protocols (s : OltDevice) (sn uniID : string) (p i : nat) (o : Onu) :
  FindOnuBySn s sn = inr (p, i) -> onu_at s p i = Some o -> Forall uni_ok (o_UniPorts o) ->
  (exists s', RestartEapol sn uniID s = Done (restart_reply "Authentication" "EAPOL" (sn_at s p i)
       {| failures := o_UniPorts o ≫= uni_failures NeedsEapol not_initialized started_eapol uniID;
          startedOn := o_UniPorts o ≫= uni_started NeedsEapol not_initialized uniID |}, s') /\
     onu_at s' p i =
       Some (o <| o_UniPorts := next_uni NeedsEapol not_initialized started_eapol uniID <$> o_UniPorts o |>)) /\
  (exists s', RestartDhcp sn uniID s = Done (restart_reply "DHCP" "DHCP" (sn_at s p i)
       {| failures := o_UniPorts o ≫= uni_failures NeedsDhcp (fun _ => false) started_dhcp uniID;
          startedOn := o_UniPorts o ≫= uni_started NeedsDhcp (fun _ => false) uniID |}, s') /\
     onu_at s' p i =
       Some (o <| o_UniPorts := next_uni NeedsDhcp (fun _ => false) started_dhcp uniID <$> o_UniPorts o |>)).
Proof.
  intros Hf Hat Hok. unfold RestartEapol, RestartDhcp. split.
  - destruct (restart_on_onu NeedsEapol not_initialized _ started_eapol s p i o uniID start_eapol Hat Hok)
      as (s' & R & H'). exists s'. split; [|done]. erewrite bind_Done; [|reflexivity]. cbv beta. rewrite Hf.
    by erewrite bind_Done; [|exact R].
  - destruct (restart_on_onu NeedsDhcp (fun _ => false) _ started_dhcp s p i o uniID start_dhcp Hat Hok)
      as (s' & R & H'). exists s'. split; [|done]. erewrite bind_Done; [|reflexivity]. cbv beta. rewrite Hf.
    by erewrite bind_Done; [|exact R].
Qed.

Lemma restart_protocols_witness :
  exists s', RestartEapol "BBSM00000001" "" example_olt =
    Done (accepted "Authentication restarted on Services [uni[0]hsia] for ONU BBSM00000001.", s').
Proof.
  destruct (restart_protocols example_olt "BBSM00000001" "" 0 0 (onu running_onu)) as [(s' & R & _) _];
    [by vm_compute|done|apply running_onu_ok|].
  exists s'. rewrite R. clear. by vm_compute.
Defined.

(** ** Requests that go wrong *)

(** A UNI that is not a number selects every UNI of the ONU. *)
Lemma restart_unparsable_uni sn uniID s :
  Atoi uniID = None -> RestartEapol sn uniID s = RestartEapol sn "" s /\ RestartDhcp sn uniID s = RestartDhcp sn "" s.
Proof.
  intros Hn. unfold RestartEapol, RestartDhcp, restart_unis, uni_selected. rewrite Hn.
  by change (Atoi "") with (@None Z).
Qed.

(** The message of the ONU whose flows are asked for: a flow that was added
    twice and removed once is still listed for the ONU but not stored in the
    OLT any more, so listing the flows of the ONU panics. *)
Definition flow_twice : OltDevice :=
  let f := example_flow 1 1024 1024 1 in
  match (Olt.FlowAdd f ;; Olt.FlowAdd f ;; FlowRemove f)
          (example_olt <| Pons ::= fmap (fun pp => pp <| Onus ::= fmap (fun o => o <| Flows := [] |>) |>) |>) with
  | Done (_, s) => s
  | _ => example_olt
  end.

Lemma GetFlows_panics :
  GetFlows "BBSM00000001" flow_twice =
    Panicked "interface conversion: interface {} is nil, not *openolt.Flow".
Proof. by vm_compute. Qed.

(** A negative number of a UNI passes the check and indexes out of range. *)
Lemma ChangeIgmpState_negative_uni :
  ChangeIgmpState "BBSM00000001" (-1) SubActionTypes_JOIN "224.0.0.22" 0 example_olt = Panicked "index out of range".
Proof. by vm_compute. Qed.

(** The legacy API reports the number of PON ports as the number of active ONUs. *)
Lemma legacy_active_onus :
  (forall s pp, pt_ActiveOnus (pon_port_info s pp) = u32 (NumPon s)) /\
  GetNumOfActiveOnus example_pon = 2 /\ pt_ActiveOnus (pon_port_info example_olt example_pon) = 1.
Proof. split; [done|]. by vm_compute. Qed.

(** Powering the OLT on after it was shut down is always refused: the handler
    fires the event of a device that was never started or was deleted, not the
    one that enables a disabled OLT. *)
Lemma olt_power_cycle_refused s r s1 :
  ShutdownOlt s = Done (r, s1) -> r.2 = None ->
  exists e, PoweronOlt s1 = Done (({| StatusCode := codes_FailedPrecondition; resp_Message := "" |}, Some e), s1).
Proof.
  unfold ShutdownOlt, PoweronOlt. intros Hr Hn.
  apply bind_Done_inv in Hr as (err & t & E & Hr). destruct err as [e|]; injection Hr as <- ->; [done|].
  assert (olt_InternalState s1 = OltInternalStateDisabled) as Hd.
  { destruct (transitions olt_events OltInternalTxDisable (olt_InternalState s)) as [d|] eqn:Ht.
    - apply transitions_entry in Ht as Ht'. vm_compute in Ht'. assert (d = OltInternalStateDisabled) as -> by set_solver.
      rewrite (Event_ok olt_fsm _ s _ Ht) in E; [injection E as <-; done|]. cbn. intros Hs. rewrite Hs in Ht. by vm_compute in Ht.
    - destruct (Event_rejected olt_fsm OltInternalTxDisable s Ht) as [e He]. rewrite He in E. done. }
  destruct (Event_rejected olt_fsm OltInternalTxInitialize s1) as [e He]; [cbn; by rewrite Hd|].
  exists (fsm_error_text e). by erewrite bind_Done; [|exact He].
Qed.

(** An ONU that is not enabled (here it was only discovered) cannot be shut
    down, but the refusal comes after the alarms: VOLTHA is told that the ONU
    has died. *)
Definition discovered_olt : OltDevice :=
  example_olt <| channel := ChOpen [] |>
    <| Pons ::= fmap (fun pp => pp <| Onus ::= fmap (fun o => o <| o_InternalState := OnuStateDiscovered |>) |>) |>.

Lemma refused_shutdown_alarms :
  exists e s', ShutdownONU "BBSM00000001" discovered_olt = Done (refused codes_FailedPrecondition e, s') /\
    channel s' = ChOpen [MsgAlarmIndication (DyingGaspInd 0 1 "on");
                         MsgAlarmIndication (OnuAlarmInd 0 1 "on" "" "" "" "" "")].
Proof. eexists _, _. split; by vm_compute. Qed.
