(* ===== verification/Bbr.v ===== *)
(** * BBR: the emulator of VOLTHA

    [internal/bbr/devices]: BBR creates a copy of the simulated OLT and plays
    VOLTHA against BBSim.  It reads the indications of BBSim's stream, activates
    the ONUs it discovers, hands OMCI messages and packets to its own copies of
    the ONUs (whose code is that of [OnuLoop]), counts the ONUs that got an
    address and then asks the API of BBSim whether every subscriber is served.
    The replies of BBSim are arguments. *)
From S2P Require Import Prelude Fsm Options OmciTypes Omci MibDb Packets Types Io Eapol Dhcp Igmp Service.
From S2P Require Import PonRes AlarmSim UniPort Get Onu OnuOmci OnuLoop OltFlows OltSpec Olt OltProps OltWf Api ApiInfo.
Open Scope Z_scope.
Open Scope string_scope.

(** Source: internal/bbr/devices/olt.go, [OltMock].  [watched] lists the ONUs
    whose [DoneChannel] a goroutine reads, [conn] tells whether the connection
    is open. *)
Record OltMock := {
  LastUsedOnuId : gmap Z Z; mock : OltDevice; bbr_client : Client; TargetOnus : Z; CompletedOnus : Z;
  watched : list (nat * nat); conn : bool }.
#[export] Instance eta_OltMock : Eta OltMock := fun b => {|
  LastUsedOnuId := LastUsedOnuId b; mock := mock b; bbr_client := bbr_client b; TargetOnus := TargetOnus b;
  CompletedOnus := CompletedOnus b; watched := watched b; conn := conn b |}.
#[export] Instance set_LastUsedOnuId : Setter LastUsedOnuId := ltac:(setter_for LastUsedOnuId).
#[export] Instance set_mock : Setter mock := ltac:(setter_for mock).
#[export] Instance set_bbr_client : Setter bbr_client := ltac:(setter_for bbr_client).
#[export] Instance set_CompletedOnus : Setter CompletedOnus := ltac:(setter_for CompletedOnus).
#[export] Instance set_watched : Setter watched := ltac:(setter_for watched).
#[export] Instance set_conn : Setter conn := ltac:(setter_for conn).

(** Run code of an ONU of BBR: it has the openolt client. *)
Definition on_mock {A : Type} (p i : nat) (m : M OnuSys A) : M OltMock A := fun b =>
  match Pons (mock b) !! p with
  | None => Panicked "invalid memory address or nil pointer dereference"
  | Some pp =>
      match Onus pp !! i with
      | None => Panicked "invalid memory address or nil pointer dereference"
      | Some o =>
          match m ((onu_view (mock b) pp o) <| o_client := Some (bbr_client b) |>) with
          | Done (a, t) => Done (a, b <| mock ::= onu_back p i pp t |>
                                      <| bbr_client := default (bbr_client b) (o_client t) |>)
          | Panicked w => Panicked w
          | Blocked w => Blocked w
          | Exited w => Exited w
          end
      end
  end.

(** A call on the openolt client by BBR itself. *)
Definition bbr_call (c : ClientCall) : M OltMock (option error) := fun b =>
  match c_err (bbr_client b) with
  | Some e => Done (Some e, b)
  | None => Done (None, b <| bbr_client ::= (fun cl =>
              {| c_err := None; c_calls := (c_calls cl ++ [c])%list |}) |>)
  end.

(** ** Indications *)

(** Source: internal/bbr/devices/olt.go, [OltMock.handleOnuDiscIndication].  A
    failed activation is only reported. *)
Definition handleOnuDiscIndication (intfId : Z) (sn : SerialNumber) : M OltMock unit :=
  b ← get;
  match FindOnuBySn (mock b) (OnuSnToString sn) with
  | inl _ => exit "Cannot find ONU"
  | inr (p, i) =>
      let id := u32 (default 0 (LastUsedOnuId b !! intfId) + 1) in
      modify (fun b => b <| LastUsedOnuId ::= <[intfId := id]> |>) ;;
      on_mock p i (SetID id) ;;
      b ← get;
      match onu_at (mock b) p i with
      | None => skip
      | Some o => bbr_call (CActivateOnu (o_PonPortID o) id (o_SerialNumber o)) ;; skip
      end
  end.

Section Mock.
  Context `{OmciLib} `{MeLib} `{Gopacket}.

(** Source: internal/bbr/devices/olt.go, [OltMock.handleOnuIndication].  The
    goroutine that waits for the ONU to be done is [onu_done]. *)
Definition handleOnuIndication (sn : SerialNumber) : M OltMock unit :=
  b ← get;
  match FindOnuBySn (mock b) (OnuSnToString sn) with
  | inl _ => exit "Cannot find ONU"
  | inr (p, i) =>
      on_mock p i (upd_onu (fun o => o <| o_goroutines ::= S |>)) ;;
      modify (fun b => b <| watched ::= (fun l => l ++ [(p, i)])%list |>) ;;
      on_mock p i StartOmci
  end.

(** Source: internal/bbr/devices/olt.go, [OltMock.handleOmciIndication].  The
    error of the second lookup is not looked at: an unknown ONU is dereferenced
    as nil. *)
Definition handleOmciIndication (intfId onuId : Z) (pkt : list Z) : M OltMock unit :=
  b ← get;
  match GetPonById (mock b) intfId with
  | None => exit "Can't find PonPort"
  | Some p =>
      match Pons (mock b) !! p ≫= (fun pp => GetOnuById pp onuId) with
      | None => panic "invalid memory address or nil pointer dereference"
      | Some i => on_mock p i (send_self (OmciIndication pkt))
      end
  end.

(** The message that hands a packet to an ONU; it has no port and no address. *)
Definition packet_in (intfId onuId : Z) (pkt : list Z) (ty : PacketType) (gem : Z) : Message :=
  OnuPacketIn {| pm_IntfId := intfId; pm_OnuId := onuId; pm_PortNo := 0; pm_Packet := pkt; pm_Type := ty;
                 MacAddress := []; GemPortId := gem |}.

(** Source: internal/bbr/devices/olt.go, [OltMock.handlePktIndication].  A
    packet from the NNI goes to the ONU of the service that has its destination
    address, another one to the ONU whose identifier is the port number. *)
Definition handlePktIndication (intfType : string) (intfId gem : Z) (pkt : list Z) (portNo : Z)
    : M OltMock unit :=
  b ← get;
  match GetPktType pkt with
  | inl _ => skip
  | inr pktType =>
      if decide (intfType = "nni") then
        match GetDstMacAddressFromPacket pkt with
        | inl _ => exit "Can't find Dst MacAddress in packet"
        | inr onuMac =>
            match FindServiceByMacAddress (mock b) onuMac with
            | inl _ => exit "Can't find ONU with MacAddress"
            | inr (p, i, _) =>
                on_mock p i (t ← get; send_self (packet_in intfId (o_ID (onu t)) pkt pktType gem))
            end
        end
      else
        match GetPonById (mock b) intfId with
        | None => exit "Can't find PonPort"
        | Some p =>
            match Pons (mock b) !! p ≫= (fun pp => GetOnuById pp portNo) with
            | None => exit "Can't find Onu"
            | Some i => on_mock p i (send_self (packet_in intfId portNo pkt pktType 0))
            end
        end
  end.

(** Source: internal/bbr/devices/olt.go, [OltMock.handleIndication]. *)
Definition handleIndication (ind : Indication) : M OltMock unit :=
  match ind with
  | IndOnuDisc intf sn => handleOnuDiscIndication intf sn
  | IndOnu _ _ _ _ sn => handleOnuIndication sn
  | IndOmci intf onu pkt => handleOmciIndication intf onu pkt
  | IndPkt ty intf gem pkt portNo _ _ => handlePktIndication ty intf gem pkt portNo
  | _ => skip
  end.

(** Source: internal/bbr/devices/olt.go, [OltMock.readIndications].  [enabled]
    is the error of the call that opens the stream, [inds] what is received
    before the stream ends. *)
Definition readIndications (enabled : option error) (inds : list Indication) : M OltMock unit :=
  match enabled with
  | Some _ => skip
  | None => for_each inds handleIndication
  end.

(** Source: internal/bbr/devices/olt.go, [OltMock.Start].  [info] is the error
    of the request for device information. *)
Definition Start (info enabled : option error) (inds : list Indication) : M OltMock unit :=
  b ← get;
  for_each (all_onus (mock b)) (fun '(p, i, _) =>
    err ← on_mock p i (Event onu_fsm "initialize");
    match err with Some _ => exit "Error initializing ONU" | None => skip end) ;;
  modify (fun b => b <| conn := true |>) ;;
  match info with
  | Some _ => exit "Can't read device info"
  | None => readIndications enabled inds
  end ;;
  modify (fun b => b <| conn := false |>).

(** ** Completion *)

Definition expectedEapolState : string := "eap_response_success_received".
Definition expectedDhcpState : string := "dhcp_ack_received".

(** Source: internal/bbr/devices/validate.go:55-73, [ValidateAndClose] (a
    service that did not reach its state ends the program). *)
Fixpoint check_services (l : list ProtoService) : outcome unit :=
  match l with
  | [] => Done tt
  | v :: l' =>
      if decide (ps_UniId v <> 0) then check_services l'
      else if decide (ps_DhcpState v <> expectedDhcpState \/ ps_EapolState v <> expectedEapolState)
      then Exited "Not matching expected state"
      else check_services l'
  end.

(** Source: internal/bbr/devices/validate.go, [ValidateAndClose].  [services]
    is the reply of BBSim's API. *)
Definition ValidateAndClose (services : error + list ProtoService) : M OltMock unit :=
  match services with
  | inl _ => exit "Can't reach BBSim API"
  | inr l => of_outcome (check_services l) ;; modify (fun b => b <| conn := false |>)
  end.

(** One goroutine less waits for the ONU. *)
Fixpoint stop_watching (x : nat * nat) (l : list (nat * nat)) : list (nat * nat) :=
  match l with
  | [] => []
  | y :: l' => if decide (y = x) then l' else y :: stop_watching x l'
  end.

(** Source: internal/bbr/devices/olt.go:234-263, [OltMock.handleOnuIndication]
    (the goroutine that waits for an ONU, when the ONU signals that it is done;
    it ends and so does the loop of the ONU). *)
Definition onu_done (p i : nat) (services : error + list ProtoService) : M OltMock unit :=
  modify (fun b => b <| CompletedOnus ::= Z.succ |>) ;;
  b ← get;
  (if decide (CompletedOnus b = TargetOnus b) then ValidateAndClose services else skip) ;;
  modify (fun b => b <| watched ::= stop_watching (p, i) |>) ;;
  on_mock p i (upd_onu (fun o => o <| o_goroutines ::= pred |> <| o_Done ::= pred |>)).
End Mock.

(** * Properties *)

(** ** Identifiers *)

(** Two devices whose ONUs carry the same serial numbers and ports, by position. *)
Definition same_names (s s' : OltDevice) : Prop :=
  (fun x => (x.1, (o_SerialNumber x.2, o_PonPortID x.2))) <$> all_onus s =
  (fun x => (x.1, (o_SerialNumber x.2, o_PonPortID x.2))) <$> all_onus s'.

Lemma FindOnuBySn_names s s' sn : same_names s s' -> FindOnuBySn s sn = FindOnuBySn s' sn.
Proof.
  intros Hs. unfold FindOnuBySn.
  assert (forall s, (fun x => x.2.1) <$> list_find (fun x => OnuSnToString (o_SerialNumber x.2) = sn) (all_onus s) =
    (fun x => x.2.1) <$> list_find (fun x => OnuSnToString x.2.1 = sn)
      ((fun x => (x.1, (o_SerialNumber x.2, o_PonPortID x.2))) <$> all_onus s)) as Hby.
  { intros t. exact (find_by (fun o => (o_SerialNumber o, o_PonPortID o)) (fun y => OnuSnToString y.1 = sn)
      (all_onus t)). }
  pose proof (Hby s) as H1. pose proof (Hby s') as H2. rewrite Hs in H1. rewrite <-H2 in H1.
  destruct (list_find _ (all_onus s)) as [[n [[p i] o]]|], (list_find _ (all_onus s')) as [[n' [[p' i'] o']]|];
    cbn in H1; congruence.
Qed.

Lemma on_mock_SetID b p i o id :
  onu_at (mock b) p i = Some o ->
  exists s', on_mock p i (SetID id) b = Done (tt, b <| mock := s' |>) /\ same_names s' (mock b) /\
    onu_at s' p i = Some (o <| o_ID := id |>).
Proof.
  intros (pp & Hp & Ho)%bind_Some. unfold on_mock. rewrite Hp, Ho.
  set (t := (onu_view (mock b) pp o) <| o_client := Some (bbr_client b) |>).
  change (SetID id t) with (Done (tt, t <| onu ::= (fun o => o <| o_ID := id |>) |>)). cbv beta iota.
  set (s' := onu_back p i pp (t <| onu ::= (fun o => o <| o_ID := id |>) |>) (mock b)).
  exists s'. split; [by destruct b|]. split.
  - apply (all_onus_put (fun o => (o_SerialNumber o, o_PonPortID o)) (mock b) p pp i o (o <| o_ID := id |>)
      s' (pp_res pp)); done.
  - unfold onu_at. change (Pons s') with (<[p := pp <| Onus ::= <[i := o <| o_ID := id |>]> |> <| pp_res := pp_res pp |>]>
      (Pons (mock b))). rewrite list_lookup_insert_eq by (by eapply lookup_lt_Some). cbn.
    apply list_lookup_insert_eq. by eapply lookup_lt_Some.
Qed.

Lemma names_at s s' p i o' :
  same_names s s' -> onu_at s' p i = Some o' ->
  exists o, onu_at s p i = Some o /\ o_SerialNumber o = o_SerialNumber o' /\ o_PonPortID o = o_PonPortID o'.
Proof.
  intros Hs Ho'%elem_of_all_onus.
  assert ((p, i, (o_SerialNumber o', o_PonPortID o')) ∈
    ((fun x => (x.1, (o_SerialNumber x.2, o_PonPortID x.2))) <$> all_onus s)) as Hin.
  { rewrite Hs. apply list_elem_of_fmap. by exists (p, i, o'). }
  apply list_elem_of_fmap in Hin as ([[p0 i0] o] & [= -> -> Hsn Hpon] & Hin). apply elem_of_all_onus in Hin.
  by exists o.
Qed.

(** BBR knows the ONU that is discovered, on this PON. *)
Definition discoverable (s : OltDevice) (x : Z * SerialNumber) : Prop :=
  exists p i o, FindOnuBySn s (OnuSnToString x.2) = inr (p, i) /\ onu_at s p i = Some o /\ o_PonPortID o = x.1.

Lemma discoverable_names s s' x : same_names s' s -> discoverable s x -> discoverable s' x.
Proof.
  intros Hs (p & i & o & Hf & Ho & Hpon). destruct (names_at s' s p i o Hs Ho) as (o' & Ho' & _ & Hp').
  exists p, i, o'. rewrite (FindOnuBySn_names s' s) by done. split; [done|]. split; [done|congruence].
Qed.

Definition last_id (b : OltMock) (intf : Z) : Z := default 0 (LastUsedOnuId b !! intf).

(** The ONU that is found has the serial number that was looked for. *)
Lemma FindOnuBySn_printed s sn p i o :
  FindOnuBySn s sn = inr (p, i) -> onu_at s p i = Some o -> OnuSnToString (o_SerialNumber o) = sn.
Proof.
  unfold FindOnuBySn. destruct (list_find _ _) as [[n [[p' i'] o']]|] eqn:E; [|done].
  intros [= -> ->] Ho. apply list_find_Some in E as (Hn & Hsn & _). cbn [snd] in Hsn.
  apply list_elem_of_lookup_2, elem_of_all_onus in Hn. congruence.
Qed.

(** One discovery. *)
Lemma discover_one b intf sn :
  c_err (bbr_client b) = None -> discoverable (mock b) (intf, sn) -> 0 <= last_id b intf < 2 ^ 32 - 1 ->
  exists b' sn', handleOnuDiscIndication intf sn b = Done (tt, b') /\ same_names (mock b') (mock b) /\
    OnuSnToString sn' = OnuSnToString sn /\
    LastUsedOnuId b' = <[intf := last_id b intf + 1]> (LastUsedOnuId b) /\
    bbr_client b' = {| c_err := None;
      c_calls := (c_calls (bbr_client b) ++ [CActivateOnu intf (last_id b intf + 1) sn'])%list |}.
Proof.
  intros He (p & i & o & Hf & Ho & Hpon) Hid. cbn [fst snd] in Hf, Hpon. unfold handleOnuDiscIndication.
  erewrite bind_Done; [|reflexivity]. cbv beta. rewrite Hf. fold (last_id b intf).
  unfold u32. rewrite Z.mod_small by lia. cbv zeta. erewrite bind_Done; [|reflexivity].
  set (b1 := b <| LastUsedOnuId ::= _ |>).
  destruct (on_mock_SetID b1 p i o (last_id b intf + 1) Ho) as (s' & R & Hn & Hat).
  erewrite bind_Done; [|exact R]. erewrite bind_Done; [|reflexivity]. cbv beta.
  change (mock (b1 <| mock := s' |>)) with s'. rewrite Hat.
  erewrite bind_Done; [|unfold bbr_call; change (bbr_client (b1 <| mock := s' |>)) with (bbr_client b);
    rewrite He; reflexivity].
  eexists _, (o_SerialNumber o). split; [reflexivity|]. split; [exact Hn|].
  split; [by eapply FindOnuBySn_printed|]. split; [done|]. cbn. rewrite <-Hpon. done.
Qed.

(** The identifiers given out on a PON, in order. *)
Definition given (intf : Z) (cs : list ClientCall) : list Z :=
  omap (fun c => match c with CActivateOnu p id _ => if decide (p = intf) then Some id else None | _ => None end) cs.
Definition discoveries (intf : Z) (l : list (Z * SerialNumber)) : Z :=
  Z.of_nat (length (filter (fun x => x.1 = intf) l)).

Lemma discoveries_cons intf i0 sn l :
  discoveries intf ((i0, sn) :: l) = (if decide (intf = i0) then 1 else 0) + discoveries intf l.
Proof. unfold discoveries. rewrite filter_cons. cbn [fst]. repeat case_decide; cbn [length]; subst; try done; lia. Qed.

(** C31: the identifiers BBR gives to ONUs.  For any sequence of discoveries of
    ONUs it knows, with a working client and no identifier beyond 32 bits, BBR
    makes one activation per discovery, in order: the [k]-th one names the PON
    and the serial number of the [k]-th discovery, and the identifier that
    follows the last one used on that PON, those of the earlier discoveries
    included.  So on each PON the identifiers are consecutive, and no two ONUs
    of a PON get the same one. *)
Theorem bbr_onu_ids (b : OltMock) (l : list (Z * SerialNumber)) :
  c_err (bbr_client b) = None -> Forall (discoverable (mock b)) l ->
  (forall intf, 0 <= last_id b intf /\ last_id b intf + Z.of_nat (length l) < 2 ^ 32) ->
  exists b' cs, for_each l (fun x => handleOnuDiscIndication x.1 x.2) b = Done (tt, b') /\
    c_calls (bbr_client b') = (c_calls (bbr_client b) ++ cs)%list /\ length cs = length l /\
    (forall k intf sn, l !! k = Some (intf, sn) -> exists sn',
       cs !! k = Some (CActivateOnu intf (last_id b intf + discoveries intf (take k l) + 1) sn') /\
       OnuSnToString sn' = OnuSnToString sn) /\
    forall intf, given intf cs = seqZ (last_id b intf + 1) (discoveries intf l) /\
      last_id b' intf = last_id b intf + discoveries intf l.
Proof.
  revert b. induction l as [|[i0 sn] l IH]; intros b He Hk Hr.
  { exists b, []. split; [done|]. rewrite app_nil_r. split_and!; [done|done|done|].
    intros intf. unfold discoveries. cbn. split; [done|lia]. }
  apply Forall_cons in Hk as [Hd Hk]. cbn [length] in Hr.
  destruct (discover_one b i0 sn He Hd) as (b1 & sn' & R1 & Hn & Hsn & Hl & Hc); [specialize (Hr i0); lia|].
  assert (forall intf, last_id b1 intf = if decide (intf = i0) then last_id b i0 + 1 else last_id b intf) as Hlast.
  { intros intf. unfold last_id at 1. rewrite Hl. case_decide; [subst; by rewrite lookup_insert_eq|].
    by rewrite lookup_insert_ne. }
  destruct (IH b1) as (b' & cs & R & Hcs & Hlen & Hat & Hall).
  - by rewrite Hc.
  - eapply Forall_impl; [exact Hk|]. intros x. by apply discoverable_names.
  - intros intf. rewrite Hlast. specialize (Hr intf) as Hri. specialize (Hr i0). case_decide; lia.
  - exists b', (CActivateOnu i0 (last_id b i0 + 1) sn' :: cs). cbn [for_each].
    erewrite bind_Done; [|exact R1]. split; [exact R|]. split; [by rewrite Hcs, Hc; cbn; rewrite <-app_assoc|].
    split; [cbn; lia|]. split.
    + intros [|k] intf sn0 Hl0; cbn [lookup list_lookup] in Hl0.
      { simplify_eq. exists sn'. split; [|done]. unfold discoveries. cbn. by rewrite Z.add_0_r. }
      destruct (Hat k intf sn0 Hl0) as (sn1 & Hk1 & Hs1). exists sn1. split; [|done]. cbn [take].
      change (cs !! k = Some (CActivateOnu intf (last_id b intf + discoveries intf ((i0, sn) :: take k l) + 1) sn1)).
      rewrite Hk1, discoveries_cons, Hlast. do 2 f_equal. case_decide; subst; lia.
    + intros intf. destruct (Hall intf) as [Hg Hlid]. rewrite Hlast in Hg, Hlid.
      rewrite discoveries_cons. cbn [given omap list_omap].
      destruct (decide (i0 = intf)) as [->|Hne].
      * rewrite !decide_True in Hg, Hlid by done. rewrite decide_True by done. split; [|lia].
        change (last_id b intf + 1 :: given intf cs = seqZ (last_id b intf + 1) (1 + discoveries intf l)).
        rewrite Hg, (seqZ_cons _ (1 + _)) by (unfold discoveries; lia). f_equal. f_equal; lia.
      * rewrite decide_False in Hg, Hlid by done. rewrite decide_False by done. split; [exact Hg|lia].
Qed.

(** ** Validation *)

Lemma check_services_spec l :
  (check_services l = Done tt <-> forall v, v ∈ l -> ps_UniId v = 0 ->
     ps_DhcpState v = expectedDhcpState /\ ps_EapolState v = expectedEapolState) /\
  (check_services l = Done tt \/ check_services l = Exited "Not matching expected state").
Proof.
  induction l as [|v l [IH1 IH2]]; cbn [check_services].
  { split; [|by left]. split; [|done]. intros _ v Hv. by apply elem_of_nil in Hv. }
  destruct (decide (ps_UniId v <> 0)) as [Hu|Hu].
  { split; [|done]. rewrite IH1. split.
    - intros Hall x [->|Hx]%elem_of_cons Hx0; [by destruct Hu|by apply Hall].
    - intros Hall x Hx. apply Hall. by right. }
  destruct (decide (ps_DhcpState v <> expectedDhcpState \/ ps_EapolState v <> expectedEapolState)) as [Hd|Hd].
  - split; [|by right]. split; [done|]. intros Hall. exfalso. destruct (Hall v) as [H1 H2]; [by left|lia|]. by destruct Hd.
  - split; [|done]. rewrite IH1. split.
    + intros Hall x [->|Hx]%elem_of_cons Hx0; [|by apply Hall].
      split; apply dec_stable; intros Hn; apply Hd; [by left|by right].
    + intros Hall x Hx. apply Hall. by right.
Qed.

(** The services of a device the API lists without a filter. *)
Lemma elem_of_GetServices s v :
  v ∈ GetServices "" "" s <->
  exists p i o u x, onu_at s p i = Some o /\ u ∈ o_UniPorts o /\ x ∈ Services u /\
    v = convertBBSimServiceToProtoService (onu_sn o) (uni_ID u) x.
Proof.
  unfold GetServices, convertBBsimServicesToProtoServices. split.
  - intros (pp & H1 & Hpp)%list_elem_of_bind. apply list_elem_of_bind in H1 as (o & H1 & Ho).
    apply list_elem_of_bind in H1 as (u & H1 & Hu). apply list_elem_of_In, filter_In in H1 as [H1 _].
    apply list_elem_of_In, list_elem_of_fmap in H1 as (x & -> & Hx).
    apply list_elem_of_lookup_1 in Hpp as [p Hp]. apply list_elem_of_lookup_1 in Ho as [i Hi].
    exists p, i, o, u, x. split_and!; [|done..]. unfold onu_at. by rewrite Hp.
  - intros (p & i & o & u & x & (pp & Hp & Ho)%bind_Some & Hu & Hx & ->).
    apply list_elem_of_bind. exists pp. split; [|by eapply list_elem_of_lookup_2].
    apply list_elem_of_bind. exists o. split; [|by eapply list_elem_of_lookup_2].
    apply list_elem_of_bind. exists u. split; [|done]. apply list_elem_of_In, filter_In. split; [|done].
    apply list_elem_of_In, list_elem_of_fmap. by exists x.
Qed.

(** C30: what BBR accepts.  When the ONUs are done, BBR ends the simulation
    normally exactly if every service of the first UNI of every ONU of BBSim has
    been authenticated and has an address; otherwise the program exits. *)
Theorem bbr_validates (s : OltDevice) (b : OltMock) :
  let served := forall p i o u v, onu_at s p i = Some o -> u ∈ o_UniPorts o -> v ∈ Services u -> uni_ID u = 0 ->
    DHCPState v = "dhcp_ack_received" /\ EapolState v = StateResponseSuccessReceived in
  (served -> ValidateAndClose (inr (GetServices "" "" s)) b = Done (tt, b <| conn := false |>)) /\
  (~ served -> ValidateAndClose (inr (GetServices "" "" s)) b = Exited "Not matching expected state").
Proof.
  intros served. destruct (check_services_spec (GetServices "" "" s)) as [Hiff Hor].
  assert (served <-> forall v, v ∈ GetServices "" "" s -> ps_UniId v = 0 ->
     ps_DhcpState v = expectedDhcpState /\ ps_EapolState v = expectedEapolState) as Hserved.
  { split.
    - intros Hs v (p & i & o & u & x & Ho & Hu & Hx & ->)%elem_of_GetServices Hid. by apply (Hs p i o u x).
    - intros Hs p i o u v Ho Hu Hv Hid.
      apply (Hs (convertBBSimServiceToProtoService (onu_sn o) (uni_ID u) v)); [|done].
      apply elem_of_GetServices. by exists p, i, o, u, v. }
  unfold ValidateAndClose. split.
  - intros Hs. rewrite (proj2 Hiff (proj1 Hserved Hs)). done.
  - intros Hs. destruct Hor as [Hd|Hd]; [|by rewrite Hd]. destruct Hs. exact (proj2 Hserved (proj1 Hiff Hd)).
Qed.

(** ** Examples *)

Definition example_bbr : OltMock := {|
  LastUsedOnuId := ∅; mock := example_olt; bbr_client := {| c_err := None; c_calls := [] |}; TargetOnus := 2;
  CompletedOnus := 0; watched := []; conn := true |}.

Lemma bbr_onu_ids_witness :
  exists b' sn1 sn2, for_each [(0, NewSN 70 0 0 1); (0, NewSN 80 0 0 2)] (fun x => handleOnuDiscIndication x.1 x.2)
      example_bbr = Done (tt, b') /\
    c_calls (bbr_client b') = [CActivateOnu 0 1 sn1; CActivateOnu 0 2 sn2] /\
    OnuSnToString sn1 = "BBSM00000001" /\ OnuSnToString sn2 = "BBSM00000002".
Proof.
  destruct (bbr_onu_ids example_bbr [(0, NewSN 70 0 0 1); (0, NewSN 80 0 0 2)]) as (b' & cs & R & Hc & Hl & Hk & _).
  - done.
  - apply Forall_cons. split; [exists 0%nat, 0%nat, (onu running_onu); by vm_compute|].
    apply Forall_singleton. exists 0%nat, 1%nat, second_onu. by vm_compute.
  - intros intf. unfold last_id. cbn. rewrite lookup_empty. cbn. lia.
  - destruct cs as [|c1 [|c2 [|]]]; cbn in Hl; try lia.
    destruct (Hk 0%nat 0 _ eq_refl) as (sn1 & [= ->] & S1). destruct (Hk 1%nat 0 _ eq_refl) as (sn2 & [= ->] & S2).
    exists b', sn1, sn2. exact (conj R (conj Hc (conj S1 S2))).
Defined.

(** The example with every service authenticated and with an address. *)
Definition served_service (v : Service) : Service :=
  v <| DHCPState := "dhcp_ack_received" |> <| EapolState := StateResponseSuccessReceived |>.
Definition served_onu (o : Onu) : Onu :=
  o <| o_UniPorts ::= fmap (fun u => u <| Services ::= fmap served_service |>) |>.
Definition served_olt : OltDevice := example_olt <| Pons ::= fmap (fun pp => pp <| Onus ::= fmap served_onu |>) |>.

Lemma bbr_validates_witness :
  (0 < length (GetServices "" "" served_olt))%nat /\
  ValidateAndClose (inr (GetServices "" "" served_olt)) example_bbr = Done (tt, example_bbr <| conn := false |>) /\
  ValidateAndClose (inr (GetServices "" "" example_olt)) example_bbr = Exited "Not matching expected state".
Proof.
  split; [vm_compute; lia|]. split.
  - apply (bbr_validates served_olt example_bbr). intros p i o u v Ho Hu Hv _. unfold onu_at, served_olt in Ho.
    apply bind_Some in Ho as (pp & Hpp & Ho). apply list_lookup_fmap_Some in Hpp as (pp0 & -> & _).
    apply list_lookup_fmap_Some in Ho as (o0 & -> & _). apply list_elem_of_fmap in Hu as (u0 & -> & _).
    by apply list_elem_of_fmap in Hv as (v0 & -> & _).
  - apply (bbr_validates example_olt example_bbr). intros Hs.
    assert (DHCPState (svc fresh_svc) = "dhcp_ack_received") as Hd; [|by vm_compute in Hd].
    destruct (Hs 0%nat 0%nat (onu running_onu) (uni (match Uni_Enable some_onu fresh_uni with
      Done (_, s) => s | _ => fresh_uni end)) (match Services (uni (match Uni_Enable some_onu fresh_uni with
      Done (_, s) => s | _ => fresh_uni end)) with v :: _ => v | [] => svc fresh_svc end)) as [H1 _].
    + reflexivity.
    + by left.
    + by left.
    + reflexivity.
    + exact H1.
Defined.

(** An OMCI indication for an ONU BBR does not have dereferences nil. *)
Lemma unknown_omci_onu_panics `{OmciLib} `{MeLib} b intf onu pkt p pp :
  GetPonById (mock b) intf = Some p -> Pons (mock b) !! p = Some pp -> GetOnuById pp onu = None ->
  handleOmciIndication intf onu pkt b = Panicked "invalid memory address or nil pointer dereference".
Proof.
  intros Hp Hpp Ho. unfold handleOmciIndication. erewrite bind_Done; [|reflexivity]. cbv beta. rewrite Hp, Hpp. cbn.
  by rewrite Ho.
Qed.
