(* ===== verification/Sadis.v ===== *)
(** * SADIS: the subscriber directory

    [internal/bbsim/responders/sadis]: the HTTP server from
    which the network operating system reads the OLT, its subscribers and the
    bandwidth profiles.  A reply is its status and what is written to its body;
    the text of the JSON is left to [encoding/json], so a body holds the values
    that are printed. *)
From stdpp Require Import pretty.
From S2P Require Import Prelude Fsm Options OmciTypes Omci MibDb Packets Types Io Eapol Dhcp Igmp Service.
From S2P Require Import PonRes AlarmSim UniPort Get Onu OnuOmci OnuLoop OltFlows OltSpec Olt OltProps OltWf Api ApiInfo.
Open Scope Z_scope.
Open Scope string_scope.

(** ** Text *)

(** [strings.Split] with a separator of one character. *)
Fixpoint split_on (c : Ascii.ascii) (s : string) : list string :=
  match s with
  | "" => [""]
  | String d s' =>
      let r := split_on c s' in
      if decide (d = c) then "" :: r
      else match r with x :: r' => String d x :: r' | [] => [String d ""] end
  end.
Definition dash : Ascii.ascii := Ascii.ascii_of_N 45.
Definition colon : Ascii.ascii := Ascii.ascii_of_N 58.

(** [strconv.ParseUint] in base 10 for 32 bits: digits only; [None] when it
    returns an error. *)
Definition ParseUint32 (s : string) : option Z :=
  if decide (s = "") then None
  else n ← digits_of 0 (String.list_ascii_of_string s); if decide (n < 2 ^ 32) then Some n else None.

(** ** The address of an interface *)

(** [net.Addr]: an address with its mask, or another kind. *)
Inductive Addr := IPNet (ip : list Z) | OtherAddr.

(** [net.IP.To4]: four bytes, or the IPv6 form of an IPv4 address. *)
Definition To4 (ip : list Z) : option (list Z) :=
  if decide (length ip = 4%nat) then Some ip
  else if decide (length ip = 16%nat /\ take 12 ip = (replicate 10 0 ++ [255; 255])%list) then Some (drop 12 ip)
  else None.
Definition dotted (ip : list Z) : string := String.concat "." (pretty <$> ip).

(** Source: internal/common/helpers.go, [GetIPAddr].  [interfaces] is what the
    system knows: an error for an unknown name, an error of [Addrs], or the
    addresses. *)
Definition GetIPAddr (interfaces : string -> error + list Addr) (ifname : string) : string * option error :=
  match interfaces ifname with
  | inl e => ("0.0.0.0", Some e)
  | inr addrs =>
      (fold_left (fun ip addr =>
         match addr with
         | IPNet v => match To4 v with Some v4 => dotted v4 | None => ip end
         | OtherAddr => ip
         end) addrs "0.0.0.0", None)
  end.

(** ** Entries *)

(** Source: internal/bbsim/responders/sadis/sadis.go, [SadisBWPEntry]. *)
Record SadisBWPEntry := {
  bw_ID : string; CBS : Z; CIR : Z; AIR : Z; EBS : Z; EIR : Z; GIR : Z; PIR : Z; PBS : Z }.
Definition mef (id : string) (air cbs cir ebs eir : Z) : SadisBWPEntry := {|
  bw_ID := id; CBS := cbs; CIR := cir; AIR := air; EBS := ebs; EIR := eir; GIR := 0; PIR := 0; PBS := 0 |}.
Definition ietf (id : string) (cbs cir gir pir pbs : Z) : SadisBWPEntry := {|
  bw_ID := id; CBS := cbs; CIR := cir; AIR := 0; EBS := 0; EIR := 0; GIR := gir; PIR := pir; PBS := pbs |}.

(** Source: internal/bbsim/responders/sadis/sadis.go:47-61, [bandwidthProfiles].
    A format that is not in the map has no profiles. *)
Definition bandwidthProfiles (format : string) : list SadisBWPEntry :=
  if decide (format = "mef") then
    [mef "User_Bandwidth1" 100000 10000 30000 1000 100000;
     mef "User_Bandwidth2" 100000 5000 100000 5000 100000;
     mef "User_Bandwidth3" 100000 5000 1000000 5000 1000000;
     mef "Default" 100000 30 600 30 400]
  else if decide (format = "ietf") then
    [ietf "User_Bandwidth1" 10000 30000 100000 20000 1000;
     ietf "User_Bandwidth2" 5000 100000 100000 30000 5000;
     ietf "User_Bandwidth3" 5000 1000000 100000 40000 5000;
     ietf "Default" 30 600 0 32000 30]
  else [].

(** Source: internal/bbsim/responders/sadis/sadis.go, [SadisIntegration]. *)
Record SadisIntegration := { URL : string; cache_Enabled : bool; cache_MaxSize : Z; cache_TTL : string }.
#[export] Instance eta_SadisIntegration : Eta SadisIntegration := fun i => {|
  URL := URL i; cache_Enabled := cache_Enabled i; cache_MaxSize := cache_MaxSize i; cache_TTL := cache_TTL i |}.
#[export] Instance set_URL : Setter URL := ltac:(setter_for URL).

(** Source: internal/bbsim/responders/sadis/sadis.go, [SadisOltEntry]. *)
Record SadisOltEntry := {
  so_ID : string; HardwareIdentifier : string; IPAddress : string; NasID : string; UplinkPort : Z;
  so_NniDhcpTrapVid : Z }.

(** Source: internal/bbsim/responders/sadis/sadis.go, [SadisUniTag]. *)
Record SadisUniTag := {
  t_UniTagMatch : Z; PonCTag : Z; PonSTag : Z; t_TechnologyProfileID : Z;
  UpstreamBandwidthProfile : string; DownstreamBandwidthProfile : string;
  IsDhcpRequired : bool; IsIgmpRequired : bool; IsPPPoERequired : bool; ConfiguredMacAddress : string;
  t_EnableMacLearning : bool; t_UsPonCTagPriority : Z; t_UsPonSTagPriority : Z;
  t_DsPonCTagPriority : Z; t_DsPonSTagPriority : Z; ServiceName : string }.

(** Source: internal/bbsim/responders/sadis/sadis.go, [SadisOnuEntryV2]. *)
Record SadisOnuEntryV2 := {
  se_ID : string; NasPortID : string; CircuitID : string; RemoteID : string; UniTagList : list SadisUniTag }.

(** The values of [SadisEntries.Entries]: a pointer to an ONU entry may be nil. *)
Inductive SadisEntry := EOlt (e : SadisOltEntry) | EOnu (e : option SadisOnuEntryV2).

(** Source: internal/bbsim/responders/sadis/sadis.go:63-76, [SadisConfig]
    (with the two structures it holds). *)
Record SadisConfig := {
  Integration : SadisIntegration; Entries : list SadisEntry;
  bw_Integration : SadisIntegration; bw_Entries : list SadisBWPEntry }.
#[export] Instance eta_SadisConfig : Eta SadisConfig := fun c => {|
  Integration := Integration c; Entries := Entries c; bw_Integration := bw_Integration c;
  bw_Entries := bw_Entries c |}.
#[export] Instance set_Integration : Setter Integration := ltac:(setter_for Integration).
#[export] Instance set_Entries : Setter Entries := ltac:(setter_for Entries).
#[export] Instance set_bw_Integration : Setter bw_Integration := ltac:(setter_for bw_Integration).
#[export] Instance set_bw_Entries : Setter bw_Entries := ltac:(setter_for bw_Entries).

(** What the server reads of the configuration and of the system. *)
Record SadisEnv := {
  SadisRestAddress : string; BandwidthProfileFormat : string; DeviceId : string; trap_vid : Z;
  net_interfaces : string -> error + list Addr }.

(** Source: internal/bbsim/responders/sadis/sadis.go:207-249, [GetOnuEntryV2]
    (the tag of a service). *)
Definition uni_tag (v : Service) : SadisUniTag := {|
  t_UniTagMatch := if decide (UniTagMatch v <> 0) then UniTagMatch v else 0;
  PonCTag := CTag v; PonSTag := STag v; t_TechnologyProfileID := TechnologyProfileID v;
  UpstreamBandwidthProfile := "User_Bandwidth1"; DownstreamBandwidthProfile := "User_Bandwidth2";
  IsDhcpRequired := NeedsDhcp v; IsIgmpRequired := NeedsIgmp v; IsPPPoERequired := NeedsPPPoE v;
  ConfiguredMacAddress := if ConfigureMacAddress v then mac_string (HwAddress v) else "";
  t_EnableMacLearning := EnableMacLearning v;
  t_UsPonCTagPriority := if decide (UsPonCTagPriority v <> 0) then UsPonCTagPriority v else 0;
  t_UsPonSTagPriority := if decide (UsPonSTagPriority v <> 0) then UsPonSTagPriority v else 0;
  t_DsPonCTagPriority := if decide (DsPonCTagPriority v <> 0) then DsPonCTagPriority v else 0;
  t_DsPonSTagPriority := if decide (DsPonSTagPriority v <> 0) then DsPonSTagPriority v else 0;
  ServiceName := svc_Name v |}.

(** Source: internal/bbsim/responders/sadis/sadis.go, [GetOnuEntryV2].  The
    number of the UNI is lowered by one as 64 bits and cut to 32. *)
Definition GetOnuEntryV2 (o : Onu) (uniStr : string) : error + SadisOnuEntryV2 :=
  match ParseUint32 uniStr with
  | None => inl "invalid syntax"
  | Some uniId =>
      match FindUniById o (u32 (uniId - 1)) with
      | inl e => inl e
      | inr i =>
          match o_UniPorts o !! i with
          | None => inl "cannot-find-uni-with-id"
          | Some un => inr {| se_ID := onu_sn o +:+ "-" +:+ uniStr; NasPortID := ""; CircuitID := ""; RemoteID := "";
                              UniTagList := uni_tag <$> Services un |}
          end
      end
  end.
Definition onu_entry (o : Onu) (uniStr : string) : option SadisOnuEntryV2 :=
  match GetOnuEntryV2 o uniStr with inr e => Some e | inl _ => None end.

Section Server.
  Context (env : SadisEnv).

(** Source: internal/bbsim/responders/sadis/sadis.go, [GetOltEntry]. *)
Definition GetOltEntry (s : OltDevice) : SadisOltEntry := {|
  so_ID := olt_serial s; HardwareIdentifier := DeviceId env; IPAddress := (GetIPAddr (net_interfaces env) "nni").1;
  NasID := olt_serial s; UplinkPort := 16777216; so_NniDhcpTrapVid := trap_vid env |}.

(** The text after the last colon of the server's address. *)
Definition rest_port : string := default "" (last (split_on colon (SadisRestAddress env))).

(** Source: internal/bbsim/responders/sadis/sadis.go, [GetSadisEntries]. *)
Definition GetSadisEntries (s : OltDevice) (version : string) : SadisIntegration * list SadisEntry :=
  ({| URL := "http://bbsim:" +:+ rest_port +:+ "/" +:+ version +:+ "/subscribers/%s";
      cache_Enabled := false; cache_MaxSize := 50; cache_TTL := "PT0m" |}, [EOlt (GetOltEntry s)]).

(** Source: internal/bbsim/responders/sadis/sadis.go, [getBWPEntries]. *)
Definition getBWPEntries (version : string) : SadisIntegration * list SadisBWPEntry :=
  ({| URL := "http://bbsim:" +:+ rest_port +:+ "/" +:+ version +:+ "/bandwidthprofiles/%s";
      cache_Enabled := true; cache_MaxSize := 40; cache_TTL := "PT1m" |}, []).

(** Source: internal/bbsim/responders/sadis/sadis.go, [GetSadisConfig]. *)
Definition GetSadisConfig (s : OltDevice) (version : string) : SadisConfig := {|
  Integration := (GetSadisEntries s version).1; Entries := (GetSadisEntries s version).2;
  bw_Integration := (getBWPEntries version).1; bw_Entries := (getBWPEntries version).2 |}.

(** ** Replies *)

(** What a handler writes to a body. *)
Inductive Body :=
| BText (t : string) | BConfig (c : SadisConfig) | BOlt (e : SadisOltEntry)
| BOnu (e : option SadisOnuEntryV2) | BBwp (e : SadisBWPEntry).

(** [http.ResponseWriter]: the header that was sent, if one was, and the body. *)
Record Reply := { header : option Z; ContentType : string; body : list Body }.
#[export] Instance eta_Reply : Eta Reply := fun r => {|
  header := header r; ContentType := ContentType r; body := body r |}.
#[export] Instance set_header : Setter header := ltac:(setter_for header).
#[export] Instance set_ContentType : Setter ContentType := ltac:(setter_for ContentType).
#[export] Instance set_body : Setter body := ltac:(setter_for body).
Definition no_reply : Reply := {| header := None; ContentType := ""; body := [] |}.

(** [WriteHeader]: only the first call counts.  [Write] sends status 200 when no
    header was sent. *)
Definition WriteHeader (code : Z) : M Reply unit :=
  modify (fun r => r <| header ::= fun h => Some (default code h) |>).
Definition Write (b : Body) : M Reply unit :=
  WriteHeader 200 ;; modify (fun r => r <| body ::= fun l => (l ++ [b])%list |>).
Definition json_type : M Reply unit := modify (fun r => r <| ContentType := "application/json" |>).
Definition http_Error (t : string) (code : Z) : M Reply unit :=
  modify (fun r => r <| ContentType := "text/plain; charset=utf-8" |>) ;; WriteHeader code ;; Write (BText t).

(** What the client receives: a handler that sends nothing answers 200. *)
Definition serve (m : M Reply unit) : outcome (Z * list Body) :=
  r ← m no_reply; Done (default 200 (header r.2), body r.2).

(** ** Handlers *)

(** Source: internal/bbsim/responders/sadis/sadis.go, [SadisServer.ServeBaseConfig]. *)
Definition ServeBaseConfig (s : OltDevice) (version : string) : M Reply unit :=
  json_type ;; WriteHeader 200 ;;
  if decide (version <> "v1" /\ version <> "v2") then WriteHeader 404 ;; Write (BText "{}")
  else Write (BConfig (GetSadisConfig s version)).

(** Source: internal/bbsim/responders/sadis/sadis.go:306-316, [SadisServer.ServeStaticConfig]
    (the entries of the subscribers: one per UNI, its number counted from 1). *)
Definition subscriber_entries (s : OltDevice) (version : string) : list SadisEntry :=
  Pons s ≫= (fun pp => Onus pp ≫= (fun o =>
    if decide (version = "v2") then
      (fun un => EOnu (onu_entry o (pretty (u32 (uni_ID un + 1))))) <$> o_UniPorts o
    else [])).

(** Source: internal/bbsim/responders/sadis/sadis.go, [SadisServer.ServeStaticConfig]. *)
Definition ServeStaticConfig (s : OltDevice) (version : string) : M Reply unit :=
  json_type ;;
  if decide (version = "v1") then http_Error "api-v1-unsupported" 400
  else
    WriteHeader 200 ;;
    let c := (GetSadisConfig s version)
      <| Integration ::= (fun i => i <| URL := "" |>) |>
      <| Entries ::= (fun l => (l ++ subscriber_entries s version)%list) |>
      <| bw_Integration ::= (fun i => i <| URL := "" |>) |>
      <| bw_Entries := bandwidthProfiles (BandwidthProfileFormat env) |> in
    Write (BConfig c).

(** Source: internal/bbsim/responders/sadis/sadis.go, [SadisServer.ServeEntry].
    An error of [GetOnuEntryV2] is dropped and the nil pointer is printed. *)
Definition ServeEntry (s : OltDevice) (version id : string) : M Reply unit :=
  json_type ;;
  if decide (olt_serial s = id) then WriteHeader 200 ;; Write (BOlt (GetOltEntry s))
  else
    match split_on dash id with
    | [sn; uni] =>
        match FindOnuBySn s sn with
        | inl _ => WriteHeader 404 ;; Write (BText "{}")
        | inr (p, i) =>
            if decide (version = "v1") then
              WriteHeader 400 ;;
              Write (BText "Sadis v1 is not supported anymore, please go back to an earlier BBSim version")
            else if decide (version = "v2") then
              WriteHeader 200 ;; Write (BOnu (o ← onu_at s p i; onu_entry o uni))
            else skip
        end
    | _ => WriteHeader 422 ;; Write (BText "{}")
    end.

(** Source: internal/bbsim/responders/sadis/sadis.go, [SadisServer.ServeBWPEntry]. *)
Definition ServeBWPEntry (version id : string) : M Reply unit :=
  json_type ;;
  if decide (version <> "v1" /\ version <> "v2") then WriteHeader 404 ;; Write (BText "{}")
  else
    match list_find (fun e => bw_ID e = id) (bandwidthProfiles (BandwidthProfileFormat env)) with
    | Some (_, e) => WriteHeader 200 ;; Write (BBwp e)
    | None => WriteHeader 404 ;; Write (BText "{}")
    end.
End Server.

(** ** Splitting and printing *)

Definition free (c : Ascii.ascii) (s : string) : Prop := Forall (fun d => d <> c) (String.list_ascii_of_string s).

Lemma list_ascii_app a b :
  String.list_ascii_of_string (a +:+ b) = (String.list_ascii_of_string a ++ String.list_ascii_of_string b)%list.
Proof. induction a as [|c a IH]; [done|]. exact (f_equal (cons c) IH). Qed.

Lemma free_app c a b : free c (a +:+ b) <-> free c a /\ free c b.
Proof. unfold free. by rewrite list_ascii_app, Forall_app. Qed.

Lemma split_free c s : free c s -> split_on c s = [s].
Proof.
  unfold free. induction s as [|d s IH]; [done|]. cbn [split_on String.list_ascii_of_string]. intros [Hd Hs]%Forall_cons.
  rewrite decide_False by done. by rewrite IH.
Qed.

Lemma split_app c a b : free c a -> split_on c (a +:+ String c b) = a :: split_on c b.
Proof.
  unfold free. induction a as [|d a IH]; cbn [String.list_ascii_of_string].
  - intros _. change ("" +:+ String c b) with (String c b). cbn [split_on]. by rewrite decide_True.
  - intros [Hd Ha]%Forall_cons. change (String d a +:+ String c b) with (String d (a +:+ String c b)).
    cbn [split_on]. rewrite decide_False by done. by rewrite IH.
Qed.

Lemma digit_char x : (x < 10)%N -> digit_val (pretty_N_char x) = Some (Z.of_N x) /\ pretty_N_char x <> dash.
Proof.
  intros Hx. assert (x = 0 \/ x = 1 \/ x = 2 \/ x = 3 \/ x = 4 \/ x = 5 \/ x = 6 \/ x = 7 \/ x = 8 \/ x = 9)%N as Hc by lia.
  by repeat destruct Hc as [->|Hc]; subst; vm_compute.
Qed.

Lemma pretty_go_digits x s :
  digits_of 0 (String.list_ascii_of_string (pretty_N_go x s)) = digits_of (Z.of_N x) (String.list_ascii_of_string s) /\
  (free dash s -> free dash (pretty_N_go x s)).
Proof.
  revert s. induction (N.lt_wf_0 x) as [x _ IH]; intros s.
  destruct (decide (x = 0%N)) as [->|Hx]; [by rewrite pretty_N_go_0|].
  rewrite pretty_N_go_step by lia.
  destruct (digit_char (x `mod` 10)) as [Hv Hd]; [apply N.mod_lt; lia|].
  destruct (IH (x `div` 10)%N (N.div_lt x 10 ltac:(lia) ltac:(lia)) (String (pretty_N_char (x `mod` 10)) s)) as [-> Hf].
  split.
  - cbn [String.list_ascii_of_string digits_of]. rewrite Hv. cbn. f_equal.
    rewrite (N.div_mod x 10) at 3 by lia. lia.
  - intros Hs. apply Hf. by constructor.
Qed.

Lemma pretty_digits n : 0 <= n -> digits_of 0 (String.list_ascii_of_string (pretty n)) = Some n.
Proof.
  intros Hn. destruct n as [|n|n]; [done| |lia]. unfold pretty, pretty_Z, pretty, pretty_positive, pretty, pretty_N.
  rewrite decide_False by done. by rewrite (proj1 (pretty_go_digits (N.pos n) "")).
Qed.

Lemma pretty_free n : 0 <= n -> free dash (pretty n).
Proof.
  intros Hn. destruct n as [|n|n]; [by repeat constructor| |lia].
  unfold pretty, pretty_Z, pretty, pretty_positive, pretty, pretty_N.
  rewrite decide_False by done. apply pretty_go_digits. constructor.
Qed.

Lemma ParseUint32_pretty n : 0 <= n < 2 ^ 32 -> ParseUint32 (pretty n) = Some n.
Proof.
  intros Hn. unfold ParseUint32. rewrite decide_False.
  - rewrite pretty_digits by lia. cbn [mbind option_bind]. by rewrite decide_True by lia.
  - intros He. destruct (decide (n = 0)) as [->|Hne]; [done|].
    pose proof (pretty_digits n ltac:(lia)) as Hd. rewrite He in Hd. cbn in Hd. congruence.
Qed.

Lemma hex_char_free d : 0 <= d < 16 -> hex_char d <> dash.
Proof.
  intros Hd. assert (forallb (fun d => bool_decide (hex_char d <> dash)) (seqZ 0 16) = true) as Hall by (by vm_compute).
  rewrite forallb_forall in Hall. specialize (Hall d). rewrite <-list_elem_of_In, elem_of_seqZ in Hall.
  specialize (Hall Hd). by apply bool_decide_eq_true in Hall.
Qed.

Lemma hexes_free l : Forall is_u8 l -> free dash (hexes l).
Proof.
  unfold is_u8, free. induction 1 as [|b l Hb _ IH]; [constructor|]. cbn.
  repeat constructor; [apply hex_char_free| |done].
  - split; [apply Z.div_pos; lia|apply Z.div_lt_upper_bound; lia].
  - apply hex_char_free, Z.mod_pos_bound. lia.
Qed.

(** ** The directory *)

(** A device whose subscribers can be named: its number is not negative, every
    ONU is found by its printed serial number, which has no dash, and every UNI
    by its identifier. *)
Record named (s : OltDevice) : Prop := {
  n_olt : 0 <= olt_ID s;
  n_onu : forall p i o, onu_at s p i = Some o -> FindOnuBySn s (onu_sn o) = inr (p, i) /\ free dash (onu_sn o);
  n_uni : forall p i o k un, onu_at s p i = Some o -> o_UniPorts o !! k = Some un ->
    is_u32 (uni_ID un) /\ FindUniById o (uni_ID un) = inr k }.

Lemma created_named olt numPon numOnu s :
  olt_created olt numPon numOnu s -> numPon <= 256 -> numOnu <= 255 -> 0 <= olt_ID s -> named s.
Proof.
  intros Hc Hp Ho Hid. split; [done| |].
  - intros p i o Hat. split.
    + apply FindOnuBySn_only; [done|]. intros p' i' o' Hat' Heq.
      eapply created_sn_distinct; [exact Hc|lia|lia|exact Hat|exact Hat'|exact Heq].
    + destruct Hc as [_ Hpons _ _]. apply bind_Some in Hat as (pp & Hpp & Hi). destruct (Hpons p pp Hpp) as [_ _ _ Hos].
      unfold onu_sn. rewrite (oc_sn _ _ _ _ (Hos i o Hi)), OnuSnToString_hexes. apply free_app.
      split; [by repeat constructor|]. apply hexes_free. unfold NewSN, u8. cbn [VendorSpecific].
      repeat constructor; unfold is_u8; lia || apply Z.mod_pos_bound; lia.
  - intros p i o k un (pp & Hpp & Hi)%bind_Some Hk. destruct Hc as [_ Hpons _ _].
    destruct (Hpons p pp Hpp) as [_ _ _ Hos]. pose proof (oc_unis _ _ _ _ (Hos i o Hi)) as Hu.
    destruct (Hu k un Hk) as [Hid' Hlt]. unfold maxUniPorts in Hlt. split; [unfold is_u32; lia|].
    unfold FindUniById. rewrite (list_find_at _ (o_UniPorts o) k un); [done|done|done|].
    intros m y Hm Hy. destruct (Hu m y Hm). lia.
Qed.

(** The entry of a UNI in the directory. *)
Definition entry_of (o : Onu) (un : UniPort) : SadisOnuEntryV2 := {|
  se_ID := onu_sn o +:+ "-" +:+ pretty (u32 (uni_ID un + 1)); NasPortID := ""; CircuitID := ""; RemoteID := "";
  UniTagList := uni_tag <$> Services un |}.

Lemma onu_entry_of o k un :
  o_UniPorts o !! k = Some un -> is_u32 (uni_ID un) -> FindUniById o (uni_ID un) = inr k ->
  onu_entry o (pretty (u32 (uni_ID un + 1))) = Some (entry_of o un).
Proof.
  intros Hk Hid Hf. unfold onu_entry, GetOnuEntryV2, is_u32 in *.
  rewrite ParseUint32_pretty by (apply Z.mod_pos_bound; lia).
  assert (u32 (u32 (uni_ID un + 1) - 1) = uni_ID un) as ->.
  { unfold u32. rewrite Zminus_mod_idemp_l. replace (uni_ID un + 1 - 1) with (uni_ID un) by lia. by apply Z.mod_small. }
  by rewrite Hf, Hk.
Qed.

Lemma entry_served env s p i o k un :
  named s -> onu_at s p i = Some o -> o_UniPorts o !! k = Some un ->
  serve (ServeEntry env s "v2" (se_ID (entry_of o un))) = Done (200, [BOnu (Some (entry_of o un))]).
Proof.
  intros [Hid Hn Hu] Hat Hk. destruct (Hn _ _ _ Hat) as [Hf Hd]. destruct (Hu _ _ _ _ _ Hat Hk) as [Hid' Hfu].
  assert (free dash (pretty (u32 (uni_ID un + 1)))) as Hfree by (apply pretty_free, Z.mod_pos_bound; lia).
  unfold ServeEntry. rewrite decide_False.
  - unfold entry_of at 1. cbn [se_ID]. change ("-" +:+ ?a) with (String dash a).
    rewrite split_app, split_free, Hf, Hat by done. cbn [mbind option_bind].
    by rewrite (onu_entry_of o k).
  - intros He. assert (free dash (olt_serial s)) as Ho.
    { apply free_app. split; [by repeat constructor|by apply pretty_free]. }
    rewrite He in Ho. cbn [se_ID entry_of] in Ho. apply free_app in Ho as [_ Ho].
    change ("-" +:+ ?a) with (String dash a) in Ho. by apply Forall_cons in Ho as [Ho _].
Qed.

Lemma subscribers_entries s :
  named s ->
  subscriber_entries s "v2" =
    Pons s ≫= (fun pp => Onus pp ≫= (fun o => (fun un => EOnu (Some (entry_of o un))) <$> o_UniPorts o)).
Proof.
  intros [_ _ Hu]. unfold subscriber_entries.
  assert (forall {A B : Type} (f g : A -> list B) l, (forall k x, l !! k = Some x -> f x = g x) -> l ≫= f = l ≫= g) as Hext.
  { intros A B f g l. induction l as [|x l IH]; intros Hl; [done|]. cbn.
    rewrite (Hl 0%nat x) by done. f_equal. apply IH. intros k. apply (Hl (S k)). }
  apply Hext. intros p pp Hp. apply Hext. intros i o Hi. rewrite decide_True by done.
  assert (onu_at s p i = Some o) as Hat by (unfold onu_at; by rewrite Hp).
  apply list_eq. intros k. rewrite !list_lookup_fmap. destruct (o_UniPorts o !! k) as [un|] eqn:Hk; [|done].
  cbn. destruct (Hu _ _ _ _ _ Hat Hk). by rewrite (onu_entry_of o k).
Qed.

(** C19: the subscriber directory lists what it serves.  On a device whose
    subscribers can be named (every device [CreateOLT] returns within the range
    of a byte, [created_named]), the static configuration of version 2 has the
    OLT followed by one entry per UNI, with the tags of exactly the services of
    the UNI, and asking for the name of any listed entry returns that entry. *)
Theorem directory_roundtrip (env : SadisEnv) (s : OltDevice) :
  named s ->
  exists c, serve (ServeStaticConfig env s "v2") = Done (200, [BConfig c]) /\
    Entries c = EOlt (GetOltEntry env s) :: (Pons s ≫= (fun pp => Onus pp ≫= (fun o =>
      (fun un => EOnu (Some (entry_of o un))) <$> o_UniPorts o))) /\
    serve (ServeEntry env s "v2" (olt_serial s)) = Done (200, [BOlt (GetOltEntry env s)]) /\
    forall e, EOnu (Some e) ∈ Entries c -> serve (ServeEntry env s "v2" (se_ID e)) = Done (200, [BOnu (Some e)]).
Proof.
  intros Hs. eexists. split; [reflexivity|]. cbn [Entries upd set_Entries set_bw_Integration set_bw_Entries set_Integration GetSadisConfig GetSadisEntries fst snd].
  rewrite (subscribers_entries s Hs). split; [done|]. split; [unfold ServeEntry; by rewrite decide_True|].
  intros e He. cbn [app] in He. apply elem_of_cons in He as [?|He]; [done|].
  apply list_elem_of_bind in He as (pp & He & (p & Hp)%list_elem_of_lookup).
  apply list_elem_of_bind in He as (o & He & (i & Hi)%list_elem_of_lookup).
  apply list_elem_of_fmap in He as (un & [= ->] & (k & Hk)%list_elem_of_lookup).
  eapply (entry_served env s p i o k); [done| |done]. unfold onu_at. by rewrite Hp.
Qed.

Definition example_env : SadisEnv := {|
  SadisRestAddress := ":50074"; BandwidthProfileFormat := "mef"; DeviceId := "0a:0a:0a:0a:0a:00"; trap_vid := 0;
  net_interfaces := fun _ => inl "no such network interface" |}.

Lemma small_olt_named : named small_olt.
Proof.
  destruct (@CreateOLT_created trivial_omci 0 10000 1 1 "default" false false false 5 small_config one_pon
    small_olt) as (H1 & _); [lia|lia|by vm_compute|]. eapply created_named; [exact H1|lia|lia|by vm_compute].
Qed.

Lemma directory_roundtrip_witness :
  exists c, serve (ServeStaticConfig example_env small_olt "v2") = Done (200, [BConfig c]) /\ length (Entries c) = 2%nat.
Proof.
  destruct (directory_roundtrip example_env small_olt small_olt_named) as (c & H1 & H2 & _).
  refine (ex_intro _ c (conj H1 _)). rewrite H2. by vm_compute.
Defined.

Example small_olt_subscriber :
  serve (ServeEntry example_env small_olt "v2" "BBSM00000001-1") =
  Done (200, [BOnu (Some {| se_ID := "BBSM00000001-1"; NasPortID := ""; CircuitID := ""; RemoteID := "";
    UniTagList := uni_tag <$> (u ← (o ← all_onus small_olt; o_UniPorts o.2); Services u) |})]).
Proof. by vm_compute. Qed.

(** Unknown serial numbers and names of another form are refused. *)
Lemma ServeEntry_unknown env s version sn uni :
  free dash sn -> free dash uni -> olt_serial s <> sn +:+ "-" +:+ uni ->
  (forall p i o, onu_at s p i = Some o -> onu_sn o <> sn) ->
  serve (ServeEntry env s version (sn +:+ "-" +:+ uni)) = Done (404, [BText "{}"]).
Proof.
  intros Hs Hu Hne Hall. unfold ServeEntry. rewrite decide_False by done.
  change ("-" +:+ uni) with (String dash uni). rewrite split_app, split_free by done.
  destruct (FindOnuBySn s sn) as [|[p i]] eqn:E; [done|]. unfold FindOnuBySn in E.
  destruct (list_find _ _) as [[n [[q j] o]]|] eqn:Ef; [|done]. apply list_find_Some in Ef as (Hn & Ho & _).
  apply list_elem_of_lookup_2, elem_of_all_onus in Hn. by destruct (Hall _ _ _ Hn).
Qed.

(** ** Where the code departs from what it says *)

(** The base configuration of an unknown version is answered with status 200:
    the 404 comes after the header was sent. *)
Lemma base_config_unknown_version env s :
  serve (ServeBaseConfig env s "v3") = Done (200, [BText "{}"]).
Proof. reflexivity. Qed.

(** A subscriber of a UNI the ONU does not have is answered with status 200 and
    the JSON value null. *)
Lemma unknown_uni_answered :
  serve (ServeEntry example_env small_olt "v2" "BBSM00000001-9") = Done (200, [BOnu None]).
Proof. by vm_compute. Qed.

(** The address of an interface is the last IPv4 address, not the first. *)
Lemma GetIPAddr_last :
  GetIPAddr (fun _ => inr [IPNet [10; 0; 0; 1]; IPNet [192; 168; 0; 7]]) "nni" = ("192.168.0.7", None).
Proof. by vm_compute. Qed.
