(* ===== verification/DmiInv.v ===== *)
(** * DMI: the hardware inventory

    [internal/bbsim/dmiserver]: the tree of hardware components that BBSim shows
    over the device management interface, how its parts are made and how they
    are searched.  Identifiers come from the UUID library, which is a parameter. *)
From stdpp Require Import pretty.
From S2P Require Import Prelude Fsm Options OmciTypes Omci MibDb Packets Types Io Eapol Dhcp Igmp Service.
From S2P Require Import PonRes AlarmSim UniPort Get Onu OnuOmci OnuLoop OltFlows OltSpec Olt OltProps OltWf Api ApiInfo.
Open Scope Z_scope.
Open Scope string_scope.

(** ** Components *)

(** The values of [dmi.ComponentType] the code uses. *)
Inductive ComponentType :=
| TYPE_UNDEFINED | TYPE_CONTAINER | TYPE_POWER_SUPPLY | TYPE_FAN | TYPE_SENSOR | TYPE_PORT | TYPE_CPU
| TYPE_STORAGE | TYPE_MEMORY | TYPE_TRANSCEIVER.
#[export] Instance ComponentType_eq_dec : EqDecision ComponentType.
Proof. solve_decision. Defined.

(** The values of [dmi.TransceiverType] the code uses. *)
Inductive TransceiverType := TT_UNDEFINED | TT_GPON | TT_XGSPON | TT_COMBO_GPON_XGSPON.
#[export] Instance TransceiverType_eq_dec : EqDecision TransceiverType.
Proof. solve_decision. Defined.

(** The values of [dmi.PortComponentAttributes_Protocol] the code uses; the
    variable starts at the first. *)
Inductive Protocol := PROTOCOL_UNDEFINED | PROTOCOL_GPON | PROTOCOL_XGSPON.
#[export] Instance Protocol_eq_dec : EqDecision Protocol.
Proof. solve_decision. Defined.

Inductive Specific :=
| NoSpecific
| PortAttr (protocol : Protocol) (mappingLabel : string)
| TransceiverAttr (transType : TransceiverType) (maxDistance : Z) (rx tx : list Z).
#[export] Instance Specific_eq_dec : EqDecision Specific.
Proof. solve_decision. Defined.

(** The fields of [dmi.Component]; those that are always zero are left out. *)
Record Info := {
  c_Name : string; c_Class : ComponentType; c_Description : string; c_Parent : string; c_Uuid : string;
  c_SerialNum : string; c_MfgName : string; c_Uri : string; c_Specific : Specific }.

(** A component with its children. *)
Inductive Component := Comp (i : Info) (children : list Component).
Definition info (c : Component) : Info := let 'Comp i _ := c in i.
Definition Children (c : Component) : list Component := let 'Comp _ l := c in l.

(** Induction over a component and its children. *)
Lemma Component_rect_list (P : Component -> Prop) :
  (forall i l, Forall P l -> P (Comp i l)) -> forall c, P c.
Proof.
  intros Hc. refine (fix IH c := match c with Comp i l => Hc i l _ end).
  exact ((fix go l : Forall P l := match l with [] => Forall_nil_2 P | d :: l' => Forall_cons_2 P d l' (IH d) (go l') end) l).
Qed.

(** ** Names and identifiers *)

(** [uuid.NewMD5] of the nil name space, printed. *)
Class UuidLib := { NewMD5 : string -> string }.

(** Source: internal/bbsim/dmiserver/dmi_hw_mgmt.go, [getUUID]. *)
Definition getUUID `{UuidLib} (seed : string) : string := NewMD5 seed.

(** Source: internal/bbsim/dmiserver/dmi_hw_mgmt.go, [getCageName]. *)
Definition getCageName (id : Z) : string := "sfp-plus-transceiver-cage-" +:+ pretty id.

(** Source: internal/bbsim/dmiserver/dmi_hw_mgmt.go, [getTransceiverName]. *)
Definition getTransceiverName (id : Z) : string := "sfp-plus-" +:+ pretty id.

(** Source: internal/bbsim/dmiserver/dmi_hw_mgmt.go, [getPonName]. *)
Definition getPonName (id : Z) : string := "pon-" +:+ pretty id.

Section Inventory.
  Context `{UuidLib} (Vendor : string).

(** Source: internal/bbsim/dmiserver/dmi_hw_mgmt.go, [getOltName]. *)
Definition getOltName (s : OltDevice) : string := Vendor +:+ "-" +:+ olt_serial s.

(** Source: internal/bbsim/dmiserver/dmi_hw_mgmt.go, [getOltUUID]. *)
Definition getOltUUID (s : OltDevice) : string := getUUID (olt_serial s).

(** Source: internal/bbsim/dmiserver/dmi_hw_mgmt.go, [getCageUUID]. *)
Definition getCageUUID (s : OltDevice) (id : Z) : string := getUUID (olt_serial s +:+ "-" +:+ getCageName id).

(** Source: internal/bbsim/dmiserver/dmi_hw_mgmt.go, [getTransceiverUUID]. *)
Definition getTransceiverUUID (s : OltDevice) (id : Z) : string :=
  getUUID (olt_serial s +:+ "-" +:+ getTransceiverName id).

(** Source: internal/bbsim/dmiserver/dmi_hw_mgmt.go, [getPonUUID]. *)
Definition getPonUUID (s : OltDevice) (id : Z) : string := getUUID (olt_serial s +:+ "-" +:+ getPonName id).

(** ** Parts *)

(** The fields that fans, processors and the like set. *)
Definition part (name description serial : string) (class : ComponentType) : Component :=
  Comp {| c_Name := name; c_Class := class; c_Description := description; c_Parent := ""; c_Uuid := getUUID name;
          c_SerialNum := serial; c_MfgName := description; c_Uri := ""; c_Specific := NoSpecific |} [].

(** Source: internal/bbsim/dmiserver/dmi_hw_mgmt.go, [createFanComponent]. *)
Definition createFanComponent (fanIdx : Z) : Component :=
  part ("Thermal/Fans/System Fan/" +:+ pretty fanIdx) "bbsim-fan" ("bbsim-fan-serial-" +:+ pretty fanIdx) TYPE_FAN.

(** Source: internal/bbsim/dmiserver/dmi_hw_mgmt.go, [createProcessorComponent]. *)
Definition createProcessorComponent (cpuIdx : Z) : Component :=
  part ("Systems/1/Processors/" +:+ pretty cpuIdx) "bbsim-cpu" ("bbsim-cpu-serial-" +:+ pretty cpuIdx) TYPE_CPU.

(** Source: internal/bbsim/dmiserver/dmi_hw_mgmt.go, [createMemoryComponent]. *)
Definition createMemoryComponent (memIdx : Z) : Component :=
  part ("Systems/1/Memory/" +:+ pretty memIdx) "bbsim-ram" ("bbsim-ram-serial-" +:+ pretty memIdx) TYPE_MEMORY.

(** Source: internal/bbsim/dmiserver/dmi_hw_mgmt.go, [createDiskComponent]. *)
Definition createDiskComponent (diskIdx : Z) : Component :=
  part ("Systems/1/Disk/" +:+ pretty diskIdx) "bbsim-disk" ("bbsim-disk-serial-" +:+ pretty diskIdx) TYPE_STORAGE.

(** Source: internal/bbsim/dmiserver/dmi_hw_mgmt.go, [createInnerSurroundingTempComponentSensor]. *)
Definition createInnerSurroundingTempComponentSensor (sensorIdx : Z) : Component :=
  part ("Systems/1/Sensor/" +:+ pretty sensorIdx) "bbsim-istemp"
    ("bbsim-sensor-istemp-serial-" +:+ pretty sensorIdx) TYPE_SENSOR.

(** Source: internal/bbsim/dmiserver/dmi_hw_mgmt.go, [createPowerSupplyComponent]. *)
Definition createPowerSupplyComponent (psuIdx : Z) : Component :=
  part ("Thermal/PSU/SystemPSU/" +:+ pretty psuIdx) "bbsim-psu" ("bbsim-psu-serial-" +:+ pretty psuIdx)
    TYPE_POWER_SUPPLY.

(** ** Transceivers *)

(** Source: internal/bbsim/dmiserver/dmi_transceiver.go, [Transceiver].  A PON
    is its position in the OLT. *)
Record Transceiver := {
  t_ID : Z; t_Uuid : string; t_Name : string; t_Pons : list nat; t_Technology : TransceiverType; PluggedIn : bool }.

(** Source: internal/bbsim/dmiserver/dmi_transceiver.go, [newTransceiver]. *)
Definition newTransceiver (s : OltDevice) (id : Z) (pons : list nat) : Transceiver := {|
  t_ID := id; t_Uuid := getTransceiverUUID s id; t_Name := getTransceiverName id; t_Pons := pons;
  t_Technology := TT_UNDEFINED; PluggedIn := true |}.

(** The PONs of a transceiver. *)
Definition trans_pons (s : OltDevice) (t : Transceiver) : list PonPort := omap (fun p => Pons s !! p) (t_Pons t).

(** Source: internal/bbsim/dmiserver/dmi_hw_mgmt.go:194-220, [createTransceiverComponent]
    (the technology and the wavelengths, receiving and transmitting). *)
Definition trans_technology (old : TransceiverType) (pons : list PonPort) : TransceiverType * list Z * list Z :=
  match pons with
  | [] => (old, [], [])
  | [pp] =>
      if decide (pp_Technology pp = GPON) then (TT_GPON, [1490], [1550])
      else if decide (pp_Technology pp = XGSPON) then (TT_XGSPON, [1270], [1577])
      else (old, [], [])
  | _ => (TT_COMBO_GPON_XGSPON, [1490; 1270], [1550; 1577])
  end.

(** Source: internal/bbsim/dmiserver/dmi_hw_mgmt.go:222-249, [createTransceiverComponent]
    (the port of a PON; its name is that of the transceiver's number). *)
Definition port_component (s : OltDevice) (t : Transceiver) (pp : PonPort) : Component :=
  Comp {| c_Name := getPonName (t_ID t); c_Class := TYPE_PORT; c_Description := "bbsim-pon-port";
          c_Parent := t_Name t; c_Uuid := getPonUUID s (pp_ID pp); c_SerialNum := ""; c_MfgName := ""; c_Uri := "";
          c_Specific := PortAttr
            (if decide (pp_Technology pp = GPON) then PROTOCOL_GPON
             else if decide (pp_Technology pp = XGSPON) then PROTOCOL_XGSPON else PROTOCOL_UNDEFINED)
            (getPonName (pp_ID pp)) |} [].

(** Source: internal/bbsim/dmiserver/dmi_hw_mgmt.go, [createTransceiverComponent].
    The transceiver comes back with its technology. *)
Definition createTransceiverComponent (s : OltDevice) (t : Transceiver) (cageName : string)
    : error + Component * Transceiver :=
  let pons := trans_pons s t in
  if decide (pons = []) then inl ("No pons in list for transceiver " +:+ pretty (t_ID t))
  else
    let '(tech, rx, tx) := trans_technology (t_Technology t) pons in
    inr (Comp {| c_Name := t_Name t; c_Class := TYPE_TRANSCEIVER; c_Description := "bbsim-transceiver";
                 c_Parent := cageName; c_Uuid := t_Uuid t; c_SerialNum := ""; c_MfgName := ""; c_Uri := "";
                 c_Specific := TransceiverAttr tech 10 rx tx |} (port_component s t <$> pons),
         {| t_ID := t_ID t; t_Uuid := t_Uuid t; t_Name := t_Name t; t_Pons := t_Pons t;
            t_Technology := tech; PluggedIn := PluggedIn t |}).

(** Source: internal/bbsim/dmiserver/dmi_hw_mgmt.go:116-140, [DmiAPIServer.StartManagingDevice]
    (the cage of a transceiver, with the transceiver in it when it is plugged
    in; [None] when the component cannot be made). *)
Definition cage_component (s : OltDevice) (t : Transceiver) : option Component * Transceiver :=
  let cageName := getCageName (t_ID t) in
  let cage l := Comp {| c_Name := cageName; c_Class := TYPE_CONTAINER; c_Description := "cage";
    c_Parent := getOltName s; c_Uuid := getCageUUID s (t_ID t); c_SerialNum := ""; c_MfgName := ""; c_Uri := "";
    c_Specific := NoSpecific |} l in
  if PluggedIn t then
    match createTransceiverComponent s t cageName with
    | inl _ => (None, t)
    | inr (c, t') => (Some (cage [c]), t')
    end
  else (Some (cage []), t).

(** Source: internal/bbsim/dmiserver/dmi_hw_mgmt.go:142-156, [DmiAPIServer.StartManagingDevice]
    (the parts every device has). *)
Definition fixed_parts : list Component :=
  ((fun i => createFanComponent (Z.of_nat i + 1)) <$> seq 0 2) ++
  [createDiskComponent 0; createProcessorComponent 0; createMemoryComponent 0;
   createInnerSurroundingTempComponentSensor 0; createPowerSupplyComponent 0].

(** Source: internal/bbsim/dmiserver/dmi_hw_mgmt.go:113-174, [DmiAPIServer.StartManagingDevice]
    (the inventory). *)
Definition inventory (s : OltDevice) (ipAddress : string) (ts : list Transceiver) : Component :=
  Comp {| c_Name := getOltName s; c_Class := TYPE_UNDEFINED; c_Description := ""; c_Parent := "";
          c_Uuid := getOltUUID s; c_SerialNum := olt_serial s; c_MfgName := Vendor; c_Uri := ipAddress;
          c_Specific := NoSpecific |}
    (omap (fun t => (cage_component s t).1) ts ++ fixed_parts).
End Inventory.

(** ** Searching *)

(** Source: internal/bbsim/dmiserver/dmi_hw_mgmt.go:586-594, [findComponent] (a
    component and its children). *)
Fixpoint find_in (compUUID : string) (c : Component) : option Component :=
  let 'Comp i l := c in
  if decide (c_Uuid i = compUUID) then Some c
  else (fix go l := match l with
        | [] => None
        | d :: l' => match find_in compUUID d with Some x => Some x | None => go l' end
        end) l.

(** Source: internal/bbsim/dmiserver/dmi_hw_mgmt.go, [findComponent]. *)
Fixpoint findComponent (l : list Component) (compUUID : string) : option Component :=
  match l with
  | [] => None
  | c :: l' => match find_in compUUID c with Some x => Some x | None => findComponent l' compUUID end
  end.

(** Source: internal/bbsim/dmiserver/dmi_hw_mgmt.go:608-615, [findComponents] (a
    component and its children; the collector is threaded). *)
Fixpoint collect_in (compType : ComponentType) (c : Component) (collector : list Component) : list Component :=
  let 'Comp i l := c in
  let collector := if decide (c_Class i = compType) then (collector ++ [c])%list else collector in
  (fix go l collector := match l with
   | [] => collector
   | d :: l' => go l' (collect_in compType d collector)
   end) l collector.

(** Source: internal/bbsim/dmiserver/dmi_hw_mgmt.go, [findComponents]. *)
Fixpoint findComponents (l : list Component) (compType : ComponentType) (collector : list Component) : list Component :=
  match l with
  | [] => collector
  | c :: l' => findComponents l' compType (collect_in compType c collector)
  end.

(** Source: internal/bbsim/dmiserver/dmi_hw_mgmt.go, [findComponentsOfType]. *)
Definition findComponentsOfType (l : list Component) (compType : ComponentType) : list Component :=
  findComponents l compType [].

(** ** The order of the search *)

(** The components of a tree, a component before its children. *)
Fixpoint preorder (c : Component) : list Component := c :: (Children c ≫= preorder).

(** A component and what is below it in a tree. *)
Definition uuids (l : list Component) : list string := (fun c => c_Uuid (info c)) <$> (l ≫= preorder).

Lemma preorder_eq i l : preorder (Comp i l) = Comp i l :: (l ≫= preorder).
Proof. done. Qed.

Lemma head_filter_app {A : Type} (P : A -> Prop) `{!forall x, Decision (P x)} (l k : list A) :
  head (filter P (l ++ k)%list) = match head (filter P l) with Some x => Some x | None => head (filter P k) end.
Proof. rewrite filter_app. by destruct (filter P l). Qed.

Lemma find_in_preorder u c : find_in u c = head (filter (fun d => c_Uuid (info d) = u) (preorder c)).
Proof.
  revert c. apply Component_rect_list. intros i l Hl. rewrite preorder_eq. cbn [find_in].
  rewrite filter_cons. cbn [info]. destruct (decide (c_Uuid i = u)); [done|].
  induction Hl as [|d l Hd Hl IH]; [done|]. cbn [mbind list_bind]. rewrite head_filter_app, <-Hd. by rewrite IH.
Qed.

Lemma collect_in_preorder k c acc :
  collect_in k c acc = (acc ++ filter (fun d => c_Class (info d) = k) (preorder c))%list.
Proof.
  revert acc. revert c. apply (Component_rect_list (fun c => forall acc, _)). intros i l Hl acc.
  rewrite preorder_eq, filter_cons. cbn [collect_in info].
  assert (forall acc, (fix go l collector := match l with
     | [] => collector
     | d :: l' => go l' (collect_in k d collector)
     end) l acc = (acc ++ filter (fun d => c_Class (info d) = k) (l ≫= preorder))%list) as Hgo.
  { clear acc. induction Hl as [|d l Hd Hl IH]; intros acc; [by rewrite app_nil_r|]. cbn [mbind list_bind].
    rewrite IH, Hd, filter_app. by rewrite app_assoc. }
  rewrite Hgo. destruct (decide (c_Class i = k)); [|done]. by rewrite <-app_assoc.
Qed.

Lemma findComponent_preorder l u :
  findComponent l u = head (filter (fun d => c_Uuid (info d) = u) (l ≫= preorder)).
Proof.
  induction l as [|c l IH]; [done|]. cbn [findComponent mbind list_bind].
  rewrite head_filter_app, <-find_in_preorder. by rewrite IH.
Qed.

Lemma findComponents_preorder l k acc :
  findComponents l k acc = (acc ++ filter (fun d => c_Class (info d) = k) (l ≫= preorder))%list.
Proof.
  revert acc. induction l as [|c l IH]; intros acc; [by rewrite app_nil_r|]. cbn [findComponents mbind list_bind].
  rewrite IH, collect_in_preorder, filter_app. by rewrite app_assoc.
Qed.

(** C23: searching the inventory.  The recursive searches agree with the list of
    all components, a component before its children: [findComponent] returns
    the first with the identifier and [findComponentsOfType] all of a class, in
    order; so when the identifiers are distinct, every component of the tree is
    found by its own identifier, and nothing is found for any other. *)
Theorem searches_agree (l : list Component) :
  (forall u, findComponent l u = head (filter (fun d => c_Uuid (info d) = u) (l ≫= preorder))) /\
  (forall k, findComponentsOfType l k = filter (fun d => c_Class (info d) = k) (l ≫= preorder)) /\
  (NoDup (uuids l) -> forall c u, findComponent l u = Some c <-> c ∈ (l ≫= preorder) /\ c_Uuid (info c) = u).
Proof.
  split; [intros u; apply findComponent_preorder|]. split; [intros k; apply findComponents_preorder|].
  intros Hnd c u. rewrite findComponent_preorder. unfold uuids in Hnd.
  induction (l ≫= preorder) as [|d t IH]; [cbn; set_solver|].
  cbn [fmap list_fmap] in Hnd. apply NoDup_cons in Hnd as [Hd Hnd]. rewrite filter_cons.
  destruct (decide (c_Uuid (info d) = u)) as [Hu|Hu].
  - cbn [head]. split; [intros [= <-]; set_solver|]. intros [[->|Hin]%elem_of_cons Hc]; [done|].
    destruct Hd. rewrite Hu, <-Hc. apply list_elem_of_fmap. by exists c.
  - rewrite IH by done. set_solver.
Qed.

(** The inventory of a small OLT, with names as identifiers. *)
Definition plain_uuid : UuidLib := {| NewMD5 := fun x => x |}.
#[local] Existing Instance plain_uuid.
Definition small_parts : list Component :=
  Children (inventory "BBSim" small_olt "" [newTransceiver small_olt 0 [0%nat]]).

Lemma searches_agree_witness :
  findComponent small_parts "Thermal/PSU/SystemPSU/0" = Some (createPowerSupplyComponent 0).
Proof.
  apply (searches_agree small_parts).
  - apply (bool_decide_unpack _). vm_compute. exact I.
  - split; [|vm_compute; reflexivity]. vm_compute. do 9 right. left.
Defined.
