(* ===== verification/DmiGen.v ===== *)
(** * DMI: metrics, events and the message bus

    [internal/bbsim/dmiserver]: the state of the DMI server, the generators that
    put metrics and events on its channels and the goroutines that publish them
    on Kafka.  Channels and contexts have identities, so that a goroutine keeps
    those it was started with; a goroutine is one step at a time. *)
From stdpp Require Import pretty.
From S2P Require Import Prelude Fsm Options OmciTypes Omci MibDb Packets Types Io Eapol Dhcp Igmp Service.
From S2P Require Import PonRes AlarmSim UniPort Get Onu OnuOmci OnuLoop OltFlows OltSpec Olt OltProps OltWf Api ApiInfo DmiInv.
Open Scope Z_scope.
Open Scope string_scope.

(** ** Metrics and events *)

(** The values of [dmi.MetricNames] the code uses. *)
Definition METRIC_FAN_SPEED : Z := 1.
Definition METRIC_CPU_USAGE_PERCENTAGE : Z := 101.
Definition METRIC_DISK_USAGE_PERCENTAGE : Z := 303.
Definition METRIC_RAM_USAGE_PERCENTAGE : Z := 403.
Definition METRIC_INNER_SURROUNDING_TEMP : Z := 600.

(** The values of [dmi.EventIds] the code uses. *)
Definition EVENT_TRANSCEIVER_PLUG_OUT : Z := 100.
Definition EVENT_TRANSCEIVER_PLUG_IN : Z := 101.
Definition EVENT_PSU_FAILURE : Z := 202.
Definition EVENT_PSU_FAILURE_RECOVERED : Z := 203.
Definition EVENT_FAN_FAILURE : Z := 300.
Definition EVENT_FAN_FAILURE_RECOVERED : Z := 303.
Definition EVENT_HW_DEVICE_TEMPERATURE_ABOVE_CRITICAL : Z := 501.
Definition EVENT_HW_DEVICE_TEMPERATURE_ABOVE_CRITICAL_RECOVERED : Z := 503.

Inductive DataValueType := VALUE_TYPE_OTHER | VALUE_TYPE_RPM | VALUE_TYPE_CELSIUS.
Inductive ValueScale := VALUE_SCALE_UNITS | VALUE_SCALE_GIGA.

(** [dmi.Metric], without its timestamp. *)
Record Metric := {
  m_Id : Z; m_DeviceUuid : option string; m_ComponentUuid : string; m_ComponentName : string;
  m_Value : Z; m_Type : DataValueType; m_Scale : ValueScale }.

(** [dmi.Thresholds]: upper water marks, or another kind. *)
Inductive ValueType := IntVal (z : Z) | OtherVal.
Record WaterMarks := { High : option ValueType; Low : option ValueType }.
Inductive Thresholds := Upper (w : WaterMarks) | OtherThreshold.

(** The getters of the protocol return zero values on the way. *)
Definition GetIntVal (v : option ValueType) : Z := match v with Some (IntVal z) => z | _ => 0 end.
Definition GetUpper (t : option Thresholds) : WaterMarks :=
  match t with Some (Upper w) => w | _ => {| High := None; Low := None |} end.

(** [dmi.Event], without its timestamp; the observed value comes with its
    thresholds. *)
Record DmiEvent := {
  e_Id : Z; e_DeviceUuid : option string; e_ComponentUuid : string; e_ComponentName : string;
  e_ThresholdInfo : option (Z * option Thresholds) }.

Record MetricConfig := { mc_MetricId : Z; mc_IsConfigured : bool; PollInterval : Z }.
Record EventCfg := { ec_EventId : Z; ec_IsConfigured : bool; ec_Thresholds : option Thresholds }.

(** Source: internal/bbsim/dmiserver/dmi_metrics_generator.go, [MetricTriggerConfig].
    Times are nanoseconds. *)
Record MetricTriggerConfig := { mt_cfg : MetricConfig; mt_t : Z }.

(** ** State *)

(** Source: internal/bbsim/dmiserver/dmi_metrics_generator.go, [DmiMetricsGenerator].
    [mg_apiSrv] tells whether the generator knows the server, [None] is a nil
    map or function; a cancel function is its context. *)
Record DmiMetricsGenerator := {
  mg_apiSrv : bool; configuredMetrics : option (gmap Z MetricTriggerConfig); mgCancelFunc : option nat }.

(** Source: internal/bbsim/dmiserver/dmi_event_generator.go, [DmiEventsGenerator]. *)
Record DmiEventsGenerator := { eg_apiSrv : bool; configuredEvents : option (gmap Z EventCfg) }.

(** What is put on the channels. *)
Inductive Item := IMetric (m : Metric) | IEvent (e : DmiEvent).

(** A goroutine of [DMKafkaPublisher]. *)
Record Publisher := { p_ctx : nat; p_ch : option nat; p_topic : string }.

(** Source: internal/bbsim/dmiserver/dmi_api_server.go, [DmiAPIServer].  The
    package's variables are part of it: the two generators, the Kafka
    [producer] (whether there is one) and what it got.  [queues] are the
    channels and [contexts] the contexts that were made, [true] when cancelled;
    [generators] are the contexts of the running goroutines of
    [generateMetrics]; [draws] counts the random numbers that were drawn and
    [d_olt] is the simulated OLT. *)
Record DmiSys := {
  ipAddress : string; dms_uuid : option string; root : option Component; Transceivers : list Transceiver;
  metricChannel : option nat; eventChannel : option nat; kafkaEndpoint : string;
  loggingEndpoint : string; loggingProtocol : string; mPublisherCancelFunc : option nat;
  mg : DmiMetricsGenerator; eg : DmiEventsGenerator;
  queues : list (list Item); contexts : list bool; generators : list nat; publishers : list Publisher;
  producer : bool; kafka : list (string * Item); draws : nat; d_olt : OltDevice }.
#[export] Instance eta_DmiSys : Eta DmiSys := fun s => {|
  ipAddress := ipAddress s; dms_uuid := dms_uuid s; root := root s; Transceivers := Transceivers s;
  metricChannel := metricChannel s; eventChannel := eventChannel s; kafkaEndpoint := kafkaEndpoint s;
  loggingEndpoint := loggingEndpoint s; loggingProtocol := loggingProtocol s;
  mPublisherCancelFunc := mPublisherCancelFunc s; mg := mg s; eg := eg s; queues := queues s;
  contexts := contexts s; generators := generators s; publishers := publishers s; producer := producer s;
  kafka := kafka s; draws := draws s; d_olt := d_olt s |}.
#[export] Instance set_ipAddress : Setter ipAddress := ltac:(setter_for ipAddress).
#[export] Instance set_dms_uuid : Setter dms_uuid := ltac:(setter_for dms_uuid).
#[export] Instance set_root : Setter root := ltac:(setter_for root).
#[export] Instance set_Transceivers : Setter Transceivers := ltac:(setter_for Transceivers).
#[export] Instance set_metricChannel : Setter metricChannel := ltac:(setter_for metricChannel).
#[export] Instance set_eventChannel : Setter eventChannel := ltac:(setter_for eventChannel).
#[export] Instance set_kafkaEndpoint : Setter kafkaEndpoint := ltac:(setter_for kafkaEndpoint).
#[export] Instance set_loggingEndpoint : Setter loggingEndpoint := ltac:(setter_for loggingEndpoint).
#[export] Instance set_loggingProtocol : Setter loggingProtocol := ltac:(setter_for loggingProtocol).
#[export] Instance set_mPublisherCancelFunc : Setter mPublisherCancelFunc := ltac:(setter_for mPublisherCancelFunc).
#[export] Instance set_mg : Setter mg := ltac:(setter_for mg).
#[export] Instance set_eg : Setter eg := ltac:(setter_for eg).
#[export] Instance set_queues : Setter queues := ltac:(setter_for queues).
#[export] Instance set_contexts : Setter contexts := ltac:(setter_for contexts).
#[export] Instance set_generators : Setter generators := ltac:(setter_for generators).
#[export] Instance set_publishers : Setter publishers := ltac:(setter_for publishers).
#[export] Instance set_producer : Setter producer := ltac:(setter_for producer).
#[export] Instance set_kafka : Setter kafka := ltac:(setter_for kafka).
#[export] Instance set_draws : Setter draws := ltac:(setter_for draws).
#[export] Instance set_d_olt : Setter d_olt := ltac:(setter_for d_olt).

(** ** Channels and contexts *)

Definition kafkaChannelSize : nat := 100.

(** [make(chan interface{}, kafkaChannelSize)] *)
Definition make_chan : M DmiSys nat := fun s => Done (length (queues s), s <| queues ::= (fun l => (l ++ [[]])%list) |>).

(** A send in a [select] with a default: it is dropped when the channel is full
    or nil. *)
Definition try_send (ch : option nat) (x : Item) : M DmiSys unit :=
  s ← get;
  match ch ≫= (fun c => pair c <$> queues s !! c) with
  | None => skip
  | Some (c, q) =>
      if decide (length q < kafkaChannelSize)%nat then modify (fun s => s <| queues ::= <[c := (q ++ [x])%list]> |>)
      else skip
  end.

(** [context.WithCancel(context.Background())] *)
Definition with_cancel : M DmiSys nat := fun s =>
  Done (length (contexts s), s <| contexts ::= (fun l => (l ++ [false])%list) |>).
Definition cancel (c : option nat) : M DmiSys unit :=
  match c with None => skip | Some c => modify (fun s => s <| contexts ::= <[c := true]> |>) end.
Definition is_cancelled (s : DmiSys) (c : nat) : bool := default false (contexts s !! c).

(** Source: internal/bbsim/dmiserver/dmi_metrics_generator.go, [sendOutMetric]. *)
Definition sendOutMetric (m : Metric) : M DmiSys unit := s ← get; try_send (metricChannel s) (IMetric m).

(** Source: internal/bbsim/dmiserver/dmi_event_generator.go, [sendOutEventOnKafka]. *)
Definition sendOutEventOnKafka (e : DmiEvent) : M DmiSys unit := s ← get; try_send (eventChannel s) (IEvent e).

(** ** Random values *)

(** [rand.Int31n]: the [k]-th number that is drawn, below [n]. *)
Class Rand := { Int31n : nat -> Z -> Z; Int31n_range : forall k n, 0 < n -> 0 <= Int31n k n < n }.

Section Generators.
  Context `{Rand}.

(** Source: internal/bbsim/dmiserver/dmi_metrics_generator.go, [generateRand].
    The difference is taken at 32 bits; [Int31n] panics when it is not
    positive. *)
Definition generateRand (lValue hValue : Z) : M DmiSys Z :=
  if decide (lValue >= hValue) then mret 0
  else
    let diff := s32 (hValue - lValue) in
    if decide (diff <= 0) then panic "invalid argument to Int31n"
    else
      s ← get;
      modify (fun s => s <| draws ::= S |>) ;;
      mret (s32 (lValue + Int31n (draws s) diff)).

(** ** Metrics *)

(** Source: internal/bbsim/dmiserver/dmi_metrics_generator.go, [updateMetricIDAndMetaData]
    (with the value each generator then draws between its bounds).  A component
    that is nil is dereferenced. *)
Definition metric (id low high : Z) (typ : DataValueType) (scale : ValueScale) (comp : option Component)
    : M DmiSys Metric :=
  match comp with
  | None => panic "invalid memory address or nil pointer dereference"
  | Some c =>
      s ← get;
      v ← generateRand low high;
      mret {| m_Id := id; m_DeviceUuid := dms_uuid s; m_ComponentUuid := c_Uuid (info c);
              m_ComponentName := c_Name (info c); m_Value := v; m_Type := typ; m_Scale := scale |}
  end.

(** Source: internal/bbsim/dmiserver/dmi_metrics_generator.go, [generateCPUUsageMetric]. *)
Definition generateCPUUsageMetric : option Component -> M DmiSys Metric :=
  metric METRIC_CPU_USAGE_PERCENTAGE 1 20 VALUE_TYPE_OTHER VALUE_SCALE_UNITS.

(** Source: internal/bbsim/dmiserver/dmi_metrics_generator.go, [generateFanSpeedMetric]. *)
Definition generateFanSpeedMetric : option Component -> M DmiSys Metric :=
  metric METRIC_FAN_SPEED 3000 4000 VALUE_TYPE_RPM VALUE_SCALE_UNITS.

(** Source: internal/bbsim/dmiserver/dmi_metrics_generator.go, [generateRAMUsageMetric]. *)
Definition generateRAMUsageMetric : option Component -> M DmiSys Metric :=
  metric METRIC_RAM_USAGE_PERCENTAGE 1 8 VALUE_TYPE_OTHER VALUE_SCALE_GIGA.

(** Source: internal/bbsim/dmiserver/dmi_metrics_generator.go, [generateDiskUsageMetric]. *)
Definition generateDiskUsageMetric : option Component -> M DmiSys Metric :=
  metric METRIC_DISK_USAGE_PERCENTAGE 50 500 VALUE_TYPE_OTHER VALUE_SCALE_GIGA.

(** Source: internal/bbsim/dmiserver/dmi_metrics_generator.go, [generateInnerSurroundingTempMetric]. *)
Definition generateInnerSurroundingTempMetric : option Component -> M DmiSys Metric :=
  metric METRIC_INNER_SURROUNDING_TEMP 30 40 VALUE_TYPE_CELSIUS VALUE_SCALE_UNITS.

(** Source: internal/bbsim/dmiserver/dmi_metrics_generator.go, [getMetric]. *)
Definition getMetric (comp : option Component) (metricID : Z) : M DmiSys (option Metric) :=
  if decide (metricID = METRIC_FAN_SPEED) then m ← generateFanSpeedMetric comp; mret (Some m)
  else if decide (metricID = METRIC_CPU_USAGE_PERCENTAGE) then m ← generateCPUUsageMetric comp; mret (Some m)
  else if decide (metricID = METRIC_RAM_USAGE_PERCENTAGE) then m ← generateRAMUsageMetric comp; mret (Some m)
  else if decide (metricID = METRIC_DISK_USAGE_PERCENTAGE) then m ← generateDiskUsageMetric comp; mret (Some m)
  else if decide (metricID = METRIC_INNER_SURROUNDING_TEMP) then
    m ← generateInnerSurroundingTempMetric comp; mret (Some m)
  else mret None.

(** Store the configuration of a metric; a nil map is a panic. *)
Definition put_metric (id : Z) (c : MetricTriggerConfig) : M DmiSys unit :=
  s ← get;
  match configuredMetrics (mg s) with
  | None => panic "assignment to entry in nil map"
  | Some l => modify (fun s => s <| mg ::= (fun g => {| mg_apiSrv := mg_apiSrv g;
      configuredMetrics := Some (<[id := c]> l); mgCancelFunc := mgCancelFunc g |}) |>)
  end.

(** Source: internal/bbsim/dmiserver/dmi_metrics_generator.go, [updateConfiguredMetrics]. *)
Definition updateConfiguredMetrics (curr typ : Z) (old : MetricTriggerConfig) : M DmiSys unit :=
  put_metric typ {| mt_cfg := mt_cfg old; mt_t := curr + 10 ^ 9 * PollInterval (mt_cfg old) |}.

(** Source: internal/bbsim/dmiserver/dmi_metrics_generator.go, [UpdateMetricConfig]. *)
Definition UpdateMetricConfig (newCfg : MetricConfig) : M DmiSys unit :=
  put_metric (mc_MetricId newCfg) {| mt_cfg := newCfg; mt_t := 0 |}.

(** The components a metric is about and how it is made. *)
Definition metric_source (k : Z) : option (ComponentType * (option Component -> M DmiSys Metric)) :=
  if decide (k = METRIC_CPU_USAGE_PERCENTAGE) then Some (TYPE_CPU, generateCPUUsageMetric)
  else if decide (k = METRIC_FAN_SPEED) then Some (TYPE_FAN, generateFanSpeedMetric)
  else if decide (k = METRIC_RAM_USAGE_PERCENTAGE) then Some (TYPE_MEMORY, generateRAMUsageMetric)
  else if decide (k = METRIC_DISK_USAGE_PERCENTAGE) then Some (TYPE_STORAGE, generateDiskUsageMetric)
  else if decide (k = METRIC_INNER_SURROUNDING_TEMP) then Some (TYPE_SENSOR, generateInnerSurroundingTempMetric)
  else None.

(** Source: internal/bbsim/dmiserver/dmi_metrics_generator.go:151-215, [generateMetrics]
    (one metric of the copied configuration; [false] leaves the loop, when the
    inventory is gone). *)
Definition generate_metric (now k : Z) (v : MetricTriggerConfig) : M DmiSys bool :=
  s ← get;
  match root s with
  | None => mret false
  | Some r =>
      if decide (Children r = []) then mret false
      else
        match metric_source k with
        | Some (class, make) =>
            if mc_IsConfigured (mt_cfg v) then
              if decide (now < mt_t v) then mret true
              else
                updateConfiguredMetrics now k v ;;
                for_each (findComponentsOfType (Children r) class) (fun c => m ← make (Some c); sendOutMetric m) ;;
                mret true
            else mret true
        | None => mret true
        end
  end.

(** The metrics in an order of the map, until the loop is left. *)
Fixpoint generate_round (now : Z) (order : list (Z * MetricTriggerConfig)) : M DmiSys unit :=
  match order with
  | [] => skip
  | (k, v) :: rest => generate_metric now k v ≫= (fun more : bool => if more then generate_round now rest else skip)
  end.

(** Source: internal/bbsim/dmiserver/dmi_metrics_generator.go, [generateMetrics]
    (one turn of the goroutine with context [ctx], which ends when the context
    is cancelled).  [order] is the order in which the map is visited. *)
Definition generateMetrics (ctx : nat) (now : Z) (order : list (Z * MetricTriggerConfig)) : M DmiSys unit :=
  s ← get;
  if is_cancelled s ctx then modify (fun s => s <| generators ::= (fun l => filter (fun c => c <> ctx) l) |>)
  else generate_round now order.

(** Source: internal/bbsim/dmiserver/dmi_metrics_generator.go, [StartGeneratingMetrics]. *)
Definition StartGeneratingMetrics : M DmiSys unit :=
  s ← get;
  if mg_apiSrv (mg s) then
    ctx ← with_cancel;
    modify (fun s => s <| mg ::= (fun g => {| mg_apiSrv := mg_apiSrv g; configuredMetrics := configuredMetrics g;
                                              mgCancelFunc := Some ctx |}) |>
                       <| generators ::= (fun l => (l ++ [ctx])%list) |>)
  else skip.

(** Source: internal/bbsim/dmiserver/dmi_metrics_generator.go:61-113, [StartMetricGenerator]
    (the metrics that are configured at the start). *)
Definition default_metrics : gmap Z MetricTriggerConfig :=
  let c id on secs := (id, {| mt_cfg := {| mc_MetricId := id; mc_IsConfigured := on; PollInterval := secs |}; mt_t := 0 |}) in
  list_to_map [c METRIC_CPU_USAGE_PERCENTAGE true 60; c METRIC_FAN_SPEED true 120;
               c METRIC_RAM_USAGE_PERCENTAGE false 60; c METRIC_DISK_USAGE_PERCENTAGE false 60;
               c METRIC_INNER_SURROUNDING_TEMP true 120].

(** Source: internal/bbsim/dmiserver/dmi_metrics_generator.go, [StartMetricGenerator].
    A generator that runs is not cancelled, and its cancel function is lost. *)
Definition StartMetricGenerator : M DmiSys unit :=
  modify (fun s => s <| mg := {| mg_apiSrv := true; configuredMetrics := Some default_metrics; mgCancelFunc := None |} |>) ;;
  StartGeneratingMetrics.

(** Source: internal/bbsim/dmiserver/dmi_metrics_generator.go, [StopGeneratingMetrics]. *)
Definition StopGeneratingMetrics : M DmiSys unit := s ← get; cancel (mgCancelFunc (mg s)).

(** Source: internal/bbsim/dmiserver/dmi_metrics_generator.go, [StopMetricGenerator]. *)
Definition StopMetricGenerator : M DmiSys unit :=
  StopGeneratingMetrics ;;
  modify (fun s => s <| mg ::= (fun g => {| mg_apiSrv := mg_apiSrv g; configuredMetrics := Some (∅ : gmap Z MetricTriggerConfig);
                                            mgCancelFunc := mgCancelFunc g |}) |>).

(** Source: internal/bbsim/dmiserver/dmi_metrics_generator.go, [getMetricsList].
    The order of the map is arbitrary; here it is that of its keys. *)
Definition getMetricsList (s : DmiSys) : list MetricConfig :=
  (fun kv => mt_cfg kv.2) <$> map_to_list (default (∅ : gmap Z MetricTriggerConfig) (configuredMetrics (mg s))).

(** ** Events *)

(** Source: internal/bbsim/dmiserver/dmi_event_generator.go, [UpdateEventConfig]. *)
Definition UpdateEventConfig (newEventCfg : EventCfg) : M DmiSys unit :=
  s ← get;
  match configuredEvents (eg s) with
  | None => panic "assignment to entry in nil map"
  | Some l => modify (fun s => s <| eg ::= (fun g => {| eg_apiSrv := eg_apiSrv g;
      configuredEvents := Some (<[ec_EventId newEventCfg := newEventCfg]> l) |}) |>)
  end.

(** Source: internal/bbsim/dmiserver/dmi_event_generator.go, [getEventsList]. *)
Definition getEventsList (s : DmiSys) : list EventCfg := snd <$> map_to_list (default (∅ : gmap Z EventCfg) (configuredEvents (eg s))).

(** Source: internal/bbsim/dmiserver/dmi_event_generator.go, [StartEventsGenerator]. *)
Definition StartEventsGenerator : M DmiSys unit :=
  let c id t := (id, {| ec_EventId := id; ec_IsConfigured := true; ec_Thresholds := t |}) in
  modify (fun s => s <| eg := {| eg_apiSrv := true; configuredEvents := Some (list_to_map
    [c EVENT_FAN_FAILURE None;
     c EVENT_HW_DEVICE_TEMPERATURE_ABOVE_CRITICAL
       (Some (Upper {| High := Some (IntVal 95); Low := Some (IntVal 90) |}));
     c EVENT_PSU_FAILURE None; c EVENT_TRANSCEIVER_PLUG_IN None; c EVENT_TRANSCEIVER_PLUG_OUT None]) |} |>).

(** Source: internal/bbsim/dmiserver/dmi_event_generator.go, [updateEventMetaData]. *)
Definition updateEventMetaData (s : DmiSys) (eventID : Z) (c : Component) (t : option (Z * option Thresholds)) : DmiEvent := {|
  e_Id := eventID; e_DeviceUuid := dms_uuid s; e_ComponentUuid := c_Uuid (info c);
  e_ComponentName := c_Name (info c); e_ThresholdInfo := t |}.

(** Source: internal/bbsim/dmiserver/dmi_event_generator.go, [noThresholdEventGenerationFunc].
    The event is about the first component of the class. *)
Definition noThresholdEventGenerationFunc (children : list Component) (eventID : Z) (cType : ComponentType)
    : M DmiSys unit :=
  s ← get;
  match findComponentsOfType children cType with
  | [] => skip
  | comp :: _ => sendOutEventOnKafka (updateEventMetaData s eventID comp None)
  end.

(** Source: internal/bbsim/dmiserver/dmi_event_generator.go, [thresholdEventGenerationFunc]. *)
Definition thresholdEventGenerationFunc (children : list Component) (eventID : Z) (cType : ComponentType)
    : M DmiSys unit :=
  s ← get;
  match findComponentsOfType children cType with
  | [] => skip
  | comp :: _ =>
      match configuredEvents (eg s) ≫= (fun l => l !! eventID) with
      | None => sendOutEventOnKafka (updateEventMetaData s eventID comp None)
      | Some v =>
          let w := GetUpper (ec_Thresholds v) in
          x ← generateRand (s32 (GetIntVal (Low w))) (s32 (GetIntVal (High w)));
          sendOutEventOnKafka (updateEventMetaData s eventID comp (Some (x, ec_Thresholds v)))
      end
  end.

(** Source: internal/bbsim/dmiserver/dmi_event_generator.go:50-86, [init]. *)
Definition eventGenMap (id : Z) : option (ComponentType * (list Component -> Z -> ComponentType -> M DmiSys unit)) :=
  if decide (id = EVENT_FAN_FAILURE \/ id = EVENT_FAN_FAILURE_RECOVERED) then
    Some (TYPE_FAN, noThresholdEventGenerationFunc)
  else if decide (id = EVENT_TRANSCEIVER_PLUG_IN \/ id = EVENT_TRANSCEIVER_PLUG_OUT) then
    Some (TYPE_TRANSCEIVER, noThresholdEventGenerationFunc)
  else if decide (id = EVENT_PSU_FAILURE \/ id = EVENT_PSU_FAILURE_RECOVERED) then
    Some (TYPE_POWER_SUPPLY, noThresholdEventGenerationFunc)
  else if decide (id = EVENT_HW_DEVICE_TEMPERATURE_ABOVE_CRITICAL \/
                  id = EVENT_HW_DEVICE_TEMPERATURE_ABOVE_CRITICAL_RECOVERED) then
    Some (TYPE_SENSOR, thresholdEventGenerationFunc)
  else None.
End Generators.

(** ** Publishing *)

(** Source: internal/bbsim/dmiserver/dmi_kafka_producer.go, [DMKafkaPublisher]
    (one turn of the [n]-th publisher).  When both cases of its [select] are
    ready Go takes either: [data] tells which one is tried.  A producer that
    could not be made is nil; one that does not read its input lets the publisher
    wait, and its turn is not taken. *)
Definition DMKafkaPublisher (n : nat) (data : bool) : M DmiSys unit :=
  s ← get;
  match publishers s !! n with
  | None => skip
  | Some p =>
      if data then
        match p_ch p ≫= (fun c => pair c <$> queues s !! c) with
        | Some (c, x :: q) =>
            if producer s then
              modify (fun s => s <| queues ::= <[c := q]> |> <| kafka ::= (fun l => (l ++ [(p_topic p, x)])%list) |>)
            else panic "invalid memory address or nil pointer dereference"
        | _ => skip
        end
      else if is_cancelled s (p_ctx p) then modify (fun s => s <| publishers ::= delete n |>)
      else skip
  end.

(** Source: internal/bbsim/dmiserver/dmi_kafka_producer.go, [InitializeDMKafkaPublishers].
    [newProducer] is the result of the Kafka library for the endpoint. *)
Definition InitializeDMKafkaPublishers (newProducer : option error) : M DmiSys (option error) :=
  modify (fun s => s <| producer := bool_decide (newProducer = None) |>) ;; mret newProducer.
