(* ===== verification/Dmi.v ===== *)
(** * DMI: the server

    [internal/bbsim/dmiserver]: the calls of the device management interface
    (managing the device, its inventory, metrics, events and software) and the
    calls of BBSim's API that plug transceivers in and out.  A handler returns
    its response, [None] when it has none, and its gRPC error; the response of
    a call with a stream is what it sends, and [sendErr] the error of sending. *)
From stdpp Require Import pretty.
From S2P Require Import Prelude Fsm Options OmciTypes Omci MibDb Packets Types Io Eapol Dhcp Igmp Service.
From S2P Require Import PonRes AlarmSim UniPort Get Onu OnuOmci OnuLoop OltFlows OltSpec Olt OltProps OltWf Api ApiInfo DmiInv DmiGen.
Open Scope Z_scope.
Open Scope string_scope.

(** ** Responses *)

Definition codes_Unknown : Z := 2.
Definition codes_Aborted : Z := 10.
Definition codes_Unimplemented : Z := 12.
Definition codes_Unavailable : Z := 14.

Inductive Status := UNDEFINED_STATUS | OK_STATUS | ERROR_STATUS.

(** The reasons of all responses. *)
Inductive Reason :=
| UNDEFINED_REASON | UNKNOWN_DEVICE | INTERNAL_ERROR | LOGGING_ENDPOINT_ERROR | LOGGING_ENDPOINT_PROTOCOL_ERROR
| MSGBUS_ENDPOINT_ERROR | INVALID_METRIC.

(** A gRPC error: its code and its message. *)
Definition rpc_error : Type := Z * string.

(** What a handler returns. *)
Definition Answer (A : Type) : Type := option A * option rpc_error.

Definition nil_pointer {A : Type} : M DmiSys A := panic "invalid memory address or nil pointer dereference".

(** The identifier of the managed device; reading it is a panic when the device
    is not managed. *)
Definition device_uuid : M DmiSys string :=
  s ← get; match dms_uuid s with Some u => mret u | None => nil_pointer end.

(** A response sent on a stream. *)
Definition send_answer {A : Type} (code : Z) (prefix : string) (sendErr : option error) (a : A) : Answer A :=
  (Some a, (fun e => (code, prefix +:+ e)) <$> sendErr).

(** The operations of a configuration request. *)
Inductive Operation (A : Type) := Changes (l : list A) | ResetToDefault.
Arguments Changes {A}.
Arguments ResetToDefault {A}.

Section Server.
  Context `{UuidLib} `{Rand} (Vendor : string).

(** ** Managing the device *)

(** Source: internal/bbsim/dmiserver/dmi_api_server.go, [StartDmiAPIServer].
    One transceiver per PON; [listenErr] is the error of listening.  The
    variables of the generators keep their values. *)
Definition StartDmiAPIServer (listenErr : option error) : M DmiSys (option error) :=
  modify (fun s => s
    <| ipAddress := "" |> <| dms_uuid := None |> <| root := None |>
    <| Transceivers := imap (fun p pp => newTransceiver (d_olt s) (pp_ID pp) [p]) (Pons (d_olt s)) |>
    <| metricChannel := None |> <| eventChannel := None |> <| kafkaEndpoint := "" |>
    <| loggingEndpoint := "" |> <| loggingProtocol := "" |> <| mPublisherCancelFunc := None |>) ;;
  mret listenErr.

(** Source: internal/bbsim/dmiserver/dmi_api_server.go, [getDmiAPIServer]
    (the error). *)
Definition getDmiAPIServer (s : DmiSys) : option error :=
  match root s with None => Some "Device management not started" | Some _ => None end.

Record Managed := { sm_Name : string; sm_Uri : option string }.

(** Source: internal/bbsim/dmiserver/dmi_hw_mgmt.go, [DmiAPIServer.StartManagingDevice].
    The response carries the identifier of the device. *)
Definition StartManagingDevice (req : option Managed) (sendErr : option error) : M DmiSys (Answer (Status * string)) :=
  match req with
  | None => mret (None, Some (codes_FailedPrecondition, "request is empty"))
  | Some r =>
      if decide (sm_Name r = "") then
        mret (None, Some (codes_InvalidArgument, "'Name' can not be empty in the request"))
      else
        s ← get;
        let uuid := getOltUUID (d_olt s) in
        modify (fun s => s <| ipAddress := default "" (sm_Uri r) |> <| dms_uuid := Some uuid |>) ;;
        mc ← make_chan;
        modify (fun s => s <| metricChannel := Some mc |>) ;;
        StartMetricGenerator ;;
        ec ← make_chan;
        modify (fun s => s <| eventChannel := Some ec |>) ;;
        StartEventsGenerator ;;
        modify (fun s => s
          <| root := Some (inventory Vendor (d_olt s) (ipAddress s) (Transceivers s)) |>
          <| Transceivers ::= fmap (fun t => (cage_component Vendor (d_olt s) t).2) |>) ;;
        mret (send_answer codes_Unknown "" sendErr (OK_STATUS, uuid))
  end.

(** Source: internal/bbsim/dmiserver/dmi_hw_mgmt.go, [DmiAPIServer.StopManagingDevice].
    The request is the name of the device. *)
Definition StopManagingDevice (req : option string) : M DmiSys (Answer (Status * Reason)) :=
  match req with
  | None => mret (Some (ERROR_STATUS, UNDEFINED_REASON), Some (codes_FailedPrecondition, "request is empty"))
  | Some name =>
      if decide (name = "") then
        mret (Some (ERROR_STATUS, UNKNOWN_DEVICE),
              Some (codes_InvalidArgument, "'Name' can not be empty in the request"))
      else
        StopMetricGenerator ;;
        s ← get;
        cancel (mPublisherCancelFunc s) ;;
        modify (fun s => s <| kafkaEndpoint := "" |> <| ipAddress := "" |> <| dms_uuid := None |>
                           <| root := None |> <| metricChannel := None |>) ;;
        mret (Some (OK_STATUS, UNDEFINED_REASON), None)
  end.

(** Source: internal/bbsim/dmiserver/dmi_hw_mgmt.go, [DmiAPIServer.GetManagedDevices]:
    the name, address and identifier of the device, if it is managed. *)
Definition GetManagedDevices (s : DmiSys) : list (string * string * option string) :=
  match root s with
  | Some _ => [(getOltName Vendor (d_olt s), ipAddress s, dms_uuid s)]
  | None => []
  end.

(** ** Inventory *)

(** Source: internal/bbsim/dmiserver/dmi_hw_mgmt.go, [DmiAPIServer.GetPhysicalInventory].
    [req] is the identifier in the request, if there is one. *)
Definition GetPhysicalInventory (req : option string) (sendErr : option error)
    : M DmiSys (Answer (Status * Reason * option Component)) :=
  match req with
  | None | Some "" => mret (None, Some (codes_InvalidArgument, "device-UUID missing in the request"))
  | Some u =>
      uuid ← device_uuid;
      s ← get;
      let send := send_answer codes_Internal "Error sending response to client " sendErr in
      mret (if decide (u <> uuid) then send (ERROR_STATUS, UNKNOWN_DEVICE, None)
            else send (OK_STATUS, UNDEFINED_REASON, root s))
  end.

(** Source: internal/bbsim/dmiserver/dmi_hw_mgmt.go, [sendGetHWComponentResponse]. *)
Definition sendGetHWComponentResponse (c : option Component) (sendErr : option error)
    : Answer (Status * Reason * option Component) :=
  send_answer codes_Internal "Error sending response to client " sendErr
    (match c with None => (ERROR_STATUS, UNKNOWN_DEVICE, c) | Some _ => (OK_STATUS, UNDEFINED_REASON, c) end).

(** Source: internal/bbsim/dmiserver/dmi_hw_mgmt.go, [DmiAPIServer.GetHWComponentInfo].
    [req] is the identifier of the component; [stream] tells whether there is a
    stream. *)
Definition GetHWComponentInfo (req : option (option string)) (stream : bool) (sendErr : option error)
    : M DmiSys (Answer (Status * Reason * option Component)) :=
  match req with
  | None => mret (None, Some (codes_FailedPrecondition, "can not entertain nil request"))
  | Some u =>
      if stream then
        s ← get;
        match root s with
        | None => mret (None, Some (codes_Internal,
            "Error occurred, device is not managed, please start managing device"))
        | Some r =>
            match u with
            | None => nil_pointer
            | Some u => mret (sendGetHWComponentResponse (findComponent (Children r) u) sendErr)
            end
        end
      else mret (None, Some (codes_Internal, "stream to send is nil, can not send response from gRPC server"))
  end.

(** ** Endpoints *)

Record LoggingRequest := { lr_DeviceUuid : option string; lr_Endpoint : string; lr_Protocol : string }.

(** Source: internal/bbsim/dmiserver/dmi_hw_mgmt.go, [DmiAPIServer.SetLoggingEndpoint]. *)
Definition SetLoggingEndpoint (request : option LoggingRequest) : M DmiSys (Answer (Status * Reason)) :=
  let refuse reason := mret (Some (ERROR_STATUS, reason), Some (codes_InvalidArgument, "invalid request")) in
  match request with
  | None => refuse UNKNOWN_DEVICE
  | Some r =>
      if decide (lr_Endpoint r = "") then refuse LOGGING_ENDPOINT_ERROR
      else if decide (lr_Protocol r = "") then refuse LOGGING_ENDPOINT_PROTOCOL_ERROR
      else
        match lr_DeviceUuid r with
        | None => refuse UNKNOWN_DEVICE
        | Some u =>
            uuid ← device_uuid;
            if decide (u <> uuid) then refuse UNKNOWN_DEVICE
            else
              modify (fun s => s <| loggingEndpoint := lr_Endpoint r |> <| loggingProtocol := lr_Protocol r |>) ;;
              mret (Some (OK_STATUS, UNDEFINED_REASON), None)
        end
  end.

(** Source: internal/bbsim/dmiserver/dmi_hw_mgmt.go, [DmiAPIServer.GetLoggingEndpoint]. *)
Definition GetLoggingEndpoint (request : option string) : M DmiSys (Answer (Status * Reason * string * string)) :=
  match request with
  | None | Some "" =>
      mret (Some (ERROR_STATUS, UNKNOWN_DEVICE, "", ""), Some (codes_InvalidArgument, "invalid request"))
  | Some u =>
      uuid ← device_uuid;
      s ← get;
      mret (Some (if decide (u <> uuid) then (ERROR_STATUS, UNKNOWN_DEVICE, "", "")
                  else (OK_STATUS, UNDEFINED_REASON, loggingEndpoint s, loggingProtocol s)), None)
  end.

(** Source: internal/bbsim/dmiserver/dmi_hw_mgmt.go, [DmiAPIServer.SetMsgBusEndpoint].
    The publishers keep the channels the server has at this moment. *)
Definition SetMsgBusEndpoint (request : option string) (newProducer : option error)
    : M DmiSys (Answer (Status * Reason)) :=
  match request with
  | None | Some "" =>
      mret (Some (ERROR_STATUS, MSGBUS_ENDPOINT_ERROR), Some (codes_FailedPrecondition, "request is nil"))
  | Some endpoint =>
      modify (fun s => s <| kafkaEndpoint := endpoint |>) ;;
      s ← get;
      cancel (mPublisherCancelFunc s) ;;
      ctx ← with_cancel;
      modify (fun s => s <| mPublisherCancelFunc := Some ctx |>) ;;
      err ← InitializeDMKafkaPublishers newProducer;
      match err with
      | None =>
          modify (fun s => s <| publishers ::= (fun l => (l ++
            [{| p_ctx := ctx; p_ch := metricChannel s; p_topic := "dm.metrics" |};
             {| p_ctx := ctx; p_ch := eventChannel s; p_topic := "dm.events" |}])%list) |>) ;;
          mret (Some (OK_STATUS, UNDEFINED_REASON), None)
      | Some e => mret (Some (ERROR_STATUS, MSGBUS_ENDPOINT_ERROR), Some (codes_Unknown, e))
      end
  end.

(** Source: internal/bbsim/dmiserver/dmi_hw_mgmt.go, [DmiAPIServer.GetMsgBusEndpoint]. *)
Definition GetMsgBusEndpoint (s : DmiSys) : Status * Reason * string :=
  if decide (kafkaEndpoint s <> "") then (OK_STATUS, UNDEFINED_REASON, kafkaEndpoint s)
  else (ERROR_STATUS, INTERNAL_ERROR, "").

(** ** Log levels and calls that are not implemented *)

(** Source: internal/bbsim/dmiserver/dmi_hw_mgmt.go, [DmiAPIServer.GetLogLevel]. *)
Definition GetLogLevel (s : DmiSys) : Status * option string := (OK_STATUS, dms_uuid s).

(** Source: internal/bbsim/dmiserver/dmi_hw_mgmt.go, [DmiAPIServer.SetLogLevel]. *)
Definition SetLogLevel (s : DmiSys) : Status * option string := (OK_STATUS, dms_uuid s).

(** Source: internal/bbsim/dmiserver/dmi_hw_mgmt.go, [DmiAPIServer.GetLoggableEntities]. *)
Definition GetLoggableEntities (s : DmiSys) : Status * option string := (OK_STATUS, dms_uuid s).

(** ** Metrics *)

(** Source: internal/bbsim/dmiserver/dmi_metrics_mgmt.go, [DmiAPIServer.ListMetrics]. *)
Definition ListMetrics (s : DmiSys) : Status * list MetricConfig := (OK_STATUS, getMetricsList s).

(** Source: internal/bbsim/dmiserver/dmi_metrics_mgmt.go, [DmiAPIServer.UpdateMetricsConfiguration].
    [None] is a request without an operation. *)
Definition UpdateMetricsConfiguration (req : option (Operation MetricConfig)) : M DmiSys (Answer (Status * Reason)) :=
  match req with
  | None => mret (Some (ERROR_STATUS, INVALID_METRIC), Some (codes_FailedPrecondition, "request is nil"))
  | Some (Changes l) => for_each l UpdateMetricConfig ;; mret (Some (OK_STATUS, UNDEFINED_REASON), None)
  | Some ResetToDefault => mret (Some (OK_STATUS, UNDEFINED_REASON), None)
  end.

(** Source: internal/bbsim/dmiserver/dmi_metrics_mgmt.go, [DmiAPIServer.GetMetric].
    The request has a metric and the identifier of a component. *)
Definition GetMetric (req : option (Z * option string)) : M DmiSys (Answer (Status * Reason * option Metric)) :=
  match req with
  | None => mret (Some (ERROR_STATUS, INVALID_METRIC, None), Some (codes_FailedPrecondition, "request is nil"))
  | Some (metricId, u) =>
      if decide (metricId < 0) then
        mret (Some (ERROR_STATUS, INVALID_METRIC, None), Some (codes_FailedPrecondition, "request is nil"))
      else
        s ← get;
        match root s with
        | None => mret (Some (ERROR_STATUS, INTERNAL_ERROR, None), Some (codes_FailedPrecondition,
            "Device is not managed, please start managing device to get the metric"))
        | Some r =>
            match u with
            | None => nil_pointer
            | Some u =>
                m ← getMetric (findComponent (Children r) u) metricId;
                mret (Some (OK_STATUS, UNDEFINED_REASON, m), None)
            end
        end
  end.

(** ** Events *)

(** Source: internal/bbsim/dmiserver/dmi_events_mgmt.go, [DmiAPIServer.ListEvents]. *)
Definition ListEvents (s : DmiSys) : Status * list EventCfg := (OK_STATUS, getEventsList s).

(** Source: internal/bbsim/dmiserver/dmi_events_mgmt.go, [DmiAPIServer.UpdateEventsConfiguration]. *)
Definition UpdateEventsConfiguration (req : option (Operation EventCfg)) : M DmiSys (Answer (Status * Reason)) :=
  match req with
  | None => mret (Some (ERROR_STATUS, UNDEFINED_REASON), Some (codes_FailedPrecondition, "request is nil"))
  | Some (Changes l) => for_each l UpdateEventConfig ;; mret (Some (OK_STATUS, UNDEFINED_REASON), None)
  | Some ResetToDefault => mret (Some (OK_STATUS, UNDEFINED_REASON), None)
  end.

(** Source: internal/bbsim/dmiserver/dmi_event_generator.go, [DmiAPIServer.CreateEvent].
    [value] is the event of the name in the protocol, [names] the text of
    [getValidEventNames]. *)
Definition CreateEvent (value : string -> option Z) (names eventName : string) : M DmiSys Response :=
  let ret code msg := mret {| StatusCode := code; resp_Message := msg |} in
  s ← get;
  match (if eg_apiSrv (eg s) then root s else None) with
  | None | Some (Comp _ []) => ret codes_Internal "Inventory does not exist"
  | Some r =>
      match value eventName with
      | None => ret codes_NotFound ("DMI Alarm not supported. Permissible values are " +:+ names)
      | Some id =>
          match eventGenMap id with
          | None => ret codes_Unimplemented "Generation of this event not yet implemented"
          | Some (componentType, genFunc) =>
              genFunc (Children r) id componentType ;; ret codes_OK "DMI Event Indication Sent."
          end
      end
  end.

(** ** Software *)

(** Source: internal/bbsim/dmiserver/dmi_sw_mgmt.go, [DmiAPIServer.GetSoftwareVersion]:
    the active and the standby image. *)
Definition GetSoftwareVersion : Status * (string * string) * (string * string) :=
  (OK_STATUS, ("BBSIM-DUMMY-IMAGE-1", "BBSIM-DUMMY-VERSION-1"), ("BBSIM-DUMMY-IMAGE-2", "BBSIM-DUMMY-VERSION-2")).

Inductive ImageState := COPYING_IMAGE | ACTIVATION_COMPLETE.

(** Source: internal/bbsim/dmiserver/dmi_sw_mgmt.go, [DmiAPIServer.DownloadImage]. *)
Definition DownloadImage (sendErr : option error) : (Status * ImageState) * option error :=
  ((OK_STATUS, COPYING_IMAGE), sendErr).

(** Source: internal/bbsim/dmiserver/dmi_sw_mgmt.go, [DmiAPIServer.ActivateImage]. *)
Definition ActivateImage (sendErr : option error) : (Status * ImageState) * option error :=
  ((OK_STATUS, ACTIVATION_COMPLETE), sendErr).

(** Source: internal/bbsim/dmiserver/dmi_sw_mgmt.go, [DmiAPIServer.RevertToStandbyImage]. *)
Definition RevertToStandbyImage (sendErr : option error) : (Status * ImageState) * option error :=
  ((OK_STATUS, ACTIVATION_COMPLETE), sendErr).

(** Source: internal/bbsim/dmiserver/dmi_sw_mgmt.go, [DmiAPIServer.UpdateStartupConfiguration].
    The request is the identifier it carries, if any. *)
Definition UpdateStartupConfiguration (request : option (option string)) (sendErr : option error)
    : M DmiSys (Answer (Status * Reason)) :=
  let send a := mret (Some a, (fun _ => (codes_Internal, "error sending response to client")) <$> sendErr) in
  match request with
  | None => mret (None, Some (codes_InvalidArgument, "ConfigRequest is nil"))
  | Some None => send (ERROR_STATUS, UNKNOWN_DEVICE)
  | Some (Some u) =>
      uuid ← device_uuid;
      if decide (u <> uuid) then send (ERROR_STATUS, UNKNOWN_DEVICE) else send (OK_STATUS, UNDEFINED_REASON)
  end.

(** Source: internal/bbsim/dmiserver/dmi_sw_mgmt.go, [DmiAPIServer.GetStartupConfigurationInfo]. *)
Definition GetStartupConfigurationInfo (request : option (option string))
    : M DmiSys (Answer (Status * Reason * string)) :=
  match request with
  | None => mret (None, Some (codes_InvalidArgument, "ConfigRequest is nil"))
  | Some None => mret (None, Some (codes_InvalidArgument, "DeviceUuid is nil"))
  | Some (Some u) =>
      uuid ← device_uuid;
      if decide (u <> uuid) then
        mret (Some (ERROR_STATUS, UNKNOWN_DEVICE, ""),
              Some (codes_InvalidArgument, "device-uuid " +:+ u +:+ " not found"))
      else mret (Some (OK_STATUS, UNDEFINED_REASON, "BBSIM-STARTUP-CONFIG-DUMMY-VERSION"), None)
  end.

(** ** Transceivers *)

(** Source: internal/bbsim/dmiserver/dmi_transceiver.go, [getTransceiverWithId].
    The position of the transceiver and the transceiver. *)
Definition getTransceiverWithId (transId : Z) (s : DmiSys) : error + nat * Transceiver :=
  match list_find (fun t => t_ID t = transId) (Transceivers s) with
  | Some x => inr x
  | None => inl ("Cannot find transceiver with ID " +:+ pretty transId)
  end.

Definition set_plugged (b : bool) (t : Transceiver) : Transceiver := {|
  t_ID := t_ID t; t_Uuid := t_Uuid t; t_Name := t_Name t; t_Pons := t_Pons t; t_Technology := t_Technology t;
  PluggedIn := b |}.

(** Change the children of the [k]-th child of a component. *)
Definition alter_cage (k : nat) (f : list Component -> list Component) (r : Component) : Component :=
  let 'Comp i l := r in Comp i (alter (fun c => Comp (info c) (f (Children c))) k l).

(** Source: internal/bbsim/dmiserver/dmi_hw_mgmt.go:408-427, [PlugoutTransceiverComponent]
    (the cage and the place of the transceiver in it). *)
Definition find_plugged (cage trans : string) (l : list Component) : option (nat * nat) :=
  match list_find (fun c => c_Uuid (info c) = cage /\ trans ∈ ((fun d => c_Uuid (info d)) <$> Children c)) l with
  | None => None
  | Some (k, c) => (fun x => (k, x.1)) <$> list_find (fun d => c_Uuid (info d) = trans) (Children c)
  end.

(** Source: internal/bbsim/dmiserver/dmi_hw_mgmt.go, [PlugoutTransceiverComponent]. *)
Definition PlugoutTransceiverComponent (transId : Z) : M DmiSys (option error) :=
  s ← get;
  match root s with
  | None => mret (Some "Device management not started")
  | Some r =>
      match getTransceiverWithId transId s with
      | inl e => mret (Some e)
      | inr (n, t) =>
          if PluggedIn t then
            match find_plugged (getCageUUID (d_olt s) transId) (getTransceiverUUID (d_olt s) transId) (Children r) with
            | None => mret (Some ("Cannot find transceiver with id " +:+ pretty transId))
            | Some (k, j) =>
                modify (fun s => s <| root := Some (alter_cage k (delete j) r) |>
                                   <| Transceivers ::= alter (set_plugged false) n |>) ;;
                mret None
            end
          else mret (Some ("Cannot plug out transceiver with ID " +:+ pretty transId +:+ " since it's not plugged in"))
      end
  end.

(** Source: internal/bbsim/dmiserver/dmi_hw_mgmt.go, [PluginTransceiverComponent]. *)
Definition PluginTransceiverComponent (transId : Z) : M DmiSys (option error) :=
  s ← get;
  match root s with
  | None => mret (Some "Device management not started")
  | Some r =>
      match getTransceiverWithId transId s with
      | inl e => mret (Some e)
      | inr (n, t) =>
          if PluggedIn t then
            mret (Some ("Cannot plug in transceiver with ID " +:+ pretty transId +:+ " since it's already plugged in"))
          else
            match list_find (fun c => c_Uuid (info c) = getCageUUID (d_olt s) transId) (Children r) with
            | None => mret (Some ("Cannot find cage for transceiver with id " +:+ pretty transId))
            | Some (k, cage) =>
                match createTransceiverComponent (d_olt s) t (c_Name (info cage)) with
                | inl e => mret (Some e)
                | inr (c, t') =>
                    modify (fun s => s <| root := Some (alter_cage k (fun l => (l ++ [c])%list) r) |>
                                       <| Transceivers ::= alter (fun _ => set_plugged true t') n |>) ;;
                    mret None
                end
            end
      end
  end.

(** Code of the OLT. *)
Definition on_olt {A : Type} (m : M OltDevice A) : M DmiSys A := zoom d_olt (fun o s => s <| d_olt := o |>) m.

(** Source: internal/bbsim/dmiserver/dmi_transceiver.go:139-167, [DmiAPIServer.PlugOutTransceiver]
    (one PON: raise its alarm, disable it, raise the alarms of its ONUs). *)
Definition plug_out_pon (p : nat) : M OltDevice unit :=
  s ← get;
  match Pons s !! p with
  | None => nil_deref
  | Some pp =>
      if decide (pp_InternalState pp = "enabled") then
        Olt.SetAlarm (pp_ID pp) "pon" "on" ;;
        err ← Event (pon_fsm p) "disable";
        match err with
        | Some _ => skip
        | None => each_onu [p] (Onu.SetAlarm "ONU_ALARM_LOS" "on" ;; skip)
        end
      else skip
  end.

(** Source: internal/bbsim/dmiserver/dmi_transceiver.go:233-259, [DmiAPIServer.PlugInTransceiver]
    (one PON). *)
Definition plug_in_pon (p : nat) : M OltDevice unit :=
  s ← get;
  match Pons s !! p with
  | None => nil_deref
  | Some pp =>
      Olt.SetAlarm (pp_ID pp) "pon" "off" ;;
      err ← Event (pon_fsm p) "enable";
      match err with
      | Some _ => skip
      | None => each_onu [p] (Onu.SetAlarm "ONU_ALARM_LOS" "off" ;; skip)
      end
  end.

(** Source: internal/bbsim/dmiserver/dmi_transceiver.go:105-190, [DmiAPIServer.PlugOutTransceiver]
    (the shape both calls share: find the transceiver, test that it is in
    the other state, change the inventory, run the PONs of an enabled OLT and
    send the event). *)
Definition plug (wanted : bool) (again : string) (change : Z -> M DmiSys (option error)) (failed : string)
    (on_pon : nat -> M OltDevice unit) (event : Z) (done : string) (transId : Z) : M DmiSys Response :=
  let ret code msg := mret {| StatusCode := code; resp_Message := msg |} in
  s ← get;
  match getDmiAPIServer s with
  | Some e => ret codes_Unavailable ("Cannot get DMI server instance: " +:+ e)
  | None =>
      match getTransceiverWithId transId s with
      | inl e => ret codes_NotFound ("Cannot find transceiver with ID " +:+ pretty transId +:+ ": " +:+ e)
      | inr (_, t) =>
          if decide (PluggedIn t <> wanted) then ret codes_Aborted again
          else
            err ← change transId;
            match err with
            | Some e => ret codes_NotFound (failed +:+ pretty transId +:+ ": " +:+ e)
            | None =>
                s ← get;
                (if decide (olt_InternalState (d_olt s) = OltInternalStateEnabled)
                 then for_each (t_Pons t) (fun p => on_olt (on_pon p)) else skip) ;;
                s ← get;
                sendOutEventOnKafka {| e_Id := event; e_DeviceUuid := dms_uuid s; e_ComponentUuid := t_Uuid t;
                                       e_ComponentName := t_Name t; e_ThresholdInfo := None |} ;;
                ret codes_OK (done +:+ pretty transId)
            end
      end
  end.

(** Source: internal/bbsim/dmiserver/dmi_transceiver.go, [DmiAPIServer.PlugOutTransceiver]. *)
Definition PlugOutTransceiver (transId : Z) : M DmiSys Response :=
  plug true ("Cannot plug out transceiver with ID " +:+ pretty transId +:+ " since it's not plugged in")
    PlugoutTransceiverComponent "Cannot remove transceiver with ID " plug_out_pon EVENT_TRANSCEIVER_PLUG_OUT
    "Plugged out transceiver " transId.

(** Source: internal/bbsim/dmiserver/dmi_transceiver.go, [DmiAPIServer.PlugInTransceiver]. *)
Definition PlugInTransceiver (transId : Z) : M DmiSys Response :=
  plug false ("Cannot plug in transceiver with ID " +:+ pretty transId +:+ " since it's already plugged in")
    PluginTransceiverComponent "Cannot add transceiver with ID " plug_in_pon EVENT_TRANSCEIVER_PLUG_IN
    "Plugged in transceiver " transId.

(** [dmi.TransceiverType.String] *)
Definition technology_name (t : TransceiverType) : string :=
  match t with
  | TT_UNDEFINED => "TYPE_UNDEFINED" | TT_GPON => "GPON" | TT_XGSPON => "XGSPON"
  | TT_COMBO_GPON_XGSPON => "COMBO_GPON_XGSPON"
  end.

Record ProtoTransceiver := {
  pt_ID : Z; pt_UUID : string; pt_Name : string; pt_Technology : string; pt_PluggedIn : bool; pt_PonIds : list Z }.

(** Source: internal/bbsim/dmiserver/dmi_transceiver.go, [DmiAPIServer.GetTransceivers]. *)
Definition GetTransceivers (s : DmiSys) : list ProtoTransceiver :=
  (fun t => {| pt_ID := t_ID t; pt_UUID := t_Uuid t; pt_Name := t_Name t;
               pt_Technology := technology_name (t_Technology t); pt_PluggedIn := PluggedIn t;
               pt_PonIds := pp_ID <$> trans_pons (d_olt s) t |}) <$> Transceivers s.
End Server.
