(* ===== verification/DmiProps.v ===== *)
(** * DMI: properties of the server

    The inventory that plugging changes in place is always the one that would
    be built anew; metrics and events keep their bounds and intervals; where
    the code departs from what it says. *)
From stdpp Require Import pretty.
From S2P Require Import Prelude Fsm Options OmciTypes Omci MibDb Packets Types Io Eapol Dhcp Igmp Service.
From S2P Require Import PonRes AlarmSim UniPort Get Onu OnuOmci OnuLoop OltFlows OltSpec Olt OltProps OltWf Api ApiInfo Sadis DmiInv DmiGen Dmi.
Open Scope Z_scope.
Open Scope string_scope.

(** ** What the inventory reads of the OLT *)

(** The number of the OLT, and the numbers and technologies of its PONs. *)
Definition olt_shape (s : OltDevice) : Z * list (Z * PonTechnology) :=
  (olt_ID s, (fun pp => (pp_ID pp, pp_Technology pp)) <$> Pons s).

Section Shape.
  Context (x : Z * list (Z * PonTechnology)).
Let P (s : OltDevice) : Prop := olt_shape s = x.

Lemma shape_on_onu {A : Type} p i (m : M OnuSys A) : preserves P (on_onu p i m).
Proof.
  intros s a s' Hs. unfold on_onu. destruct (Pons s !! p) as [pp|] eqn:Hp; [|done].
  destruct (Onus pp !! i) as [o|]; [|done]. destruct (m _) as [[]| | |]; [|done..]. intros [= <- <-].
  unfold P in *. rewrite <-Hs. unfold olt_shape, onu_back. cbn. f_equal. rewrite list_fmap_insert. cbn.
  apply list_insert_id. by rewrite list_lookup_fmap, Hp.
Qed.

Lemma shape_modify f : (forall s, olt_shape (f s) = olt_shape s) -> preserves P (modify f).
Proof. intros Hf. apply preserves_modify. intros s. unfold P. by rewrite Hf. Qed.

Lemma shape_send_olt m : preserves P (send_olt m).
Proof. by apply preserves_lift. Qed.
#[local] Hint Resolve shape_on_onu shape_send_olt : preserve.
#[local] Hint Extern 1 (preserves _ (for_each _ _)) => apply preserves_for_each; preserve : preserve.

Lemma shape_pon p ev : preserves P (Event (pon_fsm p) ev).
Proof.
  apply preserves_Event_callbacks; intros; try apply preserves_skip.
  - cbn [fsm_enter pon_fsm]. unfold pon_enter_enabled, pon_enter_disabled, resume_onu, init_and_discover. preserve.
  - unfold P, olt_shape in *. cbn. rewrite <-H. f_equal. apply list_eq. intros k.
    rewrite !list_lookup_fmap, list_lookup_alter. case_decide; subst; by destruct (Pons s !! k).
Qed.
#[local] Hint Resolve shape_pon : preserve.

Lemma shape_plug_out p : preserves P (plug_out_pon p).
Proof. unfold plug_out_pon, Olt.SetAlarm, each_onu, nil_deref. preserve. Qed.

Lemma shape_plug_in p : preserves P (plug_in_pon p).
Proof. unfold plug_in_pon, Olt.SetAlarm, each_onu, nil_deref. preserve. Qed.
End Shape.

Section Inventory.
  Context `{UuidLib} (Vendor : string).

Lemma shape_serial s s' : olt_shape s = olt_shape s' -> olt_serial s = olt_serial s'.
Proof. unfold olt_shape, olt_serial. by intros [= -> _]. Qed.

Lemma shape_trans s s' t :
  olt_shape s = olt_shape s' ->
  (fun pp => (pp_ID pp, pp_Technology pp)) <$> trans_pons s t = (fun pp => (pp_ID pp, pp_Technology pp)) <$> trans_pons s' t.
Proof.
  intros [= _ Hs]. unfold trans_pons. induction (t_Pons t) as [|p l IH]; [done|]. cbn.
  pose proof (f_equal (fun l => l !! p) Hs) as Hp. cbn in Hp. rewrite !list_lookup_fmap in Hp.
  destruct (Pons s !! p), (Pons s' !! p); try done.
  rewrite !fmap_cons, IH. cbn in Hp. congruence.
Qed.

(** The component of a transceiver, from the numbers and technologies of its
    PONs. *)
Lemma technology_shape old l l' :
  pp_Technology <$> l = pp_Technology <$> l' -> trans_technology old l = trans_technology old l'.
Proof.
  destruct l as [|a [|b l]], l' as [|a' [|b' l']]; try done. cbn. by intros [= ->].
Qed.

Lemma create_shape s s' t n :
  olt_shape s = olt_shape s' -> createTransceiverComponent s t n = createTransceiverComponent s' t n.
Proof.
  intros Hs. pose proof (shape_trans s s' t Hs) as Ht. unfold createTransceiverComponent.
  assert (pp_Technology <$> trans_pons s t = pp_Technology <$> trans_pons s' t) as Htech.
  { apply (f_equal (fmap snd)) in Ht. by rewrite <-!list_fmap_compose in Ht. }
  rewrite (technology_shape _ _ _ Htech).
  assert (port_component s t <$> trans_pons s t = port_component s' t <$> trans_pons s' t) as ->.
  { pose (g := fun x : Z * PonTechnology => port_component s' t
      {| pp_ID := x.1; pp_Technology := x.2; Onus := []; pp_PacketCount := 0; pp_InternalState := "";
         pp_OperState := ""; pp_res := empty_res |}).
    apply (f_equal (fmap g)) in Ht. rewrite <-!list_fmap_compose in Ht.
    etrans; [|etrans; [exact Ht|]]; apply list_fmap_ext; intros i pp _; unfold g, port_component, getPonUUID; cbn;
      by rewrite ?(shape_serial _ _ Hs). }
  destruct (trans_pons s t), (trans_pons s' t); done.
Qed.

Lemma cage_shape s s' t : olt_shape s = olt_shape s' -> cage_component Vendor s t = cage_component Vendor s' t.
Proof.
  intros Hs. unfold cage_component, getOltName, getCageUUID.
  by rewrite (create_shape s s'), (shape_serial s s').
Qed.

Lemma inventory_shape s s' ip ts :
  olt_shape s = olt_shape s' -> inventory Vendor s ip ts = inventory Vendor s' ip ts.
Proof.
  intros Hs. unfold inventory, getOltName, getOltUUID. rewrite (shape_serial s s') by done.
  do 2 f_equal. apply list_omap_ext. induction ts; constructor; [by rewrite (cage_shape s s')|done].
Qed.

(** ** The cages *)

(** A transceiver as it was made for a PON. *)
Definition trans_ok (s : OltDevice) (t : Transceiver) : Prop :=
  t_Uuid t = getTransceiverUUID s (t_ID t) /\ trans_pons s t <> [] /\ t_ID t ∈ (pp_ID <$> Pons s).

Definition set_tech (x : TransceiverType) (t : Transceiver) : Transceiver := {|
  t_ID := t_ID t; t_Uuid := t_Uuid t; t_Name := t_Name t; t_Pons := t_Pons t; t_Technology := x;
  PluggedIn := PluggedIn t |}.
Definition tech_of (s : OltDevice) (t : Transceiver) : TransceiverType :=
  (trans_technology (t_Technology t) (trans_pons s t)).1.1.

Definition trans_comp (s : OltDevice) (t : Transceiver) (cageName : string) : Component :=
  let x := trans_technology (t_Technology t) (trans_pons s t) in
  Comp {| c_Name := t_Name t; c_Class := TYPE_TRANSCEIVER; c_Description := "bbsim-transceiver";
          c_Parent := cageName; c_Uuid := t_Uuid t; c_SerialNum := ""; c_MfgName := ""; c_Uri := "";
          c_Specific := TransceiverAttr x.1.1 10 x.1.2 x.2 |} (port_component s t <$> trans_pons s t).

Definition cage (s : OltDevice) (t : Transceiver) : Component :=
  Comp {| c_Name := getCageName (t_ID t); c_Class := TYPE_CONTAINER; c_Description := "cage";
          c_Parent := getOltName Vendor s; c_Uuid := getCageUUID s (t_ID t); c_SerialNum := ""; c_MfgName := "";
          c_Uri := ""; c_Specific := NoSpecific |}
    (if PluggedIn t then [trans_comp s t (getCageName (t_ID t))] else []).

Lemma create_ok s t n :
  trans_pons s t <> [] -> createTransceiverComponent s t n = inr (trans_comp s t n, set_tech (tech_of s t) t).
Proof.
  intros Ht. unfold createTransceiverComponent, trans_comp, tech_of. rewrite decide_False by done.
  by destruct (trans_technology _ _) as [[tech rx] tx].
Qed.

Lemma technology_again old l : (trans_technology (trans_technology old l).1.1 l) = trans_technology old l.
Proof. destruct l as [|a [|b l]]; [done| |done]. cbn. by repeat case_decide. Qed.

Lemma trans_comp_tech s t n : trans_comp s (set_tech (tech_of s t) t) n = trans_comp s t n.
Proof. unfold trans_comp, tech_of. cbn [t_Technology set_tech]. by rewrite technology_again. Qed.

Lemma cage_of s t :
  trans_pons s t <> [] ->
  cage_component Vendor s t = (Some (cage s t), if PluggedIn t then set_tech (tech_of s t) t else t).
Proof. intros Ht. unfold cage_component, cage. rewrite create_ok by done. by destruct (PluggedIn t). Qed.

Lemma inventory_cages s ip ts :
  Forall (trans_ok s) ts -> Children (inventory Vendor s ip ts) = ((cage s <$> ts) ++ fixed_parts)%list.
Proof.
  intros Hts. unfold inventory. cbn [Children]. f_equal.
  induction Hts as [|t ts (_ & Ht & _) _ IH]; [done|]. cbn. rewrite cage_of by done. cbn. by f_equal.
Qed.

(** The names from which the identifiers of the components below the root are
    made: those of the fixed parts, and a cage, a transceiver and a port for
    each PON. *)
Definition device_names (s : OltDevice) : list string :=
  ((c_Name ∘ info) <$> fixed_parts) ++ ((pp_ID <$> Pons s) ≫= (fun id =>
    [olt_serial s +:+ "-" +:+ getCageName id; olt_serial s +:+ "-" +:+ getTransceiverName id;
     olt_serial s +:+ "-" +:+ getPonName id])).

(** MD5 does not collide on the names of this device. *)
Definition no_collision (s : OltDevice) : Prop :=
  forall x y, x ∈ device_names s -> y ∈ device_names s -> NewMD5 x = NewMD5 y -> x = y.

Lemma names_of_pon s id :
  id ∈ (pp_ID <$> Pons s) ->
  olt_serial s +:+ "-" +:+ getCageName id ∈ device_names s /\
  olt_serial s +:+ "-" +:+ getTransceiverName id ∈ device_names s /\
  olt_serial s +:+ "-" +:+ getPonName id ∈ device_names s.
Proof.
  intros Hid. split_and!; apply elem_of_app; right; apply list_elem_of_bind; exists id; split; try done;
    rewrite !elem_of_cons; auto.
Qed.

Lemma name_of_fixed s c : c ∈ fixed_parts -> c_Name (info c) ∈ device_names s /\ c_Uuid (info c) = NewMD5 (c_Name (info c)).
Proof.
  intros Hc. split.
  - apply elem_of_app. left. apply list_elem_of_fmap. by exists c.
  - unfold fixed_parts in Hc. cbn in Hc. repeat (apply elem_of_cons in Hc as [->|Hc]; [done|]). by apply elem_of_nil in Hc.
Qed.

Lemma names_shape s s' : olt_shape s = olt_shape s' -> device_names s = device_names s'.
Proof.
  intros Hs. unfold device_names. rewrite (shape_serial s s' Hs).
  assert (pp_ID <$> Pons s = pp_ID <$> Pons s') as ->; [|done].
  injection Hs as _ Hs. apply (f_equal (fmap fst)) in Hs. by rewrite <-!list_fmap_compose in Hs.
Qed.

Lemma cage_uuid_inj s a b :
  no_collision s -> a ∈ (pp_ID <$> Pons s) -> b ∈ (pp_ID <$> Pons s) -> getCageUUID s a = getCageUUID s b -> a = b.
Proof.
  intros Hno Ha Hb Hab%Hno; [|by apply names_of_pon..].
  unfold getCageName in Hab. by repeat apply (inj _) in Hab.
Qed.

Lemma fixed_not_cage s id c :
  no_collision s -> id ∈ (pp_ID <$> Pons s) -> c ∈ fixed_parts -> c_Uuid (info c) <> getCageUUID s id.
Proof.
  intros Hno Hid Hc He. destruct (name_of_fixed s c Hc) as [Hn Hu]. rewrite Hu in He.
  apply Hno in He; [|done|by apply names_of_pon].
  unfold fixed_parts in Hc. cbn in Hc. repeat (apply elem_of_cons in Hc as [->|Hc]; [done|]). by apply elem_of_nil in Hc.
Qed.

(** The cage of a transceiver is found at the transceiver's place. *)
Lemma find_cage (P : Component -> Prop) `{!forall c, Decision (P c)} s ip ts n t :
  no_collision s -> Forall (trans_ok s) ts -> NoDup (t_ID <$> ts) -> ts !! n = Some t ->
  (forall c, P c -> c_Uuid (info c) = getCageUUID s (t_ID t)) -> P (cage s t) ->
  list_find P (Children (inventory Vendor s ip ts)) = Some (n, cage s t).
Proof.
  intros Hno Hts Hnd Hn HP Ht. rewrite inventory_cages by done.
  assert (forall k x, ts !! k = Some x -> t_ID x ∈ (pp_ID <$> Pons s)) as Hids
    by (intros k x Hk; rewrite Forall_lookup in Hts; by apply (Hts k x)).
  assert (((cage s <$> ts) ++ fixed_parts)%list !! n = Some (cage s t)) as Hat.
  { rewrite lookup_app_l; [by rewrite list_lookup_fmap, Hn|]. rewrite length_fmap. by eapply lookup_lt_Some. }
  apply list_find_at; [done|done|]. intros m c Hm Hc. apply HP in Hc. apply lookup_app_Some in Hm as [Hm|[_ Hm]].
  - rewrite list_lookup_fmap in Hm. apply fmap_Some in Hm as (t' & Hm & ->). cbn in Hc. apply cage_uuid_inj in Hc; [|by eauto..].
    eapply NoDup_lookup; [exact Hnd|rewrite list_lookup_fmap, Hm; cbn; by rewrite Hc|by rewrite list_lookup_fmap, Hn].
  - apply list_elem_of_lookup_2 in Hm. apply fixed_not_cage in Hc; by eauto.
Qed.
End Inventory.

(** ** The invariant of the server *)

(** The fields the invariant reads, the channels apart. *)
Record Part := { mp_root : option Component; mp_uuid : option string; mp_ip : string;
  mp_trans : list Transceiver; mp_olt : OltDevice }.
Definition part_of (s : DmiSys) : Part := {|
  mp_root := root s; mp_uuid := dms_uuid s; mp_ip := ipAddress s; mp_trans := Transceivers s; mp_olt := d_olt s |}.

(** A predicate on those fields, with channels within their size. *)
Definition within (R : Part -> Prop) (s : DmiSys) : Prop :=
  R (part_of s) /\ Forall (fun q => length q <= kafkaChannelSize)%nat (queues s).

(** The operations that leave those fields alone. *)
Section Within.
  Context `{Rand} (R : Part -> Prop).

Lemma ok_modify f :
  (forall s, part_of (f s) = part_of s) -> (forall s, queues (f s) = queues s) -> preserves (within R) (modify f).
Proof. intros Hf Hq. apply preserves_modify. intros s. unfold within. by rewrite Hf, Hq. Qed.

Lemma ok_make_chan : preserves (within R) make_chan.
Proof.
  intros s a s' [Hs Hq] [= <- <-]. split; [done|]. cbn. apply Forall_app. split; [done|].
  apply Forall_singleton, Nat.le_0_l.
Qed.

Lemma ok_with_cancel : preserves (within R) with_cancel.
Proof. intros s a s' Hs [= <- <-]. done. Qed.

Lemma ok_try_send ch x : preserves (within R) (try_send ch x).
Proof.
  intros s a s' [Hs Hq]. unfold try_send. erewrite bind_Done; [|reflexivity]. cbv beta.
  destruct (ch ≫= (fun c => pair c <$> queues s !! c)) as [[c q]|]; [|by intros [= <- <-]].
  case_decide as Hlen; intros [= <- <-]; [|done]. split; [done|]. cbn.
  apply Forall_insert; [done|]. rewrite length_app. cbn. lia.
Qed.
#[local] Hint Resolve ok_make_chan ok_with_cancel ok_try_send : preserve.
#[local] Hint Extern 1 (preserves _ (modify _)) => apply ok_modify; reflexivity : preserve.
#[local] Hint Extern 1 (preserves _ (for_each _ _)) => apply preserves_for_each; preserve : preserve.
#[local] Hint Extern 1 (preserves _ (panic _)) => apply preserves_panic : preserve.

Lemma ok_cancel c : preserves (within R) (cancel c).
Proof. unfold cancel. preserve. Qed.
Lemma ok_rand l h : preserves (within R) (generateRand l h).
Proof. unfold generateRand. preserve. Qed.
#[local] Hint Resolve ok_cancel ok_rand : preserve.

Lemma ok_metric id l h ty sc c : preserves (within R) (metric id l h ty sc c).
Proof. unfold metric. preserve. Qed.
Lemma ok_put_metric id c : preserves (within R) (put_metric id c).
Proof. unfold put_metric. preserve. Qed.
#[local] Hint Resolve ok_metric ok_put_metric : preserve.

Lemma ok_get_metric c id : preserves (within R) (getMetric c id).
Proof.
  unfold getMetric, generateFanSpeedMetric, generateCPUUsageMetric, generateRAMUsageMetric, generateDiskUsageMetric,
    generateInnerSurroundingTempMetric. preserve.
Qed.
#[local] Hint Resolve ok_get_metric : preserve.

Lemma ok_source k class make : metric_source k = Some (class, make) -> forall c, preserves (within R) (make c).
Proof.
  unfold metric_source, generateFanSpeedMetric, generateCPUUsageMetric, generateRAMUsageMetric,
    generateDiskUsageMetric, generateInnerSurroundingTempMetric.
  intros Hk c. repeat case_decide; simplify_eq; preserve.
Qed.

Lemma ok_generate_metric now k v : preserves (within R) (generate_metric now k v).
Proof.
  unfold generate_metric. apply preserves_bind; [preserve|]. intros s. destruct (root s) as [r|]; [|preserve].
  case_decide; [preserve|]. destruct (metric_source k) as [[class make]|] eqn:E; [|preserve].
  pose proof (ok_source k class make E). unfold updateConfiguredMetrics, sendOutMetric. preserve.
Qed.
#[local] Hint Resolve ok_generate_metric : preserve.

Lemma ok_generate ctx now order : preserves (within R) (generateMetrics ctx now order).
Proof.
  assert (preserves (within R) (generate_round now order)).
  { induction order as [|[k v] order IH]; cbn [generate_round]; preserve. }
  unfold generateMetrics. preserve.
Qed.

Lemma ok_start_generator : preserves (within R) StartMetricGenerator.
Proof. unfold StartMetricGenerator, StartGeneratingMetrics. preserve. Qed.
Lemma ok_start_events : preserves (within R) StartEventsGenerator.
Proof. unfold StartEventsGenerator. preserve. Qed.
Lemma ok_stop_generator : preserves (within R) StopMetricGenerator.
Proof. unfold StopMetricGenerator, StopGeneratingMetrics. preserve. Qed.
Lemma ok_update_event c : preserves (within R) (UpdateEventConfig c).
Proof. unfold UpdateEventConfig. preserve. Qed.
#[local] Hint Resolve ok_start_generator ok_start_events ok_stop_generator ok_update_event : preserve.

Lemma ok_event_gen id class gen l :
  eventGenMap id = Some (class, gen) -> preserves (within R) (gen l id class).
Proof.
  unfold eventGenMap. intros Hg. repeat case_decide; simplify_eq;
    unfold noThresholdEventGenerationFunc, thresholdEventGenerationFunc, sendOutEventOnKafka; preserve.
Qed.

Lemma ok_create_event value names name : preserves (within R) (CreateEvent value names name).
Proof.
  unfold CreateEvent. apply preserves_bind; [preserve|]. intros s.
  destruct (if eg_apiSrv (eg s) then root s else None) as [[i [|c l]]|]; [preserve| |preserve].
  destruct (value name) as [id|]; [|preserve].
  destruct (eventGenMap id) as [[class gen]|] eqn:E; [|preserve].
  pose proof (ok_event_gen id class gen (c :: l) E). preserve.
Qed.

Lemma ok_publish n data : preserves (within R) (DMKafkaPublisher n data).
Proof.
  intros s a s' Hs. unfold DMKafkaPublisher. erewrite bind_Done; [|reflexivity]. cbv beta.
  destruct (publishers s !! n) as [p|]; [|by intros [= <- <-]].
  destruct data; [|by destruct (is_cancelled _ _); intros [= <- <-]].
  destruct (p_ch p ≫= (fun c => pair c <$> queues s !! c)) as [[c [|x q]]|] eqn:E; try by intros [= <- <-].
  destruct (producer s); [|done]. intros [= <- <-]. destruct Hs as [Hs Hq]. split; [done|]. cbn.
  apply Forall_insert; [done|]. destruct (p_ch p) as [c'|]; [|done]. cbn in E.
  apply fmap_Some in E as (q' & Hq' & [= -> <-]). rewrite Forall_lookup in Hq. apply Hq in Hq'. cbn in Hq'. lia.
Qed.

Lemma ok_log r : preserves (within R) (SetLoggingEndpoint r).
Proof. unfold SetLoggingEndpoint, device_uuid, nil_pointer. preserve. Qed.

Lemma ok_bus r e : preserves (within R) (SetMsgBusEndpoint r e).
Proof. unfold SetMsgBusEndpoint, InitializeDMKafkaPublishers. preserve. Qed.

Lemma ok_metrics r : preserves (within R) (UpdateMetricsConfiguration r).
Proof. unfold UpdateMetricsConfiguration, UpdateMetricConfig. preserve. Qed.

Lemma ok_metric_request r : preserves (within R) (GetMetric r).
Proof. unfold GetMetric, nil_pointer. preserve. Qed.

Lemma ok_events r : preserves (within R) (UpdateEventsConfiguration r).
Proof. unfold UpdateEventsConfiguration. preserve. Qed.
End Within.

Section Invariant.
  Context `{UuidLib} `{Rand} (Vendor : string).

(** The inventory, when the device is managed, is the one built from the
    transceivers. *)
Record trans_part (m : Part) : Prop := {
  ok_ids : NoDup (t_ID <$> mp_trans m);
  ok_names : no_collision (mp_olt m);
  ok_trans : Forall (trans_ok (mp_olt m)) (mp_trans m) }.
Definition root_part (m : Part) : Prop :=
  match mp_root m with
  | None => mp_uuid m = None
  | Some r => r = inventory Vendor (mp_olt m) (mp_ip m) (mp_trans m) /\ mp_uuid m = Some (getOltUUID (mp_olt m))
  end.
Definition ok_part (m : Part) : Prop := trans_part m /\ root_part m.
Definition dmi_ok : DmiSys -> Prop := within ok_part.

(** *** Plugging changes the cage of one transceiver *)

Lemma inventory_eq s ip ts :
  Forall (trans_ok s) ts ->
  inventory Vendor s ip ts = Comp (info (inventory Vendor s ip [])) ((cage Vendor s <$> ts) ++ fixed_parts)%list.
Proof. intros Hts. rewrite <-(inventory_cages Vendor s ip ts Hts). reflexivity. Qed.

Lemma alter_cage_inventory s ip ts n t t' f :
  Forall (trans_ok s) ts -> ts !! n = Some t -> t_ID t' = t_ID t -> trans_ok s t' ->
  f (Children (cage Vendor s t)) = Children (cage Vendor s t') ->
  alter_cage n f (inventory Vendor s ip ts) = inventory Vendor s ip (<[n := t']> ts).
Proof.
  intros Hts Hn Hid Ht' Hf. rewrite (inventory_eq s ip ts), (inventory_eq s ip (<[n := t']> ts)); [|by apply Forall_insert|done].
  unfold alter_cage. f_equal.
  rewrite alter_app_l by (rewrite length_fmap; by eapply lookup_lt_Some). f_equal.
  rewrite list_fmap_insert. erewrite alter_insert; [|by rewrite list_lookup_fmap, Hn]. f_equal.
  rewrite Hf. unfold cage. cbn [info Children]. by rewrite Hid.
Qed.

Lemma trans_part_insert m n t t' :
  trans_part m -> mp_trans m !! n = Some t -> t_ID t' = t_ID t -> trans_ok (mp_olt m) t' ->
  NoDup (t_ID <$> <[n := t']> (mp_trans m)) /\ Forall (trans_ok (mp_olt m)) (<[n := t']> (mp_trans m)).
Proof.
  intros [Hnd _ Hts] Hn Hid Ht'. split; [|by apply Forall_insert]. rewrite list_fmap_insert, Hid.
  rewrite list_insert_id; [done|]. by rewrite list_lookup_fmap, Hn.
Qed.

Lemma find_transceiver id s n t :
  getTransceiverWithId id s = inr (n, t) -> Transceivers s !! n = Some t /\ t_ID t = id.
Proof.
  unfold getTransceiverWithId. destruct (list_find _ _) as [[k x]|] eqn:E; [|done]. intros [= -> ->].
  by apply list_find_Some in E as (Hn & Hid & _).
Qed.

(** Taking a transceiver out of a managed device. *)
Lemma plugout_spec id s n t r :
  dmi_ok s -> root s = Some r -> getTransceiverWithId id s = inr (n, t) -> PluggedIn t = true ->
  PlugoutTransceiverComponent id s = Done (None,
    s <| root := Some (inventory Vendor (d_olt s) (ipAddress s) (<[n := set_plugged false t]> (Transceivers s))) |>
      <| Transceivers := <[n := set_plugged false t]> (Transceivers s) |>).
Proof.
  intros [[[Hnd Hno Hts] Hroot] _] Hr Ht Hin. pose proof (find_transceiver _ _ _ _ Ht) as [Hn Hid].
  unfold root_part in Hroot. cbn in Hnd, Hno, Hts, Hroot. rewrite Hr in Hroot. destruct Hroot as [-> _].
  pose proof Hts as Hok. rewrite Forall_lookup in Hok. specialize (Hok n t Hn) as (Hu & Hp & Hi).
  unfold PlugoutTransceiverComponent. erewrite bind_Done; [|reflexivity]. cbv beta. rewrite Hr, Ht, Hin.
  unfold find_plugged. erewrite (find_cage Vendor _ (d_olt s) (ipAddress s) (Transceivers s) n t);
    [|done|done|done|done|by intros c [-> _]; rewrite Hid|].
  2: { split; [cbn; by rewrite Hid|]. unfold cage. rewrite Hin. cbn. rewrite Hu, Hid. set_solver. }
  unfold cage at 1. rewrite Hin. cbn [Children list_find]. rewrite decide_True by (cbn; by rewrite Hu, Hid).
  cbn [fmap option_fmap option_map fst]. unfold mbind, M_bind, modify, mret, M_ret. do 2 f_equal.
  erewrite (alter_cage_inventory _ _ _ _ _ (set_plugged false t)); [|done..|].
  - unfold upd, set_Transceivers, set_root. cbn [Transceivers]. by rewrite (alter_insert (set_plugged false) n (Transceivers s) t).
  - unfold cage. by rewrite Hin.
Qed.

(** Putting it back: the technology is computed again. *)
Definition plugged_in (o : OltDevice) (t : Transceiver) : Transceiver := set_plugged true (set_tech (tech_of o t) t).

Lemma plugin_spec id s n t r :
  dmi_ok s -> root s = Some r -> getTransceiverWithId id s = inr (n, t) -> PluggedIn t = false ->
  PluginTransceiverComponent id s = Done (None,
    s <| root := Some (inventory Vendor (d_olt s) (ipAddress s) (<[n := plugged_in (d_olt s) t]> (Transceivers s))) |>
      <| Transceivers := <[n := plugged_in (d_olt s) t]> (Transceivers s) |>).
Proof.
  intros [[[Hnd Hno Hts] Hroot] _] Hr Ht Hout. pose proof (find_transceiver _ _ _ _ Ht) as [Hn Hid].
  unfold root_part in Hroot. cbn in Hnd, Hno, Hts, Hroot. rewrite Hr in Hroot. destruct Hroot as [-> _].
  pose proof Hts as Hok. rewrite Forall_lookup in Hok. specialize (Hok n t Hn) as (Hu & Hp & Hi).
  unfold PluginTransceiverComponent. erewrite bind_Done; [|reflexivity]. cbv beta. rewrite Hr, Ht, Hout.
  erewrite (find_cage Vendor _ (d_olt s) (ipAddress s) (Transceivers s) n t);
    [|done|done|done|done|by intros c ->; rewrite Hid|cbn; by rewrite Hid].
  rewrite create_ok by done. unfold mbind, M_bind, modify, mret, M_ret. do 2 f_equal.
  erewrite (alter_cage_inventory _ _ _ _ _ (plugged_in (d_olt s) t)); [|done..|].
  - unfold upd, set_Transceivers, set_root. cbn [Transceivers].
    unfold plugged_in. by erewrite (alter_insert _ n (Transceivers s) t).
  - unfold cage. rewrite Hout. cbn. by rewrite <-(trans_comp_tech (d_olt s) t).
Qed.

Lemma ok_insert s n t t' :
  dmi_ok s -> Transceivers s !! n = Some t -> t_ID t' = t_ID t -> trans_ok (d_olt s) t' -> is_Some (root s) ->
  dmi_ok (s <| root := Some (inventory Vendor (d_olt s) (ipAddress s) (<[n := t']> (Transceivers s))) |>
            <| Transceivers := <[n := t']> (Transceivers s) |>).
Proof.
  intros [[Ht Hroot] Hq] Hn Hid Ht' [r Hr]. pose proof (trans_part_insert (part_of s) n t t' Ht Hn Hid Ht') as [H1 H2].
  unfold root_part in Hroot. cbn in Hroot. rewrite Hr in Hroot. destruct Hroot as [_ Hu].
  split; [|done]. split; [|done]. split; [done|by destruct Ht|done].
Qed.

Lemma ok_plugout id : preserves dmi_ok (PlugoutTransceiverComponent id).
Proof.
  intros s a s' Hs Hrun. destruct (root s) as [r|] eqn:Hr.
  2: { unfold PlugoutTransceiverComponent in Hrun. mred in Hrun. rewrite Hr in Hrun. by simplify_eq. }
  destruct (getTransceiverWithId id s) as [e|[n t]] eqn:Ht.
  { unfold PlugoutTransceiverComponent in Hrun. mred in Hrun. rewrite Hr, Ht in Hrun. by simplify_eq. }
  destruct (PluggedIn t) eqn:Hin.
  2: { unfold PlugoutTransceiverComponent in Hrun. mred in Hrun. rewrite Hr, Ht, Hin in Hrun. by simplify_eq. }
  rewrite (plugout_spec id s n t r) in Hrun by done. injection Hrun as <- <-.
  destruct (find_transceiver _ _ _ _ Ht) as [Hn _]. eapply ok_insert; [done|done|done| |by rewrite Hr].
  destruct Hs as [[[_ _ Hts] _] _]. rewrite Forall_lookup in Hts. exact (Hts n t Hn).
Qed.

Lemma ok_plugin id : preserves dmi_ok (PluginTransceiverComponent id).
Proof.
  intros s a s' Hs Hrun. destruct (root s) as [r|] eqn:Hr.
  2: { unfold PluginTransceiverComponent in Hrun. mred in Hrun. rewrite Hr in Hrun. by simplify_eq. }
  destruct (getTransceiverWithId id s) as [e|[n t]] eqn:Ht.
  { unfold PluginTransceiverComponent in Hrun. mred in Hrun. rewrite Hr, Ht in Hrun. by simplify_eq. }
  destruct (PluggedIn t) eqn:Hin.
  { unfold PluginTransceiverComponent in Hrun. mred in Hrun. rewrite Hr, Ht, Hin in Hrun. by simplify_eq. }
  rewrite (plugin_spec id s n t r) in Hrun by done. injection Hrun as <- <-.
  destruct (find_transceiver _ _ _ _ Ht) as [Hn _]. eapply ok_insert; [done|done|done| |by rewrite Hr].
  destruct Hs as [[[_ _ Hts] _] _]. rewrite Forall_lookup in Hts. exact (Hts n t Hn).
Qed.

(** The OLT may change as long as what the inventory reads of it stays. *)
Lemma ok_shape s o : dmi_ok s -> olt_shape o = olt_shape (d_olt s) -> dmi_ok (s <| d_olt := o |>).
Proof.
  intros [[[Hnd Hno Hts] Hroot] Hq] Ho. split; [|done]. cbn in Hnd, Hno, Hts.
  assert (pp_ID <$> Pons o = pp_ID <$> Pons (d_olt s)) as Hpons.
  { injection Ho as _ Ho'. apply (f_equal (fmap fst)) in Ho'. by rewrite <-!list_fmap_compose in Ho'. }
  split; [split; [done|unfold no_collision; cbn; by rewrite (names_shape _ _ Ho)|]|].
  - cbn. eapply Forall_impl; [exact Hts|]. intros t (Hu & Hp & Hi). split_and!; [| |by rewrite Hpons].
    + rewrite Hu. unfold getTransceiverUUID. by rewrite (shape_serial _ _ Ho).
    + intros He. apply Hp. pose proof (shape_trans o (d_olt s) t Ho) as Hl. rewrite He in Hl.
      by destruct (trans_pons (d_olt s) t).
  - unfold root_part in *. cbn in *. destruct (root s); [|done]. destruct Hroot as [-> ->]. split.
    + symmetry. by apply inventory_shape.
    + unfold getOltUUID. by rewrite (shape_serial _ _ Ho).
Qed.

Lemma ok_on_olt {A : Type} (m : M OltDevice A) :
  (forall x, preserves (fun o => olt_shape o = x) m) -> preserves dmi_ok (on_olt m).
Proof.
  intros Hm s a s' Hs. unfold on_olt, zoom. destruct (m (d_olt s)) as [[b o]| | |] eqn:E; [|done..].
  intros [= <- <-]. apply ok_shape; [done|]. by eapply (Hm (olt_shape (d_olt s))); [|exact E].
Qed.

Lemma ok_plug wanted again change failed on_pon event done_ id :
  (forall id, preserves dmi_ok (change id)) -> (forall x p, preserves (fun o => olt_shape o = x) (on_pon p)) ->
  preserves dmi_ok (plug wanted again change failed on_pon event done_ id).
Proof.
  intros Hc Hp. unfold plug. apply preserves_bind; [preserve|]. intros s.
  destruct (getDmiAPIServer s); [preserve|]. destruct (getTransceiverWithId id s) as [e|[n t]]; [preserve|].
  case_decide; [preserve|]. apply preserves_bind; [apply Hc|]. intros [e|]; [preserve|].
  apply preserves_bind; [preserve|]. intros s1. apply preserves_bind.
  - case_decide; [|preserve]. apply preserves_for_each. intros p. apply ok_on_olt. intros x. apply Hp.
  - intros _. apply preserves_bind; [preserve|]. intros s2. apply preserves_bind; [|preserve].
    unfold sendOutEventOnKafka. apply preserves_bind; [preserve|]. intros s3. apply ok_try_send.
Qed.

(** *** Managing the device *)

Definition known_tech (o : OltDevice) (t : Transceiver) : Transceiver := (cage_component Vendor o t).2.

Lemma known_tech_ok o t : trans_ok o t -> t_ID (known_tech o t) = t_ID t /\ trans_ok o (known_tech o t).
Proof.
  intros (Hu & Hp & Hi). unfold known_tech. rewrite cage_of by done. by destruct (PluggedIn t).
Qed.

Lemma known_tech_cage o t : trans_ok o t -> cage Vendor o (known_tech o t) = cage Vendor o t.
Proof.
  intros (Hu & Hp & _). unfold known_tech. rewrite cage_of by done. cbn [snd].
  destruct (PluggedIn t) eqn:Hin; [|done]. unfold cage. cbn [PluggedIn set_tech t_ID]. rewrite Hin.
  by rewrite trans_comp_tech.
Qed.

Lemma known_techs o ip ts :
  Forall (trans_ok o) ts ->
  t_ID <$> (known_tech o <$> ts) = t_ID <$> ts /\ Forall (trans_ok o) (known_tech o <$> ts) /\
  inventory Vendor o ip (known_tech o <$> ts) = inventory Vendor o ip ts.
Proof.
  intros Hts. assert (Forall (trans_ok o) (known_tech o <$> ts)) as Hts'.
  { apply Forall_fmap. eapply Forall_impl; [exact Hts|]. intros t Ht. by apply known_tech_ok. }
  split; [|split; [done|]].
  - rewrite <-list_fmap_compose. apply list_fmap_ext. intros k t Hk. rewrite Forall_lookup in Hts.
    by apply known_tech_ok, (Hts k).
  - rewrite (inventory_eq o ip ts), (inventory_eq o ip (known_tech o <$> ts)) by done. do 2 f_equal.
    rewrite <-list_fmap_compose. apply list_fmap_ext. intros k t Hk. rewrite Forall_lookup in Hts.
    by apply known_tech_cage, (Hts k).
Qed.

(** While it starts, only the identifier is set. *)
Definition starting (m : Part) : Prop := trans_part m /\ mp_uuid m = Some (getOltUUID (mp_olt m)).

Lemma ok_start req e : preserves dmi_ok (StartManagingDevice Vendor req e).
Proof.
  intros s a s' Hs Hrun. unfold StartManagingDevice in Hrun.
  destruct req as [r|]; [|mred in Hrun; by simplify_eq]. case_decide; [mred in Hrun; by simplify_eq|].
  destruct Hs as [[Ht Hroot] Hq].
  apply bind_Done_inv in Hrun as (s0 & s1 & [= <- <-] & Hrun).
  apply bind_Done_inv in Hrun as ([] & s1 & [= <-] & Hrun). set (s2 := s <| ipAddress := _ |> <| dms_uuid := _ |>) in Hrun.
  assert (within starting s2) as Hs2 by (destruct Ht; by repeat split). clearbody s2.
  apply bind_Done_inv in Hrun as (mc & s3 & Hm & Hrun). apply (ok_make_chan starting) in Hm; [|done].
  apply bind_Done_inv in Hrun as ([] & s4 & [= <-] & Hrun).
  apply bind_Done_inv in Hrun as ([] & s5 & Hg & Hrun). apply (ok_start_generator starting) in Hg; [|done].
  apply bind_Done_inv in Hrun as (ec & s6 & He & Hrun). apply (ok_make_chan starting) in He; [|done].
  apply bind_Done_inv in Hrun as ([] & s7 & [= <-] & Hrun).
  apply bind_Done_inv in Hrun as ([] & s8 & Hv & Hrun). apply (ok_start_events starting) in Hv; [|done].
  apply bind_Done_inv in Hrun as ([] & s9 & [= <-] & Hrun). injection Hrun as _ <-.
  destruct Hv as [[[Hnd Hno Hts] Hu] Hq8]. cbn in Hnd, Hno, Hts, Hu.
  destruct (known_techs (d_olt s8) (ipAddress s8) (Transceivers s8) Hts) as (Hi & Ho & Hinv).
  split; [|exact Hq8]. split; [split|].
  - cbn. unfold known_tech in Hi. by rewrite Hi.
  - exact Hno.
  - exact Ho.
  - split; [|exact Hu]. symmetry. exact Hinv.
Qed.

Lemma ok_stop req : preserves dmi_ok (StopManagingDevice req).
Proof.
  intros s a s' Hs Hrun. unfold StopManagingDevice in Hrun.
  destruct req as [name|]; [|mred in Hrun; by simplify_eq]. case_decide; [mred in Hrun; by simplify_eq|].
  apply bind_Done_inv in Hrun as ([] & s1 & Hg & Hrun). apply (ok_stop_generator ok_part) in Hg; [|exact Hs].
  apply bind_Done_inv in Hrun as (s2 & s3 & [= <- <-] & Hrun).
  apply bind_Done_inv in Hrun as ([] & s3 & Hc & Hrun). apply (ok_cancel ok_part) in Hc; [|exact Hg].
  apply bind_Done_inv in Hrun as ([] & s4 & [= <-] & Hrun). injection Hrun as _ <-.
  destruct Hc as [[[Hnd Hno Hts] _] Hq]. by repeat split.
Qed.

(** *** Every run of the server *)

(** A step: a call that returns, a turn of a goroutine, or a change of the OLT
    by its own handlers, which keep the numbers and technologies of its PONs. *)
Inductive dmi_step : DmiSys -> DmiSys -> Prop :=
| step_start req e a s s' : StartManagingDevice Vendor req e s = Done (a, s') -> dmi_step s s'
| step_stop req a s s' : StopManagingDevice req s = Done (a, s') -> dmi_step s s'
| step_log req a s s' : SetLoggingEndpoint req s = Done (a, s') -> dmi_step s s'
| step_bus req e a s s' : SetMsgBusEndpoint req e s = Done (a, s') -> dmi_step s s'
| step_metrics req a s s' : UpdateMetricsConfiguration req s = Done (a, s') -> dmi_step s s'
| step_metric req a s s' : GetMetric req s = Done (a, s') -> dmi_step s s'
| step_events req a s s' : UpdateEventsConfiguration req s = Done (a, s') -> dmi_step s s'
| step_event value names name a s s' : CreateEvent value names name s = Done (a, s') -> dmi_step s s'
| step_out id a s s' : PlugOutTransceiver id s = Done (a, s') -> dmi_step s s'
| step_in id a s s' : PlugInTransceiver id s = Done (a, s') -> dmi_step s s'
| step_generate ctx now order s s' : generateMetrics ctx now order s = Done (tt, s') -> dmi_step s s'
| step_publish n data s s' : DMKafkaPublisher n data s = Done (tt, s') -> dmi_step s s'
| step_olt o s : olt_shape o = olt_shape (d_olt s) -> dmi_step s (s <| d_olt := o |>).

Lemma dmi_step_ok s s' : dmi_step s s' -> dmi_ok s -> dmi_ok s'.
Proof.
  intros Hstep Hs. destruct Hstep as [| | | | | | | | | | | |o s Ho]; [..|by apply ok_shape].
  - by eapply ok_start.
  - by eapply ok_stop.
  - by eapply (ok_log ok_part).
  - by eapply (ok_bus ok_part).
  - by eapply (ok_metrics ok_part).
  - by eapply (ok_metric_request ok_part).
  - by eapply (ok_events ok_part).
  - by eapply (ok_create_event ok_part).
  - eapply ok_plug; [apply ok_plugout|apply shape_plug_out|exact Hs|done].
  - eapply ok_plug; [apply ok_plugin|apply shape_plug_in|exact Hs|done].
  - by eapply (ok_generate ok_part).
  - by eapply (ok_publish ok_part).
Qed.

(** *** What is in the inventory *)

Lemma pretty_not_t (a : Z) x : pretty a <> String (Ascii.ascii_of_N 116) x.
Proof.
  intros He. destruct (decide (0 <= a)) as [Ha|Ha].
  - pose proof (pretty_digits a Ha) as Hd. by rewrite He in Hd.
  - destruct a; [lia|lia|]. by vm_compute in He.
Qed.

Lemma trans_uuid_inj o a b :
  no_collision o -> a ∈ (pp_ID <$> Pons o) -> b ∈ (pp_ID <$> Pons o) ->
  getTransceiverUUID o a = getTransceiverUUID o b -> a = b.
Proof.
  intros Hno Ha Hb Hab%Hno; [|by apply names_of_pon..].
  unfold getTransceiverName in Hab. by repeat apply (inj _) in Hab.
Qed.

Lemma trans_not_cage o a b :
  no_collision o -> a ∈ (pp_ID <$> Pons o) -> b ∈ (pp_ID <$> Pons o) -> getTransceiverUUID o a <> getCageUUID o b.
Proof.
  intros Hno Ha Hb He%Hno; [|by apply names_of_pon..].
  unfold getTransceiverName, getCageName in He.
  apply (inj (String.append _)), (inj (String.append "-")) in He.
  change ("sfp-plus-transceiver-cage-" +:+ pretty b) with ("sfp-plus-" +:+ ("transceiver-cage-" +:+ pretty b)) in He.
  apply (inj (String.append _)) in He. by apply pretty_not_t in He.
Qed.

Lemma trans_not_pon o a b :
  no_collision o -> a ∈ (pp_ID <$> Pons o) -> b ∈ (pp_ID <$> Pons o) -> getTransceiverUUID o a <> getPonUUID o b.
Proof.
  intros Hno Ha Hb He%Hno; [|by apply names_of_pon..].
  unfold getTransceiverName, getPonName in He. by apply (inj (String.append _)), (inj (String.append "-")) in He.
Qed.

Lemma trans_not_fixed o a c :
  no_collision o -> a ∈ (pp_ID <$> Pons o) -> c ∈ fixed_parts -> c_Uuid (info c) <> getTransceiverUUID o a.
Proof.
  intros Hno Ha Hc He. destruct (name_of_fixed o c Hc) as [Hn Hu]. rewrite Hu in He.
  apply Hno in He; [|done|by apply names_of_pon].
  unfold fixed_parts in Hc. cbn in Hc. repeat (apply elem_of_cons in Hc as [->|Hc]; [done|]). by apply elem_of_nil in Hc.
Qed.

Lemma findComponent_is_Some l u :
  is_Some (findComponent l u) <-> exists c, c ∈ (l ≫= preorder) /\ c_Uuid (info c) = u.
Proof.
  rewrite findComponent_preorder. split.
  - intros [c Hc]. exists c. destruct (filter _ _) as [|d k] eqn:E; [done|]. injection Hc as ->.
    assert (c ∈ filter (fun d => c_Uuid (info d) = u) (l ≫= preorder)) as Hin by (rewrite E; by left).
    by apply list_elem_of_filter in Hin as [? ?].
  - intros (c & Hin & Hu). assert (c ∈ filter (fun d => c_Uuid (info d) = u) (l ≫= preorder)) as Hf.
    { by apply list_elem_of_filter. }
    destruct (filter _ _) as [|d k]; [by apply elem_of_nil in Hf|by eexists].
Qed.

Lemma cage_preorder o t :
  preorder (cage Vendor o t) = cage Vendor o t ::
    (if PluggedIn t then trans_comp o t (getCageName (t_ID t)) :: (port_component o t <$> trans_pons o t) else []).
Proof.
  unfold cage. rewrite preorder_eq. f_equal. destruct (PluggedIn t); [|done]. unfold trans_comp. cbn [mbind list_bind].
  rewrite preorder_eq, app_nil_r. f_equal. induction (trans_pons o t) as [|pp l IH]; [done|]. cbn. by f_equal.
Qed.

(** A transceiver is in the inventory exactly when it is plugged in. *)
Lemma plugged_found s r t :
  dmi_ok s -> root s = Some r -> t ∈ Transceivers s ->
  is_Some (findComponent (Children r) (t_Uuid t)) <-> PluggedIn t = true.
Proof.
  intros [[[Hnd Hno Hts] Hroot] _] Hr Ht. unfold root_part in Hroot. cbn in Hnd, Hno, Hts, Hroot. rewrite Hr in Hroot.
  destruct Hroot as [-> _]. rewrite findComponent_is_Some, inventory_cages, bind_app by done.
  assert (forall x, x ∈ Transceivers s -> t_Uuid x = getTransceiverUUID (d_olt s) (t_ID x)) as Hu.
  { intros x Hx. rewrite Forall_forall in Hts. by apply Hts. }
  assert (forall x, x ∈ Transceivers s -> t_ID x ∈ (pp_ID <$> Pons (d_olt s))) as Hids.
  { intros x Hx. rewrite Forall_forall in Hts. by apply Hts. }
  rewrite (Hu t Ht). split.
  - intros (c & [Hc|Hc]%elem_of_app & He).
    + apply list_elem_of_bind in Hc as (d & Hc & (x & -> & Hx)%list_elem_of_fmap). rewrite cage_preorder in Hc.
      apply elem_of_cons in Hc as [->|Hc]; [by destruct (trans_not_cage (d_olt s) (t_ID t) (t_ID x)); auto|].
      destruct (PluggedIn x) eqn:Hin; [|by apply elem_of_nil in Hc].
      apply elem_of_cons in Hc as [->|(pp & -> & Hpp)%list_elem_of_fmap].
      * cbn in He. rewrite (Hu x Hx) in He. apply trans_uuid_inj in He; [|by auto..].
        apply list_elem_of_lookup in Ht as [i Hi]. apply list_elem_of_lookup in Hx as [j Hj].
        assert (i = j) as ->; [|congruence].
        eapply NoDup_lookup; [exact Hnd|by rewrite list_lookup_fmap, Hi|rewrite list_lookup_fmap, Hj; cbn; by rewrite He].
      * destruct (trans_not_pon (d_olt s) (t_ID t) (pp_ID pp)); [done|by auto| |done].
        apply list_elem_of_omap in Hpp as (k & _ & Hk). apply list_elem_of_fmap. exists pp.
        split; [done|]. by eapply list_elem_of_lookup_2.
    + apply list_elem_of_bind in Hc as (d & Hc & Hd). pose proof (trans_not_fixed (d_olt s) (t_ID t) d Hno (Hids t Ht) Hd) as Hnot.
      destruct Hnot. assert (preorder d = [d]) as Hpre.
      { unfold fixed_parts in Hd. cbn in Hd. repeat (apply elem_of_cons in Hd as [->|Hd]; [done|]). by apply elem_of_nil in Hd. }
      rewrite Hpre in Hc. apply list_elem_of_singleton in Hc as ->. done.
  - intros Hin. exists (trans_comp (d_olt s) t (getCageName (t_ID t))). split; [|by apply Hu].
    apply elem_of_app. left. apply list_elem_of_bind. exists (cage Vendor (d_olt s) t).
    split; [rewrite cage_preorder, Hin; set_solver|]. apply list_elem_of_fmap. by exists t.
Qed.

(** A server that just started. *)
Lemma fresh_ok e s a s' :
  NoDup (pp_ID <$> Pons (d_olt s)) -> no_collision (d_olt s) -> queues s = [] ->
  StartDmiAPIServer e s = Done (a, s') -> dmi_ok s'.
Proof.
  intros Hnd Hno Hq [= _ <-]. split; [|cbn; by rewrite Hq]. split; [|done]. split; cbn; [|exact Hno|].
  - rewrite fmap_imap. change (NoDup (imap (const pp_ID) (Pons (d_olt s)))). by rewrite imap_const.
  - apply Forall_lookup. intros i t Hi. rewrite list_lookup_imap in Hi. apply fmap_Some in Hi as (pp & Hpp & ->).
    split; [done|]. unfold trans_pons. cbn. rewrite Hpp. split; [done|]. apply list_elem_of_fmap. exists pp.
    split; [done|]. by eapply list_elem_of_lookup_2.
Qed.
End Invariant.

(** ** Properties *)

(** C20: the inventory is maintained.  In every state the server reaches from its
    start, through any sequence of calls, turns of its goroutines and changes of
    the OLT, the inventory of a managed device, which plugging changes in place,
    is the one that would be built from the transceivers; a transceiver is found
    in it by its identifier exactly when it is plugged in; the identifier of the
    device is set exactly while it is managed; no channel exceeds its size.
    The numbers of the PONs must be distinct, and MD5 must not collide on the
    names of this device (of its fixed parts, cages, transceivers and ports). *)
Theorem inventory_maintained `{UuidLib} `{Rand} (Vendor : string) (e a : option error) (s s0 s' : DmiSys) :
  no_collision (d_olt s) -> NoDup (pp_ID <$> Pons (d_olt s)) -> queues s = [] ->
  StartDmiAPIServer e s = Done (a, s0) -> rtc (dmi_step Vendor) s0 s' ->
  (forall r, root s' = Some r ->
     r = inventory Vendor (d_olt s') (ipAddress s') (Transceivers s') /\
     forall t, t ∈ Transceivers s' -> is_Some (findComponent (Children r) (t_Uuid t)) <-> PluggedIn t = true) /\
  (is_Some (dms_uuid s') <-> is_Some (root s')) /\
  Forall (fun q => length q <= 100)%nat (queues s').
Proof.
  intros Hno Hnd Hq Hstart Hrun. assert (dmi_ok Vendor s') as Hok.
  { apply (fresh_ok Vendor) in Hstart; [|done..]. induction Hrun as [|x y z Hxy _ IH]; [done|].
    apply IH. by eapply dmi_step_ok. }
  split; [|split; [|by destruct Hok]].
  - intros r Hr. split; [|intros t Ht; by apply (plugged_found Vendor s' r t)].
    destruct Hok as [[_ Hroot] _]. unfold root_part in Hroot. cbn in Hroot. rewrite Hr in Hroot. by destruct Hroot.
  - destruct Hok as [[_ Hroot] _]. unfold root_part in Hroot. cbn in Hroot.
    destruct (root s'); [destruct Hroot as [_ ->]|rewrite Hroot]; split; intros []; by eauto.
Qed.

#[local] Existing Instance plain_uuid.
#[local] Instance zero_rand : Rand.
Proof. refine {| Int31n := fun _ _ => 0 |}. intros k n Hn. lia. Defined.

Definition blank_dmi : DmiSys := {|
  ipAddress := ""; dms_uuid := None; root := None; Transceivers := []; metricChannel := None; eventChannel := None;
  kafkaEndpoint := ""; loggingEndpoint := ""; loggingProtocol := ""; mPublisherCancelFunc := None;
  mg := {| mg_apiSrv := false; configuredMetrics := None; mgCancelFunc := None |};
  eg := {| eg_apiSrv := false; configuredEvents := None |};
  queues := []; contexts := []; generators := []; publishers := []; producer := false; kafka := []; draws := 0;
  d_olt := small_olt |}.
Definition final {A : Type} (m : M DmiSys A) (s : DmiSys) : DmiSys :=
  match m s with Done (_, t) => t | _ => s end.
Definition started_dmi : DmiSys := final (StartDmiAPIServer None) blank_dmi.
Definition managed_dmi : DmiSys :=
  final (StartManagingDevice "BBSim" (Some {| sm_Name := "olt"; sm_Uri := Some "127.0.0.1" |}) None) started_dmi.

Lemma inventory_maintained_witness : is_Some (dms_uuid managed_dmi) <-> is_Some (root managed_dmi).
Proof.
  apply (inventory_maintained "BBSim" None None blank_dmi started_dmi managed_dmi).
  - intros x y _ _ Hxy. exact Hxy.
  - apply NoDup_singleton.
  - done.
  - reflexivity.
  - apply rtc_once. apply (step_start "BBSim" (Some {| sm_Name := "olt"; sm_Uri := Some "127.0.0.1" |}) None
      (Some (OK_STATUS, "BBSIM_OLT_0"), None)). vm_compute. reflexivity.
Defined.

(** ** Plugging out and in *)

Section Plug.
  Context `{UuidLib} `{Rand} (Vendor : string).

Definition plug_event (id : Z) (u : option string) (t : Transceiver) : DmiEvent := {|
  e_Id := id; e_DeviceUuid := u; e_ComponentUuid := t_Uuid t; e_ComponentName := t_Name t; e_ThresholdInfo := None |}.

(** One of the two calls on an OLT that is not enabled. *)
Lemma plug_idle wanted again change failed on_pon event done_ id s n t s1 c q :
  is_Some (root s) -> getTransceiverWithId id s = inr (n, t) -> PluggedIn t = wanted ->
  change id s = Done (None, s1) -> olt_InternalState (d_olt s1) <> OltInternalStateEnabled ->
  eventChannel s1 = Some c -> queues s1 !! c = Some q -> (length q < kafkaChannelSize)%nat ->
  plug wanted again change failed on_pon event done_ id s =
    Done ({| StatusCode := codes_OK; resp_Message := done_ +:+ pretty id |},
          s1 <| queues ::= <[c := (q ++ [IEvent (plug_event event (dms_uuid s1) t)])%list]> |>).
Proof.
  intros [r Hr] Ht Hw Hc Ho Hch Hq Hlen. unfold plug. erewrite bind_Done; [|reflexivity]. cbv beta.
  unfold getDmiAPIServer. rewrite Hr, Ht, decide_False by (by intros ?). erewrite bind_Done; [|exact Hc]. cbv beta iota.
  erewrite bind_Done; [|reflexivity]. cbv beta. rewrite decide_False by done. erewrite bind_Done; [|reflexivity].
  erewrite bind_Done; [|reflexivity]. cbv beta. erewrite bind_Done; [reflexivity|].
  unfold sendOutEventOnKafka, try_send. erewrite bind_Done; [|reflexivity]. cbv beta.
  erewrite bind_Done; [|reflexivity]. cbv beta. rewrite Hch. cbn [mbind option_bind]. rewrite Hq.
  cbn [fmap option_fmap option_map]. by rewrite decide_True.
Qed.
End Plug.

Lemma find_replaced id s n t t' ts :
  getTransceiverWithId id s = inr (n, t) -> t_ID t' = t_ID t -> Transceivers s = ts ->
  forall s', Transceivers s' = <[n := t']> ts -> getTransceiverWithId id s' = inr (n, t').
Proof.
  unfold getTransceiverWithId. intros Hf Hid <- s' ->.
  destruct (list_find _ (Transceivers s)) as [[k x]|] eqn:E; [|done]. injection Hf as -> ->.
  apply list_find_Some in E as (Hn & Ht & Hlt).
  assert (list_find (fun x => t_ID x = id) (<[n := t']> (Transceivers s)) = Some (n, t')) as ->; [|done].
  apply list_find_Some. split; [apply list_lookup_insert_eq; by eapply lookup_lt_Some|]. split; [congruence|].
  intros j y Hj Hjn. rewrite list_lookup_insert_ne in Hj by lia. by eapply Hlt.
Qed.

Lemma plugged_again o t : PluggedIn t = true -> t_Technology t = tech_of o t -> plugged_in o (set_plugged false t) = t.
Proof.
  intros Hin Htech. unfold plugged_in, set_plugged, set_tech, tech_of, trans_pons in *. destruct t. cbn in *.
  subst. f_equal. by symmetry.
Qed.

(** What taking a transceiver out does to the inventory. *)
Lemma cage_emptied `{UuidLib} Vendor s r n t :
  dmi_ok Vendor s -> root s = Some r -> Transceivers s !! n = Some t -> PluggedIn t = true ->
  exists cage_ comp,
    Children r !! n = Some cage_ /\ Children cage_ = [comp] /\ c_Uuid (info comp) = t_Uuid t /\
    Children comp = port_component (d_olt s) t <$> trans_pons (d_olt s) t /\
    Some (inventory Vendor (d_olt s) (ipAddress s) (<[n := set_plugged false t]> (Transceivers s))) =
      Some (Comp (info r) (<[n := Comp (info cage_) []]> (Children r))).
Proof.
  intros [[[_ _ Hts] Hroot] _] Hr Hn Hin. unfold root_part in Hroot. cbn in Hts, Hroot. rewrite Hr in Hroot.
  destruct Hroot as [-> _]. pose proof (lookup_lt_Some _ _ _ Hn) as Hlt.
  assert (trans_ok (d_olt s) (set_plugged false t)) as Ht by (rewrite Forall_lookup in Hts; exact (Hts n t Hn)).
  exists (cage Vendor (d_olt s) t), (trans_comp (d_olt s) t (getCageName (t_ID t))).
  rewrite inventory_cages by done. split_and!.
  - rewrite lookup_app_l by (by rewrite length_fmap). by rewrite list_lookup_fmap, Hn.
  - unfold cage. by rewrite Hin.
  - done.
  - done.
  - rewrite inventory_eq by (by apply Forall_insert). rewrite list_fmap_insert.
    rewrite insert_app_l by (by rewrite length_fmap). done.
Qed.

(** C21: plugging out and in.  On a managed device whose OLT is not enabled, with
    a transceiver that is plugged in, of the technology of its PONs, and room
    for two events: plugging it out answers OK, queues the event, and the only
    change of the inventory is that the cage of the transceiver, which held its
    component with the ports below it and nothing else, is empty; plugging it
    out again is refused and changes nothing; plugging it in answers OK, queues
    the event and gives back the inventory and the transceivers as they were.
    The state is one the server reaches ([dmi_ok]), where MD5 does not collide
    on the names of the device. *)
Theorem plug_out_in `{UuidLib} `{Rand} (Vendor : string) (id : Z) (s : DmiSys) (n c : nat) (t : Transceiver)
    (r : Component) (q : list Item) :
  dmi_ok Vendor s -> root s = Some r -> getTransceiverWithId id s = inr (n, t) ->
  PluggedIn t = true -> t_Technology t = tech_of (d_olt s) t ->
  olt_InternalState (d_olt s) <> OltInternalStateEnabled ->
  eventChannel s = Some c -> queues s !! c = Some q -> (length q + 2 <= kafkaChannelSize)%nat ->
  exists s1 s2,
    PlugOutTransceiver id s = Done ({| StatusCode := codes_OK; resp_Message := "Plugged out transceiver " +:+ pretty id |}, s1) /\
    (exists cage_ comp,
       Children r !! n = Some cage_ /\ Children cage_ = [comp] /\ c_Uuid (info comp) = t_Uuid t /\
       Children comp = port_component (d_olt s) t <$> trans_pons (d_olt s) t /\
       root s1 = Some (Comp (info r) (<[n := Comp (info cage_) []]> (Children r)))) /\
    findComponent (default [] (Children <$> root s1)) (t_Uuid t) = None /\
    queues s1 !! c = Some (q ++ [IEvent (plug_event EVENT_TRANSCEIVER_PLUG_OUT (dms_uuid s) t)])%list /\
    (exists msg, PlugOutTransceiver id s1 = Done ({| StatusCode := codes_Aborted; resp_Message := msg |}, s1)) /\
    PlugInTransceiver id s1 = Done ({| StatusCode := codes_OK; resp_Message := "Plugged in transceiver " +:+ pretty id |}, s2) /\
    root s2 = root s /\ Transceivers s2 = Transceivers s /\
    queues s2 !! c = Some (q ++ [IEvent (plug_event EVENT_TRANSCEIVER_PLUG_OUT (dms_uuid s) t);
                                 IEvent (plug_event EVENT_TRANSCEIVER_PLUG_IN (dms_uuid s) t)])%list.
Proof.
  intros Hok Hr Ht Hin Htech Ho Hc Hq Hlen. destruct (find_transceiver _ _ _ _ Ht) as [Hn Hid].
  pose proof (plugout_spec Vendor id s n t r Hok Hr Ht Hin) as R1.
  set (a := s <| root := _ |> <| Transceivers := _ |>) in R1.
  assert (PlugOutTransceiver id s = Done (_, _)) as P1 by (eapply (plug_idle true); [by rewrite Hr|exact Ht|exact Hin|
    exact R1|exact Ho|exact Hc|exact Hq|lia]).
  match type of P1 with _ = Done (_, ?x) => set (s1 := x) in P1 end.
  assert (dmi_ok Vendor s1) as Hok1.
  { eapply ok_plug; [apply (ok_plugout Vendor)|apply shape_plug_out|exact Hok|exact P1]. }
  assert (getTransceiverWithId id s1 = inr (n, set_plugged false t)) as Ht1 by by eapply (find_replaced id s n t).
  assert (queues s1 !! c = Some (q ++ [IEvent (plug_event EVENT_TRANSCEIVER_PLUG_OUT (dms_uuid s) t)])%list) as Hq1.
  { apply list_lookup_insert_eq. by eapply lookup_lt_Some. }
  pose proof (plugin_spec Vendor id s1 n _ _ Hok1 eq_refl Ht1 eq_refl) as R2.
  set (b := s1 <| root := _ |> <| Transceivers := _ |>) in R2.
  assert (PlugInTransceiver id s1 = Done (_, _)) as P2 by (eapply (plug_idle false); [by eexists|exact Ht1|done|
    exact R2|exact Ho|exact Hc|exact Hq1|rewrite length_app; cbn; lia]).
  match type of P2 with _ = Done (_, ?x) => set (s2 := x) in P2 end.
  assert (Transceivers s2 = Transceivers s) as Hts.
  { change (<[n := plugged_in (d_olt s) (set_plugged false t)]> (<[n := set_plugged false t]> (Transceivers s)) = Transceivers s).
    rewrite plugged_again, list_insert_insert_eq by done. by apply list_insert_id. }
  exists s1, s2. split; [exact P1|]. split; [by eapply cage_emptied|]. split; [|split; [exact Hq1|split; [|split; [exact P2|split; [|split; [exact Hts|]]]]]].
  - apply eq_None_not_Some. intros Hs. apply (plugged_found Vendor s1 _ (set_plugged false t) Hok1 eq_refl) in Hs; [done|].
    eapply list_elem_of_lookup_2. by apply (find_transceiver id s1).
  - eexists. unfold PlugOutTransceiver, plug. erewrite bind_Done; [|reflexivity]. cbv beta. rewrite Ht1. reflexivity.
  - change (Some (inventory Vendor (d_olt s) (ipAddress s) (Transceivers s2)) = root s). rewrite Hts, Hr.
    destruct Hok as [[_ Hroot] _]. unfold root_part in Hroot. cbn in Hroot. rewrite Hr in Hroot. by destruct Hroot as [-> _].
  - change (?x :: [?y]) with ([x] ++ [y])%list. rewrite app_assoc. apply list_lookup_insert_eq. by eapply lookup_lt_Some.
Qed.

Lemma managed_dmi_ok : dmi_ok "BBSim" managed_dmi.
Proof.
  eapply (dmi_step_ok "BBSim").
  - apply (step_start "BBSim" (Some {| sm_Name := "olt"; sm_Uri := Some "127.0.0.1" |}) None
      (Some (OK_STATUS, "BBSIM_OLT_0"), None) started_dmi). vm_compute. reflexivity.
  - eapply (fresh_ok "BBSim" None blank_dmi None); [apply NoDup_singleton|intros x y _ _ Hxy; exact Hxy|done|reflexivity].
Qed.

Definition small_trans : Transceiver := set_tech TT_XGSPON (newTransceiver small_olt 0 [0%nat]).

Lemma plug_out_in_witness :
  exists s1, PlugOutTransceiver 0 managed_dmi =
    Done ({| StatusCode := codes_OK; resp_Message := "Plugged out transceiver 0" |}, s1) /\
    queues s1 !! 1%nat = Some [IEvent (plug_event EVENT_TRANSCEIVER_PLUG_OUT (dms_uuid managed_dmi) small_trans)].
Proof.
  destruct (plug_out_in "BBSim" 0 managed_dmi 0 1 small_trans
    (inventory "BBSim" small_olt "127.0.0.1" (Transceivers managed_dmi)) []) as (s1 & s2 & H1 & _ & _ & H2 & _).
  - exact managed_dmi_ok.
  - vm_compute. reflexivity.
  - vm_compute. reflexivity.
  - reflexivity.
  - vm_compute. reflexivity.
  - vm_compute. discriminate.
  - vm_compute. reflexivity.
  - vm_compute. reflexivity.
  - unfold kafkaChannelSize. cbn. lia.
  - exact (ex_intro _ s1 (conj H1 H2)).
Defined.

(** ** Metrics *)

(** The range of the values of a metric: the first is included, the second is not. *)
Definition metric_bounds (k : Z) : Z * Z :=
  if decide (k = METRIC_CPU_USAGE_PERCENTAGE) then (1, 20)
  else if decide (k = METRIC_FAN_SPEED) then (3000, 4000)
  else if decide (k = METRIC_RAM_USAGE_PERCENTAGE) then (1, 8)
  else if decide (k = METRIC_DISK_USAGE_PERCENTAGE) then (50, 500)
  else (30, 40).

Section Metrics.
  Context `{Rand}.

(** What a metric says of its component. *)
Definition reports (k : Z) (u : option string) (c : Component) (m : Metric) : Prop :=
  m_Id m = k /\ m_DeviceUuid m = u /\ m_ComponentUuid m = c_Uuid (info c) /\ m_ComponentName m = c_Name (info c) /\
  (metric_bounds k).1 <= m_Value m < (metric_bounds k).2.

Lemma generateRand_range l h s :
  - 2 ^ 31 <= l < h -> h - l < 2 ^ 31 -> h <= 2 ^ 31 ->
  exists v, generateRand l h s = Done (v, s <| draws ::= S |>) /\ l <= v < h.
Proof.
  intros Hl Hd Hh. unfold generateRand. rewrite decide_False by lia.
  assert (s32 (h - l) = h - l) as -> by (unfold s32; rewrite Z.mod_small by lia; lia).
  rewrite decide_False by lia. pose proof (Int31n_range (draws s) (h - l) ltac:(lia)) as Hr.
  eexists. split; [reflexivity|]. unfold s32. rewrite Z.mod_small by lia. lia.
Qed.

Lemma make_metric k class make c s :
  metric_source k = Some (class, make) ->
  exists m, make (Some c) s = Done (m, s <| draws ::= S |>) /\ reports k (dms_uuid s) c m.
Proof.
  unfold metric_source, reports, metric_bounds. intros Hk. repeat case_decide; simplify_eq; cbn [fst snd];
    unfold generateCPUUsageMetric, generateFanSpeedMetric, generateRAMUsageMetric, generateDiskUsageMetric,
      generateInnerSurroundingTempMetric;
    match goal with |- context [metric _ ?l ?h] => destruct (generateRand_range l h s) as (v & Hv & Hr); [lia..|] end;
    unfold metric; (erewrite bind_Done; [|reflexivity]); cbv beta; (erewrite bind_Done; [|exact Hv]); by eexists.
Qed.

Lemma same_queue s c q : queues s !! c = Some q -> s <| queues ::= <[c := q]> |> = s.
Proof. intros Hq. destruct s. unfold upd, set_queues. cbn in *. f_equal. by apply list_insert_id. Qed.

(** A metric for each component; those for which the channel has no room are
    dropped. *)
Lemma send_metrics k class make c s q comps :
  metric_source k = Some (class, make) -> metricChannel s = Some c -> queues s !! c = Some q ->
  exists ms d, for_each comps (fun x => m ← make (Some x); sendOutMetric m) s =
      Done (tt, s <| queues ::= <[c := (q ++ take (kafkaChannelSize - length q) (IMetric <$> ms))%list]> |>
                  <| draws := d |>) /\
    Forall2 (reports k (dms_uuid s)) comps ms.
Proof.
  intros Hk. revert s q. induction comps as [|x comps IH]; intros s q Hc Hq.
  { exists [], (draws s). split; [|constructor]. cbn [for_each fmap list_fmap]. rewrite take_nil, app_nil_r. mred.
    do 2 f_equal. destruct s. unfold upd, set_queues, set_draws. cbn in *. f_equal. symmetry. by apply list_insert_id. }
  cbn [for_each]. destruct (make_metric k class make x s Hk) as (m & Hm & Hrep). set (s1 := s <| draws ::= S |>) in Hm.
  set (q' := (q ++ take (kafkaChannelSize - length q) [IMetric m])%list).
  set (s2 := s1 <| queues ::= <[c := q']> |>).
  assert ((m ← make (Some x); sendOutMetric m) s = Done (tt, s2)) as Hsend.
  { erewrite bind_Done; [|exact Hm]. unfold sendOutMetric, try_send. erewrite bind_Done; [|reflexivity]. cbv beta.
    erewrite bind_Done; [|reflexivity]. cbv beta. change (metricChannel s1) with (metricChannel s). rewrite Hc.
    cbn [mbind option_bind]. change (queues s1) with (queues s). rewrite Hq. cbn [fmap option_fmap option_map].
    unfold s2, q'. case_decide as Hlen.
    - destruct (kafkaChannelSize - length q)%nat eqn:E; [lia|]. by rewrite firstn_cons, take_nil.
    - replace (kafkaChannelSize - length q)%nat with 0%nat by lia. cbn [take]. rewrite app_nil_r.
      mred. do 2 f_equal. symmetry. by apply (same_queue s1). }
  erewrite bind_Done; [|exact Hsend].
  destruct (IH s2 q') as (ms & d & Hr & Hall); [done| |].
  { apply list_lookup_insert_eq. by eapply lookup_lt_Some. }
  exists (m :: ms), d. split; [|by constructor]. rewrite Hr.
  assert (q ++ take (kafkaChannelSize - length q) (IMetric <$> m :: ms) =
          q' ++ take (kafkaChannelSize - length q') (IMetric <$> ms))%list as ->.
  { unfold q'. rewrite <-app_assoc, length_app. f_equal. rewrite fmap_cons.
    destruct (kafkaChannelSize - length q)%nat as [|r] eqn:E.
    - change (length (take 0 [IMetric m])) with 0%nat. by replace (kafkaChannelSize - (length q + 0))%nat with 0%nat by lia.
    - rewrite !firstn_cons, take_nil. change (length [IMetric m]) with 1%nat.
      replace (kafkaChannelSize - (length q + 1))%nat with r by lia. done. }
  do 2 f_equal. unfold s2, s1. clearbody q'. generalize (take (kafkaChannelSize - length q') (IMetric <$> ms)). intros l.
  destruct s. unfold upd, set_queues, set_draws. cbn. f_equal. apply list_insert_insert_eq.
Qed.
End Metrics.

(** C22: metrics are reported on time.  When a configured metric of a managed
    device is due, one turn makes exactly one metric for each component of its
    class, in the order of the inventory, with values in the range of the
    metric, and queues those for which the channel of 100 metrics still has
    room, the first ones; the others are dropped.  It sets the next time to one
    polling interval later, and until then the turns of the generator for this
    metric change nothing. *)
Theorem metrics_reported `{Rand} (k now : Z) (v : MetricTriggerConfig) (s : DmiSys) (r : Component)
    (class : ComponentType) (make : option Component -> M DmiSys Metric) (c : nat) (q : list Item)
    (l : gmap Z MetricTriggerConfig) :
  root s = Some r -> Children r <> [] -> metric_source k = Some (class, make) ->
  configuredMetrics (mg s) = Some l -> l !! k = Some v -> mc_IsConfigured (mt_cfg v) = true -> mt_t v <= now ->
  metricChannel s = Some c -> queues s !! c = Some q ->
  exists s' ms v',
    generate_metric now k v s = Done (true, s') /\
    queues s' !! c = Some (q ++ take (100 - length q) (IMetric <$> ms))%list /\
    Forall2 (reports k (dms_uuid s)) (findComponentsOfType (Children r) class) ms /\
    (l' ← configuredMetrics (mg s'); l' !! k) = Some v' /\
    mt_cfg v' = mt_cfg v /\ mt_t v' = now + 10 ^ 9 * PollInterval (mt_cfg v) /\
    forall later, later < mt_t v' -> generate_metric later k v' s' = Done (true, s').
Proof.
  intros Hr Hne Hk Hl Hv Hon Hdue Hc Hq.
  set (v' := {| mt_cfg := mt_cfg v; mt_t := now + 10 ^ 9 * PollInterval (mt_cfg v) |}).
  set (s1 := s <| mg ::= (fun g => {| mg_apiSrv := mg_apiSrv g; configuredMetrics := Some (<[k := v']> l);
                                     mgCancelFunc := mgCancelFunc g |}) |>).
  assert (updateConfiguredMetrics now k v s = Done (tt, s1)) as Hup.
  { unfold updateConfiguredMetrics, put_metric. erewrite bind_Done; [|reflexivity]. cbv beta. by rewrite Hl. }
  destruct (send_metrics k class make c s1 q (findComponentsOfType (Children r) class)) as (ms & d & Hsend & Hall); [done..|].
  eexists _, ms, v'. split; [|split; [|split; [exact Hall|split; [|split; [done|split; [done|]]]]]].
  - unfold generate_metric. erewrite bind_Done; [|reflexivity]. cbv beta. rewrite Hr, decide_False, Hk, Hon by done.
    rewrite decide_False by lia. erewrite bind_Done; [|exact Hup]. erewrite bind_Done; [|exact Hsend]. reflexivity.
  - apply list_lookup_insert_eq. by eapply lookup_lt_Some.
  - cbn. apply lookup_insert_eq.
  - intros later Hlater. unfold generate_metric. erewrite bind_Done; [|reflexivity]. cbv beta.
    change (root _) with (root s) at 1. rewrite Hr, decide_False, Hk by done.
    change (mc_IsConfigured (mt_cfg v')) with (mc_IsConfigured (mt_cfg v)). rewrite Hon. by rewrite decide_True.
Qed.

Definition fan_due : MetricTriggerConfig := {|
  mt_cfg := {| mc_MetricId := METRIC_FAN_SPEED; mc_IsConfigured := true; PollInterval := 120 |}; mt_t := 0 |}.

Lemma metrics_reported_witness :
  exists s' ms, generate_metric 5 METRIC_FAN_SPEED fan_due managed_dmi = Done (true, s') /\
    queues s' !! 0%nat = Some (take 100 (IMetric <$> ms)) /\ length ms = 2%nat.
Proof.
  destruct (metrics_reported METRIC_FAN_SPEED 5 fan_due managed_dmi
    (inventory "BBSim" small_olt "127.0.0.1" (Transceivers managed_dmi)) TYPE_FAN generateFanSpeedMetric 0 []
    default_metrics) as (s' & ms & v' & H1 & H2 & H3 & _).
  - vm_compute. reflexivity.
  - vm_compute. discriminate.
  - reflexivity.
  - vm_compute. reflexivity.
  - vm_compute. reflexivity.
  - reflexivity.
  - cbn. lia.
  - vm_compute. reflexivity.
  - vm_compute. reflexivity.
  - refine (ex_intro _ s' (ex_intro _ ms (conj H1 (conj H2 _)))). apply Forall2_length in H3. rewrite <-H3.
    vm_compute. reflexivity.
Defined.

(** ** Where the code departs from what it says *)

(** A request for the inventory of a device that is not managed dereferences a
    nil identifier. *)
Lemma unmanaged_inventory_panics :
  GetPhysicalInventory (Some "x") None started_dmi = Panicked "invalid memory address or nil pointer dereference".
Proof. reflexivity. Qed.

(** Metrics and events cannot be configured before the device is managed: the
    maps are nil. *)
Lemma unmanaged_configuration_panics cfg ev :
  UpdateMetricsConfiguration (Some (Changes [cfg])) started_dmi = Panicked "assignment to entry in nil map" /\
  UpdateEventsConfiguration (Some (Changes [ev])) started_dmi = Panicked "assignment to entry in nil map".
Proof. split; reflexivity. Qed.

(** The value of a component that does not exist is a nil dereference. *)
Lemma unknown_component_panics :
  GetMetric (Some (METRIC_FAN_SPEED, Some "none")) managed_dmi =
  Panicked "invalid memory address or nil pointer dereference".
Proof. vm_compute. reflexivity. Qed.

(** Managing the device twice leaves the first generator running after it is
    stopped: its cancel function was overwritten. *)
Definition stopped_after_two : DmiSys :=
  final (StopManagingDevice (Some "olt"))
    (final (StartManagingDevice "BBSim" (Some {| sm_Name := "olt"; sm_Uri := None |}) None) managed_dmi).
Lemma generator_leaks :
  generators stopped_after_two = [0; 1]%nat /\
  is_cancelled stopped_after_two 0 = false /\ is_cancelled stopped_after_two 1 = true.
Proof. vm_compute. done. Qed.

(** A random value may be the lower bound. *)
Lemma generateRand_lower : generateRand 1 20 started_dmi = Done (1, started_dmi <| draws := 1%nat |>).
Proof. vm_compute. reflexivity. Qed.

(** Thresholds whose difference is beyond 32 bits make the next event panic. *)
Definition wide_event : EventCfg := {|
  ec_EventId := EVENT_HW_DEVICE_TEMPERATURE_ABOVE_CRITICAL; ec_IsConfigured := true;
  ec_Thresholds := Some (Upper {| High := Some (IntVal (2 ^ 31 - 1)); Low := Some (IntVal (- 2 ^ 31)) |}) |}.
Lemma wide_thresholds_panic :
  CreateEvent (fun _ => Some EVENT_HW_DEVICE_TEMPERATURE_ABOVE_CRITICAL) "" "event"
    (final (UpdateEventsConfiguration (Some (Changes [wide_event]))) managed_dmi) =
  Panicked "invalid argument to Int31n".
Proof. vm_compute. reflexivity. Qed.

(** A configuration that arrives while a turn of the generator has copied the
    old one is overwritten by it. *)
Definition fan_off : MetricConfig := {|
  mc_MetricId := METRIC_FAN_SPEED; mc_IsConfigured := false; PollInterval := 120 |}.
Lemma metric_update_lost :
  (l ← configuredMetrics (mg (final (generate_metric 5 METRIC_FAN_SPEED fan_due)
      (final (UpdateMetricsConfiguration (Some (Changes [fan_off]))) managed_dmi)));
   mc_IsConfigured ∘ mt_cfg <$> l !! METRIC_FAN_SPEED) = Some true.
Proof. vm_compute. reflexivity. Qed.

(** Plugging out a transceiver blocks when an ONU of its PON was not initialized,
    as is the case when ONUs are activated one by one: the alarm is sent on the
    ONU's nil channel. *)
Definition only_onu_olt : OltDevice :=
  match @CreateOLT trivial_omci 0 10000 1 1 "only-onu" false false false 5 small_config one_pon with
  | Done (Some o) =>
      match Event (pon_fsm 0) "enable" (o <| olt_InternalState := OltInternalStateEnabled |> <| channel := ChOpen [] |>) with
      | Done (_, o') => o'
      | _ => o
      end
  | _ => small_olt
  end.
Lemma plug_out_blocks :
  pp_InternalState <$> Pons only_onu_olt = [ponStateEnabled] /\
  PlugOutTransceiver 0 (managed_dmi <| d_olt := only_onu_olt |>) = Blocked "send on nil channel".
Proof. split; vm_compute; reflexivity. Qed.
