(* ===== verification/DeviceInv.v ===== *)
(** * The device: what never changes and what always holds

    The invariant of the whole simulated device.  Whatever VOLTHA, a user of
    the API and the goroutines do, in any order: the ports, ONUs, UNIs and
    services stay those that were created, with their numbers, names, addresses
    and tags; every ONU is sound; and the tables of a PON only name its own ONUs.
    The operations are those of [Olt], [Api] and the goroutines of the ONUs,
    UNIs and services. *)
From S2P Require Import Prelude Fsm Options OmciTypes Omci MibDb Packets Types Io Eapol Dhcp DhcpServer Igmp Service.
From S2P Require Import PonRes AlarmSim UniPort UniInv Get Onu OnuOmci OnuLoop OnuInv OltFlows OltSpec Olt.
From S2P Require Import OltProps OltWf Api DmiInv DmiGen Dmi.
Open Scope Z_scope.
Open Scope string_scope.

(** ** The invariant *)

Record PonStatic := { ps_ID : Z; ps_Technology : PonTechnology; ps_Onus : list OnuStatic }.
Definition pon_static (pp : PonPort) : PonStatic := {|
  ps_ID := pp_ID pp; ps_Technology := pp_Technology pp; ps_Onus := onu_static <$> Onus pp |}.

Record DeviceStatic := {
  ds_ID : Z; ds_NumPon : Z; ds_NumOnuPerPon : Z; ds_NniSpeed : Z; ds_ControlledActivation : mode;
  ds_PublishEvents : bool; ds_Pons : list PonStatic; ds_Nnis : list Z; ds_enablePerf : bool }.
Definition device_static (s : OltDevice) : DeviceStatic := {|
  ds_ID := olt_ID s; ds_NumPon := NumPon s; ds_NumOnuPerPon := NumOnuPerPon s; ds_NniSpeed := NniSpeed s;
  ds_ControlledActivation := ControlledActivation s; ds_PublishEvents := olt_PublishEvents s;
  ds_Pons := pon_static <$> Pons s; ds_Nnis := nni_ID <$> Nnis s; ds_enablePerf := enablePerf s |}.

(** The serial numbers of the ONUs of a PON. *)
Definition pon_sns (pp : PonPort) : list SerialNumber := o_SerialNumber <$> Onus pp.

Record pon_sound (pp : PonPort) : Prop := {
  sp_state : pp_InternalState pp ∈ [ponStateCreated; ponStateEnabled; ponStateDisabled];
  sp_oper : pp_OperState pp ∈ ["up"; "down"];
  sp_onus : Forall onu_sound (Onus pp);
  sp_owned : owned (pon_sns pp) (pp_res pp) }.

Definition device_sound (s : OltDevice) : Prop := Forall pon_sound (Pons s).
Definition device_is (k : DeviceStatic) (s : OltDevice) : Prop := device_static s = k /\ device_sound s.

(** Code of an ONU that keeps the invariant of the ONU. *)
Definition onu_code {A : Type} (m : M OnuSys A) : Prop :=
  forall sns k, os_SerialNumber k ∈ sns -> preserves (onu_is sns k) m.

Lemma static_sns pp pp' : pon_static pp' = pon_static pp -> pon_sns pp' = pon_sns pp.
Proof.
  intros H. assert (os_SerialNumber <$> ps_Onus (pon_static pp') = os_SerialNumber <$> ps_Onus (pon_static pp)) as E
    by by rewrite H.
  cbn in E. by rewrite <-!list_fmap_compose in E.
Qed.

(** ** What can happen to the device *)

(** What the code takes from outside: the hash function of EAPOL, random numbers,
    the configured version of the OMCC and the spare room of a buffer. *)
Record Env := { e_md5 : list Z -> list Z; e_rnd : nat -> Z; e_omcc : Z; e_spare : list Z -> list Z }.

Section Runs.
  Context `{OmciLib} `{MeLib} `{Gopacket} (env : Env).

(** The calls of VOLTHA. *)
Inductive openolt_call : forall {A : Type}, M OltDevice A -> Prop :=
| oc_enable w : openolt_call (EnableIndication w)
| oc_disable_olt : openolt_call DisableOlt
| oc_reenable_olt : openolt_call ReenableOlt
| oc_disable_pon i : openolt_call (DisablePonIf i)
| oc_enable_pon i : openolt_call (EnablePonIf i)
| oc_activate i id sn : openolt_call (ActivateOnu i id sn)
| oc_delete_onu i id : openolt_call (DeleteOnu i id)
| oc_flow_add f : openolt_call (Olt.FlowAdd f)
| oc_flow_remove f : openolt_call (FlowRemove f)
| oc_omci i id pkt : openolt_call (OmciMsgOut i id pkt)
| oc_packet i id port gem pkt : openolt_call (Olt.OnuPacketOut i id port gem pkt)
| oc_uplink pkt : openolt_call (UplinkPacketOut pkt)
| oc_create_sched i id ts : openolt_call (CreateTrafficSchedulers i id ts)
| oc_remove_sched i id : openolt_call (RemoveTrafficSchedulers i id)
| oc_info cfg : openolt_call (GetDeviceInfo cfg)
| oc_reboot : openolt_call Olt.Reboot.

(** The calls of the API of BBSim and of the transceivers. *)
Inductive api_call : forall {A : Type}, M OltDevice A -> Prop :=
| ac_shutdown sn : api_call (ShutdownONU sn)
| ac_shutdown_pon i : api_call (ShutdownONUsOnPON i)
| ac_shutdown_all : api_call ShutdownAllONUs
| ac_poweron sn : api_call (PoweronONU sn)
| ac_poweron_pon i : api_call (PoweronONUsOnPON i)
| ac_poweron_all : api_call PoweronAllONUs
| ac_igmp sn u a g v : api_call (ChangeIgmpState sn u a g v)
| ac_eapol sn u : api_call (RestartEapol sn u)
| ac_dhcp sn u : api_call (RestartDhcp sn u)
| ac_flows sn : api_call (GetFlows sn)
| ac_schedulers sn : api_call (GetOnuTrafficSchedulers sn)
| ac_mds sn r : api_call (InvalidateMds sn r)
| ac_onu_alarm sn ty st : api_call (SetOnuAlarmIndication sn ty st)
| ac_olt_alarm i ty st : api_call (SetOltAlarmIndication i ty st)
| ac_olt_on : api_call PoweronOlt
| ac_olt_off : api_call ShutdownOlt
| ac_olt_reboot : api_call RebootOlt
| ac_stop : api_call StopgRPCServer
| ac_start : api_call StartgRPCServer
| ac_restart d : api_call (RestartgRPCServer d)
| ac_plug_out p : api_call (plug_out_pon p)
| ac_plug_in p : api_call (plug_in_pon p).

(** A turn of a goroutine: of the OLT, of an ONU, of a UNI or of a service. *)
Inductive goroutine_turn : forall {A : Type}, M OltDevice A -> Prop :=
| gt_olt : goroutine_turn recv_olt
| gt_stats : goroutine_turn (port_stats_period (e_rnd env))
| gt_task now t : goroutine_turn (run_olt_task now t)
| gt_onu p i : goroutine_turn (on_onu p i (recv_message (e_md5 env) (e_rnd env) (e_omcc env) (e_spare env)))
| gt_uni p i u : goroutine_turn (on_onu p i (on_uni u Uni_recv_packet))
| gt_service p i u j at_ m : svc_works (e_md5 env) at_ m -> goroutine_turn (on_onu p i (on_uni u (on_service j m))).

Definition device_step (s s' : OltDevice) : Prop :=
  exists (A : Type) (m : M OltDevice A) (a : A),
    (openolt_call m \/ api_call m \/ goroutine_turn m) /\ m s = Done (a, s').
End Runs.

(** ** Pieces *)

(** Replacing a port. *)
Lemma device_put_pon k s p pp pp' :
  device_is k s -> Pons s !! p = Some pp -> pon_static pp' = pon_static pp -> pon_sound pp' ->
  device_is k (s <| Pons ::= <[p := pp']> |>).
Proof.
  intros [Hk Hs] Hp Hst Hso. split.
  - rewrite <-Hk. unfold device_static. cbn. f_equal. rewrite list_fmap_insert, Hst.
    apply list_insert_id. by rewrite list_lookup_fmap, Hp.
  - by apply Forall_insert.
Qed.

Lemma alter_none {A : Type} (f : A -> A) p (l : list A) : l !! p = None -> alter f p l = l.
Proof. revert p. induction l as [|x l IH]; intros [|p]; try done. cbn. intros H. f_equal. by apply IH. Qed.

Lemma alter_fmap {A B : Type} (g : A -> B) (f : A -> A) p (l : list A) :
  (forall x, g (f x) = g x) -> g <$> alter f p l = g <$> l.
Proof.
  intros Hf. destruct (l !! p) as [x|] eqn:E; [|by rewrite alter_none].
  rewrite (alter_insert f p l x E), list_fmap_insert, Hf. apply list_insert_id. by rewrite list_lookup_fmap, E.
Qed.

Section Pieces.
  Context (k : DeviceStatic).

(** A change of the device outside its ports. *)
Lemma dev_modify f : (forall s, Pons (f s) = Pons s) -> (forall s, device_static (f s) = device_static s) ->
  preserves (device_is k) (modify f).
Proof.
  intros Hp Hs. apply preserves_modify. intros s [Hk Ho]. split; [by rewrite Hs|].
  unfold device_sound. by rewrite Hp.
Qed.

(** A change of one port that leaves its ONUs and tables alone. *)
Lemma dev_alter p f : (forall pp, pon_static (f pp) = pon_static pp) -> (forall pp, pon_sound pp -> pon_sound (f pp)) ->
  forall s, device_is k s -> device_is k (s <| Pons ::= alter f p |>).
Proof.
  intros Hst Hso s Hs. destruct (Pons s !! p) as [pp|] eqn:Hp.
  - rewrite (put_pon_alter _ _ pp) by done. eapply device_put_pon; [done..|]. apply Hso.
    destruct Hs as [_ Hs]. by apply (Forall_lookup_1 _ _ _ _ Hs Hp).
  - destruct s. unfold upd, set_Pons. cbn in *. by rewrite alter_none.
Qed.

Lemma dev_nni n f : (forall x, nni_ID (f x) = nni_ID x) -> preserves (device_is k) (modify (fun s => s <| Nnis ::= alter f n |>)).
Proof.
  intros Hf. apply dev_modify; [done|]. intros s. unfold device_static. cbn. f_equal. by apply alter_fmap.
Qed.

Lemma dev_send_olt m : preserves (device_is k) (send_olt m).
Proof. by apply preserves_lift. Qed.
Lemma dev_olt_send i : preserves (device_is k) (olt_send i).
Proof. intros s a s' Hs. unfold olt_send, zoom, Send. destruct (s_err _); by intros [= <- <-]. Qed.
Lemma dev_spawn t : preserves (device_is k) (olt_spawn t).
Proof. by apply dev_modify. Qed.
Lemma dev_publish ev : preserves (device_is k) (publish_olt ev).
Proof. unfold publish_olt. preserve. by apply dev_modify. Qed.
Lemma dev_current (f : FSM OltDevice) : preserves (device_is k) (Current f).
Proof. apply preserves_gets. Qed.

(** Code of an ONU. *)
Lemma dev_on_onu {A : Type} p i (m : M OnuSys A) : onu_code m -> preserves (device_is k) (on_onu p i m).
Proof.
  intros Hm s a s' Hs. unfold on_onu. destruct (Pons s !! p) as [pp|] eqn:Hp; [|done].
  destruct (Onus pp !! i) as [o|] eqn:Ho; [|done]. destruct (m _) as [[b t]| | |] eqn:E; [|done..].
  intros [= <- <-].
  assert (pon_sound pp) as [P1 P2 P3 P4] by (destruct Hs as [_ Hs]; by apply (Forall_lookup_1 _ _ _ _ Hs Hp)).
  assert (onu_is (pon_sns pp) (onu_static o) t) as (T1 & T2 & T3).
  { refine (Hm (pon_sns pp) (onu_static o) _ (onu_view s pp o) b t _ E).
    - cbn. apply list_elem_of_fmap. exists o. split; [done|]. by eapply list_elem_of_lookup_2.
    - split; [done|]. split; [|exact P4]. by apply (Forall_lookup_1 _ _ _ _ P3 Ho). }
  set (pp' := pp <| Onus ::= <[i := onu t]> |> <| pp_res := res t |>).
  assert (pon_static pp' = pon_static pp) as Hst.
  { unfold pon_static. cbn. f_equal. rewrite list_fmap_insert, T1. apply list_insert_id.
    by rewrite list_lookup_fmap, Ho. }
  assert (pon_sound pp') as Hso.
  { split; [exact P1|exact P2|by apply Forall_insert|]. rewrite (static_sns pp pp') by done. exact T3. }
  exact (device_put_pon k s p pp pp' Hs Hp Hst Hso).
Qed.

#[local] Hint Resolve dev_send_olt dev_olt_send dev_spawn dev_publish dev_current : preserve.
#[local] Hint Extern 1 (preserves _ (modify _)) => (apply dev_modify; reflexivity) : preserve.
#[local] Hint Extern 1 (preserves _ (on_onu _ _ _)) =>
  (apply dev_on_onu; intros ? ? ?; unfold DeleteFlow; preserve) : preserve.
#[local] Hint Extern 1 (preserves _ (for_each _ _)) => (apply preserves_for_each; preserve) : preserve.

(** ** The state machines *)

Lemma dev_set_pon p (f : PonPort -> PonPort) :
  (forall pp, pon_static (f pp) = pon_static pp) -> (forall pp, pon_sound pp -> pon_sound (f pp)) ->
  preserves (device_is k) (upd_pon p f).
Proof. intros Hst Hso. apply preserves_modify. by apply dev_alter. Qed.

(** An event of a machine of a port; [f] is the machine. *)
Lemma dev_pon_machine p (f : FSM OltDevice) (put : string -> PonPort -> PonPort) (states : list string) ev :
  fsm_before f ev = skip -> fsm_after f ev = skip -> (forall src dst, preserves (device_is k) (fsm_enter f src dst)) ->
  (forall x s, fsm_set f x s = s <| Pons ::= alter (put x) p |>) ->
  (forall x pp, pon_static (put x pp) = pon_static pp) ->
  (forall x pp, x ∈ states -> pon_sound pp -> pon_sound (put x pp)) ->
  (forall src dst, transitions (fsm_events f) ev src = Some dst -> dst ∈ states) ->
  preserves (device_is k) (Event f ev).
Proof.
  intros Hb Ha He Hset Hst Hso Hd. apply preserves_Event_enter; [done|rewrite Ha; apply preserves_skip|].
  intros s dst s' Hs Ht _ Hr. eapply He; [|exact Hr]. rewrite Hset. apply dev_alter; eauto.
Qed.

Lemma dev_pon_indication port : preserves (device_is k) (sendPonIndication port).
Proof. unfold sendPonIndication. preserve. Qed.
#[local] Hint Resolve dev_pon_indication : preserve.

Lemma dev_pon_oper p ev : preserves (device_is k) (Event (pon_oper_fsm p) ev).
Proof.
  apply (dev_pon_machine p _ (fun x pp => pp <| pp_OperState := x |>) ["up"; "down"]); try done.
  - intros src dst. cbn [fsm_enter pon_oper_fsm]. preserve.
  - intros x pp Hx []. by split.
  - intros src dst Ht%transitions_entry. vm_compute in Ht. set_solver.
Qed.

Lemma dev_pon p ev : preserves (device_is k) (Event (pon_fsm p) ev).
Proof.
  apply (dev_pon_machine p _ (fun x pp => pp <| pp_InternalState := x |>)
    [ponStateCreated; ponStateEnabled; ponStateDisabled]); try done.
  - intros src dst. cbn [fsm_enter pon_fsm].
    unfold pon_enter_enabled, pon_enter_disabled, resume_onu, init_and_discover. preserve.
  - intros x pp Hx []. by split.
  - intros src dst Ht%transitions_entry. vm_compute in Ht. set_solver.
Qed.
#[local] Hint Resolve dev_pon_oper dev_pon : preserve.

Lemma dev_nni_machine n ev : preserves (device_is k) (Event (nni_fsm n) ev).
Proof.
  apply preserves_Event_callbacks; [apply preserves_skip|intros; apply preserves_skip|apply preserves_skip|].
  intros x s Hs. pose proof (dev_nni n (fun p : NniPort => p <| nni_OperState := x |>)) as H.
  exact (H (fun _ => eq_refl) s tt _ Hs eq_refl).
Qed.
Lemma dev_oper ev : preserves (device_is k) (Event olt_oper_fsm ev).
Proof.
  apply preserves_Event_callbacks; [apply preserves_skip|intros; apply preserves_skip|apply preserves_skip|].
  intros x s []. by split.
Qed.

(** A change of every port that leaves its configured part alone. *)
Lemma dev_every (f : PonPort -> PonPort) :
  (forall pp, pon_static (f pp) = pon_static pp) -> (forall pp, pon_sound pp -> pon_sound (f pp)) ->
  forall s, device_is k s -> device_is k (s <| Pons ::= fmap f |>).
Proof.
  intros Hst Hso s [Hk Hs]. split.
  - rewrite <-Hk. unfold device_static. cbn. f_equal. rewrite <-list_fmap_compose. apply list_fmap_ext. intros i pp _. apply Hst.
  - apply Forall_fmap. eapply Forall_impl; [exact Hs|]. exact Hso.
Qed.

Lemma dev_olt ev : preserves (device_is k) (Event olt_fsm ev).
Proof.
  apply preserves_Event_callbacks; [apply preserves_skip| |apply preserves_skip|done].
  intros src dst. cbn [fsm_enter olt_fsm]. unfold InitOlt, clearAllResources. preserve; try by apply dev_modify.
  - by apply dev_nni.
  - apply preserves_modify. intros s []. apply dev_every; [done| |by split].
    intros pp []. split; try done.
Qed.

Lemma dev_cancel : preserves (device_is k) cancel_context.
Proof.
  assert (forall o, onu_sound o -> onu_sound (o <| o_goroutines := 0%nat |>)) as Ho by (intros o; sound_upd).
  apply preserves_modify. intros s []. apply dev_every; [| |by split].
  - intros pp. unfold pon_static. cbn. f_equal. by rewrite <-list_fmap_compose.
  - intros pp []. split; try done; cbn.
    + apply Forall_fmap. by eapply Forall_impl.
    + unfold pon_sns. cbn. by rewrite <-list_fmap_compose.
Qed.
#[local] Hint Resolve dev_nni_machine dev_oper dev_olt dev_cancel : preserve.

(** ** The message loop and the calls of VOLTHA *)

Lemma dev_message m : preserves (device_is k) (handle_olt_message m).
Proof.
  unfold handle_olt_message, handle_pon_indication, sendOltIndication, sendAlarmIndication, sendNniIndication.
  preserve.
Qed.
Lemma dev_recv : preserves (device_is k) recv_olt.
Proof. pose proof dev_message. unfold recv_olt. preserve. Qed.

Lemma dev_stats rnd : preserves (device_is k) (port_stats_period rnd).
Proof.
  unfold port_stats_period, sendPortStatsIndication.
  apply preserves_bind; [preserve|intros s]. apply preserves_bind; [|intros _].
  - apply preserves_for_each. intros [n port]. destruct (getPortStats _ _ _). preserve. by apply dev_nni.
  - apply preserves_for_each. intros [n port]. destruct (getPortStats _ _ _). preserve.
    apply dev_set_pon; [done|]. intros pp []. by split.
Qed.

Lemma dev_restart now : preserves (device_is k) (RestartOLT now).
Proof. unfold RestartOLT, StopOltServer. preserve. by apply preserves_lift. Qed.
Lemma dev_enable stream : preserves (device_is k) (Enable stream).
Proof. unfold Enable, reconnect_pon. preserve. Qed.
Lemma dev_activate intf id sn : preserves (device_is k) (ActivateOnu intf id sn).
Proof. unfold ActivateOnu, nil_deref. preserve. by apply preserves_lift. Qed.
Lemma dev_admit f : preserves (device_is k) (zoom flow_res (fun r s => s <| flow_res := r |>) (admit_flow f)).
Proof.
  intros s e s' Hs. unfold zoom. destruct (admit_flow f (flow_res s)) as [[e' r]| | |]; [|done..]. by intros [= <- <-].
Qed.
Lemma dev_flow_add f : preserves (device_is k) (Olt.FlowAdd f).
Proof. pose proof dev_admit. unfold Olt.FlowAdd, add_onu_flow, nil_deref. preserve. Qed.
Lemma dev_flow_remove f : preserves (device_is k) (FlowRemove f).
Proof. unfold FlowRemove, forget_flow. preserve. Qed.
#[local] Hint Resolve dev_recv dev_stats dev_restart dev_enable dev_activate dev_flow_add dev_flow_remove : preserve.

(** ** Services, tasks and the API *)

Lemma uni_on_service {A : Type} i (m : M SvcSys A) : svc_keeps m -> forall ku c, preserves (uni_is ku c) (on_service i m).
Proof.
  intros Hm ku c s a s' Hs. unfold on_service. destruct (Services (uni s) !! i) as [v|] eqn:Hv; [|done].
  destruct (m _) as [[b t]| | |] eqn:E; [|done..]. intros [= <- <-]. by eapply uni_one.
Qed.

Lemma preserves_fold_m {S A B : Type} (P : S -> Prop) (l : list A) (acc : B) (body : B -> A -> M S B) :
  (forall b x, preserves P (body b x)) -> preserves P (fold_m l acc body).
Proof. intros Hb. revert acc. induction l as [|x l IH]; intros acc; cbn [fold_m]; preserve; apply IH. Qed.

Lemma svc_keeps_group a c g : svc_keeps (group_action a c g).
Proof. unfold group_action. repeat case_decide; [svc_work..|apply svc_keeps_ret]. Qed.

Lemma svc_keeps_igmp_service a v g : svc_keeps (igmp_service a v g).
Proof.
  unfold igmp_service. apply svc_keeps_bind; [apply svc_keeps_get|]. intros s.
  destruct (NeedsIgmp (svc s)); [|apply svc_keeps_ret]. case_decide; [apply svc_keeps_ret|].
  apply svc_keeps_bind; [apply svc_keeps_group|intros; apply svc_keeps_ret].
Qed.

Lemma inv_restart_unis sns ks needs skipped start uniID :
  svc_keeps start -> preserves (onu_is sns ks) (restart_unis needs skipped start uniID).
Proof.
  intros Hst. unfold restart_unis. apply preserves_bind; [auto with preserve|intros s].
  apply preserves_fold_m. intros acc u. preserve. apply inv_on_uni. intros ku c. apply preserves_fold_m.
  intros acc' j. unfold restart_service. preserve. by apply uni_on_service.
Qed.

Lemma dev_igmp_action `{Gopacket} p i u j a c g : preserves (device_is k) (send_igmp_action p i u j a c g).
Proof.
  apply dev_on_onu. intros sns ks Hks. apply preserves_bind; [auto with preserve|intros t].
  apply inv_on_uni. intros ku cc. apply preserves_bind; [auto with preserve|intros un].
  apply uni_on_service. apply svc_keeps_bind; [apply svc_keeps_get|intros v].
  apply svc_keeps_bind; [|intros; apply svc_keeps_ret].
  unfold SendIGMPMembershipReportV2, SendIGMPLeaveGroupV2, SendIGMPMembershipReportV3.
  repeat case_decide; apply svc_keeps_igmp.
Qed.

Lemma dev_each_onu l m : onu_code m -> preserves (device_is k) (each_onu l m).
Proof. intros Hm. pose proof (fun p i => dev_on_onu p i m Hm). unfold each_onu. preserve. Qed.
#[local] Hint Extern 1 (preserves _ (each_onu _ _)) => (apply dev_each_onu; intros ? ? ?; preserve) : preserve.

Lemma dev_task `{Gopacket} now t : preserves (device_is k) (run_olt_task now t).
Proof. pose proof dev_igmp_action. unfold run_olt_task. preserve. Qed.

Lemma dev_restart_on_onu p i needs skipped start uniID :
  svc_keeps start -> preserves (device_is k) (on_onu p i (restart_unis needs skipped start uniID)).
Proof. intros Hst. apply dev_on_onu. intros sns ks _. by apply inv_restart_unis. Qed.

Lemma dev_igmp_state sn u a g v : preserves (device_is k) (ChangeIgmpState sn u a g v).
Proof.
  unfold ChangeIgmpState. preserve. apply preserves_for_each. intros j. preserve.
  apply dev_on_onu. intros sns ks _. apply inv_on_uni. intros. apply uni_on_service, svc_keeps_igmp_service.
Qed.

Lemma dev_restart_eapol sn u : preserves (device_is k) (RestartEapol sn u).
Proof. unfold RestartEapol. preserve. apply dev_restart_on_onu, svc_keeps_eapol. Qed.
Lemma dev_restart_dhcp sn u : preserves (device_is k) (RestartDhcp sn u).
Proof. unfold RestartDhcp. preserve. apply dev_restart_on_onu, svc_keeps_dhcp. Qed.
#[local] Hint Resolve dev_task dev_igmp_state dev_restart_eapol dev_restart_dhcp : preserve.

(** ** Every step *)

Section Steps.
  Context `{OmciLib} `{MeLib} `{Gopacket} (env : Env).

Lemma dev_openolt {A : Type} (m : M OltDevice A) : openolt_call m -> preserves (device_is k) m.
Proof.
  intros []; unfold EnableIndication, DisableOlt, ReenableOlt, DisablePonIf, EnablePonIf, set_pon_if,
    DeleteOnu, OmciMsgOut, Olt.OnuPacketOut, UplinkPacketOut, handleNniPacket, CreateTrafficSchedulers,
    RemoveTrafficSchedulers, set_schedulers, GetDeviceInfo, Olt.Reboot, nil_deref; preserve.
Qed.

Lemma dev_api {A : Type} (m : M OltDevice A) : api_call m -> preserves (device_is k) m.
Proof.
  assert (preserves (device_is k) StopOltServer) by by apply dev_modify.
  assert (forall i ty st, preserves (device_is k) (Olt.SetAlarm i ty st)) by (unfold Olt.SetAlarm; preserve).
  intros []; unfold ShutdownONU, handleShutdownONU, ShutdownONUsOnPON, ShutdownAllONUs, PoweronONU, handlePoweronONU,
    PoweronONUsOnPON, PoweronAllONUs, GetFlows, GetOnuTrafficSchedulers, InvalidateMds, SetOnuAlarmIndication,
    SetOltAlarmIndication, PoweronOlt, ShutdownOlt, RebootOlt, StopgRPCServer,
    StartgRPCServer, RestartgRPCServer, plug_out_pon, plug_in_pon, nil_deref; preserve.
Qed.

Lemma dev_turn {A : Type} (m : M OltDevice A) : goroutine_turn env m -> preserves (device_is k) m.
Proof.
  intros []; preserve. apply dev_on_onu. intros sns ks _. apply inv_on_uni. intros ku c.
  apply uni_on_service. by eapply works_keeps.
Qed.

Lemma dev_step s s' : device_step env s s' -> device_is k s -> device_is k s'.
Proof.
  intros (A & m & a & Hm & Hr) Hs. destruct Hm as [Hm|[Hm|Hm]].
  - by eapply dev_openolt.
  - by eapply dev_api.
  - by eapply dev_turn.
Qed.
End Steps.
End Pieces.

(** ** The device as it is created *)

Section Created.
  Context `{OmciLib}.

Lemma port_entity_id id : exists n, ToUint16 (GenerateUniPortEntityId id) = Done n.
Proof. by eexists. Qed.

Lemma create_onu_unis_sound cfg pon id n i c t us c' t' :
  create_onu_unis cfg pon id n i c t = Done (us, c', t') -> Forall uni_sound us.
Proof.
  revert i c t us. induction n as [|n IH]; intros i c t us; cbn [create_onu_unis]; [by intros [= <- <- <-]|].
  unfold NewUniPort. case_decide; [done|].
  destruct (new_services _ _ _ _ _ _ _ _) as [[[vs c1] t1]| | |] eqn:Ev; [|done..]. cbn [mbind outcome_bind].
  destruct (create_onu_unis _ _ _ n _ _ _) as [[[us' c2] t2]| | |] eqn:E; [|done..]. cbn [mbind outcome_bind].
  intros [= <- <- <-]. constructor; [|by eapply IH].
  split; [right; split; [done|by eapply new_services_down]|apply port_entity_id].
Qed.

Lemma CreateONU_sound cfg pon id addr isMock c t o c' t' :
  CreateONU cfg pon id addr isMock c t = Done (o, c', t') -> onu_sound o.
Proof.
  unfold CreateONU. destruct (create_onu_unis _ _ _ _ _ _ _) as [[[us c1] t1]| | |] eqn:E; [|done..].
  cbn [mbind outcome_bind]. set (g := GenerateMibDatabase _ _ _ _ _).
  destruct g as [db| | |]; [|done..]. cbn [mbind outcome_bind]. intros [= <- <- <-].
  split; cbn; unfold is_u8, is_u16, is_u32, maxOmciMsgCounter; try done; try lia.
  - unfold onu_states. set_solver.
  - by eapply create_onu_unis_sound.
  - apply Forall_fmap, Forall_forall. intros i _. red. cbn. set_solver.
Qed.

Lemma create_onus_sound cfg pon isMock n j c t os c' t' :
  create_onus cfg pon isMock n j c t = Done (os, c', t') -> Forall onu_sound os.
Proof.
  revert j c t os. induction n as [|n IH]; intros j c t os; cbn [create_onus]; [by intros [= <- <- <-]|].
  destruct (CreateONU _ _ _ _ _ _ _) as [[[o c1] t1]| | |] eqn:E; [|done..]. cbn [mbind outcome_bind].
  destruct (create_onus _ _ _ n _ _ _) as [[[os' c2] t2]| | |] eqn:E'; [|done..]. cbn [mbind outcome_bind].
  intros [= <- <- <-]. constructor; [by eapply CreateONU_sound|by eapply IH].
Qed.

Lemma create_pons_sound cfg pons numOnu isMock n i c t ports :
  create_pons cfg pons numOnu isMock n i c t = Done ports -> Forall pon_sound ports.
Proof.
  revert i c t ports. induction n as [|n IH]; intros i c t ports; cbn [create_pons]; [by intros [= <-]|].
  destruct (GetPonConfigById _ _) as [|ponConf]; [done|].
  destruct (PonTechnologyFromString _) as [tech [e|]]; [done|]. case_decide; [done|].
  destruct (create_onus _ _ _ _ _ _ _) as [[[os c1] t1]| | |] eqn:E; [|done..]. cbn [mbind outcome_bind].
  destruct (create_pons _ _ _ _ n _ _ _) as [rest| | |] eqn:E'; [|done..]. cbn [mbind outcome_bind].
  intros [= <-]. constructor; [|by eapply IH].
  split; cbn; [set_solver|set_solver|by eapply create_onus_sound|apply owned_empty].
Qed.

Lemma CreateOLT_sound id speed numPon numOnu m publish perf isMock now cfg pons s :
  CreateOLT id speed numPon numOnu m publish perf isMock now cfg pons = Done (Some s) -> device_sound s.
Proof.
  unfold CreateOLT. destruct (create_pons _ _ _ _ _ _ _ _) as [ports| | |] eqn:E; [|done..].
  cbn [mbind outcome_bind]. apply create_pons_sound in E. destruct isMock; [by intros [= <-]|].
  set (s0 := Build_OltDevice _ _ _ _ _ _ _ _ _ _ _ _ _ _ _ _ _ _ _ _ _ _).
  destruct (Event olt_fsm _ s0) as [[[e|] s1]| | |] eqn:Ev; [done| |done..]. cbn [mbind outcome_bind]. intros [= <-].
  apply (dev_olt (device_static s0)) in Ev; [by destruct Ev|by split].
Qed.
End Created.

(** ** What holds in every state the device can reach *)

Section Reach.
  Context `{OmciLib} `{MeLib} `{Gopacket} (env : Env).

Lemma dev_steps k s s' : rtc (device_step env) s s' -> device_is k s -> device_is k s'.
Proof. induction 1 as [|s s1 s' Hs _ IH]; [done|]. intros Hk. apply IH. by eapply dev_step. Qed.

Lemma created_steps id speed numPon numOnu m publish perf isMock now cfg pons s s' :
  CreateOLT id speed numPon numOnu m publish perf isMock now cfg pons = Done (Some s) ->
  rtc (device_step env) s s' -> device_is (device_static s) s'.
Proof. intros Hc Hr. eapply dev_steps; [done|]. split; [done|by eapply CreateOLT_sound]. Qed.
End Reach.

(** The ONU at a place, told from the configured part. *)
Lemma static_onu_at s s' p i o :
  device_static s' = device_static s -> onu_at s p i = Some o ->
  exists o', onu_at s' p i = Some o' /\ onu_static o' = onu_static o.
Proof.
  intros Heq (pp & Hp & Ho)%bind_Some.
  assert (ds_Pons (device_static s') !! p = Some (pon_static pp)) as Hp'
    by (rewrite Heq; cbn; by rewrite list_lookup_fmap, Hp).
  cbn in Hp'. rewrite list_lookup_fmap in Hp'. apply fmap_Some in Hp' as (pp' & Hp' & Hst).
  assert (ps_Onus (pon_static pp') !! i = Some (onu_static o)) as Ho'
    by (rewrite <-Hst; cbn; by rewrite list_lookup_fmap, Ho).
  cbn in Ho'. rewrite list_lookup_fmap in Ho'. apply fmap_Some in Ho' as (o' & Ho' & Hos).
  exists o'. split; [|done]. unfold onu_at. rewrite Hp'. exact Ho'.
Qed.

Lemma static_sn o o' : onu_static o' = onu_static o -> o_SerialNumber o' = o_SerialNumber o.
Proof. intros Heq. change (os_SerialNumber (onu_static o') = os_SerialNumber (onu_static o)). by rewrite Heq. Qed.

Lemma sound_onu_at s p i o : device_sound s -> onu_at s p i = Some o -> onu_sound o.
Proof.
  intros Hs (pp & Hp & Ho)%bind_Some. destruct (Forall_lookup_1 _ _ _ _ Hs Hp) as [_ _ Hos _].
  by apply (Forall_lookup_1 _ _ _ _ Hos Ho).
Qed.

(** A run for the examples: VOLTHA enables the device and the loop of the OLT
    handles the messages. *)
Definition no_random : Env := {| e_md5 := id; e_rnd := fun _ => 0; e_omcc := 0; e_spare := id |}.
Definition after {A : Type} (m : M OltDevice A) (s : OltDevice) : OltDevice :=
  match m s with Done (_, s') => s' | _ => s end.
Definition small_stream : Stream := {| s_err := None; s_sent := [] |}.
Definition small_enabled : OltDevice := after (EnableIndication small_stream) small_olt.
Definition small_up : OltDevice := after recv_olt (after recv_olt (after recv_olt small_enabled)).
Definition small_off : OltDevice := after (ShutdownONU "BBSM00000001") small_up.

Definition returns {A : Type} (m : M OltDevice A) (s : OltDevice) : bool :=
  match m s with Done _ => true | _ => false end.

Lemma after_step `{OmciLib} `{MeLib} `{Gopacket} env {A : Type} (m : M OltDevice A) s :
  openolt_call m \/ api_call m \/ goroutine_turn env m -> returns m s = true -> device_step env s (after m s).
Proof.
  unfold returns, after. intros Hm. destruct (m s) as [[a s']| | |] eqn:E; [|done..]. intros _. by exists A, m, a.
Qed.

Lemma small_run : rtc (@device_step trivial_omci accept_all link_layer_only no_random) small_olt small_off.
Proof.
  eapply rtc_l; [apply (after_step _ (EnableIndication small_stream)); [left; constructor|by vm_compute]|].
  do 3 (eapply rtc_l; [apply (after_step _ recv_olt); [do 2 right; constructor|by vm_compute]|]).
  eapply rtc_l; [apply (after_step _ (ShutdownONU "BBSM00000001")); [right; left; constructor|by vm_compute]|].
  apply rtc_refl.
Qed.

(** ** Properties *)

(** C8: whatever VOLTHA calls, the API is asked and the goroutines do, in any
    order and any number of times, the device keeps what it was created with: its
    numbers and settings, its PON ports with their technology, and every ONU in
    its place with its serial number, its UNIs, services (names, addresses and
    tags), POTS ports, response rate and MIB.  If it was created with at most
    256 PON ports and at most 255 ONUs on each, an ONU is always found by its
    printed serial number at that place; with more, serial numbers collide
    ([OltWf.serial_numbers_collide]). *)
Theorem device_identity `{OmciLib} `{MeLib} `{Gopacket} (env : Env) (id speed numPon numOnu : Z) (m : string)
    (publish perf isMock : bool) (now : Z) (cfg : OnuConfig) (pons : PonPortsConfig) (s s' : OltDevice) :
  CreateOLT id speed numPon numOnu m publish perf isMock now cfg pons = Done (Some s) ->
  rtc (device_step env) s s' ->
  device_static s' = device_static s /\
  forall p i o, onu_at s p i = Some o ->
    (exists o', onu_at s' p i = Some o' /\ onu_static o' = onu_static o) /\
    (0 <= numPon <= 256 -> 0 <= numOnu <= 255 ->
     FindOnuBySn s' (OnuSnToString (o_SerialNumber o)) = inr (p, i)).
Proof.
  intros Hc Hr. destruct (created_steps env _ _ _ _ _ _ _ _ _ _ _ _ _ Hc Hr) as [Heq _].
  split; [done|]. intros p i o Hat. destruct (static_onu_at s s' p i o Heq Hat) as (o' & Hat' & Hst).
  split; [by exists o'|]. intros Hp Ho. rewrite <-(static_sn _ _ Hst). apply FindOnuBySn_only; [done|].
  intros q j o2' Hq Hsn. destruct (static_onu_at s' s q j o2' (eq_sym Heq) Hq) as (o2 & Hq2 & Hst2).
  apply CreateOLT_created in Hc as [Hc _]; [|lia..].
  eapply created_sn_distinct; [exact Hc|lia|lia|exact Hat|exact Hq2|].
  rewrite (static_sn _ _ Hst2), Hsn. by rewrite (static_sn _ _ Hst).
Qed.

Lemma device_identity_witness :
  device_static small_off = device_static small_olt /\ FindOnuBySn small_off "BBSM00000001" = inr (0%nat, 0%nat).
Proof.
  destruct (@device_identity trivial_omci accept_all link_layer_only no_random 0 10000 1 1 "default" false false false
    5 small_config one_pon small_olt small_off) as [H1 H2]; [by vm_compute|exact small_run|].
  split; [exact H1|]. destruct (onu_at small_olt 0 0) as [o|] eqn:E; [|by vm_compute in E].
  destruct (H2 0%nat 0%nat o E) as [_ H3].
  assert (OnuSnToString (o_SerialNumber o) = "BBSM00000001") as Ho
    by (assert (OnuSnToString ∘ o_SerialNumber <$> onu_at small_olt 0 0 = Some "BBSM00000001") as Hs by (by vm_compute);
        rewrite E in Hs; by injection Hs).
  rewrite Ho in H3. apply H3; lia.
Defined.

(** C9: in every state the device can reach, the counters the ONUs keep at fixed
    widths are in range: the MIB data sync counter and the alarm sequence numbers
    in a byte, the counter of OMCI requests between 0 and ten, the transaction
    identifiers of the two priorities in their halves of sixteen bits (the lower
    one never 0), the sequence number in sixteen bits and the number of received
    image sections in thirty-two. *)
Theorem counters_bounded `{OmciLib} `{MeLib} `{Gopacket} (env : Env) (id speed numPon numOnu : Z) (m : string)
    (publish perf isMock : bool) (now : Z) (cfg : OnuConfig) (pons : PonPortsConfig) (s s' : OltDevice) p i o :
  CreateOLT id speed numPon numOnu m publish perf isMock now cfg pons = Done (Some s) ->
  rtc (device_step env) s s' -> onu_at s' p i = Some o ->
  0 <= MibDataSync o < 256 /\ 0 <= OmciMsgCounter o <= 10 /\
  1 <= tid o < 0x8000 /\ 0x8000 <= hpTid o < 0x10000 /\
  0 <= seqNumber o < 2 ^ 16 /\ 0 <= ImageSoftwareReceivedSections o < 2 ^ 32 /\
  forall k info, onuAlarmsInfo o !! k = Some info -> 0 <= SequenceNo info < 256.
Proof.
  intros Hc Hr Hat. destruct (created_steps env _ _ _ _ _ _ _ _ _ _ _ _ _ Hc Hr) as [_ Hs].
  destruct (sound_onu_at _ _ _ _ Hs Hat) as [_ _ Hm Hn Ht Hh Hq Hi Ha _ _].
  split; [exact Hm|]. split; [exact Hn|]. split; [exact Ht|]. split; [exact Hh|]. split; [exact Hq|].
  split; [exact Hi|]. exact Ha.
Qed.

(** The only ONU after the run. *)
Definition small_onu : Onu := default (onu running_onu) (onu_at small_off 0 0).

Lemma counters_bounded_witness :
  OmciMsgCounter small_onu <= 10 /\ tid small_onu < 0x8000 /\ 0x8000 <= hpTid small_onu.
Proof.
  destruct (@counters_bounded trivial_omci accept_all link_layer_only no_random 0 10000 1 1 "default" false false false
    5 small_config one_pon small_olt small_off 0%nat 0%nat small_onu) as (_ & [_ H1] & [_ H2] & [H3 _] & _);
    [by vm_compute|exact small_run|by vm_compute|]. exact (conj H1 (conj H2 H3)).
Defined.

(** C10: in every state the device can reach, the identifiers in the tables of a
    PON (ONU identifiers, GEM ports, Alloc-IDs) belong to ONUs of that PON; each
    port of an ONU is up with all its services initialized, channels and all, or
    down with none of them; and an ONU without a message channel has never left
    its first state. *)
Theorem device_consistent `{OmciLib} `{MeLib} `{Gopacket} (env : Env) (id speed numPon numOnu : Z) (m : string)
    (publish perf isMock : bool) (now : Z) (cfg : OnuConfig) (pons : PonPortsConfig) (s s' : OltDevice) p pp :
  CreateOLT id speed numPon numOnu m publish perf isMock now cfg pons = Done (Some s) ->
  rtc (device_step env) s s' -> Pons s' !! p = Some pp ->
  owned (o_SerialNumber <$> Onus pp) (pp_res pp) /\
  Forall (fun o => Forall (fun u => uni_up u \/ uni_down u) (o_UniPorts o) /\
                   (o_Channel o = ChNil -> o_InternalState o = OnuStateCreated)) (Onus pp).
Proof.
  intros Hc Hr Hp. destruct (created_steps env _ _ _ _ _ _ _ _ _ _ _ _ _ Hc Hr) as [_ Hs].
  destruct (Forall_lookup_1 _ _ _ _ Hs Hp) as [_ _ Ho Hw]. split; [done|].
  eapply Forall_impl; [exact Ho|]. intros o []. split; [|done].
  eapply Forall_impl; [eassumption|]. by intros u [].
Qed.

Lemma device_consistent_witness :
  exists pp, Pons small_off !! 0%nat = Some pp /\ owned (o_SerialNumber <$> Onus pp) (pp_res pp).
Proof.
  destruct (Pons small_off !! 0%nat) as [pp|] eqn:E; [|by vm_compute in E].
  exists pp. split; [reflexivity|].
  destruct (@device_consistent trivial_omci accept_all link_layer_only no_random 0 10000 1 1 "default" false false false
    5 small_config one_pon small_olt small_off 0%nat pp) as [H1 _]; [by vm_compute|exact small_run|exact E|]. exact H1.
Defined.
