(* ===== verification/Config.v ===== *)
(** * Loading the configuration

    [internal/common/options.go]: the options of BBSim come from defaults, a YAML
    file and the command line, merged in this order; then the services and the
    PON ranges are loaded and validated.  A file is what reading and decoding it
    does; a flag is the value given on the command line, if any. *)
From S2P Require Import Prelude Fsm Options OmciTypes Packets Types Io Eapol Dhcp Igmp Service UniPort.
From S2P Require Import Omci MibDb PonRes AlarmSim Get Onu OnuOmci OnuLoop OltFlows OltSpec Olt OltProps OltWf Api ApiInfo.
Open Scope Z_scope.
Open Scope string_scope.

(** ** Options *)

(** Source: internal/common/options.go, [BBSimConfig], without the profiling
    file. *)
Record BBSimConfig := {
  ConfigFile : string; ServiceConfigFile : string; PonsConfigFile : string; DhcpRetry : bool; AuthRetry : bool;
  LogLevel : string; LogCaller : bool; Delay : Z; OpenOltAddress : string; ApiAddress : string;
  RestApiAddress : string; LegacyApiAddress : string; LegacyRestApiAddress : string; cfg_SadisRestAddress : string;
  SadisServer : bool; KafkaAddress : string; Events : bool; cfg_ControlledActivation : string; EnablePerf : bool;
  KafkaEventTopic : string; DmiServerAddress : string; cfg_BandwidthProfileFormat : string;
  InjectOmciUnknownMe : bool; InjectOmciUnknownAttributes : bool; OmccVersion : Z }.

(** Source: internal/common/options.go, [BBRConfig]. *)
Record BBRConfig := { bbr_Log : string; bbr_LogLevel : string; bbr_LogCaller : bool }.

(** Source: internal/common/options.go, [GlobalConfig]. *)
Record GlobalConfig := { BBSim : BBSimConfig; cfg_Olt : OltConfig; BBR : BBRConfig }.

(** Source: internal/common/options.go, [GetDefaultOps]. *)
Definition GetDefaultOps : GlobalConfig := {|
  BBSim := {|
    ConfigFile := "configs/bbsim.yaml"; ServiceConfigFile := "configs/att-services.yaml"; PonsConfigFile := "";
    DhcpRetry := false; AuthRetry := false; LogLevel := "debug"; LogCaller := false; Delay := 200;
    OpenOltAddress := ":50060"; ApiAddress := ":50070"; RestApiAddress := ":50071"; LegacyApiAddress := ":50072";
    LegacyRestApiAddress := ":50073"; cfg_SadisRestAddress := ":50074"; SadisServer := true;
    KafkaAddress := ":9092"; Events := false; cfg_ControlledActivation := "default"; EnablePerf := false;
    KafkaEventTopic := ""; DmiServerAddress := ":50075"; cfg_BandwidthProfileFormat := "mef";
    InjectOmciUnknownMe := false; InjectOmciUnknownAttributes := false; OmccVersion := 0xA3 |};
  cfg_Olt := default_OltConfig;
  BBR := {| bbr_Log := ""; bbr_LogLevel := "debug"; bbr_LogCaller := false |} |}.

(** ** Merging *)

(** [mergo.Merge] with override, on one field: a value that is not zero
    replaces the old one. *)
Definition over_z (dst src : Z) : Z := if decide (src = 0) then dst else src.
Definition over_s (dst src : string) : string := if decide (src = "") then dst else src.
Definition over_b (dst src : bool) : bool := if src then src else dst.

Definition merge_bbsim (d s : BBSimConfig) : BBSimConfig := {|
  ConfigFile := over_s (ConfigFile d) (ConfigFile s);
  ServiceConfigFile := over_s (ServiceConfigFile d) (ServiceConfigFile s);
  PonsConfigFile := over_s (PonsConfigFile d) (PonsConfigFile s);
  DhcpRetry := over_b (DhcpRetry d) (DhcpRetry s); AuthRetry := over_b (AuthRetry d) (AuthRetry s);
  LogLevel := over_s (LogLevel d) (LogLevel s); LogCaller := over_b (LogCaller d) (LogCaller s);
  Delay := over_z (Delay d) (Delay s); OpenOltAddress := over_s (OpenOltAddress d) (OpenOltAddress s);
  ApiAddress := over_s (ApiAddress d) (ApiAddress s); RestApiAddress := over_s (RestApiAddress d) (RestApiAddress s);
  LegacyApiAddress := over_s (LegacyApiAddress d) (LegacyApiAddress s);
  LegacyRestApiAddress := over_s (LegacyRestApiAddress d) (LegacyRestApiAddress s);
  cfg_SadisRestAddress := over_s (cfg_SadisRestAddress d) (cfg_SadisRestAddress s);
  SadisServer := over_b (SadisServer d) (SadisServer s); KafkaAddress := over_s (KafkaAddress d) (KafkaAddress s);
  Events := over_b (Events d) (Events s);
  cfg_ControlledActivation := over_s (cfg_ControlledActivation d) (cfg_ControlledActivation s);
  EnablePerf := over_b (EnablePerf d) (EnablePerf s); KafkaEventTopic := over_s (KafkaEventTopic d) (KafkaEventTopic s);
  DmiServerAddress := over_s (DmiServerAddress d) (DmiServerAddress s);
  cfg_BandwidthProfileFormat := over_s (cfg_BandwidthProfileFormat d) (cfg_BandwidthProfileFormat s);
  InjectOmciUnknownMe := over_b (InjectOmciUnknownMe d) (InjectOmciUnknownMe s);
  InjectOmciUnknownAttributes := over_b (InjectOmciUnknownAttributes d) (InjectOmciUnknownAttributes s);
  OmccVersion := over_z (OmccVersion d) (OmccVersion s) |}.

Definition merge_olt (d s : OltConfig) : OltConfig := {|
  cfg_Model := over_s (cfg_Model d) (cfg_Model s); cfg_Vendor := over_s (cfg_Vendor d) (cfg_Vendor s);
  cfg_HardwareVersion := over_s (cfg_HardwareVersion d) (cfg_HardwareVersion s);
  cfg_FirmwareVersion := over_s (cfg_FirmwareVersion d) (cfg_FirmwareVersion s);
  cfg_DeviceId := over_s (cfg_DeviceId d) (cfg_DeviceId s);
  cfg_DeviceSerialNumber := over_s (cfg_DeviceSerialNumber d) (cfg_DeviceSerialNumber s);
  PonPorts := over_z (PonPorts d) (PonPorts s); NniPorts := over_z (NniPorts d) (NniPorts s);
  Options.NniSpeed := over_z (Options.NniSpeed d) (Options.NniSpeed s);
  OnusPonPort := over_z (OnusPonPort d) (OnusPonPort s); OltID := over_z (OltID d) (OltID s);
  OltRebootDelay := over_z (OltRebootDelay d) (OltRebootDelay s);
  PortStatsInterval := over_z (PortStatsInterval d) (PortStatsInterval s);
  Options.OmciResponseRate := over_z (Options.OmciResponseRate d) (Options.OmciResponseRate s);
  UniPorts := over_z (UniPorts d) (UniPorts s); PotsPorts := over_z (PotsPorts d) (PotsPorts s);
  NniDhcpTrapVid := over_z (NniDhcpTrapVid d) (NniDhcpTrapVid s) |}.

Definition merge_bbr (d s : BBRConfig) : BBRConfig := {|
  bbr_Log := over_s (bbr_Log d) (bbr_Log s); bbr_LogLevel := over_s (bbr_LogLevel d) (bbr_LogLevel s);
  bbr_LogCaller := over_b (bbr_LogCaller d) (bbr_LogCaller s) |}.

Definition Merge (d s : GlobalConfig) : GlobalConfig := {|
  BBSim := merge_bbsim (BBSim d) (BBSim s); cfg_Olt := merge_olt (cfg_Olt d) (cfg_Olt s);
  BBR := merge_bbr (BBR d) (BBR s) |}.

(** ** The command line *)

(** The flags: [None] when a flag is not given. *)
Record Flags := {
  f_config : option string; f_services : option string; f_pon_port_config_file : option string;
  f_bp_format : option string; f_olt_id : option Z; f_nni : option Z; f_nni_speed : option Z; f_pon : option Z;
  f_onu : option Z; f_uni : option Z; f_pots : option Z; f_nni_dhcp_trap_vid : option Z;
  f_oltRebootDelay : option Z; f_omci_response_rate : option Z; f_openolt_address : option string;
  f_api_address : option string; f_rest_api_address : option string; f_dmi_server_address : option string;
  f_logLevel : option string; f_logCaller : option bool; f_delay : option Z; f_ca : option string;
  f_enableperf : option bool; f_enableEvents : option bool; f_kafkaAddress : option string;
  f_kafkaEventTopic : option string; f_dhcpRetry : option bool; f_authRetry : option bool;
  f_injectOmciUnknownMe : option bool; f_injectOmciUnknownAttributes : option bool; f_omccVersion : option Z }.

(** Source: internal/common/options.go:323-399, [readCliParams] (every flag
    with the default it has when it is not given; ports and rates are cut to
    their width). *)
Definition cli_options (f : Flags) : GlobalConfig :=
  let c := GetDefaultOps in let b := BBSim c in let o := cfg_Olt c in
  {| BBSim := {|
       ConfigFile := default (ConfigFile b) (f_config f);
       ServiceConfigFile := default (ServiceConfigFile b) (f_services f);
       PonsConfigFile := default (PonsConfigFile b) (f_pon_port_config_file f);
       DhcpRetry := default (DhcpRetry b) (f_dhcpRetry f); AuthRetry := default (AuthRetry b) (f_authRetry f);
       LogLevel := default (LogLevel b) (f_logLevel f); LogCaller := default (LogCaller b) (f_logCaller f);
       Delay := default (Delay b) (f_delay f);
       OpenOltAddress := default (OpenOltAddress b) (f_openolt_address f);
       ApiAddress := default (ApiAddress b) (f_api_address f);
       RestApiAddress := default (RestApiAddress b) (f_rest_api_address f);
       LegacyApiAddress := LegacyApiAddress b; LegacyRestApiAddress := LegacyRestApiAddress b;
       cfg_SadisRestAddress := cfg_SadisRestAddress b; SadisServer := SadisServer b;
       KafkaAddress := default (KafkaAddress b) (f_kafkaAddress f); Events := default (Events b) (f_enableEvents f);
       cfg_ControlledActivation := default (cfg_ControlledActivation b) (f_ca f);
       EnablePerf := default (EnablePerf b) (f_enableperf f);
       KafkaEventTopic := default (KafkaEventTopic b) (f_kafkaEventTopic f);
       DmiServerAddress := default (DmiServerAddress b) (f_dmi_server_address f);
       cfg_BandwidthProfileFormat := default (cfg_BandwidthProfileFormat b) (f_bp_format f);
       InjectOmciUnknownMe := default (InjectOmciUnknownMe b) (f_injectOmciUnknownMe f);
       InjectOmciUnknownAttributes := default (InjectOmciUnknownAttributes b) (f_injectOmciUnknownAttributes f);
       OmccVersion := default (OmccVersion b) (f_omccVersion f) |};
     cfg_Olt := {|
       cfg_Model := cfg_Model o; cfg_Vendor := cfg_Vendor o; cfg_HardwareVersion := cfg_HardwareVersion o;
       cfg_FirmwareVersion := cfg_FirmwareVersion o; cfg_DeviceId := cfg_DeviceId o;
       cfg_DeviceSerialNumber := cfg_DeviceSerialNumber o;
       PonPorts := u32 (default (PonPorts o) (f_pon f)); NniPorts := u32 (default (NniPorts o) (f_nni f));
       Options.NniSpeed := u32 (default (Options.NniSpeed o) (f_nni_speed f));
       OnusPonPort := u32 (default (OnusPonPort o) (f_onu f)); OltID := default (OltID o) (f_olt_id f);
       OltRebootDelay := default (OltRebootDelay o) (f_oltRebootDelay f); PortStatsInterval := PortStatsInterval o;
       Options.OmciResponseRate := u8 (default (Options.OmciResponseRate o) (f_omci_response_rate f));
       UniPorts := u32 (default (UniPorts o) (f_uni f)); PotsPorts := u32 (default (PotsPorts o) (f_pots f));
       NniDhcpTrapVid := u32 (default (NniDhcpTrapVid o) (f_nni_dhcp_trap_vid f)) |};
     BBR := BBR c |}.

Definition set_device_id (x : string) (c : GlobalConfig) : GlobalConfig :=
  let o := cfg_Olt c in
  {| BBSim := BBSim c; BBR := BBR c; cfg_Olt := {|
       cfg_Model := cfg_Model o; cfg_Vendor := cfg_Vendor o; cfg_HardwareVersion := cfg_HardwareVersion o;
       cfg_FirmwareVersion := cfg_FirmwareVersion o; cfg_DeviceId := x;
       cfg_DeviceSerialNumber := cfg_DeviceSerialNumber o; PonPorts := PonPorts o; NniPorts := NniPorts o;
       Options.NniSpeed := Options.NniSpeed o; OnusPonPort := OnusPonPort o; OltID := OltID o;
       OltRebootDelay := OltRebootDelay o; PortStatsInterval := PortStatsInterval o;
       Options.OmciResponseRate := Options.OmciResponseRate o; UniPorts := UniPorts o; PotsPorts := PotsPorts o;
       NniDhcpTrapVid := NniDhcpTrapVid o |} |}.

(** Source: internal/common/options.go, [readCliParams]. *)
Definition readCliParams (f : Flags) : outcome GlobalConfig :=
  let conf := cli_options f in
  let conf := if decide (cfg_DeviceId (cfg_Olt conf) = "")
    then set_device_id (mac_string [10; 10; 10; 10; 10; u8 (OltID (cfg_Olt conf))]) conf else conf in
  let format := cfg_BandwidthProfileFormat (BBSim conf) in
  if decide (format <> "mef" /\ format <> "ietf") then Exited "Invalid parameter 'bp_format'" else Done conf.

(** ** Files *)

(** The files of the system: [None] for a file that cannot be read; decoding a
    YAML file over a value gives the new value or an error. *)
Record Files := {
  conf_file : string -> option (GlobalConfig -> error + GlobalConfig);
  services_file : string -> error + (error + list ServiceYaml);
  pons_file : string -> option (PonPortsConfig -> error + PonPortsConfig) }.

Section Load.
  Context (fs : Files).

(** Source: internal/common/options.go, [loadBBSimConf]. *)
Definition loadBBSimConf (filename : string) : error + GlobalConfig :=
  match conf_file fs filename with
  | None => inr GetDefaultOps
  | Some unmarshal => unmarshal GetDefaultOps
  end.

(** Source: internal/common/options.go, [loadBBSimPons]. *)
Definition loadBBSimPons (c : OltConfig) (nservices : option Z) (filename : string) : error + PonPortsConfig :=
  match getDefaultPonsConfig (Some c) nservices with
  | inl e => inl e
  | inr d =>
      match pons_file fs filename with
      | None => inr d
      | Some unmarshal => unmarshal d
      end
  end.

(** Source: internal/common/options.go:617-628, [loadBBSimServices] (a service:
    both tag allocations are given, and that of the C tag is known). *)
Definition check_service (v : ServiceYaml) : outcome unit :=
  if decide (CTagAllocation v = "" \/ STagAllocation v = "") then
    Exited "c_tag_allocation and s_tag_allocation are mandatory fields"
  else
    match (tagAllocationFromString (CTagAllocation v)).2 with
    | Some _ => Exited "c_tag_allocation is not valid"
    | None => Done tt
    end.

Fixpoint check_all_services (l : list ServiceYaml) : outcome unit :=
  match l with
  | [] => Done tt
  | v :: l' => match check_service v with Done _ => check_all_services l' | x => x end
  end.

(** Source: internal/common/options.go, [loadBBSimServices]. *)
Definition loadBBSimServices (filename : string) : outcome (error + list ServiceYaml) :=
  match services_file fs filename with
  | inl e => Done (inl e)
  | inr (inl e) => Done (inl e)
  | inr (inr l) => match check_all_services l with
                   | Done _ => Done (inr l) | Panicked w => Panicked w | Blocked w => Blocked w | Exited w => Exited w
                   end
  end.

(** Source: internal/common/options.go, [LoadConfig].  A list of services that
    is absent from the file is nil, and then there are no default ranges:
    [nil_services] tells whether an empty list is. *)
Definition LoadConfig (f : Flags) (nil_services : bool) : outcome (GlobalConfig * list ServiceYaml * PonPortsConfig) :=
  cliConf ← readCliParams f;
  match loadBBSimConf (ConfigFile (BBSim cliConf)) with
  | inl _ => Exited "Can't read config file"
  | inr yamlConf =>
      let conf := Merge (Merge GetDefaultOps yamlConf) cliConf in
      services ← loadBBSimServices (ServiceConfigFile (BBSim conf));
      match services with
      | inl _ => Exited "Can't read services file"
      | inr l =>
          let n := if decide (l = [] /\ nil_services = true) then None else Some (Z.of_nat (length l)) in
          let pons :=
            if decide (PonsConfigFile (BBSim conf) = "") then getDefaultPonsConfig (Some (cfg_Olt conf)) n
            else loadBBSimPons (cfg_Olt conf) n (PonsConfigFile (BBSim conf)) in
          match pons with
          | inl _ => Exited "Can't load Pon interfaces"
          | inr p =>
              match validatePonsConfig p with
              | Some _ => Exited "Invalid Pon interfaces configuration"
              | None => Done (conf, l, p)
              end
          end
      end
  end.
End Load.

(** ** Properties *)

Lemma LoadConfig_inv fs f b conf l p :
  LoadConfig fs f b = Done (conf, l, p) ->
  exists cli yaml, readCliParams f = Done cli /\ loadBBSimConf fs (ConfigFile (BBSim cli)) = inr yaml /\
    conf = Merge (Merge GetDefaultOps yaml) cli /\ check_all_services l = Done tt /\ validatePonsConfig p = None.
Proof.
  unfold LoadConfig. destruct (readCliParams f) as [cli| | |]; [|done..]. cbn [mbind outcome_bind].
  destruct (loadBBSimConf fs _) as [|yaml] eqn:Ey; [done|]. unfold loadBBSimServices.
  destruct (services_file fs _) as [|[|l']]; [done..|].
  destruct (check_all_services l') as [[]| | |] eqn:Ec; [|done..]. cbn [mbind outcome_bind].
  destruct (if decide _ then _ else _) as [|p']; [done|].
  destruct (validatePonsConfig p') eqn:Ev; [done|]. intros [= <- <- <-]. by exists cli, yaml.
Qed.

Lemma check_all_services_ok l :
  check_all_services l = Done tt <->
  Forall (fun v => CTagAllocation v <> "" /\ STagAllocation v <> "" /\
                   (tagAllocationFromString (CTagAllocation v)).2 = None) l.
Proof.
  induction l as [|v l IH]; cbn [check_all_services]; [done|]. rewrite Forall_cons, <-IH. unfold check_service.
  case_decide; [naive_solver|]. destruct (tagAllocationFromString (CTagAllocation v)).2; naive_solver.
Qed.

(** The numeric options that have a flag: the option, its flag, and the
    conversion to its width. *)
Definition number_options : list ((GlobalConfig -> Z) * (Flags -> option Z) * (Z -> Z)) :=
  [((fun c => OltID (cfg_Olt c)), f_olt_id, id);
   ((fun c => NniPorts (cfg_Olt c)), f_nni, u32);
   ((fun c => Options.NniSpeed (cfg_Olt c)), f_nni_speed, u32);
   ((fun c => PonPorts (cfg_Olt c)), f_pon, u32);
   ((fun c => OnusPonPort (cfg_Olt c)), f_onu, u32);
   ((fun c => UniPorts (cfg_Olt c)), f_uni, u32);
   ((fun c => PotsPorts (cfg_Olt c)), f_pots, u32);
   ((fun c => NniDhcpTrapVid (cfg_Olt c)), f_nni_dhcp_trap_vid, u32);
   ((fun c => OltRebootDelay (cfg_Olt c)), f_oltRebootDelay, id);
   ((fun c => Options.OmciResponseRate (cfg_Olt c)), f_omci_response_rate, u8);
   ((fun c => Delay (BBSim c)), f_delay, id);
   ((fun c => OmccVersion (BBSim c)), f_omccVersion, id)].

Lemma readCliParams_numbers f cli :
  readCliParams f = Done cli ->
  Forall (fun '(get, flag, cut) => get cli = cut (default (get GetDefaultOps) (flag f))) number_options.
Proof.
  unfold readCliParams. cbv zeta.
  destruct (decide (cfg_DeviceId (cfg_Olt (cli_options f)) = "")) as [_|[]]; [|reflexivity]. case_decide; [done|]. intros [= <-].
  by repeat constructor.
Qed.

Lemma Merge_numbers d s : Forall (fun '(get, flag, cut) => get (Merge d s) = over_z (get d) (get s)) number_options.
Proof. by repeat constructor. Qed.

Lemma default_numbers : Forall (fun '(get, flag, cut) => cut (get GetDefaultOps) = get GetDefaultOps) number_options.
Proof. by repeat constructor. Qed.

(** What a configuration that was loaded guarantees.  When [LoadConfig]
    returns, every PON number below the number of ports has exactly one range,
    with a known technology; every service has both tag allocations and a known
    one for its C tag; and for every numeric option, a value given on the
    command line that is not zero at the option's width is the one used,
    whatever the files say, while without the flag a default that is not zero is
    used. *)
Theorem LoadConfig_valid (fs : Files) (f : Flags) (nil_services : bool) (conf : GlobalConfig)
    (l : list ServiceYaml) (p : PonPortsConfig) :
  LoadConfig fs f nil_services = Done (conf, l, p) -> pons_typed p ->
  (forall id, 0 <= id < Number p -> exists r, GetPonConfigById (Some p) id = inr r /\
     StartId (PonRange r) <= id <= EndId (PonRange r) /\
     (forall r', r' ∈ Ranges p -> covers id r' = true -> r' = r) /\
     (PonTechnologyFromString (Technology r)).2 = None) /\
  Forall (fun v => CTagAllocation v <> "" /\ STagAllocation v <> "" /\
                   (tagAllocationFromString (CTagAllocation v)).2 = None) l /\
  Forall (fun '(get, flag, cut) =>
    (forall v, flag f = Some v -> cut v <> 0 -> get conf = cut v) /\
    (flag f = None -> get GetDefaultOps <> 0 -> get conf = get GetDefaultOps)) number_options.
Proof.
  intros Hl Ht. apply LoadConfig_inv in Hl as (cli & yaml & Hcli & _ & -> & Hs & Hv). split; [|split].
  - intros id Hid. destruct (pon_config_found p id Ht Hv Hid) as (r & H1 & _ & H2). by exists r.
  - by apply check_all_services_ok.
  - pose proof (readCliParams_numbers f cli Hcli) as H1. pose proof (Merge_numbers (Merge GetDefaultOps yaml) cli) as H2.
    pose proof default_numbers as H3. rewrite Forall_forall in H1, H2, H3 |- *. intros [[get flag] cut] Hin.
    specialize (H1 _ Hin) as Hc. specialize (H2 _ Hin) as Hm. specialize (H3 _ Hin) as Hd. cbn in Hc, Hm, Hd.
    rewrite Hm, Hc. unfold over_z.
    split; [intros v -> Hv'|intros -> Hv']; cbn [default]; [|rewrite Hd]; by rewrite decide_False.
Qed.

Definition zero_delay : Flags := {|
  f_config := None; f_services := None; f_pon_port_config_file := None; f_bp_format := None; f_olt_id := None;
  f_nni := None; f_nni_speed := None; f_pon := None; f_onu := None; f_uni := None; f_pots := None;
  f_nni_dhcp_trap_vid := None; f_oltRebootDelay := None; f_omci_response_rate := None; f_openolt_address := None;
  f_api_address := None; f_rest_api_address := None; f_dmi_server_address := None; f_logLevel := None;
  f_logCaller := None; f_delay := Some 0; f_ca := None; f_enableperf := None; f_enableEvents := None;
  f_kafkaAddress := None; f_kafkaEventTopic := None; f_dhcpRetry := None; f_authRetry := None;
  f_injectOmciUnknownMe := None; f_injectOmciUnknownAttributes := None; f_omccVersion := None |}.

(** A YAML file that asks for four PON ports, and one service. *)
Definition four_pons (c : GlobalConfig) : GlobalConfig :=
  let o := cfg_Olt c in
  {| BBSim := BBSim c; BBR := BBR c; cfg_Olt := {|
       cfg_Model := cfg_Model o; cfg_Vendor := cfg_Vendor o; cfg_HardwareVersion := cfg_HardwareVersion o;
       cfg_FirmwareVersion := cfg_FirmwareVersion o; cfg_DeviceId := cfg_DeviceId o;
       cfg_DeviceSerialNumber := cfg_DeviceSerialNumber o; PonPorts := 4; NniPorts := NniPorts o;
       Options.NniSpeed := Options.NniSpeed o; OnusPonPort := OnusPonPort o; OltID := OltID o;
       OltRebootDelay := OltRebootDelay o; PortStatsInterval := PortStatsInterval o;
       Options.OmciResponseRate := Options.OmciResponseRate o; UniPorts := UniPorts o; PotsPorts := PotsPorts o;
       NniDhcpTrapVid := NniDhcpTrapVid o |} |}.
Definition example_files (services : list ServiceYaml) : Files := {|
  conf_file := fun _ => Some (fun c => inr (four_pons c)); services_file := fun _ => inr (inr services);
  pons_file := fun _ => None |}.
Definition loaded (services : list ServiceYaml) : option (GlobalConfig * list ServiceYaml * PonPortsConfig) :=
  match LoadConfig (example_files services) zero_delay false with Done x => Some x | _ => None end.

Lemma LoadConfig_valid_witness :
  match loaded [att_hsia] with
  | Some (conf, l, p) => exists r, GetPonConfigById (Some p) 0 = inr r /\ StartId (PonRange r) <= 0
  | None => False
  end.
Proof.
  destruct (loaded [att_hsia]) as [[[conf l] p]|] eqn:E; [|vm_compute in E; discriminate E].
  unfold loaded in E. destruct (LoadConfig _ zero_delay false) as [x| | |] eqn:El; try discriminate E. injection E as ->.
  assert (Number p = 1 /\ pons_typed p) as [Hn Ht].
  { vm_compute in El. injection El as <- <- <-. split; [reflexivity|]. split; [cbn; lia|]. repeat constructor; cbn; lia. }
  destruct (LoadConfig_valid _ _ _ _ _ _ El Ht) as (H1 & _). destruct (H1 0) as (r & Hr & Hs & _); [lia|].
  exact (ex_intro _ r (conj Hr (proj1 Hs))).
Defined.

(** ** Where the code departs from what it says *)

(** The number of PON ports in the YAML file is replaced by the default of the
    flag that was not given, and a flag that asks for no delay is ignored. *)
Lemma yaml_value_ignored :
  (fun x => PonPorts (cfg_Olt x.1.1)) <$> loaded [att_hsia] = Some 1 /\
  (fun x => Delay (BBSim x.1.1)) <$> loaded [att_hsia] = Some 200.
Proof. split; vm_compute; reflexivity. Qed.

(** The allocation of the S tag is not checked, and that of the C tag is checked
    without the spaces around it, while [NewUniPort] compares the whole text:
    both of these services load, and neither is given tags of its own. *)
Definition odd_service : ServiceYaml := {|
  y_Name := "hsia"; y_CTag := 900; y_STag := 900; y_NeedsEapol := false; y_NeedsDhcp := false; y_NeedsIgmp := false;
  y_NeedsPPPoE := false; CTagAllocation := " unique"; STagAllocation := "uniqe"; y_TechnologyProfileID := 64;
  y_UniTagMatch := 0; y_ConfigureMacAddress := false; y_EnableMacLearning := false; y_UsPonCTagPriority := 0;
  y_UsPonSTagPriority := 0; y_DsPonCTagPriority := 0; y_DsPonSTagPriority := 0 |}.
Definition tags_of (r : outcome ((error + UniPort) * gmap string Z * gmap string Z)) : list (Z * Z) :=
  match r with Done (inr u, _, _) => (fun v => (CTag v, STag v)) <$> Services u | _ => [] end.
Lemma odd_allocation_loads :
  check_all_services [odd_service] = Done tt /\
  tags_of (NewUniPort [odd_service] 0 0 1 0 ∅ ∅) = [(900, 900)] /\
  tags_of (NewUniPort [odd_service] 0 0 2 0 {["hsia" := 900]} {["hsia" := 900]}) = [(900, 900)].
Proof. split_and!; vm_compute; reflexivity. Qed.
