(* ===== verification/Boot.v ===== *)
(** * Starting the simulator

    [cmd/bbsim/bbsim.go] and [cmd/bbr/bbr.go]: the main programs load the
    configuration and create the device from it.  The theorem composes the two:
    from a configuration that was loaded, when the device is created and with
    which tags for every subscriber. *)
From S2P Require Import Prelude Fsm Options OmciTypes Omci MibDb Packets Types Io Service.
From S2P Require Import PonRes AlarmSim UniPort Get Onu OnuOmci OnuLoop OltFlows OltSpec Olt OltProps OltWf Api ApiInfo.
From S2P Require Import Bbr Config.
Open Scope Z_scope.
Open Scope string_scope.

Section Main.
  Context `{OmciLib}.

(** Source: internal/bbsim/devices/olt.go:139-164, [CreateOLT] (the fields of the
    device that come from the options; the ONUs read theirs from the OLT). *)
Definition create_device (conf : GlobalConfig) (services : list ServiceYaml) (pons : PonPortsConfig)
    (isMock : bool) (now : Z) : outcome (option OltDevice) :=
  let o := cfg_Olt conf in let b := BBSim conf in
  CreateOLT (OltID o) (Options.NniSpeed o) (PonPorts o) (OnusPonPort o) (cfg_ControlledActivation b) (Events b)
    (EnablePerf b) isMock now
    {| cfg_services := services; cfg_olt := OltID o; cfg_rate := Options.OmciResponseRate o;
       cfg_NumUni := UniPorts o; cfg_NumPots := PotsPorts o; cfg_tech := XGSPON;
       cfg_unknownAttributes := InjectOmciUnknownAttributes b; cfg_unknownMe := InjectOmciUnknownMe b |}
    pons.

(** Source: cmd/bbsim/bbsim.go:132-178, [main] (until the device is created). *)
Definition bbsim_boot (fs : Files) (f : Flags) (nil_services : bool) (now : Z) : outcome (option OltDevice) :=
  '(conf, services, pons) ← LoadConfig fs f nil_services;
  create_device conf services pons false now.

(** Source: internal/common/options.go, [BBRCliOptions]. *)
Record BBRCliOptions := { bbr_conf : GlobalConfig; BBSimIp : string; BBSimPort : string; BBSimApiPort : string; LogFile : string }.

(** The flags of BBR. *)
Record BbrFlags := {
  f_bbsimIp : option string; f_bbsimPort : option string; f_bbsimApiPort : option string; f_logfile : option string }.

(** Source: internal/common/options.go, [GetBBROpts]. *)
Definition GetBBROpts (fs : Files) (f : Flags) (g : BbrFlags) (nil_services : bool)
    : outcome (BBRCliOptions * list ServiceYaml * PonPortsConfig) :=
  '(conf, services, pons) ← LoadConfig fs f nil_services;
  Done ({| bbr_conf := conf; BBSimIp := default "127.0.0.1" (f_bbsimIp g); BBSimPort := default "50060" (f_bbsimPort g);
           BBSimApiPort := default "50070" (f_bbsimApiPort g); LogFile := default "" (f_logfile g) |}, services, pons).

(** Source: cmd/bbr/bbr.go:36-88, [main] (until [Start]).  The number of ONUs is
    multiplied at 32 bits.  The log file cannot always be opened. *)
Definition bbr_boot (fs : Files) (f : Flags) (g : BbrFlags) (nil_services log_opens : bool) (now : Z) : outcome OltMock :=
  '(opts, services, pons) ← GetBBROpts fs f g nil_services;
  if decide (LogFile opts <> "" /\ log_opens = false) then Exited "Failed to log to file, using default stderr" else
  let conf := bbr_conf opts in
  olt ← create_device conf services pons true now;
  match olt with
  | None => Panicked "invalid memory address or nil pointer dereference"
  | Some s =>
      Done {| LastUsedOnuId := ∅; mock := s; bbr_client := {| c_err := None; c_calls := [] |};
              TargetOnus := u32 (PonPorts (cfg_Olt conf) * OnusPonPort (cfg_Olt conf)); CompletedOnus := 0;
              watched := []; conn := false |}
  end.
End Main.

(** ** Handing out tags while the device is created *)

(** Code that creates the UNIs from the [n]-th to before the [n + k]-th: it exits
    exactly when a tag is over its limit, and leaves the next tags recorded. *)
Definition allots {A : Type} (l : list ServiceYaml) (n k : nat) (r : outcome (A * gmap string Z * gmap string Z))
    (P : A -> Prop) : Prop :=
  (exists w, r = Exited w) /\ ~ (forall j, (n <= j < n + k)%nat -> in_limits l j) \/
  (forall j, (n <= j < n + k)%nat -> in_limits l j) /\
  exists x c t, r = Done (x, c, t) /\ P x /\ tracks_C l (n + k) c /\ tracks_S l (n + k) t.

Section Allots.
  Context (l : list ServiceYaml).

Lemma allots_done {A : Type} n (x : A) c t (P : A -> Prop) :
  tracks_C l n c -> tracks_S l n t -> P x -> allots l n 0 (Done (x, c, t)) P.
Proof. intros Hc Ht Hx. right. split; [lia|]. exists x, c, t. by rewrite Nat.add_0_r. Qed.

Lemma allots_bind {A B : Type} n k k' (r : outcome (A * gmap string Z * gmap string Z))
    (f : A * gmap string Z * gmap string Z -> outcome (B * gmap string Z * gmap string Z)) P Q :
  allots l n k r P ->
  (forall x c t, P x -> tracks_C l (n + k) c -> tracks_S l (n + k) t -> allots l (n + k) k' (f (x, c, t)) Q) ->
  allots l n (k + k') (r ≫= f) Q.
Proof.
  intros [[[w ->] Hn]|(Hin & x & c & t & -> & Hx & Hc & Ht)] Hf.
  { left. split; [by exists w|]. intros H. apply Hn. intros j Hj. apply H. lia. }
  cbn [mbind outcome_bind]. destruct (Hf x c t Hx Hc Ht) as [[[w ->] Hn]|(Hin' & y & c' & t' & -> & Hy & Hc' & Ht')].
  - left. split; [by exists w|]. intros H. apply Hn. intros j Hj. apply H. lia.
  - right. split; [|exists y, c', t'; rewrite Nat.add_assoc; done]. intros j Hj.
    destruct (decide (j < n + k)%nat); [apply Hin|apply Hin']; lia.
Qed.
End Allots.

Section Create.
  Context `{OmciLib} (cfg : OnuConfig).
  Hypothesis names_distinct : NoDup (y_Name <$> cfg_services cfg).

(** The UNIs of an ONU that are the [n]-th of the device and after. *)
Definition unis_tagged (n : nat) (us : list UniPort) : Prop :=
  forall k u, us !! k = Some u -> tags_ok (cfg_services cfg) (n + k) (Services u).

Lemma create_onu_unis_allots pon id k i n c t :
  i + Z.of_nat k <= maxUniPorts -> tracks_C (cfg_services cfg) n c -> tracks_S (cfg_services cfg) n t ->
  allots (cfg_services cfg) n k (create_onu_unis cfg pon id k i c t) (fun us => length us = k /\ unis_tagged n us).
Proof.
  revert i n c t. induction k as [|k IH]; intros i n c t Hi Hc Ht; cbn [create_onu_unis].
  { apply allots_done; [done..|]. by split. }
  unfold NewUniPort. rewrite decide_False by lia. change (S k) with (1 + k)%nat.
  destruct (new_services_spec (cfg_olt cfg) pon id i 0 _ c t n names_distinct Hc Ht)
    as [[[w ->] Hl]|(Hl & svcs & c' & t' & -> & Htg & _ & Hc' & Ht' & _)].
  { left. split; [by exists w|]. intros Hj. apply Hl, Hj. lia. }
  cbn [mbind outcome_bind].
  assert (allots (cfg_services cfg) (S n) (k + 0)
    ('(us, c2, s2) ← create_onu_unis cfg pon id k (i + 1) c' t';
     Done ({| uni_ID := i; uni_MeId := GenerateUniPortEntityId (u32 (i + 1)); PortNo := 0; uni_OperState := UniStateDown;
              Services := svcs; uni_PacketCh := ChOpen []; listeners := 0 |} :: us, c2, s2))
    (fun us => length us = S k /\ unis_tagged n us)) as Hr.
  { eapply allots_bind; [apply IH; [lia|done..]|]. intros us c2 t2 [Hlen Hus] Hc2 Ht2.
    apply allots_done; [done..|]. split; [cbn; lia|]. intros [|j] u Hj; cbn in Hj; [simplify_eq; by rewrite Nat.add_0_r|].
    replace (n + S j)%nat with (S n + j)%nat by lia. by apply Hus. }
  rewrite Nat.add_0_r in Hr. destruct Hr as [[Hw Hn]|(Hin & x & c2 & t2 & Hd & Hx & Hc2 & Ht2)].
  - left. split; [exact Hw|]. intros Hj. apply Hn. intros j Hj'. apply Hj. lia.
  - right. split; [|exists x, c2, t2; split; [exact Hd|]; by replace (n + (1 + k))%nat with (S n + k)%nat by lia].
    intros j Hj. destruct (decide (j = n)) as [->|]; [done|]. apply Hin. lia.
Qed.

(** The ports an ONU can have. *)
Definition ports_fit : Prop :=
  0 <= cfg_NumUni cfg <= maxUniPorts /\ 0 <= cfg_NumPots cfg /\ cfg_NumUni cfg + cfg_NumPots cfg <= 255 /\
  cfg_unknownAttributes cfg = false /\ cfg_unknownMe cfg = false.
Hypothesis ports : ports_fit.

Let per_onu : nat := Z.to_nat (cfg_NumUni cfg).

Definition onu_tagged (n : nat) (o : Onu) : Prop :=
  length (o_UniPorts o) = per_onu /\ unis_tagged n (o_UniPorts o).

Lemma CreateONU_allots pon id addr isMock n c t :
  tracks_C (cfg_services cfg) n c -> tracks_S (cfg_services cfg) n t ->
  allots (cfg_services cfg) n per_onu (CreateONU cfg pon id addr isMock c t) (onu_tagged n).
Proof.
  destruct ports as (Hu & Hp & Hup & Ha & Hm). intros Hc Ht. unfold CreateONU. rewrite Ha, Hm.
  rewrite <-(Nat.add_0_r per_onu). eapply allots_bind; [apply create_onu_unis_allots; [lia|done..]|].
  intros us c' t' [Hlen Hus] Hc' Ht'.
  destruct (GenerateMibDatabase_built (Z.of_nat (length us))
    (Z.of_nat (length ((fun i => NewPotsPort (u32 (cfg_NumUni cfg + Z.of_nat i))) <$> seq 0 (Z.to_nat (cfg_NumPots cfg)))))
    (cfg_tech cfg)) as (chunks & _ & _ & _ & ->); [lia|lia|rewrite length_fmap, length_seq; lia|].
  cbn [mbind outcome_bind]. by apply allots_done.
Qed.

Definition onus_tagged (n : nat) (os : list Onu) : Prop :=
  forall i o, os !! i = Some o -> onu_tagged (n + i * per_onu) o.

Lemma create_onus_allots pon isMock k j n c t :
  tracks_C (cfg_services cfg) n c -> tracks_S (cfg_services cfg) n t ->
  allots (cfg_services cfg) n (k * per_onu) (create_onus cfg pon isMock k j c t)
    (fun os => length os = k /\ onus_tagged n os).
Proof.
  revert j n c t. induction k as [|k IH]; intros j n c t Hc Ht; cbn [create_onus Nat.mul].
  { apply allots_done; [done..|]. by split. }
  eapply allots_bind; [by apply CreateONU_allots|]. intros o c1 t1 Ho Hc1 Ht1.
  rewrite <-(Nat.add_0_r (k * per_onu)). eapply allots_bind; [by apply IH|].
  intros os c2 t2 [Hlen Hos] Hc2 Ht2. apply allots_done; [done..|]. split; [cbn; lia|].
  intros [|i] o' Hi; cbn in Hi; [simplify_eq; by rewrite Nat.add_0_r|].
  replace (n + S i * per_onu)%nat with (n + per_onu + i * per_onu)%nat by lia. by apply Hos.
Qed.
End Create.

(** The device: the ONUs of every port. *)
Section Ports.
  Context `{OmciLib} (cfg : OnuConfig) (pons : PonPortsConfig) (numOnu : Z).
  Hypothesis names_distinct : NoDup (y_Name <$> cfg_services cfg).
  Hypothesis ports : ports_fit cfg.

(** What the configuration says of PON [i]. *)
Definition pon_fits (i : Z) : Prop :=
  exists r, GetPonConfigById (Some pons) i = inr r /\ (PonTechnologyFromString (Technology r)).2 = None /\
    u32 numOnu <= u32 (EndId (OnuRange r) - StartId (OnuRange r) + 1).

Let per_onu : nat := Z.to_nat (cfg_NumUni cfg).
Let per_pon : nat := Z.to_nat numOnu * per_onu.

Definition pons_tagged (n : nat) (ps : list PonPort) : Prop :=
  forall p pp, ps !! p = Some pp -> length (Onus pp) = Z.to_nat numOnu /\ onus_tagged cfg (n + p * per_pon) (Onus pp).

Lemma create_pons_allots isMock k i n c t :
  0 <= i -> i + Z.of_nat k <= 2 ^ 32 -> (forall p, i <= p < i + Z.of_nat k -> pon_fits p) ->
  tracks_C (cfg_services cfg) n c -> tracks_S (cfg_services cfg) n t ->
  (exists w, create_pons cfg pons numOnu isMock k i c t = Exited w) /\
    ~ (forall j, (n <= j < n + k * per_pon)%nat -> in_limits (cfg_services cfg) j) \/
  (forall j, (n <= j < n + k * per_pon)%nat -> in_limits (cfg_services cfg) j) /\
  exists ps, create_pons cfg pons numOnu isMock k i c t = Done ps /\ length ps = k /\ pons_tagged n ps.
Proof.
  revert i n c t. induction k as [|k IH]; intros i n c t Hi Hk Hfit Hc Ht; cbn [create_pons Nat.mul].
  { right. split; [lia|]. by exists []. }
  assert (u32 i = i) as -> by (unfold u32; apply Z.mod_small; lia).
  destruct (Hfit i) as (r & -> & Htech & Hr); [lia|].
  destruct (PonTechnologyFromString (Technology r)) as [tech [e|]]; [done|].
  rewrite decide_False by lia.
  destruct (create_onus_allots (with_tech cfg tech) names_distinct ports i isMock (Z.to_nat numOnu) 0 n c t Hc Ht)
    as [[[w ->] Hn]|(Hin & os & c1 & t1 & -> & [Hlen Hos] & Hc1 & Ht1)]; cbn [mbind outcome_bind].
  { left. split; [by exists w|]. intros Hj. apply Hn. intros j Hj'. apply Hj.
    unfold per_pon, per_onu. cbn in Hj'. lia. }
  destruct (IH (i + 1) (n + per_pon)%nat c1 t1) as [[[w ->] Hn]|(Hin' & ps & -> & Hlp & Hps)];
    [lia|lia|intros p Hp; apply Hfit; lia|exact Hc1|exact Ht1|..]; cbn [mbind outcome_bind].
  - left. split; [by exists w|]. intros Hj. apply Hn. intros j Hj'. apply Hj. lia.
  - right. split.
    { intros j Hj. destruct (decide (j < n + per_pon)%nat); [apply Hin|apply Hin']; unfold per_pon, per_onu in *; cbn; lia. }
    eexists. split; [reflexivity|]. split; [cbn; lia|].
    intros [|p] pp Hp; cbn in Hp; [simplify_eq; rewrite Nat.add_0_r; by split|].
    replace (n + S p * per_pon)%nat with (n + per_pon + p * per_pon)%nat by lia. by apply Hps.
Qed.
End Ports.

(** ** Properties *)

(** The options a device can be made of, given the ranges of the PON ports. *)
Record options_fit (conf : GlobalConfig) (p : PonPortsConfig) : Prop := {
  of_pons : 0 <= PonPorts (cfg_Olt conf) <= Number p /\ Number p <= 2 ^ 32;
  of_onus : Forall (fun r => u32 (OnusPonPort (cfg_Olt conf)) <= u32 (EndId (OnuRange r) - StartId (OnuRange r) + 1))
              (Ranges p);
  of_unis : 0 <= UniPorts (cfg_Olt conf) <= maxUniPorts;
  of_pots : 0 <= PotsPorts (cfg_Olt conf) /\ UniPorts (cfg_Olt conf) + PotsPorts (cfg_Olt conf) <= 255;
  of_inject : InjectOmciUnknownAttributes (BBSim conf) = false /\ InjectOmciUnknownMe (BBSim conf) = false }.

(** How many UNIs the device has, and the position of a UNI among them. *)
Definition subscribers (conf : GlobalConfig) : nat :=
  Z.to_nat (PonPorts (cfg_Olt conf)) * (Z.to_nat (OnusPonPort (cfg_Olt conf)) * Z.to_nat (UniPorts (cfg_Olt conf))).
Definition subscriber (conf : GlobalConfig) (p i k : nat) : nat :=
  p * (Z.to_nat (OnusPonPort (cfg_Olt conf)) * Z.to_nat (UniPorts (cfg_Olt conf)))
  + i * Z.to_nat (UniPorts (cfg_Olt conf)) + k.

(** The ports are created, and initializing the OLT leaves them alone. *)
Lemma CreateOLT_ports `{OmciLib} id speed numPon numOnu m publish perf isMock now cfg pons :
  (forall w, create_pons cfg pons numOnu isMock (Z.to_nat numPon) 0 ∅ ∅ = Exited w ->
     CreateOLT id speed numPon numOnu m publish perf isMock now cfg pons = Exited w) /\
  (forall ps, create_pons cfg pons numOnu isMock (Z.to_nat numPon) 0 ∅ ∅ = Done ps ->
     exists s, CreateOLT id speed numPon numOnu m publish perf isMock now cfg pons = Done (Some s) /\ Pons s = ps).
Proof.
  unfold CreateOLT. split; [by intros w ->|]. intros ps ->. cbn [mbind outcome_bind].
  destruct isMock; [by eexists|].
  set (s0 := Build_OltDevice _ _ _ _ _ _ _ _ _ _ _ _ _ _ _ _ _ _ _ _ _ _).
  rewrite (init_olt s0 CreateNNI []); [|by left|done|done]. cbn [mbind outcome_bind]. by eexists.
Qed.

(** A PON configuration with fewer ports than the device is valid by itself, so
    it is loaded, but the device cannot be made of it: BBSim exits. *)
Lemma fewer_configured_pons_exit :
  validatePonsConfig one_pon = None /\
  @CreateOLT trivial_omci 0 10000 2 1 "default" false false false 5 small_config one_pon =
    Exited "cannot-get-pon-configuration".
Proof. split; vm_compute; reflexivity. Qed.

(** C11: starting BBSim.  The configuration was loaded, its numbers have the
    types of the source, the services have distinct names, there are at most as
    many PON ports as the PON configuration defines, each range of it is large
    enough for the ONUs, an ONU has at most four Ethernet UNIs and at most 255
    ports together with the POTS ones, and no unknown OMCI entities or
    attributes are injected.  Then BBSim starts exactly when no unique tag of a
    subscriber after the first goes over 4096, and exits otherwise; once
    started, the UNI number [k] of ONU number [i] of PON [p] has, for each
    configured service, the first tag plus its position among all the UNIs of
    the device when the allocation is unique, and the first tag when it is
    shared. *)
Theorem bbsim_starts `{OmciLib} (fs : Files) (f : Flags) (nil_services : bool) (now : Z) (conf : GlobalConfig)
    (l : list ServiceYaml) (p : PonPortsConfig) :
  LoadConfig fs f nil_services = Done (conf, l, p) -> pons_typed p -> NoDup (y_Name <$> l) -> options_fit conf p ->
  ((exists s, bbsim_boot fs f nil_services now = Done (Some s)) <-> forall j, (j < subscribers conf)%nat -> in_limits l j) /\
  ((exists w, bbsim_boot fs f nil_services now = Exited w) <-> ~ forall j, (j < subscribers conf)%nat -> in_limits l j) /\
  forall s q i k o u, bbsim_boot fs f nil_services now = Done (Some s) ->
    onu_at s q i = Some o -> o_UniPorts o !! k = Some u -> tags_ok l (subscriber conf q i k) (Services u).
Proof.
  intros Hl Ht Hnd [[Hp1 Hp2] Ho Hu Hpots [Hi1 Hi2]]. unfold bbsim_boot. rewrite Hl. cbn [mbind outcome_bind].
  apply LoadConfig_inv in Hl as (cli & yaml & _ & _ & _ & _ & Hv). unfold create_device.
  set (cfg := Build_OnuConfig _ _ _ _ _ _ _ _).
  destruct (create_pons_allots cfg p (OnusPonPort (cfg_Olt conf)) Hnd
    (conj Hu (conj (proj1 Hpots) (conj (proj2 Hpots) (conj Hi1 Hi2)))) false (Z.to_nat (PonPorts (cfg_Olt conf))) 0 0 ∅ ∅)
    as [[[w Hw] Hn]|(Hin & ps & Hps & _ & Htag)]; [lia|lia| |done|done|..].
  { intros id Hid. destruct (pon_config_found p id Ht Hv) as (r & H1 & H2 & _ & _ & H3); [lia|].
    exists r. split; [done|]. split; [done|]. rewrite Forall_forall in Ho. by apply Ho. }
  - edestruct CreateOLT_ports as [Hex _]. rewrite (Hex w Hw). assert (~ forall j, (j < subscribers conf)%nat -> in_limits l j).
    { intros Hj. apply Hn. intros j Hj'. apply Hj. unfold subscribers. cbn in Hj'. lia. }
    split; [split; [by intros [? ?]|done]|]. split; [|done]. split; [done|by exists w].
  - edestruct CreateOLT_ports as [_ Hd]. destruct (Hd ps Hps) as (s & -> & Hs).
    assert (forall j, (j < subscribers conf)%nat -> in_limits l j) as Hall.
    { intros j Hj. apply Hin. unfold subscribers in Hj. cbn. lia. }
    split; [split; [done|by exists s]|]. split; [split; [by intros [? ?]|done]|].
    intros s' q i k o u [= <-] (pp & Hq & Hoi)%bind_Some Hk. rewrite Hs in Hq.
    destruct (Htag q pp Hq) as [_ Hos]. destruct (Hos i o Hoi) as [_ Hus]. exact (Hus k u Hk).
Qed.

Lemma bbsim_starts_witness :
  exists s, @bbsim_boot trivial_omci (example_files [att_hsia]) zero_delay false 5 = Done (Some s) /\
    forall o u, onu_at s 0 0 = Some o -> o_UniPorts o !! 2%nat = Some u -> tags_ok [att_hsia] 2 (Services u).
Proof.
  destruct (LoadConfig (example_files [att_hsia]) zero_delay false) as [[[conf l] p]| | |] eqn:E;
    [|vm_compute in E; discriminate E..].
  assert (l = [att_hsia] /\ subscribers conf = 4%nat /\ subscriber conf 0 0 2 = 2%nat /\ pons_typed p /\ options_fit conf p)
    as (-> & Hn & Hk & Ht & Hf).
  { vm_compute in E. injection E as <- <- <-. split; [reflexivity|]. split; [reflexivity|]. split; [reflexivity|].
    split; [split; [cbn; lia|repeat constructor; cbn; lia]|].
    split; cbn; [lia|repeat constructor; vm_compute; discriminate|unfold maxUniPorts; lia|lia|by split]. }
  destruct (@bbsim_starts trivial_omci (example_files [att_hsia]) zero_delay false 5 conf [att_hsia] p E Ht) as (H1 & _ & H2);
    [apply NoDup_singleton|exact Hf|]. rewrite Hn in H1.
  destruct (proj2 H1) as [s Hs].
  { intros j Hj. split; (constructor; [|constructor]); right; [left|right]; cbn; [|discriminate].
    unfold tag_at. cbn. case_decide; lia. }
  exists s. split; [exact Hs|]. intros o u Ho Hu. rewrite <-Hk. exact (H2 s 0%nat 0%nat 2%nat o u Hs Ho Hu).
Defined.
