(* ===== verification/Main.v ===== *)
(** * The main program: servers, signals and the wait group

    [cmd/bbsim/bbsim.go]: after the device was created, [main] starts the servers
    of the API in goroutines that all wait on one channel, closes that channel on
    SIGTERM and waits for the goroutines in a wait group.  The goroutines are
    lists of operations, run in any interleaving; whether an operation that can
    fail succeeds is chosen freely.  The theorem says what happens on SIGTERM. *)
From S2P Require Import Prelude.
Open Scope Z_scope.
Open Scope string_scope.

(** ** Operations *)

Inductive Server := ApiGrpc | ApiRest | LegacyGrpc | LegacyRest | WebServer | DmiServer.
#[export] Instance Server_eq : EqDecision Server.
Proof. solve_decision. Defined.

(** What the code of a goroutine does, one call after the other.  A receive from
    [apiDoneChannel] comes with the code that runs if the received value is true. *)
Inductive Op :=
| CreateDevice                    (* LoadConfig, CreateOLT: exit on failure *)
| Notify                          (* signal.Notify(sigs, SIGTERM) *)
| ReceiveSignal                   (* <-sigs *)
| CloseDone                       (* close(apiDoneChannel) *)
| Add (n : Z)                     (* wg.Add *)
| GroupDone                       (* wg.Done *)
| WaitGroup                       (* wg.Wait *)
| Go (body : list Op)
| Listen (s : Server)             (* net.Listen; log.Fatalf on failure *)
| ListenOrReturn (s : Server)     (* net.Listen; the caller reports a failure *)
| Register (s : Server)           (* RegisterHandlerFromEndpoint; return on failure *)
| Serve (s : Server)              (* Serve, ListenAndServe: until stopped or failed *)
| Serving (s : Server)            (* inside the same call *)
| ReceiveDone (stop : list Op)    (* x := <-apiDoneChannel; if x { stop } *)
| Stop (s : Server)               (* Stop, Shutdown *)
| Fatal                           (* log.Fatal *)
| InitPublisher                   (* InitializePublisher; the publisher starts on success *)
| LogOff.                         (* log.Info("BroadBand Simulator is off") *)

(** Source: cmd/bbsim/bbsim.go, [startApiRestServer]. *)
Definition startApiRestServer : list Op :=
  [Register ApiRest; Go [Serve ApiRest]; ReceiveDone [Stop ApiRest]; GroupDone].

(** Source: cmd/bbsim/bbsim.go, [startApiServer]. *)
Definition startApiServer : list Op :=
  [Listen ApiGrpc; Go [Serve ApiGrpc]; Go startApiRestServer; ReceiveDone [Stop ApiGrpc]; GroupDone].

(** Source: internal/bbsim/api/grpc_api_server_legacy.go, [StartRestGatewayService].
    [Done] is called inside the branch. *)
Definition StartRestGatewayService : list Op :=
  [Register LegacyRest; Go [Serve LegacyRest]; ReceiveDone [Stop LegacyRest; GroupDone]].

(** Source: cmd/bbsim/bbsim.go, [startLegacyApiServer]. *)
Definition startLegacyApiServer : list Op :=
  [Listen LegacyGrpc; Go [Serve LegacyGrpc]; Go StartRestGatewayService; ReceiveDone [Stop LegacyGrpc]; GroupDone].

(** Source: internal/bbsim/responders/webserver/webserver.go:114-116,
    [StartRestServer] (serving). *)
Definition StartRestServer : list Op := [Serve WebServer; Fatal; GroupDone].

(** Source: cmd/bbsim/bbsim.go:170-227, [main], with the options [SadisServer]
    and [Events]; the deferred function runs last. *)
Definition bbsim_main (sadis events : bool) : list Op :=
  [CreateDevice; Notify; Go [ReceiveSignal; CloseDone]; Add 4; Go startApiServer; Go startLegacyApiServer] ++
  (if sadis then [Add 1; Go StartRestServer] else []) ++
  [ListenOrReturn DmiServer] ++ (if events then [InitPublisher] else []) ++
  [WaitGroup; LogOff; Stop DmiServer].

(** ** Running *)

(** The process.  [dmi] tells whether [StartDmiAPIServer] returned a server,
    [publisher] whether a goroutine reads the events; [stopped] lists the servers
    the code stopped. *)
Record Process := {
  threads : list (list Op); wg : Z; notified : bool; sigs : bool; doneClosed : bool; serving : list Server;
  stopped : list Server; dmi : bool; publisher : bool; off : bool; exited : bool; panicked : option string }.
#[export] Instance eta_Process : Eta Process := fun s => {|
  threads := threads s; wg := wg s; notified := notified s; sigs := sigs s; doneClosed := doneClosed s;
  serving := serving s; stopped := stopped s; dmi := dmi s; publisher := publisher s; off := off s;
  exited := exited s; panicked := panicked s |}.
#[export] Instance set_threads : Setter threads := ltac:(setter_for threads).
#[export] Instance set_wg : Setter wg := ltac:(setter_for wg).
#[export] Instance set_notified : Setter notified := ltac:(setter_for notified).
#[export] Instance set_sigs : Setter sigs := ltac:(setter_for sigs).
#[export] Instance set_doneClosed : Setter doneClosed := ltac:(setter_for doneClosed).
#[export] Instance set_serving : Setter serving := ltac:(setter_for serving).
#[export] Instance set_stopped : Setter stopped := ltac:(setter_for stopped).
#[export] Instance set_dmi : Setter dmi := ltac:(setter_for dmi).
#[export] Instance set_publisher : Setter publisher := ltac:(setter_for publisher).
#[export] Instance set_off : Setter off := ltac:(setter_for off).
#[export] Instance set_exited : Setter exited := ltac:(setter_for exited).
#[export] Instance set_panicked : Setter panicked := ltac:(setter_for panicked).

Definition start (sadis events : bool) : Process := {|
  threads := [bbsim_main sadis events]; wg := 0; notified := false; sigs := false; doneClosed := false; serving := [];
  stopped := []; dmi := false; publisher := false; off := false; exited := false; panicked := None |}.

(** [sync.WaitGroup.Add]. *)
Definition wg_add (n : Z) (s : Process) : Process :=
  if decide (wg s + n < 0) then s <| panicked := Some "sync: negative WaitGroup counter" |> else s <| wg ::= Z.add n |>.

(** A receive from [apiDoneChannel]: nobody sends on it; once it is closed the
    zero value is received. *)
Definition receive_done (s : Process) : option bool := if doneClosed s then Some false else None.

Definition not_serving (v : Server) (s : Process) : Process :=
  s <| serving ::= List.filter (fun x => negb (bool_decide (x = v))) |>.

(** One operation followed by [rest]: what is left to run and the new state, or
    [None] while it blocks.  [ok] tells whether a call that can fail succeeds. *)
Definition exec (ok : bool) (op : Op) (rest : list Op) (s : Process) : option (list Op * Process) :=
  match op with
  | CreateDevice | Listen _ => Some (rest, if ok then s else s <| exited := true |>)
  | Notify => Some (rest, s <| notified := true |>)
  | ReceiveSignal => if sigs s then Some (rest, s <| sigs := false |>) else None
  | CloseDone => Some (rest, if doneClosed s then s <| panicked := Some "close of closed channel" |>
                             else s <| doneClosed := true |>)
  | Add n => Some (rest, wg_add n s)
  | GroupDone => Some (rest, wg_add (-1) s)
  | WaitGroup => if decide (wg s = 0) then Some (rest, s) else None
  | Go body => Some (rest, s <| threads ::= (fun l => l ++ [body])%list |>)
  | ListenOrReturn v =>
      Some (rest, if ok then s <| dmi := true |> <| threads ::= (fun l => l ++ [[Serve v]])%list |> else s)
  | Register _ => Some (if ok then rest else [], s)
  | Serve v => if ok then Some (Serving v :: rest, s <| serving ::= cons v |>) else Some (rest, s)
  | Serving v => Some (rest, not_serving v s)
  | ReceiveDone stop =>
      match receive_done s with
      | Some x => Some (if x then (stop ++ rest)%list else rest, s)
      | None => None
      end
  | Stop v =>
      if decide (v = DmiServer /\ dmi s = false)
      then Some (rest, s <| panicked := Some "invalid memory address or nil pointer dereference" |>)
      else Some (rest, not_serving v (s <| stopped ::= (fun l => l ++ [v])%list |>))
  | Fatal => Some (rest, s <| exited := true |>)
  | InitPublisher => Some (rest, if ok then s <| publisher := true |> else s)
  | LogOff => Some (rest, s <| off := true |>)
  end.

(** A turn of goroutine [i]. *)
Definition turn (i : nat) (ok : bool) (s : Process) : option Process :=
  match threads s !! i with
  | Some (op :: rest) =>
      match exec ok op rest s with
      | Some (rest', s') => Some (s' <| threads ::= <[i := rest']> |>)
      | None => None
      end
  | _ => None
  end.

(** SIGTERM: put into the channel, which holds one signal, or the end of the
    process if nobody asked for it. *)
Definition sigterm (s : Process) : Process :=
  if notified s then s <| sigs := true |> else s <| exited := true |>.

Definition alive (s : Process) : Prop := exited s = false /\ panicked s = None.

Inductive process_step : Process -> Process -> Prop :=
| step_turn i ok s s' : alive s -> turn i ok s = Some s' -> process_step s s'
| step_sigterm s : alive s -> process_step s (sigterm s).

(** ** Counting *)

(** The operations of a goroutine that will run, weighed by [f]: also those of the
    goroutines it starts, not those of a branch on the received value, and none
    after [Fatal]. *)
Fixpoint tally_op (f : Op -> Z) (o : Op) : Z :=
  match o with
  | Go body => (fix go l := match l with [] => 0 | Fatal :: _ => 0 | x :: r => tally_op f x + go r end) body
  | _ => f o
  end.
Fixpoint tally (f : Op -> Z) (l : list Op) : Z :=
  match l with [] => 0 | Fatal :: _ => 0 | x :: r => tally_op f x + tally f r end.
Definition total (f : Op -> Z) (ls : list (list Op)) : Z := foldr (fun l n => tally f l + n) 0 ls.

Definition count_done (o : Op) : Z := match o with GroupDone => 1 | _ => 0 end.
Definition count_close (o : Op) : Z := match o with CloseDone => 1 | _ => 0 end.
Definition count_add (o : Op) : Z := match o with Add n => n | _ => 0 end.

(** The operations of the goroutines other than the first. *)
Fixpoint worker_op (o : Op) : bool :=
  match o with
  | GroupDone | ReceiveDone _ | Listen _ | Register _ | Serve _ | Serving _ | Fatal | ReceiveSignal | CloseDone => true
  | Go body => (fix go l := match l with [] => true | x :: r => worker_op x && go r end) body
  | _ => false
  end.
Fixpoint worker (l : list Op) : bool :=
  match l with [] => true | x :: r => worker_op x && worker r end.

Lemma worker_Go b : worker_op (Go b) = worker b.
Proof. cbn. induction b; [done|]. cbn [worker]. by rewrite <-IHb. Qed.
Lemma tally_Go f b : tally_op f (Go b) = tally f b.
Proof. cbn. induction b as [|x b IH]; [done|]. cbn [tally]. destruct x; try done; by rewrite <-IH. Qed.

Lemma total_app f l1 l2 : total f (l1 ++ l2) = total f l1 + total f l2.
Proof. induction l1 as [|x l1 IH]; [done|]. cbn. fold (total f (l1 ++ l2)) (total f l1). rewrite IH. lia. Qed.
Lemma total_insert f ls i l l' : ls !! i = Some l -> total f (<[i := l']> ls) = total f ls - tally f l + tally f l'.
Proof.
  revert i. induction ls as [|x ls IH]; intros [|i] Hi; try done; cbn in Hi; [simplify_eq; cbn; lia|].
  change (tally f x + total f (<[i := l']> ls) = tally f x + total f ls - tally f l + tally f l').
  rewrite (IH i Hi). lia.
Qed.

Section Weights.
  Context (f : Op -> Z).
  Hypothesis f_pos : forall o, 0 <= f o.

Lemma tally_op_pos : forall o, 0 <= tally_op f o.
Proof.
  fix IH 1. intros o. destruct o; try exact (f_pos _).
  rewrite tally_Go. induction body as [|x b IHb]; [done|]. cbn [tally]. specialize (IH x). destruct x; lia || done.
Qed.
Lemma tally_pos l : 0 <= tally f l.
Proof.
  induction l as [|x l IH]; [done|]. cbn [tally]. pose proof (tally_op_pos x). destruct x; lia || done.
Qed.
Lemma total_pos ls : 0 <= total f ls.
Proof. induction ls as [|l ls IH]; [done|]. cbn. pose proof (tally_pos l). unfold total in IH. lia. Qed.
Lemma total_lookup ls i l : ls !! i = Some l -> tally f l <= total f ls.
Proof.
  revert i. induction ls as [|x ls IH]; intros [|i]; try done; cbn.
  - intros [= ->]. pose proof (total_pos ls). unfold total in *. lia.
  - intros Hi. specialize (IH i Hi). pose proof (tally_pos x). unfold total in *. lia.
Qed.
End Weights.

(** ** The invariant *)

Definition workers (ls : list (list Op)) : Prop := Forall (fun l => worker l = true) ls.

Definition waits (o : Op) : bool := match o with WaitGroup => true | _ => false end.

(** The counters of the process, with [main] before its operation [k] and the
    other goroutines [ls]. *)
Record supervised (m : list Op) (k : nat) (ls : list (list Op)) (s : Process) : Prop := {
  su_threads : threads s = drop k m :: ls;
  su_workers : workers ls;
  su_waiting : existsb waits (drop k m) = true;
  su_wg : 0 <= wg s;
  su_slack : 1 + tally count_done (drop k m) + total count_done ls <= wg s + tally count_add (drop k m);
  su_early : (k <= 3)%nat -> total count_done ls = 0;
  su_close : tally count_close (drop k m) + total count_close ls + (if doneClosed s then 1 else 0) <= 1;
  su_stopped : stopped s = [] /\ off s = false /\ panicked s = None }.

Lemma count_done_pos o : 0 <= count_done o.
Proof. destruct o; cbn; lia. Qed.
Lemma count_close_pos o : 0 <= count_close o.
Proof. destruct o; cbn; lia. Qed.

(** A turn of a goroutine that is not the first. *)
Lemma worker_exec (f : Op -> Z) ok op rest s rest' s' :
  (forall o, 0 <= f o) -> (forall v, f (Serving v) = 0) -> (forall b, f (Go b) = 0) ->
  worker (op :: rest) = true -> exec ok op rest s = Some (rest', s') -> exited s' = false ->
  exists more, threads s' = (threads s ++ more)%list /\ workers more /\ worker rest' = true /\
    tally f rest' + total f more + f op <= tally f (op :: rest).
Proof.
  intros Hf HS HG [Ho Hr]%andb_prop He Hx. pose proof (tally_pos f Hf rest) as Hp.
  assert (forall v, tally f (Serving v :: rest) = tally f rest) as Hv by (intros v; cbn; rewrite HS; lia).
  assert (forall t, threads t = threads s -> tally f rest + f op <= tally f (op :: rest) ->
    exists more, threads t = (threads s ++ more)%list /\ workers more /\ worker rest = true /\
      tally f rest + total f more + f op <= tally f (op :: rest)) as Hsame.
  { intros t Ht Hle. exists []. rewrite app_nil_r. split_and!; [done|constructor|done|cbn [total foldr]; lia]. }
  destruct op; try discriminate Ho; cbn [exec] in He.
  - destruct (sigs s); [|done]. simplify_eq. apply Hsame; [done|cbn; lia].
  - simplify_eq. apply Hsame; [by destruct (doneClosed s)|cbn; lia].
  - simplify_eq. apply Hsame; [unfold wg_add; by case_decide|cbn; lia].
  - simplify_eq. exists [body]. rewrite worker_Go in Ho. split_and!; [done|by repeat constructor|done|].
    change (tally f (Go body :: rest')) with (tally_op f (Go body) + tally f rest'). rewrite tally_Go, HG. cbn. lia.
  - simplify_eq. apply Hsame; [by destruct ok|cbn; lia].
  - destruct ok; simplify_eq; [apply Hsame; [done|cbn; lia]|]. exists []. rewrite app_nil_r.
    split_and!; [done|constructor|done|cbn; lia].
  - destruct ok; simplify_eq; [|apply Hsame; [done|cbn; lia]]. exists []. rewrite app_nil_r.
    split_and!; [done|constructor|done|]. rewrite Hv. cbn. lia.
  - simplify_eq. apply Hsame; [done|cbn; lia].
  - unfold receive_done in He. destruct (doneClosed s); [|done]. simplify_eq. apply Hsame; [done|cbn; lia].
  - by simplify_eq.
Qed.

(** What a goroutine that is not the first changes besides the goroutines. *)
Lemma worker_effect ok op rest s rest' s' :
  worker_op op = true -> exec ok op rest s = Some (rest', s') ->
  stopped s' = stopped s /\ off s' = off s /\
  (count_done op <= wg s -> wg s' = wg s - count_done op) /\
  (if doneClosed s' then 1 else 0) <= (if doneClosed s then 1 else 0) + count_close op /\
  ((if doneClosed s then 1 else 0) + count_close op <= 1 -> count_done op <= wg s -> panicked s' = panicked s).
Proof.
  intros Ho He. destruct op; try discriminate Ho; cbn [exec] in He; unfold receive_done, wg_add, not_serving in He;
    repeat case_match; simplify_eq; cbn in *; split_and!; intros; done || lia || congruence.
Qed.

Lemma worker_turn m k ls s i op rest ok rest' s' :
  supervised m k ls s -> ((4 <= k)%nat -> tally count_add (drop k m) <= 1 + tally count_done (drop k m)) ->
  ls !! i = Some (op :: rest) -> exec ok op rest s = Some (rest', s') -> exited s' = false ->
  exists ls', supervised m k ls' (s' <| threads ::= <[S i := rest']> |>).
Proof.
  intros [Ht Hw Hwait Hwg Hsl Hea Hcl (Hst & Hoff & Hpan)] Hk Hi He Hx.
  assert (worker (op :: rest) = true) as Hwk by by apply (Forall_lookup_1 _ _ _ _ Hw Hi).
  assert (worker_op op = true) as Hop by by apply andb_prop in Hwk as [].
  destruct (worker_exec count_done _ _ _ _ _ _ count_done_pos (fun _ => eq_refl) (fun _ => eq_refl) Hwk He Hx)
    as (more & Hth & Hmore & Hr' & Hdone).
  destruct (worker_exec count_close _ _ _ _ _ _ count_close_pos (fun _ => eq_refl) (fun _ => eq_refl) Hwk He Hx)
    as (more2 & Hth2 & _ & _ & Hclose).
  assert (more2 = more) as -> by (rewrite Hth2 in Hth; by apply app_inv_head in Hth).
  destruct (worker_effect _ _ _ _ _ _ Hop He) as (E1 & E2 & E3 & E4 & E5).
  pose proof (total_lookup count_done count_done_pos ls i _ Hi) as Hd1.
  pose proof (tally_pos count_done count_done_pos rest') as Hd2.
  pose proof (total_pos count_done count_done_pos more) as Hd3.
  pose proof (total_lookup count_close count_close_pos ls i _ Hi) as Hc1.
  pose proof (tally_pos count_close count_close_pos rest') as Hc2.
  pose proof (total_pos count_close count_close_pos more) as Hc3.
  pose proof (count_done_pos op). pose proof (count_close_pos op).
  pose proof (tally_pos count_close count_close_pos (drop k m)).
  assert (count_done op <= wg s) as Hge by (destruct (decide (k <= 3)%nat) as [H3|]; [specialize (Hea H3)|]; lia).
  exists (<[i := rest']> ls ++ more)%list. split; cbn -[insert].
  - rewrite Hth, Ht. change (drop k m :: <[i := rest']> (ls ++ more) = drop k m :: (<[i := rest']> ls ++ more))%list.
    by rewrite insert_app_l by (by eapply lookup_lt_Some).
  - apply Forall_app. split; [by apply Forall_insert|done].
  - done.
  - rewrite E3 by done. lia.
  - rewrite total_app, (total_insert _ _ _ _ _ Hi), E3 by done. lia.
  - intros H3. specialize (Hea H3). rewrite total_app, (total_insert _ _ _ _ _ Hi). lia.
  - rewrite total_app, (total_insert _ _ _ _ _ Hi). lia.
  - rewrite E1, E2. split_and!; [done|done|]. rewrite E5; [done| |done]. lia.
Qed.

(** A turn of the first goroutine. *)
Lemma main_turn sadis events k ls s ok op rest rest' s' :
  supervised (bbsim_main sadis events) k ls s -> drop k (bbsim_main sadis events) = op :: rest ->
  exec ok op rest s = Some (rest', s') -> exited s' = false ->
  exists ls', supervised (bbsim_main sadis events) (S k) ls' (s' <| threads ::= <[0%nat := rest']> |>).
Proof.
  intros [Ht Hw Hwait Hwg Hsl Hea Hcl (Hst & Hoff & Hpan)] Hd He Hx.
  destruct sadis, events; repeat (destruct k as [|k];
    [cbn in Hd; injection Hd as <- <-; cbn in Hwait, Hsl, Hcl; try discriminate Hwait; cbn [exec] in He|]).
  all: try (cbn in Hd; rewrite drop_nil in Hd; discriminate Hd).
  all: try unfold wg_add in He; try case_decide; try (exfalso; pose proof (total_pos count_done count_done_pos ls); lia).
  all: try destruct ok.
  all: try (injection He as <- <-); try done.
  all: eexists; split; cbn -[app total]; rewrite ?Ht; try first [done|reflexivity|lia].
  all: rewrite ?total_app; try (apply Forall_app; split; [exact Hw|by repeat constructor]); cbn; try lia.
Qed.

Lemma main_before sadis events k : existsb waits (drop k (bbsim_main sadis events)) = true -> (k < 13)%nat.
Proof.
  intros Hw. destruct (decide (k < 13)%nat); [done|]. rewrite drop_ge in Hw; [done|]. destruct sadis, events; cbn; lia.
Qed.

Lemma main_slack sadis events k :
  existsb waits (drop k (bbsim_main sadis events)) = true -> (4 <= k)%nat ->
  tally count_add (drop k (bbsim_main sadis events)) <= 1 + tally count_done (drop k (bbsim_main sadis events)).
Proof.
  intros Hw Hk. pose proof (main_before _ _ _ Hw). destruct sadis, events; do 4 (destruct k as [|k]; [lia|]);
    do 9 (destruct k as [|k]; [cbn in *; lia || discriminate|]); lia.
Qed.

(** Nothing was stopped and nothing went wrong. *)
Definition calm (s : Process) : Prop := stopped s = [] /\ off s = false /\ panicked s = None.

Lemma exec_exits ok op rest s rest' s' :
  exec ok op rest s = Some (rest', s') -> exited s = false -> exited s' = true -> calm s -> calm s'.
Proof.
  intros He Hx Hx' Hc. destruct op; cbn [exec] in He; unfold receive_done, wg_add, not_serving in He;
    repeat case_match; simplify_eq; cbn in Hx'; congruence || exact Hc.
Qed.

Definition supervising (sadis events : bool) (s : Process) : Prop :=
  calm s /\ (exited s = true \/ exists k ls, supervised (bbsim_main sadis events) k ls s).

Lemma start_supervising sadis events : supervising sadis events (start sadis events).
Proof.
  split; [done|]. right. exists 0%nat, []. destruct sadis, events; (split; cbn; try done; [constructor|lia..]).
Qed.

Lemma supervising_step sadis events s s' :
  process_step s s' -> supervising sadis events s -> supervising sadis events s'.
Proof.
  intros Hstep [Hc Hs]. destruct Hstep as [i ok s s' [Hx _] Ht|s [Hx _]];
    (destruct Hs as [Hs|(k & ls & Hs)]; [congruence|]).
  - unfold turn in Ht. rewrite (su_threads _ _ _ _ Hs) in Ht.
    destruct ((drop k (bbsim_main sadis events) :: ls) !! i) as [[|op rest]|] eqn:Hi; [done| |done].
    destruct (exec ok op rest s) as [[rest' s1]|] eqn:He; [|done]. injection Ht as <-.
    destruct (exited s1) eqn:Hx1; [split; [exact (exec_exits _ _ _ _ _ _ He Hx Hx1 Hc)|left; exact Hx1]|].
    assert (exists k' ls', supervised (bbsim_main sadis events) k' ls' (s1 <| threads ::= <[i := rest']> |>)) as (k' & ls' & Hs').
    { destruct i as [|i].
      - injection Hi as Hi. destruct (main_turn _ _ _ _ _ _ _ _ _ _ Hs Hi He Hx1) as [ls' H']. by exists (S k), ls'.
      - destruct (worker_turn _ _ _ _ i _ _ _ _ _ Hs (main_slack _ _ _ (su_waiting _ _ _ _ Hs)) Hi He Hx1) as [ls' H'].
        by exists k, ls'. }
    split; [exact (su_stopped _ _ _ _ Hs')|right; by exists k', ls'].
  - unfold sigterm. destruct (notified s); (split; [exact Hc|]); [|by left]. right. exists k, ls. by destruct Hs.
Qed.

(** ** Properties *)

(** C24: what SIGTERM does.  In every interleaving of the goroutines, whichever
    calls fail and whenever signals arrive: the wait group is never counted below
    zero and the channel never closed twice, so nothing panics; no server is ever
    stopped, because closing the channel makes every goroutine receive false; and
    while the process has not exited, [main] has not passed its wait: the counter
    stays positive for ever, so the deferred shutdown does not run. *)
Theorem sigterm_never_stops (sadis events : bool) (s : Process) :
  rtc process_step (start sadis events) s ->
  panicked s = None /\ stopped s = [] /\ off s = false /\
  (exited s = false -> exists ls k, threads s = drop k (bbsim_main sadis events) :: ls /\
     WaitGroup ∈ drop k (bbsim_main sadis events) /\
     (head (drop k (bbsim_main sadis events)) = Some WaitGroup -> 0 < wg s)).
Proof.
  intros Hr. assert (supervising sadis events s) as [(H1 & H2 & H3) Hs].
  { pose proof (start_supervising sadis events) as H0. revert H0.
    induction Hr as [|s s1 s' H1 _ IH]; [done|]. intros H0. apply IH. by eapply supervising_step. }
  split_and!; [done..|]. intros Hx. destruct Hs as [Hs|(k & ls & Hs)]; [congruence|]. exists ls, k.
  destruct Hs as [Ht _ Hw _ Hsl _ _ _]. split; [done|]. split.
  - apply existsb_exists in Hw as ([] & Hin & Hw); try discriminate Hw. by apply list_elem_of_In.
  - intros Hh. pose proof (total_pos count_done count_done_pos ls).
    destruct (drop k (bbsim_main sadis events)) as [|o r] eqn:Hd; [done|]. injection Hh as ->.
    assert (tally count_add r = 0 /\ 0 <= tally count_done r) as [Ha Hp]; [|cbn in Hsl; lia].
    split; [|apply (tally_pos count_done count_done_pos)]. assert (k < 13)%nat by (eapply main_before; by rewrite Hd).
    destruct sadis, events; do 13 (destruct k as [|k]; [cbn in Hd; simplify_eq; reflexivity|]); lia.
Qed.

(** A run: every goroutine starts, SIGTERM arrives and everything that can end
    ends. *)
Fixpoint run_turns (l : list (option nat)) (s : Process) : option Process :=
  match l with
  | [] => Some s
  | Some i :: l' => if bool_decide (exited s = false /\ panicked s = None) then turn i true s ≫= run_turns l' else None
  | None :: l' => if bool_decide (exited s = false /\ panicked s = None) then run_turns l' (sigterm s) else None
  end.

Lemma run_turns_steps l s s' : run_turns l s = Some s' -> rtc process_step s s'.
Proof.
  revert s. induction l as [|[i|] l IH]; intros s; cbn [run_turns]; [by intros [= ->]| |];
    case_bool_decide as Ha; try done.
  - intros (s1 & H1 & H2)%bind_Some. eapply rtc_l; [by eapply step_turn|by apply IH].
  - intros H. eapply rtc_l; [by apply step_sigterm|by apply IH].
Qed.

Definition full_run : list (option nat) :=
  (replicate 9 (Some 0%nat) ++ replicate 3 (Some 2%nat) ++ replicate 3 (Some 3%nat) ++
   (Some <$> [4; 5; 6; 7; 7; 8; 9; 9; 10; 11])%nat ++ [None; Some 1%nat; Some 1%nat] ++
   (Some <$> [2; 2; 3; 3; 7; 7; 9])%nat)%list.

(** After the run every goroutine has ended or serves, only [main] waits: on a
    counter of two (the legacy gateway and the web server), with all servers up. *)
Definition after_sigterm : Process := default (start true false) (run_turns full_run (start true false)).

Lemma sigterm_never_stops_witness :
  (threads after_sigterm = [WaitGroup; LogOff; Stop DmiServer] :: [] :: [] :: [] :: [Serving WebServer; Fatal; GroupDone] ::
     [Serving DmiServer] :: [Serving ApiGrpc] :: [] :: [Serving LegacyGrpc] :: [] :: [Serving ApiRest] ::
     [[Serving LegacyRest]]) /\
  doneClosed after_sigterm = true /\ wg after_sigterm = 2 /\ stopped after_sigterm = [].
Proof.
  destruct (sigterm_never_stops true false after_sigterm) as (_ & H & _).
  { apply (run_turns_steps full_run). by vm_compute. }
  split; [by vm_compute|]. split; [by vm_compute|]. split; [by vm_compute|]. exact H.
Defined.
