(* ===== verification/Events.v ===== *)
(** * Events on Kafka and the log level

    [internal/common/kafka_utils.go], [internal/common/logger.go] and the sending
    side in [internal/bbsim/devices/helpers.go]: the events of the simulator go
    through a channel with room for a hundred of them to the goroutine that hands
    them to the Kafka producer.  The producer is a library: creating one succeeds
    or not, what was handed to it is kept, and it can stop reading its input, as
    it does for good once it has an error to report that nobody reads; the text of
    a message is left to [encoding/json], so a message holds the event. *)
From stdpp Require Import pretty.
From S2P Require Import Prelude Options Config.
Open Scope Z_scope.
Open Scope string_scope.

(** Source: internal/common/kafka_utils.go, [Event]. *)
Record KEvent := {
  ev_EventType : string; ev_OnuSerial : string; ev_OltID : Z; ev_IntfID : Z; ev_OnuID : Z; EpochTime : Z;
  ev_Timestamp : string }.

(** The channel and the variables of the package; [to_kafka] is what the
    producer was handed, with the topic; [holding] is the variable of the
    publisher's loop, between the receive and the send; [stopped] tells that the
    producer reads its input no more. *)
Record Bus := {
  EventChannel : list KEvent; ktopic : string; has_producer : bool; to_kafka : list (string * KEvent);
  holding : option KEvent; stopped : bool }.
#[export] Instance eta_Bus : Eta Bus := fun s => {|
  EventChannel := EventChannel s; ktopic := ktopic s; has_producer := has_producer s; to_kafka := to_kafka s;
  holding := holding s; stopped := stopped s |}.
#[export] Instance set_EventChannel : Setter EventChannel := ltac:(setter_for EventChannel).
#[export] Instance set_ktopic : Setter ktopic := ltac:(setter_for ktopic).
#[export] Instance set_has_producer : Setter has_producer := ltac:(setter_for has_producer).
#[export] Instance set_to_kafka : Setter to_kafka := ltac:(setter_for to_kafka).
#[export] Instance set_holding : Setter holding := ltac:(setter_for holding).
#[export] Instance set_stopped : Setter stopped := ltac:(setter_for stopped).

(** Source: internal/bbsim/devices/olt.go:265-269, [CreateOLT] (the room of the
    channel). *)
Definition event_room : nat := 100.
Definition no_events : Bus := {| EventChannel := []; ktopic := ""; has_producer := false; to_kafka := [];
  holding := None; stopped := false |}.

(** Source: internal/bbsim/devices/helpers.go, [publishEvent]: sending on a full
    channel blocks. *)
Definition publishEvent (publish : bool) (olt : Z) (eventType : string) (intfID onuID : Z) (onuSerial : string)
    (epoch : Z) (timestamp : string) : M Bus unit :=
  if publish then
    s ← get;
    if decide (event_room <= length (EventChannel s))%nat then block "olt.EventChannel"
    else modify (fun s => s <| EventChannel ::= (fun l => l ++
      [{| ev_EventType := eventType; ev_OnuSerial := onuSerial; ev_OltID := olt; ev_IntfID := intfID; ev_OnuID := onuID;
          EpochTime := epoch; ev_Timestamp := timestamp |}])%list |>)
  else skip.

(** Source: internal/common/kafka_utils.go, [InitializePublisher].  The function
    that makes a producer is given the address and the identifier of the client;
    the producer it returns is stored also when it failed, as nil. *)
Definition InitializePublisher (NewAsyncProducer : string -> string -> option error) (conf : BBSimConfig) (oltID : Z)
    : M Bus (option error) :=
  let name := "BBSim-OLT-" +:+ pretty oltID in
  modify (fun s => s <| ktopic := if decide (KafkaEventTopic conf <> "") then KafkaEventTopic conf else name +:+ "-Events" |>) ;;
  let err := NewAsyncProducer (KafkaAddress conf) name in
  modify (fun s => s <| has_producer := bool_decide (err = None) |>) ;;
  mret err.

(** Source: internal/common/kafka_utils.go:66-75, [KafkaPublisher] (the receive of
    a turn of the loop). *)
Definition receive_event : M Bus unit :=
  s ← get;
  match EventChannel s with
  | [] => block "eventChannel"
  | event :: rest => modify (fun s => s <| EventChannel := rest |> <| holding := Some event |>)
  end.

(** Source: internal/common/kafka_utils.go:76-94, [KafkaPublisher] (the send of a
    turn of the loop; an event is always encoded).  The send waits for the producer
    to read its input. *)
Definition send_event : M Bus unit :=
  s ← get;
  match holding s with
  | None => skip
  | Some event =>
      if negb (has_producer s) then panic "invalid memory address or nil pointer dereference"
      else if stopped s then block "producer.Input()"
      else modify (fun s => s <| to_kafka ::= (fun l => l ++ [(ktopic s, event)])%list |> <| holding := None |>)
  end.

(** Source: internal/common/kafka_utils.go, [KafkaPublisher] (a turn of the loop). *)
Definition KafkaPublisher : M Bus unit := receive_event ;; send_event.

(** ** Log level *)

Inductive Level := TraceLevel | DebugLevel | InfoLevel | WarnLevel | ErrorLevel.

(** Source: internal/common/logger.go, [SetLogLevel] (the level of the logger and
    whether it warns; the caller is reported as asked). *)
Definition SetLogLevel (level : string) (caller : bool) : Level * bool * bool :=
  if decide (level = "trace") then (TraceLevel, caller, false)
  else if decide (level = "debug") then (DebugLevel, caller, false)
  else if decide (level = "info") then (InfoLevel, caller, false)
  else if decide (level = "warn") then (WarnLevel, caller, false)
  else if decide (level = "error") then (ErrorLevel, caller, false)
  else (DebugLevel, caller, true).

(** ** Properties *)

(** What a simulator with the publisher and its producer do to the events, in any
    order: an event is published, the publisher receives one when it holds none, or
    sends the one it holds, or the producer stops reading (for good: nothing in
    BBSim reads what it reports). *)
Inductive bus_step : list KEvent -> Bus -> list KEvent -> Bus -> Prop :=
| bus_publish olt ty i o sn ep ts s s' log :
    publishEvent true olt ty i o sn ep ts s = Done (tt, s') ->
    bus_step log s (log ++ [{| ev_EventType := ty; ev_OnuSerial := sn; ev_OltID := olt; ev_IntfID := i; ev_OnuID := o;
                               EpochTime := ep; ev_Timestamp := ts |}]) s'
| bus_receive s s' log : holding s = None -> receive_event s = Done (tt, s') -> bus_step log s log s'
| bus_send s s' log : holding s <> None -> send_event s = Done (tt, s') -> bus_step log s log s'
| bus_stop s log : bus_step log s log (s <| stopped := true |>).

Definition bus_steps (a b : list KEvent * Bus) : Prop := rtc (fun x y => bus_step x.1 x.2 y.1 y.2) a b.

(** What was published and not sent yet. *)
Definition waiting (s : Bus) : list KEvent := (option_list (holding s) ++ EventChannel s)%list.

(** The log of all events is what Kafka has, then what waits. *)
Definition implements (topic : string) (log : list KEvent) (s : Bus) : Prop :=
  ktopic s = topic /\ has_producer s = true /\ (length (EventChannel s) <= event_room)%nat /\
  exists done, to_kafka s = pair topic <$> done /\ log = (done ++ waiting s)%list.

Lemma receive_event_inv s s' : receive_event s = Done (tt, s') ->
  exists e rest, EventChannel s = e :: rest /\ s' = s <| EventChannel := rest |> <| holding := Some e |>.
Proof. unfold receive_event. mred. destruct (EventChannel s) as [|e rest]; [done|]. intros [= <-]. by exists e, rest. Qed.

Lemma send_event_inv s s' : holding s <> None -> send_event s = Done (tt, s') ->
  exists e, holding s = Some e /\ stopped s = false /\
    s' = s <| to_kafka ::= (fun l => l ++ [(ktopic s, e)])%list |> <| holding := None |>.
Proof.
  unfold send_event. mred. intros Hh. destruct (holding s) as [e|]; [|done]. destruct (has_producer s); [|done].
  destruct (stopped s); [done|]. intros [= <-]. by exists e.
Qed.

Lemma bus_step_implements topic log s log' s' :
  bus_step log s log' s' -> implements topic log s -> implements topic log' s'.
Proof.
  intros [olt ty i o sn ep ts t t' lg Hr|t t' lg Hh Hr|t t' lg Hh Hr|t lg]; intros (Ht & Hp & Hl & sent & Hk & ->).
  - unfold publishEvent in Hr. mred in Hr. case_decide as Hd; [done|]. injection Hr as <-.
    split_and!; [done|done|cbn; rewrite length_app; cbn; lia|]. exists sent. split; [done|].
    unfold waiting. cbn. by rewrite !app_assoc.
  - apply receive_event_inv in Hr as (e & rest & He & ->). rewrite He in Hl.
    split_and!; [done|done|cbn in *; lia|]. exists sent. split; [done|]. unfold waiting. by rewrite Hh, He.
  - apply send_event_inv in Hr as (e & He & _ & ->); [|done]. split_and!; [done|done|done|]. exists (sent ++ [e])%list.
    split; [cbn; by rewrite Hk, fmap_app, <-Ht|]. unfold waiting. rewrite He. cbn. by rewrite <-app_assoc.
  - split_and!; [done|done|done|by exists sent].
Qed.

Lemma bus_steps_implements topic a b : bus_steps a b -> implements topic a.1 a.2 -> implements topic b.1 b.2.
Proof. induction 1 as [|x y z Hxy _ IH]; [done|]. intros Hx. apply IH. by eapply bus_step_implements. Qed.

(** A producer that stopped is handed nothing more. *)
Lemma stopped_gets_nothing a b : bus_steps a b -> stopped a.2 = true ->
  stopped b.2 = true /\ to_kafka b.2 = to_kafka a.2.
Proof.
  induction 1 as [|[l1 x] [l2 y] z Hxy _ IH]; [done|]. cbn in *. intros Hs.
  assert (stopped y = true /\ to_kafka y = to_kafka x) as [Hy Hk]; [|rewrite <-Hk; by apply IH].
  destruct Hxy as [olt ty i o sn ep ts t t' lg Hr|t t' lg Hh Hr|t t' lg Hh Hr|t lg].
  - unfold publishEvent in Hr. mred in Hr. case_decide; [done|]. by injection Hr as <-.
  - by apply receive_event_inv in Hr as (e & rest & _ & ->).
  - apply send_event_inv in Hr as (e & _ & Hf & _); [congruence|done].
  - done.
Qed.

(** The publisher catches up: the event it holds, then a turn for each one in the
    channel. *)
Definition catch_up (n : nat) : M Bus unit := send_event ;; for_each (replicate n tt) (fun _ => KafkaPublisher).

Lemma turns_deliver topic q s sent :
  ktopic s = topic -> has_producer s = true -> stopped s = false -> holding s = None -> EventChannel s = q ->
  to_kafka s = pair topic <$> sent ->
  exists s2, for_each (replicate (length q) tt) (fun _ => KafkaPublisher) s = Done (tt, s2) /\
    to_kafka s2 = pair topic <$> (sent ++ q)%list /\ waiting s2 = [].
Proof.
  intros Ht Hp Hst. revert s sent Ht Hp Hst. induction q as [|e q IH]; intros s sent Ht Hp Hst Hh Hq Hk.
  - exists s. split; [done|]. rewrite app_nil_r. unfold waiting. by rewrite Hh, Hq.
  - cbn [length replicate for_each].
    set (s1 := s <| EventChannel := q |> <| to_kafka ::= (fun l => l ++ [(ktopic s, e)])%list |> <| holding := None |>).
    assert (KafkaPublisher s = Done (tt, s1)) as Hturn.
    { unfold KafkaPublisher, receive_event, send_event. mred. rewrite Hq. mred. cbn. rewrite Hp, Hst. by destruct s. }
    destruct (IH s1 (sent ++ [e])%list) as (s2 & H2 & H3 & H4); [done..| |].
    { cbn. by rewrite Hk, fmap_app, Ht. }
    exists s2. rewrite <-app_assoc in H3. split; [|done]. by erewrite bind_Done; [|exact Hturn].
Qed.

Lemma catch_up_delivers topic log s : implements topic log s -> stopped s = false ->
  exists s2, catch_up (length (EventChannel s)) s = Done (tt, s2) /\ to_kafka s2 = pair topic <$> log /\ waiting s2 = [].
Proof.
  intros (Ht & Hp & _ & sent & Hk & ->) Hs. unfold catch_up, waiting. destruct (holding s) as [e|] eqn:Hh.
  - set (s1 := s <| to_kafka ::= (fun l => l ++ [(ktopic s, e)])%list |> <| holding := None |>).
    assert (send_event s = Done (tt, s1)) as Hsend by (unfold send_event; mred; rewrite Hh, Hp, Hs; reflexivity).
    destruct (turns_deliver topic (EventChannel s) s1 (sent ++ [e])%list) as (s2 & H2 & H3 & H4); [done..| |].
    { cbn. by rewrite Hk, fmap_app, Ht. }
    exists s2. rewrite <-app_assoc in H3. split; [|done]. by erewrite bind_Done; [|exact Hsend].
  - destruct (turns_deliver topic (EventChannel s) s sent) as (s2 & H2 & H3); [done..|]. exists s2. split; [|done].
    erewrite bind_Done; [exact H2|]. unfold send_event. mred. by rewrite Hh.
Qed.

(** C29: events are neither lost, repeated nor reordered on their way to the Kafka
    producer, as long as it reads its input.  Once the publisher was initialized
    (the topic is the configured one or that of the OLT), after any events, receives
    and sends of the publisher, also when the producer stopped reading at some
    point: what the producer was handed, in order and all on that topic, followed by
    the event the publisher holds and those in the channel, is the sequence of all
    events.  If the producer still reads, the publisher has a turn for each of them,
    after which the producer was handed all events and none waits.  If it stopped
    (as it does for good after an error that nobody reads), it is handed nothing
    more, whatever happens afterwards. *)
Theorem events_in_order (producer : string -> string -> option error) (conf : BBSimConfig) (oltID : Z) (s : Bus)
    (log : list KEvent) (s' : Bus) :
  InitializePublisher producer conf oltID no_events = Done (None, s) -> bus_steps ([], s) (log, s') ->
  let topic := if decide (KafkaEventTopic conf <> "") then KafkaEventTopic conf
               else "BBSim-OLT-" +:+ pretty oltID +:+ "-Events" in
  (exists sent, to_kafka s' = pair topic <$> sent /\ log = (sent ++ waiting s')%list) /\
  (stopped s' = false ->
     exists s2, catch_up (length (EventChannel s')) s' = Done (tt, s2) /\ to_kafka s2 = pair topic <$> log /\ waiting s2 = []) /\
  (stopped s' = true -> forall log2 s2, bus_steps (log, s') (log2, s2) -> to_kafka s2 = to_kafka s').
Proof.
  intros Hi Hr topic. assert (implements topic [] s) as H0.
  { unfold InitializePublisher in Hi. mred in Hi. destruct (producer _ _) eqn:E; [done|]. injection Hi as <-.
    split_and!; [|done|cbn; unfold event_room; lia|by exists []]. cbn. unfold topic. by case_decide. }
  assert (implements topic log s') as H1 by exact (bus_steps_implements topic _ _ Hr H0).
  split; [by destruct H1 as (_ & _ & _ & sent & ? & ?); exists sent|]. split; [by apply catch_up_delivers|].
  intros Hs log2 s2 H2. exact (proj2 (stopped_gets_nothing _ _ H2 Hs)).
Qed.

Definition kafka_up : string -> string -> option error := fun _ _ => None.
Definition publish_n (n : nat) : M Bus unit :=
  for_each (replicate n tt) (fun _ => publishEvent true 0 "ONU-discovery-indication-sent" 0 1 "BBSM00000001" 0 "").

Definition enabled_event : KEvent := {| ev_EventType := "OLT-enable-received"; ev_OnuSerial := ""; ev_OltID := 0;
  ev_IntfID := -1; ev_OnuID := -1; EpochTime := 0; ev_Timestamp := "" |}.
Definition discovered_event : KEvent := {| ev_EventType := "ONU-discovery-indication-sent"; ev_OnuSerial := "BBSM00000001";
  ev_OltID := 0; ev_IntfID := 0; ev_OnuID := 1; EpochTime := 0; ev_Timestamp := "" |}.

(** An event is received, a second one published, and the producer reads. *)
Lemma events_in_order_witness :
  match InitializePublisher kafka_up (BBSim GetDefaultOps) 0 no_events with
  | Done (_, s) => forall s1 s2 s3,
      publishEvent true 0 "OLT-enable-received" (-1) (-1) "" 0 "" s = Done (tt, s1) -> receive_event s1 = Done (tt, s2) ->
      publishEvent true 0 "ONU-discovery-indication-sent" 0 1 "BBSM00000001" 0 "" s2 = Done (tt, s3) ->
      exists s4, catch_up 1 s3 = Done (tt, s4) /\
        (fun m => (fst m, ev_EventType (snd m))) <$> to_kafka s4 =
          [("BBSim-OLT-0-Events", "OLT-enable-received"); ("BBSim-OLT-0-Events", "ONU-discovery-indication-sent")]
  | _ => False
  end.
Proof.
  destruct (InitializePublisher kafka_up (BBSim GetDefaultOps) 0 no_events) as [[e s]| | |] eqn:E;
    [|vm_compute in E; discriminate E..].
  assert (e = None) as -> by (vm_compute in E; by injection E). intros s1 s2 s3 H1 H2 H3.
  destruct (events_in_order kafka_up (BBSim GetDefaultOps) 0 s [enabled_event; discovered_event] s3 E) as (_ & Hc & _).
  { eapply (rtc_l (fun x y => bus_step x.1 x.2 y.1 y.2) ([], s) ([enabled_event], s1));
      [exact (bus_publish _ _ _ _ _ _ _ _ _ [] H1)|].
    eapply (rtc_l (fun x y => bus_step x.1 x.2 y.1 y.2) _ ([enabled_event], s2)).
    { apply bus_receive; [|exact H2]. vm_compute in E. injection E as <-. vm_compute in H1. by injection H1 as <-. }
    apply (rtc_once (R := fun x y => bus_step x.1 x.2 y.1 y.2) (_, s2)).
    exact (bus_publish _ _ _ _ _ _ _ _ _ [enabled_event] H3). }
  vm_compute in E. injection E as <-. vm_compute in H1. injection H1 as <-. vm_compute in H2. injection H2 as <-.
  vm_compute in H3. injection H3 as <-. destruct Hc as (s4 & H4 & H5 & _); [reflexivity|].
  exists s4. split; [exact H4|]. rewrite H5. reflexivity.
Defined.

(** Without a publisher (Kafka could not be reached when BBSim started) nobody
    reads the channel: after a hundred events the next one blocks the goroutine of
    the simulator that publishes it. *)
Lemma events_block_without_publisher :
  (exists s, publish_n 100 no_events = Done (tt, s)) /\ publish_n 101 no_events = Blocked "olt.EventChannel".
Proof. split; [eexists|]; by vm_compute. Qed.

(** The same after the producer stopped: the publisher waits for ever with the
    event it holds, the producer is handed nothing, and after a hundred more events
    the simulator blocks. *)
Lemma events_block_after_error :
  match InitializePublisher kafka_up (BBSim GetDefaultOps) 0 no_events with
  | Done (_, s) =>
      match (publish_n 1 ;; receive_event ;; publish_n 100) (s <| stopped := true |>) with
      | Done (_, s') => send_event s' = Blocked "producer.Input()" /\ to_kafka s' = [] /\ publish_n 1 s' = Blocked "olt.EventChannel"
      | _ => False
      end
  | _ => False
  end.
Proof. by vm_compute. Qed.

(** An unknown level is taken as debug, with a warning; the five known ones are
    set as named. *)
Lemma SetLogLevel_unknown level caller :
  level ∉ ["trace"; "debug"; "info"; "warn"; "error"] <-> SetLogLevel level caller = (DebugLevel, caller, true).
Proof.
  unfold SetLogLevel. split; intros Hs; repeat case_decide; subst; try done; [exfalso; set_solver..|set_solver].
Qed.
