(* ===== verification/Web.v ===== *)
(** * The web server: software images

    [internal/bbsim/responders/webserver/webserver.go]: besides the SADIS handlers
    of [Sadis], the server counts the requests for software images and serves the
    files of one directory.  The file server of [net/http] is modelled with its
    redirects, index pages and listings; what the file system holds at a path is a
    parameter; which route a request takes is left to [gorilla/mux].  The theorem
    says that no request leaves the directory, and what a request in cleaned form
    is answered. *)
From S2P Require Import Prelude Sadis.
Open Scope Z_scope.
Open Scope string_scope.

(** ** Paths *)

Definition slash : Ascii.ascii := Ascii.ascii_of_N 47.

(** [path.Clean] on a path that starts at the root, on its elements from the
    last to the first: empty elements and dots are dropped, two dots drop the
    element before, if there is one. *)
Fixpoint clean_elements (stack segs : list string) : list string :=
  match segs with
  | [] => stack
  | x :: segs' =>
      if decide (x = "" \/ x = ".") then clean_elements stack segs'
      else if decide (x = "..") then clean_elements (tail stack) segs'
      else clean_elements (x :: stack) segs'
  end.
Definition rooted (segs : list string) : string :=
  match segs with [] => "/" | _ => String.concat "" ((fun x => "/" +:+ x) <$> segs) end.
Definition Clean (path : string) : string := rooted (reverse (clean_elements [] (split_on slash path))).

(** [filepath.Join] of a directory that starts at the root: an empty element is
    left out. *)
Definition Join (dir path : string) : string :=
  if decide (path = "") then Clean dir else Clean (dir +:+ "/" +:+ path).

(** What follows a prefix. *)
Fixpoint after_prefix (old s : string) : option string :=
  match old, s with
  | "", _ => Some s
  | String c old', String d s' => if decide (c = d) then after_prefix old' s' else None
  | _, "" => None
  end.

(** [strings.Replace] with a count of one and nothing to put in. *)
Fixpoint remove_first (old s : string) : string :=
  match after_prefix old s with
  | Some r => r
  | None => match s with "" => "" | String c s' => String c (remove_first old s') end
  end.

(** [strings.TrimPrefix]. *)
Definition TrimPrefix (s old : string) : string := default s (after_prefix old s).

(** [strings.HasSuffix]. *)
Fixpoint HasSuffix (suf s : string) : bool :=
  bool_decide (s = suf) || match s with "" => false | String _ s' => HasSuffix suf s' end.

(** [path.Base]: the last element, trailing slashes left out. *)
Definition Base (path : string) : string :=
  match last (filter (fun x => x <> "") (split_on slash path)) with
  | Some x => x
  | None => if decide (path = "") then "." else "/"
  end.

(** ** Handlers *)

(** What [os.Stat] and [http.Dir.Open] find at a path of the file system. *)
Inductive StatResult := Exists | NotExist | StatError (e : error).
Inductive OpenResult := Opened (IsDir : bool) | OpenNotExist | OpenPermission | OpenError.
Record FileSystem := { Stat : string -> StatResult; Open_ : string -> OpenResult }.

(** The parts of the address of a request that the handlers read. *)
Record URL := { Path : string; RawPath : string; RawQuery : string }.

(** What the client was handed: a file, or the listing of a directory. *)
Inductive Content := FileContent (f : string) | Listing (d : string).
Definition content_path (c : Content) : string := match c with FileContent f => f | Listing d => d end.

(** The counter, the reply with its [Location] header, and what was handed out. *)
Record Web := { imageRequests : Z; reply : Reply; Location : option string; served : option Content }.
#[export] Instance eta_Web : Eta Web := fun s => {|
  imageRequests := imageRequests s; reply := reply s; Location := Location s; served := served s |}.
#[export] Instance set_imageRequests : Setter imageRequests := ltac:(setter_for imageRequests).
#[export] Instance set_reply : Setter reply := ltac:(setter_for reply).
#[export] Instance set_Location : Setter Location := ltac:(setter_for Location).
#[export] Instance set_served : Setter served := ltac:(setter_for served).
Definition writing (m : M Reply unit) : M Web unit := zoom reply (fun r s => s <| reply := r |>) m.

Definition staticDir : string := "/app/configs/".

(** [localRedirect] of [net/http]: the query of the request is kept. *)
Definition localRedirect (newPath query : string) : M Web unit :=
  modify (fun s => s <| Location := Some (if decide (query = "") then newPath else newPath +:+ "?" +:+ query) |>) ;;
  writing (WriteHeader 301).

(** The status for a file that is not opened. *)
Definition toHTTPError (r : OpenResult) : string * Z :=
  match r with
  | OpenNotExist => ("404 page not found", 404)
  | OpenPermission => ("403 Forbidden", 403)
  | _ => ("500 Internal Server Error", 500)
  end.

Definition hand_out (c : Content) : M Web unit :=
  modify (fun s => s <| served := Some c |>) ;; writing (WriteHeader 200).

(** [serveFile] of [net/http], as [http.FileServer] calls it on a directory:
    a path that ends in the name of the index page is redirected to its directory,
    a directory is redirected to the path with a slash and a file to the one
    without; for a directory the index page is sent when there is one, and its
    listing otherwise.  Conditional and range requests, which send less of the same
    file, are left out. *)
Definition serveFile (fs : FileSystem) (dir url query : string) : M Web unit :=
  let name := Clean url in
  if HasSuffix "/index.html" url then localRedirect "./" query else
  match Open_ fs (Join dir name) with
  | Opened true =>
      if HasSuffix "/" url then
        let index := (if HasSuffix "/" name then "" else name) +:+ "/index.html" in
        match Open_ fs (Join dir index) with
        | Opened false => hand_out (FileContent (Join dir index))
        | Opened true => hand_out (Listing (Join dir index))
        | _ => hand_out (Listing (Join dir name))
        end
      else localRedirect (Base url +:+ "/") query
  | Opened false =>
      if HasSuffix "/" url then
        let base := Base url in
        if decide (base = "/" \/ base = ".")
        then writing (http_Error "http: attempting to traverse a non-directory" 500)
        else localRedirect ("../" +:+ base) query
      else hand_out (FileContent (Join dir name))
  | r => writing (http_Error (toHTTPError r).1 (toHTTPError r).2)
  end.

(** [http.StripPrefix] around [http.FileServer] on a directory: a path without the
    prefix, escaped or not, is not found; the file server puts a slash in front of
    a path that has none. *)
Definition FileServer (fs : FileSystem) (dir prefix : string) (u : URL) : M Web unit :=
  let p := TrimPrefix (Path u) prefix in
  let rp := TrimPrefix (RawPath u) prefix in
  if decide ((String.length p < String.length (Path u))%nat /\
             (RawPath u = "" \/ (String.length rp < String.length (RawPath u))%nat)) then
    let upath := if decide (after_prefix "/" p = None) then "/" +:+ p else p in
    serveFile fs dir upath (RawQuery u)
  else writing (http_Error "404 page not found" 404).

(** Source: internal/bbsim/responders/webserver/webserver.go:86-94,
    [StartRestServer] (the file whose existence is checked; a path that starts at
    the root is absolute). *)
Definition image_path (path : string) : string := Join staticDir (remove_first "/images/" (Clean path)).

(** Source: internal/bbsim/responders/webserver/webserver.go:85-112,
    [StartRestServer] (the handler of the images). *)
Definition ServeImage (fs : FileSystem) (u : URL) : M Web unit :=
  match Stat fs (image_path (Path u)) with
  | NotExist => writing (http_Error "file-not-found" 404)
  | StatError e => writing (http_Error e 500)
  | Exists =>
      modify (fun s => s <| imageRequests ::= Z.add 1 |>) ;;
      FileServer fs staticDir "/images/" u
  end.

(** Source: internal/bbsim/responders/webserver/webserver.go:62-79,
    [StartRestServer] (the handler of the counter; the value is always encoded). *)
Definition ServeImagesCount : M Web Z :=
  s ← get;
  writing (json_type ;; WriteHeader 200) ;; mret (imageRequests s).

(** ** Properties *)

Lemma split_nonempty c s : exists x l, split_on c s = x :: l.
Proof. induction s as [|d s (x & l & IH)]; [by eexists _, _|]. cbn. rewrite IH. case_decide; by eexists _, _. Qed.

Lemma split_String c d s :
  split_on c (String d s) =
    if decide (d = c) then "" :: split_on c s
    else match split_on c s with x :: r => String d x :: r | [] => [String d ""] end.
Proof. reflexivity. Qed.

Lemma split_cat c a b : split_on c (a +:+ String c b) = (split_on c a ++ split_on c b)%list.
Proof.
  induction a as [|d a IH].
  - change ("" +:+ String c b) with (String c b). rewrite split_String. by rewrite decide_True.
  - change (String d a +:+ String c b) with (String d (a +:+ String c b)). rewrite !split_String, IH.
    destruct (split_nonempty c a) as (x & l & ->). by case_decide.
Qed.

(** Joining two texts joins the last element of one and the first of the other. *)
Lemma split_merge c a b :
  exists l x y r, split_on c a = (l ++ [x])%list /\ split_on c b = y :: r /\ split_on c (a +:+ b) = (l ++ [x +:+ y] ++ r)%list.
Proof.
  induction a as [|d a (l & x & y & r & Ha & Hb & Hab)].
  - destruct (split_nonempty c b) as (y & r & Hb). by exists [], "", y, r.
  - change (String d a +:+ b) with (String d (a +:+ b)). rewrite !split_String, Hab, Ha, Hb. case_decide.
    + exists ("" :: l), x, y, r. done.
    + destruct l as [|z l]; cbn; [by exists [], (String d x), y, r|by exists (String d z :: l), x, y, r].
Qed.

(** Elements that a cleaned path has. *)
Definition element (x : string) : Prop := x <> "" /\ x <> "." /\ x <> ".." /\ split_on slash x = [x].

Lemma split_elements c s : Forall (fun x => split_on c x = [x]) (split_on c s).
Proof.
  induction s as [|d s IH]; [by repeat constructor|]. rewrite split_String.
  destruct (split_nonempty c s) as (x & l & E). rewrite E in IH |- *. inversion IH as [|? ? Hx Hl]; subst.
  case_decide; [by repeat constructor|]. constructor; [|done]. rewrite split_String, Hx. by rewrite decide_False.
Qed.

Lemma clean_elements_ok segs stack :
  Forall element stack -> Forall (fun x => split_on slash x = [x]) segs -> Forall element (clean_elements stack segs).
Proof.
  revert stack. induction segs as [|x segs IH]; intros stack Hs Hx; cbn [clean_elements]; [done|].
  inversion Hx as [|? ? Hx1 Hx2]; subst. repeat case_decide; apply IH; try done; [by destruct Hs|].
  constructor; [|done]. split_and!; naive_solver.
Qed.

(** Without two dots nothing is dropped but empty elements and dots. *)
Lemma clean_elements_plain segs stack :
  Forall (fun x => x <> "..") segs ->
  clean_elements stack segs = (reverse (filter (fun x => x <> "" /\ x <> ".") segs) ++ stack)%list.
Proof.
  revert stack. induction segs as [|x segs IH]; intros stack Hx; cbn [clean_elements]; [done|].
  inversion Hx as [|? ? Hx1 Hx2]; subst. rewrite filter_cons. case_decide as Hd.
  { rewrite decide_False by (intros []; by destruct Hd). by apply IH. }
  rewrite decide_False by done. rewrite decide_True by (split; intros ->; apply Hd; auto).
  rewrite IH, reverse_cons by done. by rewrite <-app_assoc.
Qed.

Lemma clean_elements_app l1 l2 stack : clean_elements stack (l1 ++ l2) = clean_elements (clean_elements stack l1) l2.
Proof. revert stack. induction l1 as [|x l1 IH]; intros stack; [done|]. cbn [app clean_elements]. by repeat case_decide. Qed.

Lemma filter_elements l : Forall element l -> filter (fun x => x <> "" /\ x <> ".") l = l.
Proof. induction 1 as [|x l (H1 & H2 & _) _ IH]; [done|]. rewrite filter_cons_True by done. by rewrite IH. Qed.

Lemma text_nil_r s : s +:+ "" = s.
Proof. induction s as [|c s IH]; [done|]. exact (f_equal (String c) IH). Qed.

Lemma rooted_cons x l : rooted (x :: l) = "/" +:+ x +:+ (match l with [] => "" | _ => rooted l end).
Proof. cbn [rooted]. destruct l as [|y l]; [cbn; by rewrite text_nil_r|]. done. Qed.

Lemma split_rooted l : l <> [] -> Forall element l -> split_on slash (rooted l) = "" :: l.
Proof.
  intros Hl Hf. induction Hf as [|x l (_ & _ & _ & Hx) Hf IH]; [done|]. rewrite rooted_cons.
  change ("/" +:+ x +:+ match l with [] => "" | _ => rooted l end)
    with (String slash (x +:+ match l with [] => "" | _ => rooted l end)).
  rewrite split_String, decide_True by done. f_equal. destruct l as [|y l]; [by rewrite text_nil_r|].
  specialize (IH ltac:(done)). rewrite rooted_cons in IH |- *.
  set (r := match l with [] => "" | _ => rooted l end) in *.
  change ("/" +:+ y +:+ r) with (String slash (y +:+ r)) in *. rewrite split_cat, Hx.
  rewrite split_String, decide_True in IH by done. injection IH as ->. done.
Qed.

Lemma split_Clean path : exists l, Forall element l /\ Clean path = rooted l /\ split_on slash (Clean path) = "" :: (if decide (l = []) then [""] else l).
Proof.
  exists (reverse (clean_elements [] (split_on slash path))).
  assert (Forall element (reverse (clean_elements [] (split_on slash path)))) as Hf
    by (apply Forall_reverse, clean_elements_ok; [constructor|apply split_elements]).
  split; [done|]. split; [done|]. unfold Clean. case_decide as Hl; [by rewrite Hl|]. by apply split_rooted.
Qed.

Lemma after_prefix_app old s r : after_prefix old s = Some r -> s = old +:+ r.
Proof.
  revert s. induction old as [|c old IH]; intros s; cbn; [by intros [= ->]|]. destruct s as [|d s]; [done|].
  case_decide as Hc; [|done]. intros H. subst d. change (String c old +:+ r) with (String c (old +:+ r)). f_equal. by apply IH.
Qed.

Lemma remove_first_cases old s :
  remove_first old s = s \/ exists a b, s = a +:+ old +:+ b /\ remove_first old s = a +:+ b.
Proof.
  induction s as [|c s IH]; cbn [remove_first]; destruct (after_prefix old _) as [r|] eqn:E.
  - right. exists "", r. split; [by apply after_prefix_app in E|done].
  - by left.
  - right. exists "", r. split; [by apply after_prefix_app in E|done].
  - destruct IH as [->|(a & b & -> & ->)]; [by left|]. right. by exists (String c a), b.
Qed.

(** Neither a dot nor two dots. *)
Definition harmless (x : string) : Prop := x <> "." /\ x <> "..".

Lemma harmless_join x y : harmless x -> harmless y -> x +:+ y <> "..".
Proof.
  intros [Hx1 Hx2] [Hy1 Hy2] H. destruct x as [|c [|d x]]; [done| |].
  - destruct y as [|e y]; [done|]. change (String c "" +:+ String e y) with (String c (String e y)) in H. simplify_eq.
  - change (String c (String d x) +:+ y) with (String c (String d (x +:+ y))) in H.
    injection H as -> -> H. destruct x; [done|discriminate H].
Qed.

Lemma Clean_harmless path : Forall harmless (split_on slash (Clean path)).
Proof.
  destruct (split_Clean path) as (l & Hl & _ & ->). constructor; [done|]. case_decide; [by repeat constructor|].
  eapply Forall_impl; [exact Hl|]. by intros x (_ & H1 & H2 & _).
Qed.

(** Removing an element leaves no two dots behind. *)
Lemma image_no_dots path : Forall (fun x => x <> "..") (split_on slash (remove_first "/images/" (Clean path))).
Proof.
  pose proof (Clean_harmless path) as Hc.
  destruct (remove_first_cases "/images/" (Clean path)) as [->|(a & b & Hab & ->)].
  { eapply Forall_impl; [exact Hc|]. by intros x []. }
  rewrite Hab in Hc. change (a +:+ "/images/" +:+ b) with (a +:+ String slash ("images" +:+ String slash b)) in Hc.
  rewrite !split_cat in Hc. apply Forall_app in Hc as [Ha Hb]. apply Forall_app in Hb as [_ Hb].
  destruct (split_merge slash a b) as (l & x & y & r & Ea & Eb & ->). rewrite Ea in Ha. rewrite Eb in Hb.
  apply Forall_app in Ha as [Hl Hx]. inversion Hx; subst. inversion Hb; subst. rewrite !Forall_app. split_and!.
  - eapply Forall_impl; [exact Hl|]. by intros z [].
  - constructor; [by apply harmless_join|constructor].
  - eapply Forall_impl; [eassumption|]. by intros z [].
Qed.

(** The paths in the directory of the images. *)
Definition in_images (segs : list string) : string := rooted ("app" :: "configs" :: segs).

Lemma Join_in_images r :
  Forall (fun x => x <> "..") (split_on slash r) ->
  Join staticDir r = in_images (filter (fun x => x <> "" /\ x <> ".") (split_on slash r)).
Proof.
  intros Hr. unfold Join. case_decide as He; [by subst|].
  change (staticDir +:+ "/" +:+ r) with (staticDir +:+ String slash r). unfold Clean.
  rewrite split_cat, clean_elements_app. change (clean_elements [] (split_on slash staticDir)) with ["configs"; "app"].
  rewrite clean_elements_plain by done. by rewrite reverse_app, reverse_involutive.
Qed.

Lemma kept_elements r :
  Forall (fun x => x <> "..") (split_on slash r) -> Forall element (filter (fun x => x <> "" /\ x <> ".") (split_on slash r)).
Proof.
  intros Hr. apply Forall_forall. intros x [[H1 H2] Hx]%list_elem_of_filter. rewrite Forall_forall in Hr.
  pose proof (split_elements slash r) as Hs. rewrite Forall_forall in Hs. split_and!; auto.
Qed.

Lemma Clean_rooted l : Forall element l -> Clean (rooted l) = rooted l.
Proof.
  intros Hl. destruct (decide (l = [])) as [->|Hne]; [done|]. unfold Clean. rewrite split_rooted by done.
  cbn [clean_elements]. rewrite decide_True by (by left). rewrite clean_elements_plain.
  - by rewrite app_nil_r, reverse_involutive, filter_elements.
  - eapply Forall_impl; [exact Hl|]. by intros x (_ & _ & H & _).
Qed.

(** What the file server hands out, and that it leaves the counter alone. *)
Definition contained (n : Z) (s : Web) : Prop :=
  imageRequests s = n /\ forall c, served s = Some c -> exists segs, Forall element segs /\ content_path c = in_images segs.

Lemma Join_contained r : Forall (fun x => x <> "..") (split_on slash r) -> exists segs, Forall element segs /\ Join staticDir r = in_images segs.
Proof. intros Hr. eexists. split; [by apply kept_elements|]. by apply Join_in_images. Qed.

Lemma Clean_no_dots path : Forall (fun x => x <> "..") (split_on slash (Clean path)).
Proof. eapply Forall_impl; [apply Clean_harmless|]. by intros x []. Qed.

Lemma index_no_dots path :
  Forall (fun x => x <> "..") (split_on slash ((if HasSuffix "/" (Clean path) then "" else Clean path) +:+ "/index.html")).
Proof.
  destruct (HasSuffix _ _); [by repeat constructor|].
  change (Clean path +:+ "/index.html") with (Clean path +:+ String slash "index.html").
  rewrite split_cat. apply Forall_app. split; [apply Clean_no_dots|by repeat constructor].
Qed.

Lemma serveFile_contained fs url query s : served s = None ->
  exists s', serveFile fs staticDir url query s = Done (tt, s') /\ contained (imageRequests s) s'.
Proof.
  intros Hs. pose proof (Join_contained _ (Clean_no_dots url)) as Hn. pose proof (Join_contained _ (index_no_dots url)) as Hi.
  unfold serveFile. repeat first [case_match|case_decide]; eexists; (split; [reflexivity|]);
    (split; [done|]); intros c Hc; cbn in Hc; try congruence; by injection Hc as <-.
Qed.

Lemma FileServer_contained fs prefix u s : served s = None ->
  exists s', FileServer fs staticDir prefix u s = Done (tt, s') /\ contained (imageRequests s) s'.
Proof.
  intros Hs. unfold FileServer. case_decide; [by apply serveFile_contained|].
  eexists. split; [reflexivity|]. split; [done|]. cbn. congruence.
Qed.

(** ** Requests in cleaned form, with or without a slash at the end *)

Lemma HasSuffix_spec suf s : HasSuffix suf s = true <-> exists a, s = a +:+ suf.
Proof.
  induction s as [|c s IH]; cbn [HasSuffix]; rewrite orb_true_iff, bool_decide_eq_true.
  - split; [intros [<-|H]; [by exists ""|done]|]. intros [a Ha]. left. destruct a; [done|discriminate Ha].
  - rewrite IH. split.
    + intros [<-|[a ->]]; [by exists ""|by exists (String c a)].
    + intros [[|d a] Ha]; [by left|]. right. injection Ha as -> ->. by exists a.
Qed.

(** The text ends in a slash and [x] exactly when [x] is the last of two or more
    elements. *)
Lemma split_last_inv s l x : split_on slash s = (l ++ [x])%list -> l <> [] -> exists a, s = a +:+ String slash x.
Proof.
  revert l. induction s as [|c s IH]; intros l Hs Hl.
  { destruct l as [|y [|z l]]; [done|discriminate Hs|discriminate Hs]. }
  rewrite split_String in Hs. destruct (split_nonempty slash s) as (y & r & E). case_decide as Hc.
  - subst c. destruct l as [|z l]; [done|]. injection Hs as <- Hs. destruct l as [|z l].
    + exists "". change ("" +:+ String slash x) with (String slash x). f_equal. clear -Hs.
      revert x Hs. induction s as [|c s IH]; intros x Hs; [by injection Hs|]. rewrite split_String in Hs.
      destruct (split_nonempty slash s) as (y & r & E). rewrite E in Hs. case_decide; [done|].
      injection Hs as <- ->. f_equal. by apply IH.
    + destruct (IH (z :: l) Hs) as [a ->]; [done|]. by exists (String slash a).
  - rewrite E in Hs. destruct l as [|z l]; [done|]. injection Hs as <- ->. destruct l as [|z l].
    + destruct (IH [y]) as [a ->]; [by rewrite E|done|]. by exists (String c a).
    + destruct (IH (y :: z :: l)) as [a ->]; [by rewrite E|done|]. by exists (String c a).
Qed.

Lemma HasSuffix_last x s : split_on slash x = [x] -> (2 <= length (split_on slash s))%nat ->
  HasSuffix (String slash x) s = bool_decide (last (split_on slash s) = Some x).
Proof.
  intros Hx Hl. apply eq_true_iff_eq. rewrite HasSuffix_spec, bool_decide_eq_true. split.
  - intros [a ->]. by rewrite split_cat, Hx, last_snoc.
  - intros [l Hs]%last_Some. eapply split_last_inv; [exact Hs|]. intros ->. rewrite Hs in Hl. cbn in Hl. lia.
Qed.

(** A cleaned path, and the same with a slash at the end. *)
Definition slashed (b : bool) (segs : list string) : string := rooted segs +:+ (if b then "/" else "").

Lemma elements_no_dots l : Forall element l -> Forall (fun x => x <> "..") l.
Proof. intros Hl. eapply Forall_impl; [exact Hl|]. by intros x (_ & _ & H & _). Qed.

Lemma split_slashed b segs : segs <> [] -> Forall element segs ->
  split_on slash (slashed b segs) = "" :: (segs ++ if b then [""] else [])%list.
Proof.
  intros Hne Hf. unfold slashed. destruct b.
  - change (rooted segs +:+ "/") with (rooted segs +:+ String slash ""). by rewrite split_cat, split_rooted.
  - by rewrite text_nil_r, app_nil_r, split_rooted.
Qed.

Lemma kept_slashed b segs : segs <> [] -> Forall element segs ->
  filter (fun x => x <> "" /\ x <> ".") (split_on slash (slashed b segs)) = segs.
Proof.
  intros Hne Hf. rewrite split_slashed, filter_cons_False, filter_app, filter_elements by naive_solver.
  destruct b; [rewrite filter_cons_False by naive_solver|]; by rewrite filter_nil, app_nil_r.
Qed.

Lemma Clean_slashed b segs : segs <> [] -> Forall element segs -> Clean (slashed b segs) = rooted segs.
Proof.
  intros Hne Hf. unfold Clean. rewrite clean_elements_plain.
  - by rewrite app_nil_r, reverse_involutive, kept_slashed.
  - rewrite split_slashed by done. constructor; [done|]. apply Forall_app. split; [by apply elements_no_dots|].
    destruct b; by repeat constructor.
Qed.

Lemma Join_rooted segs : segs <> [] -> Forall element segs -> Join staticDir (rooted segs) = in_images segs.
Proof.
  intros Hne Hf. pose proof (split_rooted segs Hne Hf) as Hs. rewrite Join_in_images.
  - by rewrite Hs, filter_cons_False, filter_elements by naive_solver.
  - rewrite Hs. constructor; [done|]. by apply elements_no_dots.
Qed.

Lemma Base_slashed b segs x : Forall element (segs ++ [x]) -> Base (slashed b (segs ++ [x])) = x.
Proof.
  intros Hf. unfold Base. rewrite split_slashed by (done || by destruct segs). rewrite filter_cons_False, filter_app by naive_solver.
  assert (filter (fun x => x <> "") (segs ++ [x]) = segs ++ [x])%list as ->.
  { induction Hf as [|y l (Hy & _) _ IH]; [done|]. by rewrite filter_cons_True, IH. }
  destruct b; [rewrite filter_cons_False by naive_solver|]; by rewrite filter_nil, app_nil_r, last_snoc.
Qed.

Lemma ends_in_slash b segs : segs <> [] -> Forall element segs -> HasSuffix "/" (slashed b segs) = b.
Proof.
  intros Hne Hf. change "/" with (String slash ""). rewrite HasSuffix_last; rewrite ?split_slashed by done; [|done|].
  - destruct b; [by rewrite app_comm_cons, last_snoc|]. rewrite app_nil_r.
    destruct segs as [|y l _] using rev_ind; [done|]. rewrite app_comm_cons, last_snoc.
    apply Forall_app in Hf as [_ Hx]. inversion Hx as [|? ? (Hx1 & _) _]; subst. apply bool_decide_eq_false. naive_solver.
  - destruct segs; [done|]. cbn. lia.
Qed.

Lemma ends_in_index b segs x : Forall element (segs ++ [x]) ->
  HasSuffix "/index.html" (slashed b (segs ++ [x])) = negb b && bool_decide (x = "index.html").
Proof.
  intros Hf. assert (segs ++ [x] <> [])%list as Hne by by destruct segs.
  change "/index.html" with (String slash "index.html"). rewrite HasSuffix_last; rewrite ?split_slashed by done; [|done|].
  - destruct b; [by rewrite app_comm_cons, last_snoc|]. rewrite app_nil_r, app_comm_cons, last_snoc.
    apply bool_decide_ext. naive_solver.
  - cbn. rewrite !length_app. cbn. lia.
Qed.

(** What the file server answers: a file or listing, another address, or an error. *)
Inductive Answer := Sends (c : Content) | Redirects (to : string) | Fails (t : string) (code : Z).
Definition answer (a : Answer) (query : string) : M Web unit :=
  match a with
  | Sends c => hand_out c
  | Redirects to => localRedirect to query
  | Fails t code => writing (http_Error t code)
  end.

(** What is documented of it for the path [segs]/[x], with or without a slash. *)
Definition documented (fs : FileSystem) (b : bool) (segs : list string) (x : string) : Answer :=
  let f := in_images (segs ++ [x]) in
  let index := in_images (segs ++ [x; "index.html"]) in
  if negb b && bool_decide (x = "index.html") then Redirects "./" else
  match Open_ fs f, b with
  | Opened false, false => Sends (FileContent f)
  | Opened false, true => Redirects ("../" +:+ x)
  | Opened true, false => Redirects (x +:+ "/")
  | Opened true, true =>
      match Open_ fs index with
      | Opened false => Sends (FileContent index)
      | Opened true => Sends (Listing index)
      | _ => Sends (Listing f)
      end
  | r, _ => Fails (toHTTPError r).1 (toHTTPError r).2
  end.

Lemma index_page : element "index.html".
Proof. by split_and!. Qed.

Lemma Join_index segs : segs <> [] -> Forall element segs ->
  Join staticDir ((if HasSuffix "/" (rooted segs) then "" else rooted segs) +:+ "/index.html") = in_images (segs ++ ["index.html"]).
Proof.
  intros Hne Hf. pose proof (ends_in_slash false segs Hne Hf) as Hs. unfold slashed in Hs. rewrite text_nil_r in Hs. rewrite Hs.
  change (rooted segs +:+ "/index.html") with (rooted segs +:+ String slash "index.html").
  rewrite Join_in_images; rewrite split_cat, split_rooted by done.
  - rewrite filter_app, filter_cons_False by naive_solver. by rewrite filter_elements.
  - apply Forall_app. split; [constructor; [done|by apply elements_no_dots]|by repeat constructor].
Qed.

Lemma serveFile_documented fs b segs x query : Forall element (segs ++ [x]) ->
  serveFile fs staticDir (slashed b (segs ++ [x])) query = answer (documented fs b segs x) query.
Proof.
  intros Hf. assert (segs ++ [x] <> [])%list as Hne by by destruct segs. unfold serveFile, documented.
  rewrite ends_in_index, ends_in_slash, Clean_slashed, Join_rooted, Join_index, Base_slashed by done.
  rewrite <-app_assoc. change ([x] ++ ["index.html"])%list with [x; "index.html"].
  destruct (negb b && _); [done|]. destruct (Open_ fs (in_images (segs ++ [x]))) as [[]| | |], b; try done.
  - by destruct (Open_ fs (in_images (segs ++ [x; "index.html"]))) as [[]| | |].
  - apply Forall_app in Hf as [_ Hx]. inversion Hx as [|? ? (Hx1 & Hx2 & _ & Hx3) _]; subst.
    rewrite decide_False; [done|]. intros [->|]; [by vm_compute in Hx3|done].
Qed.

Lemma text_assoc a b c : (a +:+ b) +:+ c = a +:+ (b +:+ c).
Proof. induction a as [|d a IH]; [done|]. exact (f_equal (String d) IH). Qed.

(** A cleaned path below the prefix. *)
Lemma below_prefix b segs : segs <> [] -> Forall element segs ->
  exists r, slashed b segs = String slash r /\ after_prefix "/" r = None /\ slashed b ("images" :: segs) = "/images/" +:+ r.
Proof.
  intros Hne Hf. destruct segs as [|x l]; [done|]. unfold slashed.
  exists (x +:+ (match l with [] => "" | _ => rooted l end) +:+ if b then "/" else "").
  rewrite (rooted_cons "images"), rooted_cons, !text_assoc. split_and!; [done| |done].
  inversion Hf as [|? ? (Hx & _ & _ & Hs) _]; subst. destruct x as [|c x]; [done|].
  rewrite split_String in Hs. case_decide as Hc; [by injection Hs|].
  match goal with |- context [String c x +:+ ?t] => change (String c x +:+ t) with (String c (x +:+ t)) end.
  cbn [after_prefix]. case_decide as Hd; [|done]. by subst c.
Qed.

Lemma after_prefix_join old s : after_prefix old (old +:+ s) = Some s.
Proof. induction old as [|c old IH]; [by destruct s|].
  change (String c old +:+ s) with (String c (old +:+ s)). cbn [after_prefix]. by rewrite decide_True. Qed.

Lemma image_path_clean b segs : segs <> [] -> Forall element segs -> image_path (slashed b ("images" :: segs)) = in_images segs.
Proof.
  intros Hne Hf. assert (Forall element ("images" :: segs)) as Hfi by (constructor; [by split_and!|done]).
  destruct (below_prefix false segs Hne Hf) as (r & Hro & _ & Hr). unfold image_path.
  rewrite Clean_slashed by done. unfold slashed in Hro, Hr. rewrite text_nil_r in Hro, Hr.
  assert (remove_first "/images/" (rooted ("images" :: segs)) = r) as ->.
  { pose proof (after_prefix_join "/images/" r) as Ha. rewrite <-Hr in Ha. rewrite Hr in Ha |- *.
    change ("/images/" +:+ r) with (String slash ("images/" +:+ r)) in *. cbn [remove_first]. by rewrite Ha. }
  assert (split_on slash r = segs) as Hsp.
  { pose proof (split_rooted segs Hne Hf) as Hs. rewrite Hro, split_String, decide_True in Hs by done. by injection Hs. }
  rewrite Join_in_images; rewrite Hsp; [by rewrite filter_elements|]. by apply elements_no_dots.
Qed.

(** The prefix is not hidden by an escape. *)
Definition plain_prefix (u : URL) : Prop := RawPath u = "" \/ exists r, RawPath u = "/images/" +:+ r.

Lemma TrimPrefix_shorter r : (String.length (TrimPrefix ("/images/" +:+ r) "/images/") < String.length ("/images/" +:+ r))%nat.
Proof.
  unfold TrimPrefix. rewrite after_prefix_join. change (default ("/images/" +:+ r) (Some r)) with r.
  change (String.length ("/images/" +:+ r)) with (8 + String.length r)%nat. lia.
Qed.

Lemma FileServer_documented fs b segs x u : Forall element (segs ++ [x]) ->
  Path u = slashed b ("images" :: segs ++ [x]) -> plain_prefix u ->
  FileServer fs staticDir "/images/" u = answer (documented fs b segs x) (RawQuery u).
Proof.
  intros Hf Hp Hraw. assert (segs ++ [x] <> [])%list as Hne by by destruct segs.
  destruct (below_prefix b _ Hne Hf) as (r & Hro & Hsl & Hr). unfold FileServer. rewrite Hp, Hr.
  rewrite decide_True.
  - unfold TrimPrefix. rewrite after_prefix_join. cbn [default]. rewrite decide_True by done.
    rewrite <-(serveFile_documented fs b segs x (RawQuery u) Hf), Hro. reflexivity.
  - split; [apply TrimPrefix_shorter|]. destruct Hraw as [->|[q ->]]; [by left|right; apply TrimPrefix_shorter].
Qed.

(** C28: a request for an image never leaves the directory of the images.  Whatever
    the address and the file system: the handler answers; the file whose existence
    is checked and the file or directory that is sent lie in that directory, no
    element of their paths being empty, a dot or two dots; the counter grows by one
    exactly when the checked file exists.  For a cleaned path below the prefix, with
    or without a slash at its end (the prefix itself not escaped), the checked file
    is the one the path names, and when it exists the answer is the one documented
    of a file server on that file: a path ending in index.html is redirected to its
    directory; without the slash a file is sent and a directory redirected to the
    path with it; with the slash a file is redirected to the path without, and of a
    directory the index page is sent, or else its listing; a file that is not opened
    is answered by its error. *)
Theorem images_contained (fs : FileSystem) (u : URL) (s : Web) :
  served s = None ->
  exists s', ServeImage fs u s = Done (tt, s') /\
    (exists segs, Forall element segs /\ image_path (Path u) = in_images segs) /\
    (forall c, served s' = Some c -> exists segs, Forall element segs /\ content_path c = in_images segs) /\
    imageRequests s' = imageRequests s + (match Stat fs (image_path (Path u)) with Exists => 1 | _ => 0 end) /\
    (forall b segs x, Forall element (segs ++ [x]) -> Path u = slashed b ("images" :: segs ++ [x]) -> plain_prefix u ->
       image_path (Path u) = in_images (segs ++ [x]) /\
       (Stat fs (image_path (Path u)) = Exists ->
          answer (documented fs b segs x) (RawQuery u) (s <| imageRequests ::= Z.add 1 |>) = Done (tt, s'))).
Proof.
  intros Hs.
  assert (forall b segs x, Forall element (segs ++ [x]) -> Path u = slashed b ("images" :: segs ++ [x]) ->
    image_path (Path u) = in_images (segs ++ [x])) as Hc.
  { intros b segs x Hf ->. apply image_path_clean; [by destruct segs|done]. }
  pose proof (Join_contained _ (image_no_dots (Path u))) as Hin. unfold ServeImage.
  destruct (Stat fs (image_path (Path u))) eqn:Est.
  - set (s1 := s <| imageRequests ::= Z.add 1 |>).
    destruct (FileServer_contained fs "/images/" u s1 Hs) as (s' & Hr & Hn & Hf).
    exists s'. split; [exact Hr|]. split; [done|]. split; [done|]. split; [rewrite Hn; cbn; lia|].
    intros b segs x Hel Hp Hraw. split; [by eapply Hc|]. intros _. by rewrite <-(FileServer_documented fs b segs x u).
  - eexists. split; [reflexivity|]. cbn. split_and!; [done|congruence|lia|]. intros b segs x Hel Hp _. split; [by eapply Hc|done].
  - eexists. split; [reflexivity|]. cbn. split_and!; [done|congruence|lia|]. intros b segs x Hel Hp _. split; [by eapply Hc|done].
Qed.

Definition idle_web : Web := {| imageRequests := 0; reply := no_reply; Location := None; served := None |}.
Definition url_of (path : string) : URL := {| Path := path; RawPath := ""; RawQuery := "" |}.
(** A directory with an image, and an index page in a directory of its own. *)
Definition image_fs : FileSystem := {|
  Stat p := if decide (p ∈ ["/app/configs/image.img"; "/app/configs/www"; "/app/configs/www/index.html"]) then Exists else NotExist;
  Open_ p := if decide (p ∈ ["/app/configs/image.img"; "/app/configs/www/index.html"]) then Opened false
             else if decide (p = "/app/configs/www") then Opened true else OpenNotExist |}.

Lemma images_contained_witness :
  exists s1 s2 s3 s4,
    ServeImage image_fs (url_of "/images/image.img") idle_web = Done (tt, s1) /\
      served s1 = Some (FileContent "/app/configs/image.img") /\ imageRequests s1 = 1 /\
    ServeImage image_fs (url_of "/images/www/index.html") idle_web = Done (tt, s2) /\
      served s2 = None /\ Location s2 = Some "./" /\ header (reply s2) = Some 301 /\
    ServeImage image_fs (url_of "/images/www") idle_web = Done (tt, s3) /\ Location s3 = Some "www/" /\
    ServeImage image_fs (url_of "/images/www/") idle_web = Done (tt, s4) /\
      served s4 = Some (FileContent "/app/configs/www/index.html").
Proof.
  destruct (images_contained image_fs (url_of "/images/image.img") idle_web eq_refl) as (s1 & H1 & _ & _ & C1 & A1).
  destruct (images_contained image_fs (url_of "/images/www/index.html") idle_web eq_refl) as (s2 & H2 & _ & _ & _ & A2).
  destruct (images_contained image_fs (url_of "/images/www") idle_web eq_refl) as (s3 & H3 & _ & _ & _ & A3).
  destruct (images_contained image_fs (url_of "/images/www/") idle_web eq_refl) as (s4 & H4 & _ & _ & _ & A4).
  destruct (A1 false [] "image.img") as [_ B1]; [repeat constructor; done|reflexivity|by left|].
  destruct (A2 false ["www"] "index.html") as [_ B2]; [repeat constructor; done|reflexivity|by left|].
  destruct (A3 false [] "www") as [_ B3]; [repeat constructor; done|reflexivity|by left|].
  destruct (A4 true [] "www") as [_ B4]; [repeat constructor; done|reflexivity|by left|].
  specialize (B1 ltac:(by vm_compute)). specialize (B2 ltac:(by vm_compute)).
  specialize (B3 ltac:(by vm_compute)). specialize (B4 ltac:(by vm_compute)).
  exists s1, s2, s3, s4. rewrite H1, H2, H3, H4, C1. vm_compute in B1, B2, B3, B4.
  injection B1 as <-. injection B2 as <-. injection B3 as <-. injection B4 as <-.
  split_and!; by vm_compute.
Defined.

(** Outside the cleaned form the two files can differ: the router has to clean the
    path first.  And the directory itself, whose listing the file server would
    send, is looked for under another name. *)
Lemma uncleaned_paths_differ :
  image_path "/images/../images/a" = "/app/configs/a" /\
  Join staticDir (Clean ("/" +:+ TrimPrefix "/images/../images/a" "/images/")) = "/app/configs/images/a" /\
  image_path "/images/" = "/app/configs/images".
Proof. split_and!; by vm_compute. Qed.
