(* ===== verification/Ctl.v ===== *)
(** * bbsimctl: the command line client

    [internal/bbsimctl]: every command connects to a server, makes a call or two,
    and prints the answer.  The calls are an interface ([BBSimServer]); the
    handlers of [Api], [ApiInfo] and [Dmi] implement it ([CtlProps]).  Parsing the
    command line is left to [go-flags], laying out tables to the two table
    libraries: a command gets its arguments, and prints texts and tables of
    values.  A [log.Fatalf] ends the client. *)
From stdpp Require Import pretty.
From S2P Require Import Prelude OmciTypes Types OltFlows Olt AlarmSim Igmp Sadis Api ApiInfo DmiInv DmiGen Dmi Events.
Open Scope Z_scope.
Open Scope string_scope.

(** ** Configuration *)

(** Source: internal/bbsimctl/config/config.go, [GlobalConfigSpec].  The timeout
    is in seconds. *)
Record GlobalConfigSpec := { Server : string; Grpc_Timeout : Z }.

(** Source: internal/bbsimctl/config/config.go:53-65, [GlobalConfig, DmiConfig]. *)
Definition default_GlobalConfig : GlobalConfigSpec := {| Server := "localhost:50070"; Grpc_Timeout := 10 |}.
Definition default_DmiConfig : GlobalConfigSpec := {| Server := "localhost:50075"; Grpc_Timeout := 10 |}.

(** Source: internal/bbsimctl/config/config.go:37-42, [GlobalOptions]. *)
Record GlobalOptions := { opt_Config : string; opt_Server : string; opt_Debug : bool }.

(** What the client finds on its host: the home directory, the files that are not
    directories (decoding one over a configuration gives a new one or an error),
    the variable [BBSIMCTL_SERVER] and the name service, which turns a server with
    a host and a port into one with an address. *)
Record Host := {
  h_home : string; h_file : string -> option (GlobalConfigSpec -> error + GlobalConfigSpec);
  h_env : option string; h_resolve : string -> option string }.

(** Source: internal/bbsimctl/config/config.go, [ProcessGlobalOptions].  The left
    side is a [log.Fatal]. *)
Definition ProcessGlobalOptions (h : Host) (o : GlobalOptions) (c : GlobalConfigSpec) : error + GlobalConfigSpec :=
  let path := if decide (opt_Config o = "") then h_home h +:+ "/.bbsim/config" else opt_Config o in
  match (match h_file h path with None => inr c | Some unmarshal => unmarshal c end) with
  | inl e => inl ("Unmarshal: " +:+ e)
  | inr c =>
      let server := match h_env h with Some x => x | None => Server c end in
      let server := if decide (opt_Server o <> "") then opt_Server o else server in
      if decide (server = "") then inl "Server is not set. Please update config file or use the -s option"
      else inr {| Server := default server (h_resolve h server); Grpc_Timeout := Grpc_Timeout c |}
  end.

(** ** What a server offers *)

Class BBSimServer (S : Type) := {
  rpc_GetOlt : M S (error + ProtoOlt);
  rpc_GetOltAllocatedResources : ResourceType -> M S (error + list AllocatedResource);
  rpc_ShutdownOlt : M S (error + Response);
  rpc_PoweronOlt : M S (error + Response);
  rpc_RebootOlt : M S (error + Response);
  rpc_StopgRPCServer : M S (error + Response);
  rpc_StartgRPCServer : M S (error + Response);
  rpc_RestartgRPCServer : Z -> M S (error + Response);
  rpc_GetFlows : string -> M S (error + list Flow);
  rpc_PoweronAllONUs : M S (error + Response);
  rpc_ShutdownAllONUs : M S (error + Response);
  rpc_PoweronONUsOnPON : Z -> M S (error + Response);
  rpc_ShutdownONUsOnPON : Z -> M S (error + Response);
  rpc_GetONUs : M S (error + list ProtoONU);
  rpc_GetONU : string -> M S (error + ProtoONU);
  rpc_ShutdownONU : string -> M S (error + Response);
  rpc_PoweronONU : string -> M S (error + Response);
  rpc_RestartEapol : string -> string -> M S (error + Response);
  rpc_RestartDhcp : string -> string -> M S (error + Response);
  rpc_ChangeIgmpState : string -> Z -> Z -> string -> Z -> M S (error + Response);
  rpc_InvalidateMds : string -> M S (error + Response);
  rpc_GetOnuTrafficSchedulers : string -> M S (error + option Z);
  rpc_GetServices : string -> string -> M S (error + list ProtoService);
  rpc_GetUnis : M S (error + list ProtoUNI);
  rpc_GetOnuUnis : string -> M S (error + list ProtoUNI);
  rpc_SetOnuAlarmIndication : string -> string -> list (string * string) -> string -> M S (error + Response);
  rpc_SetOltAlarmIndication : Z -> string -> string -> M S (error + Response);
  rpc_SetLogLevel : string -> bool -> M S (error + string * bool);
  rpc_CreateEvent : string -> M S (error + Response);
  rpc_GetTransceivers : M S (error + list ProtoTransceiver);
  rpc_PlugInTransceiver : Z -> M S (error + Response);
  rpc_PlugOutTransceiver : Z -> M S (error + Response) }.

(** ** The client *)

(** How a command ends: well, with an error that is returned to [main], or with a
    [log.Fatalf]. *)
Inductive failure := Returned (e : error) | Fatal (msg : string).
Definition Ended : Type := option failure.

(** What a command prints. *)
Inductive Line :=
| Text (t : string)
| OltTable (o : ProtoOlt) | NniTable (l : list (Z * string)) | PonTable (l : list ProtoPON)
| ResourceTable (l : list AllocatedResource) | FlowTable (l : list Flow) | OnuTable (verbose : bool) (l : list ProtoONU)
| UniTable (verbose : bool) (l : list ProtoUNI) | ServiceTable (l : list ProtoService) | SchedulerTable (t : Z)
| TransceiverTable (l : list ProtoTransceiver) | NameTable (header : string) (l : list string)
| ConfigYaml (c : GlobalConfigSpec).

(** The client, its two configurations, the simulator it talks to with the
    addresses its two servers listen on, and what was printed. *)
Record Ctl (S : Type) := {
  ctl_conf : GlobalConfigSpec; ctl_dmi : GlobalConfigSpec; api_address : string; dmi_address : string; sim : S;
  printed : list Line }.
Arguments ctl_conf {S}. Arguments ctl_dmi {S}. Arguments api_address {S}. Arguments dmi_address {S}.
Arguments sim {S}. Arguments printed {S}.

Section Commands.
  Context {S : Type} `{BBSimServer S}.

Definition println (l : Line) : M (Ctl S) unit := modify (fun w => {|
  ctl_conf := ctl_conf w; ctl_dmi := ctl_dmi w; api_address := api_address w; dmi_address := dmi_address w;
  sim := sim w; printed := (printed w ++ [l])%list |}).

(** A call: without a server at the address it fails. *)
Definition call {A : Type} (address : Ctl S -> string * string) (m : M S (error + A)) : M (Ctl S) (error + A) := fun w =>
  let '(asked, listening) := address w in
  if decide (asked = listening) then
    match m (sim w) with
    | Done (r, s) => Done (r, {| ctl_conf := ctl_conf w; ctl_dmi := ctl_dmi w; api_address := api_address w;
                                 dmi_address := dmi_address w; sim := s; printed := printed w |})
    | Panicked p => Panicked p
    | Blocked b => Blocked b
    | Exited e => Exited e
    end
  else Done (inl "connection error", w).

(** Source: internal/bbsimctl/commands/helpers.go, [connect]. *)
Definition connect {A : Type} : M S (error + A) -> M (Ctl S) (error + A) := call (fun w => (Server (ctl_conf w), api_address w)).

(** Source: internal/bbsimctl/commands/dmi.go, [dmiEventGrpcClient]. *)
Definition dmiEventGrpcClient {A : Type} : M S (error + A) -> M (Ctl S) (error + A) :=
  call (fun w => (Server (ctl_dmi w), dmi_address w)).

(** The two ways a command ends after a call: a failure is fatal or returned, a
    result is printed. *)
Definition or_fatal {A : Type} (what : string) (m : M (Ctl S) (error + A)) (ok : A -> M (Ctl S) unit) : M (Ctl S) Ended :=
  r ← m; match r with inl e => mret (Some (Fatal (what +:+ ": " +:+ e))) | inr a => ok a ;; mret None end.
Definition or_error {A : Type} (m : M (Ctl S) (error + A)) (ok : A -> M (Ctl S) unit) : M (Ctl S) Ended :=
  r ← m; match r with inl e => mret (Some (Returned e)) | inr a => ok a ;; mret None end.

(** [fmt.Println(fmt.Sprintf("[Status: %d] %s", res.StatusCode, res.Message))]. *)
Definition status (r : Response) : M (Ctl S) unit :=
  println (Text ("[Status: " +:+ pretty (StatusCode r) +:+ "] " +:+ resp_Message r)).

(** ** OLT *)

(** Source: internal/bbsimctl/commands/olt.go, [getOLT]. *)
Definition getOLT (ok : ProtoOlt -> M (Ctl S) unit) : M (Ctl S) Ended := or_fatal "could not get OLT" (connect rpc_GetOlt) ok.

(** Source: internal/bbsimctl/commands/olt.go, [printOltHeader]. *)
Definition printOltHeader (prefix : string) (o : ProtoOlt) : M (Ctl S) unit :=
  println (Text (prefix +:+ " : " +:+ pl_SerialNumber o)) ;; println (Text "").

(** Source: internal/bbsimctl/commands/olt.go, [OltGet.Execute]. *)
Definition OltGet : M (Ctl S) Ended := getOLT (fun o => println (OltTable o)).

(** The map [OltAllocatedResourceType_Type_value] of the protocol: a name that is
    not in it gives the first value. *)
Definition resource_type (name : string) : ResourceType :=
  if decide (name = "ALLOC_ID") then Resource_ALLOC_ID
  else if decide (name = "GEM_PORT") then Resource_GEM_PORT else Resource_UNKNOWN.

(** Source: internal/bbsimctl/commands/olt.go, [OltResources.Execute]. *)
Definition OltResources (ty : string) : M (Ctl S) Ended :=
  or_fatal "could not get OLT resources" (connect (rpc_GetOltAllocatedResources (resource_type ty)))
    (fun l => println (ResourceTable l)).

(** Source: internal/bbsimctl/commands/olt.go, [OltNNIs.Execute]. *)
Definition OltNNIs : M (Ctl S) Ended :=
  getOLT (fun o => printOltHeader "NNI Ports for" o ;; println (NniTable (pl_NNIPorts o))).

(** Source: internal/bbsimctl/commands/olt.go, [OltPONs.Execute]. *)
Definition OltPONs : M (Ctl S) Ended :=
  getOLT (fun o => printOltHeader "PON Ports for" o ;; println (PonTable (pl_PONPorts o))).

(** Source: internal/bbsimctl/commands/olt.go, [OltShutdown.Execute]. *)
Definition OltShutdown : M (Ctl S) Ended := or_fatal "Cannot shut down OLT" (connect rpc_ShutdownOlt) status.

(** Source: internal/bbsimctl/commands/olt.go, [OltPoweron.Execute]. *)
Definition OltPoweron : M (Ctl S) Ended := or_fatal "Cannot power on OLT" (connect rpc_PoweronOlt) status.

(** Source: internal/bbsimctl/commands/olt.go, [OltReboot.Execute]. *)
Definition OltReboot : M (Ctl S) Ended := or_fatal "Cannot reboot OLT" (connect rpc_RebootOlt) status.

(** Source: internal/bbsimctl/commands/olt.go, [StopGrpcServer.Execute]. *)
Definition StopGrpcServer : M (Ctl S) Ended :=
  or_fatal "Cannot stop Openolt server" (connect rpc_StopgRPCServer) status.

(** Source: internal/bbsimctl/commands/olt.go, [StartGrpcServer.Execute]. *)
Definition StartGrpcServer : M (Ctl S) Ended :=
  or_fatal "Cannot start Openolt server" (connect rpc_StartgRPCServer) status.

(** Source: internal/bbsimctl/commands/olt.go, [RestartGrpcServer.Execute]. *)
Definition RestartGrpcServer (delay : Z) : M (Ctl S) Ended :=
  or_fatal "Cannot restart Openolt server" (connect (rpc_RestartgRPCServer delay)) status.

(** Source: internal/bbsimctl/commands/olt.go, [OltFlows.Execute].  An empty list
    arrives as nil. *)
Definition OltFlows : M (Ctl S) Ended :=
  or_error (connect (rpc_GetFlows "")) (fun l =>
    if decide (l = []) then println (Text "OLT has no flows")
    else println (Text "OLT Flows:") ;; println (FlowTable l)).

(** Source: internal/bbsimctl/commands/olt.go, [OltPoweronAllOnus.Execute]. *)
Definition OltPoweronAllOnus : M (Ctl S) Ended := or_error (connect rpc_PoweronAllONUs) status.

(** Source: internal/bbsimctl/commands/olt.go, [OltShutdownAllOnus.Execute]. *)
Definition OltShutdownAllOnus : M (Ctl S) Ended := or_error (connect rpc_ShutdownAllONUs) status.

Definition OltNniLos : string := "OLT_NNI_LOS".
Definition OltPonLos : string := "OLT_PON_LOS".

(** Source: internal/common/alarms.go, [OLTAlarms] (the names). *)
Definition OLTAlarms : list string := [OltNniLos; OltPonLos].

Definition olt_alarm (what st name : string) (intf : Z) : M (Ctl S) Ended :=
  if decide (name = OltPonLos) then or_fatal what (connect (rpc_SetOltAlarmIndication intf "pon" st)) status
  else if decide (name = OltNniLos) then or_fatal what (connect (rpc_SetOltAlarmIndication intf "nni" st)) status
  else mret (Some (Returned "Unknown OLT alarm type")).

(** Source: internal/bbsimctl/commands/oltalarms.go, [OltAlarmRaise.Execute]. *)
Definition OltAlarmRaise (name : string) (intf : Z) : M (Ctl S) Ended := olt_alarm "Cannot raise OLT alarm" "on" name intf.

(** Source: internal/bbsimctl/commands/oltalarms.go, [OltAlarmClear.Execute]. *)
Definition OltAlarmClear (name : string) (intf : Z) : M (Ctl S) Ended := olt_alarm "Cannot clear OLT alarm" "off" name intf.

(** Source: internal/bbsimctl/commands/oltalarms.go, [OltAlarmList.Execute]. *)
Definition OltAlarmList : M (Ctl S) Ended :=
  println (Text "OLT Alarms List:") ;; println (NameTable "OLT Alarms" OLTAlarms) ;; mret None.

(** ** PON *)

(** Source: internal/bbsimctl/commands/pon.go, [PonPoweronAllOnus.Execute]. *)
Definition PonPoweronAllOnus (intf : Z) : M (Ctl S) Ended := or_error (connect (rpc_PoweronONUsOnPON intf)) status.

(** Source: internal/bbsimctl/commands/pon.go, [PonShutdownAllOnus.Execute]. *)
Definition PonShutdownAllOnus (intf : Z) : M (Ctl S) Ended := or_error (connect (rpc_ShutdownONUsOnPON intf)) status.

(** ** ONU *)

(** Source: internal/bbsimctl/commands/onu.go, [getONUs]. *)
Definition getONUs (ok : list ProtoONU -> M (Ctl S) unit) : M (Ctl S) Ended :=
  or_fatal "could not get OLT" (connect rpc_GetONUs) ok.

(** Source: internal/bbsimctl/commands/onu.go, [ONUList.Execute]. *)
Definition ONUList (verbose : bool) : M (Ctl S) Ended := getONUs (fun l => println (OnuTable verbose l)).

(** Source: internal/bbsimctl/commands/onu.go, [ONUGet.Execute]. *)
Definition ONUGet (verbose : bool) (sn : string) : M (Ctl S) Ended :=
  or_fatal ("Cannot not get ONU " +:+ sn) (connect (rpc_GetONU sn)) (fun o => println (OnuTable verbose [o])).

(** Source: internal/bbsimctl/commands/onu.go, [ONUShutDown.Execute]. *)
Definition ONUShutDown (sn : string) : M (Ctl S) Ended :=
  or_fatal ("Cannot shutdown ONU " +:+ sn) (connect (rpc_ShutdownONU sn)) status.

(** Source: internal/bbsimctl/commands/onu.go, [ONUPowerOn.Execute]. *)
Definition ONUPowerOn (sn : string) : M (Ctl S) Ended :=
  or_fatal ("Cannot power on ONU " +:+ sn) (connect (rpc_PoweronONU sn)) status.

(** Source: internal/bbsimctl/commands/onu.go, [ONUEapolRestart.Execute]. *)
Definition ONUEapolRestart (sn : string) : M (Ctl S) Ended :=
  or_fatal ("Cannot restart EAPOL for ONU " +:+ sn) (connect (rpc_RestartEapol sn "")) status.

(** Source: internal/bbsimctl/commands/onu.go, [ONUDhcpRestart.Execute]. *)
Definition ONUDhcpRestart (sn : string) : M (Ctl S) Ended :=
  or_fatal ("Cannot restart DHCP for ONU " +:+ sn) (connect (rpc_RestartDhcp sn "")) status.

Definition IgmpJoinKey : string := "join".
Definition IgmpLeaveKey : string := "leave".
Definition IgmpJoinKeyV3 : string := "joinv3".
Definition IgmpAllowedActions : list string := [IgmpJoinKey; IgmpLeaveKey; IgmpJoinKeyV3].

(** Source: internal/bbsimctl/commands/onu.go:304-311, [ONUIgmp.Execute] (the
    action; the variable is zero, which is a join, when no name matches). *)
Definition igmp_action (name : string) : Z :=
  if decide (name = IgmpJoinKey) then SubActionTypes_JOIN
  else if decide (name = IgmpLeaveKey) then SubActionTypes_LEAVE
  else if decide (name = IgmpJoinKeyV3) then SubActionTypes_JOINV3 else 0.

(** Source: internal/bbsimctl/commands/onu.go, [ONUIgmp.Execute].  Errors are only
    logged; the numbers are cut to 32 bits. *)
Definition ONUIgmp (sn : string) (uniId : Z) (action group : string) (vlan : Z) : M (Ctl S) Ended :=
  connect (rpc_GetONU sn) ;;
  connect (rpc_ChangeIgmpState sn (s32 uniId) (igmp_action action) group (s32 vlan)) ;;
  mret None.

(** Source: internal/bbsimctl/commands/onu.go, [ONUFlows.Execute]. *)
Definition ONUFlows (sn : string) : M (Ctl S) Ended :=
  or_error (connect (rpc_GetFlows sn)) (fun l =>
    if decide (l = []) then println (Text ("ONU " +:+ sn +:+ " has no flows"))
    else println (Text "ONU Flows:") ;; println (FlowTable l)).

(** Source: internal/bbsimctl/commands/onu.go, [ONUInvalidateMds.Execute]. *)
Definition ONUInvalidateMds (sn : string) : M (Ctl S) Ended :=
  or_fatal ("Cannot invalidate MDS counter on ONU " +:+ sn) (connect (rpc_InvalidateMds sn)) status.

(** Source: internal/bbsimctl/commands/onu.go, [ONUTrafficSchedulers.Execute]. *)
Definition ONUTrafficSchedulers (sn : string) : M (Ctl S) Ended :=
  r ← connect (rpc_GetOnuTrafficSchedulers sn);
  match r with
  | inl e => mret (Some (Fatal ("Cannot get traffic schedulers for ONU " +:+ sn +:+ ": " +:+ e)))
  | inr None => mret (Some (Fatal ("Cannot get traffic schedulers for ONU: " +:+ sn +:+ " (unavailable)")))
  | inr (Some t) => println (SchedulerTable t) ;; mret None
  end.

(** Source: internal/bbsimctl/commands/services.go, [getServices]. *)
Definition getServices (sn uniID : string) : M (Ctl S) (error + list ProtoService) := connect (rpc_GetServices sn uniID).

(** Source: internal/bbsimctl/commands/services.go, [ServiceList.Execute]. *)
Definition ServiceList : M (Ctl S) Ended :=
  or_fatal "could not get OLT" (getServices "" "") (fun l => println (ServiceTable l)).

(** Source: internal/bbsimctl/commands/onu.go, [ONUServices.Execute]. *)
Definition ONUServices (sn : string) : M (Ctl S) Ended :=
  or_error (getServices sn "") (fun l => println (ServiceTable l)).

(** ** ONU alarms *)

Definition equals_sign : Ascii.ascii := Ascii.ascii_of_N 61.

(** Source: internal/bbsimctl/commands/onualarms.go, [addParameters]. *)
Fixpoint addParameters (parameters : list string) : error + list (string * string) :=
  match parameters with
  | [] => inr []
  | kv :: rest =>
      match split_on equals_sign kv with
      | [k; v] => match addParameters rest with inl e => inl e | inr l => inr ((k, v) :: l) end
      | _ => inl ("Invalid parameter " +:+ kv)
      end
  end.

Definition onu_alarm (what st name sn : string) (parameters : list string) : M (Ctl S) Ended :=
  match addParameters parameters with
  | inl e => mret (Some (Returned e))
  | inr l => or_fatal what (connect (rpc_SetOnuAlarmIndication sn name l st)) status
  end.

(** Source: internal/bbsimctl/commands/onualarms.go, [AlarmRaise.Execute]. *)
Definition AlarmRaise (name sn : string) (parameters : list string) : M (Ctl S) Ended :=
  onu_alarm "Cannot raise alarm" "on" name sn parameters.

(** Source: internal/bbsimctl/commands/onualarms.go, [AlarmClear.Execute]. *)
Definition AlarmClear (name sn : string) (parameters : list string) : M (Ctl S) Ended :=
  onu_alarm "Cannot clear alarm" "off" name sn parameters.

(** Source: internal/bbsimctl/commands/onualarms.go, [AlarmList.Execute]. *)
Definition AlarmList : M (Ctl S) Ended :=
  println (Text "ONU Alarms List:") ;; println (NameTable "ONU Alarms" ONUAlarms) ;; mret None.

(** ** UNI *)

(** Source: internal/bbsimctl/commands/uni.go, [UNIList.Execute]. *)
Definition UNIList (verbose : bool) : M (Ctl S) Ended :=
  or_fatal "could not get UNIs" (connect rpc_GetUnis) (fun l => println (UniTable verbose l)).

(** Source: internal/bbsimctl/commands/uni.go, [UNIGet.Execute]. *)
Definition UNIGet (verbose : bool) (sn : string) : M (Ctl S) Ended :=
  or_fatal ("Cannot not get unis for ONU " +:+ sn) (connect (rpc_GetOnuUnis sn)) (fun l => println (UniTable verbose l)).

(** Source: internal/bbsimctl/commands/uni.go, [UNIServices.Execute]. *)
Definition UNIServices (sn uniId : string) : M (Ctl S) Ended :=
  or_fatal ("Cannot not get services for ONU " +:+ sn +:+ " and UNI " +:+ uniId) (getServices sn uniId)
    (fun l => println (ServiceTable l)).

(** Source: internal/bbsimctl/commands/uni.go, [UNIEapolRestart.Execute]. *)
Definition UNIEapolRestart (sn uniId : string) : M (Ctl S) Ended :=
  or_fatal ("Cannot restart EAPOL for ONU " +:+ sn +:+ " and UNI " +:+ uniId) (connect (rpc_RestartEapol sn uniId)) status.

(** Source: internal/bbsimctl/commands/uni.go, [UNIDhcpRestart.Execute]. *)
Definition UNIDhcpRestart (sn uniId : string) : M (Ctl S) Ended :=
  or_fatal ("Cannot restart DHCP for ONU " +:+ sn +:+ " and UNI " +:+ uniId) (connect (rpc_RestartDhcp sn uniId)) status.

(** ** DMI, log level and configuration *)

(** Source: internal/bbsimctl/commands/dmi.go, [DmiEventCreate.Execute]. *)
Definition DmiEventCreate (name : string) : M (Ctl S) Ended := or_error (dmiEventGrpcClient (rpc_CreateEvent name)) status.

(** Source: internal/bbsimctl/commands/dmi.go, [DmiTransceiversList.Execute]. *)
Definition DmiTransceiversList : M (Ctl S) Ended :=
  or_error (dmiEventGrpcClient rpc_GetTransceivers) (fun l => println (TransceiverTable l)).

(** Source: internal/bbsimctl/commands/dmi.go, [DmiTransceiverPlugIn.Execute]. *)
Definition DmiTransceiverPlugIn (id : Z) : M (Ctl S) Ended :=
  or_error (dmiEventGrpcClient (rpc_PlugInTransceiver id)) status.

(** Source: internal/bbsimctl/commands/dmi.go, [DmiTransceiverPlugOut.Execute]. *)
Definition DmiTransceiverPlugOut (id : Z) : M (Ctl S) Ended :=
  or_error (dmiEventGrpcClient (rpc_PlugOutTransceiver id)) status.

(** Source: internal/bbsimctl/commands/logging.go, [LoggingOptions.Execute]. *)
Definition Logging (level : string) (caller : bool) : M (Ctl S) Ended :=
  or_fatal "could not set log level" (connect (rpc_SetLogLevel level caller)) (fun '(l, c) =>
    println (Text "New log settings:") ;;
    println (Text (String (Ascii.ascii_of_N 9) ("Level: " +:+ l))) ;;
    println (Text (String (Ascii.ascii_of_N 9) ("ReportCaller: " +:+ (if c : bool then "true" else "false"))))).

(** Source: internal/bbsimctl/commands/config.go, [ConfigOptions.Execute], without
    the notice and the build information. *)
Definition ConfigCmd (h : Host) (o : GlobalOptions) : M (Ctl S) Ended :=
  w ← get;
  match ProcessGlobalOptions h o (ctl_conf w) with
  | inl e => mret (Some (Fatal e))
  | inr c =>
      modify (fun w => {| ctl_conf := c; ctl_dmi := ctl_dmi w; api_address := api_address w;
                          dmi_address := dmi_address w; sim := sim w; printed := printed w |}) ;;
      println (ConfigYaml c) ;; mret None
  end.

(** ** Completion of arguments *)

(** [strings.HasPrefix]. *)
Definition HasPrefix (s match_ : string) : bool := String.prefix match_ s.

(** [strings.ToUpper] on ASCII. *)
Definition upper_char (c : Ascii.ascii) : Ascii.ascii :=
  let n := Ascii.N_of_ascii c in if decide (97 <= n <= 122)%N then Ascii.ascii_of_N (n - 32) else c.
Definition ToUpper (s : string) : string := String.string_of_list_ascii (upper_char <$> String.list_ascii_of_string s).

(** Source: internal/bbsimctl/commands/olt.go, [oltResourcesType.Complete]. *)
Definition complete_resources (m : string) : list string :=
  List.filter (fun k => HasPrefix k (ToUpper m) && negb (bool_decide (k = "UNKNOWN"))) ["UNKNOWN"; "ALLOC_ID"; "GEM_PORT"].

(** Source: internal/bbsimctl/commands/onu.go, [IgmpSubAction.Complete]. *)
Definition complete_igmp (m : string) : list string := List.filter (fun k => HasPrefix k m) IgmpAllowedActions.

(** Source: internal/bbsimctl/commands/onualarms.go, [AlarmNameString.Complete]. *)
Definition complete_onu_alarm (m : string) : list string := List.filter (fun k => HasPrefix k m) ONUAlarms.

(** Source: internal/bbsimctl/commands/oltalarms.go, [OltAlarmNameString.Complete]. *)
Definition complete_olt_alarm (m : string) : list string := List.filter (fun k => HasPrefix k m) OLTAlarms.

(** Source: internal/bbsimctl/commands/onu.go, [OnuSnString.Complete]. *)
Definition complete_sn (m : string) : M (Ctl S) (failure + list string) :=
  r ← connect rpc_GetONUs;
  match r with
  | inl e => mret (inl (Fatal ("could not get ONUs: " +:+ e)))
  | inr onus => mret (inr (List.filter (fun sn => HasPrefix sn m) (po_SerialNumber <$> onus)))
  end.

(** Source: internal/bbsimctl/commands/uni.go, [UniIdInt.Complete]: the UNIs of the
    first ONU. *)
Definition complete_uni (m : string) : M (Ctl S) (failure + list string) :=
  r ← connect rpc_GetONUs;
  match r with
  | inl e => mret (inl (Fatal ("could not get ONUs: " +:+ e)))
  | inr [] => panic "index out of range"
  | inr (o :: _) => mret (inr (List.filter (fun id => HasPrefix id m) ((fun u => pretty (pu_ID u)) <$> po_Unis o)))
  end.
(** ** The program *)

(** The commands; [CConfig] is the one that prints the configuration. *)
Inductive Command :=
| CConfig
| COltGet
| COltResources (ty : string)
| COltNNIs
| COltPONs
| COltShutdown
| COltPoweron
| COltReboot
| CStopGrpcServer
| CStartGrpcServer
| CRestartGrpcServer (delay : Z)
| COltFlows
| COltPoweronAllOnus
| COltShutdownAllOnus
| COltAlarmRaise (name : string) (intf : Z)
| COltAlarmClear (name : string) (intf : Z)
| COltAlarmList
| CPonPoweronAllOnus (intf : Z)
| CPonShutdownAllOnus (intf : Z)
| CONUList (verbose : bool)
| CONUGet (verbose : bool) (sn : string)
| CONUShutDown (sn : string)
| CONUPowerOn (sn : string)
| CONUEapolRestart (sn : string)
| CONUDhcpRestart (sn : string)
| CONUIgmp (sn : string) (uniId : Z) (action group : string) (vlan : Z)
| CONUFlows (sn : string)
| CONUInvalidateMds (sn : string)
| CONUTrafficSchedulers (sn : string)
| CServiceList
| CONUServices (sn : string)
| CAlarmRaise (name sn : string) (parameters : list string)
| CAlarmClear (name sn : string) (parameters : list string)
| CAlarmList
| CUNIList (verbose : bool)
| CUNIGet (verbose : bool) (sn : string)
| CUNIServices (sn uniId : string)
| CUNIEapolRestart (sn uniId : string)
| CUNIDhcpRestart (sn uniId : string)
| CDmiEventCreate (name : string)
| CDmiTransceiversList
| CDmiTransceiverPlugIn (id : Z)
| CDmiTransceiverPlugOut (id : Z)
| CLogging (level : string) (caller : bool).

Definition execute (h : Host) (o : GlobalOptions) (c : Command) : M (Ctl S) Ended :=
  match c with
  | CConfig => ConfigCmd h o
  | COltGet => OltGet
  | COltResources ty => OltResources ty
  | COltNNIs => OltNNIs
  | COltPONs => OltPONs
  | COltShutdown => OltShutdown
  | COltPoweron => OltPoweron
  | COltReboot => OltReboot
  | CStopGrpcServer => StopGrpcServer
  | CStartGrpcServer => StartGrpcServer
  | CRestartGrpcServer delay => RestartGrpcServer delay
  | COltFlows => OltFlows
  | COltPoweronAllOnus => OltPoweronAllOnus
  | COltShutdownAllOnus => OltShutdownAllOnus
  | COltAlarmRaise name intf => OltAlarmRaise name intf
  | COltAlarmClear name intf => OltAlarmClear name intf
  | COltAlarmList => OltAlarmList
  | CPonPoweronAllOnus intf => PonPoweronAllOnus intf
  | CPonShutdownAllOnus intf => PonShutdownAllOnus intf
  | CONUList verbose => ONUList verbose
  | CONUGet verbose sn => ONUGet verbose sn
  | CONUShutDown sn => ONUShutDown sn
  | CONUPowerOn sn => ONUPowerOn sn
  | CONUEapolRestart sn => ONUEapolRestart sn
  | CONUDhcpRestart sn => ONUDhcpRestart sn
  | CONUIgmp sn uniId action group vlan => ONUIgmp sn uniId action group vlan
  | CONUFlows sn => ONUFlows sn
  | CONUInvalidateMds sn => ONUInvalidateMds sn
  | CONUTrafficSchedulers sn => ONUTrafficSchedulers sn
  | CServiceList => ServiceList
  | CONUServices sn => ONUServices sn
  | CAlarmRaise name sn parameters => AlarmRaise name sn parameters
  | CAlarmClear name sn parameters => AlarmClear name sn parameters
  | CAlarmList => AlarmList
  | CUNIList verbose => UNIList verbose
  | CUNIGet verbose sn => UNIGet verbose sn
  | CUNIServices sn uniId => UNIServices sn uniId
  | CUNIEapolRestart sn uniId => UNIEapolRestart sn uniId
  | CUNIDhcpRestart sn uniId => UNIDhcpRestart sn uniId
  | CDmiEventCreate name => DmiEventCreate name
  | CDmiTransceiversList => DmiTransceiversList
  | CDmiTransceiverPlugIn id => DmiTransceiverPlugIn id
  | CDmiTransceiverPlugOut id => DmiTransceiverPlugOut id
  | CLogging level caller => Logging level caller
  end.

(** Source: cmd/bbsimctl/bbsimctl.go:29-63, [main] (after the arguments were
    parsed): a process with the default configurations runs the command; an error
    is printed and the status is then 1, as after a fatal one. *)
Definition bbsimctl (api dmi : string) (h : Host) (o : GlobalOptions) (c : Command) : M S (list Line * option error * Z) := fun s =>
  let w := {| ctl_conf := default_GlobalConfig; ctl_dmi := default_DmiConfig; api_address := api; dmi_address := dmi;
              sim := s; printed := [] |} in
  match execute h o c w with
  | Done (None, w') => Done (printed w', None, 0, sim w')
  | Done (Some (Returned e), w') => Done (printed w', Some ("bbsimctl: " +:+ e), 1, sim w')
  | Done (Some (Fatal e), w') => Done (printed w', Some e, 1, sim w')
  | Panicked p => Panicked p
  | Blocked b => Blocked b
  | Exited e => Exited e
  end.
End Commands.
