(* ===== verification/CtlProps.v ===== *)
(** * bbsimctl against BBSim

    The handlers of BBSim implement the interface of the client.  [asks] says which
    calls a command means, and every run of the client makes exactly those. *)
From stdpp Require Import pretty.
From S2P Require Import Prelude Fsm Options OmciTypes Omci MibDb Packets Types Io Eapol Dhcp DhcpServer Igmp Service.
From S2P Require Import PonRes AlarmSim UniPort UniInv Get Onu OnuOmci OnuLoop OnuInv OltFlows OltSpec Olt.
From S2P Require Import OltProps OltWf Api ApiInfo DmiInv DmiGen Dmi DmiProps DeviceInv Events Ctl.
Open Scope Z_scope.
Open Scope string_scope.

(** ** Any server *)

(** The calls of the interface. *)
Inductive rpc_of {S : Type} `{BBSimServer S} : forall {A : Type}, M S (error + A) -> Prop :=
| of_GetOlt : rpc_of (rpc_GetOlt)
| of_GetOltAllocatedResources a0 : rpc_of (rpc_GetOltAllocatedResources a0)
| of_ShutdownOlt : rpc_of (rpc_ShutdownOlt)
| of_PoweronOlt : rpc_of (rpc_PoweronOlt)
| of_RebootOlt : rpc_of (rpc_RebootOlt)
| of_StopgRPCServer : rpc_of (rpc_StopgRPCServer)
| of_StartgRPCServer : rpc_of (rpc_StartgRPCServer)
| of_RestartgRPCServer a0 : rpc_of (rpc_RestartgRPCServer a0)
| of_GetFlows a0 : rpc_of (rpc_GetFlows a0)
| of_PoweronAllONUs : rpc_of (rpc_PoweronAllONUs)
| of_ShutdownAllONUs : rpc_of (rpc_ShutdownAllONUs)
| of_PoweronONUsOnPON a0 : rpc_of (rpc_PoweronONUsOnPON a0)
| of_ShutdownONUsOnPON a0 : rpc_of (rpc_ShutdownONUsOnPON a0)
| of_GetONUs : rpc_of (rpc_GetONUs)
| of_GetONU a0 : rpc_of (rpc_GetONU a0)
| of_ShutdownONU a0 : rpc_of (rpc_ShutdownONU a0)
| of_PoweronONU a0 : rpc_of (rpc_PoweronONU a0)
| of_RestartEapol a0 a1 : rpc_of (rpc_RestartEapol a0 a1)
| of_RestartDhcp a0 a1 : rpc_of (rpc_RestartDhcp a0 a1)
| of_ChangeIgmpState a0 a1 a2 a3 a4 : rpc_of (rpc_ChangeIgmpState a0 a1 a2 a3 a4)
| of_InvalidateMds a0 : rpc_of (rpc_InvalidateMds a0)
| of_GetOnuTrafficSchedulers a0 : rpc_of (rpc_GetOnuTrafficSchedulers a0)
| of_GetServices a0 a1 : rpc_of (rpc_GetServices a0 a1)
| of_GetUnis : rpc_of (rpc_GetUnis)
| of_GetOnuUnis a0 : rpc_of (rpc_GetOnuUnis a0)
| of_SetOnuAlarmIndication a0 a1 a2 a3 : rpc_of (rpc_SetOnuAlarmIndication a0 a1 a2 a3)
| of_SetOltAlarmIndication a0 a1 a2 : rpc_of (rpc_SetOltAlarmIndication a0 a1 a2)
| of_SetLogLevel a0 a1 : rpc_of (rpc_SetLogLevel a0 a1)
| of_CreateEvent a0 : rpc_of (rpc_CreateEvent a0)
| of_GetTransceivers : rpc_of (rpc_GetTransceivers)
| of_PlugInTransceiver a0 : rpc_of (rpc_PlugInTransceiver a0)
| of_PlugOutTransceiver a0 : rpc_of (rpc_PlugOutTransceiver a0).

Section Client.
  Context {S : Type} `{BBSimServer S} (Q : Ctl S -> Prop).
  Hypothesis keep_println : forall l, preserves Q (println l).
  Hypothesis keep_connect : forall A (m : M S (error + A)), rpc_of m -> preserves Q (connect m).
  Hypothesis keep_dmi : forall A (m : M S (error + A)), rpc_of m -> preserves Q (dmiEventGrpcClient m).

Lemma keep_status r : preserves Q (status r).
Proof. apply keep_println. Qed.
#[local] Hint Resolve keep_println keep_status : preserve.
#[local] Hint Extern 1 (preserves _ (connect _)) => (apply keep_connect; constructor) : preserve.
#[local] Hint Extern 1 (preserves _ (dmiEventGrpcClient _)) => (apply keep_dmi; constructor) : preserve.

Lemma keep_or_fatal {A : Type} what (m : M (Ctl S) (error + A)) ok :
  preserves Q m -> (forall a, preserves Q (ok a)) -> preserves Q (or_fatal what m ok).
Proof. intros Hm Hok. unfold or_fatal. preserve. Qed.
Lemma keep_or_error {A : Type} (m : M (Ctl S) (error + A)) ok :
  preserves Q m -> (forall a, preserves Q (ok a)) -> preserves Q (or_error m ok).
Proof. intros Hm Hok. unfold or_error. preserve. Qed.
#[local] Hint Extern 1 (preserves _ (or_fatal _ _ _)) => (apply keep_or_fatal; preserve) : preserve.
#[local] Hint Extern 1 (preserves _ (or_error _ _)) => (apply keep_or_error; preserve) : preserve.

(** What the calls keep, the commands keep. *)
Lemma keep_execute h o c : (c = CConfig -> preserves Q (ConfigCmd h o)) -> preserves Q (execute h o c).
Proof.
  intros Hconf. destruct c; cbn [execute]; [by apply Hconf|..]; clear Hconf;
    unfold OltGet, OltResources, OltNNIs, OltPONs, OltShutdown, OltPoweron, OltReboot,
    StopGrpcServer, StartGrpcServer, RestartGrpcServer, OltFlows, OltPoweronAllOnus, OltShutdownAllOnus, OltAlarmRaise,
    OltAlarmClear, OltAlarmList, PonPoweronAllOnus, PonShutdownAllOnus, ONUList, ONUGet, ONUShutDown, ONUPowerOn,
    ONUEapolRestart, ONUDhcpRestart, ONUIgmp, ONUFlows, ONUInvalidateMds, ONUTrafficSchedulers, ServiceList, ONUServices,
    AlarmRaise, AlarmClear, AlarmList, UNIList, UNIGet, UNIServices, UNIEapolRestart, UNIDhcpRestart, DmiEventCreate,
    DmiTransceiversList, DmiTransceiverPlugIn, DmiTransceiverPlugOut, Logging, olt_alarm, onu_alarm, getOLT, getONUs,
    getServices, printOltHeader; preserve.
Qed.
End Client.

(** ** The calls by name *)

(** The calls of the interface, with their arguments. *)
Inductive Rpc :=
| RGetOlt
| RGetOltAllocatedResources (a0 : ResourceType)
| RShutdownOlt
| RPoweronOlt
| RRebootOlt
| RStopgRPCServer
| RStartgRPCServer
| RRestartgRPCServer (a0 : Z)
| RGetFlows (a0 : string)
| RPoweronAllONUs
| RShutdownAllONUs
| RPoweronONUsOnPON (a0 : Z)
| RShutdownONUsOnPON (a0 : Z)
| RGetONUs
| RGetONU (a0 : string)
| RShutdownONU (a0 : string)
| RPoweronONU (a0 : string)
| RRestartEapol (a0 : string) (a1 : string)
| RRestartDhcp (a0 : string) (a1 : string)
| RChangeIgmpState (a0 : string) (a1 : Z) (a2 : Z) (a3 : string) (a4 : Z)
| RInvalidateMds (a0 : string)
| RGetOnuTrafficSchedulers (a0 : string)
| RGetServices (a0 : string) (a1 : string)
| RGetUnis
| RGetOnuUnis (a0 : string)
| RSetOnuAlarmIndication (a0 : string) (a1 : string) (a2 : list (string * string)) (a3 : string)
| RSetOltAlarmIndication (a0 : Z) (a1 : string) (a2 : string)
| RSetLogLevel (a0 : string) (a1 : bool)
| RCreateEvent (a0 : string)
| RGetTransceivers
| RPlugInTransceiver (a0 : Z)
| RPlugOutTransceiver (a0 : Z).

(** Making a call, whatever it answers. *)
Definition perform {S : Type} `{BBSimServer S} (r : Rpc) : M S unit :=
  match r with
  | RGetOlt => rpc_GetOlt ;; skip
  | RGetOltAllocatedResources a0 => rpc_GetOltAllocatedResources a0 ;; skip
  | RShutdownOlt => rpc_ShutdownOlt ;; skip
  | RPoweronOlt => rpc_PoweronOlt ;; skip
  | RRebootOlt => rpc_RebootOlt ;; skip
  | RStopgRPCServer => rpc_StopgRPCServer ;; skip
  | RStartgRPCServer => rpc_StartgRPCServer ;; skip
  | RRestartgRPCServer a0 => rpc_RestartgRPCServer a0 ;; skip
  | RGetFlows a0 => rpc_GetFlows a0 ;; skip
  | RPoweronAllONUs => rpc_PoweronAllONUs ;; skip
  | RShutdownAllONUs => rpc_ShutdownAllONUs ;; skip
  | RPoweronONUsOnPON a0 => rpc_PoweronONUsOnPON a0 ;; skip
  | RShutdownONUsOnPON a0 => rpc_ShutdownONUsOnPON a0 ;; skip
  | RGetONUs => rpc_GetONUs ;; skip
  | RGetONU a0 => rpc_GetONU a0 ;; skip
  | RShutdownONU a0 => rpc_ShutdownONU a0 ;; skip
  | RPoweronONU a0 => rpc_PoweronONU a0 ;; skip
  | RRestartEapol a0 a1 => rpc_RestartEapol a0 a1 ;; skip
  | RRestartDhcp a0 a1 => rpc_RestartDhcp a0 a1 ;; skip
  | RChangeIgmpState a0 a1 a2 a3 a4 => rpc_ChangeIgmpState a0 a1 a2 a3 a4 ;; skip
  | RInvalidateMds a0 => rpc_InvalidateMds a0 ;; skip
  | RGetOnuTrafficSchedulers a0 => rpc_GetOnuTrafficSchedulers a0 ;; skip
  | RGetServices a0 a1 => rpc_GetServices a0 a1 ;; skip
  | RGetUnis => rpc_GetUnis ;; skip
  | RGetOnuUnis a0 => rpc_GetOnuUnis a0 ;; skip
  | RSetOnuAlarmIndication a0 a1 a2 a3 => rpc_SetOnuAlarmIndication a0 a1 a2 a3 ;; skip
  | RSetOltAlarmIndication a0 a1 a2 => rpc_SetOltAlarmIndication a0 a1 a2 ;; skip
  | RSetLogLevel a0 a1 => rpc_SetLogLevel a0 a1 ;; skip
  | RCreateEvent a0 => rpc_CreateEvent a0 ;; skip
  | RGetTransceivers => rpc_GetTransceivers ;; skip
  | RPlugInTransceiver a0 => rpc_PlugInTransceiver a0 ;; skip
  | RPlugOutTransceiver a0 => rpc_PlugOutTransceiver a0 ;; skip
  end.


(** Every call of the interface has a name. *)
Lemma rpc_of_perform {S : Type} `{BBSimServer S} {A : Type} (m : M S (error + A)) s a s' :
  rpc_of m -> m s = Done (a, s') -> exists r, perform r s = Done (tt, s').
Proof.
  intros Hm Hr.
  assert (forall r, perform r = (m ;; skip) -> exists r, perform r s = Done (tt, s')) as Hk.
  { intros r Hp. exists r. rewrite Hp. unfold mbind, M_bind. by rewrite Hr. }
  destruct Hm.
  - by apply (Hk (RGetOlt)).
  - by apply (Hk (RGetOltAllocatedResources a0)).
  - by apply (Hk (RShutdownOlt)).
  - by apply (Hk (RPoweronOlt)).
  - by apply (Hk (RRebootOlt)).
  - by apply (Hk (RStopgRPCServer)).
  - by apply (Hk (RStartgRPCServer)).
  - by apply (Hk (RRestartgRPCServer a0)).
  - by apply (Hk (RGetFlows a0)).
  - by apply (Hk (RPoweronAllONUs)).
  - by apply (Hk (RShutdownAllONUs)).
  - by apply (Hk (RPoweronONUsOnPON a0)).
  - by apply (Hk (RShutdownONUsOnPON a0)).
  - by apply (Hk (RGetONUs)).
  - by apply (Hk (RGetONU a0)).
  - by apply (Hk (RShutdownONU a0)).
  - by apply (Hk (RPoweronONU a0)).
  - by apply (Hk (RRestartEapol a0 a1)).
  - by apply (Hk (RRestartDhcp a0 a1)).
  - by apply (Hk (RChangeIgmpState a0 a1 a2 a3 a4)).
  - by apply (Hk (RInvalidateMds a0)).
  - by apply (Hk (RGetOnuTrafficSchedulers a0)).
  - by apply (Hk (RGetServices a0 a1)).
  - by apply (Hk (RGetUnis)).
  - by apply (Hk (RGetOnuUnis a0)).
  - by apply (Hk (RSetOnuAlarmIndication a0 a1 a2 a3)).
  - by apply (Hk (RSetOltAlarmIndication a0 a1 a2)).
  - by apply (Hk (RSetLogLevel a0 a1)).
  - by apply (Hk (RCreateEvent a0)).
  - by apply (Hk (RGetTransceivers)).
  - by apply (Hk (RPlugInTransceiver a0)).
  - by apply (Hk (RPlugOutTransceiver a0)).
Qed.

(** A step of a server: one of its calls. *)
Definition rpc_step {S : Type} `{BBSimServer S} (s s' : S) : Prop := exists r, perform r s = Done (tt, s').

Fixpoint perform_all {S : Type} `{BBSimServer S} (rs : list Rpc) : M S unit :=
  match rs with [] => skip | r :: rest => perform r ;; perform_all rest end.

Definition olt_alarm_call (name st : string) (intf : Z) : list Rpc :=
  if decide (name = "OLT_PON_LOS") then [RSetOltAlarmIndication intf "pon" st]
  else if decide (name = "OLT_NNI_LOS") then [RSetOltAlarmIndication intf "nni" st] else [].
Definition onu_alarm_call (name sn st : string) (parameters : list string) : list Rpc :=
  match addParameters parameters with inr l => [RSetOnuAlarmIndication sn name l st] | inl _ => [] end.

(** The calls a command means. *)
Definition asks (c : Command) : list Rpc :=
  match c with
  | CConfig | COltAlarmList | CAlarmList => []
  | COltGet | COltNNIs | COltPONs => [RGetOlt]
  | COltResources ty => [RGetOltAllocatedResources (resource_type ty)]
  | COltShutdown => [RShutdownOlt]
  | COltPoweron => [RPoweronOlt]
  | COltReboot => [RRebootOlt]
  | CStopGrpcServer => [RStopgRPCServer]
  | CStartGrpcServer => [RStartgRPCServer]
  | CRestartGrpcServer delay => [RRestartgRPCServer delay]
  | COltFlows => [RGetFlows ""]
  | COltPoweronAllOnus => [RPoweronAllONUs]
  | COltShutdownAllOnus => [RShutdownAllONUs]
  | COltAlarmRaise name intf => olt_alarm_call name "on" intf
  | COltAlarmClear name intf => olt_alarm_call name "off" intf
  | CPonPoweronAllOnus intf => [RPoweronONUsOnPON intf]
  | CPonShutdownAllOnus intf => [RShutdownONUsOnPON intf]
  | CONUList _ => [RGetONUs]
  | CONUGet _ sn => [RGetONU sn]
  | CONUShutDown sn => [RShutdownONU sn]
  | CONUPowerOn sn => [RPoweronONU sn]
  | CONUEapolRestart sn => [RRestartEapol sn ""]
  | CONUDhcpRestart sn => [RRestartDhcp sn ""]
  | CONUIgmp sn uniId action group vlan =>
      [RGetONU sn; RChangeIgmpState sn (s32 uniId) (igmp_action action) group (s32 vlan)]
  | CONUFlows sn => [RGetFlows sn]
  | CONUInvalidateMds sn => [RInvalidateMds sn]
  | CONUTrafficSchedulers sn => [RGetOnuTrafficSchedulers sn]
  | CServiceList => [RGetServices "" ""]
  | CONUServices sn => [RGetServices sn ""]
  | CAlarmRaise name sn ps => onu_alarm_call name sn "on" ps
  | CAlarmClear name sn ps => onu_alarm_call name sn "off" ps
  | CUNIList _ => [RGetUnis]
  | CUNIGet _ sn => [RGetOnuUnis sn]
  | CUNIServices sn uniId => [RGetServices sn uniId]
  | CUNIEapolRestart sn uniId => [RRestartEapol sn uniId]
  | CUNIDhcpRestart sn uniId => [RRestartDhcp sn uniId]
  | CDmiEventCreate name => [RCreateEvent name]
  | CDmiTransceiversList => [RGetTransceivers]
  | CDmiTransceiverPlugIn id => [RPlugInTransceiver id]
  | CDmiTransceiverPlugOut id => [RPlugOutTransceiver id]
  | CLogging level caller => [RSetLogLevel level caller]
  end.

(** Where a run leaves the server, or how it fails. *)
Definition left_in {S A : Type} (o : outcome (A * S)) : outcome S :=
  match o with
  | Done (_, s) => Done s
  | Panicked p => Panicked p
  | Blocked b => Blocked b
  | Exited e => Exited e
  end.

Section Asks.
  Context {S : Type} `{BBSimServer S}.

(** The client is configured for the addresses the servers listen on. *)
Definition here (w : Ctl S) : Prop := Server (ctl_conf w) = api_address w /\ Server (ctl_dmi w) = dmi_address w.

(** The code of a command makes exactly these calls. *)
Definition acts {A : Type} (m : M (Ctl S) A) (rs : list Rpc) : Prop := forall w, here w ->
  match m w with
  | Done (_, w') => here w' /\ left_in (perform_all rs (sim w)) = Done (sim w')
  | Panicked p => left_in (perform_all rs (sim w)) = Panicked p
  | Blocked b => left_in (perform_all rs (sim w)) = Blocked b
  | Exited e => left_in (perform_all rs (sim w)) = Exited e
  end.

Lemma perform_all_app rs rs' s :
  left_in (perform_all (rs ++ rs') s) =
    match perform_all rs s with Done (_, s') => left_in (perform_all rs' s') | o => left_in o end.
Proof.
  revert s. induction rs as [|r rs IH]; intros s; [done|]. cbn [perform_all app]. unfold mbind, M_bind.
  destruct (perform r s) as [[[] s1]| | |]; [|done..]. apply IH.
Qed.

Lemma acts_ret {A : Type} (a : A) : acts (mret a) [].
Proof. intros w Hw. by split. Qed.
Lemma acts_println l : acts (println l) [].
Proof. intros w Hw. by split. Qed.
Lemma acts_status r : acts (status r) [].
Proof. apply acts_println. Qed.

Lemma acts_bind {A B : Type} (m : M (Ctl S) A) (k : A -> M (Ctl S) B) rs rs' :
  acts m rs -> (forall a, acts (k a) rs') -> acts (m ≫= k) (rs ++ rs').
Proof.
  intros Hm Hk w Hw. specialize (Hm w Hw). unfold mbind, M_bind. rewrite perform_all_app.
  destruct (m w) as [[a w1]| | |].
  - destruct Hm as [Hw1 Hs]. destruct (perform_all rs (sim w)) as [[[] s1]| | |]; [|done..]. injection Hs as ->.
    exact (Hk a w1 Hw1).
  - by destruct (perform_all rs (sim w)) as [[]| | |]; simplify_eq/=.
  - by destruct (perform_all rs (sim w)) as [[]| | |]; simplify_eq/=.
  - by destruct (perform_all rs (sim w)) as [[]| | |]; simplify_eq/=.
Qed.

(** A call and then code that makes none. *)
Lemma acts_then {A B : Type} (m : M (Ctl S) A) (k : A -> M (Ctl S) B) rs :
  acts m rs -> (forall a, acts (k a) []) -> acts (m ≫= k) rs.
Proof. intros Hm Hk. rewrite <-(app_nil_r rs). by apply acts_bind. Qed.

Lemma acts_call {A : Type} address (m : M S (error + A)) r :
  (forall w, here w -> (address w).1 = (address w).2) -> perform r = (m ;; skip) -> acts (call address m) [r].
Proof.
  intros Ha Hr w Hw. specialize (Ha w Hw). unfold call. destruct (address w) as [x y]. cbn in Ha.
  rewrite decide_True by done. cbn [perform_all]. rewrite Hr. unfold mbind, M_bind, skip, mret, M_ret.
  by destruct (m (sim w)) as [[]| | |].
Qed.
Lemma acts_connect {A : Type} (m : M S (error + A)) r : perform r = (m ;; skip) -> acts (connect m) [r].
Proof. apply acts_call. by intros w []. Qed.
Lemma acts_dmi {A : Type} (m : M S (error + A)) r : perform r = (m ;; skip) -> acts (dmiEventGrpcClient m) [r].
Proof. apply acts_call. by intros w []. Qed.

Lemma acts_or_fatal {A : Type} what (m : M (Ctl S) (error + A)) ok rs :
  acts m rs -> (forall a, acts (ok a) []) -> acts (or_fatal what m ok) rs.
Proof.
  intros Hm Hok. apply acts_then; [done|]. intros [e|a]; [apply acts_ret|]. apply acts_then; [done|]. intros; apply acts_ret.
Qed.
Lemma acts_or_error {A : Type} (m : M (Ctl S) (error + A)) ok rs :
  acts m rs -> (forall a, acts (ok a) []) -> acts (or_error m ok) rs.
Proof.
  intros Hm Hok. apply acts_then; [done|]. intros [e|a]; [apply acts_ret|]. apply acts_then; [done|]. intros; apply acts_ret.
Qed.

Create HintDb acts.
#[local] Hint Resolve acts_ret acts_println acts_status : acts.
#[local] Hint Extern 1 (acts (connect _) _) => (apply acts_connect; reflexivity) : acts.
#[local] Hint Extern 1 (acts (dmiEventGrpcClient _) _) => (apply acts_dmi; reflexivity) : acts.
#[local] Hint Extern 1 (acts (or_fatal _ _ _) _) => (apply acts_or_fatal; [|intros]) : acts.
#[local] Hint Extern 1 (acts (or_error _ _) _) => (apply acts_or_error; [|intros]) : acts.
#[local] Hint Extern 2 (acts (_ ≫= _) _) => (apply acts_then; [|intros]) : acts.
#[local] Hint Extern 1 (acts (if decide _ then _ else _) _) => case_decide : acts.

Lemma acts_olt_alarm what st name intf : acts (olt_alarm what st name intf) (olt_alarm_call name st intf).
Proof.
  unfold olt_alarm, olt_alarm_call, OltPonLos, OltNniLos. repeat case_decide; auto 10 with acts.
Qed.
Lemma acts_onu_alarm what st name sn ps : acts (onu_alarm what st name sn ps) (onu_alarm_call name sn st ps).
Proof. unfold onu_alarm, onu_alarm_call. destruct (addParameters ps); auto 10 with acts. Qed.

(** Every command but the one that prints the configuration. *)
Lemma acts_execute h o c : c <> CConfig -> acts (execute h o c) (asks c).
Proof.
  intros Hc. destruct c; [done|..]; clear Hc; cbn [execute asks];
    unfold OltGet, OltResources, OltNNIs, OltPONs, OltShutdown, OltPoweron, OltReboot,
    StopGrpcServer, StartGrpcServer, RestartGrpcServer, OltFlows, OltPoweronAllOnus, OltShutdownAllOnus,
    OltAlarmList, PonPoweronAllOnus, PonShutdownAllOnus, ONUList, ONUGet, ONUShutDown, ONUPowerOn,
    ONUEapolRestart, ONUDhcpRestart, ONUFlows, ONUInvalidateMds, ServiceList, ONUServices,
    AlarmList, UNIList, UNIGet, UNIServices, UNIEapolRestart, UNIDhcpRestart, DmiEventCreate,
    DmiTransceiversList, DmiTransceiverPlugIn, DmiTransceiverPlugOut, getOLT, getONUs,
    getServices, printOltHeader; try solve [auto 15 with acts | apply acts_olt_alarm | apply acts_onu_alarm].
  - unfold ONUIgmp. apply (acts_bind _ _ [RGetONU sn]); [auto with acts|intros]. auto with acts.
  - unfold ONUTrafficSchedulers. apply acts_then; [auto with acts|]. intros [e|[t|]]; auto with acts.
  - unfold Logging. apply acts_or_fatal; [auto with acts|]. intros [l b]. auto 10 with acts.
Qed.
End Asks.

(** How the state of the server changes while the program runs. *)
Lemma bbsimctl_execute {S : Type} `{BBSimServer S} api dmi h o c s r s' :
  bbsimctl api dmi h o c s = Done (r, s') ->
  exists e w', execute h o c {| ctl_conf := default_GlobalConfig; ctl_dmi := default_DmiConfig; api_address := api;
                               dmi_address := dmi; sim := s; printed := [] |} = Done (e, w') /\ sim w' = s'.
Proof.
  unfold bbsimctl. destruct (execute h o c _) as [[e w']| | |] eqn:E; [|done..].
  intros Hr. exists e, w'. split; [done|]. destruct e as [[e|e]|]; by injection Hr.
Qed.

(** Without a server at the two default addresses nothing reaches a simulator. *)
Lemma bbsimctl_elsewhere {S : Type} `{BBSimServer S} api dmi h o c s r s' :
  api <> Server default_GlobalConfig -> dmi <> Server default_DmiConfig ->
  bbsimctl api dmi h o c s = Done (r, s') -> s' = s.
Proof.
  intros Ha Hd (e & w' & He & <-)%bbsimctl_execute.
  assert (c = CConfig \/ c <> CConfig) as [->|Hc] by (destruct c; (by left) || (by right)).
  - cbn [execute] in He. unfold ConfigCmd in He. mred in He. destruct (ProcessGlobalOptions h o _); by injection He as <- <-.
  - set (Q (w : Ctl S) := ctl_conf w = default_GlobalConfig /\ ctl_dmi w = default_DmiConfig /\ api_address w = api /\
      dmi_address w = dmi /\ sim w = s).
    assert (preserves Q (execute h o c)) as Hp; [|eapply Hp in He; [exact (proj2 (proj2 (proj2 (proj2 He))))|by split_and!]].
    apply keep_execute.
    + intros l. by apply preserves_modify.
    + intros A m _ w x w1 (H1 & H2 & H3 & H4 & H5). unfold connect, call. rewrite H1, H3. rewrite decide_False by done.
      by intros [= <- <-].
    + intros A m _ w x w1 (H1 & H2 & H3 & H4 & H5). unfold dmiEventGrpcClient, call. rewrite H2, H4.
      rewrite decide_False by done. by intros [= <- <-].
    + done.
Qed.

(** ** Runs *)

(** The addresses the client is configured for. *)
Definition default_api : string := "localhost:50070".
Definition default_dmi : string := "localhost:50075".

Section Runs.
  Context {S : Type} `{BBSimServer S}.

(** Commands one after the other, each a process of its own. *)
Fixpoint run_commands (api dmi : string) (cs : list (Host * GlobalOptions * Command))
    : M S (list (list Line * option error * Z)) :=
  match cs with
  | [] => mret []
  | (h, o, c) :: rest => x ← bbsimctl api dmi h o c; l ← run_commands api dmi rest; mret (x :: l)
  end.

Lemma bbsimctl_asks h o c s :
  left_in (bbsimctl default_api default_dmi h o c s) = left_in (perform_all (asks c) s).
Proof.
  assert (c = CConfig \/ c <> CConfig) as [->|Hc] by (destruct c; (by left) || (by right)).
  { unfold bbsimctl. cbn [execute asks perform_all]. unfold ConfigCmd. mred.
    by destruct (ProcessGlobalOptions h o _). }
  unfold bbsimctl. set (w := Build_Ctl _ _ _ _ _ _ _).
  pose proof (acts_execute h o c Hc w) as Ha. specialize (Ha ltac:(by split)). change (sim w) with s in Ha.
  destruct (execute h o c w) as [[[[e|e]|] w']| | |]; cbn [left_in];
    [by destruct Ha as [_ ->]|by destruct Ha as [_ ->]|by destruct Ha as [_ ->]|by rewrite Ha..].
Qed.
End Runs.

(** C25: bbsimctl does what its commands mean.  Against any server that listens
    on the two default addresses, the commands make exactly the calls [asks]
    lists for them, with these arguments and in this order, and no others: the
    state of the server after a sequence of commands, or the way it fails, is
    that of the calls one after the other, whatever the options and the answers
    are.  (Each command means one call of the API or of the DMI, an IGMP command
    two, and one whose alarm name or parameters are not valid none.)  When
    nothing listens on these addresses the commands change nothing, whatever
    server the options name. *)
Theorem bbsimctl_refines_api {S : Type} `{BBSimServer S} (cs : list (Host * GlobalOptions * Command)) (s : S) :
  left_in (run_commands "localhost:50070" "localhost:50075" cs s) =
    left_in (perform_all (cs ≫= (fun x => asks x.2)) s) /\
  forall api dmi l s', api <> "localhost:50070" -> dmi <> "localhost:50075" ->
    run_commands api dmi cs s = Done (l, s') -> s' = s.
Proof.
  split.
  - revert s. induction cs as [|[[h o] c] cs IH]; intros s; [done|]. cbn [run_commands].
    change (((h, o, c) :: cs) ≫= _) with (asks c ++ (cs ≫= fun x => asks x.2))%list. rewrite perform_all_app.
    pose proof (bbsimctl_asks h o c s) as Hc. fold default_api default_dmi in *. unfold mbind at 1, M_bind at 1.
    destruct (bbsimctl default_api default_dmi h o c s) as [[x s1]| | |];
      destruct (perform_all (asks c) s) as [[[] s1']| | |]; cbn in Hc; simplify_eq; try done.
    rewrite <-IH. unfold mbind, M_bind. by destruct (run_commands default_api default_dmi cs _) as [[]| | |].
  - intros api dmi l s' Ha Hd. revert s l. induction cs as [|[[h o] c] cs IH]; intros s l Hr; cbn [run_commands] in Hr.
    { by injection Hr as <- <-. }
    apply bind_Done_inv in Hr as (x & s1 & E1 & Hr). apply bind_Done_inv in Hr as (l' & s2 & E2 & Hr).
    injection Hr as <- <-. rewrite (IH s1 l' E2). by eapply (bbsimctl_elsewhere api dmi).
Qed.

(** ** BBSim *)

(** The simulator as its servers see it: the state of the DMI server, which holds
    the device, and the settings of the logger. *)
Record Bbsim := { dms : DmiSys; logging : Level * bool }.

(** The texts of the levels in [logrus]. *)
Definition level_text (l : Level) : string :=
  match l with
  | TraceLevel => "trace" | DebugLevel => "debug" | InfoLevel => "info" | WarnLevel => "warning" | ErrorLevel => "error"
  end.

Section Server.
  Context `{UuidLib} `{Rand} (openOltAddress hostIP : string) (nniDhcpTrapVid draw : Z) (event_value : string -> option Z)
    (event_names : string).

Definition on_dms {A : Type} (m : M DmiSys A) : M Bbsim A := zoom dms (fun d b => {| dms := d; logging := logging b |}) m.
Definition on_api {A : Type} (m : M OltDevice A) : M Bbsim A := on_dms (on_olt m).

(** What a client receives: an error of the handler replaces its response. *)
Definition answered (m : M OltDevice Reply) : M Bbsim (error + Response) :=
  r ← on_api m; mret (match r.2 with Some e => inl e | None => inr r.1 end).
Definition reading {A : Type} (f : OltDevice -> outcome (error + A)) : M Bbsim (error + A) :=
  b ← get; of_outcome (f (d_olt (dms b))).
Definition fine {A : Type} (m : M DmiSys A) : M Bbsim (error + A) := a ← on_dms m; mret (inr a).

(** Source: internal/bbsim/api/grpc_api_server.go, [BBSimServer.SetLogLevel]. *)
Definition handle_log_level (level : string) (caller : bool) : M Bbsim (error + string * bool) :=
  let '(l, c, _) := SetLogLevel level caller in
  modify (fun b => {| dms := dms b; logging := (l, c) |}) ;;
  mret (inr (level_text l, c)).

#[export] Instance bbsim_server : BBSimServer Bbsim := {|
  rpc_GetOlt := reading (fun s => o ← GetOlt openOltAddress hostIP nniDhcpTrapVid s; Done (inr o));
  rpc_GetOltAllocatedResources := fun ty => reading (fun s => Done (GetOltAllocatedResources ty s));
  rpc_ShutdownOlt := answered ShutdownOlt;
  rpc_PoweronOlt := answered PoweronOlt;
  rpc_RebootOlt := answered RebootOlt;
  rpc_StopgRPCServer := answered StopgRPCServer;
  rpc_StartgRPCServer := on_api StartgRPCServer;
  rpc_RestartgRPCServer := fun d => answered (RestartgRPCServer d);
  rpc_GetFlows := fun sn => r ← on_api (GetFlows sn); mret (match r with inl e => inl e | inr l => inr l.1 end);
  rpc_PoweronAllONUs := answered PoweronAllONUs;
  rpc_ShutdownAllONUs := answered ShutdownAllONUs;
  rpc_PoweronONUsOnPON := fun i => answered (PoweronONUsOnPON i);
  rpc_ShutdownONUsOnPON := fun i => answered (ShutdownONUsOnPON i);
  rpc_GetONUs := reading (fun s => l ← GetONUs s; Done (inr l));
  rpc_GetONU := fun sn => reading (GetONU sn);
  rpc_ShutdownONU := fun sn => answered (ShutdownONU sn);
  rpc_PoweronONU := fun sn => answered (PoweronONU sn);
  rpc_RestartEapol := fun sn u => answered (RestartEapol sn u);
  rpc_RestartDhcp := fun sn u => answered (RestartDhcp sn u);
  rpc_ChangeIgmpState := fun sn u a g v => answered (ChangeIgmpState sn u a g v);
  rpc_InvalidateMds := fun sn => answered (InvalidateMds sn draw);
  rpc_GetOnuTrafficSchedulers := fun sn => on_api (GetOnuTrafficSchedulers sn);
  rpc_GetServices := fun sn u => reading (fun s => Done (inr (GetServices u sn s)));
  rpc_GetUnis := reading (fun s => l ← GetUnis s; Done (inr l));
  rpc_GetOnuUnis := fun sn => reading (GetOnuUnis sn);
  rpc_SetOnuAlarmIndication := fun sn ty _ st => on_api (SetOnuAlarmIndication sn ty st);
  rpc_SetOltAlarmIndication := fun i ty st => on_api (SetOltAlarmIndication i ty st);
  rpc_SetLogLevel := handle_log_level;
  rpc_CreateEvent := fun name => fine (CreateEvent event_value event_names name);
  rpc_GetTransceivers := b ← get; mret (inr (GetTransceivers (dms b)));
  rpc_PlugInTransceiver := fun i => fine (PlugInTransceiver i);
  rpc_PlugOutTransceiver := fun i => fine (PlugOutTransceiver i) |}.

(** ** What the calls do to the device *)

(** A call of the API that returns. *)
Definition api_step (s s' : OltDevice) : Prop :=
  exists (A : Type) (m : M OltDevice A) (a : A), api_call m /\ m s = Done (a, s').

Section Reach.
  Context (s0 : OltDevice).

Definition dms_reached (d : DmiSys) : Prop := rtc api_step s0 (d_olt d).
Definition reached (b : Bbsim) : Prop := dms_reached (dms b).

Lemma reach_on_olt {A : Type} (m : M OltDevice A) : api_call m -> preserves dms_reached (on_olt m).
Proof.
  intros Hm d a d' Hd. unfold on_olt, zoom. destruct (m (d_olt d)) as [[x o]| | |] eqn:E; [|done..]. intros [= <- <-].
  eapply rtc_r; [exact Hd|]. by exists A, m, x.
Qed.
Lemma reach_on_dms {A : Type} (m : M DmiSys A) : preserves dms_reached m -> preserves reached (on_dms m).
Proof.
  intros Hm b a b' Hb. unfold on_dms, zoom. destruct (m (dms b)) as [[x d]| | |] eqn:E; [|done..]. intros [= <- <-].
  exact (Hm _ _ _ Hb E).
Qed.
Lemma reach_same f : (forall d : DmiSys, d_olt (f d) = d_olt d) -> preserves dms_reached (modify f).
Proof. intros Hf. apply preserves_modify. intros d Hd. red. by rewrite Hf. Qed.
#[local] Hint Extern 1 (preserves _ (modify _)) => (apply reach_same; reflexivity) : preserve.
#[local] Hint Extern 1 (preserves _ (on_olt _)) => (apply reach_on_olt; constructor) : preserve.
#[local] Hint Extern 1 (preserves _ (for_each _ _)) => (apply preserves_for_each; preserve) : preserve.

Lemma reach_event e : preserves dms_reached (sendOutEventOnKafka e).
Proof. unfold sendOutEventOnKafka, try_send. preserve. Qed.
#[local] Hint Resolve reach_event : preserve.

Lemma reach_plug_out i : preserves dms_reached (PlugOutTransceiver i).
Proof. unfold PlugOutTransceiver, plug, PlugoutTransceiverComponent. preserve. Qed.
Lemma reach_plug_in i : preserves dms_reached (PlugInTransceiver i).
Proof. unfold PlugInTransceiver, plug, PluginTransceiverComponent. preserve. Qed.
Lemma reach_generator id ty g l i c : eventGenMap id = Some (ty, g) -> preserves dms_reached (g l i c).
Proof.
  unfold eventGenMap. repeat case_decide; intros; simplify_eq;
    unfold noThresholdEventGenerationFunc, thresholdEventGenerationFunc, generateRand; preserve.
Qed.
Lemma reach_create v n e : preserves dms_reached (CreateEvent v n e).
Proof.
  unfold CreateEvent. apply preserves_bind; [apply preserves_get|intros d].
  destruct (if eg_apiSrv (eg d) then root d else None) as [[x [|y l]]|];
    [apply preserves_ret| |apply preserves_ret]. destruct (v e) as [id|]; [|apply preserves_ret].
  destruct (eventGenMap id) as [[ty g]|] eqn:E; [|apply preserves_ret].
  apply preserves_bind; [by eapply reach_generator|intros; apply preserves_ret].
Qed.

Lemma reach_answered (m : M OltDevice Reply) : api_call m -> preserves reached (answered m).
Proof. intros Hm. unfold answered. preserve. by apply reach_on_dms, reach_on_olt. Qed.
Lemma reach_api {A : Type} (m : M OltDevice A) : api_call m -> preserves reached (on_api m).
Proof. intros Hm. by apply reach_on_dms, reach_on_olt. Qed.
Lemma reach_reading {A : Type} (f : OltDevice -> outcome (error + A)) : preserves reached (reading f).
Proof. unfold reading. preserve. Qed.
Lemma reach_fine {A : Type} (m : M DmiSys A) : preserves dms_reached m -> preserves reached (fine m).
Proof. intros Hm. unfold fine. preserve. by apply reach_on_dms. Qed.

(** Whatever a call of the interface does to the device, calls of the API can
    do. *)
Lemma reach_rpc A (m : M Bbsim (error + A)) : rpc_of m -> preserves reached m.
Proof.
  intros []; cbn -[reading answered on_api fine handle_log_level];
    lazymatch goal with
    | |- preserves _ (reading _) => apply reach_reading
    | |- preserves _ (answered (RestartDhcp _ _)) => apply reach_answered, ac_dhcp
    | |- preserves _ (answered _) => apply reach_answered; constructor
    | |- preserves _ (on_api _) => apply reach_api; constructor
    | |- preserves _ (fine _) =>
        apply reach_fine; first [apply reach_create|apply reach_plug_out|apply reach_plug_in]
    | |- _ => idtac
    end.
  - preserve. apply reach_api. constructor.
  - unfold handle_log_level. preserve. by apply preserves_modify.
  - preserve.
Qed.
End Reach.

(** So a call of the interface moves the device through calls of the API, and the
    states it can then be in are among those of [device_step]. *)
Theorem rpc_step_device `{OmciLib} `{MeLib} `{Gopacket} (env : Env) (b b' : Bbsim) :
  rpc_step b b' -> rtc api_step (d_olt (dms b)) (d_olt (dms b')) /\
                   rtc (device_step env) (d_olt (dms b)) (d_olt (dms b')).
Proof.
  intros [r Hr]. assert (rtc api_step (d_olt (dms b)) (d_olt (dms b'))) as Ha.
  { assert (exists A (m : M Bbsim (error + A)) a, rpc_of m /\ m b = Done (a, b')) as (A & m & a & Hm & Hb).
    { destruct r; cbn [perform] in Hr; apply bind_Done_inv in Hr as (a & b1 & Hr & Hk); injection Hk as <-;
        (eexists _, _, a; split; [|exact Hr]; constructor). }
    exact (reach_rpc (d_olt (dms b)) A m Hm b a b' (rtc_refl _ _) Hb). }
  split; [done|]. clear -Ha. induction Ha as [|x y z (A & m & a & Hm & Hr) _ IH]; [done|].
  eapply rtc_l; [|exact IH]. exists A, m, a. split; [by right; left|done].
Qed.

End Server.

(** ** Examples and findings *)

(** A simulator that is managed through DMI, and its server. *)
Definition managed_bbsim : Bbsim := {| dms := managed_dmi; logging := (DebugLevel, false) |}.
#[local] Instance example_server : BBSimServer Bbsim :=
  @bbsim_server plain_uuid zero_rand ":50060" "10.0.0.1" 0 0 (fun _ => None) "".
Definition plain_host : Host := {| h_home := "/root"; h_file := fun _ => None; h_env := None; h_resolve := fun _ => None |}.
Definition no_options : GlobalOptions := {| opt_Config := ""; opt_Server := ""; opt_Debug := false |}.
Definition some_commands : list (Host * GlobalOptions * Command) :=
  [(plain_host, no_options, COltShutdown); (plain_host, no_options, CDmiTransceiverPlugOut 0);
   (plain_host, no_options, CONUServices "BBSM00000001")].

Lemma bbsimctl_refines_api_witness :
  left_in (run_commands "localhost:50070" "localhost:50075" some_commands managed_bbsim) =
    left_in (perform_all [RShutdownOlt; RPlugOutTransceiver 0; RGetServices "BBSM00000001" ""] managed_bbsim) /\
  forall l b', run_commands "10.0.0.2:50070" "10.0.0.2:50075" some_commands managed_bbsim = Done (l, b') ->
    b' = managed_bbsim.
Proof.
  destruct (bbsimctl_refines_api some_commands managed_bbsim) as [H1 H2]. split; [exact H1|].
  intros l b'. by apply H2.
Defined.

Section Findings.
  Context {S : Type} `{BBSimServer S}.

(** Only the command that prints the configuration reads the options, the file and
    the environment: for every other command the server they name is ignored. *)
Lemma server_option_ignored api dmi h o h' o' c : c <> CConfig -> bbsimctl api dmi h o c = bbsimctl (S := S) api dmi h' o' c.
Proof. by destruct c. Qed.

(** A misspelt action is sent as a join. *)
Lemma unknown_action_joins name : name ∉ IgmpAllowedActions -> igmp_action name = SubActionTypes_JOIN.
Proof. unfold igmp_action. intros Hn. repeat case_decide; subst; try done; exfalso; apply Hn; set_solver. Qed.

(** Without ONUs the completion of a UNI number indexes an empty list. *)
Lemma complete_uni_panics m (w : Ctl S) s' :
  Server (ctl_conf w) = api_address w -> rpc_GetONUs (sim w) = Done (inr [], s') ->
  complete_uni m w = Panicked "index out of range".
Proof.
  intros Ha Hr. unfold complete_uni. erewrite bind_Done;
    [|unfold connect, call; rewrite decide_True by done; rewrite Hr; reflexivity]. reflexivity.
Qed.
End Findings.

(** The parameters of an alarm never reach the simulated alarm: BBSim's handler
    passes on the type and the status only. *)
Lemma alarm_parameters_dropped api dmi h o name sn ps qs s :
  (exists l, addParameters ps = inr l) -> (exists l, addParameters qs = inr l) ->
  bbsimctl (S := Bbsim) api dmi h o (CAlarmRaise name sn ps) s = bbsimctl api dmi h o (CAlarmRaise name sn qs) s.
Proof.
  intros [l Hl] [k Hk]. unfold bbsimctl. cbn [execute]. unfold AlarmRaise, onu_alarm. by rewrite Hl, Hk.
Qed.

(** A value that contains the separator is refused. *)
Lemma addParameters_separator : addParameters ["Drift=1=2"] = inl "Invalid parameter Drift=1=2".
Proof. by vm_compute. Qed.
