(* ===== verification/Gateway.v ===== *)
(** * The runtime of the REST gateways

    The two gateways of BBSim ([Rest], [RestLegacy]) are tables of patterns and
    handlers over [grpc-gateway/v2/runtime]: patterns are small programs for a stack
    machine, the multiplexer picks the first one that matches, values of the path
    and of the query are converted and put into the request message, with a trie
    that says which fields the query may not touch.  Here the runtime; the last
    part shows that a pattern means a template (literals and variables), that
    templates that differ in a literal never match the same path, and what the trie
    keeps out. *)
From S2P Require Import Prelude OmciTypes Api Sadis Web.
Open Scope Z_scope.
Open Scope string_scope.

(** ** Patterns *)

(** Source: vendor/github.com/grpc-ecosystem/grpc-gateway/v2/utilities/pattern.go:9-15, [OpNop]
    and the other operations. *)
Definition OpNop : Z := 0.
Definition OpPush : Z := 1.
Definition OpLitPush : Z := 2.
Definition OpPushM : Z := 3.
Definition OpConcatN : Z := 4.
Definition OpCapture : Z := 5.

(** Source: vendor/github.com/grpc-ecosystem/grpc-gateway/v2/runtime/pattern.go, [Pattern]. *)
Record Pattern := {
  p_ops : list (Z * Z); p_pool : list string; p_vars : list string; p_stacksize : Z; p_tailLen : Z; p_verb : string }.

(** The variables of the loop of [NewPattern]. *)
Record Building := {
  typedOps : list (Z * Z); b_stack : Z; b_maxstack : Z; b_tailLen : Z; pushMSeen : bool; b_vars : list string }.
Definition pushed (code operand : Z) (b : Building) : Building := {|
  typedOps := (typedOps b ++ [(code, operand)])%list; b_stack := b_stack b + 1;
  b_maxstack := Z.max (b_maxstack b) (b_stack b + 1);
  b_tailLen := if pushMSeen b then b_tailLen b + 1 else b_tailLen b; pushMSeen := pushMSeen b; b_vars := b_vars b |}.

(** Source: vendor/github.com/grpc-ecosystem/grpc-gateway/v2/runtime/pattern.go, [NewPattern] (one operation);
    [None] is [ErrInvalidPattern]. *)
Definition new_op (pool : list string) (code operand : Z) (b : Building) : option Building :=
  if decide (code = OpNop) then Some b
  else if decide (code = OpPush) then Some (pushed code operand b)
  else if decide (code = OpPushM) then
    if pushMSeen b then None
    else Some {| typedOps := (typedOps b ++ [(code, operand)])%list; b_stack := b_stack b + 1;
                 b_maxstack := Z.max (b_maxstack b) (b_stack b + 1); b_tailLen := b_tailLen b; pushMSeen := true;
                 b_vars := b_vars b |}
  else if decide (code = OpLitPush) then
    if decide (operand < 0 \/ Z.of_nat (length pool) <= operand) then None else Some (pushed code operand b)
  else if decide (code = OpConcatN) then
    if decide (operand <= 0) then None
    else if decide (b_stack b - operand < 0) then None
    else Some {| typedOps := (typedOps b ++ [(code, operand)])%list; b_stack := b_stack b - operand + 1;
                 b_maxstack := Z.max (b_maxstack b) (b_stack b - operand + 1); b_tailLen := b_tailLen b;
                 pushMSeen := pushMSeen b; b_vars := b_vars b |}
  else if decide (code = OpCapture) then
    if decide (operand < 0) then None
    else
      v ← pool !! Z.to_nat operand;
      if decide (b_stack b - 1 < 0) then None
      else Some {| typedOps := (typedOps b ++ [(code, Z.of_nat (length (b_vars b)))])%list; b_stack := b_stack b - 1;
                   b_maxstack := Z.max (b_maxstack b) (b_stack b - 1); b_tailLen := b_tailLen b;
                   pushMSeen := pushMSeen b; b_vars := (b_vars b ++ [v])%list |}
  else None.
Fixpoint new_ops (pool : list string) (ops : list Z) (b : Building) : option Building :=
  match ops with
  | [] => Some b
  | code :: operand :: rest => b' ← new_op pool code operand b; new_ops pool rest b'
  | [_] => None
  end.

(** Source: vendor/github.com/grpc-ecosystem/grpc-gateway/v2/runtime/pattern.go, [NewPattern]. *)
Definition NewPattern (version : Z) (ops : list Z) (pool : list string) (verb : string) : option Pattern :=
  if decide (version <> 1) then None
  else if Nat.odd (length ops) then None
  else
    b ← new_ops pool ops {| typedOps := []; b_stack := 0; b_maxstack := 0; b_tailLen := 0; pushMSeen := false; b_vars := [] |};
    Some {| p_ops := typedOps b; p_pool := pool; p_vars := b_vars b; p_stacksize := b_maxstack b;
            p_tailLen := b_tailLen b; p_verb := verb |}.

(** The values of the path. *)
Definition Params := gmap string string.

(** The variables of the loop of [MatchAndEscape]; the last element of [m_stack]
    is its top. *)
Record Matching := { m_pos : nat; m_stack : list string; m_captured : list string }.

(** Source: vendor/github.com/grpc-ecosystem/grpc-gateway/v2/runtime/pattern.go, [Pattern.MatchAndEscape] (one
    operation).  [None] is [ErrNotMatch].  The multiplexers of BBSim have the
    default mode, in which [unescape] returns its argument. *)
Definition match_op (p : Pattern) (comps : list string) (code operand : Z) (m : Matching) : outcome (option Matching) :=
  if decide (code = OpPush) then
    match comps !! m_pos m with
    | None => Done None
    | Some c => Done (Some {| m_pos := S (m_pos m); m_stack := (m_stack m ++ [c])%list; m_captured := m_captured m |})
    end
  else if decide (code = OpLitPush) then
    match comps !! m_pos m with
    | None => Done None
    | Some c =>
        match p_pool p !! Z.to_nat operand with
        | None => Panicked "index out of range"
        | Some lit =>
            if decide (c = lit)
            then Done (Some {| m_pos := S (m_pos m); m_stack := (m_stack m ++ [c])%list; m_captured := m_captured m |})
            else Done None
        end
    end
  else if decide (code = OpPushM) then
    if decide (Z.of_nat (length comps) < Z.of_nat (m_pos m) + p_tailLen p) then Done None
    else
      let stop := (length comps - Z.to_nat (p_tailLen p))%nat in
      Done (Some {| m_pos := stop;
        m_stack := (m_stack m ++ [String.concat "/" (take (stop - m_pos m) (drop (m_pos m) comps))])%list;
        m_captured := m_captured m |})
  else if decide (code = OpConcatN) then
    if decide (Z.of_nat (length (m_stack m)) < operand) then Panicked "slice bounds out of range"
    else
      let l := (length (m_stack m) - Z.to_nat operand)%nat in
      Done (Some {| m_pos := m_pos m; m_stack := (take l (m_stack m) ++ [String.concat "/" (drop l (m_stack m))])%list;
                    m_captured := m_captured m |})
  else if decide (code = OpCapture) then
    match last (m_stack m) with
    | None => Panicked "index out of range"
    | Some c =>
        if decide (Z.to_nat operand < length (m_captured m))%nat
        then Done (Some {| m_pos := m_pos m; m_stack := take (length (m_stack m) - 1) (m_stack m);
                           m_captured := <[Z.to_nat operand := c]> (m_captured m) |})
        else Panicked "index out of range"
    end
  else Done (Some m).
Fixpoint match_ops (p : Pattern) (comps : list string) (ops : list (Z * Z)) (m : Matching) : outcome (option Matching) :=
  match ops with
  | [] => Done (Some m)
  | (code, operand) :: rest =>
      r ← match_op p comps code operand m;
      match r with None => Done None | Some m' => match_ops p comps rest m' end
  end.
Definition bind_all (vars vals : list string) : Params :=
  fold_left (fun (acc : Params) x => <[x.1 := x.2]> acc) (zip vars vals) ∅.

(** Source: vendor/github.com/grpc-ecosystem/grpc-gateway/v2/runtime/pattern.go, [Pattern.MatchAndEscape]. *)
Definition MatchAndEscape (p : Pattern) (comps : list string) (verb : string) : outcome (option Params) :=
  if decide (p_verb p <> verb /\ p_verb p <> "") then Done None
  else
    let comps :=
      if decide (p_verb p <> verb) then
        match last comps with
        | None => [":" +:+ verb]
        | Some c => (take (length comps - 1) comps ++ [c +:+ ":" +:+ verb])%list
        end
      else comps in
    r ← match_ops p comps (p_ops p) {| m_pos := 0; m_stack := []; m_captured := replicate (length (p_vars p)) "" |};
    match r with
    | None => Done None
    | Some m => if decide (m_pos m < length comps)%nat then Done None else Done (Some (bind_all (p_vars p) (m_captured m)))
    end.

(** ** Requests *)

(** The values of a form, in the order in which they are visited. *)
Definition Values := list (string * list string).

(** What the code uses of [net/url] and [mime]: the values of a query with the
    first error met, and the type of a content with an error of its own. *)
Class HttpLib := {
  ParseQuery : string -> Values * option error;
  ParseMediaType : string -> string * option error }.

Definition urlencoded : string := "application/x-www-form-urlencoded".

(** An [http.Request], with the error [AnnotateContext] finds in its headers, if
    any. *)
Record Request := {
  Method : string; Path : string; MethodOverride : string; ContentType : string; RawQuery : string; Body : string;
  Form : option Values; Annotation : option error }.
#[export] Instance eta_request : Eta Request := fun r => {|
  Method := Method r; Path := Path r; MethodOverride := MethodOverride r; ContentType := ContentType r;
  RawQuery := RawQuery r; Body := Body r; Form := Form r; Annotation := Annotation r |}.
#[export] Instance set_Method : Setter Method := ltac:(setter_for Method).
#[export] Instance set_Body : Setter Body := ltac:(setter_for Body).
#[export] Instance set_Form : Setter Form := ltac:(setter_for Form).

(** [http.Request.ParseForm]: the body of a form that is sent, then the query;
    nothing the second time. *)
Definition ParseForm `{HttpLib} (r : Request) : option error * Request :=
  match Form r with
  | Some _ => (None, r)
  | None =>
      let '(post, err, r) :=
        if decide (Method r ∈ ["POST"; "PUT"; "PATCH"]) then
          let ct := if decide (ContentType r = "") then "application/octet-stream" else ContentType r in
          let '(ty, e) := ParseMediaType ct in
          if decide (ty = urlencoded) then
            let '(vs, e') := ParseQuery (Body r) in
            (vs, match e with Some _ => e | None => e' end, r <| Body := "" |>)
          else ([], e, r)
        else ([], None, r) in
      let '(query, qerr) := ParseQuery (RawQuery r) in
      (match err with Some _ => err | None => qerr end, r <| Form := Some (post ++ query)%list |>)
  end.

(** ** Converting values *)

Definition lower (c : Ascii.ascii) : Ascii.ascii :=
  let n := Ascii.N_of_ascii c in if decide (65 <= n <= 90)%N then Ascii.ascii_of_N (n + 32) else c.
Definition chr (n : N) : Ascii.ascii := Ascii.ascii_of_N n.

(** The value of a digit: letters are digits of large bases. *)
Definition digit_value (c : Ascii.ascii) : option Z :=
  let n := Z.of_N (Ascii.N_of_ascii c) in
  let m := Z.of_N (Ascii.N_of_ascii (lower c)) in
  if decide (48 <= n <= 57) then Some (n - 48) else if decide (97 <= m <= 122) then Some (m - 87) else None.

(** [strconv.underscoreOK]: underscores stand between digits or after the base. *)
Inductive seen := Start | Digit | Underscore | Other.
Fixpoint underscores (hex : bool) (i : seen) (l : list Ascii.ascii) : bool :=
  match l with
  | [] => match i with Underscore => false | _ => true end
  | c :: l' =>
      let n := Ascii.N_of_ascii c in
      let m := Ascii.N_of_ascii (lower c) in
      if decide ((48 <= n <= 57)%N \/ hex = true /\ (97 <= m <= 102)%N) then underscores hex Digit l'
      else if decide (c = chr 95) then match i with Digit => underscores hex Underscore l' | _ => false end
      else match i with Underscore => false | _ => underscores hex Other l' end
  end.
Definition underscoreOK (l : list Ascii.ascii) : bool :=
  match l with
  | z :: b :: l' =>
      if decide (z = chr 48 /\ lower b ∈ [chr 98; chr 111; chr 120]) then underscores (bool_decide (lower b = chr 120)) Digit l'
      else underscores false Start l
  | _ => underscores false Start l
  end.

Fixpoint based_digits (base acc : Z) (l : list Ascii.ascii) : option Z :=
  match l with
  | [] => Some acc
  | c :: l' =>
      if decide (c = chr 95) then based_digits base acc l'
      else d ← digit_value c; if decide (d < base) then based_digits base (acc * base + d) l' else None
  end.

(** [strconv.ParseUint] with base 0, before the width is looked at: the base comes
    from the prefix. *)
Definition based_uint (l : list Ascii.ascii) : option Z :=
  let '(base, l') :=
    match l with
    | z :: b :: c :: l' =>
        if decide (z = chr 48) then
          if decide (lower b = chr 98) then (2, c :: l')
          else if decide (lower b = chr 111) then (8, c :: l')
          else if decide (lower b = chr 120) then (16, c :: l')
          else (8, b :: c :: l')
        else (10, l)
    | z :: l' => if decide (z = chr 48) then (8, l') else (10, l)
    | [] => (10, [])
    end in
  if decide (l = []) then None
  else n ← based_digits base 0 l'; if decide (chr 95 ∈ l' /\ underscoreOK l = false) then None else Some n.

(** Source: vendor/github.com/grpc-ecosystem/grpc-gateway/v2/runtime/convert.go, [Uint32]. *)
Definition Uint32 (s : string) : option Z :=
  n ← based_uint (String.list_ascii_of_string s); if decide (n < 2 ^ 32) then Some n else None.

(** Source: vendor/github.com/grpc-ecosystem/grpc-gateway/v2/runtime/convert.go, [Int32]. *)
Definition Int32 (s : string) : option Z :=
  match String.list_ascii_of_string s with
  | [] => None
  | c :: l =>
      if decide (c = chr 45) then n ← based_uint l; if decide (n <= 2 ^ 31) then Some (- n) else None
      else n ← based_uint (if decide (c = chr 43) then l else c :: l); if decide (n < 2 ^ 31) then Some n else None
  end.

(** Source: vendor/github.com/grpc-ecosystem/grpc-gateway/v2/runtime/convert.go, [Enum]. *)
Definition Enum (s : string) (values : list (string * Z)) : option Z :=
  match list_find (fun x => x.1 = s) values with
  | Some (_, (_, v)) => Some v
  | None => i ← Int32 s; if decide (i ∈ values.*2) then Some i else None
  end.

(** ** Fields of messages *)

(** Source: vendor/github.com/grpc-ecosystem/grpc-gateway/v2/utilities/trie.go, [DoubleArray]. *)
Record DoubleArray := { Encoding : gmap string nat; Base : list nat; Check_ : list nat }.

(** Source: vendor/github.com/grpc-ecosystem/grpc-gateway/v2/utilities/trie.go, [DoubleArray.HasCommonPrefix]: the
    loop, from the node [i]. *)
Fixpoint follow (da : DoubleArray) (i : nat) (seq : list string) : outcome nat :=
  match seq with
  | [] => Done i
  | t :: seq' =>
      match Encoding da !! t with
      | None => Done i
      | Some code =>
          match Base da !! i with
          | None => Panicked "index out of range"
          | Some b => if decide (Check_ da !! (b + code)%nat = Some (S i)) then follow da (b + code) seq' else Done i
          end
      end
  end.

(** Source: vendor/github.com/grpc-ecosystem/grpc-gateway/v2/utilities/trie.go, [DoubleArray.HasCommonPrefix]. *)
Definition HasCommonPrefix (da : DoubleArray) (seq : list string) : outcome bool :=
  if decide (Base da = []) then Done false
  else
    i ← follow da 0 seq;
    match Base da !! i with
    | None => Panicked "index out of range"
    | Some b => Done (bool_decide (Check_ da !! (b + size (Encoding da))%nat = Some (S i)))
    end.

(** The fields of a message: a scalar or a list with what a text of a value does to
    the message, or another message; each with its name and its name in JSON. *)
Inductive Field : Type -> Type :=
| Scalar {T : Type} (name json : string) (parse : string -> option (T -> T)) : Field T
| Repeated {T : Type} (name json : string) (parse : string -> option (T -> T)) : Field T
| Nested {T U : Type} (name json : string) (getm : T -> U) (put : U -> T -> T) (fields : list (Field U)) : Field T.
Definition f_name {T : Type} (f : Field T) : string :=
  match f with Scalar n _ _ | Repeated n _ _ | Nested n _ _ _ _ => n end.
Definition f_json {T : Type} (f : Field T) : string :=
  match f with Scalar _ j _ | Repeated _ j _ | Nested _ j _ _ _ => j end.

Definition ByName {T : Type} (fs : list (Field T)) (x : string) : option (Field T) :=
  match List.find (fun f => bool_decide (f_name f = x)) fs with
  | Some f => Some f
  | None => List.find (fun f => bool_decide (f_json f = x)) fs
  end.

(** Source: vendor/github.com/grpc-ecosystem/grpc-gateway/v2/runtime/query.go, [normalizeFieldPath]; [None] when the
    path is returned as it is. *)
Fixpoint normalize (path : list string) {T : Type} (fs : list (Field T)) : option (list string) :=
  match path with
  | [] => Some []
  | x :: rest =>
      f ← ByName fs x;
      match rest with
      | [] => Some [f_name f]
      | _ => match f with Nested n _ _ _ sub => (cons n) <$> normalize rest sub | _ => None end
      end
  end.

(** Source: vendor/github.com/grpc-ecosystem/grpc-gateway/v2/runtime/query.go, [populateRepeatedField]. *)
Fixpoint populateRepeatedField {T : Type} (parse : string -> option (T -> T)) (values : list string) (m : T) : error + T :=
  match values with
  | [] => inr m
  | v :: vs => match parse v with None => inl "parsing list" | Some f => populateRepeatedField parse vs (f m) end
  end.

(** Source: vendor/github.com/grpc-ecosystem/grpc-gateway/v2/runtime/query.go, [populateFieldValueFromPath].  A
    field that is not there is no error. *)
Fixpoint populateFieldValueFromPath (path : list string) {T : Type} (fs : list (Field T)) (values : list string) (m : T)
    : error + T :=
  match path with
  | [] => inl "no field path"
  | x :: rest =>
      match values with
      | [] => inl "no value provided"
      | v :: more =>
          match ByName fs x with
          | None => inr m
          | Some f =>
              match rest with
              | [] =>
                  match f in Field T' return T' -> error + T' with
                  | Repeated _ _ parse => populateRepeatedField parse values
                  | Scalar _ _ parse => fun m =>
                      if decide (more <> []) then inl "too many values"
                      else match parse v with None => inl "parsing field" | Some g => inr (g m) end
                  | Nested _ _ _ _ _ => fun _ =>
                      if decide (more <> []) then inl "too many values" else inl "unsupported message type"
                  end m
              | _ =>
                  match f in Field T' return T' -> error + T' with
                  | Nested _ _ getm put sub => fun m =>
                      match populateFieldValueFromPath rest sub values (getm m) with
                      | inl e => inl e
                      | inr u => inr (put u m)
                      end
                  | _ => fun _ => inl "invalid path"
                  end m
              end
          end
      end
  end.

(** Source: vendor/github.com/grpc-ecosystem/grpc-gateway/v2/runtime/query.go, [PopulateFieldFromPath]. *)
Definition PopulateFieldFromPath {T : Type} (fs : list (Field T)) (m : T) (path : string) (value : string) : error + T :=
  populateFieldValueFromPath (split_on (chr 46) path) fs [value] m.

(** Source: vendor/github.com/grpc-ecosystem/grpc-gateway/v2/runtime/query.go, [valuesKeyRegexp]: a key that ends in an
    index between brackets, the last ones; no line ends in the two parts. *)
Fixpoint until_bracket (acc : list Ascii.ascii) (l : list Ascii.ascii) : option (list Ascii.ascii * list Ascii.ascii) :=
  match l with
  | [] => None
  | c :: l' => if decide (c = chr 91) then Some (acc, l') else until_bracket (c :: acc) l'
  end.
Definition valuesKeyRegexp (key : string) : option (string * string) :=
  match rev (String.list_ascii_of_string key) with
  | c :: l =>
      if decide (c = chr 93) then
        x ← until_bracket [] l;
        if decide (chr 10 ∈ (x.1 ++ x.2)%list) then None
        else Some (String.string_of_list_ascii (rev x.2), String.string_of_list_ascii x.1)
      else None
  | [] => None
  end.

(** Source: vendor/github.com/grpc-ecosystem/grpc-gateway/v2/runtime/query.go, [DefaultQueryParser.Parse]. *)
Fixpoint PopulateQueryParameters {T : Type} (fs : list (Field T)) (m : T) (values : Values) (filter : DoubleArray)
    : outcome (error + T) :=
  match values with
  | [] => Done (inr m)
  | (key, vs) :: rest =>
      let '(key, vs) := match valuesKeyRegexp key with Some (k, i) => (k, i :: vs) | None => (key, vs) end in
      let path := split_on (chr 46) key in
      let path := default path (normalize path fs) in
      skip ← HasCommonPrefix filter path;
      if (skip : bool) then PopulateQueryParameters fs m rest filter
      else
        match populateFieldValueFromPath path fs vs m with
        | inl e => Done (inl e)
        | inr m' => PopulateQueryParameters fs m' rest filter
        end
  end.

(** ** Answers *)

(** What a request function returns instead of an answer: an error of the gateway,
    which is always an invalid argument, or that of the call. *)
Inductive GwError := InvalidArgument (msg : string) | FromRpc (e : error).

(** What the client of the gateway receives: the answer of the call, the error of
    the call (with the status that belongs to its code), or an error of the
    gateway. *)
Inductive HttpReply (A : Type) := Forwarded (a : A) | RpcError (e : error) | HttpError (status : Z) (msg : string).
Arguments Forwarded {A} a. Arguments RpcError {A} e. Arguments HttpError {A} status msg.

(** Source: vendor/github.com/grpc-ecosystem/grpc-gateway/v2/runtime/errors.go, [HTTPStatusFromCode], on the codes the
    gateway itself uses. *)
Inductive Code := CInvalidArgument | CNotFound | CUnimplemented | CInternal.
Definition HTTPStatusFromCode (c : Code) : Z :=
  match c with CInvalidArgument => 400 | CNotFound => 404 | CUnimplemented => 501 | CInternal => 500 end.

(** Source: vendor/github.com/grpc-ecosystem/grpc-gateway/v2/runtime/errors.go, [DefaultRoutingErrorHandler] with
    [DefaultHTTPErrorHandler]. *)
Definition routing_error {A : Type} (httpStatus : Z) : HttpReply A :=
  if decide (httpStatus = 400) then HttpError (HTTPStatusFromCode CInvalidArgument) "Bad Request"
  else if decide (httpStatus = 405) then HttpError (HTTPStatusFromCode CUnimplemented) "Method Not Allowed"
  else if decide (httpStatus = 404) then HttpError (HTTPStatusFromCode CNotFound) "Not Found"
  else HttpError (HTTPStatusFromCode CInternal) "Unexpected routing error".
Definition HTTPError {A : Type} (e : GwError) : HttpReply A :=
  match e with InvalidArgument m => HttpError (HTTPStatusFromCode CInvalidArgument) m | FromRpc e => RpcError e end.

(** ** The multiplexer *)

(** Source: vendor/github.com/grpc-ecosystem/grpc-gateway/v2/runtime/mux.go, [handler]; a
    [ServeMux] is its map of handlers. *)
Record handler (S A : Type) := { pat : Pattern; h_func : Request -> Params -> M S (HttpReply A) }.
Arguments pat {S A}. Arguments h_func {S A}.
Notation ServeMux S A := (gmap string (list (handler S A))).

Section Mux.
  Context {S A : Type} `{HttpLib}.

(** Source: vendor/github.com/grpc-ecosystem/grpc-gateway/v2/runtime/mux.go, [NewServeMux]
    without options. *)
Definition NewServeMux : ServeMux S A := ∅.

(** Source: vendor/github.com/grpc-ecosystem/grpc-gateway/v2/runtime/mux.go, [ServeMux.Handle]
    without middlewares. *)
Definition Handle (meth : string) (p : Pattern) (h : Request -> Params -> M S (HttpReply A)) (mux : ServeMux S A)
    : ServeMux S A :=
  <[meth := {| pat := p; h_func := h |} :: default [] (mux !! meth)]> mux.

(** Source: vendor/github.com/grpc-ecosystem/grpc-gateway/v2/runtime/mux.go, [ServeMux.isPathLengthFallback]. *)
Definition isPathLengthFallback (r : Request) : bool :=
  bool_decide (Method r = "POST" /\ ContentType r = urlencoded).

(** What matching a handler needs of the last component: the place of the verb of
    its pattern, if it has one. *)
Definition has_suffix (s suffix : string) : bool :=
  bool_decide ((String.length suffix <= String.length s)%nat /\
    String.substring (String.length s - String.length suffix) (String.length suffix) s = suffix).
Definition verb_index (p : Pattern) (lastc : string) : Z :=
  if decide (p_verb p <> "") then
    if has_suffix lastc (":" +:+ p_verb p) then Z.of_nat (String.length lastc) - Z.of_nat (String.length (p_verb p)) - 1
    else -1
  else -1.
Definition match_handler (h : handler S A) (comps : list string) : outcome (option Params) :=
  let lastc := default "" (last comps) in
  let idx := verb_index (pat h) lastc in
  if decide (0 < idx) then
    let i := Z.to_nat idx in
    MatchAndEscape (pat h) (take (length comps - 1) comps ++ [String.substring 0 i lastc])%list
      (String.substring (i + 1) (String.length lastc - i - 1) lastc)
  else MatchAndEscape (pat h) comps "".

(** Source: vendor/github.com/grpc-ecosystem/grpc-gateway/v2/runtime/mux.go:445-490, [ServeMux.ServeHTTP]:
    the loop over the handlers of the method. *)
Fixpoint serve_same (hs : list (handler S A)) (comps : list string) (r : Request) : M S (option (HttpReply A)) :=
  match hs with
  | [] => mret None
  | h :: rest =>
      if decide (verb_index (pat h) (default "" (last comps)) = 0) then mret (Some (routing_error 404))
      else
        m ← of_outcome (match_handler h comps);
        match m with
        | None => serve_same rest comps r
        | Some params => x ← h_func h r params; mret (Some x)
        end
  end.

(** Source: vendor/github.com/grpc-ecosystem/grpc-gateway/v2/runtime/mux.go:502-545, [ServeMux.ServeHTTP]:
    the loop over the handlers of another method [m]. *)
Fixpoint serve_other (m : string) (hs : list (handler S A)) (comps : list string) (r : Request)
    : M S (option (HttpReply A)) :=
  match hs with
  | [] => mret None
  | h :: rest =>
      x ← of_outcome (match_handler h comps);
      match x with
      | None => serve_other m rest comps r
      | Some params =>
          if isPathLengthFallback r && bool_decide (m = "GET") then
            match ParseForm r with
            | (Some e, _) => mret (Some (HTTPError (InvalidArgument e)))
            | (None, r') => y ← h_func h r' params; mret (Some y)
            end
          else mret (Some (routing_error 405))
      end
  end.

(** Source: vendor/github.com/grpc-ecosystem/grpc-gateway/v2/runtime/mux.go:498-546, [ServeMux.ServeHTTP]:
    the loop over the other methods. *)
Fixpoint serve_others (order : list string) (mux : ServeMux S A) (comps : list string) (r : Request)
    : M S (option (HttpReply A)) :=
  match order with
  | [] => mret None
  | m :: rest =>
      if decide (m = Method r) then serve_others rest mux comps r
      else
        x ← serve_other m (default [] (mux !! m)) comps r;
        match x with None => serve_others rest mux comps r | Some _ => mret x end
  end.

Definition upper (c : Ascii.ascii) : Ascii.ascii :=
  let n := Ascii.N_of_ascii c in if decide (97 <= n <= 122)%N then Ascii.ascii_of_N (n - 32) else c.
Definition ToUpper (s : string) : string := String.string_of_list_ascii (upper <$> String.list_ascii_of_string s).

(** Source: vendor/github.com/grpc-ecosystem/grpc-gateway/v2/runtime/mux.go:422-430, [ServeMux.ServeHTTP]:
    the method override. *)
Definition override_method (r : Request) : error + Request :=
  if decide (MethodOverride r <> "") then
    if isPathLengthFallback r then
      match ParseForm r with
      | (Some e, _) => inl e
      | (None, r') => inr (r' <| Method := ToUpper (MethodOverride r) |>)
      end
    else inr r
  else inr r.

(** Source: vendor/github.com/grpc-ecosystem/grpc-gateway/v2/runtime/mux.go, [ServeMux.ServeHTTP].  [order] is the
    order in which the loop over the map visits the methods. *)
Definition ServeHTTP (order : list string) (mux : ServeMux S A) (r : Request) : M S (HttpReply A) :=
  match Path r with
  | String c path =>
      if decide (c = slash) then
        match override_method r with
        | inl e => mret (HTTPError (InvalidArgument e))
        | inr r =>
            let comps := split_on slash path in
            x ← serve_same (default [] (mux !! Method r)) comps r;
            match x with
            | Some y => mret y
            | None =>
                x ← serve_others order mux comps r;
                mret (default (routing_error 404) x)
            end
        end
      else mret (routing_error 400)
  | EmptyString => mret (routing_error 400)
  end.
End Mux.

(** ** Request functions *)

(** Source: vendor/github.com/grpc-ecosystem/grpc-gateway/v2/runtime/pattern.go, [MustPattern]: the initialization of a
    package would end the process without a pattern. *)
Definition MustPattern (p : option Pattern) {H : TCEq (bool_decide (is_Some p)) true} : Pattern :=
  is_Some_proj (proj1 (bool_decide_eq_true _) (proj1 (TCEq_eq _ _) H)).

(** A value of the path, converted; the two errors it may have. *)
Definition param {A : Type} (ps : Params) (name : string) (conv : string -> option A) : outcome (GwError + A) :=
  Done match ps !! name with
  | None => inl (InvalidArgument ("missing parameter " +:+ name))
  | Some v =>
      match conv v with
      | None => inl (InvalidArgument ("type mismatch, parameter: " +:+ name))
      | Some a => inr a
      end
  end.

(** [ParseForm] and [PopulateQueryParameters]. *)
Definition query `{HttpLib} {T : Type} (fs : list (Field T)) (filter : DoubleArray) (r : Request) (m : T)
    : outcome (GwError + T) :=
  match ParseForm r with
  | (Some e, _) => Done (inl (InvalidArgument e))
  | (None, r') =>
      x ← PopulateQueryParameters fs m (default [] (Form r')) filter;
      Done (match x with inl e => inl (InvalidArgument e) | inr m' => inr m' end)
  end.

(** Going on unless there is an error. *)
Definition checked {S A B : Type} (o : outcome (GwError + A)) (k : A -> M S (GwError + B)) : M S (GwError + B) :=
  x ← of_outcome o; match x with inl e => mret (inl e) | inr a => k a end.
Notation "x ←? o ; k" := (checked o (fun x => k)) (at level 20, o at level 100, k at level 200).

Lemma checked_param {S A B : Type} (o : outcome (GwError + A)) (k : A -> M S (GwError + B)) s :
  checked o k s =
    match o with
    | Done (inl e) => Done (inl e, s)
    | Done (inr a) => k a s
    | Panicked w => Panicked w | Blocked w => Blocked w | Exited w => Exited w
    end.
Proof. unfold checked. mred. unfold of_outcome. by destruct o as [[e|a]| | |]. Qed.

(** A handler: annotate the context, run the request function, answer. *)
Definition handled {S A : Type} (f : Request -> Params -> M S (GwError + A)) (r : Request) (ps : Params)
    : M S (HttpReply A) :=
  match Annotation r with
  | Some e => mret (HTTPError (InvalidArgument e))
  | None => x ← f r ps; mret (match x with inl e => HTTPError e | inr a => Forwarded a end)
  end.

(** * Templates *)

(** What a pattern stands for: the components of a path are literals or values of
    variables. *)
Inductive seg := Lit (s : string) | Var (v : string).
#[export] Instance seg_eq : EqDecision seg. Proof. solve_decision. Defined.

Definition seg_vars (t : list seg) : list string := omap (fun x => match x with Var v => Some v | Lit _ => None end) t.
Definition seg_lits (t : list seg) : list string := omap (fun x => match x with Var _ => None | Lit s => Some s end) t.

(** The values of the variables of a template that matches the first components. *)
Fixpoint match_prefix (t : list seg) (comps : list string) : option (list string) :=
  match t, comps with
  | [], _ => Some []
  | Lit s :: t', c :: cs => if decide (c = s) then match_prefix t' cs else None
  | Var _ :: t', c :: cs => cons c <$> match_prefix t' cs
  | _ :: _, [] => None
  end.
Definition match_template (t : list seg) (comps : list string) : option Params :=
  if decide (length t = length comps) then bind_all (seg_vars t) <$> match_prefix t comps else None.

(** Reading the template of a program: [k] variables were captured before. *)
Fixpoint decompile (p : Pattern) (k : nat) (ops : list (Z * Z)) : option (list seg) :=
  match ops with
  | [] => Some []
  | (code, operand) :: rest =>
      if decide (code = OpLitPush) then s ← p_pool p !! Z.to_nat operand; cons (Lit s) <$> decompile p k rest
      else if decide (code = OpPush) then
        match rest with
        | (code1, n) :: (code2, i) :: rest' =>
            if decide (code1 = OpConcatN /\ n = 1 /\ code2 = OpCapture /\ i = Z.of_nat k)
            then v ← p_vars p !! k; cons (Var v) <$> decompile p (S k) rest'
            else None
        | _ => None
        end
      else None
  end.
Definition template_of (p : Pattern) : option (list seg) :=
  t ← decompile p 0 (p_ops p); if decide (p_verb p = "" /\ p_vars p = seg_vars t) then Some t else None.

Lemma match_prefix_length t comps l :
  match_prefix t comps = Some l -> length l = length (seg_vars t) /\ (length t <= length comps)%nat.
Proof.
  revert comps l. induction t as [|[s|v] t IH]; intros [|c cs] l; cbn [match_prefix]; intros Hm; simplify_eq; cbn; try lia.
  - case_decide; [|done]. destruct (IH _ _ Hm). unfold seg_vars in *. cbn in *. lia.
  - apply fmap_Some in Hm as (l' & Hm & ->). destruct (IH _ _ Hm). unfold seg_vars in *. cbn in *. lia.
Qed.

(** The two kinds of programs templates come from. *)
Lemma decompile_inv p k ops t :
  decompile p k ops = Some t ->
  match t with
  | [] => ops = []
  | Lit s :: t' => exists o rest, ops = (OpLitPush, o) :: rest /\ p_pool p !! Z.to_nat o = Some s /\ decompile p k rest = Some t'
  | Var _ :: t' => exists o rest, ops = (OpPush, o) :: (OpConcatN, 1) :: (OpCapture, Z.of_nat k) :: rest /\
      decompile p (S k) rest = Some t'
  end.
Proof.
  destruct ops as [|[code o] rest]; cbn [decompile]; [by intros [= <-]|]. case_decide as H2; [subst code|].
  - destruct (p_pool p !! Z.to_nat o) as [s|] eqn:Hp; [|done]. cbn. intros (t' & Hd & ->)%fmap_Some. by exists o, rest.
  - case_decide as H1; [subst code|done]. destruct rest as [|[c1 n] [|[c2 i] rest]]; [done..|].
    case_decide as Hc; [destruct Hc as (-> & -> & -> & ->)|done]. destruct (p_vars p !! k); [|done]. cbn.
    intros (t' & Hd & ->)%fmap_Some. by exists o, rest.
Qed.

Lemma drop_cons_lookup {A : Type} (l : list A) n :
  drop n l = match l !! n with Some x => x :: drop (S n) l | None => [] end.
Proof.
  destruct (l !! n) as [x|] eqn:E; [by apply drop_S|]. apply drop_ge. by apply lookup_ge_None.
Qed.

Lemma op_literal p comps o m :
  match_op p comps OpLitPush o m =
    match comps !! m_pos m with
    | None => Done None
    | Some c =>
        match p_pool p !! Z.to_nat o with
        | None => Panicked "index out of range"
        | Some lit =>
            if decide (c = lit)
            then Done (Some {| m_pos := S (m_pos m); m_stack := (m_stack m ++ [c])%list; m_captured := m_captured m |})
            else Done None
        end
    end.
Proof. reflexivity. Qed.
Lemma op_push p comps o m :
  match_op p comps OpPush o m =
    match comps !! m_pos m with
    | None => Done None
    | Some c => Done (Some {| m_pos := S (m_pos m); m_stack := (m_stack m ++ [c])%list; m_captured := m_captured m |})
    end.
Proof. reflexivity. Qed.
Lemma op_concat_one p comps pos stack c captured :
  match_op p comps OpConcatN 1 {| m_pos := pos; m_stack := (stack ++ [c])%list; m_captured := captured |} =
    Done (Some {| m_pos := pos; m_stack := (stack ++ [c])%list; m_captured := captured |}).
Proof.
  change (match_op p comps OpConcatN 1 ?m) with
    (if decide (Z.of_nat (length (m_stack m)) < 1) then Panicked "slice bounds out of range"
     else Done (Some {| m_pos := m_pos m; m_stack := (take (length (m_stack m) - 1) (m_stack m) ++
       [String.concat "/" (drop (length (m_stack m) - 1) (m_stack m))])%list; m_captured := m_captured m |})).
  cbn [m_pos m_stack m_captured]. rewrite length_app. cbn [length]. rewrite decide_False by lia.
  replace (length stack + 1 - 1)%nat with (length stack) by lia. by rewrite take_app_length, drop_app_length.
Qed.
Lemma op_capture p comps pos stack c done n :
  match_op p comps OpCapture (Z.of_nat (length done))
    {| m_pos := pos; m_stack := (stack ++ [c])%list; m_captured := (done ++ replicate (S n) "")%list |} =
  Done (Some {| m_pos := pos; m_stack := stack; m_captured := ((done ++ [c]) ++ replicate n "")%list |}).
Proof.
  change (match_op p comps OpCapture ?o ?m) with
    (match last (m_stack m) with
     | None => Panicked "index out of range"
     | Some c =>
         if decide (Z.to_nat o < length (m_captured m))%nat
         then Done (Some {| m_pos := m_pos m; m_stack := take (length (m_stack m) - 1) (m_stack m);
                            m_captured := <[Z.to_nat o := c]> (m_captured m) |})
         else Panicked "index out of range"
     end).
  cbn [m_pos m_stack m_captured]. rewrite last_snoc, Nat2Z.id, length_app, length_replicate, decide_True by lia.
  rewrite length_app. cbn [length]. replace (length stack + 1 - 1)%nat with (length stack) by lia.
  rewrite take_app_length. rewrite insert_app_r_alt by lia. rewrite Nat.sub_diag. cbn. by rewrite <- app_assoc.
Qed.

Lemma run_literal p comps o s m rest :
  p_pool p !! Z.to_nat o = Some s ->
  match_ops p comps ((OpLitPush, o) :: rest) m =
    match comps !! m_pos m with
    | Some c => if decide (c = s)
        then match_ops p comps rest {| m_pos := S (m_pos m); m_stack := (m_stack m ++ [c])%list; m_captured := m_captured m |}
        else Done None
    | None => Done None
    end.
Proof.
  intros Hp. cbn [match_ops]. rewrite op_literal, Hp. destruct (comps !! m_pos m); [|done]. by case_decide.
Qed.

Lemma run_variable p comps o pos stack done n rest :
  match_ops p comps ((OpPush, o) :: (OpConcatN, 1) :: (OpCapture, Z.of_nat (length done)) :: rest)
    {| m_pos := pos; m_stack := stack; m_captured := (done ++ replicate (S n) "")%list |} =
  match comps !! pos with
  | Some c => match_ops p comps rest {| m_pos := S pos; m_stack := stack; m_captured := ((done ++ [c]) ++ replicate n "")%list |}
  | None => Done None
  end.
Proof.
  cbn [match_ops]. rewrite op_push. cbn [m_pos m_stack m_captured]. destruct (comps !! pos) as [c|]; [|done].
  cbn [mbind outcome_bind]. rewrite op_concat_one. cbn [mbind outcome_bind]. by rewrite op_capture.
Qed.

(** Running the program of a template. *)
Lemma match_ops_template p comps ops t pos stack done :
  decompile p (length done) ops = Some t ->
  match_ops p comps ops {| m_pos := pos; m_stack := stack; m_captured := (done ++ replicate (length (seg_vars t)) "")%list |} =
    Done ((fun l => {| m_pos := pos + length t; m_stack := (stack ++ seg_lits t)%list; m_captured := (done ++ l)%list |}) <$>
      match_prefix t (drop pos comps)).
Proof.
  revert ops done pos stack. induction t as [|[s|v] t IH]; intros ops done pos stack Hd%decompile_inv.
  - subst ops. cbn. by rewrite Nat.add_0_r, !app_nil_r.
  - destruct Hd as (o & rest & -> & Hp & Hd). rewrite (run_literal _ _ _ s) by done. rewrite drop_cons_lookup.
    cbn [m_pos m_stack m_captured]. destruct (comps !! pos) as [c|]; [|done]. cbn [match_prefix].
    case_decide; [subst c|done]. change (seg_vars (Lit s :: t)) with (seg_vars t). rewrite IH by done.
    destruct (match_prefix t _); [|done]. cbn. by rewrite <- app_assoc, Nat.add_succ_r.
  - destruct Hd as (o & rest & -> & Hd). change (length (seg_vars (Var v :: t))) with (S (length (seg_vars t))).
    rewrite run_variable, drop_cons_lookup. destruct (comps !! pos) as [c|]; [|done]. cbn [match_prefix].
    rewrite IH by (by rewrite length_app, Nat.add_1_r). destruct (match_prefix t _); [|done]. cbn.
    by rewrite <- app_assoc, Nat.add_succ_r.
Qed.

(** A pattern matches what its template matches, and nothing panics. *)
Lemma MatchAndEscape_template p t comps :
  template_of p = Some t -> MatchAndEscape p comps "" = Done (match_template t comps).
Proof.
  unfold template_of. destruct (decompile p 0 (p_ops p)) as [t'|] eqn:Hd; [|done]. cbn. case_decide as Hv; [|done].
  destruct Hv as [Hverb Hvars]. intros [= ->]. unfold MatchAndEscape. rewrite Hverb.
  rewrite decide_False by tauto. cbv zeta. rewrite decide_False by tauto.
  rewrite Hvars. pose proof (match_ops_template p comps (p_ops p) t 0 [] [] Hd) as Hr. cbn [app length] in Hr. rewrite Hr.
  unfold match_template. change (drop 0 comps) with comps. destruct (match_prefix t comps) as [l|] eqn:Em; cbn;
    [|by case_decide]. destruct (match_prefix_length _ _ _ Em) as [_ Hl].
  case_decide; [by rewrite decide_False by lia|by rewrite decide_True by lia].
Qed.

(** ** Templates that exclude each other *)

(** No path matches two templates of which this is false. *)
Fixpoint overlap (t u : list seg) : bool :=
  match t, u with
  | [], [] => true
  | Lit a :: t', Lit b :: u' => bool_decide (a = b) && overlap t' u'
  | _ :: t', _ :: u' => overlap t' u'
  | _, _ => false
  end.

(** Two templates that match the same paths. *)
Fixpoint same_shape (t u : list seg) : bool :=
  match t, u with
  | [], [] => true
  | Lit a :: t', Lit b :: u' => bool_decide (a = b) && same_shape t' u'
  | Var _ :: t', Var _ :: u' => same_shape t' u'
  | _, _ => false
  end.

Lemma match_prefix_overlap t u comps :
  length t = length comps -> length u = length comps ->
  is_Some (match_prefix t comps) -> is_Some (match_prefix u comps) -> overlap t u = true.
Proof.
  revert u comps. induction t as [|x t IH]; intros [|y u] [|c cs] Ht Hu [l Hl] [l' Hl']; try done.
  cbn in Ht, Hu. assert (is_Some (match_prefix t cs) /\ is_Some (match_prefix u cs)) as [H1 H2].
  { destruct x, y; cbn [match_prefix] in Hl, Hl'; repeat case_decide; try done; simplify_option_eq; by split. }
  specialize (IH u cs ltac:(lia) ltac:(lia) H1 H2). destruct x as [a|], y as [b|]; cbn [overlap]; try done.
  cbn [match_prefix] in Hl, Hl'. repeat case_decide; try done. subst. by rewrite bool_decide_true.
Qed.
Lemma match_overlap t u comps : is_Some (match_template t comps) -> is_Some (match_template u comps) -> overlap t u = true.
Proof.
  unfold match_template. repeat case_decide; intros [? Ht] [? Hu]; try done.
  apply fmap_Some in Ht as (? & ? & _). apply fmap_Some in Hu as (? & ? & _). by eapply (match_prefix_overlap t u comps).
Qed.
Lemma match_prefix_shape t u comps :
  same_shape t u = true -> is_Some (match_prefix t comps) -> is_Some (match_prefix u comps) /\ length t = length u.
Proof.
  revert u comps. induction t as [|x t IH]; intros [|y u] [|c cs] Hs Ht; try done;
    try (by destruct x; destruct Ht; done); try (by destruct x).
  destruct x as [a|v], y as [b|w]; cbn [same_shape] in Hs; try done; cbn [match_prefix] in *.
  - apply andb_true_iff in Hs as [->%bool_decide_eq_true Hs]. case_decide; [|by destruct Ht].
    destruct (IH _ _ Hs Ht) as [? Hl]. split; [done|]. cbn. lia.
  - destruct (IH u cs Hs) as [[l ->] Hl]; [by destruct Ht as [? (? & -> & _)%fmap_Some]|]. split; [done|]. cbn. lia.
Qed.
Lemma match_shape t u comps : same_shape t u = true -> is_Some (match_template t comps) -> is_Some (match_template u comps).
Proof.
  unfold match_template. intros Hs [x Ht]. case_decide as Hl; [|done]. apply fmap_Some in Ht as (l & Ht & _).
  destruct (match_prefix_shape t u comps Hs) as [[l' ->] Hlen]; [done|]. rewrite decide_True by lia. done.
Qed.

(** ** Routing *)

Section Routing.
  Context {S A : Type} `{HttpLib}.

(** A method and a template with what a request for them runs: a line of the
    description of an API. *)
Record Route := { rt_method : string; rt_template : list seg; rt_func : Request -> Params -> M S (HttpReply A) }.

(** The routes of a method that match a path. *)
Definition hit (m : string) (comps : list string) (rt : Route) : option (Route * Params) :=
  if decide (rt_method rt = m) then pair rt <$> match_template (rt_template rt) comps else None.
Definition hits (table : list Route) (m : string) (comps : list string) : list (Route * Params) := omap (hit m comps) table.

(** What serving a request should be: the route of its method; else, when a form is
    posted, a route that gets; else an error that says whether another method has
    one. *)
Definition route_request (table : list Route) (comps : list string) (r : Request) : M S (HttpReply A) :=
  let refused := mret (routing_error (if existsb (fun rt => bool_decide (is_Some (match_template (rt_template rt) comps))) table
    then 405 else 404)) in
  match hits table (Method r) comps with
  | (rt, ps) :: _ => rt_func rt r ps
  | [] =>
      if isPathLengthFallback r then
        match hits table "GET" comps with
        | (rt, ps) :: _ =>
            match ParseForm r with
            | (Some e, _) => mret (HTTPError (InvalidArgument e))
            | (None, r') => rt_func rt r' ps
            end
        | [] => refused
        end
      else refused
  end.

(** No path has two routes of a method. *)
Fixpoint unambiguous (table : list Route) : bool :=
  match table with
  | [] => true
  | rt :: rest =>
      forallb (fun x => negb (bool_decide (rt_method x = rt_method rt) && overlap (rt_template rt) (rt_template x))) rest &&
      unambiguous rest
  end.

(** A path that can be got, and that a method besides [GET] and [POST] has, can be
    posted. *)
Definition settled (table : list Route) : bool :=
  forallb (fun rt => bool_decide (rt_method rt ∈ ["GET"; "POST"]) ||
    forallb (fun rg => negb (bool_decide (rt_method rg = "GET") && overlap (rt_template rt) (rt_template rg)) ||
      existsb (fun rp => bool_decide (rt_method rp = "POST") && same_shape (rt_template rt) (rt_template rp)) table) table) table.

Lemma hit_Some m comps rt x :
  hit m comps rt = Some x -> x.1 = rt /\ rt_method rt = m /\ match_template (rt_template rt) comps = Some x.2.
Proof. unfold hit. case_decide; [|done]. by intros (ps & Hm & ->)%fmap_Some. Qed.

Lemma hits_elem table m comps x :
  x ∈ hits table m comps -> x.1 ∈ table /\ rt_method x.1 = m /\ match_template (rt_template x.1) comps = Some x.2.
Proof. intros (rt & Hin & (<- & Hm & Ht)%hit_Some)%list_elem_of_omap. by subst. Qed.
Lemma hits_intro table rt comps :
  rt ∈ table -> is_Some (match_template (rt_template rt) comps) -> hits table (rt_method rt) comps <> [].
Proof.
  intros Hin [ps Hps] Hnil. assert ((rt, ps) ∈ hits table (rt_method rt) comps) as Hx; [|rewrite Hnil in Hx; set_solver].
  apply list_elem_of_omap. exists rt. split; [done|]. unfold hit. by rewrite decide_True, Hps.
Qed.

Lemma hits_length table m comps : unambiguous table = true -> (length (hits table m comps) <= 1)%nat.
Proof.
  induction table as [|rt table IH]; [cbn; lia|]. cbn [unambiguous]. rewrite andb_true_iff, forallb_forall.
  intros [Hrt Hrest]. specialize (IH Hrest). unfold hits. cbn [omap list_omap]. destruct (hit m comps rt) as [x|] eqn:E; [|exact IH].
  apply hit_Some in E as (_ & Hm & Ht). fold (hits table m comps). destruct (hits table m comps) as [|y l] eqn:El; [cbn; lia|].
  exfalso. destruct (hits_elem table m comps y) as (Hin & Hy & Hps); [rewrite El; set_solver|].
  specialize (Hrt y.1 ltac:(by apply list_elem_of_In)). apply negb_true_iff in Hrt.
  rewrite bool_decide_true in Hrt by congruence. by rewrite (match_overlap _ _ comps) in Hrt.
Qed.
Lemma hits_rev table m comps : unambiguous table = true -> omap (hit m comps) (rev table) = hits table m comps.
Proof.
  intros Hu%(hits_length table m comps). unfold hits in *.
  assert (omap (hit m comps) (rev table) = rev (omap (hit m comps) table)) as ->.
  { clear Hu. induction table as [|rt table IH]; [done|]. cbn [rev]. rewrite omap_app, IH. cbn [omap list_omap].
    destruct (hit m comps rt); cbn; [done|by rewrite app_nil_r]. }
  by destruct (omap _ table) as [|x [|y l]]; [..|cbn in Hu; lia].
Qed.

Lemma routing_error_form n : exists st msg, @routing_error A n = HttpError st msg.
Proof. unfold routing_error. repeat case_decide; by eexists _, _. Qed.

(** A request that was routed was refused, or a route was run. *)
Lemma route_request_cases table comps r s reply s' :
  route_request table comps r s = Done (reply, s') ->
  (exists st msg, reply = HttpError st msg /\ s' = s) \/
  (exists x r', rt_func x.1 r' x.2 s = Done (reply, s') /\
     (x ∈ hits table (Method r) comps \/ isPathLengthFallback r = true /\ x ∈ hits table "GET" comps)).
Proof.
  unfold route_request. destruct (hits table (Method r) comps) as [|[rt ps] l].
  - destruct (routing_error_form (if existsb (fun rt => bool_decide (is_Some (match_template (rt_template rt) comps))) table
      then 405 else 404)) as (st & msg & ->).
    destruct (isPathLengthFallback r); [|intros [= <- <-]; left; by exists st, msg].
    destruct (hits table "GET" comps) as [|[rt ps] l]; [intros [= <- <-]; left; by exists st, msg|].
    destruct (ParseForm r) as [[e|] r']; [intros [= <- <-]; left; by eexists _, _|]. intros Hr. right.
    exists (rt, ps), r'. split; [done|]. right. split; [done|]. set_solver.
  - intros Hr. right. exists (rt, ps), r. split; [done|]. left. set_solver.
Qed.

(** *** A multiplexer that was filled from a table *)

Definition implements (x : string * Pattern * (Request -> Params -> M S (HttpReply A))) (rt : Route) : Prop :=
  x.1.1 = rt_method rt /\ template_of x.1.2 = Some (rt_template rt) /\ x.2 = rt_func rt.
Definition register (regs : list (string * Pattern * (Request -> Params -> M S (HttpReply A)))) : ServeMux S A :=
  fold_left (fun mux x => Handle x.1.1 x.1.2 x.2 mux) regs NewServeMux.
Definition handler_of (m : string) (x : string * Pattern * (Request -> Params -> M S (HttpReply A))) : option (handler S A) :=
  if decide (x.1.1 = m) then Some {| pat := x.1.2; h_func := x.2 |} else None.

Lemma register_lookup regs m : default [] (register regs !! m) = rev (omap (handler_of m) regs).
Proof.
  unfold register. induction regs as [|x regs IH] using rev_ind; [done|]. rewrite fold_left_app, omap_app, rev_app_distr.
  cbn [fold_left omap list_omap]. set (mux := fold_left _ regs _) in *. unfold Handle, handler_of at 1. case_decide as Hm.
  - subst m. rewrite lookup_insert_eq. cbn. by rewrite IH.
  - by rewrite lookup_insert_ne, IH.
Qed.

Lemma match_handler_template h t comps :
  template_of (pat h) = Some t -> match_handler (S := S) (A := A) h comps = Done (match_template t comps) /\
    verb_index (pat h) (default "" (last comps)) = -1.
Proof.
  intros Ht. assert (p_verb (pat h) = "") as Hv.
  { unfold template_of in Ht. destruct (decompile _ _ _); [|done]. cbn in Ht. by case_decide as Hd; [destruct Hd|]. }
  assert (forall l, verb_index (pat h) l = -1) as Hi by (intros l; unfold verb_index; rewrite decide_False; [done|tauto]).
  split; [|done]. unfold match_handler. rewrite Hi. cbv zeta. rewrite decide_False by lia. by apply MatchAndEscape_template.
Qed.

Section Filled.
  Context (regs : list (string * Pattern * (Request -> Params -> M S (HttpReply A)))) (table : list Route)
    (Himpl : Forall2 implements regs table).

Definition as_handler (m : string) (h : handler S A) (rt : Route) : Prop :=
  rt_method rt = m /\ template_of (pat h) = Some (rt_template rt) /\ h_func h = rt_func rt.
Definition of_method (m : string) : list Route -> list Route := List.filter (fun rt => bool_decide (rt_method rt = m)).

Lemma handlers_routes m : Forall2 (as_handler m) (omap (handler_of m) regs) (of_method m table).
Proof using Himpl.
  clear -Himpl. induction Himpl as [|x rt l l' (Hm & Ht & Hf) Hl IH]; [constructor|]. specialize (IH Hl). unfold of_method.
  cbn [omap list_omap List.filter]. unfold handler_of at 1. rewrite Hm. case_decide.
  - rewrite bool_decide_true by done. constructor; [by split_and!|exact IH].
  - rewrite bool_decide_false by done. exact IH.
Qed.
Lemma hits_of_method m comps l : omap (hit m comps) (of_method m l) = omap (hit m comps) l.
Proof.
  induction l as [|rt l IH]; [done|]. unfold of_method. cbn [List.filter omap list_omap]. unfold hit at 2.
  case_bool_decide as Hm; [|by rewrite decide_False]. cbn [omap list_omap]. unfold hit at 1. rewrite decide_True by done.
  by destruct (pair rt <$> _); [f_equal|].
Qed.
Lemma of_method_rev m l : rev (of_method m l) = of_method m (rev l).
Proof.
  induction l as [|rt l IH]; [done|]. unfold of_method in *. cbn [List.filter rev]. rewrite List.filter_app, <- IH.
  cbn [List.filter]. by case_bool_decide; [|rewrite app_nil_r].
Qed.
Lemma mux_routes m comps :
  unambiguous table = true ->
  exists rts, Forall2 (as_handler m) (default [] (register regs !! m)) rts /\ omap (hit m comps) rts = hits table m comps.
Proof using Himpl.
  intros Hu. exists (rev (of_method m table)). rewrite register_lookup. split.
  - rewrite !rev_alt. apply Forall2_reverse, handlers_routes.
  - by rewrite of_method_rev, hits_of_method, hits_rev.
Qed.

Lemma serve_same_routes m hs rts comps r s :
  Forall2 (as_handler m) hs rts ->
  serve_same hs comps r s =
    match omap (hit m comps) rts with
    | [] => Done (None, s)
    | (rt, ps) :: _ => (x ← rt_func rt r ps; mret (Some x)) s
    end.
Proof.
  induction 1 as [|h rt hs rts (Hm & Ht & Hf) _ IH]; [done|]. cbn [serve_same omap list_omap].
  destruct (match_handler_template h _ comps Ht) as [He Hv]. rewrite Hv, decide_False by done. unfold hit at 1.
  rewrite decide_True by done. mred. unfold of_outcome. rewrite He. destruct (match_template _ comps); [by rewrite Hf|exact IH].
Qed.
Lemma serve_other_routes m hs rts comps r s :
  Forall2 (as_handler m) hs rts ->
  serve_other m hs comps r s =
    match omap (hit m comps) rts with
    | [] => Done (None, s)
    | (rt, ps) :: _ =>
        (if isPathLengthFallback r && bool_decide (m = "GET") then
           match ParseForm r with
           | (Some e, _) => mret (Some (HTTPError (InvalidArgument e)))
           | (None, r') => y ← rt_func rt r' ps; mret (Some y)
           end
         else mret (Some (routing_error 405))) s
    end.
Proof.
  induction 1 as [|h rt hs rts (Hm & Ht & Hf) _ IH]; [done|]. cbn [serve_other omap list_omap].
  destruct (match_handler_template h _ comps Ht) as [He Hv]. unfold hit at 1. rewrite decide_True by done.
  mred. unfold of_outcome. rewrite He. destruct (match_template _ comps); [|exact IH]. cbn. by rewrite Hf.
Qed.

(** A path that is refused by its method is handled for the first method that has
    a route for it. *)
Lemma serve_others_routes order comps r s :
  unambiguous table = true ->
  serve_others order (register regs) comps r s =
    match list_find (fun m => m <> Method r /\ hits table m comps <> []) order with
    | None => Done (None, s)
    | Some (_, m) => serve_other m (default [] (register regs !! m)) comps r s
    end.
Proof using Himpl.
  intros Hu. induction order as [|m order IH]; [done|]. cbn [serve_others list_find].
  destruct (mux_routes m comps Hu) as (rts & Hf & Hh). destruct (decide (m = Method r)) as [Hm|Hm].
  - rewrite (decide_False (P := m <> Method r /\ _)) by tauto. rewrite IH. by destruct (list_find _ order) as [[]|].
  - mred. rewrite (serve_other_routes m _ rts) by done. rewrite Hh. destruct (hits table m comps) as [|[rt ps] l] eqn:Eh.
    + rewrite (decide_False (P := m <> Method r /\ _)) by tauto. rewrite IH. by destruct (list_find _ order) as [[]|].
    + rewrite decide_True by done. rewrite (serve_other_routes m _ rts) by done. rewrite Hh.
      destruct (isPathLengthFallback r && _); [|done]. destruct (ParseForm r) as [[e|] r']; [done|]. mred. by destruct (rt_func rt r' ps s) as [[]| | |].
Qed.

Lemma hits_matched m comps : hits table m comps <> [] -> exists rt, rt ∈ table /\ rt_method rt = m /\
  is_Some (match_template (rt_template rt) comps).
Proof.
  intros Hh. destruct (hits table m comps) as [|x l] eqn:E; [done|].
  destruct (hits_elem table m comps x) as (Hin & Hm & Hps); [rewrite E; set_solver|]. by exists x.1.
Qed.
Lemma settled_get m comps :
  settled table = true -> hits table "POST" comps = [] -> m <> "POST" -> hits table m comps <> [] ->
  hits table "GET" comps <> [] -> m = "GET".
Proof.
  intros Hs Hp Hm (rt & Hin & <- & Ht)%hits_matched (rg & Hg & Hget & Htg)%hits_matched.
  unfold settled in Hs. rewrite forallb_forall in Hs. specialize (Hs rt ltac:(by apply list_elem_of_In)).
  apply orb_true_iff in Hs as [Hs%bool_decide_eq_true|Hs]; [set_solver|]. rewrite forallb_forall in Hs.
  specialize (Hs rg ltac:(by apply list_elem_of_In)). rewrite bool_decide_true, (match_overlap _ _ comps) in Hs by done.
  cbn in Hs. apply existsb_exists in Hs as (rp & Hrp%list_elem_of_In & [Hpost%bool_decide_eq_true Hshape]%andb_true_iff).
  exfalso. apply (hits_intro table rp comps Hrp); [by eapply match_shape|]. by rewrite Hpost.
Qed.
Lemma matched_iff comps :
  existsb (fun rt => bool_decide (is_Some (match_template (rt_template rt) comps))) table = true <->
  exists m, hits table m comps <> [].
Proof.
  rewrite existsb_exists. split.
  - intros (rt & Hin%list_elem_of_In & Ht%bool_decide_eq_true). exists (rt_method rt). by apply hits_intro.
  - intros (m & (rt & Hin & _ & Ht)%hits_matched). exists rt. split; [by apply list_elem_of_In|by apply bool_decide_eq_true].
Qed.

(** Serving a request is routing it by the table, whatever the order in which the
    methods are visited. *)
Lemma serve_routes order comps r s :
  unambiguous table = true -> settled table = true -> (forall rt, rt ∈ table -> rt_method rt ∈ order) ->
  (x ← serve_same (default [] (register regs !! Method r)) comps r;
   match x with
   | Some y => mret y
   | None => x ← serve_others order (register regs) comps r; mret (default (routing_error 404) x)
   end) s = route_request table comps r s.
Proof using Himpl.
  intros Hu Hset Hord. destruct (mux_routes (Method r) comps Hu) as (rts & Hf & Hh). mred.
  rewrite (serve_same_routes (Method r) _ rts) by done. rewrite Hh. unfold route_request.
  destruct (hits table (Method r) comps) as [|[rt ps] l] eqn:Em; [|mred; by destruct (rt_func rt r ps s) as [[]| | |]].
  rewrite serve_others_routes by done. destruct (list_find _ order) as [[i m]|] eqn:El.
  - apply list_find_Some in El as (_ & [Hm Hhm] & _). destruct (mux_routes m comps Hu) as (rts' & Hf' & Hh').
    rewrite (serve_other_routes m _ rts') by done. rewrite Hh'. assert (exists m, hits table m comps <> []) as Hany by eauto.
    apply matched_iff in Hany. rewrite Hany. destruct (hits table m comps) as [|[rt ps] l] eqn:E; [done|].
    destruct (isPathLengthFallback r) eqn:Hfb; [|by mred]. apply bool_decide_eq_true in Hfb as [Hpost _]. rewrite Hpost in *.
    case_bool_decide as Hget; cbn [andb].
    + subst m. rewrite E. destruct (ParseForm r) as [[e|] r']; mred; [done|]. by destruct (rt_func rt r' ps s) as [[]| | |].
    + destruct (hits table "GET" comps) as [|x l'] eqn:Eg; [by mred|].
      exfalso. apply Hget. eapply settled_get; [done|exact Em|done|by rewrite E|by rewrite Eg].
  - apply list_find_None in El. assert (forall m, hits table m comps = []) as Hnone.
    { intros m. destruct (hits table m comps) as [|x l] eqn:E; [done|]. exfalso.
      destruct (hits_matched m comps) as (rt & Hin & Hm & _); [by rewrite E|]. rewrite Forall_forall in El.
      apply (El m); [rewrite <- Hm; by apply Hord|]. rewrite E. split; [|done]. intros ->. by rewrite Em in E. }
    rewrite (Hnone "GET"). replace (existsb _ table) with false; [by destruct (isPathLengthFallback r)|].
    symmetry. apply not_true_iff_false. rewrite matched_iff. by intros [m []].
Qed.
End Filled.
End Routing.
Arguments Route S A : clear implicits.

(** * Fields the query may not touch *)

(** The node a path leads to, and whether a sequence ends there that no longer one
    continues. *)
Fixpoint walk (da : DoubleArray) (i : nat) (path : list string) : option nat :=
  match path with
  | [] => Some i
  | t :: rest =>
      code ← Encoding da !! t; b ← Base da !! i;
      if decide (Check_ da !! (b + code)%nat = Some (S i)) then walk da (b + code) rest else None
  end.
Definition leaf (da : DoubleArray) (path : list string) : bool :=
  match walk da 0 path with
  | Some i =>
      match Base da !! i with
      | Some b =>
          bool_decide (Check_ da !! (b + size (Encoding da))%nat = Some (S i)) &&
          forallb (fun x => negb (bool_decide (Check_ da !! (b + x.2)%nat = Some (S i)))) (map_to_list (Encoding da))
      | None => false
      end
  | None => false
  end.

Lemma follow_walk da path rest i j : walk da i path = Some j -> follow da i (path ++ rest) = follow da j rest.
Proof.
  revert i. induction path as [|t path IH]; intros i; cbn; [by intros [= ->]|].
  destruct (Encoding da !! t) as [code|]; [|done]. cbn. destruct (Base da !! i) as [b|]; [|done]. cbn.
  case_decide; [apply IH|done].
Qed.

(** Everything below a leaf is kept out. *)
Lemma leaf_prefix da path rest : leaf da path = true -> HasCommonPrefix da (path ++ rest) = Done true.
Proof.
  unfold leaf. destruct (walk da 0 path) as [i|] eqn:Ew; [|done]. destruct (Base da !! i) as [b|] eqn:Eb; [|done].
  intros [Hend Hstuck]%andb_true_iff. rewrite forallb_forall in Hstuck. unfold HasCommonPrefix.
  rewrite decide_False by (by intros Hb; rewrite Hb in Eb). rewrite (follow_walk _ _ _ _ _ Ew).
  assert (follow da i rest = Done i) as ->; [|cbn; by rewrite Eb, Hend].
  destruct rest as [|t rest]; [done|]. cbn [follow]. destruct (Encoding da !! t) as [code|] eqn:Ec; [|done]. rewrite Eb.
  apply elem_of_map_to_list in Ec. specialize (Hstuck (t, code) ltac:(by apply list_elem_of_In)).
  apply negb_true_iff, bool_decide_eq_false in Hstuck. by rewrite decide_False.
Qed.

(** The arrays are as long as each other: nothing is read beyond them. *)
Lemma prefix_total da path : length (Base da) = length (Check_ da) -> exists x, HasCommonPrefix da path = Done x.
Proof.
  intros Hl. unfold HasCommonPrefix. case_decide as Hb; [by eexists|].
  assert (forall seq i, (i < length (Base da))%nat -> exists j, follow da i seq = Done j /\ (j < length (Base da))%nat) as Hf.
  { induction seq as [|t seq IH]; intros i Hi; cbn [follow]; [by exists i|]. destruct (Encoding da !! t); [|by exists i].
    destruct (lookup_lt_is_Some_2 (Base da) i Hi) as [b ->]. case_decide as Hc; [|by exists i]. apply IH.
    apply lookup_lt_Some in Hc. lia. }
  destruct (Hf path 0%nat) as (j & -> & Hj); [destruct (Base da); [done|cbn; lia]|]. cbn.
  destruct (lookup_lt_is_Some_2 (Base da) j Hj) as [b ->]. by eexists.
Qed.

Section Query.
  Context {T B : Type} (fs : list (Field T)) (filter : DoubleArray).

Lemma query_total m values :
  length (Base filter) = length (Check_ filter) -> exists x, PopulateQueryParameters fs m values filter = Done x.
Proof.
  intros Hl. revert m. induction values as [|[key vs] values IH]; intros m; cbn [PopulateQueryParameters]; [by eexists|].
  destruct (match valuesKeyRegexp key with Some (k, i) => (k, i :: vs) | None => (key, vs) end) as [k vs'].
  destruct (prefix_total filter (default (split_on (chr 46) k) (normalize (split_on (chr 46) k) fs)) Hl) as [[] ->];
    cbn [mbind outcome_bind]; [apply IH|]. destruct (populateFieldValueFromPath _ fs vs' m) as [e|m']; [by eexists|apply IH].
Qed.

(** What the parameters that are let through keep, the query keeps. *)
Lemma query_keeps (g : T -> B) m values m' :
  (forall path vs m m', HasCommonPrefix filter path = Done false -> populateFieldValueFromPath path fs vs m = inr m' ->
     g m' = g m) ->
  PopulateQueryParameters fs m values filter = Done (inr m') -> g m' = g m.
Proof.
  intros Hg. revert m. induction values as [|[key vs] values IH]; intros m; cbn [PopulateQueryParameters];
    [by intros [= ->]|].
  destruct (match valuesKeyRegexp key with Some (k, i) => (k, i :: vs) | None => (key, vs) end) as [k vs'].
  destruct (HasCommonPrefix _ _) as [[]| | |] eqn:Ep; cbn [mbind outcome_bind]; [apply IH| |done..].
  destruct (populateFieldValueFromPath _ fs vs' m) as [e|m1] eqn:E; [done|]. intros Hm. rewrite (IH _ Hm). by eapply Hg.
Qed.
End Query.

(** * What serving keeps *)

Section Keeps.
  Context {S A : Type} `{HttpLib} (P : S -> Prop).

Lemma preserves_checked {B C : Type} (o : outcome (GwError + B)) (k : B -> M S (GwError + C)) :
  (forall b, preserves P (k b)) -> preserves P (checked o k).
Proof. intros Hk. unfold checked. preserve. Qed.
Lemma preserves_handled (f : Request -> Params -> M S (GwError + A)) r ps : preserves P (f r ps) -> preserves P (handled f r ps).
Proof. intros Hf. unfold handled. destruct (Annotation r); preserve. Qed.

Lemma preserves_serve_same (hs : list (handler S A)) comps r :
  Forall (fun h => forall r ps, preserves P (h_func h r ps)) hs -> preserves P (serve_same hs comps r).
Proof.
  induction 1 as [|h hs Hh _ IH]; cbn [serve_same]; [preserve|]. case_decide; [preserve|].
  apply preserves_bind; [apply preserves_of_outcome|]. intros [ps|]; [|exact IH]. apply preserves_bind; [apply Hh|preserve].
Qed.
Lemma preserves_serve_other m (hs : list (handler S A)) comps r :
  Forall (fun h => forall r ps, preserves P (h_func h r ps)) hs -> preserves P (serve_other m hs comps r).
Proof.
  induction 1 as [|h hs Hh _ IH]; cbn [serve_other]; [preserve|].
  apply preserves_bind; [apply preserves_of_outcome|]. intros [ps|]; [|exact IH]. destruct (_ && _); [|preserve].
  destruct (ParseForm r) as [[e|] r']; [preserve|]. apply preserves_bind; [apply Hh|preserve].
Qed.

(** What the handlers keep, the multiplexer keeps. *)
Lemma preserves_ServeHTTP order (mux : ServeMux S A) r :
  (forall m, Forall (fun h => forall r ps, preserves P (h_func h r ps)) (default [] (mux !! m))) ->
  preserves P (ServeHTTP order mux r).
Proof.
  intros Hmux. unfold ServeHTTP. destruct (Path r) as [|c path]; [preserve|]. case_decide; [|preserve].
  destruct (override_method r) as [e|r']; [preserve|]. cbv zeta.
  apply preserves_bind; [by apply preserves_serve_same|]. intros [y|]; [preserve|].
  apply preserves_bind; [|preserve]. induction order as [|m order IH]; cbn [serve_others]; [preserve|].
  case_decide; [exact IH|]. apply preserves_bind; [by apply preserves_serve_other|]. intros [y|]; [preserve|exact IH].
Qed.
Lemma preserves_register order regs r :
  Forall (fun x => forall r ps, preserves P (x.2 r ps)) regs -> preserves P (ServeHTTP (A := A) order (register regs) r).
Proof.
  intros Hregs. apply preserves_ServeHTTP. intros m. rewrite register_lookup, rev_alt.
  apply Forall_reverse, Forall_forall. intros h (x & Hin & Hx)%list_elem_of_omap. unfold handler_of in Hx.
  case_decide; [|done]. injection Hx as <-. cbn [h_func]. rewrite Forall_forall in Hregs. by apply Hregs.
Qed.
End Keeps.
