(* ===== verification/Rest.v ===== *)
(** * The REST gateway of BBSim's API

    [api/bbsim/bbsim.pb.gw.go], generated from [api/bbsim/bbsim.yaml]: the patterns,
    the functions that turn a request into a call, and their registration.  The
    gateway runs in the process of BBSim and calls its API over gRPC
    ([RegisterBBSimHandlerFromEndpoint]); the generated code can also be registered
    over the handlers themselves ([RegisterBBSimHandlerServer]). *)
From S2P Require Import Prelude OmciTypes Types OltFlows Olt Api ApiInfo Ctl Gateway.
Open Scope Z_scope.
Open Scope string_scope.

(** ** Messages *)

(** Source: api/bbsim/bbsim.pb.go, [ONURequest]. *)
Record ONURequest := { onr_SerialNumber : string }.
#[export] Instance eta_onr : Eta ONURequest := fun r => {| onr_SerialNumber := onr_SerialNumber r |}.
#[export] Instance set_onr_sn : Setter onr_SerialNumber := ltac:(setter_for onr_SerialNumber).

(** Source: api/bbsim/bbsim.pb.go, [UNIRequest]. *)
Record UNIRequest := { unr_OnuSerialNumber : string; unr_UniID : string }.
#[export] Instance eta_unr : Eta UNIRequest := fun r => {|
  unr_OnuSerialNumber := unr_OnuSerialNumber r; unr_UniID := unr_UniID r |}.
#[export] Instance set_unr_sn : Setter unr_OnuSerialNumber := ltac:(setter_for unr_OnuSerialNumber).
#[export] Instance set_unr_uni : Setter unr_UniID := ltac:(setter_for unr_UniID).

(** Source: api/bbsim/bbsim.pb.go, [ONUAlarmRequest]. *)
Record ONUAlarmRequest := {
  oar_AlarmType : string; oar_SerialNumber : string; oar_Status : string; oar_Parameters : list (string * string) }.
#[export] Instance eta_oar : Eta ONUAlarmRequest := fun r => {|
  oar_AlarmType := oar_AlarmType r; oar_SerialNumber := oar_SerialNumber r; oar_Status := oar_Status r;
  oar_Parameters := oar_Parameters r |}.
#[export] Instance set_oar_type : Setter oar_AlarmType := ltac:(setter_for oar_AlarmType).
#[export] Instance set_oar_sn : Setter oar_SerialNumber := ltac:(setter_for oar_SerialNumber).
#[export] Instance set_oar_status : Setter oar_Status := ltac:(setter_for oar_Status).

(** Source: api/bbsim/bbsim.pb.go, [VersionNumber]. *)
Record VersionNumber := { vn_version : string; vn_buildTime : string; vn_commitHash : string; vn_gitStatus : string }.

(** The fields of the messages that a query can fill in.  A parameter of an alarm
    is a message, which no text stands for. *)
Definition ONURequest_fields : list (Field ONURequest) :=
  [Scalar "SerialNumber" "SerialNumber" (fun v => Some (fun m => m <| onr_SerialNumber := v |>))].
Definition UNIRequest_fields : list (Field UNIRequest) :=
  [Scalar "OnuSerialNumber" "OnuSerialNumber" (fun v => Some (fun m => m <| unr_OnuSerialNumber := v |>));
   Scalar "UniID" "UniID" (fun v => Some (fun m => m <| unr_UniID := v |>))].
Definition ONUAlarmRequest_fields : list (Field ONUAlarmRequest) :=
  [Scalar "AlarmType" "AlarmType" (fun v => Some (fun m => m <| oar_AlarmType := v |>));
   Scalar "SerialNumber" "SerialNumber" (fun v => Some (fun m => m <| oar_SerialNumber := v |>));
   Scalar "Status" "Status" (fun v => Some (fun m => m <| oar_Status := v |>));
   Repeated "Parameters" "Parameters" (fun _ => None)].

(** Source: api/bbsim/bbsim.pb.go:101-105, [SubActionTypes_value]. *)
Definition SubActionTypes_value : list (string * Z) := [("JOIN", 0); ("LEAVE", 1); ("JOINV3", 2)].

(** What the calls answer. *)
Inductive Answer :=
| AVersion (v : VersionNumber) | AOlt (o : ProtoOlt) | AResponse (r : Response) | AOnu (o : ProtoONU)
| AOnus (l : list ProtoONU) | AFlows (l : list Flow) | ASchedulers (t : option Z).

(** ** Patterns *)

(** Source: api/bbsim/bbsim.pb.gw.go:2032-2032, [pattern_BBSim_Version_0]. *)
Definition pattern_BBSim_Version_0 : Pattern := MustPattern (NewPattern 1
  [2; 0; 2; 1]
  ["v1"; "version"] "").
(** Source: api/bbsim/bbsim.pb.gw.go:2034-2034, [pattern_BBSim_GetOlt_0]. *)
Definition pattern_BBSim_GetOlt_0 : Pattern := MustPattern (NewPattern 1
  [2; 0; 2; 1]
  ["v1"; "olt"] "").
(** Source: api/bbsim/bbsim.pb.gw.go:2036-2036, [pattern_BBSim_GetOlt_1]. *)
Definition pattern_BBSim_GetOlt_1 : Pattern := MustPattern (NewPattern 1
  [2; 0; 2; 1; 2; 2]
  ["v1"; "olt"; "status"] "").
(** Source: api/bbsim/bbsim.pb.gw.go:2038-2038, [pattern_BBSim_RebootOlt_0]. *)
Definition pattern_BBSim_RebootOlt_0 : Pattern := MustPattern (NewPattern 1
  [2; 0; 2; 1; 2; 2]
  ["v1"; "olt"; "reboot"] "").
(** Source: api/bbsim/bbsim.pb.gw.go:2040-2040, [pattern_BBSim_GetONU_0]. *)
Definition pattern_BBSim_GetONU_0 : Pattern := MustPattern (NewPattern 1
  [2; 0; 2; 1; 2; 2; 1; 0; 4; 1; 5; 3]
  ["v1"; "olt"; "onus"; "SerialNumber"] "").
(** Source: api/bbsim/bbsim.pb.gw.go:2042-2042, [pattern_BBSim_GetONUs_0]. *)
Definition pattern_BBSim_GetONUs_0 : Pattern := MustPattern (NewPattern 1
  [2; 0; 2; 1; 2; 2]
  ["v1"; "olt"; "onus"] "").
(** Source: api/bbsim/bbsim.pb.gw.go:2044-2044, [pattern_BBSim_ShutdownONU_0]. *)
Definition pattern_BBSim_ShutdownONU_0 : Pattern := MustPattern (NewPattern 1
  [2; 0; 2; 1; 2; 2; 1; 0; 4; 1; 5; 3]
  ["v1"; "olt"; "onus"; "SerialNumber"] "").
(** Source: api/bbsim/bbsim.pb.gw.go:2046-2046, [pattern_BBSim_ShutdownAllONUs_0]. *)
Definition pattern_BBSim_ShutdownAllONUs_0 : Pattern := MustPattern (NewPattern 1
  [2; 0; 2; 1; 2; 2]
  ["v1"; "olt"; "onus"] "").
(** Source: api/bbsim/bbsim.pb.gw.go:2048-2048, [pattern_BBSim_ShutdownONUsOnPON_0]. *)
Definition pattern_BBSim_ShutdownONUsOnPON_0 : Pattern := MustPattern (NewPattern 1
  [2; 0; 2; 1; 2; 2; 1; 0; 4; 1; 5; 3; 2; 4]
  ["v1"; "olt"; "port"; "PonPortId"; "onus"] "").
(** Source: api/bbsim/bbsim.pb.gw.go:2050-2050, [pattern_BBSim_PoweronONU_0]. *)
Definition pattern_BBSim_PoweronONU_0 : Pattern := MustPattern (NewPattern 1
  [2; 0; 2; 1; 2; 2; 1; 0; 4; 1; 5; 3]
  ["v1"; "olt"; "onus"; "SerialNumber"] "").
(** Source: api/bbsim/bbsim.pb.gw.go:2052-2052, [pattern_BBSim_PoweronAllONUs_0]. *)
Definition pattern_BBSim_PoweronAllONUs_0 : Pattern := MustPattern (NewPattern 1
  [2; 0; 2; 1; 2; 2]
  ["v1"; "olt"; "onus"] "").
(** Source: api/bbsim/bbsim.pb.gw.go:2054-2054, [pattern_BBSim_PoweronONUsOnPON_0]. *)
Definition pattern_BBSim_PoweronONUsOnPON_0 : Pattern := MustPattern (NewPattern 1
  [2; 0; 2; 1; 2; 2; 1; 0; 4; 1; 5; 3; 2; 4]
  ["v1"; "olt"; "port"; "PonPortId"; "onus"] "").
(** Source: api/bbsim/bbsim.pb.gw.go:2056-2056, [pattern_BBSim_RestartEapol_0]. *)
Definition pattern_BBSim_RestartEapol_0 : Pattern := MustPattern (NewPattern 1
  [2; 0; 2; 1; 2; 2; 1; 0; 4; 1; 5; 3; 2; 4]
  ["v1"; "olt"; "onus"; "OnuSerialNumber"; "eapol"] "").
(** Source: api/bbsim/bbsim.pb.gw.go:2058-2058, [pattern_BBSim_RestartDhcp_0]. *)
Definition pattern_BBSim_RestartDhcp_0 : Pattern := MustPattern (NewPattern 1
  [2; 0; 2; 1; 2; 2; 1; 0; 4; 1; 5; 3; 2; 4]
  ["v1"; "olt"; "onus"; "OnuSerialNumber"; "dhcp"] "").
(** Source: api/bbsim/bbsim.pb.gw.go:2060-2060, [pattern_BBSim_SetOnuAlarmIndication_0]. *)
Definition pattern_BBSim_SetOnuAlarmIndication_0 : Pattern := MustPattern (NewPattern 1
  [2; 0; 2; 1; 2; 2; 1; 0; 4; 1; 5; 3; 2; 4; 1; 0; 4; 1; 5; 5; 1; 0; 4; 1; 5; 6]
  ["v1"; "olt"; "onus"; "SerialNumber"; "alarms"; "AlarmType"; "Status"] "").
(** Source: api/bbsim/bbsim.pb.gw.go:2062-2062, [pattern_BBSim_SetOltAlarmIndication_0]. *)
Definition pattern_BBSim_SetOltAlarmIndication_0 : Pattern := MustPattern (NewPattern 1
  [2; 0; 2; 1; 2; 2; 1; 0; 4; 1; 5; 3; 1; 0; 4; 1; 5; 4; 2; 5; 2; 6; 1; 0; 4; 1; 5; 7]
  ["v1"; "olt"; "ports"; "InterfaceType"; "InterfaceID"; "alarms"; "los"; "Status"] "").
(** Source: api/bbsim/bbsim.pb.gw.go:2064-2064, [pattern_BBSim_GetFlows_0]. *)
Definition pattern_BBSim_GetFlows_0 : Pattern := MustPattern (NewPattern 1
  [2; 0; 2; 1; 2; 2; 1; 0; 4; 1; 5; 3; 2; 4]
  ["v1"; "olt"; "onus"; "SerialNumber"; "flows"] "").
(** Source: api/bbsim/bbsim.pb.gw.go:2066-2066, [pattern_BBSim_GetFlows_1]. *)
Definition pattern_BBSim_GetFlows_1 : Pattern := MustPattern (NewPattern 1
  [2; 0; 2; 1; 2; 2]
  ["v1"; "olt"; "flows"] "").
(** Source: api/bbsim/bbsim.pb.gw.go:2068-2068, [pattern_BBSim_ChangeIgmpState_0]. *)
Definition pattern_BBSim_ChangeIgmpState_0 : Pattern := MustPattern (NewPattern 1
  [2; 0; 2; 1; 2; 2; 1; 0; 4; 1; 5; 3; 1; 0; 4; 1; 5; 4; 2; 5; 1; 0; 4; 1; 5; 6; 1; 0; 4; 1; 5; 7; 1; 0; 4; 1; 5; 8]
  ["v1"; "olt"; "onus"; "OnuSerialNumber"; "UniID"; "igmp"; "SubActionVal"; "GroupAddress"; "VLAN"] "").
(** Source: api/bbsim/bbsim.pb.gw.go:2070-2070, [pattern_BBSim_GetOnuTrafficSchedulers_0]. *)
Definition pattern_BBSim_GetOnuTrafficSchedulers_0 : Pattern := MustPattern (NewPattern 1
  [2; 0; 2; 1; 2; 2; 1; 0; 4; 1; 5; 3; 2; 4]
  ["v1"; "olt"; "onus"; "SerialNumber"; "trafficschedulers"] "").

(** ** The query parameters that are kept out *)

(** Source: api/bbsim/bbsim.pb.gw.go:421-421, [filter_BBSim_RestartEapol_0]. *)
Definition filter_BBSim_RestartEapol_0 : DoubleArray :=
  {| Encoding := list_to_map [("OnuSerialNumber", 0%nat)];
     Base := [1; 1; 0]%nat; Check_ := [0; 1; 2]%nat |}.
(** Source: api/bbsim/bbsim.pb.gw.go:491-491, [filter_BBSim_RestartDhcp_0]. *)
Definition filter_BBSim_RestartDhcp_0 : DoubleArray :=
  {| Encoding := list_to_map [("OnuSerialNumber", 0%nat)];
     Base := [1; 1; 0]%nat; Check_ := [0; 1; 2]%nat |}.
(** Source: api/bbsim/bbsim.pb.gw.go:561-561, [filter_BBSim_SetOnuAlarmIndication_0]. *)
Definition filter_BBSim_SetOnuAlarmIndication_0 : DoubleArray :=
  {| Encoding := list_to_map [("SerialNumber", 0%nat); ("AlarmType", 1%nat); ("Status", 2%nat)];
     Base := [1; 1; 2; 3; 0; 0; 0]%nat; Check_ := [0; 1; 1; 1; 2; 3; 4]%nat |}.
(** Source: api/bbsim/bbsim.pb.gw.go:815-815, [filter_BBSim_GetFlows_1]. *)
Definition filter_BBSim_GetFlows_1 : DoubleArray :=
  {| Encoding := ∅;
     Base := []; Check_ := [] |}.

Section Gateway.
  Context {S : Type} `{BBSimServer S} `{HttpLib} (version : VersionNumber) (connected : S -> bool).

(** Source: internal/bbsim/api/grpc_api_server.go, [BBSimServer.Version]. *)
Definition rpc_Version : M S (error + VersionNumber) := mret (inr version).

(** A call of the client of the gateway: an error when BBSim's own server cannot be
    reached. *)
Definition client {A : Type} (answer : A -> Answer) (m : M S (error + A)) : M S (GwError + Answer) := fun s =>
  if connected s then
    (r ← m; mret (match r with inl e => inl (FromRpc e) | inr a => inr (answer a) end)) s
  else Done (inl (FromRpc "connection error"), s).

(** A call of the handlers themselves. *)
Definition server {A : Type} (answer : A -> Answer) (m : M S (error + A)) : M S (GwError + Answer) :=
  r ← m; mret (match r with inl e => inl (FromRpc e) | inr a => inr (answer a) end).

(** ** Requests *)

(** Source: api/bbsim/bbsim.pb.gw.go:34-41, [request_BBSim_Version_0]. *)
Definition request_BBSim_Version_0 (req : Request) (pathParams : Params) : M S (GwError + Answer) :=
  client AVersion rpc_Version.
(** Source: api/bbsim/bbsim.pb.gw.go:43-50, [local_request_BBSim_Version_0]. *)
Definition local_request_BBSim_Version_0 (req : Request) (pathParams : Params) : M S (GwError + Answer) :=
  server AVersion rpc_Version.
(** Source: api/bbsim/bbsim.pb.gw.go:52-59, [request_BBSim_GetOlt_0]. *)
Definition request_BBSim_GetOlt_0 (req : Request) (pathParams : Params) : M S (GwError + Answer) :=
  client AOlt rpc_GetOlt.
(** Source: api/bbsim/bbsim.pb.gw.go:61-68, [local_request_BBSim_GetOlt_0]. *)
Definition local_request_BBSim_GetOlt_0 (req : Request) (pathParams : Params) : M S (GwError + Answer) :=
  server AOlt rpc_GetOlt.
(** Source: api/bbsim/bbsim.pb.gw.go:70-77, [request_BBSim_GetOlt_1]. *)
Definition request_BBSim_GetOlt_1 (req : Request) (pathParams : Params) : M S (GwError + Answer) :=
  client AOlt rpc_GetOlt.
(** Source: api/bbsim/bbsim.pb.gw.go:79-86, [local_request_BBSim_GetOlt_1]. *)
Definition local_request_BBSim_GetOlt_1 (req : Request) (pathParams : Params) : M S (GwError + Answer) :=
  server AOlt rpc_GetOlt.
(** Source: api/bbsim/bbsim.pb.gw.go:88-95, [request_BBSim_RebootOlt_0]. *)
Definition request_BBSim_RebootOlt_0 (req : Request) (pathParams : Params) : M S (GwError + Answer) :=
  client AResponse rpc_RebootOlt.
(** Source: api/bbsim/bbsim.pb.gw.go:97-104, [local_request_BBSim_RebootOlt_0]. *)
Definition local_request_BBSim_RebootOlt_0 (req : Request) (pathParams : Params) : M S (GwError + Answer) :=
  server AResponse rpc_RebootOlt.
(** Source: api/bbsim/bbsim.pb.gw.go:106-130, [request_BBSim_GetONU_0]. *)
Definition request_BBSim_GetONU_0 (req : Request) (pathParams : Params) : M S (GwError + Answer) :=
  serialNumber ←? param pathParams "SerialNumber" Some;
  client AOnu (rpc_GetONU serialNumber).
(** Source: api/bbsim/bbsim.pb.gw.go:132-156, [local_request_BBSim_GetONU_0]. *)
Definition local_request_BBSim_GetONU_0 (req : Request) (pathParams : Params) : M S (GwError + Answer) :=
  serialNumber ←? param pathParams "SerialNumber" Some;
  server AOnu (rpc_GetONU serialNumber).
(** Source: api/bbsim/bbsim.pb.gw.go:158-165, [request_BBSim_GetONUs_0]. *)
Definition request_BBSim_GetONUs_0 (req : Request) (pathParams : Params) : M S (GwError + Answer) :=
  client AOnus rpc_GetONUs.
(** Source: api/bbsim/bbsim.pb.gw.go:167-174, [local_request_BBSim_GetONUs_0]. *)
Definition local_request_BBSim_GetONUs_0 (req : Request) (pathParams : Params) : M S (GwError + Answer) :=
  server AOnus rpc_GetONUs.
(** Source: api/bbsim/bbsim.pb.gw.go:176-200, [request_BBSim_ShutdownONU_0]. *)
Definition request_BBSim_ShutdownONU_0 (req : Request) (pathParams : Params) : M S (GwError + Answer) :=
  serialNumber ←? param pathParams "SerialNumber" Some;
  client AResponse (rpc_ShutdownONU serialNumber).
(** Source: api/bbsim/bbsim.pb.gw.go:202-226, [local_request_BBSim_ShutdownONU_0]. *)
Definition local_request_BBSim_ShutdownONU_0 (req : Request) (pathParams : Params) : M S (GwError + Answer) :=
  serialNumber ←? param pathParams "SerialNumber" Some;
  server AResponse (rpc_ShutdownONU serialNumber).
(** Source: api/bbsim/bbsim.pb.gw.go:228-235, [request_BBSim_ShutdownAllONUs_0]. *)
Definition request_BBSim_ShutdownAllONUs_0 (req : Request) (pathParams : Params) : M S (GwError + Answer) :=
  client AResponse rpc_ShutdownAllONUs.
(** Source: api/bbsim/bbsim.pb.gw.go:237-244, [local_request_BBSim_ShutdownAllONUs_0]. *)
Definition local_request_BBSim_ShutdownAllONUs_0 (req : Request) (pathParams : Params) : M S (GwError + Answer) :=
  server AResponse rpc_ShutdownAllONUs.
(** Source: api/bbsim/bbsim.pb.gw.go:246-270, [request_BBSim_ShutdownONUsOnPON_0]. *)
Definition request_BBSim_ShutdownONUsOnPON_0 (req : Request) (pathParams : Params) : M S (GwError + Answer) :=
  ponPortId ←? param pathParams "PonPortId" Uint32;
  client AResponse (rpc_ShutdownONUsOnPON ponPortId).
(** Source: api/bbsim/bbsim.pb.gw.go:272-296, [local_request_BBSim_ShutdownONUsOnPON_0]. *)
Definition local_request_BBSim_ShutdownONUsOnPON_0 (req : Request) (pathParams : Params) : M S (GwError + Answer) :=
  ponPortId ←? param pathParams "PonPortId" Uint32;
  server AResponse (rpc_ShutdownONUsOnPON ponPortId).
(** Source: api/bbsim/bbsim.pb.gw.go:298-322, [request_BBSim_PoweronONU_0]. *)
Definition request_BBSim_PoweronONU_0 (req : Request) (pathParams : Params) : M S (GwError + Answer) :=
  serialNumber ←? param pathParams "SerialNumber" Some;
  client AResponse (rpc_PoweronONU serialNumber).
(** Source: api/bbsim/bbsim.pb.gw.go:324-348, [local_request_BBSim_PoweronONU_0]. *)
Definition local_request_BBSim_PoweronONU_0 (req : Request) (pathParams : Params) : M S (GwError + Answer) :=
  serialNumber ←? param pathParams "SerialNumber" Some;
  server AResponse (rpc_PoweronONU serialNumber).
(** Source: api/bbsim/bbsim.pb.gw.go:350-357, [request_BBSim_PoweronAllONUs_0]. *)
Definition request_BBSim_PoweronAllONUs_0 (req : Request) (pathParams : Params) : M S (GwError + Answer) :=
  client AResponse rpc_PoweronAllONUs.
(** Source: api/bbsim/bbsim.pb.gw.go:359-366, [local_request_BBSim_PoweronAllONUs_0]. *)
Definition local_request_BBSim_PoweronAllONUs_0 (req : Request) (pathParams : Params) : M S (GwError + Answer) :=
  server AResponse rpc_PoweronAllONUs.
(** Source: api/bbsim/bbsim.pb.gw.go:368-392, [request_BBSim_PoweronONUsOnPON_0]. *)
Definition request_BBSim_PoweronONUsOnPON_0 (req : Request) (pathParams : Params) : M S (GwError + Answer) :=
  ponPortId ←? param pathParams "PonPortId" Uint32;
  client AResponse (rpc_PoweronONUsOnPON ponPortId).
(** Source: api/bbsim/bbsim.pb.gw.go:394-418, [local_request_BBSim_PoweronONUsOnPON_0]. *)
Definition local_request_BBSim_PoweronONUsOnPON_0 (req : Request) (pathParams : Params) : M S (GwError + Answer) :=
  ponPortId ←? param pathParams "PonPortId" Uint32;
  server AResponse (rpc_PoweronONUsOnPON ponPortId).
(** Source: api/bbsim/bbsim.pb.gw.go:424-455, [request_BBSim_RestartEapol_0]. *)
Definition request_BBSim_RestartEapol_0 (req : Request) (pathParams : Params) : M S (GwError + Answer) :=
  onuSerialNumber ←? param pathParams "OnuSerialNumber" Some;
  protoReq ←? query UNIRequest_fields filter_BBSim_RestartEapol_0 req
    {| unr_OnuSerialNumber := onuSerialNumber; unr_UniID := "" |};
  client AResponse (rpc_RestartEapol (unr_OnuSerialNumber protoReq) (unr_UniID protoReq)).
(** Source: api/bbsim/bbsim.pb.gw.go:457-488, [local_request_BBSim_RestartEapol_0]. *)
Definition local_request_BBSim_RestartEapol_0 (req : Request) (pathParams : Params) : M S (GwError + Answer) :=
  onuSerialNumber ←? param pathParams "OnuSerialNumber" Some;
  protoReq ←? query UNIRequest_fields filter_BBSim_RestartEapol_0 req
    {| unr_OnuSerialNumber := onuSerialNumber; unr_UniID := "" |};
  server AResponse (rpc_RestartEapol (unr_OnuSerialNumber protoReq) (unr_UniID protoReq)).
(** Source: api/bbsim/bbsim.pb.gw.go:494-525, [request_BBSim_RestartDhcp_0]. *)
Definition request_BBSim_RestartDhcp_0 (req : Request) (pathParams : Params) : M S (GwError + Answer) :=
  onuSerialNumber ←? param pathParams "OnuSerialNumber" Some;
  protoReq ←? query UNIRequest_fields filter_BBSim_RestartDhcp_0 req
    {| unr_OnuSerialNumber := onuSerialNumber; unr_UniID := "" |};
  client AResponse (rpc_RestartDhcp (unr_OnuSerialNumber protoReq) (unr_UniID protoReq)).
(** Source: api/bbsim/bbsim.pb.gw.go:527-558, [local_request_BBSim_RestartDhcp_0]. *)
Definition local_request_BBSim_RestartDhcp_0 (req : Request) (pathParams : Params) : M S (GwError + Answer) :=
  onuSerialNumber ←? param pathParams "OnuSerialNumber" Some;
  protoReq ←? query UNIRequest_fields filter_BBSim_RestartDhcp_0 req
    {| unr_OnuSerialNumber := onuSerialNumber; unr_UniID := "" |};
  server AResponse (rpc_RestartDhcp (unr_OnuSerialNumber protoReq) (unr_UniID protoReq)).
(** Source: api/bbsim/bbsim.pb.gw.go:564-615, [request_BBSim_SetOnuAlarmIndication_0]. *)
Definition request_BBSim_SetOnuAlarmIndication_0 (req : Request) (pathParams : Params) : M S (GwError + Answer) :=
  serialNumber ←? param pathParams "SerialNumber" Some;
  alarmType ←? param pathParams "AlarmType" Some;
  status ←? param pathParams "Status" Some;
  protoReq ←? query ONUAlarmRequest_fields filter_BBSim_SetOnuAlarmIndication_0 req
    {| oar_AlarmType := alarmType; oar_SerialNumber := serialNumber; oar_Status := status; oar_Parameters := [] |};
  client AResponse (rpc_SetOnuAlarmIndication (oar_SerialNumber protoReq) (oar_AlarmType protoReq) (oar_Parameters protoReq)
    (oar_Status protoReq)).
(** Source: api/bbsim/bbsim.pb.gw.go:617-668, [local_request_BBSim_SetOnuAlarmIndication_0]. *)
Definition local_request_BBSim_SetOnuAlarmIndication_0 (req : Request) (pathParams : Params) : M S (GwError + Answer) :=
  serialNumber ←? param pathParams "SerialNumber" Some;
  alarmType ←? param pathParams "AlarmType" Some;
  status ←? param pathParams "Status" Some;
  protoReq ←? query ONUAlarmRequest_fields filter_BBSim_SetOnuAlarmIndication_0 req
    {| oar_AlarmType := alarmType; oar_SerialNumber := serialNumber; oar_Status := status; oar_Parameters := [] |};
  server AResponse (rpc_SetOnuAlarmIndication (oar_SerialNumber protoReq) (oar_AlarmType protoReq) (oar_Parameters protoReq)
    (oar_Status protoReq)).
(** Source: api/bbsim/bbsim.pb.gw.go:670-714, [request_BBSim_SetOltAlarmIndication_0]. *)
Definition request_BBSim_SetOltAlarmIndication_0 (req : Request) (pathParams : Params) : M S (GwError + Answer) :=
  interfaceType ←? param pathParams "InterfaceType" Some;
  interfaceID ←? param pathParams "InterfaceID" Uint32;
  status ←? param pathParams "Status" Some;
  client AResponse (rpc_SetOltAlarmIndication interfaceID interfaceType status).
(** Source: api/bbsim/bbsim.pb.gw.go:716-760, [local_request_BBSim_SetOltAlarmIndication_0]. *)
Definition local_request_BBSim_SetOltAlarmIndication_0 (req : Request) (pathParams : Params) : M S (GwError + Answer) :=
  interfaceType ←? param pathParams "InterfaceType" Some;
  interfaceID ←? param pathParams "InterfaceID" Uint32;
  status ←? param pathParams "Status" Some;
  server AResponse (rpc_SetOltAlarmIndication interfaceID interfaceType status).
(** Source: api/bbsim/bbsim.pb.gw.go:762-786, [request_BBSim_GetFlows_0]. *)
Definition request_BBSim_GetFlows_0 (req : Request) (pathParams : Params) : M S (GwError + Answer) :=
  serialNumber ←? param pathParams "SerialNumber" Some;
  client AFlows (rpc_GetFlows serialNumber).
(** Source: api/bbsim/bbsim.pb.gw.go:788-812, [local_request_BBSim_GetFlows_0]. *)
Definition local_request_BBSim_GetFlows_0 (req : Request) (pathParams : Params) : M S (GwError + Answer) :=
  serialNumber ←? param pathParams "SerialNumber" Some;
  server AFlows (rpc_GetFlows serialNumber).
(** Source: api/bbsim/bbsim.pb.gw.go:818-832, [request_BBSim_GetFlows_1]. *)
Definition request_BBSim_GetFlows_1 (req : Request) (pathParams : Params) : M S (GwError + Answer) :=
  protoReq ←? query ONURequest_fields filter_BBSim_GetFlows_1 req {| onr_SerialNumber := "" |};
  client AFlows (rpc_GetFlows (onr_SerialNumber protoReq)).
(** Source: api/bbsim/bbsim.pb.gw.go:834-848, [local_request_BBSim_GetFlows_1]. *)
Definition local_request_BBSim_GetFlows_1 (req : Request) (pathParams : Params) : M S (GwError + Answer) :=
  protoReq ←? query ONURequest_fields filter_BBSim_GetFlows_1 req {| onr_SerialNumber := "" |};
  server AFlows (rpc_GetFlows (onr_SerialNumber protoReq)).
(** Source: api/bbsim/bbsim.pb.gw.go:850-917, [request_BBSim_ChangeIgmpState_0]. *)
Definition request_BBSim_ChangeIgmpState_0 (req : Request) (pathParams : Params) : M S (GwError + Answer) :=
  onuSerialNumber ←? param pathParams "OnuSerialNumber" Some;
  uniID ←? param pathParams "UniID" Int32;
  subActionVal ←? param pathParams "SubActionVal" (fun v => Enum v SubActionTypes_value);
  groupAddress ←? param pathParams "GroupAddress" Some;
  vlan ←? param pathParams "VLAN" Int32;
  client AResponse (rpc_ChangeIgmpState onuSerialNumber uniID subActionVal groupAddress vlan).
(** Source: api/bbsim/bbsim.pb.gw.go:919-986, [local_request_BBSim_ChangeIgmpState_0]. *)
Definition local_request_BBSim_ChangeIgmpState_0 (req : Request) (pathParams : Params) : M S (GwError + Answer) :=
  onuSerialNumber ←? param pathParams "OnuSerialNumber" Some;
  uniID ←? param pathParams "UniID" Int32;
  subActionVal ←? param pathParams "SubActionVal" (fun v => Enum v SubActionTypes_value);
  groupAddress ←? param pathParams "GroupAddress" Some;
  vlan ←? param pathParams "VLAN" Int32;
  server AResponse (rpc_ChangeIgmpState onuSerialNumber uniID subActionVal groupAddress vlan).
(** Source: api/bbsim/bbsim.pb.gw.go:988-1012, [request_BBSim_GetOnuTrafficSchedulers_0]. *)
Definition request_BBSim_GetOnuTrafficSchedulers_0 (req : Request) (pathParams : Params) : M S (GwError + Answer) :=
  serialNumber ←? param pathParams "SerialNumber" Some;
  client ASchedulers (rpc_GetOnuTrafficSchedulers serialNumber).
(** Source: api/bbsim/bbsim.pb.gw.go:1014-1038, [local_request_BBSim_GetOnuTrafficSchedulers_0]. *)
Definition local_request_BBSim_GetOnuTrafficSchedulers_0 (req : Request) (pathParams : Params) : M S (GwError + Answer) :=
  serialNumber ←? param pathParams "SerialNumber" Some;
  server ASchedulers (rpc_GetOnuTrafficSchedulers serialNumber).

(** ** Registration *)

(** The handlers, each over its request function ([handled]). *)
Definition Handler : Type := Request -> Params -> M S (HttpReply Answer).
(** Source: api/bbsim/bbsim.pb.gw.go:1588-1608, [RegisterBBSimHandlerClient]. *)
Definition handle_BBSim_Version_0 : Handler := handled request_BBSim_Version_0.
(** Source: api/bbsim/bbsim.pb.gw.go:1610-1630, [RegisterBBSimHandlerClient]. *)
Definition handle_BBSim_GetOlt_0 : Handler := handled request_BBSim_GetOlt_0.
(** Source: api/bbsim/bbsim.pb.gw.go:1632-1652, [RegisterBBSimHandlerClient]. *)
Definition handle_BBSim_GetOlt_1 : Handler := handled request_BBSim_GetOlt_1.
(** Source: api/bbsim/bbsim.pb.gw.go:1654-1674, [RegisterBBSimHandlerClient]. *)
Definition handle_BBSim_RebootOlt_0 : Handler := handled request_BBSim_RebootOlt_0.
(** Source: api/bbsim/bbsim.pb.gw.go:1676-1696, [RegisterBBSimHandlerClient]. *)
Definition handle_BBSim_GetONU_0 : Handler := handled request_BBSim_GetONU_0.
(** Source: api/bbsim/bbsim.pb.gw.go:1698-1718, [RegisterBBSimHandlerClient]. *)
Definition handle_BBSim_GetONUs_0 : Handler := handled request_BBSim_GetONUs_0.
(** Source: api/bbsim/bbsim.pb.gw.go:1720-1740, [RegisterBBSimHandlerClient]. *)
Definition handle_BBSim_ShutdownONU_0 : Handler := handled request_BBSim_ShutdownONU_0.
(** Source: api/bbsim/bbsim.pb.gw.go:1742-1762, [RegisterBBSimHandlerClient]. *)
Definition handle_BBSim_ShutdownAllONUs_0 : Handler := handled request_BBSim_ShutdownAllONUs_0.
(** Source: api/bbsim/bbsim.pb.gw.go:1764-1784, [RegisterBBSimHandlerClient]. *)
Definition handle_BBSim_ShutdownONUsOnPON_0 : Handler := handled request_BBSim_ShutdownONUsOnPON_0.
(** Source: api/bbsim/bbsim.pb.gw.go:1786-1806, [RegisterBBSimHandlerClient]. *)
Definition handle_BBSim_PoweronONU_0 : Handler := handled request_BBSim_PoweronONU_0.
(** Source: api/bbsim/bbsim.pb.gw.go:1808-1828, [RegisterBBSimHandlerClient]. *)
Definition handle_BBSim_PoweronAllONUs_0 : Handler := handled request_BBSim_PoweronAllONUs_0.
(** Source: api/bbsim/bbsim.pb.gw.go:1830-1850, [RegisterBBSimHandlerClient]. *)
Definition handle_BBSim_PoweronONUsOnPON_0 : Handler := handled request_BBSim_PoweronONUsOnPON_0.
(** Source: api/bbsim/bbsim.pb.gw.go:1852-1872, [RegisterBBSimHandlerClient]. *)
Definition handle_BBSim_RestartEapol_0 : Handler := handled request_BBSim_RestartEapol_0.
(** Source: api/bbsim/bbsim.pb.gw.go:1874-1894, [RegisterBBSimHandlerClient]. *)
Definition handle_BBSim_RestartDhcp_0 : Handler := handled request_BBSim_RestartDhcp_0.
(** Source: api/bbsim/bbsim.pb.gw.go:1896-1916, [RegisterBBSimHandlerClient]. *)
Definition handle_BBSim_SetOnuAlarmIndication_0 : Handler := handled request_BBSim_SetOnuAlarmIndication_0.
(** Source: api/bbsim/bbsim.pb.gw.go:1918-1938, [RegisterBBSimHandlerClient]. *)
Definition handle_BBSim_SetOltAlarmIndication_0 : Handler := handled request_BBSim_SetOltAlarmIndication_0.
(** Source: api/bbsim/bbsim.pb.gw.go:1940-1960, [RegisterBBSimHandlerClient]. *)
Definition handle_BBSim_GetFlows_0 : Handler := handled request_BBSim_GetFlows_0.
(** Source: api/bbsim/bbsim.pb.gw.go:1962-1982, [RegisterBBSimHandlerClient]. *)
Definition handle_BBSim_GetFlows_1 : Handler := handled request_BBSim_GetFlows_1.
(** Source: api/bbsim/bbsim.pb.gw.go:1984-2004, [RegisterBBSimHandlerClient]. *)
Definition handle_BBSim_ChangeIgmpState_0 : Handler := handled request_BBSim_ChangeIgmpState_0.
(** Source: api/bbsim/bbsim.pb.gw.go:2006-2026, [RegisterBBSimHandlerClient]. *)
Definition handle_BBSim_GetOnuTrafficSchedulers_0 : Handler := handled request_BBSim_GetOnuTrafficSchedulers_0.

Definition BBSim_handlers : list (string * Pattern * Handler) :=
  [("GET", pattern_BBSim_Version_0, handle_BBSim_Version_0);
   ("GET", pattern_BBSim_GetOlt_0, handle_BBSim_GetOlt_0);
   ("GET", pattern_BBSim_GetOlt_1, handle_BBSim_GetOlt_1);
   ("POST", pattern_BBSim_RebootOlt_0, handle_BBSim_RebootOlt_0);
   ("GET", pattern_BBSim_GetONU_0, handle_BBSim_GetONU_0);
   ("GET", pattern_BBSim_GetONUs_0, handle_BBSim_GetONUs_0);
   ("DELETE", pattern_BBSim_ShutdownONU_0, handle_BBSim_ShutdownONU_0);
   ("DELETE", pattern_BBSim_ShutdownAllONUs_0, handle_BBSim_ShutdownAllONUs_0);
   ("DELETE", pattern_BBSim_ShutdownONUsOnPON_0, handle_BBSim_ShutdownONUsOnPON_0);
   ("POST", pattern_BBSim_PoweronONU_0, handle_BBSim_PoweronONU_0);
   ("POST", pattern_BBSim_PoweronAllONUs_0, handle_BBSim_PoweronAllONUs_0);
   ("POST", pattern_BBSim_PoweronONUsOnPON_0, handle_BBSim_PoweronONUsOnPON_0);
   ("POST", pattern_BBSim_RestartEapol_0, handle_BBSim_RestartEapol_0);
   ("POST", pattern_BBSim_RestartDhcp_0, handle_BBSim_RestartDhcp_0);
   ("POST", pattern_BBSim_SetOnuAlarmIndication_0, handle_BBSim_SetOnuAlarmIndication_0);
   ("POST", pattern_BBSim_SetOltAlarmIndication_0, handle_BBSim_SetOltAlarmIndication_0);
   ("GET", pattern_BBSim_GetFlows_0, handle_BBSim_GetFlows_0);
   ("GET", pattern_BBSim_GetFlows_1, handle_BBSim_GetFlows_1);
   ("POST", pattern_BBSim_ChangeIgmpState_0, handle_BBSim_ChangeIgmpState_0);
   ("GET", pattern_BBSim_GetOnuTrafficSchedulers_0, handle_BBSim_GetOnuTrafficSchedulers_0)].

(** Source: api/bbsim/bbsim.pb.gw.go:1047-1070, [RegisterBBSimHandlerServer]. *)
Definition local_handle_BBSim_Version_0 : Handler := handled local_request_BBSim_Version_0.
(** Source: api/bbsim/bbsim.pb.gw.go:1072-1095, [RegisterBBSimHandlerServer]. *)
Definition local_handle_BBSim_GetOlt_0 : Handler := handled local_request_BBSim_GetOlt_0.
(** Source: api/bbsim/bbsim.pb.gw.go:1097-1120, [RegisterBBSimHandlerServer]. *)
Definition local_handle_BBSim_GetOlt_1 : Handler := handled local_request_BBSim_GetOlt_1.
(** Source: api/bbsim/bbsim.pb.gw.go:1122-1145, [RegisterBBSimHandlerServer]. *)
Definition local_handle_BBSim_RebootOlt_0 : Handler := handled local_request_BBSim_RebootOlt_0.
(** Source: api/bbsim/bbsim.pb.gw.go:1147-1170, [RegisterBBSimHandlerServer]. *)
Definition local_handle_BBSim_GetONU_0 : Handler := handled local_request_BBSim_GetONU_0.
(** Source: api/bbsim/bbsim.pb.gw.go:1172-1195, [RegisterBBSimHandlerServer]. *)
Definition local_handle_BBSim_GetONUs_0 : Handler := handled local_request_BBSim_GetONUs_0.
(** Source: api/bbsim/bbsim.pb.gw.go:1197-1220, [RegisterBBSimHandlerServer]. *)
Definition local_handle_BBSim_ShutdownONU_0 : Handler := handled local_request_BBSim_ShutdownONU_0.
(** Source: api/bbsim/bbsim.pb.gw.go:1222-1245, [RegisterBBSimHandlerServer]. *)
Definition local_handle_BBSim_ShutdownAllONUs_0 : Handler := handled local_request_BBSim_ShutdownAllONUs_0.
(** Source: api/bbsim/bbsim.pb.gw.go:1247-1270, [RegisterBBSimHandlerServer]. *)
Definition local_handle_BBSim_ShutdownONUsOnPON_0 : Handler := handled local_request_BBSim_ShutdownONUsOnPON_0.
(** Source: api/bbsim/bbsim.pb.gw.go:1272-1295, [RegisterBBSimHandlerServer]. *)
Definition local_handle_BBSim_PoweronONU_0 : Handler := handled local_request_BBSim_PoweronONU_0.
(** Source: api/bbsim/bbsim.pb.gw.go:1297-1320, [RegisterBBSimHandlerServer]. *)
Definition local_handle_BBSim_PoweronAllONUs_0 : Handler := handled local_request_BBSim_PoweronAllONUs_0.
(** Source: api/bbsim/bbsim.pb.gw.go:1322-1345, [RegisterBBSimHandlerServer]. *)
Definition local_handle_BBSim_PoweronONUsOnPON_0 : Handler := handled local_request_BBSim_PoweronONUsOnPON_0.
(** Source: api/bbsim/bbsim.pb.gw.go:1347-1370, [RegisterBBSimHandlerServer]. *)
Definition local_handle_BBSim_RestartEapol_0 : Handler := handled local_request_BBSim_RestartEapol_0.
(** Source: api/bbsim/bbsim.pb.gw.go:1372-1395, [RegisterBBSimHandlerServer]. *)
Definition local_handle_BBSim_RestartDhcp_0 : Handler := handled local_request_BBSim_RestartDhcp_0.
(** Source: api/bbsim/bbsim.pb.gw.go:1397-1420, [RegisterBBSimHandlerServer]. *)
Definition local_handle_BBSim_SetOnuAlarmIndication_0 : Handler := handled local_request_BBSim_SetOnuAlarmIndication_0.
(** Source: api/bbsim/bbsim.pb.gw.go:1422-1445, [RegisterBBSimHandlerServer]. *)
Definition local_handle_BBSim_SetOltAlarmIndication_0 : Handler := handled local_request_BBSim_SetOltAlarmIndication_0.
(** Source: api/bbsim/bbsim.pb.gw.go:1447-1470, [RegisterBBSimHandlerServer]. *)
Definition local_handle_BBSim_GetFlows_0 : Handler := handled local_request_BBSim_GetFlows_0.
(** Source: api/bbsim/bbsim.pb.gw.go:1472-1495, [RegisterBBSimHandlerServer]. *)
Definition local_handle_BBSim_GetFlows_1 : Handler := handled local_request_BBSim_GetFlows_1.
(** Source: api/bbsim/bbsim.pb.gw.go:1497-1520, [RegisterBBSimHandlerServer]. *)
Definition local_handle_BBSim_ChangeIgmpState_0 : Handler := handled local_request_BBSim_ChangeIgmpState_0.
(** Source: api/bbsim/bbsim.pb.gw.go:1522-1545, [RegisterBBSimHandlerServer]. *)
Definition local_handle_BBSim_GetOnuTrafficSchedulers_0 : Handler := handled local_request_BBSim_GetOnuTrafficSchedulers_0.

Definition local_BBSim_handlers : list (string * Pattern * Handler) :=
  [("GET", pattern_BBSim_Version_0, local_handle_BBSim_Version_0);
   ("GET", pattern_BBSim_GetOlt_0, local_handle_BBSim_GetOlt_0);
   ("GET", pattern_BBSim_GetOlt_1, local_handle_BBSim_GetOlt_1);
   ("POST", pattern_BBSim_RebootOlt_0, local_handle_BBSim_RebootOlt_0);
   ("GET", pattern_BBSim_GetONU_0, local_handle_BBSim_GetONU_0);
   ("GET", pattern_BBSim_GetONUs_0, local_handle_BBSim_GetONUs_0);
   ("DELETE", pattern_BBSim_ShutdownONU_0, local_handle_BBSim_ShutdownONU_0);
   ("DELETE", pattern_BBSim_ShutdownAllONUs_0, local_handle_BBSim_ShutdownAllONUs_0);
   ("DELETE", pattern_BBSim_ShutdownONUsOnPON_0, local_handle_BBSim_ShutdownONUsOnPON_0);
   ("POST", pattern_BBSim_PoweronONU_0, local_handle_BBSim_PoweronONU_0);
   ("POST", pattern_BBSim_PoweronAllONUs_0, local_handle_BBSim_PoweronAllONUs_0);
   ("POST", pattern_BBSim_PoweronONUsOnPON_0, local_handle_BBSim_PoweronONUsOnPON_0);
   ("POST", pattern_BBSim_RestartEapol_0, local_handle_BBSim_RestartEapol_0);
   ("POST", pattern_BBSim_RestartDhcp_0, local_handle_BBSim_RestartDhcp_0);
   ("POST", pattern_BBSim_SetOnuAlarmIndication_0, local_handle_BBSim_SetOnuAlarmIndication_0);
   ("POST", pattern_BBSim_SetOltAlarmIndication_0, local_handle_BBSim_SetOltAlarmIndication_0);
   ("GET", pattern_BBSim_GetFlows_0, local_handle_BBSim_GetFlows_0);
   ("GET", pattern_BBSim_GetFlows_1, local_handle_BBSim_GetFlows_1);
   ("POST", pattern_BBSim_ChangeIgmpState_0, local_handle_BBSim_ChangeIgmpState_0);
   ("GET", pattern_BBSim_GetOnuTrafficSchedulers_0, local_handle_BBSim_GetOnuTrafficSchedulers_0)].

(** Source: api/bbsim/bbsim.pb.gw.go, [RegisterBBSimHandlerServer]. *)
Definition RegisterBBSimHandlerServer (mux : ServeMux S Answer) : ServeMux S Answer :=
  fold_left (fun mux x => Handle x.1.1 x.1.2 x.2 mux) local_BBSim_handlers mux.

(** Source: api/bbsim/bbsim.pb.gw.go, [RegisterBBSimHandlerClient] (and
    [RegisterBBSimHandler], which calls it). *)
Definition RegisterBBSimHandlerClient (mux : ServeMux S Answer) : ServeMux S Answer :=
  fold_left (fun mux x => Handle x.1.1 x.1.2 x.2 mux) BBSim_handlers mux.

(** Source: api/bbsim/bbsim.pb.gw.go, [RegisterBBSimHandlerFromEndpoint].  The
    connection is closed when the context of the gateway ends. *)
Definition RegisterBBSimHandlerFromEndpoint (dial : option error) (mux : ServeMux S Answer) : error + ServeMux S Answer :=
  match dial with Some e => inl e | None => inr (RegisterBBSimHandlerClient mux) end.
End Gateway.
