(* ===== verification/RestProps.v ===== *)
(** * What the REST gateway does

    The description of the API ([api/bbsim/bbsim.yaml]) as a table of templates and as
    a relation between paths and calls; the gateway serves exactly that. *)
From S2P Require Import Prelude Fsm Options OmciTypes Omci MibDb Packets Types Io Eapol Dhcp DhcpServer Igmp Service.
From S2P Require Import PonRes AlarmSim UniPort UniInv Get Onu OnuOmci OnuLoop OnuInv OltFlows OltSpec Olt.
From S2P Require Import OltProps OltWf Api ApiInfo DmiInv DmiGen Dmi DmiProps DeviceInv Events Sadis Web Ctl CtlProps.
From S2P Require Import Gateway Rest.
Open Scope Z_scope.
Open Scope string_scope.

Section RestApi.
  Context {S : Type} `{BBSimServer S} `{HttpLib} (version : VersionNumber) (connected : S -> bool).

(** ** The description *)

Definition GET (t : list seg) (h : Handler) : Route S Answer := {| rt_method := "GET"; rt_template := t; rt_func := h |}.
Definition POST (t : list seg) (h : Handler) : Route S Answer := {| rt_method := "POST"; rt_template := t; rt_func := h |}.
Definition DELETE (t : list seg) (h : Handler) : Route S Answer := {| rt_method := "DELETE"; rt_template := t; rt_func := h |}.

Definition olt (t : list seg) : list seg := Lit "v1" :: Lit "olt" :: t.
Definition onus (t : list seg) : list seg := olt (Lit "onus" :: t).

(** [api/bbsim/bbsim.yaml], in the order of the generated code. *)
Definition rest_api : list (Route S Answer) :=
  [GET [Lit "v1"; Lit "version"] (handle_BBSim_Version_0 version connected);
   GET (olt []) (handle_BBSim_GetOlt_0 connected);
   GET (olt [Lit "status"]) (handle_BBSim_GetOlt_1 connected);
   POST (olt [Lit "reboot"]) (handle_BBSim_RebootOlt_0 connected);
   GET (onus [Var "SerialNumber"]) (handle_BBSim_GetONU_0 connected);
   GET (onus []) (handle_BBSim_GetONUs_0 connected);
   DELETE (onus [Var "SerialNumber"]) (handle_BBSim_ShutdownONU_0 connected);
   DELETE (onus []) (handle_BBSim_ShutdownAllONUs_0 connected);
   DELETE (olt [Lit "port"; Var "PonPortId"; Lit "onus"]) (handle_BBSim_ShutdownONUsOnPON_0 connected);
   POST (onus [Var "SerialNumber"]) (handle_BBSim_PoweronONU_0 connected);
   POST (onus []) (handle_BBSim_PoweronAllONUs_0 connected);
   POST (olt [Lit "port"; Var "PonPortId"; Lit "onus"]) (handle_BBSim_PoweronONUsOnPON_0 connected);
   POST (onus [Var "OnuSerialNumber"; Lit "eapol"]) (handle_BBSim_RestartEapol_0 connected);
   POST (onus [Var "OnuSerialNumber"; Lit "dhcp"]) (handle_BBSim_RestartDhcp_0 connected);
   POST (onus [Var "SerialNumber"; Lit "alarms"; Var "AlarmType"; Var "Status"])
     (handle_BBSim_SetOnuAlarmIndication_0 connected);
   POST (olt [Lit "ports"; Var "InterfaceType"; Var "InterfaceID"; Lit "alarms"; Lit "los"; Var "Status"])
     (handle_BBSim_SetOltAlarmIndication_0 connected);
   GET (onus [Var "SerialNumber"; Lit "flows"]) (handle_BBSim_GetFlows_0 connected);
   GET (olt [Lit "flows"]) (handle_BBSim_GetFlows_1 connected);
   POST (onus [Var "OnuSerialNumber"; Var "UniID"; Lit "igmp"; Var "SubActionVal"; Var "GroupAddress"; Var "VLAN"])
     (handle_BBSim_ChangeIgmpState_0 connected);
   GET (onus [Var "SerialNumber"; Lit "trafficschedulers"]) (handle_BBSim_GetOnuTrafficSchedulers_0 connected)].

Lemma rest_api_implements : Forall2 implements (BBSim_handlers version connected) rest_api.
Proof. repeat (apply List.Forall2_cons; [by split_and!|]). apply List.Forall2_nil. Qed.
Lemma rest_api_clear : unambiguous rest_api = true /\ settled rest_api = true.
Proof. by split; vm_compute. Qed.
Lemma rest_api_methods rt : rt ∈ rest_api -> rt_method rt ∈ ["GET"; "POST"; "DELETE"].
Proof.
  intros Hin. assert (Forall (fun rt => rt_method rt ∈ ["GET"; "POST"; "DELETE"]) rest_api) as Hf
    by (repeat constructor; cbn; set_solver). by rewrite Forall_forall in Hf; apply Hf.
Qed.

(** ** What a path means *)

Definition answers {A : Type} (f : A -> Answer) (m : M S (error + A)) : M S (error + Answer) :=
  r ← m; mret (match r with inl e => inl e | inr a => inr (f a) end).

(** The call of a path of the description, for a UNI and a serial number in the
    query. *)
Inductive rest_means (uni qsn : string) : string -> list string -> M S (error + Answer) -> Prop :=
| means_version : rest_means uni qsn "GET" ["v1"; "version"] (answers AVersion (rpc_Version version))
| means_olt : rest_means uni qsn "GET" ["v1"; "olt"] (answers AOlt rpc_GetOlt)
| means_olt_status : rest_means uni qsn "GET" ["v1"; "olt"; "status"] (answers AOlt rpc_GetOlt)
| means_reboot : rest_means uni qsn "POST" ["v1"; "olt"; "reboot"] (answers AResponse rpc_RebootOlt)
| means_onu sn : rest_means uni qsn "GET" ["v1"; "olt"; "onus"; sn] (answers AOnu (rpc_GetONU sn))
| means_onus : rest_means uni qsn "GET" ["v1"; "olt"; "onus"] (answers AOnus rpc_GetONUs)
| means_shutdown sn : rest_means uni qsn "DELETE" ["v1"; "olt"; "onus"; sn] (answers AResponse (rpc_ShutdownONU sn))
| means_shutdown_all : rest_means uni qsn "DELETE" ["v1"; "olt"; "onus"] (answers AResponse rpc_ShutdownAllONUs)
| means_shutdown_pon pon i : Uint32 pon = Some i ->
    rest_means uni qsn "DELETE" ["v1"; "olt"; "port"; pon; "onus"] (answers AResponse (rpc_ShutdownONUsOnPON i))
| means_poweron sn : rest_means uni qsn "POST" ["v1"; "olt"; "onus"; sn] (answers AResponse (rpc_PoweronONU sn))
| means_poweron_all : rest_means uni qsn "POST" ["v1"; "olt"; "onus"] (answers AResponse rpc_PoweronAllONUs)
| means_poweron_pon pon i : Uint32 pon = Some i ->
    rest_means uni qsn "POST" ["v1"; "olt"; "port"; pon; "onus"] (answers AResponse (rpc_PoweronONUsOnPON i))
| means_eapol sn : rest_means uni qsn "POST" ["v1"; "olt"; "onus"; sn; "eapol"] (answers AResponse (rpc_RestartEapol sn uni))
| means_dhcp sn : rest_means uni qsn "POST" ["v1"; "olt"; "onus"; sn; "dhcp"] (answers AResponse (rpc_RestartDhcp sn uni))
| means_onu_alarm sn ty st : rest_means uni qsn "POST" ["v1"; "olt"; "onus"; sn; "alarms"; ty; st]
    (answers AResponse (rpc_SetOnuAlarmIndication sn ty [] st))
| means_olt_alarm ty id st i : Uint32 id = Some i ->
    rest_means uni qsn "POST" ["v1"; "olt"; "ports"; ty; id; "alarms"; "los"; st]
      (answers AResponse (rpc_SetOltAlarmIndication i ty st))
| means_flows sn : rest_means uni qsn "GET" ["v1"; "olt"; "onus"; sn; "flows"] (answers AFlows (rpc_GetFlows sn))
| means_all_flows : rest_means uni qsn "GET" ["v1"; "olt"; "flows"] (answers AFlows (rpc_GetFlows qsn))
| means_igmp sn u act group vlan i a v : Int32 u = Some i -> Enum act SubActionTypes_value = Some a -> Int32 vlan = Some v ->
    rest_means uni qsn "POST" ["v1"; "olt"; "onus"; sn; u; "igmp"; act; group; vlan]
      (answers AResponse (rpc_ChangeIgmpState sn i a group v))
| means_schedulers sn : rest_means uni qsn "GET" ["v1"; "olt"; "onus"; sn; "trafficschedulers"]
    (answers ASchedulers (rpc_GetOnuTrafficSchedulers sn)).

(** The reply to a request that led to a call. *)
Definition calling (m : M S (error + Answer)) : M S (HttpReply Answer) := fun s =>
  if connected s then (r ← m; mret (match r with inl e => RpcError e | inr a => Forwarded a end)) s
  else Done (RpcError "connection error", s).

(** ** The handlers *)

Lemma client_calling {A : Type} (f : A -> Answer) (m : M S (error + A)) s :
  (x ← client connected f m; mret (match x with inl e => HTTPError e | inr a => Forwarded a end)) s = calling (answers f m) s.
Proof. unfold client, calling, answers. mred. destruct (connected s); [|done]. by destruct (m s) as [[[e|a] s']| | |]. Qed.

(** A request without a query or a form. *)
Definition no_query (r : Request) : Prop := exists r', ParseForm r = (None, r') /\ Form r' = Some [].

(** A request function either finds an error, but not if the path means a call and
    there is no query, or makes a call. *)
Definition requests (f : Request -> Params -> M S (GwError + Answer)) (meth : string) (comps : list string) (r : Request)
    (ps : Params) : Prop :=
  ((exists msg, forall s, f r ps s = Done (inl (InvalidArgument msg), s)) /\
   (no_query r -> forall m, ~ rest_means "" "" meth comps m)) \/
  (exists (uni qsn : string) (A : Type) (g : A -> Answer) m,
     rest_means uni qsn meth comps (answers g m) /\ (no_query r -> uni = "" /\ qsn = "") /\
     forall s, f r ps s = client connected g m s).

(** The query of a request for a message: an error, or a message in which the
    fields that are kept out are as before. *)
Lemma query_result {T B : Type} (fs : list (Field T)) filter (g : T -> B) r m :
  length (Base filter) = length (Check_ filter) ->
  (forall path vs m m', HasCommonPrefix filter path = Done false -> populateFieldValueFromPath path fs vs m = inr m' ->
     g m' = g m) ->
  (exists msg, query fs filter r m = Done (inl (InvalidArgument msg)) /\ ~ no_query r) \/
  (exists m', query fs filter r m = Done (inr m') /\ g m' = g m /\ (no_query r -> m' = m)).
Proof.
  intros Hl Hg. unfold query, no_query. destruct (ParseForm r) as [[e|] r'] eqn:Ep.
  { left. exists e. split; [done|]. by intros (? & ? & _). }
  destruct (query_total fs filter m (default [] (Form r')) Hl) as [[e|m'] Hq]; rewrite Hq; cbn; [left|right].
  - exists e. split; [done|]. intros (? & [= <-] & Hf). by rewrite Hf in Hq.
  - exists m'. split_and!; [done|by eapply query_keeps|]. intros (? & [= <-] & Hf). rewrite Hf in Hq. by injection Hq.
Qed.

Lemma kept_uni path vs (m m' : UNIRequest) filter :
  leaf filter ["OnuSerialNumber"] = true -> HasCommonPrefix filter path = Done false ->
  populateFieldValueFromPath path UNIRequest_fields vs m = inr m' -> unr_OnuSerialNumber m' = unr_OnuSerialNumber m.
Proof.
  intros Hl Hp. destruct path as [|x path]; [done|]. destruct (decide (x = "OnuSerialNumber")) as [->|Hx].
  { pose proof (leaf_prefix filter ["OnuSerialNumber"] path Hl) as Hq. cbn [app] in Hq. congruence. }
  cbn [populateFieldValueFromPath]. destruct vs as [|v more]; [done|]. unfold ByName, UNIRequest_fields.
  cbn [List.find f_name f_json]. rewrite bool_decide_false by congruence. case_bool_decide; [|intros; by simplify_eq].
  destruct path; [|done]. case_decide; [done|]. by intros [= <-].
Qed.
Lemma kept_alarm path vs (m m' : ONUAlarmRequest) :
  HasCommonPrefix filter_BBSim_SetOnuAlarmIndication_0 path = Done false ->
  populateFieldValueFromPath path ONUAlarmRequest_fields vs m = inr m' -> m' = m.
Proof.
  intros Hp. destruct path as [|x path]; [done|].
  assert (forall f, f ∈ ["AlarmType"; "SerialNumber"; "Status"] -> f <> x) as Hx.
  { intros f Hf ->. assert (leaf filter_BBSim_SetOnuAlarmIndication_0 [x] = true) as Hl
      by (repeat (apply elem_of_cons in Hf as [->|Hf]; [by vm_compute|]); by apply not_elem_of_nil in Hf).
    pose proof (leaf_prefix _ [x] path Hl) as Hq. cbn [app] in Hq. congruence. }
  cbn [populateFieldValueFromPath]. destruct vs as [|v more]; [done|]. unfold ByName, ONUAlarmRequest_fields.
  cbn [List.find f_name f_json]. rewrite 3!bool_decide_false by (apply Hx; set_solver).
  case_bool_decide; [by destruct path|]. by intros [= <-].
Qed.

(** The three messages the query fills in. *)
Lemma uni_query filter r sn :
  leaf filter ["OnuSerialNumber"] = true -> length (Base filter) = length (Check_ filter) ->
  (exists msg, query UNIRequest_fields filter r {| unr_OnuSerialNumber := sn; unr_UniID := "" |} =
     Done (inl (InvalidArgument msg)) /\ ~ no_query r) \/
  (exists uni, query UNIRequest_fields filter r {| unr_OnuSerialNumber := sn; unr_UniID := "" |} =
     Done (inr {| unr_OnuSerialNumber := sn; unr_UniID := uni |}) /\ (no_query r -> uni = "")).
Proof.
  intros Hleaf Hlen. destruct (query_result UNIRequest_fields filter unr_OnuSerialNumber r
    {| unr_OnuSerialNumber := sn; unr_UniID := "" |} Hlen) as [Hq|([sn' uni] & Hq & Hsn & Hf)]; [|by left|right].
  - intros path vs m m' Hp. by eapply kept_uni.
  - cbn in Hsn. subst sn'. exists uni. split; [done|]. intros Hr. by injection (Hf Hr).
Qed.
Lemma alarm_query r m :
  (exists msg, query ONUAlarmRequest_fields filter_BBSim_SetOnuAlarmIndication_0 r m = Done (inl (InvalidArgument msg)) /\
     ~ no_query r) \/
  query ONUAlarmRequest_fields filter_BBSim_SetOnuAlarmIndication_0 r m = Done (inr m).
Proof.
  destruct (query_result ONUAlarmRequest_fields filter_BBSim_SetOnuAlarmIndication_0 id r m) as [Hq|(m' & Hq & Hm & _)];
    [done| |by left|right].
  - intros path vs m1 m2 Hp Hm. by apply (kept_alarm path vs).
  - unfold id in Hm. by rewrite Hq, Hm.
Qed.
Lemma flows_query r :
  (exists msg, query ONURequest_fields filter_BBSim_GetFlows_1 r {| onr_SerialNumber := "" |} = Done (inl (InvalidArgument msg)) /\
     ~ no_query r) \/
  (exists sn, query ONURequest_fields filter_BBSim_GetFlows_1 r {| onr_SerialNumber := "" |} =
     Done (inr {| onr_SerialNumber := sn |}) /\ (no_query r -> sn = "")).
Proof.
  destruct (query_result ONURequest_fields filter_BBSim_GetFlows_1 (fun _ => tt) r {| onr_SerialNumber := "" |})
    as [Hq|([sn] & Hq & _ & Hf)]; [done|done|by left|right]. exists sn. split; [done|]. intros Hr. by injection (Hf Hr).
Qed.

(** The components of a path that matches a template, and the values of its
    variables. *)
Ltac invert_template Hm :=
  unfold match_template in Hm; let Hlen := fresh "Hlen" in case_decide as Hlen; [|discriminate Hm]; cbn [length olt onus] in Hlen;
  repeat match type of Hlen with
         | Datatypes.S _ = length ?l => destruct l; [discriminate Hlen|cbn [length] in Hlen; apply Nat.succ_inj in Hlen]
         | 0%nat = length ?l => destruct l; [clear Hlen|discriminate Hlen]
         end;
  cbn [match_prefix olt onus] in Hm; repeat (case_decide; [|discriminate Hm]); subst;
  cbn [fmap option_fmap option_map] in Hm; injection Hm as <-.

(** A conversion that went well or not. *)
Definition converted {A : Type} (name : string) (a : option A) : outcome (GwError + A) :=
  Done match a with
  | None => inl (InvalidArgument ("type mismatch, parameter: " +:+ name))
  | Some a => inr a
  end.

(** Reading the values a template bound, and converting them. *)
Ltac read_params :=
  repeat match goal with
         | |- context [param ?ps ?n ?c] =>
             let v := eval vm_compute in (ps !! n) in
             lazymatch v with Some ?x => change (param ps n c) with (converted n (c x)) end
         end;
  repeat match goal with
         | |- context [converted _ (Uint32 ?x)] => destruct (Uint32 x) eqn:?
         | |- context [converted _ (Int32 ?x)] => destruct (Int32 x) eqn:?
         | |- context [converted _ (Enum ?x ?vs)] => destruct (Enum x vs) eqn:?
         end.
Ltac run_checked := intros ?; repeat (rewrite checked_param; cbv beta iota delta [converted]); reflexivity.
Ltac the_route f :=
  intros comps ps r Hm; cbn [rt_template GET POST DELETE] in Hm; invert_template Hm; exists f; split; [reflexivity|];
  cbn [rt_method GET POST DELETE];
  unfold requests,
    request_BBSim_Version_0, request_BBSim_GetOlt_0, request_BBSim_GetOlt_1, request_BBSim_RebootOlt_0,
    request_BBSim_GetONU_0, request_BBSim_GetONUs_0, request_BBSim_ShutdownONU_0, request_BBSim_ShutdownAllONUs_0,
    request_BBSim_ShutdownONUsOnPON_0, request_BBSim_PoweronONU_0, request_BBSim_PoweronAllONUs_0,
    request_BBSim_PoweronONUsOnPON_0, request_BBSim_RestartEapol_0, request_BBSim_RestartDhcp_0,
    request_BBSim_SetOnuAlarmIndication_0, request_BBSim_SetOltAlarmIndication_0, request_BBSim_GetFlows_0,
    request_BBSim_GetFlows_1, request_BBSim_ChangeIgmpState_0, request_BBSim_GetOnuTrafficSchedulers_0;
  read_params.
Ltac refused := left; split; [eexists; run_checked|intros _ ? Hmeans; inversion Hmeans; congruence].
Ltac called := right; exists "", ""; do 3 eexists; split_and!; [by constructor|done|run_checked].
Ltac run_query Hq := intros ?; repeat (rewrite checked_param; cbv beta iota delta [converted]; rewrite ?Hq); reflexivity.
Ltac asked Hq Hn msg := left; split; [exists msg; run_query Hq|by intros ?%Hn].
Ltac answered_with Hq uni sn c :=
  right; exists uni, sn; do 3 eexists; split_and!; [apply c|by intros; split; auto|run_query Hq].

Definition route_ok (rt : Route S Answer) : Prop := forall comps ps r,
  match_template (rt_template rt) comps = Some ps ->
  exists f, rt_func rt = handled f /\ requests f (rt_method rt) comps r ps.

(** Every route of the description makes the call its path means. *)
Lemma rest_api_ok : Forall route_ok rest_api.
Proof.
  repeat apply List.Forall_cons; [..|apply List.Forall_nil].
  - the_route (request_BBSim_Version_0 version connected). called.
  - the_route (@request_BBSim_GetOlt_0 S _ connected). called.
  - the_route (@request_BBSim_GetOlt_1 S _ connected). called.
  - the_route (@request_BBSim_RebootOlt_0 S _ connected). called.
  - the_route (@request_BBSim_GetONU_0 S _ connected). called.
  - the_route (@request_BBSim_GetONUs_0 S _ connected). called.
  - the_route (@request_BBSim_ShutdownONU_0 S _ connected). called.
  - the_route (@request_BBSim_ShutdownAllONUs_0 S _ connected). called.
  - the_route (@request_BBSim_ShutdownONUsOnPON_0 S _ connected); [called|refused].
  - the_route (@request_BBSim_PoweronONU_0 S _ connected). called.
  - the_route (@request_BBSim_PoweronAllONUs_0 S _ connected). called.
  - the_route (@request_BBSim_PoweronONUsOnPON_0 S _ connected); [called|refused].
  - the_route (@request_BBSim_RestartEapol_0 S _ _ connected).
    destruct (uni_query filter_BBSim_RestartEapol_0 r s2) as [(msg & Hq & Hn)|(uni & Hq & Hu)]; [done|done|asked Hq Hn msg|].
    answered_with Hq uni "" means_eapol.
  - the_route (@request_BBSim_RestartDhcp_0 S _ _ connected).
    destruct (uni_query filter_BBSim_RestartDhcp_0 r s2) as [(msg & Hq & Hn)|(uni & Hq & Hu)]; [done|done|asked Hq Hn msg|].
    answered_with Hq uni "" means_dhcp.
  - the_route (@request_BBSim_SetOnuAlarmIndication_0 S _ _ connected).
    destruct (alarm_query r {| oar_AlarmType := s4; oar_SerialNumber := s2; oar_Status := s5; oar_Parameters := [] |})
      as [(msg & Hq & Hn)|Hq]; [asked Hq Hn msg|answered_with Hq "" "" means_onu_alarm].
  - the_route (@request_BBSim_SetOltAlarmIndication_0 S _ connected); [called|refused].
  - the_route (@request_BBSim_GetFlows_0 S _ connected). called.
  - the_route (@request_BBSim_GetFlows_1 S _ _ connected).
    destruct (flows_query r) as [(msg & Hq & Hn)|(sn & Hq & Hu)]; [asked Hq Hn msg|answered_with Hq "" sn means_all_flows].
  - the_route (@request_BBSim_ChangeIgmpState_0 S _ connected); [called|refused..].
  - the_route (@request_BBSim_GetOnuTrafficSchedulers_0 S _ connected). called.
Qed.

(** ** Serving *)

Definition rest_mux : ServeMux S Answer := RegisterBBSimHandlerClient version connected NewServeMux.

(** The method a request is served for: its own, or for a posted form that of the
    override, or [GET] when its own has no route. *)
Definition stands_for (r : Request) (meth : string) : Prop :=
  meth = Method r \/
  isPathLengthFallback r = true /\ (meth = "GET" \/ MethodOverride r <> "" /\ meth = ToUpper (MethodOverride r)).

Lemma means_route uni qsn meth comps m :
  rest_means uni qsn meth comps m -> exists rt, rt ∈ rest_api /\ rt_method rt = meth /\
    is_Some (match_template (rt_template rt) comps).
Proof.
  assert (forall (l : list (Route S Answer)) meth comps,
    existsb (fun rt => bool_decide (rt_method rt = meth) && bool_decide (is_Some (match_template (rt_template rt) comps))) l = true ->
    exists rt, rt ∈ l /\ rt_method rt = meth /\ is_Some (match_template (rt_template rt) comps)) as Hex.
  { intros l meth' comps' (rt & Hin%list_elem_of_In & [H1%bool_decide_eq_true H2%bool_decide_eq_true]%andb_true_iff)%existsb_exists.
    by exists rt. }
  intros Hm. apply Hex. destruct Hm; reflexivity.
Qed.
Lemma means_unique uni qsn meth comps m m' :
  rest_means uni qsn meth comps m -> rest_means uni qsn meth comps m' -> m = m'.
Proof. destruct 1; inversion 1; subst; simplify_eq; done. Qed.

Lemma handled_calling f r ps (A : Type) (g : A -> Answer) (m : M S (error + A)) s :
  Annotation r = None -> (forall s, f r ps s = client connected g m s) -> handled f r ps s = calling (answers g m) s.
Proof. intros Hr Hf. unfold handled. rewrite Hr, <- client_calling. mred. by rewrite Hf. Qed.

(** A route that is run finds an error or makes a call. *)
Lemma route_run rt comps ps r s :
  rt ∈ rest_api -> match_template (rt_template rt) comps = Some ps ->
  (exists msg, rt_func rt r ps s = Done (HttpError 400 msg, s) /\
     (Annotation r = None -> no_query r -> forall m, ~ rest_means "" "" (rt_method rt) comps m)) \/
  (exists uni qsn m, rest_means uni qsn (rt_method rt) comps m /\ (no_query r -> uni = "" /\ qsn = "") /\
     rt_func rt r ps s = calling m s).
Proof.
  intros Hin Hps. pose proof rest_api_ok as Hok. rewrite Forall_forall in Hok.
  destruct (Hok rt Hin comps ps r Hps) as (f & -> & Hf). destruct (Annotation r) as [e|] eqn:Ea.
  { left. exists e. unfold handled. rewrite Ea. by split. }
  destruct Hf as [[[msg Hf] Hn]|(uni & qsn & A & g & m & Hm & Hq & Hf)]; [left; exists msg|right; exists uni, qsn, (answers g m)].
  - unfold handled. rewrite Ea. mred. rewrite Hf. by split.
  - split_and!; [done..|]. by apply handled_calling.
Qed.

Lemma route_request_sound comps r s reply s' :
  route_request rest_api comps r s = Done (reply, s') ->
  (exists st msg, reply = HttpError st msg /\ s' = s) \/
  (exists meth uni qsn m, (meth = Method r \/ isPathLengthFallback r = true /\ meth = "GET") /\
     rest_means uni qsn meth comps m /\ calling m s = Done (reply, s')).
Proof.
  intros [He|(x & r' & Hr & Hx)]%route_request_cases; [by left|].
  assert (exists meth, (meth = Method r \/ isPathLengthFallback r = true /\ meth = "GET") /\ x ∈ hits rest_api meth comps)
    as (meth & Hmeth & Hin) by (destruct Hx as [Hx|[Hf Hx]]; eauto).
  apply hits_elem in Hin as (Hin & <- & Hps).
  destruct (route_run x.1 comps x.2 r' s Hin Hps) as [(msg & Hf & _)|(uni & qsn & m & Hm & _ & Hf)]; rewrite Hf in Hr.
  - left. injection Hr as <- <-. by exists 400, msg.
  - right. by exists (rt_method x.1), uni, qsn, m.
Qed.

Lemma route_request_complete comps r s m :
  Annotation r = None -> no_query r -> rest_means "" "" (Method r) comps m -> route_request rest_api comps r s = calling m s.
Proof.
  intros Ha Hq Hm. destruct (means_route _ _ _ _ _ Hm) as (rt & Hin & Hmeth & Hps).
  unfold route_request. destruct (hits rest_api (Method r) comps) as [|x l] eqn:Em.
  { exfalso. rewrite <- Hmeth in Em. by apply (hits_intro rest_api rt comps Hin Hps). }
  destruct (hits_elem rest_api (Method r) comps x) as (Hx & Hxm & Hxs);
    [rewrite Em; apply elem_of_cons; by left|]. destruct x as [rx px].
  cbn [fst snd] in *. destruct (route_run rx comps px r s Hx Hxs) as [(msg & _ & Hno)|(uni & qsn & m' & Hm' & Hu & ->)].
  - exfalso. eapply Hno; [done..|]. rewrite Hxm. exact Hm.
  - destruct (Hu Hq) as [-> ->]. rewrite Hxm in Hm'. by rewrite (means_unique _ _ _ _ _ _ Hm Hm').
Qed.

Lemma rest_mux_register : rest_mux = register (BBSim_handlers version connected).
Proof. unfold rest_mux, RegisterBBSimHandlerClient, register. reflexivity. Qed.

(** Serving is routing by the description. *)
Lemma rest_serve order r path s :
  (forall m, m ∈ ["GET"; "POST"; "DELETE"] -> m ∈ order) -> Path r = String slash path ->
  ServeHTTP order rest_mux r s =
    match override_method r with
    | inl e => Done (HTTPError (InvalidArgument e), s)
    | inr r => route_request rest_api (split_on slash path) r s
    end.
Proof.
  intros Hord Hp. unfold ServeHTTP. rewrite Hp, decide_True by done. destruct (override_method r) as [e|r']; [done|].
  destruct rest_api_clear as [Hu Hs]. rewrite rest_mux_register.
  refine (serve_routes (BBSim_handlers version connected) rest_api rest_api_implements order (split_on slash path) r' s Hu Hs _).
  intros rt Hin. apply Hord. by apply rest_api_methods.
Qed.

Lemma override_stands r r' meth :
  override_method r = inr r' -> meth = Method r' \/ isPathLengthFallback r' = true /\ meth = "GET" -> stands_for r meth.
Proof.
  unfold override_method, stands_for. case_decide; [|by intros [= <-]; tauto].
  destruct (isPathLengthFallback r) eqn:Hf; [|intros [= <-]; rewrite Hf; tauto].
  destruct (ParseForm r) as [[e|] r1]; [done|]. intros [= <-]. cbn [Method set_Method upd]. tauto.
Qed.

(** C26: the REST API serves its description.  Whatever the order in which the
    gateway visits its methods: a request whose path the description does not have,
    or whose values do not have their types, is refused and changes nothing; every
    other one makes exactly the call the description gives to its method and path,
    with the values of the path (the query cannot replace them; the UNI, and the
    serial number where the path has none, are some values of the query), and passes
    on the answer of the call.  A request without a query, without a header that
    overrides its method and with headers the gateway can read, whose path means a
    call, makes that call. *)
Theorem rest_serves_description (order : list string) (r : Request) (path : string) (s : S) :
  (forall m, m ∈ ["GET"; "POST"; "DELETE"] -> m ∈ order) -> Path r = String slash path ->
  (forall reply s', ServeHTTP order rest_mux r s = Done (reply, s') ->
     (exists st msg, reply = HttpError st msg /\ s' = s) \/
     (exists meth uni qsn m, stands_for r meth /\ rest_means uni qsn meth (split_on slash path) m /\
        calling m s = Done (reply, s'))) /\
  (forall m, MethodOverride r = "" -> Annotation r = None -> no_query r ->
     rest_means "" "" (Method r) (split_on slash path) m -> ServeHTTP order rest_mux r s = calling m s).
Proof.
  intros Hord Hp. rewrite (rest_serve order r path) by done. split.
  - intros reply s'. destruct (override_method r) as [e|r'] eqn:Eo; [intros [= <- <-]; left; by eexists _, _|].
    intros [He|(meth & uni & qsn & m & Hmeth & Hm & Hc)]%route_request_sound; [by left|right].
    exists meth, uni, qsn, m. split_and!; [by eapply override_stands|done..].
  - intros m Ho Ha Hq Hm. unfold override_method. rewrite decide_False by (rewrite Ho; tauto).
    by apply route_request_complete.
Qed.
End RestApi.

(** ** Without a connection *)

(** Registered over the handlers themselves the gateway is the same as over a
    connection that is up. *)
Lemma local_gateway_same {S : Type} `{BBSimServer S} `{HttpLib} version (mux : ServeMux S Answer) :
  RegisterBBSimHandlerServer version mux = RegisterBBSimHandlerClient version (fun _ => true) mux.
Proof.
  unfold RegisterBBSimHandlerServer, RegisterBBSimHandlerClient.
  by replace (local_BBSim_handlers version) with (BBSim_handlers version (fun _ : S => true)) by reflexivity.
Qed.

(** ** BBSim behind its gateway *)

Section Bbsim.
  Context `{UuidLib} `{Rand} `{HttpLib} (openOltAddress hostIP : string) (nniDhcpTrapVid draw : Z)
    (event_value : string -> option Z) (event_names : string) (version : VersionNumber) (connected : Bbsim -> bool).
#[local] Instance the_server : BBSimServer Bbsim :=
  bbsim_server openOltAddress hostIP nniDhcpTrapVid draw event_value event_names.

(** The calls of the API that get something change nothing. *)
Lemma reading_same {A : Type} (f : OltDevice -> outcome (error + A)) b x b' : reading f b = Done (x, b') -> b' = b.
Proof. unfold reading. mred. unfold of_outcome. destruct (f _); [|done..]. by intros [= _ <-]. Qed.
Lemma on_api_same {A : Type} (m : M OltDevice A) b x b' :
  (forall s a s', m s = Done (a, s') -> s' = s) -> on_api m b = Done (x, b') -> b' = b.
Proof.
  intros Hm. unfold on_api, on_dms, on_olt, zoom. destruct (m (d_olt (dms b))) as [[a o]| | |] eqn:E; [|done..].
  apply Hm in E. subst o. intros [= <- <-]. by destruct b as [[] ?].
Qed.
Lemma GetFlows_same sn s x s' : GetFlows sn s = Done (x, s') -> s' = s.
Proof.
  unfold GetFlows. mred. case_decide; [by intros [= _ <-]|]. destruct (FindOnuBySn s sn) as [e|[p i]]; [by intros [= _ <-]|].
  unfold of_outcome. destruct (load_flows _ _); [|done..]. by intros [= _ <-].
Qed.
Lemma get_means_same uni qsn comps m b x b' :
  rest_means version uni qsn "GET" comps m -> m b = Done (x, b') -> b' = b.
Proof.
  intros Hm. inversion Hm; subst; unfold answers; intros Hr; apply bind_Done_inv in Hr as (y & b1 & E & Hr);
    injection Hr as <- <-; cbn in E; try (by apply reading_same in E).
  - unfold rpc_Version in E. by injection E as _ <-.
  - apply bind_Done_inv in E as (z & b2 & E & Hr). injection Hr as _ <-. apply on_api_same in E; [done|]. apply GetFlows_same.
  - apply bind_Done_inv in E as (z & b2 & E & Hr). injection Hr as _ <-. apply on_api_same in E; [done|]. apply GetFlows_same.
  - apply on_api_same in E; [done|]. intros s a s'. unfold GetOnuTrafficSchedulers. mred.
    destruct (FindOnuBySn s sn) as [e|[p i]]; by intros [= _ <-].
Qed.

(** What a request means is one call of the interface, or the version. *)
Lemma means_step uni qsn meth comps m b x b' :
  rest_means version uni qsn meth comps m -> m b = Done (x, b') -> b' = b \/ rpc_step b b'.
Proof.
  assert (forall A (f : A -> Answer) (k : M Bbsim (error + A)), rpc_of k ->
    answers f k b = Done (x, b') -> b' = b \/ rpc_step b b') as Ha.
  { intros A f k Hk Hr. unfold answers in Hr. apply bind_Done_inv in Hr as (y & b1 & E & Hr). injection Hr as _ <-.
    right. by eapply rpc_of_perform. }
  intros Hm. destruct Hm; try (apply Ha; constructor).
  unfold answers, rpc_Version. intros Hr. left. by injection Hr.
Qed.

(** Requests one after the other, each with the order in which the methods are
    visited for it. *)
Fixpoint run_requests (rs : list (list string * Request)) : M Bbsim (list (HttpReply Answer)) :=
  match rs with
  | [] => mret []
  | (order, r) :: rest =>
      x ← ServeHTTP order (rest_mux version connected) r; l ← run_requests rest; mret (x :: l)
  end.

Lemma request_refines order r reply b b' :
  (forall m, m ∈ ["GET"; "POST"; "DELETE"] -> m ∈ order) ->
  ServeHTTP order (rest_mux version connected) r b = Done (reply, b') ->
  (b' = b \/ rpc_step b b') /\ (Method r = "GET" -> b' = b).
Proof.
  intros Hord Hr. destruct (Path r) as [|c path] eqn:Ep.
  { unfold ServeHTTP in Hr. rewrite Ep in Hr. injection Hr as <- <-. by auto. }
  destruct (decide (c = slash)) as [->|Hc].
  2: { unfold ServeHTTP in Hr. rewrite Ep, decide_False in Hr by done. injection Hr as <- <-. by auto. }
  rewrite (rest_serve version connected order r path b Hord Ep) in Hr.
  destruct (override_method r) as [e|r'] eqn:Eo; [injection Hr as <- <-; by auto|].
  apply route_request_sound in Hr as [(st & msg & _ & ->)|(meth & uni & qsn & m & Hmeth & Hm & Hc)]; [by auto|].
  pose proof (override_stands r r' meth Eo Hmeth) as Hst.
  unfold calling in Hc. destruct (connected b); [|injection Hc as _ <-; by auto].
  apply bind_Done_inv in Hc as (x & b1 & E & Hr). injection Hr as _ <-. split; [by eapply means_step|].
  intros Hget. assert (meth = "GET") as ->.
  { destruct Hst as [->|[Hf _]]; [done|]. apply bool_decide_eq_true in Hf as [Hf _]. congruence. }
  by eapply get_means_same.
Qed.

(** C27: REST requests only do what the API can do, and getting is safe.  Whatever
    requests the gateway serves, the simulator goes through calls of the server
    interface and nothing else, at most one for each request; and requests that
    all have the method GET, whatever their headers, change nothing in the
    simulator. *)
Theorem rest_refines_api (rs : list (list string * Request)) (b : Bbsim) (l : list (HttpReply Answer)) (b' : Bbsim) :
  Forall (fun x => forall m, m ∈ ["GET"; "POST"; "DELETE"] -> m ∈ x.1) rs ->
  run_requests rs b = Done (l, b') ->
  bsteps rpc_step (length rs) b b' /\
  (Forall (fun x => Method x.2 = "GET") rs -> b' = b).
Proof.
  intros Hord. revert b l. induction Hord as [|[order r] rs Ho Hord IH]; intros b l Hr; cbn [run_requests] in Hr.
  { injection Hr as <- <-. split; [constructor|done]. }
  apply bind_Done_inv in Hr as (x & b1 & E1 & Hr). apply bind_Done_inv in Hr as (l' & b2 & E2 & Hr). injection Hr as <- <-.
  destruct (IH b1 l' E2) as [Hsteps Hsame]. destruct (request_refines order r x b b1 Ho E1) as [Hstep Hget].
  split.
  - cbn [length]. destruct Hstep as [->|Hstep]; [by apply bsteps_S|by eapply bsteps_l].
  - intros Hall. inversion Hall; subst. rewrite (Hsame ltac:(done)). by apply Hget.
Qed.
End Bbsim.

(** ** Examples *)

(** Queries without escapes. *)
#[local] Instance simple_http : HttpLib := {|
  ParseQuery := fun q =>
    (if decide (q = "") then []
     else (fun kv => match split_on (chr 61) kv with k :: v :: _ => (k, [v]) | _ => (kv, [""]) end) <$> split_on (chr 38) q, None);
  ParseMediaType := fun ct => (ct, None) |}.
#[local] Instance rest_example_server : BBSimServer Bbsim :=
  @bbsim_server plain_uuid zero_rand ":50060" "10.0.0.1" 0 0 (fun _ => None) "".
Definition a_version : VersionNumber := {| vn_version := "1.16.0"; vn_buildTime := ""; vn_commitHash := ""; vn_gitStatus := "" |}.
Definition a_request (meth path q : string) : Request := {|
  Method := meth; Path := path; MethodOverride := ""; ContentType := ""; RawQuery := q; Body := ""; Form := None;
  Annotation := None |}.
Definition a_mux : ServeMux Bbsim Answer := rest_mux a_version (fun _ => true).

Lemma all_visited (order : list string) :
  forallb (fun m => bool_decide (m ∈ order)) ["GET"; "POST"; "DELETE"] = true ->
  forall m, m ∈ ["GET"; "POST"; "DELETE"] -> m ∈ order.
Proof. rewrite forallb_forall. intros Ho m Hm%list_elem_of_In. exact (proj1 (bool_decide_eq_true _) (Ho m Hm)). Qed.

Lemma rest_serves_description_witness :
  ServeHTTP ["DELETE"; "GET"; "POST"] a_mux (a_request "POST" "/v1/olt/onus/BBSM00000001/dhcp" "") managed_bbsim =
    calling (fun _ => true) (answers AResponse (rpc_RestartDhcp "BBSM00000001" "")) managed_bbsim.
Proof.
  refine (proj2 (rest_serves_description a_version (fun _ => true) ["DELETE"; "GET"; "POST"]
    (a_request "POST" "/v1/olt/onus/BBSM00000001/dhcp" "") "v1/olt/onus/BBSM00000001/dhcp" managed_bbsim _ eq_refl)
    _ eq_refl eq_refl _ _).
  - by apply all_visited.
  - eexists. split; reflexivity.
  - apply means_dhcp.
Defined.

Lemma rest_refines_api_witness :
  exists l b', @run_requests plain_uuid zero_rand simple_http ":50060" "10.0.0.1" 0 0 (fun _ => None) "" a_version (fun _ => true)
      [(["DELETE"; "GET"; "POST"], a_request "DELETE" "/v1/olt/onus" "");
       (["GET"; "POST"; "DELETE"], a_request "GET" "/v1/olt/onus" "")] managed_bbsim = Done (l, b') /\
    bsteps rpc_step 2 managed_bbsim b'.
Proof.
  destruct (@run_requests plain_uuid zero_rand simple_http ":50060" "10.0.0.1" 0 0 (fun _ => None) "" a_version (fun _ => true)
    [(["DELETE"; "GET"; "POST"], a_request "DELETE" "/v1/olt/onus" "");
     (["GET"; "POST"; "DELETE"], a_request "GET" "/v1/olt/onus" "")] managed_bbsim) as [[l b']| | |] eqn:E;
    [|vm_compute in E; discriminate E..].
  exists l, b'. split; [reflexivity|].
  refine (proj1 (@rest_refines_api plain_uuid zero_rand simple_http ":50060" "10.0.0.1" 0 0 (fun _ => None) "" a_version
    (fun _ => true) _ _ _ _ _ E)).
  apply List.Forall_cons; [by apply all_visited|]. apply List.Forall_cons; [by apply all_visited|constructor].
Defined.

(** The query of a request to restart a protocol names the UNI, and not another
    ONU. *)
Lemma query_cannot_redirect :
  request_BBSim_RestartEapol_0 (fun _ : Bbsim => true) (a_request "POST" "" "OnuSerialNumber=other&UniID=0")
    {["OnuSerialNumber" := "BBSM00000001"]} managed_bbsim =
  client (fun _ => true) AResponse (rpc_RestartEapol "BBSM00000001" "0") managed_bbsim.
Proof. vm_compute. reflexivity. Qed.

(** The parameters of an alarm cannot be given over REST: a request that tries to is
    refused. *)
Lemma alarm_parameters_refused v s :
  request_BBSim_SetOnuAlarmIndication_0 (fun _ : Bbsim => true)
    ((a_request "POST" "" "") <| Form := Some [("Parameters", [v])] |>)
    {["SerialNumber" := "BBSM00000001"; "AlarmType" := "DYING_GASP"; "Status" := "on"]} s =
  Done (inl (InvalidArgument "parsing list"), s).
Proof. vm_compute. reflexivity. Qed.
