(* ===== verification/RestLegacy.v ===== *)
(** * The REST gateway of the legacy API

    [api/legacy/bbsim.pb.gw.go], generated from the annotations of
    [api/legacy/bbsim.proto], with the handlers of the legacy API that answer without
    doing anything.  No call of the legacy API changes the device, so the state of
    this gateway is the device it reports on. *)
From S2P Require Import Prelude OmciTypes Types OltFlows Olt Api ApiInfo Sadis Web Gateway.
From S2P Require Import OltProps.
Open Scope Z_scope.
Open Scope string_scope.

(** ** Messages *)

(** Source: api/legacy/bbsim.pb.go, [Tconts] (without its schedulers, which no text
    stands for). *)
Record Tconts := { tc_uni_id : Z; tc_port_no : Z }.
#[export] Instance eta_tconts : Eta Tconts := fun r => {| tc_uni_id := tc_uni_id r; tc_port_no := tc_port_no r |}.
#[export] Instance set_tc_uni_id : Setter tc_uni_id := ltac:(setter_for tc_uni_id).
#[export] Instance set_tc_port_no : Setter tc_port_no := ltac:(setter_for tc_port_no).

(** Source: api/legacy/bbsim.pb.go, [ONUInfo]. *)
Record ONUInfoRequest := {
  ir_onu_id : Z; ir_pon_port_id : Z; ir_onu_serial : string; ir_oper_state : string; ir_onu_state : string;
  ir_gemports : list Z; ir_tconts : option Tconts }.
#[export] Instance eta_ir : Eta ONUInfoRequest := fun r => {|
  ir_onu_id := ir_onu_id r; ir_pon_port_id := ir_pon_port_id r; ir_onu_serial := ir_onu_serial r;
  ir_oper_state := ir_oper_state r; ir_onu_state := ir_onu_state r; ir_gemports := ir_gemports r; ir_tconts := ir_tconts r |}.
#[export] Instance set_ir_onu_id : Setter ir_onu_id := ltac:(setter_for ir_onu_id).
#[export] Instance set_ir_pon_port_id : Setter ir_pon_port_id := ltac:(setter_for ir_pon_port_id).
#[export] Instance set_ir_onu_serial : Setter ir_onu_serial := ltac:(setter_for ir_onu_serial).
#[export] Instance set_ir_oper_state : Setter ir_oper_state := ltac:(setter_for ir_oper_state).
#[export] Instance set_ir_onu_state : Setter ir_onu_state := ltac:(setter_for ir_onu_state).
#[export] Instance set_ir_gemports : Setter ir_gemports := ltac:(setter_for ir_gemports).
#[export] Instance set_ir_tconts : Setter ir_tconts := ltac:(setter_for ir_tconts).
Definition empty_onu : ONUInfoRequest := {|
  ir_onu_id := 0; ir_pon_port_id := 0; ir_onu_serial := ""; ir_oper_state := ""; ir_onu_state := ""; ir_gemports := [];
  ir_tconts := None |}.

(** Source: api/legacy/bbsim.pb.go, [ONURequest]. *)
Record LegacyONURequest := { lr_onu : option ONUInfoRequest; lr_onus_batch : option (list ONUInfoRequest) }.
#[export] Instance eta_lr : Eta LegacyONURequest := fun r => {| lr_onu := lr_onu r; lr_onus_batch := lr_onus_batch r |}.
#[export] Instance set_lr_onu : Setter lr_onu := ltac:(setter_for lr_onu).
#[export] Instance set_lr_onus_batch : Setter lr_onus_batch := ltac:(setter_for lr_onus_batch).
Definition empty_request : LegacyONURequest := {| lr_onu := None; lr_onus_batch := None |}.

(** Source: api/legacy/bbsim.pb.go, [PortInfo]. *)
Record PortInfoRequest := {
  pr_port_type : string; pr_port_id : Z; pr_max_onus : Z; pr_active_onus : Z; pr_port_state : string; pr_alarm_state : string }.
#[export] Instance eta_pr : Eta PortInfoRequest := fun r => {|
  pr_port_type := pr_port_type r; pr_port_id := pr_port_id r; pr_max_onus := pr_max_onus r; pr_active_onus := pr_active_onus r;
  pr_port_state := pr_port_state r; pr_alarm_state := pr_alarm_state r |}.
#[export] Instance set_pr_port_type : Setter pr_port_type := ltac:(setter_for pr_port_type).
#[export] Instance set_pr_port_id : Setter pr_port_id := ltac:(setter_for pr_port_id).
#[export] Instance set_pr_max_onus : Setter pr_max_onus := ltac:(setter_for pr_max_onus).
#[export] Instance set_pr_active_onus : Setter pr_active_onus := ltac:(setter_for pr_active_onus).
#[export] Instance set_pr_port_state : Setter pr_port_state := ltac:(setter_for pr_port_state).
#[export] Instance set_pr_alarm_state : Setter pr_alarm_state := ltac:(setter_for pr_alarm_state).

(** Source: api/legacy/bbsim.pb.go, [DeviceAction]. *)
Record DeviceAction := { da_device_type : string; da_serial_number : string; da_action : string }.
#[export] Instance eta_da : Eta DeviceAction := fun r => {|
  da_device_type := da_device_type r; da_serial_number := da_serial_number r; da_action := da_action r |}.
#[export] Instance set_da_device_type : Setter da_device_type := ltac:(setter_for da_device_type).
#[export] Instance set_da_serial_number : Setter da_serial_number := ltac:(setter_for da_serial_number).
#[export] Instance set_da_action : Setter da_action := ltac:(setter_for da_action).

(** The fields of the messages. *)
Definition text {T : Type} (name json : string) (set : string -> T -> T) : Field T := Scalar name json (fun v => Some (set v)).
Definition number {T : Type} (name json : string) (set : Z -> T -> T) : Field T :=
  Scalar name json (fun v => n ← ParseUint32 v; Some (set n)).
Definition Tconts_fields : list (Field Tconts) :=
  [number "uni_id" "uniId" (fun v m => m <| tc_uni_id := v |>); number "port_no" "portNo" (fun v m => m <| tc_port_no := v |>);
   Repeated "tconts" "tconts" (fun _ => None)].
Definition ONUInfo_fields : list (Field ONUInfoRequest) :=
  [number "onu_id" "onuId" (fun v m => m <| ir_onu_id := v |>);
   number "pon_port_id" "ponPortId" (fun v m => m <| ir_pon_port_id := v |>);
   text "onu_serial" "onuSerial" (fun v m => m <| ir_onu_serial := v |>);
   text "oper_state" "operState" (fun v m => m <| ir_oper_state := v |>);
   text "onu_state" "onuState" (fun v m => m <| ir_onu_state := v |>);
   Repeated "gemports" "gemports" (fun v => n ← ParseUint32 v; Some (fun m => m <| ir_gemports ::= fun l => (l ++ [n])%list |>));
   Nested "tconts" "tconts" (fun m => default {| tc_uni_id := 0; tc_port_no := 0 |} (ir_tconts m))
     (fun t m => m <| ir_tconts := Some t |>) Tconts_fields].
Definition ONUs_fields : list (Field (list ONUInfoRequest)) := [Repeated "onus" "onus" (fun _ => None)].
Definition LegacyONURequest_fields : list (Field LegacyONURequest) :=
  [Nested "onu" "onu" (fun m => default empty_onu (lr_onu m)) (fun o m => m <| lr_onu := Some o |>) ONUInfo_fields;
   Nested "onus_batch" "onusBatch" (fun m => default [] (lr_onus_batch m)) (fun l m => m <| lr_onus_batch := Some l |>)
     ONUs_fields].
Definition PortInfo_fields : list (Field PortInfoRequest) :=
  [text "port_type" "portType" (fun v m => m <| pr_port_type := v |>);
   number "port_id" "portId" (fun v m => m <| pr_port_id := v |>);
   number "pon_port_max_onus" "ponPortMaxOnus" (fun v m => m <| pr_max_onus := v |>);
   number "pon_port_active_onus" "ponPortActiveOnus" (fun v m => m <| pr_active_onus := v |>);
   text "port_state" "portState" (fun v m => m <| pr_port_state := v |>);
   text "alarm_state" "alarmState" (fun v m => m <| pr_alarm_state := v |>)].
Definition DeviceAction_fields : list (Field DeviceAction) :=
  [text "device_type" "deviceType" (fun v m => m <| da_device_type := v |>);
   text "serial_number" "serialNumber" (fun v m => m <| da_serial_number := v |>);
   text "action" "action" (fun v m => m <| da_action := v |>)].

(** ** The handlers of the legacy API that do nothing *)

(** Source: internal/bbsim/api/grpc_api_server_legacy.go:38-38, [RequestAccepted]. *)
Definition RequestAccepted : string := "API request accepted".

(** What the calls answer; the response of [GenerateONUAlarm] is nil. *)
Inductive LegacyAnswer :=
| LOlt (o : Z * string * string * list PortInfo) | LPorts (l : list PortInfo) | LOnus (l : list ONUInfo)
| LResponse (status_msg : option string) | LFlows.

(** Source: internal/bbsim/api/grpc_api_server_legacy.go, [BBSimLegacyServer.ONUActivate]. *)
Definition ONUActivate (req : LegacyONURequest) : error + LegacyAnswer := inr (LResponse (Some RequestAccepted)).

(** Source: internal/bbsim/api/grpc_api_server_legacy.go, [BBSimLegacyServer.ONUDeactivate]. *)
Definition ONUDeactivate (req : LegacyONURequest) : error + LegacyAnswer := inr (LResponse (Some RequestAccepted)).

(** Source: internal/bbsim/api/grpc_api_server_legacy.go, [BBSimLegacyServer.GenerateONUAlarm]. *)
Definition GenerateONUAlarm (onu_serial alarm_type status : string) : error + LegacyAnswer := inr (LResponse None).

(** Source: internal/bbsim/api/grpc_api_server_legacy.go, [BBSimLegacyServer.GenerateOLTAlarm]. *)
Definition GenerateOLTAlarm (port_id : Z) (port_type status : string) : error + LegacyAnswer :=
  inr (LResponse (Some RequestAccepted)).

(** Source: internal/bbsim/api/grpc_api_server_legacy.go, [BBSimLegacyServer.PerformDeviceAction]. *)
Definition PerformDeviceAction (req : DeviceAction) : error + LegacyAnswer := inr (LResponse (Some RequestAccepted)).

(** Source: internal/bbsim/api/grpc_api_server_legacy.go, [BBSimLegacyServer.GetFlows]. *)
Definition legacy_GetFlows (req : ONUInfoRequest) : error + LegacyAnswer := inr LFlows.

(** ** Patterns *)

(** Source: api/legacy/bbsim.pb.gw.go:2368-2368, [pattern_BBSimService_OLTStatus_0]. *)
Definition pattern_BBSimService_OLTStatus_0 : Pattern := MustPattern (NewPattern 1
  [2; 0; 2; 1]
  ["v0"; "olt"] "").
(** Source: api/legacy/bbsim.pb.gw.go:2370-2370, [pattern_BBSimService_OLTStatus_1]. *)
Definition pattern_BBSimService_OLTStatus_1 : Pattern := MustPattern (NewPattern 1
  [2; 0; 2; 1; 2; 2]
  ["v0"; "olt"; "status"] "").
(** Source: api/legacy/bbsim.pb.gw.go:2372-2372, [pattern_BBSimService_PortStatus_0]. *)
Definition pattern_BBSimService_PortStatus_0 : Pattern := MustPattern (NewPattern 1
  [2; 0; 2; 1; 2; 2; 1; 0; 4; 1; 5; 3; 1; 0; 4; 1; 5; 4; 2; 5]
  ["v0"; "olt"; "ports"; "port_type"; "port_id"; "status"] "").
(** Source: api/legacy/bbsim.pb.gw.go:2374-2374, [pattern_BBSimService_ONUStatus_0]. *)
Definition pattern_BBSimService_ONUStatus_0 : Pattern := MustPattern (NewPattern 1
  [2; 0; 2; 1; 2; 2]
  ["v0"; "olt"; "onus"] "").
(** Source: api/legacy/bbsim.pb.gw.go:2376-2376, [pattern_BBSimService_ONUStatus_1]. *)
Definition pattern_BBSimService_ONUStatus_1 : Pattern := MustPattern (NewPattern 1
  [2; 0; 2; 1; 2; 2; 1; 0; 4; 1; 5; 3]
  ["v0"; "olt"; "onus"; "onu.onu_serial"] "").
(** Source: api/legacy/bbsim.pb.gw.go:2378-2378, [pattern_BBSimService_ONUStatus_2]. *)
Definition pattern_BBSimService_ONUStatus_2 : Pattern := MustPattern (NewPattern 1
  [2; 0; 2; 1; 2; 2; 1; 0; 4; 1; 5; 3; 2; 4; 1; 0; 4; 1; 5; 5]
  ["v0"; "olt"; "ports"; "onu.pon_port_id"; "onus"; "onu.onu_id"] "").
(** Source: api/legacy/bbsim.pb.gw.go:2380-2380, [pattern_BBSimService_ONUStatus_3]. *)
Definition pattern_BBSimService_ONUStatus_3 : Pattern := MustPattern (NewPattern 1
  [2; 0; 2; 1; 2; 2; 1; 0; 4; 1; 5; 3; 2; 4]
  ["v0"; "olt"; "ports"; "onu.pon_port_id"; "onus"] "").
(** Source: api/legacy/bbsim.pb.gw.go:2382-2382, [pattern_BBSimService_ONUActivate_0]. *)
Definition pattern_BBSimService_ONUActivate_0 : Pattern := MustPattern (NewPattern 1
  [2; 0; 2; 1; 2; 2]
  ["v0"; "olt"; "onus"] "").
(** Source: api/legacy/bbsim.pb.gw.go:2384-2384, [pattern_BBSimService_ONUActivate_1]. *)
Definition pattern_BBSimService_ONUActivate_1 : Pattern := MustPattern (NewPattern 1
  [2; 0; 2; 1; 2; 2; 1; 0; 4; 1; 5; 3; 2; 4]
  ["v0"; "olt"; "ports"; "onu.pon_port_id"; "onus"] "").
(** Source: api/legacy/bbsim.pb.gw.go:2386-2386, [pattern_BBSimService_ONUActivate_2]. *)
Definition pattern_BBSimService_ONUActivate_2 : Pattern := MustPattern (NewPattern 1
  [2; 0; 2; 1; 2; 2; 1; 0; 4; 1; 5; 3; 2; 4; 1; 0; 4; 1; 5; 5]
  ["v0"; "olt"; "ports"; "onu.pon_port_id"; "onus"; "onu.onu_serial"] "").
(** Source: api/legacy/bbsim.pb.gw.go:2388-2388, [pattern_BBSimService_ONUDeactivate_0]. *)
Definition pattern_BBSimService_ONUDeactivate_0 : Pattern := MustPattern (NewPattern 1
  [2; 0; 2; 1; 2; 2]
  ["v0"; "olt"; "onus"] "").
(** Source: api/legacy/bbsim.pb.gw.go:2390-2390, [pattern_BBSimService_ONUDeactivate_1]. *)
Definition pattern_BBSimService_ONUDeactivate_1 : Pattern := MustPattern (NewPattern 1
  [2; 0; 2; 1; 2; 2; 1; 0; 4; 1; 5; 3]
  ["v0"; "olt"; "onus"; "onu.onu_serial"] "").
(** Source: api/legacy/bbsim.pb.gw.go:2392-2392, [pattern_BBSimService_ONUDeactivate_2]. *)
Definition pattern_BBSimService_ONUDeactivate_2 : Pattern := MustPattern (NewPattern 1
  [2; 0; 2; 1; 2; 2; 1; 0; 4; 1; 5; 3; 2; 4]
  ["v0"; "olt"; "ports"; "onu.pon_port_id"; "onus"] "").
(** Source: api/legacy/bbsim.pb.gw.go:2394-2394, [pattern_BBSimService_ONUDeactivate_3]. *)
Definition pattern_BBSimService_ONUDeactivate_3 : Pattern := MustPattern (NewPattern 1
  [2; 0; 2; 1; 2; 2; 1; 0; 4; 1; 5; 3; 2; 4; 1; 0; 4; 1; 5; 5]
  ["v0"; "olt"; "ports"; "onu.pon_port_id"; "onus"; "onu.onu_id"] "").
(** Source: api/legacy/bbsim.pb.gw.go:2396-2396, [pattern_BBSimService_GenerateONUAlarm_0]. *)
Definition pattern_BBSimService_GenerateONUAlarm_0 : Pattern := MustPattern (NewPattern 1
  [2; 0; 2; 1; 2; 2; 1; 0; 4; 1; 5; 3; 2; 4; 1; 0; 4; 1; 5; 5; 1; 0; 4; 1; 5; 6]
  ["v0"; "olt"; "onus"; "onu_serial"; "alarms"; "alarm_type"; "status"] "").
(** Source: api/legacy/bbsim.pb.gw.go:2398-2398, [pattern_BBSimService_GenerateOLTAlarm_0]. *)
Definition pattern_BBSimService_GenerateOLTAlarm_0 : Pattern := MustPattern (NewPattern 1
  [2; 0; 2; 1; 2; 2; 1; 0; 4; 1; 5; 3; 1; 0; 4; 1; 5; 4; 2; 5; 2; 6; 1; 0; 4; 1; 5; 7]
  ["v0"; "olt"; "ports"; "port_type"; "port_id"; "alarms"; "los"; "status"] "").
(** Source: api/legacy/bbsim.pb.gw.go:2400-2400, [pattern_BBSimService_PerformDeviceAction_0]. *)
Definition pattern_BBSimService_PerformDeviceAction_0 : Pattern := MustPattern (NewPattern 1
  [2; 0; 1; 0; 4; 1; 5; 1; 2; 2; 1; 0; 4; 1; 5; 2]
  ["v0"; "device_type"; "action"] "").
(** Source: api/legacy/bbsim.pb.gw.go:2402-2402, [pattern_BBSimService_PerformDeviceAction_1]. *)
Definition pattern_BBSimService_PerformDeviceAction_1 : Pattern := MustPattern (NewPattern 1
  [2; 0; 2; 1; 1; 0; 4; 1; 5; 2; 1; 0; 4; 1; 5; 3; 2; 4; 1; 0; 4; 1; 5; 4]
  ["v0"; "olt"; "device_type"; "serial_number"; "action"] "").
(** Source: api/legacy/bbsim.pb.gw.go:2404-2404, [pattern_BBSimService_GetFlows_0]. *)
Definition pattern_BBSimService_GetFlows_0 : Pattern := MustPattern (NewPattern 1
  [2; 0; 2; 1; 2; 2]
  ["v0"; "olt"; "flows"] "").
(** Source: api/legacy/bbsim.pb.gw.go:2406-2406, [pattern_BBSimService_GetFlows_1]. *)
Definition pattern_BBSimService_GetFlows_1 : Pattern := MustPattern (NewPattern 1
  [2; 0; 2; 1; 2; 2; 1; 0; 4; 1; 5; 3; 2; 4]
  ["v0"; "olt"; "onu"; "onu_serial"; "flows"] "").

(** ** The query parameters that are kept out *)

(** Source: api/legacy/bbsim.pb.gw.go:71-71, [filter_BBSimService_PortStatus_0]. *)
Definition filter_BBSimService_PortStatus_0 : DoubleArray :=
  {| Encoding := list_to_map [("port_type", 0%nat); ("port_id", 1%nat)];
     Base := [1; 1; 2; 0; 0]%nat; Check_ := [0; 1; 1; 2; 3]%nat |}.
(** Source: api/legacy/bbsim.pb.gw.go:161-161, [filter_BBSimService_ONUStatus_0]. *)
Definition filter_BBSimService_ONUStatus_0 : DoubleArray :=
  {| Encoding := ∅;
     Base := []; Check_ := [] |}.
(** Source: api/legacy/bbsim.pb.gw.go:197-197, [filter_BBSimService_ONUStatus_1]. *)
Definition filter_BBSimService_ONUStatus_1 : DoubleArray :=
  {| Encoding := list_to_map [("onu", 0%nat); ("onu_serial", 1%nat)];
     Base := [1; 1; 1; 0]%nat; Check_ := [0; 1; 2; 3]%nat |}.
(** Source: api/legacy/bbsim.pb.gw.go:267-267, [filter_BBSimService_ONUStatus_2]. *)
Definition filter_BBSimService_ONUStatus_2 : DoubleArray :=
  {| Encoding := list_to_map [("onu", 0%nat); ("pon_port_id", 1%nat); ("onu_id", 2%nat)];
     Base := [1; 1; 1; 2; 0; 0]%nat; Check_ := [0; 1; 2; 2; 3; 4]%nat |}.
(** Source: api/legacy/bbsim.pb.gw.go:357-357, [filter_BBSimService_ONUStatus_3]. *)
Definition filter_BBSimService_ONUStatus_3 : DoubleArray :=
  {| Encoding := list_to_map [("onu", 0%nat); ("pon_port_id", 1%nat)];
     Base := [1; 1; 1; 0]%nat; Check_ := [0; 1; 2; 3]%nat |}.
(** Source: api/legacy/bbsim.pb.gw.go:427-427, [filter_BBSimService_ONUActivate_0]. *)
Definition filter_BBSimService_ONUActivate_0 : DoubleArray :=
  {| Encoding := list_to_map [("onus_batch", 0%nat)];
     Base := [1; 1; 0]%nat; Check_ := [0; 1; 2]%nat |}.
(** Source: api/legacy/bbsim.pb.gw.go:471-471, [filter_BBSimService_ONUActivate_1]. *)
Definition filter_BBSimService_ONUActivate_1 : DoubleArray :=
  {| Encoding := list_to_map [("onu", 0%nat); ("pon_port_id", 1%nat)];
     Base := [1; 1; 1; 0]%nat; Check_ := [0; 1; 2; 3]%nat |}.
(** Source: api/legacy/bbsim.pb.gw.go:541-541, [filter_BBSimService_ONUActivate_2]. *)
Definition filter_BBSimService_ONUActivate_2 : DoubleArray :=
  {| Encoding := list_to_map [("onu", 0%nat); ("pon_port_id", 1%nat); ("onu_serial", 2%nat)];
     Base := [1; 1; 1; 2; 0; 0]%nat; Check_ := [0; 1; 2; 2; 3; 4]%nat |}.
(** Source: api/legacy/bbsim.pb.gw.go:631-631, [filter_BBSimService_ONUDeactivate_0]. *)
Definition filter_BBSimService_ONUDeactivate_0 : DoubleArray :=
  {| Encoding := list_to_map [("onus_batch", 0%nat)];
     Base := [1; 1; 0]%nat; Check_ := [0; 1; 2]%nat |}.
(** Source: api/legacy/bbsim.pb.gw.go:675-675, [filter_BBSimService_ONUDeactivate_1]. *)
Definition filter_BBSimService_ONUDeactivate_1 : DoubleArray :=
  {| Encoding := list_to_map [("onu", 0%nat); ("onu_serial", 1%nat)];
     Base := [1; 1; 1; 0]%nat; Check_ := [0; 1; 2; 3]%nat |}.
(** Source: api/legacy/bbsim.pb.gw.go:745-745, [filter_BBSimService_ONUDeactivate_2]. *)
Definition filter_BBSimService_ONUDeactivate_2 : DoubleArray :=
  {| Encoding := list_to_map [("onu", 0%nat); ("pon_port_id", 1%nat)];
     Base := [1; 1; 1; 0]%nat; Check_ := [0; 1; 2; 3]%nat |}.
(** Source: api/legacy/bbsim.pb.gw.go:815-815, [filter_BBSimService_ONUDeactivate_3]. *)
Definition filter_BBSimService_ONUDeactivate_3 : DoubleArray :=
  {| Encoding := list_to_map [("onu", 0%nat); ("pon_port_id", 1%nat); ("onu_id", 2%nat)];
     Base := [1; 1; 1; 2; 0; 0]%nat; Check_ := [0; 1; 2; 2; 3; 4]%nat |}.
(** Source: api/legacy/bbsim.pb.gw.go:1089-1089, [filter_BBSimService_PerformDeviceAction_0]. *)
Definition filter_BBSimService_PerformDeviceAction_0 : DoubleArray :=
  {| Encoding := list_to_map [("device_type", 0%nat); ("action", 1%nat)];
     Base := [1; 1; 2; 0; 0]%nat; Check_ := [0; 1; 1; 2; 3]%nat |}.
(** Source: api/legacy/bbsim.pb.gw.go:1271-1271, [filter_BBSimService_GetFlows_0]. *)
Definition filter_BBSimService_GetFlows_0 : DoubleArray :=
  {| Encoding := ∅;
     Base := []; Check_ := [] |}.
(** Source: api/legacy/bbsim.pb.gw.go:1307-1307, [filter_BBSimService_GetFlows_1]. *)
Definition filter_BBSimService_GetFlows_1 : DoubleArray :=
  {| Encoding := list_to_map [("onu_serial", 0%nat)];
     Base := [1; 1; 0]%nat; Check_ := [0; 1; 2]%nat |}.

Section Gateway.
  Context `{HttpLib} (decode : string -> option (error + list ONUInfoRequest) * string) (connected : OltDevice -> bool).

(** A call of the client of the gateway. *)
Definition legacy_client (f : OltDevice -> error + LegacyAnswer) : M OltDevice (GwError + LegacyAnswer) := fun s =>
  Done (if connected s then match f s with inl e => inl (FromRpc e) | inr a => inr a end
        else inl (FromRpc "connection error"), s).

(** A call of the handlers themselves. *)
Definition legacy_server (f : OltDevice -> error + LegacyAnswer) : M OltDevice (GwError + LegacyAnswer) := fun s =>
  Done (match f s with inl e => inl (FromRpc e) | inr a => inr a end, s).

(** The calls that report. *)
Definition call_OLTStatus (s : OltDevice) : error + LegacyAnswer := inr (LOlt (OLTStatus s)).
Definition call_PortStatus (req : PortInfoRequest) (s : OltDevice) : error + LegacyAnswer :=
  match PortStatus (pr_port_type req) (pr_port_id req) s with (_, Some e) => inl e | (l, None) => inr (LPorts l) end.
Definition call_ONUStatus (req : LegacyONURequest) (s : OltDevice) : error + LegacyAnswer :=
  match ONUStatus ((fun o => (ir_onu_serial o, ir_pon_port_id o, ir_onu_id o)) <$> lr_onu req) s with
  | (_, Some e) => inl e
  | (l, None) => inr (LOnus l)
  end.

(** A value of the path that is put into a field of a message of the request. *)
Definition field_param {T : Type} (fs : list (Field T)) (m : T) (ps : Params) (name : string) : outcome (GwError + T) :=
  param ps name (fun v => match PopulateFieldFromPath fs m name v with inl _ => None | inr m' => Some m' end).

(** The batch in the body of a request ([decode] gives [None] at the end of the
    body, and what is left of it). *)
Definition decode_batch (req : Request) (m : LegacyONURequest) : outcome (GwError + LegacyONURequest * Request) :=
  let '(r, rest) := decode (Body req) in
  Done match r with
  | Some (inl e) => inl (InvalidArgument e)
  | Some (inr l) => inr (m <| lr_onus_batch := Some l |>, req <| Body := rest |>)
  | None => inr (m, req <| Body := rest |>)
  end.

(** ** Requests *)

(** Source: api/legacy/bbsim.pb.gw.go:34-41, [request_BBSimService_OLTStatus_0]. *)
Definition request_BBSimService_OLTStatus_0 (req : Request) (pathParams : Params) :
    M OltDevice (GwError + LegacyAnswer) :=
  legacy_client call_OLTStatus.
(** Source: api/legacy/bbsim.pb.gw.go:43-50, [local_request_BBSimService_OLTStatus_0]. *)
Definition local_request_BBSimService_OLTStatus_0 (req : Request) (pathParams : Params) :
    M OltDevice (GwError + LegacyAnswer) :=
  legacy_server call_OLTStatus.
(** Source: api/legacy/bbsim.pb.gw.go:52-59, [request_BBSimService_OLTStatus_1]. *)
Definition request_BBSimService_OLTStatus_1 (req : Request) (pathParams : Params) :
    M OltDevice (GwError + LegacyAnswer) :=
  legacy_client call_OLTStatus.
(** Source: api/legacy/bbsim.pb.gw.go:61-68, [local_request_BBSimService_OLTStatus_1]. *)
Definition local_request_BBSimService_OLTStatus_1 (req : Request) (pathParams : Params) :
    M OltDevice (GwError + LegacyAnswer) :=
  legacy_server call_OLTStatus.
(** Source: api/legacy/bbsim.pb.gw.go:74-115, [request_BBSimService_PortStatus_0]. *)
Definition request_BBSimService_PortStatus_0 (req : Request) (pathParams : Params) :
    M OltDevice (GwError + LegacyAnswer) :=
  port_type ←? param pathParams "port_type" Some;
  port_id ←? param pathParams "port_id" Uint32;
  let protoReq := {| pr_port_type := port_type; pr_port_id := port_id; pr_max_onus := 0; pr_active_onus := 0;
    pr_port_state := ""; pr_alarm_state := "" |} in
  protoReq ←? query PortInfo_fields filter_BBSimService_PortStatus_0 req protoReq;
  legacy_client (call_PortStatus protoReq).
(** Source: api/legacy/bbsim.pb.gw.go:117-158, [local_request_BBSimService_PortStatus_0]. *)
Definition local_request_BBSimService_PortStatus_0 (req : Request) (pathParams : Params) :
    M OltDevice (GwError + LegacyAnswer) :=
  port_type ←? param pathParams "port_type" Some;
  port_id ←? param pathParams "port_id" Uint32;
  let protoReq := {| pr_port_type := port_type; pr_port_id := port_id; pr_max_onus := 0; pr_active_onus := 0;
    pr_port_state := ""; pr_alarm_state := "" |} in
  protoReq ←? query PortInfo_fields filter_BBSimService_PortStatus_0 req protoReq;
  legacy_server (call_PortStatus protoReq).
(** Source: api/legacy/bbsim.pb.gw.go:164-178, [request_BBSimService_ONUStatus_0]. *)
Definition request_BBSimService_ONUStatus_0 (req : Request) (pathParams : Params) :
    M OltDevice (GwError + LegacyAnswer) :=
  let protoReq := empty_request in
  protoReq ←? query LegacyONURequest_fields filter_BBSimService_ONUStatus_0 req protoReq;
  legacy_client (call_ONUStatus protoReq).
(** Source: api/legacy/bbsim.pb.gw.go:180-194, [local_request_BBSimService_ONUStatus_0]. *)
Definition local_request_BBSimService_ONUStatus_0 (req : Request) (pathParams : Params) :
    M OltDevice (GwError + LegacyAnswer) :=
  let protoReq := empty_request in
  protoReq ←? query LegacyONURequest_fields filter_BBSimService_ONUStatus_0 req protoReq;
  legacy_server (call_ONUStatus protoReq).
(** Source: api/legacy/bbsim.pb.gw.go:200-231, [request_BBSimService_ONUStatus_1]. *)
Definition request_BBSimService_ONUStatus_1 (req : Request) (pathParams : Params) :
    M OltDevice (GwError + LegacyAnswer) :=
  let protoReq := empty_request in
  protoReq ←? field_param LegacyONURequest_fields protoReq pathParams "onu.onu_serial";
  protoReq ←? query LegacyONURequest_fields filter_BBSimService_ONUStatus_1 req protoReq;
  legacy_client (call_ONUStatus protoReq).
(** Source: api/legacy/bbsim.pb.gw.go:233-264, [local_request_BBSimService_ONUStatus_1]. *)
Definition local_request_BBSimService_ONUStatus_1 (req : Request) (pathParams : Params) :
    M OltDevice (GwError + LegacyAnswer) :=
  let protoReq := empty_request in
  protoReq ←? field_param LegacyONURequest_fields protoReq pathParams "onu.onu_serial";
  protoReq ←? query LegacyONURequest_fields filter_BBSimService_ONUStatus_1 req protoReq;
  legacy_server (call_ONUStatus protoReq).
(** Source: api/legacy/bbsim.pb.gw.go:270-311, [request_BBSimService_ONUStatus_2]. *)
Definition request_BBSimService_ONUStatus_2 (req : Request) (pathParams : Params) :
    M OltDevice (GwError + LegacyAnswer) :=
  let protoReq := empty_request in
  protoReq ←? field_param LegacyONURequest_fields protoReq pathParams "onu.pon_port_id";
  protoReq ←? field_param LegacyONURequest_fields protoReq pathParams "onu.onu_id";
  protoReq ←? query LegacyONURequest_fields filter_BBSimService_ONUStatus_2 req protoReq;
  legacy_client (call_ONUStatus protoReq).
(** Source: api/legacy/bbsim.pb.gw.go:313-354, [local_request_BBSimService_ONUStatus_2]. *)
Definition local_request_BBSimService_ONUStatus_2 (req : Request) (pathParams : Params) :
    M OltDevice (GwError + LegacyAnswer) :=
  let protoReq := empty_request in
  protoReq ←? field_param LegacyONURequest_fields protoReq pathParams "onu.pon_port_id";
  protoReq ←? field_param LegacyONURequest_fields protoReq pathParams "onu.onu_id";
  protoReq ←? query LegacyONURequest_fields filter_BBSimService_ONUStatus_2 req protoReq;
  legacy_server (call_ONUStatus protoReq).
(** Source: api/legacy/bbsim.pb.gw.go:360-391, [request_BBSimService_ONUStatus_3]. *)
Definition request_BBSimService_ONUStatus_3 (req : Request) (pathParams : Params) :
    M OltDevice (GwError + LegacyAnswer) :=
  let protoReq := empty_request in
  protoReq ←? field_param LegacyONURequest_fields protoReq pathParams "onu.pon_port_id";
  protoReq ←? query LegacyONURequest_fields filter_BBSimService_ONUStatus_3 req protoReq;
  legacy_client (call_ONUStatus protoReq).
(** Source: api/legacy/bbsim.pb.gw.go:393-424, [local_request_BBSimService_ONUStatus_3]. *)
Definition local_request_BBSimService_ONUStatus_3 (req : Request) (pathParams : Params) :
    M OltDevice (GwError + LegacyAnswer) :=
  let protoReq := empty_request in
  protoReq ←? field_param LegacyONURequest_fields protoReq pathParams "onu.pon_port_id";
  protoReq ←? query LegacyONURequest_fields filter_BBSimService_ONUStatus_3 req protoReq;
  legacy_server (call_ONUStatus protoReq).
(** Source: api/legacy/bbsim.pb.gw.go:430-448, [request_BBSimService_ONUActivate_0]. *)
Definition request_BBSimService_ONUActivate_0 (req : Request) (pathParams : Params) :
    M OltDevice (GwError + LegacyAnswer) :=
  let protoReq := empty_request in
  decoded ←? decode_batch req protoReq;
  let protoReq := decoded.1 in
  protoReq ←? query LegacyONURequest_fields filter_BBSimService_ONUActivate_0 decoded.2 protoReq;
  legacy_client (fun _ => ONUActivate protoReq).
(** Source: api/legacy/bbsim.pb.gw.go:450-468, [local_request_BBSimService_ONUActivate_0]. *)
Definition local_request_BBSimService_ONUActivate_0 (req : Request) (pathParams : Params) :
    M OltDevice (GwError + LegacyAnswer) :=
  let protoReq := empty_request in
  decoded ←? decode_batch req protoReq;
  let protoReq := decoded.1 in
  protoReq ←? query LegacyONURequest_fields filter_BBSimService_ONUActivate_0 decoded.2 protoReq;
  legacy_server (fun _ => ONUActivate protoReq).
(** Source: api/legacy/bbsim.pb.gw.go:474-505, [request_BBSimService_ONUActivate_1]. *)
Definition request_BBSimService_ONUActivate_1 (req : Request) (pathParams : Params) :
    M OltDevice (GwError + LegacyAnswer) :=
  let protoReq := empty_request in
  protoReq ←? field_param LegacyONURequest_fields protoReq pathParams "onu.pon_port_id";
  protoReq ←? query LegacyONURequest_fields filter_BBSimService_ONUActivate_1 req protoReq;
  legacy_client (fun _ => ONUActivate protoReq).
(** Source: api/legacy/bbsim.pb.gw.go:507-538, [local_request_BBSimService_ONUActivate_1]. *)
Definition local_request_BBSimService_ONUActivate_1 (req : Request) (pathParams : Params) :
    M OltDevice (GwError + LegacyAnswer) :=
  let protoReq := empty_request in
  protoReq ←? field_param LegacyONURequest_fields protoReq pathParams "onu.pon_port_id";
  protoReq ←? query LegacyONURequest_fields filter_BBSimService_ONUActivate_1 req protoReq;
  legacy_server (fun _ => ONUActivate protoReq).
(** Source: api/legacy/bbsim.pb.gw.go:544-585, [request_BBSimService_ONUActivate_2]. *)
Definition request_BBSimService_ONUActivate_2 (req : Request) (pathParams : Params) :
    M OltDevice (GwError + LegacyAnswer) :=
  let protoReq := empty_request in
  protoReq ←? field_param LegacyONURequest_fields protoReq pathParams "onu.pon_port_id";
  protoReq ←? field_param LegacyONURequest_fields protoReq pathParams "onu.onu_serial";
  protoReq ←? query LegacyONURequest_fields filter_BBSimService_ONUActivate_2 req protoReq;
  legacy_client (fun _ => ONUActivate protoReq).
(** Source: api/legacy/bbsim.pb.gw.go:587-628, [local_request_BBSimService_ONUActivate_2]. *)
Definition local_request_BBSimService_ONUActivate_2 (req : Request) (pathParams : Params) :
    M OltDevice (GwError + LegacyAnswer) :=
  let protoReq := empty_request in
  protoReq ←? field_param LegacyONURequest_fields protoReq pathParams "onu.pon_port_id";
  protoReq ←? field_param LegacyONURequest_fields protoReq pathParams "onu.onu_serial";
  protoReq ←? query LegacyONURequest_fields filter_BBSimService_ONUActivate_2 req protoReq;
  legacy_server (fun _ => ONUActivate protoReq).
(** Source: api/legacy/bbsim.pb.gw.go:634-652, [request_BBSimService_ONUDeactivate_0]. *)
Definition request_BBSimService_ONUDeactivate_0 (req : Request) (pathParams : Params) :
    M OltDevice (GwError + LegacyAnswer) :=
  let protoReq := empty_request in
  decoded ←? decode_batch req protoReq;
  let protoReq := decoded.1 in
  protoReq ←? query LegacyONURequest_fields filter_BBSimService_ONUDeactivate_0 decoded.2 protoReq;
  legacy_client (fun _ => ONUDeactivate protoReq).
(** Source: api/legacy/bbsim.pb.gw.go:654-672, [local_request_BBSimService_ONUDeactivate_0]. *)
Definition local_request_BBSimService_ONUDeactivate_0 (req : Request) (pathParams : Params) :
    M OltDevice (GwError + LegacyAnswer) :=
  let protoReq := empty_request in
  decoded ←? decode_batch req protoReq;
  let protoReq := decoded.1 in
  protoReq ←? query LegacyONURequest_fields filter_BBSimService_ONUDeactivate_0 decoded.2 protoReq;
  legacy_server (fun _ => ONUDeactivate protoReq).
(** Source: api/legacy/bbsim.pb.gw.go:678-709, [request_BBSimService_ONUDeactivate_1]. *)
Definition request_BBSimService_ONUDeactivate_1 (req : Request) (pathParams : Params) :
    M OltDevice (GwError + LegacyAnswer) :=
  let protoReq := empty_request in
  protoReq ←? field_param LegacyONURequest_fields protoReq pathParams "onu.onu_serial";
  protoReq ←? query LegacyONURequest_fields filter_BBSimService_ONUDeactivate_1 req protoReq;
  legacy_client (fun _ => ONUDeactivate protoReq).
(** Source: api/legacy/bbsim.pb.gw.go:711-742, [local_request_BBSimService_ONUDeactivate_1]. *)
Definition local_request_BBSimService_ONUDeactivate_1 (req : Request) (pathParams : Params) :
    M OltDevice (GwError + LegacyAnswer) :=
  let protoReq := empty_request in
  protoReq ←? field_param LegacyONURequest_fields protoReq pathParams "onu.onu_serial";
  protoReq ←? query LegacyONURequest_fields filter_BBSimService_ONUDeactivate_1 req protoReq;
  legacy_server (fun _ => ONUDeactivate protoReq).
(** Source: api/legacy/bbsim.pb.gw.go:748-779, [request_BBSimService_ONUDeactivate_2]. *)
Definition request_BBSimService_ONUDeactivate_2 (req : Request) (pathParams : Params) :
    M OltDevice (GwError + LegacyAnswer) :=
  let protoReq := empty_request in
  protoReq ←? field_param LegacyONURequest_fields protoReq pathParams "onu.pon_port_id";
  protoReq ←? query LegacyONURequest_fields filter_BBSimService_ONUDeactivate_2 req protoReq;
  legacy_client (fun _ => ONUDeactivate protoReq).
(** Source: api/legacy/bbsim.pb.gw.go:781-812, [local_request_BBSimService_ONUDeactivate_2]. *)
Definition local_request_BBSimService_ONUDeactivate_2 (req : Request) (pathParams : Params) :
    M OltDevice (GwError + LegacyAnswer) :=
  let protoReq := empty_request in
  protoReq ←? field_param LegacyONURequest_fields protoReq pathParams "onu.pon_port_id";
  protoReq ←? query LegacyONURequest_fields filter_BBSimService_ONUDeactivate_2 req protoReq;
  legacy_server (fun _ => ONUDeactivate protoReq).
(** Source: api/legacy/bbsim.pb.gw.go:818-859, [request_BBSimService_ONUDeactivate_3]. *)
Definition request_BBSimService_ONUDeactivate_3 (req : Request) (pathParams : Params) :
    M OltDevice (GwError + LegacyAnswer) :=
  let protoReq := empty_request in
  protoReq ←? field_param LegacyONURequest_fields protoReq pathParams "onu.pon_port_id";
  protoReq ←? field_param LegacyONURequest_fields protoReq pathParams "onu.onu_id";
  protoReq ←? query LegacyONURequest_fields filter_BBSimService_ONUDeactivate_3 req protoReq;
  legacy_client (fun _ => ONUDeactivate protoReq).
(** Source: api/legacy/bbsim.pb.gw.go:861-902, [local_request_BBSimService_ONUDeactivate_3]. *)
Definition local_request_BBSimService_ONUDeactivate_3 (req : Request) (pathParams : Params) :
    M OltDevice (GwError + LegacyAnswer) :=
  let protoReq := empty_request in
  protoReq ←? field_param LegacyONURequest_fields protoReq pathParams "onu.pon_port_id";
  protoReq ←? field_param LegacyONURequest_fields protoReq pathParams "onu.onu_id";
  protoReq ←? query LegacyONURequest_fields filter_BBSimService_ONUDeactivate_3 req protoReq;
  legacy_server (fun _ => ONUDeactivate protoReq).
(** Source: api/legacy/bbsim.pb.gw.go:904-948, [request_BBSimService_GenerateONUAlarm_0]. *)
Definition request_BBSimService_GenerateONUAlarm_0 (req : Request) (pathParams : Params) :
    M OltDevice (GwError + LegacyAnswer) :=
  onu_serial ←? param pathParams "onu_serial" Some;
  alarm_type ←? param pathParams "alarm_type" Some;
  status ←? param pathParams "status" Some;
  legacy_client (fun _ => GenerateONUAlarm onu_serial alarm_type status).
(** Source: api/legacy/bbsim.pb.gw.go:950-994, [local_request_BBSimService_GenerateONUAlarm_0]. *)
Definition local_request_BBSimService_GenerateONUAlarm_0 (req : Request) (pathParams : Params) :
    M OltDevice (GwError + LegacyAnswer) :=
  onu_serial ←? param pathParams "onu_serial" Some;
  alarm_type ←? param pathParams "alarm_type" Some;
  status ←? param pathParams "status" Some;
  legacy_server (fun _ => GenerateONUAlarm onu_serial alarm_type status).
(** Source: api/legacy/bbsim.pb.gw.go:996-1040, [request_BBSimService_GenerateOLTAlarm_0]. *)
Definition request_BBSimService_GenerateOLTAlarm_0 (req : Request) (pathParams : Params) :
    M OltDevice (GwError + LegacyAnswer) :=
  port_type ←? param pathParams "port_type" Some;
  port_id ←? param pathParams "port_id" Uint32;
  status ←? param pathParams "status" Some;
  legacy_client (fun _ => GenerateOLTAlarm port_id port_type status).
(** Source: api/legacy/bbsim.pb.gw.go:1042-1086, [local_request_BBSimService_GenerateOLTAlarm_0]. *)
Definition local_request_BBSimService_GenerateOLTAlarm_0 (req : Request) (pathParams : Params) :
    M OltDevice (GwError + LegacyAnswer) :=
  port_type ←? param pathParams "port_type" Some;
  port_id ←? param pathParams "port_id" Uint32;
  status ←? param pathParams "status" Some;
  legacy_server (fun _ => GenerateOLTAlarm port_id port_type status).
(** Source: api/legacy/bbsim.pb.gw.go:1092-1133, [request_BBSimService_PerformDeviceAction_0]. *)
Definition request_BBSimService_PerformDeviceAction_0 (req : Request) (pathParams : Params) :
    M OltDevice (GwError + LegacyAnswer) :=
  device_type ←? param pathParams "device_type" Some;
  action ←? param pathParams "action" Some;
  let protoReq := {| da_device_type := device_type; da_serial_number := ""; da_action := action |} in
  protoReq ←? query DeviceAction_fields filter_BBSimService_PerformDeviceAction_0 req protoReq;
  legacy_client (fun _ => PerformDeviceAction protoReq).
(** Source: api/legacy/bbsim.pb.gw.go:1135-1176, [local_request_BBSimService_PerformDeviceAction_0]. *)
Definition local_request_BBSimService_PerformDeviceAction_0 (req : Request) (pathParams : Params) :
    M OltDevice (GwError + LegacyAnswer) :=
  device_type ←? param pathParams "device_type" Some;
  action ←? param pathParams "action" Some;
  let protoReq := {| da_device_type := device_type; da_serial_number := ""; da_action := action |} in
  protoReq ←? query DeviceAction_fields filter_BBSimService_PerformDeviceAction_0 req protoReq;
  legacy_server (fun _ => PerformDeviceAction protoReq).
(** Source: api/legacy/bbsim.pb.gw.go:1178-1222, [request_BBSimService_PerformDeviceAction_1]. *)
Definition request_BBSimService_PerformDeviceAction_1 (req : Request) (pathParams : Params) :
    M OltDevice (GwError + LegacyAnswer) :=
  device_type ←? param pathParams "device_type" Some;
  serial_number ←? param pathParams "serial_number" Some;
  action ←? param pathParams "action" Some;
  let protoReq := {| da_device_type := device_type; da_serial_number := serial_number; da_action := action |} in
  legacy_client (fun _ => PerformDeviceAction protoReq).
(** Source: api/legacy/bbsim.pb.gw.go:1224-1268, [local_request_BBSimService_PerformDeviceAction_1]. *)
Definition local_request_BBSimService_PerformDeviceAction_1 (req : Request) (pathParams : Params) :
    M OltDevice (GwError + LegacyAnswer) :=
  device_type ←? param pathParams "device_type" Some;
  serial_number ←? param pathParams "serial_number" Some;
  action ←? param pathParams "action" Some;
  let protoReq := {| da_device_type := device_type; da_serial_number := serial_number; da_action := action |} in
  legacy_server (fun _ => PerformDeviceAction protoReq).
(** Source: api/legacy/bbsim.pb.gw.go:1274-1288, [request_BBSimService_GetFlows_0]. *)
Definition request_BBSimService_GetFlows_0 (req : Request) (pathParams : Params) :
    M OltDevice (GwError + LegacyAnswer) :=
  let protoReq := empty_onu in
  protoReq ←? query ONUInfo_fields filter_BBSimService_GetFlows_0 req protoReq;
  legacy_client (fun _ => legacy_GetFlows protoReq).
(** Source: api/legacy/bbsim.pb.gw.go:1290-1304, [local_request_BBSimService_GetFlows_0]. *)
Definition local_request_BBSimService_GetFlows_0 (req : Request) (pathParams : Params) :
    M OltDevice (GwError + LegacyAnswer) :=
  let protoReq := empty_onu in
  protoReq ←? query ONUInfo_fields filter_BBSimService_GetFlows_0 req protoReq;
  legacy_server (fun _ => legacy_GetFlows protoReq).
(** Source: api/legacy/bbsim.pb.gw.go:1310-1341, [request_BBSimService_GetFlows_1]. *)
Definition request_BBSimService_GetFlows_1 (req : Request) (pathParams : Params) :
    M OltDevice (GwError + LegacyAnswer) :=
  onu_serial ←? param pathParams "onu_serial" Some;
  let protoReq := empty_onu <| ir_onu_serial := onu_serial |> in
  protoReq ←? query ONUInfo_fields filter_BBSimService_GetFlows_1 req protoReq;
  legacy_client (fun _ => legacy_GetFlows protoReq).
(** Source: api/legacy/bbsim.pb.gw.go:1343-1374, [local_request_BBSimService_GetFlows_1]. *)
Definition local_request_BBSimService_GetFlows_1 (req : Request) (pathParams : Params) :
    M OltDevice (GwError + LegacyAnswer) :=
  onu_serial ←? param pathParams "onu_serial" Some;
  let protoReq := empty_onu <| ir_onu_serial := onu_serial |> in
  protoReq ←? query ONUInfo_fields filter_BBSimService_GetFlows_1 req protoReq;
  legacy_server (fun _ => legacy_GetFlows protoReq).

(** ** Registration *)

Definition LegacyHandler : Type := Request -> Params -> M OltDevice (HttpReply LegacyAnswer).
(** Source: api/legacy/bbsim.pb.gw.go:1924-1944, [RegisterBBSimServiceHandlerClient]. *)
Definition handle_BBSimService_OLTStatus_0 : LegacyHandler := handled request_BBSimService_OLTStatus_0.
(** Source: api/legacy/bbsim.pb.gw.go:1946-1966, [RegisterBBSimServiceHandlerClient]. *)
Definition handle_BBSimService_OLTStatus_1 : LegacyHandler := handled request_BBSimService_OLTStatus_1.
(** Source: api/legacy/bbsim.pb.gw.go:1968-1988, [RegisterBBSimServiceHandlerClient]. *)
Definition handle_BBSimService_PortStatus_0 : LegacyHandler := handled request_BBSimService_PortStatus_0.
(** Source: api/legacy/bbsim.pb.gw.go:1990-2010, [RegisterBBSimServiceHandlerClient]. *)
Definition handle_BBSimService_ONUStatus_0 : LegacyHandler := handled request_BBSimService_ONUStatus_0.
(** Source: api/legacy/bbsim.pb.gw.go:2012-2032, [RegisterBBSimServiceHandlerClient]. *)
Definition handle_BBSimService_ONUStatus_1 : LegacyHandler := handled request_BBSimService_ONUStatus_1.
(** Source: api/legacy/bbsim.pb.gw.go:2034-2054, [RegisterBBSimServiceHandlerClient]. *)
Definition handle_BBSimService_ONUStatus_2 : LegacyHandler := handled request_BBSimService_ONUStatus_2.
(** Source: api/legacy/bbsim.pb.gw.go:2056-2076, [RegisterBBSimServiceHandlerClient]. *)
Definition handle_BBSimService_ONUStatus_3 : LegacyHandler := handled request_BBSimService_ONUStatus_3.
(** Source: api/legacy/bbsim.pb.gw.go:2078-2098, [RegisterBBSimServiceHandlerClient]. *)
Definition handle_BBSimService_ONUActivate_0 : LegacyHandler := handled request_BBSimService_ONUActivate_0.
(** Source: api/legacy/bbsim.pb.gw.go:2100-2120, [RegisterBBSimServiceHandlerClient]. *)
Definition handle_BBSimService_ONUActivate_1 : LegacyHandler := handled request_BBSimService_ONUActivate_1.
(** Source: api/legacy/bbsim.pb.gw.go:2122-2142, [RegisterBBSimServiceHandlerClient]. *)
Definition handle_BBSimService_ONUActivate_2 : LegacyHandler := handled request_BBSimService_ONUActivate_2.
(** Source: api/legacy/bbsim.pb.gw.go:2144-2164, [RegisterBBSimServiceHandlerClient]. *)
Definition handle_BBSimService_ONUDeactivate_0 : LegacyHandler := handled request_BBSimService_ONUDeactivate_0.
(** Source: api/legacy/bbsim.pb.gw.go:2166-2186, [RegisterBBSimServiceHandlerClient]. *)
Definition handle_BBSimService_ONUDeactivate_1 : LegacyHandler := handled request_BBSimService_ONUDeactivate_1.
(** Source: api/legacy/bbsim.pb.gw.go:2188-2208, [RegisterBBSimServiceHandlerClient]. *)
Definition handle_BBSimService_ONUDeactivate_2 : LegacyHandler := handled request_BBSimService_ONUDeactivate_2.
(** Source: api/legacy/bbsim.pb.gw.go:2210-2230, [RegisterBBSimServiceHandlerClient]. *)
Definition handle_BBSimService_ONUDeactivate_3 : LegacyHandler := handled request_BBSimService_ONUDeactivate_3.
(** Source: api/legacy/bbsim.pb.gw.go:2232-2252, [RegisterBBSimServiceHandlerClient]. *)
Definition handle_BBSimService_GenerateONUAlarm_0 : LegacyHandler := handled request_BBSimService_GenerateONUAlarm_0.
(** Source: api/legacy/bbsim.pb.gw.go:2254-2274, [RegisterBBSimServiceHandlerClient]. *)
Definition handle_BBSimService_GenerateOLTAlarm_0 : LegacyHandler := handled request_BBSimService_GenerateOLTAlarm_0.
(** Source: api/legacy/bbsim.pb.gw.go:2276-2296, [RegisterBBSimServiceHandlerClient]. *)
Definition handle_BBSimService_PerformDeviceAction_0 : LegacyHandler := handled request_BBSimService_PerformDeviceAction_0.
(** Source: api/legacy/bbsim.pb.gw.go:2298-2318, [RegisterBBSimServiceHandlerClient]. *)
Definition handle_BBSimService_PerformDeviceAction_1 : LegacyHandler := handled request_BBSimService_PerformDeviceAction_1.
(** Source: api/legacy/bbsim.pb.gw.go:2320-2340, [RegisterBBSimServiceHandlerClient]. *)
Definition handle_BBSimService_GetFlows_0 : LegacyHandler := handled request_BBSimService_GetFlows_0.
(** Source: api/legacy/bbsim.pb.gw.go:2342-2362, [RegisterBBSimServiceHandlerClient]. *)
Definition handle_BBSimService_GetFlows_1 : LegacyHandler := handled request_BBSimService_GetFlows_1.

Definition BBSimService_handlers : list (string * Pattern * LegacyHandler) :=
  [("GET", pattern_BBSimService_OLTStatus_0, handle_BBSimService_OLTStatus_0);
   ("GET", pattern_BBSimService_OLTStatus_1, handle_BBSimService_OLTStatus_1);
   ("GET", pattern_BBSimService_PortStatus_0, handle_BBSimService_PortStatus_0);
   ("GET", pattern_BBSimService_ONUStatus_0, handle_BBSimService_ONUStatus_0);
   ("GET", pattern_BBSimService_ONUStatus_1, handle_BBSimService_ONUStatus_1);
   ("GET", pattern_BBSimService_ONUStatus_2, handle_BBSimService_ONUStatus_2);
   ("GET", pattern_BBSimService_ONUStatus_3, handle_BBSimService_ONUStatus_3);
   ("POST", pattern_BBSimService_ONUActivate_0, handle_BBSimService_ONUActivate_0);
   ("POST", pattern_BBSimService_ONUActivate_1, handle_BBSimService_ONUActivate_1);
   ("POST", pattern_BBSimService_ONUActivate_2, handle_BBSimService_ONUActivate_2);
   ("DELETE", pattern_BBSimService_ONUDeactivate_0, handle_BBSimService_ONUDeactivate_0);
   ("DELETE", pattern_BBSimService_ONUDeactivate_1, handle_BBSimService_ONUDeactivate_1);
   ("DELETE", pattern_BBSimService_ONUDeactivate_2, handle_BBSimService_ONUDeactivate_2);
   ("DELETE", pattern_BBSimService_ONUDeactivate_3, handle_BBSimService_ONUDeactivate_3);
   ("POST", pattern_BBSimService_GenerateONUAlarm_0, handle_BBSimService_GenerateONUAlarm_0);
   ("POST", pattern_BBSimService_GenerateOLTAlarm_0, handle_BBSimService_GenerateOLTAlarm_0);
   ("PATCH", pattern_BBSimService_PerformDeviceAction_0, handle_BBSimService_PerformDeviceAction_0);
   ("PATCH", pattern_BBSimService_PerformDeviceAction_1, handle_BBSimService_PerformDeviceAction_1);
   ("GET", pattern_BBSimService_GetFlows_0, handle_BBSimService_GetFlows_0);
   ("GET", pattern_BBSimService_GetFlows_1, handle_BBSimService_GetFlows_1)].

(** Source: api/legacy/bbsim.pb.gw.go:1383-1406, [RegisterBBSimServiceHandlerServer]. *)
Definition local_handle_BBSimService_OLTStatus_0 : LegacyHandler := handled local_request_BBSimService_OLTStatus_0.
(** Source: api/legacy/bbsim.pb.gw.go:1408-1431, [RegisterBBSimServiceHandlerServer]. *)
Definition local_handle_BBSimService_OLTStatus_1 : LegacyHandler := handled local_request_BBSimService_OLTStatus_1.
(** Source: api/legacy/bbsim.pb.gw.go:1433-1456, [RegisterBBSimServiceHandlerServer]. *)
Definition local_handle_BBSimService_PortStatus_0 : LegacyHandler := handled local_request_BBSimService_PortStatus_0.
(** Source: api/legacy/bbsim.pb.gw.go:1458-1481, [RegisterBBSimServiceHandlerServer]. *)
Definition local_handle_BBSimService_ONUStatus_0 : LegacyHandler := handled local_request_BBSimService_ONUStatus_0.
(** Source: api/legacy/bbsim.pb.gw.go:1483-1506, [RegisterBBSimServiceHandlerServer]. *)
Definition local_handle_BBSimService_ONUStatus_1 : LegacyHandler := handled local_request_BBSimService_ONUStatus_1.
(** Source: api/legacy/bbsim.pb.gw.go:1508-1531, [RegisterBBSimServiceHandlerServer]. *)
Definition local_handle_BBSimService_ONUStatus_2 : LegacyHandler := handled local_request_BBSimService_ONUStatus_2.
(** Source: api/legacy/bbsim.pb.gw.go:1533-1556, [RegisterBBSimServiceHandlerServer]. *)
Definition local_handle_BBSimService_ONUStatus_3 : LegacyHandler := handled local_request_BBSimService_ONUStatus_3.
(** Source: api/legacy/bbsim.pb.gw.go:1558-1581, [RegisterBBSimServiceHandlerServer]. *)
Definition local_handle_BBSimService_ONUActivate_0 : LegacyHandler := handled local_request_BBSimService_ONUActivate_0.
(** Source: api/legacy/bbsim.pb.gw.go:1583-1606, [RegisterBBSimServiceHandlerServer]. *)
Definition local_handle_BBSimService_ONUActivate_1 : LegacyHandler := handled local_request_BBSimService_ONUActivate_1.
(** Source: api/legacy/bbsim.pb.gw.go:1608-1631, [RegisterBBSimServiceHandlerServer]. *)
Definition local_handle_BBSimService_ONUActivate_2 : LegacyHandler := handled local_request_BBSimService_ONUActivate_2.
(** Source: api/legacy/bbsim.pb.gw.go:1633-1656, [RegisterBBSimServiceHandlerServer]. *)
Definition local_handle_BBSimService_ONUDeactivate_0 : LegacyHandler := handled local_request_BBSimService_ONUDeactivate_0.
(** Source: api/legacy/bbsim.pb.gw.go:1658-1681, [RegisterBBSimServiceHandlerServer]. *)
Definition local_handle_BBSimService_ONUDeactivate_1 : LegacyHandler := handled local_request_BBSimService_ONUDeactivate_1.
(** Source: api/legacy/bbsim.pb.gw.go:1683-1706, [RegisterBBSimServiceHandlerServer]. *)
Definition local_handle_BBSimService_ONUDeactivate_2 : LegacyHandler := handled local_request_BBSimService_ONUDeactivate_2.
(** Source: api/legacy/bbsim.pb.gw.go:1708-1731, [RegisterBBSimServiceHandlerServer]. *)
Definition local_handle_BBSimService_ONUDeactivate_3 : LegacyHandler := handled local_request_BBSimService_ONUDeactivate_3.
(** Source: api/legacy/bbsim.pb.gw.go:1733-1756, [RegisterBBSimServiceHandlerServer]. *)
Definition local_handle_BBSimService_GenerateONUAlarm_0 : LegacyHandler := handled local_request_BBSimService_GenerateONUAlarm_0.
(** Source: api/legacy/bbsim.pb.gw.go:1758-1781, [RegisterBBSimServiceHandlerServer]. *)
Definition local_handle_BBSimService_GenerateOLTAlarm_0 : LegacyHandler := handled local_request_BBSimService_GenerateOLTAlarm_0.
(** Source: api/legacy/bbsim.pb.gw.go:1783-1806, [RegisterBBSimServiceHandlerServer]. *)
Definition local_handle_BBSimService_PerformDeviceAction_0 : LegacyHandler := handled local_request_BBSimService_PerformDeviceAction_0.
(** Source: api/legacy/bbsim.pb.gw.go:1808-1831, [RegisterBBSimServiceHandlerServer]. *)
Definition local_handle_BBSimService_PerformDeviceAction_1 : LegacyHandler := handled local_request_BBSimService_PerformDeviceAction_1.
(** Source: api/legacy/bbsim.pb.gw.go:1833-1856, [RegisterBBSimServiceHandlerServer]. *)
Definition local_handle_BBSimService_GetFlows_0 : LegacyHandler := handled local_request_BBSimService_GetFlows_0.
(** Source: api/legacy/bbsim.pb.gw.go:1858-1881, [RegisterBBSimServiceHandlerServer]. *)
Definition local_handle_BBSimService_GetFlows_1 : LegacyHandler := handled local_request_BBSimService_GetFlows_1.

Definition local_BBSimService_handlers : list (string * Pattern * LegacyHandler) :=
  [("GET", pattern_BBSimService_OLTStatus_0, local_handle_BBSimService_OLTStatus_0);
   ("GET", pattern_BBSimService_OLTStatus_1, local_handle_BBSimService_OLTStatus_1);
   ("GET", pattern_BBSimService_PortStatus_0, local_handle_BBSimService_PortStatus_0);
   ("GET", pattern_BBSimService_ONUStatus_0, local_handle_BBSimService_ONUStatus_0);
   ("GET", pattern_BBSimService_ONUStatus_1, local_handle_BBSimService_ONUStatus_1);
   ("GET", pattern_BBSimService_ONUStatus_2, local_handle_BBSimService_ONUStatus_2);
   ("GET", pattern_BBSimService_ONUStatus_3, local_handle_BBSimService_ONUStatus_3);
   ("POST", pattern_BBSimService_ONUActivate_0, local_handle_BBSimService_ONUActivate_0);
   ("POST", pattern_BBSimService_ONUActivate_1, local_handle_BBSimService_ONUActivate_1);
   ("POST", pattern_BBSimService_ONUActivate_2, local_handle_BBSimService_ONUActivate_2);
   ("DELETE", pattern_BBSimService_ONUDeactivate_0, local_handle_BBSimService_ONUDeactivate_0);
   ("DELETE", pattern_BBSimService_ONUDeactivate_1, local_handle_BBSimService_ONUDeactivate_1);
   ("DELETE", pattern_BBSimService_ONUDeactivate_2, local_handle_BBSimService_ONUDeactivate_2);
   ("DELETE", pattern_BBSimService_ONUDeactivate_3, local_handle_BBSimService_ONUDeactivate_3);
   ("POST", pattern_BBSimService_GenerateONUAlarm_0, local_handle_BBSimService_GenerateONUAlarm_0);
   ("POST", pattern_BBSimService_GenerateOLTAlarm_0, local_handle_BBSimService_GenerateOLTAlarm_0);
   ("PATCH", pattern_BBSimService_PerformDeviceAction_0, local_handle_BBSimService_PerformDeviceAction_0);
   ("PATCH", pattern_BBSimService_PerformDeviceAction_1, local_handle_BBSimService_PerformDeviceAction_1);
   ("GET", pattern_BBSimService_GetFlows_0, local_handle_BBSimService_GetFlows_0);
   ("GET", pattern_BBSimService_GetFlows_1, local_handle_BBSimService_GetFlows_1)].

(** Source: api/legacy/bbsim.pb.gw.go, [RegisterBBSimServiceHandlerServer]. *)
Definition RegisterBBSimServiceHandlerServer (mux : ServeMux OltDevice LegacyAnswer) : ServeMux OltDevice LegacyAnswer :=
  fold_left (fun mux x => Handle x.1.1 x.1.2 x.2 mux) local_BBSimService_handlers mux.

(** Source: api/legacy/bbsim.pb.gw.go, [RegisterBBSimServiceHandlerClient]
    (and [RegisterBBSimServiceHandler], which calls it). *)
Definition RegisterBBSimServiceHandlerClient (mux : ServeMux OltDevice LegacyAnswer) : ServeMux OltDevice LegacyAnswer :=
  fold_left (fun mux x => Handle x.1.1 x.1.2 x.2 mux) BBSimService_handlers mux.

(** Source: api/legacy/bbsim.pb.gw.go, [RegisterBBSimServiceHandlerFromEndpoint]. *)
Definition RegisterBBSimServiceHandlerFromEndpoint (dial : option error) (mux : ServeMux OltDevice LegacyAnswer)
    : error + ServeMux OltDevice LegacyAnswer :=
  match dial with Some e => inl e | None => inr (RegisterBBSimServiceHandlerClient mux) end.
End Gateway.

(** * Properties *)

(** The annotations of the service in [api/legacy/bbsim.proto]. *)
Section Description.
  Context `{HttpLib} (decode : string -> option (error + list ONUInfoRequest) * string) (connected : OltDevice -> bool).

Definition legacy_route (meth : string) (t : list seg) (h : LegacyHandler) : Route OltDevice LegacyAnswer :=
  {| rt_method := meth; rt_template := Lit "v0" :: t; rt_func := h |}.
Definition pon_onus (t : list seg) : list seg := Lit "olt" :: Lit "ports" :: Var "onu.pon_port_id" :: Lit "onus" :: t.
Definition legacy_api : list (Route OltDevice LegacyAnswer) :=
  [legacy_route "GET" [Lit "olt"] (handle_BBSimService_OLTStatus_0 connected);
   legacy_route "GET" [Lit "olt"; Lit "status"] (handle_BBSimService_OLTStatus_1 connected);
   legacy_route "GET" [Lit "olt"; Lit "ports"; Var "port_type"; Var "port_id"; Lit "status"]
     (handle_BBSimService_PortStatus_0 connected);
   legacy_route "GET" [Lit "olt"; Lit "onus"] (handle_BBSimService_ONUStatus_0 connected);
   legacy_route "GET" [Lit "olt"; Lit "onus"; Var "onu.onu_serial"] (handle_BBSimService_ONUStatus_1 connected);
   legacy_route "GET" (pon_onus [Var "onu.onu_id"]) (handle_BBSimService_ONUStatus_2 connected);
   legacy_route "GET" (pon_onus []) (handle_BBSimService_ONUStatus_3 connected);
   legacy_route "POST" [Lit "olt"; Lit "onus"] (handle_BBSimService_ONUActivate_0 decode connected);
   legacy_route "POST" (pon_onus []) (handle_BBSimService_ONUActivate_1 connected);
   legacy_route "POST" (pon_onus [Var "onu.onu_serial"]) (handle_BBSimService_ONUActivate_2 connected);
   legacy_route "DELETE" [Lit "olt"; Lit "onus"] (handle_BBSimService_ONUDeactivate_0 decode connected);
   legacy_route "DELETE" [Lit "olt"; Lit "onus"; Var "onu.onu_serial"] (handle_BBSimService_ONUDeactivate_1 connected);
   legacy_route "DELETE" (pon_onus []) (handle_BBSimService_ONUDeactivate_2 connected);
   legacy_route "DELETE" (pon_onus [Var "onu.onu_id"]) (handle_BBSimService_ONUDeactivate_3 connected);
   legacy_route "POST" [Lit "olt"; Lit "onus"; Var "onu_serial"; Lit "alarms"; Var "alarm_type"; Var "status"]
     (handle_BBSimService_GenerateONUAlarm_0 connected);
   legacy_route "POST" [Lit "olt"; Lit "ports"; Var "port_type"; Var "port_id"; Lit "alarms"; Lit "los"; Var "status"]
     (handle_BBSimService_GenerateOLTAlarm_0 connected);
   legacy_route "PATCH" [Var "device_type"; Lit "action"; Var "action"] (handle_BBSimService_PerformDeviceAction_0 connected);
   legacy_route "PATCH" [Lit "olt"; Var "device_type"; Var "serial_number"; Lit "action"; Var "action"]
     (handle_BBSimService_PerformDeviceAction_1 connected);
   legacy_route "GET" [Lit "olt"; Lit "flows"] (handle_BBSimService_GetFlows_0 connected);
   legacy_route "GET" [Lit "olt"; Lit "onu"; Var "onu_serial"; Lit "flows"] (handle_BBSimService_GetFlows_1 connected)].

(** The patterns are those of the annotations. *)
Lemma legacy_api_implements : Forall2 implements (BBSimService_handlers decode connected) legacy_api.
Proof. repeat (apply List.Forall2_cons; [by split_and!|]). apply List.Forall2_nil. Qed.

(** The pairs of templates of a method that match a common path. *)
Fixpoint overlapping (table : list (Route OltDevice LegacyAnswer)) : list (string * list seg * list seg) :=
  match table with
  | [] => []
  | rt :: rest =>
      (omap (fun x => if bool_decide (rt_method x = rt_method rt) && overlap (rt_template rt) (rt_template x)
        then Some (rt_method rt, rt_template rt, rt_template x) else None) rest ++ overlapping rest)%list
  end.

(** Only the status of a port and that of an ONU share a path: a port with the number
    "onus" is an ONU with the number "status". *)
Lemma legacy_api_overlap :
  overlapping legacy_api =
    [("GET", Lit "v0" :: [Lit "olt"; Lit "ports"; Var "port_type"; Var "port_id"; Lit "status"],
      Lit "v0" :: pon_onus [Var "onu.onu_id"])].
Proof. vm_compute. reflexivity. Qed.

Definition legacy_mux : ServeMux OltDevice LegacyAnswer := RegisterBBSimServiceHandlerClient decode connected NewServeMux.

Lemma legacy_mux_register : legacy_mux = register (BBSimService_handlers decode connected).
Proof. unfold legacy_mux, RegisterBBSimServiceHandlerClient, register. reflexivity. Qed.

(** No request of the legacy API changes the device, not even one that is accepted. *)
Lemma legacy_client_keeps (P : OltDevice -> Prop) f : preserves P (legacy_client connected f).
Proof. intros s a s' Hs. unfold legacy_client. by intros [= <- <-]. Qed.
Lemma legacy_handlers_keep (P : OltDevice -> Prop) :
  Forall (fun x => forall r ps, preserves P (x.2 r ps)) (BBSimService_handlers decode connected).
Proof.
  repeat apply List.Forall_cons; [..|apply List.Forall_nil]; intros r ps; cbn [snd]; apply preserves_handled;
    unfold request_BBSimService_OLTStatus_0, request_BBSimService_OLTStatus_1, request_BBSimService_PortStatus_0,
      request_BBSimService_ONUStatus_0, request_BBSimService_ONUStatus_1, request_BBSimService_ONUStatus_2,
      request_BBSimService_ONUStatus_3, request_BBSimService_ONUActivate_0, request_BBSimService_ONUActivate_1,
      request_BBSimService_ONUActivate_2, request_BBSimService_ONUDeactivate_0, request_BBSimService_ONUDeactivate_1,
      request_BBSimService_ONUDeactivate_2, request_BBSimService_ONUDeactivate_3, request_BBSimService_GenerateONUAlarm_0,
      request_BBSimService_GenerateOLTAlarm_0, request_BBSimService_PerformDeviceAction_0,
      request_BBSimService_PerformDeviceAction_1, request_BBSimService_GetFlows_0, request_BBSimService_GetFlows_1;
    cbv zeta; repeat (apply preserves_checked; intros ?); apply legacy_client_keeps.
Qed.
Lemma legacy_keeps_device order r s reply s' : ServeHTTP order legacy_mux r s = Done (reply, s') -> s' = s.
Proof.
  rewrite legacy_mux_register. intros Hr.
  exact (preserves_register (fun x => x = s) order _ r (legacy_handlers_keep _) s reply s' eq_refl Hr).
Qed.
End Description.

(** Registered over the handlers themselves the gateway is the same. *)
Lemma local_legacy_gateway_same `{HttpLib} decode (mux : ServeMux OltDevice LegacyAnswer) :
  RegisterBBSimServiceHandlerServer decode mux = RegisterBBSimServiceHandlerClient decode (fun _ => true) mux.
Proof.
  unfold RegisterBBSimServiceHandlerServer, RegisterBBSimServiceHandlerClient.
  by replace (local_BBSimService_handlers decode) with (BBSimService_handlers decode (fun _ => true)) by reflexivity.
Qed.

(** ** Findings *)

#[local] Instance no_http : HttpLib := {| ParseQuery := fun _ => ([], None); ParseMediaType := fun ct => (ct, None) |}.
Definition form_to (meth path : string) : Request := {|
  Method := meth; Path := path; MethodOverride := ""; ContentType := urlencoded; RawQuery := ""; Body := ""; Form := None;
  Annotation := None |}.
Definition the_legacy_mux : ServeMux OltDevice LegacyAnswer := legacy_mux (fun b => (None, b)) (fun _ => true).

(** A form that is posted to the path of an ONU: the path can be got and deleted but
    not posted, so the answer depends on the order in which the map of the methods is
    visited: a refusal or the status of the ONU. *)
Lemma legacy_fallback_depends_on_order :
  exists o o' st msg l, o ≡ₚ o' /\
    ServeHTTP o the_legacy_mux (form_to "POST" "/v0/olt/onus/BBSM00000001") example_olt = Done (HttpError st msg, example_olt) /\
    ServeHTTP o' the_legacy_mux (form_to "POST" "/v0/olt/onus/BBSM00000001") example_olt =
      Done (Forwarded (LOnus l), example_olt).
Proof.
  exists ["DELETE"; "GET"; "PATCH"; "POST"], ["GET"; "DELETE"; "PATCH"; "POST"]. do 3 eexists.
  split_and!; [apply Permutation_swap|vm_compute; reflexivity|vm_compute; reflexivity].
Qed.

(** The ONUs of a PON port are asked for, those of the whole OLT are answered. *)
Lemma pon_onus_answers_all pon n s :
  ParseUint32 pon = Some n ->
  request_BBSimService_ONUStatus_3 (fun _ => true) (form_to "GET" "") {["onu.pon_port_id" := pon]} s =
    Done (inr (LOnus ((fun x => copyONUInfo x.2) <$> all_onus s)), s).
Proof.
  intros Hp. unfold request_BBSimService_ONUStatus_3.
  assert (field_param LegacyONURequest_fields empty_request {["onu.pon_port_id" := pon]} "onu.pon_port_id" =
    Done (inr (empty_request <| lr_onu := Some (empty_onu <| ir_pon_port_id := n |>) |>))) as Hf.
  { unfold field_param, param. change (({["onu.pon_port_id" := pon]} : Params) !! "onu.pon_port_id") with (Some pon).
    cbv beta iota. unfold PopulateFieldFromPath.
    change (split_on (chr 46) "onu.pon_port_id") with ["onu"; "pon_port_id"].
    lazy -[ParseUint32]. rewrite Hp. reflexivity. }
  cbv zeta. rewrite checked_param, Hf. reflexivity.
Qed.
